(* ===== verification/_CoqProject ===== *)
-Q . S2P
Prelude.v
Memmap.v
CString.v
Sync.v
Chain.v
KState.v
LinkedList.v
Signals.v
Vfs.v
Io.v
Descriptors.v
Env.v
Tasks.v
Process.v
Bget.v
Heap.v
HeapTrace.v
Mmu.v
Frames.v
Faults.v
Kalloc.v
UserPages.v
Clone.v
Release.v
MmuExample.v
Initrd.v
InitrdTree.v
InitrdBuild.v
InitrdImage.v
InitrdMount.v
Console.v
Printk.v
Kbd.v
Keeps.v
Pipes.v
DescClone.v
Fork.v
Forked.v
Resume.v
Forking.v
ForkExample.v
Clock.v
Syscall.v
System.v
Symbols.v
KStack.v
Devices.v
Procfs.v
Exec.v
Load.v
ExecExample.v
Cpu.v
Shell.v
