(* ===== verification/Prelude.v ===== *)
(** * Verification of the Hydrax kernel

    Hydrax is a small Unix-like kernel for 32-bit x86, with its own heap, file
    system layer, process management and memory management, a tool that packs
    the initial ram disk, and a library for user programs.  This library
    translates the program to executable Rocq functions and proves that its
    parts do what they promise.

    ** The program

    The physical memory and the virtual pages of each address space are
    allocated from bitmaps (memmap.c); mmu.c builds page tables on them,
    allocates kernel pages ([kalloc]) and copies address spaces on write.  The
    kernel heap (kheap.c) is the allocator bget on top of [kalloc], and every
    other structure of the kernel lives in it.  The virtual file system (vfs.c)
    is a tree of nodes whose operations are callbacks of devices, pipes (io.c),
    the ram disk (initrd.c), /dev and /proc; io.c gives tasks descriptors for
    its nodes.  scheduler.c keeps the tasks on lists (linkedlist.h), switches
    between them round robin, and ends them; fork.c creates them and joins all
    of the above, and [execve] replaces the program of one; signal.c delivers
    signals; env.c has the environment.  Locks
    are words changed atomically (mutex.c, semaphore.c).  The screen (video.c,
    console.c, printk.c) and the keyboard (kbd.c) are behind nodes of the file
    system.

    ** How it is modelled

    Code that changes state is a function in the monad [M] of this file: it
    gets the state and either returns a value and a new state ([Ret]), stops
    the machine ([Panics]: a failed assertion or [panic]), waits for a lock
    that nobody releases in a sequential run ([Blocks]), uses memory it must
    not ([Faults]), or exceeds its bound ([NoFuel]).  Integers are [Z] in the
    range of their C type, with the wrap-around written out ([u8], [u32],
    [s32]).  Structures are records; a pointer is an address, and each type of
    object has a finite map from the addresses of its live objects.  What the
    code calls and is not in the repository, and what a driver decides, are
    parameters: which address [malloc] returns ([Allocator]), the callbacks of
    devices ([Drivers]), the switch to another task and the call of a user's
    signal handler ([Control]), what memory holds before it is written
    ([Uninit]), what the file system of the host has.

    ** Files

    - Prelude: integers, the monad and its rules of running, automation.
    - Memmap (memmap.c): bitmaps of pages; the searches find the lowest page
      and the first run, and return 0 exactly if there is none.
    - CString (string.c): [strlen], [strcpy], [memcpy], ..., [itoa], [itox].
    - Sync (mutex.c, semaphore.c): each routine as a list of atomic steps, run
      by any number of threads in any order; the semaphore is never taken more
      often than it has units, its count is exact, and the routines that do not
      wait finish.
    - Chain, KState, LinkedList (linkedlist.h, and the structures of vfs.h,
      io.h, scheduler.h, signal.h): the kernel's objects and the lists.
    - Signals (signal.c): queueing, masks, handlers, the order of delivery.
    - Vfs (vfs.c): paths, the tree, opening, mounting, references; [vfs_open]
      is the walk through the tree, and [vfs_get_full_path] its inverse.
    - Io, Descriptors, Pipes, DescClone (io.c): the descriptor table as a list
      of entries; the copy of a table; a pipe that [pipe] made is a queue until
      its buffer has been filled once, and the next byte goes past its end.
    - Env (env.c): the environment as a list of pairs.
    - Tasks, Process (scheduler.c): the switch is round robin and fair;
      identities; exit, wait and the lists of children and threads.
    - Keeps: which parts of the state a call leaves alone.
    - Bget, Heap, HeapTrace (bget/bget.c, kheap.c, libs/bget/bget.c,
      libs/malloc.c): the allocator, its invariant, and its contract for any
      sequence of calls.
    - Mmu, Frames, Faults, Kalloc, UserPages, Clone, Release, MmuExample
      (mmu.c): frames and their reference counts, page tables, the page fault
      handler; a store to a shared page is seen by the one who stores only;
      [kalloc] and [kfree] are inverse; pages of a program that stand for a
      file; copies show what the original shows.
    - Initrd, InitrdTree, InitrdBuild, InitrdImage, InitrdMount (initrd.c,
      tools/src/mkinitrd/mkinitrd.c): a file that was packed is found under its
      path after the mount and has its content, byte for byte.
    - Console, Printk, Kbd (arch/x86/video.c, console.c, printk.c,
      arch/x86/kbd.c, tty.c): the screen is a window on the text, messages are
      what their format says, the keyboard is a queue whose characters go over
      low memory, as its pointers are never set.
    - Fork, Forked, Resume, Forking, ForkExample (fork.c): a new process, across
      all of the components above, and what the child and the parent return
      when the scheduler switches to them.
    - Devices (devfs.c, null.c, zero.c, tty.c, rtc_init): /dev and its devices;
      what is read from and written to them through a path.
    - Procfs (procfs.c): the files of the tasks under /proc.
    - Clock (arch/x86/rtc.c, cmos.c, timer.c, arch/x86/timer.c): a date
      that the clock chip showed while it was read, also if it changes in
      between; ticks, and sleeping.
    - Syscall (syscall.c, syscall.h, libs/syscalls.c): a call of a program
      reaches the kernel function of its name with its arguments.
    - System (system.c, libs/string.c): the names of the system, and the
      strings of user programs.
    - Symbols (tools/src/symclean, symbols.c): the table of symbols from the
      lines of the linker's map, symbols or not, to the search for an address.
    - KStack (arch/x86/scheduler.c): the copy of a kernel stack.
    - Exec, Load, ExecExample (mman.c, elfldr.c, [execve] of scheduler.c): the
      start of a program, from its file over its segments in memory to its
      arguments.
    - Cpu (arch/x86/cpu.c, isr.c, arch/x86/isr.s): descriptor tables, and the
      way of an interrupt to its handler.
    - Shell (utils/main.c, utils/args.c): a line that is typed becomes words.

    Each file says at its top how its definitions correspond to the code.

    ** What the theorems show

    - Invariants and safety: [heap_safe], [brel_coalesces], [semaphore_safe],
      [destroy_table_releases], [identities_confined], and the invariants they
      rest on ([pool] of Heap, [frames_ok] of Frames, [scheduling] of Tasks).
    - Refinement of a simple specification: round robin for the scheduler, a
      queue for signals, the keyboard and (up to the end of its buffer) a pipe, a
      document for the screen, a
      private copy for copy on write, a list of names for a directory.
    - Function on every branch, errors included: opening, closing, duplicating
      descriptors, signals, the environment, the searches, the creation of a
      process, messages.
    - Round trips: ram disk, [kalloc] and [kfree], path of a node and back,
      open and close, numbers and their digits, the table of symbols.
    - Termination and liveness: the handler of signals, the semaphore, a task
      that can run gets its turn, a heap whose buffers were all released serves
      what it served before.
    - Where the code does not do what it means to, the behaviour that it has is
      what is proved ([unsetenv_diverges], [procfs_open_stops], [sethostname_never],
      the byte past a pipe's buffer, the keyboard's characters in low memory, ...).

    ** Bounds

    Loops over linked objects get as fuel one more than the number of objects
    of their type ([chain_fuel], [file_fuel], [item_fuel], and twice as many
    for [pick_fuel], whose loop goes around the list at most twice); a list
    without a cycle is shorter.  [signal_handler] gets 129 rounds, as at most
    128 signals are queued.  Scans of the heap get the number of headers plus
    one; [kalloc] calls itself at most once to make a page table (fuel 2); the
    loops over pages count them; paths of mkinitrd are cut in as many steps as
    they have characters; [kvprintf] uses one unit per character and argument.
    The theorems show that the results are [Ret], so that the fuel is enough,
    and that no [NoFuel] hides an endless loop where there is one.

    ** Not modelled

    Context switches in assembly (the registers that are saved and loaded, and
    the entry into user mode), the order of start-up (main.c), declarations
    without code (the remaining headers and most of elf.h), the statistics and
    debugging variants of bget that the configuration leaves out, formatted
    output of the user library (stdio.c), [cmos_read], whose assembly has its
    operands exchanged, dumps of the stack, the glue for a C library under
    tools/, and the commands of the shell and the test programs under utils/.
    Interrupts during a critical section are modelled where the locks are the
    subject (Sync); the keyboard's handler comes at any time between two turns of
    the loop that reads characters, each of which runs as a whole; elsewhere a
    call runs alone, and a wait for a taken lock is the outcome [Blocks]. *)

From stdpp Require Export base tactics numbers list gmap strings.

Open Scope Z_scope.

Create HintDb words.

(** ** Machine integers

    The kernel is compiled for a 32-bit x86: [int] and [long] have 32 bits,
    [char] has 8 and is signed.  A value of an unsigned type is the [Z] in
    its range, and the wrap-around of an operation is written out. *)

Definition u8 (z : Z) : Z := z mod 2 ^ 8.
Definition u16 (z : Z) : Z := z mod 2 ^ 16.
Definition u32 (z : Z) : Z := z mod 2 ^ 32.

(** The signed reading of a bit pattern (two's complement). *)
Definition s8 (z : Z) : Z := (z + 2 ^ 7) mod 2 ^ 8 - 2 ^ 7.
Definition s32 (z : Z) : Z := (z + 2 ^ 31) mod 2 ^ 32 - 2 ^ 31.

(** C's division and remainder of unsigned values are [Z.div] and [Z.modulo];
    C's [~x] on a 32-bit value. *)
Definition not32 (z : Z) : Z := Z.land (Z.lnot z) (Z.ones 32).

Arguments u8 : simpl never.
Arguments u16 : simpl never.
Arguments u32 : simpl never.
Arguments s8 : simpl never.
Arguments s32 : simpl never.
Arguments not32 : simpl never.

Lemma u32_range z : 0 <= u32 z < 2 ^ 32.
Proof. apply Z.mod_pos_bound. lia. Qed.

Lemma u8_range z : 0 <= u8 z < 2 ^ 8.
Proof. apply Z.mod_pos_bound. lia. Qed.

Lemma u32_small z : 0 <= z < 2 ^ 32 -> u32 z = z.
Proof. apply Z.mod_small. Qed.

Lemma u8_small z : 0 <= z < 2 ^ 8 -> u8 z = z.
Proof. apply Z.mod_small. Qed.

Lemma s32_range z : - 2 ^ 31 <= s32 z < 2 ^ 31.
Proof. unfold s32. pose proof (Z.mod_pos_bound (z + 2 ^ 31) (2 ^ 32)). lia. Qed.

Lemma s32_small z : - 2 ^ 31 <= z < 2 ^ 31 -> s32 z = z.
Proof. intros. unfold s32. rewrite Z.mod_small; lia. Qed.

(** ** Outcomes of kernel code

    What a call can do: return a value in a new state, stop in [panic] (a
    failed [assert] too), wait for a lock, semaphore or signal that the
    running task cannot provide itself, or touch memory outside of any live
    object.  [NoFuel] is the outcome of a loop whose bound in the model was
    too small; theorems about loops show that it does not occur, or that it
    occurs at every bound. *)

Inductive outcome (S A : Type) : Type :=
| Ret (a : A) (s : S)
| Panics (msg : string) (s : S)
| Blocks (s : S)
| Faults (s : S)
| NoFuel (s : S).
Arguments Ret {S A} a s.
Arguments Panics {S A} msg s.
Arguments Blocks {S A} s.
Arguments Faults {S A} s.
Arguments NoFuel {S A} s.

Definition M (S A : Type) : Type := S -> outcome S A.

Definition ret {S A} (a : A) : M S A := fun s => Ret a s.

Definition bind {S A B} (m : M S A) (k : A -> M S B) : M S B :=
  fun s =>
    match m s with
    | Ret a s' => k a s'
    | Panics msg s' => Panics msg s'
    | Blocks s' => Blocks s'
    | Faults s' => Faults s'
    | NoFuel s' => NoFuel s'
    end.

Definition get {S} : M S S := fun s => Ret s s.
Definition gets {S A} (f : S -> A) : M S A := fun s => Ret (f s) s.
Definition modify {S} (f : S -> S) : M S unit := fun s => Ret tt (f s).
Definition panic {S A} (msg : string) : M S A := fun s => Panics msg s.
Definition block {S A} : M S A := fun s => Blocks s.
Definition fault {S A} : M S A := fun s => Faults s.
Definition nofuel {S A} : M S A := fun s => NoFuel s.

(** [assert(e)] of include/arch/x86/assert.h panics when [e] is false. *)
Definition assert {S} (b : bool) (msg : string) : M S unit :=
  if b then ret tt else panic msg.

(** Dereference of a pointer that may not point to a live object. *)
Definition deref {S A} (o : option A) : M S A :=
  match o with Some a => ret a | None => fault end.

Declare Scope kernel_scope.
Delimit Scope kernel_scope with K.
Notation "x <- m ;; k" := (bind m (fun x => k))
  (at level 100, m at next level, right associativity) : kernel_scope.
Notation "' x <- m ;; k" := (bind m (fun x => k))
  (at level 100, x pattern, m at next level, right associativity, only parsing) : kernel_scope.
Notation "m ;;; k" := (bind m (fun _ => k))
  (at level 100, right associativity) : kernel_scope.
Open Scope kernel_scope.

Lemma bind_ret_l {S A B} (a : A) (k : A -> M S B) s : bind (ret a) k s = k a s.
Proof. reflexivity. Qed.

Lemma bind_assoc {S A B C} (m : M S A) (k : A -> M S B) (h : B -> M S C) s :
  bind (bind m k) h s = bind m (fun a => bind (k a) h) s.
Proof. unfold bind. by destruct (m s). Qed.

(** A call returned: what its first part returned and what the rest did. *)
Lemma bind_Ret_inv {S A B} (m : M S A) (k : A -> M S B) s b s' :
  bind m k s = Ret b s' -> exists a s1, m s = Ret a s1 /\ k a s1 = Ret b s'.
Proof. unfold bind. destruct (m s); naive_solver. Qed.

Lemma bind_Ret {S A B} (m : M S A) (k : A -> M S B) s a s1 :
  m s = Ret a s1 -> bind m k s = k a s1.
Proof. unfold bind. by intros ->. Qed.

Lemma bind_get {S B} (k : S -> M S B) s : bind get k s = k s s.
Proof. reflexivity. Qed.

Lemma bind_modify {S B} f (k : unit -> M S B) s : bind (modify f) k s = k tt (f s).
Proof. reflexivity. Qed.

(** A computation on a part of the state. *)
Definition zoom {S T A} (proj : S -> T) (upd : T -> S -> S) (m : M T A) : M S A :=
  fun s =>
    match m (proj s) with
    | Ret a t => Ret a (upd t s)
    | Panics msg t => Panics msg (upd t s)
    | Blocks t => Blocks (upd t s)
    | Faults t => Faults (upd t s)
    | NoFuel t => NoFuel (upd t s)
    end.

Lemma zoom_Ret {S T A} (proj : S -> T) upd (m : M T A) s a t :
  m (proj s) = Ret a t -> zoom proj upd m s = Ret a (upd t s).
Proof. unfold zoom. by intros ->. Qed.

(** ** Record update

    [r <| f := v |>] is the record [r] with field [f] replaced.  A record type
    declares the eta expansion of its constructor as an instance of [Eta]; the
    setter of a field is then the eta expansion with that projection replaced. *)

Class Eta (R : Type) := eta : R -> R.
Class Setter {R T : Type} (proj : R -> T) := setf : (T -> T) -> R -> R.
Arguments setf {R T} proj {Setter} f r /.

Ltac solve_setter :=
  match goal with
  | |- @Setter ?R ?T ?proj =>
      let e := constr:(_ : Eta R) in
      let e := eval hnf in e in
      let p := eval pattern proj in e in
      match p with
      | ?g _ => exact (fun (f : T -> T) => g (fun r => f (proj r)))
      end
  end.

#[export] Hint Extern 1 (Setter _) => solve_setter : typeclass_instances.

Notation "r <| f := v |>" := (setf f (fun _ => v) r)
  (at level 1, f at next level, left associativity) : kernel_scope.

(** ** Bits of machine words *)

Lemma testbit_pow2 (j k : Z) : 0 <= j -> 0 <= k ->
  Z.testbit (Z.shiftl 1 j) k = (j =? k).
Proof. intros. rewrite Z.shiftl_1_l, Z.pow2_bits_eqb by lia. done. Qed.

(** C's test [w & (1 << j)]. *)
Lemma land_bit_eqb0 (w j : Z) : 0 <= j ->
  (Z.land w (Z.shiftl 1 j) =? 0) = negb (Z.testbit w j).
Proof.
  intros Hj. destruct (Z.testbit w j) eqn:E; simpl.
  - apply Z.eqb_neq. intros H0.
    assert (Z.testbit (Z.land w (Z.shiftl 1 j)) j = true) as HH.
    { rewrite Z.land_spec, E, testbit_pow2 by lia. simpl. lia. }
    by rewrite H0, Z.bits_0 in HH.
  - apply Z.eqb_eq. apply Z.bits_inj'. intros k Hk.
    rewrite Z.land_spec, testbit_pow2, Z.bits_0 by lia.
    destruct (Z.eqb_spec j k); subst; [by rewrite E | by rewrite andb_false_r].
Qed.

(** C's [w | (1 << j)]. *)
Lemma testbit_lor_bit (w j k : Z) : 0 <= j -> 0 <= k ->
  Z.testbit (Z.lor w (Z.shiftl 1 j)) k = (j =? k) || Z.testbit w k.
Proof. intros. by rewrite Z.lor_spec, testbit_pow2, orb_comm by lia. Qed.

Lemma testbit_not32 (z k : Z) : 0 <= k < 32 -> Z.testbit (not32 z) k = negb (Z.testbit z k).
Proof.
  intros. unfold not32.
  rewrite Z.land_spec, Z.lnot_spec, Z.ones_spec_low by lia. by rewrite andb_true_r.
Qed.

(** C's [w & ~(1 << j)]. *)
Lemma testbit_clear_bit (w j k : Z) : 0 <= j -> 0 <= k < 32 ->
  Z.testbit (Z.land w (not32 (Z.shiftl 1 j))) k = negb (j =? k) && Z.testbit w k.
Proof.
  intros. rewrite Z.land_spec, testbit_not32, testbit_pow2 by lia. apply andb_comm.
Qed.

Lemma testbit_high (w k : Z) : 0 <= w < 2 ^ 32 -> 32 <= k -> Z.testbit w k = false.
Proof.
  intros Hw Hk. destruct (Z.eq_dec w 0) as [->|]; [apply Z.bits_0|].
  apply Z.bits_above_log2; [lia|].
  assert (Z.log2 w < 32) by (apply Z.log2_lt_pow2; lia). lia.
Qed.

(** A non-negative number with no bit from 32 up fits in 32 bits. *)
Lemma word_range (w : Z) :
  0 <= w -> (forall k, 32 <= k -> Z.testbit w k = false) -> 0 <= w < 2 ^ 32.
Proof.
  intros H0 H. split; [done|].
  destruct (Z.eq_dec w 0) as [->|Hne]; [lia|].
  apply Z.log2_lt_pow2; [lia|].
  destruct (Z.lt_ge_cases (Z.log2 w) 32) as [|Hge]; [done|].
  specialize (H _ Hge). rewrite Z.bit_log2 in H by lia. done.
Qed.

Lemma lor_word (a b : Z) : 0 <= a < 2 ^ 32 -> 0 <= b < 2 ^ 32 -> 0 <= Z.lor a b < 2 ^ 32.
Proof.
  intros Ha Hb. apply word_range; [apply Z.lor_nonneg; lia|].
  intros k Hk. by rewrite Z.lor_spec, !testbit_high.
Qed.

Lemma land_word (a b : Z) : 0 <= a < 2 ^ 32 -> 0 <= b -> 0 <= Z.land a b < 2 ^ 32.
Proof.
  intros Ha Hb. apply word_range; [apply Z.land_nonneg; lia|].
  intros k Hk. by rewrite Z.land_spec, testbit_high.
Qed.

Lemma not32_nonneg (z : Z) : 0 <= not32 z.
Proof. unfold not32. apply Z.land_nonneg. right. rewrite Z.ones_equiv. lia. Qed.

Lemma bit_word (j : Z) : 0 <= j < 32 -> 0 <= Z.shiftl 1 j < 2 ^ 32.
Proof.
  intros. rewrite Z.shiftl_1_l. split; [apply Z.pow_nonneg; lia|].
  apply Z.pow_lt_mono_r; lia.
Qed.

Lemma ones_bits (k : Z) : 0 <= k < 32 -> Z.testbit 0xFFFFFFFF k = true.
Proof. intros. change 0xFFFFFFFF with (Z.ones 32). by apply Z.ones_spec_low. Qed.

Lemma shiftr_mod_bit (w j : Z) : 0 <= j -> Z.odd (Z.shiftr w j) = Z.testbit w j.
Proof. intros. by rewrite <- Z.bit0_odd, Z.shiftr_spec, Z.add_0_l by lia. Qed.

#[export] Hint Resolve u32_range u8_range lor_word land_word not32_nonneg bit_word : words.

(** ** Sign conversions *)

Lemma u32_mod z : u32 (z mod 2 ^ 32) = u32 z.
Proof. unfold u32. by rewrite Z.mod_mod by lia. Qed.

Lemma u32_s32 z : u32 (s32 z) = u32 z.
Proof.
  unfold u32, s32. rewrite Zminus_mod, Z.mod_mod, <- Zminus_mod by lia. f_equal. lia.
Qed.

Lemma u32_eqm a b : u32 (u32 a - u32 b) = u32 (a - b).
Proof. unfold u32. by rewrite <- Zminus_mod. Qed.

(** ** Lists *)

Lemma find_ext_in {A} (f g : A -> bool) l : (forall x, x ∈ l -> f x = g x) -> List.find f l = List.find g l.
Proof.
  induction l as [|x l IH]; intros H; simpl; [done|]. rewrite (H x) by left. rewrite IH by (intros; apply H; by right). done.
Qed.

Lemma find_app {A} (f : A -> bool) l1 l2 :
  List.find f (l1 ++ l2) =
  match List.find f l1 with Some x => Some x | None => List.find f l2 end.
Proof. induction l1 as [|x l1 IH]; simpl; [done|]. by destruct (f x). Qed.
