(* ===== verification/Memmap.v ===== *)
(** * Memmap: the page bitmaps of kernel/memmap.c

    A [memmap_t] is an array of 32-bit words with one bit per page, set when
    the page is in use.  The physical frames, the kernel's virtual pages and
    each process's virtual pages are allocated from such maps.  The file holds
    the operations of memmap.c, the set of used pages they act on, and the
    specification of the two searches. *)

From S2P Require Import Prelude.

(** ** Data and operations *)

(** [memmap_t] of include/memmap.h; the mutex is the value of its word. *)
Record memmap := mkMemmap {
  pagemap : list Z;
  length_ : Z;
  lock : Z
}.

#[export] Instance eta_memmap : Eta memmap :=
  fun m => mkMemmap (pagemap m) (length_ m) (lock m).

(** [page_index] (CHAR_BIT * sizeof(uint32_t) = 32) and [OFFSET_FROM_BIT]. *)
Definition page_index (a : Z) : Z := a / 32.
Definition OFFSET_FROM_BIT (a : Z) : Z := a mod 32.

(** [map->pagemap[i]] read and written. *)
Definition word_at (m : memmap) (i : Z) : option Z := pagemap m !! Z.to_nat i.
Definition set_word (i w : Z) (m : memmap) : memmap :=
  m <| pagemap := <[Z.to_nat i := w]> (pagemap m) |>.

(** [memset]/[memcpy] over the first [n] words of the array [kalloc] returned. *)
Definition fill_words (src words : list Z) (n : nat) : option (list Z) :=
  if decide (n <= length words)%nat then Some (take n src ++ drop n words) else None.

(** [memmap_init]: [kalloc] is the array that the call of [kalloc] gave, [None]
    when it returned NULL.  The state is the [memmap_t] that is initialised. *)
Definition memmap_init (kalloc : option (list Z)) (pages : Z) : M memmap bool :=
  match kalloc with
  | None => ret false
  | Some words =>
      let n := Z.to_nat (page_index pages) in
      pm <- deref (fill_words (replicate n 0) words n);;
      modify (fun _ => mkMemmap pm pages 0);;;
      ret true
  end.

(** [memmap_clone]: the state is the destination. *)
Definition memmap_clone (kalloc : option (list Z)) (src : memmap) : M memmap bool :=
  match kalloc with
  | None => ret false
  | Some words =>
      let n := Z.to_nat (page_index (length_ src)) in
      pm <- deref (fill_words (pagemap src) words n);;
      modify (fun _ => mkMemmap pm (length_ src) 0);;;
      ret true
  end.

(** [memmap_destroy]: [kfree] takes the array, the map is empty afterwards. *)
Definition memmap_destroy : M memmap unit :=
  modify (fun m => m <| pagemap := [] |> <| length_ := 0 |>).

Definition memmap_set_page (page_addr : Z) : M memmap unit :=
  assert (Z.land page_addr 0xFFF =? 0) "(page_addr & 0xFFF) == 0";;;
  let p := page_addr / 0x1000 in
  m <- get;;
  w <- deref (word_at m (page_index p));;
  modify (set_word (page_index p) (Z.lor w (Z.shiftl 1 (OFFSET_FROM_BIT p)))).

Definition memmap_clear_page (page_addr : Z) : M memmap unit :=
  let frame := page_addr / 0x1000 in
  let index := page_index frame in
  let offset := OFFSET_FROM_BIT frame in
  m <- get;;
  w <- deref (word_at m index);;
  modify (set_word index (Z.land w (not32 (Z.shiftl 1 offset)))).

Definition memmap_test_page (page_addr : Z) : M memmap Z :=
  let frame := page_addr / 0x1000 in
  let index := page_index frame in
  let offset := OFFSET_FROM_BIT frame in
  m <- get;;
  w <- deref (word_at m index);;
  ret (if Z.land w (Z.shiftl 1 offset) =? 0 then 0 else 1).

(** Is bit [j] of word [w] clear: the test [!(w & (1 << j))]. *)
Definition bit_clear (w j : Z) : bool := Z.land w (Z.shiftl 1 j) =? 0.

(** The inner loop of [memmap_find_free_page]: [n] bits are left to look at. *)
Fixpoint find_bit (w j : Z) (n : nat) : option Z :=
  match n with
  | O => None
  | S n' => if bit_clear w j then Some j else find_bit w (j + 1) n'
  end.

(** Its outer loop over the words; NULL (0) when nothing is free. *)
Fixpoint find_free_page_loop (i : Z) (n : nat) : M memmap Z :=
  match n with
  | O => ret 0
  | S n' =>
      m <- get;;
      w <- deref (word_at m i);;
      if w =? 0xFFFFFFFF then find_free_page_loop (i + 1) n'
      else
        match find_bit w 0 32 with
        | Some j => ret (u32 (i * 4 * 8 + j))
        | None => find_free_page_loop (i + 1) n'
        end
  end.

Definition memmap_find_free_page : M memmap Z :=
  m <- get;; find_free_page_loop 0 (Z.to_nat (page_index (length_ m))).

(** The inner loop of [memmap_find_free_pages] on word [i]: it returns the
    start page, or goes on with the run ([start_page], [found]) it has. *)
Fixpoint find_run_bits (pages w i j : Z) (start_page found : Z) (n : nat) : Z + Z * Z :=
  match n with
  | O => inr (start_page, found)
  | S n' =>
      if bit_clear w j then
        let start_page := if found =? 0 then u32 (i * 4 * 8 + j) else start_page in
        let found := u32 (found + 1) in
        if found =? pages then inl start_page
        else find_run_bits pages w i (j + 1) start_page found n'
      else find_run_bits pages w i (j + 1) start_page 0 n'
  end.

Fixpoint find_free_pages_loop (pages i start_page found : Z) (n : nat) : M memmap Z :=
  match n with
  | O => ret 0
  | S n' =>
      m <- get;;
      w <- deref (word_at m i);;
      if w =? 0xFFFFFFFF then find_free_pages_loop pages (i + 1) start_page 0 n'
      else
        match find_run_bits pages w i 0 start_page found 32 with
        | inl r => ret r
        | inr (start_page, found) => find_free_pages_loop pages (i + 1) start_page found n'
        end
  end.

(** [start_page] is not initialised in C; it is read only after it was set. *)
Definition memmap_find_free_pages (pages : Z) : M memmap Z :=
  assert (negb (pages =? 0)) "pages != 0";;;
  m <- get;; find_free_pages_loop pages 0 0 0 (Z.to_nat (page_index (length_ m))).

(** ** The set of used pages *)

(** Page [p] is in use: its bit is set. *)
Definition page_used (m : memmap) (p : Z) : bool :=
  match word_at m (page_index p) with
  | Some w => Z.testbit w (OFFSET_FROM_BIT p)
  | None => true
  end.

(** Pages the searches look at: those of the whole words below [length_]. *)
Definition searched (m : memmap) (p : Z) : Prop := 0 <= p < 32 * page_index (length_ m).

(** A map is well formed when it holds 32-bit words and at least the words
    that its length asks for. *)
Definition memmap_wf (m : memmap) : Prop :=
  Forall (fun w => 0 <= w < 2 ^ 32) (pagemap m) /\
  0 <= length_ m < 2 ^ 32 /\
  page_index (length_ m) <= Z.of_nat (length (pagemap m)).

Lemma page_index_range p n : 0 <= p < 32 * n -> 0 <= page_index p < n.
Proof. unfold page_index. intros. split; [apply Z.div_pos | apply Z.div_lt_upper_bound]; lia. Qed.

Lemma offset_range p : 0 <= OFFSET_FROM_BIT p < 32.
Proof. apply Z.mod_pos_bound. lia. Qed.

Lemma page_split p : p = 32 * page_index p + OFFSET_FROM_BIT p.
Proof. apply Z.div_mod. lia. Qed.

Lemma page_unsplit i j : 0 <= j < 32 -> page_index (32 * i + j) = i /\ OFFSET_FROM_BIT (32 * i + j) = j.
Proof.
  intros. unfold page_index, OFFSET_FROM_BIT. split; Z.to_euclidean_division_equations; lia.
Qed.

Lemma bit_clear_spec w j : 0 <= j -> bit_clear w j = negb (Z.testbit w j).
Proof. apply land_bit_eqb0. Qed.

Lemma word_at_Some m i : 0 <= i < Z.of_nat (length (pagemap m)) -> is_Some (word_at m i).
Proof. intros. apply lookup_lt_is_Some_2. lia. Qed.

Lemma word_at_range m i w : memmap_wf m -> word_at m i = Some w -> 0 <= w < 2 ^ 32.
Proof. intros [HF _] Hw. by apply (Forall_lookup_1 _ _ _ _ HF Hw). Qed.

Lemma word_at_set m i i' w : 0 <= i < Z.of_nat (length (pagemap m)) -> 0 <= i' ->
  word_at (set_word i w m) i' = if i =? i' then Some w else word_at m i'.
Proof.
  intros. unfold word_at, set_word. simpl. destruct (Z.eqb_spec i i') as [->|Hne].
  - apply list_lookup_insert_eq. lia.
  - apply list_lookup_insert_ne. lia.
Qed.

Lemma set_word_wf m i w : memmap_wf m -> 0 <= w < 2 ^ 32 -> memmap_wf (set_word i w m).
Proof.
  intros (HF & HL & HI) Hw. unfold memmap_wf, set_word. simpl.
  rewrite length_insert. split_and!; try done; try lia. by apply Forall_insert.
Qed.

Lemma page_used_word m i j w : 0 <= i -> 0 <= j < 32 -> word_at m i = Some w ->
  page_used m (32 * i + j) = Z.testbit w j.
Proof. intros Hi Hj Hw. unfold page_used. by destruct (page_unsplit i j Hj) as [-> ->]; rewrite Hw. Qed.

(** What updating one bit of one word does to the set of used pages. *)
Lemma page_used_set_word m p q w w' (b : bool) :
  0 <= p < 32 * Z.of_nat (length (pagemap m)) -> 0 <= q ->
  word_at m (page_index p) = Some w ->
  (forall k, 0 <= k < 32 -> Z.testbit w' k = if OFFSET_FROM_BIT p =? k then b else Z.testbit w k) ->
  page_used (set_word (page_index p) w' m) q = if q =? p then b else page_used m q.
Proof.
  intros Hp Hq Hw Hbits. pose proof (page_index_range _ _ Hp).
  assert (0 <= page_index q) by (apply Z.div_pos; lia).
  unfold page_used. rewrite word_at_set by lia.
  destruct (Z.eqb_spec (page_index p) (page_index q)) as [E|E].
  - rewrite <- E, Hw, Hbits by apply offset_range.
    destruct (Z.eqb_spec (OFFSET_FROM_BIT p) (OFFSET_FROM_BIT q)) as [E2|E2], (Z.eqb_spec q p); try done.
    + pose proof (page_split p); pose proof (page_split q); lia.
    + congruence.
  - destruct (Z.eqb_spec q p); [congruence | done].
Qed.

(** ** Marking, clearing and testing a page *)

(** Marking page [p] used succeeds, and changes the state of no other page. *)
Lemma set_page_ok m p :
  memmap_wf m -> 0 <= p < 32 * Z.of_nat (length (pagemap m)) ->
  exists m', memmap_set_page (p * 0x1000) m = Ret tt m' /\ memmap_wf m' /\
    length_ m' = length_ m /\ length (pagemap m') = length (pagemap m) /\
    forall q, 0 <= q -> page_used m' q = (q =? p) || page_used m q.
Proof.
  intros Hwf Hp. pose proof (page_index_range _ _ Hp) as Hi.
  destruct (word_at_Some m _ Hi) as [w Hw]. pose proof (word_at_range _ _ _ Hwf Hw).
  pose proof (offset_range p) as Ho.
  exists (set_word (page_index p) (Z.lor w (Z.shiftl 1 (OFFSET_FROM_BIT p))) m).
  unfold memmap_set_page, assert, bind, get, modify. change 0xFFF with (Z.ones 12).
  rewrite Z.land_ones, Z_mod_mult, Z_div_mult by lia. simpl. rewrite Hw. simpl.
  split_and!; auto with words.
  - apply set_word_wf; auto with words.
  - apply length_insert.
  - intros q Hq. rewrite (page_used_set_word _ _ _ w _ true); [by destruct (q =? p) | done..|].
    intros k Hk. rewrite testbit_lor_bit by lia. by destruct (_ =? k).
Qed.

Lemma clear_page_ok m addr p :
  memmap_wf m -> p = addr / 0x1000 -> 0 <= p < 32 * Z.of_nat (length (pagemap m)) ->
  exists m', memmap_clear_page addr m = Ret tt m' /\ memmap_wf m' /\
    length_ m' = length_ m /\ length (pagemap m') = length (pagemap m) /\
    forall q, 0 <= q -> page_used m' q = negb (q =? p) && page_used m q.
Proof.
  intros Hwf -> Hp. set (p := addr / 4096) in *. pose proof (page_index_range _ _ Hp) as Hi.
  destruct (word_at_Some m _ Hi) as [w Hw]. pose proof (word_at_range _ _ _ Hwf Hw).
  pose proof (offset_range p) as Ho.
  exists (set_word (page_index p) (Z.land w (not32 (Z.shiftl 1 (OFFSET_FROM_BIT p)))) m).
  unfold memmap_clear_page, bind, get, modify. fold p. rewrite Hw. simpl.
  split_and!; auto with words.
  - apply set_word_wf; auto with words.
  - apply length_insert.
  - intros q Hq. rewrite (page_used_set_word _ _ _ w _ false); [by destruct (q =? p) | done..|].
    intros k Hk. rewrite testbit_clear_bit by lia. by destruct (_ =? k).
Qed.

Lemma test_page_ok m addr p :
  memmap_wf m -> p = addr / 0x1000 -> 0 <= p < 32 * Z.of_nat (length (pagemap m)) ->
  memmap_test_page addr m = Ret (Z.b2z (page_used m p)) m.
Proof.
  intros Hwf -> Hp. pose proof (page_index_range _ _ Hp) as Hi.
  destruct (word_at_Some m _ Hi) as [w Hw].
  unfold memmap_test_page, bind, get. rewrite Hw. simpl. unfold ret, page_used.
  rewrite Hw, land_bit_eqb0 by apply offset_range. by destruct (Z.testbit _ _).
Qed.

(** ** The searches *)

Lemma find_bit_spec w j n : 0 <= j ->
  match find_bit w j n with
  | Some k => j <= k < j + Z.of_nat n /\ Z.testbit w k = false /\
              forall k', j <= k' < k -> Z.testbit w k' = true
  | None => forall k', j <= k' < j + Z.of_nat n -> Z.testbit w k' = true
  end.
Proof.
  revert j. induction n as [|n IH]; intros j Hj; simpl; [lia|].
  rewrite bit_clear_spec by lia. destruct (Z.testbit w j) eqn:E; simpl.
  - specialize (IH (j + 1) ltac:(lia)). destruct (find_bit w (j + 1) n).
    + destruct IH as (? & ? & IH). split_and!; try done; try lia.
      intros k' ?. destruct (decide (k' = j)) as [->|]; [done | apply IH; lia].
    + intros k' ?. destruct (decide (k' = j)) as [->|]; [done | apply IH; lia].
  - split_and!; [lia | lia | done |]. lia.
Qed.

#[local] Arguments find_bit : simpl never.

(** All pages of word [i] are in use. *)
Lemma full_word m i w p : 0 <= i -> word_at m i = Some w ->
  (forall k, 0 <= k < 32 -> Z.testbit w k = true) ->
  32 * i <= p < 32 * (i + 1) -> page_used m p = true.
Proof.
  intros Hi Hw Hb Hp. replace p with (32 * i + (p - 32 * i)) by lia.
  rewrite (page_used_word _ _ _ w) by (lia || done). apply Hb. lia.
Qed.

(** [r] is what a search for the lowest free page among the [n] pages answers. *)
Definition lowest_free (m : memmap) (n r : Z) : Prop :=
  (0 <= r < n /\ page_used m r = false /\ forall q, 0 <= q < r -> page_used m q = true) \/
  (r = 0 /\ forall q, 0 <= q < n -> page_used m q = true).

Lemma find_free_page_loop_ok m i n :
  memmap_wf m -> 0 <= i -> i + Z.of_nat n = page_index (length_ m) ->
  (forall q, 0 <= q < 32 * i -> page_used m q = true) ->
  exists r, find_free_page_loop i n m = Ret r m /\
            lowest_free m (32 * page_index (length_ m)) r.
Proof.
  intros Hwf. revert i. induction n as [|n IH]; intros i Hi Hn Hlow; simpl.
  { exists 0. split; [done|]. right. split; [done|]. intros q Hq. apply Hlow. lia. }
  pose proof Hwf as (_ & HL & HI).
  destruct (word_at_Some m i ltac:(lia)) as [w Hw]. unfold bind, get. rewrite Hw. simpl.
  assert (Hnext : (forall k, 0 <= k < 32 -> Z.testbit w k = true) ->
    exists r, find_free_page_loop (i + 1) n m = Ret r m /\
      lowest_free m (32 * page_index (length_ m)) r).
  { intros Hb. apply IH; [lia | lia |]. intros q Hq.
    destruct (Z.lt_ge_cases q (32 * i)); [apply Hlow; lia|]. eapply (full_word m i w); eauto. lia. }
  destruct (Z.eqb_spec w 0xFFFFFFFF) as [->|_]; [apply Hnext, ones_bits|].
  pose proof (find_bit_spec w 0 32 ltac:(lia)) as Hf. destruct (find_bit w 0 32) as [j|]; [|auto].
  destruct Hf as (Hj & Hfree & Hused).   assert (Hbound : 32 * (i + 1) <= length_ m).
  { unfold page_index in *. Z.to_euclidean_division_equations. lia. }
  exists (32 * i + j). unfold ret. rewrite u32_small by lia. split; [f_equal; lia|].
  left. split_and!; [lia | lia | by rewrite (page_used_word _ _ _ w) by (lia || done) |].
  intros q Hq. destruct (Z.lt_ge_cases q (32 * i)); [apply Hlow; lia|].
  replace q with (32 * i + (q - 32 * i)) by lia.
  rewrite (page_used_word _ _ _ w) by (lia || done). apply Hused. lia.
Qed.

(** [r] is what a search for [k] consecutive free pages among [n] pages
    answers: the start of the first such run, or 0 when there is none. *)
Definition free_run (m : memmap) (n k r : Z) : Prop :=
  0 <= r /\ r + k <= n /\ forall q, r <= q < r + k -> page_used m q = false.

Definition first_free_run (m : memmap) (n k r : Z) : Prop :=
  (free_run m n k r /\ forall q, q < r -> ~ free_run m n k q) \/
  (r = 0 /\ forall q, ~ free_run m n k q).

(** The scan stands before page [p] with a run of [found] free pages behind
    it that cannot be extended to the left, and no run of [k] pages so far. *)
Record run_inv (m : memmap) (k p start found : Z) : Prop := {
  ri_found : 0 <= found < k;
  ri_start : 0 < found -> start = p - found;
  ri_low : 0 <= p - found;
  ri_free : forall q, p - found <= q < p -> page_used m q = false;
  ri_max : p - found = 0 \/ page_used m (p - found - 1) = true;
  ri_none : forall q, ~ free_run m p k q
}.

Lemma free_run_mono m n n' k r : n <= n' -> free_run m n k r -> free_run m n' k r.
Proof. intros ? (? & ? & ?). repeat split; (lia || done). Qed.

(** A run of [k] pages below [p + 1] that is not below [p] ends at page [p]. *)
Lemma free_run_last m p k q : 0 < k ->
  free_run m (p + 1) k q -> ~ free_run m p k q -> q = p + 1 - k /\ page_used m p = false.
Proof.
  intros Hk (H0 & H1 & H2) Hn. destruct (Z.lt_ge_cases p (q + k)).
  - split; [lia|]. apply H2. lia.
  - destruct Hn. repeat split; (lia || done).
Qed.

Lemma run_inv_used m k p start found :
  run_inv m k p start found -> page_used m p = true -> run_inv m k (p + 1) start 0.
Proof.
  intros [Hf Hs Hl Hfr Hm Hn] Hu. split; try lia.
  - right. by replace (p + 1 - 0 - 1) with p by lia.
  - intros q Hq. destruct (free_run_last m p k q ltac:(lia) Hq (Hn q)). congruence.
Qed.

Lemma run_inv_free m k p start found :
  run_inv m k p start found -> page_used m p = false ->
  let start' := if found =? 0 then p else start in
  if found + 1 =? k then free_run m (p + 1) k start' /\ forall q, q < start' -> ~ free_run m p k q
  else run_inv m k (p + 1) start' (found + 1).
Proof.
  intros [Hf Hs Hl Hfr Hm Hn] Hu. simpl.
  assert (Hst : (if found =? 0 then p else start) = p - found).
  { destruct (Z.eqb_spec found 0); [lia | apply Hs; lia]. }
  rewrite Hst.
  assert (Hfr' : forall q, p - found <= q < p + 1 -> page_used m q = false).
  { intros q Hq. destruct (decide (q = p)) as [->|]; [done | apply Hfr; lia]. }
  destruct (Z.eqb_spec (found + 1) k).
  - split; [|auto]. repeat split; [lia | lia |]. intros q Hq. apply Hfr'. lia.
  - split; try lia.
    + intros q Hq. apply Hfr'. lia.
    + replace (p + 1 - (found + 1)) with (p - found) by lia. done.
    + intros q Hq. destruct (free_run_last m p k q ltac:(lia) Hq (Hn q)) as [Hq' _].
      destruct Hq as (? & ? & Hfree). destruct Hm as [?|Hm]; [lia|].
      rewrite Hfree in Hm by lia. done.
Qed.

(** A whole word of used pages. *)
Lemma run_inv_skip m k p start found n :
  run_inv m k p start found -> (forall q, p <= q < p + Z.of_nat n -> page_used m q = true) ->
  (0 < n)%nat -> run_inv m k (p + Z.of_nat n) start 0.
Proof.
  revert p found. induction n as [|n IH]; intros p found Hinv Hu Hn; [lia|].
  pose proof (run_inv_used _ _ _ _ _ Hinv (Hu p ltac:(lia))) as H1.
  destruct n as [|n]; [by replace (p + Z.of_nat 1) with (p + 1) by lia|].
  replace (p + Z.of_nat (S (S n))) with (p + 1 + Z.of_nat (S n)) by lia.
  eapply IH; [exact H1 | intros; apply Hu; lia | lia].
Qed.

Lemma find_run_bits_ok m k w i j start found n :
  0 <= i < 2 ^ 27 -> 0 <= j -> j + Z.of_nat n = 32 -> k < 2 ^ 32 -> word_at m i = Some w ->
  run_inv m k (32 * i + j) start found ->
  match find_run_bits k w i j start found n with
  | inl r => exists p, p <= 32 * (i + 1) /\ free_run m p k r /\ forall q, q < r -> ~ free_run m (p - 1) k q
  | inr (start', found') => run_inv m k (32 * (i + 1)) start' found'
  end.
Proof.
  intros Hi. revert j start found. induction n as [|n IH]; intros j start found Hj Hn Hk Hw Hinv; simpl.
  { by replace (32 * (i + 1)) with (32 * i + j) by lia. }
  rewrite bit_clear_spec by lia. pose proof (page_used_word m i j w ltac:(lia) ltac:(lia) Hw) as Hp.
  pose proof (ri_found _ _ _ _ _ Hinv). rewrite !u32_small by lia.
  replace (i * 4 * 8 + j) with (32 * i + j) by lia.
  destruct (Z.testbit w j); simpl.
  - apply IH; try lia; [done|]. replace (32 * i + (j + 1)) with (32 * i + j + 1) by lia.
    eapply run_inv_used; eauto.
  - pose proof (run_inv_free _ _ _ _ _ Hinv Hp) as Hs. simpl in Hs.
    destruct (Z.eqb_spec (found + 1) k).
    + exists (32 * i + j + 1). replace (32 * i + j + 1 - 1) with (32 * i + j) by lia.
      split; [lia | done].
    + apply IH; try lia; [done|]. by replace (32 * i + (j + 1)) with (32 * i + j + 1) by lia.
Qed.

#[local] Arguments find_run_bits : simpl never.

Lemma find_free_pages_loop_ok m k i start found n :
  memmap_wf m -> 0 <= i -> i + Z.of_nat n = page_index (length_ m) -> k < 2 ^ 32 ->
  run_inv m k (32 * i) start found ->
  exists r, find_free_pages_loop k i start found n m = Ret r m /\
            first_free_run m (32 * page_index (length_ m)) k r.
Proof.
  intros Hwf. revert i start found.
  induction n as [|n IH]; intros i start found Hi Hn Hk Hinv; simpl.
  { exists 0. split; [done|]. right. split; [done|].
    replace (page_index (length_ m)) with i by lia. apply Hinv. }
  pose proof Hwf as (_ & HL & HI).
  assert (32 * (i + 1) <= length_ m).
  { unfold page_index in *. Z.to_euclidean_division_equations. lia. }
  destruct (word_at_Some m i ltac:(lia)) as [w Hw]. unfold bind, get. rewrite Hw. simpl.
  destruct (Z.eqb_spec w 0xFFFFFFFF) as [->|_].
  - apply IH; try lia. replace (32 * (i + 1)) with (32 * i + Z.of_nat 32) by lia.
    eapply run_inv_skip; [done | | lia]. intros q Hq.
    apply (full_word m i 0xFFFFFFFF); [lia | done | apply ones_bits | lia].
  - pose proof (find_run_bits_ok m k w i 0 start found 32 ltac:(lia) ltac:(lia) ltac:(lia) Hk Hw) as Hb.
    rewrite Z.add_0_r in Hb. specialize (Hb Hinv).
    destruct (find_run_bits k w i 0 start found 32) as [r|[start' found']].
    + exists r. split; [done|]. left. destruct Hb as (p & Hp & Hr & Hleast).
      split; [eapply free_run_mono; [|done]; lia|]. intros q Hq Hrun. apply (Hleast q Hq).
      destruct Hr as (? & ? & _), Hrun as (? & ? & ?). repeat split; (lia || done).
    + apply IH; try lia; try done.
Qed.

(** ** Properties *)

(** C19: On a well-formed map, marking a page used, marking it free and testing
    it all return, keep the map well formed, and act on the set of used pages
    as insertion, removal and membership: no other page changes. *)
Theorem memmap_page_ops (m : memmap) (p : Z)
    (Hwf : memmap_wf m) (Hp : 0 <= p < 32 * Z.of_nat (length (pagemap m))) :
  (exists m', memmap_set_page (p * 0x1000) m = Ret tt m' /\ memmap_wf m' /\
     forall q, 0 <= q -> page_used m' q = (q =? p) || page_used m q) /\
  (exists m', memmap_clear_page (p * 0x1000) m = Ret tt m' /\ memmap_wf m' /\
     forall q, 0 <= q -> page_used m' q = negb (q =? p) && page_used m q) /\
  memmap_test_page (p * 0x1000) m = Ret (Z.b2z (page_used m p)) m.
Proof.
  assert (E : p = p * 0x1000 / 0x1000) by (by rewrite Z_div_mult).
  destruct (set_page_ok m p Hwf Hp) as (m1 & ? & ? & _ & _ & ?).
  destruct (clear_page_ok m _ p Hwf E Hp) as (m2 & ? & ? & _ & _ & ?).
  split_and!; [by exists m1 | by exists m2 | by apply test_page_ok].
Qed.

Definition map64 : memmap := mkMemmap [0xFFFFFFFF; 0x0000001B] 64 0.

Lemma map64_wf : memmap_wf map64.
Proof. repeat split; try done. by repeat constructor. Qed.

Lemma memmap_page_ops_witness :
  exists m', memmap_set_page (34 * 0x1000) map64 = Ret tt m' /\
    page_used map64 34 = false /\ page_used m' 34 = true /\ page_used m' 33 = true.
Proof.
  destruct (memmap_page_ops map64 34 map64_wf) as [(m' & H1 & _ & H2) _]; [split; vm_compute; congruence|].
  exists m'. split_and!; [exact H1 | reflexivity | |]; rewrite H2 by lia; reflexivity.
Defined.

(** C20: [memmap_find_free_page] terminates, changes nothing, and returns the
    lowest free page of the words it looks at, or 0 when all are in use. *)
Theorem memmap_find_free_page_lowest (m : memmap) (Hwf : memmap_wf m) :
  exists r, memmap_find_free_page m = Ret r m /\
            lowest_free m (32 * page_index (length_ m)) r.
Proof.
  pose proof Hwf as (_ & ? & _). assert (0 <= page_index (length_ m)) by (apply Z.div_pos; lia).
  apply find_free_page_loop_ok; [done | lia | lia |]. lia.
Qed.

Lemma memmap_find_free_page_lowest_witness :
  exists r, memmap_find_free_page map64 = Ret r map64 /\ lowest_free map64 64 r /\ r = 34.
Proof.
  destruct (memmap_find_free_page_lowest map64 map64_wf) as (r & H1 & H2).
  exists r. split_and!; [exact H1 | exact H2 |]. vm_compute in H1. congruence.
Defined.

(** C21: [memmap_find_free_pages] terminates, changes nothing, and returns the
    start of the first run of [pages] consecutive free pages, whether or not
    the run crosses words; it returns 0 exactly when there is no such run or
    the first one starts at page 0. *)
Theorem memmap_find_free_pages_first (m : memmap) (pages : Z)
    (Hwf : memmap_wf m) (Hpages : 0 < pages < 2 ^ 32) :
  exists r, memmap_find_free_pages pages m = Ret r m /\
            first_free_run m (32 * page_index (length_ m)) pages r.
Proof.
  pose proof Hwf as (_ & ? & _). assert (0 <= page_index (length_ m)) by (apply Z.div_pos; lia).
  unfold memmap_find_free_pages, assert, bind, get.
  destruct (Z.eqb_spec pages 0); [lia|]. simpl.
  apply find_free_pages_loop_ok; [done | lia | lia | lia |].
  split; try lia. intros q (? & ? & ?). lia.
Qed.

Lemma memmap_find_free_pages_first_witness :
  exists r, memmap_find_free_pages 3 map64 = Ret r map64 /\ first_free_run map64 64 3 r /\ r = 37.
Proof.
  destruct (memmap_find_free_pages_first map64 3 map64_wf) as (r & H1 & H2); [lia|].
  exists r. split_and!; [exact H1 | exact H2 |]. vm_compute in H1. congruence.
Defined.

(** Cloning a map gives one in which the same pages are used, for all
    pages of the whole words; a failed [kalloc] leaves the destination alone. *)
Theorem memmap_clone_same (src dst : memmap) (words : list Z)
    (Hwf : memmap_wf src) (Hlen : page_index (length_ src) <= Z.of_nat (length words)) :
  memmap_clone None src dst = Ret false dst /\
  exists m', memmap_clone (Some words) src dst = Ret true m' /\ length_ m' = length_ src /\
    forall q, searched src q -> page_used m' q = page_used src q.
Proof.
  split; [done|]. pose proof Hwf as (_ & _ & HI). unfold memmap_clone, fill_words, bind.
  rewrite decide_True by lia. eexists. split; [reflexivity|]. split; [done|].
  intros q Hq. unfold page_used, word_at. simpl.
  pose proof (page_index_range _ _ Hq). rewrite lookup_app_l by (rewrite length_take; lia).
  by rewrite lookup_take_lt by lia.
Qed.

Lemma memmap_clone_same_witness :
  exists m', memmap_clone (Some [7; 7; 7]) map64 (mkMemmap [] 0 0) = Ret true m' /\
    page_used m' 35 = true /\ page_used m' 34 = false.
Proof.
  destruct (memmap_clone_same map64 (mkMemmap [] 0 0) [7; 7; 7] map64_wf) as [_ (m' & H1 & _ & H2)];
    [vm_compute; congruence|].
  exists m'. split_and!; [exact H1 | |]; rewrite H2 by (split; vm_compute; congruence); reflexivity.
Defined.
