(* ===== verification/CString.v ===== *)
(** * CString: the string routines of kernel/string.c

    A [char*] is the list of the bytes from the pointer to the end of the
    object it points into; a read or write past that end is a fault.  Bytes
    are [Z] in [0, 255].  [itoa] and [itox] work in the static array [buff];
    the file shows that both print the value of their argument. *)

From S2P Require Import Prelude.

(** Bytes of a string literal, without the terminating zero. *)
Definition str (s : string) : list Z :=
  map (fun a => Z.of_N (Ascii.N_of_ascii a)) (String.list_ascii_of_string s).

(** The bytes of [s] as a C string in memory, followed by [rest]. *)
Definition cstr (s rest : list Z) : list Z := s ++ 0 :: rest.

(** A list of bytes that can be the contents of a C string. *)
Definition no_nul (s : list Z) : Prop := Forall (fun c => c <> 0) s.

(** ** Comparison, length, copy *)

Fixpoint strcmp (str1 str2 : list Z) : option Z :=
  match str1, str2 with
  | c1 :: r1, c2 :: r2 =>
      if negb (c1 =? 0) && negb (c2 =? 0) then
        if negb (c1 =? c2) then Some 1 else strcmp r1 r2
      else
        Some (if ((c1 =? 0) && negb (c2 =? 0)) || (negb (c1 =? 0) && (c2 =? 0)) then 1 else 0)
  | _, _ => None
  end.

Fixpoint strlen_loop (s : list Z) (len : Z) : option Z :=
  match s with
  | [] => None
  | c :: s' => if c =? 0 then Some len else strlen_loop s' (u32 (len + 1))
  end.

Definition strlen (s : list Z) : option Z := strlen_loop s 0.

(** [strcpy] gives the new contents of the destination and the offset of the
    pointer it returns. *)
Fixpoint strcpy (dest src : list Z) : option (list Z * Z) :=
  match src, dest with
  | c :: src', d :: dest' =>
      if c =? 0 then Some (0 :: dest', 1)
      else match strcpy dest' src' with
           | Some (dest'', n) => Some (c :: dest'', n + 1)
           | None => None
           end
  | _, _ => None
  end.

Fixpoint strcat (dest src : list Z) : option (list Z * Z) :=
  match dest with
  | [] => None
  | d :: dest' =>
      if d =? 0 then strcpy dest src
      else match strcat dest' src with
           | Some (dest'', n) => Some (d :: dest'', n + 1)
           | None => None
           end
  end.

(** ** Numbers *)

(** [buff[i]] read and written, where the state is the memory from [buff] on. *)
Definition rd (i : Z) : M (list Z) Z := b <- get;; deref (b !! Z.to_nat i).
Definition wr (i c : Z) : M (list Z) unit :=
  b <- get;;
  if decide (0 <= i < Z.of_nat (length b)) then modify (<[Z.to_nat i := c]>) else fault.

(** The loop of [atoi]; [p - s] is the number of bytes still before [p].  The
    condition of the assertion reads [*p < -'9'] (the source has [*p <- '9']). *)
Fixpoint atoi_loop (s : list Z) (p : nat) (i m : Z) : M unit Z :=
  match p with
  | O => ret i
  | S p' =>
      c <- deref (s !! p);;
      assert ((49 <=? s8 c) && (s8 c <? - 57)) "*p >= '1' && *p <- '9'";;;
      atoi_loop s p' (s32 (i + (s8 c - (49 - 1)) * m)) (s32 (m * 10))
  end.

Definition atoi (s : list Z) : M unit Z :=
  n <- deref (strlen s);; atoi_loop s (Z.to_nat (n - 1)) 0 1.

(** The first loop of [itoa]: [l] digits are left, [b] is the write pointer. *)
Fixpoint itoa_digits (l : nat) (val digit b : Z) : M (list Z) Z :=
  match l with
  | O => ret b
  | S l' =>
      let i := s32 (u32 val / digit) in
      wr b (u8 (48 + s8 i));;;
      itoa_digits l' (s32 (u32 val - u32 (i * digit))) (digit / 10) (b + 1)
  end.

(** [while (buff[i] == '0') i++]; the buffer holds a zero byte, so 12 steps are
    enough. *)
Fixpoint itoa_skip (n : nat) (i : Z) : M (list Z) Z :=
  match n with
  | O => nofuel
  | S n' => c <- rd i;; if c =? 48 then itoa_skip n' (i + 1) else ret i
  end.

(** [while (i <= 11) *b++ = buff[i++]]; [n] is the number of iterations. *)
Fixpoint itoa_shift (n : nat) (b i : Z) : M (list Z) unit :=
  match n with
  | O => ret tt
  | S n' => c <- rd i;; wr b c;;; itoa_shift n' (b + 1) (i + 1)
  end.

Definition itoa (val : Z) : M (list Z) unit :=
  wr 0 0;;;
  if val =? 0 then ret tt
  else
    b <- itoa_digits 10 val 1000000000 0;;
    wr b 0;;;
    i <- itoa_skip 12 0;;
    itoa_shift (Z.to_nat (12 - i)) 0 i.

Fixpoint itox_digits (l : nat) (val digit b : Z) : M (list Z) Z :=
  match l with
  | O => ret b
  | S l' =>
      let i := s32 (val / digit) in
      wr b (u8 (48 + s8 (if 10 <=? i then i + 7 else i)));;;
      itox_digits l' (u32 (val - u32 (i * digit))) (digit / 16) (b + 1)
  end.

Definition itox (val : Z) : M (list Z) unit :=
  wr 0 0;;;
  if val =? 0 then wr 0 48;;; wr 1 0
  else b <- itox_digits 8 val 0x10000000 0;; wr b 0.

(** ** Strings *)

Lemma no_nul_cons c s : no_nul (c :: s) <-> c <> 0 /\ no_nul s.
Proof. unfold no_nul. by rewrite Forall_cons. Qed.

Lemma strlen_loop_ok s rest n : no_nul s -> 0 <= n -> n + Z.of_nat (length s) < 2 ^ 32 ->
  strlen_loop (cstr s rest) n = Some (n + Z.of_nat (length s)).
Proof.
  revert n. induction s as [|c s IH]; intros n Hs Hn Hlen; simpl.
  - f_equal. lia.
  - apply no_nul_cons in Hs as [Hc Hs]. destruct (Z.eqb_spec c 0); [done|].
    simpl in Hlen. rewrite u32_small by lia. unfold cstr in IH. rewrite IH by (done || lia). f_equal. lia.
Qed.

Lemma strcmp_total s1 s2 r1 r2 : no_nul s1 -> no_nul s2 ->
  strcmp (cstr s1 r1) (cstr s2 r2) = Some (if decide (s1 = s2) then 0 else 1).
Proof.
  revert s2. induction s1 as [|c1 s1 IH]; intros [|c2 s2] H1 H2; simpl.
  - done.
  - apply no_nul_cons in H2 as [Hc _]. by destruct (Z.eqb_spec c2 0).
  - apply no_nul_cons in H1 as [Hc _]. by destruct (Z.eqb_spec c1 0).
  - apply no_nul_cons in H1 as [Hc1 H1]. apply no_nul_cons in H2 as [Hc2 H2].
    destruct (Z.eqb_spec c1 0); [done|]. destruct (Z.eqb_spec c2 0); [done|]. simpl.
    destruct (Z.eqb_spec c1 c2) as [<-|Hne]; simpl.
    + unfold cstr in IH. rewrite IH by done. f_equal. repeat case_decide; congruence.
    + case_decide; congruence.
Qed.

Lemma strcpy_ok s rest dest : no_nul s -> (length s < length dest)%nat ->
  strcpy dest (cstr s rest) =
    Some (cstr s (drop (S (length s)) dest), Z.of_nat (length s) + 1).
Proof.
  revert dest. induction s as [|c s IH]; intros [|d dest] Hs Hlen; simpl in *; try lia.
  - done.
  - apply no_nul_cons in Hs as [Hc Hs]. destruct (Z.eqb_spec c 0); [done|].
    unfold cstr in IH. rewrite IH by (done || lia). simpl. f_equal. f_equal. lia.
Qed.

Lemma strcat_ok s1 s2 r1 r2 : no_nul s1 -> no_nul s2 -> (length s2 <= length r1)%nat ->
  strcat (cstr s1 r1) (cstr s2 r2) =
    Some (cstr (s1 ++ s2) (drop (length s2) r1), Z.of_nat (length s1 + length s2) + 1).
Proof.
  intros H1 H2 Hlen. induction s1 as [|c s1 IH].
  - unfold cstr at 1. simpl app. unfold strcat. simpl (0 =? 0). cbv iota.
    rewrite strcpy_ok; [done | done | simpl; lia].
  - apply no_nul_cons in H1 as [Hc H1]. unfold cstr in *. simpl.
    destruct (Z.eqb_spec c 0); [done|]. rewrite IH by done. simpl. f_equal. f_equal. lia.
Qed.

(** ** Digits *)

Lemma rd_ok mem (i : nat) c : mem !! i = Some c -> rd (Z.of_nat i) mem = Ret c mem.
Proof. unfold rd, bind, get. rewrite Nat2Z.id. by intros ->. Qed.

Lemma wr_ok mem (i : nat) c : (i < length mem)%nat -> wr (Z.of_nat i) c mem = Ret tt (<[i := c]> mem).
Proof. intros. unfold wr, bind, get. rewrite decide_True by lia. by rewrite Nat2Z.id. Qed.

Lemma rd_mid pre c post : rd (Z.of_nat (length pre)) (pre ++ c :: post) = Ret c (pre ++ c :: post).
Proof. unfold rd, bind, get. by rewrite Nat2Z.id, list_lookup_middle. Qed.

Lemma wr_mid pre c d post :
  wr (Z.of_nat (length pre)) c (pre ++ d :: post) = Ret tt (pre ++ c :: post).
Proof.
  unfold wr, bind, get, modify. rewrite decide_True by (rewrite length_app; simpl; lia).
  by rewrite Nat2Z.id, insert_app_r_alt, Nat.sub_diag by lia.
Qed.

(** The [l] digits of [v] in base [base], most significant first. *)
Fixpoint num_digits (base : Z) (conv : Z -> Z) (l : nat) (v : Z) : list Z :=
  match l with
  | O => []
  | S l' => conv (v / base ^ Z.of_nat l') :: num_digits base conv l' (v mod base ^ Z.of_nat l')
  end.

Definition num_value (base : Z) (unconv : Z -> Z) (acc : Z) (s : list Z) : Z :=
  fold_left (fun a c => a * base + unconv c) s acc.

Definition dec_char (d : Z) : Z := 48 + d.
Definition dec_unchar (c : Z) : Z := c - 48.
Definition hex_char (d : Z) : Z := if 10 <=? d then 55 + d else 48 + d.
Definition hex_unchar (c : Z) : Z := if c <? 58 then c - 48 else c - 55.

(** The number that a string of decimal or upper-case hexadecimal digits denotes. *)
Definition dec_value (s : list Z) : Z := num_value 10 dec_unchar 0 s.
Definition hex_value (s : list Z) : Z := num_value 16 hex_unchar 0 s.

Lemma num_digits_length base conv l v : length (num_digits base conv l v) = l.
Proof. revert v. induction l; intros v; simpl; auto. Qed.

Lemma pow_succ_nat b n : b ^ Z.of_nat (S n) = b * b ^ Z.of_nat n.
Proof. rewrite Nat2Z.inj_succ. apply Z.pow_succ_r. lia. Qed.

Lemma num_digits_value base conv unconv l v acc :
  1 < base -> (forall d, 0 <= d < base -> unconv (conv d) = d) -> 0 <= v < base ^ Z.of_nat l ->
  num_value base unconv acc (num_digits base conv l v) = acc * base ^ Z.of_nat l + v.
Proof.
  intros Hb Hc. revert v acc. induction l as [|l IH]; intros v acc Hv; [simpl in *; lia|].
  rewrite pow_succ_nat in *. assert (0 < base ^ Z.of_nat l) by (apply Z.pow_pos_nonneg; lia).
  cbn [num_digits num_value fold_left].
  fold (num_value base unconv (acc * base + unconv (conv (v / base ^ Z.of_nat l)))
          (num_digits base conv l (v mod base ^ Z.of_nat l))).
  rewrite IH by (apply Z.mod_pos_bound; lia).
  rewrite Hc; [pose proof (Z.div_mod v (base ^ Z.of_nat l)); lia|].
  split; [apply Z.div_pos; lia | apply Z.div_lt_upper_bound; lia].
Qed.

Lemma num_digits_Forall base conv l v (P : Z -> Prop) :
  1 < base -> (forall d, 0 <= d < base -> P (conv d)) -> 0 <= v < base ^ Z.of_nat l ->
  Forall P (num_digits base conv l v).
Proof.
  intros Hb HP. revert v. induction l as [|l IH]; intros v Hv; simpl; [constructor|].
  rewrite pow_succ_nat in Hv. assert (0 < base ^ Z.of_nat l) by (apply Z.pow_pos_nonneg; lia).
  constructor; [apply HP | apply IH, Z.mod_pos_bound; lia].
  split; [apply Z.div_pos; lia | apply Z.div_lt_upper_bound; lia].
Qed.

(** One step of either digit loop takes the leading digit off. *)
Lemma digit_step v base n :
  1 < base -> 0 <= v < base ^ Z.of_nat (S n) -> v < 2 ^ 32 ->
  0 <= v / base ^ Z.of_nat n < base /\
  u32 (v - u32 (v / base ^ Z.of_nat n * base ^ Z.of_nat n)) = v mod base ^ Z.of_nat n.
Proof.
  intros Hb Hv H32. rewrite pow_succ_nat in Hv.
  assert (0 < base ^ Z.of_nat n) by (apply Z.pow_pos_nonneg; lia).
  pose proof (Z.mod_pos_bound v (base ^ Z.of_nat n)). pose proof (Z.div_mod v (base ^ Z.of_nat n)).
  assert (0 <= v / base ^ Z.of_nat n) by (apply Z.div_pos; lia).
  split; [split; [done | apply Z.div_lt_upper_bound; lia]|].
  rewrite !u32_small; [lia | nia |]. rewrite u32_small by nia. lia.
Qed.

Lemma pow_pred_div base n : 1 < base -> base ^ (Z.of_nat (S n) - 1) / base = base ^ (Z.of_nat n - 1).
Proof.
  intros. replace (Z.of_nat (S n) - 1) with (Z.of_nat n) by lia. destruct n as [|n].
  - simpl. by rewrite Z.div_small by lia.
  - rewrite pow_succ_nat, Z.mul_comm, Z.div_mul by lia. f_equal. lia.
Qed.

Lemma itoa_digits_ok l v val pre old post :
  (l <= 10)%nat -> length old = l -> u32 val = v -> 0 <= v < 10 ^ Z.of_nat l ->
  itoa_digits l val (10 ^ (Z.of_nat l - 1)) (Z.of_nat (length pre)) (pre ++ old ++ post) =
    Ret (Z.of_nat (length pre) + Z.of_nat l) (pre ++ num_digits 10 dec_char l v ++ post).
Proof.
  revert v val pre old. induction l as [|l IH]; intros v val pre old Hl Hold Hval Hv.
  { destruct old; [|done]. simpl. unfold ret. f_equal. lia. }
  destruct old as [|o old]; [done|]. pose proof (u32_range val). rewrite Hval in *.
  destruct (digit_step v 10 l ltac:(lia) Hv ltac:(lia)) as [Hd Hrest].
  cbn [itoa_digits num_digits]. rewrite Hval, pow_pred_div by lia.
  replace (Z.of_nat (S l) - 1) with (Z.of_nat l) by lia.
  rewrite (s32_small (v / _)) by lia. unfold s8. rewrite (Z.mod_small (v / _ + _)) by lia.
  rewrite u8_small by lia. erewrite bind_Ret by (simpl; apply wr_mid).
  rewrite cons_middle, app_assoc.
  replace (Z.of_nat (length pre) + 1)
    with (Z.of_nat (length (pre ++ [48 + (v / 10 ^ Z.of_nat l + 2 ^ 7 - 2 ^ 7)])))
    by (rewrite length_app; simpl; lia).
  rewrite (IH (v mod 10 ^ Z.of_nat l)); [| lia | by injection Hold | by rewrite u32_s32 |
    apply Z.mod_pos_bound, Z.pow_pos_nonneg; lia].
  unfold dec_char. rewrite length_app, <- !app_assoc. simpl. f_equal; [lia | ].
  do 2 f_equal. lia.
Qed.

Lemma itox_digits_ok l v pre old post :
  (l <= 8)%nat -> length old = l -> 0 <= v < 16 ^ Z.of_nat l ->
  itox_digits l v (16 ^ (Z.of_nat l - 1)) (Z.of_nat (length pre)) (pre ++ old ++ post) =
    Ret (Z.of_nat (length pre) + Z.of_nat l) (pre ++ num_digits 16 hex_char l v ++ post).
Proof.
  revert v pre old. induction l as [|l IH]; intros v pre old Hl Hold Hv.
  { destruct old; [|done]. simpl. unfold ret. f_equal. lia. }
  destruct old as [|o old]; [done|].
  assert (16 ^ Z.of_nat (S l) <= 16 ^ 8) by (apply Z.pow_le_mono_r; lia).
  destruct (digit_step v 16 l ltac:(lia) Hv ltac:(lia)) as [Hd Hrest].
  cbn [itox_digits num_digits]. rewrite pow_pred_div by lia.
  replace (Z.of_nat (S l) - 1) with (Z.of_nat l) by lia.
  rewrite (s32_small (v / _)) by lia. rewrite Hrest.
  assert (Hch : u8 (48 + s8 (if 10 <=? v / 16 ^ Z.of_nat l
                  then v / 16 ^ Z.of_nat l + 7 else v / 16 ^ Z.of_nat l))
                = hex_char (v / 16 ^ Z.of_nat l)).
  { unfold hex_char, s8. destruct (Z.leb_spec 10 (v / 16 ^ Z.of_nat l));
      rewrite Z.mod_small, u8_small; lia. }
  rewrite Hch. erewrite bind_Ret by (simpl; apply wr_mid). rewrite cons_middle, app_assoc.
  replace (Z.of_nat (length pre) + 1)
    with (Z.of_nat (length (pre ++ [hex_char (v / 16 ^ Z.of_nat l)])))
    by (rewrite length_app; simpl; lia).
  rewrite IH; [| lia | by injection Hold | apply Z.mod_pos_bound, Z.pow_pos_nonneg; lia].
  rewrite length_app, <- !app_assoc. simpl. f_equal; lia.
Qed.

(** Skipping leading zeros: [k] of them before a byte that is no zero digit. *)
Lemma itoa_skip_ok n k pre c post : (k < n)%nat -> c <> 48 ->
  itoa_skip n (Z.of_nat (length pre)) (pre ++ replicate k 48 ++ c :: post) =
    Ret (Z.of_nat (length pre + k)) (pre ++ replicate k 48 ++ c :: post).
Proof.
  revert n pre. induction k as [|k IH]; intros [|n] pre Hk Hc; try lia; cbn [itoa_skip replicate app].
  - erewrite bind_Ret by apply rd_mid. destruct (Z.eqb_spec c 48); [done|].
    unfold ret. f_equal. lia.
  - erewrite bind_Ret by apply rd_mid. simpl. rewrite (cons_middle 48), app_assoc.
    replace (Z.of_nat (length pre) + 1) with (Z.of_nat (length (pre ++ [48])))
      by (rewrite length_app; simpl; lia).
    rewrite IH by (done || lia). f_equal. rewrite length_app. simpl. lia.
Qed.

(** Moving [n] bytes from offset [i] down to offset [b]. *)
Lemma itoa_shift_ok n b i mem : (b <= i)%nat -> (i + n <= length mem)%nat ->
  exists mem', itoa_shift n (Z.of_nat b) (Z.of_nat i) mem = Ret tt mem' /\
    length mem' = length mem /\
    forall q, mem' !! q = if decide (b <= q < b + n)%nat then mem !! (q + (i - b))%nat else mem !! q.
Proof.
  revert b i mem. induction n as [|n IH]; intros b i mem Hb Hlen.
  { exists mem. split_and!; [done | done |]. intros q. case_decide; [lia | done]. }
  destruct (lookup_lt_is_Some_2 mem i ltac:(lia)) as [c Hc].
  destruct (IH (S b) (S i) (<[b := c]> mem) ltac:(lia) ltac:(rewrite length_insert; lia))
    as (mem' & Hrun & Hl & Hq).
  exists mem'. cbn [itoa_shift].
  erewrite bind_Ret by by apply rd_ok. erewrite bind_Ret by (apply wr_ok; lia).
  replace (Z.of_nat b + 1) with (Z.of_nat (S b)) by lia.
  replace (Z.of_nat i + 1) with (Z.of_nat (S i)) by lia.
  split_and!; [exact Hrun | by rewrite Hl, length_insert |]. intros q. rewrite Hq.
  destruct (decide (q = b)) as [->|Hne].
  - rewrite decide_False, decide_True by lia. rewrite list_lookup_insert_eq by lia.
    by replace (b + (i - b))%nat with i by lia.
  - replace (q + (S i - S b))%nat with (q + (i - b))%nat by lia.
    repeat case_decide; try lia; by rewrite list_lookup_insert_ne by lia.
Qed.

(** A list of digits that does not denote 0 has a leading non-zero digit. *)
Lemma leading_zeros ds : Forall (fun c => 48 <= c < 58) ds -> dec_value ds <> 0 ->
  exists k c ds', ds = replicate k 48 ++ c :: ds' /\ c <> 48.
Proof.
  induction ds as [|c ds IH]; intros HF Hv; [done|]. inversion HF; subst.
  destruct (decide (c = 48)) as [->|Hc].
  - destruct IH as (k & c & ds' & -> & Hc); [done | exact Hv |].
    by exists (S k), c, ds'.
  - by exists 0%nat, c, ds.
Qed.

Lemma dec_value_zeros k s : dec_value (replicate k 48 ++ s) = dec_value s.
Proof. induction k; [done | exact IHk]. Qed.

(** [s] is the decimal representation of [v], without leading zeros. *)
Definition decimal_of (v : Z) (s : list Z) : Prop :=
  Forall (fun c => 48 <= c < 58) s /\ dec_value s = v /\ head s <> Some 48.

(** Memory after the digit loop of [itoa] and the terminating zero. *)
Lemma itoa_body_ok val mem : - 2 ^ 31 <= val < 2 ^ 31 -> val <> 0 -> (11 <= length mem)%nat ->
  exists k c ds, length (replicate k 48 ++ c :: ds) = 10%nat /\ c <> 48 /\ decimal_of (u32 val) (c :: ds) /\
    forall post, drop 11 mem = post ->
    itoa val mem = itoa_shift (12 - k)%nat 0 (Z.of_nat k) (replicate k 48 ++ c :: ds ++ 0 :: post).
Proof.
  intros Hval Hne Hlen. set (v := u32 val). pose proof (u32_range val) as Hv.
  assert (Hv10 : 0 <= v < 10 ^ Z.of_nat 10) by (subst v; lia).
  set (ds0 := num_digits 10 dec_char 10 v).
  assert (HF : Forall (fun c => 48 <= c < 58) ds0).
  { apply (num_digits_Forall 10 dec_char 10 v); [lia | unfold dec_char; lia | done]. }
  assert (Hval0 : dec_value ds0 = v).
  { unfold dec_value, ds0. rewrite (num_digits_value 10); [lia | lia | unfold dec_unchar, dec_char; lia | done]. }
  assert (Hv0 : v <> 0).
  { unfold v, u32. intros H0. apply Hne. apply Z.mod_divide in H0 as [z Hz]; lia. }
  destruct (leading_zeros ds0 HF) as (k & c & ds & Hds & Hc); [congruence|].
  assert (Hl : length (replicate k 48 ++ c :: ds) = 10%nat) by (rewrite <- Hds; apply num_digits_length).
  exists k, c, ds. split_and!; [done | done | |].
  { rewrite Hds in HF, Hval0. rewrite dec_value_zeros in Hval0. apply Forall_app in HF as [_ HF].
    split_and!; [done | done | by injection]. }
  intros post Hpost. rewrite length_app, length_replicate in Hl. simpl in Hl.
  unfold itoa. destruct mem as [|m0 mem]; [simpl in Hlen; lia|].
  erewrite bind_Ret by apply (wr_mid [] 0 m0 mem). simpl app.
  destruct (Z.eqb_spec val 0); [done|].
  rewrite <- (take_drop 10 (0 :: mem)). set (old := take 10 (0 :: mem)).
  assert (Hold : length old = 10%nat) by (unfold old; rewrite length_take; cbn [length] in *; lia).
  assert (Hd : exists x, drop 10 (0 :: mem) = x :: post).
  { destruct (lookup_lt_is_Some_2 (0 :: mem) 10) as [x Hx]; [simpl in *; lia|].
    exists x. rewrite (drop_S _ x) by done. subst post. done. }
  destruct Hd as [x ->].
  pose proof (itoa_digits_ok 10 v val [] old (x :: post) ltac:(lia) Hold eq_refl Hv10) as Hdig.
  erewrite bind_Ret by exact Hdig. fold ds0. rewrite Hds. rewrite !app_nil_l.
  replace (Z.of_nat (@length Z []) + Z.of_nat 10) with (Z.of_nat (length (replicate k 48 ++ c :: ds)))
    by (rewrite length_app, length_replicate; simpl; lia).
  erewrite bind_Ret by apply wr_mid. rewrite <- app_assoc. simpl app.
  pose proof (itoa_skip_ok 12 k [] c (ds ++ 0 :: post) ltac:(lia) Hc) as Hskip.
  erewrite bind_Ret by exact Hskip. simpl.
  replace (Z.to_nat (12 - Z.of_nat k)) with (12 - k)%nat by lia. done.
Qed.

(** The shift loop with a zero byte and [post] after the digits: the digits
    move to the front, and [post] is where it was. *)
Lemma itoa_shift_result k c ds post : (k + length (c :: ds) = 10)%nat -> (1 <= length post)%nat ->
  exists rest, itoa_shift (12 - k) 0 (Z.of_nat k) (replicate k 48 ++ c :: ds ++ 0 :: post) =
      Ret tt (cstr (c :: ds) rest) /\
    drop 11 (cstr (c :: ds) rest) = post.
Proof.
  intros Hl Hpost. simpl in Hl. set (m0 := replicate k 48 ++ c :: ds ++ 0 :: post).
  assert (Hm0 : length m0 = (11 + length post)%nat).
  { unfold m0. rewrite length_app, length_replicate. simpl. rewrite length_app. simpl. lia. }
  assert (Hd : drop k m0 = (c :: ds) ++ 0 :: post).
  { unfold m0. rewrite drop_app_length'; [done | by rewrite length_replicate]. }
  assert (Hm : forall x, m0 !! (11 + x)%nat = post !! x).
  { intros x. replace (11 + x)%nat with (k + (11 - k + x))%nat by lia.
    rewrite <- lookup_drop, Hd, cons_middle, app_assoc.
    rewrite lookup_app_r by (rewrite length_app; simpl; lia). f_equal. rewrite length_app. simpl. lia. }
  destruct (itoa_shift_ok (12 - k) 0 k m0 ltac:(lia) ltac:(lia)) as (m1 & Hs & Hl1 & Hq).
  assert (Hm1 : m1 = cstr (c :: ds) (drop (11 - k) m1)).
  { apply list_eq. intros q. unfold cstr. rewrite cons_middle, app_assoc.
    destruct (decide (q < 11 - k)%nat).
    - rewrite Hq, Nat.sub_0_r, decide_True, (Nat.add_comm q), <- lookup_drop, Hd by lia.
      assert (Hlt : (q < length ((c :: ds) ++ [0%Z]))%nat) by (rewrite length_app; simpl; lia).
      rewrite cons_middle, app_assoc, (lookup_app_l _ post), (lookup_app_l _ (drop _ _)); done.
    - rewrite lookup_app_r, lookup_drop by (rewrite length_app; simpl; lia).
      f_equal. rewrite length_app. simpl. lia. }
  exists (drop (11 - k) m1). rewrite <- Hm1. split; [exact Hs|].
  apply list_eq. intros q. rewrite lookup_drop, Hq, Nat.sub_0_r. case_decide; [|apply Hm].
  assert (q = 0%nat /\ k = 0%nat) as [-> ->] by lia. apply Hm.
Qed.

(** Without a byte after the array the loop reads out of bounds. *)
Lemma itoa_shift_overread n b i m0 : length m0 = 11%nat -> (b <= i)%nat -> (i + S n = 12)%nat ->
  exists mem', itoa_shift (S n) (Z.of_nat b) (Z.of_nat i) m0 = Faults mem'.
Proof.
  revert b i m0. induction n as [|n IH]; intros b i m0 Hm0 Hb Hi; cbn [itoa_shift].
  - exists m0. unfold rd, bind, get. by rewrite Nat2Z.id, lookup_ge_None_2 by lia.
  - destruct (lookup_lt_is_Some_2 m0 i ltac:(lia)) as [x Hx].
    erewrite bind_Ret by by apply rd_ok. erewrite bind_Ret by (apply wr_ok; lia).
    destruct (IH (S b) (S i) (<[b := x]> m0)) as [mem' Hf]; [by rewrite length_insert | lia | lia |].
    exists mem'. rewrite <- Hf. by rewrite !Nat2Z.inj_succ.
Qed.

(** ** Properties *)

(** [strcmp] returns 0 exactly on equal strings and 1 otherwise, and
    [strlen], [strcpy] and [strcat] compute length, copy and concatenation,
    for all strings that fit; what follows a destination string in its array
    is left alone. *)
Theorem string_ops (s1 s2 r1 r2 dest : list Z)
    (H1 : no_nul s1) (H2 : no_nul s2)
    (Hlen : Z.of_nat (length s1) < 2 ^ 32) (Hdest : (length s1 < length dest)%nat)
    (Hroom : (length s2 <= length r1)%nat) :
  strcmp (cstr s1 r1) (cstr s2 r2) = Some (if decide (s1 = s2) then 0 else 1) /\
  strlen (cstr s1 r1) = Some (Z.of_nat (length s1)) /\
  strcpy dest (cstr s1 r1) =
    Some (cstr s1 (drop (S (length s1)) dest), Z.of_nat (length s1) + 1) /\
  strcat (cstr s1 r1) (cstr s2 r2) =
    Some (cstr (s1 ++ s2) (drop (length s2) r1), Z.of_nat (length s1 + length s2) + 1).
Proof.
  split_and!; [by apply strcmp_total | by apply strlen_loop_ok | by apply strcpy_ok | by apply strcat_ok].
Qed.

Lemma string_ops_witness :
  strcmp (cstr (str "dev") [9; 9; 9; 9]) (cstr (str "devs") []) = Some 1 /\
  strcat (cstr (str "dev") [9; 9; 9; 9; 9]) (cstr (str "/tty") []) = Some (cstr (str "dev/tty") [9], 8).
Proof.
  assert (Hs : forall s, forallb (fun c => negb (c =? 0)) s = true -> no_nul s).
  { intros s Hs. apply Forall_forall. intros c Hc. rewrite forallb_forall in Hs.
    apply list_elem_of_In, Hs in Hc. lia. }
  split.
  - apply (string_ops (str "dev") (str "devs") [9; 9; 9; 9] [] [7; 7; 7; 7]);
      [by apply Hs | by apply Hs | vm_compute; congruence | vm_compute; lia | vm_compute; lia].
  - apply (string_ops (str "dev") (str "/tty") [9; 9; 9; 9; 9] [] [7; 7; 7; 7]);
      [by apply Hs | by apply Hs | vm_compute; congruence | vm_compute; lia | vm_compute; lia].
Defined.

Lemma itoa_ok val mem : - 2 ^ 31 <= val < 2 ^ 31 -> val <> 0 -> (12 <= length mem)%nat ->
  exists s rest, itoa val mem = Ret tt (cstr s rest) /\ decimal_of (u32 val) s /\ (length s <= 10)%nat /\
    drop 11 (cstr s rest) = drop 11 mem.
Proof.
  intros Hval Hnz Hlen.
  destruct (itoa_body_ok val mem Hval Hnz ltac:(lia)) as (k & c & ds & Hl & Hc & Hdec & Hrun).
  rewrite length_app, length_replicate in Hl. rewrite (Hrun _ eq_refl).
  destruct (itoa_shift_result k c ds (drop 11 mem) Hl) as (rest & Hs & Hrest); [rewrite length_drop; lia|].
  exists (c :: ds), rest. split_and!; [done | done | lia | done].
Qed.

(** For every non-zero [int], [itoa] leaves in [buff] the decimal digits
    of its bit pattern read as unsigned, with no leading zero; a negative
    number therefore prints as its value plus 2^32.  Bytes beyond the eleven
    of [buff] keep their values, but the twelfth has to be there: with the
    array alone the last read is out of bounds. *)
Theorem itoa_prints (val : Z) (mem : list Z) (Hval : - 2 ^ 31 <= val < 2 ^ 31) (Hnz : val <> 0) :
  ((12 <= length mem)%nat ->
   exists s rest, itoa val mem = Ret tt (cstr s rest) /\ decimal_of (u32 val) s /\
     drop 11 (cstr s rest) = drop 11 mem) /\
  (length mem = 11%nat -> exists mem', itoa val mem = Faults mem').
Proof.
  split; intros Hlen; [destruct (itoa_ok val mem Hval Hnz Hlen) as (s & rest & ? & ? & _ & ?); by exists s, rest|].
  destruct (itoa_body_ok val mem Hval Hnz ltac:(lia)) as (k & c & ds & Hl & Hc & Hdec & Hrun).
  rewrite length_app, length_replicate in Hl. rewrite (Hrun _ eq_refl).
  rewrite drop_ge by lia. simpl in Hl. replace (12 - k)%nat with (S (11 - k)) by lia.
  apply (itoa_shift_overread _ 0 k); [|lia|lia].
  rewrite length_app, length_replicate. simpl. rewrite length_app. simpl. lia.
Qed.

Lemma itoa_prints_witness :
  (exists s rest, itoa (-7) (replicate 12 0) = Ret tt (cstr s rest) /\ decimal_of 4294967289 s) /\
  (exists mem', itoa 42 (replicate 11 0) = Faults mem').
Proof.
  split.
  - destruct (proj1 (itoa_prints (-7) (replicate 12 0) ltac:(lia) ltac:(lia))) as (s & rest & H1 & H2 & _);
      [vm_compute; lia|]. by exists s, rest.
  - by apply (itoa_prints 42); [lia | lia |].
Defined.

Lemma itox_ok val mem : 0 <= val < 2 ^ 32 -> (11 <= length mem)%nat ->
  exists s rest, itox val mem = Ret tt (cstr s rest) /\ hex_value s = val /\ no_nul s /\
    length s = (if decide (val = 0) then 1%nat else 8%nat) /\ rest = drop (S (length s)) mem.
Proof.
  intros Hval Hlen.
  do 9 (destruct mem as [|? mem]; [simpl in Hlen; lia|]). unfold itox.
  erewrite bind_Ret by apply (wr_mid [] 0). simpl app.
  destruct (Z.eqb_spec val 0) as [->|Hnz]; case_decide; try done.
  - erewrite bind_Ret by apply (wr_mid [] 48). simpl app.
    exists [48]. eexists. split_and!; [apply (wr_mid [48] 0) | done | by repeat constructor | done | done].
  - pose proof (itox_digits_ok 8 val [] [0; z0; z1; z2; z3; z4; z5; z6] (z7 :: mem)
      ltac:(lia) eq_refl ltac:(lia)) as Hd.
    erewrite bind_Ret by exact Hd. exists (num_digits 16 hex_char 8 val), mem.
    pose proof (num_digits_length 16 hex_char 8 val) as Hl8.
    split_and!; [| | | done | by rewrite Hl8].
    + replace (Z.of_nat (@length Z []) + Z.of_nat 8) with (Z.of_nat (length (num_digits 16 hex_char 8 val)))
        by (rewrite Hl8; done). rewrite app_nil_l. apply wr_mid.
    + unfold hex_value. rewrite (num_digits_value 16); [lia | lia | | lia].
      intros d Hd'. unfold hex_unchar, hex_char. repeat case_match; lia.
    + apply num_digits_Forall; [lia | | lia]. intros d Hd'. unfold hex_char. case_match; lia.
Qed.

(** [itox] leaves in [buff] upper-case hexadecimal digits that denote its
    argument: eight of them, or the single digit 0; the eleven bytes of [buff]
    are enough and what follows the terminating zero is left alone. *)
Theorem itox_prints (val : Z) (mem : list Z) (Hval : 0 <= val < 2 ^ 32) (Hlen : (11 <= length mem)%nat) :
  exists s rest, itox val mem = Ret tt (cstr s rest) /\ hex_value s = val /\ no_nul s /\
    length s = (if decide (val = 0) then 1%nat else 8%nat) /\ rest = drop (S (length s)) mem.
Proof. by apply itox_ok. Qed.

Lemma itox_prints_witness :
  exists s rest, itox 0xBEEF (replicate 11 0) = Ret tt (cstr s rest) /\ hex_value s = 0xBEEF /\
    length s = 8%nat.
Proof.
  destruct (itox_prints 0xBEEF (replicate 11 0)) as (s & rest & H1 & H2 & _ & H3 & _);
    [lia | vm_compute; lia |].
  exists s, rest. split_and!; [exact H1 | exact H2 | exact H3].
Defined.

Example itox_beef : itox 0xBEEF (replicate 11 9) = Ret tt (cstr (str "0000BEEF") [9; 9]).
Proof. reflexivity. Qed.

Example itoa_1066 : exists rest, itoa 1066 (replicate 12 9) = Ret tt (cstr (str "1066") rest).
Proof. eexists. reflexivity. Qed.

Example itoa_0 : itoa 0 (replicate 12 9) = Ret tt (cstr [] (replicate 11 9)).
Proof. reflexivity. Qed.

(** [atoi] never converts anything: a string of at most one character
    gives 0, and on a longer one the assertion about its last character fails,
    whatever the character is. *)
Theorem atoi_useless (s rest : list Z) (Hs : no_nul s) (Hlen : Z.of_nat (length s) < 2 ^ 32) :
  atoi (cstr s rest) tt =
    if decide (length s <= 1)%nat then Ret 0 tt else Panics "*p >= '1' && *p <- '9'" tt.
Proof.
  unfold atoi, strlen. rewrite strlen_loop_ok by (done || lia). simpl deref. unfold bind at 1, ret at 1.
  case_decide.
  - by replace (Z.to_nat _) with 0%nat by lia.
  - destruct (Z.to_nat (0 + Z.of_nat (length s) - 1)) as [|n] eqn:E; [lia|]. cbn [atoi_loop].
    destruct (lookup_lt_is_Some_2 (cstr s rest) (S n)) as [c Hc].
    { unfold cstr. rewrite length_app. simpl. lia. }
    rewrite Hc. simpl. unfold assert, bind, panic, ret.
    assert ((49 <=? s8 c) && (s8 c <? -57) = false) as -> by lia. done.
Qed.

Lemma atoi_useless_witness : atoi (cstr (str "42") []) tt = Panics "*p >= '1' && *p <- '9'" tt.
Proof.
  rewrite (atoi_useless (str "42") []); [reflexivity | by repeat constructor | vm_compute; congruence].
Defined.
