(* ===== verification/Sync.v ===== *)
(** * Sync: the mutexes and semaphores of mutex.h, mutex.c and semaphore.c

    Every function is a list of instructions, each of which makes at most one
    access to the shared semaphore; any thread may take the next turn after
    each of them, which is what preemption by the timer does.  Invariants of
    all interleavings are established by a small verifier of instruction
    lists: each position of each function carries an annotation (which locks
    are held there, what is known about the counter), [check] compares the
    annotations along every instruction, and [step_inv] shows that checked
    functions keep the annotations true in every reachable state. *)

From S2P Require Import Prelude.

(** ** Shared data *)

(** The two waiter lists: that of the semaphore and that of its mutex
    [exclusive]. *)
Inductive queue := QSem | QExcl.

(** The lock words of a [semaphore_t]: [enter], [exclusive.s], and the light
    mutex of each waiter list. *)
Inductive lock := LEnter | LExcl | LQ (q : queue).

#[export] Instance queue_eq_dec : EqDecision queue.
Proof. solve_decision. Defined.
#[export] Instance lock_eq_dec : EqDecision lock.
Proof. solve_decision. Defined.

(** [semaphore_t]; a waiter is identified with the thread that waits, and
    [waiting] is the flag of its [mutex_waiter_t]. *)
Record sem := mkSem {
  cnt : Z;
  max_cnt : Z;
  word : lock -> Z;
  waiters : queue -> list nat;
  waiting : nat -> bool
}.

#[export] Instance eta_sem : Eta sem :=
  fun s => mkSem (cnt s) (max_cnt s) (word s) (waiters s) (waiting s).

Definition upd {K V} `{EqDecision K} (f : K -> V) (k : K) (v : V) : K -> V :=
  fun k' => if decide (k' = k) then v else f k'.

Lemma upd_same {K V} `{EqDecision K} (f : K -> V) k v : upd f k v k = v.
Proof. unfold upd. by rewrite decide_True. Qed.

(** [SEMAPHORE_INITIALIZER(max, count)]. *)
Definition SEMAPHORE_INITIALIZER (max count : Z) : sem :=
  mkSem count max (fun _ => 0) (fun _ => []) (fun _ => false).

(** ** Instructions *)

Inductive instr :=
| TryLock (l : lock) (fail : nat)   (* if (!mutex_try(l)) goto fail *)
| WaitLock (l : lock)               (* mutex_wait / mutex_busywait *)
| Release (l : lock)                (* mutex_release *)
| LdCnt                             (* reg = s->cnt *)
| BrLt (no : nat)                   (* if (!(reg < s->max_cnt)) goto no *)
| BrZero (no : nat)                 (* if (!(reg == 0)) goto no *)
| BrGt (no : nat)                   (* if (!(reg > 0)) goto no *)
| StInc                             (* s->cnt = reg + 1 *)
| StDec                             (* s->cnt = reg - 1 *)
| Attach (q : queue)                (* waiting = 1, pid, append to the list *)
| Sleep                             (* while (waiter.waiting) pause() *)
| AssertWaiters (q : queue)         (* assert( *waiters_list != NULL) *)
| Detach (q : queue)                (* unlink the waiter from the list *)
| BrNoWaiters (q : queue) (no : nat) (* if (s->waiters == NULL) goto no *)
| WakeHead (q : queue)              (* s->waiters->waiting = 0: one step, and the
                                       pthread_kill of the waiter is left out, as
                                       it changes neither count nor lock *)
| Jump (to : nat)
| Return (r : bool).

Inductive fname :=
| f_try | f_try_excl | f_wait | f_wait_excl | f_busywait | f_busywait_excl
| f_waitsleep | f_waitsleep_excl | f_signal_sleep | f_signal | f_signal_excl | f_trysignal.

#[export] Instance fname_eq_dec : EqDecision fname.
Proof. solve_decision. Defined.

(** ** The functions

    [mutex_attach_waiter] and [mutex_detach_waiter] are inlined, and so is
    [mutex_waitsleep] where a function calls it on [exclusive]. *)

Definition mutex_attach_waiter (q : queue) : list instr :=
  [WaitLock (LQ q); Attach q; Release (LQ q)].

Definition mutex_detach_waiter (q : queue) : list instr :=
  [AssertWaiters q; WaitLock (LQ q); Detach q; Release (LQ q)].

(** Eleven instructions at the start of a function: try the lock, and while it
    was taken sleep on its waiter list and try again. *)
Definition mutex_waitsleep : list instr :=
  [TryLock LExcl 2; Jump 11] ++
  mutex_attach_waiter QExcl ++ [Sleep] ++ mutex_detach_waiter QExcl ++ [Jump 0].

Definition semaphore_try : list instr :=
  [ TryLock LExcl 11;
    TryLock LEnter 10;
    LdCnt; BrLt 9;
    LdCnt; StInc; Release LEnter; Release LExcl; Return true;
    Release LEnter;
    Release LExcl;
    Return false ].

Definition semaphore_try_excl : list instr :=
  [ TryLock LExcl 8;
    TryLock LEnter 7;
    LdCnt; BrZero 6;
    Release LEnter; Return true;
    Release LEnter;
    Release LExcl;
    Return false ].

Definition semaphore_wait : list instr :=
  [ WaitLock LExcl;
    WaitLock LEnter;
    LdCnt; BrLt 9;
    LdCnt; StInc; Release LEnter; Release LExcl; Return true;
    Release LEnter;
    Jump 1 ].

Definition semaphore_wait_excl : list instr :=
  [ WaitLock LExcl;
    WaitLock LEnter;
    LdCnt; BrZero 6;
    Release LEnter; Return true;
    Release LEnter;
    Jump 1 ].

Definition semaphore_busywait : list instr :=
  [ WaitLock LExcl;
    WaitLock LEnter;
    LdCnt; BrLt 9;
    LdCnt; StInc; Release LEnter; Release LExcl; Return true;
    Release LEnter;
    Jump 1 ].

Definition semaphore_busywait_excl : list instr :=
  [ WaitLock LExcl;
    WaitLock LEnter;
    LdCnt; BrZero 6;
    Release LEnter; Return true;
    Release LEnter;
    Jump 1 ].

Definition semaphore_waitsleep : list instr :=
  mutex_waitsleep ++
  [ WaitLock LEnter;
    LdCnt; BrLt 19;
    LdCnt; StInc; Release LEnter; Release LExcl; Return true;
    Release LEnter ] ++
  mutex_attach_waiter QSem ++ [Sleep] ++ mutex_detach_waiter QSem ++
  [ Jump 11 ].

Definition semaphore_waitsleep_excl : list instr :=
  mutex_waitsleep ++
  [ WaitLock LEnter;
    LdCnt; BrZero 16;
    Release LEnter; Return true;
    Release LEnter ] ++
  mutex_attach_waiter QSem ++ [Sleep] ++ mutex_detach_waiter QSem ++
  [ Jump 11 ].

Definition semaphore_signal_sleep : list instr :=
  [ WaitLock LEnter;
    LdCnt; BrGt 9;
    LdCnt; StDec;
    BrNoWaiters QSem 7; WakeHead QSem;
    Release LEnter; Return true;
    Release LEnter;
    Jump 0 ].

Definition semaphore_signal : list instr :=
  [ WaitLock LEnter;
    LdCnt; BrGt 7;
    LdCnt; StDec; Release LEnter; Return true;
    Release LEnter;
    Jump 0 ].

Definition semaphore_signal_excl : list instr :=
  [ Release LExcl; Return true ].

Definition semaphore_trysignal : list instr :=
  [ TryLock LEnter 8;
    LdCnt; BrGt 7;
    LdCnt; StDec; Release LEnter; Return true;
    Release LEnter;
    Return false ].

Definition code (f : fname) : list instr :=
  match f with
  | f_try => semaphore_try
  | f_try_excl => semaphore_try_excl
  | f_wait => semaphore_wait
  | f_wait_excl => semaphore_wait_excl
  | f_busywait => semaphore_busywait
  | f_busywait_excl => semaphore_busywait_excl
  | f_waitsleep => semaphore_waitsleep
  | f_waitsleep_excl => semaphore_waitsleep_excl
  | f_signal_sleep => semaphore_signal_sleep
  | f_signal => semaphore_signal
  | f_signal_excl => semaphore_signal_excl
  | f_trysignal => semaphore_trysignal
  end.

(** ** Threads and turns *)

(** A thread is between calls, with its last call and that call's result, or
    inside a function. *)
Inductive thread :=
| Out (last : option (fname * bool))
| Run (f : fname) (pc : nat) (reg : Z).

Record state := mkState { shared : sem; threads : list thread }.

#[export] Instance eta_state : Eta state := fun s => mkState (shared s) (threads s).

(** What one instruction does: the new semaphore with the next position and
    register, a return, a failed assertion, or a bad dereference. *)
Inductive result :=
| Next (s : sem) (pc : nat) (reg : Z)
| Returned (r : bool)
| AssertFails
| BadPointer.

Definition exec (tid : nat) (i : instr) (s : sem) (pc : nat) (reg : Z) : result :=
  match i with
  | TryLock l fail =>
      if word s l =? 0 then Next (s <| word := upd (word s) l 1 |>) (S pc) reg
      else if word s l =? 1 then Next s fail reg
      else AssertFails
  | WaitLock l =>
      if word s l =? 0 then Next (s <| word := upd (word s) l 1 |>) (S pc) reg
      else if word s l =? 1 then Next s pc reg
      else AssertFails
  | Release l =>
      if word s l =? 1 then Next (s <| word := upd (word s) l 0 |>) (S pc) reg
      else AssertFails
  | LdCnt => Next s (S pc) (cnt s)
  | BrLt no => Next s (if reg <? max_cnt s then S pc else no) reg
  | BrZero no => Next s (if reg =? 0 then S pc else no) reg
  | BrGt no => Next s (if 0 <? reg then S pc else no) reg
  | StInc => Next (s <| cnt := u32 (reg + 1) |>) (S pc) reg
  | StDec => Next (s <| cnt := u32 (reg - 1) |>) (S pc) reg
  | Attach q =>
      Next (s <| waiting := upd (waiting s) tid true |>
              <| waiters := upd (waiters s) q (waiters s q ++ [tid]) |>) (S pc) reg
  | Sleep => Next s (if waiting s tid then pc else S pc) reg
  | AssertWaiters q =>
      match waiters s q with [] => AssertFails | _ => Next s (S pc) reg end
  | Detach q =>
      if decide (tid ∈ waiters s q)
      then Next (s <| waiters := upd (waiters s) q (filter (fun t => t <> tid) (waiters s q)) |>) (S pc) reg
      else AssertFails
  | BrNoWaiters q no =>
      Next s (match waiters s q with [] => no | _ => S pc end) reg
  | WakeHead q =>
      match waiters s q with
      | [] => BadPointer
      | t :: _ => Next (s <| waiting := upd (waiting s) t false |>) (S pc) reg
      end
  | Jump to => Next s to reg
  | Return r => Returned r
  end.

(** The turn of thread [i]; nothing happens between calls. *)
Definition turn (i : nat) : M state unit :=
  s <- get;;
  match threads s !! i with
  | Some (Run f pc reg) =>
      match code f !! pc with
      | None => fault
      | Some c =>
          match exec i c (shared s) pc reg with
          | Next m pc' reg' => modify (fun _ => mkState m (<[i := Run f pc' reg']> (threads s)))
          | Returned r => modify (fun _ => mkState (shared s) (<[i := Out (Some (f, r))]> (threads s)))
          | AssertFails => panic "assert"
          | BadPointer => fault
          end
      end
  | _ => ret tt
  end.

(** Functions that return holding the semaphore exclusively. *)
Definition takes_excl (f : fname) : bool :=
  match f with
  | f_try_excl | f_wait_excl | f_busywait_excl | f_waitsleep_excl => true
  | _ => false
  end.

(** The thread's last call gave it exclusive access. *)
Definition owner (last : option (fname * bool)) : bool :=
  match last with Some (f, r) => takes_excl f && r | None => false end.

(** A thread may call [f]: the owner of the semaphore gives it up with
    [semaphore_signal_excl] before it calls anything else on it. *)
Definition may_call (f : fname) (last : option (fname * bool)) : bool :=
  eqb (owner last) (bool_decide (f = f_signal_excl)).

Inductive step : state -> state -> Prop :=
| step_turn i s s' : turn i s = Ret tt s' -> step s s'
| step_call i f last s :
    threads s !! i = Some (Out last) -> may_call f last = true ->
    step s (s <| threads := <[i := Run f 0 0]> (threads s) |>).

(** [n] threads start with a fresh semaphore. *)
Definition start (n : nat) (max count : Z) : state :=
  mkState (SEMAPHORE_INITIALIZER max count) (replicate n (Out None)).

(** ** Annotations *)

Inductive fact := FNone | FLt | FZero | FGt.
#[export] Instance fact_eq_dec : EqDecision fact.
Proof. solve_decision. Defined.

(** What holds of a thread at a position: the locks it has; whether its
    register is the counter and what it found out about the counter, while it
    has [enter]; whether it has [exclusive] with a counter of zero; and the
    waiter list it is on. *)
Record ann := mkAnn {
  a_enter : bool;
  a_excl : bool;
  a_qs : bool;
  a_qx : bool;
  a_reg : bool;
  a_fact : fact;
  a_zero : bool;
  a_in : option queue
}.

#[export] Instance eta_ann : Eta ann :=
  fun a => mkAnn (a_enter a) (a_excl a) (a_qs a) (a_qx a) (a_reg a) (a_fact a) (a_zero a) (a_in a).
#[export] Instance ann_eq_dec : EqDecision ann.
Proof. solve_decision. Defined.

Definition holds (a : ann) (l : lock) : bool :=
  match l with LEnter => a_enter a | LExcl => a_excl a | LQ QSem => a_qs a | LQ QExcl => a_qx a end.

Definition take_lock (l : lock) (a : ann) : ann :=
  match l with
  | LEnter => a <| a_enter := true |> <| a_reg := false |> <| a_fact := FNone |>
  | LExcl => a <| a_excl := true |>
  | LQ QSem => a <| a_qs := true |>
  | LQ QExcl => a <| a_qx := true |>
  end.

Definition drop_lock (l : lock) (a : ann) : ann :=
  match l with
  | LEnter => a <| a_enter := false |> <| a_reg := false |> <| a_fact := FNone |>
  | LExcl => a <| a_excl := false |> <| a_zero := false |>
  | LQ QSem => a <| a_qs := false |>
  | LQ QExcl => a <| a_qx := false |>
  end.

(** Between calls a thread has nothing but, as owner, [exclusive]. *)
Definition out_ann (own : bool) : ann := mkAnn false own false false false FNone own None.

(** The annotations after an instruction at [pc], one per successor; [None]
    when the instruction is not allowed there. *)
Definition trans (f : fname) (i : instr) (pc : nat) (a : ann) : option (list (nat * ann)) :=
  match i with
  | TryLock l fail => if holds a l then None else Some [(S pc, take_lock l a); (fail, a)]
  | WaitLock l => if holds a l then None else Some [(S pc, take_lock l a); (pc, a)]
  | Release l => if holds a l then Some [(S pc, drop_lock l a)] else None
  | LdCnt => if a_enter a then Some [(S pc, a <| a_reg := true |>)] else None
  | BrLt no =>
      if a_enter a && a_reg a
      then Some [(S pc, a <| a_fact := FLt |>); (no, a <| a_fact := FNone |>)] else None
  | BrZero no =>
      if a_enter a && a_reg a
      then Some [(S pc, a <| a_fact := FZero |> <| a_zero := a_excl a |>); (no, a <| a_fact := FNone |>)]
      else None
  | BrGt no =>
      if a_enter a && a_reg a
      then Some [(S pc, a <| a_fact := FGt |>); (no, a <| a_fact := FNone |>)] else None
  | StInc =>
      if a_enter a && a_excl a && a_reg a && bool_decide (a_fact a = FLt) && negb (a_zero a)
      then Some [(S pc, a <| a_reg := false |> <| a_fact := FNone |>)] else None
  | StDec =>
      if a_enter a && a_reg a && bool_decide (a_fact a = FGt) && negb (a_zero a)
      then Some [(S pc, a <| a_reg := false |> <| a_fact := FNone |>)] else None
  | Attach q =>
      if holds a (LQ q) && bool_decide (a_in a = None)
      then Some [(S pc, a <| a_in := Some q |>)] else None
  | Sleep => Some [(S pc, a); (pc, a)]
  | AssertWaiters q => if bool_decide (a_in a = Some q) then Some [(S pc, a)] else None
  | Detach q =>
      if holds a (LQ q) && bool_decide (a_in a = Some q)
      then Some [(S pc, a <| a_in := None |>)] else None
  | BrNoWaiters q no => Some [(S pc, a); (no, a)]
  | WakeHead q => Some [(S pc, a)]
  | Jump to => Some [(to, a)]
  | Return r => if bool_decide (a = out_ann (owner (Some (f, r)))) then Some [] else None
  end.

(** Annotations inferred in one pass over a function. *)
Definition note (t : list (option ann)) (p : nat * ann) : list (option ann) :=
  match t !! p.1 with Some None => <[p.1 := Some p.2]> t | _ => t end.

Definition visit (f : fname) (t : list (option ann)) (pc : nat) : list (option ann) :=
  match t !! pc, code f !! pc with
  | Some (Some a), Some i => fold_left note (default [] (trans f i pc a)) t
  | _, _ => t
  end.

Definition entry (f : fname) : ann := out_ann (bool_decide (f = f_signal_excl)).

Definition table (f : fname) : list (option ann) :=
  fold_left (visit f) (seq 0 (length (code f)))
    (<[0%nat := Some (entry f)]> (replicate (length (code f)) None)).

Definition ann_at (f : fname) (pc : nat) : option ann := mjoin (table f !! pc).

(** The verifier: every annotated position has an instruction that is allowed
    there, and its successors carry the annotations it produces. *)
Definition check_pos (f : fname) (pc : nat) : bool :=
  match ann_at f pc, code f !! pc with
  | None, _ => true
  | Some a, Some i =>
      match trans f i pc a with
      | Some succs => forallb (fun p => bool_decide (ann_at f p.1 = Some p.2)) succs
      | None => false
      end
  | Some _, None => false
  end.

Definition check (f : fname) : bool :=
  bool_decide (ann_at f 0 = Some (entry f)) &&
  forallb (check_pos f) (seq 0 (length (code f))).

Lemma checked f : check f = true.
Proof. destruct f; vm_compute; reflexivity. Qed.

Lemma entry_ann f : ann_at f 0 = Some (entry f).
Proof. pose proof (checked f) as H. apply andb_prop in H as [H _]. by apply bool_decide_eq_true in H. Qed.

Lemma table_length f : length (table f) = length (code f).
Proof. destruct f; vm_compute; reflexivity. Qed.

Lemma trans_checked f pc a : ann_at f pc = Some a ->
  exists i succs, code f !! pc = Some i /\ trans f i pc a = Some succs /\
    forall pc' a', In (pc', a') succs -> ann_at f pc' = Some a'.
Proof.
  intros Ha. pose proof (checked f) as H. apply andb_prop in H as [_ H].
  assert (Hpc : (pc < length (code f))%nat).
  { unfold ann_at in Ha. destruct (table f !! pc) eqn:E; [|done].
    apply lookup_lt_Some in E. by rewrite table_length in E. }
  rewrite forallb_forall in H. specialize (H pc). rewrite in_seq in H. specialize (H ltac:(lia)).
  unfold check_pos in H. rewrite Ha in H. destruct (code f !! pc) as [i|]; [|done].
  destruct (trans f i pc a) as [succs|] eqn:E; [|done]. exists i, succs. split_and!; [done..|].
  intros pc' a' Hin. rewrite forallb_forall in H. specialize (H _ Hin).
  by apply bool_decide_eq_true in H.
Qed.

(** ** The invariant *)

Definition tann (t : thread) : option ann :=
  match t with Out last => Some (out_ann (owner last)) | Run f pc _ => ann_at f pc end.

Definition reg_of (t : thread) : Z := match t with Run _ _ r => r | Out _ => 0 end.

Definition fact_ok (s : sem) (f : fact) : Prop :=
  match f with
  | FNone => True
  | FLt => cnt s < max_cnt s
  | FZero => cnt s = 0
  | FGt => 0 < cnt s
  end.

Definition facts (s : sem) (i : nat) (t : thread) (a : ann) : Prop :=
  (a_enter a = true -> (a_reg a = true -> reg_of t = cnt s) /\ fact_ok s (a_fact a)) /\
  (a_zero a = true -> a_excl a = true /\ cnt s = 0) /\
  (forall q, a_in a = Some q -> i ∈ waiters s q).

Record inv (s : state) : Prop := {
  inv_words : forall l, word (shared s) l = 0 \/ word (shared s) l = 1;
  inv_ann : forall i t, threads s !! i = Some t -> exists a, tann t = Some a /\ facts (shared s) i t a;
  inv_held : forall i t a l, threads s !! i = Some t -> tann t = Some a -> holds a l = true ->
    word (shared s) l = 1;
  inv_mutex : forall i j t u a b l, threads s !! i = Some t -> threads s !! j = Some u ->
    tann t = Some a -> tann u = Some b -> holds a l = true -> holds b l = true -> i = j;
  inv_cnt : 0 <= cnt (shared s) <= max_cnt (shared s);
  inv_max : max_cnt (shared s) < 2 ^ 32
}.

(** What a move of thread [i] has to satisfy to keep the invariant. *)
Lemma inv_move s i t a m t' a' :
  inv s -> threads s !! i = Some t -> tann t = Some a -> tann t' = Some a' ->
  (forall l, word m l = 0 \/ word m l = 1) ->
  (forall l, holds a' l = true -> word m l = 1) ->
  (forall l, holds a l = false -> holds a' l = true -> word (shared s) l = 0) ->
  (forall l, holds a l = false -> word (shared s) l = 1 -> word m l = 1) ->
  0 <= cnt m <= max_cnt m -> max_cnt m = max_cnt (shared s) ->
  facts m i t' a' ->
  (forall j u b, j <> i -> threads s !! j = Some u -> tann u = Some b ->
     facts (shared s) j u b -> facts m j u b) ->
  inv (mkState m (<[i := t']> (threads s))).
Proof.
  intros [Iw Ia Ih Im Ic Ix] Ht Ha Ha' Hw Hh Hnew Hoth Hc Hmax Hf Hfo.
  assert (Hlen : (i < length (threads s))%nat) by (by eapply lookup_lt_Some).
  assert (Hlk : forall j u, <[i := t']> (threads s) !! j = Some u ->
     (j = i /\ u = t') \/ (j <> i /\ threads s !! j = Some u)).
  { intros j u. destruct (decide (j = i)) as [->|Hne].
    - rewrite list_lookup_insert_eq by done. naive_solver.
    - rewrite list_lookup_insert_ne by done. naive_solver. }
  assert (Hno : forall j u b l, j <> i -> threads s !! j = Some u -> tann u = Some b ->
     holds b l = true -> holds a l = false).
  { intros j u b l Hj Hu Hb Hl. destruct (holds a l) eqn:E; [|done].
    destruct Hj. by eapply (Im j i u t b a l). }
  split; simpl.
  - done.
  - intros j u [[-> ->]|[Hj Hu]]%Hlk; [eauto|]. destruct (Ia _ _ Hu) as (b & Hb & Hfb).
    exists b. split; [done | by eapply Hfo].
  - intros j u b l [[-> ->]|[Hj Hu]]%Hlk Hb Hl; [simplify_eq; eauto|].
    apply Hoth; [by eapply Hno | by eapply Ih].
  - intros j k u v b c l [[-> ->]|[Hj Hu]]%Hlk [[-> ->]|[Hk Hv]]%Hlk Hb Hc' Hlb Hlc; simplify_eq; try done.
    + pose proof (Hno _ _ _ _ Hk Hv Hc' Hlc) as Hal. pose proof (Hnew _ Hal Hlb) as H0.
      rewrite (Ih _ _ _ _ Hv Hc' Hlc) in H0. done.
    + pose proof (Hno _ _ _ _ Hj Hu Hb Hlb) as Hal. pose proof (Hnew _ Hal Hlc) as H0.
      rewrite (Ih _ _ _ _ Hu Hb Hlb) in H0. done.
    + by eapply (Im j k u v b c l).
  - done.
  - by rewrite Hmax.
Qed.

(** The locks held before and after are the same. *)
Lemma inv_same_locks s i t a m t' a' :
  inv s -> threads s !! i = Some t -> tann t = Some a -> tann t' = Some a' ->
  (forall l, holds a' l = holds a l) -> word m = word (shared s) ->
  0 <= cnt m <= max_cnt m -> max_cnt m = max_cnt (shared s) -> facts m i t' a' ->
  (forall j u b, j <> i -> threads s !! j = Some u -> tann u = Some b ->
     facts (shared s) j u b -> facts m j u b) ->
  inv (mkState m (<[i := t']> (threads s))).
Proof.
  intros Hinv Ht Ha Ha' Hl Hw Hc Hmax Hf Ho. apply (inv_move s i t a m t' a'); try done.
  - intros l. rewrite Hw. apply (inv_words _ Hinv).
  - intros l. rewrite Hl, Hw. by apply (inv_held _ Hinv i t a).
  - intros l. rewrite Hl. congruence.
  - intros l _. by rewrite Hw.
Qed.

(** The semaphore does not change. *)
Lemma inv_quiet s i t a t' a' :
  inv s -> threads s !! i = Some t -> tann t = Some a -> tann t' = Some a' ->
  (forall l, holds a' l = holds a l) -> facts (shared s) i t' a' ->
  inv (mkState (shared s) (<[i := t']> (threads s))).
Proof. intros. eapply inv_same_locks; eauto. by apply inv_cnt. Qed.

Lemma holds_take a l l' : holds (take_lock l a) l' = if decide (l' = l) then true else holds a l'.
Proof. by destruct l as [| |[]], l' as [| |[]]. Qed.

Lemma holds_drop a l l' : holds (drop_lock l a) l' = if decide (l' = l) then false else holds a l'.
Proof. by destruct l as [| |[]], l' as [| |[]]. Qed.

Lemma inv_acquire s i t a t' l :
  inv s -> threads s !! i = Some t -> tann t = Some a -> tann t' = Some (take_lock l a) ->
  word (shared s) l = 0 -> facts (shared s) i t' (take_lock l a) ->
  inv (mkState ((shared s) <| word := upd (word (shared s)) l 1 |>) (<[i := t']> (threads s))).
Proof.
  intros Hinv Ht Ha Ha' Hw Hf. apply (inv_move s i t a _ t' (take_lock l a)); simpl; try done.
  - intros l'. unfold upd. case_decide; [auto | apply (inv_words _ Hinv)].
  - intros l'. rewrite holds_take. unfold upd. case_decide; [done | by apply (inv_held _ Hinv i t a)].
  - intros l' Hl. rewrite holds_take. case_decide; congruence.
  - intros l' _ Hl. unfold upd. by case_decide.
  - by apply inv_cnt.
Qed.

Lemma inv_release s i t a t' l :
  inv s -> threads s !! i = Some t -> tann t = Some a -> tann t' = Some (drop_lock l a) ->
  holds a l = true -> facts (shared s) i t' (drop_lock l a) ->
  inv (mkState ((shared s) <| word := upd (word (shared s)) l 0 |>) (<[i := t']> (threads s))).
Proof.
  intros Hinv Ht Ha Ha' Hh Hf. apply (inv_move s i t a _ t' (drop_lock l a)); simpl; try done.
  - intros l'. unfold upd. case_decide; [auto | apply (inv_words _ Hinv)].
  - intros l'. rewrite holds_drop. unfold upd. case_decide; [done | by apply (inv_held _ Hinv i t a)].
  - intros l' Hl. rewrite holds_drop. case_decide; congruence.
  - intros l' Hl Hw. unfold upd. case_decide; congruence.
  - by apply inv_cnt.
Qed.

(** A store to the counter by a thread that has [enter]: the others know
    nothing of the counter, unless they are owners. *)
Lemma inv_store s i t a t' a' v :
  inv s -> threads s !! i = Some t -> tann t = Some a -> tann t' = Some a' ->
  (forall l, holds a' l = holds a l) -> a_enter a = true -> 0 <= v <= max_cnt (shared s) ->
  facts ((shared s) <| cnt := v |>) i t' a' ->
  (forall j u b, j <> i -> threads s !! j = Some u -> tann u = Some b -> a_zero b = true ->
     a_excl b = true -> cnt (shared s) = 0 -> v = 0) ->
  inv (mkState ((shared s) <| cnt := v |>) (<[i := t']> (threads s))).
Proof.
  intros Hinv Ht Ha Ha' Hl He Hv Hf Hz. eapply inv_same_locks; eauto.
  intros j u b Hj Hu Hb (H1 & H2 & H3). split_and!; [| |done].
  - intros Hbe. destruct Hj. by apply (inv_mutex _ Hinv j i u t b a LEnter).
  - intros Hbz. destruct (H2 Hbz). split; [done | simpl; eauto].
Qed.

(** The case analysis on annotations that [trans] makes. *)
Ltac ann_cases :=
  repeat match goal with
  | H : context [if ?b then _ else _] |- _ => destruct b eqn:?; simplify_eq; simpl in *
  | H : _ && _ = true |- _ => apply andb_prop in H as [? ?]
  | H : bool_decide _ = true |- _ => apply bool_decide_eq_true in H
  | H : negb _ = true |- _ => apply negb_true_iff in H
  end.

(** Applies a lemma on moves, with the annotation of the successor. *)
Ltac move_by lem Hsucc :=
  eapply lem; [done | done | done | apply Hsucc; simpl; by auto | try by intros [| |[]].. ].

Ltac solve_facts := split_and!; simpl in *; naive_solver lia.

Lemma facts_waiters s m j u b :
  cnt m = cnt s -> max_cnt m = max_cnt s -> (forall q, j ∈ waiters s q -> j ∈ waiters m q) ->
  facts s j u b -> facts m j u b.
Proof.
  intros Hc Hm Hw (F1 & F2 & F3). split_and!; [|by rewrite Hc | eauto].
  intros He. destruct (F1 He) as [F F']. rewrite Hc. split; [done|].
  destruct (a_fact b); simpl in *; lia.
Qed.

(** The store of a thread that has [enter] and knows its register. *)
Lemma exec_store s i f pc reg a v pc' a' :
  inv s -> threads s !! i = Some (Run f pc reg) -> ann_at f pc = Some a -> ann_at f pc' = Some a' ->
  a' = a <| a_reg := false |> <| a_fact := FNone |> ->
  a_enter a = true -> a_zero a = false ->
  0 <= v <= max_cnt (shared s) -> (a_excl a = true \/ 0 < cnt (shared s)) ->
  facts (shared s) i (Run f pc reg) a ->
  inv (mkState ((shared s) <| cnt := u32 v |>) (<[i := Run f pc' reg]> (threads s))).
Proof.
  intros Hinv Ht Ha Ha' -> He Hz Hv Hexc (F1 & F2 & F3). pose proof (inv_max _ Hinv).
  rewrite u32_small by lia.
  eapply (inv_store s i); [done | done | done | exact Ha' | by intros [| |[]] | done | lia | |].
  - split_and!; simpl in *; naive_solver congruence.
  - intros j u b Hj Hu Hb _ Hbx H0. destruct Hexc; [|lia].
    destruct Hj. by eapply (inv_mutex _ Hinv j i u _ b a LExcl).
Qed.

(** A change of the waiter list [q], which keeps the other threads on it. *)
Lemma exec_waiters s i f pc reg a q l w pc' a' :
  inv s -> threads s !! i = Some (Run f pc reg) -> ann_at f pc = Some a -> ann_at f pc' = Some a' ->
  (forall l, holds a' l = holds a l) ->
  (forall j, j <> i -> j ∈ waiters (shared s) q -> j ∈ l) ->
  facts ((shared s) <| waiters := upd (waiters (shared s)) q l |> <| waiting := w |>) i (Run f pc' reg) a' ->
  inv (mkState ((shared s) <| waiters := upd (waiters (shared s)) q l |> <| waiting := w |>)
               (<[i := Run f pc' reg]> (threads s))).
Proof.
  intros Hinv Ht Ha Ha' Hl Hk Hf. eapply (inv_same_locks s i); eauto; [apply (inv_cnt _ Hinv)|].
  intros j u b Hj _ _ Hfj. eapply facts_waiters; [..|exact Hfj]; [done | done |].
  intros q' Hq'. simpl. unfold upd. case_decide; [subst; auto | done].
Qed.

Ltac move_waiters Hsucc :=
  eapply exec_waiters; [done | done | done | apply Hsucc; simpl; by auto | by intros [| |[]] | | ].

(** One instruction keeps the invariant. *)
Lemma exec_inv s i f pc reg a c m pc' reg' :
  inv s -> threads s !! i = Some (Run f pc reg) -> ann_at f pc = Some a -> code f !! pc = Some c ->
  exec i c (shared s) pc reg = Next m pc' reg' ->
  inv (mkState m (<[i := Run f pc' reg']> (threads s))).
Proof.
  intros Hinv Ht Ha Hc He.
  destruct (trans_checked f pc a Ha) as (c' & succs & Hc' & Htr & Hsucc). simplify_eq.
  destruct (inv_ann _ Hinv _ _ Ht) as (a0 & Ha0 & Hf). simpl in Ha0. simplify_eq.
  pose proof (inv_cnt _ Hinv) as Hcnt. pose proof Hf as (Hen & Hz & Hq). simpl in Hen.
  destruct c; simpl in He, Htr; ann_cases;
    try (move_by inv_acquire Hsucc; [lia | destruct l as [| |[]]; solve_facts]);
    try (move_by inv_release Hsucc; [done | destruct l as [| |[]]; solve_facts]);
    try (move_by inv_quiet Hsucc; solve_facts);
    try (destruct (Hen ltac:(done)) as [Hr Hfa]; simplify_eq;
         match goal with |- context [if ?b then _ else _] => destruct b eqn:? end;
         move_by inv_quiet Hsucc; solve_facts).
  - match goal with H : a_fact _ = _, H1 : a_enter _ = _ |- _ => rewrite H in Hen; destruct (Hen H1) as [Hr Hfa] end.
    simpl in Hfa. eapply exec_store; eauto using in_eq; rewrite ?Hr; auto; lia.
  - match goal with H : a_fact _ = _, H1 : a_enter _ = _ |- _ => rewrite H in Hen; destruct (Hen H1) as [Hr Hfa] end.
    simpl in Hfa. eapply exec_store; eauto using in_eq; rewrite ?Hr; auto; lia.
  - move_waiters Hsucc; [set_solver|]. split_and!; simpl in *; [naive_solver..|].
    intros q' [= <-]. rewrite upd_same. set_solver.
  - move_waiters Hsucc; [set_solver|]. split_and!; simpl in *; [naive_solver..|].
    intros q' [= <-]. rewrite upd_same. set_solver.
  - move_waiters Hsucc; [intros; by apply list_elem_of_filter|]. split_and!; simpl in *; naive_solver.
  - move_waiters Hsucc; [intros; by apply list_elem_of_filter|]. split_and!; simpl in *; naive_solver.
  - destruct (waiters (shared s) q); simplify_eq.
    move_by inv_same_locks Hsucc; simpl; try done.
  - simplify_eq. move_by inv_quiet Hsucc. solve_facts.
Qed.

(** ** Reachable states *)

Lemma exec_no_assert s i f pc reg a c :
  inv s -> threads s !! i = Some (Run f pc reg) -> ann_at f pc = Some a -> code f !! pc = Some c ->
  exec i c (shared s) pc reg <> AssertFails.
Proof.
  intros Hinv Ht Ha Hc He.
  destruct (trans_checked f pc a Ha) as (c' & succs & Hc' & Htr & Hsucc). simplify_eq.
  destruct (inv_ann _ Hinv _ _ Ht) as (a0 & Ha0 & Hf). simpl in Ha0. simplify_eq.
  destruct Hf as (_ & _ & Hq).
  destruct c; simpl in He, Htr; try done.
  - destruct (inv_words _ Hinv l) as [Hw|Hw]; by rewrite Hw in He.
  - destruct (inv_words _ Hinv l) as [Hw|Hw]; by rewrite Hw in He.
  - destruct (holds a l) eqn:Hl; [|done]. by rewrite (inv_held _ Hinv _ _ _ _ Ht Ha Hl) in He.
  - case_bool_decide as Hin; [|done]. specialize (Hq _ Hin). destruct (waiters (shared s) q); [by apply elem_of_nil in Hq | done].
  - case_decide as Hn; [done|]. ann_cases; by apply Hn, Hq.
  - by destruct (waiters (shared s) q).
Qed.

(** The thread returns with what its annotation says. *)
Lemma exec_returned s i f pc reg a c r :
  inv s -> threads s !! i = Some (Run f pc reg) -> ann_at f pc = Some a -> code f !! pc = Some c ->
  exec i c (shared s) pc reg = Returned r -> a = out_ann (owner (Some (f, r))).
Proof.
  intros Hinv Ht Ha Hc He.
  destruct (trans_checked f pc a Ha) as (c' & succs & Hc' & Htr & Hsucc). simplify_eq.
  destruct c; simpl in He, Htr; repeat case_match; simplify_eq.
  by match goal with H : bool_decide _ = true |- _ => apply bool_decide_eq_true in H end.
Qed.

(** A turn keeps the invariant, and no assertion fails in it. *)
Lemma turn_inv i s : inv s ->
  match turn i s with Ret _ s' => inv s' | Faults _ => True | _ => False end.
Proof.
  intros Hinv. unfold turn, bind, get. simpl.
  destruct (threads s !! i) as [[last|f pc reg]|] eqn:Ht; [done | | done].
  destruct (inv_ann _ Hinv _ _ Ht) as (a & Ha & Hf). simpl in Ha.
  destruct (trans_checked f pc a Ha) as (c & succs & Hc & _ & _). rewrite Hc.
  destruct (exec i c (shared s) pc reg) as [m pc' reg'|r| |] eqn:He; simpl; [| | |done].
  - by eapply exec_inv.
  - pose proof (exec_returned _ _ _ _ _ _ _ _ Hinv Ht Ha Hc He) as ->.
    eapply (inv_quiet s i _ _ (Out (Some (f, r)))); [done | done | done | done | done |].
    destruct Hf as (H1 & H2 & H3). split_and!; done.
  - by eapply exec_no_assert in He.
Qed.

Lemma call_inv i f last s :
  inv s -> threads s !! i = Some (Out last) -> may_call f last = true ->
  inv (s <| threads := <[i := Run f 0 0]> (threads s) |>).
Proof.
  intros Hinv Ht Hc. destruct (inv_ann _ Hinv _ _ Ht) as (a & Ha & Hf). simpl in Ha. simplify_eq.
  assert (He : out_ann (owner last) = entry f).
  { unfold entry. f_equal. by apply eqb_prop in Hc. }
  eapply (inv_quiet s i _ _ (Run f 0 0)); [done | done | done | | | ].
  - simpl. by rewrite entry_ann.
  - by rewrite He.
  - rewrite <- He. destruct Hf as (H1 & H2 & H3). split_and!; done.
Qed.

Lemma start_inv n max count : 0 <= count <= max -> max < 2 ^ 32 -> inv (start n max count).
Proof.
  intros Hc Hm. split; simpl; try done.
  - auto.
  - intros i t [-> _]%lookup_replicate. exists (out_ann false). split; [done|]. by split_and!.
  - intros i t a l [-> _]%lookup_replicate [= <-]. by destruct l as [| |[]].
  - intros i j t u a b l [-> _]%lookup_replicate _ [= <-]. by destruct l as [| |[]].
Qed.

Definition reachable (n : nat) (max count : Z) (s : state) : Prop := rtc step (start n max count) s.

Lemma reachable_inv n max count s :
  0 <= count <= max -> max < 2 ^ 32 -> reachable n max count s -> inv s.
Proof.
  intros Hc Hm Hr. pose proof (start_inv n max count Hc Hm) as Hi. revert Hi.
  induction Hr as [s|s1 s2 s3 Hstep _ IH]; [done|]. intros Hi. apply IH.
  destruct Hstep as [i s s' Ht|i f last s Ht Hmc].
  - pose proof (turn_inv i s Hi) as H. by rewrite Ht in H.
  - by eapply call_inv.
Qed.

Lemma exec_max tid c s pc reg m pc' reg' :
  exec tid c s pc reg = Next m pc' reg' -> max_cnt m = max_cnt s.
Proof. destruct c; simpl; intros; repeat case_match; by simplify_eq. Qed.

Lemma reachable_max n max count s : reachable n max count s -> max_cnt (shared s) = max.
Proof.
  intros Hr. change max with (max_cnt (shared (start n max count))).
  induction Hr as [s|s1 s2 s3 Hstep _ IH]; [done|]. rewrite IH. clear IH.
  destruct Hstep as [i s s' Ht|i f last s Ht Hmc]; [|done].
  unfold turn, bind, get in Ht. simpl in Ht.
  repeat case_match; simplify_eq; unfold modify, ret in *; simplify_eq; simpl; try done.
  by eapply exec_max.
Qed.

(** C2: In every state that any interleaving of the twelve semaphore functions
    can reach from a fresh semaphore, the counter is between 0 and the
    maximum; no assertion of mutex.h fails in the next turn of any thread; and
    a thread that got exclusive access is the only one, while no slot is
    taken. *)
Theorem semaphore_safe n max count s :
  0 <= count <= max -> max < 2 ^ 32 -> reachable n max count s ->
  0 <= cnt (shared s) <= max /\
  (forall i msg s', turn i s <> Panics msg s') /\
  (forall i last, threads s !! i = Some (Out last) -> owner last = true ->
     cnt (shared s) = 0 /\
     forall j last', threads s !! j = Some (Out last') -> owner last' = true -> j = i).
Proof.
  intros Hc Hm Hr. pose proof (reachable_inv _ _ _ _ Hc Hm Hr) as Hinv. split_and!.
  - apply (inv_cnt _ Hinv).
  - rewrite <- (reachable_max _ _ _ _ Hr). apply (inv_cnt _ Hinv).
  - intros i msg s' He. pose proof (turn_inv i s Hinv) as H. by rewrite He in H.
  - intros i last Hi Ho. destruct (inv_ann _ Hinv _ _ Hi) as (a & Ha & _ & Hz & _).
    simpl in Ha. simplify_eq. rewrite Ho in Hz. split; [by apply Hz|].
    intros j last' Hj Ho'. eapply (inv_mutex _ Hinv j i _ _ _ _ LExcl); eauto; done.
Qed.

(** ** Schedules

    A schedule says which thread moves next, and which call it makes when it
    is between calls. *)

Inductive event := Turn (i : nat) | Call (i : nat) (f : fname).

Definition event_step (e : event) (s : state) : option state :=
  match e with
  | Turn i => match turn i s with Ret _ s' => Some s' | _ => None end
  | Call i f =>
      match threads s !! i with
      | Some (Out last) =>
          if may_call f last then Some (s <| threads := <[i := Run f 0 0]> (threads s) |>) else None
      | _ => None
      end
  end.

Fixpoint play (l : list event) (s : state) : option state :=
  match l with
  | [] => Some s
  | e :: l => match event_step e s with Some s' => play l s' | None => None end
  end.

Lemma play_steps l s s' : play l s = Some s' -> rtc step s s'.
Proof.
  revert s. induction l as [|e l IH]; simpl; intros s H; [by simplify_eq|].
  destruct (event_step e s) as [s1|] eqn:E; [|done]. eapply rtc_l; [|by apply IH].
  destruct e as [i|i f]; simpl in E; repeat case_match; simplify_eq.
  - apply (step_turn i). by destruct a.
  - by eapply step_call.
Qed.

Definition turns (i n : nat) : list event := replicate n (Turn i).

Example semaphore_safe_witness :
  exists s, play (Call 0 f_wait_excl :: turns 0 6) (start 2 1 0) = Some s /\
    threads s !! 0%nat = Some (Out (Some (f_wait_excl, true))) /\ cnt (shared s) = 0.
Proof.
  destruct (play (Call 0 f_wait_excl :: turns 0 6) (start 2 1 0)) as [s|] eqn:E; [|by vm_compute in E].
  assert (threads s !! 0%nat = Some (Out (Some (f_wait_excl, true)))) as Ht.
  { vm_compute in E. by simplify_eq. }
  exists s. split_and!; [done | done |].
  eapply (semaphore_safe 2 1 0 s); [lia | lia | by eapply play_steps | exact Ht | done].
Defined.

(** ** The functions that never wait *)

Definition wait_free (f : fname) : bool :=
  match f with f_try | f_try_excl | f_trysignal | f_signal_excl => true | _ => false end.

(** Every instruction of such a function goes forward and cannot fault. *)
Definition forward (f : fname) (pc : nat) (c : instr) : bool :=
  let in_code n := bool_decide (pc < n < length (code f))%nat in
  match c with
  | TryLock _ n | BrLt n | BrZero n | BrGt n => in_code n && in_code (S pc)
  | Release _ | LdCnt | StInc | StDec => in_code (S pc)
  | Return _ => true
  | _ => false
  end.

Lemma wait_free_forward f pc c : wait_free f = true -> code f !! pc = Some c -> forward f pc c = true.
Proof.
  intros Hw Hc. assert (H : forallb (fun p => forward f p.1 p.2) (imap pair (code f)) = true).
  { by destruct f; vm_compute. }
  rewrite forallb_forall in H. apply (H (pc, c)), list_elem_of_In, list_elem_of_lookup.
  exists pc. by rewrite list_lookup_imap, Hc.
Qed.

(** C37: [semaphore_try], [semaphore_try_excl], [semaphore_trysignal] and
    [semaphore_signal_excl] never wait: whatever the other threads did, the
    next turn of a thread inside one of them completes, and either the call
    returns or the thread is at a later instruction of the function; so a call
    returns after at most as many of the thread's turns as the function has
    instructions. *)
Theorem semaphore_try_wait_free n max count s i f pc reg :
  0 <= count <= max -> max < 2 ^ 32 -> reachable n max count s ->
  threads s !! i = Some (Run f pc reg) -> wait_free f = true ->
  exists s', turn i s = Ret tt s' /\
    ((exists r, threads s' !! i = Some (Out (Some (f, r)))) \/
     (exists pc' reg', threads s' !! i = Some (Run f pc' reg') /\ (pc < pc' < length (code f))%nat)).
Proof.
  intros Hc Hm Hr Ht Hw. pose proof (reachable_inv _ _ _ _ Hc Hm Hr) as Hinv.
  assert (Hlen : (i < length (threads s))%nat) by (by eapply lookup_lt_Some).
  destruct (inv_ann _ Hinv _ _ Ht) as (a & Ha & _). simpl in Ha.
  destruct (trans_checked f pc a Ha) as (c & _ & Hcode & _).
  pose proof (wait_free_forward _ _ _ Hw Hcode) as Hfwd.
  pose proof (exec_no_assert _ _ _ _ _ _ _ Hinv Ht Ha Hcode) as Hna.
  unfold turn, bind, get. simpl. rewrite Ht, Hcode.
  destruct (exec i c (shared s) pc reg) as [m pc' reg'|r| |] eqn:He; [| | done |].
  - eexists. split; [done|]. right. exists pc', reg'. simpl.
    rewrite list_lookup_insert_eq by done. split; [done|].
    destruct c; simpl in He, Hfwd; repeat case_match; simplify_eq; ann_cases; done.
  - eexists. split; [done|]. left. exists r. simpl. by rewrite list_lookup_insert_eq.
  - destruct c; simpl in He, Hfwd; repeat case_match; done.
Qed.

Example semaphore_try_wait_free_witness :
  exists s', turn 0 ((start 1 1 0) <| threads := [Run f_try 0 0] |>) = Ret tt s' /\
    ((exists r, threads s' !! 0%nat = Some (Out (Some (f_try, r)))) \/
     (exists pc' reg', threads s' !! 0%nat = Some (Run f_try pc' reg') /\
        (0 < pc' < length (code f_try))%nat)).
Proof.
  apply (semaphore_try_wait_free 1 1 0 _ 0 f_try 0 0); [lia | lia | | done | done].
  apply rtc_once. by apply (step_call 0 f_try None (start 1 1 0)).
Defined.

(** ** Lost wakeup

    A thread that finds the semaphore full releases [enter] before it is on
    the waiter list.  A signal in between wakes nobody; the thread then sleeps
    with [exclusive] in its hands, so that no other thread can take a slot, no
    later signal succeeds, and nothing ever wakes it. *)

Definition asleep_forever (s : state) : Prop :=
  inv s /\ (exists reg, threads s !! 1%nat = Some (Run f_waitsleep 23 reg)) /\
  waiting (shared s) 1%nat = true /\ cnt (shared s) = 0 /\
  (forall j reg, threads s !! j <> Some (Run f_signal_sleep 5 reg) /\
                 threads s !! j <> Some (Run f_signal_sleep 6 reg)).

Definition is_wake (c : instr) : bool := match c with WakeHead _ => true | _ => false end.

(** Only position 6 of [semaphore_signal_sleep] wakes a waiter, and it is
    reached through the store of the decremented counter. *)
Lemma wake_position f pc q : code f !! pc = Some (WakeHead q) -> f = f_signal_sleep /\ pc = 6%nat.
Proof.
  intros Hc.
  assert (H : forallb (fun p => negb (is_wake p.2) || bool_decide (f = f_signal_sleep /\ p.1 = 6%nat))
                (imap pair (code f)) = true) by (by destruct f; vm_compute).
  rewrite forallb_forall in H. assert (Hin : In (pc, WakeHead q) (imap pair (code f))).
  { apply list_elem_of_In, list_elem_of_lookup. exists pc. by rewrite list_lookup_imap, Hc. }
  specialize (H _ Hin). by apply bool_decide_eq_true in H.
Qed.

Lemma exec_no_wake tid c s pc reg m pc' reg' t :
  exec tid c s pc reg = Next m pc' reg' -> is_wake c = false -> t <> tid ->
  waiting m t = waiting s t.
Proof.
  intros He Hw Hne. destruct c; simpl in *; repeat case_match; simplify_eq; simpl; try done.
  unfold upd. by rewrite decide_False.
Qed.

Lemma before_wake i pc reg c s m pc' reg' :
  code f_signal_sleep !! pc = Some c -> exec i c s pc reg = Next m pc' reg' ->
  (pc' = 5 \/ pc' = 6)%nat -> (pc = 4 \/ pc = 5)%nat.
Proof.
  intros Hc He Hp.
  do 11 (destruct pc as [|pc]; [injection Hc as <-; simpl in He; repeat case_match; simplify_eq; lia|]).
  done.
Qed.

(** With [exclusive] taken by thread 1 and no slot taken, no other thread can
    change the counter. *)
Lemma exec_cnt_frozen s i f pc reg a c m pc' reg' reg1 :
  inv s -> threads s !! i = Some (Run f pc reg) -> ann_at f pc = Some a -> code f !! pc = Some c ->
  threads s !! 1%nat = Some (Run f_waitsleep 23 reg1) -> i <> 1%nat -> cnt (shared s) = 0 ->
  exec i c (shared s) pc reg = Next m pc' reg' -> cnt m = 0 /\ c <> StDec.
Proof.
  intros Hinv Ht Ha Hc H1 Hi H0 He.
  destruct (trans_checked f pc a Ha) as (c' & succs & Hc' & Htr & _). simplify_eq.
  destruct (inv_ann _ Hinv _ _ Ht) as (a0 & Ha0 & Hen & _). simpl in Ha0, Hen. simplify_eq.
  destruct c; simpl in He, Htr; try (repeat case_match; simplify_eq; simpl; by split).
  - destruct Hi. ann_cases.
    eapply (inv_mutex _ Hinv i 1 _ _ _ _ LExcl); [exact Ht | exact H1 | exact Ha | by vm_compute | done | done].
  - exfalso. ann_cases. destruct (Hen ltac:(done)) as [_ Hfa].
    match goal with H : a_fact _ = FGt |- _ => rewrite H in Hfa end. simpl in Hfa. lia.
Qed.

Lemma asleep_forever_step s s' : asleep_forever s -> step s s' -> asleep_forever s'.
Proof.
  intros (Hinv & (reg1 & H1) & Hw & H0 & Hno) Hs.
  destruct Hs as [i s s' Ht|i f last s Ht Hmc].
  2:{ split_and!; [by eapply call_inv | | done | done |]; simpl.
      - exists reg1. rewrite list_lookup_insert_ne; [done|]. intros ->. congruence.
      - intros j reg. destruct (decide (i = j)) as [->|]; [|by rewrite list_lookup_insert_ne].
        rewrite list_lookup_insert_eq by (by eapply lookup_lt_Some). by split. }
  pose proof (turn_inv i s Hinv) as Hi. rewrite Ht in Hi.
  unfold turn, bind, get, modify, ret in Ht. simpl in Ht.
  destruct (threads s !! i) as [[last|f pc reg]|] eqn:Hthr; [by simplify_eq; split_and!; eauto| |
    by simplify_eq; split_and!; eauto].
  destruct (inv_ann _ Hinv _ _ Hthr) as (a & Ha & _). simpl in Ha.
  destruct (code f !! pc) as [c|] eqn:Hc; [|done].
  assert (Hlen : (i < length (threads s))%nat) by (by eapply lookup_lt_Some).
  destruct (decide (i = 1%nat)) as [->|Hne].
  { rewrite Hthr in H1. injection H1 as -> -> ->. injection Hc as <-. simpl in Ht. rewrite Hw in Ht.
    injection Ht as <-. rewrite list_insert_id in * by done. by split_and!; eauto. }
  destruct (exec i c (shared s) pc reg) as [m pc' reg'|r| |] eqn:He; simplify_eq.
  2:{ split_and!; simpl; [done | exists reg1; by rewrite list_lookup_insert_ne | done | done |].
      intros j reg2. destruct (decide (i = j)) as [->|]; [|by rewrite list_lookup_insert_ne].
      by rewrite list_lookup_insert_eq. }
  destruct (exec_cnt_frozen _ _ _ _ _ _ _ _ _ _ _ Hinv Hthr Ha Hc H1 Hne H0 He) as [Hm Hnd].
  split_and!; simpl; [done | exists reg1; by rewrite list_lookup_insert_ne | | done |].
  - rewrite (exec_no_wake _ _ _ _ _ _ _ _ _ He); [done | | done].
    destruct c; try done. apply wake_position in Hc as [-> ->].
    destruct (Hno i reg) as [_ []]. exact Hthr.
  - intros j reg2. destruct (decide (i = j)) as [->|]; [|by rewrite list_lookup_insert_ne].
    rewrite list_lookup_insert_eq by done.
    assert (f = f_signal_sleep -> ~ (pc' = 5 \/ pc' = 6)%nat) as Hb.
    2:{ split; intros [= -> -> _]; by apply Hb; auto. }
    intros -> Hp. destruct (before_wake _ _ _ _ _ _ _ _ Hc He Hp) as [-> | ->].
    + injection Hc as <-. by destruct Hnd.
    + destruct (Hno j reg) as [[] _]. exact Hthr.
Qed.

(** The schedule: thread 0 takes the only slot; thread 1 finds none left and is
    preempted after it released [enter]; thread 0 gives the slot back; thread 1
    goes to sleep. *)
Definition lost_wakeup : list event :=
  Call 0 f_waitsleep :: turns 0 10 ++
  Call 1 f_waitsleep :: turns 1 6 ++
  Call 0 f_signal_sleep :: turns 0 8 ++ turns 1 3.

(** [semaphore_waitsleep] can lose a wakeup: a state is reachable in which
    thread 1 sleeps in it although no slot of the semaphore is taken, and it
    is still asleep, with no slot taken, in every state that any schedule can
    reach from there. *)
Theorem semaphore_waitsleep_lost_wakeup :
  exists s, reachable 2 1 0 s /\
    forall s', rtc step s s' ->
      cnt (shared s') = 0 /\ waiting (shared s') 1%nat = true /\
      exists reg, threads s' !! 1%nat = Some (Run f_waitsleep 23 reg).
Proof.
  destruct (play lost_wakeup (start 2 1 0)) as [s|] eqn:E; [|by vm_compute in E].
  pose proof (play_steps _ _ _ E) as Hr. exists s. split; [done|].
  assert (Ha : asleep_forever s).
  { assert (threads s = [Out (Some (f_signal_sleep, true)); Run f_waitsleep 23 1] /\
      waiting (shared s) 1%nat = true /\ cnt (shared s) = 0) as (Ht & Hw & H0).
    { vm_compute in E. injection E as <-. by split_and!. }
    split; [apply (reachable_inv 2 1 0); [lia | lia | exact Hr]|]. rewrite Ht. split_and!; [by eexists | done | done |].
    intros [|[|j]] reg; by split. }
  clear E Hr. intros s' Hr. induction Hr as [s|s1 s2 s3 Hstep _ IH].
  - destruct Ha as (_ & ? & ? & ? & _). done.
  - apply IH. by eapply asleep_forever_step.
Qed.

(** The schedule of the race in [semaphore_signal_sleep]: it tests the waiter
    list and then reads its head, and [enter], which it has, does not protect
    the list.  Thread 2 was woken by thread 0 and leaves the list between the
    test and the read of thread 1. *)
Definition wake_race : list event :=
  Call 2 f_waitsleep :: turns 2 10 ++
  Call 0 f_signal_sleep :: turns 0 9 ++
  Call 1 f_signal_sleep :: turns 1 6 ++ turns 2 4.

(** [semaphore_signal_sleep] can dereference NULL: with two slots taken,
    a state is reachable in which the next turn of thread 1, which is inside
    it, reads through the head of an empty waiter list. *)
Theorem semaphore_signal_sleep_race :
  exists s, reachable 3 2 2 s /\ threads s !! 1%nat = Some (Run f_signal_sleep 6 1) /\
    turn 1 s = Faults s.
Proof.
  destruct (play wake_race (start 3 2 2)) as [s|] eqn:E; [|by vm_compute in E].
  pose proof (play_steps _ _ _ E) as Hr. exists s. split; [done|].
  vm_compute in E. simplify_eq. by split.
Qed.
