(* ===== verification/Chain.v ===== *)
(** * Chain: linked lists in a heap

    Siblings in a directory, open files of a table, items of a task list: the
    objects of a type that are linked through a field [next], as a relation
    between a heap, the pointer to the first object and the list of addresses,
    with the lemmas on appending, removing and leaving a chain alone that all
    users share. *)

From S2P Require Import Prelude.

Section Chain.
Context {T : Type} (next : T -> Z).
Implicit Types (h : gmap Z T) (p q : Z) (l : list Z).

(** The objects [l] are linked in this order, from the pointer [p] to NULL. *)
Fixpoint chain h p l : Prop :=
  match l with
  | [] => p = 0
  | q :: l => p = q /\ q <> 0 /\ exists n, h !! q = Some n /\ chain h (next n) l
  end.

Lemma chain_frame h h' p l :
  chain h p l ->
  (forall q n, q ∈ l -> h !! q = Some n -> exists n', h' !! q = Some n' /\ next n' = next n) ->
  chain h' p l.
Proof.
  revert p. induction l as [|q l IH]; simpl; [done|]. intros p (-> & Hq & n & Hn & Hc) Hf.
  split_and!; [done | done |]. destruct (Hf q n) as (n' & Hn' & He); [set_solver | done |].
  exists n'. split; [done|]. rewrite He. apply IH; [done|]. intros. apply Hf; [set_solver | done].
Qed.

Lemma chain_det h p l l' : chain h p l -> chain h p l' -> l = l'.
Proof.
  revert p l'. induction l as [|q l IH]; intros p [|q' l']; simpl; try done.
  - by intros -> (<- & ? & _).
  - by intros (-> & ? & _) ->.
  - intros (-> & _ & n & Hn & Hc) (-> & _ & n' & Hn' & Hc'). simplify_eq. f_equal. by eapply IH.
Qed.

Lemma chain_suffix h p l1 q l2 : chain h p (l1 ++ q :: l2) -> chain h q (q :: l2).
Proof.
  revert p. induction l1 as [|q1 l1 IH]; intros p; simpl; [by intros (-> & ?)|].
  intros (_ & _ & n & _ & Hc). by eapply IH.
Qed.

(** Following [next] never comes back to the same node. *)
Lemma chain_NoDup h p l : chain h p l -> NoDup l.
Proof.
  revert p. induction l as [|q l IH]; intros p; [constructor|]. intros Hc.
  constructor; [|destruct Hc as (_ & _ & n & _ & Hc); by eapply IH].
  intros (l1 & l2 & ->)%list_elem_of_split.
  pose proof (chain_suffix h p (q :: l1) q l2 Hc) as H1.
  simpl in Hc. destruct Hc as (-> & Hq & n & Hn & Hc).
  assert (chain h q (q :: l1 ++ q :: l2)) as H2 by (simpl; eauto).
  pose proof (chain_det _ _ _ _ H1 H2) as He. apply (f_equal length) in He.
  rewrite !length_cons, length_app, length_cons in He. lia.
Qed.

Lemma chain_dom h p l q : chain h p l -> q ∈ l -> q <> 0 /\ exists n, h !! q = Some n.
Proof.
  revert p. induction l as [|q' l IH]; intros p; [set_solver|].
  intros (-> & Hq & n & Hn & Hc) [-> | Hin]%elem_of_cons; [eauto | by eapply IH].
Qed.

(** A chain fits in the heap, so [chain_fuel] is enough to follow it. *)
Lemma chain_size h p l : chain h p l -> (length l <= size h)%nat.
Proof.
  intros Hc. rewrite <- size_dom. pose proof (chain_NoDup _ _ _ Hc) as Hd.
  rewrite <- (size_list_to_set (C := gset Z) l Hd). apply subseteq_size.
  intros q Hq. apply elem_of_list_to_set in Hq. apply elem_of_dom.
  destruct (chain_dom _ _ _ _ Hc Hq) as [_ [n ->]]. by eexists.
Qed.

Lemma chain_nonnull h p l : chain h p l -> (p = 0 <-> l = []).
Proof. destruct l as [|q l]; simpl; [done|]. intros (-> & Hq & _). by split. Qed.

Lemma chain_head h p l : chain h p l -> p <> 0 -> exists l', l = p :: l'.
Proof. destruct l as [|q l]; simpl; [done|]. intros (-> & _) _. by eexists. Qed.

(** The chain with another end. *)
Lemma chain_tail h p l1 q l2 l : chain h p (l1 ++ q :: l2) -> chain h q l -> chain h p (l1 ++ l).
Proof.
  intros Hc Hl. revert p Hc. induction l1 as [|q1 l1 IH]; intros p; simpl; [by intros (-> & _)|].
  intros (-> & Hq1 & n1 & Hn1 & Hc). split_and!; [done | done |]. exists n1. split; [done|]. by apply IH.
Qed.

(** Every node keeps its [next]. *)
Definition links (h h' : gmap Z T) : Prop :=
  forall q n, h !! q = Some n -> exists n', h' !! q = Some n' /\ next n' = next n.

#[export] Instance links_preorder : PreOrder links.
Proof.
  split; [by intros h q n Hn; exists n|]. intros h1 h2 h3 H12 H23 q n Hn.
  destruct (H12 _ _ Hn) as (n2 & Hn2 & He2). destruct (H23 _ _ Hn2) as (n3 & Hn3 & He3).
  exists n3. split; congruence.
Qed.

Lemma links_insert h p n n' : h !! p = Some n -> next n' = next n -> links h (<[p := n']> h).
Proof.
  intros Hp He q m Hq. destruct (decide (q = p)) as [->|Hne]; simplify_map_eq; eauto.
Qed.

Lemma chain_links h h' p l : links h h' -> chain h p l -> chain h' p l.
Proof. intros Hl Hc. eapply chain_frame; [done|]. intros. by apply Hl. Qed.

(** A new last element. *)
Lemma chain_append h p l q n' node m :
  chain h p (l ++ [q]) -> next n' = node -> h !! node = Some m -> next m = 0 ->
  node <> 0 -> node ∉ l ++ [q] ->
  chain (<[q := n']> h) p ((l ++ [q]) ++ [node]).
Proof.
  intros Hc Hq Hm H0 Hnn Hni. pose proof (chain_NoDup _ _ _ Hc) as Hd.
  assert (Hs : chain (<[q := n']> h) q [q; node]).
  { assert (node <> q) by set_solver.
    simpl. split_and!; [done | by destruct (chain_dom _ _ _ q Hc ltac:(set_solver)) |].
    exists n'. split; [by rewrite lookup_insert_eq|]. rewrite Hq. split_and!; [done | done |].
    exists m. rewrite lookup_insert_ne by done. done. }
  rewrite <- app_assoc. revert p Hc. induction l as [|q1 l IH]; intros p; simpl.
  - by intros (-> & _).
  - intros (-> & Hq1 & n1 & Hn1 & Hc). apply NoDup_cons in Hd as [Hd1 Hd].
    split_and!; [done | done |]. exists n1. rewrite lookup_insert_ne by set_solver.
    split; [done|]. apply IH; [set_solver | done | done].
Qed.

(** An element taken out. *)
Lemma chain_remove h p l1 q node l2 nq nn :
  chain h p (l1 ++ q :: node :: l2) -> next nq = next nn -> h !! node = Some nn ->
  chain (<[q := nq]> h) p (l1 ++ q :: l2).
Proof.
  intros Hc Hq Hn. pose proof (chain_NoDup _ _ _ Hc) as Hd.
  assert (Hs : chain h (next nn) l2).
  { pose proof (chain_suffix h p (l1 ++ [q]) node l2) as H. rewrite <- app_assoc in H.
    destruct (H Hc) as (_ & _ & n' & Hn' & Hc'). by simplify_eq. }
  revert p Hc. induction l1 as [|q1 l1 IH]; intros p; simpl.
  - intros (-> & Hq0 & n & Hn1 & Hc). split_and!; [done | done |]. exists nq.
    split; [by rewrite lookup_insert_eq|]. rewrite Hq. eapply chain_frame; [done|].
    intros r m Hr Hm. exists m. rewrite lookup_insert_ne; [done|].
    simpl in Hd. apply NoDup_cons in Hd as [Hd _]. set_solver.
  - intros (-> & Hq1 & n1 & Hn1 & Hc). simpl in Hd. apply NoDup_cons in Hd as [Hd1 Hd].
    split_and!; [done | done |]. exists n1. rewrite lookup_insert_ne by set_solver.
    split; [done|]. by apply IH.
Qed.

End Chain.

#[global] Arguments chain_frame {T next}.
#[global] Arguments chain_det {T next}.
#[global] Arguments chain_suffix {T next}.
#[global] Arguments chain_NoDup {T next}.
#[global] Arguments chain_dom {T next}.
#[global] Arguments chain_size {T next}.
#[global] Arguments chain_nonnull {T next}.
#[global] Arguments chain_head {T next}.
#[global] Arguments chain_tail {T next}.
#[global] Arguments links_insert {T next}.
#[global] Arguments chain_links {T next}.
#[global] Arguments chain_append {T next}.
#[global] Arguments chain_remove {T next}.
