(* ===== verification/KState.v ===== *)
(** * KState: the kernel's data structures

    The structures that vfs.c, io.c, scheduler.c, signal.c, env.c and procfs.c
    share, the kernel heap that holds them, and the accesses those files make:
    loads and stores through pointers, [malloc] and [free], and the lock words
    of the objects.  A pointer is a [Z], NULL is 0, and each type of object has
    its own finite map from addresses to live objects; an access through a
    pointer to no live object of its type is the outcome [Faults]. *)

From S2P Require Import Prelude.

(** ** Error numbers (errno.h) *)

Definition ESUCCESS := 0.
Definition EACCES := -2.
Definition EBADF := -3.
Definition EFAULT := -4.
Definition ENAMETOOLONG := -6.
Definition ENOENT := -7.
Definition ENOMEM := -8.
Definition ENOSYS := -12.
Definition ECHILD := -13.
Definition EINVAL := -14.
Definition EPERM := -16.
Definition ESRCH := -17.
Definition EAGAIN := -18.

(** ** Virtual file system (vfs.h) *)

Definition FS_FILE := 0x1.
Definition FS_DIRECTORY := 0x2.
Definition FS_CHARDEVICE := 0x3.
Definition FS_BLOCKDEVICE := 0x4.
Definition FS_PIPE := 0x5.
Definition FS_SYMLINK := 0x6.
Definition FS_MOUNTPOINT := 0x8.
Definition FS_AUTOFREE := 0x20000.

Definition MAX_PATH := 255.
Definition MAX_PATH_NODES := 64.

(** [vfs_node_t].  [n_name] is the content of the array up to its NUL; the
    operations are the addresses of driver functions, 0 when absent. *)
Record vfs_node := mkNode {
  n_name : string;
  n_uid : Z;
  n_gid : Z;
  n_mask : Z;
  n_flags : Z;
  n_inode : Z;
  n_major : Z;
  n_minor : Z;
  n_length : Z;
  n_impl : Z;
  n_refs : Z;
  n_data : Z;
  n_lock : Z;
  n_read : Z;
  n_write : Z;
  n_open : Z;
  n_close : Z;
  n_readdir : Z;
  n_finddir : Z;
  n_stat : Z;
  n_ioctl : Z;
  n_chown : Z;
  n_parent : Z;
  n_ptr : Z;
  n_next : Z
}.

#[export] Instance eta_node : Eta vfs_node := fun n =>
  mkNode (n_name n) (n_uid n) (n_gid n) (n_mask n) (n_flags n) (n_inode n) (n_major n) (n_minor n)
    (n_length n) (n_impl n) (n_refs n) (n_data n) (n_lock n) (n_read n) (n_write n) (n_open n)
    (n_close n) (n_readdir n) (n_finddir n) (n_stat n) (n_ioctl n) (n_chown n) (n_parent n)
    (n_ptr n) (n_next n).

(** [VFS_NODE_INITIALIZER(f)]; the mask is the decimal 777. *)
Definition VFS_NODE_INITIALIZER (f : Z) : vfs_node :=
  mkNode "" 0 0 777 f 0 0 0 0 0 0 0 0 0 0 0 0 0 0 0 0 0 0 0 0.

(** [pipe_t]; the semaphore is represented by its counter and maximum, since
    one task at a time runs in the kernel's view of a call.  The pointers into
    the buffer are offsets from [p_buf]. *)
Record pipe_t := mkPipe {
  p_buf : Z;
  p_buf_end : Z;
  p_read_ptr : Z;
  p_write_ptr : Z;
  p_cnt : Z;
  p_max_cnt : Z
}.

#[export] Instance eta_pipe : Eta pipe_t := fun p =>
  mkPipe (p_buf p) (p_buf_end p) (p_read_ptr p) (p_write_ptr p) (p_cnt p) (p_max_cnt p).

(** [struct dirent] and the fields of [struct stat] that are ever set. *)
Record dirent := mkDirent { de_name : string; de_ino : Z }.

Record stat_t := mkStat { st_mode : Z; st_uid : Z; st_gid : Z; st_size : Z }.

(** ** Descriptors (io.h) *)

Definition FD_MODE_READ := 0x1.
Definition FD_MODE_WRITE := 0x2.

(** [file_t] *)
Record file_t := mkFile {
  f_fd : Z;
  f_offset : Z;
  f_mode : Z;
  f_node : Z;
  f_next : Z
}.

#[export] Instance eta_file : Eta file_t := fun f =>
  mkFile (f_fd f) (f_offset f) (f_mode f) (f_node f) (f_next f).

(** [desc_info_t] *)
Record desc_info := mkDesc {
  d_fd_next : Z;
  d_refs : Z;
  d_lock : Z;
  d_files : Z
}.

#[export] Instance eta_desc : Eta desc_info := fun d =>
  mkDesc (d_fd_next d) (d_refs d) (d_lock d) (d_files d).

(** ** Signals (signal.h) *)

Record siginfo := mkSiginfo {
  si_signo : Z;
  si_code : Z;
  si_errno : Z;
  si_pid : Z;
  si_uid : Z;
  si_addr : Z;
  si_status : Z;
  si_band : Z;
  si_value : Z
}.

Record sigact := mkSigact { sa_mask : Z; sa_flags : Z; sa_handler : Z }.

#[export] Instance eta_sigact : Eta sigact := fun a =>
  mkSigact (sa_mask a) (sa_flags a) (sa_handler a).

Record sigstack := mkStack { ss_sp : Z; ss_size : Z; ss_flags : Z }.

(** ** Tasks (scheduler.h) *)

Definition TASK_STATE_RUNNING := 0.
Definition TASK_STATE_WAITING := 1.
Definition TASK_STATE_STOPPED := 2.
Definition TASK_STATE_ZOMBIE := 3.

(** [LINKED_LIST_TYPE(task_t)] and its items (linkedlist.h). *)
Record llist := mkList { l_first : Z; l_last : Z; l_current : Z; l_scratch : Z; l_count : Z }.

#[export] Instance eta_llist : Eta llist := fun l =>
  mkList (l_first l) (l_last l) (l_current l) (l_scratch l) (l_count l).

Record litem := mkItem { i_val : Z; i_next : Z }.

#[export] Instance eta_litem : Eta litem := fun i => mkItem (i_val i) (i_next i).

Definition LINKED_LIST_INIT : llist := mkList 0 0 0 0 0.

(** [task_t]; of the machine state only the kernel stack, without registers,
    page tables and memory maps. *)
Record task := mkTask {
  t_id : Z;
  t_pid : Z;
  t_uid : Z;
  t_gid : Z;
  t_euid : Z;
  t_egid : Z;
  t_errno : Z;
  t_status : Z;
  t_exit_code : Z;
  t_envp : Z;
  t_sigmask : Z;
  t_sig_pending : list Z;
  t_sig_delivered : list Z;
  t_sig_info : list (list siginfo);
  t_sig_action : list sigact;
  t_sig_altstack : sigstack;
  t_procfs_node : Z;
  t_cwd : Z;
  t_root : Z;
  t_env_lock : Z;
  t_lock : Z;
  t_descriptors_info : Z;
  t_parent : Z;
  t_main_thread : Z;
  t_children : llist;
  t_threads : llist;
  t_argv : Z;
  t_kernel_stack : Z
}.

#[export] Instance eta_task : Eta task := fun t =>
  mkTask (t_id t) (t_pid t) (t_uid t) (t_gid t) (t_euid t) (t_egid t) (t_errno t) (t_status t)
    (t_exit_code t) (t_envp t) (t_sigmask t) (t_sig_pending t) (t_sig_delivered t) (t_sig_info t)
    (t_sig_action t) (t_sig_altstack t) (t_procfs_node t) (t_cwd t) (t_root t) (t_env_lock t)
    (t_lock t) (t_descriptors_info t) (t_parent t) (t_main_thread t) (t_children t) (t_threads t)
    (t_argv t) (t_kernel_stack t).

(** Sizes of the structures that are allocated. *)
Definition sizeof_vfs_node := 392.
Definition sizeof_pipe := 48.
Definition sizeof_file := 20.
Definition sizeof_desc := 24.
Definition sizeof_item := 8.

(** ** The kernel state *)

Record kstate := mkK {
  k_nodes : gmap Z vfs_node;
  k_files : gmap Z file_t;
  k_descs : gmap Z desc_info;
  k_pipes : gmap Z pipe_t;
  k_items : gmap Z litem;
  k_tasks : gmap Z task;
  k_bufs : gmap Z (list Z);          (* raw memory: path buffers, pipe buffers *)
  k_mallocs : nat;                   (* calls of malloc so far *)
  k_vfs_root : Z;                    (* vfs.c *)
  k_vfs_root_mount : Z;
  k_vfs_root_nodes : Z;
  k_current_task : Z;                (* scheduler.c *)
  k_idle_task : Z;
  k_tasks_list : llist;
  k_schedule_lock : Z
}.

#[export] Instance eta_k : Eta kstate := fun k =>
  mkK (k_nodes k) (k_files k) (k_descs k) (k_pipes k) (k_items k) (k_tasks k) (k_bufs k) (k_mallocs k)
    (k_vfs_root k) (k_vfs_root_mount k) (k_vfs_root_nodes k) (k_current_task k) (k_idle_task k)
    (k_tasks_list k) (k_schedule_lock k).

(** ** Objects

    The map that holds the objects of a type. *)

Class Heap (T : Type) := {
  objs : kstate -> gmap Z T;
  set_objs : gmap Z T -> kstate -> kstate;
  objs_set : forall h s, objs (set_objs h s) = h
}.

#[export] Instance heap_node : Heap vfs_node :=
  {| objs := k_nodes; set_objs h s := s <| k_nodes := h |>; objs_set h s := eq_refl |}.
#[export] Instance heap_file : Heap file_t :=
  {| objs := k_files; set_objs h s := s <| k_files := h |>; objs_set h s := eq_refl |}.
#[export] Instance heap_desc : Heap desc_info :=
  {| objs := k_descs; set_objs h s := s <| k_descs := h |>; objs_set h s := eq_refl |}.
#[export] Instance heap_pipe : Heap pipe_t :=
  {| objs := k_pipes; set_objs h s := s <| k_pipes := h |>; objs_set h s := eq_refl |}.
#[export] Instance heap_item : Heap litem :=
  {| objs := k_items; set_objs h s := s <| k_items := h |>; objs_set h s := eq_refl |}.
#[export] Instance heap_task : Heap task :=
  {| objs := k_tasks; set_objs h s := s <| k_tasks := h |>; objs_set h s := eq_refl |}.
#[export] Instance heap_buf : Heap (list Z) :=
  {| objs := k_bufs; set_objs h s := s <| k_bufs := h |>; objs_set h s := eq_refl |}.

(** Every address in use. *)
Definition live (s : kstate) : gset Z :=
  dom (k_nodes s) ∪ dom (k_files s) ∪ dom (k_descs s) ∪ dom (k_pipes s) ∪ dom (k_items s) ∪
  dom (k_tasks s) ∪ dom (k_bufs s).

(** What the rest of the kernel needs of its allocator: [malloc] gives NULL or
    an address that nothing uses.  The answer may depend on the number of
    earlier calls. *)
Class Allocator := {
  allocate : nat -> gset Z -> Z -> Z;
  allocate_fresh : forall n used size,
    allocate n used size = 0 \/ (0 < allocate n used size /\ allocate n used size ∉ used)
}.

(** An allocator that never runs out, for examples: one above every address in
    use. *)
Definition above (used : gset Z) : Z := 1 + foldr Z.max 0 (elements used).

Lemma above_fresh used : 0 < above used /\ above used ∉ used.
Proof.
  assert (forall l : list Z, 0 <= foldr Z.max 0 l /\ forall a, a ∈ l -> a <= foldr Z.max 0 l) as H.
  { induction l as [|x l [IH1 IH2]]; simpl; [set_solver|]. split; [lia|].
    intros a [->|Ha]%elem_of_cons; [lia|]. specialize (IH2 a Ha). lia. }
  unfold above. destruct (H (elements used)) as [H1 H2]. split; [lia|].
  intros Hin. apply elem_of_elements in Hin. specialize (H2 _ Hin). lia.
Qed.

Definition bump_allocator : Allocator :=
  {| allocate _ used _ := above used;
     allocate_fresh _ used _ := or_intror (above_fresh used) |}.

(** Memory does not run out. *)
Definition ample {al : Allocator} : Prop := forall n used size, allocate n used size <> 0.

Lemma bump_ample : @ample bump_allocator.
Proof. intros n used size. simpl. pose proof (above_fresh used). lia. Qed.

(** One that never has memory. *)
Definition empty_allocator : Allocator :=
  {| allocate _ _ _ := 0; allocate_fresh _ _ _ := or_introl eq_refl |}.

Section Access.
Context {T : Type} `{!Heap T}.

(** [*p] *)
Definition load (p : Z) : M kstate T := s <- get;; deref (objs s !! p).

(** Initialisation of the object at a fresh address. *)
Definition put (p : Z) (v : T) : M kstate unit := modify (fun s => set_objs (<[p := v]> (objs s)) s).

(** [p->field = ...] *)
Definition upd_obj (p : Z) (f : T -> T) : M kstate unit := v <- load p;; put p (f v).

(** [free(p)] *)
Definition free_obj (p : Z) : M kstate unit :=
  _ <- load p;; modify (fun s => set_objs (delete p (objs s)) s).

Lemma load_ok p v s : objs s !! p = Some v -> load p s = Ret v s.
Proof. unfold load, bind, get. by intros ->. Qed.

Lemma load_Ret p v s s' : load p s = Ret v s' -> objs s !! p = Some v /\ s' = s.
Proof. unfold load, bind, get, deref. destruct (objs s !! p); [|done]. by intros [= -> ->]. Qed.

Lemma upd_obj_ok p f v s : objs s !! p = Some v ->
  upd_obj p f s = Ret tt (set_objs (<[p := f v]> (objs s)) s).
Proof. intros H. unfold upd_obj. by rewrite (bind_Ret _ _ _ _ _ (load_ok _ _ _ H)). Qed.

Lemma free_obj_ok p v s : objs s !! p = Some v ->
  free_obj p s = Ret tt (set_objs (delete p (objs s)) s).
Proof. intros H. unfold free_obj. by rewrite (bind_Ret _ _ _ _ _ (load_ok _ _ _ H)). Qed.
End Access.

Section Malloc.
Context `{!Allocator}.

(** [malloc(size)] *)
Definition malloc (size : Z) : M kstate Z :=
  s <- get;;
  modify (fun s => s <| k_mallocs := S (k_mallocs s) |>);;;
  ret (allocate (k_mallocs s) (live s) size).
End Malloc.

(** ** Locks

    A call waits for a lock that is taken; the outcome [Blocks] stands for all
    the time until the task that has it runs. *)

Definition mutex_wait_word (w : Z) : M kstate Z :=
  if w =? 0 then ret 1 else if w =? 1 then block else panic "mutex_try: i == 1 || i == 0".

Definition mutex_release_word (w : Z) : M kstate Z :=
  if w =? 1 then ret 0 else panic "mutex_release: i == 1".

Definition lock_node (p : Z) : M kstate unit :=
  n <- load p;; w <- mutex_wait_word (n_lock n);; upd_obj p (fun n => n <| n_lock := w |>).
Definition unlock_node (p : Z) : M kstate unit :=
  n <- load p;; w <- mutex_release_word (n_lock n);; upd_obj p (fun n => n <| n_lock := w |>).

Definition lock_desc (p : Z) : M kstate unit :=
  d <- load p;; w <- mutex_wait_word (d_lock d);; upd_obj p (fun d => d <| d_lock := w |>).
Definition unlock_desc (p : Z) : M kstate unit :=
  d <- load p;; w <- mutex_release_word (d_lock d);; upd_obj p (fun d => d <| d_lock := w |>).

Definition lock_schedule : M kstate unit :=
  s <- get;; w <- mutex_wait_word (k_schedule_lock s);; modify (fun s => s <| k_schedule_lock := w |>).
Definition unlock_schedule : M kstate unit :=
  s <- get;; w <- mutex_release_word (k_schedule_lock s);; modify (fun s => s <| k_schedule_lock := w |>).

(** ** The current task *)

Definition current : M kstate task := s <- get;; load (k_current_task s).
Definition upd_current (f : task -> task) : M kstate unit := s <- get;; upd_obj (k_current_task s) f.
Definition set_errno (e : Z) : M kstate unit := upd_current (fun t => t <| t_errno := e |>).

(** ** Running code

    One lemma per primitive, for goals that run a call from a known state; the
    tactic [krun] applies them as long as their side conditions are at hand. *)

Section Run.
Context {B : Type}.
Implicit Types k : unit -> M kstate B.

Lemma run_get (k : kstate -> M kstate B) s : bind get k s = k s s.
Proof. done. Qed.
Lemma run_gets {A} (f : kstate -> A) (k : A -> M kstate B) s : bind (gets f) k s = k (f s) s.
Proof. done. Qed.
Lemma run_ret {A} (a : A) (k : A -> M kstate B) s : bind (ret a) k s = k a s.
Proof. done. Qed.
Lemma run_fault {A} (m : M kstate A) (k : A -> M kstate B) s s' :
  m s = Faults s' -> bind m k s = Faults s'.
Proof. unfold bind. by intros ->. Qed.
Lemma run_modify f k s : bind (modify f) k s = k tt (f s).
Proof. done. Qed.
Lemma run_assert b msg k s : b = true -> bind (assert b msg) k s = k tt s.
Proof. by intros ->. Qed.
Lemma run_load {T} `{!Heap T} p (v : T) (k : T -> M kstate B) s :
  objs s !! p = Some v -> bind (load p) k s = k v s.
Proof. intros H. by rewrite (bind_Ret _ _ _ _ _ (load_ok _ _ _ H)). Qed.
Lemma run_upd {T} `{!Heap T} p (v : T) f k s :
  objs s !! p = Some v -> bind (upd_obj p f) k s = k tt (set_objs (<[p := f v]> (objs s)) s).
Proof. intros H. by rewrite (bind_Ret _ _ _ _ _ (upd_obj_ok _ _ _ _ H)). Qed.
Lemma run_put {T} `{!Heap T} p (v : T) k s :
  bind (put p v) k s = k tt (set_objs (<[p := v]> (objs s)) s).
Proof. done. Qed.
Lemma run_free {T} `{!Heap T} p (v : T) k s :
  objs s !! p = Some v -> bind (free_obj (T := T) p) k s = k tt (set_objs (delete p (objs s)) s).
Proof. intros H. by rewrite (bind_Ret _ _ _ _ _ (free_obj_ok _ _ _ H)). Qed.
Lemma run_assoc {A C} (m : M kstate A) (f : A -> M kstate C) (k : C -> M kstate B) s :
  bind (bind m f) k s = bind m (fun a => bind (f a) k) s.
Proof. apply bind_assoc. Qed.
Lemma run_malloc `{!Allocator} n (k : Z -> M kstate B) s :
  bind (malloc n) k s = k (allocate (k_mallocs s) (live s) n) (s <| k_mallocs := S (k_mallocs s) |>).
Proof. done. Qed.
Lemma run_current t (k : task -> M kstate B) s :
  k_tasks s !! k_current_task s = Some t -> bind current k s = k t s.
Proof. intros H. unfold current. rewrite run_assoc, run_get. by rewrite (run_load _ t). Qed.
Lemma run_errno e t k s :
  k_tasks s !! k_current_task s = Some t ->
  bind (set_errno e) k s =
  k tt (s <| k_tasks := <[k_current_task s := t <| t_errno := e |>]> (k_tasks s) |>).
Proof.
  intros H. unfold set_errno, upd_current. rewrite run_assoc, run_get. by rewrite (run_upd _ t).
Qed.
Lemma run_lock_node p n k s :
  k_nodes s !! p = Some n -> n_lock n = 0 ->
  bind (lock_node p) k s = k tt (s <| k_nodes := <[p := n <| n_lock := 1 |>]> (k_nodes s) |>).
Proof.
  intros H H0. unfold lock_node. rewrite run_assoc, (run_load _ n), H0 by done.
  change (mutex_wait_word 0) with (ret 1 : M kstate Z). by rewrite run_assoc, run_ret, (run_upd _ n).
Qed.
Lemma run_unlock_node p n k s :
  k_nodes s !! p = Some n -> n_lock n = 1 ->
  bind (unlock_node p) k s = k tt (s <| k_nodes := <[p := n <| n_lock := 0 |>]> (k_nodes s) |>).
Proof.
  intros H H0. unfold unlock_node. rewrite run_assoc, (run_load _ n), H0 by done.
  change (mutex_release_word 1) with (ret 0 : M kstate Z). by rewrite run_assoc, run_ret, (run_upd _ n).
Qed.
Lemma run_lock_desc p d k s :
  k_descs s !! p = Some d -> d_lock d = 0 ->
  bind (lock_desc p) k s = k tt (s <| k_descs := <[p := d <| d_lock := 1 |>]> (k_descs s) |>).
Proof.
  intros H H0. unfold lock_desc. rewrite run_assoc, (run_load _ d), H0 by done.
  change (mutex_wait_word 0) with (ret 1 : M kstate Z). by rewrite run_assoc, run_ret, (run_upd _ d).
Qed.
Lemma run_unlock_desc p d k s :
  k_descs s !! p = Some d -> d_lock d = 1 ->
  bind (unlock_desc p) k s = k tt (s <| k_descs := <[p := d <| d_lock := 0 |>]> (k_descs s) |>).
Proof.
  intros H H0. unfold unlock_desc. rewrite run_assoc, (run_load _ d), H0 by done.
  change (mutex_release_word 1) with (ret 0 : M kstate Z). by rewrite run_assoc, run_ret, (run_upd _ d).
Qed.
End Run.

(** The last action of a call. *)
Lemma run_last {A} (m : M kstate A) s : m s = bind m (fun a => ret a) s.
Proof. unfold bind. by destruct (m s). Qed.

(** Record updates stay folded, and a projection of an update is reduced on its
    own, so that the terms of a run remain readable. *)
#[global] Arguments setf {R T} proj {Setter} f r : simpl never.

Ltac kred_in_goal :=
  match goal with
  | |- context [?p (setf ?f ?g ?r)] =>
      let t := eval cbn [p setf] in (p (setf f g r)) in
      progress change (p (setf f g r)) with t
  end.
Ltac kred := simpl; repeat kred_in_goal.

(** Lookups in maps after stores, and side conditions on fields. *)
Ltac klookup := kred; first [eassumption | simplify_map_eq; done | simplify_map_eq; eassumption].
Ltac kside := kred; first [done | lia | by simplify_eq | by apply Z.eqb_neq; lia].

Ltac krun1 :=
  first
  [ rewrite run_get | rewrite run_gets | rewrite run_ret | rewrite run_modify | rewrite run_put | rewrite run_malloc
  | rewrite run_assoc
  | rewrite run_assert by kside
  | erewrite run_load by klookup
  | erewrite run_current by klookup
  | erewrite run_errno by klookup
  | erewrite run_lock_node by first [klookup | kside]
  | erewrite run_unlock_node by first [klookup | kside]
  | erewrite run_lock_desc by first [klookup | kside]
  | erewrite run_unlock_desc by first [klookup | kside]
  | erewrite run_upd by klookup
  | erewrite run_free by klookup ].
Ltac krun := repeat (krun1; cbv beta; kred).

(** Equality of maps that differ by stores, and of updated records. *)
Ltac krecord :=
  unfold setf in *; simpl in *;
  repeat match goal with |- context [?p ?r] => is_var r;
    match type of r with
    | vfs_node => destruct r | file_t => destruct r | desc_info => destruct r
    | task => destruct r | pipe_t => destruct r | litem => destruct r | llist => destruct r
    end end;
  simpl in *; subst; done.
Ltac kmaps :=
  apply map_eq; intros ?i; rewrite ?lookup_insert, ?lookup_delete;
  repeat case_decide; subst; simplify_map_eq; try done.

(** Two states are equal if their fields are. *)
Lemma kstate_ext s1 s2 :
  k_nodes s1 = k_nodes s2 -> k_files s1 = k_files s2 -> k_descs s1 = k_descs s2 ->
  k_pipes s1 = k_pipes s2 -> k_items s1 = k_items s2 -> k_tasks s1 = k_tasks s2 ->
  k_bufs s1 = k_bufs s2 -> k_mallocs s1 = k_mallocs s2 -> k_vfs_root s1 = k_vfs_root s2 ->
  k_vfs_root_mount s1 = k_vfs_root_mount s2 -> k_vfs_root_nodes s1 = k_vfs_root_nodes s2 ->
  k_current_task s1 = k_current_task s2 -> k_idle_task s1 = k_idle_task s2 ->
  k_tasks_list s1 = k_tasks_list s2 -> k_schedule_lock s1 = k_schedule_lock s2 -> s1 = s2.
Proof. destruct s1, s2. simpl. intros. by subst. Qed.

Ltac kstate := apply kstate_ext; kred; try done.

(** A state with nothing in it, for examples. *)
Definition empty_kstate : kstate :=
  mkK ∅ ∅ ∅ ∅ ∅ ∅ ∅ 0 0 0 0 0 0 LINKED_LIST_INIT 0.

Definition no_task : task :=
  mkTask 0 0 0 0 0 0 0 TASK_STATE_RUNNING 0 0 0 [0; 0; 0; 0] [0; 0; 0; 0]
    (repeat (repeat (mkSiginfo 0 0 0 0 0 0 0 0 0) 4) 32) (repeat (mkSigact 0 0 0) 32) (mkStack 0 0 0)
    0 0 0 0 0 0 0 0 LINKED_LIST_INIT LINKED_LIST_INIT 0 0.
