(* ===== verification/LinkedList.v ===== *)
(** * LinkedList: the list macros of linkedlist.h

    The lists of tasks: the global [tasks_list], and the children and threads
    of a task.  A list is a record of pointers to items; an item points to a
    task and to the next item.  The theorems relate the macros to lists of
    addresses, and show which of them do not maintain the links. *)

From S2P Require Import Prelude Chain KState.

Notation ichain := (Chain.chain i_next).

(** ** Where a list lives *)

Inductive lref := LTasks | LChildren (t : Z) | LThreads (t : Z).

#[export] Instance lref_eq_dec : EqDecision lref.
Proof. solve_decision. Defined.

Definition load_list (r : lref) : M kstate llist :=
  match r with
  | LTasks => gets k_tasks_list
  | LChildren t => t <- load t;; ret (t_children t)
  | LThreads t => t <- load t;; ret (t_threads t)
  end.

Definition store_list (r : lref) (l : llist) : M kstate unit :=
  match r with
  | LTasks => modify (fun s => s <| k_tasks_list := l |>)
  | LChildren t => upd_obj t (fun t => t <| t_children := l |>)
  | LThreads t => upd_obj t (fun t => t <| t_threads := l |>)
  end.

(** ** The macros *)

Section Macros.
Context `{!Allocator}.

(** [LINKED_LIST_APPEND_NEW]: [list->last->next] is written before anything
    looks whether the list is empty. *)
Definition LINKED_LIST_APPEND_NEW (r : lref) (item : Z) : M kstate Z :=
  scratch <- malloc sizeof_item;;
  l <- load_list r;;
  store_list r (l <| l_scratch := scratch |>);;;
  if scratch =? 0 then ret 0 else
  put scratch (mkItem item 0);;;
  upd_obj (l_last l) (fun i => i <| i_next := scratch |>);;;
  l <- load_list r;;
  let l := l <| l_last := scratch |> in
  let l := if (l_first l =? 0) || (l_current l =? 0)
           then l <| l_first := scratch |> <| l_current := scratch |> else l in
  store_list r (l <| l_count := u32 (l_count l + 1) |>);;;
  ret scratch.
End Macros.

(** [LINKED_LIST_REMOVE_FIRST_FREE] *)
Definition LINKED_LIST_REMOVE_FIRST_FREE (r : lref) : M kstate unit :=
  l <- load_list r;;
  i <- load (l_first l);;
  store_list r (l <| l_scratch := l_first l |> <| l_first := i_next i |>);;;
  free_obj (T := litem) (l_first l).

(** The value at a position, NULL past the end. *)
Definition value_at (p : Z) : M kstate Z :=
  if p =? 0 then ret 0 else i <- load p;; ret (i_val i).

(** [LINKED_LIST_MOVE_FIRST] and [LINKED_LIST_MOVE_NEXT] on a list. *)
Definition LINKED_LIST_MOVE_FIRST (r : lref) : M kstate Z :=
  l <- load_list r;; store_list r (l <| l_current := l_first l |>);;; value_at (l_first l).

Definition LINKED_LIST_MOVE_NEXT (r : lref) : M kstate Z :=
  l <- load_list r;;
  i <- load (l_current l);;
  store_list r (l <| l_current := i_next i |>);;; value_at (i_next i).

(** An iterator is a pointer to an item. *)
Definition LINKED_LIST_ITER_INIT (r : lref) : M kstate Z := l <- load_list r;; ret (l_first l).

(** [LINKED_LIST_SEEK_UNTIL] on an iterator: the first item for whose value the
    condition holds, NULL if there is none. *)
Fixpoint seek_until (fuel : nat) (cond : Z -> task -> bool) (p : Z) : M kstate Z :=
  match fuel with
  | O => nofuel
  | S fuel =>
      if p =? 0 then ret 0 else
      i <- load p;;
      t <- load (i_val i);;
      if cond (i_val i) t then ret p else seek_until fuel cond (i_next i)
  end.

Definition item_fuel (s : kstate) : nat := S (size (k_items s)).

Definition LINKED_LIST_SEEK_UNTIL (cond : Z -> task -> bool) (p : Z) : M kstate Z :=
  s <- get;; seek_until (item_fuel s) cond p.

(** [LINKED_LIST_REMOVE_CURRENT_FREE] *)
Definition LINKED_LIST_REMOVE_CURRENT_FREE (r : lref) (iter : Z) : M kstate unit :=
  i <- load iter;;
  l <- load_list r;;
  let l := l <| l_scratch := iter |> in
  let l := if l_first l =? iter then l <| l_first := i_next i |> else l in
  let l := if l_last l =? iter then l <| l_last := i_next i |> else l in
  store_list r (l <| l_count := u32 (l_count l - 1) |>);;;
  free_obj (T := litem) iter.

(** ** Lists of tasks *)

(** The items of a list hold the tasks [ts]. *)
Fixpoint items (h : gmap Z litem) (p : Z) (ps ts : list Z) : Prop :=
  match ps, ts with
  | [], [] => p = 0
  | q :: ps, t :: ts => p = q /\ q <> 0 /\ exists n, h !! q = Some (mkItem t n) /\ items h n ps ts
  | _, _ => False
  end.

Lemma items_chain h p ps ts : items h p ps ts -> ichain h p ps.
Proof.
  revert p ts. induction ps as [|q ps IH]; intros p [|t ts]; simpl; try done.
  intros (-> & Hq & n & Hn & Hi). split_and!; [done | done |]. eexists. split; [done|]. by eapply IH.
Qed.

Lemma items_length h p ps ts : items h p ps ts -> length ps = length ts.
Proof.
  revert p ts. induction ps as [|q ps IH]; intros p [|t ts]; simpl; try done.
  intros (_ & _ & n & _ & Hi). f_equal. by eapply IH.
Qed.

(** The position that [seek_until] stops at. *)
Fixpoint seek (h : gmap Z task) (cond : Z -> task -> bool) (ps ts : list Z) : Z :=
  match ps, ts with
  | p :: ps, t :: ts =>
      match h !! t with
      | Some v => if cond t v then p else seek h cond ps ts
      | None => seek h cond ps ts
      end
  | _, _ => 0
  end.

Lemma seek_until_spec fuel cond p ps ts s :
  items (k_items s) p ps ts -> (forall t, t ∈ ts -> is_Some (k_tasks s !! t)) ->
  (length ps < fuel)%nat -> seek_until fuel cond p s = Ret (seek (k_tasks s) cond ps ts) s.
Proof.
  revert p ps ts. induction fuel as [|fuel IH]; intros p ps ts Hi Ht Hf; [lia|].
  destruct ps as [|q ps], ts as [|t ts]; simpl in Hi; try done; cbn [seek_until].
  - by rewrite Hi.
  - destruct Hi as (-> & Hq & n & Hn & Hi). destruct (Ht t ltac:(set_solver)) as [v Hv].
    rewrite (proj2 (Z.eqb_neq _ _) Hq). krun. rewrite Hv. destruct (cond t v); [done|].
    apply IH; [done | set_solver | simpl in Hf; lia].
Qed.

Lemma LINKED_LIST_SEEK_UNTIL_spec cond p ps ts s :
  items (k_items s) p ps ts -> (forall t, t ∈ ts -> is_Some (k_tasks s !! t)) ->
  LINKED_LIST_SEEK_UNTIL cond p s = Ret (seek (k_tasks s) cond ps ts) s.
Proof.
  intros Hi Ht. unfold LINKED_LIST_SEEK_UNTIL. rewrite run_get. apply seek_until_spec; [done | done |].
  unfold item_fuel. pose proof (chain_size _ _ _ (items_chain _ _ _ _ Hi)). lia.
Qed.

(** ** Append and remove *)

Definition list_at (s : kstate) (r : lref) : option llist :=
  match r with
  | LTasks => Some (k_tasks_list s)
  | LChildren t => t_children <$> k_tasks s !! t
  | LThreads t => t_threads <$> k_tasks s !! t
  end.

Definition set_list (r : lref) (l : llist) (s : kstate) : kstate :=
  match r with
  | LTasks => s <| k_tasks_list := l |>
  | LChildren t => s <| k_tasks := alter (fun v => v <| t_children := l |>) t (k_tasks s) |>
  | LThreads t => s <| k_tasks := alter (fun v => v <| t_threads := l |>) t (k_tasks s) |>
  end.

Lemma insert_alter {V} (f : V -> V) (k : Z) (v : V) (m : gmap Z V) :
  m !! k = Some v -> <[k := f v]> m = alter f k m.
Proof.
  intros H. apply map_eq. intros i. destruct (decide (i = k)) as [->|Hne]; simplify_map_eq; done.
Qed.

Lemma load_list_ok r l s : list_at s r = Some l -> load_list r s = Ret l s.
Proof.
  destruct r as [|t|t]; simpl; [by intros [= <-]|..]; destruct (k_tasks s !! t) as [v|] eqn:E; try done;
    intros [= <-]; by krun.
Qed.

Lemma store_list_ok r l l' s : list_at s r = Some l -> store_list r l' s = Ret tt (set_list r l' s).
Proof.
  destruct r as [|t|t]; simpl; [done|..]; destruct (k_tasks s !! t) as [v|] eqn:E; try done; intros _.
  - rewrite (upd_obj_ok _ _ v) by done. simpl.
    by rewrite (insert_alter (fun v => v <| t_children := l' |>)).
  - rewrite (upd_obj_ok _ _ v) by done. simpl.
    by rewrite (insert_alter (fun v => v <| t_threads := l' |>)).
Qed.

Lemma list_at_set r l l' s : list_at s r = Some l -> list_at (set_list r l' s) r = Some l'.
Proof.
  destruct r as [|t|t]; simpl; [done|..]; destruct (k_tasks s !! t) as [v|] eqn:E; try done; intros _;
    kred; by rewrite lookup_alter_eq, E.
Qed.

Lemma items_set r l s : k_items (set_list r l s) = k_items s.
Proof. by destruct r. Qed.

Lemma list_at_items r s h : list_at (s <| k_items := h |>) r = list_at s r.
Proof. by destruct r. Qed.

Lemma items_snoc h p ps ts q t t' n :
  items h p (ps ++ [q]) (ts ++ [t']) -> h !! n = None -> n <> 0 ->
  items (<[q := mkItem t' n]> (<[n := mkItem t 0]> h)) p ((ps ++ [q]) ++ [n]) ((ts ++ [t']) ++ [t]).
Proof.
  intros Hi Hn Hn0. pose proof (chain_NoDup _ _ _ (items_chain _ _ _ _ Hi)) as Hd.
  revert p ts Hi. induction ps as [|q1 ps IH]; intros p [|t1 ts]; simpl.
  - intros (-> & Hq & m & Hm & ->). assert (n <> q) by congruence. split_and!; [done | done |].
    exists n. rewrite lookup_insert_eq. split_and!; [done | done | done |].
    exists 0. split; [|done]. by rewrite lookup_insert_ne, lookup_insert_eq.
  - intros (_ & _ & m & _ & Hi). by destruct ts.
  - intros (_ & _ & m & _ & Hi). by destruct ps.
  - intros (-> & Hq1 & m & Hm & Hi). simpl in Hd. apply NoDup_cons in Hd as [Hd1 Hd].
    assert (n <> q1) by congruence. assert (q <> q1) by set_solver.
    split_and!; [done | done |]. exists m. rewrite !lookup_insert_ne by done. split; [done|]. by apply IH.
Qed.

Section Append.
Context `{!Allocator}.

(** [LINKED_LIST_APPEND_NEW] on a list of at least one item appends: the
    new item, at the address [malloc] gave, comes last and holds the task, the
    counter goes up by one.  On an empty list, with no object at address 0, it
    writes through the NULL pointer [last]. *)
Theorem linked_list_append s r l ps q ts t' t :
  list_at s r = Some l ->
  let n := allocate (k_mallocs s) (live s) sizeof_item in n <> 0 ->
  (items (k_items s) (l_first l) (ps ++ [q]) (ts ++ [t']) -> l_last l = q -> l_current l <> 0 ->
   exists s' l', LINKED_LIST_APPEND_NEW r t s = Ret n s' /\ list_at s' r = Some l' /\
     items (k_items s') (l_first l') ((ps ++ [q]) ++ [n]) ((ts ++ [t']) ++ [t]) /\
     l_last l' = n /\ l_count l' = u32 (l_count l + 1)) /\
  (l_last l = 0 -> k_items s !! 0 = None -> exists s', LINKED_LIST_APPEND_NEW r t s = Faults s').
Proof.
  intros Hl n Hn0.
  assert (Hfresh : k_items s !! n = None).
  { destruct (allocate_fresh (k_mallocs s) (live s) sizeof_item) as [?|[_ Hf]]; [done|].
    apply not_elem_of_dom. unfold live in Hf. fold n in Hf. set_solver. }
  set (s1 := s <| k_mallocs := S (k_mallocs s) |>).
  assert (Hl1 : list_at s1 r = Some l) by (by destruct r).
  pose (l1 := l <| l_scratch := n |>). pose (s2 := set_list r l1 s1).
  assert (Hl2 : list_at s2 r = Some l1) by (by eapply list_at_set).
  assert (Hi2 : k_items s2 = k_items s) by (etrans; [apply items_set | done]).
  unfold LINKED_LIST_APPEND_NEW. rewrite run_malloc. fold n s1.
  rewrite (bind_Ret _ _ _ _ _ (load_list_ok r l s1 Hl1)).
  rewrite (bind_Ret _ _ _ _ _ (store_list_ok r l l1 s1 Hl1)). fold s2.
  rewrite (proj2 (Z.eqb_neq _ _) Hn0), run_put. simpl. rewrite Hi2. split.
  - intros Hit Hlast Hcur. rewrite Hlast.
    assert (Hq : k_items s !! q = Some (mkItem t' 0)).
    { clear -Hit. revert ts Hit. generalize (l_first l). induction ps as [|p0 ps IH]; intros p [|t0 ts]; simpl.
      - by intros (-> & _ & n & Hn & ->).
      - intros (_ & _ & m & _ & Hi). by destruct ts.
      - intros (_ & _ & m & _ & Hi). by destruct ps.
      - intros (_ & _ & m & _ & Hi). by eapply IH. }
    assert (q <> n) by congruence.
    assert (Hfi : l_first l <> 0).
    { intros ?%(chain_nonnull _ _ _ (items_chain _ _ _ _ Hit)). by destruct ps. }
    erewrite run_upd; [|simpl; kred; rewrite lookup_insert_ne by done; exact Hq].
    erewrite (bind_Ret (load_list r)); [|apply load_list_ok; simpl; rewrite !list_at_items; exact Hl2].
    unfold l1. kred. rewrite (proj2 (Z.eqb_neq _ _) Hfi), (proj2 (Z.eqb_neq _ _) Hcur). simpl.
    erewrite (bind_Ret (store_list r _)); [|eapply store_list_ok; rewrite !list_at_items; exact Hl2].
    eexists _, _. split; [done|]. split; [eapply list_at_set; rewrite !list_at_items; exact Hl2|].
    rewrite items_set. kred. split_and!; [|done | done]. by apply items_snoc.
  - intros Hlast H0. rewrite Hlast. eexists. apply run_fault. unfold upd_obj. apply run_fault.
    unfold load. rewrite run_get. simpl. kred. by rewrite lookup_insert_ne, H0 by done.
Qed.
End Append.

Definition removed (l : llist) (p next : Z) : llist :=
  let l := l <| l_scratch := p |> in
  let l := if l_first l =? p then l <| l_first := next |> else l in
  let l := if l_last l =? p then l <| l_last := next |> else l in
  l <| l_count := u32 (l_count l - 1) |>.

Lemma remove_current_ok s r l p i :
  list_at s r = Some l -> k_items s !! p = Some i ->
  exists s', LINKED_LIST_REMOVE_CURRENT_FREE r p s = Ret tt s' /\
    list_at s' r = Some (removed l p (i_next i)) /\ k_items s' = delete p (k_items s).
Proof.
  intros Hl Hp. unfold LINKED_LIST_REMOVE_CURRENT_FREE. rewrite (run_load _ i) by done.
  rewrite (bind_Ret _ _ _ _ _ (load_list_ok r l s Hl)).
  erewrite (bind_Ret (store_list r _)); [|by apply (store_list_ok r l)].
  fold (removed l p (i_next i)). eexists. split_and!.
  - eapply free_obj_ok. simpl. rewrite items_set. exact Hp.
  - simpl. rewrite list_at_items. by eapply list_at_set.
  - simpl. kred. by rewrite items_set.
Qed.

(** [LINKED_LIST_REMOVE_CURRENT_FREE] removes the first item of a list of
    tasks, unless it is also the last one, as it should.  For any other item it
    frees the item without unlinking it: the item before it still points to
    the freed one, so that no list of live items starts at [first] any more. *)
Theorem linked_list_remove s r l p ps1 ps2 ts :
  list_at s r = Some l -> items (k_items s) (l_first l) (ps1 ++ p :: ps2) ts ->
  exists s' l', LINKED_LIST_REMOVE_CURRENT_FREE r p s = Ret tt s' /\ list_at s' r = Some l' /\
    l_count l' = u32 (l_count l - 1) /\
    (ps1 = [] -> items (k_items s') (l_first l') ps2 (tail ts)) /\
    (ps1 <> [] -> forall ps', ~ ichain (k_items s') (l_first l') ps').
Proof.
  intros Hl Hi. pose proof (items_chain _ _ _ _ Hi) as Hc. pose proof (chain_NoDup _ _ _ Hc) as Hd.
  destruct (chain_dom _ _ _ p Hc ltac:(set_solver)) as [Hp0 [i Hp]].
  destruct (remove_current_ok s r l p i Hl Hp) as (s' & Hr & Hl' & Hi').
  exists s', (removed l p (i_next i)). rewrite Hi'. split_and!; [done | done | | |].
  - unfold removed. kred. by repeat case_match.
  - intros ->. simpl in Hi, Hd. destruct ts as [|t ts]; [done|]. destruct Hi as (Hf & _ & n & Hn & Hi).
    rewrite Hn in Hp. injection Hp as <-. assert (l_first (removed l p n) = n) as Hf'.
    { unfold removed. kred. rewrite Hf, Z.eqb_refl. by case_match. }
    cbn [i_next tail]. rewrite Hf'. apply NoDup_cons in Hd as [Hd _]. clear -Hi Hd. revert n ts Hi Hd.
    induction ps2 as [|q ps2 IH]; intros n [|t ts]; simpl; try done.
    intros (-> & Hq & m & Hm & Hi) Hd. split_and!; [done | done |]. exists m.
    rewrite lookup_delete_ne by set_solver. split; [done|]. apply IH; [done | set_solver].
  - intros Hne ps' Hc'.
    assert (l_first (removed l p (i_next i)) = l_first l) as Hf'.
    { destruct ps1 as [|p1 ps1]; [done|]. destruct Hc as (Hf1 & _).
      unfold removed. kred. rewrite Hf1, (proj2 (Z.eqb_neq p1 p)); [by repeat case_match|].
      simpl in Hd. apply NoDup_cons in Hd as [Hd _]. set_solver. }
    rewrite Hf' in Hc'. clear -Hc Hc' Hd Hp0. revert ps' Hc'. generalize dependent (l_first l).
    induction ps1 as [|p1 ps1 IH]; intros p0 Hc ps' Hc'.
    + destruct Hc as (-> & _). destruct ps' as [|q ps']; [simpl in Hc'; congruence|].
      destruct Hc' as (-> & _ & n & Hn & _). by rewrite lookup_delete_eq in Hn.
    + destruct Hc as (-> & Hp1 & n & Hn & Hc). destruct ps' as [|q ps']; [simpl in Hc'; congruence|].
      destruct Hc' as (<- & _ & n' & Hn' & Hc'). simpl in Hd. apply NoDup_cons in Hd as [Hd1 Hd].
      rewrite lookup_delete_ne in Hn' by set_solver. simplify_eq. by eapply IH.
Qed.

(** ** An example: two tasks in the task list *)

Module ListExample.

Definition st : kstate :=
  empty_kstate <| k_items := list_to_map [(1, mkItem 100 2); (2, mkItem 200 0)] |>
    <| k_tasks := list_to_map [(100, no_task <| t_id := 1 |>); (200, no_task <| t_id := 2 |>)] |>
    <| k_tasks_list := mkList 1 2 1 0 2 |>.

Lemma two_items : items (k_items st) 1 [1; 2] [100; 200].
Proof. simpl. split_and!; try done. eexists. split; [done|]. split_and!; try done. by eexists. Qed.

Example linked_list_append_witness :
  exists s' l', @LINKED_LIST_APPEND_NEW bump_allocator LTasks 300 st = Ret 201 s' /\
    list_at s' LTasks = Some l' /\ items (k_items s') (l_first l') [1; 2; 201] [100; 200; 300] /\
    l_last l' = 201 /\ l_count l' = 3.
Proof.
  apply (@linked_list_append bump_allocator st LTasks (mkList 1 2 1 0 2) [1] 2 [100] 200 300);
    [done | by vm_compute | exact two_items | done | done].
Defined.

Example linked_list_remove_witness :
  exists s' l', LINKED_LIST_REMOVE_CURRENT_FREE LTasks 2 st = Ret tt s' /\
    list_at s' LTasks = Some l' /\ l_count l' = 1 /\
    forall ps', ~ ichain (k_items s') (l_first l') ps'.
Proof.
  destruct (linked_list_remove st LTasks (mkList 1 2 1 0 2) 2 [1] [] [100; 200]) as (s' & l' & H1 & H2 & H3 & _ & H4);
    [done | exact two_items |].
  exists s', l'. split_and!; [done | done | done | by apply H4].
Defined.

End ListExample.
