(* ===== verification/Signals.v ===== *)
(** * Signals: signal.c

    Pending and delivered signals of a task are four words each, one bit per
    signal and level, with the information about each pending instance in a
    row of four.  The functions are translated on the task list of KState.v;
    what happens while a task is switched out, in a user's handler, or in
    [exit], is the interface [Control]. *)

From S2P Require Import Prelude Chain KState LinkedList.

(** ** Signal numbers and dispositions (signal.h) *)

Definition SIGHUP := 1.
Definition SIGINT := 2.
Definition SIGQUIT := 3.
Definition SIGILL := 4.
Definition SIGBUS := 5.
Definition SIGABRT := 6.
Definition SIGSYS := 7.
Definition SIGFPE := 8.
Definition SIGKILL := 9.
Definition SIGTRAP := 10.
Definition SIGSEGV := 11.
Definition SIGPIPE := 13.
Definition SIGALRM := 14.
Definition SIGTERM := 15.
Definition SIGXCPU := 16.
Definition SIGSTOP := 17.
Definition SIGTSTP := 18.
Definition SIGCONT := 19.
Definition SIGCHLD := 20.
Definition SIGTTIN := 21.
Definition SIGTTOU := 22.
Definition SIGXFSZ := 23.
Definition SIGPOLL := 24.
Definition SIGPROF := 25.
Definition SIGVTALRM := 26.
Definition SIGURG := 27.
Definition SIGUSR1 := 30.
Definition SIGUSR2 := 31.

Definition SIG_DFL := 0.
Definition SIG_ERR := 0xFFFFFFFF.
Definition SIG_HOLD := 1.
Definition SIG_IGN := 2.

Definition SIG_BLOCK := 2.
Definition SIG_UNBLOCK := 3.
Definition SIG_SETMASK := 4.
Definition SS_DISABLE := 12.
Definition MINSIGSTKSZ := 1024.
Definition SI_USER := 1.
Definition SI_QUEUE := 2.

(** ** Leaving the call

    [switch] is [schedule_prelocked]: it returns when the task runs again, with
    [schedule_lock] released.  [call_handler] runs a user's handler, [do_exit]
    is [exit]. *)
Class Control := {
  switch : M kstate unit;
  call_handler : Z -> Z -> M kstate unit;
  do_exit : Z -> M kstate unit
}.

(** ** Levels *)

Definition word_at (l : list Z) (i : nat) : Z := default 0 (l !! i).

Definition sigbit (sig : Z) : Z := u32 (Z.shiftl 1 (sig - 1)).

Definition set_level (i : nat) (sig : Z) (l : list Z) : list Z :=
  <[i := Z.lor (word_at l i) (sigbit sig)]> l.

Definition clear_level (i : nat) (sig : Z) (l : list Z) : list Z :=
  <[i := Z.land (word_at l i) (not32 (sigbit sig))]> l.

(** [(w & sigbit) == 0] *)
Definition bit_free (l : list Z) (i : nat) (sig : Z) : bool := Z.land (word_at l i) (sigbit sig) =? 0.

(** The test of the levels above 0 in [queue_signal]: [(w & sigbit) == 1]. *)
Definition bit_one (l : list Z) (i : nat) (sig : Z) : bool := Z.land (word_at l i) (sigbit sig) =? 1.

Definition set_info (sig : Z) (i : nat) (info : siginfo) (rows : list (list siginfo)) :=
  alter (fun row => <[i := info]> row) (Z.to_nat (sig - 1)) rows.

Definition pend (sig : Z) (i : nat) (info : siginfo) (t : task) : task :=
  t <| t_sig_pending := set_level i sig (t_sig_pending t) |>
    <| t_sig_info := set_info sig i info (t_sig_info t) |>.

(** ** Sending *)

(** The macro [queue_signal]. *)
Definition queue_signal (p sig : Z) : M kstate unit :=
  if sig =? 0 then ret tt else
  cur <- current;;
  t <- load p;;
  let pending := t_sig_pending t in
  let info := mkSiginfo sig SI_USER 0 (t_pid cur) (t_euid cur) 0 0 0 0 in
  if bit_free pending 0 sig then upd_obj p (pend sig 0 info)
  else if bit_one pending 1 sig then upd_obj p (pend sig 1 info)
  else if bit_one pending 2 sig then upd_obj p (pend sig 2 info)
  else if bit_one pending 3 sig then upd_obj p (pend sig 3 info)
  else ret tt.

(** [while (iter.current != NULL) { if (cond) queue_signal(...); MOVE_NEXT }] *)
Fixpoint queue_all (fuel : nat) (cond : Z -> task -> bool) (sig p : Z) : M kstate unit :=
  match fuel with
  | O => nofuel
  | S fuel =>
      if p =? 0 then ret tt else
      i <- load p;;
      t <- load (i_val i);;
      (if cond (i_val i) t then queue_signal (i_val i) sig else ret tt);;;
      queue_all fuel cond sig (i_next i)
  end.

Definition pthread_kill_nolock (tid sig : Z) : M kstate Z :=
  s <- get;;
  iter <- LINKED_LIST_ITER_INIT LTasks;;
  if tid =? 0 then queue_all (item_fuel s) (fun _ _ => true) sig iter;;; ret 0
  else
    iter <- LINKED_LIST_SEEK_UNTIL (fun _ t => t_id t =? tid) iter;;
    if iter =? 0 then ret (-1)
    else i <- load iter;; queue_signal (i_val i) sig;;; ret 0.

Definition pthread_kill (tid sig : Z) : M kstate Z :=
  lock_schedule;;; r <- pthread_kill_nolock tid sig;; unlock_schedule;;; ret r.

Definition kill_nolock (pid sig : Z) : M kstate Z :=
  s <- get;;
  iter <- LINKED_LIST_ITER_INIT LTasks;;
  let cond p t := (t_pid t =? pid) && (t_main_thread t =? p) in
  if pid =? 0 then queue_all (item_fuel s) cond sig iter;;; ret 0
  else
    iter <- LINKED_LIST_SEEK_UNTIL cond iter;;
    if iter =? 0 then ret (-1)
    else i <- load iter;; queue_signal (i_val i) sig;;; ret 0.

Definition kill (pid sig : Z) : M kstate Z :=
  lock_schedule;;; r <- kill_nolock pid sig;; unlock_schedule;;; ret r.

Definition raise (sig : Z) : M kstate Z := t <- current;; pthread_kill (t_id t) sig.

Definition bad_sig (sig : Z) : bool := (sig <? 1) || (32 <? sig).

Section Control.
Context `{!Control}.

(** [schedule]: nothing happens while someone else has the lock. *)
Definition schedule : M kstate unit :=
  s <- get;;
  if k_schedule_lock s =? 0 then modify (fun s => s <| k_schedule_lock := 1 |>);;; switch
  else if k_schedule_lock s =? 1 then ret tt
  else panic "mutex_try: i == 1 || i == 0".

Definition pause : M kstate unit :=
  t <- current;;
  assert (negb (t_id t =? 0)) "current_task->id != 0";;;
  lock_schedule;;;
  upd_current (fun t => t <| t_status := TASK_STATE_WAITING |>);;;
  switch.

(** [sigqueue]: the instance goes to the first free level. *)
Definition sigqueue (tid sig value : Z) : M kstate Z :=
  if bad_sig sig then ret EINVAL else
  iter <- LINKED_LIST_ITER_INIT LTasks;;
  iter <- LINKED_LIST_SEEK_UNTIL (fun _ t => t_id t =? tid) iter;;
  if iter =? 0 then ret ESRCH else
  i <- load iter;;
  t <- load (i_val i);;
  cur <- current;;
  let pending := t_sig_pending t in
  let info := mkSiginfo sig SI_QUEUE 0 (t_pid cur) (t_euid cur) 0 0 0 value in
  if bit_free pending 0 sig then upd_obj (i_val i) (pend sig 0 info);;; schedule;;; ret ESUCCESS
  else if bit_free pending 1 sig then upd_obj (i_val i) (pend sig 1 info);;; schedule;;; ret ESUCCESS
  else if bit_free pending 2 sig then upd_obj (i_val i) (pend sig 2 info);;; schedule;;; ret ESUCCESS
  else if bit_free pending 3 sig then upd_obj (i_val i) (pend sig 3 info);;; schedule;;; ret ESUCCESS
  else ret EAGAIN.

(** ** Delivery *)

(** The bits of a word from the lowest one: [while (1) { if (sigtmp & 1) break;
    sigtmp >>= 1; sig++; }] *)
Fixpoint first_bit (fuel : nat) (w sig : Z) : M kstate Z :=
  match fuel with
  | O => nofuel
  | S fuel => if Z.odd w then ret sig else first_bit fuel (Z.shiftr w 1) (sig + 1)
  end.

(** Drop the pending instance of the highest level. *)
Definition unpend (sig : Z) (l : list Z) : list Z :=
  if negb (bit_free l 3 sig) then clear_level 3 sig l
  else if negb (bit_free l 2 sig) then clear_level 2 sig l
  else if negb (bit_free l 1 sig) then clear_level 1 sig l
  else if negb (bit_free l 0 sig) then clear_level 0 sig l
  else l.

(** Record a delivery at the lowest free level. *)
Definition record_delivered (sig : Z) (l : list Z) : list Z :=
  if bit_free l 0 sig then set_level 0 sig l
  else if bit_free l 1 sig then set_level 1 sig l
  else if bit_free l 2 sig then set_level 2 sig l
  else if bit_free l 3 sig then set_level 3 sig l
  else l.

(** The row moves down by one. *)
Definition shift_row (row : list siginfo) : list siginfo :=
  match row with
  | [a; b; c; d] => [b; c; d; d]
  | _ => row
  end.

Definition shift_infos (sig : Z) (rows : list (list siginfo)) : list (list siginfo) :=
  alter shift_row (Z.to_nat (sig - 1)) rows.

Definition deliver (sig : Z) (t : task) : task :=
  t <| t_sig_pending := unpend sig (t_sig_pending t) |>
    <| t_sig_info := shift_infos sig (t_sig_info t) |>
    <| t_sig_delivered := record_delivered sig (t_sig_delivered t) |>.

Inductive action := Terminate | Stop | Continue | Ignore.

(** The inner switch of [signal_handler]. *)
Definition default_action (sig : Z) : action :=
  if existsb (Z.eqb sig) [SIGABRT; SIGBUS; SIGFPE; SIGILL; SIGQUIT; SIGSEGV; SIGSYS; SIGTRAP; SIGXCPU;
       SIGXFSZ; SIGALRM; SIGHUP; SIGINT; SIGKILL; SIGPIPE; SIGTERM; SIGUSR1; SIGUSR2; SIGPOLL; SIGPROF;
       SIGVTALRM] then Terminate
  else if existsb (Z.eqb sig) [SIGSTOP; SIGTSTP; SIGTTIN; SIGTTOU] then Stop
  else if sig =? SIGCONT then Continue
  else Ignore.

Definition handler_of (t : task) (sig : Z) : Z :=
  match t_sig_action t !! Z.to_nat (sig - 1) with Some a => sa_handler a | None => 0 end.

Definition act_on (sig : Z) : M kstate unit :=
  t <- current;;
  let h := handler_of t sig in
  if h =? SIG_DFL then
    match default_action sig with
    | Terminate => do_exit (-1)
    | Stop => upd_current (fun t => t <| t_status := TASK_STATE_WAITING |>);;; schedule
    | Continue => upd_current (fun t => t <| t_status := TASK_STATE_RUNNING |>);;; schedule
    | Ignore => ret tt
    end
  else if h =? SIG_IGN then ret tt
  else if h =? SIG_ERR then panic "sa_handler != SIG_ERR"
  else if h =? SIG_HOLD then panic "sa_handler != SIG_HOLD"
  else call_handler h sig.

(** [current_task->sig_pending[0] & ~current_task->sigmask] *)
Definition deliverable (t : task) : Z := Z.land (word_at (t_sig_pending t) 0) (not32 (t_sigmask t)).

Fixpoint signal_handler (fuel : nat) : M kstate unit :=
  match fuel with
  | O => nofuel
  | S fuel =>
      t <- current;;
      if deliverable t =? 0 then ret tt else
      sig <- first_bit 32 (deliverable t) 0;;
      upd_current (deliver (sig + 1));;;
      act_on (sig + 1);;;
      signal_handler fuel
  end.

(** ** Masks and dispositions *)

Definition upd_action (sig : Z) (f : sigact -> sigact) : M kstate unit :=
  upd_current (fun t => t <| t_sig_action := alter f (Z.to_nat (sig - 1)) (t_sig_action t) |>).

Definition sigset (sig disp : Z) : M kstate Z :=
  if bad_sig sig then ret SIG_ERR else
  t <- current;;
  upd_action sig (fun a => a <| sa_handler := disp |>);;;
  ret (handler_of t sig).

Definition sighold (sig : Z) : M kstate Z :=
  if bad_sig sig then ret (-1) else
  upd_current (fun t => t <| t_sigmask := Z.lor (t_sigmask t) (sigbit sig) |>);;; ret ESUCCESS.

Definition sigrelse (sig : Z) : M kstate Z :=
  if bad_sig sig then ret (-1) else
  upd_current (fun t => t <| t_sigmask := Z.land (t_sigmask t) (not32 (sigbit sig)) |>);;; ret ESUCCESS.

Definition sigignore (sig : Z) : M kstate Z :=
  if bad_sig sig then ret (-1) else
  upd_action sig (fun _ => mkSigact 0 0 SIG_IGN);;; ret ESUCCESS.

(** The result and what is stored through [oldset] when that is not NULL. *)
Definition sigprocmask (how : Z) (set : option Z) : M kstate (Z * Z) :=
  t <- current;;
  let old := t_sigmask t in
  if how =? SIG_BLOCK then
    set <- deref set;; upd_current (fun t => t <| t_sigmask := Z.lor (t_sigmask t) set |>);;; ret (ESUCCESS, old)
  else if how =? SIG_UNBLOCK then
    set <- deref set;; upd_current (fun t => t <| t_sigmask := Z.land (t_sigmask t) (not32 set) |>);;;
    ret (ESUCCESS, old)
  else if how =? SIG_SETMASK then
    set <- deref set;; upd_current (fun t => t <| t_sigmask := set |>);;; ret (ESUCCESS, old)
  else ret (EINVAL, old).

(** [sigpending]; [None] is what it returns for a NULL argument, EFAULT. *)
Definition sigpending (set_null : bool) : M kstate (Z * Z) :=
  if set_null then ret (EFAULT, 0) else
  t <- current;; ret (ESUCCESS, word_at (t_sig_pending t) 0).

Definition signal (sig disp : Z) : M kstate Z :=
  if bad_sig sig || (sig =? SIGKILL) || (sig =? SIGSTOP) then ret EINVAL else
  upd_action sig (fun _ => mkSigact 0 0 disp);;; ret ESUCCESS.

Definition sigaction (sig : Z) (act : option sigact) (oldact_null : bool) : M kstate (Z * option sigact) :=
  if bad_sig sig || (sig =? SIGKILL) || (sig =? SIGSTOP) then ret (EINVAL, None) else
  match act with
  | None => ret (EFAULT, None)
  | Some act =>
      if oldact_null then ret (EFAULT, None) else
      t <- current;;
      upd_action sig (fun _ => act);;;
      ret (ESUCCESS, t_sig_action t !! Z.to_nat (sig - 1))
  end.

Definition sigaltstack (ss : option sigstack) : M kstate (Z * sigstack) :=
  t <- current;;
  let old := t_sig_altstack t in
  match ss with
  | None => ret (ESUCCESS, old)
  | Some ss =>
      if negb (Z.land (ss_flags ss) (not32 SS_DISABLE) =? 0) then ret (EINVAL, old)
      else if MINSIGSTKSZ <? ss_size ss then ret (ENOMEM, old)
      else upd_current (fun t => t <| t_sig_altstack := ss |>);;; ret (ESUCCESS, old)
  end.

(** ** Waiting *)

Definition sigpause (sig : Z) : M kstate Z :=
  t <- current;;
  upd_current (fun t => t <| t_sigmask := not32 (sigbit sig) |>);;;
  pause;;;
  upd_current (fun t' => t' <| t_sigmask := t_sigmask t |>);;;
  ret ESUCCESS.

(** The common loop of [sigwait], [sigsuspend] and [sigwaitinfo]: until a
    signal of the set is among the delivered ones, pause; then take the lowest
    such signal off the delivered ones. *)
Fixpoint wait_delivered (fuel : nat) (set : Z) : M kstate Z :=
  match fuel with
  | O => nofuel
  | S fuel =>
      t <- current;;
      let w := Z.land (word_at (t_sig_delivered t) 0) set in
      if w =? 0 then pause;;; wait_delivered fuel set
      else
        sig <- first_bit 32 w 0;;
        upd_current (fun t => t <| t_sig_delivered := unpend (sig + 1) (t_sig_delivered t) |>);;;
        ret (sig + 1)
  end.

Definition sigwait (fuel : nat) (set : option Z) (sig_null : bool) : M kstate Z :=
  match set with
  | Some set => if sig_null then ret EFAULT else wait_delivered fuel set
  | None => ret EFAULT
  end.

Definition sigsuspend (fuel : nat) (set : option Z) : M kstate Z :=
  t <- current;;
  set <- deref set;;
  upd_current (fun t => t <| t_sigmask := set |>);;;
  sig <- wait_delivered fuel set;;
  upd_current (fun t' => t' <| t_sigmask := t_sigmask t |>);;;
  ret sig.

Definition sigwaitinfo (fuel : nat) (set : option Z) : M kstate Z :=
  match set with
  | None => ret EFAULT
  | Some set => sigsuspend fuel (Some set)
  end.
End Control.

(** [sigaddset] and the other inline functions on sets. *)
Definition sigaddset (set sig : Z) : Z * Z :=
  if bad_sig sig then (EINVAL, set) else (ESUCCESS, Z.lor set (sigbit sig)).
Definition sigdelset (set : option Z) (sig : Z) : Z * option Z :=
  if bad_sig sig then (EINVAL, set)
  else match set with None => (EFAULT, None) | Some w => (ESUCCESS, Some (Z.land w (not32 (sigbit sig)))) end.
Definition sigemptyset : Z * Z := (ESUCCESS, 0).
Definition sigfillset (set : option Z) : Z * option Z :=
  match set with None => (-1, None) | Some _ => (ESUCCESS, Some 0xFFFFFFFF) end.

(** [clear_task_signals]; its [memset] clears four of the 128 entries of
    [sig_info], the row of the first signal. *)
Definition clear_task_signals (t : task) : task :=
  t <| t_sig_pending := [0; 0; 0; 0] |> <| t_sig_delivered := [0; 0; 0; 0] |>
    <| t_sig_info := <[0%nat := repeat (mkSiginfo 0 0 0 0 0 0 0 0 0) 4]> (t_sig_info t) |>.

(** ** Bits of the levels *)

Definition bit (l : list Z) (i : nat) (sig : Z) : bool := Z.testbit (word_at l i) (sig - 1).

Lemma sigbit_shift sig : 1 <= sig <= 32 -> sigbit sig = Z.shiftl 1 (sig - 1).
Proof. intros. apply u32_small, bit_word. lia. Qed.

Lemma bit_free_bit l i sig : 1 <= sig <= 32 -> bit_free l i sig = negb (bit l i sig).
Proof. intros. unfold bit_free, bit. rewrite sigbit_shift by done. apply land_bit_eqb0. lia. Qed.

(** [(w & sigbit) == 1] holds of signal 1 only. *)
Lemma bit_one_bit l i sig : 1 <= sig <= 32 -> bit_one l i sig = (sig =? 1) && bit l i sig.
Proof.
  intros Hs. unfold bit_one, bit. rewrite sigbit_shift by done. destruct (Z.eqb_spec sig 1) as [->|Hne]; cbn [andb].
  - change (1 - 1) with 0. change (Z.shiftl 1 0) with (Z.ones 1). rewrite Z.land_ones by lia. change (2 ^ 1) with 2.
    rewrite Zmod_odd, Z.bit0_odd. by destruct (Z.odd _).
  - apply Z.eqb_neq. intros H.
    assert (Z.testbit (Z.land (word_at l i) (Z.shiftl 1 (sig - 1))) 0 = true) as H0 by (by rewrite H).
    rewrite Z.land_spec, testbit_pow2 in H0 by lia. rewrite (proj2 (Z.eqb_neq (sig - 1) 0)) in H0 by lia.
    by rewrite andb_false_r in H0.
Qed.

Lemma word_at_insert l i j w : (i < length l)%nat ->
  word_at (<[i := w]> l) j = if decide (i = j) then w else word_at l j.
Proof.
  intros Hi. unfold word_at. case_decide as E; subst.
  - by rewrite list_lookup_insert_eq.
  - by rewrite list_lookup_insert_ne.
Qed.

Lemma bit_set_level l i sig j sig' :
  1 <= sig <= 32 -> 1 <= sig' <= 32 -> (i < length l)%nat ->
  bit (set_level i sig l) j sig' = bit l j sig' || (bool_decide (i = j) && (sig =? sig')).
Proof.
  intros Hs Hs' Hi. unfold bit, set_level. rewrite word_at_insert by done. case_decide as E.
  - subst. rewrite sigbit_shift, testbit_lor_bit by lia. rewrite bool_decide_true by done.
    rewrite orb_comm. simpl. f_equal. lia.
  - rewrite bool_decide_false by done. by rewrite orb_false_r.
Qed.

Lemma bit_clear_level l i sig j sig' :
  1 <= sig <= 32 -> 1 <= sig' <= 32 -> (i < length l)%nat ->
  bit (clear_level i sig l) j sig' = bit l j sig' && negb (bool_decide (i = j) && (sig =? sig')).
Proof.
  intros Hs Hs' Hi. unfold bit, clear_level. rewrite word_at_insert by done. case_decide as E.
  - subst. rewrite sigbit_shift, testbit_clear_bit by lia. rewrite bool_decide_true by done.
    rewrite andb_comm. simpl. do 2 f_equal. lia.
  - rewrite bool_decide_false by done. by rewrite andb_true_r.
Qed.

(** ** The queue of a signal *)

(** A bit at a level has the bits below it. *)
Definition nested (l : list Z) : Prop :=
  forall i sig, (i < 3)%nat -> 1 <= sig <= 32 -> bit l (S i) sig = true -> bit l i sig = true.

Definition levels (l : list Z) (sig : Z) : nat :=
  (if bit l 0 sig then 1 else 0) + (if bit l 1 sig then 1 else 0) +
  (if bit l 2 sig then 1 else 0) + (if bit l 3 sig then 1 else 0).

Definition row (t : task) (sig : Z) : list siginfo := default [] (t_sig_info t !! Z.to_nat (sig - 1)).

(** The pending instances of a signal, in the order of their arrival. *)
Definition queued (t : task) (sig : Z) : list siginfo := take (levels (t_sig_pending t) sig) (row t sig).

Record sig_wf (t : task) : Prop := {
  wf_pending : length (t_sig_pending t) = 4%nat;
  wf_nested : nested (t_sig_pending t);
  wf_rows : length (t_sig_info t) = 32%nat;
  wf_row : forall r, r ∈ t_sig_info t -> length r = 4%nat
}.

(** The number of levels determines the bits. *)
Lemma nested_bit l i sig : nested l -> (i < 4)%nat -> 1 <= sig <= 32 ->
  bit l i sig = bool_decide (i < levels l sig)%nat.
Proof.
  intros Hn Hi Hs. unfold levels.
  assert (Himp : forall k, (k < 3)%nat -> implb (bit l (S k) sig) (bit l k sig) = true).
  { intros k Hk. destruct (bit l (S k) sig) eqn:E; [|done]. by rewrite (Hn k sig Hk Hs E). }
  pose proof (Himp 0%nat ltac:(lia)) as H0. pose proof (Himp 1%nat ltac:(lia)) as H1.
  pose proof (Himp 2%nat ltac:(lia)) as H2. clear Himp Hn.
  assert (i = 0 \/ i = 1 \/ i = 2 \/ i = 3)%nat as Hc by lia.
  destruct Hc as [-> | [-> | [-> | ->]]];
    destruct (bit l 0 sig), (bit l 1 sig), (bit l 2 sig), (bit l 3 sig); done.
Qed.

Lemma levels_bits l l' sig : (forall i, (i < 4)%nat -> bit l' i sig = bit l i sig) ->
  levels l' sig = levels l sig.
Proof. intros H. unfold levels. by rewrite !H by lia. Qed.

Lemma levels_le l sig : (levels l sig <= 4)%nat.
Proof. unfold levels. repeat case_match; lia. Qed.

Lemma nested_levels l sig n : nested l -> 1 <= sig <= 32 -> (n <= 4)%nat ->
  (forall i, (i < 4)%nat -> bit l i sig = bool_decide (i < n)%nat) -> levels l sig = n.
Proof.
  intros Hn Hs Hle Hb. unfold levels. rewrite !Hb by lia.
  destruct n as [|[|[|[|[|n]]]]]; simpl; done || lia.
Qed.

Lemma row_alter f t sig sig' rows :
  1 <= sig <= 32 -> 1 <= sig' <= 32 -> f [] = [] ->
  default [] (alter f (Z.to_nat (sig - 1)) (t_sig_info t) !! Z.to_nat (sig' - 1)) = rows ->
  rows = if sig =? sig' then f (row t sig') else row t sig'.
Proof.
  intros Hs Hs' Hf <-. unfold row. destruct (Z.eqb_spec sig sig') as [->|Hne].
  - rewrite list_lookup_alter_eq. by destruct (t_sig_info t !! _).
  - rewrite list_lookup_alter_ne; [done|]. lia.
Qed.

Lemma row_length t sig : sig_wf t -> 1 <= sig <= 32 -> length (row t sig) = 4%nat.
Proof.
  intros [_ _ Hr Hl] Hs. unfold row.
  destruct (t_sig_info t !! Z.to_nat (sig - 1)) as [r|] eqn:E; simpl.
  - apply Hl. by eapply list_elem_of_lookup_2.
  - apply lookup_ge_None in E. lia.
Qed.

Lemma queued_length t sig : sig_wf t -> 1 <= sig <= 32 ->
  length (queued t sig) = levels (t_sig_pending t) sig.
Proof.
  intros Hwf Hs. unfold queued. rewrite length_take, row_length by done.
  pose proof (levels_le (t_sig_pending t) sig). lia.
Qed.

(** A change of one row and of the bits of one signal, all of them up to level
    [n], keeps the shape and the queues of the other signals. *)
Lemma queue_change t t' sig n f :
  sig_wf t -> 1 <= sig <= 32 -> (n <= 4)%nat ->
  length (t_sig_pending t') = 4%nat ->
  t_sig_info t' = alter f (Z.to_nat (sig - 1)) (t_sig_info t) ->
  f [] = [] -> (forall r, length r = 4%nat -> length (f r) = 4%nat) ->
  (forall i sig', (i < 4)%nat -> 1 <= sig' <= 32 ->
     bit (t_sig_pending t') i sig' =
     if sig =? sig' then bool_decide (i < n)%nat else bit (t_sig_pending t) i sig') ->
  sig_wf t' /\ queued t' sig = take n (f (row t sig)) /\
  (forall sig', 1 <= sig' <= 32 -> sig' <> sig -> queued t' sig' = queued t sig').
Proof.
  intros Hwf Hs Hn Hlen Hinfo Hf0 Hf Hbits. pose proof Hwf as [Wp Wn Wr Wl].
  assert (Hwf' : sig_wf t').
  { split; [done | | |].
    - intros i sig' Hi Hs'. rewrite !Hbits by lia. destruct (sig =? sig'); [|by apply Wn].
      rewrite !bool_decide_eq_true. lia.
    - by rewrite Hinfo, length_alter.
    - intros r Hr. rewrite Hinfo in Hr. apply list_elem_of_lookup in Hr as [j Hj].
      destruct (decide (j = Z.to_nat (sig - 1))) as [->|Hne].
      + rewrite list_lookup_alter_eq in Hj. destruct (t_sig_info t !! _) as [r0|] eqn:E; simplify_eq/=.
        apply Hf, Wl. by eapply list_elem_of_lookup_2.
      + rewrite list_lookup_alter_ne in Hj by done. apply Wl. by eapply list_elem_of_lookup_2. }
  assert (Hrow : forall sig', 1 <= sig' <= 32 ->
    row t' sig' = if sig =? sig' then f (row t sig') else row t sig').
  { intros sig' Hs'. apply (row_alter f t sig sig'); [done | done | done |]. by rewrite <- Hinfo. }
  split_and!; [done | |].
  - unfold queued. rewrite Hrow, Z.eqb_refl by done. f_equal. apply nested_levels; try done.
    + apply Hwf'.
    + intros i Hi. by rewrite Hbits, Z.eqb_refl.
  - intros sig' Hs' Hne. unfold queued. rewrite Hrow by done.
    rewrite (proj2 (Z.eqb_neq sig sig')) by done. f_equal. apply levels_bits.
    intros i Hi. rewrite Hbits by done. by rewrite (proj2 (Z.eqb_neq sig sig')).
Qed.

(** A new instance goes to the end of the queue. *)
Lemma pend_queued t sig info :
  sig_wf t -> 1 <= sig <= 32 -> (levels (t_sig_pending t) sig < 4)%nat ->
  let t' := pend sig (levels (t_sig_pending t) sig) info t in
  sig_wf t' /\ queued t' sig = queued t sig ++ [info] /\
  (forall sig', 1 <= sig' <= 32 -> sig' <> sig -> queued t' sig' = queued t sig').
Proof.
  intros Hwf Hs Hlt t'. pose proof Hwf as [Wp Wn Wr Wl]. set (n := levels (t_sig_pending t) sig) in *.
  destruct (queue_change t t' sig (S n) (fun r => <[n := info]> r)) as (H1 & H2 & H3); try done.
  - unfold t', pend. kred. unfold set_level. by rewrite length_insert.
  - intros r Hr. by rewrite length_insert.
  - intros i sig' Hi Hs'. unfold t', pend. kred. rewrite bit_set_level by (done || lia).
    destruct (Z.eqb_spec sig sig') as [<-|Hne].
    + rewrite nested_bit by done. fold n. rewrite andb_true_r, <- bool_decide_or. apply bool_decide_ext. lia.
    + by rewrite andb_false_r, orb_false_r.
  - split_and!; [done | | done]. rewrite H2. unfold queued. fold n.
    pose proof (row_length t sig Hwf Hs) as Hrl.
    rewrite (take_S_r _ _ info) by (apply list_lookup_insert_eq; lia).
    by rewrite take_insert_ge by lia.
Qed.

(** Delivery takes the first instance off the queue. *)
Lemma deliver_queued t sig :
  sig_wf t -> 1 <= sig <= 32 -> (0 < levels (t_sig_pending t) sig)%nat ->
  sig_wf (deliver sig t) /\ queued (deliver sig t) sig = tail (queued t sig) /\
  (forall sig', 1 <= sig' <= 32 -> sig' <> sig -> queued (deliver sig t) sig' = queued t sig').
Proof.
  intros Hwf Hs Hlt. pose proof Hwf as [Wp Wn Wr Wl]. set (n := levels (t_sig_pending t) sig) in *.
  pose proof (levels_le (t_sig_pending t) sig) as Hle. fold n in Hle.
  assert (Hun : unpend sig (t_sig_pending t) = clear_level (n - 1) sig (t_sig_pending t)).
  { unfold unpend. rewrite !bit_free_bit, !nested_bit, !negb_involutive by (done || lia). fold n.
    destruct n as [|[|[|[|[|n]]]]]; done || lia. }
  destruct (queue_change t (deliver sig t) sig (n - 1) shift_row) as (H1 & H2 & H3); try done.
  - lia.
  - unfold deliver. kred. rewrite Hun. unfold clear_level. by rewrite length_insert.
  - intros [|a [|b [|c [|d [|]]]]]; done.
  - intros i sig' Hi Hs'. unfold deliver. kred. rewrite Hun, bit_clear_level by (done || lia).
    destruct (Z.eqb_spec sig sig') as [<-|Hne].
    + rewrite nested_bit by done. fold n. rewrite andb_true_r, <- bool_decide_not, <- bool_decide_and.
      apply bool_decide_ext. lia.
    + by rewrite andb_false_r, andb_true_r.
  - split_and!; [done | | done]. rewrite H2. unfold queued. fold n.
    pose proof (row_length t sig Hwf Hs) as Hrl.
    destruct (row t sig) as [|a [|b [|c [|d [|]]]]]; try done.
    destruct n as [|[|[|[|[|n]]]]]; done || lia.
Qed.

(** ** Sending *)

(** The task list is a list of live tasks. *)
Definition task_list (s : kstate) (ps ts : list Z) : Prop :=
  items (k_items s) (l_first (k_tasks_list s)) ps ts /\ forall t, t ∈ ts -> is_Some (k_tasks s !! t).

(** The first task in the list that satisfies a condition. *)
Definition first_task (s : kstate) (cond : Z -> task -> bool) (ts : list Z) : option Z :=
  List.find (fun t => match k_tasks s !! t with Some v => cond t v | None => false end) ts.

Lemma seek_find s cond p ps ts :
  items (k_items s) p ps ts ->
  match first_task s cond ts with
  | Some t => exists i, seek (k_tasks s) cond ps ts <> 0 /\
      k_items s !! seek (k_tasks s) cond ps ts = Some i /\ i_val i = t
  | None => seek (k_tasks s) cond ps ts = 0
  end.
Proof.
  revert p ts. induction ps as [|q ps IH]; intros p [|t ts]; simpl; try done.
  intros (-> & Hq & n & Hn & Hi). specialize (IH _ _ Hi). unfold first_task in *.
  destruct (k_tasks s !! t) as [v|]; [|done]. destruct (cond t v); [by eexists | done].
Qed.

Lemma first_task_live s cond ts t : first_task s cond ts = Some t ->
  t ∈ ts /\ exists v, k_tasks s !! t = Some v /\ cond t v = true.
Proof.
  intros [Hin H]%find_some. apply list_elem_of_In in Hin.
  destruct (k_tasks s !! t) as [v|]; [|done]. eauto.
Qed.

(** A search of the task list. *)
Lemma run_seek {B} cond ps ts s (k : Z -> M kstate B) :
  task_list s ps ts ->
  bind (LINKED_LIST_ITER_INIT LTasks) (fun p => bind (LINKED_LIST_SEEK_UNTIL cond p) k) s =
  k (seek (k_tasks s) cond ps ts) s.
Proof.
  intros [Hi Ht]. unfold LINKED_LIST_ITER_INIT. rewrite run_assoc. simpl. unfold gets. unfold bind at 1.
  rewrite run_ret. by rewrite (bind_Ret _ _ _ _ _ (LINKED_LIST_SEEK_UNTIL_spec cond _ ps ts s Hi Ht)).
Qed.

Section Sending.
Context `{!Control}.

(** C25: [sigqueue] is a queue of at most four instances per signal: when the
    task exists and fewer are pending, the new one, with its value, the
    sender's pid and effective uid, joins the end of the queue of that signal,
    the queues of all other signals stay the same, and the scheduler is
    called; a fifth instance is refused with EAGAIN, an unknown task with
    ESRCH and a bad signal number with EINVAL, and nothing changes. *)
Theorem sigqueue_fifo s ps ts tid sig value cur :
  task_list s ps ts -> k_tasks s !! k_current_task s = Some cur ->
  (bad_sig sig = true -> sigqueue tid sig value s = Ret EINVAL s) /\
  (1 <= sig <= 32 ->
   match first_task s (fun _ t => t_id t =? tid) ts with
   | None => sigqueue tid sig value s = Ret ESRCH s
   | Some a =>
       forall t, k_tasks s !! a = Some t -> sig_wf t ->
       if decide (length (queued t sig) < 4)%nat then
         exists t', sigqueue tid sig value s =
           (schedule;;; ret ESUCCESS) (s <| k_tasks := <[a := t']> (k_tasks s) |>) /\ sig_wf t' /\
           queued t' sig = queued t sig ++ [mkSiginfo sig SI_QUEUE 0 (t_pid cur) (t_euid cur) 0 0 0 value] /\
           (forall sig', 1 <= sig' <= 32 -> sig' <> sig -> queued t' sig' = queued t sig')
       else sigqueue tid sig value s = Ret EAGAIN s
   end).
Proof.
  intros Htl Hcur. split; [by unfold sigqueue; intros ->|]. intros Hs.
  assert (Hb : bad_sig sig = false) by (unfold bad_sig; lia).
  unfold sigqueue. rewrite Hb, (run_seek _ ps ts) by done.
  pose proof (seek_find s (fun _ t => t_id t =? tid) _ ps ts (proj1 Htl)) as Hseek.
  destruct (first_task s _ ts) as [a|]; [|by rewrite Hseek].
  destruct Hseek as ([v n] & Hp0 & Hp & Ha). simpl in Ha. subst v. intros t Ht Hwf.
  rewrite (proj2 (Z.eqb_neq _ _) Hp0). krun.
  pose proof (row_length t sig Hwf Hs) as Hrl. pose proof (levels_le (t_sig_pending t) sig) as Hle.
  rewrite !bit_free_bit, !nested_bit by (apply Hwf || done || lia).
  pose proof (queued_length t sig Hwf Hs) as Hql.
  set (info := mkSiginfo _ _ _ _ _ _ _ _ _).
  destruct (decide _) as [Hlt|Hge]; rewrite Hql in *.
  - pose proof (pend_queued t sig info Hwf Hs ltac:(lia)) as Hq. simpl in Hq.
    exists (pend sig (levels (t_sig_pending t) sig) info t). split; [|done].
    destruct (levels (t_sig_pending t) sig) as [|[|[|[|n']]]] eqn:E; simpl; try (by krun). lia.
  - assert (levels (t_sig_pending t) sig = 4)%nat as -> by lia. done.
Qed.

(** The signals that [kill], [pthread_kill] and [raise] send do not queue:
    the first instance becomes pending at level 0, with the sender's pid and
    effective uid; while it is pending, further instances of the same signal
    leave the task as it is (for signal 1, if [sigqueue] left a second
    instance, they overwrite the information of one of them).  In no case is
    a level above 0 newly set, although the macro has code for four levels. *)
Theorem queue_signal_levels s p sig t cur :
  k_tasks s !! p = Some t -> k_tasks s !! k_current_task s = Some cur -> sig_wf t -> 1 <= sig <= 32 ->
  exists t', queue_signal p sig s = Ret tt (s <| k_tasks := <[p := t']> (k_tasks s) |>) /\
    (forall i sig', (i < 4)%nat -> 1 <= sig' <= 32 ->
       bit (t_sig_pending t') i sig' = bit (t_sig_pending t) i sig' || (bool_decide (i = 0)%nat && (sig =? sig'))) /\
    (queued t sig = [] -> queued t' sig = [mkSiginfo sig SI_USER 0 (t_pid cur) (t_euid cur) 0 0 0 0]) /\
    (queued t sig <> [] -> sig <> 1 -> t' = t).
Proof.
  intros Ht Hcur Hwf Hs. pose proof Hwf as [Wp Wn Wr Wl].
  set (info := mkSiginfo sig SI_USER 0 (t_pid cur) (t_euid cur) 0 0 0 0).
  pose proof (queued_length t sig Hwf Hs) as Hql. set (n := levels (t_sig_pending t) sig) in *.
  assert (Hq0 : queued t sig = [] <-> n = 0%nat) by (rewrite <- length_zero_iff_nil; lia).
  assert (Hkeep : (0 < n)%nat -> forall l, (forall i sig', (i < 4)%nat -> 1 <= sig' <= 32 ->
      bit l i sig' = bit (t_sig_pending t) i sig') -> forall i sig', (i < 4)%nat -> 1 <= sig' <= 32 ->
      bit l i sig' = bit (t_sig_pending t) i sig' || (bool_decide (i = 0)%nat && (sig =? sig'))).
  { intros Hpos l Hl i sig' Hi Hs'. rewrite Hl by done. destruct (Z.eqb_spec sig sig') as [<-|];
      [|by rewrite andb_false_r, orb_false_r]. rewrite andb_true_r, nested_bit by done. fold n.
    rewrite <- bool_decide_or. apply bool_decide_ext. lia. }
  assert (Hsame : s = s <| k_tasks := <[p := t]> (k_tasks s) |>).
  { rewrite insert_id by done. by destruct s. }
  unfold queue_signal. rewrite (proj2 (Z.eqb_neq sig 0)) by lia. krun. fold info.
  rewrite bit_free_bit, !bit_one_bit, !nested_bit by (done || lia). fold n.
  destruct n as [|n'] eqn:En; simpl.
  - exists (pend sig 0 info t). rewrite (upd_obj_ok _ _ t) by done. split_and!; [done | | |].
    + intros i sig' Hi Hs'. unfold pend. kred. rewrite bit_set_level by (done || lia).
      do 2 f_equal. apply bool_decide_ext. lia.
    + intros Hq. pose proof (pend_queued t sig info Hwf Hs) as Hp. fold n in Hp. rewrite En in Hp.
      destruct (Hp ltac:(lia)) as (_ & -> & _). by rewrite Hq.
    + intros Hq. destruct Hq. by apply Hq0.
  - destruct (decide (sig = 1 /\ (2 <= S n')%nat)) as [[-> Hn2]|Hno].
    + rewrite bool_decide_true by lia. simpl. exists (pend 1 1 info t).
      rewrite (upd_obj_ok _ _ t) by done. split_and!; [done | | by intros ?%Hq0 | done].
      apply Hkeep; [lia|]. intros i sig' Hi Hs'. unfold pend. kred. rewrite bit_set_level by (done || lia).
      destruct (Z.eqb_spec 1 sig') as [<-|]; [|by rewrite andb_false_r, orb_false_r].
      rewrite nested_bit by done. fold n. rewrite andb_true_r, <- bool_decide_or, En.
      apply bool_decide_ext. lia.
    + exists t. rewrite <- Hsame. split_and!; [| apply Hkeep; [lia | done] | by intros ?%Hq0 | done].
      destruct (Z.eqb_spec sig 1) as [->|]; [|done]. simpl.
      rewrite !bool_decide_false by lia. done.
Qed.
End Sending.

(** ** Delivery *)

Lemma first_bit_spec fuel w k0 s :
  0 < w < 2 ^ Z.of_nat fuel ->
  exists k, first_bit fuel w k0 s = Ret (k0 + k) s /\ 0 <= k < Z.of_nat fuel /\
    Z.testbit w k = true /\ forall j, 0 <= j < k -> Z.testbit w j = false.
Proof.
  revert w k0. induction fuel as [|fuel IH]; intros w k0 Hw; [simpl in Hw; lia|]. cbn [first_bit].
  destruct (Z.odd w) eqn:Ho.
  - exists 0. rewrite Z.add_0_r, Z.bit0_odd. split_and!; [done | lia | lia | done | lia].
  - assert (Hw2 : w = 2 * Z.shiftr w 1).
    { rewrite Z.shiftr_div_pow2 by lia. change (2 ^ 1) with 2. rewrite (Z.div_mod w 2) at 1 by lia.
      rewrite Zmod_odd, Ho. lia. }
    destruct (IH (Z.shiftr w 1) (k0 + 1)) as (k & Hr & Hk & Hb & Hlow).
    { rewrite Nat2Z.inj_succ, Z.pow_succ_r in Hw by lia. lia. }
    exists (k + 1). rewrite Hr. split_and!; [f_equal; lia | lia | lia | |].
    + rewrite <- Hb, Z.shiftr_spec by lia. done.
    + intros j Hj. destruct (Z.eq_dec j 0) as [->|]; [by rewrite Z.bit0_odd|].
      rewrite <- (Hlow (j - 1)), Z.shiftr_spec by lia. f_equal. lia.
Qed.

(** Signal [sig] is pending and not masked. *)
Definition ready (t : task) (sig : Z) : bool :=
  bit (t_sig_pending t) 0 sig && negb (Z.testbit (t_sigmask t) (sig - 1)).

Lemma deliverable_range t : 0 <= deliverable t < 2 ^ 32.
Proof.
  unfold deliverable. rewrite Z.land_comm. unfold not32.
  rewrite (Z.land_comm (Z.lnot _)), <- Z.land_assoc, Z.land_comm, Z.land_ones by lia.
  apply Z.mod_pos_bound. lia.
Qed.

Lemma deliverable_bit t sig : 1 <= sig <= 32 -> Z.testbit (deliverable t) (sig - 1) = ready t sig.
Proof. intros. unfold deliverable. by rewrite Z.land_spec, testbit_not32 by lia. Qed.

Lemma deliverable_zero t : deliverable t = 0 <-> forall sig, 1 <= sig <= 32 -> ready t sig = false.
Proof.
  split.
  - intros H sig Hs. by rewrite <- deliverable_bit, H, Z.bits_0.
  - intros H. apply Z.bits_inj'. intros k Hk. rewrite Z.bits_0. destruct (Z.lt_ge_cases k 32).
    + replace k with (k + 1 - 1) by lia. rewrite deliverable_bit by lia. apply H. lia.
    + apply testbit_high; [apply deliverable_range | done].
Qed.

Section Delivery.
Context `{!Control}.

Lemma signal_handler_S fuel :
  signal_handler (S fuel) =
  (t <- current;;
   if deliverable t =? 0 then ret tt else
   sig <- first_bit 32 (deliverable t) 0;;
   upd_current (deliver (sig + 1));;;
   act_on (sig + 1);;;
   signal_handler fuel).
Proof. done. Qed.

#[local] Arguments first_bit : simpl never.
#[local] Arguments act_on : simpl never.
#[local] Arguments deliver : simpl never.
#[local] Arguments signal_handler : simpl never.

(** One round of [signal_handler]: the lowest deliverable signal. *)
Lemma signal_handler_round fuel s t :
  k_tasks s !! k_current_task s = Some t -> deliverable t <> 0 ->
  exists sig, 1 <= sig <= 32 /\ ready t sig = true /\
    (forall sig', 1 <= sig' < sig -> ready t sig' = false) /\
    signal_handler (S fuel) s =
    (act_on sig;;; signal_handler fuel)
      (s <| k_tasks := <[k_current_task s := deliver sig t]> (k_tasks s) |>).
Proof.
  intros Ht Hd. pose proof (deliverable_range t) as Hr.
  destruct (first_bit_spec 32 (deliverable t) 0 s) as (k & Hk & Hkr & Hb & Hlow); [lia|].
  exists (k + 1). split_and!; [lia | lia | | |].
  - rewrite <- deliverable_bit by lia. by replace (k + 1 - 1) with k by lia.
  - intros sig' Hs'. rewrite <- deliverable_bit by lia. apply Hlow. lia.
  - rewrite signal_handler_S. krun. rewrite (proj2 (Z.eqb_neq _ _) Hd), (bind_Ret _ _ _ _ _ Hk). simpl.
    unfold upd_current. krun. done.
Qed.

(** C24: Each round of [signal_handler] takes the lowest-numbered signal that is
    pending and not masked, removes the first instance from its queue, leaves
    the queues of all other signals alone, and acts on the signal; with no such
    signal the handler returns and changes nothing. *)
Theorem signal_handler_order fuel s t :
  k_tasks s !! k_current_task s = Some t -> sig_wf t ->
  (deliverable t = 0 -> signal_handler (S fuel) s = Ret tt s) /\
  (deliverable t <> 0 -> exists sig, 1 <= sig <= 32 /\ ready t sig = true /\
     (forall sig', 1 <= sig' < sig -> ready t sig' = false) /\
     signal_handler (S fuel) s =
     (act_on sig;;; signal_handler fuel)
       (s <| k_tasks := <[k_current_task s := deliver sig t]> (k_tasks s) |>) /\
     sig_wf (deliver sig t) /\ queued (deliver sig t) sig = tail (queued t sig) /\
     (forall sig', 1 <= sig' <= 32 -> sig' <> sig -> queued (deliver sig t) sig' = queued t sig')).
Proof.
  intros Ht Hwf. split.
  - intros Hd. rewrite signal_handler_S. krun. by rewrite Hd.
  - intros Hd. destruct (signal_handler_round fuel s t Ht Hd) as (sig & Hs & Hr & Hmin & He).
    exists sig. split_and!; try done; try lia; apply deliver_queued; try done.
    all: unfold ready in Hr; apply andb_prop in Hr as [Hb _];
      rewrite nested_bit in Hb by (apply Hwf || done || lia); by apply bool_decide_eq_true in Hb.
Qed.

(** A signal that the handler drops. *)
Definition ignored (t : task) (sig : Z) : bool :=
  (handler_of t sig =? SIG_IGN) ||
  ((handler_of t sig =? SIG_DFL) && match default_action sig with Ignore => true | _ => false end).

Lemma act_on_ignored sig s t : k_tasks s !! k_current_task s = Some t -> ignored t sig = true ->
  act_on sig s = Ret tt s.
Proof.
  intros Ht Hi. unfold act_on. krun. unfold ignored in Hi.
  destruct (Z.eqb_spec (handler_of t sig) SIG_IGN) as [->|]; [done|]. simpl in Hi.
  apply andb_prop in Hi as [-> Hi]. by destruct (default_action sig).
Qed.

(** The number of deliverable instances. *)
Definition backlog (t : task) : nat :=
  sum_list_with (fun sig => if ready t sig then length (queued t sig) else 0%nat) (seqZ 1 32).

Lemma sum_list_with_one {A} `{EqDecision A} (f g : A -> nat) (l : list A) (x : A) :
  NoDup l -> x ∈ l -> S (g x) = f x -> (forall y, y ∈ l -> y <> x -> g y = f y) ->
  S (sum_list_with g l) = sum_list_with f l.
Proof.
  induction l as [|y l IH]; intros Hd Hin Hx Ho; [set_solver|].
  apply NoDup_cons in Hd as [Hy Hd]. simpl. destruct (decide (y = x)) as [->|Hne].
  - rewrite <- Hx. simpl. do 2 f_equal. clear -Hy Ho. induction l as [|z l IH]; [done|]. simpl.
    rewrite Ho by set_solver. f_equal. apply IH; set_solver.
  - rewrite (Ho y) by set_solver. rewrite <- IH; [lia | done | set_solver | done | set_solver].
Qed.

Lemma ready_queued t sig : sig_wf t -> 1 <= sig <= 32 ->
  bit (t_sig_pending t) 0 sig = bool_decide (queued t sig <> []).
Proof.
  intros Hwf Hs. rewrite nested_bit by (apply Hwf || done || lia). apply bool_decide_ext.
  rewrite <- queued_length by done. destruct (queued t sig); simpl; split; try done; lia.
Qed.

Lemma backlog_deliver t sig : sig_wf t -> 1 <= sig <= 32 -> ready t sig = true ->
  S (backlog (deliver sig t)) = backlog t.
Proof.
  intros Hwf Hs Hr. assert (Hq : queued t sig <> []).
  { unfold ready in Hr. rewrite ready_queued in Hr by done. by apply andb_prop in Hr as [?%bool_decide_eq_true _]. }
  destruct (deliver_queued t sig Hwf Hs) as (Hwf' & Hq' & Ho).
  { rewrite <- queued_length by done. destruct (queued t sig); simpl; [done | lia]. }
  unfold backlog. apply sum_list_with_one with sig.
  - apply NoDup_seqZ.
  - apply elem_of_seqZ. lia.
  - rewrite Hr, Hq'. destruct (queued t sig) as [|a q]; [done|]. simpl.
    unfold ready. rewrite ready_queued by done. rewrite Hq'.
    unfold ready in Hr. apply andb_prop in Hr as [_ Hm]. change (t_sigmask (deliver sig t)) with (t_sigmask t).
    rewrite Hm. simpl. by destruct q.
  - intros y Hy Hne. apply elem_of_seqZ in Hy. unfold ready. rewrite !ready_queued by (done || lia).
    by rewrite (Ho y) by (done || lia).
Qed.

Lemma signal_handler_drops fuel s t :
  k_tasks s !! k_current_task s = Some t -> sig_wf t -> (backlog t < fuel)%nat ->
  (forall sig, 1 <= sig <= 32 -> ready t sig = true -> ignored t sig = true) ->
  exists t', signal_handler fuel s = Ret tt (s <| k_tasks := <[k_current_task s := t']> (k_tasks s) |>) /\
    deliverable t' = 0 /\
    (forall sig, 1 <= sig <= 32 -> ready t sig = false -> queued t' sig = queued t sig).
Proof.
  revert s t. induction fuel as [|fuel IH]; intros s t Ht Hwf Hb Hig; [lia|].
  destruct (signal_handler_order fuel s t Ht Hwf) as [H0 H1].
  destruct (decide (deliverable t = 0)) as [Hd|Hd].
  { exists t. rewrite H0, insert_id by done. split_and!; [by destruct s | done | done]. }
  destruct (H1 Hd) as (sig & Hs & Hr & _ & -> & Hwf' & Hq & Ho).
  set (s1 := s <| k_tasks := _ |>).
  assert (Ht1 : k_tasks s1 !! k_current_task s1 = Some (deliver sig t)) by (unfold s1; kred; by simplify_map_eq).
  rewrite (bind_Ret _ _ _ _ _ (act_on_ignored sig s1 _ Ht1 (Hig sig Hs Hr))).
  pose proof (backlog_deliver t sig Hwf Hs Hr) as Hbl.
  destruct (IH s1 (deliver sig t) Ht1 Hwf' ltac:(lia)) as (t' & He & Hd' & Hq').
  { intros sig' Hs' Hr'. apply (Hig sig' Hs'). unfold ready in *. rewrite ready_queued in * by done.
    destruct (decide (sig' = sig)) as [->|Hne].
    - rewrite Hq in Hr'. destruct (queued t sig); [done|]. done.
    - by rewrite Ho in Hr'. }
  exists t'. split_and!; [| done |].
  - rewrite He. unfold s1. f_equal. kstate. by rewrite insert_insert_eq.
  - intros sig' Hs' Hr'. assert (sig' <> sig) by congruence. rewrite Hq'; [by apply Ho | done |].
    unfold ready in *. rewrite ready_queued in * by done. by rewrite Ho.
Qed.

Lemma sum_list_with_bound {A} (f : A -> nat) l n : (forall x, (f x <= n)%nat) -> (sum_list_with f l <= n * length l)%nat.
Proof. intros Hf. induction l as [|x l IH]; simpl; [lia|]. specialize (Hf x). lia. Qed.

(** C38: [signal_handler] terminates when the deliverable signals are ignored: at
    most 129 rounds lead to a state with no deliverable signal left, and the
    queues of the signals that were not deliverable are as they were. *)
Theorem signal_handler_terminates s t :
  k_tasks s !! k_current_task s = Some t -> sig_wf t ->
  (forall sig, 1 <= sig <= 32 -> ready t sig = true -> ignored t sig = true) ->
  exists t', signal_handler 129 s = Ret tt (s <| k_tasks := <[k_current_task s := t']> (k_tasks s) |>) /\
    deliverable t' = 0 /\
    (forall sig, 1 <= sig <= 32 -> ready t sig = false -> queued t' sig = queued t sig).
Proof.
  intros Ht Hwf. apply signal_handler_drops; [done | done |]. unfold backlog.
  assert (Hb : forall sig, ((if ready t sig then length (queued t sig) else 0) <= 4)%nat).
  { intros sig. pose proof (levels_le (t_sig_pending t) sig). unfold queued.
    destruct (ready t sig); [|lia]. rewrite length_take. lia. }
  pose proof (sum_list_with_bound _ (seqZ 1 32) 4 Hb) as Hsum. rewrite length_seqZ in Hsum.
  change (Z.to_nat 32) with 32%nat in Hsum. lia.
Qed.
End Delivery.

(** ** Masks *)

Lemma sigbit_testbit sig sig' : 1 <= sig <= 32 -> 1 <= sig' <= 32 ->
  Z.testbit (sigbit sig) (sig' - 1) = (sig =? sig').
Proof. intros. rewrite sigbit_shift, testbit_pow2 by lia. lia. Qed.

(** The running task after a call that changes only its mask. *)
Definition masked_as (s : kstate) (t : task) (mask : Z) : kstate :=
  s <| k_tasks := <[k_current_task s := t <| t_sigmask := mask |>]> (k_tasks s) |>.

(** The mask functions: after [sighold] the signal is not delivered even if
    pending, after [sigrelse] it is delivered exactly if pending, and
    [sigprocmask] adds, removes or replaces a set of signals; the other signals
    keep their state.  This includes SIGKILL and SIGSTOP: no function refuses
    to mask them. *)
Theorem sigmask_ops s t sig set :
  k_tasks s !! k_current_task s = Some t -> 1 <= sig <= 32 ->
  (exists m, sighold sig s = Ret ESUCCESS (masked_as s t m) /\
     forall sig', 1 <= sig' <= 32 ->
       ready (t <| t_sigmask := m |>) sig' = ready t sig' && negb (sig =? sig')) /\
  (exists m, sigrelse sig s = Ret ESUCCESS (masked_as s t m) /\
     forall sig', 1 <= sig' <= 32 ->
       ready (t <| t_sigmask := m |>) sig' =
       if sig =? sig' then bit (t_sig_pending t) 0 sig' else ready t sig') /\
  (forall how op, (how, op) ∈ [(SIG_BLOCK, Z.lor (t_sigmask t) set);
                               (SIG_UNBLOCK, Z.land (t_sigmask t) (not32 set)); (SIG_SETMASK, set)] ->
     sigprocmask how (Some set) s = Ret (ESUCCESS, t_sigmask t) (masked_as s t op)).
Proof.
  intros Ht Hs. assert (Hb : bad_sig sig = false) by (unfold bad_sig; lia). split_and!.
  - exists (Z.lor (t_sigmask t) (sigbit sig)). unfold sighold, upd_current. rewrite Hb. krun. split; [done|].
    intros sig' Hs'. unfold ready. kred. rewrite Z.lor_spec, sigbit_testbit by done.
    by rewrite negb_orb, andb_assoc.
  - exists (Z.land (t_sigmask t) (not32 (sigbit sig))). unfold sigrelse, upd_current. rewrite Hb. krun.
    split; [done|]. intros sig' Hs'. unfold ready. kred.
    rewrite Z.land_spec, testbit_not32, sigbit_testbit by (done || lia).
    destruct (sig =? sig'); [by rewrite andb_false_r, andb_true_r | by rewrite andb_true_r].
  - intros how op Hin. unfold sigprocmask, upd_current.
    repeat (apply elem_of_cons in Hin as [[= -> ->]|Hin]; [by krun|]). set_solver.
Qed.

(** ** An example: two tasks, one of which has a pending signal *)

Module SignalExample.

Definition quiet : Control :=
  {| switch := modify (fun s => s <| k_schedule_lock := 0 |>); call_handler _ _ := ret tt; do_exit _ := block |}.

Definition t1 : task :=
  no_task <| t_id := 1 |> <| t_pid := 1 |> <| t_sig_pending := [Z.shiftl 1 19; 0; 0; 0] |>.
Definition t2 : task := no_task <| t_id := 2 |> <| t_pid := 2 |>.

Definition st : kstate :=
  empty_kstate <| k_items := list_to_map [(1, mkItem 100 2); (2, mkItem 200 0)] |>
    <| k_tasks := list_to_map [(100, t1); (200, t2)] |>
    <| k_tasks_list := mkList 1 2 1 0 2 |> <| k_current_task := 100 |>.

Lemma tasks : task_list st [1; 2] [100; 200].
Proof.
  split.
  - simpl. split_and!; try done. eexists. split; [done|]. split_and!; try done. by eexists.
  - intros t [-> | [-> | []%elem_of_nil]%elem_of_cons]%elem_of_cons; by eexists.
Qed.

Lemma rows_ok r : r ∈ t_sig_info no_task -> length r = 4%nat.
Proof.
  intros Hr%list_elem_of_In. unfold no_task in Hr. cbn [t_sig_info] in Hr.
  by apply repeat_spec in Hr as ->.
Qed.

Lemma wf1 : sig_wf t1.
Proof.
  split; [done | | done | exact rows_ok].
  intros [|[|[|i]]] sig Hi Hs; try lia; unfold bit; simpl; by rewrite Z.bits_0.
Qed.

Lemma wf2 : sig_wf t2.
Proof.
  split; [done | | done | exact rows_ok].
  intros [|[|[|i]]] sig Hi Hs; try lia; unfold bit; simpl; by rewrite Z.bits_0.
Qed.

Example sigqueue_fifo_witness :
  exists t', @sigqueue quiet 2 SIGUSR1 7 st =
    (@schedule quiet;;; ret ESUCCESS) (st <| k_tasks := <[200 := t']> (k_tasks st) |>) /\
    queued t' SIGUSR1 = [mkSiginfo SIGUSR1 SI_QUEUE 0 1 0 0 0 0 7].
Proof.
  destruct (proj2 (@sigqueue_fifo quiet st [1; 2] [100; 200] 2 SIGUSR1 7 t1 tasks eq_refl) ltac:(done)
              t2 eq_refl wf2) as (t' & H1 & _ & H2 & _).
  exists t'. by split.
Defined.

Example queue_signal_levels_witness :
  exists t', queue_signal 200 SIGTERM st = Ret tt (st <| k_tasks := <[200 := t']> (k_tasks st) |>) /\
    queued t' SIGTERM = [mkSiginfo SIGTERM SI_USER 0 1 0 0 0 0 0].
Proof.
  destruct (queue_signal_levels st 200 SIGTERM t2 t1 eq_refl eq_refl wf2 ltac:(done)) as (t' & H1 & _ & H2 & _).
  exists t'. split; [exact H1 | by apply H2].
Defined.

Example signal_handler_order_witness :
  exists sig, 1 <= sig <= 32 /\ ready t1 sig = true /\ queued (deliver sig t1) sig = tail (queued t1 sig).
Proof.
  destruct (proj2 (@signal_handler_order quiet 0 st t1 eq_refl wf1) ltac:(done))
    as (sig & H1 & H2 & _ & _ & _ & H3 & _).
  by exists sig.
Defined.

Example signal_handler_terminates_witness :
  exists t', @signal_handler quiet 129 st = Ret tt (st <| k_tasks := <[100 := t']> (k_tasks st) |>) /\
    deliverable t' = 0.
Proof.
  destruct (@signal_handler_terminates quiet st t1 eq_refl wf1) as (t' & H1 & H2 & _).
  { intros sig Hs Hr. assert (sig = SIGCHLD) as ->; [|done]. unfold ready, bit in Hr.
    apply andb_prop in Hr as [Hr _]. change (word_at (t_sig_pending t1) 0) with (Z.shiftl 1 19) in Hr.
    rewrite testbit_pow2 in Hr by lia. unfold SIGCHLD. lia. }
  by exists t'.
Defined.

Example sigmask_ops_witness :
  exists m, @sighold SIGCHLD st = Ret ESUCCESS (masked_as st t1 m) /\
    ready (t1 <| t_sigmask := m |>) SIGCHLD = false.
Proof.
  destruct (sigmask_ops st t1 SIGCHLD 0 eq_refl ltac:(done)) as [(m & H1 & H2) _].
  exists m. split; [exact H1|]. rewrite (H2 SIGCHLD) by done. by rewrite andb_false_r.
Defined.

End SignalExample.
