(* ===== verification/Vfs.v ===== *)
(** * Vfs: the virtual file system (vfs.c)

    Nodes form a tree: the children of a directory are a chain of siblings
    that starts at [ptr] and goes on through [next].  The operations are
    translated on the heap of KState.v; the theorems relate them to lists of
    children and to the resolution of a path component by component. *)

From Stdlib Require Import Ascii.
From S2P Require Import Prelude Chain KState.

(** ** Drivers

    What a node's function pointers do is the business of the file system or
    device that made the node. *)
Class Drivers := {
  call_read : Z -> Z -> Z -> Z -> M kstate (Z * list Z);    (* fn, node, offset, size *)
  call_write : Z -> Z -> Z -> Z -> list Z -> M kstate Z;    (* fn, node, offset, size, buffer *)
  call_open : Z -> Z -> string -> M kstate Z;               (* fn, node, path *)
  call_readdir : Z -> Z -> Z -> M kstate (option dirent);   (* fn, node, index *)
  call_finddir : Z -> Z -> option string -> M kstate Z;     (* fn, node, name *)
  call_stat : Z -> Z -> option string -> M kstate (option stat_t);  (* fn, node, path *)
  call_ioctl : Z -> Z -> Z -> M kstate Z;                   (* fn, node, request *)
  call_chown : Z -> Z -> Z -> Z -> M kstate Z               (* fn, node, uid, gid *)
}.

(** No driver at all, for examples. *)
Definition no_drivers : Drivers :=
  {| call_read _ _ _ _ := fault; call_write _ _ _ _ _ := fault; call_open _ _ _ := fault;
     call_readdir _ _ _ := fault; call_finddir _ _ _ := fault; call_stat _ _ _ := fault;
     call_ioctl _ _ _ := fault; call_chown _ _ _ _ := fault |}.

(** ** Paths *)

Definition slash : ascii := "/"%char.

(** The inner loop of [vfs_get_path_level]: from a pointer into the path to
    the next slash or the terminator. *)
Fixpoint skip_component (p : string) : string :=
  match p with
  | EmptyString => EmptyString
  | String c p' => if decide (c = slash) then p else skip_component p'
  end.

(** The characters from a pointer to the next slash or the terminator. *)
Fixpoint take_component (p : string) : string :=
  match p with
  | EmptyString => EmptyString
  | String c p' => if decide (c = slash) then EmptyString else String c (take_component p')
  end.

(** The loop over [level]: the start of that component, or NULL. *)
Fixpoint level_start (level : nat) (filename : string) : option string :=
  match level with
  | O => Some filename
  | S level =>
      match skip_component filename with
      | EmptyString => None
      | String _ rest => level_start level rest
      end
  end.

Definition skip_slash (p : string) : string :=
  match p with
  | String c p' => if decide (c = slash) then p' else p
  | EmptyString => p
  end.

Definition strlen (p : string) : Z := Z.of_nat (String.length p).

(** [vfs_get_path_level]: the component that is copied to the buffer. *)
Definition vfs_get_path_level (filename : string) (level : nat) : M kstate (option string) :=
  assert (strlen filename <=? MAX_PATH) "strlen(filename) <= MAX_PATH";;;
  ret (match level_start level (skip_slash filename) with
       | None => None
       | Some start =>
           match take_component start with EmptyString => None | name => Some name end
       end).

(** [get_path_from_level]; its loop moves to the end of the path when there
    are not that many components. *)
Fixpoint get_path_from_level_loop (level : nat) (p : string) : string :=
  match level with
  | O => p
  | S level =>
      match skip_component p with
      | EmptyString => EmptyString
      | String _ EmptyString => EmptyString
      | String _ rest => get_path_from_level_loop level rest
      end
  end.

Definition get_path_from_level (path : string) (level : Z) : string :=
  get_path_from_level_loop (Z.to_nat level) (skip_slash path).

(** ** Operations *)

Section Vfs.
Context `{!Allocator, !Drivers}.

(** The buffer for a component, whose content is the component itself. *)
Definition path_buffer : list Z := repeat 0 (Z.to_nat (MAX_PATH + 1)).

(** [vfs_init]; its test for lack of memory looks at its argument. *)
Definition vfs_init (root : Z) : M kstate unit :=
  r <- malloc sizeof_vfs_node;;
  modify (fun s => s <| k_vfs_root := r |>);;;
  (if root =? 0 then panic "vfs: out of memory" else ret tt);;;
  (if r =? 0 then fault else put r (VFS_NODE_INITIALIZER FS_DIRECTORY));;;
  modify (fun s => s <| k_vfs_root_mount := root |>).

(** [vfs_switch_root] *)
Definition vfs_switch_root (newroot : Z) : M kstate unit :=
  modify (fun s => s <| k_vfs_root_mount := newroot |>).

(** [while (tmp->next != NULL) tmp = tmp->next] *)
Fixpoint last_sibling (fuel : nat) (tmp : Z) : M kstate Z :=
  match fuel with
  | O => nofuel
  | S fuel => n <- load tmp;; if n_next n =? 0 then ret tmp else last_sibling fuel (n_next n)
  end.

(** A chain of distinct nodes is no longer than the heap is large. *)
Definition chain_fuel (s : kstate) : nat := S (size (k_nodes s)).

Definition vfs_mknod (parent node : Z) : M kstate Z :=
  assert (negb (node =? 0)) "node != NULL";;;
  n <- load node;;
  assert (n_next n =? 0) "node->next == NULL";;;
  s <- get;;
  let parent := if parent =? 0 then k_vfs_root s else parent in
  pn <- load parent;;
  if Z.land (n_flags pn) FS_DIRECTORY =? 0 then ret (-1) else
  lock_node parent;;;
  upd_obj node (fun n => n <| n_parent := parent |>);;;
  pn <- load parent;;
  (if n_ptr pn =? 0
   then upd_obj parent (fun n => n <| n_ptr := node |>)
   else tmp <- last_sibling (chain_fuel s) (n_ptr pn);;
        upd_obj tmp (fun n => n <| n_next := node |>));;;
  (if parent =? k_vfs_root s
   then modify (fun s => s <| k_vfs_root_nodes := u32 (k_vfs_root_nodes s + 1) |>)
   else ret tt);;;
  unlock_node parent;;;
  ret 0.

(** [while (tmp != NULL && tmp != node) { sibling = tmp; tmp = tmp->next; }] *)
Fixpoint find_sibling (fuel : nat) (node tmp sibling : Z) : M kstate (Z * Z) :=
  match fuel with
  | O => nofuel
  | S fuel =>
      if (tmp =? 0) || (tmp =? node) then ret (tmp, sibling)
      else n <- load tmp;; find_sibling fuel node (n_next n) tmp
  end.

Definition vfs_rmnod (node : Z) : M kstate Z :=
  assert (negb (node =? 0)) "node != NULL";;;
  n <- load node;;
  assert (negb (n_parent n =? 0)) "node->parent != NULL";;;
  pn <- load (n_parent n);;
  if n_ptr pn =? 0 then ret (-1) else
  lock_node (n_parent n);;;
  s <- get;;
  '(tmp, sibling) <- find_sibling (chain_fuel s) node (n_ptr pn) 0;;
  if tmp =? 0 then unlock_node (n_parent n);;; ret (-1) else
  (if sibling =? 0
   then upd_obj (n_parent n) (fun p => p <| n_ptr := n_next n |>)
   else upd_obj sibling (fun p => p <| n_next := n_next n |>));;;
  unlock_node (n_parent n);;;
  upd_obj node (fun n => n <| n_next := 0 |>);;;
  ret 0.

(** [while (tmp != NULL && strcmp(tmp->name, name)) tmp = tmp->next]; a NULL
    name is dereferenced by the first comparison. *)
Fixpoint find_name (fuel : nat) (name : option string) (tmp : Z) : M kstate Z :=
  match fuel with
  | O => nofuel
  | S fuel =>
      if tmp =? 0 then ret 0
      else n <- load tmp;; name' <- deref name;;
           if String.eqb (n_name n) name' then ret tmp else find_name fuel name (n_next n)
  end.

Definition vfs_finddir (node : Z) (name : option string) : M kstate Z :=
  s <- get;;
  let node := if node =? 0 then k_vfs_root s else node in
  n <- load node;;
  if (Z.land (n_flags n) 0x7 =? FS_DIRECTORY) && (n_finddir n =? 0) then
    tmp <- (if n_ptr n =? 0 then ret 0 else find_name (chain_fuel s) name (n_ptr n));;
    if negb (tmp =? 0) then ret tmp
    else if node =? k_vfs_root s then
      m <- load (k_vfs_root_mount s);; find_name (chain_fuel s) name (n_ptr m)
    else ret 0
  else if n_finddir n =? 0 then fault
  else call_finddir (n_finddir n) node name.

(** [for (i = from; i < index && tmp->next != NULL; i++) tmp = tmp->next],
    then the test that the loop ran to its end. *)
Fixpoint nth_sibling (k : nat) (tmp : Z) : M kstate (option Z) :=
  match k with
  | O => ret (Some tmp)
  | S k => n <- load tmp;; if n_next n =? 0 then ret None else nth_sibling k (n_next n)
  end.

Definition read_entry (first : Z) (k : nat) : M kstate (option dirent) :=
  if first =? 0 then ret None else
  tmp <- nth_sibling k first;;
  match tmp with
  | None => ret None
  | Some tmp => n <- load tmp;; ret (Some (mkDirent (n_name n) (n_inode n)))
  end.

Definition vfs_readdir (node index : Z) : M kstate (option dirent) :=
  s <- get;;
  let node := if node =? 0 then k_vfs_root s else node in
  n <- load node;;
  if negb (n_readdir n =? 0) then call_readdir (n_readdir n) node index
  else if negb (node =? k_vfs_root s) || (index <? k_vfs_root_nodes s)
  then read_entry (n_ptr n) (Z.to_nat index)
  else m <- load (k_vfs_root_mount s);;
       read_entry (n_ptr m) (Z.to_nat (index - k_vfs_root_nodes s)).

Definition vfs_read (node offset size : Z) : M kstate (Z * list Z) :=
  assert (negb (node =? 0)) "node != NULL";;;
  assert (0 <? size) "size > 0";;;
  n <- load node;;
  if negb (n_read n =? 0) then call_read (n_read n) node offset size else ret (0, []).

Definition vfs_write (node offset size : Z) (buffer : list Z) : M kstate Z :=
  assert (negb (node =? 0)) "node != NULL";;;
  n <- load node;;
  if negb (n_write n =? 0) then call_write (n_write n) node offset size buffer else ret 0.

Definition vfs_put (node c : Z) : M kstate Z :=
  assert (negb (node =? 0)) "node != NULL";;;
  n <- load node;;
  assert (negb (Z.land (n_flags n) FS_CHARDEVICE =? 0)) "node->flags & FS_CHARDEVICE";;;
  if negb (n_write n =? 0) then call_write (n_write n) node 0 1 [c] else ret 0.

(** The terminator is part of what is written. *)
Definition vfs_put_s (node : Z) (s : list Z) : M kstate Z :=
  assert (negb (node =? 0)) "node != NULL";;;
  n <- load node;;
  assert (negb (Z.land (n_flags n) FS_CHARDEVICE =? 0)) "node->flags & FS_CHARDEVICE";;;
  if negb (n_write n =? 0)
  then call_write (n_write n) node 0 (Z.of_nat (length s) + 1) (s ++ [0]) else ret 0.

Definition vfs_opendev (major minor : Z) : M kstate Z := set_errno ENOSYS;;; ret 0.

(** [mutex_wait(&node->lock); node->refs++; mutex_release(&node->lock)] *)
Definition take_ref (node : Z) : M kstate unit :=
  lock_node node;;;
  upd_obj node (fun n => n <| n_refs := u32 (n_refs n + 1) |>);;;
  unlock_node node.

(** The loops of [vfs_open]; the component [name] is that of level [i - 1].
    The path buffer at [buf] is freed on every way out. *)
Fixpoint open_loop (fuel : nat) (filename : string) (buf node : Z) (name : string) (i : nat)
  : M kstate Z :=
  match fuel with
  | O => nofuel
  | S fuel =>
      let next node :=
        name' <- vfs_get_path_level filename i;;
        match name' with
        | None => free_obj (T := list Z) buf;;; take_ref node;;; ret node
        | Some name' => open_loop fuel filename buf node name' (S i)
        end in
      if String.eqb name ".." then
        s <- get;;
        if node =? k_vfs_root s
        then free_obj (T := list Z) buf;;; set_errno ENOENT;;; ret 0
        else n <- load node;;
             assert (negb (n_parent n =? 0)) "node->parent != NULL";;;
             next (n_parent n)
      else if String.eqb name "." then next node
      else
        n <- load node;;
        tmp <- (if negb (n_open n =? 0) then call_open (n_open n) node name
                else vfs_finddir node (Some name));;
        if tmp =? 0
        then set_errno ENOENT;;; free_obj (T := list Z) buf;;; take_ref node;;; ret 0
        else next tmp
  end.

Definition vfs_open (filename : string) (flags : Z) : M kstate Z :=
  assert (strlen filename <=? MAX_PATH) "strlen(filename) <= MAX_PATH";;;
  s <- get;;
  t <- current;;
  let node := if String.prefix "/" filename then k_vfs_root s else t_cwd t in
  let node := if node =? 0 then k_vfs_root s else node in
  buf <- malloc (MAX_PATH + 1);;
  if buf =? 0 then set_errno ENOMEM;;; ret 0 else
  put buf path_buffer;;;
  name <- vfs_get_path_level filename 0;;
  match name with
  | None => free_obj (T := list Z) buf;;; take_ref (k_vfs_root s);;; ret (k_vfs_root s)
  | Some name => open_loop (S (String.length filename)) filename buf node name 1
  end.

Definition vfs_close (node : Z) : M kstate unit :=
  assert (negb (node =? 0)) "node != NULL";;;
  lock_node node;;;
  upd_obj node (fun n => n <| n_refs := u32 (n_refs n - 1) |>);;;
  n <- load node;;
  if (n_refs n =? 0) && negb (Z.land (n_flags n) FS_AUTOFREE =? 0) then
    (if negb (Z.land (n_flags n) FS_PIPE =? 0) && negb (n_data n =? 0) then
       p <- load (n_data n);;
       assert (negb (p_buf p =? 0)) "pipe->buf != NULL";;;
       free_obj (T := list Z) (p_buf p);;;
       free_obj (T := pipe_t) (n_data n)
     else ret tt);;;
    free_obj (T := vfs_node) node
  else unlock_node node.

Definition MODE_TYPE_DIRECTORY := 0x1.
Definition MODE_TYPE_CHARDEVICE := 0x8.

Definition stat_of (n : vfs_node) : stat_t :=
  let mode := if Z.land (n_flags n) 0x7 =? FS_DIRECTORY then MODE_TYPE_DIRECTORY else 0 in
  let mode := if Z.land (n_flags n) 0x7 =? FS_CHARDEVICE
              then Z.lor mode MODE_TYPE_CHARDEVICE else mode in
  mkStat mode (n_uid n) (n_gid n) (n_length n).

(** The loop of [vfs_stat]; [name] is NULL when the path has no component. *)
Fixpoint stat_loop (fuel : nat) (path : string) (buff node : Z) (name : option string) (i : nat)
  : M kstate (option stat_t) :=
  match fuel with
  | O => nofuel
  | S fuel =>
      n <- load node;;
      if negb (n_stat n =? 0)
      then free_obj (T := list Z) buff;;; call_stat (n_stat n) node name
      else
        tmp <- vfs_finddir node name;;
        if tmp =? 0
        then free_obj (T := list Z) buff;;; set_errno ENOENT;;; ret None
        else
          name' <- vfs_get_path_level path i;;
          match name' with
          | Some _ => stat_loop fuel path buff tmp name' (S i)
          | None =>
              free_obj (T := list Z) buff;;; n <- load tmp;; ret (Some (stat_of n))
          end
  end.

Definition vfs_stat (node : Z) (path : option string) : M kstate (option stat_t) :=
  s <- get;;
  stat <- (if node =? 0 then ret 0 else n <- load node;; ret (n_stat n));;
  if negb (stat =? 0) then call_stat stat node path else
  match path with
  | None =>
      if node =? 0 then set_errno ENOENT;;; ret None
      else n <- load node;; ret (Some (stat_of n))
  | Some path =>
      buff <- malloc (MAX_PATH + 1);;
      if buff =? 0 then set_errno ENOMEM;;; ret None else
      put buff path_buffer;;;
      name <- vfs_get_path_level path 0;;
      stat_loop (S (String.length path)) path buff (k_vfs_root s) name 1
  end.

(** The first loop of [vfs_get_path]: the nodes from [node] up to the root,
    in the array [nodes] of MAX_PATH_NODES elements. *)
Fixpoint path_nodes (room : nat) (node : Z) : M kstate (list string) :=
  match room with
  | O => fault
  | S room =>
      s <- get;;
      n <- load node;;
      assert (negb (n_parent n =? 0)) "node != NULL";;;
      if n_parent n =? k_vfs_root s then ret [n_name n]
      else l <- path_nodes room (n_parent n);; ret (n_name n :: l)
  end.

Definition join_path (names : list string) : string :=
  fold_right (fun name p => String slash (name +:+ p)) "" names.

Definition vfs_get_path (node : Z) : M kstate string :=
  assert (negb (node =? 0)) "node != NULL";;;
  s <- get;;
  if node =? k_vfs_root s then ret "/"
  else names <- path_nodes (Z.to_nat MAX_PATH_NODES) node;; ret (join_path (reverse names)).

Definition vfs_ioctl (node request : Z) : M kstate Z :=
  assert (negb (node =? 0)) "node != NULL";;;
  n <- load node;;
  if negb (n_ioctl n =? 0) then call_ioctl (n_ioctl n) node request else ret ENOENT.

Definition vfs_chown (node uid gid : Z) : M kstate Z :=
  assert (negb (node =? 0)) "node != NULL";;;
  n <- load node;;
  if negb (n_chown n =? 0) then call_chown (n_chown n) node uid gid
  else upd_obj node (fun n => n <| n_uid := uid |> <| n_gid := gid |>);;; ret ESUCCESS.
End Vfs.

(** ** Components of a path *)

(** The text between the slashes. *)
Fixpoint split_slash (p : string) : list string :=
  match p with
  | EmptyString => [EmptyString]
  | String c p' =>
      if decide (c = slash) then EmptyString :: split_slash p'
      else match split_slash p' with
           | name :: rest => String c name :: rest
           | [] => [String c EmptyString]
           end
  end.

(** The component at a level; an empty one (as in "a//b") ends the path. *)
Definition component (path : string) (level : nat) : option string :=
  match split_slash (skip_slash path) !! level with
  | Some EmptyString | None => None
  | Some name => Some name
  end.

Lemma split_slash_take p : exists rest, split_slash p = take_component p :: rest.
Proof.
  induction p as [|c p [rest IH]]; simpl; [by eexists|].
  destruct (decide (c = slash)); [by eexists|]. rewrite IH. by eexists.
Qed.

Lemma split_slash_skip p :
  match skip_component p with
  | EmptyString => split_slash p = [take_component p]
  | String _ rest => split_slash p = take_component p :: split_slash rest
  end.
Proof.
  induction p as [|c p IH]; cbn; [done|]. destruct (decide (c = slash)); [done|].
  destruct (skip_component p); rewrite IH; done.
Qed.

Lemma level_start_split n p :
  split_slash p !! n = take_component <$> level_start n p.
Proof.
  revert p. induction n as [|n IH]; intros p; simpl.
  - destruct (split_slash_take p) as [rest ->]. done.
  - pose proof (split_slash_skip p) as H. destruct (skip_component p) as [|c rest]; rewrite H; simpl; [done|].
    apply IH.
Qed.

Lemma vfs_get_path_level_component path level s :
  strlen path <= MAX_PATH -> vfs_get_path_level path level s = Ret (component path level) s.
Proof.
  intros H. unfold vfs_get_path_level, component. rewrite run_assert by (by apply Z.leb_le).
  rewrite level_start_split. destruct (level_start level (skip_slash path)); [|done].
  simpl. by destruct (take_component _).
Qed.

Lemma split_slash_length p : (length (split_slash p) <= S (String.length p))%nat.
Proof.
  induction p as [|c p IH]; simpl; [lia|]. destruct (decide (c = slash)); simpl; [lia|].
  destruct (split_slash p); simpl in *; lia.
Qed.

(** The components of a path, up to the first missing or empty one. *)
Fixpoint nonempty_prefix (l : list string) : list string :=
  match l with
  | [] | EmptyString :: _ => []
  | name :: l => name :: nonempty_prefix l
  end.

Definition components (path : string) : list string := nonempty_prefix (split_slash (skip_slash path)).

Notation chain := (Chain.chain n_next).
Notation links := (Chain.links n_next).

(** The children of a directory. *)
Definition children (s : kstate) (d : Z) (l : list Z) : Prop :=
  exists n, k_nodes s !! d = Some n /\ chain (k_nodes s) (n_ptr n) l.

Section Loops.
Context (s : kstate).
Notation h := (k_nodes s).

Lemma last_sibling_spec fuel p l q :
  chain h p (l ++ [q]) -> (length l < fuel)%nat -> last_sibling fuel p s = Ret q s.
Proof.
  revert p l. induction fuel as [|fuel IH]; intros p l Hc Hf; [lia|].
  destruct l as [|q1 l]; simpl in Hc, Hf; destruct Hc as (-> & Hq & n & Hn & Hc); cbn [last_sibling].
  - rewrite (run_load _ n) by done. by rewrite Hc.
  - rewrite (run_load _ n) by done. rewrite (proj2 (Z.eqb_neq _ _)); [|by intros ?%(chain_nonnull _ _ _ Hc); destruct l].
    apply (IH _ l); [done | lia].
Qed.

(** The element before [node], NULL at the head. *)
Lemma find_sibling_spec fuel node l1 l2 p sib :
  chain h p (l1 ++ node :: l2) -> node ∉ l1 -> (length l1 < fuel)%nat ->
  find_sibling fuel node p sib s = Ret (node, default sib (last l1)) s.
Proof.
  revert p l1 sib. induction fuel as [|fuel IH]; intros p l1 sib Hc Hn Hf; [lia|].
  destruct l1 as [|q1 l1]; simpl in Hc, Hf; destruct Hc as (-> & Hq & n & Hl & Hc); cbn [find_sibling].
  - by rewrite Z.eqb_refl, orb_true_r.
  - rewrite !(proj2 (Z.eqb_neq _ _)) by set_solver. simpl. rewrite (run_load _ n) by done.
    rewrite (IH _ l1) by (done || set_solver || lia). destruct l1 as [|q2 l1]; [done|].
    change (last (q1 :: q2 :: l1)) with (last (q2 :: l1)).
    destruct (last (q2 :: l1)) eqn:E; [done|]. by apply last_None in E.
Qed.

Definition has_name (name : string) (q : Z) : bool :=
  match h !! q with Some n => String.eqb (n_name n) name | None => false end.

Lemma find_name_spec fuel name p l :
  chain h p l -> (length l < fuel)%nat ->
  find_name fuel (Some name) p s = Ret (default 0 (List.find (has_name name) l)) s.
Proof.
  revert p l. induction fuel as [|fuel IH]; intros p l Hc Hf; [lia|].
  destruct l as [|q l]; simpl in Hc, Hf; cbn [find_name]; [by rewrite Hc|].
  destruct Hc as (-> & Hq & n & Hn & Hc). rewrite (proj2 (Z.eqb_neq _ _)) by done.
  rewrite (run_load _ n) by done. simpl. rewrite run_ret. unfold has_name at 1. rewrite Hn.
  destruct (String.eqb (n_name n) name); [done|]. apply IH; [done | lia].
Qed.

Lemma find_name_null fuel p n :
  p <> 0 -> h !! p = Some n -> find_name (S fuel) None p s = Faults s.
Proof.
  intros Hp Hn. simpl. rewrite (proj2 (Z.eqb_neq _ _) Hp). by rewrite (run_load _ n).
Qed.

Lemma nth_sibling_spec k q p l :
  chain h p (q :: l) -> nth_sibling k p s = Ret ((q :: l) !! k) s.
Proof.
  revert p q l. induction k as [|k IH]; intros p q l (-> & Hq & n & Hn & Hc); cbn [nth_sibling]; [done|].
  rewrite (run_load _ n) by done. destruct l as [|q' l].
  - simpl in Hc. by rewrite Hc.
  - rewrite (proj2 (Z.eqb_neq _ _)); [|by intros ?%(chain_nonnull _ _ _ Hc)]. by apply (IH _ q').
Qed.

Definition entry_of (q : Z) : option dirent :=
  n ← h !! q; Some (mkDirent (n_name n) (n_inode n)).

Lemma read_entry_spec p l k : chain h p l -> read_entry p k s = Ret (l !! k ≫= entry_of) s.
Proof.
  intros Hc. unfold read_entry. destruct l as [|q l]; [simpl in Hc; by rewrite Hc|].
  rewrite (proj2 (Z.eqb_neq _ _)); [|by intros ?%(chain_nonnull _ _ _ Hc)].
  rewrite (bind_Ret _ _ _ _ _ (nth_sibling_spec k q p l Hc)).
  destruct ((q :: l) !! k) as [r|] eqn:E; simpl; [|done].
  destruct (chain_dom _ _ _ r Hc) as [_ [n Hn]]; [by eapply list_elem_of_lookup_2|].
  rewrite (run_load _ n) by done. unfold entry_of. by rewrite Hn.
Qed.
End Loops.

#[global] Arguments chain_fuel : simpl never.
#[global] Arguments last_sibling : simpl never.
#[global] Arguments find_sibling : simpl never.
#[global] Arguments find_name : simpl never.
#[global] Arguments nth_sibling : simpl never.

(** ** Directories as lists of children *)

Section Directories.
Context `{!Allocator, !Drivers}.

(** What [vfs_mknod] asks of its arguments: a directory whose children are
    [l], unlocked, and a node that is not on any chain. *)
Record can_attach (s : kstate) (parent node : Z) (pn n : vfs_node) (l : list Z) : Prop := {
  ca_node : k_nodes s !! node = Some n;
  ca_node0 : node <> 0;
  ca_next : n_next n = 0;
  ca_dir : k_nodes s !! parent = Some pn;
  ca_dir0 : parent <> 0;
  ca_flags : Z.land (n_flags pn) FS_DIRECTORY <> 0;
  ca_lock : n_lock pn = 0;
  ca_chain : chain (k_nodes s) (n_ptr pn) l;
  ca_new : node <> parent /\ node ∉ l /\ parent ∉ l
}.

Definition mknod_nodes (h : gmap Z vfs_node) (parent node : Z) (pn n : vfs_node) (l : list Z) :=
  let h := <[node := n <| n_parent := parent |>]> h in
  match last l with
  | None => <[parent := pn <| n_ptr := node |>]> h
  | Some q =>
      match h !! q with
      | Some m => <[q := m <| n_next := node |>]> h
      | None => h
      end
  end.

Lemma vfs_mknod_ok s parent node pn n l :
  can_attach s (if parent =? 0 then k_vfs_root s else parent) node pn n l ->
  let p := if parent =? 0 then k_vfs_root s else parent in
  exists s', vfs_mknod parent node s = Ret 0 s' /\
    k_nodes s' = mknod_nodes (k_nodes s) p node pn n l /\
    k_vfs_root_nodes s' =
      (if p =? k_vfs_root s then u32 (k_vfs_root_nodes s + 1) else k_vfs_root_nodes s).
Proof.
  intros [Hn Hn0 Hnx Hp Hp0 Hfl Hlk Hc (Hnp & Hnl & Hpl)] p. fold p in Hp, Hp0, Hnp, Hpl.
  unfold vfs_mknod. krun. fold p. rewrite (proj2 (Z.eqb_neq _ _) Hfl). krun.
  destruct (decide (l = [])) as [->|Hl].
  - simpl in Hc. rewrite Hc. simpl. krun.
    destruct (p =? k_vfs_root s); krun; (eexists; split; [done|]); kred; split; try done.
    all: unfold mknod_nodes; kmaps; f_equal; krecord.
  - destruct (exists_last Hl) as (l1 & q & ->).
    assert (Hq0 : n_ptr pn <> 0) by (intros ?%(chain_nonnull _ _ _ Hc); by destruct l1).
    assert (q <> p /\ q <> node) as [Hqp Hqn] by set_solver.
    destruct (chain_dom _ _ _ q Hc ltac:(set_solver)) as [_ [m Hm]].
    rewrite (proj2 (Z.eqb_neq _ _) Hq0). krun.
    erewrite (bind_Ret (last_sibling _ _)); [|eapply (last_sibling_spec _ _ _ l1 q); kred].
    2:{ eapply chain_links; [|exact Hc]. etrans; [by apply (links_insert _ p pn (pn <| n_lock := 1 |>))|].
        apply (links_insert _ node n); [by simplify_map_eq | done]. }
    2:{ unfold chain_fuel. apply chain_size in Hc. rewrite length_app in Hc. simpl in Hc. lia. }
    krun. destruct (p =? k_vfs_root s); krun; (eexists; split; [done|]); kred; split; try done.
    all: unfold mknod_nodes; rewrite last_snoc; simplify_map_eq; kmaps; f_equal; krecord.
Qed.

Record can_detach (s : kstate) (node : Z) (pn n : vfs_node) (l1 l2 : list Z) : Prop := {
  cd_node : k_nodes s !! node = Some n;
  cd_parent0 : n_parent n <> 0;
  cd_dir : k_nodes s !! n_parent n = Some pn;
  cd_lock : n_lock pn = 0;
  cd_chain : chain (k_nodes s) (n_ptr pn) (l1 ++ node :: l2);
  cd_loop : n_parent n ∉ l1 ++ node :: l2
}.

Definition rmnod_nodes (h : gmap Z vfs_node) (node : Z) (pn n : vfs_node) (l1 : list Z) :=
  let h' := match last l1 with
            | None => <[n_parent n := pn <| n_ptr := n_next n |>]> h
            | Some q =>
                match h !! q with
                | Some m => <[q := m <| n_next := n_next n |>]> h
                | None => h
                end
            end in
  <[node := n <| n_next := 0 |>]> h'.

Lemma vfs_rmnod_ok s node pn n l1 l2 :
  can_detach s node pn n l1 l2 ->
  exists s', vfs_rmnod node s = Ret 0 s' /\ k_nodes s' = rmnod_nodes (k_nodes s) node pn n l1 /\
    k_vfs_root_nodes s' = k_vfs_root_nodes s.
Proof.
  intros [Hn Hp0 Hp Hlk Hc Hnp]. set (p := n_parent n) in *.
  pose proof (chain_NoDup _ _ _ Hc) as Hd.
  assert (node ∉ l1 /\ node ∉ l2) as [Hd1 Hd2] by (apply NoDup_app in Hd as (_ & Hd & Hd3);
    apply NoDup_cons in Hd3; set_solver).
  destruct (chain_dom _ _ _ node Hc ltac:(set_solver)) as [Hn0 _].
  assert (Hq0 : n_ptr pn <> 0) by (intros ?%(chain_nonnull _ _ _ Hc); by destruct l1).
  assert (Hne : node <> p) by set_solver.
  unfold vfs_rmnod. krun. fold p. krun. rewrite (proj2 (Z.eqb_neq _ _) Hq0). krun.
  erewrite (bind_Ret (find_sibling _ _ _ _)); [|eapply (find_sibling_spec _ _ _ l1 l2); kred].
  2:{ eapply chain_links; [|exact Hc]. by apply (links_insert _ p pn (pn <| n_lock := 1 |>)). }
  2:{ done. }
  2:{ unfold chain_fuel. kred. apply chain_size in Hc. rewrite length_app in Hc. simpl in Hc.
      rewrite map_size_insert, Hp. simpl. lia. }
  cbv beta iota. rewrite (proj2 (Z.eqb_neq _ _) Hn0). unfold rmnod_nodes.
  destruct (last l1) as [q|] eqn:El; simpl.
  - apply last_Some in El as (l3 & ->).
    destruct (chain_dom _ _ _ q Hc ltac:(set_solver)) as [Hq1 [m Hm]].
    assert (q <> p /\ q <> node) as [Hqp Hqn] by set_solver.
    rewrite (proj2 (Z.eqb_neq _ _) Hq1). krun. eexists. split; [done|]. kred. split; [|done].
    simplify_map_eq. kmaps; f_equal; krecord.
  - krun. eexists. split; [done|]. kred. split; [|done]. kmaps; f_equal; krecord.
Qed.

Lemma vfs_mknod_appends s parent node pn n l :
  let p := if parent =? 0 then k_vfs_root s else parent in
  can_attach s p node pn n l ->
  exists s' n', vfs_mknod parent node s = Ret 0 s' /\ children s' p (l ++ [node]) /\
    k_nodes s' !! node = Some n' /\ n_parent n' = p.
Proof.
  intros p Hca. destruct (vfs_mknod_ok s parent node pn n l Hca) as (s' & Hr & Hh & _).
  destruct Hca as [Hn Hn0 Hnx Hp Hp0 Hfl Hlk Hc (Hnp & Hnl & Hpl)]. fold p in Hp, Hp0, Hnp, Hpl, Hh.
  unfold children. exists s'. rewrite Hh. unfold mknod_nodes.
  destruct (decide (l = [])) as [->|Hl]; simpl.
  - exists (n <| n_parent := p |>). split_and!; try done; [|by simplify_map_eq].
    eexists. split; [by simplify_map_eq|]. kred. split_and!; [done | done |].
    eexists. split; [by simplify_map_eq | done].
  - destruct (exists_last Hl) as (l1 & q & ->). rewrite last_snoc.
    destruct (chain_dom _ _ _ q Hc ltac:(set_solver)) as [_ [m Hm]].
    assert (q <> node /\ q <> p) as [Hqn Hqp] by set_solver.
    exists (n <| n_parent := p |>). simplify_map_eq.
    split_and!; try done. exists pn. split; [done|].
    eapply chain_append; [|by simplify_map_eq.. | done | done | set_solver].
    eapply chain_links; [by apply links_insert with n | done].
Qed.

Lemma vfs_rmnod_removes s node pn n l1 l2 :
  can_detach s node pn n l1 l2 ->
  exists s' n', vfs_rmnod node s = Ret 0 s' /\ children s' (n_parent n) (l1 ++ l2) /\
    k_nodes s' !! node = Some n' /\ n_next n' = 0.
Proof.
  intros Hcd. destruct (vfs_rmnod_ok s node pn n l1 l2 Hcd) as (s' & Hr & Hh & _).
  destruct Hcd as [Hn Hp0 Hp Hlk Hc Hnp]. pose proof (chain_NoDup _ _ _ Hc) as Hd.
  assert (node ∉ l1 /\ node ∉ l2) as [Hd1 Hd2] by (apply NoDup_app in Hd as (_ & Hd & Hd3);
    apply NoDup_cons in Hd3; set_solver).
  assert (Hne : node <> n_parent n) by set_solver.
  exists s', (n <| n_next := 0 |>). unfold children. rewrite Hh. unfold rmnod_nodes.
  destruct (last l1) as [q|] eqn:El; simpl.
  - apply last_Some in El as (l3 & ->).
    destruct (chain_dom _ _ _ q Hc ltac:(set_solver)) as [_ [m Hm]]. rewrite Hm.
    assert (q <> node /\ q <> n_parent n) as [Hqn Hqp] by set_solver.
    split_and!; [done | | by simplify_map_eq | done]. exists pn. split; [by simplify_map_eq|].
    rewrite <- app_assoc in *. simpl in *.
    eapply chain_frame; [by apply (chain_remove (k_nodes s) _ l3 q node l2 (m <| n_next := n_next n |>) n)|].
    intros r x Hr1 Hx. exists x.
    rewrite lookup_insert_ne by set_solver. done.
  - apply last_None in El as ->. split_and!; [done | | by simplify_map_eq | done].
    eexists. split; [by simplify_map_eq|]. kred. simpl in Hc.
    destruct Hc as (_ & _ & n2 & Hn2 & Hc). simplify_eq. simpl.
    eapply chain_frame; [done|]. intros r x Hr1 Hx. exists x.
    rewrite !lookup_insert_ne by set_solver. done.
Qed.

(** C27: [vfs_mknod] and [vfs_rmnod] maintain the list of children of a
    directory: attaching a node to a directory with the children [l] returns
    0 and leaves the children [l ++ [node]], with the directory as the
    node's parent; detaching a node that stands between [l1] and [l2]
    returns 0 and leaves [l1 ++ l2], with the node ready to be attached
    again.  A NULL parent means the root directory. *)
Theorem vfs_mknod_rmnod :
  (forall s parent node pn n l,
     let p := if parent =? 0 then k_vfs_root s else parent in
     can_attach s p node pn n l ->
     exists s' n', vfs_mknod parent node s = Ret 0 s' /\ children s' p (l ++ [node]) /\
       k_nodes s' !! node = Some n' /\ n_parent n' = p) /\
  (forall s node pn n l1 l2,
     can_detach s node pn n l1 l2 ->
     exists s' n', vfs_rmnod node s = Ret 0 s' /\ children s' (n_parent n) (l1 ++ l2) /\
       k_nodes s' !! node = Some n' /\ n_next n' = 0).
Proof. split; [exact vfs_mknod_appends | exact vfs_rmnod_removes]. Qed.

(** A directory of the vfs itself: no driver looks up or lists its entries. *)
Definition plain_dir (s : kstate) (d : Z) : Prop :=
  d <> 0 /\ exists n, k_nodes s !! d = Some n /\ Z.land (n_flags n) 0x7 = FS_DIRECTORY /\
    n_finddir n = 0 /\ n_readdir n = 0 /\ n_open n = 0 /\ n_stat n = 0.

(** What a directory shows: its children [l], and in the root directory also
    the children [m] of the mounted file system. *)
Definition listing (s : kstate) (d : Z) (l m : list Z) : Prop :=
  children s d l /\
  if d =? k_vfs_root s then children s (k_vfs_root_mount s) m else m = [].

Lemma vfs_finddir_ok s d l m name :
  plain_dir s d -> listing s d l m ->
  vfs_finddir d (Some name) s = Ret (default 0 (List.find (has_name s name) (l ++ m))) s.
Proof.
  intros (Hd0 & n & Hn & Hfl & Hfd & _) ((n' & Hn' & Hc) & Hm). simplify_eq.
  unfold vfs_finddir. krun. rewrite (proj2 (Z.eqb_neq _ _) Hd0). krun. rewrite Hfl, Hfd. simpl.
  assert (Hfuel : forall p l, chain (k_nodes s) p l -> (length l < chain_fuel s)%nat).
  { intros p l0 Hp. apply chain_size in Hp. unfold chain_fuel. lia. }
  rewrite find_app.
  assert (Hf : (if n_ptr n =? 0 then ret 0 else find_name (chain_fuel s) (Some name) (n_ptr n)) s =
               Ret (default 0 (List.find (has_name s name) l)) s).
  { destruct (Z.eqb_spec (n_ptr n) 0) as [E|E]; [|by apply find_name_spec; eauto].
    apply (chain_nonnull _ _ _ Hc) in E as ->. done. }
  rewrite (bind_Ret _ _ _ _ _ Hf). destruct (List.find (has_name s name) l) as [q|] eqn:E; simpl.
  - apply find_some in E as [E _]. apply list_elem_of_In in E.
    destruct (chain_dom _ _ _ q Hc E) as [Hq0 _]. by rewrite (proj2 (Z.eqb_neq _ _) Hq0).
  - destruct (d =? k_vfs_root s).
    + destruct Hm as (nm & Hnm & Hcm). rewrite (run_load _ nm) by done. by apply find_name_spec; eauto.
    + by subst m.
Qed.

Lemma vfs_readdir_ok s d l m index :
  plain_dir s d -> listing s d l m -> 0 <= index ->
  (d = k_vfs_root s -> k_vfs_root_nodes s = Z.of_nat (length l)) ->
  vfs_readdir d index s = Ret ((l ++ m) !! Z.to_nat index ≫= entry_of s) s.
Proof.
  intros (Hd0 & n & Hn & Hfl & _ & Hrd & _) ((n' & Hn' & Hc) & Hm) Hi Hcnt. simplify_eq.
  unfold vfs_readdir. krun. rewrite (proj2 (Z.eqb_neq _ _) Hd0). krun. rewrite Hrd. simpl.
  destruct (Z.eqb_spec d (k_vfs_root s)) as [E|E]; simpl.
  - specialize (Hcnt E). destruct Hm as (nm & Hnm & Hcm).
    destruct (Z.ltb_spec index (k_vfs_root_nodes s)) as [Hlt|Hge].
    + rewrite (read_entry_spec s _ l) by done. by rewrite lookup_app_l by lia.
    + rewrite (run_load _ nm) by done. rewrite (read_entry_spec s _ m) by done.
      rewrite lookup_app_r by lia. do 3 f_equal. lia.
  - subst m. rewrite (read_entry_spec s _ l) by done. by rewrite app_nil_r.
Qed.

(** Lookup in a directory: [vfs_finddir] returns the first of the nodes
    that the directory shows with the given name, NULL if there is none, and
    [vfs_readdir] returns the name and inode of the node at the given index,
    NULL past the last one; for the root directory this holds as long as its
    counter is the number of its own children.  Neither changes anything. *)
Theorem vfs_directory_lookup s d l m :
  plain_dir s d -> listing s d l m ->
  (forall name, vfs_finddir d (Some name) s =
                Ret (default 0 (List.find (has_name s name) (l ++ m))) s) /\
  ((d = k_vfs_root s -> k_vfs_root_nodes s = Z.of_nat (length l)) ->
   forall index, 0 <= index ->
     vfs_readdir d index s = Ret ((l ++ m) !! Z.to_nat index ≫= entry_of s) s).
Proof. split; intros; [by apply vfs_finddir_ok | by apply vfs_readdir_ok]. Qed.
End Directories.

(** ** Opening a path *)

Lemma nonempty_prefix_lookup l n :
  (n <= length (nonempty_prefix l))%nat ->
  match l !! n with Some EmptyString | None => None | Some name => Some name end =
  nonempty_prefix l !! n.
Proof.
  revert n. induction l as [|[|c x] l IH]; intros n; simpl.
  - intros _. by destruct n.
  - intros Hn. by replace n with 0%nat by lia.
  - intros Hn. destruct n as [|n]; simpl; [done|]. apply IH. lia.
Qed.

Lemma component_components path n :
  (n <= length (components path))%nat -> component path n = components path !! n.
Proof. apply nonempty_prefix_lookup. Qed.

Lemma components_length path : (length (components path) <= S (String.length path))%nat.
Proof.
  assert (forall l, (length (nonempty_prefix l) <= length l)%nat) as Hle.
  { induction l as [|[|c x] l IH]; simpl; lia. }
  unfold components. etrans; [apply Hle|]. etrans; [apply split_slash_length|].
  destruct path as [|c p]; simpl; [lia|]. destruct (decide (c = slash)); simpl; lia.
Qed.

(** Where the components of a path lead from a directory: to a node, to a
    directory that has no entry of the next name, or above the root. *)
Inductive target := Found (t : Z) | NotIn (d : Z) | AboveRoot.

Inductive walk (s : kstate) : Z -> list string -> target -> Prop :=
| walk_nil d : walk s d [] (Found d)
| walk_dot d names r : walk s d names r -> walk s d ("." :: names) r
| walk_root names : walk s (k_vfs_root s) (".." :: names) AboveRoot
| walk_up d n names r :
    d <> k_vfs_root s -> k_nodes s !! d = Some n -> n_parent n <> 0 ->
    walk s (n_parent n) names r -> walk s d (".." :: names) r
| walk_child d l m name q names r :
    name <> "." -> name <> ".." -> plain_dir s d -> listing s d l m ->
    List.find (has_name s name) (l ++ m) = Some q -> q <> 0 ->
    walk s q names r -> walk s d (name :: names) r
| walk_missing d l m name names :
    name <> "." -> name <> ".." -> plain_dir s d -> listing s d l m ->
    List.find (has_name s name) (l ++ m) = None -> walk s d (name :: names) (NotIn d).

(** Resolution looks at nodes and roots only. *)
Definition same_tree (s s' : kstate) : Prop :=
  k_nodes s' = k_nodes s /\ k_vfs_root s' = k_vfs_root s /\ k_vfs_root_mount s' = k_vfs_root_mount s.

Lemma same_tree_has_name s s' name l : same_tree s s' ->
  List.find (has_name s' name) l = List.find (has_name s name) l.
Proof. intros (H & _). unfold has_name. by rewrite H. Qed.

Lemma walk_same_tree s s' d names r : same_tree s s' -> walk s d names r -> walk s' d names r.
Proof.
  intros Ht Hw. pose proof Ht as (Hn & Hr & Hm). induction Hw.
  - constructor.
  - by constructor.
  - rewrite <- Hr. constructor.
  - eapply walk_up; [by rewrite Hr | by rewrite Hn | done | done].
  - eapply (walk_child s' d l m); eauto.
    + unfold plain_dir in *. by rewrite Hn.
    + unfold listing, children in *. by rewrite Hn, Hr, Hm.
    + by rewrite (same_tree_has_name s).
  - eapply (walk_missing s' d l m); eauto.
    + unfold plain_dir in *. by rewrite Hn.
    + unfold listing, children in *. by rewrite Hn, Hr, Hm.
    + by rewrite (same_tree_has_name s).
Qed.

Section Open.
Context `{!Allocator, !Drivers}.

(** One more reference to [q]. *)
Definition with_ref (h : gmap Z vfs_node) (q : Z) : gmap Z vfs_node :=
  match h !! q with
  | Some n => <[q := n <| n_refs := u32 (n_refs n + 1) |>]> h
  | None => h
  end.

Lemma run_take_ref {B} q n (k : unit -> M kstate B) s :
  k_nodes s !! q = Some n -> n_lock n = 0 ->
  bind (take_ref q) k s = k tt (s <| k_nodes := with_ref (k_nodes s) q |>).
Proof.
  intros Hn Hl. unfold take_ref, with_ref. krun. rewrite Hn. f_equal.
  unfold setf. simpl. f_equal. kmaps; f_equal; krecord.
Qed.

(** The result and the state when the walk is over. *)
Definition set_err (e : Z) (s : kstate) : kstate :=
  match k_tasks s !! k_current_task s with
  | Some t => s <| k_tasks := <[k_current_task s := t <| t_errno := e |>]> (k_tasks s) |>
  | None => s
  end.

Definition open_result (s : kstate) (r : target) : outcome kstate Z :=
  match r with
  | Found t => Ret t (s <| k_nodes := with_ref (k_nodes s) t |>)
  | NotIn d => Ret 0 (set_err ENOENT (s <| k_nodes := with_ref (k_nodes s) d |>))
  | AboveRoot => Ret 0 (set_err ENOENT s)
  end.

(** The node whose reference count the call raises is not locked. *)
Definition unlocked_target (s : kstate) (r : target) : Prop :=
  match r with
  | Found q | NotIn q => exists n, k_nodes s !! q = Some n /\ n_lock n = 0
  | AboveRoot => True
  end.

Definition drop_buf (buf : Z) (s : kstate) : kstate := s <| k_bufs := delete buf (k_bufs s) |>.

Lemma open_loop_walk fuel path buf d name i pre rest r b t s :
  strlen path <= MAX_PATH -> components path = pre ++ name :: rest -> i = S (length pre) ->
  (length rest < fuel)%nat -> walk s d (name :: rest) r -> unlocked_target s r ->
  k_bufs s !! buf = Some b -> k_tasks s !! k_current_task s = Some t ->
  open_loop fuel path buf d name i s = open_result (drop_buf buf s) r.
Proof.
  intros Hlen. revert d name i pre rest. induction fuel as [|fuel IH]; intros d name i pre rest Hc Hi Hf Hw Hu Hb Ht;
    [lia|]. cbn [open_loop].
  assert (Hnext : forall d', walk s d' rest r ->
    (name' <- vfs_get_path_level path i;;
     match name' with
     | None => free_obj (T := list Z) buf;;; take_ref d';;; ret d'
     | Some name' => open_loop fuel path buf d' name' (S i)
     end) s = open_result (drop_buf buf s) r).
  { intros d' Hw'. rewrite (bind_Ret _ _ _ _ _ (vfs_get_path_level_component _ _ _ Hlen)).
    assert (Hcomp : component path i = rest !! 0%nat).
    { rewrite component_components, Hc by (rewrite Hc, length_app; simpl; lia).
      rewrite lookup_app_r by lia. by replace (i - length pre)%nat with 1%nat by lia. }
    rewrite Hcomp. destruct rest as [|name' rest]; simpl.
    - inversion Hw'; subst. simpl in Hu. destruct Hu as (n & Hn & Hl). krun.
      by rewrite (run_take_ref _ n) by done.
    - apply (IH _ _ _ (pre ++ [name]) rest); try done.
      + by rewrite <- app_assoc.
      + rewrite length_app. simpl. lia.
      + simpl in Hf. lia. }
  inversion Hw as [| ? ? ? Hw' | | ? n ? ? Hr Hn Hp Hw' | ? l m ? q ? ? Hd Hdd Hpl Hls Hfi Hq Hw'
                  | ? l m ? ? Hd Hdd Hpl Hls Hfi]; subst; simpl.
  - by apply Hnext.
  - krun. rewrite Z.eqb_refl. krun. unfold open_result, set_err, drop_buf. kred. by rewrite Ht.
  - krun. rewrite (proj2 (Z.eqb_neq _ _) Hr). krun. by apply Hnext.
  - rewrite !(proj2 (String.eqb_neq _ _)) by done. pose proof Hpl as (Hd0 & n & Hn & Hpl').
    krun. destruct Hpl' as (Hfl & Hfd & Hrd & Hop & Hst). rewrite Hop. simpl.
    rewrite (bind_Ret _ _ _ _ _ (vfs_finddir_ok s d l m name Hpl Hls)), Hfi. simpl.
    rewrite (proj2 (Z.eqb_neq _ _) Hq). by apply Hnext.
  - rewrite !(proj2 (String.eqb_neq _ _)) by done. pose proof Hpl as (Hd0 & n & Hn & Hpl').
    krun. destruct Hpl' as (Hfl & Hfd & Hrd & Hop & Hst). rewrite Hop. simpl.
    rewrite (bind_Ret _ _ _ _ _ (vfs_finddir_ok s d l m name Hpl Hls)), Hfi. simpl.
    destruct Hu as (n' & Hn' & Hl). krun. rewrite (run_take_ref _ n') by done.
    unfold open_result, set_err, drop_buf. kred. by rewrite Ht.
Qed.

#[local] Arguments open_loop : simpl never.

(** Where [vfs_open] starts. *)
Definition start_dir (s : kstate) (path : string) (t : task) : Z :=
  let d := if String.prefix "/" path then k_vfs_root s else t_cwd t in
  if d =? 0 then k_vfs_root s else d.

Definition open_target (s : kstate) (path : string) (t : task) (r : target) : Prop :=
  match components path with
  | [] => r = Found (k_vfs_root s)
  | names => walk s (start_dir s path t) names r
  end.

(** A fresh buffer leaves no trace once it is freed. *)
Lemma drop_fresh_buf s buf b :
  k_bufs s !! buf = None -> drop_buf buf (s <| k_bufs := <[buf := b]> (k_bufs s) |>) = s.
Proof.
  intros Hb. unfold drop_buf. kred. rewrite delete_insert_id by done. by destruct s.
Qed.

Lemma allocate_live s n : allocate (k_mallocs s) (live s) n <> 0 ->
  k_bufs s !! allocate (k_mallocs s) (live s) n = None.
Proof.
  intros Ha. destruct (allocate_fresh (k_mallocs s) (live s) n) as [?|[_ Hf]]; [done|].
  apply not_elem_of_dom. unfold live in Hf. set_solver.
Qed.

(** One call of [malloc] later. *)
Definition tick (s : kstate) : kstate := s <| k_mallocs := S (k_mallocs s) |>.

Lemma vfs_open_ok s path flags t r :
  strlen path <= MAX_PATH -> k_tasks s !! k_current_task s = Some t ->
  allocate (k_mallocs s) (live s) (MAX_PATH + 1) <> 0 ->
  open_target s path t r -> unlocked_target s r ->
  vfs_open path flags s = open_result (tick s) r.
Proof.
  intros Hlen Ht Ha Hw Hu. pose proof (allocate_live _ _ Ha) as Hfresh.
  unfold vfs_open. rewrite run_assert by (by apply Z.leb_le). krun. fold (start_dir s path t).
  rewrite (proj2 (Z.eqb_neq _ _) Ha). krun.
  rewrite (bind_Ret _ _ _ _ _ (vfs_get_path_level_component _ _ _ Hlen)).
  rewrite component_components by lia. unfold open_target in Hw.
  set (s1 := tick s). set (buf := allocate _ _ _) in *. set (b := path_buffer).
  change (s <| k_mallocs := S (k_mallocs s) |>) with s1.
  assert (Hd : drop_buf buf (s1 <| k_bufs := <[buf := b]> (k_bufs s) |>) = s1).
  { change (k_bufs s) with (k_bufs s1). by apply drop_fresh_buf. }
  destruct (components path) as [|name rest] eqn:Hc; simpl.
  - subst r. simpl in Hu. destruct Hu as (n & Hn & Hl). krun.
    match goal with |- bind _ _ ?x = _ => replace x with s1 by (symmetry; exact Hd) end.
    by rewrite (run_take_ref _ n) by done.
  - rewrite (open_loop_walk _ _ _ _ _ _ [] rest r b t); try done.
    + by rewrite Hd.
    + pose proof (components_length path) as Hcl. rewrite Hc in Hcl. simpl in Hcl. lia.
    + by eapply walk_same_tree; [|exact Hw].
    + kred. by simplify_map_eq.
Qed.

(** C9: [vfs_open] resolves a path: it walks the components from the root or
    the working directory, where "." stays, ".." goes to the parent and a
    name goes to the entry that [vfs_finddir] gives; it returns the node it
    arrives at, with one more reference, and with ENOENT in [errno] returns
    NULL when there is no such entry or the path goes above the root.  The
    path buffer is freed on every way out.  In the case of a missing entry the
    directory that lacks it keeps an additional reference. *)
Theorem vfs_open_resolves s path flags t r :
  strlen path <= MAX_PATH -> k_tasks s !! k_current_task s = Some t ->
  allocate (k_mallocs s) (live s) (MAX_PATH + 1) <> 0 ->
  open_target s path t r -> unlocked_target s r ->
  vfs_open path flags s =
  match r with
  | Found q => Ret q ((tick s) <| k_nodes := with_ref (k_nodes s) q |>)
  | NotIn d => Ret 0 (set_err ENOENT ((tick s) <| k_nodes := with_ref (k_nodes s) d |>))
  | AboveRoot => Ret 0 (set_err ENOENT (tick s))
  end.
Proof. intros. rewrite (vfs_open_ok s path flags t r) by done. by destruct r. Qed.
End Open.

(** ** Closing *)

Section Close.
Context `{!Allocator, !Drivers}.

Definition frees (n : vfs_node) : bool :=
  (u32 (n_refs n - 1) =? 0) && negb (Z.land (n_flags n) FS_AUTOFREE =? 0).

Lemma vfs_close_keeps s q n :
  q <> 0 -> k_nodes s !! q = Some n -> n_lock n = 0 -> frees n = false ->
  vfs_close q s =
  Ret tt (s <| k_nodes := <[q := n <| n_refs := u32 (n_refs n - 1) |>]> (k_nodes s) |>).
Proof.
  intros Hq Hn Hl Hf. unfold vfs_close. krun. fold (frees n). rewrite Hf.
  rewrite run_last. krun. unfold ret. f_equal. kstate. kmaps. f_equal; krecord.
Qed.

Lemma vfs_close_frees s q n :
  q <> 0 -> k_nodes s !! q = Some n -> n_lock n = 0 -> frees n = true ->
  Z.land (n_flags n) FS_PIPE = 0 \/ n_data n = 0 ->
  vfs_close q s = Ret tt (s <| k_nodes := delete q (k_nodes s) |>).
Proof.
  intros Hq Hn Hl Hf Hp. unfold vfs_close. krun. fold (frees n). rewrite Hf.
  assert (negb (Z.land (n_flags n) FS_PIPE =? 0) && negb (n_data n =? 0) = false) as ->.
  { destruct Hp as [-> | ->]; [done | by rewrite andb_false_r]. }
  rewrite run_last. krun. unfold ret. f_equal. kstate. kmaps.
Qed.

Lemma vfs_close_frees_pipe s q n p b :
  q <> 0 -> k_nodes s !! q = Some n -> n_lock n = 0 -> frees n = true ->
  Z.land (n_flags n) FS_PIPE <> 0 -> n_data n <> 0 ->
  k_pipes s !! n_data n = Some p -> p_buf p <> 0 -> k_bufs s !! p_buf p = Some b ->
  vfs_close q s =
  Ret tt (s <| k_nodes := delete q (k_nodes s) |>
            <| k_pipes := delete (n_data n) (k_pipes s) |>
            <| k_bufs := delete (p_buf p) (k_bufs s) |>).
Proof.
  intros Hq Hn Hl Hf Hp Hd Hpp Hb0 Hb. unfold vfs_close. krun. fold (frees n). rewrite Hf.
  rewrite (proj2 (Z.eqb_neq _ _) Hp), (proj2 (Z.eqb_neq _ _) Hd). simpl.
  rewrite run_last. krun. unfold ret. f_equal. kstate. kmaps.
Qed.

(** [vfs_close] drops one reference; when it was the last one of a node
    made to be freed automatically, the node goes away, and with a pipe node
    the pipe and its buffer.  Nothing else changes. *)
Theorem vfs_close_effect s q n :
  q <> 0 -> k_nodes s !! q = Some n -> n_lock n = 0 ->
  (frees n = true -> Z.land (n_flags n) FS_PIPE <> 0 -> n_data n <> 0 ->
     exists p b, k_pipes s !! n_data n = Some p /\ p_buf p <> 0 /\ k_bufs s !! p_buf p = Some b) ->
  exists s', vfs_close q s = Ret tt s' /\
    k_nodes s' = (if frees n then delete q (k_nodes s)
                  else <[q := n <| n_refs := u32 (n_refs n - 1) |>]> (k_nodes s)) /\
    k_pipes s' ⊆ k_pipes s /\ k_bufs s' ⊆ k_bufs s /\
    (forall a, k_pipes s' !! a = None -> k_pipes s !! a = None \/ (frees n = true /\ a = n_data n)) /\
    (frees n = true -> Z.land (n_flags n) FS_PIPE <> 0 -> k_pipes s' !! n_data n = None \/ n_data n = 0) /\
    k_files s' = k_files s /\ k_tasks s' = k_tasks s.
Proof.
  intros Hq Hn Hl Hpipe. destruct (frees n) eqn:Hf.
  2:{ rewrite (vfs_close_keeps s q n) by done. eexists. split; [done|]. kred.
      split_and!; try done; auto. }
  destruct (decide (Z.land (n_flags n) FS_PIPE = 0 \/ n_data n = 0)) as [Hp|Hp].
  - rewrite (vfs_close_frees s q n) by done. eexists. split; [done|]. kred. split_and!; try done; auto.
    intros _ Hp'. destruct Hp; [done | by right].
  - apply Decidable.not_or in Hp as [Hp Hd]. destruct (Hpipe eq_refl Hp Hd) as (p & b & Hpp & Hb0 & Hb).
    rewrite (vfs_close_frees_pipe s q n p b) by done. eexists. split; [done|]. kred.
    split_and!; try done.
    + apply delete_subseteq.
    + apply delete_subseteq.
    + intros a Ha. rewrite lookup_delete in Ha. case_decide; [by right | by left].
    + intros _ _. left. by rewrite lookup_delete_eq.
Qed.

(** Opening a path and closing the node leaves the tree as it was, if the
    reference count does not wrap and is not that of a node about to go. *)
Theorem vfs_open_close s path flags t q n :
  strlen path <= MAX_PATH -> k_tasks s !! k_current_task s = Some t ->
  allocate (k_mallocs s) (live s) (MAX_PATH + 1) <> 0 ->
  open_target s path t (Found q) -> q <> 0 -> k_nodes s !! q = Some n -> n_lock n = 0 ->
  0 < n_refs n < 2 ^ 32 - 1 ->
  (node <- vfs_open path flags;; vfs_close node) s = Ret tt (tick s).
Proof.
  intros Hlen Ht Ha Hw Hq Hn Hl Hr.
  erewrite (bind_Ret (vfs_open path flags)); [|apply (vfs_open_ok _ _ _ t (Found q)); eauto; by exists n].
  set (n' := n <| n_refs := u32 (n_refs n + 1) |>).
  assert (Hr' : n_refs n' = n_refs n + 1) by (unfold n'; kred; rewrite u32_small; lia).
  rewrite (vfs_close_keeps _ q n'); [| done | | done |].
  - f_equal. kred. unfold with_ref. rewrite Hn. fold n'.
    rewrite insert_insert_eq, insert_id; [by destruct s|]. rewrite Hn. f_equal.
    unfold n', setf. destruct n; simpl in *. rewrite (u32_small (n_refs + 1)) by lia.
    rewrite u32_small by lia. f_equal. lia.
  - kred. unfold with_ref. rewrite Hn. fold n'. by simplify_map_eq.
  - unfold frees. rewrite Hr', u32_small by lia. apply andb_false_intro1, Z.eqb_neq. lia.
Qed.
End Close.

(** ** The path of a node *)

(** A name that a path can contain. *)
Definition good_name (name : string) : bool :=
  negb (String.eqb name "") && negb (String.eqb name ".") && negb (String.eqb name "..") &&
  String.eqb (take_component name) name.

Lemma good_name_take name : good_name name = true -> take_component name = name.
Proof. unfold good_name. intros [_ H]%andb_prop. by apply String.eqb_eq. Qed.

Lemma good_name_plain name : good_name name = true -> name <> "" /\ name <> "." /\ name <> "..".
Proof.
  unfold good_name. intros [[[H1 H2]%andb_prop H3]%andb_prop _]%andb_prop.
  rewrite negb_true_iff, String.eqb_neq in *. done.
Qed.

Lemma take_component_app name rest :
  take_component name = name -> skip_component (name +:+ String slash rest) = String slash rest /\
  take_component (name +:+ String slash rest) = name /\ take_component (name +:+ "") = name.
Proof.
  induction name as [|c name IH]; intros H; simpl in *; [done|].
  destruct (decide (c = slash)); [done|]. injection H as H. destruct (IH H) as (-> & -> & ->). done.
Qed.

Lemma skip_component_nil name : take_component name = name -> skip_component (name +:+ "") = "".
Proof.
  induction name as [|c name IH]; intros H; simpl in *; [done|].
  destruct (decide (c = slash)); [done|]. injection H as H. by apply IH.
Qed.

Lemma split_join name names :
  Forall (fun x => good_name x = true) (name :: names) -> split_slash (name +:+ join_path names) = name :: names.
Proof.
  revert name. induction names as [|name' names IH]; intros name Hg; apply Forall_cons in Hg as [Hn Hg].
  - pose proof (good_name_take _ Hn) as Ht.
    simpl. pose proof (split_slash_skip (name +:+ "")) as H. rewrite skip_component_nil in H by done.
    rewrite H. by destruct (take_component_app name "" Ht) as (_ & _ & ->).
  - pose proof (good_name_take _ Hn) as Ht.
    simpl. destruct (take_component_app name (name' +:+ join_path names) Ht) as (H1 & H2 & _).
    pose proof (split_slash_skip (name +:+ String slash (name' +:+ join_path names))) as H.
    rewrite H1, H2 in H. rewrite H. by rewrite IH.
Qed.

Lemma nonempty_prefix_all l : Forall (fun x => good_name x = true) l -> nonempty_prefix l = l.
Proof.
  induction 1 as [|name l Hn _ IH]; simpl; [done|]. apply good_name_plain in Hn as (Hn & _).
  destruct name; [done|]. by rewrite IH.
Qed.

Lemma components_join name names :
  Forall (fun x => good_name x = true) (name :: names) ->
  components (join_path (name :: names)) = name :: names.
Proof.
  intros Hg. unfold components. simpl. 
  rewrite split_join by done. by apply nonempty_prefix_all.
Qed.

(** The chain of parents from a node to the root, with the names on the way
    from the root: each node is the first entry of its name in its parent. *)
Inductive rooted (s : kstate) : Z -> list string -> Prop :=
| rooted_top q n l m :
    q <> 0 -> q <> k_vfs_root s -> k_nodes s !! q = Some n -> n_parent n = k_vfs_root s ->
    k_vfs_root s <> 0 -> good_name (n_name n) = true ->
    plain_dir s (k_vfs_root s) -> listing s (k_vfs_root s) l m ->
    List.find (has_name s (n_name n)) (l ++ m) = Some q -> rooted s q [n_name n]
| rooted_below q n l m names :
    q <> 0 -> q <> k_vfs_root s -> k_nodes s !! q = Some n -> n_parent n <> k_vfs_root s ->
    n_parent n <> 0 -> good_name (n_name n) = true ->
    plain_dir s (n_parent n) -> listing s (n_parent n) l m ->
    List.find (has_name s (n_name n)) (l ++ m) = Some q ->
    rooted s (n_parent n) names -> rooted s q (names ++ [n_name n]).

Lemma rooted_names s q names : rooted s q names ->
  Forall (fun x => good_name x = true) names /\ names <> [] /\ q <> k_vfs_root s /\ q <> 0.
Proof.
  induction 1 as [|q n l m names Hq0 Hq Hn Hp Hp0 Hg Hd Hl Hf Hr (IH1 & IH2 & _)]; split_and!; try done.
  - by constructor.
  - apply Forall_app. split; [done | by constructor].
  - by destruct names.
Qed.

Lemma walk_app s d names1 q names2 r :
  walk s d names1 (Found q) -> walk s q names2 r -> walk s d (names1 ++ names2) r.
Proof.
  intros Hw Hr. remember (Found q) as r1 eqn:E. induction Hw; simplify_eq; simpl; try done.
  - constructor. auto.
  - eapply walk_up; eauto.
  - eapply walk_child; eauto.
Qed.

Lemma rooted_walk s q names : rooted s q names -> walk s (k_vfs_root s) names (Found q).
Proof.
  assert (Hone : forall d q n l m, good_name (n_name n) = true -> plain_dir s d -> listing s d l m ->
    List.find (has_name s (n_name n)) (l ++ m) = Some q -> q <> 0 -> walk s d [n_name n] (Found q)).
  { intros d q' n l m Hg Hd Hl Hf Hq. destruct (good_name_plain _ Hg) as (_ & H1 & H2).
    eapply walk_child; eauto. constructor. }
  induction 1 as [q n l m Hq0 Hq Hn Hp Hr0 Hg Hd Hl Hf | q n l m names Hq0 Hq Hn Hp Hp0 Hg Hd Hl Hf Hr IH].
  - by eapply Hone.
  - eapply walk_app; [exact IH|]. by eapply Hone.
Qed.

Section Path.
Context `{!Allocator, !Drivers}.

Lemma path_nodes_rooted s q names room :
  rooted s q names -> (length names <= room)%nat -> path_nodes room q s = Ret (reverse names) s.
Proof.
  intros Hr. revert room. induction Hr as [q n l m Hq0 Hq Hn Hp Hr0 Hg Hd Hl Hf
    | q n l m names Hq0 Hq Hn Hp Hp0 Hg Hd Hl Hf Hr IH]; intros [|room]; simpl; try lia.
  - intros _. krun. rewrite Hp. krun. by rewrite Z.eqb_refl.
  - rewrite length_app. simpl. lia.
  - rewrite length_app. simpl. intros Hlen. krun. rewrite (proj2 (Z.eqb_neq _ _) Hp).
    rewrite (bind_Ret _ _ _ _ _ (IH room ltac:(lia))). by rewrite reverse_snoc.
Qed.

(** C34: [vfs_get_path] and [vfs_open] are inverse: for a node at most 64
    directories deep, where every name on the way is the first of its name
    in its directory, [vfs_get_path] gives the names separated by slashes,
    and opening that path gives the node back. *)
Theorem vfs_get_path_open s q names flags t :
  rooted s q names -> (length names <= 64)%nat ->
  vfs_get_path q s = Ret (join_path names) s /\
  (strlen (join_path names) <= MAX_PATH -> k_tasks s !! k_current_task s = Some t ->
   allocate (k_mallocs s) (live s) (MAX_PATH + 1) <> 0 -> unlocked_target s (Found q) ->
   vfs_open (join_path names) flags s = Ret q ((tick s) <| k_nodes := with_ref (k_nodes s) q |>)).
Proof.
  intros Hr Hlen. destruct (rooted_names _ _ _ Hr) as (Hg & Hne & Hq & Hq0). split.
  - unfold vfs_get_path. krun. rewrite (proj2 (Z.eqb_neq _ _) Hq).
    rewrite (bind_Ret _ _ _ _ _ (path_nodes_rooted _ _ _ (Z.to_nat MAX_PATH_NODES) Hr Hlen)).
    by rewrite reverse_involutive.
  - intros Hs Ht Ha Hu. apply (vfs_open_ok s _ flags t (Found q)); try done.
    unfold open_target. destruct names as [|name names]; [done|].
    rewrite components_join by done. unfold start_dir. simpl. 
    assert (forall x, String.prefix "" x = true) as -> by (by intros []).
    apply rooted_walk in Hr. destruct (Z.eqb_spec (k_vfs_root s) 0); exact Hr.
Qed.
End Path.

(** ** The path without components *)

Section Stat.
Context `{!Allocator, !Drivers}.

(** [vfs_stat] of a path without components, such as "/", dereferences a
    NULL name as soon as the root directory has an entry: it records that
    the root is meant, and then looks the NULL component up in it. *)
Theorem vfs_stat_root_faults s path q l :
  strlen path <= MAX_PATH -> components path = [] ->
  allocate (k_mallocs s) (live s) (MAX_PATH + 1) <> 0 ->
  plain_dir s (k_vfs_root s) -> children s (k_vfs_root s) (q :: l) ->
  exists s', vfs_stat 0 (Some path) s = Faults s'.
Proof.
  intros Hlen Hc Ha (Hr0 & n & Hn & Hfl & Hfd & _ & _ & Hst) (n' & Hn' & Hch). simplify_eq.
  unfold vfs_stat. krun. rewrite (proj2 (Z.eqb_neq _ _) Ha). krun.
  rewrite (bind_Ret _ _ _ _ _ (vfs_get_path_level_component _ _ _ Hlen)).
  rewrite component_components, Hc by lia. cbn [stat_loop lookup list_lookup]. krun. rewrite Hst.
  simpl. destruct Hch as (Hp & Hq0 & nq & Hnq & _).
  unfold vfs_finddir. krun. rewrite (proj2 (Z.eqb_neq _ _) Hr0). krun. rewrite Hfl, Hfd. simpl.
  rewrite Hp, (proj2 (Z.eqb_neq _ _) Hq0).
  eexists. do 2 apply run_fault. by eapply find_name_null.
Qed.
End Stat.

(** ** An example *)

Module Example.
(** /dev/tty and a detached directory; the mounted file system has one file. *)
Definition dir (name : string) (parent ptr next : Z) : vfs_node :=
  (VFS_NODE_INITIALIZER FS_DIRECTORY) <| n_name := name |> <| n_parent := parent |>
    <| n_ptr := ptr |> <| n_next := next |> <| n_refs := 1 |>.

Definition file (name : string) (parent next flags : Z) : vfs_node :=
  (VFS_NODE_INITIALIZER flags) <| n_name := name |> <| n_parent := parent |>
    <| n_next := next |> <| n_refs := 1 |>.

Definition the_task : task :=
  mkTask 1 1 0 0 0 0 0 TASK_STATE_RUNNING 0 0 0 [0; 0; 0; 0] [0; 0; 0; 0] [] [] (mkStack 0 0 0)
    0 3 0 0 0 200 0 100 LINKED_LIST_INIT LINKED_LIST_INIT 0 0.

Definition st : kstate :=
  mkK (list_to_map [(1, dir "root" 0 3 0); (2, dir "initrd" 0 6 0); (3, dir "dev" 1 4 0);
                    (4, file "tty" 3 0 FS_CHARDEVICE); (5, dir "proc" 0 0 0);
                    (6, file "init" 2 0 FS_FILE)])
      ∅ {[200 := mkDesc 0 0 0 0]} ∅ ∅ {[100 := the_task]} ∅ 0 1 2 1 100 100 LINKED_LIST_INIT 0.

Lemma listing_root : listing st 1 [3] [6].
Proof.
  split; [|simpl]; (eexists; split; [reflexivity|]); simpl; split_and!; try done;
    by eexists.
Qed.

Lemma listing_dev : listing st 3 [4] [].
Proof.
  split; [|done]. eexists. split; [reflexivity|]. simpl. split_and!; try done. by eexists.
Qed.

Lemma plain_root : plain_dir st 1.
Proof. split; [done|]. by eexists. Qed.

Lemma plain_dev : plain_dir st 3.
Proof. split; [done|]. by eexists. Qed.

Lemma rooted_tty : rooted st 4 ["dev"; "tty"].
Proof.
  apply (rooted_below st 4 (file "tty" 3 0 FS_CHARDEVICE) [4] [] ["dev"]); try done;
    [exact plain_dev | exact listing_dev |].
  by apply (rooted_top st 3 (dir "dev" 1 4 0) [3] [6]); try done; [exact plain_root | exact listing_root].
Qed.

#[local] Existing Instance bump_allocator.
#[local] Existing Instance no_drivers.

Lemma attach_proc : can_attach st 1 5 (dir "root" 0 3 0) (dir "proc" 0 0 0) [3].
Proof.
  constructor; try done; [|set_solver]. simpl. split_and!; try done. by eexists.
Qed.

Lemma detach_dev : can_detach st 3 (dir "root" 0 3 0) (dir "dev" 1 4 0) [] [].
Proof. constructor; try done; [|set_solver]. simpl. split_and!; try done. by eexists. Qed.

Example vfs_mknod_rmnod_witness :
  (exists s' n', vfs_mknod 0 5 st = Ret 0 s' /\ children s' 1 [3; 5] /\
     k_nodes s' !! 5 = Some n' /\ n_parent n' = 1) /\
  (exists s' n', vfs_rmnod 3 st = Ret 0 s' /\ children s' 1 [] /\
     k_nodes s' !! 3 = Some n' /\ n_next n' = 0).
Proof.
  split.
  - exact (proj1 vfs_mknod_rmnod st 0 5 _ _ [3] attach_proc).
  - exact (proj2 vfs_mknod_rmnod st 3 _ _ [] [] detach_dev).
Defined.

Example vfs_directory_lookup_witness :
  vfs_finddir 1 (Some "init") st = Ret 6 st /\
  vfs_readdir 1 1 st = Ret (Some (mkDirent "init" 0)) st.
Proof.
  destruct (vfs_directory_lookup st 1 [3] [6] plain_root listing_root) as [H1 H2].
  split; [exact (H1 "init") | exact (H2 (fun _ => eq_refl) 1 ltac:(lia))].
Defined.

Lemma walk_tty : open_target st "tty" the_task (Found 4).
Proof.
  unfold open_target. simpl. apply (walk_child st 3 [4] [] "tty" 4); try done;
    [exact plain_dev | exact listing_dev | constructor].
Qed.

Example vfs_open_resolves_witness :
  vfs_open "tty" 0 st = Ret 4 ((tick st) <| k_nodes := with_ref (k_nodes st) 4 |>).
Proof.
  apply (vfs_open_resolves st "tty" 0 the_task (Found 4)); [done | done | done | exact walk_tty |].
  by eexists.
Defined.

Example vfs_close_effect_witness :
  exists s', vfs_close 4 st = Ret tt s' /\ k_files s' = k_files st /\ k_tasks s' = k_tasks st.
Proof.
  destruct (vfs_close_effect st 4 (file "tty" 3 0 FS_CHARDEVICE)) as (s' & H1 & _ & _ & _ & _ & _ & H2 & H3);
    [done | done | done | done |].
  by exists s'.
Defined.

Example vfs_open_close_witness :
  (node <- vfs_open "tty" 0;; vfs_close node) st = Ret tt (tick st).
Proof.
  apply (vfs_open_close st "tty" 0 the_task 4 (file "tty" 3 0 FS_CHARDEVICE));
    [done | done | done | exact walk_tty | done | done | done | simpl; lia].
Defined.

Example vfs_get_path_open_witness :
  vfs_get_path 4 st = Ret "/dev/tty" st /\
  vfs_open "/dev/tty" 0 st = Ret 4 ((tick st) <| k_nodes := with_ref (k_nodes st) 4 |>).
Proof.
  destruct (vfs_get_path_open st 4 ["dev"; "tty"] 0 the_task rooted_tty ltac:(simpl; lia)) as [H1 H2].
  split; [exact H1 | apply H2; [done | done | done | by eexists]].
Defined.

Example vfs_stat_root_faults_witness : exists s', vfs_stat 0 (Some "/") st = Faults s'.
Proof.
  apply (vfs_stat_root_faults st "/" 3 []); [done | done | done | exact plain_root | exact (proj1 listing_root)].
Defined.

(** The counter of the root directory is not kept by [vfs_rmnod]: with one
    entry removed, the listing of the root directory ends before the entries
    of the mounted file system. *)
Example vfs_rmnod_root_count :
  exists s', vfs_rmnod 3 st = Ret 0 s' /\ children s' 1 [] /\ listing s' 1 [] [6] /\
    k_vfs_root_nodes s' = 1 /\ vfs_readdir 1 0 s' = Ret None s'.
Proof.
  eexists. split; [vm_compute; reflexivity|]. split_and!; try done.
  - by eexists.
  - split; [by eexists|]. simpl. eexists. split; [reflexivity|]. simpl. split_and!; try done. by eexists.
Qed.
End Example.
