(* ===== verification/Io.v ===== *)
(** * Io: file descriptors and pipes (io.c)

    A task's descriptor table is a chain of open files; each refers to a node
    of the virtual file system and holds a reference to it.  The theorems
    relate the table to a list of (descriptor, file) pairs, and the bytes in a
    pipe to a queue. *)

From S2P Require Import Prelude Chain KState LinkedList Signals Vfs.

Notation fchain := (Chain.chain f_next).

Definition FS_USR_READ := 0x400.
Definition FS_GRP_READ := 0x2000.

Definition SEEK_SET := 0x1.
Definition SEEK_CUR := 0x2.
Definition SEEK_END := 0x3.
Definition CONFIG_PIPE_BUFFER_SIZE := 1024.

(** ** Looking up descriptors *)

(** [while (f != NULL && f->fd != fd) f = f->next]; also the file before it. *)
Fixpoint find_fd (fuel : nat) (fd f parent : Z) : M kstate (Z * Z) :=
  match fuel with
  | O => nofuel
  | S fuel =>
      if f =? 0 then ret (0, parent) else
      v <- load f;;
      if f_fd v =? fd then ret (f, parent) else find_fd fuel fd (f_next v) f
  end.

Definition file_fuel (s : kstate) : nat := S (size (k_files s)).

Definition get_file_descriptor (fd : Z) : M kstate Z :=
  s <- get;;
  t <- current;;
  if t_descriptors_info t =? 0 then ret 0 else
  d <- load (t_descriptors_info t);;
  if d_files d =? 0 then ret 0 else
  '(f, _) <- find_fd (file_fuel s) fd (d_files d) 0;;
  ret f.

(** [while (tmp->next != NULL) tmp = tmp->next] *)
Fixpoint last_file (fuel : nat) (f : Z) : M kstate Z :=
  match fuel with
  | O => nofuel
  | S fuel => v <- load f;; if f_next v =? 0 then ret f else last_file fuel (f_next v)
  end.

Section Io.
Context {al : Allocator} {dr : Drivers} {co : Control}.

Definition create_file_descriptor (node fd mode : Z) : M kstate Z :=
  f <- malloc sizeof_file;;
  if f =? 0 then set_errno ENOMEM;;; ret (-1) else
  put f (mkFile 0 0 mode node 0);;;
  t <- current;;
  let table := t_descriptors_info t in
  lock_desc table;;;
  d <- load table;;
  (if fd =? -1
   then upd_obj f (fun f => f <| f_fd := s32 (d_fd_next d) |>);;;
        upd_obj table (fun d => d <| d_fd_next := u32 (d_fd_next d + 1) |>)
   else upd_obj f (fun f => f <| f_fd := fd |>));;;
  (if d_files d =? 0 then upd_obj table (fun d => d <| d_files := f |>)
   else s <- get;; tmp <- last_file (file_fuel s) (d_files d);;
        upd_obj tmp (fun v => v <| f_next := f |>));;;
  unlock_desc table;;;
  v <- load f;;
  ret (f_fd v).

(** Free the files of a half-made table. *)
Fixpoint free_files (fuel : nat) (f : Z) : M kstate unit :=
  match fuel with
  | O => nofuel
  | S fuel =>
      if f =? 0 then ret tt else
      v <- load f;; free_obj (T := file_t) f;;; free_files fuel (f_next v)
  end.

(** The loop of [clone_descriptor_table]; [prev] is the last file of the copy,
    0 when the next one goes to the table itself.  False when memory ran out. *)
Fixpoint clone_loop (fuel : nat) (table tmp prev : Z) : M kstate bool :=
  match fuel with
  | O => nofuel
  | S fuel =>
      if tmp =? 0 then ret true else
      v <- load tmp;;
      f <- malloc sizeof_file;;
      if f =? 0 then ret false else
      put f v;;;
      take_ref (f_node v);;;
      upd_obj f (fun v => v <| f_next := 0 |>);;;
      (if prev =? 0 then upd_obj table (fun d => d <| d_files := f |>)
       else upd_obj prev (fun v => v <| f_next := f |>));;;
      clone_loop fuel table (f_next v) f
  end.

Definition clone_descriptor_table : M kstate Z :=
  table <- malloc sizeof_desc;;
  if table =? 0 then set_errno ENOMEM;;; ret 0 else
  put table (mkDesc 0 0 0 0);;;
  t <- current;;
  lock_desc (t_descriptors_info t);;;
  src <- load (t_descriptors_info t);;
  upd_obj table (fun d => d <| d_fd_next := d_fd_next src |>);;;
  s <- get;;
  ok <- clone_loop (file_fuel s) table (d_files src) 0;;
  unlock_desc (t_descriptors_info t);;;
  if ok : bool then ret table
  else
    d <- load table;;
    s <- get;;
    free_files (file_fuel s) (d_files d);;;
    free_obj (T := desc_info) table;;;
    set_errno ENOMEM;;;
    ret 0.

(** [close]; [f->node] is read without a test for the end of the list. *)
Definition close (fd : Z) : M kstate Z :=
  t <- current;;
  let table := t_descriptors_info t in
  files <- (if table =? 0 then ret 0 else d <- load table;; ret (d_files d));;
  if files =? 0 then set_errno EBADF;;; ret (-1) else
  lock_desc table;;;
  s <- get;;
  '(f, parent) <- find_fd (file_fuel s) fd files 0;;
  v <- load f;;
  assert (negb (f_node v =? 0)) "f->node != NULL";;;
  (if parent =? 0 then upd_obj table (fun d => d <| d_files := f_next v |>)
   else upd_obj parent (fun p => p <| f_next := f_next v |>));;;
  vfs_close (f_node v);;;
  free_obj (T := file_t) f;;;
  unlock_desc table;;;
  ret 0.

Fixpoint close_all (fuel : nat) (f : Z) : M kstate unit :=
  match fuel with
  | O => nofuel
  | S fuel => if f =? 0 then ret tt else v <- load f;; close (f_fd v);;; close_all fuel (f_next v)
  end.

Definition destroy_descriptor_table : M kstate unit :=
  t <- current;;
  let table := t_descriptors_info t in
  lock_desc table;;;
  d <- load table;;
  if d_refs d =? 0 then
    unlock_desc table;;;
    d <- load table;;
    s <- get;;
    close_all (file_fuel s) (d_files d);;;
    free_obj (T := desc_info) table;;;
    upd_current (fun t => t <| t_descriptors_info := 0 |>)
  else
    upd_obj table (fun d => d <| d_refs := u32 (d_refs d - 1) |>);;;
    unlock_desc table.

(** ** Pipes *)

(** [semaphore_waitsleep] and [semaphore_signal_sleep] on the pipe's semaphore,
    seen from the calling task: the call waits while the counter does not
    allow it to go on. *)
Definition pipe_take (p : Z) : M kstate unit :=
  v <- load p;;
  if p_cnt v <? p_max_cnt v then upd_obj p (fun v => v <| p_cnt := u32 (p_cnt v + 1) |>) else block.

Definition pipe_give (p : Z) : M kstate unit :=
  v <- load p;;
  if 0 <? p_cnt v then upd_obj p (fun v => v <| p_cnt := u32 (p_cnt v - 1) |>) else block.

(** The byte at an offset of the buffer; the offset after it, with the test
    [ptr > buf_end]. *)
Definition next_ptr (v : pipe_t) (ptr : Z) : Z := if p_buf_end v <? ptr + 1 then 0 else ptr + 1.

Definition pipe_get (p : Z) : M kstate Z :=
  v <- load p;;
  b <- load (p_buf v);;
  c <- deref (b !! Z.to_nat (p_read_ptr v));;
  upd_obj p (fun v => v <| p_read_ptr := next_ptr v (p_read_ptr v) |>);;;
  ret c.

Definition pipe_put (p c : Z) : M kstate unit :=
  v <- load p;;
  b <- load (T := list Z) (p_buf v);;
  _ <- deref (b !! Z.to_nat (p_write_ptr v));;
  upd_obj (p_buf v) (fun b => <[Z.to_nat (p_write_ptr v) := c]> b);;;
  upd_obj p (fun v => v <| p_write_ptr := next_ptr v (p_write_ptr v) |>).

Fixpoint pipe_read_loop (len : nat) (p : Z) : M kstate (list Z) :=
  match len with
  | O => ret []
  | S len => pipe_take p;;; c <- pipe_get p;; l <- pipe_read_loop len p;; ret (c :: l)
  end.

Definition pipe_read (node offset len : Z) : M kstate (Z * list Z) :=
  n <- load node;;
  assert (negb (n_data n =? 0)) "node->data != NULL";;;
  l <- pipe_read_loop (Z.to_nat len) (n_data n);;
  ret (Z.of_nat (length l), l).

Fixpoint pipe_write_loop (buf : list Z) (p : Z) : M kstate unit :=
  match buf with
  | [] => ret tt
  | c :: buf => pipe_put p c;;; pipe_give p;;; pipe_write_loop buf p
  end.

Definition pipe_write (node offset len : Z) (buf : list Z) : M kstate Z :=
  assert (negb (node =? 0)) "node != NULL";;;
  n <- load node;;
  assert (negb (n_data n =? 0)) "node->data != NULL";;;
  (if n_refs n <? 2 then _ <- raise SIGPIPE;; ret tt else ret tt);;;
  pipe_write_loop (take (Z.to_nat len) buf) (n_data n);;;
  ret len.

(** The addresses of [pipe_read] and [pipe_write]. *)
Definition pipe_read_fn := 0x1001.
Definition pipe_write_fn := 0x1002.

(** [pipe]; the descriptors it stores through its argument. *)
Definition pipe : M kstate (Z * (Z * Z)) :=
  node <- malloc sizeof_vfs_node;;
  if node =? 0 then set_errno ENOMEM;;; ret (-1, (0, 0)) else
  put node (VFS_NODE_INITIALIZER 0);;;
  p <- malloc sizeof_pipe;;
  if p =? 0 then free_obj (T := vfs_node) node;;; set_errno ENOMEM;;; ret (-1, (0, 0)) else
  put p (mkPipe 0 0 0 0 0 0);;;
  buf <- malloc CONFIG_PIPE_BUFFER_SIZE;;
  if buf =? 0
  then free_obj (T := pipe_t) p;;; free_obj (T := vfs_node) node;;; set_errno ENOMEM;;; ret (-1, (0, 0)) else
  put buf (repeat 0 (Z.to_nat CONFIG_PIPE_BUFFER_SIZE));;;
  put p (mkPipe buf CONFIG_PIPE_BUFFER_SIZE 0 0 CONFIG_PIPE_BUFFER_SIZE CONFIG_PIPE_BUFFER_SIZE);;;
  put node ((VFS_NODE_INITIALIZER (Z.lor FS_PIPE FS_AUTOFREE))
              <| n_read := pipe_read_fn |> <| n_write := pipe_write_fn |>
              <| n_data := p |> <| n_refs := 2 |>);;;
  fd0 <- create_file_descriptor node (-1) FD_MODE_READ;;
  fd1 <- create_file_descriptor node (-1) FD_MODE_WRITE;;
  ret (0, (fd0, fd1)).

(** ** System calls on descriptors *)

Definition rewindfd (fd : Z) : M kstate Z :=
  f <- get_file_descriptor fd;;
  if f =? 0 then set_errno EBADF;;; ret (-1) else
  upd_obj f (fun f => f <| f_offset := 0 |>);;; ret 0.

Definition dup2 (oldfd newfd : Z) : M kstate Z :=
  old_desc <- get_file_descriptor oldfd;;
  if old_desc =? 0 then set_errno EBADF;;; ret (-1) else
  o <- load old_desc;;
  assert (negb (f_node o =? 0)) "old_desc->node != NULL";;;
  new_desc <- get_file_descriptor newfd;;
  (if negb (new_desc =? 0) then n <- load new_desc;; _ <- close (f_fd n);; ret tt else ret tt);;;
  o <- load old_desc;;
  lock_node (f_node o);;;
  upd_obj (f_node o) (fun n => n <| n_refs := u32 (n_refs n + 1) |>);;;
  fd <- create_file_descriptor (f_node o) newfd (f_mode o);;
  if fd <? 0 then unlock_node (f_node o);;; ret fd else
  unlock_node (f_node o);;;
  new_desc <- get_file_descriptor fd;;
  assert (negb (new_desc =? 0)) "new_desc != NULL";;;
  o <- load old_desc;;
  upd_obj new_desc (fun f => f <| f_offset := f_offset o |>);;;
  ret fd.

Definition dup (oldfd : Z) : M kstate Z := dup2 oldfd (-1).

Definition sync : M kstate Z := set_errno ENOSYS;;; ret (-1).
Definition fsync (fd : Z) : M kstate Z := sync.
Definition unlink (path : string) : M kstate Z := set_errno ENOSYS;;; ret (-1).
Definition link (oldpath newpath : string) : M kstate Z := set_errno ENOSYS;;; ret (-1).
Definition isatty (fd : Z) : M kstate Z := ret 0.
Definition kfcntl (fd cmd : Z) : M kstate Z := set_errno ENOSYS;;; ret (-1).
Definition fcntl (fd cmd : Z) : M kstate Z := kfcntl fd cmd.
Definition readlink (path : string) : M kstate Z := set_errno ENOSYS;;; ret (-1).
Definition mkdir (path : string) : M kstate Z := set_errno ENOSYS;;; ret (-1).
Definition lstat (path : string) : M kstate Z := set_errno ENOSYS;;; ret (-1).

(** [lseek]; offsets are unsigned words, the result a signed one. *)
Definition lseek (fd offset whence : Z) : M kstate Z :=
  f <- get_file_descriptor fd;;
  if f =? 0 then set_errno EBADF;;; ret (-1) else
  v <- load f;;
  ok <- (if whence =? SEEK_SET then upd_obj f (fun f => f <| f_offset := u32 offset |>);;; ret true
   else if whence =? SEEK_CUR
   then upd_obj f (fun f => f <| f_offset := u32 (f_offset f + offset) |>);;; ret true
   else if whence =? SEEK_END
   then n <- load (f_node v);; upd_obj f (fun f => f <| f_offset := u32 (n_length n + offset) |>);;; ret true
   else set_errno EINVAL;;; ret false);;
  if ok then v <- load f;; ret (s32 (f_offset v)) else ret (-1).

Definition chown (path : string) (uid gid : Z) : M kstate Z :=
  node <- vfs_open path 0;;
  if node =? 0 then set_errno ENOENT;;; ret (-1) else
  upd_obj node (fun n => n <| n_uid := uid |> <| n_gid := gid |>);;;
  vfs_close node;;; ret 0.

Definition chroot (path : string) : M kstate Z :=
  node <- vfs_open path 0;;
  if node =? 0 then set_errno ENOENT;;; ret (-1) else
  t <- current;;
  (if negb (t_root t =? 0) then vfs_close (t_root t) else ret tt);;;
  upd_current (fun t => t <| t_root := node |>);;; ret 0.

(** [check_file_permissions] returns true. *)
Definition check_file_permissions (node mask : Z) : M kstate bool :=
  assert (negb (node =? 0)) "node != NULL";;; ret true.

Definition open (pathname : string) (flags : Z) : M kstate Z :=
  if MAX_PATH <? strlen pathname then set_errno ENAMETOOLONG;;; ret (-1) else
  node <- vfs_open pathname flags;;
  if node =? 0 then ret (-1) else
  ok <- check_file_permissions node (Z.lor FS_USR_READ FS_GRP_READ);;
  if negb ok then vfs_close node;;; set_errno EACCES;;; ret (-1) else
  create_file_descriptor node (-1) (Z.lor FD_MODE_READ FD_MODE_WRITE).

(** [opendir] returns the address of the descriptor's number; [readdir_r] and
    [closedir] take that number. *)
Definition opendir (path : string) : M kstate Z :=
  fd <- open path 0;;
  if fd =? -1 then ret 0 else
  desc <- get_file_descriptor fd;;
  assert (negb (desc =? 0)) "desc != NULL";;;
  ret desc.

Definition readdir_r (dir : Z) : M kstate (Z * option dirent) :=
  f <- get_file_descriptor dir;;
  if f =? 0 then set_errno EBADF;;; ret (-1, None) else
  v <- load f;;
  upd_obj f (fun f => f <| f_offset := u32 (f_offset f + 1) |>);;;
  e <- vfs_readdir (f_node v) (f_offset v);;
  ret (0, e).

Definition closedir (dir : Z) : M kstate Z := close dir.

Definition write (fd : Z) (buf : list Z) (count : Z) : M kstate Z :=
  f <- get_file_descriptor fd;;
  if f =? 0 then set_errno EBADF;;; ret (-1) else
  v <- load f;;
  n <- load (f_node v);;
  if n_write n =? 0 then ret (-1) else
  w <- vfs_write (f_node v) (f_offset v) count buf;;
  upd_obj f (fun f => f <| f_offset := u32 (f_offset f + w) |>);;;
  ret w.

Definition read (fd count : Z) : M kstate (Z * list Z) :=
  f <- get_file_descriptor fd;;
  if f =? 0 then ret (EBADF, []) else
  v <- load f;;
  '(r, bytes) <- vfs_read (f_node v) (f_offset v) count;;
  upd_obj f (fun f => f <| f_offset := u32 (f_offset f + r) |>);;;
  ret (r, bytes).

Definition stat (path : string) (buf_null : bool) : M kstate (Z * option stat_t) :=
  if MAX_PATH <? strlen path then set_errno ENAMETOOLONG;;; ret (-1, None) else
  if buf_null then set_errno EFAULT;;; ret (-1, None) else
  r <- vfs_stat 0 (Some path);;
  match r with
  | None => set_errno EFAULT;;; ret (-1, None)
  | Some b => ret (0, Some b)
  end.

Definition fstat (fd : Z) (buf_null : bool) : M kstate (Z * option stat_t) :=
  if buf_null then set_errno EFAULT;;; ret (-1, None) else
  f <- get_file_descriptor fd;;
  if f =? 0 then set_errno EBADF;;; ret (-1, None) else
  v <- load f;;
  assert (negb (f_node v =? 0)) "f->node != NULL";;;
  r <- vfs_stat (f_node v) None;;
  match r with
  | None => set_errno EFAULT;;; ret (-1, None)
  | Some b => ret (0, Some b)
  end.

Definition scheduler_chdir (node : Z) : M kstate unit := upd_current (fun t => t <| t_cwd := node |>).

Definition chdir (path : string) : M kstate Z :=
  if MAX_PATH <? strlen path then set_errno ENAMETOOLONG;;; ret (-1) else
  node <- vfs_open path 0;;
  if node =? 0 then set_errno ENOENT;;; ret (-1) else
  scheduler_chdir node;;; ret 0.

(** [getcwd]; the path is made in an array of MAX_PATH + 1 bytes. *)
Definition getcwd (buf_null : bool) (size : Z) : M kstate (option string) :=
  if buf_null then set_errno EFAULT;;; ret None else
  t <- current;;
  if t_cwd t =? 0 then ret (Some "/") else
  path <- vfs_get_path (t_cwd t);;
  if MAX_PATH <? strlen path then fault else
  if size <? strlen path then set_errno ENAMETOOLONG;;; ret None else
  assert (strlen path <? size) "strlen(path) < size";;;
  ret (Some path).

Definition ioctl (fd request : Z) : M kstate Z :=
  f <- get_file_descriptor fd;;
  if f =? 0 then set_errno EBADF;;; ret (-1) else
  v <- load f;;
  assert (negb (f_node v =? 0)) "f->node != NULL";;;
  vfs_ioctl (f_node v) request.
End Io.

(** ** The chain of open files *)

Section Loops.
Context (s : kstate).
Notation h := (k_files s).

Definition has_fd (fd f : Z) : bool := match h !! f with Some v => f_fd v =? fd | None => false end.

Lemma has_fd_Some fd f v : h !! f = Some v -> has_fd fd f = (f_fd v =? fd).
Proof. unfold has_fd. by intros ->. Qed.

Lemma last_file_spec fuel p l q :
  fchain h p (l ++ [q]) -> (length l < fuel)%nat -> last_file fuel p s = Ret q s.
Proof.
  revert p l. induction fuel as [|fuel IH]; intros p l Hc Hf; [lia|].
  destruct l as [|q1 l]; simpl in Hc, Hf; destruct Hc as (-> & Hq & n & Hn & Hc); cbn [last_file].
  - rewrite (run_load _ n) by done. by rewrite Hc.
  - rewrite (run_load _ n) by done.
    rewrite (proj2 (Z.eqb_neq _ _)); [|by intros ?%(chain_nonnull _ _ _ Hc); destruct l].
    apply (IH _ l); [done | lia].
Qed.

(** The first file with the descriptor, and the one before it. *)
Lemma find_fd_found fuel fd l1 f l2 p parent v :
  fchain h p (l1 ++ f :: l2) -> (forall g, g ∈ l1 -> has_fd fd g = false) ->
  h !! f = Some v -> f_fd v = fd -> (length l1 < fuel)%nat ->
  find_fd fuel fd p parent s = Ret (f, default parent (last l1)) s.
Proof.
  revert p l1 parent. induction fuel as [|fuel IH]; intros p l1 parent Hc Hn Hv Hfd Hf; [lia|].
  destruct l1 as [|q1 l1]; simpl in Hc, Hf; destruct Hc as (-> & Hq & n & Hl & Hc); cbn [find_fd];
    rewrite (proj2 (Z.eqb_neq _ _) Hq), (run_load _ n) by done.
  - simplify_eq. by rewrite Z.eqb_refl.
  - rewrite <- (has_fd_Some fd q1 n Hl), Hn by set_solver.
    rewrite (IH _ l1) by (done || set_solver || lia). destruct l1 as [|q2 l1]; [done|].
    change (last (q1 :: q2 :: l1)) with (last (q2 :: l1)).
    destruct (last (q2 :: l1)) eqn:E; [done|]. by apply last_None in E.
Qed.

Lemma find_fd_none fuel fd l p parent :
  fchain h p l -> (forall g, g ∈ l -> has_fd fd g = false) -> (length l < fuel)%nat ->
  find_fd fuel fd p parent s = Ret (0, default parent (last l)) s.
Proof.
  revert p l parent. induction fuel as [|fuel IH]; intros p l parent Hc Hn Hf; [lia|].
  destruct l as [|q1 l]; simpl in Hc, Hf; cbn [find_fd]; [by rewrite Hc|].
  destruct Hc as (-> & Hq & n & Hl & Hc). rewrite (proj2 (Z.eqb_neq _ _) Hq), (run_load _ n) by done.
  rewrite <- (has_fd_Some fd q1 n Hl), Hn by set_solver.
  rewrite (IH _ l) by (done || set_solver || lia). destruct l as [|q2 l]; [done|].
  change (last (q1 :: q2 :: l)) with (last (q2 :: l)).
  destruct (last (q2 :: l)) eqn:E; [done|]. by apply last_None in E.
Qed.
End Loops.

#[global] Arguments find_fd : simpl never.
#[global] Arguments last_file : simpl never.
#[global] Arguments file_fuel : simpl never.

Lemma file_fuel_enough s p l : fchain (k_files s) p l -> (length l < file_fuel s)%nat.
Proof. intros Hc. unfold file_fuel. apply chain_size in Hc. lia. Qed.

Lemma find_split {A} (f : A -> bool) l x : List.find f l = Some x ->
  exists l1 l2, l = l1 ++ x :: l2 /\ f x = true /\ (forall y, y ∈ l1 -> f y = false).
Proof.
  induction l as [|y l IH]; simpl; [done|]. destruct (f y) eqn:E.
  - intros [= ->]. exists [], l. split_and!; [done | done | set_solver].
  - intros (l1 & l2 & -> & Hx & Hl)%IH. exists (y :: l1), l2. split_and!; [done | done | set_solver].
Qed.

Lemma find_none_all {A} (f : A -> bool) l y : List.find f l = None -> y ∈ l -> f y = false.
Proof. intros H Hy. eapply find_none; [done | by apply list_elem_of_In]. Qed.
