(* ===== verification/Descriptors.v ===== *)
(** * Descriptors: the descriptor table of a task

    The theorems about [create_file_descriptor], [open], [close], [dup2] and
    [clone_descriptor_table] of Io.v: the table of the running task is a list
    of (descriptor, offset, mode, node) entries. *)

From S2P Require Import Prelude Chain KState LinkedList Signals Vfs Io.

(** ** The descriptor table *)

(** The running task has the table at [table], unlocked, with the open files
    [l]. *)
Record open_files (s : kstate) (t : task) (table : Z) (d : desc_info) (l : list Z) : Prop := {
  of_task : k_tasks s !! k_current_task s = Some t;
  of_info : t_descriptors_info t = table;
  of_table0 : table <> 0;
  of_table : k_descs s !! table = Some d;
  of_lock : d_lock d = 0;
  of_chain : fchain (k_files s) (d_files d) l
}.

(** The file of a descriptor, 0 if it is not open. *)
Definition file_of (s : kstate) (l : list Z) (fd : Z) : Z := default 0 (List.find (has_fd s fd) l).

Section Table.
Context {al : Allocator} {dr : Drivers} {co : Control}.

Lemma get_file_descriptor_ok s t table d l fd :
  open_files s t table d l -> get_file_descriptor fd s = Ret (file_of s l fd) s.
Proof.
  intros [Ht Hi H0 Hd _ Hc]. unfold get_file_descriptor, file_of. krun. rewrite Hi.
  rewrite (proj2 (Z.eqb_neq _ _) H0). krun. destruct (Z.eqb_spec (d_files d) 0) as [E|E].
  { by apply (chain_nonnull _ _ _ Hc) in E as ->. }
  destruct (List.find (has_fd s fd) l) as [f|] eqn:Ef; simpl.
  - destruct (find_split _ _ _ Ef) as (l1 & l2 & -> & Hf & Hl).
    destruct (chain_dom _ _ _ f Hc ltac:(set_solver)) as [_ [v Hv]].
    rewrite (has_fd_Some s fd f v Hv) in Hf.
    apply Z.eqb_eq in Hf. pose proof (file_fuel_enough _ _ _ Hc) as Hlen. rewrite length_app in Hlen.
    rewrite (bind_Ret _ _ _ _ _ (find_fd_found s (file_fuel s) fd l1 f l2 _ 0 v Hc Hl Hv Hf ltac:(lia))).
    done.
  - pose proof (file_fuel_enough _ _ _ Hc) as Hlen.
    rewrite (bind_Ret _ _ _ _ _ (find_fd_none s (file_fuel s) fd l _ 0 Hc
               (fun g Hg => find_none_all _ _ g Ef Hg) Hlen)). done.
Qed.

(** The state after a new file was appended to the table. *)
Definition appended (s : kstate) (table f : Z) (d : desc_info) (l : list Z) (v : file_t) (fd_next : Z) : kstate :=
  let s := tick s in
  match last l with
  | None => s <| k_files := <[f := v]> (k_files s) |>
              <| k_descs := <[table := d <| d_fd_next := fd_next |> <| d_files := f |>]> (k_descs s) |>
  | Some q =>
      s <| k_files := alter (fun w => w <| f_next := f |>) q (<[f := v]> (k_files s)) |>
        <| k_descs := <[table := d <| d_fd_next := fd_next |>]> (k_descs s) |>
  end.

Lemma allocate_file s n : allocate (k_mallocs s) (live s) n <> 0 ->
  k_files s !! allocate (k_mallocs s) (live s) n = None.
Proof.
  intros Ha. destruct (allocate_fresh (k_mallocs s) (live s) n) as [?|[_ Hf]]; [done|].
  apply not_elem_of_dom. unfold live in Hf. set_solver.
Qed.

Lemma create_file_descriptor_ok s t table d l node fd mode :
  open_files s t table d l ->
  let f := allocate (k_mallocs s) (live s) sizeof_file in f <> 0 ->
  let fd' := if fd =? -1 then s32 (d_fd_next d) else fd in
  let fn := if fd =? -1 then u32 (d_fd_next d + 1) else d_fd_next d in
  create_file_descriptor node fd mode s =
  Ret fd' (appended s table f d l (mkFile fd' 0 mode node 0) fn).
Proof.
  intros [Ht Hi H0 Hd Hlk Hc] f Hf fd' fn. pose proof (allocate_file _ _ Hf) as Hfresh. fold f in Hfresh.
  unfold create_file_descriptor. krun. fold f. rewrite (proj2 (Z.eqb_neq _ _) Hf). krun. rewrite Hi. krun.
  unfold fd', fn, appended. destruct (decide (l = [])) as [->|Hl].
  - simpl in Hc. rewrite Hc. simpl. destruct (fd =? -1); krun; unfold ret; f_equal; kstate; kmaps;
      f_equal; krecord.
  - destruct (exists_last Hl) as (l1 & q & ->). rewrite last_snoc.
    assert (Hq0 : d_files d <> 0) by (intros ?%(chain_nonnull _ _ _ Hc); by destruct l1).
    destruct (chain_dom _ _ _ q Hc ltac:(set_solver)) as [_ [w Hw]].
    assert (Hqf : q <> f) by congruence. pose proof (file_fuel_enough _ _ _ Hc) as Hlen.
    rewrite length_app in Hlen. simpl in Hlen. rewrite (proj2 (Z.eqb_neq _ _) Hq0).
    assert (Hlast : forall s1 v, k_files s1 = <[f := v]> (k_files s) ->
      last_file (file_fuel s1) (d_files d) s1 = Ret q s1).
    { intros s1 v Hs1. apply last_file_spec with l1.
      - rewrite Hs1. eapply chain_frame; [exact Hc|]. intros g x Hg Hx. exists x.
        rewrite lookup_insert_ne by congruence. done.
      - unfold file_fuel in *. rewrite Hs1, map_size_insert_None by done. lia. }
    destruct (fd =? -1); krun; (erewrite bind_Ret; [|by eapply Hlast; kred; rewrite ?insert_insert_eq]);
      krun; unfold ret; f_equal; kstate; kmaps; try (f_equal; krecord).
Qed.

(** What the table says of each open file: descriptor, offset, mode, node. *)
Definition entry (v : file_t) : Z * Z * Z * Z := (f_fd v, f_offset v, f_mode v, f_node v).
Definition entries (h : gmap Z file_t) (l : list Z) : list (Z * Z * Z * Z) :=
  omap (fun f => entry <$> h !! f) l.
#[global] Arguments entries : simpl never.
Definition fds (h : gmap Z file_t) (l : list Z) : list Z := (fun e => e.1.1.1) <$> entries h l.

Lemma entries_frame h h' l :
  (forall f v, f ∈ l -> h !! f = Some v -> exists v', h' !! f = Some v' /\ entry v' = entry v) ->
  (forall f, f ∈ l -> is_Some (h !! f)) -> entries h' l = entries h l.
Proof.
  intros Hf Hs. unfold entries. induction l as [|g l IH]; simpl; [done|].
  destruct (Hs g ltac:(set_solver)) as [v Hv]. destruct (Hf g v ltac:(set_solver) Hv) as (v' & Hv' & He).
  rewrite Hv, Hv'. simpl. rewrite He. f_equal. apply IH; intros; [apply Hf | apply Hs]; set_solver.
Qed.

Lemma entries_app h l1 l2 : entries h (l1 ++ l2) = entries h l1 ++ entries h l2.
Proof. apply omap_app. Qed.

Lemma entries_one h f v : h !! f = Some v -> entries h [f] = [entry v].
Proof. unfold entries. simpl. by intros ->. Qed.

Lemma chain_live h p l f : fchain h p l -> f ∈ l -> is_Some (h !! f).
Proof. intros Hc Hf. destruct (chain_dom _ _ _ f Hc Hf) as [_ [v ->]]. by eexists. Qed.

Lemma appended_open_files s t table f d l v fn :
  open_files s t table d l -> k_files s !! f = None -> f <> 0 -> f_next v = 0 ->
  let s' := appended s table f d l v fn in
  exists d', open_files s' t table d' (l ++ [f]) /\ d_fd_next d' = fn /\
    entries (k_files s') (l ++ [f]) = entries (k_files s) l ++ [entry v].
Proof.
  intros [Ht Hi H0 Hd Hlk Hc] Hf Hf0 Hv s'.
  assert (Hfl : f ∉ l) by (intros Hin; destruct (chain_live _ _ _ _ Hc Hin); congruence).
  rewrite entries_app. unfold s', appended. destruct (decide (l = [])) as [->|Hl].
  - exists (d <| d_fd_next := fn |> <| d_files := f |>). split_and!; [split; kred; try done | done |].
    + by simplify_map_eq.
    + split_and!; [done | done |]. exists v. by simplify_map_eq.
    + unfold entries. simpl. kred. by simplify_map_eq.
  - destruct (exists_last Hl) as (l1 & q & ->). rewrite last_snoc.
    destruct (chain_dom _ _ _ q Hc ltac:(set_solver)) as [_ [w Hw]].
    assert (Hqf : q <> f) by congruence.
    assert (Hal : alter (fun w => w <| f_next := f |>) q (<[f := v]> (k_files s)) =
                  <[q := w <| f_next := f |>]> (<[f := v]> (k_files s))).
    { apply alter_alt_Some. by simplify_map_eq. }
    kred. rewrite Hal. exists (d <| d_fd_next := fn |>). split_and!; [split; kred; try done | done |].
    + by simplify_map_eq.
    + rewrite <- app_assoc. simpl.
      pose proof (chain_append (next := f_next) (<[f := v]> (k_files s)) (d_files d) l1 q (w <| f_next := f |>) f v) as Ha.
      rewrite <- app_assoc in Ha. apply Ha; [| done | by simplify_map_eq | done | done | done].
      eapply chain_frame; [exact Hc|]. intros g x Hg Hx. exists x. rewrite lookup_insert_ne by congruence. done.
    + rewrite (entries_one _ f v) by by simplify_map_eq. f_equal. apply entries_frame.
      * intros g x Hg Hx. destruct (decide (g = q)) as [->|Hne].
        -- rewrite Hw in Hx. injection Hx as <-. eexists. split; [by simplify_map_eq | done].
        -- exists x. rewrite !lookup_insert_ne by congruence. done.
      * intros g Hg. by eapply chain_live.
Qed.

(** [create_file_descriptor] appends one open file to the table of the
    running task, at offset 0 with the given mode and node, and leaves the
    other entries as they were.  With the descriptor -1 the file gets the next
    number, so that descriptors handed out in this way stay distinct as long
    as the counter does not exceed the range of [int]; any other descriptor is
    used as it is.  Without memory it returns -1 with ENOMEM. *)
Theorem create_file_descriptor_appends s t table d l node fd mode :
  open_files s t table d l ->
  let f := allocate (k_mallocs s) (live s) sizeof_file in
  let fd' := if fd =? -1 then s32 (d_fd_next d) else fd in
  (f = 0 -> create_file_descriptor node fd mode s = Ret (-1) (set_err ENOMEM (tick s))) /\
  (f <> 0 -> exists s' d', create_file_descriptor node fd mode s = Ret fd' s' /\
     open_files s' t table d' (l ++ [f]) /\
     entries (k_files s') (l ++ [f]) = entries (k_files s) l ++ [(fd', 0, mode, node)] /\
     (fd = -1 -> 0 <= d_fd_next d < 2 ^ 31 - 1 -> Forall (fun x => 0 <= x < d_fd_next d) (fds (k_files s) l) ->
        fd' ∉ fds (k_files s) l /\ Forall (fun x => 0 <= x < d_fd_next d') (fds (k_files s') (l ++ [f])))).
Proof.
  intros Ho f fd'. split.
  - intros Hf. destruct Ho. unfold create_file_descriptor. krun. fold f. rewrite Hf. simpl. krun.
    unfold set_err, tick. kred. by rewrite of_task0.
  - intros Hf. pose proof (allocate_file _ _ Hf) as Hfresh. fold f in Hfresh.
    destruct (appended_open_files s t table f d l (mkFile fd' 0 mode node 0)
      (if fd =? -1 then u32 (d_fd_next d + 1) else d_fd_next d) Ho Hfresh Hf eq_refl) as (d' & Ho' & Hfn & He).
    eexists _, d'. split; [by apply (create_file_descriptor_ok s t table d l)|]. fold f fd'.
    split_and!; [exact Ho' | exact He |]. intros Hfd Hr Hall. unfold fds. rewrite He, fmap_app. simpl.
    assert (Hfd' : fd' = d_fd_next d) by (unfold fd'; rewrite Hfd; simpl; rewrite s32_small; lia).
    rewrite Hfd in Hfn. simpl in Hfn. rewrite u32_small in Hfn by lia. rewrite Hfn, Hfd'. split.
    + intros Hin. rewrite Forall_forall in Hall. apply Hall in Hin. lia.
    + apply Forall_app. split; [|by constructor; simpl; [lia|constructor]].
      eapply Forall_impl; [exact Hall|]. simpl. lia.
Qed.
(** ** Closing *)

(** The pipe that goes away with a node. *)
Definition goes_with (s : kstate) (n : vfs_node) : Prop :=
  frees n = true -> Z.land (n_flags n) FS_PIPE <> 0 -> n_data n <> 0 ->
  exists p b, k_pipes s !! n_data n = Some p /\ p_buf p <> 0 /\ k_bufs s !! p_buf p = Some b.

(** The state after [vfs_close] of [q], whose node is [n]. *)
Definition dropped (q : Z) (n : vfs_node) (s : kstate) : kstate :=
  if frees n then
    let s' := s <| k_nodes := delete q (k_nodes s) |> in
    if negb (Z.land (n_flags n) FS_PIPE =? 0) && negb (n_data n =? 0) then
      match k_pipes s !! n_data n with
      | Some p => s' <| k_pipes := delete (n_data n) (k_pipes s) |> <| k_bufs := delete (p_buf p) (k_bufs s) |>
      | None => s'
      end
    else s'
  else s <| k_nodes := <[q := n <| n_refs := u32 (n_refs n - 1) |>]> (k_nodes s) |>.

Lemma vfs_close_dropped s q n :
  q <> 0 -> k_nodes s !! q = Some n -> n_lock n = 0 -> goes_with s n ->
  vfs_close q s = Ret tt (dropped q n s).
Proof.
  intros Hq Hn Hl Hp. unfold dropped. destruct (frees n) eqn:Hf; [|by apply vfs_close_keeps].
  destruct (Z.eqb_spec (Z.land (n_flags n) FS_PIPE) 0) as [E1|E1]; simpl; [by apply (vfs_close_frees s q n); auto|].
  destruct (Z.eqb_spec (n_data n) 0) as [E2|E2]; simpl; [by apply (vfs_close_frees s q n); auto|].
  destruct (Hp Hf E1 E2) as (p & b & Hpp & Hb0 & Hb). rewrite Hpp. by eapply vfs_close_frees_pipe.
Qed.

(** What a dropped reference leaves alone. *)
Lemma dropped_frame q n s :
  k_files (dropped q n s) = k_files s /\ k_descs (dropped q n s) = k_descs s /\
  k_tasks (dropped q n s) = k_tasks s /\ k_current_task (dropped q n s) = k_current_task s /\
  k_nodes (dropped q n s) =
    (if frees n then delete q (k_nodes s) else <[q := n <| n_refs := u32 (n_refs n - 1) |>]> (k_nodes s)).
Proof. unfold dropped. destruct (frees n); [|done]. destruct (_ && _); [|done]. by destruct (k_pipes s !! _). Qed.

Lemma dropped_table q n s fs ds :
  dropped q n (s <| k_files := fs |> <| k_descs := ds |>) =
  (dropped q n s) <| k_files := fs |> <| k_descs := ds |>.
Proof.
  unfold dropped. destruct (frees n); [|done]. destruct (_ && _); [|done]. kred. by destruct (k_pipes s !! _).
Qed.

(** The state after file [f], found behind the files [l1], left the table. *)
Definition closed_files (h : gmap Z file_t) (f : Z) (v : file_t) (l1 : list Z) : gmap Z file_t :=
  delete f (match last l1 with
            | None => h
            | Some q => alter (fun w => w <| f_next := f_next v |>) q h
            end).
Definition closed_descs (h : gmap Z desc_info) (table : Z) (d : desc_info) (v : file_t) (l1 : list Z) :=
  match last l1 with
  | None => <[table := d <| d_files := f_next v |>]> h
  | Some _ => h
  end.

Lemma close_ok s t table d l1 f l2 fd v n :
  open_files s t table d (l1 ++ f :: l2) -> (forall g, g ∈ l1 -> has_fd s fd g = false) ->
  k_files s !! f = Some v -> f_fd v = fd -> f_node v <> 0 ->
  k_nodes s !! f_node v = Some n -> n_lock n = 0 -> goes_with s n ->
  close fd s = Ret 0 ((dropped (f_node v) n s)
                        <| k_files := closed_files (k_files s) f v l1 |>
                        <| k_descs := closed_descs (k_descs s) table d v l1 |>).
Proof.
  intros [Ht Hi H0 Hd Hlk Hc] Hl1 Hv Hfd Hn0 Hn Hnl Hg.
  assert (Hp0 : d_files d <> 0) by (intros ?%(chain_nonnull _ _ _ Hc); by destruct l1).
  pose proof (file_fuel_enough _ _ _ Hc) as Hlen. rewrite length_app in Hlen. simpl in Hlen.
  unfold close. krun. rewrite Hi, (proj2 (Z.eqb_neq _ _) H0). krun. rewrite (proj2 (Z.eqb_neq _ _) Hp0). krun.
  match goal with |- bind (find_fd ?fu _ _ _) _ ?s1 = _ =>
    rewrite (bind_Ret _ _ _ _ _ (find_fd_found s1 fu fd l1 f l2 _ 0 v Hc Hl1 Hv Hfd ltac:(unfold file_fuel in *; kred; lia)))
  end. krun.
  unfold closed_files, closed_descs. destruct (dropped_frame (f_node v) n s) as (E1 & E2 & E3 & E4 & _).
  destruct (last l1) as [q|] eqn:El; simpl.
  - apply last_Some in El as [l' ->].
    destruct (chain_dom _ _ _ q Hc ltac:(set_solver)) as [Hq0 [w Hw]].
    rewrite (proj2 (Z.eqb_neq _ _) Hq0).
    assert (Hqf : q <> f).
    { intros ->. apply chain_NoDup in Hc. rewrite <- app_assoc in Hc. simpl in Hc.
      apply NoDup_app in Hc as (_ & _ & Hc). inversion Hc. set_solver. }
    krun. erewrite bind_Ret; [|apply vfs_close_dropped; kred; done].
    match goal with |- context [dropped _ _ ?s1] =>
      replace s1 with (s <| k_files := <[q := w <| f_next := f_next v |>]> (k_files s) |>
                         <| k_descs := <[table := d <| d_lock := 1 |>]> (k_descs s) |>) by by kstate
    end. rewrite dropped_table. krun. unfold ret. f_equal. kstate; kmaps; [|f_equal; krecord].
    destruct (decide (q = i)); by simplify_map_eq.
  - apply last_None in El as ->. krun. erewrite bind_Ret; [|apply vfs_close_dropped; kred; done].
    match goal with |- context [dropped _ _ ?s1] =>
      replace s1 with (s <| k_files := k_files s |>
                         <| k_descs := <[table := d <| d_lock := 1 |> <| d_files := f_next v |>]> (k_descs s) |>)
        by (kstate; by rewrite insert_insert_eq)
    end. rewrite dropped_table. krun. unfold ret. f_equal. kstate; kmaps. f_equal. krecord.
Qed.
Lemma closed_open_files s t table d l1 f l2 v :
  open_files s t table d (l1 ++ f :: l2) -> k_files s !! f = Some v ->
  let s' := s <| k_files := closed_files (k_files s) f v l1 |>
              <| k_descs := closed_descs (k_descs s) table d v l1 |> in
  exists d', open_files s' t table d' (l1 ++ l2) /\ d_fd_next d' = d_fd_next d /\
    entries (k_files s') (l1 ++ l2) = entries (k_files s) l1 ++ entries (k_files s) l2 /\
    k_files s' !! f = None.
Proof.
  intros [Ht Hi H0 Hd Hlk Hc] Hv s'. pose proof (chain_NoDup _ _ _ Hc) as Hnd.
  apply NoDup_app in Hnd as (Hn1 & Hn12 & Hn2). apply NoDup_cons in Hn2 as [Hfl2 _].
  assert (Hfl1 : f ∉ l1) by set_solver.
  assert (Hlive : forall g, g ∈ l1 ++ l2 -> is_Some (k_files s !! g)).
  { intros g Hg. eapply (chain_live _ _ _ _ Hc). set_solver. }
  unfold s', closed_files, closed_descs. destruct (last l1) as [q|] eqn:El.
  - apply last_Some in El as [l' ->]. destruct (Hlive q ltac:(set_solver)) as [w Hw].
    assert (Hfr : forall g x, g ∈ (l' ++ [q]) ++ l2 -> k_files s !! g = Some x -> exists x',
      delete f (alter (fun w => w <| f_next := f_next v |>) q (k_files s)) !! g = Some x' /\ entry x' = entry x).
    { intros g x Hg Hx. rewrite lookup_delete_ne by set_solver.
      destruct (decide (g = q)) as [->|]; simplify_map_eq; eauto. }
    exists d. split_and!; [split; kred; try done | done | | by simplify_map_eq].
    + rewrite <- app_assoc in Hc |- *. simpl in *.
      set (w' := w <| f_next := f_next v |>).
      pose proof (chain_remove (next := f_next) _ _ l' q f l2 w' v Hc eq_refl Hv) as Hr.
      eapply chain_frame; [exact Hr|]. intros g x Hg Hx. exists x. split; [|done].
      rewrite lookup_delete_ne by set_solver. rewrite (alter_alt_Some _ _ _ w) by exact Hw. exact Hx.
    + kred. rewrite <- entries_app. apply entries_frame; [exact Hfr | exact Hlive].
  - apply last_None in El as ->. exists (d <| d_files := f_next v |>). simpl in *.
    destruct Hc as (Hp & Hf0 & v' & Hv' & Hc). simplify_eq.
    split_and!; [split; kred; try done; [by simplify_map_eq|] | done | | by simplify_map_eq].
    + eapply chain_frame; [exact Hc|]. intros g x Hg Hx. exists x. by rewrite lookup_delete_ne by set_solver.
    + kred. apply entries_frame; [|exact Hlive]. intros g x Hg Hx. exists x.
      by rewrite lookup_delete_ne by set_solver.
Qed.

(** The table is read off the files, the descriptors' maps and the running
    task only. *)
Lemma open_files_frame s s' t table d l :
  open_files s t table d l -> k_tasks s' = k_tasks s -> k_current_task s' = k_current_task s ->
  k_files s' = k_files s -> k_descs s' = k_descs s -> open_files s' t table d l.
Proof. intros [] E1 E2 E3 E4. split; by rewrite ?E1, ?E2, ?E3, ?E4. Qed.

(** C18: [close] removes the first entry with the descriptor from the table,
    frees it, and drops the reference to its node; the other entries and the
    descriptor counter stay.  With no open files at all it returns -1 with
    EBADF.  When files are open but none has the descriptor, the loop ends
    with a NULL pointer whose node is read. *)
Theorem close_effect s t table d l :
  open_files s t table d l ->
  (l = [] -> forall fd, close fd s = Ret (-1) (set_err EBADF s)) /\
  (forall fd, l <> [] -> file_of s l fd = 0 -> k_files s !! 0 = None -> exists s', close fd s = Faults s') /\
  (forall fd l1 f l2 v n, l = l1 ++ f :: l2 -> (forall g, g ∈ l1 -> has_fd s fd g = false) ->
     k_files s !! f = Some v -> f_fd v = fd -> f_node v <> 0 ->
     k_nodes s !! f_node v = Some n -> n_lock n = 0 -> goes_with s n ->
     exists s' d', close fd s = Ret 0 s' /\ open_files s' t table d' (l1 ++ l2) /\
       d_fd_next d' = d_fd_next d /\ k_files s' !! f = None /\
       entries (k_files s') (l1 ++ l2) = entries (k_files s) l1 ++ entries (k_files s) l2 /\
       k_nodes s' = (if frees n then delete (f_node v) (k_nodes s)
                     else <[f_node v := n <| n_refs := u32 (n_refs n - 1) |>]> (k_nodes s))).
Proof.
  intros Ho. split_and!.
  - intros -> fd. destruct Ho as [Ht Hi H0 Hd Hlk Hc]. simpl in Hc. unfold close. krun.
    rewrite Hi, (proj2 (Z.eqb_neq _ _) H0). krun. rewrite Hc. simpl. krun. unfold set_err. by rewrite Ht.
  - intros fd Hl Hfd Hnull. destruct Ho as [Ht Hi H0 Hd Hlk Hc].
    assert (Hp0 : d_files d <> 0) by (by intros ?%(chain_nonnull _ _ _ Hc)).
    assert (Hnone : forall g, g ∈ l -> has_fd s fd g = false).
    { intros g Hg. unfold file_of in Hfd. destruct (List.find (has_fd s fd) l) as [x|] eqn:E.
      - simpl in Hfd. subst x. apply find_some in E as [E _]. apply list_elem_of_In in E.
        by destruct (chain_dom _ _ _ 0 Hc E).
      - by eapply find_none_all. }
    eexists. unfold close. krun. rewrite Hi, (proj2 (Z.eqb_neq _ _) H0). krun.
    rewrite (proj2 (Z.eqb_neq _ _) Hp0). krun.
    match goal with |- bind (find_fd ?fu _ _ _) _ ?s1 = _ =>
      rewrite (bind_Ret _ _ _ _ _ (find_fd_none s1 fu fd l _ 0 Hc Hnone (file_fuel_enough _ _ _ Hc)))
    end. apply run_fault. unfold load, bind, get. kred. by rewrite Hnull.
  - intros fd l1 f l2 v n -> Hl1 Hv Hfd Hn0 Hn Hnl Hg.
    destruct (dropped_frame (f_node v) n s) as (E1 & E2 & E3 & E4 & E5).
    assert (Ho' : open_files (dropped (f_node v) n s) t table d (l1 ++ f :: l2)) by by eapply open_files_frame.
    destruct (closed_open_files _ _ _ _ _ _ _ v Ho' ltac:(by rewrite E1)) as (d' & H1 & H2 & H3 & H4).
    rewrite E1, E2 in *. eexists _, d'. split; [by eapply close_ok|]. split_and!; done.
Qed.
(** ** Open, then close *)

Lemma file_of_last s l f v fd :
  (forall g, g ∈ l -> has_fd s fd g = false) -> k_files s !! f = Some v -> f_fd v = fd ->
  file_of s (l ++ [f]) fd = f.
Proof.
  intros Hl Hv Hfd. unfold file_of. induction l as [|g l IH]; simpl.
  - by rewrite (has_fd_Some s fd f v Hv), Hfd, Z.eqb_refl.
  - rewrite Hl by set_solver. apply IH. set_solver.
Qed.

(** A descriptor that no entry has. *)
Lemma not_in_fds s l fd :
  (forall g, g ∈ l -> is_Some (k_files s !! g)) -> fd ∉ fds (k_files s) l <->
  (forall g, g ∈ l -> has_fd s fd g = false).
Proof.
  unfold fds, entries, has_fd. induction l as [|g l IH]; intros Hs; simpl; [set_solver|].
  destruct (Hs g ltac:(set_solver)) as [v Hv]. rewrite Hv. simpl.
  rewrite not_elem_of_cons, IH by set_solver. split.
  - intros [H1 H2] g' [->|Hg]%elem_of_cons; [rewrite Hv; apply Z.eqb_neq; naive_solver | by apply H2].
  - intros H. split; [|intros; apply H; set_solver]. specialize (H g ltac:(set_solver)). rewrite Hv in H.
    apply Z.eqb_neq in H. naive_solver.
Qed.

Lemma entries_fds h h' l : entries h l = entries h' l -> fds h l = fds h' l.
Proof. unfold fds. by intros ->. Qed.

(** The entry that [create_file_descriptor] made. *)
Lemma appended_new s t table f d l v fn :
  open_files s t table d l -> k_files s !! f = None ->
  k_files (appended s table f d l v fn) !! f = Some v /\
  k_nodes (appended s table f d l v fn) = k_nodes s /\
  k_tasks (appended s table f d l v fn) = k_tasks s /\
  k_current_task (appended s table f d l v fn) = k_current_task s.
Proof.
  intros Ho Hf. unfold appended. destruct (last l) as [q|] eqn:El; kred; split_and!; try done; [|by simplify_map_eq].
  apply last_Some in El as [l' ->]. destruct (chain_live _ _ _ q (of_chain _ _ _ _ _ Ho)) as [w Hw]; [set_solver|].
  rewrite lookup_alter_ne by congruence. by simplify_map_eq.
Qed.

Lemma appended_old s table f d l v fn g x :
  k_files s !! f = None -> k_files s !! g = Some x ->
  exists x', k_files (appended s table f d l v fn) !! g = Some x' /\ entry x' = entry x.
Proof.
  intros Hf Hg. assert (g <> f) by congruence. unfold appended. destruct (last l) as [q|]; kred.
  - rewrite lookup_alter. case_decide; subst; rewrite lookup_insert_ne, Hg by done; by eexists.
  - exists x. by simplify_map_eq.
Qed.

Lemma open_ok s t table d l path flags q n :
  ample -> open_files s t table d l -> strlen path <= MAX_PATH ->
  open_target s path t (Found q) -> q <> 0 -> k_nodes s !! q = Some n -> n_lock n = 0 ->
  let s1 := (tick s) <| k_nodes := with_ref (k_nodes s) q |> in
  let f := allocate (k_mallocs s1) (live s1) sizeof_file in
  let fd := s32 (d_fd_next d) in
  k_files s !! f = None /\
  open path flags s =
  Ret fd (appended s1 table f d l (mkFile fd 0 (Z.lor FD_MODE_READ FD_MODE_WRITE) q 0) (u32 (d_fd_next d + 1))).
Proof.
  intros Ham Ho Hlen Hw Hq Hn Hl s1 f fd. split; [exact (allocate_file s1 _ (Ham _ _ _))|].
  unfold open. replace (MAX_PATH <? strlen path) with false by (symmetry; apply Z.ltb_ge; lia).
  assert (Ht : k_tasks s !! k_current_task s = Some t) by by destruct Ho.
  assert (Hu : unlocked_target s (Found q)) by by exists n.
  rewrite (bind_Ret _ _ _ _ _ (vfs_open_ok s path flags t (Found q) Hlen Ht (Ham _ _ _) Hw Hu)).
  rewrite (proj2 (Z.eqb_neq _ _) Hq). unfold check_file_permissions. krun.
  exact (create_file_descriptor_ok s1 t table d l q (-1) _
    ltac:(by eapply open_files_frame) (Ham _ _ _)).
Qed.

(** [open] of a path that leads to a node gives the next descriptor, whose
    entry has offset 0 and refers to that node; it differs from the
    descriptors in use, and [close] of it restores the table's entries and
    every node's reference count. *)
Theorem open_close_restores s t table d l path flags q n :
  ample -> open_files s t table d l -> strlen path <= MAX_PATH ->
  open_target s path t (Found q) -> q <> 0 -> k_nodes s !! q = Some n -> n_lock n = 0 ->
  0 < n_refs n < 2 ^ 32 - 1 -> 0 <= d_fd_next d < 2 ^ 31 - 1 ->
  Forall (fun x => 0 <= x < d_fd_next d) (fds (k_files s) l) ->
  exists fd s1 d1 f s2 d2,
    open path flags s = Ret fd s1 /\ fd = d_fd_next d /\ fd ∉ fds (k_files s) l /\
    open_files s1 t table d1 (l ++ [f]) /\ file_of s1 (l ++ [f]) fd = f /\
    entries (k_files s1) (l ++ [f]) =
      entries (k_files s) l ++ [(fd, 0, Z.lor FD_MODE_READ FD_MODE_WRITE, q)] /\
    close fd s1 = Ret 0 s2 /\ open_files s2 t table d2 l /\
    entries (k_files s2) l = entries (k_files s) l /\ k_nodes s2 = k_nodes s.
Proof.
  intros Ham Ho Hlen Hw Hq Hn Hl Hr Hnext Hall.
  destruct (open_ok s t table d l path flags q n Ham Ho Hlen Hw Hq Hn Hl) as [Hfresh Hopen].
  set (sv := (tick s) <| k_nodes := with_ref (k_nodes s) q |>) in *.
  set (f := allocate _ _ sizeof_file) in *. rewrite s32_small in Hopen by lia.
  set (fd := d_fd_next d) in *. set (v := mkFile fd 0 _ q 0) in *.
  assert (Hov : open_files sv t table d l) by by eapply open_files_frame.
  destruct (appended_open_files sv t table f d l v (u32 (fd + 1)) Hov Hfresh (Ham _ _ _) eq_refl)
    as (d1 & Ho1 & _ & He1).
  destruct (appended_new sv t table f d l v (u32 (fd + 1)) Hov Hfresh) as (Hv1 & Hn1 & _ & _).
  set (s1 := appended sv table f d l v (u32 (fd + 1))) in *.
  assert (Hni : fd ∉ fds (k_files s) l).
  { intros Hin. rewrite Forall_forall in Hall. apply Hall in Hin. lia. }
  assert (Hlive : forall g, g ∈ l -> is_Some (k_files s1 !! g)).
  { intros g Hg. eapply (chain_live _ _ _ _ (of_chain _ _ _ _ _ Ho1)). set_solver. }
  assert (Hel : entries (k_files s1) l = entries (k_files s) l).
  { rewrite entries_app, (entries_one _ f v Hv1) in He1. by apply app_inj_2 in He1 as [? _]. }
  assert (Hno : forall g, g ∈ l -> has_fd s1 fd g = false).
  { apply not_in_fds; [done|]. by rewrite (entries_fds _ _ _ Hel). }
  set (n1 := n <| n_refs := u32 (n_refs n + 1) |>).
  assert (Hq1 : k_nodes s1 !! q = Some n1).
  { rewrite Hn1. unfold sv. kred. unfold with_ref. rewrite Hn. by simplify_map_eq. }
  assert (Hr1 : n_refs n1 = n_refs n + 1) by (unfold n1; kred; rewrite u32_small; lia).
  assert (Hfr : frees n1 = false).
  { unfold frees. rewrite Hr1, u32_small by lia. apply andb_false_intro1, Z.eqb_neq. lia. }
  assert (Hg1 : goes_with s1 n1) by (unfold goes_with; by rewrite Hfr).
  pose proof (close_ok s1 t table d1 l f [] fd v n1 Ho1 Hno Hv1 eq_refl Hq Hq1 Hl Hg1) as Hclose.
  destruct (dropped_frame q n1 s1) as (E1 & E2 & E3 & E4 & E5). simpl in Hclose.
  assert (Ho1' : open_files (dropped q n1 s1) t table d1 (l ++ [f])) by by eapply open_files_frame.
  destruct (closed_open_files _ _ _ _ _ _ _ v Ho1' ltac:(by rewrite E1)) as (d2 & Ho2 & _ & He2 & _).
  rewrite E1, E2, ?app_nil_r in *.
  eexists fd, s1, d1, f, _, d2. split_and!; [exact Hopen | done | exact Hni | exact Ho1 | by eapply file_of_last
    | exact He1 | exact Hclose | exact Ho2 | by rewrite He2, Hel |].
  kred. rewrite E5, Hfr, Hn1. unfold sv. kred. unfold with_ref. rewrite Hn, insert_insert_eq.
  apply insert_id. rewrite Hn. f_equal. unfold n1, setf. destruct n; simpl in *.
  rewrite (u32_small (n_refs + 1)), u32_small by lia. f_equal. lia.
Qed.
(** ** Duplicating a descriptor *)

Lemma file_of_split s t table d l fd :
  open_files s t table d l -> file_of s l fd <> 0 ->
  exists l1 l2 v, l = l1 ++ file_of s l fd :: l2 /\ (forall g, g ∈ l1 -> has_fd s fd g = false) /\
    k_files s !! file_of s l fd = Some v /\ f_fd v = fd.
Proof.
  intros Ho. unfold file_of. destruct (List.find (has_fd s fd) l) as [f|] eqn:E; [|done]. intros _. simpl.
  destruct (find_split _ _ _ E) as (l1 & l2 & -> & Hf & Hl).
  destruct (chain_live _ _ _ f (of_chain _ _ _ _ _ Ho)) as [v Hv]; [set_solver|].
  rewrite (has_fd_Some s fd f v Hv) in Hf. apply Z.eqb_eq in Hf. by exists l1, l2, v.
Qed.

(** [dup2] with the same descriptor twice closes the file, frees its
    entry, and goes on to read the freed entry. *)
Theorem dup2_same_faults s t table d l fd v n :
  open_files s t table d l -> file_of s l fd <> 0 -> k_files s !! file_of s l fd = Some v ->
  f_node v <> 0 -> k_nodes s !! f_node v = Some n -> n_lock n = 0 -> goes_with s n ->
  exists s', dup2 fd fd s = Faults s'.
Proof.
  intros Ho Hf Hv Hn0 Hn Hl Hg. unfold dup2.
  rewrite (bind_Ret _ _ _ _ _ (get_file_descriptor_ok s t table d l fd Ho)).
  rewrite (proj2 (Z.eqb_neq _ _) Hf). krun.
  rewrite (bind_Ret _ _ _ _ _ (get_file_descriptor_ok s t table d l fd Ho)), (proj2 (Z.eqb_neq _ _) Hf). simpl.
  destruct (file_of_split _ _ _ _ _ _ Ho Hf) as (l1 & l2 & v' & Hl12 & Hl1 & Hv' & Hfd).
  rewrite Hv in Hv'. injection Hv' as <-. set (f := file_of s l fd) in *.
  assert (Ho' : open_files s t table d (l1 ++ f :: l2)) by by rewrite <- Hl12.
  krun. rewrite Hfd.
  rewrite (bind_Ret _ _ _ _ _ (close_ok s t table d l1 f l2 fd v n Ho' Hl1 Hv Hfd Hn0 Hn Hl Hg)). krun.
  eexists. apply run_fault. unfold load, bind, get. kred. unfold closed_files. by rewrite lookup_delete_eq.
Qed.

(** [dup2] to a descriptor that is not open adds an entry with that
    descriptor for the same node, in the same mode and at the same offset, and
    takes one more reference to the node.  The counter of [open] is not moved,
    so that a later [open] can give the same descriptor again. *)
Theorem dup2_duplicates s t table d l oldfd newfd v n :
  ample -> open_files s t table d l -> file_of s l oldfd <> 0 -> k_files s !! file_of s l oldfd = Some v ->
  f_node v <> 0 -> k_nodes s !! f_node v = Some n -> n_lock n = 0 ->
  0 <= newfd -> newfd ∉ fds (k_files s) l ->
  exists s' d' f, dup2 oldfd newfd s = Ret newfd s' /\ open_files s' t table d' (l ++ [f]) /\
    file_of s' (l ++ [f]) newfd = f /\
    entries (k_files s') (l ++ [f]) =
      entries (k_files s) l ++ [(newfd, f_offset v, f_mode v, f_node v)] /\
    k_nodes s' = <[f_node v := n <| n_refs := u32 (n_refs n + 1) |>]> (k_nodes s) /\
    d_fd_next d' = d_fd_next d.
Proof.
  intros Ham Ho Hf Hv Hn0 Hn Hl Hpos Hnew.
  assert (Hlive : forall g, g ∈ l -> is_Some (k_files s !! g)).
  { intros g Hg. by eapply (chain_live _ _ _ _ (of_chain _ _ _ _ _ Ho)). }
  assert (Hno : forall g, g ∈ l -> has_fd s newfd g = false) by by apply not_in_fds.
  assert (Hclosed : file_of s l newfd = 0).
  { unfold file_of. destruct (List.find _ l) as [x|] eqn:E; [|done]. apply find_some in E as [E1 E2].
    apply list_elem_of_In in E1. by rewrite Hno in E2. }
  unfold dup2. rewrite (bind_Ret _ _ _ _ _ (get_file_descriptor_ok s t table d l oldfd Ho)).
  rewrite (proj2 (Z.eqb_neq _ _) Hf). krun.
  rewrite (bind_Ret _ _ _ _ _ (get_file_descriptor_ok s t table d l newfd Ho)), Hclosed. simpl. krun.
  match goal with |- context [bind (create_file_descriptor _ _ _) _ ?x] => set (s1 := x) end.
  assert (Ho1 : open_files s1 t table d l) by by eapply open_files_frame.
  rewrite (bind_Ret _ _ _ _ _ (create_file_descriptor_ok s1 t table d l (f_node v) newfd (f_mode v) Ho1 (Ham _ _ _))).
  rewrite (proj2 (Z.eqb_neq newfd (-1))) by lia. rewrite (proj2 (Z.ltb_ge newfd 0)) by lia.
  set (f := allocate _ _ sizeof_file). set (w := mkFile newfd 0 _ _ 0).
  assert (Hfresh : k_files s1 !! f = None) by exact (allocate_file s1 _ (Ham _ _ _)).
  destruct (appended_open_files s1 t table f d l w (d_fd_next d) Ho1 Hfresh (Ham _ _ _) eq_refl)
    as (d2 & Ho2 & Hfn & He2).
  destruct (appended_new s1 t table f d l w (d_fd_next d) Ho1 Hfresh) as (Hw2 & Hn2 & _ & _).
  set (s2 := appended s1 table f d l w (d_fd_next d)) in *.
  assert (Hq2 : k_nodes s2 !! f_node v = Some (n <| n_lock := 1 |> <| n_refs := u32 (n_refs n + 1) |>)).
  { rewrite Hn2. unfold s1. kred. by simplify_map_eq. }
  krun. match goal with |- context [bind (get_file_descriptor _) _ ?x] => set (s3 := x) end.
  assert (Ho3 : open_files s3 t table d2 (l ++ [f])) by by eapply open_files_frame.
  rewrite (bind_Ret _ _ _ _ _ (get_file_descriptor_ok s3 t table d2 _ newfd Ho3)).
  assert (Hel : entries (k_files s2) l = entries (k_files s) l).
  { rewrite entries_app, (entries_one _ f w Hw2) in He2. by apply app_inj_2 in He2 as [? _]. }
  assert (Hlive2 : forall g, g ∈ l -> is_Some (k_files s2 !! g)).
  { intros g Hg. eapply (chain_live _ _ _ _ (of_chain _ _ _ _ _ Ho2)). set_solver. }
  assert (Hno2 : forall g, g ∈ l -> has_fd s2 newfd g = false).
  { apply not_in_fds; [done|]. by rewrite (entries_fds _ _ _ Hel). }
  assert (Hnewf : file_of s3 (l ++ [f]) newfd = f) by by eapply file_of_last.
  rewrite Hnewf, (proj2 (Z.eqb_neq f 0)) by exact (Ham _ _ _).
  destruct (appended_old s1 table f d l w (d_fd_next d) (file_of s l oldfd) v Hfresh Hv) as (v2 & Hv2 & Hev).
  assert (Hfs : k_files s !! f = None) by exact Hfresh.
  fold s2 in Hv2. assert (Hoff : f_offset v2 = f_offset v) by (unfold entry in Hev; congruence). krun.
  set (w' := w <| f_offset := f_offset v2 |>).
  assert (Hfr : forall g x, g ∈ l ++ [f] -> k_files s2 !! g = Some x ->
    exists x', <[f := w']> (k_files s2) !! g = Some x' /\ f_next x' = f_next x).
  { intros g x _ Hx. destruct (decide (g = f)) as [->|]; simplify_map_eq; eauto. }
  eexists _, d2, f. split; [done|]. split_and!; [| | | | done].
  - destruct Ho2. split; kred; try done. by eapply chain_frame.
  - eapply file_of_last; [| kred; by simplify_map_eq | done]. intros g Hg. unfold has_fd. kred.
    rewrite lookup_insert_ne; [exact (Hno2 g Hg)|]. intros ->. destruct (Hlive _ Hg). congruence.
  - kred. rewrite entries_app, (entries_one _ f w') by by simplify_map_eq. f_equal; [|by rewrite <- Hoff].
    rewrite <- Hel. apply entries_frame; [|done]. intros g x Hg Hx. exists x. split; [|done].
    rewrite lookup_insert_ne; [done|]. intros ->. destruct (Hlive _ Hg). congruence.
  - kred. rewrite Hn2. unfold s1. kred. rewrite !insert_insert_eq. f_equal. krecord.
Qed.
End Table.

(** ** An example *)

Module TableExample.
#[local] Existing Instance bump_allocator.
#[local] Existing Instance no_drivers.
#[local] Instance no_control : Control :=
  {| switch := ret tt; call_handler _ _ := ret tt; do_exit _ := ret tt |}.

(** The state of Vfs.Example, with nothing open, and with /dev/tty open as
    descriptor 0. *)
Definition st0 : kstate := Vfs.Example.st.
Definition t0 : task := Vfs.Example.the_task.
Definition d0 : desc_info := mkDesc 0 0 0 0.
Definition tty : vfs_node := Vfs.Example.file "tty" 3 0 FS_CHARDEVICE.

Definition tty_file : file_t := mkFile 0 0 3 4 0.
Definition st1 : kstate :=
  st0 <| k_files := {[300 := tty_file]} |> <| k_descs := {[200 := mkDesc 1 0 0 300]} |>.

Lemma open0 : open_files st0 t0 200 d0 [].
Proof. by constructor. Qed.

Lemma open1 : open_files st1 t0 200 (mkDesc 1 0 0 300) [300].
Proof. constructor; try done. simpl. split_and!; [done | done |]. by eexists. Qed.

Lemma tty_stays : goes_with st1 tty.
Proof. intros H. vm_compute in H. done. Qed.

Example create_file_descriptor_appends_witness :
  exists s' d', create_file_descriptor 4 (-1) 3 st0 = Ret 0 s' /\ open_files s' t0 200 d' [201] /\
    entries (k_files s') [201] = [(0, 0, 3, 4)].
Proof.
  destruct (create_file_descriptor_appends st0 t0 200 d0 [] 4 (-1) 3 open0) as [_ H].
  destruct (H (bump_ample _ _ _)) as (s' & d' & H1 & H2 & H3 & _). by exists s', d'.
Defined.

Example close_effect_witness :
  (exists s' d', close 0 st1 = Ret 0 s' /\ open_files s' t0 200 d' []) /\
  (exists s', close 7 st1 = Faults s') /\ close 0 st0 = Ret (-1) (set_err EBADF st0).
Proof.
  destruct (close_effect st1 t0 200 _ [300] open1) as (_ & H2 & H3).
  destruct (close_effect st0 t0 200 _ [] open0) as (H1 & _). split_and!.
  - destruct (H3 0 [] 300 [] tty_file tty) as (s' & d' & Hc & Ho & _);
      [done | set_solver | done | done | done | done | done | exact tty_stays |]. by exists s', d'.
  - by apply H2.
  - by apply H1.
Defined.

Example open_close_restores_witness :
  exists s1 s2, open "tty" 0 st0 = Ret 0 s1 /\ close 0 s1 = Ret 0 s2 /\ k_nodes s2 = k_nodes st0.
Proof.
  destruct (open_close_restores st0 t0 200 d0 [] "tty" 0 4 tty)
    as (fd & s1 & d1 & f & s2 & d2 & H1 & -> & _ & _ & _ & _ & H2 & _ & _ & H3);
    [exact bump_ample | exact open0 | done | exact Vfs.Example.walk_tty | done | done | done | simpl; lia
    | simpl; lia | constructor |].
  by exists s1, s2.
Defined.

Example dup2_same_faults_witness : exists s', dup2 0 0 st1 = Faults s'.
Proof.
  apply (dup2_same_faults st1 t0 200 _ [300] 0 tty_file tty open1);
    [done | done | done | done | done | exact tty_stays].
Defined.

(** The collision: a descriptor taken by [dup2] is given out again. *)
Example dup2_duplicates_witness :
  exists s' d' f, dup2 0 1 st1 = Ret 1 s' /\ open_files s' t0 200 d' [300; f] /\
    fds (k_files s') [300; f] = [0; 1] /\ d_fd_next d' = 1.
Proof.
  destruct (dup2_duplicates st1 t0 200 _ [300] 0 1 tty_file tty bump_ample open1)
    as (s' & d' & f & H1 & H2 & _ & H3 & _ & H4);
    [done | done | done | done | done | lia | vm_compute; set_solver |].
  exists s', d', f. split_and!; [done | done | unfold fds | done].
  change [300; f] with ([300] ++ [f]). by rewrite H3.
Defined.
End TableExample.
