(* ===== verification/Env.v ===== *)
(** * Env: environment variables (env.c)

    The environment of a task is an array of pointers, ended by NULL, to
    strings of the form name=value, all in kernel memory.  The theorems relate
    it to a list of pairs. *)

From S2P Require Import Prelude Chain KState LinkedList Signals Vfs Io.

Definition CONFIG_ENV_INITIAL_SIZE := 1024.

(** '=' *)
Definition EQ := 61.

(** The lock of the current task's environment. *)
Definition lock_env : M kstate unit :=
  t <- current;; w <- mutex_wait_word (t_env_lock t);; upd_current (fun t => t <| t_env_lock := w |>).
Definition unlock_env : M kstate unit :=
  t <- current;; w <- mutex_release_word (t_env_lock t);; upd_current (fun t => t <| t_env_lock := w |>).

(** [array[i] = w] *)
Definition store_word (p : Z) (i : nat) (w : Z) : M kstate unit :=
  a <- load (T := list Z) p;;
  _ <- deref (a !! i);;
  upd_obj p (fun a => <[i := w]> a).

(** ** free_env *)

(** The loop that frees the strings up to the NULL. *)
Fixpoint free_strings (arr : list Z) : M kstate unit :=
  match arr with
  | [] => fault
  | q :: arr => if q =? 0 then ret tt else free_obj (T := list Z) q;;; free_strings arr
  end.

Definition free_env : M kstate unit :=
  lock_env;;;
  t <- current;;
  (if negb (t_envp t =? 0) then
     arr <- load (T := list Z) (t_envp t);; free_strings arr;;; free_obj (T := list Z) (t_envp t)
   else ret tt);;;
  upd_current (fun t => t <| t_envp := 0 |>);;;
  unlock_env.

(** ** setenv *)

(** The comparison of an entry with a name, both with their terminating zero:
    whether the loop ended at '=' and the end of the name. *)
Fixpoint env_match (envs name : list Z) : option bool :=
  match envs, name with
  | e :: envs', n :: name' =>
      if negb (e =? 0) && negb (e =? EQ) && negb (n =? 0) then
        if negb (e =? n) then Some ((e =? EQ) && (n =? 0)) else env_match envs' name'
      else Some ((e =? EQ) && (n =? 0))
  | _, _ => None
  end.

(** The position of the entry with the name and the entry; the position of the
    NULL and NULL if there is none. *)
Fixpoint env_scan (arr name : list Z) (i : nat) : M kstate (nat * Z) :=
  match arr with
  | [] => fault
  | q :: arr =>
      if q =? 0 then ret (i, 0) else
      b <- load (T := list Z) q;;
      m <- deref (env_match b name);;
      if m : bool then ret (i, q) else env_scan arr name (S i)
  end.

Section Env.
Context {al : Allocator}.

(** The array, made on the first use; false if there is no memory for it. *)
Definition env_array : M kstate bool :=
  t <- current;;
  if t_envp t =? 0 then
    p <- malloc CONFIG_ENV_INITIAL_SIZE;;
    upd_current (fun t => t <| t_envp := p |>);;;
    if p =? 0 then unlock_env;;; ret false
    else put p (repeat 0 (Z.to_nat (CONFIG_ENV_INITIAL_SIZE / 4)));;; ret true
  else ret true.

(** [setenv]; the strings are without their terminating zero, [None] is NULL. *)
Definition setenv (name : option (list Z)) (value : list Z) (overwrite : Z) : M kstate Z :=
  match name with
  | None => ret EINVAL
  | Some name =>
      if (Z.of_nat (length name) =? 0) then ret EINVAL else
      if existsb (fun c => c =? EQ) name then ret EINVAL else
      lock_env;;;
      ok <- env_array;;
      if negb ok then ret ENOMEM else
      t <- current;;
      arr <- load (T := list Z) (t_envp t);;
      '(i, q) <- env_scan arr (name ++ [0]) 0;;
      if negb (q =? 0) && (overwrite =? 0) then unlock_env;;; ret (-1) else
      (if negb (q =? 0) then free_obj (T := list Z) q else ret tt);;;
      envs <- malloc (Z.of_nat (length name) + Z.of_nat (length value) + 2);;
      if envs =? 0 then ret ENOMEM else
      store_word (t_envp t) i envs;;;
      store_word (t_envp t) (S i) 0;;;
      put envs (name ++ EQ :: value ++ [0]);;;
      unlock_env;;;
      ret 0
  end.
End Env.

(** ** unsetenv *)

(** The comparison of [unsetenv], which goes on while the name is at its end. *)
Fixpoint unset_match (envs name : list Z) : option bool :=
  match envs, name with
  | e :: envs', n :: name' =>
      if negb (e =? 0) && negb (e =? EQ) && (n =? 0) then
        if negb (e =? n) then Some ((e =? EQ) && (n =? 0)) else unset_match envs' name'
      else Some ((e =? EQ) && (n =? 0))
  | _, _ => None
  end.

(** [while (envp[1] != NULL) { envp[0] = envp[1]; envp++; }] *)
Fixpoint shift_entries (arr : list Z) : option (list Z) :=
  match arr with
  | a :: (b :: _) as r =>
      if b =? 0 then Some (a :: r) else match shift_entries r with Some r => Some (b :: r) | None => None end
  | _ => None
  end.

(** The loop; [envp] moves only when the entry was found. *)
Fixpoint unset_loop (fuel : nat) (envp : Z) (name : list Z) : M kstate Z :=
  match fuel with
  | O => nofuel
  | S fuel =>
      arr <- load (T := list Z) envp;;
      q <- deref (arr !! 0%nat);;
      if q =? 0 then ret 0 else
      b <- load (T := list Z) q;;
      m <- deref (unset_match b name);;
      if m : bool then
        free_obj (T := list Z) q;;;
        arr' <- deref (shift_entries arr);;
        upd_obj envp (fun _ => arr');;; ret 0
      else unset_loop fuel envp name
  end.

Definition unsetenv (fuel : nat) (name : option (list Z)) : M kstate Z :=
  match name with
  | None => ret EINVAL
  | Some name =>
      if Z.of_nat (length name) =? 0 then ret EINVAL else
      t <- current;;
      if t_envp t =? 0 then ret 0 else unset_loop fuel (t_envp t) (name ++ [0])
  end.

(** ** The environment as a list of pairs *)

Definition good_name (n : list Z) : Prop := n <> [] /\ Forall (fun c => c <> 0 /\ c <> EQ) n.

Definition env_string (e : list Z * list Z) : list Z := e.1 ++ EQ :: e.2 ++ [0].

(** The strings at [ptrs] are the entries [E]. *)
Definition strings (h : gmap Z (list Z)) (ptrs : list Z) (E : list (list Z * list Z)) : Prop :=
  Forall2 (fun q e => q <> 0 /\ h !! q = Some (env_string e) /\ good_name e.1) ptrs E.

(** The task [t] runs, and has an environment: the array at [p] has the
    pointers [ptrs], NULL, and [rest]. *)
Record environ (s : kstate) (t : task) (ptrs rest : list Z) (E : list (list Z * list Z)) : Prop := {
  en_task : k_tasks s !! k_current_task s = Some t;
  en_lock : t_env_lock t = 0;
  en_envp : t_envp t <> 0;
  en_array : k_bufs s !! t_envp t = Some (ptrs ++ 0 :: rest);
  en_strings : strings (k_bufs s) ptrs E;
  en_nodup : NoDup (t_envp t :: ptrs)
}.

Lemma env_match_spec n v name : Forall (fun c => c <> 0 /\ c <> EQ) n -> Forall (fun c => c <> 0 /\ c <> EQ) name ->
  env_match (n ++ EQ :: v ++ [0]) (name ++ [0]) = Some (bool_decide (n = name)).
Proof.
  revert name. induction n as [|c n IH]; intros [|d name] Hn Hm; simpl; [done|..].
  - apply Forall_cons in Hm as [[H1 H2] _]. by rewrite (proj2 (Z.eqb_neq _ _) H1).
  - apply Forall_cons in Hn as [[H1 H2] _].
    by rewrite (proj2 (Z.eqb_neq _ _) H1), (proj2 (Z.eqb_neq _ _) H2).
  - apply Forall_cons in Hn as [[H1 H2] Hn]. apply Forall_cons in Hm as [[H3 H4] Hm].
    rewrite (proj2 (Z.eqb_neq _ _) H1), (proj2 (Z.eqb_neq _ _) H2), (proj2 (Z.eqb_neq _ _) H3). simpl.
    destruct (Z.eqb_spec c d) as [->|Hne]; simpl.
    + rewrite IH by done. f_equal. apply bool_decide_ext. naive_solver.
    + f_equal. symmetry. apply bool_decide_eq_false. naive_solver.
Qed.

(** Where the scan stops. *)
Lemma env_scan_spec s name ptrs rest E i :
  good_name name -> strings (k_bufs s) ptrs E ->
  env_scan (ptrs ++ 0 :: rest) (name ++ [0]) i s =
  match list_find (fun e => e.1 = name) E with
  | Some (j, _) => Ret ((i + j)%nat, nth j ptrs 0) s
  | None => Ret ((i + length ptrs)%nat, 0) s
  end.
Proof.
  intros [Hn0 Hn] HE. revert i. induction HE as [|q [n v] ptrs E (Hq & Hs & Hg0 & Hg) HE IH]; intros i; simpl.
  - by rewrite Nat.add_0_r.
  - rewrite (proj2 (Z.eqb_neq _ _) Hq). krun. unfold env_string. simpl in Hg |- *.
    rewrite env_match_spec by done. simpl. krun.
    destruct (decide (n = name)) as [->|Hne].
    + rewrite bool_decide_true by done. by rewrite Nat.add_0_r.
    + rewrite bool_decide_false, IH by done. destruct (list_find _ E) as [[j e]|]; simpl; by rewrite Nat.add_succ_r.
Qed.

(** [shift_entries] is never reached: the comparison of [unsetenv] fails for
    every entry, and the loop stays at the first one. *)
Lemma unset_match_fails n v name : good_name n -> good_name name ->
  unset_match (env_string (n, v)) (name ++ [0]) = Some false.
Proof.
  intros [Hn0 Hn] [Hm0 Hm]. destruct n as [|c n]; [done|]. destruct name as [|d name]; [done|].
  apply Forall_cons in Hn as [[H1 H2] _]. apply Forall_cons in Hm as [[H3 H4] _]. simpl.
  by rewrite (proj2 (Z.eqb_neq _ _) H3), !andb_false_r.
Qed.

(** [unsetenv] does nothing for a task without an environment; with a
    variable in the environment it never returns, whatever the name. *)
Theorem unsetenv_diverges s t name :
  k_tasks s !! k_current_task s = Some t -> good_name name ->
  (t_envp t = 0 -> forall fuel, unsetenv fuel (Some name) s = Ret 0 s) /\
  (forall ptrs rest E, environ s t ptrs rest E -> E <> [] -> forall fuel, unsetenv fuel (Some name) s = NoFuel s).
Proof.
  intros Ht [Hn0 Hn].
  assert (Hlen : Z.of_nat (length name) =? 0 = false) by (apply Z.eqb_neq; destruct name; simpl; [done | lia]).
  unfold unsetenv. rewrite Hlen. split.
  - intros He fuel. krun. by rewrite He.
  - intros ptrs rest E HE HE0 fuel. destruct HE as [_ _ Hp Ha HE _]. krun. rewrite (proj2 (Z.eqb_neq _ _) Hp).
    destruct HE as [|q [n v] ptrs E (Hq & Hs & Hg) HE]; [done|]. simpl in Hg, Ha.
    induction fuel as [|fuel IH]; [done|]. cbn [unset_loop]. krun. rewrite (proj2 (Z.eqb_neq _ _) Hq). krun.
    rewrite unset_match_fails by done. simpl. krun. exact IH.
Qed.

Section Setenv.
Context {al : Allocator}.

(** The state in which [setenv] looks for the name. *)
Definition env_locked (s : kstate) (t : task) : kstate :=
  s <| k_tasks := <[k_current_task s := t <| t_env_lock := 1 |>]> (k_tasks s) |>.

Lemma run_lock_env {B} s t (k : unit -> M kstate B) :
  k_tasks s !! k_current_task s = Some t -> t_env_lock t = 0 -> bind lock_env k s = k tt (env_locked s t).
Proof.
  intros Ht Hl. unfold lock_env, upd_current. krun. rewrite Hl.
  change (mutex_wait_word 0) with (ret 1 : M kstate Z). by krun.
Qed.

Lemma run_unlock_env {B} s t (k : unit -> M kstate B) :
  k_tasks s !! k_current_task s = Some t -> t_env_lock t = 1 ->
  bind unlock_env k s = k tt (s <| k_tasks := <[k_current_task s := t <| t_env_lock := 0 |>]> (k_tasks s) |>).
Proof.
  intros Ht Hl. unfold unlock_env, upd_current. krun. rewrite Hl.
  change (mutex_release_word 1) with (ret 0 : M kstate Z). by krun.
Qed.

Lemma unlocked s t : k_tasks s !! k_current_task s = Some t -> t_env_lock t = 0 ->
  <[k_current_task s := t <| t_env_lock := 1 |> <| t_env_lock := 0 |>]> (k_tasks s) = k_tasks s.
Proof. intros Ht Hl. apply insert_id. rewrite Ht. f_equal. rewrite <- Hl. by destruct t. Qed.

Lemma not_eq_name name : good_name name ->
  (Z.of_nat (length name) =? 0) = false /\ existsb (fun c => c =? EQ) name = false.
Proof.
  intros [Hn0 Hn]. split; [apply Z.eqb_neq; destruct name; simpl; [done | lia]|].
  clear Hn0. induction Hn as [|c name [_ Hc] _ IH]; simpl; [done|]. by rewrite (proj2 (Z.eqb_neq _ _) Hc).
Qed.

Lemma insert_two (l r : list Z) x y e :
  <[S (length l) := 0]> (<[length l := e]> (l ++ x :: y :: r)) = l ++ e :: 0 :: r.
Proof. induction l as [|a l IH]; simpl; [done|]. f_equal. apply IH. Qed.

Lemma array_split (ptrs rest : list Z) i : (i <= length ptrs)%nat -> rest <> [] ->
  exists x y r, ptrs ++ 0 :: rest = take i ptrs ++ x :: y :: r.
Proof.
  intros Hi Hr. destruct rest as [|z rest]; [done|]. 
  assert (ptrs ++ 0 :: z :: rest = take i ptrs ++ drop i ptrs ++ 0 :: z :: rest) as ->
    by by rewrite app_assoc, take_drop.
  destruct (drop i ptrs) as [|x [|y l]]; simpl; by eexists _, _, _.
Qed.

(** The run of [setenv] once the scan stopped at position [i] with entry [q]. *)
Lemma setenv_run s t ptrs rest E name value ow i :
  environ s t ptrs rest E -> good_name name -> ample -> rest <> [] -> (i <= length ptrs)%nat ->
  let q := nth i ptrs 0 in
  (forall s, strings (k_bufs s) ptrs E -> env_scan (ptrs ++ 0 :: rest) (name ++ [0]) 0 s = Ret (i, q) s) ->
  (q <> 0 -> ow = 0 -> setenv (Some name) value ow s = Ret (-1) s) /\
  (q = 0 \/ ow <> 0 -> exists envs s' rest', setenv (Some name) value ow s = Ret 0 s' /\
     envs <> 0 /\ envs ∉ dom (k_bufs s) ∖ {[q]} /\ k_tasks s' = k_tasks s /\ k_current_task s' = k_current_task s /\
     k_bufs s' = <[envs := name ++ EQ :: value ++ [0]]>
                   (<[t_envp t := take i ptrs ++ envs :: 0 :: rest']>
                      (if q =? 0 then k_bufs s else delete q (k_bufs s)))).
Proof.
  intros HE Hn Ham Hrest Hi q Hscan. destruct (not_eq_name _ Hn) as [N1 N2]. destruct HE as [Ht Hl Hp Ha HE Hnd].
  unfold setenv. rewrite N1, N2, (run_lock_env s t) by done. unfold env_array, env_locked. krun.
  rewrite (proj2 (Z.eqb_neq _ _) Hp). krun. erewrite (bind_Ret (env_scan _ _ _)); [|by apply Hscan]. split.
  - intros Hq ->. rewrite (proj2 (Z.eqb_neq _ _) Hq). simpl.
    erewrite run_unlock_env by first [klookup | kside]. kred. unfold ret. f_equal. kstate.
    rewrite insert_insert_eq. by apply unlocked.
  - intros Hq. replace (negb (q =? 0) && (ow =? 0)) with false.
    2:{ destruct Hq as [->|Hq]; [done|]. by rewrite (proj2 (Z.eqb_neq _ _) Hq), andb_false_r. }
    set (b0 := if q =? 0 then k_bufs s else delete q (k_bufs s)).
    set (s1 := env_locked s t). set (s2 := s1 <| k_bufs := b0 |>).
    assert (Hfree : forall k : unit -> M kstate Z, bind (if negb (q =? 0) then free_obj (T := list Z) q else ret tt) k s1 = k tt s2).
    { intros k. unfold s2, b0. destruct (Z.eqb_spec q 0) as [E0|E0]; simpl.
      - rewrite run_ret. f_equal.
      - destruct (lookup_lt_is_Some_2 ptrs i) as [q' Hq'].
        { destruct (decide (i < length ptrs)%nat); [done|]. unfold q in E0. by rewrite nth_overflow in E0 by lia. }
        assert (q' = q) as -> by (unfold q; by rewrite (nth_lookup_Some _ _ _ _ Hq')).
        destruct (Forall2_lookup_l _ _ _ _ _ HE Hq') as (e & _ & _ & Hqe & _). by krun. }
    unfold s1, env_locked in Hfree. rewrite Hfree. krun.
    set (envs := allocate _ _ _). rewrite (proj2 (Z.eqb_neq envs 0)) by exact (Ham _ _ _).
    assert (Hpb : b0 !! t_envp t = Some (ptrs ++ 0 :: rest)).
    { unfold b0. destruct (Z.eqb_spec q 0) as [E0|E0]; [exact Ha|].
      rewrite lookup_delete_ne; [done|]. apply NoDup_cons in Hnd as [Hnp _].
      intros Eq. apply Hnp. rewrite <- Eq. unfold q. apply list_elem_of_In, nth_In.
      destruct (decide (i < length ptrs)%nat); [done|]. unfold q in E0. by rewrite nth_overflow in E0 by lia. }
    destruct (array_split ptrs rest i Hi Hrest) as (x & y & r & Harr). rewrite Harr in Hpb.
    assert (Hti : length (take i ptrs) = i) by (apply length_take_le; lia).
    unfold store_word. krun. rewrite lookup_app_r, Hti, Nat.sub_diag by lia. simpl. krun.
    rewrite insert_app_r_alt, Hti, Nat.sub_diag by lia. simpl.
    rewrite lookup_app_r by lia. replace (S i - length (take i ptrs))%nat with 1%nat by lia. simpl. krun.
    erewrite run_unlock_env by first [klookup | kside]. kred.
    exists envs. eexists _, r. unfold ret. split; [reflexivity|]. kred. split_and!.
    + exact (Ham _ _ _).
    + intros [Hd Hq']%elem_of_difference. rewrite elem_of_singleton in Hq'.
      destruct (allocate_fresh (k_mallocs s) (live s2) (Z.of_nat (length name) + Z.of_nat (length value) + 2))
        as [E0|[_ Hf]]; [by apply Ham in E0|].
      apply Hf. unfold live. rewrite !elem_of_union. right. unfold s2, b0. kred. fold envs.
      destruct (q =? 0); [exact Hd|]. rewrite dom_delete_L. set_solver.
    + unfold s2, s1, env_locked. kred. rewrite insert_insert_eq. by apply unlocked.
    + done.
    + f_equal. unfold s2. kred. rewrite insert_insert_eq. f_equal. rewrite <- (insert_two _ r x y envs), Hti.
      f_equal. rewrite (insert_app_r_alt _ _ i), Hti, Nat.sub_diag by lia. done.
Qed.

(** The entries in front of the one that is written. *)
Lemma strings_frame h ptrs E i envs p (q : Z) a b (c : bool) :
  strings h ptrs E -> NoDup (p :: ptrs) -> q = nth i ptrs 0 -> envs ∉ dom h ∖ {[q]} ->
  strings (<[envs := a]> (<[p := b]> (if c then h else delete q h))) (take i ptrs) (take i E).
Proof.
  intros HE [Hp Hnd]%NoDup_cons -> Hf. apply Forall2_same_length_lookup. split.
  { rewrite !length_take. by rewrite (Forall2_length _ _ _ HE). }
  intros j x e Hx He. apply lookup_take_Some in Hx as [Hx Hj]. apply lookup_take_Some in He as [He _].
  destruct (Forall2_lookup_lr _ _ _ _ _ _ HE Hx He) as (H0 & Hs & Hg).
  assert (Hxq : x <> nth i ptrs 0).
  { intros ->. destruct (decide (i < length ptrs)%nat) as [Hlt|Hge].
    - destruct (lookup_lt_is_Some_2 ptrs i Hlt) as [y Hy]. rewrite (nth_lookup_Some _ _ 0 _ Hy) in Hx.
      pose proof (NoDup_lookup _ _ _ _ Hnd Hx Hy). lia.
    - by rewrite nth_overflow in H0 by lia. }
  assert (x <> envs) by (intros ->; apply Hf; apply elem_of_difference; split; [by apply elem_of_dom | set_solver]).
  assert (x <> p) by (intros ->; apply Hp; by eapply list_elem_of_lookup_2).
  split_and!; [done | | done]. rewrite !lookup_insert_ne by done.
  destruct c; [done|]. by rewrite lookup_delete_ne.
Qed.

(** [setenv] that writes an entry at position [i]. *)
Lemma setenv_writes s t ptrs rest E name value ow i :
  environ s t ptrs rest E -> good_name name -> ample -> rest <> [] -> (i <= length ptrs)%nat ->
  (forall s, strings (k_bufs s) ptrs E ->
     env_scan (ptrs ++ 0 :: rest) (name ++ [0]) 0 s = Ret (i, nth i ptrs 0) s) ->
  nth i ptrs 0 = 0 \/ ow <> 0 ->
  exists s' ptrs' rest', setenv (Some name) value ow s = Ret 0 s' /\
    environ s' t ptrs' rest' (take i E ++ [(name, value)]).
Proof.
  intros HE Hn Ham Hrest Hi Hscan Hq.
  destruct (setenv_run s t ptrs rest E name value ow i HE Hn Ham Hrest Hi Hscan) as [_ H].
  destruct (H Hq) as (envs & s' & rest' & H1 & He0 & Hf & Ht' & Hc' & Hb').
  exists s', (take i ptrs ++ [envs]), rest'. split; [exact H1|]. destruct HE as [Ht Hl Hp Ha HE Hnd].
  assert (Hpe : t_envp t <> envs).
  { intros E0. apply Hf. rewrite <- E0. apply elem_of_difference. split; [apply elem_of_dom; by eexists|].
    apply NoDup_cons in Hnd as [Hnp _]. rewrite elem_of_singleton. intros Eq. apply Hnp.
    rewrite Eq. apply list_elem_of_In, nth_In. destruct (decide (i < length ptrs)%nat); [done|].
    rewrite nth_overflow in Eq by lia. congruence. }
  split; rewrite ?Ht', ?Hc', ?Hb'; try done.
  - rewrite lookup_insert_ne, lookup_insert_eq by done. by rewrite <- app_assoc.
  - apply Forall2_app; [by eapply strings_frame|].
    constructor; [|constructor]. split_and!; [done | by rewrite lookup_insert_eq | done].
  - apply NoDup_cons in Hnd as [Hnp Hnd]. apply NoDup_cons. split.
    + intros [Hin|Hin]%elem_of_app; [|set_solver].
      apply list_elem_of_lookup in Hin as [j [Hj _]%lookup_take_Some]. apply Hnp. by eapply list_elem_of_lookup_2.
    + apply NoDup_app. split_and!; [by apply (NoDup_app (take i ptrs) (drop i ptrs)); rewrite take_drop | | apply NoDup_singleton].
      intros x Hx ->%list_elem_of_singleton.
      apply list_elem_of_lookup in Hx as [j Hx]. pose proof Hx as [Hx' Hj]%lookup_take_Some.
      pose proof (strings_frame (k_bufs s) ptrs E i envs (t_envp t) _ [] [] false HE ltac:(by apply NoDup_cons) eq_refl Hf) as HF.
      destruct (Forall2_lookup_l _ _ _ _ _ HF Hx) as (e & _ & _ & Hs & _). rewrite lookup_insert_eq in Hs.
      by destruct e as [[|? ?] ?].
Qed.

(** C39: [setenv] of a new name adds the variable at the end of the
    environment.  For a name that is set, it returns -1 and changes nothing
    unless [overwrite] is given; then it writes the new value in the place of
    the old one, and every variable behind it is lost. *)
Theorem setenv_effect s t ptrs rest E name value :
  environ s t ptrs rest E -> good_name name -> ample -> rest <> [] ->
  (name ∉ E.*1 -> forall overwrite, exists s' ptrs' rest',
     setenv (Some name) value overwrite s = Ret 0 s' /\ environ s' t ptrs' rest' (E ++ [(name, value)])) /\
  (forall E1 v E2, E = E1 ++ (name, v) :: E2 -> name ∉ E1.*1 ->
     setenv (Some name) value 0 s = Ret (-1) s /\
     forall overwrite, overwrite <> 0 -> exists s' ptrs' rest',
       setenv (Some name) value overwrite s = Ret 0 s' /\ environ s' t ptrs' rest' (E1 ++ [(name, value)])).
Proof.
  intros HE Hn Ham Hrest. pose proof (Forall2_length _ _ _ (en_strings _ _ _ _ _ HE)) as Hlen. split.
  - intros Hni ow.
    assert (Hfind : list_find (fun e => e.1 = name) E = None).
    { apply list_find_None, Forall_forall. intros e He Hx. apply Hni. apply list_elem_of_fmap. by exists e. }
    pose proof (setenv_writes s t ptrs rest E name value ow (length ptrs) HE Hn Ham Hrest) as H.
    rewrite nth_overflow, Hlen, firstn_all in H by lia. apply H; [lia | | by left].
    intros s1 HE1. rewrite (env_scan_spec s1 name ptrs rest E 0 Hn HE1), Hfind. by rewrite Hlen.
  - intros E1 v E2 -> Hni. rewrite length_app in Hlen. simpl in Hlen.
    assert (Hfind : list_find (fun e => e.1 = name) (E1 ++ (name, v) :: E2) = Some (length E1, (name, v))).
    { apply list_find_Some. split_and!; [by apply list_lookup_middle | done |].
      intros j y Hj Hlt. rewrite lookup_app_l in Hj by done. intros Hy. apply Hni. apply list_elem_of_fmap.
      exists y. split; [done|]. by eapply list_elem_of_lookup_2. }
    assert (Hscan : forall s, strings (k_bufs s) ptrs (E1 ++ (name, v) :: E2) ->
      env_scan (ptrs ++ 0 :: rest) (name ++ [0]) 0 s = Ret (length E1, nth (length E1) ptrs 0) s).
    { intros s1 HE1. by rewrite (env_scan_spec s1 name ptrs rest _ 0 Hn HE1), Hfind. }
    split.
    + destruct (setenv_run s t ptrs rest _ name value 0 (length E1) HE Hn Ham Hrest ltac:(lia) Hscan) as [H _].
      apply H; [|done]. destruct (lookup_lt_is_Some_2 ptrs (length E1)) as [q Hq]; [lia|].
      rewrite (nth_lookup_Some _ _ 0 _ Hq). by destruct (Forall2_lookup_l _ _ _ _ _ (en_strings _ _ _ _ _ HE) Hq) as (e & _ & ? & _).
    + intros ow How.
      pose proof (setenv_writes s t ptrs rest _ name value ow (length E1) HE Hn Ham Hrest ltac:(lia) Hscan (or_intror How)) as H.
      by rewrite take_app_length in H.
Qed.
End Setenv.

(** ** An example *)

Module EnvExample.
#[local] Existing Instance bump_allocator.

(** A=1 and B=2, with room for one more. *)
Definition the_task : task := no_task <| t_envp := 10 |>.
Definition st : kstate :=
  empty_kstate <| k_tasks := {[100 := the_task]} |> <| k_current_task := 100 |>
    <| k_bufs := list_to_map [(10, [11; 12; 0; 0]); (11, [65; 61; 49; 0]); (12, [66; 61; 50; 0])] |>.

Definition A : list Z := [65].
Definition B : list Z := [66].

Lemma good_letter c : c <> 0 -> c <> EQ -> good_name [c].
Proof. intros H1 H2. split; [done|]. by repeat constructor. Qed.

Lemma st_environ : environ st the_task [11; 12] [0] [(A, [49]); (B, [50])].
Proof.
  constructor; try done.
  - constructor; [|constructor; [|constructor]]; (split_and!; [done | done | by apply good_letter]).
  - repeat (constructor; [set_solver|]). constructor.
Qed.

(** Overwriting A loses B. *)
Example setenv_effect_witness :
  setenv (Some A) [51] 0 st = Ret (-1) st /\
  exists s' ptrs' rest', setenv (Some A) [51] 1 st = Ret 0 s' /\ environ s' the_task ptrs' rest' [(A, [51])].
Proof.
  destruct (setenv_effect st the_task [11; 12] [0] _ A [51] st_environ) as [_ H];
    [by apply good_letter | exact bump_ample | done |].
  destruct (H [] [49] [(B, [50])] eq_refl ltac:(set_solver)) as [H1 H2].
  split; [exact H1 | by apply (H2 1)].
Defined.

Example unsetenv_diverges_witness : unsetenv 1000 (Some A) st = NoFuel st.
Proof.
  destruct (unsetenv_diverges st the_task A eq_refl ltac:(by apply good_letter)) as [_ H].
  by apply (H _ _ _ st_environ).
Defined.
End EnvExample.
