(* ===== verification/Tasks.v ===== *)
(** * Tasks: the scheduler (scheduler.c)

    The choice of the next task, user and group identities, exit and wait.
    The theorems show that [schedule_prelocked] is a round-robin scheduler over
    the tasks that can run, and that every such task gets its turn. *)

From S2P Require Import Prelude Chain KState LinkedList Signals Vfs Io.

(** ** Task switches *)

(** The loop of [schedule_prelocked]; [x] counts the times the end of the list
    was seen. *)
Fixpoint pick_loop (fuel : nat) (x tmp : Z) : M kstate Z :=
  match fuel with
  | O => nofuel
  | S fuel =>
      s <- get;;
      if (tmp =? 0) && (0 <? x) then ret (k_idle_task s) else
      '(x, tmp) <- (if tmp =? 0 then tmp <- LINKED_LIST_MOVE_FIRST LTasks;; ret (x + 1, tmp)
                    else ret (x, tmp));;
      t <- load tmp;;
      (if negb (word_at (t_sig_pending t) 0 =? 0) && (t_status t =? TASK_STATE_WAITING)
       then upd_obj tmp (fun t => t <| t_status := TASK_STATE_RUNNING |>) else ret tt);;;
      cur <- current;;
      let tmp := if (tmp =? k_current_task s) && negb (t_status cur =? TASK_STATE_RUNNING)
                 then k_idle_task s else tmp in
      t <- load tmp;;
      if t_status t =? TASK_STATE_RUNNING then ret tmp
      else tmp <- LINKED_LIST_MOVE_NEXT LTasks;; pick_loop fuel x tmp
  end.

Definition pick_fuel (s : kstate) : nat := 2 * size (k_items s) + 3.

(** The first task to look at; NULL with the lock released if the idle task is
    alone. *)
Definition first_pick : M kstate (option Z) :=
  s <- get;;
  let l := k_tasks_list s in
  if k_current_task s =? k_idle_task s then
    if negb (l_count l =? 0) then tmp <- LINKED_LIST_MOVE_FIRST LTasks;; ret (Some tmp)
    else unlock_schedule;;; ret None
  else
    i <- load (l_current l);;
    if (i_next i =? 0) && (l_count l =? 0) then ret (Some (k_idle_task s))
    else tmp <- LINKED_LIST_MOVE_NEXT LTasks;; ret (Some tmp).

(** [arch_scheduler_load_task_state] and its variant for a task with signals:
    the task becomes the current one, and runs with the signals [sig]. *)
Definition load_task_state (tmp sig : Z) : M kstate (option (Z * Z)) :=
  modify (fun s => s <| k_current_task := tmp |>);;; ret (Some (tmp, sig)).

(** [schedule_prelocked].  [resumed] is what [arch_task_resumed] gives: the
    code runs a second time when the task that called it is resumed.  The
    result is the task that was switched to and its signals. *)
Definition schedule_prelocked (resumed : bool) : M kstate (option (Z * Z)) :=
  if resumed then unlock_schedule;;; ret None else
  o <- first_pick;;
  match o with
  | None => ret None
  | Some tmp =>
      s <- get;;
      tmp <- pick_loop (pick_fuel s) 0 tmp;;
      t <- load tmp;;
      let sig := word_at (t_sig_pending t) 0 in
      assert (negb (tmp =? k_idle_task s) || (sig =? 0)) "tmp != &idle_task || tmp->sig_pending[0] == 0";;;
      assert (negb (t_kernel_stack t =? 0) || (tmp =? k_idle_task s)) "kernel_stack != NULL || tmp == &idle_task";;;
      if sig =? 0 then load_task_state tmp 0 else load_task_state tmp sig
  end.

Definition gettaskcount : M kstate Z := gets (fun s => l_count (k_tasks_list s)).

Definition scheduler_getcwd : M kstate Z := t <- current;; ret (t_cwd t).

(** ** Identities *)

Definition getpid : M kstate Z := t <- current;; ret (t_pid t).
Definition gettid : M kstate Z := t <- current;; ret (t_id t).
Definition getuid : M kstate Z := t <- current;; ret (t_uid t).
Definition getgid : M kstate Z := t <- current;; ret (t_gid t).
Definition geteuid : M kstate Z := t <- current;; ret (t_euid t).
Definition getegid : M kstate Z := t <- current;; ret (t_egid t).

Definition setuid (uid : Z) : M kstate Z :=
  t <- current;;
  if t_euid t =? 0
  then upd_current (fun t => t <| t_uid := uid |>);;; upd_current (fun t => t <| t_euid := uid |>);;; ret 0
  else if uid =? t_uid t then upd_current (fun t => t <| t_euid := uid |>);;; ret 0
  else set_errno EPERM;;; ret (-1).

Definition setgid (gid : Z) : M kstate Z :=
  t <- current;;
  if t_euid t =? 0
  then upd_current (fun t => t <| t_gid := gid |>);;; upd_current (fun t => t <| t_egid := gid |>);;; ret 0
  else if t_gid t =? gid then upd_current (fun t => t <| t_egid := gid |>);;; ret 0
  else set_errno EPERM;;; ret (-1).

Definition seteuid (uid : Z) : M kstate Z :=
  t <- current;;
  if (t_uid t =? uid) || (t_uid t =? 0) then upd_current (fun t => t <| t_euid := uid |>);;; ret 0
  else set_errno EPERM;;; ret (-1).

Definition setegid (gid : Z) : M kstate Z :=
  t <- current;;
  if (t_gid t =? gid) || (t_uid t =? 0) then upd_current (fun t => t <| t_egid := gid |>);;; ret 0
  else set_errno EPERM;;; ret (-1).

(** ** The choice of the next task *)

(** The task can run: it does, or it waits and has a signal. *)
Definition runnable (h : gmap Z task) (t : Z) : bool :=
  match h !! t with
  | Some v => (t_status v =? TASK_STATE_RUNNING) ||
              ((t_status v =? TASK_STATE_WAITING) && negb (word_at (t_sig_pending v) 0 =? 0))
  | None => false
  end.

(** A task that is chosen is woken up. *)
Definition wake (t : Z) (h : gmap Z task) : gmap Z task :=
  alter (fun v => v <| t_status := TASK_STATE_RUNNING |>) t h.

Definition at_item (p : Z) (s : kstate) : kstate :=
  s <| k_tasks_list := (k_tasks_list s) <| l_current := p |> |>.

(** The state after the task at item [p] was picked. *)
Definition picked (p t : Z) (s : kstate) : kstate :=
  (at_item p s) <| k_tasks := wake t (k_tasks s) |>.

#[global] Arguments pick_loop : simpl never.

(** The lock of the scheduler in a sequential run. *)
Lemma lock_free s : k_schedule_lock s = 0 -> lock_schedule s = Ret tt (s <| k_schedule_lock := 1 |>).
Proof. intros H. unfold lock_schedule. rewrite run_get, H. done. Qed.
Lemma unlock_taken s : k_schedule_lock s = 1 -> unlock_schedule s = Ret tt (s <| k_schedule_lock := 0 |>).
Proof. intros H. unfold unlock_schedule. rewrite run_get, H. done. Qed.

Section Pick.
Context (s0 : kstate).
Notation h := (k_tasks s0).
Notation cur := (k_current_task s0).
Notation idle := (k_idle_task s0).
Context (idle_v cur_v : task).
Context (Hidle : h !! idle = Some idle_v) (Hidle_run : t_status idle_v = TASK_STATE_RUNNING)
  (Hcur : h !! cur = Some cur_v).

(** The loop runs with another position in the list, nothing else changed. *)
Notation s p := (at_item p s0).

Lemma value_at_items q us qs s1 : items (k_items s1) q qs us -> value_at q s1 = Ret (hd 0 us) s1.
Proof.
  destruct qs as [|q1 qs], us as [|u us]; simpl; try done; [by intros ->|].
  intros (-> & Hq & n & Hn & _). unfold value_at. rewrite (proj2 (Z.eqb_neq _ _) Hq). by krun.
Qed.

Lemma items_head hh q qs us : items hh q qs us -> q = hd 0 qs.
Proof. destruct qs, us; simpl; try done. by intros (-> & _). Qed.

Lemma items_suffix hh q qs1 us1 q' qs2 us2 :
  items hh q (qs1 ++ q' :: qs2) (us1 ++ us2) -> length qs1 = length us1 -> items hh q' (q' :: qs2) us2.
Proof.
  revert q us1. induction qs1 as [|q1 qs1 IH]; intros q [|u us1] Hi Hlen; try done; simpl in *.
  - destruct us2; [done|]. by destruct Hi as (-> & Hi).
  - destruct Hi as (-> & _ & n & _ & Hi). apply (IH n us1); [done | lia].
Qed.

(** One round that does not stop. *)
Lemma pick_skip1 fuel x q qs u us :
  items (k_items s0) q (q :: qs) (u :: us) -> is_Some (h !! u) -> u <> 0 -> runnable h u = false -> u <> cur ->
  pick_loop (S fuel) x u (s q) =
  pick_loop fuel x (hd 0 us) (s (hd 0 qs)).
Proof.
  intros (_ & Hq & n & Hn & Hi) [v Hv] Hu Hr Hc. unfold pick_loop; fold pick_loop. unfold runnable in Hr. rewrite Hv in Hr.
  apply orb_false_iff in Hr as [Hr1 Hr2]. rewrite run_get, (proj2 (Z.eqb_neq _ _) Hu). simpl. krun.
  rewrite (andb_comm (negb _)), Hr2. krun. rewrite (proj2 (Z.eqb_neq _ _) Hc). simpl. krun.
  rewrite Hr1. unfold LINKED_LIST_MOVE_NEXT. simpl. krun.
  match goal with |- bind (value_at _) _ ?s1 = _ =>
    rewrite (bind_Ret _ _ _ _ _ (value_at_items n us qs s1 Hi)) end.
  f_equal. unfold at_item. kstate. by rewrite (items_head _ _ _ _ Hi).
Qed.

Lemma pick_skip fuel x qs1 us1 : forall q qs2 us2,
  items (k_items s0) q (qs1 ++ qs2) (us1 ++ us2) -> length qs1 = length us1 ->
  Forall (fun u => is_Some (h !! u) /\ u <> 0 /\ runnable h u = false /\ u <> cur) us1 ->
  pick_loop (length us1 + fuel) x (hd 0 (us1 ++ us2)) (s q) = pick_loop fuel x (hd 0 us2) (s (hd 0 qs2)).
Proof.
  revert us1. induction qs1 as [|q1 qs1 IH]; intros [|u us1] q qs2 us2 Hi Hlen Hall; try done; simpl in *.
  - by rewrite <- (items_head _ _ _ _ Hi).
  - apply Forall_cons in Hall as [(H1 & H2 & H3 & H4) Hall]. pose proof Hi as Hi'.
    destruct Hi as (-> & Hq & n & Hn & Hi). rewrite (pick_skip1 _ _ _ (qs1 ++ qs2) _ (us1 ++ us2)) by done.
    rewrite <- (items_head _ _ _ _ Hi). by apply IH; [| lia |].
Qed.

(** The loop stops at a task that can run. *)
Lemma pick_stop fuel x q u :
  runnable h u = true -> u <> 0 -> u <> idle ->
  pick_loop (S fuel) x u (s q) = Ret u (picked q u s0).
Proof.
  intros Hr Hu Hi. unfold pick_loop; fold pick_loop. rewrite run_get, (proj2 (Z.eqb_neq _ _) Hu). simpl.
  unfold runnable in Hr. destruct (h !! u) as [v|] eqn:Hv; [|done]. krun.
  assert (Hw : wake u h = <[u := v <| t_status := TASK_STATE_RUNNING |>]> h) by by apply alter_alt_Some.
  unfold picked. rewrite Hw. destruct (t_status v =? TASK_STATE_RUNNING) eqn:E; simpl in Hr.
  - apply Z.eqb_eq in E.
    assert (Hv' : v <| t_status := TASK_STATE_RUNNING |> = v) by (rewrite <- E; by destruct v).
    rewrite E, andb_false_r. krun. replace ((u =? cur) && negb (t_status cur_v =? TASK_STATE_RUNNING)) with false.
    + krun. rewrite E. simpl. unfold ret. f_equal. unfold at_item. kstate. rewrite Hv'. by rewrite insert_id.
    + destruct (Z.eqb_spec u cur) as [->|]; [|done]. simplify_eq. by rewrite E.
  - rewrite andb_comm in Hr. rewrite Hr. krun. destruct (Z.eqb_spec u cur) as [->|Hne].
    + simplify_eq. erewrite (run_current (cur_v <| t_status := TASK_STATE_RUNNING |>)) by klookup. kred. krun.
      unfold ret. f_equal.
    + erewrite (run_current cur_v) by (kred; by rewrite lookup_insert_ne). simpl. krun. unfold ret. f_equal.
Qed.

(** The current task was reached and cannot run. *)
Lemma pick_current fuel x q :
  runnable h cur = false -> cur <> 0 -> pick_loop (S fuel) x cur (s q) = Ret idle (s q).
Proof.
  intros Hr Hu. unfold pick_loop; fold pick_loop. rewrite run_get, (proj2 (Z.eqb_neq _ _) Hu). simpl.
  unfold runnable in Hr. rewrite Hcur in Hr. apply orb_false_iff in Hr as [Hr1 Hr2]. krun.
  rewrite (andb_comm (negb _)), Hr2. krun. rewrite Z.eqb_refl, Hr1. simpl. krun. by rewrite Hidle_run.
Qed.

(** The end of the list, for the first and the second time. *)
Lemma pick_wrap fuel q qs us :
  items (k_items s0) (l_first (k_tasks_list s0)) qs us -> hd 0 us <> 0 ->
  pick_loop (S fuel) 0 0 (s q) = pick_loop (S fuel) 1 (hd 0 us) (s (hd 0 qs)).
Proof.
  intros Hi Hu. unfold pick_loop; fold pick_loop. rewrite !run_get, (proj2 (Z.eqb_neq _ _) Hu). simpl.
  unfold LINKED_LIST_MOVE_FIRST. simpl. krun.
  match goal with |- bind (value_at _) _ ?s1 = _ =>
    rewrite (bind_Ret _ _ _ _ _ (value_at_items _ us qs s1 Hi)) end. rewrite run_ret.
  rewrite (items_head _ _ _ _ Hi). reflexivity.
Qed.

Lemma pick_end fuel q : pick_loop (S fuel) 1 0 (s q) = Ret idle (s q).
Proof. done. Qed.

(** The tasks of the list. *)
Definition good_tasks (us : list Z) : Prop :=
  Forall (fun u => is_Some (h !! u) /\ u <> 0 /\ u <> idle) us.

Lemma not_runnable_all us : List.find (runnable h) us = None -> Forall (fun u => runnable h u = false) us.
Proof. intros H. apply Forall_forall. intros u Hu. by eapply find_none; [|apply list_elem_of_In]. Qed.

(** What the loop makes of the part [us] of the list. *)
Lemma pick_pass fuel x q qs us qs' us' :
  items (k_items s0) q (qs ++ qs') (us ++ us') -> length qs = length us ->
  good_tasks us -> cur ∉ us -> (length us < fuel)%nat ->
  match List.find (runnable h) us with
  | Some t => exists q' n, k_items s0 !! q' = Some (mkItem t n) /\ q' ∈ qs /\
                pick_loop fuel x (hd 0 (us ++ us')) (s q) = Ret t (picked q' t s0)
  | None => pick_loop fuel x (hd 0 (us ++ us')) (s q) =
            pick_loop (fuel - length us) x (hd 0 us') (s (hd 0 qs'))
  end.
Proof.
  intros Hi Hlen Hg Hc Hf. destruct (List.find (runnable h) us) as [t|] eqn:E.
  - destruct (find_split _ _ _ E) as (us1 & us2 & -> & Ht & Hus1).
    apply Forall_app in Hg as [Hg1 [(Hl & Ht0 & Hti) _]%Forall_cons]. rewrite length_app in Hlen. simpl in Hlen.
    destruct (lookup_lt_is_Some_2 qs (length us1)) as [q' Hq']; [lia|].
    assert (Hin : q' ∈ qs) by by eapply list_elem_of_lookup_2.
    rewrite <- (take_drop_middle qs _ q' Hq') in Hi. set (qs1 := take _ qs) in *. set (qs2 := drop _ qs) in *.
    assert (Hqs1 : length qs1 = length us1) by (apply length_take_le; lia).
    rewrite <- (app_assoc us1), <- (app_assoc qs1) in Hi. rewrite <- (app_assoc us1). simpl in Hi |- *.
    pose proof (items_suffix _ _ _ _ _ _ _ Hi Hqs1) as Hi2. destruct Hi2 as (_ & _ & n & Hn & _).
    exists q', n. split_and!; [done | done |]. rewrite length_app in Hf. simpl in Hf.
    replace fuel with (length us1 + S (fuel - length us1 - 1))%nat by lia.
    rewrite (pick_skip _ _ qs1 us1 q _ _ Hi Hqs1); [by apply pick_stop|].
    rewrite Forall_forall in Hg1. apply Forall_forall. intros u Hu. destruct (Hg1 u Hu) as (? & ? & ?).
    split_and!; [done | done | by apply Hus1 | set_solver].
  - apply not_runnable_all in E.
    replace fuel with (length us + (fuel - length us))%nat at 1 by lia.
    apply (pick_skip (fuel - length us) x qs us q qs' us'); [done | done |].
    unfold good_tasks in Hg. rewrite Forall_forall in Hg, E. apply Forall_forall. intros u Hu.
    destruct (Hg u Hu) as (? & ? & ?). split_and!; [done | done | by apply E | set_solver].
Qed.

(** The loop ended with task [t]. *)
Definition pick_result (ps : list Z) (t : Z) (s1 : kstate) : Prop :=
  (t = idle /\ exists p, s1 = at_item p s0) \/
  (t <> idle /\ exists q n, k_items s0 !! q = Some (mkItem t n) /\ q ∈ ps /\ s1 = picked q t s0).

Lemma pick_done t q n ps us p0 (o : outcome kstate Z) :
  items (k_items s0) p0 ps us -> t ∈ us -> good_tasks us ->
  k_items s0 !! q = Some (mkItem t n) -> q ∈ ps -> o = Ret t (picked q t s0) ->
  exists s1, o = Ret t s1 /\ pick_result ps t s1.
Proof.
  intros Hi Ht Hg Hq Hin ->. eexists. split; [done|]. right. unfold good_tasks in Hg. rewrite Forall_forall in Hg.
  split; [by apply Hg|]. by exists q, n.
Qed.

(** From the idle task: two passes over the list. *)
Lemma pick_from_idle fuel ps us :
  items (k_items s0) (l_first (k_tasks_list s0)) ps us -> good_tasks us -> us <> [] -> cur = idle ->
  (2 * length us + 2 < fuel)%nat ->
  exists s1, pick_loop fuel 0 (hd 0 us) (s (hd 0 ps)) = Ret (default idle (List.find (runnable h) us)) s1 /\
    pick_result ps (default idle (List.find (runnable h) us)) s1.
Proof.
  intros Hi Hg Hne Hci Hf. pose proof (items_length _ _ _ _ Hi) as Hlen.
  assert (Hc : cur ∉ us).
  { unfold good_tasks in Hg. rewrite Forall_forall in Hg. intros Hin. apply Hg in Hin as (_ & _ & H). done. }
  assert (Hh0 : hd 0 us <> 0) by (destruct us; [done|]; by apply Forall_cons in Hg as [(_ & ? & _) _]).
  assert (Hpass : forall f x, (length us < f)%nat ->
    match List.find (runnable h) us with
    | Some t => exists q' n, k_items s0 !! q' = Some (mkItem t n) /\ q' ∈ ps /\
                  pick_loop f x (hd 0 us) (s (hd 0 ps)) = Ret t (picked q' t s0)
    | None => pick_loop f x (hd 0 us) (s (hd 0 ps)) = pick_loop (f - length us) x 0 (s 0)
    end).
  { intros f x Hf'. pose proof (pick_pass f x (hd 0 ps) ps us [] []) as H. rewrite !app_nil_r in H.
    apply H; try done. by rewrite <- (items_head _ _ _ _ Hi). }
  pose proof (Hpass fuel 0 ltac:(lia)) as H1. destruct (List.find (runnable h) us) as [t|] eqn:E.
  - destruct H1 as (q' & n & Hq & Hin & H1). eapply pick_done; try done.
    apply find_some in E as [E _]. by apply list_elem_of_In.
  - rewrite H1. destruct (fuel - length us)%nat as [|f] eqn:Ef; [lia|].
    rewrite (pick_wrap f 0 ps us Hi Hh0), (Hpass (S f) 1) by lia.
    destruct (S f - length us)%nat as [|f'] eqn:Ef'; [lia|]. rewrite pick_end.
    eexists. split; [done|]. left. split; [done|]. by eexists.
Qed.

(** From a task in the list: the tasks behind it, then those up to it. *)
Lemma pick_from_task fuel ps1 p ps2 us1 us2 :
  let us := us1 ++ cur :: us2 in
  items (k_items s0) (l_first (k_tasks_list s0)) (ps1 ++ p :: ps2) us -> length ps1 = length us1 ->
  good_tasks us -> NoDup us -> (2 * length us + 2 < fuel)%nat ->
  let t := default idle (List.find (runnable h) (us2 ++ us1 ++ [cur])) in
  exists s1, pick_loop fuel 0 (hd 0 us2) (s (hd 0 ps2)) = Ret t s1 /\ pick_result (ps1 ++ p :: ps2) t s1.
Proof.
  intros us Hi Hlen Hg Hnd Hf t. pose proof (items_length _ _ _ _ Hi) as Hl. unfold us in *.
  rewrite (length_app us1) in Hl, Hf. rewrite length_app in Hl. simpl in Hl, Hf.
  pose proof Hg as Hg'. apply Forall_app in Hg' as [Hg1 [(Hcl & Hc0 & Hci) Hg2]%Forall_cons].
  apply NoDup_app in Hnd as (_ & Hnd12 & [Hnd2 _]%NoDup_cons).
  assert (Hi2 : items (k_items s0) (hd 0 ps2) (ps2 ++ []) (us2 ++ [])).
  { rewrite !app_nil_r. destruct (items_suffix _ _ _ _ _ _ _ Hi Hlen) as (_ & _ & n & _ & Hi2).
    by rewrite <- (items_head _ _ _ _ Hi2). }
  assert (Hl2 : length ps2 = length us2) by lia. assert (Hf2 : (length us2 < fuel)%nat) by lia.
  pose proof (pick_pass fuel 0 _ ps2 us2 [] [] Hi2 Hl2 Hg2 Hnd2 Hf2) as H1.
  rewrite app_nil_r in H1. unfold t. rewrite find_app.
  destruct (List.find (runnable h) us2) as [t2|] eqn:E2.
  - destruct H1 as (q & n & Hq & Hin & H1). eapply (pick_done t2 q n); [exact Hi | | done | done | set_solver | done].
    apply find_some in E2 as [E2 _]. apply list_elem_of_In in E2. set_solver.
  - rewrite H1. simpl. destruct (fuel - length us2)%nat as [|f] eqn:Ef; [lia|].
    rewrite (pick_wrap f 0 _ _ Hi) by (destruct us1; [done|]; by apply Forall_cons in Hg1 as [(_ & ? & _) _]).
    pose proof (pick_pass (S f) 1 _ ps1 us1 (p :: ps2) (cur :: us2) Hi Hlen Hg1 ltac:(set_solver) ltac:(lia)) as H3.
    rewrite (items_head _ _ _ _ Hi) in H3. rewrite find_app.
    destruct (List.find (runnable h) us1) as [t1|] eqn:E1.
    + destruct H3 as (q & n & Hq & Hin & H3). eapply (pick_done t1 q n); [exact Hi | | done | done | set_solver | done].
      apply find_some in E1 as [E1 _]. apply list_elem_of_In in E1. set_solver.
    + rewrite H3. simpl. destruct (S f - length us1)%nat as [|f'] eqn:Ef'; [lia|].
      destruct (runnable h cur) eqn:Er.
      * destruct (items_suffix _ _ _ _ _ _ _ Hi Hlen) as (_ & _ & n & Hp & _).
        eapply (pick_done cur p n); [exact Hi | set_solver | done | done | set_solver |]. by apply pick_stop.
      * rewrite pick_current by done. eexists. split; [done|]. left. split; [done|]. by eexists.
Qed.
End Pick.

(** ** Round robin *)

(** The tasks in the order in which they are considered: those behind the
    current one, then those up to it. *)
Fixpoint around (cur : Z) (ts : list Z) : option (list Z * list Z) :=
  match ts with
  | [] => None
  | t :: ts => if t =? cur then Some ([], ts)
               else match around cur ts with Some (a, b) => Some (t :: a, b) | None => None end
  end.

Definition rotation (cur : Z) (ts : list Z) : list Z :=
  match around cur ts with Some (a, b) => b ++ a ++ [cur] | None => ts end.

Lemma around_Some cur a b : cur ∉ a -> around cur (a ++ cur :: b) = Some (a, b).
Proof.
  induction a as [|t a IH]; simpl; [by rewrite Z.eqb_refl|]. intros Hc.
  rewrite (proj2 (Z.eqb_neq t cur)) by set_solver. rewrite IH by set_solver. done.
Qed.

Lemma around_None cur ts : cur ∉ ts -> around cur ts = None.
Proof.
  induction ts as [|t ts IH]; simpl; [done|]. intros Hc.
  rewrite (proj2 (Z.eqb_neq t cur)) by set_solver. by rewrite IH by set_solver.
Qed.

Lemma rotation_split cur a b : cur ∉ a -> rotation cur (a ++ cur :: b) = b ++ a ++ [cur].
Proof. intros H. unfold rotation. by rewrite around_Some. Qed.

Lemma rotation_length cur ts : NoDup ts -> length (rotation cur ts) = length ts.
Proof.
  intros Hnd. destruct (decide (cur ∈ ts)) as [(x & y & ->)%list_elem_of_split|Hc].
  - apply NoDup_app in Hnd as (_ & Hxy & _). rewrite rotation_split by set_solver. rewrite !length_app. simpl. lia.
  - unfold rotation. by rewrite around_None.
Qed.

Lemma elem_of_rotation cur ts t : NoDup ts -> t ∈ rotation cur ts <-> t ∈ ts.
Proof.
  intros Hnd. destruct (decide (cur ∈ ts)) as [(a & b & ->)%list_elem_of_split|Hc].
  - apply NoDup_app in Hnd as (_ & Hab & _). rewrite rotation_split by set_solver. set_solver.
  - unfold rotation. by rewrite around_None.
Qed.

(** From the task that was reached, the order goes on where it was. *)
Lemma rotation_step cur ts a x b :
  NoDup ts -> rotation cur ts = a ++ x :: b -> rotation x ts = b ++ a ++ [x].
Proof.
  intros Hnd. destruct (decide (cur ∈ ts)) as [(a0 & b0 & ->)%list_elem_of_split|Hc].
  2:{ unfold rotation at 1. rewrite around_None by done. intros ->. apply rotation_split.
      apply NoDup_app in Hnd as (_ & Hab & _). intros Hx. apply (Hab x Hx). set_solver. }
  pose proof Hnd as Hnd'. apply NoDup_app in Hnd' as (Hna & Hab & [Hcb Hnb]%NoDup_cons).
  rewrite rotation_split by set_solver. intros E.
  assert (Hnr : NoDup (a ++ x :: b)).
  { rewrite <- E. apply NoDup_app. split_and!; [done | set_solver |]. apply NoDup_app.
    split_and!; [done | set_solver | apply NoDup_singleton]. }
  assert (Hx : x ∈ b0 \/ x ∈ a0 \/ x = cur) by (assert (x ∈ a ++ x :: b) as H by set_solver; rewrite <- E in H; set_solver).
  assert (Huniq : forall a' b', a' ++ x :: b' = a ++ x :: b -> a' = a /\ b' = b).
  { intros a' b' E'. assert (Hxa : x ∉ a) by (apply NoDup_app in Hnr as (_ & H & _); set_solver).
    assert (Hxa' : x ∉ a') by (rewrite <- E' in Hnr; apply NoDup_app in Hnr as (_ & H & _); set_solver).
    pose proof (around_Some x a b Hxa) as H1. pose proof (around_Some x a' b' Hxa') as H2.
    rewrite E' in H2. rewrite H1 in H2. by injection H2. }
  destruct Hx as [(b1 & b2 & ->)%list_elem_of_split | [(a1 & a2 & ->)%list_elem_of_split | ->]].
  - destruct (Huniq b1 (b2 ++ a0 ++ [cur])) as [<- <-]; [by rewrite <- E, <- !app_assoc|].
    replace (a0 ++ cur :: b1 ++ x :: b2) with ((a0 ++ cur :: b1) ++ x :: b2) by by rewrite <- app_assoc.
    rewrite rotation_split; [by rewrite <- !app_assoc|].
    apply NoDup_app in Hnb as (_ & Hn1 & _). set_solver.
  - destruct (Huniq (b0 ++ a1) (a2 ++ [cur])) as [<- <-]; [by rewrite <- E, <- !app_assoc|].
    rewrite <- app_assoc. simpl. rewrite rotation_split; [by rewrite <- !app_assoc|].
    apply NoDup_app in Hna as (_ & Hn1 & _). set_solver.
  - destruct (Huniq (b0 ++ a0) []) as [<- <-]; [by rewrite <- E, <- app_assoc|].
    rewrite rotation_split by set_solver. by rewrite <- app_assoc.
Qed.

(** The state of the scheduler: the items [ps] of the task list hold the tasks
    [ts], and the list's position is at the current task, unless that is the
    idle task. *)
Record scheduling (s : kstate) (ps ts : list Z) : Prop := {
  sc_idle : exists v, k_tasks s !! k_idle_task s = Some v /\ t_status v = TASK_STATE_RUNNING /\
              word_at (t_sig_pending v) 0 = 0;
  sc_items : items (k_items s) (l_first (k_tasks_list s)) ps ts;
  sc_tasks : Forall (fun t => t <> 0 /\ t <> k_idle_task s /\
               exists v, k_tasks s !! t = Some v /\ t_kernel_stack v <> 0) ts;
  sc_nodup : NoDup ts;
  sc_count : l_count (k_tasks_list s) <> 0 /\ ts <> [];
  sc_pos : k_current_task s = k_idle_task s \/
           exists i, ts !! i = Some (k_current_task s) /\ ps !! i = Some (l_current (k_tasks_list s))
}.

Lemma items_lookup hh p ps ts i q : items hh p ps ts -> ps !! i = Some q ->
  exists t n, ts !! i = Some t /\ hh !! q = Some (mkItem t n).
Proof.
  revert p ts i. induction ps as [|q1 ps IH]; intros p [|t ts] [|i]; simpl; try done.
  - intros (-> & _ & n & Hn & _) [= ->]. eauto.
  - intros (_ & _ & n & _ & Hi) Hq. by eapply IH.
Qed.

Lemma wake_lookup t h u v : h !! u = Some v -> exists v', wake t h !! u = Some v' /\
  t_kernel_stack v' = t_kernel_stack v /\ t_sig_pending v' = t_sig_pending v.
Proof. intros Hu. unfold wake. rewrite lookup_alter. case_decide; subst; rewrite Hu; by eexists. Qed.

(** To wake a task that can run does not change what can run. *)
Lemma runnable_wake t h u : runnable h t = true -> runnable (wake t h) u = runnable h u.
Proof.
  unfold runnable, wake. rewrite lookup_alter. case_decide as E; subst; [|done].
  destruct (h !! u) as [v|]; [|done]. by intros ->.
Qed.

Lemma wake_running t h v : h !! t = Some v -> t_status v = TASK_STATE_RUNNING -> wake t h = h.
Proof.
  intros Ht Hs. unfold wake. rewrite (alter_alt_Some _ _ _ v Ht). apply insert_id. rewrite Ht.
  f_equal. rewrite <- Hs. by destruct v.
Qed.

Section Switch.
Context (s : kstate) (ps ts : list Z) (Hs : scheduling s ps ts).

Lemma scheduling_good : good_tasks s ts.
Proof.
  eapply Forall_impl; [exact (sc_tasks _ _ _ Hs)|]. simpl. intros t (? & ? & v & Hv & _). split_and!; try done; by eexists.
Qed.

Lemma scheduling_fuel : (2 * length ts + 2 < pick_fuel s)%nat.
Proof.
  destruct Hs as [_ Hi _ _ _ _]. pose proof (chain_size _ _ _ (items_chain _ _ _ _ Hi)).
  rewrite (items_length _ _ _ _ Hi) in *. unfold pick_fuel. lia.
Qed.

(** The task the scheduler should choose. *)
Definition next_task : Z :=
  default (k_idle_task s) (List.find (runnable (k_tasks s)) (rotation (k_current_task s) ts)).

(** The search, from where [first_pick] starts it. *)
Lemma pick_all : exists tmp s1, first_pick s = Ret (Some tmp) (at_item s1 s) /\
  exists s2, pick_loop (pick_fuel s) 0 tmp (at_item s1 s) = Ret next_task s2 /\ pick_result s ps next_task s2.
Proof.
  pose proof scheduling_good as Hg. pose proof scheduling_fuel as Hf.
  destruct Hs as [(vi & Hvi & Hri & Hpi) Hi Ht Hnd [Hc Hne] Hpos]. unfold first_pick. rewrite run_get.
  destruct Hpos as [Hcur | (i & Hti & Hpi')].
  - rewrite Hcur, Z.eqb_refl, (proj2 (Z.eqb_neq _ _) Hc). simpl. unfold LINKED_LIST_MOVE_FIRST. simpl. krun.
    exists (hd 0 ts), (hd 0 ps). split.
    + match goal with |- bind (value_at _) _ ?s1 = _ =>
        rewrite (bind_Ret _ _ _ _ _ (value_at_items _ ts ps s1 Hi)) end.
      unfold ret. f_equal. unfold at_item. by rewrite <- (items_head _ _ _ _ Hi).
    + unfold next_task. rewrite Hcur. unfold rotation. rewrite around_None.
      2:{ intros Hin. unfold good_tasks in Hg. rewrite Forall_forall in Hg. by apply Hg in Hin as (_ & _ & ?). }
      apply (pick_from_idle s vi vi Hvi Hri); try done. by rewrite Hcur.
  - pose proof (items_length _ _ _ _ Hi) as Hlen. pose proof (lookup_lt_Some _ _ _ Hti) as Hlt.
    rewrite <- (take_drop_middle ts i _ Hti) in Hi, Hg, Hnd, Hf. rewrite <- (take_drop_middle ps i _ Hpi') in Hi.
    set (ts1 := take i ts) in *. set (ts2 := drop (S i) ts) in *.
    assert (Hl1 : length (take i ps) = length ts1) by (unfold ts1; rewrite !length_take_le; lia).
    destruct (items_suffix _ _ _ _ _ _ _ Hi Hl1) as (_ & Hp0 & n & Hn & Hi2).
    pose proof Hg as Hg'. apply Forall_app in Hg' as [_ [([cv Hcv] & _ & Hci) _]%Forall_cons].
    rewrite (proj2 (Z.eqb_neq _ _) Hci). krun. rewrite (proj2 (Z.eqb_neq (l_count _) _) Hc), andb_false_r.
    unfold LINKED_LIST_MOVE_NEXT. simpl. krun. exists (hd 0 ts2), (hd 0 (drop (S i) ps)). split.
    + match goal with |- bind (value_at _) _ ?s1 = _ =>
        rewrite (bind_Ret _ _ _ _ _ (value_at_items _ ts2 _ s1 Hi2)) end.
      unfold ret. f_equal. unfold at_item. by rewrite <- (items_head _ _ _ _ Hi2).
    + pose proof (pick_from_task s vi cv Hvi Hri Hcv (pick_fuel s) _ _ _ ts1 ts2 Hi Hl1 Hg Hnd Hf) as H.
      unfold next_task. rewrite <- (take_drop_middle ts i _ Hti). fold ts1 ts2.
      rewrite (take_drop_middle ps i _ Hpi') in H. rewrite rotation_split; [exact H|].
      apply NoDup_app in Hnd as (_ & Hnd & _). set_solver.
Qed.

Lemma next_task_cases : next_task = k_idle_task s \/ (next_task ∈ ts /\ runnable (k_tasks s) next_task = true).
Proof.
  unfold next_task. destruct (List.find _ _) as [t|] eqn:E; [|by left]. apply find_some in E as [E1 E2].
  right. split; [|done]. apply list_elem_of_In, elem_of_rotation in E1; [done | by destruct Hs].
Qed.

Lemma schedule_switches :
  exists v s', k_tasks s !! next_task = Some v /\
    schedule_prelocked false s = Ret (Some (next_task, word_at (t_sig_pending v) 0)) s' /\
    k_current_task s' = next_task /\ k_tasks s' = wake next_task (k_tasks s) /\
    k_idle_task s' = k_idle_task s /\ k_schedule_lock s' = k_schedule_lock s /\ scheduling s' ps ts.
Proof.
  destruct pick_all as (tmp & p1 & H1 & s2 & H2 & H3). unfold schedule_prelocked.
  rewrite (bind_Ret _ _ _ _ _ H1). rewrite run_get.
  change (pick_fuel (at_item p1 s)) with (pick_fuel s). rewrite (bind_Ret _ _ _ _ _ H2).
  pose proof Hs as [(vi & Hvi & Hri & Hpi) Hi Ht Hnd Hcnt _].
  assert (Hsch : forall s', k_tasks s' = wake next_task (k_tasks s) -> k_idle_task s' = k_idle_task s ->
    k_items s' = k_items s -> l_first (k_tasks_list s') = l_first (k_tasks_list s) ->
    l_count (k_tasks_list s') = l_count (k_tasks_list s) ->
    (k_current_task s' = k_idle_task s \/ exists i, ts !! i = Some (k_current_task s') /\
      ps !! i = Some (l_current (k_tasks_list s'))) -> scheduling s' ps ts).
  { intros s' E1 E2 E3 E4 E5 Hp. split; rewrite ?E1, ?E2, ?E3, ?E4, ?E5; try done.
    - destruct next_task_cases as [->|[Hin _]].
      + exists vi. by rewrite (wake_running _ _ vi).
      + exists vi. unfold wake. rewrite lookup_alter_ne; [done|]. rewrite Forall_forall in Ht. by apply Ht.
    - eapply Forall_impl; [exact Ht|]. simpl. intros t (? & ? & v & Hv & Hk). split_and!; try done.
      destruct (wake_lookup next_task _ _ _ Hv) as (v' & ? & ? & _). exists v'. by split; [|congruence]. }
  destruct H3 as [(Hidle & p & ->) | (Hni & q & n & Hq & Hin & ->)].
  - rewrite Hidle in *. exists vi. eexists. split; [done|]. unfold load_task_state. krun. rewrite Hpi. simpl.
    unfold ret. split; [done|]. unfold at_item. kred.
    rewrite (wake_running _ _ vi) by done. split_and!; try done.
    apply Hsch; kred; try done; [by rewrite (wake_running _ _ vi) | by left].
  - destruct next_task_cases as [?|[Hnin Hrun]]; [done|]. rewrite Forall_forall in Ht.
    destruct (Ht _ Hnin) as (Hn0 & _ & v & Hv & Hk). destruct (wake_lookup next_task _ _ _ Hv) as (v' & Hv' & Hk' & Hp').
    exists v. eexists. split; [done|]. unfold picked, load_task_state. krun.
    rewrite Hp'.
    assert (Hpos : exists i, ts !! i = Some next_task /\ ps !! i = Some q).
    { apply list_elem_of_lookup in Hin as [i Hi']. exists i. split; [|done].
      destruct (items_lookup _ _ _ _ _ _ Hi Hi') as (t & m & Ht' & Hq'). congruence. }
    destruct (word_at (t_sig_pending v) 0 =? 0) eqn:E; krun; unfold ret; (split;
      [by rewrite ?(proj1 (Z.eqb_eq _ _) E)|]); split_and!; try done; (apply Hsch; kred; try done; by right).
Qed.
End Switch.

(** C11: [schedule_prelocked] is round robin: it switches to the first task
    behind the current one in the task list, going around, that is running or
    waits and has a pending signal, and to the idle task if there is none;
    such a waiting task is woken up, no other task changes, and the list's
    position follows the current task. *)
Theorem schedule_round_robin s ps ts :
  scheduling s ps ts ->
  let t := default (k_idle_task s) (List.find (runnable (k_tasks s)) (rotation (k_current_task s) ts)) in
  exists v s', k_tasks s !! t = Some v /\
    schedule_prelocked false s = Ret (Some (t, word_at (t_sig_pending v) 0)) s' /\
    k_current_task s' = t /\ k_tasks s' = wake t (k_tasks s) /\ scheduling s' ps ts.
Proof.
  intros Hs t. destruct (schedule_switches s ps ts Hs) as (v & s' & H1 & H2 & H3 & H4 & _ & _ & H5).
  by exists v, s'.
Qed.

#[global] Arguments schedule_prelocked : simpl never.

(** One time slice: the switch, with the lock that [schedule] takes, and its
    second half in the task that was switched to, which releases the lock. *)
Definition next_slice : M kstate Z :=
  lock_schedule;;; schedule_prelocked false;;; schedule_prelocked true;;; s <- get;; ret (k_current_task s).

Fixpoint slices (n : nat) : M kstate (list Z) :=
  match n with
  | O => ret []
  | S n => t <- next_slice;; l <- slices n;; ret (t :: l)
  end.

Lemma next_slice_ok s ps ts :
  scheduling s ps ts -> k_schedule_lock s = 0 ->
  exists s', next_slice s = Ret (next_task s ts) s' /\ k_schedule_lock s' = 0 /\
    k_current_task s' = next_task s ts /\ scheduling s' ps ts /\ k_idle_task s' = k_idle_task s /\
    (forall t, t <> k_idle_task s -> runnable (k_tasks s') t = runnable (k_tasks s) t).
Proof.
  intros Hs Hl. set (s1 := s <| k_schedule_lock := 1 |>).
  assert (Hs1 : scheduling s1 ps ts) by by destruct Hs.
  destruct (schedule_switches s1 ps ts Hs1) as (v & s' & H1 & H2 & H3 & H4 & H5 & H6 & H7).
  change (next_task s1 ts) with (next_task s ts) in *.
  exists (s' <| k_schedule_lock := 0 |>). unfold next_slice, lock_schedule.
  rewrite run_assoc, run_get, Hl. change (mutex_wait_word 0) with (ret 1 : M kstate Z). krun. fold s1. rewrite (bind_Ret _ _ _ _ _ H2).
  unfold schedule_prelocked, unlock_schedule. krun. rewrite H6. kred.
  change (mutex_release_word 1) with (ret 0 : M kstate Z). krun.
  split_and!; [by rewrite H3 | done | done | by destruct H7 | done |].
  intros t Ht. rewrite H4. destruct (next_task_cases s ps ts Hs) as [E|[_ Hr]].
  - rewrite E. unfold runnable, wake. by rewrite lookup_alter_ne.
  - by apply (runnable_wake (next_task s ts)).
Qed.

Lemma find_before {A} (f : A -> bool) a t b : f t = true ->
  (List.find f (a ++ t :: b) = Some t /\ List.find f a = None) \/
  exists a1 x a2, a = a1 ++ x :: a2 /\ List.find f (a ++ t :: b) = Some x.
Proof.
  intros Ht. rewrite find_app. simpl. rewrite Ht. destruct (List.find f a) as [x|] eqn:E; [|by left].
  right. destruct (find_split _ _ _ E) as (a1 & a2 & -> & _). by exists a1, x, a2.
Qed.

Lemma slices_reach n : forall s ps ts t a b,
  scheduling s ps ts -> k_schedule_lock s = 0 -> t ∈ ts -> runnable (k_tasks s) t = true ->
  rotation (k_current_task s) ts = a ++ t :: b -> (length a < n)%nat ->
  exists l s', slices n s = Ret l s' /\ t ∈ l.
Proof.
  induction n as [|n IH]; intros s ps ts t a b Hs Hl Ht Hr Hrot Hn; [lia|]. simpl.
  destruct (next_slice_ok s ps ts Hs Hl) as (s1 & H1 & Hl1 & Hc1 & Hs1 & Hi1 & Hr1).
  rewrite (bind_Ret _ _ _ _ _ H1).
  assert (Hti : t <> k_idle_task s).
  { destruct Hs as [_ _ Hts _ _ _]. rewrite Forall_forall in Hts. by apply Hts. }
  assert (Hall : forall m s, scheduling s ps ts -> k_schedule_lock s = 0 -> exists l s', slices m s = Ret l s').
  { clear. induction m as [|m IHm]; intros s Hs Hl; [by eexists _, _|]. simpl.
    destruct (next_slice_ok s ps ts Hs Hl) as (s1 & H1 & Hl1 & _ & Hs1 & _). rewrite (bind_Ret _ _ _ _ _ H1).
    destruct (IHm s1 Hs1 Hl1) as (l & s' & H2). rewrite (bind_Ret _ _ _ _ _ H2). by eexists _, _. }
  destruct (find_before (runnable (k_tasks s)) a t b Hr) as [[E _] | (a1 & x & a2 & -> & E)].
  - destruct (Hall n s1 Hs1 Hl1) as (l & s' & H2). rewrite (bind_Ret _ _ _ _ _ H2). eexists _, _.
    split; [done|]. unfold next_task. rewrite Hrot, E. simpl. set_solver.
  - assert (Hx : next_task s ts = x) by (unfold next_task; by rewrite Hrot, E).
    rewrite <- app_assoc in Hrot. simpl in Hrot.
    pose proof (rotation_step _ _ _ _ _ (sc_nodup _ _ _ Hs) Hrot) as Hrot1.
    destruct (IH s1 ps ts t a2 (b ++ a1 ++ [x])) as (l & s' & H2 & Hin); try done.
    + by rewrite Hr1.
    + rewrite Hc1, Hx, Hrot1, <- app_assoc. done.
    + rewrite length_app in Hn. simpl in Hn. lia.
    + rewrite (bind_Ret _ _ _ _ _ H2). eexists _, _. split; [done|]. set_solver.
Qed.

(** C35: No task that can run is passed over: within as many time slices as
    there are tasks in the list, each of them has been switched to. *)
Theorem schedule_fair s ps ts t :
  scheduling s ps ts -> k_schedule_lock s = 0 -> t ∈ ts -> runnable (k_tasks s) t = true ->
  exists l s', slices (length ts) s = Ret l s' /\ t ∈ l.
Proof.
  intros Hs Hl Ht Hr. pose proof (sc_nodup _ _ _ Hs) as Hnd.
  pose proof (proj2 (elem_of_rotation (k_current_task s) ts t Hnd) Ht) as Hin.
  apply list_elem_of_split in Hin as (a & b & Hrot).
  eapply slices_reach; try done.
  pose proof (rotation_length (k_current_task s) ts Hnd) as Hlen. rewrite Hrot, length_app in Hlen. simpl in Hlen. lia.
Qed.

(** ** Identities *)

Inductive id_call := Setuid (u : Z) | Setgid (g : Z) | Seteuid (u : Z) | Setegid (g : Z).

Definition run_id_call (c : id_call) : M kstate Z :=
  match c with
  | Setuid u => setuid u
  | Setgid g => setgid g
  | Seteuid u => seteuid u
  | Setegid g => setegid g
  end.

Fixpoint run_id_calls (l : list id_call) : M kstate unit :=
  match l with [] => ret tt | c :: l => run_id_call c;;; run_id_calls l end.

(** C16: A task whose real and effective users are not the superuser cannot
    change that by calling [setuid], [setgid], [seteuid] and [setegid] in any
    order: the real identities stay as they are, and the effective ones are
    always the real ones or those the task started with. *)
Theorem identities_confined l : forall s t,
  k_tasks s !! k_current_task s = Some t -> t_uid t <> 0 -> t_euid t <> 0 ->
  exists s' t', run_id_calls l s = Ret tt s' /\ k_current_task s' = k_current_task s /\
    k_tasks s' !! k_current_task s = Some t' /\ t_uid t' = t_uid t /\ t_gid t' = t_gid t /\
    (t_euid t' = t_uid t \/ t_euid t' = t_euid t) /\ (t_egid t' = t_gid t \/ t_egid t' = t_egid t).
Proof.
  induction l as [|c l IH]; intros s t Ht Hu He; [exists s, t; split_and!; auto|].
  assert (Hstep : exists r s1 t1, run_id_call c s = Ret r s1 /\ k_current_task s1 = k_current_task s /\
    k_tasks s1 !! k_current_task s = Some t1 /\ t_uid t1 = t_uid t /\ t_gid t1 = t_gid t /\
    (t_euid t1 = t_uid t \/ t_euid t1 = t_euid t) /\ (t_egid t1 = t_gid t \/ t_egid t1 = t_egid t)).
  { destruct c as [u|g|u|g]; simpl; unfold setuid, setgid, seteuid, setegid, upd_current; krun;
      rewrite ?(proj2 (Z.eqb_neq _ _) He), ?(proj2 (Z.eqb_neq _ _) Hu), ?orb_false_r;
      case_match eqn:E; try (apply Z.eqb_eq in E; subst); krun; eexists _, _, _; (split; [done|]); kred;
      rewrite lookup_insert_eq; split_and!; try done; auto. }
  destruct Hstep as (r & s1 & t1 & H1 & Hc1 & Ht1 & Hu1 & Hg1 & He1 & Heg1). simpl.
  rewrite (bind_Ret _ _ _ _ _ H1).
  destruct (IH s1 t1) as (s' & t' & H2 & Hc2 & Ht2 & Hu2 & Hg2 & He2 & Heg2); [congruence | congruence | |].
  { destruct He1 as [->| ->]; done. }
  exists s', t'. rewrite Hc1 in *. split_and!; try congruence.
  - destruct He2 as [-> | ->]; [left; congruence | done].
  - destruct Heg2 as [-> | ->]; [left; congruence | done].
Qed.

(** ** An example *)

Module TaskExample.
Definition a_task (id status pending : Z) : task :=
  no_task <| t_id := id |> <| t_status := status |> <| t_sig_pending := [pending; 0; 0; 0] |>
    <| t_kernel_stack := 0x1000 |> <| t_uid := 5 |> <| t_euid := 5 |>.

(** The current task 100, a stopped one, a waiting one with a signal, and one
    that runs. *)
Definition st : kstate :=
  empty_kstate
    <| k_items := list_to_map [(1, mkItem 100 2); (2, mkItem 200 3); (3, mkItem 300 4); (4, mkItem 400 0)] |>
    <| k_tasks := list_to_map [(50, no_task); (100, a_task 1 TASK_STATE_RUNNING 0);
         (200, a_task 2 TASK_STATE_STOPPED 1); (300, a_task 3 TASK_STATE_WAITING 2);
         (400, a_task 4 TASK_STATE_RUNNING 0)] |>
    <| k_tasks_list := mkList 1 4 1 0 4 |> <| k_current_task := 100 |> <| k_idle_task := 50 |>.

Lemma st_scheduling : scheduling st [1; 2; 3; 4] [100; 200; 300; 400].
Proof.
  split.
  - by eexists.
  - simpl. repeat (split_and!; [done | done |]; eexists; (split; [reflexivity|])). done.
  - repeat (constructor; [split_and!; [done | done | by eexists]|]). constructor.
  - repeat (constructor; [set_solver|]). constructor.
  - done.
  - right. by exists 0%nat.
Qed.

Example schedule_round_robin_witness :
  exists s', schedule_prelocked false st = Ret (Some (300, 2)) s' /\ k_current_task s' = 300 /\
    scheduling s' [1; 2; 3; 4] [100; 200; 300; 400].
Proof.
  destruct (schedule_round_robin st _ _ st_scheduling) as (v & s' & H1 & H2 & H3 & _ & H5).
  vm_compute in H1. injection H1 as <-. exists s'. split_and!; [exact H2 | exact H3 | exact H5].
Defined.

Example schedule_fair_witness : exists l s', slices 4 st = Ret l s' /\ 400 ∈ l.
Proof.
  apply (schedule_fair st _ _ 400 st_scheduling); [done | set_solver | done].
Defined.

Example identities_confined_witness :
  exists s' t', run_id_calls [Seteuid 0; Setuid 0; Setgid 7] st = Ret tt s' /\
    k_tasks s' !! 100 = Some t' /\ t_uid t' = 5 /\ (t_euid t' = 5 \/ t_euid t' = 5).
Proof.
  destruct (identities_confined [Seteuid 0; Setuid 0; Setgid 7] st (a_task 1 TASK_STATE_RUNNING 0))
    as (s' & t' & H1 & _ & H3 & H4 & _ & H5 & _); [done | done | done |].
  exists s', t'. split_and!; [exact H1 | exact H3 | exact H4 | exact H5].
Defined.
End TaskExample.
