(* ===== verification/Process.v ===== *)
(** * Process: exit and wait (scheduler.c)

    The end of a task: [exit] leaves a zombie, [wait] and [waitpid] remove its
    entry.  The theorems show which child the two calls of the wait family
    choose. *)

From S2P Require Import Prelude Chain KState LinkedList Signals Vfs Io Env Tasks.

(** What exit and wait need of the memory manager: to give back the kernel
    stack of a task, and the address space of the current one (its page map,
    its page directory and its frames), as [memmap_destroy], [kfree],
    [mmu_switch_to_kernel_directory] and [mmu_destroy_directory] do. *)
Class AddressSpace := {
  kfree : Z -> M kstate unit;
  destroy_space : M kstate unit
}.

Definition lock_task (p : Z) : M kstate unit :=
  t <- load p;; w <- mutex_wait_word (t_lock t);; upd_obj p (fun t => t <| t_lock := w |>).
Definition unlock_task (p : Z) : M kstate unit :=
  t <- load p;; w <- mutex_release_word (t_lock t);; upd_obj p (fun t => t <| t_lock := w |>).

Section Process.
Context {al : Allocator} {dr : Drivers} {co : Control} {sp : AddressSpace}.

(** ** exit *)

(** The loop that kills the threads of the current task. *)
Fixpoint kill_threads (fuel : nat) (iter : Z) : M kstate unit :=
  match fuel with
  | O => nofuel
  | S fuel =>
      if iter =? 0 then ret tt else
      i <- load iter;;
      t <- load (i_val i);;
      pthread_kill (t_id t) SIGKILL;;;
      schedule;;;
      i <- load iter;;
      kill_threads fuel (i_next i)
  end.

(** The loop that makes the children orphans. *)
Fixpoint orphan_children (fuel : nat) (cur : Z) : M kstate unit :=
  match fuel with
  | O => nofuel
  | S fuel =>
      l <- load_list (LChildren cur);;
      if l_first l =? 0 then ret tt else
      i <- load (l_first l);;
      upd_obj (i_val i) (fun t => t <| t_parent := 0 |>);;;
      LINKED_LIST_REMOVE_FIRST_FREE (LChildren cur);;;
      orphan_children fuel cur
  end.

(** [exit]; it ends in the task switch, and the code behind it is not reached. *)
Definition exit (exit_code : Z) : M kstate unit :=
  s <- get;;
  let cur := k_current_task s in
  t <- current;;
  assert (negb (t_id t =? 0)) "current_task->id != 0";;;
  assert (negb (l_count (t_threads t) =? 0)) "current_task->threads_list.count != 0";;;
  (if (cur =? t_main_thread t) && negb (l_count (t_threads t) =? 0) then
     iter <- LINKED_LIST_ITER_INIT (LThreads cur);; kill_threads (item_fuel s) iter
   else ret tt);;;
  t <- current;;
  (if negb (l_count (t_children t) =? 0) then
     lock_task cur;;; orphan_children (item_fuel s) cur;;; unlock_task cur
   else ret tt);;;
  lock_schedule;;;
  upd_current (fun t => t <| t_status := TASK_STATE_ZOMBIE |>);;;
  upd_current (fun t => t <| t_exit_code := exit_code |>);;;
  t <- current;;
  (if cur =? t_main_thread t then
     (if negb (t_argv t =? 0) then free_obj (T := list Z) (t_argv t) else ret tt);;;
     free_env;;;
     destroy_descriptor_table;;;
     destroy_space
   else
     iter <- LINKED_LIST_ITER_INIT (LThreads (t_main_thread t));;
     iter <- LINKED_LIST_SEEK_UNTIL (fun p _ => p =? cur) iter;;
     LINKED_LIST_REMOVE_CURRENT_FREE (LThreads (t_main_thread t)) iter);;;
  t <- current;;
  (if negb (t_parent t =? 0) then p <- load (t_parent t);; _ <- pthread_kill_nolock (t_id p) SIGCHLD;; ret tt
   else ret tt);;;
  schedule_prelocked false;;;
  panic "assert(0)".

(** ** wait *)

Definition free_task_entry (p : Z) : M kstate Z :=
  assert (negb (p =? 0)) "t != NULL";;;
  t <- load p;;
  assert (negb (t_main_thread t =? 0)) "t->main_thread != NULL";;;
  s <- get;;
  if l_count (k_tasks_list s) =? 0 then ret (-1) else
  (if negb (p =? t_main_thread t) then ret tt
   else if negb (t_parent t =? 0) then
     lock_task (t_parent t);;;
     iter <- LINKED_LIST_ITER_INIT (LChildren (t_parent t));;
     iter <- LINKED_LIST_SEEK_UNTIL (fun q _ => q =? p) iter;;
     LINKED_LIST_REMOVE_CURRENT_FREE (LChildren (t_parent t)) iter;;;
     unlock_task (t_parent t)
   else ret tt);;;
  lock_schedule;;;
  iter <- LINKED_LIST_ITER_INIT LTasks;;
  iter <- LINKED_LIST_SEEK_UNTIL (fun q _ => q =? p) iter;;
  LINKED_LIST_REMOVE_CURRENT_FREE LTasks iter;;;
  unlock_schedule;;;
  t <- load p;;
  kfree (t_kernel_stack t);;;
  _ <- vfs_rmnod (t_procfs_node t);;
  free_obj (T := vfs_node) (t_procfs_node t);;;
  free_obj (T := task) p;;;
  ret (t_id t).

Definition waitid (id type : Z) : M kstate Z := ret ENOSYS.

(** [LINKED_LIST_SEEK_UNTIL] on a list, which moves its position. *)
Fixpoint seek_list (fuel : nat) (r : lref) (cond : task -> bool) : M kstate unit :=
  match fuel with
  | O => nofuel
  | S fuel =>
      l <- load_list r;;
      if l_current l =? 0 then ret tt else
      i <- load (l_current l);;
      t <- load (i_val i);;
      if cond t then ret tt else _ <- LINKED_LIST_MOVE_NEXT r;; seek_list fuel r cond
  end.

(** The condition under which the seek of [wait] stops. *)
Definition wait_cond (t : task) : bool := negb (t_status t =? TASK_STATE_ZOMBIE).

Definition wait : M kstate Z :=
  s <- get;;
  assert (negb (l_count (k_tasks_list s) =? 0)) "tasks_list.count != 0";;;
  let r := LChildren (k_current_task s) in
  _ <- LINKED_LIST_MOVE_FIRST r;;
  seek_list (item_fuel s) r wait_cond;;;
  l <- load_list r;;
  i <- load (l_current l);;
  free_task_entry (i_val i).

(** The condition under which the seeks of [waitpid] stop. *)
Definition waitpid_cond (p : Z) (t : task) : bool := negb (t_pid t =? 0) && negb (t_main_thread t =? p).

(** The loop of [waitpid]; None when there are no tasks any more. *)
Fixpoint waitpid_loop (fuel : nat) (iter : Z) : M kstate (option Z) :=
  match fuel with
  | O => nofuel
  | S fuel =>
      if iter =? 0 then ret (Some 0) else
      i <- load iter;;
      t <- load (i_val i);;
      if t_status t =? TASK_STATE_ZOMBIE then ret (Some iter) else
      pause;;;
      lock_schedule;;;
      s <- get;;
      if l_count (k_tasks_list s) =? 0 then unlock_schedule;;; ret None else
      iter <- LINKED_LIST_ITER_INIT LTasks;;
      iter <- LINKED_LIST_SEEK_UNTIL waitpid_cond iter;;
      unlock_schedule;;;
      waitpid_loop fuel iter
  end.

(** [waitpid]; the result and the status it stores. *)
Definition waitpid (fuel : nat) (pid options : Z) : M kstate (Z * option Z) :=
  if pid =? -1 then r <- wait;; ret (r, None) else
  lock_schedule;;;
  iter <- LINKED_LIST_ITER_INIT LTasks;;
  iter <- LINKED_LIST_SEEK_UNTIL waitpid_cond iter;;
  unlock_schedule;;;
  i <- load iter;;
  s <- get;;
  t <- (if i_val i =? 0 then ret no_task else load (i_val i));;
  if (i_val i =? 0) || negb (t_parent t =? k_current_task s) then ret (ECHILD, None) else
  o <- waitpid_loop fuel iter;;
  match o with
  | None => ret (-1, None)
  | Some iter =>
      assert (negb (iter =? 0)) "tasks_iter.current != NULL";;;
      i <- load iter;;
      t <- load (i_val i);;
      r <- free_task_entry (i_val i);;
      ret (r, Some (t_exit_code t))
  end.
End Process.

(** ** Which child *)

(** The list with another position. *)
Definition at_pos (r : lref) (l : llist) (p : Z) (s : kstate) : kstate := set_list r (l <| l_current := p |>) s.

Lemma status_at r l s u v : k_tasks s !! u = Some v ->
  exists v', k_tasks (set_list r l s) !! u = Some v' /\ t_status v' = t_status v.
Proof.
  destruct r as [|t|t]; simpl; kred; [by eexists|..]; intros Hu; rewrite lookup_alter;
    case_decide; subst; rewrite Hu; by eexists.
Qed.

Lemma set_list_twice r l l' s : set_list r l (set_list r l' s) = set_list r l s.
Proof.
  destruct r as [|t|t]; simpl; [by kstate|..]; kstate; apply map_eq; intros i; rewrite !lookup_alter;
    repeat case_decide; try done; subst; by destruct (k_tasks s !! i).
Qed.

(** The child whose status the seek of [wait] looks for. *)
Definition live_child (h : gmap Z task) (u : Z) : bool :=
  match h !! u with Some v => wait_cond v | None => false end.

Lemma seek_list_spec s r l ps : forall fuel p us,
  list_at s r = Some l -> items (k_items s) p ps us -> Forall (fun u => is_Some (k_tasks s !! u)) us ->
  (length ps < fuel)%nat ->
  match List.find (live_child (k_tasks s)) us with
  | Some u => exists q n, k_items s !! q = Some (mkItem u n) /\
                seek_list fuel r wait_cond (at_pos r l p s) = Ret tt (at_pos r l q s)
  | None => seek_list fuel r wait_cond (at_pos r l p s) = Ret tt (at_pos r l 0 s)
  end.
Proof.
  induction ps as [|q ps IH]; intros [|fuel] p [|u us] Hl Hi Hall Hf; simpl in Hi, Hf; try done; try lia;
    cbn [seek_list]; set (s1 := at_pos r l p s);
    assert (Hl1 : list_at s1 r = Some (l <| l_current := p |>)) by (by eapply list_at_set).
  - rewrite (bind_Ret _ _ _ _ _ (load_list_ok _ _ _ Hl1)). unfold s1. by rewrite Hi.
  - destruct Hi as (-> & Hq & n & Hn & Hi). apply Forall_cons in Hall as [[v Hv] Hall].
    assert (Hi1 : k_items s1 = k_items s) by apply items_set.
    destruct (status_at r (l <| l_current := q |>) s u v Hv) as (v' & Hv' & Hs').
    rewrite (bind_Ret _ _ _ _ _ (load_list_ok _ _ _ Hl1)). kred. rewrite (proj2 (Z.eqb_neq _ _) Hq).
    rewrite (run_load q (mkItem u n)) by (simpl; by rewrite Hi1). simpl.
    rewrite (run_load u v') by exact Hv'.
    assert (Hw : wait_cond v' = wait_cond v) by (unfold wait_cond; by rewrite Hs').
    unfold live_child at 1. rewrite Hv, Hw. destruct (wait_cond v).
    + exists q, n. done.
    + unfold LINKED_LIST_MOVE_NEXT. rewrite run_assoc, (bind_Ret _ _ _ _ _ (load_list_ok _ _ _ Hl1)), run_assoc.
      kred. rewrite (run_load q (mkItem u n)) by (simpl; by rewrite Hi1). rewrite run_assoc.
      erewrite (bind_Ret (store_list r _)); [|by eapply store_list_ok].
      assert (Hst : set_list r ((l <| l_current := q |>) <| l_current := n |>) s1 = at_pos r l n s).
      { unfold s1, at_pos. by rewrite set_list_twice. }
      simpl. rewrite Hst.
      assert (Hin : items (k_items (at_pos r l n s)) n ps us) by (unfold at_pos; by rewrite items_set).
      rewrite (bind_Ret _ _ _ _ _ (value_at_items _ us ps _ Hin)). apply IH; try done. lia.
Qed.

Section Wait.
Context {al : Allocator} {dr : Drivers} {co : Control} {sp : AddressSpace}.

(** [wait] removes the entry of the first child that is not a zombie:
    it does not wait for a child to end.  When all children are zombies, which
    is when there is one to be removed, it runs to the end of the list and
    reads through the NULL pointer there, as it does without children. *)
Theorem wait_takes_live_child s t ps us :
  k_tasks s !! k_current_task s = Some t -> l_count (k_tasks_list s) <> 0 ->
  items (k_items s) (l_first (t_children t)) ps us -> Forall (fun u => is_Some (k_tasks s !! u)) us ->
  k_items s !! 0 = None ->
  match List.find (live_child (k_tasks s)) us with
  | Some u => exists q, wait s = free_task_entry u (at_pos (LChildren (k_current_task s)) (t_children t) q s)
  | None => exists s', wait s = Faults s'
  end.
Proof.
  intros Ht Hc Hi Hall H0. set (r := LChildren (k_current_task s)). set (l := t_children t).
  assert (Hl : list_at s r = Some l) by (simpl; by rewrite Ht).
  unfold wait. rewrite run_get, run_assert by by rewrite (proj2 (Z.eqb_neq _ _) Hc). fold r.
  unfold LINKED_LIST_MOVE_FIRST. rewrite run_assoc, (bind_Ret _ _ _ _ _ (load_list_ok _ _ _ Hl)), run_assoc.
  erewrite (bind_Ret (store_list r _)); [|by eapply store_list_ok].
  change (set_list r (l <| l_current := l_first l |>) s) with (at_pos r l (l_first l) s).
  assert (Hi1 : items (k_items (at_pos r l (l_first l) s)) (l_first l) ps us) by done.
  rewrite (bind_Ret _ _ _ _ _ (value_at_items _ us ps _ Hi1)).
  pose proof (seek_list_spec s r l ps (item_fuel s) (l_first l) us Hl Hi Hall) as H.
  pose proof (chain_size _ _ _ (items_chain _ _ _ _ Hi)). unfold item_fuel in *.
  specialize (H ltac:(lia)). destruct (List.find (live_child (k_tasks s)) us) as [u|].
  - destruct H as (q & n & Hq & H). exists q. rewrite (bind_Ret _ _ _ _ _ H).
    assert (Hl2 : list_at (at_pos r l q s) r = Some (l <| l_current := q |>)) by (by eapply list_at_set).
    rewrite (bind_Ret _ _ _ _ _ (load_list_ok _ _ _ Hl2)). kred. by rewrite (run_load q (mkItem u n)).
  - eexists. rewrite (bind_Ret _ _ _ _ _ H).
    assert (Hl2 : list_at (at_pos r l 0 s) r = Some (l <| l_current := 0 |>)) by (by eapply list_at_set).
    rewrite (bind_Ret _ _ _ _ _ (load_list_ok _ _ _ Hl2)). kred. apply run_fault.
    unfold load. rewrite run_get. simpl. kred. by rewrite H0.
Qed.

(** [waitpid] does not look at its argument, unless it is -1: it takes the
    first task in the list that is not the main thread of its process, and
    returns ECHILD if that is not a child of the current task.  When every
    task is a main thread, it reads through a NULL pointer. *)
Theorem waitpid_ignores_pid s ps us fuel pid options :
  pid <> -1 -> k_schedule_lock s = 0 -> items (k_items s) (l_first (k_tasks_list s)) ps us ->
  (forall u, u ∈ us -> is_Some (k_tasks s !! u)) -> k_items s !! 0 = None ->
  (forall pid', pid' <> -1 -> waitpid fuel pid' options s = waitpid fuel pid options s) /\
  match seek (k_tasks s) waitpid_cond ps us with
  | 0 => exists s', waitpid fuel pid options s = Faults s'
  | q => forall u v n, k_items s !! q = Some (mkItem u n) -> u <> 0 -> k_tasks s !! u = Some v ->
           t_parent v <> k_current_task s -> waitpid fuel pid options s = Ret (ECHILD, None) s
  end.
Proof.
  intros Hp Hl Hi Hall H0. unfold waitpid. rewrite (proj2 (Z.eqb_neq _ _) Hp). split.
  { intros pid' Hp'. by rewrite (proj2 (Z.eqb_neq _ _) Hp'). }
  set (s1 := s <| k_schedule_lock := 1 |>).
  assert (Hrun : forall (k : Z -> M kstate (Z * option Z)),
    bind lock_schedule (fun _ => bind (LINKED_LIST_ITER_INIT LTasks) (fun iter =>
      bind (LINKED_LIST_SEEK_UNTIL waitpid_cond iter) (fun iter => bind unlock_schedule (fun _ => k iter)))) s =
    k (seek (k_tasks s) waitpid_cond ps us) s).
  { intros k. unfold lock_schedule, LINKED_LIST_ITER_INIT. rewrite run_assoc, run_get, Hl.
    change (mutex_wait_word 0) with (ret 1 : M kstate Z). simpl. krun. fold s1.
    rewrite (bind_Ret _ _ _ _ _ (LINKED_LIST_SEEK_UNTIL_spec waitpid_cond _ ps us s1 Hi Hall)).
    unfold unlock_schedule. krun. change (mutex_release_word 1) with (ret 0 : M kstate Z). krun.
    f_equal. unfold s1. kstate. }
  rewrite Hrun. set (q := seek (k_tasks s) waitpid_cond ps us). destruct (Z.eqb_spec q 0) as [->|Hq].
  - eexists. apply run_fault. unfold load. rewrite run_get. simpl. by rewrite H0.
  - assert (Hg : forall u v n, k_items s !! q = Some (mkItem u n) -> u <> 0 -> k_tasks s !! u = Some v ->
      t_parent v <> k_current_task s ->
      bind (load q) (fun i => bind get (fun s2 => bind (if i_val i =? 0 then ret no_task else load (i_val i))
        (fun t => if (i_val i =? 0) || negb (t_parent t =? k_current_task s2) then ret (ECHILD, None) else
           o <- waitpid_loop fuel q;;
           match o with
           | None => ret (-1, None)
           | Some iter =>
               assert (negb (iter =? 0)) "tasks_iter.current != NULL";;;
               i <- load iter;;
               t <- load (i_val i);;
               r <- free_task_entry (i_val i);;
               ret (r, Some (t_exit_code t))
           end))) s = Ret (ECHILD, None) s).
    { intros u v n Hqi Hu Hv Hpar. krun. rewrite (proj2 (Z.eqb_neq _ _) Hu). krun.
      by rewrite (proj2 (Z.eqb_neq _ _) Hpar). }
    destruct q; [done | exact Hg | exact Hg].
Qed.
End Wait.

(** ** An example *)

Module ProcessExample.
#[local] Existing Instance bump_allocator.
#[local] Existing Instance no_drivers.
#[local] Instance no_control : Control :=
  {| switch := ret tt; call_handler _ _ := ret tt; do_exit _ := ret tt |}.
#[local] Instance no_space : AddressSpace := {| kfree _ := ret tt; destroy_space := ret tt |}.

(** The parent 100, with a zombie 200 and a running child 300. *)
Definition the_parent : task := no_task <| t_id := 1 |> <| t_pid := 1 |> <| t_main_thread := 100 |>
  <| t_children := mkList 5 6 5 0 2 |>.
Definition child (id p status : Z) : task :=
  no_task <| t_id := id |> <| t_pid := id |> <| t_main_thread := p |> <| t_parent := 100 |> <| t_status := status |>.
Definition st : kstate :=
  empty_kstate
    <| k_items := list_to_map [(1, mkItem 100 2); (2, mkItem 200 3); (3, mkItem 300 0);
                               (5, mkItem 200 6); (6, mkItem 300 0)] |>
    <| k_tasks := list_to_map [(100, the_parent); (200, child 2 200 TASK_STATE_ZOMBIE);
                               (300, child 3 300 TASK_STATE_RUNNING)] |>
    <| k_tasks_list := mkList 1 3 1 0 3 |> <| k_current_task := 100 |>.

Lemma st_children : items (k_items st) 5 [5; 6] [200; 300].
Proof. simpl. repeat (split_and!; [done | done |]; eexists; (split; [reflexivity|])). done. Qed.

Lemma st_tasks : items (k_items st) 1 [1; 2; 3] [100; 200; 300].
Proof. simpl. repeat (split_and!; [done | done |]; eexists; (split; [reflexivity|])). done. Qed.

(** The zombie 200 is passed over. *)
Example wait_takes_live_child_witness :
  exists q, wait st = free_task_entry 300 (at_pos (LChildren 100) (t_children the_parent) q st).
Proof.
  pose proof (wait_takes_live_child st the_parent [5; 6] [200; 300] eq_refl ltac:(done) st_children
    ltac:(repeat (constructor; [by eexists|]); constructor) eq_refl) as H.
  exact H.
Defined.

Example waitpid_ignores_pid_witness : exists s', waitpid 10 2 0 st = Faults s'.
Proof.
  destruct (waitpid_ignores_pid st [1; 2; 3] [100; 200; 300] 10 2 0 ltac:(done) eq_refl st_tasks) as [_ H].
  - intros u [->|[->|[->|[]%not_elem_of_nil]%elem_of_cons]%elem_of_cons]%elem_of_cons; by eexists.
  - done.
  - exact H.
Defined.
End ProcessExample.
