(* ===== verification/Bget.v ===== *)
(** * Bget: the heap allocator (bget/bget.c)

    The allocator behind the kernel's [malloc] and [free] (kheap.c), and, with
    other options, behind those of the user programs (libs/bget/bget.c).

    A buffer starts with a header: the size of the buffer before it if that
    one is free, and its own size, negative when it is allocated; a free buffer
    also has the links of the free list.  The headers are objects at their
    addresses.  A buffer takes at least 16 bytes, the size of a header with
    links, so that headers do not overlap. *)

From S2P Require Import Prelude.

(** ** Configuration

    The options the two copies of the file are compiled with. *)
Class Config := {
  SizeQuant : Z;
  BestFit : bool;
  BufStats : bool;
  BECtl : bool;
  size_quant_pos : 0 < SizeQuant
}.

Definition kernel_config : Config :=
  {| SizeQuant := 0x1000 + 8; BestFit := true; BufStats := true; BECtl := true; size_quant_pos := eq_refl |}.
Definition libs_config : Config :=
  {| SizeQuant := 4; BestFit := false; BufStats := false; BECtl := false; size_quant_pos := eq_refl |}.

(** ** The heap *)

(** [struct bfhead] *)
Record bfhead := mkB { prevfree : Z; bsize : Z; flink : Z; blink : Z }.

#[export] Instance eta_bfhead : Eta bfhead := fun b => mkB (prevfree b) (bsize b) (flink b) (blink b).

Definition sizeof_bhead := 8.
Definition sizeof_bdhead := 12.
Definition QLSize := 8.

(** The static variable [freelist], the head of the list of free buffers. *)
Definition freelist := 0x100.

(** The most negative [bufsize]. *)
Definition ESent := - 2 ^ 31.

Record heap := mkHeap {
  hdrs : gmap Z bfhead;
  tsizes : gmap Z Z;          (* [struct bdhead] of directly acquired buffers *)
  totalloc : Z;
  numget : Z;
  numrel : Z;
  numpblk : Z;
  numpget : Z;
  numprel : Z;
  numdget : Z;
  numdrel : Z;
  compfcn : Z;
  acqfcn : Z;
  relfcn : Z;
  exp_incr : Z;
  pool_len : Z
}.

#[export] Instance eta_heap : Eta heap := fun h =>
  mkHeap (hdrs h) (tsizes h) (totalloc h) (numget h) (numrel h) (numpblk h) (numpget h) (numprel h)
    (numdget h) (numdrel h) (compfcn h) (acqfcn h) (relfcn h) (exp_incr h) (pool_len h).

(** The heap before the first call of [bpool]. *)
Definition empty_heap : heap :=
  mkHeap {[freelist := mkB 0 0 freelist freelist]} ∅ 0 0 0 0 0 0 0 0 0 0 0 0 0.

(** The functions that [bectl] installs, by their addresses. *)
Class Expansion := {
  call_compact : Z -> Z -> Z -> M heap bool;
  call_acquire : Z -> Z -> M heap Z;
  call_release : Z -> Z -> M heap unit
}.

(** [b->...] *)
Definition hdr (b : Z) : M heap bfhead := h <- get;; deref (hdrs h !! b).
Definition set_hdr (b : Z) (f : bfhead -> bfhead) : M heap unit :=
  v <- hdr b;; modify (fun h => h <| hdrs := <[b := f v]> (hdrs h) |>).

(** A header written inside of a buffer; what was there does not matter. *)
Definition new_hdr (b : Z) (f : bfhead -> bfhead) : M heap unit :=
  modify (fun h => h <| hdrs := <[b := f (default (mkB 0 0 0 0) (hdrs h !! b))]> (hdrs h) |>).

Section Bget.
Context {cf : Config} {ex : Expansion}.

Definition SizeQ : Z := if QLSize <? SizeQuant then SizeQuant else QLSize.

(** Code under [#ifdef BufStats] and [#ifdef BECtl]. *)
Definition stat (m : M heap unit) : M heap unit := if BufStats then m else ret tt.
Definition ectl (m : M heap unit) : M heap unit := if BECtl then m else ret tt.

(** The size of the buffer for a request, with its header. *)
Definition buffer_size (requested_size : Z) : Z :=
  let size := if requested_size <? SizeQ then SizeQ else requested_size in
  let size := Z.land (s32 (size + (SizeQuant - 1))) (Z.lnot (SizeQuant - 1)) in
  s32 (size + sizeof_bhead).

(** ** bget *)

(** The scan of the free list for the smallest buffer that is large enough. *)
Fixpoint best_scan (fuel : nat) (b best size : Z) : M heap Z :=
  match fuel with
  | O => nofuel
  | S fuel =>
      if b =? freelist then ret best else
      v <- hdr b;;
      w <- hdr best;;
      best_scan fuel (flink v)
        (if (size <=? bsize v) && ((best =? freelist) || (bsize v <? bsize w)) then b else best) size
  end.

(** Take a buffer off the free list. *)
Definition unlink_free (b : Z) : M heap unit :=
  v <- hdr b;;
  set_hdr (blink v) (fun x => x <| flink := flink v |>);;;
  set_hdr (flink v) (fun x => x <| blink := blink v |>).

Definition assert_linked (b : Z) : M heap unit :=
  v <- hdr b;;
  x <- hdr (blink v);;
  assert (flink x =? b) "b->ql.blink->ql.flink == b";;;
  y <- hdr (flink v);;
  assert (blink y =? b) "b->ql.flink->ql.blink == b".

(** Allocate from the buffer [b], the end of it if enough remains. *)
Definition take_buffer (b size : Z) : M heap Z :=
  v <- hdr b;;
  let rest := s32 (bsize v - size) in
  if SizeQ + sizeof_bhead <? u32 rest then
    let ba := b + rest in
    let bn := ba + size in
    n <- hdr bn;;
    assert (prevfree n =? bsize v) "bn->prevfree == b->bh.bsize";;;
    set_hdr b (fun x => x <| bsize := rest |>);;;
    new_hdr ba (fun x => x <| prevfree := rest |> <| bsize := - size |>);;;
    set_hdr bn (fun x => x <| prevfree := 0 |>);;;
    stat (modify (fun h => h <| totalloc := s32 (totalloc h + size) |> <| numget := s32 (numget h + 1) |>));;;
    ret (ba + sizeof_bhead)
  else
    let ba := b + bsize v in
    n <- hdr ba;;
    assert (prevfree n =? bsize v) "ba->prevfree == b->bh.bsize";;;
    assert_linked b;;;
    unlink_free b;;;
    stat (modify (fun h => h <| totalloc := s32 (totalloc h + bsize v) |> <| numget := s32 (numget h + 1) |>));;;
    set_hdr b (fun x => x <| bsize := - bsize v |>);;;
    set_hdr ba (fun x => x <| prevfree := 0 |>);;;
    ret (b + sizeof_bhead).

(** The loop that allocates from the first buffer that is large enough. *)
Fixpoint fit_loop (fuel : nat) (b size : Z) : M heap (option Z) :=
  match fuel with
  | O => nofuel
  | S fuel =>
      if b =? freelist then ret None else
      v <- hdr b;;
      if size <=? bsize v then buf <- take_buffer b size;; ret (Some buf) else fit_loop fuel (flink v) size
  end.

Definition scan_fuel (h : heap) : nat := S (size (hdrs h)).

(** The search, repeated as long as the compaction function makes room. *)
Fixpoint search (fuel : nat) (size compactseq : Z) : M heap (option Z) :=
  match fuel with
  | O => nofuel
  | S fuel =>
      h <- get;;
      f <- hdr freelist;;
      b <- (if BestFit then best_scan (scan_fuel h) (flink f) freelist size else ret (flink f));;
      o <- fit_loop (scan_fuel h) b size;;
      match o with
      | Some buf => ret (Some buf)
      | None =>
          h <- get;;
          if negb BECtl || (compfcn h =? 0) then ret None else
          ok <- call_compact (compfcn h) size (compactseq + 1);;
          if ok : bool then search fuel size (compactseq + 1) else ret None
      end
  end.

(** ** bpool *)

(** Put a buffer at the end of the free list. *)
Definition link_last (b : Z) : M heap unit :=
  f <- hdr freelist;;
  x <- hdr (blink f);;
  assert (flink x =? freelist) "freelist.ql.blink->ql.flink == &freelist";;;
  y <- hdr (flink f);;
  assert (blink y =? freelist) "freelist.ql.flink->ql.blink == &freelist";;;
  set_hdr b (fun v => v <| flink := freelist |>);;;
  set_hdr b (fun v => v <| blink := blink f |>);;;
  set_hdr freelist (fun v => v <| blink := b |>);;;
  set_hdr (blink f) (fun v => v <| flink := b |>).

Definition bpool (b len : Z) : M heap unit :=
  let len := Z.land len (Z.lnot (SizeQuant - 1)) in
  ectl (modify (fun h => h <| pool_len := if pool_len h =? 0 then len else if negb (len =? pool_len h) then -1
                                          else pool_len h |>);;;
        stat (modify (fun h => h <| numpget := s32 (numpget h + 1) |> <| numpblk := s32 (numpblk h + 1) |>);;;
              h <- get;;
              assert (numpblk h =? numpget h - numprel h) "numpblk == numpget - numprel"));;;
  assert (u32 (len - sizeof_bhead) <=? - (ESent + 1)) "len - sizeof(struct bhead) <= -((bufsize) ESent + 1)";;;
  new_hdr b (fun v => v <| prevfree := 0 |>);;;
  link_last b;;;
  let len := len - sizeof_bhead in
  set_hdr b (fun v => v <| bsize := len |>);;;
  new_hdr (b + len) (fun v => v <| prevfree := len |> <| bsize := ESent |>).

(** [bget]; the fuel bounds the calls of the compaction function and the
    expansions. *)
Fixpoint bget (fuel : nat) (requested_size : Z) : M heap Z :=
  match fuel with
  | O => nofuel
  | S fuel =>
      assert (0 <? requested_size) "size > 0";;;
      let size := buffer_size requested_size in
      o <- search (S fuel) size 0;;
      match o with
      | Some buf => ret buf
      | None =>
          h <- get;;
          if negb BECtl || (acqfcn h =? 0) then ret 0 else
          if u32 (exp_incr h - sizeof_bhead) <? u32 size then
            let size := s32 (size + (sizeof_bdhead - sizeof_bhead)) in
            bdh <- call_acquire (acqfcn h) size;;
            if bdh =? 0 then ret 0 else
            new_hdr (bdh + 4) (fun v => v <| bsize := 0 |> <| prevfree := 0 |>);;;
            modify (fun h => h <| tsizes := <[bdh := size]> (tsizes h) |>);;;
            stat (modify (fun h => h <| totalloc := s32 (totalloc h + size) |> <| numget := s32 (numget h + 1) |>
                                     <| numdget := s32 (numdget h + 1) |>));;;
            ret (bdh + sizeof_bdhead)
          else
            newpool <- call_acquire (acqfcn h) (exp_incr h);;
            if newpool =? 0 then ret 0 else
            bpool newpool (exp_incr h);;; bget fuel requested_size
      end
  end.

(** ** brel *)

(** Release of a buffer that [bget] acquired directly. *)
Definition brel_direct (buf : Z) : M heap unit :=
  b <- hdr (buf - sizeof_bhead);;
  assert (prevfree b =? 0) "b->bh.prevfree == 0";;;
  h <- get;;
  tsize <- deref (tsizes h !! (buf - sizeof_bdhead));;
  stat (modify (fun h => h <| totalloc := s32 (totalloc h - tsize) |>);;;
        h <- get;;
        assert (0 <=? totalloc h) "totalloc >= 0";;;
        modify (fun h => h <| numdrel := s32 (numdrel h + 1) |>));;;
  assert (negb (relfcn h =? 0)) "relfcn != NULL";;;
  call_release (relfcn h) (buf - sizeof_bdhead).

(** The buffer [b] becomes free: part of the free buffer before it, or one of
    its own.  The start of the free buffer. *)
Definition release_back (b : Z) : M heap Z :=
  v <- hdr b;;
  if negb (prevfree v =? 0) then
    p <- hdr (b - prevfree v);;
    assert (bsize p =? prevfree v) "BH(b - b->bh.prevfree)->bsize == b->bh.prevfree";;;
    set_hdr (b - prevfree v) (fun x => x <| bsize := s32 (bsize x - bsize v) |>);;;
    ret (b - prevfree v)
  else
    link_last b;;;
    set_hdr b (fun x => x <| bsize := s32 (- bsize x) |>);;;
    ret b.

(** Join the free buffer [b] with the next one if that is free too.  The start
    of the buffer that follows. *)
Definition join_next (b : Z) : M heap Z :=
  v <- hdr b;;
  let bn := b + bsize v in
  n <- hdr bn;;
  if 0 <? bsize n then
    m <- hdr (bn + bsize n);;
    assert (prevfree m =? bsize n) "BH(bn + bn->bh.bsize)->prevfree == bn->bh.bsize";;;
    assert_linked bn;;;
    unlink_free bn;;;
    set_hdr b (fun x => x <| bsize := s32 (bsize x + bsize n) |>);;;
    ret (b + s32 (bsize v + bsize n))
  else ret bn.

Definition brel (buf : Z) : M heap unit :=
  stat (modify (fun h => h <| numrel := s32 (numrel h + 1) |>));;;
  assert (negb (buf =? 0)) "buf != NULL";;;
  let b := buf - sizeof_bhead in
  v <- hdr b;;
  if BECtl && (bsize v =? 0) then brel_direct buf else
  assert (bsize v <? 0) "b->bh.bsize < 0";;;
  n <- hdr (b - bsize v);;
  assert (prevfree n =? 0) "BH(b - b->bh.bsize)->prevfree == 0";;;
  stat (modify (fun h => h <| totalloc := s32 (totalloc h + bsize v) |>);;;
        h <- get;;
        assert (0 <=? totalloc h) "totalloc >= 0");;;
  b <- release_back b;;
  bn <- join_next b;;
  n <- hdr bn;;
  assert (bsize n <? 0) "bn->bh.bsize < 0";;;
  v <- hdr b;;
  set_hdr bn (fun x => x <| prevfree := bsize v |>);;;
  h <- get;;
  if BECtl && negb (relfcn h =? 0) && (u32 (bsize v) =? u32 (pool_len h - sizeof_bhead)) then
    assert (prevfree v =? 0) "b->bh.prevfree == 0";;;
    e <- hdr (b + bsize v);;
    assert (bsize e =? ESent) "BH(b + b->bh.bsize)->bsize == ESent";;;
    assert (prevfree e =? bsize v) "BH(b + b->bh.bsize)->prevfree == b->bh.bsize";;;
    unlink_free b;;;
    call_release (relfcn h) b;;;
    stat (modify (fun h => h <| numprel := s32 (numprel h + 1) |> <| numpblk := s32 (numpblk h - 1) |>);;;
          h <- get;;
          assert (numpblk h =? numpget h - numprel h) "numpblk == numpget - numprel")
  else ret tt.

Definition bectl (compact acquire release pool_incr : Z) : M heap unit :=
  modify (fun h => h <| compfcn := compact |> <| acqfcn := acquire |> <| relfcn := release |>
                     <| exp_incr := pool_incr |>).

(** ** Statistics and validation *)

Fixpoint stats_loop (fuel : nat) (b totfree maxfree : Z) : M heap (Z * Z) :=
  match fuel with
  | O => nofuel
  | S fuel =>
      if b =? freelist then ret (totfree, maxfree) else
      v <- hdr b;;
      assert (0 <? bsize v) "b->bh.bsize > 0";;;
      stats_loop fuel (flink v) (s32 (totfree + bsize v)) (if maxfree <? bsize v then bsize v else maxfree)
  end.

(** [bstats]: curalloc, totfree, maxfree, nget, nrel. *)
Definition bstats : M heap (Z * Z * Z * Z * Z) :=
  h <- get;;
  f <- hdr freelist;;
  '(totfree, maxfree) <- stats_loop (scan_fuel h) (flink f) 0 (-1);;
  ret (totalloc h, totfree, maxfree, numget h, numrel h).

(** [bstatse]: pool_incr, npool, npget, nprel, ndget, ndrel. *)
Definition bstatse : M heap (Z * Z * Z * Z * Z * Z) :=
  h <- get;;
  ret (if pool_len h <? 0 then s32 (- exp_incr h) else exp_incr h, numpblk h, numpget h, numprel h, numdget h, numdrel h).

(** [bpoolv] *)
Fixpoint bpoolv (fuel : nat) (b : Z) : M heap Z :=
  match fuel with
  | O => nofuel
  | S fuel =>
      v <- hdr b;;
      if bsize v =? ESent then ret 1 else
      if bsize v <? 0 then bpoolv fuel (b + - bsize v) else
      assert (0 <? bsize v) "bs > 0";;;
      x <- hdr (blink v);;
      y <- hdr (flink v);;
      if negb (flink x =? b) || negb (blink y =? b) then panic "assert(0)" else
      bpoolv fuel (b + bsize v)
  end.
End Bget.

(** ** kheap.c *)

Definition KHEAP_INITIAL_SIZE := 0x200000.

Section Kheap.
Context {ex : Expansion}.
#[local] Existing Instance kernel_config.

(** [kheap_init], with the memory that [kalloc] gave. *)
Definition kheap_init (buffer : Z) : M heap unit :=
  assert (negb (buffer =? 0)) "kheap.buffer != NULL";;; bpool buffer KHEAP_INITIAL_SIZE.

(** [malloc]: the argument is an unsigned word, that of [bget] a signed one. *)
Definition malloc (fuel : nat) (sz : Z) : M heap Z := if sz =? 0 then ret 0 else bget fuel (s32 sz).

Definition free (ptr : Z) : M heap unit := if ptr =? 0 then ret tt else brel ptr.
End Kheap.

(** ** libs/bget/bget.c and libs/malloc.c

    The allocator of the user programs: the same file with other options. *)
Section Libs.
Context {ex : Expansion}.
#[local] Existing Instance libs_config.

Definition libs_bpool : Z -> Z -> M heap unit := bpool.
Definition libs_bget : nat -> Z -> M heap Z := bget.
Definition libs_brel : Z -> M heap unit := brel.

(** [malloc_init], with the address of the array [heap_mem]. *)
Definition libs_malloc_init (heap_mem : Z) : M heap unit := libs_bpool heap_mem (1024 * 8).

Definition libs_malloc (fuel : nat) (sz : Z) : M heap Z := libs_bget fuel (s32 sz).

Definition libs_free (ptr : Z) : M heap unit := libs_brel ptr.
End Libs.
