(* ===== verification/Heap.v ===== *)
(** * Heap: correctness of the allocator

    A pool is a list of blocks, each with a size and free or allocated, laid
    out one after the other; the free list links the free ones.  [bget] and
    [brel] of Bget.v keep that invariant: an allocation takes a free block, or
    the end of it, a release joins the block with its free neighbours.  From
    it follows what the clients rely on: live buffers are disjoint. *)

From S2P Require Import Prelude Bget.

(** ** Fields of headers *)

Notation hmap := (gmap Z bfhead).

Definition sizes (h : hmap) (a : Z) : option (Z * Z) := (fun v => (prevfree v, bsize v)) <$> h !! a.
Definition fwd_of (h : hmap) (a : Z) : option Z := flink <$> h !! a.
Definition bwd_of (h : hmap) (a : Z) : option Z := blink <$> h !! a.

Definition set_prev (a n : Z) (h : hmap) : hmap := alter (fun v => v <| prevfree := n |>) a h.
Definition set_size (a n : Z) (h : hmap) : hmap := alter (fun v => v <| bsize := n |>) a h.
Definition set_fwd (a n : Z) (h : hmap) : hmap := alter (fun v => v <| flink := n |>) a h.
Definition set_bwd (a n : Z) (h : hmap) : hmap := alter (fun v => v <| blink := n |>) a h.
Definition set_new (a p n : Z) (h : hmap) : hmap :=
  <[a := (default (mkB 0 0 0 0) (h !! a)) <| prevfree := p |> <| bsize := n |>]> h.

(** What an update of one field does to the others. *)
Ltac field_of := intros; unfold sizes, fwd_of, bwd_of, set_prev, set_size, set_fwd, set_bwd in *;
  rewrite lookup_alter; case_decide; subst; try done; by destruct (_ !! _).

Lemma sizes_set_fwd h a n x : sizes (set_fwd a n h) x = sizes h x.
Proof. field_of. Qed.
Lemma sizes_set_bwd h a n x : sizes (set_bwd a n h) x = sizes h x.
Proof. field_of. Qed.
Lemma fwd_set_bwd h a n x : fwd_of (set_bwd a n h) x = fwd_of h x.
Proof. field_of. Qed.
Lemma bwd_set_fwd h a n x : bwd_of (set_fwd a n h) x = bwd_of h x.
Proof. field_of. Qed.
Lemma fwd_set_prev h a n x : fwd_of (set_prev a n h) x = fwd_of h x.
Proof. field_of. Qed.
Lemma bwd_set_prev h a n x : bwd_of (set_prev a n h) x = bwd_of h x.
Proof. field_of. Qed.
Lemma fwd_set_size h a n x : fwd_of (set_size a n h) x = fwd_of h x.
Proof. field_of. Qed.
Lemma bwd_set_size h a n x : bwd_of (set_size a n h) x = bwd_of h x.
Proof. field_of. Qed.
Lemma sizes_set_prev h a n x : sizes (set_prev a n h) x =
  if decide (a = x) then (fun p => (n, p.2)) <$> sizes h x else sizes h x.
Proof. field_of. Qed.
Lemma sizes_set_size h a n x : sizes (set_size a n h) x =
  if decide (a = x) then (fun p => (p.1, n)) <$> sizes h x else sizes h x.
Proof. field_of. Qed.
Lemma fwd_set_fwd h a n x : fwd_of (set_fwd a n h) x =
  if decide (a = x) then (fun _ => n) <$> fwd_of h x else fwd_of h x.
Proof. field_of. Qed.
Lemma bwd_set_bwd h a n x : bwd_of (set_bwd a n h) x =
  if decide (a = x) then (fun _ => n) <$> bwd_of h x else bwd_of h x.
Proof. field_of. Qed.

Lemma sizes_set_new h a p n x : sizes (set_new a p n h) x = if decide (a = x) then Some (p, n) else sizes h x.
Proof. unfold sizes, set_new. rewrite lookup_insert. by case_decide. Qed.
Lemma fwd_set_new h a p n x : a <> x -> fwd_of (set_new a p n h) x = fwd_of h x.
Proof. intros. unfold fwd_of, set_new. by rewrite lookup_insert_ne. Qed.
Lemma bwd_set_new h a p n x : a <> x -> bwd_of (set_new a p n h) x = bwd_of h x.
Proof. intros. unfold bwd_of, set_new. by rewrite lookup_insert_ne. Qed.

#[export] Hint Rewrite sizes_set_fwd sizes_set_bwd fwd_set_bwd bwd_set_fwd fwd_set_prev bwd_set_prev fwd_set_size
  bwd_set_size sizes_set_prev sizes_set_size fwd_set_fwd bwd_set_bwd sizes_set_new : fields.

(** The cases of an update, when the addresses are known to differ. *)
Ltac decs := repeat first [rewrite decide_True by done | rewrite decide_False by (done || set_solver)].

(** A header with a known field. *)
Lemma fwd_header h x y : fwd_of h x = Some y -> exists v, h !! x = Some v /\ flink v = y.
Proof. unfold fwd_of. destruct (h !! x) as [v|]; [|done]. intros [= <-]. by exists v. Qed.
Lemma bwd_header h x y : bwd_of h x = Some y -> exists v, h !! x = Some v /\ blink v = y.
Proof. unfold bwd_of. destruct (h !! x) as [v|]; [|done]. intros [= <-]. by exists v. Qed.
Lemma sizes_header h x p n : sizes h x = Some (p, n) -> exists v, h !! x = Some v /\ prevfree v = p /\ bsize v = n.
Proof. unfold sizes. destruct (h !! x) as [v|]; [|done]. intros [= <- <-]. by exists v. Qed.

(** ** The free list *)

Lemma last_step (z x : Z) l : List.last (z :: l) x = List.last l z.
Proof.
  revert z x. induction l as [|u l IH]; intros z x; [done|].
  change (List.last (u :: l) x = List.last (u :: l) z). by rewrite !IH.
Qed.

Lemma last_in (z : Z) l : List.last l z ∈ z :: l.
Proof. revert z. induction l as [|u l IH]; intros z; [simpl; set_solver|]. rewrite last_step. specialize (IH u). set_solver. Qed.

(** From [x] the forward links lead through [l] to the head, and the backward
    links return. *)
Fixpoint links (h : hmap) (x : Z) (l : list Z) : Prop :=
  match l with
  | [] => fwd_of h x = Some freelist /\ bwd_of h freelist = Some x
  | y :: l => fwd_of h x = Some y /\ bwd_of h y = Some x /\ links h y l
  end.

Lemma links_frame h h' x l :
  (forall z, z ∈ x :: l -> fwd_of h' z = fwd_of h z) ->
  (forall z, z ∈ freelist :: l -> bwd_of h' z = bwd_of h z) -> links h x l -> links h' x l.
Proof.
  revert x. induction l as [|y l IH]; intros x Hf Hb; simpl.
  - intros [H1 H2]. rewrite Hf, Hb by set_solver. done.
  - intros (H1 & H2 & H3). rewrite Hf, Hb by set_solver. split_and!; [done | done |].
    apply IH; [| |done]; intros; [apply Hf | apply Hb]; set_solver.
Qed.

(** [b] without its neighbours' links to it. *)
Definition unlinked (h : hmap) (b : Z) : hmap :=
  match h !! b with
  | Some v => set_bwd (flink v) (blink v) (set_fwd (blink v) (flink v) h)
  | None => h
  end.

Lemma sizes_unlinked h b x : sizes (unlinked h b) x = sizes h x.
Proof. unfold unlinked. destruct (h !! b); [|done]. by autorewrite with fields. Qed.

(** The neighbours of an element of the list. *)
Lemma links_neighbours h x l1 b l2 : links h x (l1 ++ b :: l2) ->
  exists v, h !! b = Some v /\ blink v = List.last l1 x /\ flink v = hd freelist l2 /\
    fwd_of h (blink v) = Some b /\ bwd_of h (flink v) = Some b.
Proof.
  revert x. induction l1 as [|z l1 IH]; intros x.
  - intros (H1 & H2 & H3). destruct (bwd_header _ _ _ H2) as (v & Hv & Hb). exists v.
    destruct l2 as [|y l2]; simpl in *.
    + destruct H3 as (H3 & H4). unfold fwd_of in H3. rewrite Hv in H3. injection H3 as H3.
      rewrite Hb, H3. split_and!; done.
    + destruct H3 as (H3 & H4 & _). unfold fwd_of in H3. rewrite Hv in H3. injection H3 as H3.
      rewrite Hb, H3. split_and!; done.
  - intros (_ & _ & H). destruct (IH z H) as (v & ? & Hb & ?). exists v. split_and!; try naive_solver.
    by rewrite Hb, last_step.
Qed.

Lemma links_unlink h x l1 b l2 :
  links h x (l1 ++ b :: l2) -> NoDup (x :: l1 ++ b :: l2) -> freelist ∉ l1 ++ b :: l2 ->
  links (unlinked h b) x (l1 ++ l2).
Proof.
  intros Hl Hnd Hfl. destruct (links_neighbours _ _ _ _ _ Hl) as (v & Hv & Hb & Hf & _).
  unfold unlinked. rewrite Hv, Hb, Hf. clear Hv Hb Hf. revert x Hl Hnd.
  induction l1 as [|z l1 IH]; intros x Hl Hnd.
  - simpl in Hl |- *. destruct Hl as (H1 & H2 & H3). apply NoDup_cons in Hnd as [Hx Hnd].
    destruct l2 as [|y l2]; simpl in *.
    + destruct H3 as (H3 & H4). autorewrite with fields. rewrite !decide_True by done. by rewrite H1, H4.
    + destruct H3 as (H3 & H4 & H5). autorewrite with fields. rewrite !decide_True by done. rewrite H1, H4.
      split_and!; [done | done |]. eapply links_frame; [| |exact H5]; intros w Hw; autorewrite with fields.
      * rewrite decide_False; [done|]. set_solver.
      * rewrite decide_False; [done|]. apply NoDup_cons in Hnd as [_ [Hy _]%NoDup_cons]. set_solver.
  - destruct Hl as (H1 & H2 & H3). apply NoDup_cons in Hnd as [Hx Hnd].
    change (links (set_bwd (hd freelist l2) (List.last (z :: l1) x) (set_fwd (List.last (z :: l1) x) (hd freelist l2) h))
              x (z :: l1 ++ l2)).
    pose proof (last_in z l1) as Hin. rewrite last_step. cbn [links]. autorewrite with fields. split_and!.
    + rewrite decide_False; [done|]. intros E. rewrite E in Hin. set_solver.
    + rewrite decide_False; [done|]. intros E. destruct l2 as [|y l2]; simpl in E; [set_solver|].
      rewrite E in Hnd. apply NoDup_cons in Hnd as [Hz _]. set_solver.
    + apply IH; [set_solver | exact H3 | exact Hnd].
Qed.

(** [b] behind the last element. *)
Definition linked_last (h : hmap) (b : Z) : hmap :=
  match h !! freelist with
  | Some f => set_fwd (blink f) b (set_bwd freelist b (set_bwd b (blink f) (set_fwd b freelist h)))
  | None => h
  end.

Lemma sizes_linked_last h b x : sizes (linked_last h b) x = sizes h x.
Proof. unfold linked_last. destruct (h !! freelist); [|done]. by autorewrite with fields. Qed.

Lemma links_last h x l : links h x l -> bwd_of h freelist = Some (List.last l x) /\
  fwd_of h (List.last l x) = Some freelist.
Proof.
  revert x. induction l as [|y l IH]; intros x; [simpl; naive_solver|]. intros (_ & _ & H).
  rewrite last_step. by apply IH.
Qed.

Lemma links_snoc h x l b :
  links h x l -> NoDup (x :: l ++ [b]) -> freelist ∉ l ++ [b] -> is_Some (h !! b) ->
  let y := List.last l x in
  links (set_fwd y b (set_bwd freelist b (set_bwd b y (set_fwd b freelist h)))) x (l ++ [b]).
Proof.
  intros Hl Hnd Hfl [v Hv]. revert x Hl Hnd. induction l as [|z l IH]; intros x Hl Hnd.
  - simpl in Hl |- *. destruct Hl as [H1 H2]. assert (x <> b) by (apply NoDup_cons in Hnd; set_solver).
    assert (b <> freelist) by set_solver. autorewrite with fields.
    unfold bwd_of, fwd_of in *. decs. rewrite H1, H2, Hv. by decs.
  - destruct Hl as (H1 & H2 & H3). apply NoDup_cons in Hnd as [Hx Hnd]. cbn [links app].
    pose proof (last_in z l) as Hin. rewrite last_step.
    assert (List.last l z <> x) by (intros E; rewrite E in Hin; set_solver).
    assert (b <> x /\ freelist <> z) as [Hbx Hfz] by set_solver.
    assert (b <> z) by (apply NoDup_cons in Hnd; set_solver).
    split_and!.
    + autorewrite with fields. by decs.
    + autorewrite with fields. by decs.
    + apply IH; [set_solver | done | done].
Qed.

(** ** Blocks *)

(** The size of a block, with its header, and whether it is free. *)
Notation block := (Z * bool)%type.

Definition total (bs : list block) : Z := foldr (fun (b : block) acc => b.1 + acc) 0 bs.
Definition used (bs : list block) : Z := foldr (fun (b : block) acc => (if b.2 then 0 else b.1) + acc) 0 bs.

(** The field [prevfree] of what follows a block. *)
Definition tag (b : block) : Z := if b.2 then b.1 else 0.
Definition stored (b : block) : Z := if b.2 then b.1 else - b.1.

(** The headers of the blocks [bs] from address [a], where the block before
    leaves [p]; what the last one leaves. *)
Fixpoint seg (h : hmap) (a p : Z) (bs : list block) (q : Z) : Prop :=
  match bs with
  | [] => p = q
  | b :: bs => 16 <= b.1 /\ sizes h a = Some (p, stored b) /\ seg h (a + b.1) (tag b) bs q
  end.

(** The same up to the end of the pool. *)
Fixpoint layout (h : hmap) (a p : Z) (bs : list block) : Prop :=
  match bs with
  | [] => sizes h a = Some (p, ESent)
  | b :: bs => 16 <= b.1 /\ sizes h a = Some (p, stored b) /\ layout h (a + b.1) (tag b) bs
  end.

(** The addresses of the free blocks. *)
Fixpoint frees (a : Z) (bs : list block) : list Z :=
  match bs with
  | [] => []
  | b :: bs => (if b.2 then [a] else []) ++ frees (a + b.1) bs
  end.

(** No two free blocks are neighbours. *)
Fixpoint separate (prev : bool) (bs : list block) : Prop :=
  match bs with
  | [] => True
  | b :: bs => prev && b.2 = false /\ separate b.2 bs
  end.

Lemma total_app bs1 bs2 : total (bs1 ++ bs2) = total bs1 + total bs2.
Proof. induction bs1 as [|b bs1 IH]; simpl; [done|]. rewrite IH. lia. Qed.
Lemma used_app bs1 bs2 : used (bs1 ++ bs2) = used bs1 + used bs2.
Proof. induction bs1 as [|b bs1 IH]; simpl; [done|]. rewrite IH. lia. Qed.
Lemma frees_app a bs1 bs2 : frees a (bs1 ++ bs2) = frees a bs1 ++ frees (a + total bs1) bs2.
Proof.
  revert a. induction bs1 as [|b bs1 IH]; intros a; simpl; [by rewrite Z.add_0_r|].
  rewrite IH, <- app_assoc. do 3 f_equal. lia.
Qed.

Lemma layout_app h a p bs1 bs2 :
  layout h a p (bs1 ++ bs2) <-> exists q, seg h a p bs1 q /\ layout h (a + total bs1) q bs2.
Proof.
  revert a p. induction bs1 as [|b bs1 IH]; intros a p; simpl.
  - rewrite Z.add_0_r. naive_solver.
  - rewrite IH. replace (a + (b.1 + total bs1)) with (a + b.1 + total bs1) by lia. naive_solver.
Qed.

Lemma seg_app h a p bs1 bs2 q :
  seg h a p (bs1 ++ bs2) q <-> exists m, seg h a p bs1 m /\ seg h (a + total bs1) m bs2 q.
Proof.
  revert a p. induction bs1 as [|b bs1 IH]; intros a p; simpl.
  - rewrite Z.add_0_r. naive_solver.
  - rewrite IH. replace (a + (b.1 + total bs1)) with (a + b.1 + total bs1) by lia. naive_solver.
Qed.

Lemma seg_nonneg h a p bs q : seg h a p bs q -> 0 <= total bs /\ 0 <= used bs <= total bs.
Proof.
  revert a p. induction bs as [|b bs IH]; intros a p; simpl; [lia|]. intros (H1 & _ & H2).
  apply IH in H2. destruct b.2; lia.
Qed.

Lemma layout_nonneg h a p bs : layout h a p bs -> 0 <= total bs /\ 0 <= used bs <= total bs.
Proof.
  intros H. pose proof (layout_app h a p bs []) as E. rewrite app_nil_r in E.
  apply E in H as (q & H & _). by eapply seg_nonneg.
Qed.

(** Headers lie inside of their blocks. *)
Lemma seg_frame h h' a p bs q :
  (forall x, a <= x < a + total bs -> sizes h' x = sizes h x) -> seg h a p bs q -> seg h' a p bs q.
Proof.
  revert a p. induction bs as [|b bs IH]; intros a p Hf; simpl; [done|]. intros (H1 & H2 & H3).
  pose proof (seg_nonneg _ _ _ _ _ H3). simpl in Hf. split_and!; [done | rewrite Hf by lia; done |].
  apply IH; [|done]. intros x Hx. apply Hf. lia.
Qed.

Lemma layout_frame h h' a p bs :
  (forall x, a <= x <= a + total bs -> sizes h' x = sizes h x) -> layout h a p bs -> layout h' a p bs.
Proof.
  intros Hf Hl. pose proof (layout_app h a p bs []) as E. rewrite app_nil_r in E.
  apply E in Hl as (q & H1 & H2). pose proof (layout_app h' a p bs []) as E'. rewrite app_nil_r in E'.
  apply E'. exists q. split; [eapply seg_frame; [|exact H1]; intros; apply Hf; lia|].
  simpl in *. rewrite Hf; [done|]. pose proof (seg_nonneg _ _ _ _ _ H1). lia.
Qed.

(** The first header says what is before it. *)
Lemma layout_set_prev h a p p' bs : layout h a p bs -> layout (set_prev a p' h) a p' bs.
Proof.
  destruct bs as [|b bs]; simpl; autorewrite with fields; rewrite decide_True by done; [by intros ->|].
  intros (H1 & -> & H2). split_and!; [done | done |]. eapply layout_frame; [|exact H2].
  intros x Hx. autorewrite with fields. rewrite decide_False by lia. done.
Qed.

Lemma layout_prev h a p bs : layout h a p bs -> exists v, h !! a = Some v /\ prevfree v = p.
Proof.
  destruct bs as [|b bs]; simpl; [|intros (_ & H & _); revert H]; intros H;
    destruct (sizes_header _ _ _ _ H) as (v & Hv & Hp & _); eauto.
Qed.

Lemma seg_tag h a p bs q : seg h a p bs q -> q = from_option tag p (last bs).
Proof.
  revert a p. induction bs as [|b bs IH]; intros a p; simpl; [by intros ->|]. intros (_ & _ & H).
  apply IH in H. destruct bs as [|b' bs]; [done|]. change (last (b :: b' :: bs)) with (last (b' :: bs)).
  destruct (last (b' :: bs)) eqn:E; [done|]. by apply last_None in E.
Qed.

Lemma frees_range h a p bs q x : seg h a p bs q -> x ∈ frees a bs -> a <= x < a + total bs.
Proof.
  revert a p. induction bs as [|b bs IH]; intros a p; simpl; [set_solver|]. intros (H1 & _ & H2).
  pose proof (seg_nonneg _ _ _ _ _ H2). intros [Hx|Hx]%elem_of_app.
  - destruct b.2; [|set_solver]. apply list_elem_of_singleton in Hx as ->. lia.
  - specialize (IH _ _ H2 Hx). lia.
Qed.

Lemma frees_layout_range h a p bs x : layout h a p bs -> x ∈ frees a bs -> a <= x < a + total bs.
Proof.
  intros H. pose proof (layout_app h a p bs []) as E. rewrite app_nil_r in E.
  apply E in H as (q & H & _). by eapply frees_range.
Qed.

Lemma frees_NoDup h a p bs : layout h a p bs -> NoDup (frees a bs).
Proof.
  revert a p. induction bs as [|b bs IH]; intros a p; simpl; [constructor|]. intros (H1 & _ & H2).
  destruct b.2; simpl; [|by eapply IH]. constructor; [|by eapply IH].
  intros Hx. apply (frees_layout_range _ _ _ _ _ H2) in Hx. lia.
Qed.

(** The block at a free address. *)
Lemma frees_split a bs x : x ∈ frees a bs -> exists bs1 n bs2, bs = bs1 ++ (n, true) :: bs2 /\ x = a + total bs1.
Proof.
  revert a. induction bs as [|[n fr] bs IH]; intros a; simpl; [set_solver|]. intros [Hx|Hx]%elem_of_app.
  - destruct fr; [|set_solver]. apply list_elem_of_singleton in Hx as ->. exists [], n, bs. simpl. split; [done | lia].
  - destruct (IH _ Hx) as (bs1 & k & bs2 & -> & ->). exists ((n, fr) :: bs1), k, bs2. simpl. split; [done | lia].
Qed.

Lemma separate_app prev bs1 bs2 :
  separate prev (bs1 ++ bs2) <-> separate prev bs1 /\ separate (from_option snd prev (last bs1)) bs2.
Proof.
  revert prev. induction bs1 as [|b bs1 IH]; intros prev; simpl; [naive_solver|]. rewrite IH.
  destruct bs1 as [|b' bs1]; [simpl; naive_solver|].
  change (last (b :: b' :: bs1)) with (last (b' :: bs1)).
  destruct (last (b' :: bs1)) eqn:E; [simpl; naive_solver|]. by apply last_None in E.
Qed.

(** ** The invariant *)

Record pool `{Config} (s : heap) (base : Z) (bs : list block) (fl : list Z) : Prop := {
  po_base : freelist < base;
  po_size : total bs < 2 ^ 31;
  po_layout : layout (hdrs s) base 0 bs;
  po_separate : separate false bs;
  po_links : links (hdrs s) freelist fl;
  po_free : fl ≡ₚ frees base bs;
  po_used : BufStats = true -> totalloc s = used bs;
  po_null : compfcn s = 0 /\ acqfcn s = 0 /\ relfcn s = 0
}.

(** ** Running the code *)

Section Run.
Context {B : Type}.

Lemma hrun_get (k : heap -> M heap B) s : bind get k s = k s s.
Proof. done. Qed.
Lemma hrun_ret {A} (a : A) (k : A -> M heap B) s : bind (ret a) k s = k a s.
Proof. done. Qed.
Lemma hrun_modify f (k : unit -> M heap B) s : bind (modify f) k s = k tt (f s).
Proof. done. Qed.
Lemma hrun_assoc {A C} (m : M heap A) (f : A -> M heap C) (k : C -> M heap B) s :
  bind (bind m f) k s = bind m (fun a => bind (f a) k) s.
Proof. apply bind_assoc. Qed.
Lemma hrun_assert b msg (k : unit -> M heap B) s : b = true -> bind (assert b msg) k s = k tt s.
Proof. by intros ->. Qed.
Lemma hrun_hdr b v (k : bfhead -> M heap B) s : hdrs s !! b = Some v -> bind (hdr b) k s = k v s.
Proof. intros H. unfold hdr. rewrite hrun_assoc, hrun_get, H. done. Qed.
Lemma hrun_set_hdr b v f (k : unit -> M heap B) s :
  hdrs s !! b = Some v -> bind (set_hdr b f) k s = k tt (s <| hdrs := alter f b (hdrs s) |>).
Proof.
  intros H. unfold set_hdr. rewrite hrun_assoc, (hrun_hdr b v), hrun_modify by done.
  by rewrite (alter_alt_Some f _ _ v H).
Qed.
Lemma hrun_new_hdr b f (k : unit -> M heap B) s :
  bind (new_hdr b f) k s =
  k tt (s <| hdrs := <[b := f (default (mkB 0 0 0 0) (hdrs s !! b))]> (hdrs s) |>).
Proof. done. Qed.
End Run.

Lemma alter_known (f g : bfhead -> bfhead) b v (h : hmap) :
  h !! b = Some v -> f v = g v -> alter f b h = alter g b h.
Proof. intros H E. by rewrite (alter_alt_Some f _ _ v H), (alter_alt_Some g _ _ v H), E. Qed.

Lemma is_Some_sizes h x : is_Some (sizes h x) <-> is_Some (h !! x).
Proof. unfold sizes. apply fmap_is_Some. Qed.

Ltac hred := unfold setf; simpl.

Section Lists.
Context {B : Type} (k : unit -> M heap B).

Lemma run_assert_linked s x l1 b l2 :
  links (hdrs s) x (l1 ++ b :: l2) -> bind (assert_linked b) k s = k tt s.
Proof.
  intros Hl. destruct (links_neighbours _ _ _ _ _ Hl) as (v & Hv & _ & _ & H1 & H2).
  destruct (fwd_header _ _ _ H1) as (y & Hy & E1). destruct (bwd_header _ _ _ H2) as (z & Hz & E2).
  unfold assert_linked. rewrite hrun_assoc, (hrun_hdr b v) by done. rewrite hrun_assoc, (hrun_hdr _ y) by done.
  rewrite hrun_assoc, hrun_assert by (by apply Z.eqb_eq). rewrite hrun_assoc, (hrun_hdr _ z) by done.
  by rewrite hrun_assert by (by apply Z.eqb_eq).
Qed.

Lemma run_unlink_free s x l1 b l2 :
  links (hdrs s) x (l1 ++ b :: l2) ->
  bind (unlink_free b) k s = k tt (s <| hdrs := unlinked (hdrs s) b |>).
Proof.
  intros Hl. destruct (links_neighbours _ _ _ _ _ Hl) as (v & Hv & _ & _ & H1 & H2).
  destruct (fwd_header _ _ _ H1) as (y & Hy & E1).
  assert (is_Some (hdrs s !! flink v)) as Hz by (unfold bwd_of in H2; by destruct (hdrs s !! flink v)).
  assert (exists z, set_fwd (blink v) (flink v) (hdrs s) !! flink v = Some z) as (z & Hz').
  { apply is_Some_sizes. rewrite sizes_set_fwd. by apply is_Some_sizes. }
  unfold unlink_free. rewrite hrun_assoc, (hrun_hdr b v) by done.
  rewrite hrun_assoc, (hrun_set_hdr _ y) by done. rewrite (hrun_set_hdr _ z) by exact Hz'.
  unfold unlinked. rewrite Hv. f_equal.
Qed.

Lemma run_link_last s l b :
  links (hdrs s) freelist l -> is_Some (hdrs s !! b) ->
  bind (link_last b) k s = k tt (s <| hdrs := linked_last (hdrs s) b |>).
Proof.
  intros Hl Hb. destruct (links_last _ _ _ Hl) as [H1 H2].
  destruct (bwd_header _ _ _ H1) as (f & Hf & E1).
  destruct (fwd_header _ _ _ H2) as (x & Hx & E2). rewrite <- E1 in Hx.
  assert (exists y, hdrs s !! flink f = Some y /\ blink y = freelist) as (y & Hy & E3).
  { apply bwd_header. destruct l as [|z l]; simpl in Hl.
    - destruct Hl as [Hl1 Hl2]. unfold fwd_of in Hl1. rewrite Hf in Hl1. injection Hl1 as ->. done.
    - destruct Hl as (Hl1 & Hl2 & _). unfold fwd_of in Hl1. rewrite Hf in Hl1. injection Hl1 as ->. done. }
  assert (Hlive : forall h' a, (forall z, sizes h' z = sizes (hdrs s) z) -> is_Some (hdrs s !! a) -> exists v, h' !! a = Some v).
  { intros h' a E Ha. apply is_Some_sizes. rewrite E. by apply is_Some_sizes. }
  unfold link_last, linked_last. rewrite hrun_assoc, (hrun_hdr _ f) by done. rewrite hrun_assoc, (hrun_hdr _ x) by done.
  rewrite hrun_assoc, hrun_assert by (by apply Z.eqb_eq). rewrite hrun_assoc, (hrun_hdr _ y) by done.
  rewrite hrun_assoc, hrun_assert by (by apply Z.eqb_eq). destruct Hb as [v0 Hv0].
  rewrite hrun_assoc, (hrun_set_hdr _ v0) by done.
  destruct (Hlive (set_fwd b freelist (hdrs s)) b) as [v1 Hv1]; [intros; by autorewrite with fields | by eexists |].
  rewrite hrun_assoc, (hrun_set_hdr _ v1) by exact Hv1.
  destruct (Hlive (set_bwd b (blink f) (set_fwd b freelist (hdrs s))) freelist) as [v2 Hv2];
    [intros; by autorewrite with fields | by eexists |].
  rewrite hrun_assoc, (hrun_set_hdr _ v2) by exact Hv2.
  destruct (Hlive (set_bwd freelist b (set_bwd b (blink f) (set_fwd b freelist (hdrs s)))) (blink f)) as [v3 Hv3];
    [intros; by autorewrite with fields | by eexists |].
  rewrite (hrun_set_hdr _ v3) by exact Hv3. rewrite Hf. f_equal.
Qed.
End Lists.

Ltac decz := repeat first [rewrite decide_True by lia | rewrite decide_False by lia].

Lemma separate_weaken bs : separate true bs -> separate false bs.
Proof. destruct bs as [|b bs]; simpl; [done|]. naive_solver. Qed.

Section Correct.
Context {cf : Config} {ex : Expansion}.

Lemma size_q : 8 <= SizeQ.
Proof. unfold SizeQ, QLSize. destruct (Z.ltb_spec 8 SizeQuant); lia. Qed.

Lemma pool_total s base bs fl : pool s base bs fl -> 0 <= total bs /\ 0 <= used bs <= total bs.
Proof. intros H. by eapply layout_nonneg, po_layout. Qed.

(** The free list has no element twice, and its head is not one of them. *)
Lemma pool_nodup s base bs fl : pool s base bs fl -> NoDup (freelist :: fl) /\ freelist ∉ fl.
Proof.
  intros [Hb _ Hl _ _ Hp _ _].
  assert (Hfl : freelist ∉ fl).
  { rewrite Hp. intros H. apply (frees_layout_range _ _ _ _ _ Hl) in H. lia. }
  split; [|done]. constructor; [done|]. rewrite Hp. by eapply frees_NoDup.
Qed.

(** A free block and what is around it. *)
Lemma pool_open s base bs1 n fr bs2 fl :
  pool s base (bs1 ++ (n, fr) :: bs2) fl ->
  let b := base + total bs1 in
  exists q, seg (hdrs s) base 0 bs1 q /\ 0 <= total bs1 /\ 16 <= n /\ 0 <= total bs2 /\
    total bs1 + n + total bs2 < 2 ^ 31 /\
    sizes (hdrs s) b = Some (q, stored (n, fr)) /\ layout (hdrs s) (b + n) (tag (n, fr)) bs2 /\
    0 <= used bs1 /\ 0 <= used bs2 /\ used bs1 + used bs2 <= total bs1 + total bs2.
Proof.
  intros [_ Hs Hl _ _ _ _ _]. apply layout_app in Hl as (q & H1 & H2 & H3 & H4). simpl in H2, H3, H4.
  rewrite total_app in Hs. simpl in Hs. pose proof (seg_nonneg _ _ _ _ _ H1). pose proof (layout_nonneg _ _ _ _ H4).
  exists q. split_and!; try done; lia.
Qed.

Lemma pool_free_cases s base bs1 n bs2 fl z :
  pool s base (bs1 ++ (n, true) :: bs2) fl -> z ∈ freelist :: fl ->
  z < base + total bs1 \/ z = base + total bs1 \/ base + total bs1 + n <= z.
Proof.
  intros Hp Hz. destruct (pool_open _ _ _ _ _ _ _ Hp) as (q & H1 & Ht & Hn & _ & _ & _ & H2 & _).
  apply elem_of_cons in Hz as [->|Hz]; [destruct Hp; left; lia|].
  rewrite (po_free _ _ _ _ Hp), frees_app in Hz. simpl in Hz. apply elem_of_app in Hz as [Hz|Hz].
  - apply (frees_range _ _ _ _ _ _ H1) in Hz. lia.
  - apply elem_of_cons in Hz as [->|Hz]; [by right; left|].
    apply (frees_layout_range _ _ _ _ _ H2) in Hz. lia.
Qed.

Lemma pool_used_add s base bs1 n bs2 fl k :
  pool s base (bs1 ++ (n, true) :: bs2) fl -> 0 <= k <= n -> BufStats = true ->
  s32 (totalloc s + k) = used bs1 + used bs2 + k.
Proof.
  intros Hp Hk Hst. destruct (pool_open _ _ _ _ _ _ _ Hp) as (q & _ & Ht & Hn & Ht2 & Hs & _ & _ & U1 & U2 & U3).
  rewrite (po_used _ _ _ _ Hp Hst), used_app. simpl. rewrite s32_small; lia.
Qed.

(** The end of a free block is allocated. *)
Lemma take_split s base bs1 n bs2 fl size :
  pool s base (bs1 ++ (n, true) :: bs2) fl -> 16 <= size -> SizeQ + 8 < n - size ->
  let b := base + total bs1 in
  exists s', take_buffer b size s = Ret (b + (n - size) + 8) s' /\
    pool s' base (bs1 ++ (n - size, true) :: (size, false) :: bs2) fl.
Proof.
  intros Hp Hsz Hq b. pose proof size_q as HQ.
  destruct (pool_open _ _ _ _ _ _ _ Hp) as (q & H1 & Ht & Hn & Ht2 & Hs & Hb & H2 & U1 & U2 & U3).
  fold b in Hb, H2. unfold stored, tag in Hb, H2. simpl in Hb, H2.
  destruct (sizes_header _ _ _ _ Hb) as (v & Hv & Ep & Es).
  destruct (layout_prev _ _ _ _ H2) as (w & Hw & Ew).
  set (ba := b + (n - size)). set (h1 := set_size b (n - size) (hdrs s)).
  set (h2 := set_new ba (n - size) (- size) h1). set (h3 := set_prev (b + n) 0 h2).
  assert (Hh2 : exists w', h2 !! (b + n) = Some w').
  { apply is_Some_sizes. unfold h2, h1, ba. autorewrite with fields. decz. apply is_Some_sizes. by exists w. }
  destruct Hh2 as [w' Hw'].
  unfold take_buffer. rewrite (hrun_hdr b v), Es, s32_small, u32_small by (done || lia). unfold sizeof_bhead.
  rewrite (proj2 (Z.ltb_lt (SizeQ + 8) (n - size))) by lia. fold ba.
  replace (ba + size) with (b + n) by (unfold ba; lia).
  rewrite (hrun_hdr _ w), hrun_assert by (done || by apply Z.eqb_eq).
  rewrite (hrun_set_hdr b v) by done. rewrite hrun_new_hdr.
  change (alter (fun x => x <| bsize := n - size |>) b (hdrs s)) with h1. hred.
  fold (set_new ba (n - size) (- size) h1). change (<[ba := _]> h1) with h2.
  rewrite (hrun_set_hdr _ w') by exact Hw'. simpl. change (alter _ (b + n) h2) with h3.
  assert (Hpool : forall s', hdrs s' = h3 -> (BufStats = true -> totalloc s' = used bs1 + used bs2 + size) ->
    compfcn s' = compfcn s /\ acqfcn s' = acqfcn s /\ relfcn s' = relfcn s ->
    pool s' base (bs1 ++ (n - size, true) :: (size, false) :: bs2) fl).
  { intros s' Eh Eu (En1 & En2 & En3). pose proof Hp as [P1 P2 P3 P4 P5 P6 P7 P8].
    split; rewrite ?Eh, ?En1, ?En2, ?En3; try done.
    - rewrite total_app. simpl. lia.
    - apply layout_app. exists q. split.
      + eapply seg_frame; [|exact H1]. intros x Hx. unfold h3, h2, h1, ba. autorewrite with fields. by decz.
      + simpl. fold b. replace (b + (n - size) + size) with (b + n) by lia.
        assert (Hbb : sizes h3 b = Some (q, n - size)).
        { unfold h3, h2, h1, ba. autorewrite with fields. decz. by rewrite Hb. }
        assert (Hba : sizes h3 ba = Some (n - size, - size)).
        { unfold h3, h2, h1, ba. autorewrite with fields. by decz. }
        split_and!; [lia | done | lia | done |].
        apply (layout_set_prev _ _ n). eapply layout_frame; [|exact H2]. intros x Hx.
        unfold h2, h1, ba. autorewrite with fields. by decz.
    - apply separate_app in P4 as [P4 P4']. apply separate_app. split; [done|]. simpl in P4' |- *.
      destruct P4' as [P4' P5']. split_and!; [done | done | by apply separate_weaken].
    - eapply links_frame; [| |exact P5]; intros z Hz;
        destruct (pool_free_cases _ _ _ _ _ _ z Hp Hz) as [?|[?|?]];
        unfold h3, h2, h1, ba; autorewrite with fields; rewrite ?fwd_set_new, ?bwd_set_new by (unfold b in *; lia);
        by autorewrite with fields.
    - rewrite P6, !frees_app. simpl. by replace (base + total bs1 + (n - size) + size) with (base + total bs1 + n) by lia.
    - intros Hst. rewrite Eu by done. rewrite used_app. simpl. lia. }
  unfold stat. destruct BufStats eqn:Est.
  - rewrite hrun_modify. eexists. split; [done|]. apply Hpool; try done. intros _. simpl.
    apply (pool_used_add s base bs1 n bs2 fl); [done | lia | done].
  - rewrite hrun_ret. eexists. split; [done|]. by apply Hpool.
Qed.

(** A free block is allocated as a whole. *)
Lemma take_whole s base bs1 n bs2 fl size :
  pool s base (bs1 ++ (n, true) :: bs2) fl -> 16 <= size <= n -> n - size <= SizeQ + 8 ->
  let b := base + total bs1 in
  exists s' fl', take_buffer b size s = Ret (b + 8) s' /\ pool s' base (bs1 ++ (n, false) :: bs2) fl'.
Proof.
  intros Hp Hsz Hq b. pose proof size_q as HQ.
  destruct (pool_open _ _ _ _ _ _ _ Hp) as (q & H1 & Ht & Hn & Ht2 & Hs & Hb & H2 & U1 & U2 & U3).
  fold b in Hb, H2. unfold stored, tag in Hb, H2. simpl in Hb, H2.
  destruct (sizes_header _ _ _ _ Hb) as (v & Hv & Ep & Es). destruct (layout_prev _ _ _ _ H2) as (w & Hw & Ew).
  destruct (pool_nodup _ _ _ _ Hp) as [Hnd Hfl].
  assert (Hbf : b ∈ fl).
  { rewrite (po_free _ _ _ _ Hp), frees_app. simpl. fold b. set_solver. }
  apply list_elem_of_split in Hbf as (l1 & l2 & ->). pose proof (po_links _ _ _ _ Hp) as Hlk.
  set (h1 := unlinked (hdrs s) b). set (h2 := set_size b (- n) h1). set (h3 := set_prev (b + n) 0 h2).
  assert (Hlive : forall h' a, (forall z, is_Some (sizes h' z) <-> is_Some (sizes (hdrs s) z)) -> is_Some (hdrs s !! a) ->
    exists x, h' !! a = Some x).
  { intros h' a E Ha. apply is_Some_sizes, E. by apply is_Some_sizes. }
  destruct (Hlive h1 b) as [v1 Hv1]; [intros; unfold h1; by rewrite sizes_unlinked | by eexists |].
  destruct (Hlive h2 (b + n)) as [w1 Hw1]; [| by eexists |].
  { intros z. unfold h2, h1. autorewrite with fields. rewrite sizes_unlinked. case_decide; [|done].
    by rewrite fmap_is_Some. }
  unfold take_buffer. rewrite (hrun_hdr b v), Es, s32_small, u32_small by (done || lia). unfold sizeof_bhead.
  rewrite (proj2 (Z.ltb_ge (SizeQ + 8) (n - size))) by lia.
  rewrite (hrun_hdr _ w), hrun_assert by (done || by apply Z.eqb_eq).
  rewrite (run_assert_linked _ s freelist l1 b l2) by done.
  rewrite (run_unlink_free _ s freelist l1 b l2) by done. fold h1.
  assert (Hpool : forall s', hdrs s' = h3 -> (BufStats = true -> totalloc s' = used bs1 + used bs2 + n) ->
    compfcn s' = compfcn s /\ acqfcn s' = acqfcn s /\ relfcn s' = relfcn s ->
    pool s' base (bs1 ++ (n, false) :: bs2) (l1 ++ l2)).
  { intros s' Eh Eu (En1 & En2 & En3). pose proof Hp as [P1 P2 P3 P4 P5 P6 P7 P8].
    split; rewrite ?Eh, ?En1, ?En2, ?En3; try done.
    - rewrite total_app. simpl. lia.
    - apply layout_app. exists q. split.
      + eapply seg_frame; [|exact H1]. intros x Hx. unfold h3, h2, h1. autorewrite with fields. decz. apply sizes_unlinked.
      + simpl. fold b. unfold stored, tag. simpl. split_and!; [lia | |].
        * unfold h3, h2, h1. autorewrite with fields. decz. by rewrite sizes_unlinked, Hb.
        * apply (layout_set_prev _ _ n). eapply layout_frame; [|exact H2]. intros x Hx.
          unfold h2, h1. autorewrite with fields. decz. apply sizes_unlinked.
    - apply separate_app in P4 as [P4 P4']. apply separate_app. split; [done|]. simpl in P4' |- *.
      destruct P4' as [P4' P5']. split; [by rewrite andb_false_r | by apply separate_weaken].
    - eapply links_frame; [| |apply (links_unlink _ _ _ _ _ P5 Hnd Hfl)]; intros z _;
        unfold h3, h2; by autorewrite with fields.
    - rewrite frees_app in P6 |- *. simpl in P6 |- *. fold b in P6 |- *.
      apply (Permutation_cons_inv (a := b)). by rewrite !Permutation_middle.
    - intros Hst. rewrite Eu by done. rewrite used_app. simpl. lia. }
  unfold stat. destruct BufStats eqn:Est.
  - rewrite hrun_modify. hred. rewrite (hrun_set_hdr b v1) by exact Hv1. hred.
    change (alter _ b h1) with h2. rewrite (hrun_set_hdr _ w1) by exact Hw1. change (alter _ (b + n) _) with h3.
    eexists _, _. split; [done|]. apply Hpool; try done. intros _. simpl.
    apply (pool_used_add s base bs1 n bs2 (l1 ++ b :: l2)); [done | lia | done].
  - rewrite hrun_ret. rewrite (hrun_set_hdr b v1) by exact Hv1. hred.
    change (alter _ b h1) with h2. rewrite (hrun_set_hdr _ w1) by exact Hw1. change (alter _ (b + n) _) with h3.
    eexists _, _. split; [done|]. by apply Hpool.
Qed.

(** ** The search *)

(** The size in a header. *)
Definition size_at (h : hmap) (z : Z) : Z := from_option snd 0 (sizes h z).

Lemma links_next h x l : links h x l -> exists v, h !! x = Some v /\ flink v = hd freelist l.
Proof. destruct l as [|y l]; simpl; intros (H & _); by apply fwd_header. Qed.

Fixpoint best_of (h : hmap) (l : list Z) (best size : Z) : Z :=
  match l with
  | [] => best
  | z :: l =>
      best_of h l (if (size <=? size_at h z) && ((best =? freelist) || (size_at h z <? size_at h best))
                   then z else best) size
  end.

Lemma size_at_bsize h z v : h !! z = Some v -> size_at h z = bsize v.
Proof. unfold size_at, sizes. by intros ->. Qed.

Lemma best_scan_ok s size l : forall fuel best,
  (forall x, x ∈ l -> x <> freelist) -> (match l with [] => True | z :: l => links (hdrs s) z l end) ->
  is_Some (hdrs s !! best) -> (length l < fuel)%nat ->
  best_scan fuel (hd freelist l) best size s = Ret (best_of (hdrs s) l best size) s.
Proof.
  induction l as [|z l IH]; intros [|fuel] best Hne Hl Hb Hf; simpl in Hf; try lia; cbn [best_scan best_of hd].
  - done.
  - rewrite (proj2 (Z.eqb_neq z freelist)) by (apply Hne; set_solver).
    destruct (links_next _ _ _ Hl) as (v & Hv & Ev). destruct Hb as [w Hw].
    rewrite (hrun_hdr z v), (hrun_hdr best w), Ev by done.
    rewrite (size_at_bsize _ z v Hv), (size_at_bsize _ best w Hw). apply IH.
    + intros x Hx. apply Hne. set_solver.
    + destruct l; [done|]. by destruct Hl as (_ & _ & Hl).
    + destruct (_ && _); by eexists.
    + lia.
Qed.

(** The best fit: large enough, and no other one that is large enough is
    smaller. *)
Lemma best_of_spec h size l : forall best,
  (forall x, x ∈ l -> x <> freelist) -> best = freelist \/ size <= size_at h best ->
  let r := best_of h l best size in
  (r = freelist /\ best = freelist /\ forall z, z ∈ l -> size_at h z < size) \/
  (r <> freelist /\ (r = best \/ r ∈ l) /\ size <= size_at h r /\
   (best <> freelist -> size_at h r <= size_at h best) /\
   forall z, z ∈ l -> size <= size_at h z -> size_at h r <= size_at h z).
Proof.
  induction l as [|z l IH]; intros best Hne Hb; simpl.
  { destruct (decide (best = freelist)); [left; set_solver | right]. split_and!; try done; [by left | | set_solver].
    by destruct Hb. }
  assert (Hz : z <> freelist) by (apply Hne; set_solver).
  assert (Hne' : forall x, x ∈ l -> x <> freelist) by (intros x Hx; apply Hne; set_solver).
  destruct (Z.leb_spec size (size_at h z)) as [Hle|Hlt]; simpl.
  - destruct (Z.eqb_spec best freelist) as [->|Hbf]; simpl.
    + destruct (IH z Hne' (or_intror Hle)) as [(_ & ? & _)|(H1 & H2 & H3 & H4 & H5)]; [done|]. right.
      specialize (H4 Hz). split_and!; [done | set_solver | done | done |].
      intros x [->|Hx]%elem_of_cons; [done | by apply H5].
    + destruct Hb as [?|Hb]; [done|]. destruct (Z.ltb_spec (size_at h z) (size_at h best)) as [Hl|Hl].
      * destruct (IH z Hne' (or_intror Hle)) as [(_ & ? & _)|(H1 & H2 & H3 & H4 & H5)]; [done|]. right.
        specialize (H4 Hz). split_and!; [done | set_solver | done | intros _; lia |].
        intros x [->|Hx]%elem_of_cons; [done | by apply H5].
      * destruct (IH best Hne' (or_intror Hb)) as [(_ & ? & _)|(H1 & H2 & H3 & H4 & H5)]; [done|]. right.
        specialize (H4 Hbf). split_and!; [done | set_solver | done | done |].
        intros x [->|Hx]%elem_of_cons; [lia | by apply H5].
  - destruct (IH best Hne' Hb) as [(H1 & H2 & H3)|(H1 & H2 & H3 & H4 & H5)]; [left | right].
    + split_and!; [done | done |]. intros x [->|Hx]%elem_of_cons; [lia | by apply H3].
    + split_and!; [done | set_solver | done | done |]. intros x [->|Hx]%elem_of_cons; [lia | by apply H5].
Qed.

(** The first buffer that is large enough. *)
Lemma fit_loop_ok s size l : forall fuel,
  (forall x, x ∈ l -> x <> freelist) -> (match l with [] => True | z :: l => links (hdrs s) z l end) ->
  (length l < fuel)%nat ->
  fit_loop fuel (hd freelist l) size s =
  match List.find (fun z => size <=? size_at (hdrs s) z) l with
  | Some z => bind (take_buffer z size) (fun buf => ret (Some buf)) s
  | None => Ret None s
  end.
Proof.
  induction l as [|z l IH]; intros [|fuel] Hne Hl Hf; simpl in Hf; try lia; cbn [fit_loop hd List.find]; [done|].
  rewrite (proj2 (Z.eqb_neq z freelist)) by (apply Hne; set_solver).
  destruct (links_next _ _ _ Hl) as (v & Hv & Ev). rewrite (hrun_hdr z v), (size_at_bsize _ z v Hv), Ev by done.
  destruct (size <=? bsize v); [done|]. apply IH; [intros x Hx; apply Hne; set_solver | | lia].
  destruct l; [done|]. by destruct Hl as (_ & _ & Hl).
Qed.

Lemma links_suffix h x l1 z l2 : links h x (l1 ++ z :: l2) -> links h z l2.
Proof. revert x. induction l1 as [|y l1 IH]; intros x; simpl; intros (_ & _ & H); [done | by eapply IH]. Qed.

Lemma links_live h x l z : links h x l -> z ∈ x :: l -> is_Some (h !! z).
Proof.
  revert x. induction l as [|y l IH]; intros x Hl Hz; destruct (links_next _ _ _ Hl) as (v & Hv & _).
  - apply list_elem_of_singleton in Hz as ->. by eexists.
  - apply elem_of_cons in Hz as [->|Hz]; [by eexists|]. destruct Hl as (_ & _ & Hl). by eapply IH.
Qed.

Lemma scan_fuel_enough s base bs fl : pool s base bs fl -> (length fl < scan_fuel s)%nat.
Proof.
  intros Hp. destruct (pool_nodup _ _ _ _ Hp) as [[_ Hnd]%NoDup_cons _]. unfold scan_fuel. apply Nat.lt_succ_r.
  rewrite <- size_dom, <- (size_list_to_set (C := gset Z) fl Hnd). apply subseteq_size. intros z Hz.
  apply elem_of_list_to_set in Hz. apply elem_of_dom. eapply links_live; [exact (po_links _ _ _ _ Hp)|]. set_solver.
Qed.

(** The size that the header of a free block has. *)
Lemma size_at_block s base bs1 n bs2 fl :
  pool s base (bs1 ++ (n, true) :: bs2) fl -> size_at (hdrs s) (base + total bs1) = n.
Proof.
  intros Hp. destruct (pool_open _ _ _ _ _ _ _ Hp) as (q & _ & _ & _ & _ & _ & Hb & _).
  unfold size_at. by rewrite Hb.
Qed.

Lemma free_block s base bs fl z : pool s base bs fl -> z ∈ fl ->
  exists bs1 bs2, bs = bs1 ++ (size_at (hdrs s) z, true) :: bs2 /\ z = base + total bs1.
Proof.
  intros Hp Hz. rewrite (po_free _ _ _ _ Hp) in Hz. destruct (frees_split _ _ _ Hz) as (bs1 & n & bs2 & -> & ->).
  exists bs1, bs2. by rewrite (size_at_block _ _ _ _ _ _ Hp).
Qed.

Lemma block_free s base bs fl n : pool s base bs fl -> (n, true) ∈ bs ->
  exists z, z ∈ fl /\ size_at (hdrs s) z = n.
Proof.
  intros Hp (bs1 & bs2 & ->)%list_elem_of_split. exists (base + total bs1). split.
  - rewrite (po_free _ _ _ _ Hp), frees_app. simpl. set_solver.
  - by eapply size_at_block.
Qed.

(** What the search makes of a request for a block of [size] bytes. *)
Lemma search_ok s base bs fl fuel size seq :
  pool s base bs fl ->
  ((forall n, (n, true) ∈ bs -> n < size) /\ search (S fuel) size seq s = Ret None s) \/
  exists bs1 n bs2, bs = bs1 ++ (n, true) :: bs2 /\ size <= n /\
    (BestFit = true -> forall k, (k, true) ∈ bs -> size <= k -> n <= k) /\
    search (S fuel) size seq s =
      bind (take_buffer (base + total bs1) size) (fun buf => ret (Some buf)) s.
Proof.
  intros Hp. pose proof (scan_fuel_enough _ _ _ _ Hp) as Hf. pose proof (po_links _ _ _ _ Hp) as Hl.
  destruct (pool_nodup _ _ _ _ Hp) as [_ Hfl]. pose proof (po_null _ _ _ _ Hp) as (Hn1 & _).
  assert (Hne : forall x, x ∈ fl -> x <> freelist) by (intros x Hx ->; done).
  destruct (links_next _ _ _ Hl) as (f & Hfv & Ef).
  assert (Hnone : forall n, (forall z, z ∈ fl -> size_at (hdrs s) z < size) -> (n, true) ∈ bs -> n < size).
  { intros n Hall Hn. destruct (block_free _ _ _ _ _ Hp Hn) as (z & Hz & <-). by apply Hall. }
  assert (Htake : forall z, z ∈ fl -> size <= size_at (hdrs s) z ->
    (BestFit = true -> forall x, x ∈ fl -> size <= size_at (hdrs s) x -> size_at (hdrs s) z <= size_at (hdrs s) x) ->
    forall o, o = bind (take_buffer z size) (fun buf => ret (Some buf)) s ->
    exists bs1 n bs2, bs = bs1 ++ (n, true) :: bs2 /\ size <= n /\
      (BestFit = true -> forall k, (k, true) ∈ bs -> size <= k -> n <= k) /\
      o = bind (take_buffer (base + total bs1) size) (fun buf => ret (Some buf)) s).
  { intros z Hz Hle Hbest o ->. destruct (free_block _ _ _ _ _ Hp Hz) as (bs1 & bs2 & Hbs & ->).
    exists bs1, (size_at (hdrs s) (base + total bs1)), bs2. split_and!; try done.
    intros Hbf k Hk Hsk. destruct (block_free _ _ _ _ _ Hp Hk) as (x & Hx & <-). by apply Hbest. }
  assert (Hfail : forall m : M heap (option Z), m s = Ret None s ->
    bind m (fun o => match o with
      | Some buf => ret (Some buf)
      | None => bind get (fun h => if negb BECtl || (compfcn h =? 0) then ret None else
          bind (call_compact (compfcn h) size (seq + 1)) (fun ok : bool => if ok then search fuel size (seq + 1) else ret None))
      end) s = Ret None s).
  { intros m Hm. rewrite (bind_Ret _ _ _ _ _ Hm), hrun_get, Hn1. by rewrite orb_true_r. }
  assert (Hsome : forall (m : M heap (option Z)) z,
    m s = bind (take_buffer z size) (fun buf => ret (Some buf)) s ->
    bind m (fun o => match o with
      | Some buf => ret (Some buf)
      | None => bind get (fun h => if negb BECtl || (compfcn h =? 0) then ret None else
          bind (call_compact (compfcn h) size (seq + 1)) (fun ok : bool => if ok then search fuel size (seq + 1) else ret None))
      end) s = bind (take_buffer z size) (fun buf => ret (Some buf)) s).
  { intros m z Hm. unfold bind at 1. rewrite Hm. unfold bind. by destruct (take_buffer z size s). }
  cbn [search]. rewrite hrun_get, (hrun_hdr _ f), Ef by done. destruct BestFit eqn:EB.
  - assert (Hm : match fl with [] => True | z :: l => links (hdrs s) z l end).
    { destruct fl; [done|]. by destruct Hl as (_ & _ & ?). }
    rewrite (bind_Ret _ _ _ _ _ (best_scan_ok s size fl _ freelist Hne Hm ltac:(by eexists) Hf)).
    destruct (best_of_spec (hdrs s) size fl freelist Hne (or_introl eq_refl)) as [(Hr & _ & Hall)|(Hr & Hin & Hle & _ & Hmin)].
    + left. split; [intros n; by apply Hnone|]. apply Hfail. rewrite Hr.
      apply (fit_loop_ok s size [] (scan_fuel s)); [set_solver | done | simpl in *; lia].
    + right. destruct Hin as [?|Hin]; [done|]. eapply Htake; [exact Hin | done | by intros _ |]. apply Hsome.
      set (r := best_of (hdrs s) fl freelist size) in *.
      pose proof Hin as (l1 & l2 & E)%list_elem_of_split.
      pose proof (fit_loop_ok s size (r :: l2) (scan_fuel s)) as H. simpl in H. rewrite (proj2 (Z.leb_le _ _) Hle) in H.
      apply H; [intros x Hx; apply Hne; rewrite E; set_solver | by rewrite E in Hl; eapply links_suffix |].
      rewrite E, length_app in Hf. simpl in Hf. lia.
  - assert (Hm : match fl with [] => True | z :: l => links (hdrs s) z l end).
    { destruct fl; [done|]. by destruct Hl as (_ & _ & ?). }
    rewrite hrun_ret. pose proof (fit_loop_ok s size fl (scan_fuel s) Hne Hm Hf) as H.
    destruct (List.find _ fl) as [z|] eqn:E.
    + right. apply find_some in E as [E1 E2]. apply list_elem_of_In in E1. apply Z.leb_le in E2.
      eapply Htake; [exact E1 | done | done |]. by apply Hsome.
    + left. split; [|by apply Hfail]. intros n. apply Hnone. intros z Hz.
      pose proof (find_none _ _ E z (proj1 (list_elem_of_In _ _) Hz)) as Hlt. simpl in Hlt. by apply Z.leb_gt in Hlt.
Qed.

(** ** bget *)

Lemma land_le x m : 0 <= m -> Z.land x m <= m.
Proof.
  intros Hm. assert (m - Z.land m x = Z.ldiff m x) as H.
  { rewrite (Z.sub_nocarry_ldiff m (Z.land m x)).
    - apply Z.bits_inj'. intros i Hi. rewrite !Z.ldiff_spec, Z.land_spec. by destruct (Z.testbit m i), (Z.testbit x i).
    - apply Z.bits_inj'. intros i Hi. rewrite Z.ldiff_spec, Z.land_spec, Z.bits_0.
      by destruct (Z.testbit m i), (Z.testbit x i). }
  assert (0 <= Z.ldiff m x) by (apply Z.ldiff_nonneg; by left). rewrite Z.land_comm. lia.
Qed.

Lemma round_down x m : 0 <= m -> x - m <= Z.land x (Z.lnot m) <= x.
Proof.
  intros Hm. assert (Z.land x (Z.lnot m) = x - Z.land x m) as ->.
  { rewrite (Z.sub_nocarry_ldiff x (Z.land x m)).
    - apply Z.bits_inj'. intros i Hi. rewrite Z.land_spec, Z.lnot_spec, Z.ldiff_spec, Z.land_spec by done.
      by destruct (Z.testbit m i), (Z.testbit x i).
    - apply Z.bits_inj'. intros i Hi. rewrite Z.ldiff_spec, Z.land_spec, Z.bits_0.
      by destruct (Z.testbit m i), (Z.testbit x i). }
  pose proof (land_le x m Hm). assert (0 <= Z.land x m) by (apply Z.land_nonneg; by right). lia.
Qed.

(** A request that does not overflow when it is rounded up. *)
Definition sane (requested_size : Z) : Prop :=
  0 < requested_size /\ requested_size + SizeQ + SizeQuant + 8 < 2 ^ 31.

Lemma buffer_size_ok req : sane req -> req + 8 <= buffer_size req /\ 16 <= buffer_size req.
Proof.
  intros [H1 H2]. pose proof size_q. pose proof size_quant_pos as Hq. unfold buffer_size, sizeof_bhead.
  set (size := if req <? SizeQ then SizeQ else req).
  assert (Hs : req <= size /\ SizeQ <= size /\ size <= req + SizeQ).
  { unfold size. destruct (Z.ltb_spec req SizeQ); lia. }
  rewrite (s32_small (size + (SizeQuant - 1))) by lia.
  pose proof (round_down (size + (SizeQuant - 1)) (SizeQuant - 1)). rewrite s32_small; lia.
Qed.

Lemma bget_runs s base bs fl fuel req :
  pool s base bs fl -> sane req ->
  let size := buffer_size req in
  ((forall n, (n, true) ∈ bs -> n < size) /\ bget (S fuel) req s = Ret 0 s) \/
  exists bs1 n bs2 s' fl', bs = bs1 ++ (n, true) :: bs2 /\ size <= n /\
    (BestFit = true -> forall k, (k, true) ∈ bs -> size <= k -> n <= k) /\
    let b := base + total bs1 in
    if SizeQ + 8 <? n - size
    then bget (S fuel) req s = Ret (b + (n - size) + 8) s' /\
         pool s' base (bs1 ++ (n - size, true) :: (size, false) :: bs2) fl'
    else bget (S fuel) req s = Ret (b + 8) s' /\ pool s' base (bs1 ++ (n, false) :: bs2) fl'.
Proof.
  intros Hp Hreq size. destruct (buffer_size_ok _ Hreq) as [_ H16]. fold size in H16.
  pose proof (po_null _ _ _ _ Hp) as (_ & Hn2 & _). cbn [bget].
  rewrite hrun_assert by (apply Z.ltb_lt; by destruct Hreq). fold size.
  destruct (search_ok s base bs fl fuel size 0 Hp) as [[Hall Hs]|(bs1 & n & bs2 & -> & Hle & Hbest & Hs)].
  - left. split; [done|]. rewrite (bind_Ret _ _ _ _ _ Hs), hrun_get, Hn2. by rewrite orb_true_r.
  - right. exists bs1, n, bs2. set (b := base + total bs1) in *.
    assert (Hret : forall buf s', take_buffer b size s = Ret buf s' ->
      forall k : option Z -> M heap Z, bind (search (S fuel) size 0) k s = k (Some buf) s').
    { intros buf s' Ht k. unfold bind at 1. rewrite Hs. by rewrite (bind_Ret _ _ _ _ _ Ht). }
    destruct (Z.ltb_spec (SizeQ + 8) (n - size)) as [Hlt|Hge].
    + destruct (take_split s base bs1 n bs2 fl size Hp H16 Hlt) as (s' & Ht & Hp'). fold b in Ht.
      exists s', fl. split_and!; try done. by rewrite (Hret _ _ Ht).
    + destruct (take_whole s base bs1 n bs2 fl size Hp ltac:(lia) Hge) as (s' & fl' & Ht & Hp'). fold b in Ht.
      exists s', fl'. split_and!; try done. by rewrite (Hret _ _ Ht).
Qed.
End Correct.

(** ** brel *)

(** The part of the invariant that is about headers. *)
Record shape (h : hmap) (base : Z) (bs : list block) (fl : list Z) : Prop := {
  sh_base : freelist < base;
  sh_size : total bs < 2 ^ 31;
  sh_layout : layout h base 0 bs;
  sh_separate : separate false bs;
  sh_links : links h freelist fl;
  sh_free : fl ≡ₚ frees base bs
}.

Definition head_free (bs : list block) : bool := match bs with (_, fr) :: _ => fr | [] => false end.
Definition last_free (bs : list block) : bool := from_option snd false (last bs).

(** A free block of [m] bytes behind the blocks [bs1], where the block after it
    still has [r] in its header. *)
Record loose (h : hmap) (base : Z) (bs1 : list block) (m r : Z) (bs2 : list block) (fl : list Z) : Prop := {
  lo_base : freelist < base;
  lo_size : total bs1 + m + total bs2 < 2 ^ 31;
  lo_block : exists q, seg h base 0 bs1 q /\ sizes h (base + total bs1) = Some (q, m);
  lo_min : 16 <= m;
  lo_rest : layout h (base + total bs1 + m) r bs2;
  lo_sep : separate false bs1 /\ last_free bs1 = false /\ separate false bs2;
  lo_links : links h freelist fl;
  lo_free : fl ≡ₚ frees base (bs1 ++ (m, true) :: bs2)
}.

Lemma shape_nodup h base bs fl : shape h base bs fl -> NoDup (freelist :: fl) /\ freelist ∉ fl.
Proof.
  intros [Hb _ Hl _ _ Hp]. assert (Hfl : freelist ∉ fl).
  { rewrite Hp. intros H. apply (frees_layout_range _ _ _ _ _ Hl) in H. lia. }
  split; [|done]. constructor; [done|]. rewrite Hp. by eapply frees_NoDup.
Qed.

(** The block after the free one learns of it. *)
Lemma loose_layout h base bs1 m r bs2 fl :
  loose h base bs1 m r bs2 fl -> layout (set_prev (base + total bs1 + m) m h) base 0 (bs1 ++ (m, true) :: bs2).
Proof.
  intros [_ _ (q & H3 & H4) H5 H6 _ _ _]. pose proof (seg_nonneg _ _ _ _ _ H3).
  apply layout_app. exists q. split.
  - eapply seg_frame; [|exact H3]. intros x Hx. autorewrite with fields. by decz.
  - simpl. unfold stored, tag. simpl. split_and!; [done | |].
    + autorewrite with fields. by decz.
    + by eapply layout_set_prev.
Qed.

Lemma loose_close h base bs1 m r bs2 fl :
  loose h base bs1 m r bs2 fl -> head_free bs2 = false ->
  shape (set_prev (base + total bs1 + m) m h) base (bs1 ++ (m, true) :: bs2) fl.
Proof.
  intros Hlo Hh. pose proof (loose_layout _ _ _ _ _ _ _ Hlo). destruct Hlo as [H1 H2 _ H5 H6 (H7 & H8 & H9) H10 H11].
  split; try done.
  - rewrite total_app. simpl. lia.
  - apply separate_app. split; [done|]. unfold last_free in H8. rewrite H8. simpl. split; [done|].
    destruct bs2 as [|[k fr] bs2]; [done|]. simpl in *. subst fr. naive_solver.
  - eapply links_frame; [| |exact H10]; intros; by autorewrite with fields.
Qed.

Lemma loose_nodup h base bs1 m r bs2 fl :
  loose h base bs1 m r bs2 fl -> NoDup (freelist :: fl) /\ freelist ∉ fl.
Proof.
  intros Hlo. pose proof (loose_layout _ _ _ _ _ _ _ Hlo) as Hl. destruct Hlo as [Hb _ _ _ _ _ _ Hp].
  assert (Hfl : freelist ∉ fl).
  { rewrite Hp. intros H. apply (frees_layout_range _ _ _ _ _ Hl) in H. lia. }
  split; [|done]. constructor; [done|]. rewrite Hp. by eapply frees_NoDup.
Qed.

Section Release.
Context {cf : Config} {ex : Expansion}.

Lemma release_back_ok s base bs1 n bs2 fl :
  shape (hdrs s) base (bs1 ++ (n, false) :: bs2) fl ->
  exists h' bs1' m fl', release_back (base + total bs1) s = Ret (base + total bs1') (s <| hdrs := h' |>) /\
    loose h' base bs1' m 0 bs2 fl' /\
    ((last_free bs1 = true /\ bs1 = bs1' ++ [(m - n, true)]) \/ (last_free bs1 = false /\ bs1' = bs1 /\ m = n)).
Proof.
  intros Hsh. pose proof Hsh as [S1 S2 S3 S4 S5 S6]. set (b := base + total bs1).
  apply layout_app in S3 as (q & H1 & Hn & Hb & H2). simpl in Hn, H2. unfold stored, tag in Hb, H2. simpl in Hb, H2.
  fold b in Hb, H2. rewrite total_app in S2. simpl in S2.
  apply separate_app in S4 as [S4 S4']. fold (last_free bs1) in S4'. simpl in S4'. destruct S4' as [_ S4'].
  pose proof (seg_nonneg _ _ _ _ _ H1). pose proof (layout_nonneg _ _ _ _ H2).
  destruct (sizes_header _ _ _ _ Hb) as (v & Hv & Ep & Es).
  unfold release_back. rewrite (hrun_hdr b v) by done.
  pose proof (seg_tag _ _ _ _ _ H1) as Eq.
  assert (Halone : q = 0 -> last_free bs1 = false -> exists h' bs1' m fl',
    (if negb (0 =? 0) then
       bind (hdr (b - 0)) (fun p => bind (assert (bsize p =? 0) "BH(b - b->bh.prevfree)->bsize == b->bh.prevfree") (fun _ =>
         bind (set_hdr (b - 0) (fun x => x <| bsize := s32 (bsize x - bsize v) |>)) (fun _ => ret (b - 0))))
     else bind (link_last b) (fun _ => bind (set_hdr b (fun x => x <| bsize := s32 (- bsize x) |>)) (fun _ => ret b))) s =
    Ret (base + total bs1') (s <| hdrs := h' |>) /\
    loose h' base bs1' m 0 bs2 fl' /\
    ((last_free bs1 = true /\ bs1 = bs1' ++ [(m - n, true)]) \/ (last_free bs1 = false /\ bs1' = bs1 /\ m = n))).
  { intros -> Hlf. cbn [negb Z.eqb]. rewrite (run_link_last _ s fl b) by (done || by eexists).
    set (h1 := linked_last (hdrs s) b). assert (exists w, h1 !! b = Some w) as [w Hw].
    { apply is_Some_sizes. unfold h1. rewrite sizes_linked_last. apply is_Some_sizes. by eexists. }
    assert (Ew : bsize w = - n).
    { pose proof (sizes_linked_last (hdrs s) b b) as E. fold h1 in E. rewrite Hb in E. unfold sizes in E.
      rewrite Hw in E. simpl in E. congruence. }
    rewrite (hrun_set_hdr _ w) by exact Hw.
    assert (Ea : alter (fun x => x <| bsize := s32 (- bsize x) |>) b h1 = set_size b n h1).
    { eapply (alter_known _ _ _ w); [exact Hw | hred; rewrite Ew, s32_small by lia; f_equal; lia]. }
    assert (Hbfl : b ∉ fl).
    { rewrite S6, frees_app. simpl. intros [Hin|Hin]%elem_of_app.
      - apply (frees_range _ _ _ _ _ _ H1) in Hin. lia.
      - apply (frees_layout_range _ _ _ _ _ H2) in Hin. lia. }
    destruct (shape_nodup _ _ _ _ Hsh) as [Hnd Hfl].
    exists (set_size b n h1), bs1, n, (fl ++ [b]). split_and!; [| | by right].
    { unfold ret. f_equal. rewrite <- Ea. done. }
    split; try done.
    + lia.
    + exists 0. split; [eapply seg_frame; [|exact H1]; intros x Hx|]; unfold h1; autorewrite with fields; fold b; decz;
        rewrite sizes_linked_last; [done|]. by rewrite Hb.
    + eapply layout_frame; [|exact H2]. intros x Hx. unfold h1. autorewrite with fields. decz. apply sizes_linked_last.
    + eapply (links_frame h1); [intros; by autorewrite with fields .. |].
      destruct (links_last _ _ _ S5) as [L1 L2]. destruct (bwd_header _ _ _ L1) as (f & Hf & Ef).
      unfold h1, linked_last. rewrite Hf, Ef. apply links_snoc; [done | | | by eexists].
      * apply NoDup_cons in Hnd as [Hn1 Hn2]. apply NoDup_cons. split.
        -- rewrite elem_of_app, list_elem_of_singleton. intros [?|E]; [done|]. unfold b in E. lia.
        -- apply NoDup_app. split_and!; [done | set_solver | apply NoDup_singleton].
      * rewrite elem_of_app, list_elem_of_singleton. intros [?|E]; [done|]. unfold b in E. lia.
    + rewrite S6, !frees_app. simpl. fold b. rewrite (Permutation_app_comm _ [b]). simpl. apply Permutation_middle. }
  unfold last_free in *.
  destruct (last bs1) as [[k fr]|] eqn:El; simpl in Eq; [destruct fr; simpl in Eq|].
  - apply last_Some in El as [bs1' ->]. unfold tag in Eq. simpl in Eq. rewrite Ep, Eq.
    assert (Htot : total (bs1' ++ [(k, true)]) = total bs1' + k) by (rewrite total_app; simpl; lia).
    apply seg_app in H1 as (q' & H1 & Hk & Hbk & _). simpl in Hk. unfold stored in Hbk. simpl in Hbk.
    pose proof (seg_nonneg _ _ _ _ _ H1). rewrite (proj2 (Z.eqb_neq k 0)) by lia. cbn [negb].
    replace (b - k) with (base + total bs1') by (unfold b; lia). set (p := base + total bs1') in *.
    destruct (sizes_header _ _ _ _ Hbk) as (w & Hw & Ew & Ew2).
    rewrite (hrun_hdr _ w), hrun_assert by (done || by apply Z.eqb_eq).
    rewrite (hrun_set_hdr _ w) by done. rewrite Es.
    rewrite (alter_known _ (fun x => x <| bsize := k + n |>) _ w) by (done || (hred; rewrite s32_small by lia; f_equal; lia)).
    fold (set_size p (k + n) (hdrs s)).
    exists (set_size p (k + n) (hdrs s)), bs1', (k + n), fl. split_and!; [done | | left; split; [done | do 3 f_equal; lia]].
    apply separate_app in S4 as [S4 S4k]. simpl in S4k. split; try done.
    + lia.
    + exists q'. split; [eapply seg_frame; [|exact H1]; intros x Hx; autorewrite with fields; by decz|].
      autorewrite with fields. fold p. decz. by rewrite Hbk.
    + lia.
    + eapply layout_frame; [|replace (base + total bs1' + (k + n)) with (b + n) by (unfold b; lia); exact H2].
      intros x Hx. autorewrite with fields. by decz.
    + split_and!; [done | | done]. unfold last_free. destruct S4k as [S4k _]. rewrite andb_true_r in S4k. done.
    + eapply links_frame; [| |exact S5]; intros; by autorewrite with fields.
    + rewrite S6, <- app_assoc. simpl. rewrite (frees_app base bs1'), (frees_app base bs1'). simpl.
      by replace (base + total bs1' + (k + n)) with (base + total bs1' + k + n) by lia.
  - unfold tag in Eq. simpl in Eq. rewrite Ep, Eq. by apply Halone.
  - rewrite Ep, Eq. by apply Halone.
Qed.

Lemma join_next_ok s base bs1 m bs2 fl :
  loose (hdrs s) base bs1 m 0 bs2 fl ->
  exists h' m' r bs2' fl', join_next (base + total bs1) s = Ret (base + total bs1 + m') (s <| hdrs := h' |>) /\
    loose h' base bs1 m' r bs2' fl' /\ head_free bs2' = false /\
    ((head_free bs2 = true /\ bs2 = (m' - m, true) :: bs2') \/ (head_free bs2 = false /\ bs2' = bs2 /\ m' = m)).
Proof.
  intros Hlo. pose proof Hlo as [L1 L2 (q & L3 & L3') L4 L5 (L6 & L6' & L6'') L7 L8].
  pose proof (seg_nonneg _ _ _ _ _ L3). pose proof (layout_nonneg _ _ _ _ L5). set (b := base + total bs1) in *.
  destruct (sizes_header _ _ _ _ L3') as (v & Hv & Ep & Es).
  unfold join_next. rewrite (hrun_hdr b v), Es by done.
  assert (Hstay : forall w, hdrs s !! (b + m) = Some w -> bsize w <= 0 -> head_free bs2 = false ->
    exists h' m' r bs2' fl',
    bind (hdr (b + m)) (fun n => if 0 <? bsize n then
      bind (hdr (b + m + bsize n)) (fun x => bind (assert (prevfree x =? bsize n) "BH(bn + bn->bh.bsize)->prevfree == bn->bh.bsize") (fun _ =>
        bind (assert_linked (b + m)) (fun _ => bind (unlink_free (b + m)) (fun _ =>
        bind (set_hdr b (fun x => x <| bsize := s32 (bsize x + bsize n) |>)) (fun _ => ret (b + s32 (m + bsize n)))))))
      else ret (b + m)) s = Ret (b + m') (s <| hdrs := h' |>) /\
    loose h' base bs1 m' r bs2' fl' /\ head_free bs2' = false /\
    ((head_free bs2 = true /\ bs2 = (m' - m, true) :: bs2') \/ (head_free bs2 = false /\ bs2' = bs2 /\ m' = m))).
  { intros w Hw Hle Hh. rewrite (hrun_hdr _ w) by done. rewrite (proj2 (Z.ltb_ge 0 _)) by lia.
    exists (hdrs s), m, 0, bs2, fl. split_and!; [by destruct s | done | done | by right]. }
  destruct bs2 as [|[k fr] bs2]; simpl in L5.
  { destruct (sizes_header _ _ _ _ L5) as (w & Hw & _ & Ew). apply (Hstay w Hw); [rewrite Ew; unfold ESent; lia | done]. }
  destruct L5 as (Hk & Hbk & L5). unfold stored, tag in Hbk, L5. simpl in Hk, Hbk, L5.
  destruct (sizes_header _ _ _ _ Hbk) as (w & Hw & _ & Ew).
  destruct fr; [|apply (Hstay w Hw); [lia | done]]. clear Hstay.
  destruct (layout_prev _ _ _ _ L5) as (z & Hz & Ez). destruct (loose_nodup _ _ _ _ _ _ _ Hlo) as [Hnd Hfl].
  assert (Hbf : b + m ∈ fl).
  { rewrite L8, frees_app. simpl. fold b. set_solver. }
  apply list_elem_of_split in Hbf as (l1 & l2 & ->).
  rewrite (hrun_hdr _ w), Ew by done. rewrite (proj2 (Z.ltb_lt 0 k)) by lia.
  rewrite (hrun_hdr _ z), hrun_assert by (done || by apply Z.eqb_eq).
  rewrite (run_assert_linked _ s freelist l1 _ l2), (run_unlink_free _ s freelist l1 _ l2) by done.
  set (h1 := unlinked (hdrs s) (b + m)). assert (exists v1, h1 !! b = Some v1) as [v1 Hv1].
  { apply is_Some_sizes. unfold h1. rewrite sizes_unlinked. apply is_Some_sizes. by eexists. }
  assert (Ev1 : bsize v1 = m).
  { pose proof (sizes_unlinked (hdrs s) (b + m) b) as E. fold h1 in E. rewrite L3' in E. unfold sizes in E.
    rewrite Hv1 in E. simpl in E. congruence. }
  simpl in L2. pose proof (layout_nonneg _ _ _ _ L5).
  rewrite (hrun_set_hdr _ v1) by exact Hv1. hred. rewrite (s32_small (m + k)) by lia.
  rewrite (alter_known _ (fun x => x <| bsize := m + k |>) b v1) by (done || (hred; rewrite s32_small by lia; f_equal; lia)).
  fold (set_size b (m + k) h1).
  exists (set_size b (m + k) h1), (m + k), k, bs2, (l1 ++ l2).
  assert (Hh : head_free bs2 = false /\ separate false bs2).
  { simpl in L6''. destruct bs2 as [|[k' fr'] bs2]; [done|]. simpl in *. destruct L6'' as (_ & -> & ?). done. }
  split_and!; [done | | apply Hh | left; split; [done | do 2 f_equal; lia]].
  split; try done.
  - lia.
  - exists q. split; [eapply seg_frame; [|exact L3]; intros x Hx|]; unfold h1; autorewrite with fields; fold b; decz;
      rewrite sizes_unlinked; [done|]. by rewrite L3'.
  - lia.
  - replace (base + total bs1 + (m + k)) with (b + m + k) by (unfold b; lia).
    eapply layout_frame; [|exact L5]. intros x Hx. unfold h1. autorewrite with fields. decz. apply sizes_unlinked.
  - split_and!; [done | done | apply Hh].
  - eapply links_frame; [| |apply (links_unlink _ _ _ _ _ L7 Hnd Hfl)]; intros; by autorewrite with fields.
  - rewrite frees_app in L8 |- *. simpl in L8 |- *. fold b in L8 |- *.
    replace (b + (m + k)) with (b + m + k) by lia. apply (Permutation_cons_inv (a := b + m)).
    rewrite Permutation_middle, L8, (Permutation_middle _ (b :: _)). f_equiv. apply perm_swap.
Qed.

(** The blocks after the release of one: it is joined with the free blocks
    around it. *)
Definition joined (bs1 : list block) (n : Z) (bs2 : list block) : list block :=
  let '(bs1', m) := match last bs1 with Some (k, true) => (removelast bs1, k + n) | _ => (bs1, n) end in
  let '(bs2', m) := match bs2 with (k, true) :: bs2' => (bs2', m + k) | _ => (bs2, m) end in
  bs1' ++ (m, true) :: bs2'.

Lemma joined_cases bs1 n bs2 bs1' m bs2' m' :
  (last_free bs1 = true /\ bs1 = bs1' ++ [(m - n, true)]) \/ (last_free bs1 = false /\ bs1' = bs1 /\ m = n) ->
  (head_free bs2 = true /\ bs2 = (m' - m, true) :: bs2') \/ (head_free bs2 = false /\ bs2' = bs2 /\ m' = m) ->
  joined bs1 n bs2 = bs1' ++ (m', true) :: bs2'.
Proof.
  intros H1 H2. unfold joined.
  assert ((match last bs1 with Some (k, true) => (removelast bs1, k + n) | _ => (bs1, n) end) = (bs1', m)) as ->.
  { destruct H1 as [[_ ->]|(Hl & -> & ->)].
    - rewrite last_snoc, removelast_last. f_equal. lia.
    - unfold last_free in Hl. destruct (last bs1) as [[k []]|]; done. }
  destruct H2 as [[_ ->]|(Hh & -> & ->)].
  - do 3 f_equal. lia.
  - destruct bs2 as [|[k []] bs2]; done.
Qed.

(** The bookkeeping of [brel] before the block is released. *)
Lemma brel_prologue s base bs1 n bs2 fl :
  pool s base (bs1 ++ (n, false) :: bs2) fl ->
  exists s1, hdrs s1 = hdrs s /\ (BufStats = true -> totalloc s1 = used bs1 + used bs2) /\
    (compfcn s1 = 0 /\ acqfcn s1 = 0 /\ relfcn s1 = 0) /\
    forall B (k : unit -> M heap B) v, bsize v = - n ->
      bind (stat (bind (modify (fun h => h <| totalloc := s32 (totalloc h + bsize v) |>)) (fun _ =>
                  bind get (fun h => assert (0 <=? totalloc h) "totalloc >= 0")))) k
        (if BufStats then s <| numrel := s32 (numrel s + 1) |> else s) = k tt s1.
Proof.
  intros Hp. destruct (pool_open _ _ _ _ _ _ _ Hp) as (q & H1 & Ht & Hn & Ht2 & Hs & Hb & H2 & U1 & U2 & U3).
  pose proof (pool_total _ _ _ _ Hp) as (_ & _ & U4). pose proof Hp as [_ _ _ _ _ _ P7 P8].
  rewrite used_app in P7, U4. simpl in P7, U4. unfold stat. destruct BufStats.
  - exists (s <| numrel := s32 (numrel s + 1) |> <| totalloc := used bs1 + used bs2 |>).
    split_and!; [done | done | apply P8 .. |]. intros B k v Hv.
    rewrite hrun_assoc, hrun_modify, hrun_assoc, hrun_get. hred. rewrite Hv, P7 by done.
    rewrite s32_small by lia. rewrite hrun_assert by (apply Z.leb_le; lia). f_equal. f_equal. lia.
  - exists s. split_and!; [done | done | apply P8 .. |]. done.
Qed.

Lemma brel_runs s base bs1 n bs2 fl :
  pool s base (bs1 ++ (n, false) :: bs2) fl ->
  exists s' fl', brel (base + total bs1 + 8) s = Ret tt s' /\ pool s' base (joined bs1 n bs2) fl'.
Proof.
  intros Hp. destruct (pool_open _ _ _ _ _ _ _ Hp) as (q & H1 & Ht & Hn & Ht2 & Hs & Hb & H2 & U1 & U2 & U3).
  set (b := base + total bs1) in *. unfold stored, tag in Hb, H2. simpl in Hb, H2.
  destruct (sizes_header _ _ _ _ Hb) as (v & Hv & Ep & Es). destruct (layout_prev _ _ _ _ H2) as (w & Hw & Ew).
  destruct (brel_prologue _ _ _ _ _ _ Hp) as (s1 & E1 & Eu & En & Hrun).
  pose proof Hp as [P1 P2 P3 P4 P5 P6 _ _]. unfold freelist in P1.
  assert (Hstart : forall k : unit -> M heap unit, bind (stat (modify (fun h => h <| numrel := s32 (numrel h + 1) |>))) k s =
    k tt (if BufStats then s <| numrel := s32 (numrel s + 1) |> else s)) by (intros k; unfold stat; by destruct BufStats).
  unfold brel. rewrite Hstart. set (s0 := if BufStats then _ else _) in *.
  assert (E0 : hdrs s0 = hdrs s) by (unfold s0; by destruct BufStats).
  rewrite hrun_assert by (apply negb_true_iff, Z.eqb_neq; unfold b; lia).
  replace (b + 8 - sizeof_bhead) with b by (unfold sizeof_bhead; lia).
  rewrite (hrun_hdr b v) by by rewrite E0. rewrite (proj2 (Z.eqb_neq (bsize v) 0)), andb_false_r by lia.
  rewrite hrun_assert by (apply Z.ltb_lt; lia). replace (b - bsize v) with (b + n) by lia.
  rewrite (hrun_hdr _ w) by by rewrite E0. rewrite hrun_assert by (by apply Z.eqb_eq). rewrite (Hrun _ _ _ Es).
  assert (Hsh : shape (hdrs s1) base (bs1 ++ (n, false) :: bs2) fl) by (rewrite E1; by split).
  destruct (release_back_ok _ _ _ _ _ _ Hsh) as (h2 & bs1' & m & fl2 & R1 & L1 & C1).
  rewrite (bind_Ret _ _ _ _ _ R1). set (s2 := s1 <| hdrs := h2 |>).
  destruct (join_next_ok s2 base bs1' m bs2 fl2 L1) as (h3 & m' & r & bs2' & fl3 & R2 & L2 & Hh & C2).
  rewrite (bind_Ret _ _ _ _ _ R2). unfold s2. hred. rewrite (joined_cases _ _ _ _ _ _ _ C1 C2).
  pose proof L2 as [_ _ (q3 & _ & Hs3) _ Hl3 _ _ _].
  destruct (sizes_header _ _ _ _ Hs3) as (v3 & Hv3 & _ & Es3).
  assert (exists w3, h3 !! (base + total bs1' + m') = Some w3 /\ bsize w3 < 0) as (w3 & Hw3 & Hneg).
  { destruct bs2' as [|[k fr] bs2']; simpl in Hl3, Hh; [|subst fr; destruct Hl3 as (Hk & Hl3 & _)];
      destruct (sizes_header _ _ _ _ Hl3) as (w3 & Hw3 & _ & E); exists w3; split; try done; rewrite E;
      unfold ESent, stored; simpl in *; lia. }
  rewrite (hrun_hdr _ w3) by exact Hw3. rewrite hrun_assert by (by apply Z.ltb_lt).
  rewrite (hrun_hdr _ v3) by exact Hv3. rewrite (hrun_set_hdr _ w3) by exact Hw3. rewrite hrun_get. hred.
  destruct En as (En1 & En2 & En3). rewrite En3, andb_false_r. rewrite Es3.
  eexists _, fl3. split; [done|]. destruct (loose_close _ _ _ _ _ _ _ L2 Hh). split; try done.
  intros Hst. simpl. rewrite Eu by done.
  destruct C1 as [[_ ->]|(_ & -> & ->)], C2 as [[_ ->]|(_ & -> & ->)]; rewrite !used_app; simpl; lia.
Qed.
End Release.
