(* ===== verification/HeapTrace.v ===== *)
(** * HeapTrace: what the clients of the allocator rely on

    The contract of [bget] and [brel] (bget/bget.c) for a client that makes any
    sequence of calls on one pool: the calls return, the buffers that the
    client holds do not overlap, the pool stays valid, and nothing is lost. *)

From S2P Require Import Prelude Bget Heap.

(** ** A client of the allocator *)

(** [Get n] asks for [n] bytes; [Rel i] gives the [i]-th of the buffers that
    are held back. *)
Inductive request := Get (requested_size : Z) | Rel (i : nat).

Section Client.
Context {cf : Config} {ex : Expansion}.

(** The buffers that the client holds: address and requested size. *)
Definition client_step (fuel : nat) (r : request) (held : list (Z * Z)) : M heap (list (Z * Z)) :=
  match r with
  | Get n => p <- bget fuel n;; ret (if p =? 0 then held else (p, n) :: held)
  | Rel i => match held !! i with
             | Some (p, _) => brel p;;; ret (delete i held)
             | None => ret held
             end
  end.

Fixpoint client (fuel : nat) (rs : list request) (held : list (Z * Z)) : M heap (list (Z * Z)) :=
  match rs with
  | [] => ret held
  | r :: rs => held <- client_step fuel r held;; client fuel rs held
  end.

Definition sane_request (r : request) : Prop := match r with Get n => sane n | Rel _ => True end.

(** The length of the pool that [bpool] makes of [len] bytes. *)
Definition pool_length (len : Z) : Z := Z.land len (Z.lnot (SizeQuant - 1)).

(** ** bpool *)

Lemma bpool_runs base len :
  freelist < base -> 24 <= pool_length len < 2 ^ 31 ->
  exists s, bpool base len empty_heap = Ret tt s /\ pool s base [(pool_length len - 8, true)] [base].
Proof.
  intros Hb Hlen. unfold bpool. fold (pool_length len). set (n := pool_length len) in *.
  set (h1 := <[base := mkB 0 0 0 0]> (hdrs empty_heap)).
  set (h2 := linked_last h1 base). set (h3 := set_size base (n - 8) h2). set (h4 := set_new (base + (n - 8)) (n - 8) ESent h3).
  assert (Hl1 : links h1 freelist []).
  { unfold h1. simpl. unfold fwd_of, bwd_of. by rewrite lookup_insert_ne by lia. }
  assert (Hb1 : is_Some (h1 !! base)) by (unfold h1; rewrite lookup_insert_eq; by eexists).
  assert (Hsz : forall x, sizes h2 x = sizes h1 x) by (intros; apply sizes_linked_last).
  assert (exists v, h2 !! base = Some v) as [v2 Hv2] by (apply is_Some_sizes; rewrite Hsz; by apply is_Some_sizes).
  assert (Hpool : forall s, hdrs s = h4 -> totalloc s = 0 -> compfcn s = 0 /\ acqfcn s = 0 /\ relfcn s = 0 ->
    pool s base [(n - 8, true)] [base]).
  { intros s Eh Et En. split; rewrite ?Eh; try done; simpl.
    - lia.
    - unfold stored, tag. simpl. unfold h4, h3. autorewrite with fields. decz. rewrite Hsz. unfold h1, sizes.
      rewrite lookup_insert_eq. split_and!; [lia | done | done].
    - eapply (links_frame h2 h4 freelist [base]).
      + intros z Hz. unfold h4. rewrite fwd_set_new; [unfold h3; by autorewrite with fields|]. set_solver by lia.
      + intros z Hz. unfold h4. rewrite bwd_set_new; [unfold h3; by autorewrite with fields|]. set_solver by lia.
      + unfold h2, linked_last. assert (h1 !! freelist = Some (mkB 0 0 freelist freelist)) as -> by (unfold h1; by rewrite lookup_insert_ne by lia). cbn [blink].
        apply (links_snoc h1 freelist [] base Hl1); [|set_solver by lia | done].
        simpl. rewrite !NoDup_cons. split_and!; [set_solver by lia | set_solver | constructor]. }
  assert (Hrun : forall s, hdrs s = hdrs empty_heap -> totalloc s = 0 -> compfcn s = 0 /\ acqfcn s = 0 /\ relfcn s = 0 ->
    exists s', bind (assert (u32 (n - sizeof_bhead) <=? - (ESent + 1)) "len - sizeof(struct bhead) <= -((bufsize) ESent + 1)")
      (fun _ => bind (new_hdr base (fun v => v <| prevfree := 0 |>)) (fun _ => bind (link_last base) (fun _ =>
       bind (set_hdr base (fun v => v <| bsize := n - sizeof_bhead |>)) (fun _ =>
       new_hdr (base + (n - sizeof_bhead)) (fun v => v <| prevfree := n - sizeof_bhead |> <| bsize := ESent |>))))) s =
      Ret tt s' /\ pool s' base [(n - 8, true)] [base]).
  { intros s Eh Et En. unfold sizeof_bhead. rewrite hrun_assert by (rewrite u32_small by lia; apply Z.leb_le; unfold ESent; lia).
    rewrite hrun_new_hdr. rewrite Eh. assert (hdrs empty_heap !! base = None) as -> by (apply lookup_singleton_ne; lia). cbn [default]. fold h1.
    rewrite (run_link_last _ _ []) by done. hred. fold h2. rewrite (hrun_set_hdr _ v2) by exact Hv2. hred.
    eexists. split; [done|]. by apply Hpool. }
  unfold ectl, stat. destruct BECtl, BufStats; simpl; apply Hrun; done.
Qed.

(** ** bpoolv *)

(** The addresses of the blocks. *)
Fixpoint starts (a : Z) (bs : list block) : list Z :=
  match bs with
  | [] => []
  | b :: bs => a :: starts (a + b.1) bs
  end.

Lemma starts_ok h a p bs : layout h a p bs ->
  length (starts a bs) = length bs /\ NoDup (starts a bs) /\ forall x, x ∈ starts a bs -> a <= x /\ is_Some (h !! x).
Proof.
  revert a p. induction bs as [|b bs IH]; intros a p; simpl.
  { intros _. split_and!; [done | constructor | set_solver]. }
  intros (H1 & H2 & H3). destruct (IH _ _ H3) as (L & N & R). split_and!; [by rewrite L | |].
  - constructor; [|done]. intros [Hx _]%R. lia.
  - intros x [->|Hx]%elem_of_cons; [|apply R in Hx as [? ?]; split; [lia | done]].
    destruct (sizes_header _ _ _ _ H2) as (v & Hv & _). split; [lia | by eexists].
Qed.

Lemma blocks_bound s base bs fl : pool s base bs fl -> (length bs < scan_fuel s)%nat.
Proof.
  intros Hp. destruct (starts_ok _ _ _ _ (po_layout _ _ _ _ Hp)) as (L & N & R). unfold scan_fuel. apply Nat.lt_succ_r.
  rewrite <- L, <- size_dom, <- (size_list_to_set (C := gset Z) _ N). apply subseteq_size. intros z Hz.
  apply elem_of_list_to_set in Hz. apply elem_of_dom. by apply R.
Qed.

Lemma bpoolv_loop s fl : links (hdrs s) freelist fl -> forall bs fuel a p,
  layout (hdrs s) a p bs -> total bs < 2 ^ 31 -> (forall x, x ∈ frees a bs -> x ∈ fl) -> (length bs < fuel)%nat ->
  bpoolv fuel a s = Ret 1 s.
Proof.
  intros Hlk bs. induction bs as [|[n fr] bs IH]; intros fuel a p Hl Ht Hin Hf; (destruct fuel; [simpl in Hf; lia|]); simpl in Hl.
  - destruct (sizes_header _ _ _ _ Hl) as (v & Hv & _ & Ev). cbn [bpoolv]. rewrite (hrun_hdr _ v) by done. by rewrite Ev.
  - destruct Hl as (Hn & Hs & Hl). unfold stored, tag in Hs, Hl. simpl in Hn, Hs, Hl, Ht, Hin, Hf.
    pose proof (layout_nonneg _ _ _ _ Hl). destruct (sizes_header _ _ _ _ Hs) as (v & Hv & _ & Ev).
    cbn [bpoolv]. rewrite (hrun_hdr _ v), Ev by done. unfold ESent.
    assert (Hgo : bpoolv fuel (a + n) s = Ret 1 s).
    { eapply IH; [exact Hl | lia | | lia]. intros x Hx. apply Hin. set_solver. }
    destruct fr; rewrite (proj2 (Z.eqb_neq _ (- 2 ^ 31))) by lia.
    + rewrite (proj2 (Z.ltb_ge n 0)), hrun_assert by (lia || (apply Z.ltb_lt; lia)).
      assert (Ha : a ∈ fl) by (apply Hin; set_solver). apply list_elem_of_split in Ha as (l1 & l2 & ->).
      destruct (links_neighbours _ _ _ _ _ Hlk) as (v' & Hv' & _ & _ & H1 & H2). simplify_eq.
      destruct (fwd_header _ _ _ H1) as (y & Hy & E1). destruct (bwd_header _ _ _ H2) as (z & Hz & E2).
      rewrite (hrun_hdr _ y), (hrun_hdr _ z) by done. by rewrite E1, E2, Z.eqb_refl.
    + rewrite (proj2 (Z.ltb_lt (- n) 0)) by lia. by rewrite Z.opp_involutive.
Qed.

Lemma bpoolv_runs s base bs fl : pool s base bs fl -> bpoolv (scan_fuel s) base s = Ret 1 s.
Proof.
  intros Hp. pose proof (blocks_bound _ _ _ _ Hp). pose proof Hp as [P1 P2 P3 P4 P5 P6 _ _].
  eapply bpoolv_loop; [exact P5 | exact P3 | done | | done]. intros x. by rewrite P6.
Qed.

(** ** The buffers that are held *)

(** The allocated blocks: address and size. *)
Fixpoint useds (a : Z) (bs : list block) : list (Z * Z) :=
  match bs with
  | [] => []
  | b :: bs => (if b.2 then [] else [(a, b.1)]) ++ useds (a + b.1) bs
  end.

Lemma useds_app a bs1 bs2 : useds a (bs1 ++ bs2) = useds a bs1 ++ useds (a + total bs1) bs2.
Proof.
  revert a. induction bs1 as [|b bs1 IH]; intros a; simpl; [by rewrite Z.add_0_r|].
  by rewrite IH, app_assoc, Z.add_assoc.
Qed.

Lemma useds_split a bs x n : (x, n) ∈ useds a bs -> exists bs1 bs2, bs = bs1 ++ (n, false) :: bs2 /\ x = a + total bs1.
Proof.
  revert a. induction bs as [|[k fr] bs IH]; intros a; simpl; [set_solver|]. intros [Hx|Hx]%elem_of_app.
  - destruct fr; [set_solver|]. apply list_elem_of_singleton in Hx as [= -> ->]. exists [], bs. simpl. split; [done | lia].
  - destruct (IH _ Hx) as (bs1 & bs2 & -> & ->). exists ((k, fr) :: bs1), bs2. simpl. split; [done | lia].
Qed.

Lemma useds_joined a bs1 n bs2 :
  useds a (joined bs1 n bs2) = useds a bs1 ++ useds (a + total bs1 + n) bs2 /\
  total (joined bs1 n bs2) = total bs1 + n + total bs2.
Proof.
  unfold joined. destruct (last bs1) as [[k []]|] eqn:E;
    [apply last_Some in E as [l ->]; rewrite removelast_last | |];
    destruct bs2 as [|[k' []] bs2]; rewrite ?total_app, ?useds_app; simpl; rewrite ?app_nil_r;
    (split; [first [done | f_equal; f_equal; lia | f_equal; f_equal; f_equal; lia] | lia]).
Qed.

Lemma useds_range h a p bs : layout h a p bs -> forall x n, (x, n) ∈ useds a bs -> a <= x /\ 16 <= n /\ x + n <= a + total bs.
Proof.
  revert a p. induction bs as [|[k fr] bs IH]; intros a p; simpl; [set_solver|]. intros (H1 & _ & H2) x n.
  simpl in *. pose proof (layout_nonneg _ _ _ _ H2). intros [Hx|Hx]%elem_of_app.
  - destruct fr; [set_solver|]. apply list_elem_of_singleton in Hx as [= -> ->]. lia.
  - specialize (IH _ _ H2 _ _ Hx). lia.
Qed.

(** Distinct allocated blocks do not overlap. *)
Definition apart (x y : Z * Z) : Prop := x.1 + x.2 <= y.1 \/ y.1 + y.2 <= x.1.

Lemma useds_apart h a p bs : layout h a p bs ->
  forall i j x y, i <> j -> useds a bs !! i = Some x -> useds a bs !! j = Some y -> apart x y.
Proof.
  revert a p. induction bs as [|[k fr] bs IH]; intros a p; simpl; [set_solver|]. intros (H1 & _ & H2). simpl in *.
  destruct fr; simpl; [by eapply IH|]. intros [|i] [|j] x y Hij; simpl; intros Hx Hy; try done; simplify_eq.
  - destruct y as [y n]. apply list_elem_of_lookup_2, (useds_range _ _ _ _ H2) in Hy. left. simpl. lia.
  - destruct x as [x n]. apply list_elem_of_lookup_2, (useds_range _ _ _ _ H2) in Hx. right. simpl. lia.
  - eapply (IH _ _ H2 i j); [lia | done | done].
Qed.

(** A buffer of the client and the block that it is in. *)
Definition inside (buf blk : Z * Z) : Prop := buf.1 = blk.1 + 8 /\ buf.2 + 8 <= blk.2.

(** The invariant of a client that holds the buffers [held] of a pool of [n]
    bytes of blocks. *)
Definition held_in (s : heap) (base n : Z) (held : list (Z * Z)) : Prop :=
  exists bs fl us, pool s base bs fl /\ total bs = n /\ Forall2 inside held us /\ us ≡ₚ useds base bs.

Lemma delete_perm {A} (l : list A) i x l' : l !! i = Some x -> l ≡ₚ x :: l' -> delete i l ≡ₚ l'.
Proof. intros H E. apply (Permutation_cons_inv (a := x)). by rewrite <- delete_Permutation. Qed.

Lemma get_held s base n held fuel req :
  held_in s base n held -> sane req ->
  exists held' s', client_step (S fuel) (Get req) held s = Ret held' s' /\ held_in s' base n held'.
Proof.
  intros (bs & fl & us & Hp & Ht & Hin & Hus) Hreq. pose proof (buffer_size_ok _ Hreq) as [Hsz _]. pose proof size_q.
  unfold client_step. destruct (bget_runs _ _ _ _ fuel _ Hp Hreq) as [[_ Hg]|(bs1 & k & bs2 & s' & fl' & -> & Hk & _ & Hg)].
  { rewrite (bind_Ret _ _ _ _ _ Hg). exists held, s. split; [done|]. by exists bs, fl, us. }
  pose proof Hp as [P1 _ _ _ _ _ _ _]. unfold freelist in P1.
  destruct (pool_open _ _ _ _ _ _ _ Hp) as (q & _ & Ht1 & _). rewrite useds_app in Hus. simpl in Hus.
  rewrite total_app in Ht. simpl in Ht. destruct (Z.ltb_spec (SizeQ + 8) (k - buffer_size req)) as [Hlt|Hge];
    destruct Hg as [Hg Hp']; rewrite (bind_Ret _ _ _ _ _ Hg), (proj2 (Z.eqb_neq _ 0)) by lia;
    eexists _, s'; (split; [done|]).
  - exists (bs1 ++ (k - buffer_size req, true) :: (buffer_size req, false) :: bs2), fl',
      ((base + total bs1 + (k - buffer_size req), buffer_size req) :: us). split_and!; [done | | |].
    + rewrite total_app. simpl. lia.
    + constructor; [|done]. split; simpl; lia.
    + rewrite useds_app. simpl. rewrite <- Permutation_middle, Hus.
      by replace (base + total bs1 + (k - buffer_size req) + buffer_size req) with (base + total bs1 + k) by lia.
  - exists (bs1 ++ (k, false) :: bs2), fl', ((base + total bs1, k) :: us). split_and!; [done | | |].
    + rewrite total_app. simpl. lia.
    + constructor; [|done]. split; simpl; lia.
    + rewrite useds_app. simpl. by rewrite <- Permutation_middle, Hus.
Qed.

Lemma rel_held s base n held fuel i :
  held_in s base n held ->
  exists held' s', client_step fuel (Rel i) held s = Ret held' s' /\ held_in s' base n held'.
Proof.
  intros (bs & fl & us & Hp & Ht & Hin & Hus). unfold client_step. destruct (held !! i) as [[b sz]|] eqn:E.
  2: { exists held, s. split; [done|]. by exists bs, fl, us. }
  destruct (Forall2_lookup_l _ _ _ _ _ Hin E) as ([u k] & Hu & Hb & Hs). simpl in Hb, Hs. subst b.
  pose proof (list_elem_of_lookup_2 _ _ _ Hu) as Hel. rewrite Hus in Hel.
  destruct (useds_split _ _ _ _ Hel) as (bs1 & bs2 & -> & ->).
  destruct (brel_runs _ _ _ _ _ _ Hp) as (s' & fl' & Hr & Hp'). destruct (useds_joined base bs1 k bs2) as [Eu Et].
  rewrite (bind_Ret _ _ _ _ _ Hr). eexists _, s'. split; [done|]. exists (joined bs1 k bs2), fl', (delete i us).
  split_and!; [done | | by apply Forall2_delete |].
  - rewrite total_app in Ht. simpl in Ht. lia.
  - eapply delete_perm; [done|]. rewrite Hus, Eu, useds_app. simpl. by rewrite Permutation_middle.
Qed.

Lemma client_held s base n fuel rs held :
  held_in s base n held -> Forall sane_request rs ->
  exists held' s', client (S fuel) rs held s = Ret held' s' /\ held_in s' base n held'.
Proof.
  intros Hh Hrs. revert s held Hh. induction Hrs as [|r rs Hr _ IH]; intros s held Hh; [by exists held, s|].
  assert (exists held' s', client_step (S fuel) r held s = Ret held' s' /\ held_in s' base n held') as (h' & s' & E & H').
  { destruct r as [req|i]; [by apply get_held | by apply rel_held]. }
  destruct (IH _ _ H') as (h2 & s2 & E2 & H2). exists h2, s2. split; [|done].
  cbn [client]. by rewrite (bind_Ret _ _ _ _ _ E).
Qed.

Lemma pool_held base len :
  freelist < base -> 24 <= pool_length len < 2 ^ 31 ->
  exists s, bpool base len empty_heap = Ret tt s /\ held_in s base (pool_length len - 8) [].
Proof.
  intros Hb Hl. destruct (bpool_runs _ _ Hb Hl) as (s & E & Hp). exists s. split; [done|].
  eexists _, _, []. split_and!; [exact Hp | simpl; lia | constructor | done].
Qed.

(** The buffers lie in the pool, apart from each other and from the headers. *)
Lemma held_disjoint s base n held : held_in s base n held ->
  (forall b sz, (b, sz) ∈ held -> base + 8 <= b /\ b + sz <= base + n) /\
  (forall i j b sz b' sz', i <> j -> held !! i = Some (b, sz) -> held !! j = Some (b', sz') ->
     b + sz <= b' - 8 \/ b' + sz' <= b - 8).
Proof.
  intros (bs & fl & us & Hp & Ht & Hin & Hus). pose proof (po_layout _ _ _ _ Hp) as Hl. split.
  - intros b sz [i Hi]%list_elem_of_lookup_1. destruct (Forall2_lookup_l _ _ _ _ _ Hin Hi) as ([u k] & Hu & Hb & Hs).
    apply list_elem_of_lookup_2 in Hu. rewrite Hus in Hu. apply (useds_range _ _ _ _ Hl) in Hu. simpl in *. lia.
  - intros i j b sz b' sz' Hij Hi Hj.
    destruct (Forall2_lookup_l _ _ _ _ _ Hin Hi) as ([u k] & Hu & Hb & Hs).
    destruct (Forall2_lookup_l _ _ _ _ _ Hin Hj) as ([u' k'] & Hu' & Hb' & Hs').
    apply Permutation_inj in Hus as (_ & f & Hf & Hlk). rewrite Hlk in Hu, Hu'.
    pose proof (useds_apart _ _ _ _ Hl (f i) (f j) _ _ ltac:(intros E; apply Hij, Hf, E) Hu Hu') as Ha.
    unfold apart in Ha. simpl in *. lia.
Qed.

(** When nothing is held, the pool is one free block. *)
Lemma nothing_held s base n : held_in s base n [] -> 0 < n -> exists fl, pool s base [(n, true)] fl.
Proof.
  intros (bs & fl & us & Hp & Ht & Hin & Hus) Hn. apply Forall2_nil_inv_l in Hin as ->. apply Permutation_nil_l in Hus.
  pose proof (po_separate _ _ _ _ Hp) as Hsep.
  destruct bs as [|[k []] bs]; simpl in *; [lia | | done].
  destruct bs as [|[k' []] bs]; simpl in *; [| naive_solver | done].
  exists fl. by replace n with k by lia.
Qed.
End Client.

(** ** The contract *)

Section Contract.
Context {cf : Config} {ex : Expansion}.

(** C14: in a heap that satisfies the invariant (blocks in a row with matching
    headers, no two free ones next to each other, the free ones in the list, the
    statistics right) a request that does not overflow either returns NULL and
    changes nothing, and then no free block is large enough, or it is met from
    a free block that is large enough -- the smallest one when the file is
    compiled with BestFit -- of which the end is cut off if more than a
    quantum and a header would remain, and which is taken as a whole otherwise;
    the invariant holds afterwards. *)
Theorem bget_allocates s base bs fl fuel requested_size :
  pool s base bs fl -> sane requested_size ->
  let size := buffer_size requested_size in
  requested_size + 8 <= size /\
  (((forall n, (n, true) ∈ bs -> n < size) /\ bget (S fuel) requested_size s = Ret 0 s) \/
   exists bs1 n bs2 s' fl', bs = bs1 ++ (n, true) :: bs2 /\ size <= n /\
     (BestFit = true -> forall k, (k, true) ∈ bs -> size <= k -> n <= k) /\
     let b := base + total bs1 in
     if SizeQ + 8 <? n - size
     then bget (S fuel) requested_size s = Ret (b + (n - size) + 8) s' /\
          pool s' base (bs1 ++ (n - size, true) :: (size, false) :: bs2) fl'
     else bget (S fuel) requested_size s = Ret (b + 8) s' /\ pool s' base (bs1 ++ (n, false) :: bs2) fl').
Proof. intros Hp Hr size. split; [by apply buffer_size_ok | by eapply bget_runs]. Qed.

(** C15: the release of an allocated block passes every assertion of [brel],
    joins the block with the free blocks before and after it, and keeps the
    invariant, so that free blocks are never neighbours. *)
Theorem brel_coalesces s base bs1 n bs2 fl :
  pool s base (bs1 ++ (n, false) :: bs2) fl ->
  exists s' fl', brel (base + total bs1 + 8) s = Ret tt s' /\ pool s' base (joined bs1 n bs2) fl'.
Proof. apply brel_runs. Qed.

(** C1: a client that makes any sequence of requests that do not overflow, and
    releases only what it holds, on a pool that [bpool] made: every call
    returns, no assertion fails, the buffers that are held lie in the pool and
    overlap neither each other nor the header of another buffer, and [bpoolv]
    accepts the pool. *)
Theorem heap_safe base len fuel rs :
  freelist < base -> 24 <= pool_length len < 2 ^ 31 -> Forall sane_request rs ->
  exists held s, bind (bpool base len) (fun _ => client (S fuel) rs []) empty_heap = Ret held s /\
    (forall b sz, (b, sz) ∈ held -> base + 8 <= b /\ b + sz <= base + pool_length len - 8) /\
    (forall i j b sz b' sz', i <> j -> held !! i = Some (b, sz) -> held !! j = Some (b', sz') ->
       b + sz <= b' - 8 \/ b' + sz' <= b - 8) /\
    bpoolv (scan_fuel s) base s = Ret 1 s.
Proof.
  intros Hb Hl Hrs. destruct (pool_held _ _ Hb Hl) as (s0 & E0 & H0).
  destruct (client_held _ _ _ fuel _ _ H0 Hrs) as (held & s & E & Hh). exists held, s.
  rewrite (bind_Ret _ _ _ _ _ E0). destruct (held_disjoint _ _ _ _ Hh) as [Hin Hdis].
  split_and!; [done | intros b sz Hx; specialize (Hin _ _ Hx); lia | done |].
  destruct Hh as (bs & fl & us & Hp & _). by eapply bpoolv_runs.
Qed.

(** C36: nothing is lost: when the client has given back all that it held, after
    any sequence of requests, each request that fits into the pool is granted. *)
Theorem heap_no_leak base len fuel rs s requested_size :
  freelist < base -> 24 <= pool_length len < 2 ^ 31 -> Forall sane_request rs ->
  bind (bpool base len) (fun _ => client (S fuel) rs []) empty_heap = Ret [] s ->
  sane requested_size -> buffer_size requested_size <= pool_length len - 8 ->
  exists buf s', bget (S fuel) requested_size s = Ret buf s' /\ buf <> 0.
Proof.
  intros Hb Hl Hrs Hrun Hreq Hfit. destruct (pool_held _ _ Hb Hl) as (s0 & E0 & H0).
  destruct (client_held _ _ _ fuel _ _ H0 Hrs) as (held & s1 & E & Hh).
  rewrite (bind_Ret _ _ _ _ _ E0), E in Hrun. injection Hrun as -> ->. unfold freelist in Hb.
  destruct (nothing_held _ _ _ Hh ltac:(lia)) as [fl Hp].
  destruct (bget_runs _ _ _ _ fuel _ Hp Hreq) as [[Hno _]|(bs1 & n & bs2 & s' & fl' & Eb & Hn & _ & Hg)].
  { specialize (Hno _ ltac:(left)). lia. }
  destruct bs1 as [|? [|]]; simplify_eq. simpl in Hg.
  destruct (SizeQ + 8 <? _); destruct Hg as [Hg _]; eexists _, s'; (split; [exact Hg | lia]).
Qed.
End Contract.

(** ** Examples *)

Module HeapExample.
#[local] Existing Instance kernel_config.

(** No function for expansion is installed. *)
Definition no_expansion : Expansion :=
  {| call_compact := fun _ _ _ => panic "compact"; call_acquire := fun _ _ => panic "acquire";
     call_release := fun _ _ => panic "release" |}.
#[local] Existing Instance no_expansion.

Definition base := 0xC0000000.

(** The heap of the kernel after one call of [malloc]. *)
Definition after_malloc : heap :=
  match (kheap_init base;;; malloc 2 100) empty_heap with Ret _ s => s | _ => empty_heap end.

Lemma pool_after : pool after_malloc base [(0x1FFFF8 - 8208, true); (8208, false)] [base].
Proof.
  split.
  - done.
  - done.
  - vm_compute. repeat split; congruence.
  - simpl. done.
  - vm_compute. done.
  - done.
  - intros _. vm_compute. reflexivity.
  - vm_compute. done.
Qed.

Lemma sane_100 : sane 100.
Proof. split; vm_compute; done. Qed.

(** [bget_allocates] at the second call of [malloc]. *)
Lemma bget_allocates_witness :
  let size := buffer_size 100 in
  let bs := [(0x1FFFF8 - 8208, true); (8208, false)] in
  100 + 8 <= size /\
  (((forall n, (n, true) ∈ bs -> n < size) /\ bget 2 100 after_malloc = Ret 0 after_malloc) \/
   exists bs1 n bs2 s' fl', bs = bs1 ++ (n, true) :: bs2 /\ size <= n /\
     (BestFit = true -> forall k, (k, true) ∈ bs -> size <= k -> n <= k) /\
     let b := base + total bs1 in
     if SizeQ + 8 <? n - size
     then bget 2 100 after_malloc = Ret (b + (n - size) + 8) s' /\
          pool s' base (bs1 ++ (n - size, true) :: (size, false) :: bs2) fl'
     else bget 2 100 after_malloc = Ret (b + 8) s' /\ pool s' base (bs1 ++ (n, false) :: bs2) fl').
Proof. exact (bget_allocates after_malloc base _ [base] 1 100 pool_after sane_100). Defined.

(** [brel_coalesces] when the buffer is freed. *)
Lemma brel_coalesces_witness :
  exists s' fl', brel (base + total [(0x1FFFF8 - 8208, true)] + 8) after_malloc = Ret tt s' /\
    pool s' base (joined [(0x1FFFF8 - 8208, true)] 8208 []) fl'.
Proof. exact (brel_coalesces after_malloc base [(0x1FFFF8 - 8208, true)] 8208 [] [base] pool_after). Defined.

Definition requests := [Get 100; Get 5000; Rel 1; Get 9000; Get 3000000].

Lemma requests_sane : Forall sane_request requests.
Proof. repeat constructor; vm_compute; done. Qed.

(** [heap_safe] for a client of the kernel's heap. *)
Lemma heap_safe_witness :
  exists held s, bind (bpool base KHEAP_INITIAL_SIZE) (fun _ => client 2 requests []) empty_heap = Ret held s /\
    (forall b sz, (b, sz) ∈ held -> base + 8 <= b /\ b + sz <= base + pool_length KHEAP_INITIAL_SIZE - 8) /\
    (forall i j b sz b' sz', i <> j -> held !! i = Some (b, sz) -> held !! j = Some (b', sz') ->
       b + sz <= b' - 8 \/ b' + sz' <= b - 8) /\
    bpoolv (scan_fuel s) base s = Ret 1 s.
Proof.
  apply (heap_safe base KHEAP_INITIAL_SIZE 1 requests).
  - vm_compute. reflexivity.
  - vm_compute. split; [discriminate | reflexivity].
  - exact requests_sane.
Defined.

Definition balanced := [Get 100; Get 5000; Rel 1; Rel 0].
Definition after_balanced : heap :=
  match bind (bpool base KHEAP_INITIAL_SIZE) (fun _ => client 2 balanced []) empty_heap with
  | Ret _ s => s | _ => empty_heap end.

(** [heap_no_leak] after two buffers have been allocated and released. *)
Lemma heap_no_leak_witness : exists buf s', bget 2 2000000 after_balanced = Ret buf s' /\ buf <> 0.
Proof.
  apply (heap_no_leak base KHEAP_INITIAL_SIZE 1 balanced).
  - vm_compute. reflexivity.
  - vm_compute. split; [discriminate | reflexivity].
  - repeat constructor; vm_compute; done.
  - vm_compute. reflexivity.
  - split; vm_compute; done.
  - vm_compute. discriminate.
Defined.

(** A request near the largest one overflows when it is rounded up, and the size
    of the buffer is negative: every free block passes for large enough. *)
Example huge_request : buffer_size 0x7fffffff = -2147483640.
Proof. vm_compute. reflexivity. Qed.
End HeapExample.

(** ** The heap of a user program *)

Module LibsExample.
Import HeapExample.
#[local] Existing Instance no_expansion.

(** The test for 0 of the kernel's [malloc] is missing in the one of the
    library, and [bget] asserts that it is asked for something. *)
Example libs_malloc_0 : libs_malloc 2 0 empty_heap = Panics "size > 0" empty_heap.
Proof. reflexivity. Qed.

(** First fit: the third buffer comes from the large free block, the first one of
    the list, and not from the smaller one that has just been freed. *)
Example libs_first_fit :
  match (libs_malloc_init 0x8000;;; p <- libs_malloc 2 10;; q <- libs_malloc 2 100;; libs_free p;;; r <- libs_malloc 2 5;;
         ret (p, q, r)) empty_heap with
  | Ret v _ => v
  | _ => (0, 0, 0)
  end = (40940, 40832, 40816).
Proof. vm_compute. reflexivity. Qed.
End LibsExample.
