(* ===== verification/Mmu.v ===== *)
(** * Mmu: frames, page tables and address spaces (kernel/mmu.c)

    Physical frames with their reference counts, the page tables and page
    directories with the records that the kernel keeps of each page, the
    allocation of pages ([kalloc], [kfree]), the copy and the destruction of
    address spaces, and the page fault handler.

    The tables, directories and bitmaps are objects at their addresses; what is
    in the physical frames is a map from frames to contents.  The lists of
    buffers and of mapped files have their elements in the order of the links.
    The caches of the processor are not modelled. *)

From S2P Require Import Prelude Memmap.

(** ** Data *)

Definition MMU_PAGE_SIZE := 0x1000.

(** [page_t]; the seven unused bits are left out. *)
Record page_t := mkPage {
  present : bool;
  rw : bool;
  user : bool;
  accessed : bool;
  dirty : bool;
  frame : Z
}.
#[export] Instance eta_page : Eta page_t := fun p =>
  mkPage (present p) (rw p) (user p) (accessed p) (dirty p) (frame p).

(** [page_info_t] *)
Record page_info_t := mkInfo { commited : bool; cow : bool; noshare : bool; mmap : bool }.
#[export] Instance eta_info : Eta page_info_t := fun i => mkInfo (commited i) (cow i) (noshare i) (mmap i).

(** [page_table_t] *)
Record page_table_t := mkTable {
  pages : list page_t;
  pages_info : list page_info_t;
  refs : Z;
  t_noshare : bool
}.
#[export] Instance eta_table : Eta page_table_t := fun t => mkTable (pages t) (pages_info t) (refs t) (t_noshare t).

(** [page_directory_t] *)
Record page_directory_t := mkDir { tables : list Z; tablesPhysical : list Z }.
#[export] Instance eta_dir : Eta page_directory_t := fun d => mkDir (tables d) (tablesPhysical d).

Definition no_page : page_t := mkPage false false false false false 0.
Definition no_info : page_info_t := mkInfo false false false false.

(** What [memset] leaves. *)
Definition zero_table : page_table_t := mkTable (replicate 1024 no_page) (replicate 1024 no_info) 0 false.
Definition zero_directory : page_directory_t := mkDir (replicate 1024 0) (replicate 1024 0).

Definition sizeof_page_table := 8200.
Definition sizeof_page_directory := 8192.

(** [mmap_info_t]; [mi_self] is its address. *)
Record mmap_info_t := mkMmap {
  mi_self : Z; mi_addr : Z; mi_len : Z; mi_flags : Z; mi_prot : Z; mi_offset : Z; mi_fd : Z
}.
#[export] Instance eta_mmap_info : Eta mmap_info_t := fun m =>
  mkMmap (mi_self m) (mi_addr m) (mi_len m) (mi_flags m) (mi_prot m) (mi_offset m) (mi_fd m).

(** [buffer_t] *)
Record buffer_t := mkBuffer { b_address : Z; b_pages : Z; b_mmap : Z }.

(** [kmmap_t] *)
Record kmmap_t := mkKmmap { km_mmap : mmap_info_t; km_node : Z; km_directory : Z }.
#[export] Instance eta_kmmap : Eta kmmap_t := fun k => mkKmmap (km_mmap k) (km_node k) (km_directory k).

(** The fields of [current_task] that the file uses. *)
Record mtask := mkMtask {
  mt_pid : Z;
  mt_errno : Z;
  mt_buffers : list buffer_t;
  mt_mmaps : list mmap_info_t;
  mt_mmaps_lock : Z;
  mt_memmap : Z
}.
#[export] Instance eta_mtask : Eta mtask := fun t =>
  mkMtask (mt_pid t) (mt_errno t) (mt_buffers t) (mt_mmaps t) (mt_mmaps_lock t) (mt_memmap t).

Record mmu := mkMmu {
  memmaps : gmap Z memmap;
  frame_refs : list Z;
  frame_refs_lock : Z;
  page_tables : gmap Z page_table_t;
  directories : gmap Z page_directory_t;
  frames : gmap Z (list Z);            (* what is in the physical frames *)
  current_directory : Z;
  current_directory_physical : Z;
  current_memmap : Z;
  placement_address : Z;
  kernel_buffers : list buffer_t;
  kmmaps : list kmmap_t;
  kmmaps_lock : Z;
  kheap_len : Z;
  mallocs : nat;
  current_task : option mtask
}.
#[export] Instance eta_mmu : Eta mmu := fun s =>
  mkMmu (memmaps s) (frame_refs s) (frame_refs_lock s) (page_tables s) (directories s) (frames s)
    (current_directory s) (current_directory_physical s) (current_memmap s) (placement_address s)
    (kernel_buffers s) (kmmaps s) (kmmaps_lock s) (kheap_len s) (mallocs s) (current_task s).

(** The addresses of the static objects. *)
Definition physical_memmap := 0x10.
Definition kernel_memmap := 0x20.
Definition default_memmap := 0x30.
Definition kernel_directory := 0x2000.

Definition KALLOC_OPTN_ALIGN := 0x0001.
Definition KALLOC_OPTN_KERNEL := 0x0002.
Definition KALLOC_OPTN_WRITEABLE := 0x0008.
Definition KALLOC_OPTN_NOFREE := 0x0010.
Definition KALLOC_OPTN_NOCOW := 0x0080.
Definition KALLOC_OPTN_NOSHARE := 0x0100.
Definition KALLOC_OPTN_MMAP := 0x0200.

Definition CLONE_SHARE := 0x01.
Definition CLONE_COW := 0x02.

Definition ALLOC_FRAME_USER := 0x0000.
Definition ALLOC_FRAME_KERNEL := 0x0001.
Definition ALLOC_FRAME_WRITEABLE := 0x0002.
Definition ALLOC_FRAME_MKTABLE := 0x0004.
Definition ALLOC_FRAME_COW := 0x0008.
Definition ALLOC_FRAME_NOSHARE := 0x0010.
Definition ALLOC_FRAME_MMAP := 0x0020.
Definition ALLOC_FRAME_ALLOC_PHYS := 0x0040.

(** [flags & option] as a condition. *)
Definition flag (flags option : Z) : bool := negb (Z.land flags option =? 0).

(** ** Accesses *)

(** An operation of memmap.c on the map at [a]. *)
Definition on_map {A} (a : Z) (op : M memmap A) : M mmu A :=
  s <- get;;
  m <- deref (memmaps s !! a);;
  let put m := s <| memmaps := <[a := m]> (memmaps s) |> in
  fun _ => match op m with
           | Ret x m => Ret x (put m)
           | Panics msg m => Panics msg (put m)
           | Blocks m => Blocks (put m)
           | Faults m => Faults (put m)
           | NoFuel m => NoFuel (put m)
           end.

Definition wait_word {S} (w : Z) : M S Z :=
  if w =? 0 then ret 1 else if w =? 1 then block else panic "mutex_try: i == 1 || i == 0".
Definition release_word {S} (w : Z) : M S Z := if w =? 1 then ret 0 else panic "mutex_release: i == 1".

Definition lock_map (a : Z) : M mmu unit :=
  on_map a (m <- get;; w <- wait_word (lock m);; modify (fun m => m <| lock := w |>)).
Definition unlock_map (a : Z) : M mmu unit :=
  on_map a (m <- get;; w <- release_word (lock m);; modify (fun m => m <| lock := w |>)).
Definition lock_refs : M mmu unit :=
  s <- get;; w <- wait_word (frame_refs_lock s);; modify (fun s => s <| frame_refs_lock := w |>).
Definition unlock_refs : M mmu unit :=
  s <- get;; w <- release_word (frame_refs_lock s);; modify (fun s => s <| frame_refs_lock := w |>).
Definition lock_kmmaps : M mmu unit :=
  s <- get;; w <- wait_word (kmmaps_lock s);; modify (fun s => s <| kmmaps_lock := w |>).
Definition unlock_kmmaps : M mmu unit :=
  s <- get;; w <- release_word (kmmaps_lock s);; modify (fun s => s <| kmmaps_lock := w |>).

(** [frame_refs[f]] *)
Definition refs_of (f : Z) : M mmu Z := s <- get;; deref (frame_refs s !! Z.to_nat f).
Definition set_refs (f n : Z) : M mmu unit :=
  _ <- refs_of f;; modify (fun s => s <| frame_refs := <[Z.to_nat f := n]> (frame_refs s) |>).

Definition directory_at (d : Z) : M mmu page_directory_t := s <- get;; deref (directories s !! d).
Definition upd_directory (d : Z) (f : page_directory_t -> page_directory_t) : M mmu unit :=
  v <- directory_at d;; modify (fun s => s <| directories := <[d := f v]> (directories s) |>).

Definition table_at (t : Z) : M mmu page_table_t := s <- get;; deref (page_tables s !! t).
Definition upd_table (t : Z) (f : page_table_t -> page_table_t) : M mmu unit :=
  v <- table_at t;; modify (fun s => s <| page_tables := <[t := f v]> (page_tables s) |>).

(** [directory->tables[i]] *)
Definition table_of (d i : Z) : M mmu Z := v <- directory_at d;; deref (tables v !! Z.to_nat i).

(** [table->pages[i]] and [table->pages_info[i]] *)
Definition page_at (t i : Z) : M mmu page_t := v <- table_at t;; deref (pages v !! Z.to_nat i).
Definition upd_page (t i : Z) (f : page_t -> page_t) : M mmu unit :=
  p <- page_at t i;; upd_table t (fun v => v <| pages := <[Z.to_nat i := f p]> (pages v) |>).
Definition info_at (t i : Z) : M mmu page_info_t := v <- table_at t;; deref (pages_info v !! Z.to_nat i).
Definition upd_info (t i : Z) (f : page_info_t -> page_info_t) : M mmu unit :=
  p <- info_at t i;; upd_table t (fun v => v <| pages_info := <[Z.to_nat i := f p]> (pages_info v) |>).

Definition task_of : M mmu mtask := s <- get;; deref (current_task s).
Definition upd_task (f : mtask -> mtask) : M mmu unit :=
  t <- task_of;; modify (fun s => s <| current_task := Some (f t) |>).

(** Table and page of an address. *)
Definition table_idx (vaddr : Z) : Z := vaddr / MMU_PAGE_SIZE / 1024.
Definition page_idx (vaddr : Z) : Z := (vaddr / MMU_PAGE_SIZE) mod 1024.

(** [for (a = first; a < limit; a += 0x1000) body(a)] *)
Fixpoint page_loop (fuel : nat) (a limit : Z) (body : Z -> M mmu unit) : M mmu unit :=
  if negb (a <? limit) then ret tt else
  match fuel with
  | O => nofuel
  | S fuel => body a;;; page_loop fuel (u32 (a + 0x1000)) limit body
  end.
Definition for_pages (a limit : Z) (body : Z -> M mmu unit) : M mmu unit :=
  page_loop (Z.to_nat ((limit - a + 0xFFF) / 0x1000)) a limit body.

(** [for (i = 0; i < n; i++) body(i)] *)
Fixpoint for_index (n : nat) (i : Z) (body : Z -> M mmu unit) : M mmu unit :=
  match n with
  | O => ret tt
  | S n => body i;;; for_index n (i + 1) body
  end.

(** ** Frames *)

(** [mmu_frame_free], for the page [i] of the table [t]. *)
Definition mmu_frame_free (t i : Z) : M mmu unit :=
  p <- page_at t i;;
  if frame p =? 0 then ret tt else
  lock_refs;;;
  n <- refs_of (frame p);;
  set_refs (frame p) (u32 (n - 1));;;
  (if u32 (n - 1) =? 0 then
     lock_map physical_memmap;;;
     on_map physical_memmap (memmap_clear_page (u32 (frame p * MMU_PAGE_SIZE)));;;
     unlock_map physical_memmap
   else ret tt);;;
  unlock_refs;;;
  upd_page t i (fun p => p <| frame := 0 |> <| present := false |> <| accessed := false |> <| dirty := false |>
                           <| rw := false |> <| user := false |>).

Definition mmu_alloc_frame (address directory : Z) : M mmu Z :=
  assert (negb (directory =? 0)) "directory != NULL";;;
  t <- table_of directory (table_idx address);;
  assert (negb (t =? 0)) "directory->tables[indx] != NULL";;;
  p <- page_at t (page_idx address);;
  if negb (frame p =? 0) then ret 0 else
  lock_map physical_memmap;;;
  idx <- on_map physical_memmap memmap_find_free_page;;
  if idx =? 0xFFFFFFFF then panic "Out of physical memory!" else
  on_map physical_memmap (memmap_set_page (u32 (idx * MMU_PAGE_SIZE)));;;
  unlock_map physical_memmap;;;
  upd_page t (page_idx address) (fun p => p <| present := true |> <| accessed := false |> <| dirty := false |>
                                            <| frame := idx mod 2 ^ 20 |>);;;
  upd_info t (page_idx address) (fun v => v <| commited := true |>);;;
  n <- refs_of idx;;
  set_refs idx (u32 (n + 1));;;
  ret (u32 (idx * MMU_PAGE_SIZE)).

Definition copy_physical_page (dest src : Z) : M mmu unit :=
  modify (fun s => s <| frames := <[dest / MMU_PAGE_SIZE := default [] (frames s !! (src / MMU_PAGE_SIZE))]>
                                    (frames s) |>).

(** ** Pages *)

(** [mmu_alloc_page]: is a page returned, and the physical address if one was
    allocated.  [kalloc_table] is the call of [kalloc] for a page table. *)
Definition mmu_alloc_page (kalloc_table : M mmu (Z * option Z)) (dir vaddr flags : Z) : M mmu (bool * option Z) :=
  t <- table_of dir (table_idx vaddr);;
  t <- (if negb (t =? 0) then ret t else
        if negb (flag flags ALLOC_FRAME_MKTABLE) then ret 0 else
        '(t, tmp) <- kalloc_table;;
        upd_directory dir (fun d => d <| tables := <[Z.to_nat (table_idx vaddr) := t]> (tables d) |>);;;
        if t =? 0 then
          s <- get;;
          match current_task s with
          | Some _ => upd_task (fun k => k <| mt_errno := -8 |>);;; ret 0
          | None => ret 0
          end
        else
          modify (fun s => s <| page_tables := <[t := zero_table]> (page_tables s) |>);;;
          tmp <- deref tmp;;
          upd_directory dir (fun d => d <| tablesPhysical := <[Z.to_nat (table_idx vaddr) := Z.lor tmp 0x7]>
                                                               (tablesPhysical d) |>);;;
          ret t);;
  if t =? 0 then ret (false, None) else
  upd_page t (page_idx vaddr) (fun p => p <| rw := flag flags ALLOC_FRAME_WRITEABLE |>
                                         <| user := negb (flag flags ALLOC_FRAME_KERNEL) |>);;;
  upd_info t (page_idx vaddr) (fun v => v <| cow := flag flags ALLOC_FRAME_COW |>
                                         <| noshare := flag flags ALLOC_FRAME_NOSHARE |>
                                         <| mmap := flag flags ALLOC_FRAME_MMAP |>);;;
  (if flag flags ALLOC_FRAME_NOSHARE then upd_table t (fun v => v <| t_noshare := true |>) else ret tt);;;
  if flag flags ALLOC_FRAME_ALLOC_PHYS
  then phys <- mmu_alloc_frame vaddr dir;; ret (true, Some phys)
  else ret (true, None).

(** [mmu_get_page]: the table and the index of the page; [None] is NULL. *)
Definition mmu_get_page (dir address : Z) : M mmu (option (Z * Z)) :=
  t <- table_of dir (table_idx address);;
  ret (if t =? 0 then None else Some (t, page_idx address)).

(** ** kalloc and kfree *)

Section Kalloc.

(** Does the [n]-th call of [malloc] return a buffer. *)
Context (malloc_ok : nat -> bool).

Definition malloc_buffer : M mmu bool :=
  s <- get;; modify (fun s => s <| mallocs := S (mallocs s) |>);;; ret (malloc_ok (mallocs s)).

(** [kalloc_premmu] *)
Definition kalloc_premmu (sz virt flags : Z) : M mmu (Z * option Z) :=
  assert (flag flags KALLOC_OPTN_KERNEL) "flags & KALLOC_OPTN_KERNEL";;;
  modify (fun s => s <| placement_address := if negb (Z.land (placement_address s) 0x3 =? 0)
                                             then u32 (Z.land (placement_address s) 0xFFFFFFFC + 0x4)
                                             else placement_address s |>);;;
  s <- get;;
  if (sz <? u32 (Z.land (placement_address s) 0xFFFFF000 + 0x1000)) && negb (flag flags KALLOC_OPTN_ALIGN)
  then modify (fun s => s <| placement_address := u32 (placement_address s + sz) |>);;;
       ret (placement_address s, None)
  else
    modify (fun s => s <| placement_address :=
              if flag flags KALLOC_OPTN_ALIGN && negb (Z.land (placement_address s) 0xFFF =? 0)
              then u32 (Z.land (placement_address s) 0xFFFFF000 + 0x1000) else placement_address s |>);;;
    s <- get;;
    modify (fun s => s <| placement_address := u32 (placement_address s + sz) |>);;;
    ret (placement_address s, Some (placement_address s)).

(** The first loop of [kalloc]: is a page of the range taken. *)
Fixpoint range_taken (fuel : nat) (map a limit : Z) : M mmu bool :=
  if negb (a <? limit) then ret false else
  match fuel with
  | O => nofuel
  | S fuel => b <- on_map map (memmap_test_page a);;
              if negb (b =? 0) then ret true else range_taken fuel map (u32 (a + 0x1000)) limit
  end.

(** The pages that [kalloc] reserves, 0 when there are none. *)
Definition reserve (map sz vaddr : Z) : M mmu Z :=
  if negb (vaddr =? 0) then
    assert (Z.land vaddr 0xFFF =? 0) "(vaddr & 0xFFF) == 0";;;
    let limit := u32 (vaddr + sz) in
    taken <- range_taken (Z.to_nat ((limit - vaddr + 0xFFF) / 0x1000)) map vaddr limit;;
    ret (if taken : bool then 0 else vaddr)
  else
    p <- on_map map (memmap_find_free_pages (u32 (sz + 0xFFF) / 0x1000));;
    ret (u32 (p * 0x1000)).

(** The flags that [kalloc] gives to [mmu_alloc_page]; those that say whom the
    page is for have been overwritten. *)
Definition page_flags (flags : Z) : Z :=
  let pflags := ALLOC_FRAME_MKTABLE in
  let pflags := if flag flags KALLOC_OPTN_NOCOW then pflags else Z.lor pflags ALLOC_FRAME_COW in
  let pflags := if flag flags KALLOC_OPTN_NOSHARE then Z.lor pflags ALLOC_FRAME_NOSHARE else pflags in
  let pflags := Z.lor pflags (if flag flags KALLOC_OPTN_MMAP then ALLOC_FRAME_MMAP else ALLOC_FRAME_ALLOC_PHYS) in
  Z.lor pflags ALLOC_FRAME_WRITEABLE.

(** [kalloc]: the address, 0 if there is none, and the physical address of the
    first page.  [mm] is the optional argument.  The fuel bounds the
    allocation of page tables for page tables. *)
Fixpoint kalloc (fuel : nat) (sz vaddr flags mm : Z) : M mmu (Z * option Z) :=
  match fuel with
  | O => nofuel
  | S fuel =>
      s <- get;;
      if current_directory s =? 0 then kalloc_premmu sz vaddr flags else
      assert ((vaddr =? 0) || (Z.land vaddr 0xFFFFF000 =? vaddr)) "vaddr == NULL || (vaddr & 0xFFFFF000) == vaddr";;;
      let kernel := flag flags KALLOC_OPTN_KERNEL in
      let map := if kernel then kernel_memmap else current_memmap s in
      let dir := if kernel then kernel_directory else current_directory s in
      lock_map map;;;
      vaddr <- reserve map sz vaddr;;
      if vaddr =? 0 then unlock_map map;;; ret (0, None) else
      let limit := u32 (vaddr + sz) in
      for_pages vaddr limit (fun a => on_map map (memmap_set_page a));;;
      unlock_map map;;;
      let kalloc_table := kalloc fuel sizeof_page_table 0 (Z.lor KALLOC_OPTN_ALIGN KALLOC_OPTN_KERNEL) 0 in
      let alloc a := '(ok, phys) <- mmu_alloc_page kalloc_table dir a (page_flags flags);;
                     assert ok "page != NULL";;; ret phys in
      phys <- alloc vaddr;;
      for_pages (u32 (vaddr + 0x1000)) limit (fun a => alloc a;;; ret tt);;;
      s <- get;;
      (if negb (flag flags KALLOC_OPTN_NOFREE) && negb (kheap_len s =? 0) then
         ok <- malloc_buffer;;
         assert ok "buf != NULL";;;
         let buf := mkBuffer vaddr (u32 (sz + 0xFFF) / 0x1000) (if flag flags KALLOC_OPTN_MMAP then mm else 0) in
         if kernel then modify (fun s => s <| kernel_buffers := kernel_buffers s ++ [buf] |>)
         else upd_task (fun t => t <| mt_buffers := mt_buffers t ++ [buf] |>)
       else ret tt);;;
      ret (vaddr, phys)
  end.

(** The first buffer with an address, and the list without it. *)
Fixpoint unlink_buffer (l : list buffer_t) (ptr : Z) : option (buffer_t * list buffer_t) :=
  match l with
  | [] => None
  | b :: l => if b_address b =? ptr then Some (b, l)
              else match unlink_buffer l ptr with Some (c, l) => Some (c, b :: l) | None => None end
  end.

Fixpoint unlink_mmap (l : list mmap_info_t) (m : Z) : option (list mmap_info_t) :=
  match l with
  | [] => None
  | x :: l => if mi_self x =? m then Some l else match unlink_mmap l m with Some l => Some (x :: l) | None => None end
  end.

(** The loop over the pages of a buffer that is freed. *)
Fixpoint free_pages (n : nat) (dir map addr : Z) : M mmu unit :=
  match n with
  | O => ret tt
  | S n =>
      o <- mmu_get_page dir addr;;
      '(t, i) <- deref o;;
      mmu_frame_free t i;;;
      on_map map (memmap_clear_page addr);;;
      free_pages n dir map (u32 (addr + 0x1000))
  end.

Definition kfree (ptr : Z) : M mmu unit :=
  s <- get;;
  '(buf, dir, map, unlink) <-
    match unlink_buffer (kernel_buffers s) ptr with
    | Some (b, l) => ret (b, kernel_directory, kernel_memmap, modify (fun s => s <| kernel_buffers := l |>))
    | None =>
        match current_task s with
        | None => panic "current_task != NULL"
        | Some t =>
            match unlink_buffer (mt_buffers t) ptr with
            | Some (b, l) => ret (b, current_directory s, mt_memmap t, upd_task (fun t => t <| mt_buffers := l |>))
            | None => panic "*tmp != NULL"
            end
        end
    end;;
  free_pages (Z.to_nat (b_pages buf)) dir map (b_address buf);;;
  (if negb (b_mmap buf =? 0) then
     t <- task_of;;
     l <- deref (unlink_mmap (mt_mmaps t) (b_mmap buf));;
     upd_task (fun t => t <| mt_mmaps := l |>)
   else ret tt);;;
  unlink.

(** ** Address spaces *)

(** [switch_page_directory] *)
Definition switch_page_directory (directory : Z) : M mmu unit :=
  modify (fun s => s <| current_directory := directory |>).

Definition mmu_switch_to_kernel_directory : M mmu unit :=
  modify (fun s => s <| current_memmap := default_memmap |>);;; switch_page_directory kernel_directory.

(** One page of [mmu_clone_table]: page [i] of the table [src], which is at
    [vaddr], into the table [t]. *)
Definition clone_page (t src directory flags i vaddr : Z) : M mmu unit :=
  p <- page_at src i;;
  if frame p =? 0 then ret tt else
  v <- info_at src i;;
  if flag flags CLONE_COW && cow v && negb (noshare v) then
    upd_page src i (fun p => p <| rw := false |> <| accessed := false |> <| dirty := false |>);;;
    upd_info src i (fun v => v <| commited := false |>);;;
    p <- page_at src i;;
    v <- info_at src i;;
    upd_page t i (fun _ => p);;;
    upd_info t i (fun _ => v);;;
    n <- refs_of (frame p);;
    set_refs (frame p) (u32 (n + 1))
  else
    mmu_alloc_frame vaddr directory;;;
    tmp <- page_at src i;;
    q <- page_at t i;;
    upd_page t i (fun _ => tmp <| frame := frame q |> <| accessed := false |> <| dirty := false |>);;;
    v <- info_at src i;;
    upd_info t i (fun _ => v <| commited := true |>);;;
    copy_physical_page (u32 (frame q * MMU_PAGE_SIZE)) (u32 (frame tmp * MMU_PAGE_SIZE)).

Definition CLONE_TABLE_OPTN := Z.lor (Z.lor KALLOC_OPTN_ALIGN KALLOC_OPTN_KERNEL) KALLOC_OPTN_WRITEABLE.

(** [mmu_clone_table] into the entry [k] of [directory]; the table and its
    physical address. *)
Definition mmu_clone_table (fuel : nat) (k src vaddr directory flags : Z) : M mmu (Z * option Z) :=
  '(t, phys) <- kalloc fuel sizeof_page_table 0 CLONE_TABLE_OPTN 0;;
  upd_directory directory (fun d => d <| tables := <[Z.to_nat k := t]> (tables d) |>);;;
  if t =? 0 then ret (0, phys) else
  v <- table_at src;;
  modify (fun s => s <| page_tables := <[t := zero_table <| t_noshare := t_noshare v |>]> (page_tables s) |>);;;
  for_index 1024 0 (fun i => clone_page t src directory flags i (u32 (vaddr + i * MMU_PAGE_SIZE)));;;
  ret (t, phys).

(** [kfree] of a table or directory: the object is gone. *)
Definition kfree_table (t : Z) : M mmu unit :=
  kfree t;;; modify (fun s => s <| page_tables := delete t (page_tables s) |>).
Definition kfree_directory (d : Z) : M mmu unit :=
  kfree d;;; modify (fun s => s <| directories := delete d (directories s) |>).

(** One table of [mmu_destroy_directory]. *)
Definition destroy_table (directory i : Z) : M mmu unit :=
  t <- table_of directory i;;
  if t =? 0 then ret tt else
  k <- table_of kernel_directory i;;
  if negb (k =? t) then
    for_index 1024 0 (fun j => p <- page_at t j;; if negb (frame p =? 0) then mmu_frame_free t j else ret tt);;;
    v <- table_at t;;
    upd_table t (fun v => v <| refs := u32 (refs v - 1) |>);;;
    if u32 (refs v - 1) =? 0 then kfree_table t else ret tt
  else upd_table k (fun v => v <| refs := u32 (refs v - 1) |>).

Definition mmu_destroy_directory (directory : Z) : M mmu unit :=
  assert (negb (directory =? 0)) "directory != NULL";;;
  for_index 1024 0 (destroy_table directory);;;
  kfree_directory directory.

(** The loop of [mmu_clone_directory]; is the directory complete. *)
Fixpoint clone_tables (fuel n : nat) (i src dir flags : Z) : M mmu bool :=
  match n with
  | O => ret true
  | S n =>
      t <- table_of src i;;
      if t =? 0 then clone_tables fuel n (i + 1) src dir flags else
      v <- table_at t;;
      k <- table_of kernel_directory i;;
      if (flag flags CLONE_SHARE && negb (t_noshare v)) || (k =? t) then
        sd <- directory_at src;;
        ph <- deref (tablesPhysical sd !! Z.to_nat i);;
        upd_directory dir (fun d => d <| tables := <[Z.to_nat i := t]> (tables d) |>
                                      <| tablesPhysical := <[Z.to_nat i := ph]> (tablesPhysical d) |>);;;
        upd_table t (fun v => v <| refs := u32 (refs v + 1) |>);;;
        clone_tables fuel n (i + 1) src dir flags
      else
        '(c, phys) <- mmu_clone_table fuel i t (u32 (i * 1024 * MMU_PAGE_SIZE)) dir flags;;
        upd_directory dir (fun d => d <| tables := <[Z.to_nat i := c]> (tables d) |>);;;
        if c =? 0 then mmu_destroy_directory dir;;; ret false else
        let physmem := default 0 phys in
        upd_directory dir (fun d => d <| tablesPhysical := <[Z.to_nat i := Z.lor physmem 0x07]> (tablesPhysical d) |>);;;
        clone_tables fuel n (i + 1) src dir flags
  end.

(** [mmu_clone_directory]: the directory, 0 if there is none, and its physical
    address. *)
Definition mmu_clone_directory (fuel : nat) (src flags : Z) : M mmu (Z * option Z) :=
  '(dir, physmem) <- kalloc fuel sizeof_page_directory 0 CLONE_TABLE_OPTN 0;;
  if dir =? 0 then ret (0, None) else
  modify (fun s => s <| directories := <[dir := zero_directory]> (directories s) |>);;;
  physmem <- deref physmem;;
  done <- clone_tables fuel 1024 0 src dir flags;;
  ret (if done : bool then dir else 0, Some (u32 (physmem + 4096))).

(** [brk] and [sbrk] *)
Definition brk (addr : Z) : M mmu Z := ret (-12).
Definition sbrk (inc : Z) : M mmu Z := ret (-12).

(** ** Page faults *)

(** What the handler asks of the file layer: the node of a descriptor of the
    running task, [None] if there is none, and to read a page of a node to an
    address. *)
Context (fd_node : Z -> M mmu (option Z)) (read_page : Z -> Z -> Z -> M mmu unit).

(** The loop of [mmap_dup].  [st], [si] and [dt], [di] are the pages that the
    pointers are at; [s_offs] and [d_offs] are counted apart from them. *)
Fixpoint dup_loop (fuel : nat) (dir cur st si dt di s_indx s_offs d_indx d_offs len : Z) : M mmu unit :=
  if negb (0 <? len) then ret tt else
  match fuel with
  | O => nofuel
  | S fuel =>
      sp <- page_at st si;;
      dp <- page_at dt di;;
      (if present sp && negb (present dp) then
         lock_refs;;;
         n <- refs_of (frame sp);;
         set_refs (frame sp) (u32 (n + 1));;;
         unlock_refs;;;
         (if rw sp then upd_page st si (fun p => p <| rw := false |>);;;
                        upd_info st si (fun v => v <| commited := false |>) else ret tt);;;
         p <- page_at st si;;
         v <- info_at st si;;
         upd_page dt di (fun _ => p);;;
         upd_info dt di (fun _ => v)
       else ret tt);;;
      let s_indx := s_indx + 1 in
      let d_indx := d_indx + 1 in
      let s_offs := s_offs + 1 in
      let d_offs := d_offs + 1 in
      '(st, si, s_indx, s_offs) <- (if s_offs =? 1024
                                    then st <- table_of dir (s_indx + 1);; ret (st, 0, s_indx + 1, 0)
                                    else ret (st, si + 1, s_indx, s_offs));;
      '(dt, di, d_indx, s_offs) <- (if d_offs =? 1024
                                    then dt <- table_of cur (d_indx + 1);; ret (dt, d_offs, d_indx + 1, 0)
                                    else ret (dt, di + 1, d_indx, s_offs));;
      dup_loop fuel dir cur st si dt di s_indx s_offs d_indx d_offs (u32 (len - MMU_PAGE_SIZE))
  end.

Definition mmap_dup (fuel : nat) (dir src dst len : Z) : M mmu unit :=
  s <- get;;
  let cur := current_directory s in
  st <- table_of dir (table_idx src);;
  dt <- table_of cur (table_idx dst);;
  dup_loop fuel dir cur st (page_idx src) dt (page_idx dst)
    (table_idx src) (page_idx src) (table_idx dst) (page_idx dst) len.

(** How a fault ends: the instruction is run again, or the task is sent SIGSEGV
    and another one is scheduled.  A fault of the kernel itself panics. *)
Inductive fault_end := Resume | Segv.

Definition page_mask (a : Z) : Z := Z.land a 0xFFFFF000.

(** The mapping of the running task that has the address. *)
Definition covers (address : Z) (m : mmap_info_t) : bool :=
  (mi_addr m <=? address) && (address <=? u32 (mi_addr m + mi_len m)).

Fixpoint find_kmmap (l : list kmmap_t) (node offset : Z) (i : nat) : option (nat * kmmap_t) :=
  match l with
  | [] => None
  | k :: l => if (km_node k =? node) && (offset =? mi_offset (km_mmap k)) then Some (i, k) else find_kmmap l node offset (S i)
  end.

(** The page [i] of [t] shares the page [mi] of [mt], the master mapping. *)
Definition share_master (t i mt mi : Z) : M mmu unit :=
  mp <- page_at mt mi;;
  lock_refs;;;
  n <- refs_of (frame mp);;
  set_refs (frame mp) (u32 (n + 1));;;
  unlock_refs;;;
  (if rw mp then upd_page mt mi (fun p => p <| rw := false |>);;;
                 upd_info mt mi (fun v => v <| commited := false |>) else ret tt);;;
  p <- page_at mt mi;;
  v <- info_at mt mi;;
  upd_page t i (fun _ => p);;;
  upd_info t i (fun _ => v).

(** A fault on a page of a mapped file that has no frame; is it handled. *)
Definition mmap_fault (fuel : nat) (t i address : Z) : M mmu bool :=
  k <- task_of;;
  w <- wait_word (mt_mmaps_lock k);;
  upd_task (fun k => k <| mt_mmaps_lock := w |>);;;
  w <- release_word w;;
  upd_task (fun k => k <| mt_mmaps_lock := w |>);;;
  match List.find (covers address) (mt_mmaps k) with
  | None => ret false
  | Some m =>
      node <- fd_node (mi_fd m);;
      match node with
      | None => ret false
      | Some node =>
          lock_kmmaps;;;
          s <- get;;
          let read := read_page node (u32 (mi_offset m + (page_mask address - mi_addr m))) (page_mask address) in
          match find_kmmap (kmmaps s) node (mi_offset m) 0 with
          | Some (n, km) =>
              let m_address := page_mask (u32 (mi_addr (km_mmap km) + (address - mi_addr m))) in
              mt <- table_of (km_directory km) (table_idx m_address);;
              let mi := page_idx m_address in
              mp <- page_at mt mi;;
              (if negb (present mp) then mmu_alloc_frame (page_mask address) (km_directory km);;; read else ret tt);;;
              (if (mt =? t) && (mi =? i) then ret tt else
               share_master t i mt mi;;;
               if mi_len (km_mmap km) <? mi_len m then
                 mmap_dup fuel (km_directory km) (mi_addr (km_mmap km)) (mi_addr m) (mi_len (km_mmap km));;;
                 modify (fun s => s <| kmmaps := <[n := km <| km_mmap := m |> <| km_directory := current_directory s |>]>
                                                   (kmmaps s) |>)
               else ret tt);;;
              unlock_kmmaps;;; ret true
          | None =>
              ok <- malloc_buffer;;
              if negb ok then unlock_kmmaps;;; ret false else
              mmu_alloc_frame (page_mask address) (current_directory s);;;
              read;;;
              modify (fun s => s <| kmmaps := kmmaps s ++ [mkKmmap m node (current_directory s)] |>);;;
              unlock_kmmaps;;; ret true
          end
      end
  end.

(** The page [i] of [t], which shares its frame, gets a copy of it. *)
Definition copy_frame (t i address : Z) : M mmu unit :=
  p <- page_at t i;;
  upd_page t i (fun p => p <| frame := 0 |>);;;
  s <- get;;
  mmu_alloc_frame address (current_directory s);;;
  q <- page_at t i;;
  assert (negb (frame q =? 0)) "page->frame != NULL";;;
  upd_page t i (fun p => p <| rw := true |>);;;
  n <- refs_of (frame p);;
  set_refs (frame p) (u32 (n - 1));;;
  copy_physical_page (u32 (frame q * MMU_PAGE_SIZE)) (u32 (frame p * MMU_PAGE_SIZE)).

(** The write to a page that is not committed: the page [i] of [t] gets the
    frame for itself. *)
Definition commit_page (t i address : Z) : M mmu unit :=
  lock_refs;;;
  p <- page_at t i;;
  n <- refs_of (frame p);;
  (if n =? 1 then
     upd_page t i (fun p => p <| rw := true |>);;; upd_info t i (fun v => v <| commited := true |>)
   else copy_frame t i address);;;
  unlock_refs.

(** [page_fault], for the address that faulted and the error code. *)
Definition page_fault (fuel : nat) (address err_code : Z) : M mmu fault_end :=
  let write := flag err_code 0x02 in
  let unhandled :=
    k <- task_of;; if negb (mt_pid k =? 0) then ret Segv else panic "Page Fault!" in
  s <- get;;
  t <- table_of (current_directory s) (table_idx address);;
  let i := page_idx address in
  p <- page_at t i;;
  v <- info_at t i;;
  if commited v then unhandled else
  ok <- (if mmap v && (frame p =? 0) then ok <- mmap_fault fuel t i address;; ret (Some ok) else ret None);;
  match ok with
  | Some false => unhandled
  | Some true => if write then commit_page t i address;;; ret Resume else ret Resume
  | None => if write then commit_page t i address;;; ret Resume else ret Resume
  end.
End Kalloc.
