(* ===== verification/Frames.v ===== *)
(** * Frames: copy on write (kernel/mmu.c)

    The invariant of the reference counts of mmu.c -- the count of a frame is
    the number of page table entries that point to it, the bitmap of the
    physical memory has the frames that are counted, and a frame that can be
    written through one entry is used by no other -- and what it gives: an
    address space that was copied on write behaves like a private copy. *)

From S2P Require Import Prelude Memmap Mmu.

(** ** Entries of the page tables *)

Notation tmap := (gmap Z page_table_t).

Definition entry (h : tmap) (t : Z) (i : nat) : option page_t := h !! t ≫= fun v => pages v !! i.
Definition info (h : tmap) (t : Z) (i : nat) : option page_info_t := h !! t ≫= fun v => pages_info v !! i.
Definition set_entry (h : tmap) (t : Z) (i : nat) (p : page_t) : tmap :=
  alter (fun v => v <| pages := <[i := p]> (pages v) |>) t h.
Definition set_info (h : tmap) (t : Z) (i : nat) (x : page_info_t) : tmap :=
  alter (fun v => v <| pages_info := <[i := x]> (pages_info v) |>) t h.

Lemma entry_table h t i p : entry h t i = Some p -> exists v, h !! t = Some v /\ pages v !! i = Some p.
Proof. unfold entry. destruct (h !! t) as [v|]; [|done]. by exists v. Qed.
Lemma info_table h t i x : info h t i = Some x -> exists v, h !! t = Some v /\ pages_info v !! i = Some x.
Proof. unfold info. destruct (h !! t) as [v|]; [|done]. by exists v. Qed.

Lemma entry_set_entry h t i p t' i' :
  is_Some (entry h t i) ->
  entry (set_entry h t i p) t' i' = if decide (t = t' /\ i = i') then Some p else entry h t' i'.
Proof.
  intros [q Hq]. destruct (entry_table _ _ _ _ Hq) as (v & Hv & Hp). unfold entry, set_entry.
  destruct (decide (t = t')) as [<-|Ht].
  - rewrite lookup_alter_eq, Hv. simpl. destruct (decide (i = i')) as [<-|Hi].
    + rewrite decide_True by done. apply list_lookup_insert_eq. by eapply lookup_lt_Some.
    + rewrite decide_False by naive_solver. by rewrite list_lookup_insert_ne.
  - rewrite lookup_alter_ne by done. by rewrite decide_False by naive_solver.
Qed.

Lemma entry_set_info h t i x t' i' : entry (set_info h t i x) t' i' = entry h t' i'.
Proof.
  unfold entry, set_info. destruct (decide (t = t')) as [<-|Ht].
  - rewrite lookup_alter_eq. by destruct (h !! t).
  - by rewrite lookup_alter_ne.
Qed.

Lemma info_set_entry h t i p t' i' : info (set_entry h t i p) t' i' = info h t' i'.
Proof.
  unfold info, set_entry. destruct (decide (t = t')) as [<-|Ht].
  - rewrite lookup_alter_eq. by destruct (h !! t).
  - by rewrite lookup_alter_ne.
Qed.

Lemma info_set_info h t i x t' i' :
  is_Some (info h t i) ->
  info (set_info h t i x) t' i' = if decide (t = t' /\ i = i') then Some x else info h t' i'.
Proof.
  intros [y Hy]. destruct (info_table _ _ _ _ Hy) as (v & Hv & Hp). unfold info, set_info.
  destruct (decide (t = t')) as [<-|Ht].
  - rewrite lookup_alter_eq, Hv. simpl. destruct (decide (i = i')) as [<-|Hi].
    + rewrite decide_True by done. apply list_lookup_insert_eq. by eapply lookup_lt_Some.
    + rewrite decide_False by naive_solver. by rewrite list_lookup_insert_ne.
  - rewrite lookup_alter_ne by done. by rewrite decide_False by naive_solver.
Qed.

(** ** The uses of a frame *)

Definition points (f : Z) (p : page_t) : nat := if frame p =? f then 1 else 0.
Definition count_in (f : Z) (v : page_table_t) : nat := sum_list_with (points f) (pages v).

(** How many entries of all tables point to [f]. *)
Definition uses (h : tmap) (f : Z) : nat := map_fold (fun _ v n => count_in f v + n)%nat 0%nat h.

Lemma sum_insert (g : page_t -> nat) l i p q : l !! i = Some p ->
  (sum_list_with g (<[i := q]> l) + g p = sum_list_with g l + g q)%nat.
Proof. revert i. induction l as [|x l IH]; intros [|i] H; simpl in *; simplify_eq; [lia|]. specialize (IH _ H). lia. Qed.

Lemma uses_delete h t v f : h !! t = Some v -> (uses h f = count_in f v + uses (delete t h) f)%nat.
Proof. intros H. unfold uses. apply (map_fold_delete_L (fun _ v n => count_in f v + n)%nat); [intros; lia | done]. Qed.

Lemma uses_fresh h t v f : h !! t = None -> (uses (<[t := v]> h) f = count_in f v + uses h f)%nat.
Proof. intros H. rewrite (uses_delete _ t v) by apply lookup_insert_eq. by rewrite delete_insert_id. Qed.

Lemma uses_replace h t v v' f : h !! t = Some v ->
  (uses (<[t := v']> h) f + count_in f v = uses h f + count_in f v')%nat.
Proof.
  intros H. rewrite (uses_delete h t v), (uses_delete (<[t := v']> h) t v') by (done || apply lookup_insert_eq).
  rewrite delete_insert_eq. lia.
Qed.

Lemma uses_set_entry h t i p q f : entry h t i = Some p ->
  (uses (set_entry h t i q) f + points f p = uses h f + points f q)%nat.
Proof.
  intros H. destruct (entry_table _ _ _ _ H) as (v & Hv & Hp). unfold set_entry.
  rewrite (alter_alt_Some _ _ _ v Hv). set (v' := v <| pages := _ |>).
  pose proof (uses_replace h t v v' f Hv). pose proof (sum_insert (points f) _ _ _ q Hp).
  unfold count_in, v' in *. simpl in *. lia.
Qed.

Lemma uses_set_info h t i x f : uses (set_info h t i x) f = uses h f.
Proof.
  unfold set_info. destruct (h !! t) as [v|] eqn:E.
  - rewrite (alter_alt_Some _ _ _ v E). set (v' := v <| pages_info := _ |>).
    pose proof (uses_replace h t v v' f E). change (count_in f v') with (count_in f v) in *. lia.
  - by rewrite alter_id by (intros ? H; by rewrite E in H).
Qed.

Lemma uses_pos h t i p : entry h t i = Some p -> (1 <= uses h (frame p))%nat.
Proof.
  intros H. pose proof (uses_set_entry h t i p (mkPage false false false false false (frame p - 1)) (frame p) H) as E.
  unfold points in E. simpl in E. rewrite Z.eqb_refl, (proj2 (Z.eqb_neq _ _)) in E by lia. lia.
Qed.

(** Two entries that point to the same frame are counted twice. *)
Lemma uses_two h t i p t' i' p' :
  entry h t i = Some p -> entry h t' i' = Some p' -> frame p = frame p' -> ~ (t = t' /\ i = i') ->
  (2 <= uses h (frame p))%nat.
Proof.
  intros H H' E Hne. set (q := mkPage false false false false false (frame p - 1)).
  pose proof (uses_set_entry h t i p q (frame p) H) as U.
  assert (entry (set_entry h t i q) t' i' = Some p') as H2.
  { rewrite entry_set_entry by by eexists. by rewrite decide_False. }
  pose proof (uses_pos _ _ _ _ H2) as U2. rewrite <- E in U2. unfold points in U. simpl in U.
  rewrite Z.eqb_refl, (proj2 (Z.eqb_neq _ _)) in U by lia. lia.
Qed.

(** ** Running the code *)

Section Run.
Context {B : Type}.

Lemma mrun_get (k : mmu -> M mmu B) s : bind get k s = k s s.
Proof. done. Qed.
Lemma mrun_ret {A} (a : A) (k : A -> M mmu B) s : bind (ret a) k s = k a s.
Proof. done. Qed.
Lemma mrun_modify f (k : unit -> M mmu B) s : bind (modify f) k s = k tt (f s).
Proof. done. Qed.
Lemma mrun_assert b msg (k : unit -> M mmu B) s : b = true -> bind (assert b msg) k s = k tt s.
Proof. by intros ->. Qed.

Lemma mrun_table_of d D i t (k : Z -> M mmu B) s :
  directories s !! d = Some D -> tables D !! Z.to_nat i = Some t -> bind (table_of d i) k s = k t s.
Proof. intros H1 H2. unfold table_of, directory_at, bind, get. rewrite H1. simpl. by rewrite H2. Qed.

Lemma mrun_page_at t i p (k : page_t -> M mmu B) s :
  entry (page_tables s) t (Z.to_nat i) = Some p -> bind (page_at t i) k s = k p s.
Proof.
  intros H. destruct (entry_table _ _ _ _ H) as (v & Hv & Hp). unfold page_at, table_at, bind, get. rewrite Hv.
  simpl. by rewrite Hp.
Qed.

Lemma mrun_info_at t i x (k : page_info_t -> M mmu B) s :
  info (page_tables s) t (Z.to_nat i) = Some x -> bind (info_at t i) k s = k x s.
Proof.
  intros H. destruct (info_table _ _ _ _ H) as (v & Hv & Hp). unfold info_at, table_at, bind, get. rewrite Hv.
  simpl. by rewrite Hp.
Qed.

Lemma mrun_upd_page t i f p (k : unit -> M mmu B) s :
  entry (page_tables s) t (Z.to_nat i) = Some p ->
  bind (upd_page t i f) k s = k tt (s <| page_tables := set_entry (page_tables s) t (Z.to_nat i) (f p) |>).
Proof.
  intros H. destruct (entry_table _ _ _ _ H) as (v & Hv & Hp).
  unfold upd_page, upd_table, page_at, table_at, bind, get. rewrite Hv. simpl. rewrite Hp. simpl. rewrite Hv. simpl.
  unfold set_entry. by rewrite (alter_alt_Some _ _ _ v Hv).
Qed.

Lemma mrun_upd_info t i f x (k : unit -> M mmu B) s :
  info (page_tables s) t (Z.to_nat i) = Some x ->
  bind (upd_info t i f) k s = k tt (s <| page_tables := set_info (page_tables s) t (Z.to_nat i) (f x) |>).
Proof.
  intros H. destruct (info_table _ _ _ _ H) as (v & Hv & Hp).
  unfold upd_info, upd_table, info_at, table_at, bind, get. rewrite Hv. simpl. rewrite Hp. simpl. rewrite Hv. simpl.
  unfold set_info. by rewrite (alter_alt_Some _ _ _ v Hv).
Qed.

Lemma mrun_refs_of f n (k : Z -> M mmu B) s :
  frame_refs s !! Z.to_nat f = Some n -> bind (refs_of f) k s = k n s.
Proof. intros H. unfold refs_of, bind, get. by rewrite H. Qed.

Lemma mrun_set_refs f n v (k : unit -> M mmu B) s :
  frame_refs s !! Z.to_nat f = Some v ->
  bind (set_refs f n) k s = k tt (s <| frame_refs := <[Z.to_nat f := n]> (frame_refs s) |>).
Proof. intros H. unfold set_refs, refs_of, bind, get. by rewrite H. Qed.

Lemma mrun_lock_refs (k : unit -> M mmu B) s :
  frame_refs_lock s = 0 -> bind lock_refs k s = k tt (s <| frame_refs_lock := 1 |>).
Proof. intros H. unfold lock_refs, bind, get. by rewrite H. Qed.

Lemma mrun_unlock_refs (k : unit -> M mmu B) s :
  frame_refs_lock s = 1 -> bind unlock_refs k s = k tt (s <| frame_refs_lock := 0 |>).
Proof. intros H. unfold unlock_refs, bind, get. by rewrite H. Qed.

Lemma mrun_on_map {A} a m op x m' (k : A -> M mmu B) s :
  memmaps s !! a = Some m -> op m = Ret x m' ->
  bind (on_map a op) k s = k x (s <| memmaps := <[a := m']> (memmaps s) |>).
Proof. intros H1 H2. unfold on_map, bind, get. rewrite H1. simpl. by rewrite H2. Qed.

Lemma mrun_lock_map a m (k : unit -> M mmu B) s :
  memmaps s !! a = Some m -> lock m = 0 ->
  bind (lock_map a) k s = k tt (s <| memmaps := <[a := m <| lock := 1 |>]> (memmaps s) |>).
Proof. intros H1 H2. unfold lock_map. erewrite mrun_on_map; [done | done |]. unfold bind, get. by rewrite H2. Qed.

Lemma mrun_unlock_map a m (k : unit -> M mmu B) s :
  memmaps s !! a = Some m -> lock m = 1 ->
  bind (unlock_map a) k s = k tt (s <| memmaps := <[a := m <| lock := 0 |>]> (memmaps s) |>).
Proof. intros H1 H2. unfold unlock_map. erewrite mrun_on_map; [done | done |]. unfold bind, get. by rewrite H2. Qed.
End Run.

Lemma upd_page_run t i f p s : entry (page_tables s) t (Z.to_nat i) = Some p ->
  upd_page t i f s = Ret tt (s <| page_tables := set_entry (page_tables s) t (Z.to_nat i) (f p) |>).
Proof.
  intros H. pose proof (mrun_upd_page t i f p (fun _ => ret tt) s H) as E. unfold bind in E.
  destruct (upd_page t i f s) as [[]| | | |]; naive_solver.
Qed.

Lemma unlock_refs_run s : frame_refs_lock s = 1 -> unlock_refs s = Ret tt (s <| frame_refs_lock := 0 |>).
Proof. intros H. unfold unlock_refs, bind, get. by rewrite H. Qed.

Ltac mred := unfold setf; simpl.

(** ** The invariant *)

(** The number of frames that the bitmap has. *)
Definition frame_limit (m : memmap) : Z := 32 * page_index (length_ m).

(** The references to [f], with one that is about to be given up when [f] is
    [e]. *)
Definition holds (h : tmap) (e f : Z) : nat := (uses h f + (if (f =? e)%Z then 1 else 0))%nat.

Lemma holds_uses h f : 0 < f -> holds h 0 f = uses h f.
Proof. intros H. unfold holds. rewrite (proj2 (Z.eqb_neq f 0)) by lia. lia. Qed.

Record frames_ok (s : mmu) (m : memmap) (e : Z) : Prop := {
  fo_map : memmaps s !! physical_memmap = Some m;
  fo_wf : memmap_wf m;
  fo_unlocked : lock m = 0;
  fo_size : frame_limit m <= Z.of_nat (length (frame_refs s)) /\ frame_limit m <= 2 ^ 20;
  fo_zero : page_used m 0 = true /\ is_Some (frame_refs s !! 0%nat);
  fo_words : forall k n, frame_refs s !! k = Some n -> 0 <= n < 2 ^ 32;
  fo_count : forall f, 0 < f < frame_limit m ->
    frame_refs s !! Z.to_nat f = Some (Z.of_nat (holds (page_tables s) e f));
  fo_used : forall f, 0 < f < frame_limit m -> page_used m f = true <-> (0 < holds (page_tables s) e f)%nat;
  fo_range : forall t i p, entry (page_tables s) t i = Some p -> 0 <= frame p < frame_limit m;
  fo_private : forall t i p, entry (page_tables s) t i = Some p -> rw p = true -> frame p <> 0 ->
    holds (page_tables s) e (frame p) = 1%nat
}.

Lemma frames_ok_ext s s' m e :
  memmaps s' !! physical_memmap = memmaps s !! physical_memmap -> frame_refs s' = frame_refs s ->
  page_tables s' = page_tables s -> frames_ok s m e -> frames_ok s' m e.
Proof. intros E1 E2 E3 []. split; rewrite ?E1, ?E2, ?E3; done. Qed.

(** A free frame is taken out of the bitmap. *)
Lemma take_frame_ok m : memmap_wf m -> exists r, memmap_find_free_page m = Ret r m /\ lowest_free m (frame_limit m) r.
Proof.
  intros Hwf. pose proof Hwf as (_ & ? & _). assert (0 <= page_index (length_ m)) by (apply Z.div_pos; lia).
  apply (find_free_page_loop_ok m 0 (Z.to_nat (page_index (length_ m))) Hwf); [lia | lia |]. intros q Hq. lia.
Qed.

Lemma memmap_wf_lock m w : memmap_wf m -> memmap_wf (m <| lock := w |>).
Proof. by intros (? & ? & ?). Qed.

Lemma set_page_lock m a m' : memmap_set_page a m = Ret tt m' -> lock m' = lock m.
Proof.
  unfold memmap_set_page, assert, bind, get. destruct (_ =? 0); [|done]. simpl.
  destruct (word_at _ _); [|done]. by intros [= <-].
Qed.
Lemma clear_page_lock m a m' : memmap_clear_page a m = Ret tt m' -> lock m' = lock m.
Proof. unfold memmap_clear_page, bind, get. destruct (word_at _ _); [|done]. by intros [= <-]. Qed.

Section Alloc.
Context (d : Z) (D : page_directory_t) (t : Z).

(** What [mmu_alloc_frame] makes of a page. *)
Definition mapped (p : page_t) (idx : Z) : page_t :=
  p <| present := true |> <| accessed := false |> <| dirty := false |> <| frame := idx |>.

Lemma set_frame_ok m idx :
  memmap_wf m -> page_used m 0 = true -> 0 < idx < frame_limit m -> frame_limit m <= 2 ^ 20 ->
  exists m', memmap_set_page (u32 (idx * MMU_PAGE_SIZE)) (m <| lock := 1 |>) = Ret tt (m' <| lock := 1 |>) /\
    memmap_wf m' /\ lock m' = 0 /\ frame_limit m' = frame_limit m /\
    forall q, 0 <= q -> page_used m' q = (q =? idx) || page_used m q.
Proof.
  intros Hwf Hz Hi Hl. pose proof Hwf as (_ & ? & Hlen). unfold MMU_PAGE_SIZE. rewrite u32_small by lia.
  destruct (set_page_ok (m <| lock := 1 |>) idx) as (m1 & E & H1 & H2 & H3 & H4).
  { by apply memmap_wf_lock. }
  { unfold frame_limit in *. simpl. lia. }
  pose proof (set_page_lock _ _ _ E) as E1. simpl in E1.
  exists (m1 <| lock := 0 |>). split_and!; [| by apply memmap_wf_lock | done | | done].
  - rewrite E. destruct m1. simpl in *. by subst.
  - unfold frame_limit. simpl. by rewrite H2.
Qed.

Lemma alloc_frame_ok s m e address p x :
  frames_ok s m e -> d <> 0 -> directories s !! d = Some D ->
  tables D !! Z.to_nat (table_idx address) = Some t -> t <> 0 ->
  let i := Z.to_nat (page_idx address) in
  entry (page_tables s) t i = Some p -> frame p = 0 -> info (page_tables s) t i = Some x ->
  (exists q, 0 <= q < frame_limit m /\ page_used m q = false) ->
  exists idx m', 0 < idx < frame_limit m /\ holds (page_tables s) e idx = 0%nat /\
    let s' := s <| memmaps := <[physical_memmap := m']> (memmaps s) |>
                <| page_tables := set_info (set_entry (page_tables s) t i (mapped p idx)) t i (x <| commited := true |>) |>
                <| frame_refs := <[Z.to_nat idx := 1]> (frame_refs s) |> in
    mmu_alloc_frame address d s = Ret (idx * MMU_PAGE_SIZE) s' /\ frames_ok s' m' e /\ frame_limit m' = frame_limit m /\
    (forall q, 0 <= q -> page_used m' q = (q =? idx) || page_used m q).
Proof.
  intros Hok Hd HD Ht Ht0 i Hp Hf Hx [q0 [Hq0 Hq0']]. pose proof Hok as [F1 F2 F3 [F4 F4'] [F5 F5'] FW F6 F7 F8 F9].
  destruct (take_frame_ok (m <| lock := 1 |>)) as (idx & Efind & Hlow); [by apply memmap_wf_lock|].
  destruct Hlow as [(Hi & Hfree & Hlow)|[-> Hall]].
  2: { specialize (Hall q0). change (page_used (m <| lock := 1 |>) q0) with (page_used m q0) in Hall.
       rewrite Hall in Hq0' by exact Hq0. done. }
  change (frame_limit (m <| lock := 1 |>)) with (frame_limit m) in Hi.
  change (page_used (m <| lock := 1 |>) idx) with (page_used m idx) in Hfree.
  assert (idx <> 0) by (intros ->; by rewrite F5 in Hfree). assert (Hi' : 0 < idx < frame_limit m) by lia.
  assert (Hu : holds (page_tables s) e idx = 0%nat).
  { destruct (holds (page_tables s) e idx) eqn:E; [done|]. pose proof (proj2 (F7 idx Hi')). rewrite E in H0.
    rewrite H0 in Hfree by lia. done. }
  destruct (set_frame_ok m idx F2 F5 Hi' F4') as (m' & Eset & W1 & W2 & W3 & W4).
  exists idx, m'. split_and!; [lia | lia | done |]. intros s'.
  assert (Hrun : mmu_alloc_frame address d s = Ret (idx * MMU_PAGE_SIZE) s').
  { unfold mmu_alloc_frame. rewrite mrun_assert by (by apply negb_true_iff, Z.eqb_neq).
    rewrite (mrun_table_of _ D _ t) by done. rewrite mrun_assert by (by apply negb_true_iff, Z.eqb_neq).
    rewrite (mrun_page_at _ _ p) by done. rewrite Hf. simpl.
    rewrite (mrun_lock_map _ m) by done. mred.
    rewrite (mrun_on_map _ (m <| lock := 1 |>) _ idx (m <| lock := 1 |>)) by (simpl; rewrite ?lookup_insert_eq; done).
    rewrite (proj2 (Z.eqb_neq idx 0xFFFFFFFF)) by lia. mred.
    rewrite (mrun_on_map _ (m <| lock := 1 |>) _ tt (m' <| lock := 1 |>)) by (simpl; rewrite ?lookup_insert_eq; done).
    mred. rewrite (mrun_unlock_map _ (m' <| lock := 1 |>)) by (simpl; rewrite ?lookup_insert_eq; done). mred.
    rewrite (mrun_upd_page _ _ _ p) by done. mred. rewrite Z.mod_small by lia.
    rewrite (mrun_upd_info _ _ _ x) by (simpl; by rewrite info_set_entry). mred.
    rewrite (mrun_refs_of _ 0) by (simpl; rewrite F6, Hu by done; done).
    rewrite (mrun_set_refs _ _ 0) by (simpl; rewrite F6, Hu by done; done). mred.
    unfold ret, MMU_PAGE_SIZE. rewrite !(u32_small (idx * 0x1000)) by lia. change (u32 (0 + 1)) with 1.
    rewrite !insert_insert_eq. unfold s'. destruct m'. simpl in *. by subst. }
  split_and!; [done | | done | done].
  assert (Hen : forall t' i' p', entry (page_tables s') t' i' = Some p' ->
    (t' = t /\ i' = i /\ p' = mapped p idx) \/ (~ (t' = t /\ i' = i) /\ entry (page_tables s) t' i' = Some p')).
  { intros t' i' p'. unfold s'. simpl. rewrite entry_set_info, entry_set_entry by by eexists.
    case_decide as Hc; [destruct Hc as [<- <-]; intros [= <-]; by left | right]. split; [naive_solver | done]. }
  assert (Hus : forall f, 0 < f -> (holds (page_tables s') e f = holds (page_tables s) e f + (if (idx =? f)%Z then 1 else 0))%nat).
  { intros f Hf0. unfold s', holds. simpl. rewrite uses_set_info.
    pose proof (uses_set_entry _ _ _ _ (mapped p idx) f Hp) as U. unfold points in U. simpl in U.
    rewrite Hf, (proj2 (Z.eqb_neq 0 f)) in U by lia. unfold mapped in *. lia. }
  split.
  - unfold s'. simpl. by rewrite lookup_insert_eq.
  - done.
  - done.
  - unfold s'. simpl. rewrite length_insert, W3. done.
  - unfold s'. simpl. rewrite W4, F5, orb_true_r by lia. split; [done|]. rewrite list_lookup_insert_ne by lia. done.
  - unfold s'. simpl. intros k n. rewrite list_lookup_insert. case_decide; [intros [= <-]; lia | apply FW].
  - intros f Hfr. rewrite W3 in Hfr. unfold s' at 1. simpl. rewrite Hus by lia.
    destruct (Z.eqb_spec idx f) as [<-|Hne].
    + rewrite list_lookup_insert_eq by lia. by rewrite Hu.
    + rewrite list_lookup_insert_ne by lia. rewrite F6 by done. f_equal. lia.
  - intros f Hfr. rewrite W3 in Hfr. rewrite Hus, W4 by lia. destruct (Z.eqb_spec f idx) as [->|Hne].
    + rewrite Z.eqb_refl. simpl. split; [lia | done].
    + rewrite (proj2 (Z.eqb_neq idx f)) by lia. simpl. rewrite F7 by done. lia.
  - intros t' i' p' [(-> & -> & ->)|[_ H']]%Hen; rewrite W3; [simpl; lia | by eapply F8].
  - intros t' i' p' [(-> & -> & ->)|[Hne H']]%Hen Hrw Hf0.
    + simpl in *. rewrite Hus, Z.eqb_refl, Hu by lia. done.
    + rewrite Hus by (pose proof (F8 _ _ _ H'); lia). rewrite (F9 _ _ _ H') by done.
      destruct (Z.eqb_spec idx (frame p')) as [E|E]; [|done]. pose proof (uses_pos _ _ _ _ H'). unfold holds in Hu. rewrite <- E in *. lia.
Qed.
End Alloc.

(** ** A write to a page that is not committed *)

(** What is in a frame. *)
Definition content (s : mmu) (f : Z) : list Z := default [] (frames s !! f).

Section Commit.
Context (d : Z) (D : page_directory_t) (t : Z).

(** The frame of an entry is replaced by another one that is as often used. *)
Lemma frames_ok_entry s s' m m' e e' i p q :
  frames_ok s m e -> entry (page_tables s) t i = Some p ->
  memmaps s' !! physical_memmap = Some m' -> frame_limit m' = frame_limit m ->
  memmap_wf m' -> lock m' = 0 -> page_used m' 0 = true ->
  length (frame_refs s') = length (frame_refs s) ->
  is_Some (frame_refs s' !! 0%nat) -> (forall k n, frame_refs s' !! k = Some n -> 0 <= n < 2 ^ 32) ->
  (forall t' i', entry (page_tables s') t' i' = entry (set_entry (page_tables s) t i q) t' i') ->
  0 <= frame q < frame_limit m ->
  (forall f, 0 < f < frame_limit m -> frame_refs s' !! Z.to_nat f = Some (Z.of_nat (holds (page_tables s') e' f)) /\
    (page_used m' f = true <-> (0 < holds (page_tables s') e' f)%nat)) ->
  (forall t' i' p', ~ (t' = t /\ i' = i) -> entry (page_tables s) t' i' = Some p' -> rw p' = true -> frame p' <> 0 ->
    holds (page_tables s') e' (frame p') = holds (page_tables s) e (frame p')) ->
  (rw q = true -> frame q <> 0 -> holds (page_tables s') e' (frame q) = 1%nat) ->
  frames_ok s' m' e'.
Proof.
  intros [F1 F2 F3 [F4 F4'] [F5 F5'] FW F6 F7 F8 F9] Hp Em El W1 W2 W3 Elen Hz Hw Hen Hq Hc Hpr Hqr.
  assert (Hcase : forall t' i' p', entry (page_tables s') t' i' = Some p' ->
    (t' = t /\ i' = i /\ p' = q) \/ (~ (t' = t /\ i' = i) /\ entry (page_tables s) t' i' = Some p')).
  { intros t' i' p'. rewrite Hen, entry_set_entry by by eexists.
    case_decide as Hd; [destruct Hd as [<- <-]; intros [= <-]; by left | right]. split; [naive_solver | done]. }
  split; try done.
  - by rewrite El, Elen.
  - rewrite El. intros f Hf. by apply Hc.
  - rewrite El. intros f Hf. by apply Hc.
  - rewrite El. intros t' i' p' [(-> & -> & ->)|[_ H]]%Hcase; [done | by eapply F8].
  - intros t' i' p' [(-> & -> & ->)|[Hn H]]%Hcase Hrw Hf; [by apply Hqr|]. rewrite (Hpr _ _ _ Hn H Hrw Hf). by eapply F9.
Qed.

Lemma uses_entry_frame h i p q f : entry h t i = Some p -> 0 < f ->
  (uses (set_entry h t i q) f + (if (frame p =? f)%Z then 1 else 0) = uses h f + (if (frame q =? f)%Z then 1 else 0))%nat.
Proof. intros H Hf. apply (uses_set_entry _ _ _ _ q f H). Qed.

(** The reference is given up before the new frame is there. *)
Lemma frames_ok_detach s m i p :
  frames_ok s m 0 -> entry (page_tables s) t i = Some p -> frame p <> 0 ->
  frames_ok (s <| page_tables := set_entry (page_tables s) t i (p <| frame := 0 |>) |>) m (frame p).
Proof.
  intros Hok Hp Hf. pose proof Hok as [F1 F2 F3 [F4 F4'] [F5 F5'] FW F6 F7 F8 F9]. pose proof (F8 _ _ _ Hp) as Hr.
  assert (Hh : forall f, 0 < f -> holds (set_entry (page_tables s) t i (p <| frame := 0 |>)) (frame p) f = holds (page_tables s) 0 f).
  { intros f H0. rewrite holds_uses by done. unfold holds. pose proof (uses_entry_frame _ _ _ (p <| frame := 0 |>) f Hp H0) as U.
    change (frame (p <| frame := 0 |>)) with 0 in U. rewrite (proj2 (Z.eqb_neq 0 f)) in U by lia.
    rewrite (Z.eqb_sym f). lia. }
  eapply (frames_ok_entry s _ m m 0 (frame p) i p (p <| frame := 0 |>)); try done; simpl.
  - lia.
  - intros f H0. rewrite Hh by lia. split; [by apply F6 | by apply F7].
  - intros t' i' p' _ H' _ H0. apply Hh. pose proof (F8 _ _ _ H'). lia.
Qed.

Lemma commit_alone s m i p x :
  frames_ok s m 0 -> entry (page_tables s) t i = Some p -> info (page_tables s) t i = Some x ->
  uses (page_tables s) (frame p) = 1%nat -> frame p <> 0 ->
  frames_ok (s <| page_tables := set_info (set_entry (page_tables s) t i (p <| rw := true |>)) t i (x <| commited := true |>) |>) m 0.
Proof.
  intros Hok Hp Hx Hu Hf. pose proof Hok as [F1 F2 F3 [F4 F4'] [F5 F5'] FW F6 F7 F8 F9]. pose proof (F8 _ _ _ Hp) as Hr.
  assert (Hh : forall f, 0 < f -> holds (set_info (set_entry (page_tables s) t i (p <| rw := true |>)) t i (x <| commited := true |>)) 0 f
                                  = holds (page_tables s) 0 f).
  { intros f H0. unfold holds. rewrite uses_set_info.
    pose proof (uses_entry_frame _ _ _ (p <| rw := true |>) f Hp H0) as U.
    change (frame (p <| rw := true |>)) with (frame p) in U. lia. }
  eapply (frames_ok_entry s _ m m 0 0 i p (p <| rw := true |>)); try done; simpl.
  - intros t' i'. by rewrite entry_set_info.
  - intros f H0. rewrite Hh by lia. split; [by apply F6 | by apply F7].
  - intros t' i' p' _ H' _ H0. apply Hh. pose proof (F8 _ _ _ H'). lia.
  - intros _ _. rewrite Hh by lia. by rewrite holds_uses by lia.
Qed.

(** The reference that was given up is taken off the count. *)
Lemma frames_ok_settle s m e i q :
  frames_ok s m e -> 0 < e < frame_limit m -> entry (page_tables s) t i = Some q -> frame q <> 0 -> frame q <> e ->
  uses (page_tables s) (frame q) = 1%nat -> (0 < uses (page_tables s) e)%nat ->
  frames_ok (s <| page_tables := set_entry (page_tables s) t i (q <| rw := true |>) |>
               <| frame_refs := <[Z.to_nat e := Z.of_nat (uses (page_tables s) e)]> (frame_refs s) |>) m 0.
Proof.
  intros Hok He Hq Hq0 Hqe Hu1 Hue. pose proof Hok as [F1 F2 F3 [F4 F4'] [F5 F5'] FW F6 F7 F8 F9].
  assert (Hus : forall f, 0 < f -> holds (set_entry (page_tables s) t i (q <| rw := true |>)) 0 f = uses (page_tables s) f).
  { intros f H0. rewrite holds_uses by done. pose proof (uses_entry_frame _ _ _ (q <| rw := true |>) f Hq H0) as U.
    change (frame (q <| rw := true |>)) with (frame q) in U. lia. }
  assert (Hne : forall f, f <> e -> holds (page_tables s) e f = uses (page_tables s) f).
  { intros f Hf. unfold holds. rewrite (proj2 (Z.eqb_neq f e)) by done. lia. }
  pose proof (F8 _ _ _ Hq) as Hr.
  eapply (frames_ok_entry s _ m m e 0 i q (q <| rw := true |>)); try done; simpl.
  - apply length_insert.
  - rewrite list_lookup_insert_ne by lia. done.
  - intros k n. rewrite list_lookup_insert. case_decide; [|apply FW]. intros [= <-].
    pose proof (FW _ _ (F6 e He)). unfold holds in H0. lia.
  - intros f Hf. rewrite Hus by lia. destruct (decide (f = e)) as [->|Hfe].
    + rewrite list_lookup_insert_eq by lia. split; [done|]. rewrite F7 by done. unfold holds. lia.
    + rewrite list_lookup_insert_ne by lia. rewrite <- (Hne f Hfe). split; [by apply F6 | by apply F7].
  - intros t' i' p' Hn H' Hrw H0. pose proof (F8 _ _ _ H') as Hr'. rewrite Hus by lia.
    destruct (decide (frame p' = e)) as [E|Hfe]; [|by rewrite Hne].
    pose proof (F9 _ _ _ H' Hrw H0) as H9. unfold holds in H9. rewrite E, Z.eqb_refl in H9. lia.
  - intros _ _. rewrite Hus by lia. done.
Qed.

(** What a page keeps when it gets a frame for itself, and the other pages too. *)
Definition committed (s s' : mmu) (i : nat) (p : page_t) : Prop :=
  exists p' m', frames_ok s' m' 0 /\ frame_refs_lock s' = frame_refs_lock s /\
    current_directory s' = current_directory s /\ directories s' = directories s /\
    entry (page_tables s') t i = Some p' /\ present p' = true /\ rw p' = true /\ frame p' <> 0 /\
    content s' (frame p') = content s (frame p) /\
    (forall t' i', ~ (t' = t /\ i' = i) -> entry (page_tables s') t' i' = entry (page_tables s) t' i') /\
    (forall f, (0 < uses (page_tables s) f)%nat -> content s' f = content s f).

(** The uses of the frames after an entry went from [p] to the frame [idx]. *)
Lemma uses_moved h i p idx x f :
  entry h t i = Some p -> 0 < f -> 0 < frame p -> 0 < idx -> idx <> frame p ->
  let h1 := set_entry h t i (p <| frame := 0 |>) in
  let h2 := set_info (set_entry h1 t i (mapped (p <| frame := 0 |>) idx)) t i x in
  (uses h2 f + (if (frame p =? f)%Z then 1 else 0) = uses h f + (if (idx =? f)%Z then 1 else 0))%nat /\
  (uses h1 idx = uses h idx)%nat.
Proof.
  intros Hp H0 Hf Hi Hne h1 h2.
  assert (Hp1 : entry h1 t i = Some (p <| frame := 0 |>)).
  { unfold h1. rewrite entry_set_entry by by eexists. by rewrite decide_True. }
  pose proof (uses_entry_frame _ _ _ (mapped (p <| frame := 0 |>) idx) f Hp1 H0) as U.
  pose proof (uses_entry_frame _ _ _ (p <| frame := 0 |>) f Hp H0) as U1.
  pose proof (uses_entry_frame _ _ _ (p <| frame := 0 |>) idx Hp Hi) as U2. fold h1 in U1, U2.
  change (frame (mapped (p <| frame := 0 |>) idx)) with idx in U. change (frame (p <| frame := 0 |>)) with 0 in U, U1, U2.
  rewrite (proj2 (Z.eqb_neq 0 f)) in U, U1 by lia. rewrite (proj2 (Z.eqb_neq 0 idx)), (proj2 (Z.eqb_neq (frame p) idx)) in U2 by lia.
  cbv iota in U, U1, U2. unfold h2. rewrite uses_set_info. lia.
Qed.

Lemma copy_frame_ok s m address p x :
  frames_ok s m 0 -> current_directory s = d -> d <> 0 -> directories s !! d = Some D ->
  tables D !! Z.to_nat (table_idx address) = Some t -> t <> 0 ->
  let i := Z.to_nat (page_idx address) in
  entry (page_tables s) t i = Some p -> frame p <> 0 -> info (page_tables s) t i = Some x ->
  (1 < uses (page_tables s) (frame p))%nat -> (exists q, 0 <= q < frame_limit m /\ page_used m q = false) ->
  exists s', copy_frame t (page_idx address) address s = Ret tt s' /\ committed s s' i p.
Proof.
  intros Hok Hcur Hd HD Ht Ht0 i Hp Hf Hx Hsh Hroom. pose proof (fo_range _ _ _ Hok _ _ _ Hp) as Hr.
  unfold copy_frame. rewrite (mrun_page_at _ _ p), (mrun_upd_page _ _ _ p), mrun_get by done. mred. fold i. rewrite <- Hcur in Hd, HD.
  pose proof (frames_ok_detach _ _ _ _ Hok Hp Hf) as Hok1. set (s1 := s <| page_tables := _ |>) in *.
  set (sm := mkMmu _ _ _ _ _ _ _ _ _ _ _ _ _ _ _ _). change sm with s1. clear sm.
  assert (Hp1 : entry (page_tables s1) t i = Some (p <| frame := 0 |>)).
  { simpl. rewrite entry_set_entry by by eexists. by rewrite decide_True. }
  assert (Hx1 : info (page_tables s1) t i = Some x) by (simpl; by rewrite info_set_entry).
  destruct (alloc_frame_ok (current_directory s) D t s1 m (frame p) address _ x Hok1 Hd HD Ht Ht0 Hp1 eq_refl Hx1 Hroom)
    as (idx & m' & Hidx & Hu & Hrun & Hok2 & El & Hused).
  rewrite (bind_Ret _ _ _ _ _ Hrun). set (s2 := s1 <| memmaps := _ |> <| page_tables := _ |> <| frame_refs := _ |>) in *.
  assert (Hp2 : entry (page_tables s2) t i = Some (mapped (p <| frame := 0 |>) idx)).
  { simpl. rewrite entry_set_info, entry_set_entry by by eexists. by rewrite decide_True. }
  assert (Hne : idx <> frame p).
  { intros ->. unfold holds in Hu. rewrite Z.eqb_refl in Hu. lia. }
  destruct (uses_moved _ _ _ idx (x <| commited := true |>) idx Hp ltac:(lia) ltac:(lia) ltac:(lia) Hne) as [Hui Hui'].
  destruct (uses_moved _ _ _ idx (x <| commited := true |>) (frame p) Hp ltac:(lia) ltac:(lia) ltac:(lia) Hne) as [Hup _].
  change (set_info _ _ _ _) with (page_tables s2) in Hui, Hup. rewrite Z.eqb_refl in Hui, Hup.
  rewrite (proj2 (Z.eqb_neq (frame p) idx)) in Hui by lia. cbv iota in Hui, Hup.
  assert (Hi0 : uses (page_tables s) idx = 0%nat) by (unfold holds in Hu; simpl in Hu, Hui'; lia).
  assert (Hn2 : frame_refs s2 !! Z.to_nat (frame p) = Some (Z.of_nat (S (uses (page_tables s2) (frame p))))).
  { rewrite (fo_count _ _ _ Hok2) by (rewrite El; lia). unfold holds. rewrite Z.eqb_refl. do 2 f_equal. lia. }
  pose proof (fo_words _ _ _ Hok2 _ _ Hn2) as Hw2. pose proof (fo_size _ _ _ Hok) as [_ Hlim].
  rewrite (mrun_page_at _ _ _) by exact Hp2. rewrite mrun_assert by (apply negb_true_iff, Z.eqb_neq; simpl; lia).
  rewrite (mrun_upd_page _ _ _ (mapped (p <| frame := 0 |>) idx)) by exact Hp2. fold i.
  rewrite (mrun_refs_of _ _) by exact Hn2. rewrite (mrun_set_refs _ _ _) by exact Hn2.
  replace (u32 (_ - 1)) with (Z.of_nat (uses (page_tables s2) (frame p))) by (rewrite u32_small; lia).
  unfold copy_physical_page, modify, MMU_PAGE_SIZE. change (frame (mapped (p <| frame := 0 |>) idx)) with idx.
  rewrite !u32_small by lia. rewrite !Z.div_mul by lia.
  eexists. split; [done|]. exists ((mapped (p <| frame := 0 |>) idx) <| rw := true |>), m'. split_and!; try done.
  - eapply frames_ok_ext; [| | |eapply (frames_ok_settle s2 m' (frame p) i); [exact Hok2 | | exact Hp2 | | | |]]; try done.
    + rewrite El. lia.
    + simpl. lia.
    + change (frame (mapped (p <| frame := 0 |>) idx)) with idx. lia.
    + lia.
  - simpl. rewrite entry_set_entry by by eexists. by rewrite decide_True.
  - simpl. lia.
  - unfold content. simpl. by rewrite lookup_insert_eq.
  - intros t' i' Hn. simpl. rewrite entry_set_entry by by eexists. rewrite decide_False by naive_solver.
    rewrite entry_set_info, entry_set_entry by by eexists. rewrite decide_False by naive_solver.
    rewrite entry_set_entry by by eexists. by rewrite decide_False by naive_solver.
  - intros f Hf0. unfold content. simpl. rewrite lookup_insert_ne; [done|]. intros <-. lia.
Qed.

Lemma commit_page_ok s m address p x :
  frames_ok s m 0 -> frame_refs_lock s = 0 -> current_directory s = d -> d <> 0 -> directories s !! d = Some D ->
  tables D !! Z.to_nat (table_idx address) = Some t -> t <> 0 ->
  let i := Z.to_nat (page_idx address) in
  entry (page_tables s) t i = Some p -> present p = true -> frame p <> 0 -> info (page_tables s) t i = Some x ->
  uses (page_tables s) (frame p) = 1%nat \/ (exists q, 0 <= q < frame_limit m /\ page_used m q = false) ->
  exists s', commit_page t (page_idx address) address s = Ret tt s' /\ committed s s' i p.
Proof.
  intros Hok Hlk Hcur Hd HD Ht Ht0 i Hp Hpres Hf Hx Hroom. pose proof (fo_range _ _ _ Hok _ _ _ Hp) as Hr.
  unfold commit_page. rewrite mrun_lock_refs by done. rewrite (mrun_page_at _ _ p) by done.
  rewrite (mrun_refs_of _ (Z.of_nat (uses (page_tables s) (frame p))))
    by (simpl; rewrite (fo_count _ _ _ Hok), holds_uses by lia; done).
  destruct (Z.eqb_spec (Z.of_nat (uses (page_tables s) (frame p))) 1) as [E|E].
  - rewrite bind_assoc, (mrun_upd_page _ _ _ p) by done. mred. rewrite (mrun_upd_info _ _ _ x) by (simpl; by rewrite info_set_entry).
    mred. eexists. split; [done|]. pose proof (commit_alone _ _ _ _ _ Hok Hp Hx ltac:(lia) Hf) as Hok'.
    exists (p <| rw := true |>), m. split_and!; try done; simpl.
    + by eapply frames_ok_ext; [| | |exact Hok'].
    + rewrite entry_set_info, entry_set_entry by by eexists. by rewrite decide_True.
    + intros t' i' Hn. rewrite entry_set_info, entry_set_entry by by eexists. rewrite decide_False; [done|]. naive_solver.
  - destruct Hroom as [?|Hroom]; [lia|]. pose proof (uses_pos _ _ _ _ Hp) as Hpos.
    set (sl := s <| frame_refs_lock := 1 |>).
    destruct (copy_frame_ok sl m address p x) as (s' & Hrun & p' & m' & H1 & H2 & H3); try done; [by apply (frames_ok_ext s) | simpl; lia |].
    rewrite (bind_Ret _ _ _ _ _ Hrun). rewrite unlock_refs_run by done. eexists. split; [done|].
    exists p', m'. split_and!; try apply H3; [by apply (frames_ok_ext s') | done].
Qed.
End Commit.

(** ** The memory that a task sees *)

(** What is on the page [i] of the table [t]; [None] when it has no frame. *)
Definition view (s : mmu) (t : Z) (i : nat) : option (list Z) :=
  p ← entry (page_tables s) t i; if frame p =? 0 then None else Some (content s (frame p)).

(** [address] is on the page [p], with the record [x], of the table [t] of the
    current directory. *)
Record walk (s : mmu) (address t : Z) (p : page_t) (x : page_info_t) : Prop := {
  wk_directory : exists D, directories s !! current_directory s = Some D /\
    tables D !! Z.to_nat (table_idx address) = Some t;
  wk_nonnull : current_directory s <> 0 /\ t <> 0;
  wk_entry : entry (page_tables s) t (Z.to_nat (page_idx address)) = Some p;
  wk_info : info (page_tables s) t (Z.to_nat (page_idx address)) = Some x
}.

Lemma view_other s m t i p t' i' data :
  frames_ok s m 0 -> entry (page_tables s) t i = Some p -> rw p = true -> frame p <> 0 -> ~ (t' = t /\ i' = i) ->
  view (s <| frames := <[frame p := data]> (frames s) |>) t' i' = view s t' i'.
Proof.
  intros Hok Hp Hrw Hf Hne. unfold view. simpl. destruct (entry (page_tables s) t' i') as [p'|] eqn:Hp'; [|done]. simpl.
  destruct (Z.eqb_spec (frame p') 0) as [|Hf']; [done|]. f_equal. unfold content. simpl.
  rewrite lookup_insert_ne; [done|]. intros E. pose proof (fo_range _ _ _ Hok _ _ _ Hp).
  pose proof (fo_private _ _ _ Hok _ _ _ Hp Hrw Hf) as H1. rewrite holds_uses in H1 by lia.
  pose proof (uses_two _ _ _ _ _ _ _ Hp Hp' E). naive_solver lia.
Qed.

Section Store.
Context (malloc_ok : nat -> bool) (fd_node : Z -> M mmu (option Z)) (read_page : Z -> Z -> Z -> M mmu unit).

(** The processor: a store that fills the page at [address] is done when the
    entry allows it, and otherwise raises a fault for a write, after which the
    instruction is run again. *)
Fixpoint cpu_store (n fuel : nat) (address : Z) (data : list Z) : M mmu fault_end :=
  match n with
  | O => nofuel
  | S n =>
      s <- get;;
      t <- table_of (current_directory s) (table_idx address);;
      p <- page_at t (page_idx address);;
      if present p && rw p then
        modify (fun s => s <| frames := <[frame p := data]> (frames s) |>);;; ret Resume
      else
        r <- page_fault malloc_ok fd_node read_page fuel address 0x02;;
        match r with Segv => ret Segv | Resume => cpu_store n fuel address data end
  end.

(** A fault for a write to a page that was copied on write. *)
Lemma page_fault_write s m address t p x fuel :
  frames_ok s m 0 -> frame_refs_lock s = 0 -> walk s address t p x ->
  present p = true -> frame p <> 0 -> commited x = false ->
  uses (page_tables s) (frame p) = 1%nat \/ (exists q, 0 <= q < frame_limit m /\ page_used m q = false) ->
  exists s', page_fault malloc_ok fd_node read_page fuel address 0x02 s = Ret Resume s' /\
    committed t s s' (Z.to_nat (page_idx address)) p.
Proof.
  intros Hok Hlk [(D & HD & Ht) [Hd Ht0] Hp Hx] Hpres Hf Hc Hroom.
  destruct (commit_page_ok _ D t s m address p x Hok Hlk eq_refl Hd HD Ht Ht0 Hp Hpres Hf Hx Hroom) as (s' & Hrun & Hcom).
  exists s'. split; [|done]. unfold page_fault. rewrite mrun_get. cbv zeta.
  rewrite (mrun_table_of _ D _ t) by done. rewrite (mrun_page_at _ _ p) by done. rewrite (mrun_info_at _ _ x) by done.
  rewrite Hc, (proj2 (Z.eqb_neq (frame p) 0)), andb_false_r, mrun_ret by done. simpl.
  by rewrite (bind_Ret _ _ _ _ _ Hrun).
Qed.

(** C3: copy on write implements private memory.  When the counts are right and
    a frame is free, or the page needs none, a store to a present page that is
    writable or not committed succeeds with at most one fault; the page then has
    the new data, every page of every other table entry still has what it had
    before, whatever was shared, and the invariant holds. *)
Theorem cow_store_private s m address t p x fuel data :
  frames_ok s m 0 -> frame_refs_lock s = 0 -> walk s address t p x ->
  present p = true -> frame p <> 0 -> rw p = true \/ commited x = false ->
  uses (page_tables s) (frame p) = 1%nat \/ (exists q, 0 <= q < frame_limit m /\ page_used m q = false) ->
  exists s' m', cpu_store 2 fuel address data s = Ret Resume s' /\
    frames_ok s' m' 0 /\ frame_refs_lock s' = 0 /\ current_directory s' = current_directory s /\
    directories s' = directories s /\
    forall t' i', view s' t' i' =
      if decide (t' = t /\ i' = Z.to_nat (page_idx address)) then Some data else view s t' i'.
Proof.
  intros Hok Hlk Hwk Hpres Hf Hrw Hroom. set (i := Z.to_nat (page_idx address)).
  pose proof Hwk as [(D & HD & Ht) [Hd Ht0] Hp Hx].
  assert (Hdirect : forall s1 m1 p1 n, frames_ok s1 m1 0 -> current_directory s1 = current_directory s ->
    directories s1 = directories s -> entry (page_tables s1) t i = Some p1 -> present p1 = true -> rw p1 = true ->
    frame p1 <> 0 ->
    cpu_store (S n) fuel address data s1 = Ret Resume (s1 <| frames := <[frame p1 := data]> (frames s1) |>) /\
    forall t' i', view (s1 <| frames := <[frame p1 := data]> (frames s1) |>) t' i' =
      if decide (t' = t /\ i' = i) then Some data else view s1 t' i').
  { intros s1 m1 p1 n H1 H2 H3 H4 H5 H6 H7. split.
    - cbn [cpu_store]. rewrite mrun_get, (mrun_table_of _ D _ t) by congruence. rewrite (mrun_page_at _ _ p1) by done.
      by rewrite H5, H6.
    - intros t' i'. case_decide as Hdec; [|by eapply view_other]. destruct Hdec as [-> ->]. unfold view. simpl. rewrite H4. simpl.
      rewrite (proj2 (Z.eqb_neq _ 0)) by done. unfold content. simpl. by rewrite lookup_insert_eq. }
  destruct (rw p) eqn:Erw.
  - destruct (Hdirect s m p 1%nat) as [Hrun Hview]; try done. eexists _, m. split_and!; [exact Hrun | | done ..].
    by apply (frames_ok_ext s).
  - destruct Hrw as [?|Hc]; [done|].
    destruct (page_fault_write s m address t p x fuel) as (s1 & Hpf & p1 & m1 & C1 & C2 & C3 & C4 & C5 & C6 & C7 & C8 & C9 & C10 & C11);
      try done.
    destruct (Hdirect s1 m1 p1 0%nat) as [Hrun Hview]; try done.
    exists (s1 <| frames := <[frame p1 := data]> (frames s1) |>), m1. split_and!; [| by apply (frames_ok_ext s1) | simpl; congruence | done | done |].
    + cbn [cpu_store]. rewrite mrun_get, (mrun_table_of _ D _ t) by done. rewrite (mrun_page_at _ _ p) by done.
      rewrite Erw, andb_false_r. rewrite (bind_Ret _ _ _ _ _ Hpf). exact Hrun.
    + intros t' i'. rewrite Hview. case_decide as Hdec; [done|]. unfold view. rewrite C10 by done.
      destruct (entry (page_tables s) t' i') as [p'|] eqn:Hp'; [|done]. simpl.
      destruct (frame p' =? 0); [done|]. f_equal. apply C11. pose proof (uses_pos _ _ _ _ Hp'). lia.
Qed.
End Store.
