(* ===== verification/Faults.v ===== *)
(** * Faults: accesses that cannot be served (kernel/mmu.c)

    What [page_fault] does about pages that were never mapped, and what
    [mmu_alloc_frame] does when no frame is free. *)

From S2P Require Import Prelude Memmap Mmu Frames.

Section Faults.
Context (malloc_ok : nat -> bool) (fd_node : Z -> M mmu (option Z)) (read_page : Z -> Z -> Z -> M mmu unit).

(** The processor: a load of the page at [address] is done when the page is
    present, and otherwise raises a fault for a read. *)
Fixpoint cpu_load (n fuel : nat) (address : Z) : M mmu (option (list Z)) :=
  match n with
  | O => nofuel
  | S n =>
      s <- get;;
      t <- table_of (current_directory s) (table_idx address);;
      p <- page_at t (page_idx address);;
      if present p then ret (Some (content s (frame p)))
      else
        r <- page_fault malloc_ok fd_node read_page fuel address 0x00;;
        match r with Segv => ret None | Resume => cpu_load n fuel address end
  end.

(** A fault on a page that belongs to no mapped file. *)
Lemma page_fault_plain s address t p x fuel err :
  walk s address t p x -> mmap x && (frame p =? 0) = false ->
  page_fault malloc_ok fd_node read_page fuel address err s =
    if commited x then
      (k <- task_of;; if negb (mt_pid k =? 0) then ret Segv else panic "Page Fault!") s
    else if flag err 0x02 then (commit_page t (page_idx address) address;;; ret Resume) s else Ret Resume s.
Proof.
  intros [(D & HD & Ht) [Hd Ht0] Hp Hx] Hm. unfold page_fault. rewrite mrun_get. cbv zeta.
  rewrite (mrun_table_of _ D _ t), (mrun_page_at _ _ p), (mrun_info_at _ _ x) by done.
  destruct (commited x); [done|]. rewrite Hm, mrun_ret. by destruct (flag err 0x02).
Qed.

Lemma walk_run {B} s address t p x (k : Z -> page_t -> M mmu B) :
  walk s address t p x ->
  (t <- table_of (current_directory s) (table_idx address);; p <- page_at t (page_idx address);; k t p) s = k t p s.
Proof.
  intros [(D & HD & Ht) _ Hp _]. by rewrite (mrun_table_of _ D _ t), (mrun_page_at _ _ p).
Qed.

(** The handler takes the first write to a page without a frame for one that
    was copied on write. *)
Lemma commit_unmapped s address t p x :
  walk s address t p x -> frame p = 0 -> frame_refs_lock s = 0 -> frame_refs s !! 0%nat = Some 1 ->
  let h := set_info (set_entry (page_tables s) t (Z.to_nat (page_idx address)) (p <| rw := true |>))
                    t (Z.to_nat (page_idx address)) (x <| commited := true |>) in
  commit_page t (page_idx address) address s = Ret tt (s <| page_tables := h |>).
Proof.
  intros [(D & HD & Ht) _ Hp Hx] Hf Hlk H0. cbv zeta. unfold commit_page. rewrite mrun_lock_refs by done.
  rewrite (mrun_page_at _ _ p) by done. rewrite Hf, (mrun_refs_of _ 1) by done. change (1 =? 1) with true. cbv iota.
  rewrite bind_assoc, (mrun_upd_page _ _ _ p), (mrun_upd_info _ _ _ x) by (done || (simpl; by rewrite info_set_entry)).
  rewrite unlock_refs_run by done. unfold setf. simpl. by rewrite Hlk.
Qed.

(** An access to a page of an existing table that was never mapped is not
    refused alike: a store ends with SIGSEGV, at the second fault, but a load
    faults for ever, because the handler returns from the fault without having
    changed anything. *)
Theorem unmapped_access s address t p x k fuel data :
  walk s address t p x -> present p = false -> frame p = 0 -> commited x = false -> mmap x = false ->
  frame_refs_lock s = 0 -> frame_refs s !! 0%nat = Some 1 -> current_task s = Some k -> mt_pid k <> 0 ->
  (forall n, cpu_load n fuel address s = NoFuel s) /\
  (exists s', cpu_store malloc_ok fd_node read_page 2 fuel address data s = Ret Segv s' /\ frames s' = frames s).
Proof.
  intros Hw Hpr Hf Hc Hm Hlk H0 Hk Hpid. split.
  - induction n as [|n IH]; [done|]. cbn [cpu_load]. rewrite mrun_get, (walk_run s address t p x), Hpr by done.
    rewrite (bind_Ret _ _ _ Resume s); [exact IH|]. rewrite (page_fault_plain _ _ _ _ _ _ _ Hw) by by rewrite Hm. by rewrite Hc.
  - set (i := Z.to_nat (page_idx address)).
    set (s1 := s <| page_tables := set_info (set_entry (page_tables s) t i (p <| rw := true |>)) t i (x <| commited := true |>) |>).
    assert (Hw1 : walk s1 address t (p <| rw := true |>) (x <| commited := true |>)).
    { pose proof Hw as [W1 W2 W3 W4]. split; try done; simpl; fold i.
      - rewrite entry_set_info, entry_set_entry by by eexists. by rewrite decide_True.
      - rewrite info_set_info by (rewrite info_set_entry; by eexists). by rewrite decide_True. }
    exists s1. split; [|done]. cbn [cpu_store]. rewrite mrun_get, (walk_run s address t p x), Hpr by done. cbn [andb].
    rewrite (bind_Ret _ _ _ Resume s1).
    2: { rewrite (page_fault_plain _ _ _ _ _ _ _ Hw) by by rewrite Hm. rewrite Hc. cbv iota. change (flag 2 2) with true. cbv iota.
         by rewrite (bind_Ret _ _ _ _ _ (commit_unmapped _ _ _ _ _ Hw Hf Hlk H0)). }
    cbv iota. rewrite mrun_get, (walk_run s1 address t _ _ _ Hw1). change (present (p <| rw := true |>)) with (present p).
    rewrite Hpr. cbn [andb]. rewrite (bind_Ret _ _ _ Segv s1); [done|].
    rewrite (page_fault_plain _ _ _ _ _ _ _ Hw1) by (simpl; by rewrite Hm). simpl.
    unfold task_of, bind, get. simpl. rewrite Hk. simpl. by rewrite (proj2 (Z.eqb_neq _ 0)).
Qed.
End Faults.

(** ** No free frame *)

(** [mmu_alloc_frame] does not notice that the memory is used up.  The search
    reports 0 and the test is for the largest word, so that the page is mapped
    to frame 0, in which the kernel itself is, and no panic is raised. *)
Theorem alloc_frame_exhausted s m d D t address p x n :
  frames_ok s m 0 -> (forall f, 0 <= f < frame_limit m -> page_used m f = true) ->
  d <> 0 -> directories s !! d = Some D -> tables D !! Z.to_nat (table_idx address) = Some t -> t <> 0 ->
  entry (page_tables s) t (Z.to_nat (page_idx address)) = Some p -> frame p = 0 ->
  info (page_tables s) t (Z.to_nat (page_idx address)) = Some x -> frame_refs s !! 0%nat = Some n ->
  exists s', mmu_alloc_frame address d s = Ret 0 s' /\
    entry (page_tables s') t (Z.to_nat (page_idx address)) = Some (mapped p 0) /\
    frame_refs s' !! 0%nat = Some (u32 (n + 1)).
Proof.
  intros Hok Hall Hd HD Ht Ht0 Hp Hf Hx Hn. pose proof Hok as [F1 F2 F3 [F4 F4'] [F5 F5'] FW F6 F7 F8 F9].
  destruct (take_frame_ok (m <| lock := 1 |>)) as (idx & Efind & Hlow); [by apply memmap_wf_lock|].
  assert (idx = 0) as ->.
  { destruct Hlow as [(Hi & Hu & _)|[-> _]]; [|done]. change (page_used m idx = false) in Hu. by rewrite Hall in Hu. }
  pose proof (F8 _ _ _ Hp) as Hr. pose proof F2 as (_ & ? & Hlen).
  destruct (set_page_ok (m <| lock := 1 |>) 0) as (m1 & E & H1 & H2 & H3 & H4).
  { by apply memmap_wf_lock. }
  { unfold frame_limit in *. simpl. lia. }
  pose proof (set_page_lock _ _ _ E) as El. simpl in El. change (0 * 0x1000) with 0 in E.
  eexists. split.
  - unfold mmu_alloc_frame. rewrite mrun_assert by (by apply negb_true_iff, Z.eqb_neq).
    rewrite (mrun_table_of _ D _ t) by done. rewrite mrun_assert by (by apply negb_true_iff, Z.eqb_neq).
    rewrite (mrun_page_at _ _ p) by done. rewrite Hf. cbn [Z.eqb negb].
    rewrite (mrun_lock_map _ m) by done.
    rewrite (mrun_on_map _ (m <| lock := 1 |>) _ 0 (m <| lock := 1 |>)) by (simpl; rewrite ?lookup_insert_eq; done).
    cbn [Z.eqb]. change (u32 (0 * MMU_PAGE_SIZE)) with 0.
    rewrite (mrun_on_map _ (m <| lock := 1 |>) _ tt m1) by (simpl; rewrite ?lookup_insert_eq; done).
    rewrite (mrun_unlock_map _ m1) by (simpl; rewrite ?lookup_insert_eq; done).
    rewrite (mrun_upd_page _ _ _ p), (mrun_upd_info _ _ _ x) by (done || (simpl; by rewrite info_set_entry)).
    rewrite (mrun_refs_of _ n), (mrun_set_refs _ _ n) by done. reflexivity.
  - split; simpl.
    + rewrite entry_set_info, entry_set_entry by by eexists. by rewrite decide_True.
    + apply list_lookup_insert_eq. by eapply lookup_lt_Some.
Qed.
