(* ===== verification/Kalloc.v ===== *)
(** * Kalloc: the allocation of kernel pages (kernel/mmu.c)

    What [kalloc] promises for the kernel's own pages: it takes the first run of
    free pages that is long enough, gives each page a frame that nothing else
    uses, and leaves every other page as it was. *)

From S2P Require Import Prelude Memmap Mmu Frames.

(** ** Tables of the right size *)

Definition whole (v : page_table_t) : Prop := length (pages v) = 1024%nat /\ length (pages_info v) = 1024%nat.

(** All tables are whole, and too few for a count to overflow. *)
Definition small (h : tmap) : Prop := map_Forall (fun _ => whole) h /\ 1024 * Z.of_nat (size h) < 2 ^ 32.

Lemma sum_bound (g : page_t -> nat) l : (forall p, g p <= 1)%nat -> (sum_list_with g l <= length l)%nat.
Proof. intros H. induction l as [|p l IH]; simpl; [lia|]. specialize (H p). lia. Qed.

Lemma count_bound f v : whole v -> (count_in f v <= 1024)%nat.
Proof.
  intros [H _]. unfold count_in. rewrite <- H. apply sum_bound. intros p. unfold points. destruct (frame p =? f); lia.
Qed.

Lemma uses_bound h f : map_Forall (fun _ => whole) h -> (uses h f <= 1024 * size h)%nat.
Proof.
  induction h as [|t v h Hn IH] using map_ind; intros Hw.
  - unfold uses. rewrite map_fold_empty. lia.
  - apply map_Forall_insert in Hw as [Hv Hw]; [|done]. rewrite uses_fresh, map_size_insert_None by done.
    specialize (IH Hw). pose proof (count_bound f v Hv). lia.
Qed.

Lemma small_alter g t h : (forall v, whole v -> whole (g v)) -> small h -> small (alter g t h).
Proof.
  intros Hg [Hw Hs]. split.
  - intros t' v'. destruct (decide (t = t')) as [<-|Hne].
    + rewrite lookup_alter_eq. destruct (h !! t) as [v|] eqn:E; [|done]. intros [= <-]. apply Hg, (Hw _ _ E).
    + rewrite lookup_alter_ne by done. apply Hw.
  - by rewrite <- size_dom, dom_alter_L, size_dom.
Qed.

Lemma small_set_entry h t i p : small h -> small (set_entry h t i p).
Proof. apply small_alter. intros v [H1 H2]. split; simpl; [by rewrite length_insert | done]. Qed.
Lemma small_set_info h t i x : small h -> small (set_info h t i x).
Proof. apply small_alter. intros v [H1 H2]. split; simpl; [done | by rewrite length_insert]. Qed.

Lemma small_entry h t i : small h -> is_Some (h !! t) -> (i < 1024)%nat ->
  is_Some (entry h t i) /\ is_Some (info h t i).
Proof.
  intros [Hw _] [v Hv] Hi. destruct (Hw _ _ Hv) as [H1 H2]. unfold entry, info. rewrite Hv. simpl.
  split; apply lookup_lt_is_Some_2; lia.
Qed.

(** ** Free frames *)

Definition free_frames (m : memmap) : nat :=
  length (filter (fun q => page_used m q = false) (seqZ 0 (frame_limit m))).

Lemma free_frames_some m : (0 < free_frames m)%nat -> exists q, 0 <= q < frame_limit m /\ page_used m q = false.
Proof.
  unfold free_frames. intros H. destruct (filter _ _) as [|q l] eqn:E; [simpl in H; lia|].
  assert (q ∈ filter (fun q => page_used m q = false) (seqZ 0 (frame_limit m))) as Hq by (rewrite E; left).
  apply list_elem_of_filter in Hq as [Hu Hq]. apply elem_of_seqZ in Hq. exists q. split; [lia | done].
Qed.

Lemma free_frames_take m m' idx :
  frame_limit m' = frame_limit m -> (forall q, 0 <= q -> page_used m' q = (q =? idx) || page_used m q) ->
  (free_frames m <= S (free_frames m'))%nat.
Proof.
  intros E H. unfold free_frames. rewrite E.
  assert (Hgen : forall l : list Z, NoDup l -> (forall q, q ∈ l -> 0 <= q) ->
    (length (filter (fun q => page_used m q = false) l) <=
     length (filter (fun q => page_used m' q = false) l) + (if decide (idx ∈ l) then 1 else 0))%nat).
  { induction l as [|q l IH]; intros Hnd Hr; [simpl; lia|]. apply NoDup_cons in Hnd as [Hq Hnd].
    specialize (IH Hnd ltac:(intros; apply Hr; by right)). rewrite !filter_cons. rewrite (H q) by (apply Hr; left).
    destruct (Z.eqb_spec q idx) as [->|Hne]; simpl.
    - rewrite (decide_True (P := idx ∈ idx :: l)) by set_solver. rewrite (decide_False (P := idx ∈ l)) in IH by done.
      repeat case_decide; simpl; lia.
    - assert ((if decide (idx ∈ q :: l) then 1 else 0) = (if decide (idx ∈ l) then 1 else 0))%nat as ->.
      { do 2 case_decide; try done; set_solver. }
      repeat case_decide; simpl; try done; lia. }
  specialize (Hgen (seqZ 0 (frame_limit m)) ltac:(apply NoDup_seqZ) ltac:(intros q Hq%elem_of_seqZ; lia)).
  case_decide; lia.
Qed.

Lemma dom_set_entry h t i p : dom (set_entry h t i p) = dom h.
Proof. apply dom_alter_L. Qed.
Lemma dom_set_info h t i x : dom (set_info h t i x) = dom h.
Proof. apply dom_alter_L. Qed.

(** A change of one entry of [t] that keeps its frame and does not make it
    writable, and a change of its record. *)
Lemma frames_ok_protect s m t i p q x :
  frames_ok s m 0 -> entry (page_tables s) t i = Some p -> frame q = frame p -> rw q = false ->
  frames_ok (s <| page_tables := set_info (set_entry (page_tables s) t i q) t i x |>) m 0.
Proof.
  intros Hok Hp Ef Hrw. pose proof Hok as [F1 F2 F3 [F4 F4'] [F5 F5'] FW F6 F7 F8 F9]. pose proof (F8 _ _ _ Hp) as Hr.
  assert (Hh : forall f, 0 < f -> holds (set_info (set_entry (page_tables s) t i q) t i x) 0 f = holds (page_tables s) 0 f).
  { intros f H0. unfold holds. rewrite uses_set_info. pose proof (uses_entry_frame t _ _ _ q f Hp H0) as U. rewrite Ef in U. lia. }
  eapply (frames_ok_entry t s _ m m 0 0 i p q); try done; simpl.
  - intros t' i'. by rewrite entry_set_info.
  - rewrite Ef. done.
  - intros f H0. rewrite Hh by lia. split; [by apply F6 | by apply F7].
  - intros t' i' p' _ H' _ H0. apply Hh. pose proof (F8 _ _ _ H'). lia.
  - by rewrite Hrw.
Qed.

(** An entry that has its frame for itself, or none, gets other rights. *)
Lemma frames_ok_rights t s m k q q' x :
  frames_ok s m 0 -> entry (page_tables s) t k = Some q -> frame q' = frame q ->
  uses (page_tables s) (frame q) = 1%nat \/ frame q = 0 ->
  frames_ok (s <| page_tables := set_info (set_entry (page_tables s) t k q') t k x |>) m 0.
Proof.
  intros Hok Hq Ef Hu. pose proof Hok as [F1 F2 F3 [F4 F4'] [F5 F5'] FW F6 F7 F8 F9]. pose proof (F8 _ _ _ Hq) as Hr.
  assert (Hh : forall f, 0 < f -> holds (set_info (set_entry (page_tables s) t k q') t k x) 0 f = holds (page_tables s) 0 f).
  { intros f H0. unfold holds. rewrite uses_set_info. pose proof (uses_entry_frame t _ _ _ q' f Hq H0) as U. rewrite Ef in U. lia. }
  eapply (frames_ok_entry t s _ m m 0 0 k q q'); try done; simpl.
  - intros t' i'. by rewrite entry_set_info.
  - by rewrite Ef.
  - intros f H0. rewrite Hh by lia. split; [by apply F6 | by apply F7].
  - intros t' i' p' _ H' _ H0. apply Hh. pose proof (F8 _ _ _ H'). lia.
  - intros _ H0. destruct Hu as [Hu|?]; [|congruence]. rewrite Hh, holds_uses by lia. by rewrite Ef.
Qed.

(** ** One page *)

Section AllocPage.
Context (dir : Z) (D : page_directory_t) (t vaddr flags : Z).
Hypothesis Hdir : dir <> 0 /\ t <> 0 /\ tables D !! Z.to_nat (table_idx vaddr) = Some t.
Hypothesis Hflags : flag flags ALLOC_FRAME_ALLOC_PHYS = true /\ flag flags ALLOC_FRAME_NOSHARE = false.
Notation j := (Z.to_nat (page_idx vaddr)).

(** The entry of a page that [mmu_alloc_page] has mapped. *)
Definition given (idx : Z) (p : page_t) : Prop :=
  present p = true /\ frame p = idx /\ rw p = flag flags ALLOC_FRAME_WRITEABLE /\
  user p = negb (flag flags ALLOC_FRAME_KERNEL).

Lemma alloc_page_ok kalloc_table s m p x :
  frames_ok s m 0 -> directories s !! dir = Some D -> small (page_tables s) ->
  entry (page_tables s) t j = Some p -> frame p = 0 -> info (page_tables s) t j = Some x -> (0 < free_frames m)%nat ->
  exists idx m' h' p', 0 < idx < frame_limit m /\ uses (page_tables s) idx = 0%nat /\
    let s' := s <| memmaps := <[physical_memmap := m']> (memmaps s) |> <| page_tables := h' |>
                <| frame_refs := <[Z.to_nat idx := 1]> (frame_refs s) |> in
    mmu_alloc_page kalloc_table dir vaddr flags s = Ret (true, Some (idx * MMU_PAGE_SIZE)) s' /\
    frames_ok s' m' 0 /\ small h' /\ dom h' = dom (page_tables s) /\ (free_frames m <= S (free_frames m'))%nat /\
    frame_limit m' = frame_limit m /\ entry h' t j = Some p' /\ given idx p' /\
    (forall t' i', ~ (t' = t /\ i' = j) -> entry h' t' i' = entry (page_tables s) t' i' /\
       info h' t' i' = info (page_tables s) t' i').
Proof.
  intros Hok HD Hsm Hp Hf Hx Hfree. destruct Hdir as (Hd0 & Ht0 & Ht), Hflags as [Hph Hns].
  set (p1 := p <| rw := flag flags ALLOC_FRAME_WRITEABLE |> <| user := negb (flag flags ALLOC_FRAME_KERNEL) |>).
  set (x1 := x <| cow := flag flags ALLOC_FRAME_COW |> <| noshare := flag flags ALLOC_FRAME_NOSHARE |>
               <| mmap := flag flags ALLOC_FRAME_MMAP |>).
  set (s1 := s <| page_tables := set_info (set_entry (page_tables s) t j p1) t j x1 |>).
  assert (Hok1 : frames_ok s1 m 0) by (by apply (frames_ok_rights t s m j p p1 x1); [| | | right]).
  assert (Hp1 : entry (page_tables s1) t j = Some p1).
  { simpl. rewrite entry_set_info, entry_set_entry by by eexists. by rewrite decide_True. }
  assert (Hx1 : info (page_tables s1) t j = Some x1).
  { simpl. rewrite info_set_info by (rewrite info_set_entry; by eexists). by rewrite decide_True. }
  destruct (alloc_frame_ok dir D t s1 m 0 vaddr p1 x1 Hok1 Hd0 HD Ht Ht0 Hp1 Hf Hx1 (free_frames_some _ Hfree))
    as (idx & m' & Hidx & Hu & Hrun & Hok2 & El & Hused). rewrite holds_uses in Hu by lia.
  exists idx, m', (set_info (set_entry (page_tables s1) t j (mapped p1 idx)) t j (x1 <| commited := true |>)), (mapped p1 idx).
  split_and!; [lia | lia | | split_and!]; try done.
  - simpl in Hu. rewrite uses_set_info in Hu. pose proof (uses_entry_frame t _ _ _ p1 idx Hp ltac:(lia)) as U.
    change (frame p1) with (frame p) in U. lia.
  - unfold mmu_alloc_page. rewrite (mrun_table_of _ D _ t) by done.
    rewrite (proj2 (Z.eqb_neq t 0)) by done. cbn [negb]. rewrite mrun_ret, (proj2 (Z.eqb_neq t 0)) by done.
    rewrite (mrun_upd_page _ _ _ p), (mrun_upd_info _ _ _ x) by (done || (simpl; by rewrite info_set_entry)).
    fold p1 x1. rewrite Hns, mrun_ret, Hph. 
    match goal with |- bind _ _ ?st = _ => change st with s1 end. rewrite (bind_Ret _ _ _ _ _ Hrun). reflexivity.
  - simpl. by repeat (apply small_set_info || apply small_set_entry).
  - simpl. by rewrite dom_set_info, dom_set_entry, dom_set_info, dom_set_entry.
  - by apply (free_frames_take _ _ idx).
  - simpl. rewrite entry_set_info, entry_set_entry by by eexists. by rewrite decide_True.
  - intros t' i' Hn. simpl. rewrite entry_set_info, entry_set_entry, decide_False by (by eexists || naive_solver).
    rewrite entry_set_info, entry_set_entry, decide_False by (by eexists || naive_solver). split; [done|].
    rewrite info_set_info, decide_False by (rewrite ?info_set_entry; by eexists || naive_solver).
    rewrite info_set_entry, info_set_info, decide_False by (rewrite ?info_set_entry; by eexists || naive_solver).
    by rewrite info_set_entry.
Qed.
End AllocPage.

(** ** Loops over pages *)

(** The addresses of the pages [q] to [e], where [limit] is in the last one. *)
Lemma page_loop_ok (P : Z -> mmu -> Prop) body limit e :
  (e - 1) * 0x1000 < limit <= e * 0x1000 -> e < 2 ^ 20 -> forall k q s,
  0 <= q -> q + Z.of_nat k = e -> P q s ->
  (forall q' s', q <= q' < e -> P q' s' -> exists s'', body (q' * 0x1000) s' = Ret tt s'' /\ P (q' + 1) s'') ->
  exists s', page_loop k (q * 0x1000) limit body s = Ret tt s' /\ P e s'.
Proof.
  intros Hl He. induction k as [|k IH]; intros q s Hq Hk HP Hstep.
  - exists s. split; [|by replace e with q by lia]. simpl. by rewrite (proj2 (Z.ltb_ge _ _)) by lia.
  - destruct (Hstep q s ltac:(lia) HP) as (s1 & Hb & HP1).
    destruct (IH (q + 1) s1 ltac:(lia) ltac:(lia) HP1) as (s' & Hrun & HPe).
    { intros q' s' Hq'. apply Hstep. lia. }
    exists s'. split; [|done]. cbn [page_loop]. rewrite (proj2 (Z.ltb_lt _ _)) by lia. cbn [negb].
    rewrite (bind_Ret _ _ _ _ _ Hb). replace (q * 0x1000 + 0x1000) with ((q + 1) * 0x1000) by lia.
    by rewrite u32_small by lia.
Qed.

Lemma for_pages_ok (P : Z -> mmu -> Prop) body limit e q s :
  (e - 1) * 0x1000 < limit <= e * 0x1000 -> 0 <= q <= e -> e < 2 ^ 20 -> P q s ->
  (forall q' s', q <= q' < e -> P q' s' -> exists s'', body (q' * 0x1000) s' = Ret tt s'' /\ P (q' + 1) s'') ->
  exists s', for_pages (q * 0x1000) limit body s = Ret tt s' /\ P e s'.
Proof.
  intros Hl Hq He HP Hstep. unfold for_pages. apply page_loop_ok; try done; [lia|].
  assert ((limit - q * 0x1000 + 0xFFF) / 0x1000 = e - q) as ->; [|lia].
  symmetry. apply (Z.div_unique _ _ _ (limit - q * 0x1000 + 0xFFF - (e - q) * 0x1000)); lia.
Qed.

(** ** The kernel's pages *)

Record kernel_ok (s : mmu) (m km : memmap) (D : page_directory_t) : Prop := {
  ko_frames : frames_ok s m 0;
  ko_small : small (page_tables s);
  ko_map : memmaps s !! kernel_memmap = Some km;
  ko_wf : memmap_wf km;
  ko_limit : frame_limit km < 2 ^ 20;
  ko_dir : directories s !! kernel_directory = Some D;
  ko_tables : forall q, 0 <= q < frame_limit km -> exists t,
    tables D !! Z.to_nat (q / 1024) = Some t /\ t <> 0 /\ is_Some (page_tables s !! t);
  ko_distinct : forall a b t, tables D !! a = Some t -> tables D !! b = Some t -> t <> 0 -> a = b;
  ko_free : forall q t p, 0 <= q < frame_limit km -> page_used km q = false ->
    tables D !! Z.to_nat (q / 1024) = Some t -> entry (page_tables s) t (Z.to_nat (q mod 1024)) = Some p -> frame p = 0;
  ko_fresh : forall q, 0 <= q < frame_limit km -> page_used km q = false ->
    page_tables s !! (q * 0x1000) = None /\ directories s !! (q * 0x1000) = None
}.

Lemma page_of q : 0 <= q -> table_idx (q * 0x1000) = q / 1024 /\ page_idx (q * 0x1000) = q mod 1024.
Proof. intros. unfold table_idx, page_idx, MMU_PAGE_SIZE. by rewrite Z.div_mul by lia. Qed.

Lemma page_slots_differ D t t' q q' :
  (forall a b t, tables D !! a = Some t -> tables D !! b = Some t -> t <> 0 -> a = b) ->
  0 <= q -> 0 <= q' -> q <> q' -> t <> 0 ->
  tables D !! Z.to_nat (q / 1024) = Some t -> tables D !! Z.to_nat (q' / 1024) = Some t' ->
  ~ (t' = t /\ Z.to_nat (q' mod 1024) = Z.to_nat (q mod 1024)).
Proof.
  intros Hd Hq Hq' Hne Ht0 H1 H2 [-> E]. pose proof (Hd _ _ _ H1 H2 Ht0) as E1.
  pose proof (Z.div_pos q 1024 Hq ltac:(lia)). pose proof (Z.div_pos q' 1024 Hq' ltac:(lia)).
  pose proof (Z.mod_pos_bound q 1024 ltac:(lia)). pose proof (Z.mod_pos_bound q' 1024 ltac:(lia)).
  apply Hne. rewrite (Z.div_mod q 1024), (Z.div_mod q' 1024) by lia. lia.
Qed.

(** The entry [i] of [t] is that of one of the pages [r] to [q]. *)
Definition in_run (D : page_directory_t) (r q : Z) (t : Z) (i : nat) : Prop :=
  exists x, r <= x < q /\ tables D !! Z.to_nat (x / 1024) = Some t /\ i = Z.to_nat (x mod 1024).

(** Nothing that could be seen has changed. *)
Definition kept (s s' : mmu) : Prop := forall t i d, view s t i = Some d -> view s' t i = Some d.

Lemma kept_trans s1 s2 s3 : kept s1 s2 -> kept s2 s3 -> kept s1 s3.
Proof. intros H1 H2 t i d H. by apply H2, H1. Qed.

Lemma kept_alloc s m h fr t j p :
  page_tables s !! t <> None -> entry (page_tables s) t j = Some p -> frame p = 0 ->
  (forall t' i', ~ (t' = t /\ i' = j) -> entry h t' i' = entry (page_tables s) t' i') ->
  kept s (s <| memmaps := m |> <| page_tables := h |> <| frame_refs := fr |>).
Proof.
  intros _ Hp Hf Hrest t' i' d. unfold view. simpl. destruct (decide (t' = t /\ i' = j)) as [[-> ->]|Hn].
  - rewrite Hp. simpl. by rewrite Hf.
  - by rewrite Hrest.
Qed.

Section KernelPages.
Context (s0 : mmu) (km : memmap) (D : page_directory_t) (r e pflags : Z) (free0 : nat) (limit0 : Z)
  (kalloc_table : M mmu (Z * option Z)).
Hypothesis Hfree0 : (Z.to_nat (e - r) <= free0)%nat.
Hypothesis Hrange : 0 <= r /\ e <= frame_limit km.
Hypothesis Hmarked : forall q, r <= q < e -> page_used km q = true.
Hypothesis Hflags : flag pflags ALLOC_FRAME_ALLOC_PHYS = true /\ flag pflags ALLOC_FRAME_NOSHARE = false.

(** The pages [r] to [q] of [r] to [e] have been given frames since [s0]. *)
Record progress (q : Z) (s : mmu) : Prop := {
  pg_form : exists m h fr, s = s0 <| memmaps := <[physical_memmap := m]> (memmaps s0) |> <| page_tables := h |>
                                  <| frame_refs := fr |> /\
    kernel_ok s m km D /\ (free0 <= Z.to_nat (q - r) + free_frames m)%nat /\ frame_limit m = limit0;
  pg_todo : forall q' t p, q <= q' < e -> tables D !! Z.to_nat (q' / 1024) = Some t ->
    entry (page_tables s) t (Z.to_nat (q' mod 1024)) = Some p -> frame p = 0;
  pg_done : forall q', r <= q' < q -> exists t p f, tables D !! Z.to_nat (q' / 1024) = Some t /\
    entry (page_tables s) t (Z.to_nat (q' mod 1024)) = Some p /\ f <> 0 /\ given pflags f p;
  pg_kept : kept s0 s;
  pg_rest : forall t i, ~ in_run D r q t i -> entry (page_tables s) t i = entry (page_tables s0) t i;
  pg_dom : dom (page_tables s) = dom (page_tables s0)
}.

Definition alloc_one (a : Z) : M mmu (option Z) :=
  '(ok, phys) <- mmu_alloc_page kalloc_table kernel_directory a pflags;; assert ok "page != NULL";;; ret phys.

Lemma alloc_step q s : r <= q < e -> progress q s ->
  exists phys s', alloc_one (q * 0x1000) s = Ret (Some phys) s' /\ progress (q + 1) s'.
Proof.
  intros Hq [(m & h & fr & Es & Hk & Hfree & Hlim0) Htodo Hdone Hkept Hrest Hdom]. destruct Hrange as [Hr0 Hre].
  pose proof Hk as [K1 K2 K3 K4 K5 K6 K7 K8 K9 K10]. destruct (K7 q ltac:(lia)) as (t & Ht & Ht0 & Hts).
  destruct (page_of q ltac:(lia)) as [E1 E2]. pose proof (Z.mod_pos_bound q 1024 ltac:(lia)) as Hmod.
  destruct (small_entry _ _ (Z.to_nat (q mod 1024)) K2 Hts ltac:(lia)) as [[p Hp] [x Hx]].
  pose proof (Htodo q t p ltac:(lia) Ht Hp) as Hf.
  destruct (alloc_page_ok kernel_directory D t (q * 0x1000) pflags) with (kalloc_table := kalloc_table) (s := s) (m := m)
    (p := p) (x := x) as (idx & m' & h' & p' & Hidx & Hu & Hrun & A1 & A2 & A3 & A4 & A4l & A5 & A6 & A7); rewrite ?E1, ?E2; try done; [lia|].
  rewrite E2 in A5, A7.
  assert (Hother : forall q' t', 0 <= q' -> q' <> q -> tables D !! Z.to_nat (q' / 1024) = Some t' ->
    entry h' t' (Z.to_nat (q' mod 1024)) = entry (page_tables s) t' (Z.to_nat (q' mod 1024))).
  { intros q' t' H0 Hne Ht'. apply A7. eapply (page_slots_differ D t t' q q'); try done. lia. }
  eexists _, _. split; [unfold alloc_one; rewrite (bind_Ret _ _ _ _ _ Hrun); reflexivity|]. split.
  - exists m', h', (<[Z.to_nat idx := 1]> (frame_refs s)). split_and!.
    + rewrite Es. simpl. unfold setf. simpl. by rewrite insert_insert_eq.
    + split; try done; simpl.
      * by rewrite lookup_insert_ne.
      * intros q' Hq'. destruct (K7 q' Hq') as (t' & H1 & H2 & H3). exists t'. split_and!; [done | done |].
        apply elem_of_dom. rewrite A3. by apply elem_of_dom.
      * intros q' t' p2 Hq' Hu' Ht' Hp2. destruct (decide (q' = q)) as [->|Hne]; [|rewrite Hother in Hp2 by (done || lia); by eapply K9].
        rewrite Hmarked in Hu' by lia. done.
      * intros q' Hq' Hu'. destruct (K10 q' Hq' Hu') as [H1 H2]. split; [|done]. apply not_elem_of_dom. rewrite A3.
        by apply not_elem_of_dom.
    + lia.
    + by rewrite A4l.
  - intros q' t' p2 Hq' Ht' Hp2. simpl in Hp2. rewrite Hother in Hp2 by (done || lia). eapply Htodo; [|done..]. lia.
  - intros q' Hq'. simpl. destruct (decide (q' = q)) as [->|Hne].
    + exists t, p', idx. split_and!; try done. lia.
    + destruct (Hdone q' ltac:(lia)) as (t' & p2 & f & H1 & H2 & H3). exists t', p2, f. rewrite Hother by (done || lia). done.
  - eapply kept_trans; [exact Hkept|]. eapply kept_alloc; [|exact Hp | done | intros; by apply A7].
    destruct Hts as [? ->]. done.
  - intros t' i' Hn. simpl. rewrite (proj1 (A7 t' i' ltac:(intros [-> ->]; apply Hn; exists q; split_and!; (done || lia)))).
    apply Hrest. intros (y & Hy & H2). apply Hn. exists y. split; [lia | done].
  - simpl. by rewrite A3.
Qed.
End KernelPages.

(** ** kalloc *)

Lemma find_pages_ok m k : memmap_wf m -> 0 < k < 2 ^ 32 ->
  exists r, memmap_find_free_pages k m = Ret r m /\ first_free_run m (frame_limit m) k r.
Proof.
  intros Hwf Hk. pose proof Hwf as (_ & ? & _). assert (0 <= page_index (length_ m)) by (apply Z.div_pos; lia).
  unfold memmap_find_free_pages, assert, bind, get. destruct (Z.eqb_spec k 0); [lia|]. simpl.
  apply find_free_pages_loop_ok; [done | lia | lia | lia |]. split; try lia. intros q (? & ? & ?). lia.
Qed.

(** The bitmap with the pages [r] to [q] marked. *)
Record marked (km km' : memmap) (r q : Z) : Prop := {
  mk_wf : memmap_wf km';
  mk_lock : lock km' = lock km;
  mk_limit : frame_limit km' = frame_limit km;
  mk_used : forall x, 0 <= x -> page_used km' x = ((r <=? x) && (x <? q)) || page_used km x
}.

Lemma marked_start km r : memmap_wf km -> marked km km r r.
Proof. intros H. split; try done. intros x Hx. destruct (Z.leb_spec r x), (Z.ltb_spec x r); simpl; (done || lia). Qed.

Lemma marked_step km km1 r q : marked km km1 r q -> r <= q -> 0 <= q < frame_limit km ->
  exists km2, memmap_set_page (q * 0x1000) km1 = Ret tt km2 /\ marked km km2 r (q + 1).
Proof.
  intros [M1 M2 M3 M4] Hr Hq. pose proof M1 as (_ & _ & Hlen).
  destruct (set_page_ok km1 q M1) as (km2 & E & W1 & W2 & W3 & W4); [unfold frame_limit in *; lia|].
  exists km2. split; [done|]. split; [done | by rewrite (set_page_lock _ _ _ E) | unfold frame_limit in *; by rewrite W2 |].
  intros x Hx. rewrite W4, M4 by done.
  destruct (Z.eqb_spec x q), (Z.leb_spec r x), (Z.ltb_spec x q), (Z.ltb_spec x (q + 1)); simpl; (done || lia).
Qed.

(** The loop that marks pages in the map at [a]. *)
Lemma mark_pages_ok s a km r e limit :
  memmaps s !! a = Some km -> memmap_wf km -> (e - 1) * 0x1000 < limit <= e * 0x1000 ->
  0 <= r <= e -> e <= frame_limit km -> e < 2 ^ 20 ->
  exists km', for_pages (r * 0x1000) limit (fun x => on_map a (memmap_set_page x)) s =
    Ret tt (s <| memmaps := <[a := km']> (memmaps s) |>) /\ marked km km' r e.
Proof.
  intros Ha Hwf Hl Hr He He2.
  destruct (for_pages_ok (fun q s' => exists km', s' = s <| memmaps := <[a := km']> (memmaps s) |> /\ marked km km' r q)
    (fun x => on_map a (memmap_set_page x)) limit e r s) as (s' & Hrun & km' & -> & Hm); try done.
  - exists km. split; [|by apply marked_start]. destruct s. unfold setf. simpl in *. by rewrite insert_id.
  - intros q s' Hq (km1 & -> & Hm1). destruct (marked_step _ _ _ q Hm1) as (km2 & E & Hm2); [lia | lia |].
    eexists. split; [|exists km2; split; [done | exact Hm2]].
    unfold on_map, bind, get. simpl. rewrite lookup_insert_eq. simpl. rewrite E. by rewrite insert_insert_eq.
  - by exists km'.
Qed.

(** The flags that [kalloc] passes on. *)
Lemma page_flags_phys flags : flag flags KALLOC_OPTN_MMAP = false -> flag flags KALLOC_OPTN_NOSHARE = false ->
  flag (page_flags flags) ALLOC_FRAME_ALLOC_PHYS = true /\ flag (page_flags flags) ALLOC_FRAME_NOSHARE = false /\
  flag (page_flags flags) ALLOC_FRAME_KERNEL = false /\ flag (page_flags flags) ALLOC_FRAME_WRITEABLE = true.
Proof. intros H1 H2. unfold page_flags. rewrite H1, H2. destruct (flag flags KALLOC_OPTN_NOCOW); done. Qed.

(** What a successful call for [n] pages of the kernel leaves: pages [r] and on
    are marked and mapped, the rest is as it was. *)
Record kernel_allocated (s s' : mmu) (m m' km km' : memmap) (D : page_directory_t) (r n sz flags mm : Z) : Prop := {
  ka_ok : kernel_ok s' m' km' D;
  ka_marked : marked km km' r (r + n);
  ka_mapped : forall q, r <= q < r + n -> exists t p f, tables D !! Z.to_nat (q / 1024) = Some t /\
    entry (page_tables s') t (Z.to_nat (q mod 1024)) = Some p /\ f <> 0 /\ given (page_flags flags) f p;
  ka_kept : kept s s';
  ka_rest : forall t i, ~ in_run D r (r + n) t i -> entry (page_tables s') t i = entry (page_tables s) t i;
  ka_dom : dom (page_tables s') = dom (page_tables s);
  ka_free : (free_frames m <= Z.to_nat n + free_frames m')%nat;
  ka_limit : frame_limit m' = frame_limit m;
  ka_same : directories s' = directories s /\ current_directory s' = current_directory s /\
    frame_refs_lock s' = frame_refs_lock s /\ kheap_len s' = kheap_len s /\ frames s' = frames s;
  ka_buffers : kernel_buffers s' = kernel_buffers s ++
    (if flag flags KALLOC_OPTN_NOFREE || (kheap_len s =? 0) then [] else [mkBuffer (r * 0x1000) n 0])
}.

Lemma kernel_ok_marked s m km km' D r e :
  kernel_ok s m km D -> marked km km' r e ->
  kernel_ok (s <| memmaps := <[kernel_memmap := km']> (memmaps s) |>) m km' D.
Proof.
  intros [K1 K2 K3 K4 K5 K6 K7 K8 K9 K10] [M1 M2 M3 M4]. split; try done; rewrite ?M3; try done.
  - by apply (frames_ok_ext s); simpl; rewrite ?lookup_insert_ne.
  - simpl. by rewrite lookup_insert_eq.
  - intros q t p Hq Hu. rewrite M4 in Hu by lia. apply orb_false_iff in Hu as [_ Hu]. by apply K9.
  - intros q Hq Hu. rewrite M4 in Hu by lia. apply orb_false_iff in Hu as [_ Hu]. by apply K10.
Qed.

Section Kalloc.
Context (malloc_ok : nat -> bool).

Lemma pages_of_size sz : 0 < sz < 2 ^ 31 -> let n := u32 (sz + 0xFFF) / 0x1000 in
  0 < n <= 2 ^ 19 /\ (n - 1) * 0x1000 < sz <= n * 0x1000.
Proof. intros H. simpl. rewrite u32_small by lia. Z.to_euclidean_division_equations. lia. Qed.

(** The record of the allocation, when there is a heap to keep it in. *)
Lemma track_ok s flags vaddr n mm :
  flag flags KALLOC_OPTN_NOFREE = true \/ kheap_len s = 0 \/ malloc_ok (mallocs s) = true ->
  exists s', (if negb (flag flags KALLOC_OPTN_NOFREE) && negb (kheap_len s =? 0) then
         ok <- malloc_buffer malloc_ok;;
         assert ok "buf != NULL";;;
         let buf := mkBuffer vaddr n mm in
         modify (fun s => s <| kernel_buffers := kernel_buffers s ++ [buf] |>)
       else ret tt) s = Ret tt s' /\
    kernel_buffers s' = kernel_buffers s ++
      (if flag flags KALLOC_OPTN_NOFREE || (kheap_len s =? 0) then [] else [mkBuffer vaddr n mm]) /\
    exists k, s' = s <| mallocs := k |> <| kernel_buffers := kernel_buffers s' |>.
Proof.
  intros H. destruct (flag flags KALLOC_OPTN_NOFREE) eqn:E1; simpl.
  { exists s. rewrite app_nil_r. split_and!; try done. exists (mallocs s). by destruct s. }
  destruct (Z.eqb_spec (kheap_len s) 0) as [E2|E2]; simpl.
  { exists s. rewrite app_nil_r. split_and!; try done. exists (mallocs s). by destruct s. }
  assert (Hok : malloc_ok (mallocs s) = true) by naive_solver.
  unfold malloc_buffer, bind, get, modify, ret. rewrite Hok. simpl. eexists. split; [done|]. split; [done|].
  by exists (S (mallocs s)).
Qed.

Lemma kernel_ok_ext s s' m km D :
  memmaps s' = memmaps s -> frame_refs s' = frame_refs s -> page_tables s' = page_tables s ->
  directories s' = directories s -> kernel_ok s m km D -> kernel_ok s' m km D.
Proof.
  intros E1 E2 E3 E4 []. split; rewrite ?E1, ?E3, ?E4; try done. apply (frames_ok_ext s); by rewrite ?E1.
Qed.

Lemma run_then {A B C} (f : M mmu A) (g : A -> M mmu B) (k : A -> M mmu C) s x s' :
  bind f (fun p => bind (g p) (fun _ => ret p)) s = Ret x s' -> bind f (fun p => bind (g p) (fun _ => k p)) s = k x s'.
Proof.
  intros (a & s1 & H1 & H2)%bind_Ret_inv. rewrite (bind_Ret _ _ _ _ _ H1).
  apply bind_Ret_inv in H2 as (b & s2 & H2 & [= -> ->]). by rewrite (bind_Ret _ _ _ _ _ H2).
Qed.

(** The pages of a run that has been marked are mapped one after the other. *)
Lemma map_pages_ok kalloc_table s0 m km D r e limit pflags :
  kernel_ok s0 m km D -> (e - 1) * 0x1000 < limit <= e * 0x1000 -> 0 <= r < e -> e <= frame_limit km ->
  (forall q, r <= q < e -> page_used km q = true) ->
  (forall q t p, r <= q < e -> tables D !! Z.to_nat (q / 1024) = Some t ->
     entry (page_tables s0) t (Z.to_nat (q mod 1024)) = Some p -> frame p = 0) ->
  flag pflags ALLOC_FRAME_ALLOC_PHYS = true /\ flag pflags ALLOC_FRAME_NOSHARE = false ->
  (Z.to_nat (e - r) <= free_frames m)%nat ->
  exists phys s', bind (alloc_one pflags kalloc_table (r * 0x1000)) (fun p =>
    bind (for_pages (u32 (r * 0x1000 + 0x1000)) limit (fun a => bind (alloc_one pflags kalloc_table a) (fun _ => ret tt)))
      (fun _ => ret p)) s0 = Ret (Some phys) s' /\ progress s0 km D r e pflags (free_frames m) (frame_limit m) e s'.
Proof.
  intros Hk Hl Hr He Hmark Hfresh Hfl Hfree. pose proof (ko_limit _ _ _ _ Hk) as Hlim.
  assert (Hstart : progress s0 km D r e pflags (free_frames m) (frame_limit m) r s0).
  { split; try done.
    - exists m, (page_tables s0), (frame_refs s0). split_and!; [|done | lia | done].
      pose proof (fo_map _ _ _ (ko_frames _ _ _ _ Hk)). destruct s0. unfold setf. simpl in *. by rewrite insert_id.
    - intros q Hq. lia.
    - by intros ???. }
  assert (Hstep := alloc_step s0 km D r e pflags (free_frames m) (frame_limit m) kalloc_table Hfree (conj (proj1 Hr) He) Hmark Hfl).
  destruct (Hstep r s0 ltac:(lia) Hstart) as (phys & s1 & Hrun1 & Hp1). exists phys.
  rewrite (bind_Ret _ _ _ _ _ Hrun1). replace (r * 0x1000 + 0x1000) with ((r + 1) * 0x1000) by lia.
  rewrite u32_small by lia.
  destruct (for_pages_ok (progress s0 km D r e pflags (free_frames m) (frame_limit m)) (fun a => bind (alloc_one pflags kalloc_table a) (fun _ => ret tt))
    limit e (r + 1) s1) as (s' & Hrun & Hpe); try done; [lia | lia | |].
  - intros q s' Hq Hp. destruct (Hstep q s' ltac:(lia) Hp) as (ph & s2 & Hr2 & Hp2). exists s2. split; [|done].
    by rewrite (bind_Ret _ _ _ _ _ Hr2).
  - exists s'. by rewrite (bind_Ret _ _ _ _ _ Hrun).
Qed.

(** The search for pages, with the map locked. *)
Lemma reserve_ok s km sz : memmaps s !! kernel_memmap = Some km -> memmap_wf km -> lock km = 0 -> 0 < sz < 2 ^ 31 ->
  let n := u32 (sz + 0xFFF) / 0x1000 in
  let s1 := s <| memmaps := <[kernel_memmap := km <| lock := 1 |>]> (memmaps s) |> in
  exists r, first_free_run km (frame_limit km) n r /\
    forall B (k : Z -> M mmu B),
      bind (lock_map kernel_memmap) (fun _ => bind (reserve kernel_memmap sz 0) k) s = k (u32 (r * 0x1000)) s1.
Proof.
  intros Hm Hwf Hlk Hsz n s1. destruct (pages_of_size sz Hsz) as [Hn _]. fold n in Hn.
  destruct (find_pages_ok (km <| lock := 1 |>) n) as (r & Efind & Hrun); [by apply memmap_wf_lock | lia |].
  exists r. split; [exact Hrun|]. intros B k. rewrite (mrun_lock_map _ km) by done.
  assert (Hres : reserve kernel_memmap sz 0 s1 = Ret (u32 (r * 0x1000)) s1).
  { unfold reserve. cbn [Z.eqb negb]. fold n. erewrite mrun_on_map; [|simpl; by rewrite lookup_insert_eq | exact Efind].
    unfold ret, s1, setf. simpl. by rewrite insert_insert_eq. }
  by rewrite (bind_Ret _ _ _ _ _ Hres).
Qed.

Lemma kalloc_ok fuel s m km D sz flags mm :
  kernel_ok s m km D -> lock km = 0 -> current_directory s <> 0 -> 0 < sz < 2 ^ 31 ->
  flag flags KALLOC_OPTN_KERNEL = true -> flag flags KALLOC_OPTN_MMAP = false -> flag flags KALLOC_OPTN_NOSHARE = false ->
  flag flags KALLOC_OPTN_NOFREE = true \/ kheap_len s = 0 \/ malloc_ok (mallocs s) = true ->
  let n := u32 (sz + 0xFFF) / 0x1000 in
  (Z.to_nat n <= free_frames m)%nat ->
  exists r, first_free_run km (frame_limit km) n r /\
    if r =? 0 then kalloc malloc_ok (S fuel) sz 0 flags mm s = Ret (0, None) s
    else exists s' m' km' phys, kalloc malloc_ok (S fuel) sz 0 flags mm s = Ret (r * 0x1000, Some phys) s' /\
      kernel_allocated s s' m m' km km' D r n sz flags mm.
Proof.
  intros Hk Hlk Hon Hsz Hker Hmm Hns Htrack n Hfree. destruct (pages_of_size sz Hsz) as [Hn Hn2]. fold n in Hn, Hn2.
  pose proof Hk as [K1 K2 K3 K4 K5 K6 K7 K8 K9 K10].
  destruct (reserve_ok s km sz K3 K4 Hlk Hsz) as (r & Hrun & Hres). fold n in Hrun. exists r. split; [done|].
  cbn [kalloc]. rewrite mrun_get, (proj2 (Z.eqb_neq (current_directory s) 0)) by done. rewrite mrun_assert by done.
  rewrite Hker, Hres. clear Hres.
  destruct (Z.eqb_spec r 0) as [->|Hr].
  { change (u32 (0 * 0x1000) =? 0) with true. cbv iota. rewrite (mrun_unlock_map _ (km <| lock := 1 |>)).
    - unfold ret, setf. simpl. rewrite insert_insert_eq, insert_id; [by destruct s|]. rewrite K3. destruct km. simpl in *. by subst.
    - simpl. by rewrite lookup_insert_eq.
    - done. }
  destruct Hrun as [[(Hr0 & Hr1 & Hfreerun) _]|[? _]]; [|done].
  rewrite (u32_small (r * 0x1000)), (proj2 (Z.eqb_neq (r * 0x1000) 0)) by lia. cbv zeta.
  set (limit := u32 (r * 0x1000 + sz)). assert (Hlimit : limit = r * 0x1000 + sz) by (apply u32_small; lia).
  set (s1 := s <| memmaps := _ |>).
  destruct (mark_pages_ok s1 kernel_memmap (km <| lock := 1 |>) r (r + n) limit) as (km1 & Hmark & Hm1);
    [simpl; by rewrite lookup_insert_eq | by apply memmap_wf_lock | lia | lia | exact Hr1 | lia |].
  rewrite (bind_Ret _ _ _ _ _ Hmark). pose proof Hm1 as [W1 W2 W3 W4].
  rewrite (mrun_unlock_map _ km1) by (simpl; rewrite ?lookup_insert_eq; done).
  set (km2 := km1 <| lock := 0 |>). set (s0 := s <| memmaps := <[kernel_memmap := km2]> (memmaps s) |>).
  match goal with |- context [bind _ _ ?st] => replace st with s0
    by (unfold s0, s1, km2, setf; simpl; by rewrite !insert_insert_eq) end.
  assert (Hm2 : marked km km2 r (r + n)).
  { split; [by apply memmap_wf_lock | by rewrite Hlk | exact W3 | exact W4]. }
  pose proof (kernel_ok_marked _ _ _ _ _ _ _ Hk Hm2) as Hk0. fold s0 in Hk0.
  destruct (page_flags_phys flags Hmm Hns) as (Hf1 & Hf2 & _).
  destruct (map_pages_ok (kalloc malloc_ok fuel sizeof_page_table 0 (Z.lor KALLOC_OPTN_ALIGN KALLOC_OPTN_KERNEL) 0)
    s0 m km2 D r (r + n) limit (page_flags flags)) as (phys & s2 & Hpages & Hprog); try done; try lia.
  { rewrite (mk_limit _ _ _ _ Hm2). exact Hr1. }
  { intros q Hq. rewrite (mk_used _ _ _ _ Hm2) by lia.
    by rewrite (proj2 (Z.leb_le r q)), (proj2 (Z.ltb_lt q (r + n))) by lia. }
  { intros q t p Hq Ht Hp. eapply K9; [| |exact Ht | exact Hp]; [lia | by apply Hfreerun]. }
  unfold alloc_one in Hpages. rewrite (run_then _ _ _ _ _ _ Hpages). rewrite mrun_get, Hmm.
  destruct Hprog as [(m' & h & fr & Es2 & Hk2 & Hcount & Hlm) _ Hdone Hkept Hrest Hdom].
  assert (kheap_len s2 = kheap_len s /\ mallocs s2 = mallocs s /\ kernel_buffers s2 = kernel_buffers s) as (E1 & E2 & E3)
    by (by rewrite Es2).
  destruct (track_ok s2 flags (r * 0x1000) n 0) as (s3 & Htr & Hbuf & k & Es3); [by rewrite E1, E2|].
  rewrite (bind_Ret _ _ _ _ _ Htr). exists s3, m', km2, phys. split; [done|].
  rewrite E1, E3 in Hbuf. split; try done.
  - eapply (kernel_ok_ext s2); [by rewrite Es3 .. |done].
  - intros q Hq. destruct (Hdone q Hq) as (t & p & f & H1 & H2 & H3). exists t, p, f. by rewrite Es3.
  - intros t i d Hv. rewrite Es3. apply (Hkept t i d Hv).
  - intros t i Hout. rewrite Es3. exact (Hrest t i Hout).
  - rewrite Es3. exact Hdom.
  - by replace (r + n - r) with n in Hcount by lia.
  - rewrite Es3, Es2. done.
Qed.
End Kalloc.
