(* ===== verification/UserPages.v ===== *)
(** * UserPages: pages of a program that are mapped to a file (kernel/mmu.c)

    What [kalloc] does for [mmap]: at the address that the caller names it marks
    the pages in the page map of the task and prepares their entries, without
    frames, which the page fault handler gives them later.  Every other page
    stays as it is. *)

From S2P Require Import Prelude Memmap Mmu Frames Kalloc.

(** ** Addresses *)

Lemma page_offset a : Z.land a 0xFFF = a mod 0x1000.
Proof. change 0xFFF with (Z.ones 12). rewrite Z.land_ones by lia. done. Qed.

Lemma page_base a : 0 <= a < 2 ^ 32 -> Z.land a 0xFFFFF000 = a / 0x1000 * 0x1000.
Proof.
  intros Ha. transitivity (Z.shiftl (Z.shiftr a 12) 12); [|rewrite Z.shiftl_mul_pow2, Z.shiftr_div_pow2 by lia; done].
  apply Z.bits_inj'. intros i Hi. rewrite Z.land_spec, Z.shiftl_spec by done.
  change 0xFFFFF000 with (Z.shiftl (Z.ones 20) 12). rewrite Z.shiftl_spec by done.
  destruct (Z.lt_ge_cases i 12) as [Hlt|Hge].
  - rewrite !(Z.testbit_neg_r _ (i - 12)) by lia. apply andb_false_r.
  - rewrite Z.shiftr_spec by lia. replace (i - 12 + 12) with i by lia. destruct (Z.lt_ge_cases i 32) as [Hl|Hl].
    + rewrite Z.ones_spec_low by lia. apply andb_true_r.
    + rewrite (testbit_high a i) by lia. done.
Qed.

(** ** Entries of pages without frames *)

Definition lazy_page (p : page_t) : page_t := p <| rw := true |> <| user := true |>.
Definition lazy_info (x : page_info_t) : page_info_t := x <| cow := true |> <| noshare := false |> <| mmap := true |>.

(** The entry [i] of the table [t] is that of one of the pages [qs]. *)
Definition slot_in (D : page_directory_t) (qs : list Z) (t : Z) (i : nat) : Prop :=
  Exists (fun q => tables D !! Z.to_nat (q / 1024) = Some t /\ i = Z.to_nat (q mod 1024)) qs.
#[export] Instance slot_in_dec D qs t i : Decision (slot_in D qs t i).
Proof. unfold slot_in. apply _. Defined.

(** The tables [h'] are [h] with the pages [qs] prepared. *)
Record lazily (D : page_directory_t) (qs : list Z) (h h' : tmap) : Prop := {
  lz_entry : forall t i, entry h' t i = if decide (slot_in D qs t i) then lazy_page <$> entry h t i else entry h t i;
  lz_info : forall t i, info h' t i = if decide (slot_in D qs t i) then lazy_info <$> info h t i else info h t i;
  lz_dom : dom h' = dom h;
  lz_whole : map_Forall (fun _ => whole) h -> map_Forall (fun _ => whole) h'
}.

Lemma lazily_nil D h : lazily D [] h h.
Proof. split; try done; intros t i; by rewrite decide_False by (intros H; inversion H). Qed.

Lemma lazily_app D qs1 qs2 h h1 h2 : lazily D qs1 h h1 -> lazily D qs2 h1 h2 -> lazily D (qs1 ++ qs2) h h2.
Proof.
  intros [E1 I1 D1 W1] [E2 I2 D2 W2].
  assert (Hs : forall t i, slot_in D (qs1 ++ qs2) t i <-> slot_in D qs1 t i \/ slot_in D qs2 t i)
    by (intros; apply Exists_app).
  split; [| | congruence | auto]; intros t i.
  - rewrite E2, E1. destruct (decide (slot_in D qs1 t i)), (decide (slot_in D qs2 t i));
      rewrite ?(decide_True (P := slot_in D (qs1 ++ qs2) t i)), ?(decide_False (P := slot_in D (qs1 ++ qs2) t i))
        by (rewrite Hs; tauto); try done. by destruct (entry h t i).
  - rewrite I2, I1. destruct (decide (slot_in D qs1 t i)), (decide (slot_in D qs2 t i));
      rewrite ?(decide_True (P := slot_in D (qs1 ++ qs2) t i)), ?(decide_False (P := slot_in D (qs1 ++ qs2) t i))
        by (rewrite Hs; tauto); try done. by destruct (info h t i).
Qed.

Definition MMAP_FLAGS := Z.lor KALLOC_OPTN_MMAP KALLOC_OPTN_WRITEABLE.

(** One page. *)
Lemma lazy_page_ok kalloc_table dir D t q s :
  directories s !! dir = Some D -> tables D !! Z.to_nat (q / 1024) = Some t -> t <> 0 -> is_Some (page_tables s !! t) ->
  map_Forall (fun _ => whole) (page_tables s) -> 0 <= q ->
  exists h', mmu_alloc_page kalloc_table dir (q * 0x1000) (page_flags MMAP_FLAGS) s = Ret (true, None) (s <| page_tables := h' |>) /\
    lazily D [q] (page_tables s) h'.
Proof.
  intros HD Ht Ht0 [v Hv] Hw Hq. destruct (page_of q Hq) as [Ei Ej]. pose proof (Hw _ _ Hv) as [W1 W2].
  pose proof (Z.mod_pos_bound q 1024 ltac:(lia)) as Hm. set (j := Z.to_nat (q mod 1024)).
  destruct (lookup_lt_is_Some_2 (pages v) j) as [p Hp]; [unfold j; lia|].
  destruct (lookup_lt_is_Some_2 (pages_info v) j) as [x Hx]; [unfold j; lia|].
  assert (Ep : entry (page_tables s) t j = Some p) by (unfold entry; by rewrite Hv).
  assert (Ex : info (page_tables s) t j = Some x) by (unfold info; by rewrite Hv).
  exists (set_info (set_entry (page_tables s) t j (lazy_page p)) t j (lazy_info x)). split.
  - unfold mmu_alloc_page. rewrite Ei, Ej, (mrun_table_of _ D _ t) by done.
    rewrite (proj2 (Z.eqb_neq t 0)) by done. cbn [negb]. rewrite mrun_ret, (proj2 (Z.eqb_neq t 0)) by done. fold j in Ep, Ex.
    rewrite (mrun_upd_page _ _ _ p) by exact Ep. rewrite (mrun_upd_info _ _ _ x) by (simpl; by rewrite info_set_entry).
    done.
  - assert (Hs : forall t' i', slot_in D [q] t' i' <-> t = t' /\ j = i').
    { intros t' i'. unfold slot_in. rewrite Exists_cons, Exists_nil. rewrite Ht. fold j. naive_solver. }
    split.
    + intros t' i'. rewrite entry_set_info, entry_set_entry by (rewrite Ep; by eexists).
      destruct (decide (t = t' /\ j = i')) as [[<- <-]|Hn]; [rewrite decide_True by (by rewrite Hs); by rewrite Ep|].
      by rewrite decide_False by (by rewrite Hs).
    + intros t' i'. rewrite info_set_info by (rewrite info_set_entry, Ex; by eexists). rewrite info_set_entry.
      destruct (decide (t = t' /\ j = i')) as [[<- <-]|Hn]; [rewrite decide_True by (by rewrite Hs); by rewrite Ex|].
      by rewrite decide_False by (by rewrite Hs).
    + by rewrite dom_set_info, dom_set_entry.
    + intros _ t' v'. unfold set_info, set_entry. destruct (decide (t' = t)) as [->|Hne].
      * rewrite lookup_alter_eq, lookup_alter_eq, Hv. intros [= <-]. split; simpl; by rewrite length_insert.
      * rewrite !lookup_alter_ne by done. apply Hw.
Qed.

(** ** A range of pages *)

(** The address space of the task [t], with tables for the pages [qs]. *)
Record user_space (s : mmu) (um : memmap) (D : page_directory_t) (t : mtask) (qs : list Z) : Prop := {
  us_map : memmaps s !! current_memmap s = Some um;
  us_wf : memmap_wf um;
  us_lock : lock um = 0;
  us_dir : current_directory s <> 0 /\ directories s !! current_directory s = Some D;
  us_whole : map_Forall (fun _ => whole) (page_tables s);
  us_tables : forall q, q ∈ qs -> exists t, tables D !! Z.to_nat (q / 1024) = Some t /\ t <> 0 /\ is_Some (page_tables s !! t);
  us_task : current_task s = Some t;
  us_heap : kheap_len s <> 0
}.

Lemma range_free s a um r e limit :
  memmaps s !! a = Some um -> memmap_wf um -> (e - 1) * 0x1000 < limit <= e * 0x1000 -> e <= frame_limit um -> e < 2 ^ 20 ->
  (forall q, r <= q < e -> page_used um q = false) -> forall k q, r <= q -> 0 <= q -> q + Z.of_nat k = e ->
  range_taken k a (q * 0x1000) limit s = Ret false s.
Proof.
  intros Ha Hwf Hl He He2 Hfree. induction k as [|k IH]; intros q Hr Hq Hk; cbn [range_taken].
  - by rewrite (proj2 (Z.ltb_ge _ _)) by lia.
  - rewrite (proj2 (Z.ltb_lt _ _)) by lia. cbn [negb].
    assert (memmap_test_page (q * 0x1000) um = Ret 0 um) as Ht.
    { rewrite (test_page_ok _ _ q) by (done || (by rewrite Z.div_mul by lia) || (destruct Hwf as (_ & _ & ?); unfold frame_limit in *; lia)).
      by rewrite Hfree by lia. }
    rewrite (mrun_on_map _ um _ 0 um) by done. cbn [Z.eqb negb].
    replace (s <| memmaps := <[a := um]> (memmaps s) |>) with s by (destruct s; unfold setf; simpl in *; by rewrite insert_id).
    replace (q * 0x1000 + 0x1000) with ((q + 1) * 0x1000) by lia. rewrite u32_small by lia. apply IH; lia.
Qed.

(** Other parts of the state do not matter. *)
Lemma user_space_tables s um D t qs h : user_space s um D t qs -> dom h = dom (page_tables s) ->
  map_Forall (fun _ => whole) h -> user_space (s <| page_tables := h |>) um D t qs.
Proof.
  intros [U1 U2 U3 U4 U5 U6 U7 U8] Hd Hw. split; try done. intros q Hq. destruct (U6 q Hq) as (x & H1 & H2 & H3).
  exists x. split_and!; try done. simpl. apply elem_of_dom. rewrite Hd. by apply elem_of_dom.
Qed.

Definition lazy_one (kalloc_table : M mmu (Z * option Z)) (dir a : Z) : M mmu (option Z) :=
  '(ok, phys) <- mmu_alloc_page kalloc_table dir a (page_flags MMAP_FLAGS);; assert ok "page != NULL";;; ret phys.

Lemma lazy_one_ok kalloc_table s um D t qs q : user_space s um D t qs -> q ∈ qs -> 0 <= q ->
  exists h', lazy_one kalloc_table (current_directory s) (q * 0x1000) s = Ret None (s <| page_tables := h' |>) /\
    lazily D [q] (page_tables s) h'.
Proof.
  intros [U1 U2 U3 [U4 U4'] U5 U6 U7 U8] Hin Hq. destruct (U6 q Hin) as (x & H1 & H2 & H3).
  destruct (lazy_page_ok kalloc_table (current_directory s) D x q s U4' H1 H2 H3 U5 Hq) as (h' & E & L).
  exists h'. split; [|done]. unfold lazy_one. by rewrite (bind_Ret _ _ _ _ _ E).
Qed.

(** The pages are prepared one after the other. *)
Lemma lazy_pages_ok kalloc_table s D um t r e limit :
  user_space s um D t (seqZ r (e - r)) -> (e - 1) * 0x1000 < limit <= e * 0x1000 -> 0 <= r < e -> e < 2 ^ 20 ->
  exists h', bind (lazy_one kalloc_table (current_directory s) (r * 0x1000)) (fun p =>
    bind (for_pages (u32 (r * 0x1000 + 0x1000)) limit (fun a => bind (lazy_one kalloc_table (current_directory s) a) (fun _ => ret tt)))
      (fun _ => ret p)) s = Ret None (s <| page_tables := h' |>) /\ lazily D (seqZ r (e - r)) (page_tables s) h'.
Proof.
  intros Hu Hl Hr He. set (qs := seqZ r (e - r)) in *.
  assert (Hin : forall q, r <= q < e -> q ∈ qs) by (intros q Hq; apply elem_of_seqZ; lia).
  set (P := fun (q : Z) s' => exists h, s' = s <| page_tables := h |> /\ lazily D (seqZ r (q - r)) (page_tables s) h).
  assert (Hstep : forall q s', r <= q < e -> P q s' -> exists s'',
    lazy_one kalloc_table (current_directory s) (q * 0x1000) s' = Ret None s'' /\ P (q + 1) s'').
  { intros q s' Hq (h & -> & L). pose proof (user_space_tables _ _ _ _ _ h Hu (lz_dom _ _ _ _ L) (lz_whole _ _ _ _ L (us_whole _ _ _ _ _ Hu))) as Hu'.
    destruct (lazy_one_ok kalloc_table _ um D t qs q Hu' (Hin q Hq) ltac:(lia)) as (h2 & E & L2).
    exists (s <| page_tables := h2 |>). split; [exact E|]. exists h2. split; [done|].
    replace (q + 1 - r) with ((q - r) + 1) by lia. rewrite seqZ_app by lia. replace (r + (q - r)) with q by lia.
    eapply lazily_app; [exact L|]. by rewrite seqZ_cons by lia. }
  destruct (Hstep r s ltac:(lia)) as (s1 & E1 & P1).
  { exists (page_tables s). split; [by destruct s|]. rewrite Z.sub_diag. apply lazily_nil. }
  rewrite (bind_Ret _ _ _ _ _ E1). replace (r * 0x1000 + 0x1000) with ((r + 1) * 0x1000) by lia. rewrite u32_small by lia.
  destruct (for_pages_ok P (fun a => bind (lazy_one kalloc_table (current_directory s) a) (fun _ => ret tt)) limit e (r + 1) s1)
    as (s' & Hrun & h' & -> & L); try done; [lia | |].
  - intros q s' Hq HP. destruct (Hstep q s' ltac:(lia) HP) as (s2 & E2 & P2). exists s2. split; [|done].
    by rewrite (bind_Ret _ _ _ _ _ E2).
  - exists h'. by rewrite (bind_Ret _ _ _ _ _ Hrun).
Qed.

(** The state after [kalloc] has prepared the pages: the page map, the tables, and
    the record of the buffer in the task. *)
Definition mapped_space (s : mmu) (um' : memmap) (h' : tmap) (t : mtask) (b : buffer_t) : mmu :=
  s <| memmaps := <[current_memmap s := um']> (memmaps s) |> <| page_tables := h' |> <| mallocs := S (mallocs s) |>
    <| current_task := Some (t <| mt_buffers := mt_buffers t ++ [b] |>) |>.

Lemma kalloc_mmap malloc_ok fuel s um D t r n sz mm :
  user_space s um D t (seqZ r n) -> malloc_ok (mallocs s) = true ->
  0 < r -> 0 < n -> r + n <= frame_limit um -> r + n < 2 ^ 20 -> (n - 1) * 0x1000 < sz <= n * 0x1000 ->
  (forall q, r <= q < r + n -> page_used um q = false) ->
  exists um' h', kalloc malloc_ok (S fuel) sz (r * 0x1000) MMAP_FLAGS mm s =
      Ret (r * 0x1000, None) (mapped_space s um' h' t (mkBuffer (r * 0x1000) n mm)) /\
    marked um um' r (r + n) /\ lazily D (seqZ r n) (page_tables s) h'.
Proof.
  intros Hu Hmal Hr Hn Hlim He Hsz Hfree. pose proof Hu as [U1 U2 U3 [U4 U4'] U5 U6 U7 U8].
  assert (Hr32 : 0 <= r * 0x1000 < 2 ^ 32) by lia.
  cbn [kalloc]. rewrite mrun_get, (proj2 (Z.eqb_neq _ _) U4).
  rewrite mrun_assert by (rewrite page_base, Z.div_mul, Z.eqb_refl by lia; apply orb_true_r).
  change (flag MMAP_FLAGS KALLOC_OPTN_KERNEL) with false. cbv iota zeta.
  rewrite (mrun_lock_map _ um) by done. set (s1 := setf memmaps _ s).
  set (limit := u32 (r * 0x1000 + sz)). assert (Hlimit : limit = r * 0x1000 + sz) by (apply u32_small; lia).
  assert (Hres : reserve (current_memmap s) sz (r * 0x1000) s1 = Ret (r * 0x1000) s1).
  { unfold reserve. rewrite (proj2 (Z.eqb_neq (r * 0x1000) 0)) by lia. cbn [negb].
    rewrite mrun_assert by (rewrite page_offset, Z.mod_mul by lia; done). fold limit.
    rewrite (bind_Ret _ _ _ false s1); [done|].
    replace ((limit - r * 0x1000 + 0xFFF) / 0x1000) with n
      by (rewrite Hlimit; apply (Z.div_unique _ _ _ (sz + 0xFFF - n * 0x1000)); lia).
    apply (range_free s1 _ (um <| lock := 1 |>) r (r + n)); try done; try lia. unfold s1. simpl. apply lookup_insert_eq. }
  rewrite (bind_Ret _ _ _ _ _ Hres), (proj2 (Z.eqb_neq (r * 0x1000) 0)) by lia. fold limit.
  destruct (mark_pages_ok s1 (current_memmap s) (um <| lock := 1 |>) r (r + n) limit) as (um1 & Hmark & Hm1);
    [unfold s1; simpl; apply lookup_insert_eq | by apply memmap_wf_lock | lia | lia | exact Hlim | lia |].
  rewrite (bind_Ret _ _ _ _ _ Hmark). pose proof Hm1 as [W1 W2 W3 W4].
  rewrite (mrun_unlock_map _ um1) by (simpl; rewrite ?lookup_insert_eq; done).
  set (um2 := um1 <| lock := 0 |>). set (s0 := s <| memmaps := <[current_memmap s := um2]> (memmaps s) |>).
  match goal with |- context [bind _ _ ?st] => replace st with s0
    by (unfold s0, s1, um2, setf; simpl; by rewrite !insert_insert_eq) end.
  assert (Hm2 : marked um um2 r (r + n)) by (split; [by apply memmap_wf_lock | by rewrite U3 | exact W3 | exact W4]).
  assert (Hu0 : user_space s0 um2 D t (seqZ r (r + n - r))).
  { replace (r + n - r) with n by lia. split; try done. unfold s0. simpl. apply lookup_insert_eq. }
  destruct (lazy_pages_ok (kalloc malloc_ok fuel sizeof_page_table 0 (Z.lor KALLOC_OPTN_ALIGN KALLOC_OPTN_KERNEL) 0)
    s0 D um2 t r (r + n) limit Hu0) as (h' & Hpages & L); [lia | lia | lia |].
  change (current_directory s0) with (current_directory s) in Hpages. unfold lazy_one in Hpages.
  rewrite (run_then _ _ _ _ _ _ Hpages). rewrite mrun_get.
  change (flag MMAP_FLAGS KALLOC_OPTN_NOFREE) with false. change (flag MMAP_FLAGS KALLOC_OPTN_MMAP) with true.
  change (kheap_len (s0 <| page_tables := h' |>)) with (kheap_len s). rewrite (proj2 (Z.eqb_neq _ _) U8). cbn [negb andb].
  exists um2, h'. replace (r + n - r) with n in L by lia. split; [|done].
  assert (Ht : upd_task (fun t => t <| mt_buffers := mt_buffers t ++ [mkBuffer (r * 0x1000) (u32 (sz + 0xFFF) / 0x1000) mm] |>)
    (s0 <| page_tables := h' |> <| mallocs := S (mallocs s) |>) = Ret tt (mapped_space s um2 h' t (mkBuffer (r * 0x1000) n mm))).
  { assert (u32 (sz + 0xFFF) / 0x1000 = n) as ->.
    { rewrite u32_small by lia. symmetry. apply (Z.div_unique _ _ _ (sz + 0xFFF - n * 0x1000)); lia. }
    unfold upd_task, task_of, bind, get. simpl. by rewrite U7. }
  unfold malloc_buffer. rewrite !bind_assoc, bind_get, bind_assoc, bind_modify.
  change (mallocs (s0 <| page_tables := h' |>)) with (mallocs s). rewrite bind_ret_l, Hmal. cbn [assert].
  rewrite bind_assoc, bind_ret_l. by rewrite (bind_Ret _ _ _ _ _ Ht).
Qed.
