(* ===== verification/Clone.v ===== *)
(** * Clone: the copy of page tables (kernel/mmu.c)

    What [mmu_clone_table] makes: every page of the new table shows what the
    page of the old one shows, no page of any table shows anything else than
    before, and the invariant of the frame counts holds, so that the writes that
    follow are private (Frames). *)

From S2P Require Import Prelude Memmap Mmu Frames Kalloc.

(** ** One page *)

(** One more entry points to the frame of a read-only one. *)
Lemma frames_ok_share s m t src i q p x :
  frames_ok s m 0 -> small (page_tables s) -> ~ (src = t) ->
  entry (page_tables s) t i = Some q -> frame q = 0 ->
  entry (page_tables s) src i = Some p -> rw p = false -> frame p <> 0 ->
  frames_ok (s <| page_tables := set_info (set_entry (page_tables s) t i p) t i x |>
               <| frame_refs := <[Z.to_nat (frame p) := Z.of_nat (uses (page_tables s) (frame p)) + 1]> (frame_refs s) |>) m 0.
Proof.
  intros Hok Hsm Hne Hq Hq0 Hp Hrw Hf. pose proof Hok as [F1 F2 F3 [F4 F4'] [F5 F5'] FW F6 F7 F8 F9].
  pose proof (F8 _ _ _ Hp) as Hr.
  assert (Hh : forall f, 0 < f -> (holds (set_info (set_entry (page_tables s) t i p) t i x) 0 f =
                                   holds (page_tables s) 0 f + (if (frame p =? f)%Z then 1 else 0))%nat).
  { intros f H0. unfold holds. rewrite uses_set_info. pose proof (uses_entry_frame t _ _ _ p f Hq H0) as U.
    rewrite Hq0, (proj2 (Z.eqb_neq 0 f)) in U by lia. cbv iota in U. lia. }
  eapply (frames_ok_entry t s _ m m 0 0 i q p); try done; simpl.
  - apply length_insert.
  - rewrite list_lookup_insert_ne by lia. done.
  - intros k n. rewrite list_lookup_insert. case_decide; [|apply FW]. intros [= <-].
    pose proof (uses_bound (page_tables s) (frame p) (proj1 Hsm)). destruct Hsm as [Hw Hs].
    pose proof (uses_bound (set_info (set_entry (page_tables s) t i p) t i x) (frame p)
      (proj1 (small_set_info _ t i x (small_set_entry _ t i p (conj Hw Hs))))) as Hb.
    rewrite <- size_dom, dom_set_info, dom_set_entry, size_dom in Hb.
    pose proof (Hh (frame p) ltac:(lia)) as E. rewrite Z.eqb_refl, !holds_uses in E by lia. lia.
  - intros t' i'. by rewrite entry_set_info.
  - intros f H0. rewrite Hh by lia. destruct (Z.eqb_spec (frame p) f) as [<-|Hn].
    + rewrite list_lookup_insert_eq by lia. rewrite holds_uses by lia. split; [f_equal; lia|].
      rewrite F7 by done. rewrite holds_uses by lia. pose proof (uses_pos _ _ _ _ Hp). lia.
    + rewrite list_lookup_insert_ne by lia. rewrite Nat.add_0_r. split; [by apply F6 | by apply F7].
  - intros t' i' p' _ H' Hrw' H0. pose proof (F8 _ _ _ H') as Hr'. rewrite Hh by lia.
    destruct (Z.eqb_spec (frame p) (frame p')) as [E|_]; [|lia]. pose proof (F9 _ _ _ H' Hrw' H0) as H1.
    rewrite holds_uses, <- E in H1 by lia.
    pose proof (uses_two _ _ _ _ _ _ _ Hp H' E) as H2. destruct (decide (src = t' /\ i = i')) as [[-> ->]|Hd]; [congruence|].
    specialize (H2 Hd). lia.
  - by rewrite Hrw.
Qed.

(** What the copy of page [i] of [src] into [t] does. *)
Record page_cloned (s s' : mmu) (m m' : memmap) (t src : Z) (i : nat) : Prop := {
  pc_ok : frames_ok s' m' 0;
  pc_small : small (page_tables s');
  pc_dom : dom (page_tables s') = dom (page_tables s);
  pc_dirs : directories s' = directories s;
  pc_free : (free_frames m <= S (free_frames m'))%nat;
  pc_view : view s' t i = view s src i;
  pc_views : forall t' i', ~ (t' = t /\ i' = i) -> view s' t' i' = view s t' i';
  pc_rest : forall t' i', i' <> i -> entry (page_tables s') t' i' = entry (page_tables s) t' i' /\
    info (page_tables s') t' i' = info (page_tables s) t' i'
}.

Section ClonePage.
Context (t src directory : Z) (D : page_directory_t) (flags vaddr : Z).
Hypothesis Hne : src <> t.
Hypothesis Hdir : directory <> 0 /\ t <> 0 /\ tables D !! Z.to_nat (table_idx vaddr) = Some t.
Notation i := (page_idx vaddr).
Notation j := (Z.to_nat (page_idx vaddr)).

Lemma clone_cow s m p x q y :
  frames_ok s m 0 -> small (page_tables s) ->
  entry (page_tables s) src j = Some p -> frame p <> 0 -> info (page_tables s) src j = Some x ->
  entry (page_tables s) t j = Some q -> frame q = 0 -> info (page_tables s) t j = Some y ->
  flag flags CLONE_COW && cow x && negb (noshare x) = true ->
  exists s', clone_page t src directory flags i vaddr s = Ret tt s' /\ page_cloned s s' m m t src j.
Proof.
  intros Hok Hsm Hp Hf Hx Hq Hq0 Hy Hcow. unfold clone_page. rewrite (mrun_page_at _ _ p) by done.
  rewrite (proj2 (Z.eqb_neq _ 0)) by done. rewrite (mrun_info_at _ _ x) by done. rewrite Hcow.
  set (p1 := p <| rw := false |> <| accessed := false |> <| dirty := false |>). set (x1 := x <| commited := false |>).
  rewrite (mrun_upd_page _ _ _ p), (mrun_upd_info _ _ _ x) by (done || (simpl; by rewrite info_set_entry)).
  fold p1 x1. set (s1 := s <| page_tables := _ |> <| page_tables := _ |>).
  assert (Hok1 : frames_ok s1 m 0) by (by apply (frames_ok_protect s m src j p p1 x1)).
  assert (Hsm1 : small (page_tables s1)) by (by apply small_set_info, small_set_entry).
  assert (Hp1 : entry (page_tables s1) src j = Some p1).
  { simpl. rewrite entry_set_info, entry_set_entry by by eexists. by rewrite decide_True. }
  assert (Hx1 : info (page_tables s1) src j = Some x1).
  { simpl. rewrite info_set_info by (rewrite info_set_entry; by eexists). by rewrite decide_True. }
  assert (Hq1 : entry (page_tables s1) t j = Some q).
  { simpl. rewrite entry_set_info, entry_set_entry by by eexists. by rewrite decide_False by naive_solver. }
  assert (Hy1 : info (page_tables s1) t j = Some y).
  { simpl. rewrite info_set_info by (rewrite info_set_entry; by eexists). rewrite decide_False by naive_solver.
    by rewrite info_set_entry. }
  rewrite (mrun_page_at _ _ p1), (mrun_info_at _ _ x1) by done.
  rewrite (mrun_upd_page _ _ _ q), (mrun_upd_info _ _ _ y) by (done || (simpl; by rewrite info_set_entry)).
  pose proof (fo_range _ _ _ Hok1 _ _ _ Hp1) as Hr. assert (Hf1 : frame p1 <> 0) by done.
  assert (Hn : frame_refs s1 !! Z.to_nat (frame p1) = Some (Z.of_nat (uses (page_tables s1) (frame p1)))).
  { rewrite (fo_count _ _ _ Hok1), holds_uses by lia. done. }
  pose proof (frames_ok_share s1 m t src j q p1 x1 Hok1 Hsm1 Hne Hq1 Hq0 Hp1 eq_refl Hf1) as Hok2.
  assert (Hw : 0 <= Z.of_nat (uses (page_tables s1) (frame p1)) + 1 < 2 ^ 32).
  { apply (fo_words _ _ _ Hok2 (Z.to_nat (frame p1))). simpl. apply list_lookup_insert_eq.
    by eapply lookup_lt_Some. }
  rewrite (mrun_refs_of _ _) by exact Hn. unfold set_refs. rewrite (mrun_refs_of _ _) by exact Hn. rewrite u32_small by lia.
  eexists. split; [done|]. split; try done.
  - by apply small_set_info, small_set_entry.
  - simpl. by rewrite dom_set_info, dom_set_entry, dom_set_info, dom_set_entry.
  - lia.
  - unfold view. simpl. rewrite entry_set_info, entry_set_entry by by eexists. rewrite decide_True by done. by rewrite Hp.
  - intros t' i' Hn'. unfold view. simpl. rewrite entry_set_info, entry_set_entry by by eexists.
    rewrite decide_False by naive_solver. rewrite entry_set_info, entry_set_entry by by eexists.
    case_decide as Hd; [|done]. destruct Hd as [<- <-]. by rewrite Hp.
  - intros t' i' Hn'. simpl. rewrite entry_set_info, entry_set_entry, decide_False by (by eexists || naive_solver).
    rewrite entry_set_info, entry_set_entry, decide_False by (by eexists || naive_solver). split; [done|].
    rewrite info_set_info, decide_False by (rewrite ?info_set_entry; by eexists || naive_solver).
    rewrite info_set_entry, info_set_info, decide_False by (rewrite ?info_set_entry; by eexists || naive_solver).
    by rewrite info_set_entry.
Qed.

Lemma clone_copy s m p x q y :
  frames_ok s m 0 -> small (page_tables s) -> directories s !! directory = Some D ->
  entry (page_tables s) src j = Some p -> frame p <> 0 -> info (page_tables s) src j = Some x ->
  entry (page_tables s) t j = Some q -> frame q = 0 -> info (page_tables s) t j = Some y ->
  flag flags CLONE_COW && cow x && negb (noshare x) = false -> (0 < free_frames m)%nat ->
  exists s' m', clone_page t src directory flags i vaddr s = Ret tt s' /\ page_cloned s s' m m' t src j.
Proof.
  intros Hok Hsm HD Hp Hf Hx Hq Hq0 Hy Hcow Hfree. destruct Hdir as (Hd0 & Ht0 & Ht).
  pose proof (fo_range _ _ _ Hok _ _ _ Hp) as Hr. pose proof (fo_size _ _ _ Hok) as [_ Hlim].
  unfold clone_page. rewrite (mrun_page_at _ _ p) by done.
  rewrite (proj2 (Z.eqb_neq _ 0)) by done. rewrite (mrun_info_at _ _ x) by done. rewrite Hcow.
  destruct (alloc_frame_ok directory D t s m 0 vaddr q y Hok Hd0 HD Ht Ht0 Hq Hq0 Hy (free_frames_some _ Hfree))
    as (idx & m' & Hidx & Hu & Hrun & Hok1 & El & Hused). rewrite holds_uses in Hu by lia.
  rewrite (bind_Ret _ _ _ _ _ Hrun). set (s1 := s <| memmaps := _ |> <| page_tables := _ |> <| frame_refs := _ |>) in *.
  assert (Hp1 : entry (page_tables s1) src j = Some p).
  { simpl. rewrite entry_set_info, entry_set_entry by by eexists. by rewrite decide_False by naive_solver. }
  assert (Hx1 : info (page_tables s1) src j = Some x).
  { simpl. rewrite info_set_info by (rewrite info_set_entry; by eexists). rewrite decide_False by naive_solver.
    by rewrite info_set_entry. }
  assert (Hq1 : entry (page_tables s1) t j = Some (mapped q idx)).
  { simpl. rewrite entry_set_info, entry_set_entry by by eexists. by rewrite decide_True. }
  assert (Hy1 : info (page_tables s1) t j = Some (y <| commited := true |>)).
  { simpl. rewrite info_set_info by (rewrite info_set_entry; by eexists). by rewrite decide_True. }
  assert (Hu1 : uses (page_tables s1) idx = 1%nat).
  { simpl. rewrite uses_set_info. pose proof (uses_entry_frame t _ _ _ (mapped q idx) idx Hq ltac:(lia)) as U.
    change (frame (mapped q idx)) with idx in U. rewrite Hq0, Z.eqb_refl, (proj2 (Z.eqb_neq 0 idx)) in U by lia.
    cbv iota in U. lia. }
  set (q' := p <| frame := idx |> <| accessed := false |> <| dirty := false |>). set (x' := x <| commited := true |>).
  pose proof (frames_ok_rights t s1 m' j _ q' x' Hok1 Hq1 eq_refl (or_introl Hu1)) as Hok2.
  rewrite (mrun_page_at _ _ p), (mrun_page_at _ _ (mapped q idx)) by done.
  rewrite (mrun_upd_page _ _ _ (mapped q idx)) by done. change (frame (mapped q idx)) with idx. fold q'.
  rewrite (mrun_info_at _ _ x) by (simpl; by rewrite info_set_entry). fold x'.
  rewrite (mrun_upd_info _ _ _ (y <| commited := true |>)) by (simpl; by rewrite info_set_entry).
  unfold copy_physical_page, modify, MMU_PAGE_SIZE. rewrite !u32_small by lia. rewrite !Z.div_mul by lia.
  eexists _, m'. split; [done|]. split; try done.
  - by apply (frames_ok_ext (s1 <| page_tables := set_info (set_entry (page_tables s1) t j q') t j x' |>)).
  - simpl. by repeat (apply small_set_info || apply small_set_entry).
  - simpl. by rewrite !dom_set_info, !dom_set_entry, !dom_set_info, !dom_set_entry.
  - by apply (free_frames_take _ _ idx).
  - unfold view. simpl. rewrite entry_set_info, entry_set_entry by by eexists. rewrite decide_True, Hp by done. simpl.
    rewrite (proj2 (Z.eqb_neq idx 0)), (proj2 (Z.eqb_neq (frame p) 0)) by lia. unfold content. simpl. by rewrite lookup_insert_eq.
  - intros t' i' Hn'. unfold view. simpl. rewrite entry_set_info, entry_set_entry, decide_False by (by eexists || naive_solver).
    rewrite entry_set_info, entry_set_entry, decide_False by (by eexists || naive_solver).
    destruct (entry (page_tables s) t' i') as [p'|] eqn:E; [|done]. simpl. destruct (frame p' =? 0); [done|]. f_equal.
    unfold content. simpl. rewrite lookup_insert_ne; [done|]. intros ->. pose proof (uses_pos _ _ _ _ E). lia.
  - intros t' i' Hn'. simpl. rewrite entry_set_info, entry_set_entry, decide_False by (by eexists || naive_solver).
    rewrite entry_set_info, entry_set_entry, decide_False by (by eexists || naive_solver). split; [done|].
    rewrite info_set_info, decide_False by (rewrite ?info_set_entry; by eexists || naive_solver).
    rewrite info_set_entry, info_set_info, decide_False by (rewrite ?info_set_entry; by eexists || naive_solver).
    by rewrite info_set_entry.
Qed.

(** A page that has no frame, one that is shared, or one that is copied. *)
Lemma clone_page_ok s m p x q y :
  frames_ok s m 0 -> small (page_tables s) -> directories s !! directory = Some D ->
  entry (page_tables s) src j = Some p -> info (page_tables s) src j = Some x ->
  entry (page_tables s) t j = Some q -> frame q = 0 -> info (page_tables s) t j = Some y -> (0 < free_frames m)%nat ->
  exists s' m', clone_page t src directory flags i vaddr s = Ret tt s' /\ page_cloned s s' m m' t src j.
Proof.
  intros Hok Hsm HD Hp Hx Hq Hq0 Hy Hfree. destruct (Z.eq_dec (frame p) 0) as [Hf|Hf].
  - exists s, m. split; [unfold clone_page; rewrite (mrun_page_at _ _ p), Hf by done; done|].
    split; try done; [lia|]. unfold view. rewrite Hp, Hq. simpl. by rewrite Hf, Hq0.
  - destruct (flag flags CLONE_COW && cow x && negb (noshare x)) eqn:E; [|by eapply clone_copy].
    destruct (clone_cow s m p x q y) as (s' & H1 & H2); try done. by exists s', m.
Qed.
End ClonePage.

(** ** All pages *)

Lemma table_page_idx k i : 0 <= k < 1024 -> 0 <= i < 1024 ->
  let a := u32 (u32 (k * 1024 * MMU_PAGE_SIZE) + i * MMU_PAGE_SIZE) in table_idx a = k /\ page_idx a = i.
Proof.
  intros Hk Hi. unfold MMU_PAGE_SIZE, table_idx, page_idx, MMU_PAGE_SIZE. rewrite (u32_small (k * _ * _)) by lia.
  rewrite u32_small by lia. replace (k * 1024 * 0x1000 + i * 0x1000) with ((k * 1024 + i) * 0x1000) by lia.
  rewrite Z.div_mul by lia. rewrite (Z.add_comm _ i), Z.div_add, Z.mod_add by lia. split; [|by apply Z.mod_small].
  rewrite Z.div_small by lia. lia.
Qed.

Section CloneTable.
Context (t src directory k flags : Z).
Hypothesis Hne : src <> t.
Hypothesis Hdir : directory <> 0 /\ t <> 0.
Hypothesis Hk : 0 <= k < 1024.

Definition clone_body (i : Z) : M mmu unit :=
  clone_page t src directory flags i (u32 (u32 (k * 1024 * MMU_PAGE_SIZE) + i * MMU_PAGE_SIZE)).

Lemma clone_loop_ok D n : tables D !! Z.to_nat k = Some t -> forall i s m,
  Z.of_nat n + i = 1024 -> 0 <= i -> frames_ok s m 0 -> small (page_tables s) -> directories s !! directory = Some D ->
  is_Some (page_tables s !! src) -> is_Some (page_tables s !! t) ->
  (forall j q, (Z.to_nat i <= j)%nat -> entry (page_tables s) t j = Some q -> frame q = 0) ->
  (n <= free_frames m)%nat ->
  exists s' m', for_index n i clone_body s = Ret tt s' /\ frames_ok s' m' 0 /\ small (page_tables s') /\
    directories s' = directories s /\
    (forall j, (Z.to_nat i <= j < 1024)%nat -> view s' t j = view s src j) /\
    (forall t' j, ~ (t' = t /\ (Z.to_nat i <= j < 1024)%nat) -> view s' t' j = view s t' j).
Proof.
  intros HD. induction n as [|n IH]; intros i s m Hn Hi Hok Hsm Hdirs Hs Ht Hz Hfree.
  { exists s, m. split_and!; try done. intros j Hj. lia. }
  destruct (table_page_idx k i Hk ltac:(lia)) as [Etab Epage].
  set (a := u32 (u32 (k * 1024 * MMU_PAGE_SIZE) + i * MMU_PAGE_SIZE)) in *.
  destruct (small_entry _ _ (Z.to_nat i) Hsm Hs ltac:(lia)) as [[p Hp] [x Hx]].
  destruct (small_entry _ _ (Z.to_nat i) Hsm Ht ltac:(lia)) as [[q Hq] [y Hy]].
  destruct (clone_page_ok t src directory D flags a Hne) with (s := s) (m := m) (p := p) (x := x) (q := q) (y := y)
    as (s1 & m1 & Hrun & Hpc); rewrite ?Etab, ?Epage; try done; [naive_solver | by eapply Hz | lia |].
  rewrite Epage in Hrun, Hpc. destruct Hpc as [C1 C2 C3 C4 C5 C6 C7 C8].
  assert (Hdom : forall z, is_Some (page_tables s !! z) -> is_Some (page_tables s1 !! z)).
  { intros z. rewrite <- !elem_of_dom. by rewrite C3. }
  destruct (IH (i + 1) s1 m1) as (s' & m' & Hrun' & L1 & L2 & L3 & L4 & L5); try done; [lia | lia | by rewrite C4 | by apply Hdom ..| | lia |].
  { intros j q' Hj Hq'. destruct (C8 t j ltac:(lia)) as [E _]. rewrite E in Hq'. eapply Hz; [|done]. lia. }
  exists s', m'. split_and!; try done; [| by rewrite L3, C4 | |].
  - cbn [for_index]. rewrite (bind_Ret _ _ _ _ _ Hrun). exact Hrun'.
  - intros j Hj. destruct (decide (j = Z.to_nat i)) as [->|Hji].
    + rewrite L5 by lia. exact C6.
    + rewrite L4 by lia. apply C7. naive_solver.
  - intros t' j Hj. rewrite L5 by (intros [-> ?]; apply Hj; split; [done | lia]). apply C7. intros [-> ->]. apply Hj. split; [done | lia].
Qed.
End CloneTable.

(** ** mmu_clone_table *)

Definition fresh_table (b : bool) : page_table_t := zero_table <| t_noshare := b |>.

Lemma fresh_whole b : whole (fresh_table b).
Proof. split; apply length_replicate. Qed.

Lemma fresh_count b f : 0 < f -> count_in f (fresh_table b) = 0%nat.
Proof.
  intros Hf. unfold count_in. change (pages (fresh_table b)) with (replicate 1024 no_page).
  generalize 1024%nat. intros n. induction n as [|n IH]; [done|]. cbn [replicate sum_list_with]. rewrite IH. unfold points.
  change (frame no_page) with 0. by rewrite (proj2 (Z.eqb_neq 0 f)) by lia.
Qed.

Lemma entry_insert h t v t' i : h !! t = None ->
  entry (<[t := v]> h) t' i = if decide (t' = t) then pages v !! i else entry h t' i.
Proof.
  intros Ht. unfold entry. case_decide; [subst; by rewrite lookup_insert_eq | by rewrite lookup_insert_ne].
Qed.

Lemma fresh_entry b i p : pages (fresh_table b) !! i = Some p -> p = no_page.
Proof. intros H. by apply lookup_replicate in H as [-> _]. Qed.

Lemma frames_ok_fresh s m t b :
  frames_ok s m 0 -> page_tables s !! t = None -> 0 < frame_limit m ->
  frames_ok (s <| page_tables := <[t := fresh_table b]> (page_tables s) |>) m 0.
Proof.
  intros [F1 F2 F3 F4 F5 FW F6 F7 F8 F9] Ht Hl.
  assert (Hh : forall f, 0 < f -> holds (<[t := fresh_table b]> (page_tables s)) 0 f = holds (page_tables s) 0 f).
  { intros f Hf. unfold holds. by rewrite uses_fresh, fresh_count. }
  assert (Hcase : forall t' i p, entry (<[t := fresh_table b]> (page_tables s)) t' i = Some p ->
    p = no_page \/ entry (page_tables s) t' i = Some p).
  { intros t' i p. rewrite entry_insert by done. case_decide; [intros Hz%fresh_entry; by left | by right]. }
  split; try done; simpl.
  - intros f Hf. rewrite Hh by lia. by apply F6.
  - intros f Hf. rewrite Hh by lia. by apply F7.
  - intros t' i p [->|H]%Hcase; [simpl; lia | by eapply F8].
  - intros t' i p [->|H]%Hcase Hrw Hf; [done|]. rewrite Hh by (pose proof (F8 _ _ _ H); lia). by eapply F9.
Qed.

Lemma small_fresh h t b : small h -> h !! t = None -> 1024 * (Z.of_nat (size h) + 1) < 2 ^ 32 -> small (<[t := fresh_table b]> h).
Proof.
  intros [Hw _] Ht Hs. split; [apply map_Forall_insert_2; [apply fresh_whole | done]|]. rewrite map_size_insert_None by done. lia.
Qed.

Lemma view_fresh s t b t' i : page_tables s !! t = None ->
  view (s <| page_tables := <[t := fresh_table b]> (page_tables s) |>) t' i = if decide (t' = t) then None else view s t' i.
Proof.
  intros Ht. unfold view. simpl. rewrite entry_insert by done. case_decide; [|done].
  destruct (pages (fresh_table b) !! i) as [p|] eqn:E; [|done]. apply fresh_entry in E as ->. done.
Qed.

Section CloneResult.
Context (malloc_ok : nat -> bool).

(** The copy of a table after the memory for it has been allocated. *)
Lemma clone_filled s m t src directory k flags DD (v : page_table_t) :
  frames_ok s m 0 -> small (page_tables s) -> 1024 * (Z.of_nat (size (page_tables s)) + 1) < 2 ^ 32 ->
  page_tables s !! src = Some v -> page_tables s !! t = None -> t <> 0 -> directory <> 0 -> 0 <= k < 1024 ->
  directories s !! directory = Some DD -> tables DD !! Z.to_nat k = Some t -> (1024 <= free_frames m)%nat ->
  exists s' m',
    for_index 1024 0 (fun i => clone_page t src directory flags i (u32 (u32 (k * 1024 * MMU_PAGE_SIZE) + i * MMU_PAGE_SIZE)))
      (s <| page_tables := <[t := fresh_table (t_noshare v)]> (page_tables s) |>) = Ret tt s' /\
    frames_ok s' m' 0 /\ directories s' = directories s /\
    (forall j, (j < 1024)%nat -> view s' t j = view s src j) /\ (forall t' j, t' <> t -> view s' t' j = view s t' j).
Proof.
  intros Hok Hsm Hroom Hsrc Ht Ht0 Hd0 Hk HDD Htab Hfree. assert (Hne : src <> t) by (intros ->; congruence).
  assert (Hlim : 0 < frame_limit m). { destruct (free_frames_some m) as [q [Hq _]]; lia. }
  set (s1 := s <| page_tables := _ |>).
  destruct (clone_loop_ok t src directory k flags Hne (conj Hd0 Ht0) Hk DD 1024 Htab 0 s1 m)
    as (s' & m' & Hrun & L1 & L2 & L3 & L4 & L5); try done.
  - by apply frames_ok_fresh.
  - by apply small_fresh.
  - simpl. rewrite lookup_insert_ne by done. by eexists.
  - simpl. rewrite lookup_insert_eq. by eexists.
  - intros j q _. simpl. rewrite entry_insert, decide_True by done. intros H%fresh_entry. by subst q.
  - exists s', m'. split_and!; try done.
    + intros j Hj. rewrite L4 by lia. unfold s1. rewrite view_fresh by done. by rewrite decide_False.
    + intros t' j Hn. rewrite L5 by naive_solver. unfold s1. rewrite view_fresh by done. by rewrite decide_False.
Qed.

(** C22: [mmu_clone_table] takes three pages of the kernel for the new table, the
    first run of free ones, or fails when there is none; the entry of the
    directory is then the new table, each of its pages shows what the page of
    the old table shows, whether it is shared or copied, no page that could be
    seen before shows anything else, and the counts of the frames are right. *)
Theorem clone_table_copies fuel k src directory flags s m km D DD v :
  kernel_ok s m km D -> lock km = 0 -> current_directory s <> 0 -> malloc_ok (mallocs s) = true ->
  1024 * (Z.of_nat (size (page_tables s)) + 1) < 2 ^ 32 -> page_tables s !! src = Some v ->
  directory <> 0 -> directories s !! directory = Some DD -> 0 <= k < Z.of_nat (length (tables DD)) -> k < 1024 ->
  (1027 <= free_frames m)%nat ->
  exists r, first_free_run km (frame_limit km) 3 r /\
    if r =? 0 then exists s', mmu_clone_table malloc_ok (S fuel) k src (u32 (k * 1024 * MMU_PAGE_SIZE)) directory flags s =
      Ret (0, None) s' /\ page_tables s' = page_tables s
    else exists s' m' phys DD', mmu_clone_table malloc_ok (S fuel) k src (u32 (k * 1024 * MMU_PAGE_SIZE)) directory flags s =
      Ret (r * 0x1000, Some phys) s' /\ frames_ok s' m' 0 /\
      directories s' !! directory = Some DD' /\ tables DD' !! Z.to_nat k = Some (r * 0x1000) /\
      (forall j, (j < 1024)%nat -> view s' (r * 0x1000) j = view s' src j) /\ kept s s'.
Proof.
  intros Hk Hlk Hon Hmal Hroom Hsrc Hd0 HDD Hkr Hk1 Hfree.
  destruct (kalloc_ok malloc_ok fuel s m km D sizeof_page_table CLONE_TABLE_OPTN 0 Hk Hlk Hon) as (r & Hrun & Hres);
    [done | done | done | done | by right; right | change (Z.to_nat _) with 3%nat; lia |].
  change (u32 (sizeof_page_table + 0xFFF) / 0x1000) with 3 in *. exists r. split; [done|]. unfold mmu_clone_table.
  assert (Hupd : forall t s1 B (kk : unit -> M mmu B), directories s1 = directories s ->
    bind (upd_directory directory (fun d => d <| tables := <[Z.to_nat k := t]> (tables d) |>)) kk s1 =
    kk tt (s1 <| directories := <[directory := DD <| tables := <[Z.to_nat k := t]> (tables DD) |>]> (directories s1) |>)).
  { intros t s1 B kk E. rewrite <- E in HDD. unfold upd_directory, directory_at, bind, get. by rewrite HDD. }
  destruct (Z.eqb_spec r 0) as [->|Hr].
  { rewrite (bind_Ret _ _ _ _ _ Hres), Hupd by done. eexists. split; [reflexivity | done]. }
  destruct Hres as (s1 & m1 & km1 & phys & Hkal & [A1 A2 A3 A4 A4' A5 A6 _ A7 A8]).
  rewrite (bind_Ret _ _ _ _ _ Hkal), Hupd by apply A7.
  destruct Hrun as [[(Hr0 & Hr1 & Hruns) _]|[? _]]; [|done].
  rewrite (proj2 (Z.eqb_neq (r * 0x1000) 0)) by lia. set (t := r * 0x1000) in *.
  set (DD' := DD <| tables := _ |>). set (s2 := s1 <| directories := _ |>).
  assert (exists w, page_tables s2 !! src = Some w) as [w Hw].
  { simpl. apply elem_of_dom. rewrite A5. apply elem_of_dom. by eexists. }
  assert (Ht : page_tables s2 !! t = None).
  { simpl. apply not_elem_of_dom. rewrite A5. apply not_elem_of_dom. apply (ko_fresh _ _ _ _ Hk r); [lia | apply Hruns; lia]. }
  unfold table_at. rewrite bind_assoc, mrun_get, Hw. cbn [deref]. rewrite mrun_ret, mrun_modify.
  destruct (clone_filled s2 m1 t src directory k flags DD' w) as (s' & m' & Hloop & C1 & C2 & C3 & C4); try done; try lia.
  - by apply (frames_ok_ext s1); [| | |apply (ko_frames _ _ _ _ A1)].
  - apply (ko_small _ _ _ _ A1).
  - simpl. by rewrite <- size_dom, A5, size_dom.
  - simpl. by rewrite lookup_insert_eq.
  - simpl. apply list_lookup_insert_eq. lia.
  - exists s', m', phys, DD'. rewrite (bind_Ret _ _ _ _ _ Hloop). split_and!; try done.
    + rewrite C2. simpl. by rewrite lookup_insert_eq.
    + simpl. apply list_lookup_insert_eq. lia.
    + intros j Hj. rewrite C3 by done. symmetry. apply C4. intros ->. congruence.
    + intros t' j d Hv. rewrite C4; [by apply A4|]. intros ->.
      destruct (ko_fresh _ _ _ _ Hk r ltac:(lia) ltac:(apply Hruns; lia)) as [Hz _]. fold t in Hz.
      unfold view, entry in Hv. by rewrite Hz in Hv.
Qed.
End CloneResult.
