(* ===== verification/Release.v ===== *)
(** * Release: freed pages and address spaces (kernel/mmu.c)

    What [mmu_frame_free] does to the counts, that [kfree] undoes [kalloc], and
    what [mmu_destroy_directory] does to a page table. *)

From S2P Require Import Prelude Memmap Mmu Frames Kalloc.

(** ** mmu_frame_free *)

(** What is left of an entry. *)
Definition freed (p : page_t) : page_t :=
  p <| frame := 0 |> <| present := false |> <| accessed := false |> <| dirty := false |> <| rw := false |> <| user := false |>.

(** A frame is taken out of the bitmap when its last use goes. *)
Lemma release_frame_ok s m f n :
  memmaps s !! physical_memmap = Some m -> memmap_wf m -> lock m = 0 -> 0 < f < frame_limit m -> frame_limit m <= 2 ^ 20 ->
  exists m', (if n =? 0 then
     lock_map physical_memmap;;;
     on_map physical_memmap (memmap_clear_page (u32 (f * MMU_PAGE_SIZE)));;;
     unlock_map physical_memmap
   else ret tt) s = Ret tt (s <| memmaps := <[physical_memmap := m']> (memmaps s) |>) /\
   memmap_wf m' /\ lock m' = 0 /\ frame_limit m' = frame_limit m /\
   (forall q, 0 <= q -> page_used m' q = negb ((n =? 0) && (q =? f)) && page_used m q).
Proof.
  intros Hm Hwf Hlk Hf Hlim. destruct (n =? 0).
  - destruct (clear_page_ok (m <| lock := 1 |>) (u32 (f * MMU_PAGE_SIZE)) f) as (m1 & E & W1 & W2 & W3 & W4).
    + by apply memmap_wf_lock.
    + unfold MMU_PAGE_SIZE. rewrite u32_small by lia. by rewrite Z.div_mul by lia.
    + pose proof Hwf as (_ & _ & ?). unfold frame_limit in *. simpl. lia.
    + pose proof (clear_page_lock _ _ _ E) as El. simpl in El. exists (m1 <| lock := 0 |>). split_and!.
      * rewrite (mrun_lock_map _ m) by done.
        rewrite (mrun_on_map _ (m <| lock := 1 |>) _ tt m1) by (simpl; rewrite ?lookup_insert_eq; done).
        unfold unlock_map, on_map, bind, get. simpl. rewrite lookup_insert_eq. simpl. rewrite El. simpl.
        unfold setf. simpl. by rewrite !insert_insert_eq.
      * by apply memmap_wf_lock.
      * done.
      * unfold frame_limit. simpl. by rewrite W2.
      * intros q Hq. simpl. apply (W4 q Hq).
  - exists m. split_and!; try done. destruct s. unfold ret, setf. simpl in *. by rewrite insert_id.
Qed.

Lemma frame_free_ok s m t i p :
  frames_ok s m 0 -> frame_refs_lock s = 0 -> entry (page_tables s) t (Z.to_nat i) = Some p -> frame p <> 0 ->
  exists m' fr, let s' := s <| memmaps := <[physical_memmap := m']> (memmaps s) |> <| frame_refs := fr |>
                            <| page_tables := set_entry (page_tables s) t (Z.to_nat i) (freed p) |> in
    mmu_frame_free t i s = Ret tt s' /\ frames_ok s' m' 0 /\ frame_limit m' = frame_limit m /\
    (forall q, 0 <= q -> page_used m' q =
       negb ((Z.of_nat (uses (page_tables s) (frame p)) - 1 =? 0) && (q =? frame p)) && page_used m q).
Proof.
  intros Hok Hlk Hp Hf. pose proof Hok as [F1 F2 F3 [F4 F4'] [F5 F5'] FW F6 F7 F8 F9]. pose proof (F8 _ _ _ Hp) as Hr.
  pose proof (uses_pos _ _ _ _ Hp) as Hpos. set (u := uses (page_tables s) (frame p)) in *.
  assert (Hn : frame_refs s !! Z.to_nat (frame p) = Some (Z.of_nat u)) by (rewrite F6, holds_uses by lia; done).
  pose proof (FW _ _ Hn) as Hw.
  unfold mmu_frame_free. rewrite (mrun_page_at _ _ p) by done. rewrite (proj2 (Z.eqb_neq _ 0)) by done.
  rewrite mrun_lock_refs by done. rewrite (mrun_refs_of _ (Z.of_nat u)), (mrun_set_refs _ _ (Z.of_nat u)) by done.
  rewrite u32_small by lia. set (fr := <[Z.to_nat (frame p) := Z.of_nat u - 1]> (frame_refs s)).
  set (s1 := s <| frame_refs_lock := 1 |> <| frame_refs := _ |>).
  destruct (release_frame_ok s1 m (frame p) (Z.of_nat u - 1)) as (m' & Hrun & W1 & W2 & W3 & W4); try done; [lia|].
  exists m', fr. cbv zeta. rewrite (bind_Ret _ _ _ _ _ Hrun). rewrite mrun_unlock_refs by done.
  split; [|split; [|split; done]].
  - rewrite (upd_page_run _ _ _ p) by done. unfold setf. simpl. by rewrite Hlk.
  - assert (Hh : forall f, 0 < f -> (holds (set_entry (page_tables s) t (Z.to_nat i) (freed p)) 0 f +
      (if (frame p =? f)%Z then 1 else 0) = holds (page_tables s) 0 f)%nat).
    { intros f H0. rewrite !holds_uses by done. pose proof (uses_entry_frame t _ _ _ (freed p) f Hp H0) as U.
      change (frame (freed p)) with 0 in U. rewrite (proj2 (Z.eqb_neq 0 f)) in U by lia. cbv iota in U. lia. }
    assert (Hu : holds (page_tables s) 0 (frame p) = u) by (by rewrite holds_uses by lia).
    eapply (frames_ok_entry t s _ m m' 0 0 (Z.to_nat i) p (freed p)); try done; simpl.
    + by rewrite lookup_insert_eq.
    + rewrite W4, F5 by lia. rewrite (proj2 (Z.eqb_neq 0 (frame p))) by lia. by rewrite andb_false_r.
    + apply length_insert.
    + unfold fr. rewrite list_lookup_insert_ne by lia. done.
    + intros k n. unfold fr. rewrite list_lookup_insert. case_decide; [intros [= <-]; lia | apply FW].
    + change (frame (freed p)) with 0. lia.
    + intros f H0. specialize (Hh f ltac:(lia)). rewrite W4 by lia. destruct (Z.eqb_spec (frame p) f) as [E|Hne].
      * subst f. rewrite Z.eqb_refl, andb_true_r. rewrite Hu in Hh. unfold fr. rewrite list_lookup_insert_eq by lia. split; [f_equal; lia|].
        pose proof (proj2 (F7 (frame p) H0)) as Hus. rewrite Hu in Hus. rewrite Hus, andb_true_r by lia.
        destruct (Z.eqb_spec (Z.of_nat u - 1) 0); simpl; split; (done || lia).
      * unfold fr. rewrite list_lookup_insert_ne by lia. rewrite Nat.add_0_r in Hh. rewrite Hh.
        rewrite (proj2 (Z.eqb_neq f (frame p))), andb_false_r by lia. simpl. split; [by apply F6 | by apply F7].
    + intros t' i' p' Hdif H' Hrw H0. pose proof (F8 _ _ _ H') as Hr'. specialize (Hh (frame p') ltac:(lia)).
      destruct (Z.eqb_spec (frame p) (frame p')) as [E|_]; [|lia]. pose proof (F9 _ _ _ H' Hrw H0) as H1. rewrite <- E, Hu in H1.
      pose proof (uses_two _ _ _ _ _ _ _ Hp H' E) as H2. fold u in H2. naive_solver lia.
Qed.

(** ** kfree *)

Section FreePages.
Context (s0 : mmu) (m0 km0 : memmap) (D : page_directory_t) (r e : Z).
Hypothesis Hrange : 0 <= r /\ e <= frame_limit km0 /\ frame_limit km0 < 2 ^ 20.
Hypothesis Hdir : directories s0 !! kernel_directory = Some D.
Hypothesis Hdistinct : forall a b t, tables D !! a = Some t -> tables D !! b = Some t -> t <> 0 -> a = b.

(** The pages of the buffer. *)
Hypothesis Hmapped : forall q, r <= q < e -> exists t p, tables D !! Z.to_nat (q / 1024) = Some t /\ t <> 0 /\
  entry (page_tables s0) t (Z.to_nat (q mod 1024)) = Some p /\ frame p <> 0.

(** The pages [r] to [q] have been freed since [s0]. *)
Record releasing (q : Z) (s : mmu) : Prop := {
  rl_form : exists mm fr h m km, s = s0 <| memmaps := mm |> <| frame_refs := fr |> <| page_tables := h |> /\
    frames_ok s m 0 /\ frame_limit m = frame_limit m0 /\ mm !! kernel_memmap = Some km /\ memmap_wf km /\ lock km = lock km0 /\
    frame_limit km = frame_limit km0 /\
    forall x, 0 <= x -> page_used km x = negb ((r <=? x) && (x <? q)) && page_used km0 x;
  rl_rest : forall t i, ~ in_run D r q t i -> entry (page_tables s) t i = entry (page_tables s0) t i;
  rl_freed : forall t i p, in_run D r q t i -> entry (page_tables s) t i = Some p -> frame p = 0;
  rl_dom : dom (page_tables s) = dom (page_tables s0);
  rl_small : small (page_tables s)
}.

Lemma in_run_slot q t : r <= q ->
  tables D !! Z.to_nat (q / 1024) = Some t -> t <> 0 -> ~ in_run D r q t (Z.to_nat (q mod 1024)).
Proof.
  intros Hr Ht Ht0 (x & Hx & Htx & Ex).
  eapply (page_slots_differ D t t q x); try done; destruct Hrange; try lia.
Qed.

Lemma free_step q s : frame_refs_lock s0 = 0 -> r <= q < e -> releasing q s ->
  exists t i s1 s2, mmu_get_page kernel_directory (q * 0x1000) s = Ret (Some (t, i)) s /\
    mmu_frame_free t i s = Ret tt s1 /\ on_map kernel_memmap (memmap_clear_page (q * 0x1000)) s1 = Ret tt s2 /\
    releasing (q + 1) s2.
Proof.
  intros Hlk Hq [(mm & fr & h & m & km & Es & Hok & Hml & Hkm & Hwf & Hl & Hlim & Hus) Hrest Hfreed Hdom Hsm].
  destruct Hrange as (Hr0 & He & Hlim0).
  destruct (Hmapped q Hq) as (t & p & Ht & Ht0 & Hp & Hf). destruct (page_of q ltac:(lia)) as [E1 E2].
  set (i := q mod 1024). assert (Hnot : ~ in_run D r q t (Z.to_nat i)) by (apply in_run_slot; (done || lia)).
  fold i in Hp. rewrite <- (Hrest _ _ Hnot) in Hp.
  destruct (frame_free_ok s m t i p) as (m' & fr' & Hrun & Hok' & Hl' & _); [done | by rewrite Es | done | done |].
  set (s1 := s <| memmaps := _ |> <| frame_refs := _ |> <| page_tables := _ |>) in *.
  destruct (clear_page_ok km (q * 0x1000) q) as (km' & Eclear & W1 & W2 & W3 & W4); [done | by rewrite Z.div_mul by lia | |].
  { pose proof Hwf as (_ & _ & ?). unfold frame_limit in *. lia. }
  assert (Hkm1 : memmaps s1 !! kernel_memmap = Some km) by (simpl; rewrite lookup_insert_ne by done; by rewrite Es).
  exists t, i, s1, (s1 <| memmaps := <[kernel_memmap := km']> (memmaps s1) |>). split_and!.
  - unfold mmu_get_page. rewrite E1, E2. rewrite (mrun_table_of _ D _ t) by (done || by rewrite Es).
    by rewrite (proj2 (Z.eqb_neq t 0)).
  - done.
  - unfold on_map, bind, get. rewrite Hkm1. simpl. by rewrite Eclear.
  - assert (Hrun' : forall t' i', in_run D r (q + 1) t' i' -> in_run D r q t' i' \/ (t' = t /\ i' = Z.to_nat i)).
    { intros t' i' (x & Hx & Htx & ->). destruct (decide (x = q)) as [->|Hne]; [right; split; [congruence | done]|].
      left. exists x. split; [lia | done]. }
    assert (Hself : in_run D r (q + 1) t (Z.to_nat i)) by (exists q; split_and!; [lia | lia | done | done]).
    split.
    + exists (<[kernel_memmap := km']> (memmaps s1)), fr', (page_tables s1), m', km'. split_and!; try done.
      * unfold s1. rewrite Es. done.
      * by apply (frames_ok_ext s1); simpl; rewrite ?lookup_insert_ne by done.
      * by rewrite Hl'.
      * by rewrite lookup_insert_eq.
      * by rewrite (clear_page_lock _ _ _ Eclear).
      * unfold frame_limit in *. by rewrite W2.
      * intros x Hx. rewrite W4, Hus by done.
        destruct (Z.eqb_spec x q), (Z.leb_spec r x), (Z.ltb_spec x q), (Z.ltb_spec x (q + 1)); simpl; (done || lia).
    + intros t' i' Hn. simpl. rewrite entry_set_entry by by eexists. rewrite decide_False by (intros [<- <-]; done).
      apply Hrest. intros (x & Hx & H2). apply Hn. exists x. split; [lia | done].
    + intros t' i' p' Hin. simpl. rewrite entry_set_entry by by eexists. case_decide as Hd; [by intros [= <-]|].
      apply Hfreed. apply Hrun' in Hin as [?|[-> ->]]; [done|]. naive_solver.
    + simpl. by rewrite dom_set_entry.
    + simpl. by apply small_set_entry.
Qed.

Lemma free_pages_ok n : forall q s, frame_refs_lock s0 = 0 -> r <= q -> q + Z.of_nat n = e -> releasing q s ->
  exists s', free_pages n kernel_directory kernel_memmap (q * 0x1000) s = Ret tt s' /\ releasing e s'.
Proof.
  induction n as [|n IH]; intros q s Hlk Hq Hn Hr.
  { exists s. split; [done|]. by replace e with q by lia. }
  destruct (free_step q s Hlk ltac:(lia) Hr) as (t & i & s1 & s2 & H1 & H2 & H3 & H4).
  destruct (IH (q + 1) s2 Hlk ltac:(lia) ltac:(lia) H4) as (s' & H5 & H6). exists s'. split; [|done].
  cbn [free_pages]. rewrite (bind_Ret _ _ _ _ _ H1). cbn [deref]. rewrite mrun_ret.
  rewrite (bind_Ret _ _ _ _ _ H2), (bind_Ret _ _ _ _ _ H3).
  replace (q * 0x1000 + 0x1000) with ((q + 1) * 0x1000) by lia. by rewrite u32_small by lia.
Qed.
End FreePages.

(** ** The same frames *)

Definition frames_of (v : page_table_t) : list Z := frame <$> pages v.

Lemma count_frames f v : count_in f v = sum_list_with (fun g => if (g =? f)%Z then 1%nat else 0%nat) (frames_of v).
Proof.
  unfold count_in, frames_of. induction (pages v) as [|p l IH]; [done|]. simpl. by rewrite IH.
Qed.

Lemma uses_same h h' : dom h = dom h' -> (forall t i, frame <$> entry h t i = frame <$> entry h' t i) ->
  forall f, uses h f = uses h' f.
Proof.
  intros Hd He f. assert (E : frames_of <$> h = frames_of <$> h').
  { apply map_eq. intros t. rewrite !lookup_fmap. destruct (h !! t) as [v|] eqn:E1, (h' !! t) as [v'|] eqn:E2; simpl.
    - f_equal. apply list_eq. intros i. specialize (He t i). unfold entry in He. rewrite E1, E2 in He. simpl in He.
      unfold frames_of. by rewrite !list_lookup_fmap.
    - apply not_elem_of_dom in E2. rewrite <- Hd in E2. apply not_elem_of_dom in E2. congruence.
    - apply not_elem_of_dom in E1. rewrite Hd in E1. apply not_elem_of_dom in E1. congruence.
    - done. }
  assert (Hu : forall g : tmap, uses g f = map_fold (fun _ l n => sum_list_with (fun x => if (x =? f)%Z then 1 else 0) l + n)%nat 0%nat
                                          (frames_of <$> g)).
  { intros g. induction g as [|t v g Hn IH] using map_ind.
    - by rewrite fmap_empty, map_fold_empty.
    - rewrite uses_fresh, fmap_insert, map_fold_insert_L, IH, count_frames; [done | intros; lia | | done].
      by rewrite lookup_fmap, Hn. }
  by rewrite !Hu, E.
Qed.

(** ** kfree after kalloc *)

Lemma unlink_last l b : Forall (fun c => b_address c <> b_address b) l -> unlink_buffer (l ++ [b]) (b_address b) = Some (b, l).
Proof.
  induction 1 as [|c l Hc _ IH]; simpl; [by rewrite Z.eqb_refl|]. rewrite (proj2 (Z.eqb_neq _ _)) by done. by rewrite IH.
Qed.

(** The tracked buffers lie on pages that are marked. *)
Definition buffers_marked (s : mmu) (km : memmap) : Prop :=
  Forall (fun b => page_used km (b_address b / 0x1000) = true) (kernel_buffers s).

Section KallocKfree.
Context (malloc_ok : nat -> bool).

(** C23: [kfree] undoes [kalloc].  After a call for kernel pages that found room, the
    release of the same address removes the record of the buffer, clears the
    pages in the bitmap of the kernel and the frames in that of the physical
    memory, so that both have the pages they had before, and every page of
    every table shows what it showed before the two calls. *)
Theorem kalloc_kfree fuel s m km D sz flags mm vaddr phys s1 :
  kernel_ok s m km D -> lock km = 0 -> current_directory s <> 0 -> frame_refs_lock s = 0 -> buffers_marked s km ->
  0 < sz < 2 ^ 31 -> flag flags KALLOC_OPTN_KERNEL = true -> flag flags KALLOC_OPTN_MMAP = false ->
  flag flags KALLOC_OPTN_NOSHARE = false -> flag flags KALLOC_OPTN_NOFREE = false ->
  kheap_len s <> 0 -> malloc_ok (mallocs s) = true -> (Z.to_nat (u32 (sz + 0xFFF) / 0x1000) <= free_frames m)%nat ->
  kalloc malloc_ok (S fuel) sz 0 flags mm s = Ret (vaddr, phys) s1 -> vaddr <> 0 ->
  exists s2 m2 km2, kfree vaddr s1 = Ret tt s2 /\ kernel_buffers s2 = kernel_buffers s /\
    frames_ok s2 m2 0 /\ memmaps s2 !! kernel_memmap = Some km2 /\
    (forall q, 0 <= q -> page_used km2 q = page_used km q) /\
    (forall f, 0 <= f < frame_limit m -> page_used m2 f = page_used m f) /\
    (forall t i, view s2 t i = view s t i).
Proof.
  intros Hk Hlk Hon Hrl Hbuf Hsz Hker Hmm Hns Hnf Hheap Hmal Hfree Hrun Hv.
  set (n := u32 (sz + 0xFFF) / 0x1000) in *. destruct (pages_of_size sz Hsz) as [Hn _]. fold n in Hn.
  destruct (kalloc_ok malloc_ok fuel s m km D sz flags mm Hk Hlk Hon Hsz Hker Hmm Hns) as (r & Hfirst & Hres);
    [by right; right | exact Hfree |]. fold n in Hfirst, Hres.
  destruct (Z.eqb_spec r 0) as [_|Hr]; [congruence|].
  destruct Hres as (s' & m' & km' & phys' & Hrun' & [A1 A2 A3 A4 A4' A5 A6 Alim (A7 & _ & A7l & _ & A7f) A8]).
  rewrite Hrun in Hrun'. injection Hrun' as -> -> <-. destruct Hfirst as [[(Hr0 & Hr1 & Hruns) _]|[? _]]; [|done].
  rewrite Hnf, (proj2 (Z.eqb_neq _ 0)) in A8 by done. simpl in A8.
  pose proof A2 as [M1 M2 M3 M4]. pose proof (ko_limit _ _ _ _ Hk) as Hlim. pose proof A1 as [K1 K2 K3 K4 K5 K6 K7 K8 K9 K10].
  assert (Hmapped : forall q, r <= q < r + n -> exists t p, tables D !! Z.to_nat (q / 1024) = Some t /\ t <> 0 /\
    entry (page_tables s1) t (Z.to_nat (q mod 1024)) = Some p /\ frame p <> 0).
  { intros q Hq. destruct (A3 q Hq) as (t & p & f & H1 & H2 & H3 & H4 & H5 & _).
    destruct (K7 q ltac:(lia)) as (t' & H1' & H0 & _). exists t, p. split_and!; try done; congruence. }
  destruct (free_pages_ok s1 m' km' D r (r + n)) with (n := Z.to_nat n) (q := r) (s := s1) as (s2 & Hfp & Hrel);
    [lia | done | done | done | congruence | lia | lia | |].
  { split; try done.
    - exists (memmaps s1), (frame_refs s1), (page_tables s1), m', km'. split_and!; try done; [by destruct s1|].
      intros x Hx. destruct (Z.leb_spec r x), (Z.ltb_spec x r); simpl; (done || lia).
    - intros t i p (x & Hx & _). lia. }
  destruct Hrel as [(mm2 & fr & h & m2 & km2 & Es2 & Hok2 & Hm2 & Hkm2 & _ & _ & _ & Hus) Hrest Hfreed Hdom Hsm2].
  set (s3 := s2 <| kernel_buffers := kernel_buffers s |>).
  assert (Hkf : kfree (r * 0x1000) s1 = Ret tt s3).
  { unfold kfree. rewrite mrun_get, A8. rewrite (unlink_last _ (mkBuffer (r * 0x1000) n 0)).
    - cbv iota beta. rewrite mrun_ret. cbn [b_pages b_address b_mmap]. rewrite (bind_Ret _ _ _ _ _ Hfp). done.
    - eapply Forall_impl; [exact Hbuf|]. simpl. intros b Hb E. rewrite E, Z.div_mul, (Hruns r) in Hb by lia. done. }
  assert (Hframes : forall t i, frame <$> entry (page_tables s2) t i = frame <$> entry (page_tables s) t i).
  { intros t i. assert (in_run D r (r + n) t i \/ ~ in_run D r (r + n) t i) as [Hin|Hout].
    { destruct (decide (Exists (fun x => tables D !! Z.to_nat (x / 1024) = Some t /\ i = Z.to_nat (x mod 1024)) (seqZ r n))) as [H|H].
      - left. apply Exists_exists in H as (x & Hx & H). apply elem_of_seqZ in Hx. by exists x.
      - right. intros (x & Hx & H1). apply H, Exists_exists. exists x. split; [by apply elem_of_seqZ | done]. }
    2: { by rewrite Hrest, A4' by done. }
    pose proof Hin as (x & Hx & Htx & ->).
    destruct (K7 x ltac:(lia)) as (t' & H1' & H0 & Hs1). rewrite Htx in H1'. injection H1' as <-.
    pose proof (Z.mod_pos_bound x 1024 ltac:(lia)).
    assert (Hs2 : small (page_tables s) /\ is_Some (page_tables s !! t)).
    { split; [apply (ko_small _ _ _ _ Hk)|]. apply elem_of_dom. rewrite <- A5. by apply elem_of_dom. }
    destruct (small_entry _ t (Z.to_nat (x mod 1024)) (proj1 Hs2) (proj2 Hs2) ltac:(lia)) as [[p Hp] _].
    rewrite Hp. pose proof (ko_free _ _ _ _ Hk x t p ltac:(lia) (Hruns x Hx) Htx Hp) as Hp0.
    assert (Hs2' : is_Some (page_tables s2 !! t)) by (apply elem_of_dom; rewrite Hdom; by apply elem_of_dom).
    destruct (small_entry _ t (Z.to_nat (x mod 1024)) Hsm2 Hs2' ltac:(lia)) as [[p2 Hp2] _].
    rewrite Hp2. simpl. rewrite (Hfreed _ _ _ Hin Hp2). by rewrite Hp0. }
  assert (Huses : forall f, uses (page_tables s2) f = uses (page_tables s) f).
  { apply uses_same; [by rewrite Hdom | done]. }
  exists s3, m2, km2. split_and!; try done.
  - by apply (frames_ok_ext s2).
  - simpl. by rewrite Es2.
  - intros q Hq. rewrite Hus, M4 by done. destruct (Z.leb_spec r q), (Z.ltb_spec q (r + n)); simpl; try done.
    symmetry. apply Hruns. lia.
  - intros f Hf. pose proof (ko_frames _ _ _ _ Hk) as Hok. destruct (decide (f = 0)) as [->|Hf0].
    + by rewrite (proj1 (fo_zero _ _ _ Hok)), (proj1 (fo_zero _ _ _ Hok2)).
    + apply eq_true_iff_eq. rewrite (fo_used _ _ _ Hok), (fo_used _ _ _ Hok2); [by rewrite !holds_uses, Huses by lia | rewrite Hm2, Alim; lia | lia].
  - intros t i. specialize (Hframes t i). unfold view, content. simpl.
    assert (Ef : frames s2 = frames s) by (by rewrite Es2).
    rewrite Ef. destruct (entry (page_tables s2) t i), (entry (page_tables s) t i); simpl in *; try done.
    by injection Hframes as ->.
Qed.
End KallocKfree.

(** ** mmu_destroy_directory *)

(** The pages below [j] of the table [t] have been given up since [s0]. *)
Record emptied (s0 : mmu) (m0 : memmap) (t : Z) (j : nat) (s : mmu) : Prop := {
  em_ok : exists m, frames_ok s m 0 /\ frame_limit m = frame_limit m0;
  em_same : frame_refs_lock s = frame_refs_lock s0 /\ frames s = frames s0 /\ directories s = directories s0 /\
    kernel_buffers s = kernel_buffers s0;
  em_done : forall i p, (i < j)%nat -> entry (page_tables s) t i = Some p -> frame p = 0;
  em_rest : forall t' i, t' <> t \/ (j <= i)%nat -> entry (page_tables s) t' i = entry (page_tables s0) t' i;
  em_head : forall v, page_tables s0 !! t = Some v -> exists v', page_tables s !! t = Some v' /\
    length (pages v') = length (pages v) /\ refs v' = refs v /\ pages_info v' = pages_info v
}.

Definition empty_page (t j : Z) : M mmu unit :=
  p <- page_at t j;; if negb (frame p =? 0) then mmu_frame_free t j else ret tt.

Lemma empty_step s0 m0 t (j : nat) s v :
  frame_refs_lock s0 = 0 -> page_tables s0 !! t = Some v -> (j < length (pages v))%nat ->
  emptied s0 m0 t j s -> exists s', empty_page t (Z.of_nat j) s = Ret tt s' /\ emptied s0 m0 t (S j) s'.
Proof.
  intros Hlk Hv Hj [(m & Hok & Hl) Hsame Hdone Hrest Hhead]. destruct (Hhead v Hv) as (v' & Hv' & Hlen & Hrefs & Hinf).
  destruct (lookup_lt_is_Some_2 (pages v') j ltac:(lia)) as [p Hp].
  assert (He : entry (page_tables s) t (Z.to_nat (Z.of_nat j)) = Some p) by (unfold entry; rewrite Hv', Nat2Z.id; done).
  unfold empty_page. rewrite (mrun_page_at _ _ p) by done. rewrite Nat2Z.id in He. destruct (Z.eqb_spec (frame p) 0) as [Hf|Hf]; simpl.
  - exists s. split; [done|]. split; [by exists m | done | | |done].
    + intros i q Hi Hq. destruct (decide (i = j)) as [->|]; [congruence | apply (Hdone i); (done || lia)].
    + intros t' i Hi. apply Hrest. destruct Hi; [by left | right; lia].
  - destruct (frame_free_ok s m t (Z.of_nat j) p) as (m' & fr' & Hrun & Hok' & Hl' & _);
      [done | by rewrite (proj1 Hsame) | by rewrite Nat2Z.id | done |]. rewrite Nat2Z.id in Hrun, Hok'.
    eexists. split; [exact Hrun|]. split.
    + exists m'. split; [done | by rewrite Hl'].
    + exact Hsame.
    + intros i q Hi. simpl. rewrite entry_set_entry by by eexists. case_decide as Hd; [by intros [= <-]|].
      apply Hdone. naive_solver lia.
    + intros t' i Hi. simpl. rewrite entry_set_entry by by eexists. rewrite decide_False by naive_solver lia.
      apply Hrest. destruct Hi; [by left | right; lia].
    + intros w Hw. assert (w = v) as -> by congruence. simpl. unfold set_entry. rewrite lookup_alter_eq, Hv'. simpl.
      eexists. split; [done|]. simpl. by rewrite length_insert.
Qed.

Lemma empty_loop s0 m0 t v n : forall j s, frame_refs_lock s0 = 0 -> page_tables s0 !! t = Some v ->
  (j + n <= length (pages v))%nat -> emptied s0 m0 t j s ->
  exists s', for_index n (Z.of_nat j) (empty_page t) s = Ret tt s' /\ emptied s0 m0 t (j + n) s'.
Proof.
  induction n as [|n IH]; intros j s Hlk Hv Hj He; [exists s; by rewrite Nat.add_0_r|].
  destruct (empty_step s0 m0 t j s v) as (s1 & H1 & He1); try done; [lia|].
  destruct (IH (S j) s1) as (s' & H2 & He2); try done; [lia|]. exists s'. cbn [for_index].
  rewrite (bind_Ret _ _ _ _ _ H1). replace (Z.of_nat j + 1) with (Z.of_nat (S j)) by lia.
  by replace (j + S n)%nat with (S j + n)%nat by lia.
Qed.

(** C40: [mmu_destroy_directory] takes a table that is not the kernel's out of use:
    every page of it loses its frame, whatever other tables show is as before,
    also where a frame was shared with them, and the counts stay right.  The
    count of the table's users is decremented from what it was, so that a
    table that was never shared, whose count is 0, is not freed. *)
Theorem destroy_table_releases s m directory DD KD i t k v :
  frames_ok s m 0 -> frame_refs_lock s = 0 -> directories s !! directory = Some DD ->
  tables DD !! Z.to_nat i = Some t -> t <> 0 ->
  directories s !! kernel_directory = Some KD -> tables KD !! Z.to_nat i = Some k -> k <> t ->
  page_tables s !! t = Some v -> length (pages v) = 1024%nat -> 0 <= refs v < 2 ^ 32 -> refs v <> 1 ->
  exists s' m' v', destroy_table directory i s = Ret tt s' /\ frames_ok s' m' 0 /\
    frame_limit m' = frame_limit m /\
    (forall j, view s' t j = None) /\ (forall t' j, t' <> t -> view s' t' j = view s t' j) /\
    page_tables s' !! t = Some v' /\ refs v' = (if refs v =? 0 then 2 ^ 32 - 1 else refs v - 1) /\
    kernel_buffers s' = kernel_buffers s /\ directories s' = directories s.
Proof.
  intros Hok Hlk HD Ht Ht0 HKD Hk Hkt Hv Hlen Hrefs Hr1.
  assert (Hstart : emptied s m t 0 s).
  { split; [by exists m | done | intros; lia | done | by eauto]. }
  destruct (empty_loop s m t v 1024 0 s Hlk Hv ltac:(rewrite Hlen; lia) Hstart)
    as (s1 & Hloop & [(m1 & Hok1 & Hl1) (_ & S2 & S3 & S4) Hdone Hrest Hhead]).
  destruct (Hhead v Hv) as (v1 & Hv1 & Hlen1 & Hrefs1 & _).
  assert (Hu : u32 (refs v1 - 1) = if refs v =? 0 then 2 ^ 32 - 1 else refs v - 1).
  { rewrite Hrefs1. destruct (Z.eqb_spec (refs v) 0) as [->|]; [done|]. apply u32_small. lia. }
  set (v' := v1 <| refs := u32 (refs v1 - 1) |>). set (s' := s1 <| page_tables := <[t := v']> (page_tables s1) |>).
  assert (Hen : forall t' j, entry (page_tables s') t' j = entry (page_tables s1) t' j).
  { intros t' j. unfold entry. simpl. destruct (decide (t' = t)) as [->|]; [by rewrite lookup_insert_eq, Hv1 | by rewrite lookup_insert_ne]. }
  assert (Huses : forall f, uses (page_tables s') f = uses (page_tables s1) f).
  { intros f. apply uses_same; [|intros; by rewrite Hen]. simpl. by rewrite dom_insert_lookup_L by by eexists. }
  exists s', m1, v'. split_and!; try done.
  - unfold destroy_table. rewrite (mrun_table_of _ DD _ t) by done. rewrite (proj2 (Z.eqb_neq t 0)) by done.
    rewrite (mrun_table_of _ KD _ k) by done. rewrite (proj2 (Z.eqb_neq k t)) by done. cbn [negb].
    change (fun j => bind (page_at t j) _) with (empty_page t). rewrite (bind_Ret _ _ _ _ _ Hloop).
    unfold table_at, upd_table, table_at. rewrite !bind_assoc, mrun_get, Hv1. cbn [deref]. rewrite mrun_ret.
    rewrite !bind_assoc, mrun_get, Hv1. cbn [deref]. rewrite mrun_ret, mrun_modify.
    rewrite (proj2 (Z.eqb_neq (u32 (refs v1 - 1)) 0)); [done|]. rewrite Hu. destruct (Z.eqb_spec (refs v) 0); lia.
  - pose proof Hok1 as [F1 F2 F3 F4 F5 FW F6 F7 F8 F9].
    assert (Hh : forall f, holds (page_tables s') 0 f = holds (page_tables s1) 0 f) by (intros f; unfold holds; by rewrite Huses).
    split; try done.
    + intros f Hf. rewrite Hh. by apply F6.
    + intros f Hf. rewrite Hh. by apply F7.
    + intros t' j p. rewrite Hen. apply F8.
    + intros t' j p. rewrite Hen, Hh. apply F9.
  - intros j. unfold view. rewrite Hen. destruct (entry (page_tables s1) t j) as [p|] eqn:Ep; [|done]. simpl.
    rewrite (Hdone j p); [done | | done]. apply entry_table in Ep as (w & Hw & Hp). rewrite Hv1 in Hw. injection Hw as <-.
    apply lookup_lt_Some in Hp. lia.
  - intros t' j Hne. unfold view. rewrite Hen, Hrest by by left. unfold content. simpl.
    by rewrite S2.
  - simpl. by rewrite lookup_insert_eq.
Qed.
