(* ===== verification/MmuExample.v ===== *)
(** * MmuExample: a small machine

    A state with a kernel directory, two address spaces that share a frame, and
    a bitmap of 1216 frames, in which the theorems on the memory management
    unit are applied.  That it satisfies the invariants is checked by
    computation. *)

From S2P Require Import Prelude Memmap Mmu Frames Faults Kalloc Clone Release.

(** ** Checks *)

Definition all_below (n : Z) (f : Z -> bool) : bool := forallb f (seqZ 0 n).

Lemma all_below_spec n f : all_below n f = true -> forall q, 0 <= q < n -> f q = true.
Proof.
  intros H q Hq. unfold all_below in H. rewrite forallb_forall in H. apply H. apply list_elem_of_In, elem_of_seqZ. lia.
Qed.

Definition all_entries (h : tmap) (f : page_t -> bool) : bool :=
  forallb (fun v => forallb f (pages v.2)) (map_to_list h).

Lemma all_entries_spec h f : all_entries h f = true -> forall t i p, entry h t i = Some p -> f p = true.
Proof.
  intros H t i p (v & Hv & Hp)%entry_table. unfold all_entries in H. rewrite forallb_forall in H.
  specialize (H (t, v)). simpl in H. rewrite forallb_forall in H.
  apply H; apply list_elem_of_In; [by apply elem_of_map_to_list | by eapply list_elem_of_lookup_2].
Qed.

Definition wf_check (m : memmap) : bool :=
  forallb (fun w => (0 <=? w) && (w <? 2 ^ 32)) (pagemap m) && (0 <=? length_ m) && (length_ m <? 2 ^ 32) &&
  (page_index (length_ m) <=? Z.of_nat (length (pagemap m))).

Lemma wf_check_spec m : wf_check m = true -> memmap_wf m.
Proof.
  unfold wf_check. rewrite !andb_true_iff, forallb_forall. intros (((H1 & H2) & H3) & H4). split_and!; try lia.
  apply Forall_forall. intros w Hw. specialize (H1 w). rewrite <- list_elem_of_In in H1. specialize (H1 Hw). lia.
Qed.

Definition frames_check (s : mmu) (m : memmap) : bool :=
  wf_check m && (lock m =? 0) && (frame_limit m <=? Z.of_nat (length (frame_refs s))) && (frame_limit m <=? 2 ^ 20) &&
  page_used m 0 && forallb (fun n => (0 <=? n) && (n <? 2 ^ 32)) (frame_refs s) && (0 <? Z.of_nat (length (frame_refs s))) &&
  all_below (frame_limit m) (fun f => (f =? 0) ||
    (bool_decide (frame_refs s !! Z.to_nat f = Some (Z.of_nat (uses (page_tables s) f))) &&
     eqb (page_used m f) (0 <? uses (page_tables s) f)%nat)) &&
  all_entries (page_tables s) (fun p => (0 <=? frame p) && (frame p <? frame_limit m) &&
    (negb (rw p) || (frame p =? 0) || (uses (page_tables s) (frame p) =? 1)%nat)).

Lemma frames_check_spec s m : memmaps s !! physical_memmap = Some m -> frames_check s m = true -> frames_ok s m 0.
Proof.
  unfold frames_check. rewrite !andb_true_iff. intros Hm ((((((((H1 & H2) & H3) & H4) & H5) & H6) & H7) & H8) & H9).
  assert (Hf : forall f, 0 < f < frame_limit m -> frame_refs s !! Z.to_nat f = Some (Z.of_nat (uses (page_tables s) f)) /\
    page_used m f = (0 <? uses (page_tables s) f)%nat).
  { intros f Hf. pose proof (all_below_spec _ _ H8 f ltac:(lia)) as H. simpl in H.
    rewrite (proj2 (Z.eqb_neq f 0)) in H by lia. apply andb_true_iff in H as [Ha Hb].
    apply bool_decide_eq_true in Ha. by apply eqb_prop in Hb. }
  split; try done; try lia.
  - by apply wf_check_spec.
  - split; [done|]. apply lookup_lt_is_Some_2. lia.
  - intros k n Hk. rewrite forallb_forall in H6. apply list_elem_of_lookup_2, list_elem_of_In in Hk. specialize (H6 _ Hk). lia.
  - intros f Hfr. rewrite holds_uses by lia. by apply Hf.
  - intros f Hfr. rewrite holds_uses by lia. rewrite (proj2 (Hf f Hfr)). apply Nat.ltb_lt.
  - intros t i p Hp. pose proof (all_entries_spec _ _ H9 _ _ _ Hp) as H. simpl in H. lia.
  - intros t i p Hp Hrw Hf0. pose proof (all_entries_spec _ _ H9 _ _ _ Hp) as H. simpl in H.
    apply andb_true_iff in H as [Hr H]. rewrite holds_uses by lia.
    rewrite Hrw, (proj2 (Z.eqb_neq (frame p) 0)) in H by done. simpl in H. by apply Nat.eqb_eq.
Qed.

Definition small_check (h : tmap) : bool :=
  forallb (fun v => (length (pages v.2) =? 1024)%nat && (length (pages_info v.2) =? 1024)%nat) (map_to_list h) &&
  (1024 * Z.of_nat (size h) <? 2 ^ 32).

Lemma small_check_spec h : small_check h = true -> small h.
Proof.
  unfold small_check. rewrite andb_true_iff, forallb_forall. intros [H1 H2]. split; [|lia]. intros t v Hv.
  specialize (H1 (t, v)). simpl in H1. rewrite <- list_elem_of_In, elem_of_map_to_list in H1. specialize (H1 Hv).
  apply andb_true_iff in H1 as [Ha Hb]. split; by apply Nat.eqb_eq.
Qed.

(** ** The machine *)

Definition FREE := 38%nat.

(** 1216 frames, of which 0 and 5 are in use; 64 kernel pages, of which the
    first 16 are. *)
Definition phys : memmap := mkMemmap (0x21 :: replicate 37 0) 1216 0.
Definition kmap : memmap := mkMemmap [0xFFFF; 0] 64 0.

Definition KT := 0x1000.
Definition T1 := 0x4000.
Definition T2 := 0x7000.
Definition D1 := 0xA000.

(** A page that was copied on write, with frame 5. *)
Definition cow_page : page_t := mkPage true false true false false 5.
Definition cow_info : page_info_t := mkInfo false true false false.
Definition cow_table : page_table_t :=
  mkTable (cow_page :: replicate 1023 no_page) (cow_info :: replicate 1023 no_info) 0 false.

Definition kdir : page_directory_t := mkDir (KT :: replicate 1023 0) (replicate 1024 0).
Definition udir : page_directory_t := mkDir (KT :: T1 :: replicate 1022 0) (replicate 1024 0).

Definition machine : mmu :=
  mkMmu (<[physical_memmap := phys]> (<[kernel_memmap := kmap]> ∅))
    (1 :: replicate 4 0 ++ 2 :: replicate 1210 0) 0
    (<[KT := zero_table]> (<[T1 := cow_table]> (<[T2 := cow_table]> ∅)))
    (<[kernel_directory := kdir]> (<[D1 := udir]> ∅))
    {[5 := [7; 7; 7]]} D1 0 default_memmap 0 [] [] 0 0x200000 0 (Some (mkMtask 1 0 [] [] 0 default_memmap)).

Lemma machine_frames : frames_ok machine phys 0.
Proof. apply frames_check_spec; [reflexivity|]. vm_compute. reflexivity. Qed.

Lemma machine_small : small (page_tables machine).
Proof. apply small_check_spec. vm_compute. reflexivity. Qed.

Lemma machine_walk : walk machine 0x400000 T1 cow_page cow_info.
Proof. split; [exists udir; split; vm_compute; reflexivity | vm_compute; split; discriminate | vm_compute; reflexivity ..]. Qed.

Lemma kdir_lookup a t : tables kdir !! a = Some t -> t <> 0 -> a = 0%nat /\ t = KT.
Proof.
  change (tables kdir) with (KT :: replicate 1023 0). rewrite lookup_cons. destruct a as [|a]; [by intros [= <-]|].
  intros [-> _]%lookup_replicate. done.
Qed.

Lemma machine_kernel : kernel_ok machine phys kmap kdir.
Proof.
  assert (Hq : forall q, 0 <= q < frame_limit kmap -> Z.to_nat (q / 1024) = 0%nat).
  { intros q Hq. change (frame_limit kmap) with 64 in Hq. rewrite Z.div_small by lia. done. }
  split.
  - exact machine_frames.
  - exact machine_small.
  - reflexivity.
  - apply wf_check_spec. reflexivity.
  - reflexivity.
  - reflexivity.
  - intros q H. rewrite Hq by done. exists KT. split_and!; [done | done | vm_compute; by eexists].
  - intros a b t H1 H2 H0. destruct (kdir_lookup _ _ H1 H0), (kdir_lookup _ _ H2 H0). congruence.
  - intros q t p H _ Ht Hp. rewrite Hq in Ht by done. change (tables kdir) with (KT :: replicate 1023 0) in Ht.
    rewrite lookup_cons in Ht. injection Ht as <-.
    change (replicate 1024 no_page !! Z.to_nat (q mod 1024) = Some p) in Hp. by apply lookup_replicate in Hp as [-> _].
  - assert (Hall : all_below 64 (fun q => page_used kmap q || (bool_decide (page_tables machine !! (q * 0x1000) = None) &&
      bool_decide (directories machine !! (q * 0x1000) = None))) = true) by (vm_compute; reflexivity).
    intros q H Hu. pose proof (all_below_spec _ _ Hall q H) as Hx. simpl in Hx. rewrite Hu in Hx.
    apply andb_true_iff in Hx as [Ha Hb]. split; [by apply bool_decide_eq_true in Ha | by apply bool_decide_eq_true in Hb].
Qed.

(** ** Witnesses *)

Definition has_memory : nat -> bool := fun _ => true.
Definition no_files : Z -> M mmu (option Z) := fun _ => ret None.
Definition no_reads : Z -> Z -> Z -> M mmu unit := fun _ _ _ => ret tt.

(** A store to the shared page: the other address space keeps what it had. *)
Lemma cow_store_private_witness :
  exists s' m', cpu_store has_memory no_files no_reads 2 0 0x400000 [1; 2; 3] machine = Ret Resume s' /\
    frames_ok s' m' 0 /\ frame_refs_lock s' = 0 /\ current_directory s' = current_directory machine /\
    directories s' = directories machine /\
    forall t' i', view s' t' i' = if decide (t' = T1 /\ i' = Z.to_nat (page_idx 0x400000)) then Some [1; 2; 3] else view machine t' i'.
Proof.
  apply (cow_store_private has_memory no_files no_reads machine phys 0x400000 T1 cow_page cow_info).
  - exact machine_frames.
  - reflexivity.
  - exact machine_walk.
  - reflexivity.
  - discriminate.
  - right. reflexivity.
  - right. exists 1. split; [vm_compute; split; [discriminate | reflexivity] | vm_compute; reflexivity].
Defined.

(** The table of the first address space is copied into its second entry. *)
Lemma clone_table_copies_witness :
  exists r, first_free_run kmap (frame_limit kmap) 3 r /\
    if r =? 0 then exists s', mmu_clone_table has_memory 2 2 T1 (u32 (2 * 1024 * MMU_PAGE_SIZE)) D1 CLONE_COW machine =
      Ret (0, None) s' /\ page_tables s' = page_tables machine
    else exists s' m' phys DD', mmu_clone_table has_memory 2 2 T1 (u32 (2 * 1024 * MMU_PAGE_SIZE)) D1 CLONE_COW machine =
      Ret (r * 0x1000, Some phys) s' /\ frames_ok s' m' 0 /\
      directories s' !! D1 = Some DD' /\ tables DD' !! Z.to_nat 2 = Some (r * 0x1000) /\
      (forall j, (j < 1024)%nat -> view s' (r * 0x1000) j = view s' T1 j) /\ kept machine s'.
Proof.
  apply (clone_table_copies has_memory 1 2 T1 D1 CLONE_COW machine phys kmap kdir udir cow_table).
  - exact machine_kernel.
  - reflexivity.
  - discriminate.
  - reflexivity.
  - vm_compute. reflexivity.
  - vm_compute. reflexivity.
  - discriminate.
  - vm_compute. reflexivity.
  - vm_compute. split; [discriminate | reflexivity].
  - reflexivity.
  - apply Nat.leb_le. vm_compute. reflexivity.
Defined.

(** The run is not the case of failure. *)
Example clone_succeeds :
  match mmu_clone_table has_memory 2 2 T1 (u32 (2 * 1024 * MMU_PAGE_SIZE)) D1 CLONE_COW machine with
  | Ret (t, p) s' => (t, p, view s' t 0, frame_refs s' !! 5%nat)
  | _ => (0, None, None, None)
  end = (0x10000, Some 0x1000, Some [7; 7; 7], Some 3).
Proof. vm_compute. reflexivity. Qed.

(** The machine after an allocation of three kernel pages. *)
Definition allocated : mmu :=
  match kalloc has_memory 2 8200 0 CLONE_TABLE_OPTN 0 machine with Ret _ s => s | _ => machine end.

Lemma kalloc_kfree_witness :
  exists s2 m2 km2, kfree 0x10000 allocated = Ret tt s2 /\ kernel_buffers s2 = kernel_buffers machine /\
    frames_ok s2 m2 0 /\ memmaps s2 !! kernel_memmap = Some km2 /\
    (forall q, 0 <= q -> page_used km2 q = page_used kmap q) /\
    (forall f, 0 <= f < frame_limit phys -> page_used m2 f = page_used phys f) /\
    (forall t i, view s2 t i = view machine t i).
Proof.
  apply (kalloc_kfree has_memory 1 machine phys kmap kdir 8200 CLONE_TABLE_OPTN 0 0x10000 (Some 0x1000)).
  - exact machine_kernel.
  - reflexivity.
  - discriminate.
  - reflexivity.
  - constructor.
  - lia.
  - reflexivity.
  - reflexivity.
  - reflexivity.
  - reflexivity.
  - discriminate.
  - reflexivity.
  - apply Nat.leb_le. vm_compute. reflexivity.
  - vm_compute. reflexivity.
  - discriminate.
Defined.

(** The table of the first address space is given up; the second one keeps what
    it had. *)
Lemma destroy_table_releases_witness :
  exists s' m' v', destroy_table D1 1 machine = Ret tt s' /\ frames_ok s' m' 0 /\
    frame_limit m' = frame_limit phys /\
    (forall j, view s' T1 j = None) /\ (forall t' j, t' <> T1 -> view s' t' j = view machine t' j) /\
    page_tables s' !! T1 = Some v' /\ refs v' = (if refs cow_table =? 0 then 2 ^ 32 - 1 else refs cow_table - 1) /\
    kernel_buffers s' = kernel_buffers machine /\ directories s' = directories machine.
Proof.
  apply (destroy_table_releases machine phys D1 udir kdir 1 T1 0 cow_table).
  - exact machine_frames.
  - reflexivity.
  - vm_compute. reflexivity.
  - vm_compute. reflexivity.
  - discriminate.
  - vm_compute. reflexivity.
  - vm_compute. reflexivity.
  - discriminate.
  - vm_compute. reflexivity.
  - vm_compute. reflexivity.
  - vm_compute. split; [discriminate | reflexivity].
  - discriminate.
Defined.

(** The second page of that table was never mapped. *)
Lemma unmapped_access_witness :
  (forall n, cpu_load has_memory no_files no_reads n 0 0x401000 machine = NoFuel machine) /\
  (exists s', cpu_store has_memory no_files no_reads 2 0 0x401000 [1] machine = Ret Segv s' /\ frames s' = frames machine).
Proof.
  apply (unmapped_access has_memory no_files no_reads machine 0x401000 T1 no_page no_info
    (mkMtask 1 0 [] [] 0 default_memmap)).
  - split; [exists udir; split; vm_compute; reflexivity | vm_compute; split; discriminate | vm_compute; reflexivity ..].
  - reflexivity.
  - reflexivity.
  - reflexivity.
  - reflexivity.
  - reflexivity.
  - reflexivity.
  - reflexivity.
  - discriminate.
Defined.

(** A machine with 32 frames, all of which are in use. *)
Definition full_phys : memmap := mkMemmap [0xFFFFFFFF] 32 0.
Definition full_table : page_table_t :=
  mkTable (((fun f => mkPage true true true false false (Z.of_nat f)) <$> seq 1 31) ++ replicate 993 no_page)
    (replicate 1024 no_info) 0 false.
Definition full_machine : mmu :=
  mkMmu (<[physical_memmap := full_phys]> ∅) (replicate 32 1) 0 (<[T1 := full_table]> ∅)
    (<[D1 := mkDir (0 :: T1 :: replicate 1022 0) (replicate 1024 0)]> ∅) ∅ D1 0 default_memmap 0 [] [] 0 0 0 None.

Lemma alloc_frame_exhausted_witness :
  exists s', mmu_alloc_frame 0x420000 D1 full_machine = Ret 0 s' /\
    entry (page_tables s') T1 (Z.to_nat (page_idx 0x420000)) = Some (mapped no_page 0) /\
    frame_refs s' !! 0%nat = Some (u32 (1 + 1)).
Proof.
  apply (alloc_frame_exhausted full_machine full_phys D1 (mkDir (0 :: T1 :: replicate 1022 0) (replicate 1024 0)) T1 0x420000
    no_page no_info 1).
  - apply frames_check_spec; [reflexivity|]. vm_compute. reflexivity.
  - apply (all_below_spec _ (page_used full_phys)). vm_compute. reflexivity.
  - discriminate.
  - vm_compute. reflexivity.
  - vm_compute. reflexivity.
  - discriminate.
  - vm_compute. reflexivity.
  - reflexivity.
  - vm_compute. reflexivity.
  - reflexivity.
Defined.

(** An address space that shares the tables of another one, as that of a thread
    does, takes them along when it is destroyed: the count of the users starts
    at 0 and not at 1. *)
Example shared_table_freed :
  let tracked := machine <| kernel_buffers := [mkBuffer T1 3 0] |> in
  match (('(d, _) <- mmu_clone_directory has_memory 2 D1 CLONE_SHARE;; mmu_destroy_directory d) tracked) with
  | Ret _ s' => (view tracked T1 0, view s' T1 0, page_tables s' !! T1)
  | _ => (None, None, None)
  end = (Some [7; 7; 7], None, None).
Proof. vm_compute. reflexivity. Qed.
