(* ===== verification/Initrd.v ===== *)
(** * Initrd: the initial ram disk (kernel/initrd.c and tools/src/mkinitrd)

    [mkinitrd] builds a tree of nodes in its own memory, turns the pointers
    into offsets and writes the nodes and the files to an image; the kernel
    finds the image in memory, turns the offsets into pointers and mounts the
    tree.  The image and the memory of the kernel are bytes, laid out as the
    32-bit compiler lays out the structures. *)

From Stdlib Require Import Ascii.
From S2P Require Import Prelude Chain KState Vfs.

(** ** Bytes *)

(** Little-endian words. *)
Definition le32 (w : Z) : list Z := [w mod 256; w / 256 mod 256; w / 65536 mod 256; w / 16777216 mod 256].
Definition word_of (b0 b1 b2 b3 : Z) : Z := b0 + 256 * b1 + 65536 * b2 + 16777216 * b3.

Fixpoint bytes_of (s : string) : list Z :=
  match s with EmptyString => [] | String c s => Z.of_nat (nat_of_ascii c) :: bytes_of s end.

(** A string of a memory, up to its NUL. *)
Fixpoint string_at (b : list Z) : string :=
  match b with
  | [] => EmptyString
  | c :: b => if c =? 0 then EmptyString else String (ascii_of_nat (Z.to_nat c)) (string_at b)
  end.

(** The words of a node, after its name: the lock has three and the semaphore
    eight words. *)
Definition node_words (n : vfs_node) : list Z :=
  [n_uid n; n_gid n; n_mask n; n_flags n; n_inode n; n_major n; n_minor n; n_length n; n_impl n; n_refs n; n_data n;
   n_lock n; 0; 0; 0; 0; 0; 0; 0; 0; 0; 0;
   n_read n; n_write n; n_open n; n_close n; n_readdir n; n_finddir n; n_stat n; n_ioctl n; n_chown n;
   n_parent n; n_ptr n; n_next n].

Definition NAME_SIZE := 256.

Definition encode_name (name : string) : list Z :=
  bytes_of name ++ replicate (Z.to_nat NAME_SIZE - String.length name) 0.

Definition encode_node (n : vfs_node) : list Z := encode_name (n_name n) ++ concat (le32 <$> node_words n).

(** The node in 392 bytes. *)
Definition word_at_byte (b : list Z) (k : nat) : Z :=
  word_of (nth k b 0) (nth (k + 1) b 0) (nth (k + 2) b 0) (nth (k + 3) b 0).

Definition decode_node (b : list Z) : vfs_node :=
  let w k := word_at_byte b (256 + 4 * k) in
  mkNode (string_at (take 256 b)) (w 0%nat) (w 1%nat) (w 2%nat) (w 3%nat) (w 4%nat) (w 5%nat) (w 6%nat) (w 7%nat)
    (w 8%nat) (w 9%nat) (w 10%nat) (w 11%nat) (w 22%nat) (w 23%nat) (w 24%nat) (w 25%nat) (w 26%nat) (w 27%nat)
    (w 28%nat) (w 29%nat) (w 30%nat) (w 31%nat) (w 32%nat) (w 33%nat).

(** Offsets of the fields. *)
Definition OFF_LENGTH := 284.
Definition OFF_DATA := 296.
Definition OFF_READ := 344.
Definition OFF_PARENT := 380.
Definition OFF_PTR := 384.
Definition OFF_NEXT := 388.

(** [initrd_header_t] *)
Definition sizeof_header := 8.
Definition MAGIC := 0x42424242.

(** ** mkinitrd *)

(** Its memory: the nodes that have been initialised, [root] and [p_node], and
    the end of the array. *)
Record mkinitrd := mkMkinitrd { mk_nodes : gmap Z vfs_node; mk_root : Z; mk_p_node : Z; mk_limit : Z }.
#[export] Instance eta_mkinitrd : Eta mkinitrd := fun m =>
  mkMkinitrd (mk_nodes m) (mk_root m) (mk_p_node m) (mk_limit m).

Definition mk_load (p : Z) : M mkinitrd vfs_node := s <- get;; deref (mk_nodes s !! p).
Definition mk_upd (p : Z) (f : vfs_node -> vfs_node) : M mkinitrd unit :=
  n <- mk_load p;; modify (fun s => s <| mk_nodes := <[p := f n]> (mk_nodes s) |>).

(** [tmp = p_node++; *tmp = n]; a node behind the end of the array is not
    memory of the program. *)
Definition new_node (n : vfs_node) : M mkinitrd Z :=
  s <- get;;
  if mk_p_node s + sizeof_vfs_node <=? mk_limit s then
    modify (fun s => s <| mk_nodes := <[mk_p_node s := n]> (mk_nodes s) |>
                       <| mk_p_node := mk_p_node s + sizeof_vfs_node |>);;;
    ret (mk_p_node s)
  else fault.

(** The program's own [vfs_get_path_level]. *)
Definition mk_path_level (filename : string) (level : nat) : M mkinitrd (option string) :=
  assert (Vfs.strlen filename <=? MAX_PATH) "strlen(filename) <= MAX_PATH";;;
  ret (match level_start level (skip_slash filename) with
       | None => None
       | Some start => match take_component start with EmptyString => None | name => Some name end
       end).

(** [do p_path = vfs_get_path_level(path, levels++, p); while (p_path != NULL);
    levels--] *)
Fixpoint count_levels (fuel : nat) (path : string) (levels : nat) : M mkinitrd nat :=
  match fuel with
  | O => nofuel
  | S fuel => p <- mk_path_level path levels;;
              match p with Some _ => count_levels fuel path (S levels) | None => ret levels end
  end.

(** The loop over the children of a node for one with a name. *)
Fixpoint find_child (fuel : nat) (name : string) (tmp : Z) : M mkinitrd Z :=
  match fuel with
  | O => nofuel
  | S fuel =>
      if tmp =? 0 then ret 0 else
      n <- mk_load tmp;;
      if String.eqb (n_name n) name then ret tmp else find_child fuel name (n_next n)
  end.

(** [ptmp = &node->ptr; while ( *ptmp != NULL) ptmp = &( *ptmp)->next; *ptmp = tmp] *)
Fixpoint append_loop (fuel : nat) (q tmp : Z) : M mkinitrd unit :=
  match fuel with
  | O => nofuel
  | S fuel => n <- mk_load q;;
              if n_next n =? 0 then mk_upd q (fun n => n <| n_next := tmp |>) else append_loop fuel (n_next n) tmp
  end.
Definition append_child (node tmp : Z) : M mkinitrd unit :=
  n <- mk_load node;;
  if n_ptr n =? 0 then mk_upd node (fun n => n <| n_ptr := tmp |>)
  else s <- get;; append_loop (S (size (mk_nodes s))) (n_ptr n) tmp.

(** The main loop of [find_parent]; [i] is the level after [p_path]. *)
Fixpoint find_parent_loop (fuel : nat) (path : string) (levels i : nat) (node c : Z) (p_path : option string)
  : M mkinitrd (Z * Z) :=
  match fuel with
  | O => nofuel
  | S fuel =>
      match p_path with
      | None | Some EmptyString => ret (c, node)
      | Some name =>
          if negb (i <? levels)%nat then ret (c, node) else
          n <- mk_load node;;
          s <- get;;
          tmp <- find_child (S (size (mk_nodes s))) name (n_ptr n);;
          '(tmp, c) <- (if tmp =? 0 then
                          tmp <- new_node ((VFS_NODE_INITIALIZER FS_DIRECTORY) <| n_name := name |> <| n_parent := node |>);;
                          append_child node tmp;;; ret (tmp, c + 1)
                        else ret (tmp, c));;
          p_path <- mk_path_level path i;;
          find_parent_loop fuel path levels (S i) tmp c p_path
      end
  end.

(** [find_parent]: the number of nodes that were made, and the directory. *)
Definition find_parent (path : string) : M mkinitrd (Z * Z) :=
  let fuel := S (S (String.length path)) in
  levels <- count_levels fuel path 0;;
  p_path <- mk_path_level path 0;;
  s <- get;;
  find_parent_loop fuel path levels 1 (mk_root s) 0 p_path.

(** [filename]: back from the end to the last slash. *)
Fixpoint after_slash (n : nat) (path : string) : nat :=
  match n with
  | O => O
  | S m => if decide (String.get m path = Some slash) then n else after_slash m path
  end.
Fixpoint str_drop (n : nat) (s : string) : string :=
  match n, s with
  | S n, String _ s => str_drop n s
  | _, _ => s
  end.
Definition filename (path : string) : string := str_drop (after_slash (String.length path) path) path.

Section Mkinitrd.
(** The array that [malloc] gives, and the files of the host. *)
Context (array : Z) (host : string -> option (list Z)).

Definition file_length (data : list Z) : Z := u32 (Z.of_nat (length data)).

(** The first loop of [main]; the number of nodes, or nothing when a file is
    missing. *)
Fixpoint pack (n : nat) (args : list string) (nodes_count offset : Z) : M mkinitrd (option Z) :=
  match n with
  | O => ret (Some nodes_count)
  | S n =>
      match args with
      | path :: initrd_path :: args =>
          '(c, node) <- find_parent initrd_path;;
          match host path with
          | None => ret None
          | Some data =>
              new <- new_node ((VFS_NODE_INITIALIZER FS_FILE)
                <| n_name := filename initrd_path |> <| n_length := file_length data |> <| n_data := u32 offset |>
                <| n_parent := node |>);;
              append_child node new;;;
              pack n args (nodes_count + c + 1) (s32 (offset + file_length data))
          end
      | _ => fault
      end
  end.

(** The second loop: pointers become offsets in the image. *)
Definition to_offset (root p : Z) : Z := if p =? 0 then 0 else u32 (u32 (p - root) + sizeof_header).
Definition relocate (root offset : Z) (n : vfs_node) : vfs_node :=
  n <| n_data := if negb (n_length n =? 0) then u32 (n_data n + offset) else n_data n |>
    <| n_ptr := to_offset root (n_ptr n) |> <| n_parent := to_offset root (n_parent n) |>
    <| n_next := to_offset root (n_next n) |>.

Fixpoint relocate_loop (n : nat) (p offset : Z) : M mkinitrd unit :=
  match n with
  | O => ret tt
  | S n => s <- get;; mk_upd p (relocate (mk_root s) offset);;; relocate_loop n (p + sizeof_vfs_node) offset
  end.

(** [fwrite(root, sizeof(vfs_node_t), nodes_count, wstream)] *)
Fixpoint write_nodes (n : nat) (p : Z) : M mkinitrd (list Z) :=
  match n with
  | O => ret []
  | S n => v <- mk_load p;; rest <- write_nodes n (p + sizeof_vfs_node);; ret (encode_node v ++ rest)
  end.

(** The last loop: the content of the files. *)
Fixpoint write_files (n : nat) (args : list string) : M mkinitrd (list Z) :=
  match n with
  | O => ret []
  | S n =>
      match args with
      | path :: _ :: args => data <- deref (host path);; rest <- write_files n args;; ret (data ++ rest)
      | _ => fault
      end
  end.

(** [main]: the exit code and the image; [args] starts at [argv[1]]. *)
Definition main (args : list string) : M mkinitrd (Z * list Z) :=
  let sz := (length args / 2)%nat in
  if array =? 0 then ret (-1, []) else
  modify (fun s => s <| mk_p_node := array |> <| mk_limit := array + sizeof_vfs_node * Z.of_nat sz * 5 |>);;;
  root <- new_node (VFS_NODE_INITIALIZER FS_DIRECTORY);;
  modify (fun s => s <| mk_root := root |>);;;
  o <- pack sz args 1 0;;
  match o with
  | None => ret (-1, [])
  | Some nodes_count =>
      let offset := sizeof_header + sizeof_vfs_node * nodes_count in
      relocate_loop (Z.to_nat nodes_count) root offset;;;
      nodes <- write_nodes (Z.to_nat nodes_count) root;;
      files <- write_files sz args;;
      ret (0, le32 MAGIC ++ le32 nodes_count ++ nodes ++ files)
  end.
End Mkinitrd.

(** ** The kernel's side *)

(** The memory from [r_offset] on, and [root]. *)
Record ramdisk := mkRam { r_offset : Z; r_bytes : list Z; r_root : Z }.
#[export] Instance eta_ramdisk : Eta ramdisk := fun r => mkRam (r_offset r) (r_bytes r) (r_root r).

Definition ram_index (r : ramdisk) (a : Z) : option nat :=
  if r_offset r <=? a then Some (Z.to_nat (a - r_offset r)) else None.
Definition ld8 (a : Z) : M ramdisk Z := r <- get;; deref (ram_index r a ≫= fun k => r_bytes r !! k).
Definition st8 (a b : Z) : M ramdisk unit :=
  _ <- ld8 a;; modify (fun r => r <| r_bytes := <[Z.to_nat (a - r_offset r) := b]> (r_bytes r) |>).
Definition ld32 (a : Z) : M ramdisk Z :=
  b0 <- ld8 a;; b1 <- ld8 (a + 1);; b2 <- ld8 (a + 2);; b3 <- ld8 (a + 3);; ret (word_of b0 b1 b2 b3).
Definition st32 (a w : Z) : M ramdisk unit :=
  st8 a (w mod 256);;; st8 (a + 1) (w / 256 mod 256);;; st8 (a + 2) (w / 65536 mod 256);;; st8 (a + 3) (w / 16777216 mod 256).

(** [memcpy] from [a]. *)
Fixpoint read_bytes (n : nat) (a : Z) : M ramdisk (list Z) :=
  match n with
  | O => ret []
  | S n => b <- ld8 a;; rest <- read_bytes n (a + 1);; ret (b :: rest)
  end.

Definition initrd_read (node offset size : Z) : M ramdisk (Z * list Z) :=
  assert (negb (node =? 0)) "node != NULL";;;
  length <- ld32 (node + OFF_LENGTH);;
  if length <? offset then ret (0, []) else
  let size := if length <? u32 (offset + size) then u32 (length - offset) else size in
  data <- ld32 (node + OFF_DATA);;
  bytes <- read_bytes (Z.to_nat size) (u32 (data + offset));;
  ret (size, bytes).

(** The address of [initrd_read]. *)
Definition INITRD_READ := 0x100400.

(** A pointer at [a] that is not NULL is moved. *)
Definition fix_pointer (a offset : Z) : M ramdisk unit :=
  v <- ld32 a;; if negb (v =? 0) then st32 a (u32 (v + offset)) else ret tt.

Definition init_node (p offset : Z) : M ramdisk unit :=
  fix_pointer (p + OFF_PTR) offset;;;
  fix_pointer (p + OFF_NEXT) offset;;;
  fix_pointer (p + OFF_PARENT) offset;;;
  length <- ld32 (p + OFF_LENGTH);;
  if 0 <? length then
    data <- ld32 (p + OFF_DATA);;
    st32 (p + OFF_DATA) (u32 (data + offset));;;
    st32 (p + OFF_READ) INITRD_READ
  else ret tt.

Fixpoint init_loop (fuel : nat) (i p offset : Z) : M ramdisk unit :=
  sz <- ld32 (offset + 4);;
  if negb (i <? sz) then ret tt else
  match fuel with
  | O => nofuel
  | S fuel => init_node p offset;;; init_loop fuel (i + 1) (p + sizeof_vfs_node) offset
  end.

Definition initrd_init (offset : Z) : M ramdisk Z :=
  let root := offset + sizeof_header in
  modify (fun r => r <| r_root := root |>);;;
  sz <- ld32 (offset + 4);;
  init_loop (Z.to_nat sz) 0 root offset;;;
  ret root.

(** The node at [p] as the rest of the kernel sees it. *)
Definition node_at (r : ramdisk) (p : Z) : vfs_node :=
  decode_node (take 392 (drop (Z.to_nat (p - r_offset r)) (r_bytes r))).
