(* ===== verification/InitrdTree.v ===== *)
(** * InitrdTree: what mkinitrd builds (tools/src/mkinitrd)

    The tree of the image as a list of entries that know their parents, which
    every path of a packed file extends, and the proof that the linked nodes of
    [mkinitrd] are such a list. *)

From S2P Require Import Prelude Chain KState Vfs Initrd.

(** ** The tree *)

Inductive kind := Dir | File (k_off k_len : Z).
Record ent := mkEnt { e_parent : nat; e_name : string; e_kind : kind }.

(** The entries below the entry [i], the oldest first; entry 0 is the root. *)
Definition is_kid (ns : list ent) (i j : nat) : Prop := j <> 0%nat /\ e_parent <$> ns !! j = Some i.
#[export] Instance is_kid_dec ns i j : Decision (is_kid ns i j).
Proof. unfold is_kid. apply _. Defined.
Definition kids (ns : list ent) (i : nat) : list nat := filter (is_kid ns i) (seq 0 (length ns)).

Definition is_named (ns : list ent) (name : string) (j : nat) : bool :=
  match ns !! j with Some e => String.eqb (e_name e) name | None => false end.
Definition child (ns : list ent) (i : nat) (name : string) : option nat := List.find (is_named ns name) (kids ns i).

(** Where a list of names leads. *)
Fixpoint resolve (ns : list ent) (i : nat) (names : list string) : option nat :=
  match names with
  | [] => Some i
  | name :: names => match child ns i name with Some j => resolve ns j names | None => None end
  end.

(** The directories of a path, made where they are missing. *)
Fixpoint ensure (ns : list ent) (i : nat) (names : list string) : list ent * nat :=
  match names with
  | [] => (ns, i)
  | name :: names =>
      match child ns i name with
      | Some j => ensure ns j names
      | None => ensure (ns ++ [mkEnt i name Dir]) (length ns) names
      end
  end.

(** The files [l], each with the components of its path and its length, the
    first one at [off]. *)
Fixpoint packed (ns : list ent) (off : Z) (l : list (list string * Z)) : list ent :=
  match l with
  | [] => ns
  | (names, len) :: l =>
      let '(ns', d) := ensure ns 0 (removelast names) in
      packed (ns' ++ [mkEnt d (List.last names "") (File off len)]) (off + len) l
  end.

Definition root_ent : ent := mkEnt 0 "" Dir.

(** *** Well-formed lists *)

Definition tree_wf (ns : list ent) : Prop :=
  (0 < length ns)%nat /\ forall j e, ns !! j = Some e -> (e_parent e < length ns /\ (j <> 0 -> e_parent e < j))%nat.

Lemma tree_wf_root : tree_wf [root_ent].
Proof. split; [simpl; lia|]. intros [|j] e; simpl; [by intros [= <-]; simpl; lia | done]. Qed.

Lemma tree_wf_snoc ns x : tree_wf ns -> (e_parent x < length ns)%nat -> tree_wf (ns ++ [x]).
Proof.
  intros [H0 H] Hx. split; rewrite length_app; [lia|]. intros j e. rewrite lookup_app_Some.
  intros [Hj|[? Hj]]; [specialize (H _ _ Hj); simpl; lia|].
  apply list_lookup_singleton_Some in Hj as [_ <-]. simpl. lia.
Qed.

Lemma kids_elem ns i j : j ∈ kids ns i <-> is_kid ns i j /\ (j < length ns)%nat.
Proof. unfold kids. rewrite list_elem_of_filter, elem_of_seq. split; intros [? ?]; (split; [done | lia]). Qed.

Lemma kids_lt ns i j : j ∈ kids ns i -> (j < length ns)%nat.
Proof. by intros [_ ?]%kids_elem. Qed.

Lemma kids_NoDup ns i : NoDup (kids ns i).
Proof. apply NoDup_filter, NoDup_seq. Qed.

Lemma filter_same {A} (P Q : A -> Prop) `{!forall x, Decision (P x), !forall x, Decision (Q x)} (l : list A) :
  (forall x, x ∈ l -> P x <-> Q x) -> filter P l = filter Q l.
Proof.
  induction l as [|x l IH]; intros Hl; [done|]. rewrite !filter_cons. rewrite IH by (intros; apply Hl; by right).
  specialize (Hl x ltac:(left)). repeat case_decide; naive_solver.
Qed.

Lemma find_none_each {A} (f : A -> bool) (l : list A) : (forall x, x ∈ l -> f x = false) -> List.find f l = None.
Proof. induction l as [|x l IH]; intros H; simpl; [done|]. rewrite (H x) by left. apply IH. intros. apply H. by right. Qed.

Lemma kids_snoc ns x i : tree_wf ns ->
  kids (ns ++ [x]) i = kids ns i ++ (if decide (e_parent x = i) then [length ns] else []).
Proof.
  intros [H0 _]. unfold kids. rewrite length_app, seq_app. simpl. rewrite filter_app. apply (f_equal2 app).
  - apply filter_same. intros j Hj. apply elem_of_seq in Hj. unfold is_kid. by rewrite lookup_app_l by lia.
  - assert (is_kid (ns ++ [x]) i (length ns) <-> e_parent x = i) as Hk.
    { unfold is_kid. rewrite lookup_app_r, Nat.sub_diag by lia. simpl. split; [by intros [_ [= ?]] | intros ->; split; [lia | done]]. }
    rewrite filter_cons, filter_nil. do 2 case_decide; (done || naive_solver).
Qed.

Lemma kids_fresh ns : tree_wf ns -> kids ns (length ns) = [].
Proof.
  intros [_ H]. destruct (kids ns (length ns)) as [|j l] eqn:E; [done|].
  assert (j ∈ kids ns (length ns)) as Hj by (rewrite E; left). apply kids_elem in Hj as [[_ Hj] _].
  destruct (ns !! j) as [e|] eqn:Ee; [|done]. injection Hj as Hj. specialize (H _ _ Ee). lia.
Qed.

(** What is found stays where it is. *)
Lemma child_snoc ns x i name j : tree_wf ns -> child ns i name = Some j -> child (ns ++ [x]) i name = Some j.
Proof.
  intros Hwf. unfold child. rewrite kids_snoc by done. rewrite find_app.
  assert (List.find (is_named (ns ++ [x]) name) (kids ns i) = List.find (is_named ns name) (kids ns i)) as ->; [|by intros ->].
  assert (H : forall l, (forall j, j ∈ l -> (j < length ns)%nat) -> List.find (is_named (ns ++ [x]) name) l = List.find (is_named ns name) l).
  { induction l as [|k l IH]; intros Hl; [done|]. simpl. unfold is_named at 1 3. rewrite lookup_app_l by (apply Hl; left).
    rewrite IH by (intros; apply Hl; by right). done. }
  apply H. intros k. apply kids_lt.
Qed.

Lemma child_new ns x : tree_wf ns -> child ns (e_parent x) (e_name x) = None ->
  child (ns ++ [x]) (e_parent x) (e_name x) = Some (length ns).
Proof.
  intros Hwf. unfold child. rewrite kids_snoc by done. rewrite decide_True by done. rewrite find_app. intros Hn.
  assert (List.find (is_named (ns ++ [x]) (e_name x)) (kids ns (e_parent x)) = None) as ->.
  { apply find_none_each. intros j Hj. pose proof (find_none _ _ Hn j ltac:(by apply list_elem_of_In)) as H.
    unfold is_named in *. by rewrite lookup_app_l by (by eapply kids_lt). }
  simpl. unfold is_named. rewrite lookup_app_r, Nat.sub_diag by lia. simpl. by rewrite String.eqb_refl.
Qed.

Lemma child_Some ns i name j : child ns i name = Some j ->
  exists e, ns !! j = Some e /\ e_parent e = i /\ e_name e = name /\ j <> 0%nat.
Proof.
  intros [Hj Hn]%find_some. apply list_elem_of_In, kids_elem in Hj as [[H0 Hp] _]. unfold is_named in Hn.
  destruct (ns !! j) as [e|]; [|done]. exists e. apply String.eqb_eq in Hn. injection Hp as Hp. done.
Qed.

Lemma child_lt ns i name j : child ns i name = Some j -> (j < length ns)%nat.
Proof. intros (e & He & _)%child_Some. by eapply lookup_lt_Some. Qed.

Lemma resolve_snoc ns x names : tree_wf ns -> forall i j, resolve ns i names = Some j -> resolve (ns ++ [x]) i names = Some j.
Proof.
  intros Hwf. induction names as [|name names IH]; intros i j; simpl; [done|].
  destruct (child ns i name) as [k|] eqn:E; [|done]. rewrite (child_snoc _ _ _ _ _ Hwf E). apply IH.
Qed.

Lemma resolve_app ns i names1 j names2 :
  resolve ns i names1 = Some j -> resolve ns i (names1 ++ names2) = resolve ns j names2.
Proof.
  revert i. induction names1 as [|name names1 IH]; intros i; simpl; [by intros [= ->]|].
  destruct (child ns i name); [apply IH | done].
Qed.

Lemma resolve_last ns i names name j : resolve ns i (names ++ [name]) = Some j <->
  exists k, resolve ns i names = Some k /\ child ns k name = Some j.
Proof.
  revert i. induction names as [|x names IH]; intros i; simpl.
  - split; [intros H; exists i; split; [done|]; by destruct (child ns i name) | by intros (k & [= <-] & ->)].
  - destruct (child ns i x); [apply IH | split; [done | by intros (k & ? & _)]].
Qed.

(** A node is on one path only. *)
Lemma resolve_inj ns a : forall b j, resolve ns 0 a = Some j -> resolve ns 0 b = Some j -> a = b.
Proof.
  induction a as [|x a IH] using rev_ind; intros b j Ha Hb; destruct b as [|y b _] using rev_ind; try done.
  - simpl in Ha. injection Ha as <-. apply resolve_last in Hb as (k & _ & (e & _ & _ & _ & ?)%child_Some). done.
  - simpl in Hb. injection Hb as <-. apply resolve_last in Ha as (k & _ & (e & _ & _ & _ & ?)%child_Some). done.
  - apply resolve_last in Ha as (k & Ha & (e & He & Hp & Hn & _)%child_Some).
    apply resolve_last in Hb as (k' & Hb & (e' & He' & Hp' & Hn' & _)%child_Some).
    rewrite He in He'. injection He' as <-. subst. f_equal. by eapply IH.
Qed.

Lemma child_snoc_inv ns x i name j : tree_wf ns -> child (ns ++ [x]) i name = Some j ->
  child ns i name = Some j \/ (j = length ns /\ i = e_parent x /\ name = e_name x).
Proof.
  intros Hwf Hc. destruct (child ns i name) as [k|] eqn:E.
  - left. rewrite (child_snoc _ x _ _ _ Hwf E) in Hc. done.
  - right. pose proof (child_Some _ _ _ _ Hc) as (e & He & Hp & Hn & Hj).
    unfold child in Hc. rewrite kids_snoc, find_app in Hc by done.
    assert (List.find (is_named (ns ++ [x]) name) (kids ns i) = None) as Hnone.
    { apply find_none_each. intros k Hk. pose proof (find_none _ _ E k ltac:(by apply list_elem_of_In)) as H.
      unfold is_named in *. by rewrite lookup_app_l by (by eapply kids_lt). }
    rewrite Hnone in Hc. case_decide as Hd; [|done]. simpl in Hc. unfold is_named in Hc.
    rewrite lookup_app_r, Nat.sub_diag in Hc by lia. simpl in Hc. destruct (String.eqb_spec (e_name x) name) as [En|]; [|done].
    injection Hc as <-. done.
Qed.

Lemma resolve_snoc_inv ns x names : tree_wf ns -> (e_parent x < length ns)%nat -> forall i j,
  resolve (ns ++ [x]) i names = Some j -> (i < length ns)%nat ->
  resolve ns i names = Some j \/
  (j = length ns /\ exists pre, names = pre ++ [e_name x] /\ resolve ns i pre = Some (e_parent x)).
Proof.
  intros Hwf Hx. induction names as [|name names IH] using rev_ind; intros i j; simpl; [by left|].
  intros (k & Hk & Hc)%resolve_last Hi. destruct (IH i k Hk Hi) as [Hk'|(-> & _)].
  - destruct (child_snoc_inv _ _ _ _ _ Hwf Hc) as [Hc'|(-> & -> & ->)].
    + left. apply resolve_last. by exists k.
    + right. split; [done|]. by exists names.
  - apply child_Some in Hc as (e & He & Hp & _).
    destruct (tree_wf_snoc _ _ Hwf Hx) as [_ Hb]. exfalso.
    assert (j ∈ kids (ns ++ [x]) (length ns)) as Hj.
    { apply kids_elem. split; [|by eapply lookup_lt_Some]. split; [|by rewrite He; simpl; f_equal].
      intros ->. pose proof Hwf as [H0 Hb']. rewrite lookup_app_l in He by done. specialize (Hb' _ _ He). lia. }
    rewrite kids_snoc, kids_fresh, decide_False in Hj by (done || lia). by apply list_elem_of_In in Hj.
Qed.

(** *** What is in the tree *)

Definition strict_prefix {A} (a b : list A) : Prop := exists x c, b = a ++ x :: c.

(** The files are at the paths [files], and the directories above the paths
    [paths]. *)
Definition accounted (files paths : list (list string)) (ns : list ent) : Prop :=
  forall names j e, resolve ns 0 names = Some j -> ns !! j = Some e ->
    match e_kind e with
    | Dir => names = [] \/ exists f, f ∈ paths /\ strict_prefix names f
    | File _ _ => names ∈ files
    end.

Definition is_dir (ns : list ent) (i : nat) : Prop := e_kind <$> ns !! i = Some Dir.

(** The file of a path, below directories. *)
Definition found (ns : list ent) (names : list string) (off len : Z) : Prop :=
  (exists j, resolve ns 0 names = Some j /\ e_kind <$> ns !! j = Some (File off len)) /\
  forall pre, strict_prefix pre names -> exists i, resolve ns 0 pre = Some i /\ is_dir ns i.

(** The tree grows. *)
Definition grows (ns ns' : list ent) : Prop :=
  (forall j e, ns !! j = Some e -> ns' !! j = Some e) /\
  (forall i names j, resolve ns i names = Some j -> resolve ns' i names = Some j).

#[export] Instance grows_preorder : PreOrder grows.
Proof. split; [by intros ns; split|]. intros a b c [H1 H2] [H3 H4]. split; eauto. Qed.

Lemma grows_snoc ns x : tree_wf ns -> grows ns (ns ++ [x]).
Proof. intros Hwf. split; [intros; by apply lookup_app_l_Some | intros; by apply resolve_snoc]. Qed.

Lemma grows_is_dir ns ns' i : grows ns ns' -> is_dir ns i -> is_dir ns' i.
Proof. intros [H _]. unfold is_dir. destruct (ns !! i) eqn:E; [|done]. by rewrite (H _ _ E). Qed.

Lemma grows_found ns ns' names off len : grows ns ns' -> found ns names off len -> found ns' names off len.
Proof.
  intros Hg [(j & Hr & Hk) Hd]. pose proof Hg as [H1 H2]. split.
  - exists j. split; [by apply H2|]. destruct (ns !! j) eqn:E; [|done]. by rewrite (H1 _ _ E).
  - intros pre Hp. destruct (Hd pre Hp) as (i & Hi & Hdi). exists i. split; [by apply H2 | by eapply grows_is_dir].
Qed.

Lemma accounted_snoc files paths ns x path :
  tree_wf ns -> accounted files paths ns -> (e_parent x < length ns)%nat -> resolve ns 0 path = Some (e_parent x) ->
  match e_kind x with
  | Dir => exists f, f ∈ paths /\ strict_prefix (path ++ [e_name x]) f
  | File _ _ => path ++ [e_name x] ∈ files
  end -> accounted files paths (ns ++ [x]).
Proof.
  intros Hwf Hacc Hx Hpath Hkind names j e Hr Hj.
  destruct (resolve_snoc_inv _ _ _ Hwf Hx _ _ Hr (proj1 Hwf)) as [Hr'|(-> & pre & -> & Hpre)].
  - apply (Hacc _ j); [done|]. destruct (lookup_lt_is_Some_2 ns j) as [e' He'].
    { destruct names as [|y names _] using rev_ind; [simpl in Hr'; injection Hr' as <-; apply Hwf|].
      apply resolve_last in Hr' as (k & _ & Hc). by eapply child_lt. }
    rewrite (lookup_app_l_Some _ _ _ _ He') in Hj. congruence.
  - rewrite lookup_app_r, Nat.sub_diag in Hj by lia. injection Hj as <-.
    rewrite (resolve_inj _ _ _ _ Hpre Hpath). destruct (e_kind x); [by right | done].
Qed.

Lemma ensure_ok files paths cur names : forall ns i pre ns' d,
  tree_wf ns -> (i < length ns)%nat -> resolve ns 0 pre = Some i -> accounted files paths ns ->
  cur ∈ paths -> strict_prefix (pre ++ names) cur -> ensure ns i names = (ns', d) ->
  tree_wf ns' /\ (d < length ns')%nat /\ resolve ns' 0 (pre ++ names) = Some d /\ grows ns ns' /\ accounted files paths ns'.
Proof.
  induction names as [|name names IH]; intros ns i pre ns' d Hwf Hi Hpre Hacc Hcur Hsp; simpl.
  - intros [= <- <-]. by rewrite app_nil_r.
  - rewrite (cons_middle name), app_assoc in Hsp |- *. destruct (child ns i name) as [j|] eqn:Ec; intros He.
    + apply (IH ns j (pre ++ [name])); try done; [by eapply child_lt|]. apply resolve_last. by exists i.
    + set (x := mkEnt i name Dir). pose proof (tree_wf_snoc ns x Hwf Hi) as Hwf'.
      assert (Hc : resolve (ns ++ [x]) 0 (pre ++ [name]) = Some (length ns)).
      { apply resolve_last. exists i. split; [by apply resolve_snoc | by apply (child_new ns x)]. }
      destruct (IH (ns ++ [x]) (length ns) (pre ++ [name]) ns' d) as (H1 & H2 & H3 & H4 & H5); try done.
      * rewrite length_app. simpl. lia.
      * eapply accounted_snoc; try done. exists cur. split; [done|]. destruct Hsp as (y & c & ->). simpl.
        destruct names as [|z names]; [exists y, c; by rewrite app_nil_r|]. exists z, (names ++ y :: c). by rewrite <- app_assoc.
      * split_and!; try done. etrans; [by apply grows_snoc | done].
Qed.

(** No path leads to or through another one. *)
Definition prefix_free (l : list (list string)) : Prop :=
  forall i j a b, l !! i = Some a -> l !! j = Some b -> i <> j -> ~ a `prefix_of` b.

Lemma strict_prefix_of {A} (a b : list A) : strict_prefix a b -> a `prefix_of` b.
Proof. intros (x & c & ->). by exists (x :: c). Qed.

Lemma strict_prefix_irrefl {A} (a : list A) : ~ strict_prefix a a.
Proof. intros (x & c & E). apply (f_equal length) in E. rewrite length_app in E. simpl in E. lia. Qed.

Definition total (l : list (list string * Z)) : Z := foldr (fun x n => x.2 + n) 0 l.

Lemma accounted_weaken files files' paths paths' ns :
  (forall a, a ∈ files -> a ∈ files') -> (forall a, a ∈ paths -> a ∈ paths') ->
  accounted files paths ns -> accounted files' paths' ns.
Proof.
  intros H1 H2 H names j e Hr He. specialize (H names j e Hr He). destruct (e_kind e); [|by apply H1].
  destruct H as [->|(f & Hf & Hs)]; [by left | right; exists f; split; [by apply H2 | done]].
Qed.

(** One file more. *)
Lemma add_file done names ns ns' d off len :
  tree_wf ns -> accounted done done ns -> prefix_free (done ++ [names]) -> names <> [] ->
  ensure ns 0 (removelast names) = (ns', d) ->
  let x := mkEnt d (List.last names "") (File off len) in
  tree_wf (ns' ++ [x]) /\ grows ns (ns' ++ [x]) /\ accounted (done ++ [names]) (done ++ [names]) (ns' ++ [x]) /\
  found (ns' ++ [x]) names off len.
Proof.
  intros Hwf Hacc Hpf Hne He x. pose proof (app_removelast_last "" Hne) as Hsplit.
  set (dirs := removelast names) in *. set (name := List.last names "") in *.
  assert (Hlast : (done ++ [names]) !! length done = Some names) by (by rewrite lookup_app_r, Nat.sub_diag by lia).
  assert (Hother : forall f, f ∈ done -> exists i, (done ++ [names]) !! i = Some f /\ i <> length done).
  { intros f (i & Hi)%list_elem_of_lookup. exists i. split; [by apply lookup_app_l_Some|]. apply lookup_lt_Some in Hi. lia. }
  destruct (ensure_ok done (done ++ [names]) names dirs ns 0 [] ns' d) as (W1 & W2 & W3 & W4 & W5); try done.
  { apply Hwf. }
  { eapply accounted_weaken; [| |exact Hacc]; set_solver. }
  { set_solver. }
  { exists name, []. done. }
  simpl in W3. pose proof (tree_wf_snoc ns' x W1 W2) as Hwf'.
  assert (Hnew : child ns' d name = None).
  { destruct (child ns' d name) as [j|] eqn:Ec; [|done]. exfalso.
    assert (resolve ns' 0 names = Some j) as Hr by (rewrite Hsplit; apply resolve_last; by exists d).
    destruct (child_Some _ _ _ _ Ec) as (e & Hj & _). specialize (W5 _ _ _ Hr Hj). destruct (e_kind e).
    - destruct W5 as [?|(f & [Hf| ->%list_elem_of_singleton]%elem_of_app & Hs)]; [done | | by apply (strict_prefix_irrefl names)].
      destruct (Hother f Hf) as (i & Hi & Hi'). apply (Hpf (length done) i names f); [done | done | lia | by apply strict_prefix_of].
    - destruct (Hother _ W5) as (i & Hi & Hi'). by apply (Hpf i (length done) names names). }
  assert (Hfound : resolve (ns' ++ [x]) 0 names = Some (length ns')).
  { rewrite Hsplit. apply resolve_last. exists d. split; [by apply resolve_snoc | by apply (child_new ns' x)]. }
  split_and!; [done | etrans; [done | by apply grows_snoc] | |split].
  - eapply (accounted_snoc _ _ _ _ dirs); try done; [|simpl; fold name; rewrite <- Hsplit; set_solver].
    eapply accounted_weaken; [| |exact W5]; set_solver.
  - exists (length ns'). split; [done|]. by rewrite lookup_app_r, Nat.sub_diag by lia.
  - intros pre Hp. pose proof Hp as (y & c & Hyc).
    assert (exists i, resolve ns' 0 pre = Some i) as [i Hi].
    { assert (pre `prefix_of` dirs) as [r ->].
      { rewrite Hsplit in Hyc. destruct c as [|z c _] using rev_ind.
        - apply app_inj_tail in Hyc as [-> _]. done.
        - rewrite app_comm_cons, app_assoc in Hyc. apply app_inj_tail in Hyc as [-> _]. by exists (y :: c). }
      clear -W3. revert W3. generalize 0%nat. induction pre as [|p pre IH]; intros k; simpl; [by eauto|].
      destruct (child ns' k p); [apply IH | done]. }
    exists i. split; [by apply resolve_snoc|]. apply (grows_is_dir ns'); [by apply grows_snoc|].
    assert (i < length ns')%nat as Hlt.
    { destruct pre as [|p pre _] using rev_ind; [simpl in Hi; injection Hi as <-; apply W1|].
      apply resolve_last in Hi as (k & _ & Hc). by eapply child_lt. }
    destruct (lookup_lt_is_Some_2 _ _ Hlt) as [e Hx]. unfold is_dir. rewrite Hx. simpl. f_equal.
    specialize (W5 _ _ _ Hi Hx). destruct (e_kind e); [done|]. exfalso.
    destruct (Hother _ W5) as (k & Hk & Hk'). apply (Hpf k (length done) pre names); [done | done | done | by apply strict_prefix_of].
Qed.

Lemma prefix_free_app l1 l2 : prefix_free (l1 ++ l2) -> prefix_free l1.
Proof. intros H i j a b Hi Hj. apply H; by apply lookup_app_l_Some. Qed.

Lemma packed_found l : forall ns off done,
  tree_wf ns -> accounted done done ns -> prefix_free (done ++ l.*1) -> Forall (fun x => x.1 <> []) l ->
  tree_wf (packed ns off l) /\ grows ns (packed ns off l) /\
  forall k names len, l !! k = Some (names, len) -> found (packed ns off l) names (off + total (take k l)) len.
Proof.
  induction l as [|[names len] l IH]; intros ns off done Hwf Hacc Hpf Hne.
  { split_and!; [done | done|]. by intros [|k]. }
  apply Forall_cons in Hne as [Hn Hne]. simpl in *. destruct (ensure ns 0 (removelast names)) as [ns' d] eqn:He.
  rewrite (cons_middle names), app_assoc in Hpf.
  destruct (add_file done names ns ns' d off len) as (A1 & A2 & A3 & A4); try done; [by eapply prefix_free_app|].
  set (ns1 := ns' ++ [_]) in *. destruct (IH ns1 (off + len) (done ++ [names])) as (B1 & B2 & B3); try done.
  split_and!; [done | by etrans|]. intros [|k] nm ln; simpl.
  - intros [= <- <-]. rewrite Z.add_0_r. by eapply grows_found.
  - intros Hk. rewrite Z.add_assoc. by apply B3.
Qed.
