(* ===== verification/InitrdBuild.v ===== *)
(** * InitrdBuild: the nodes of mkinitrd (tools/src/mkinitrd)

    The linked nodes that [find_parent] and [main] build are the tree of
    InitrdTree.v, in mkinitrd's memory and, after the pointers have been
    changed, at every other place. *)

From Stdlib Require Import Ascii.
From S2P Require Import Prelude Chain KState Vfs Initrd InitrdTree.

Notation chain := (Chain.chain n_next).

(** ** Nodes that represent a tree *)

Definition addr (base : Z) (i : nat) : Z := base + sizeof_vfs_node * Z.of_nat i.

Lemma addr_inj base i j : addr base i = addr base j -> i = j.
Proof. unfold addr, sizeof_vfs_node. lia. Qed.
Lemma addr_pos base i : 0 < base -> addr base i <> 0.
Proof. unfold addr, sizeof_vfs_node. lia. Qed.
Lemma addr_0 base : addr base 0 = base.
Proof. unfold addr. lia. Qed.
Lemma addr_S base i : addr base (S i) = addr base i + sizeof_vfs_node.
Proof. unfold addr. lia. Qed.

(** The node of an entry, without its links. *)
Definition proto (base : Z) (i : nat) (e : ent) : vfs_node :=
  let n := (VFS_NODE_INITIALIZER (match e_kind e with Dir => FS_DIRECTORY | File _ _ => FS_FILE end))
    <| n_name := e_name e |> <| n_parent := if decide (i = 0%nat) then 0 else addr base (e_parent e) |> in
  match e_kind e with Dir => n | File off len => n <| n_length := len |> <| n_data := off |> end.

Definition linked (n m : vfs_node) : Prop := m = n <| n_ptr := n_ptr m |> <| n_next := n_next m |>.

(** NULL or one of the nodes. *)
Definition link_ok (base : Z) (ns : list ent) (p : Z) : Prop := p = 0 \/ exists j, (j < length ns)%nat /\ p = addr base j.

Record heap_rep (base : Z) (h : gmap Z vfs_node) (ns : list ent) : Prop := {
  hr_dom : forall p, is_Some (h !! p) <-> exists i, (i < length ns)%nat /\ p = addr base i;
  hr_node : forall i e, ns !! i = Some e -> exists n, h !! addr base i = Some n /\ linked (proto base i e) n /\
    chain h (n_ptr n) (addr base <$> kids ns i);
  hr_links : forall p n, h !! p = Some n -> link_ok base ns (n_ptr n) /\ link_ok base ns (n_next n)
}.

Lemma linked_ptr n m p : linked n m -> linked n (m <| n_ptr := p |>).
Proof. unfold linked. intros ->. done. Qed.
Lemma linked_next n m p : linked n m -> linked n (m <| n_next := p |>).
Proof. unfold linked. intros ->. done. Qed.

Section Heap.
Context (base : Z).
Hypothesis Hbase : 0 < base.

Lemma kids_addr_elem ns i p : p ∈ addr base <$> kids ns i <-> exists j, p = addr base j /\ j ∈ kids ns i.
Proof. rewrite list_elem_of_fmap. done. Qed.

Lemma kids_disjoint ns i i' j : j ∈ kids ns i -> j ∈ kids ns i' -> i = i'.
Proof. intros [[_ H] _]%kids_elem [[_ H'] _]%kids_elem. congruence. Qed.

Lemma fresh_addr h ns : heap_rep base h ns -> h !! addr base (length ns) = None.
Proof.
  intros [Hd _ _]. apply eq_None_not_Some. rewrite Hd. intros (i & Hi & E). apply addr_inj in E. lia.
Qed.

(** The node that [new_node] adds and [append_child] links in below [d]: the
    pointer of [d] is set when it has no children, else that of the last one. *)
Definition attach (h : gmap Z vfs_node) (ns : list ent) (x : ent) (h' : gmap Z vfs_node) : Prop :=
  let new := addr base (length ns) in
  let h1 := <[new := proto base (length ns) x]> h in
  match List.rev (kids ns (e_parent x)) with
  | [] => exists n, h !! addr base (e_parent x) = Some n /\ h' = <[addr base (e_parent x) := n <| n_ptr := new |>]> h1
  | q :: _ => exists n, h !! addr base q = Some n /\ h' = <[addr base q := n <| n_next := new |>]> h1
  end.

(** One node changes its links. *)
Lemma attach_changes h ns x h' : tree_wf ns -> heap_rep base h ns -> (e_parent x < length ns)%nat ->
  attach h ns x h' ->
  exists k n n', (k < length ns)%nat /\ h !! addr base k = Some n /\
    h' = <[addr base k := n']> (<[addr base (length ns) := proto base (length ns) x]> h) /\
    linked n n' /\ (n_ptr n' = n_ptr n \/ n_ptr n' = addr base (length ns)) /\
    (n_next n' = n_next n \/ n_next n' = addr base (length ns)) /\ (forall i, i <> e_parent x -> addr base k ∈ addr base <$> kids ns i -> n_next n' = n_next n) /\
    (k <> e_parent x -> n_ptr n' = n_ptr n) /\
    (exists nd, h' !! addr base (e_parent x) = Some nd /\ chain h' (n_ptr nd) (addr base <$> kids (ns ++ [x]) (e_parent x))).
Proof.
  intros Hwf Hrep Hx Hat. pose proof (fresh_addr _ _ Hrep) as Hfresh. pose proof Hrep as [Hd Hn Hls].
  unfold attach in Hat. set (new := addr base (length ns)) in *. set (h1 := <[new := _]> h) in *.
  destruct (lookup_lt_is_Some_2 ns (e_parent x) Hx) as [ed Hed]. destruct (Hn _ _ Hed) as (nd & Hnd & _ & Hcd).
  assert (Hh1 : forall p m, h !! p = Some m -> h1 !! p = Some m).
  { intros p m Hp. unfold h1. rewrite lookup_insert_ne; [done|]. intros E. rewrite <- E, Hfresh in Hp. done. }
  assert (Hm : h1 !! new = Some (proto base (length ns) x)) by (unfold h1; by rewrite lookup_insert_eq).
  assert (Hm0 : n_next (proto base (length ns) x) = 0) by (unfold proto; by destruct (e_kind x)).
  destruct (kids ns (e_parent x)) as [|q l _] eqn:Ekids using rev_ind.
  - simpl in Hat. destruct Hat as (n & Hn' & ->). rewrite Hnd in Hn'. injection Hn' as <-.
    exists (e_parent x), nd, (nd <| n_ptr := new |>). split_and!; try done; [by right | by left |].
    exists (nd <| n_ptr := new |>). rewrite lookup_insert_eq. split; [done|]. rewrite kids_snoc, Ekids, decide_True by done.
    simpl. split_and!; [done | by apply addr_pos |]. exists (proto base (length ns) x).
    rewrite lookup_insert_ne; [done|]. intros E%addr_inj. lia.
  - rewrite rev_app_distr in Hat. simpl in Hat. destruct Hat as (n & Hqn & ->).
    assert (Hq : q ∈ kids ns (e_parent x)) by (rewrite Ekids; set_solver). pose proof (kids_lt _ _ _ Hq) as Hql.
    exists q, n, (n <| n_next := new |>). split_and!; try done; [by left | by right | |].
    + intros i Hi (j & E%addr_inj & Hj)%kids_addr_elem. subst j. exfalso. apply Hi. by eapply kids_disjoint.
    + exists nd. assert (q <> e_parent x) as Hqd.
      { apply kids_elem in Hq as [[Hq0 Hq] _]. intros ->. destruct (ns !! e_parent x) as [e|] eqn:E; [|done].
        destruct (proj2 Hwf _ _ E). injection Hq. lia. }
      rewrite lookup_insert_ne by (intros E%addr_inj; done). rewrite (Hh1 _ _ Hnd). split; [done|].
      rewrite kids_snoc, Ekids, decide_True by done. rewrite !fmap_app. simpl.
      eapply (chain_append h1 _ _ _ _ _ (proto base (length ns) x)); try done.
      * rewrite fmap_app in Hcd. eapply chain_frame; [exact Hcd|]. intros p m _ Hp. exists m. split; [by apply Hh1 | done].
      * by apply addr_pos.
      * intros Hin. assert (new ∈ addr base <$> (l ++ [q])) as Hin' by (by rewrite fmap_app). rewrite <- Ekids in Hin'.
        apply kids_addr_elem in Hin' as (j & E%addr_inj & Hj). apply kids_lt in Hj. lia.
Qed.

Lemma attach_rep h ns x h' : tree_wf ns -> heap_rep base h ns -> (e_parent x < length ns)%nat ->
  attach h ns x h' -> heap_rep base h' (ns ++ [x]).
Proof.
  intros Hwf Hrep Hx Hat. pose proof (fresh_addr _ _ Hrep) as Hfresh. pose proof Hrep as [Hd Hn Hls].
  destruct (attach_changes _ _ _ _ Hwf Hrep Hx Hat) as (k & n & n' & Hk & Hkn & -> & Hlk & Lp & Ln & Hnext & Hptr & Hchain).
  set (new := addr base (length ns)) in *. set (h1 := <[new := _]> h) in *.
  assert (Hknew : addr base k <> new) by (intros E%addr_inj; lia).
  assert (Hlook : forall i, (i < length ns)%nat -> i <> k -> <[addr base k := n']> h1 !! addr base i = h !! addr base i).
  { intros i Hi Hik. unfold h1. rewrite !lookup_insert_ne; [done | |]; intros E%addr_inj; lia. }
  split.
  - intros p. unfold h1. rewrite !lookup_insert_is_Some', Hd, length_app. simpl. split.
    + intros [<-|[<-|(i & Hi & ->)]]; [exists k | exists (length ns) | exists i]; (split; [lia | done]).
    + intros (i & Hi & ->). destruct (decide (i = length ns)) as [->|]; [by right; left|].
      right; right. exists i. split; [lia | done].
  - intros i e. rewrite lookup_app_Some. intros [He|[Hi He]].
    + pose proof (lookup_lt_Some _ _ _ He) as Hi. destruct (Hn _ _ He) as (ni & Hni & Hl & Hc).
      destruct (decide (i = e_parent x)) as [->|Hne].
      { destruct Hchain as (nd & Hnd & Hcd). exists nd. split_and!; try done.
        destruct (decide (e_parent x = k)) as [<-|Hpk].
        - rewrite lookup_insert_eq in Hnd. injection Hnd as <-. rewrite Hni in Hkn. injection Hkn as <-.
          unfold linked in *. rewrite Hlk. rewrite Hl. done.
        - rewrite Hlook, Hni in Hnd by done. by injection Hnd as <-. }
      rewrite kids_snoc, decide_False, app_nil_r by done.
      assert (Hc' : chain (<[addr base k := n']> h1) (n_ptr ni) (addr base <$> kids ns i)).
      { eapply chain_frame; [exact Hc|]. intros p m (j & -> & Hj)%kids_addr_elem Hm.
        destruct (decide (j = k)) as [->|Hjk].
        - exists n'. rewrite lookup_insert_eq. split; [done|]. rewrite (Hnext i) by (done || by apply kids_addr_elem; eauto). congruence.
        - exists m. rewrite Hlook by (done || by eapply kids_lt). done. }
      destruct (decide (i = k)) as [->|Hik].
      * exists n'. rewrite lookup_insert_eq. rewrite Hni in Hkn. injection Hkn as ->. split_and!; [done | | by rewrite Hptr by done].
        unfold linked in *. rewrite Hlk. rewrite Hl. done.
      * exists ni. rewrite Hlook by done. done.
    + apply list_lookup_singleton_Some in He as [Hi' <-]. assert (i = length ns) as -> by lia.
      exists (proto base (length ns) x). rewrite lookup_insert_ne by done. unfold h1. rewrite lookup_insert_eq.
      split_and!; [done | by unfold linked, proto; destruct (e_kind x) |].
      rewrite kids_snoc, kids_fresh, decide_False by (done || lia). unfold proto. by destruct (e_kind x).
  - assert (Hmono : forall p, link_ok base ns p -> link_ok base (ns ++ [x]) p).
    { intros p [->|(j & Hj & ->)]; [by left | right; exists j; rewrite length_app; split; [lia | done]]. }
    assert (Hnl : link_ok base (ns ++ [x]) new) by (right; exists (length ns); rewrite length_app; simpl; split; [lia | done]).
    intros p m. destruct (decide (p = addr base k)) as [->|Hpk].
    + rewrite lookup_insert_eq. intros [= <-]. destruct (Hls _ _ Hkn) as [L1 L2].
      split; [destruct Lp as [->| ->] | destruct Ln as [->| ->]]; auto.
    + rewrite lookup_insert_ne by done. unfold h1. destruct (decide (p = new)) as [->|Hpn].
      * rewrite lookup_insert_eq. intros [= <-]. unfold proto. destruct (e_kind x); split; by left.
      * rewrite lookup_insert_ne by done. intros Hm. destruct (Hls _ _ Hm). auto.
Qed.
End Heap.

(** ** Paths *)

Lemma after_slash_cons n c p : after_slash (S n) (String c p) =
  if decide (after_slash n p = 0%nat) then (if decide (c = slash) then 1%nat else 0%nat) else S (after_slash n p).
Proof.
  induction n as [|n IH].
  - simpl. repeat case_decide; simplify_eq; done.
  - change (after_slash (S (S n)) (String c p)) with
      (if decide (String.get n p = Some slash) then S (S n) else after_slash (S n) (String c p)).
    rewrite IH. cbn [after_slash]. destruct (decide (String.get n p = Some slash)); [by rewrite decide_False by lia | done].
Qed.

Lemma filename_split p :
  (after_slash (String.length p) p = 0%nat -> split_slash p = [p]) /\
  (after_slash (String.length p) p <> 0%nat -> exists x y rest, split_slash p = x :: y :: rest) /\
  filename p = List.last (split_slash p) "".
Proof.
  induction p as [|c p (IH1 & IH2 & IH3)]; [done|]. unfold filename. cbn [String.length]. rewrite after_slash_cons.
  unfold filename in IH3. destruct (decide (after_slash (String.length p) p = 0%nat)) as [E|E].
  - rewrite E in IH3. specialize (IH1 E). simpl. destruct (decide (c = slash)); rewrite IH1; simpl.
    + split_and!; [done | by eauto | by destruct p].
    + done.
  - destruct (IH2 E) as (x & y & rest & Es). rewrite Es in IH3. simpl. rewrite Es.
    destruct (decide (c = slash)); (split_and!; [done | by eauto |]); rewrite IH3; done.
Qed.

(** A path without empty components. *)
Definition whole_path (path : string) : Prop :=
  Vfs.strlen path <= MAX_PATH /\ components path = split_slash (skip_slash path).

Lemma whole_path_nonempty path : components path <> [] \/ components path = [].
Proof. destruct (components path); [by right | by left]. Qed.

Lemma filename_last path : whole_path path -> filename path = List.last (components path) "".
Proof.
  intros [_ E]. rewrite E. destruct (filename_split path) as (_ & _ & ->). destruct path as [|c p]; [done|].
  cbn [skip_slash]. destruct (decide (c = slash)) as [Ec|]; [|done]. cbn [split_slash]. rewrite decide_True by done.
  destruct (split_slash_take p) as [rest ->]. done.
Qed.

Lemma components_nonempty path name : name ∈ components path -> name <> "".
Proof.
  unfold components. induction (split_slash (skip_slash path)) as [|[|c x] l IH]; simpl; [set_solver | set_solver|].
  intros [->|H]%elem_of_cons; [done | by apply IH].
Qed.

Lemma mk_path_level_component path level s :
  Vfs.strlen path <= MAX_PATH -> mk_path_level path level s = Ret (component path level) s.
Proof.
  intros H. unfold mk_path_level, component, assert, bind. rewrite (proj2 (Z.leb_le _ _)) by done. simpl.
  rewrite level_start_split. destruct (level_start level (skip_slash path)); [|done]. simpl. by destruct (take_component _).
Qed.

Lemma count_levels_ok path s fuel : forall k, Vfs.strlen path <= MAX_PATH -> (k <= length (components path))%nat ->
  (length (components path) < fuel + k)%nat -> count_levels fuel path k s = Ret (length (components path)) s.
Proof.
  induction fuel as [|fuel IH]; intros k Hlen Hk Hf; [lia|]. cbn [count_levels].
  rewrite (bind_Ret _ _ _ _ _ (mk_path_level_component _ _ _ Hlen)), component_components by done.
  destruct (components path !! k) as [name|] eqn:E.
  - apply lookup_lt_Some in E. apply IH; (done || lia).
  - apply lookup_ge_None in E. by replace k with (length (components path)) by lia.
Qed.

(** ** The operations on nodes *)

Section Build.
Context (base : Z).
Hypothesis Hbase : 0 < base.

Record mk_rep (s : mkinitrd) (ns : list ent) : Prop := {
  mr_heap : heap_rep base (mk_nodes s) ns;
  mr_wf : tree_wf ns;
  mr_root : mk_root s = base;
  mr_next : mk_p_node s = addr base (length ns)
}.

Lemma mk_load_ok p n s : mk_nodes s !! p = Some n -> mk_load p s = Ret n s.
Proof. intros H. unfold mk_load, bind, get. by rewrite H. Qed.

Lemma mk_upd_ok p f n s : mk_nodes s !! p = Some n ->
  mk_upd p f s = Ret tt (s <| mk_nodes := <[p := f n]> (mk_nodes s) |>).
Proof. intros H. unfold mk_upd. by rewrite (bind_Ret _ _ _ _ _ (mk_load_ok _ _ _ H)). Qed.

Lemma rep_name h ns i : heap_rep base h ns -> (i < length ns)%nat ->
  exists n e, h !! addr base i = Some n /\ ns !! i = Some e /\ n_name n = e_name e /\ chain h (n_ptr n) (addr base <$> kids ns i).
Proof.
  intros [_ Hn _] Hi. destruct (lookup_lt_is_Some_2 _ _ Hi) as [e He]. destruct (Hn _ _ He) as (n & Hh & Hl & Hc).
  exists n, e. split_and!; try done. rewrite Hl. unfold proto. by destruct (e_kind e).
Qed.

Lemma find_child_ok s ns name l : mk_rep s ns -> (forall j, j ∈ l -> (j < length ns)%nat) -> forall fuel p,
  chain (mk_nodes s) p (addr base <$> l) -> (length l < fuel)%nat ->
  find_child fuel name p s = Ret (match List.find (is_named ns name) l with Some j => addr base j | None => 0 end) s.
Proof.
  intros [Hh _ _ _]. induction l as [|j l IH]; intros Hl [|fuel] p Hc Hf; simpl in *; try lia; [by rewrite Hc|].
  destruct Hc as (-> & H0 & n & Hn & Hc). rewrite (proj2 (Z.eqb_neq _ 0)) by done.
  destruct (rep_name _ _ j Hh ltac:(apply Hl; left)) as (n' & e & Hn' & He & Hname & _). rewrite Hn in Hn'. injection Hn' as <-.
  rewrite (bind_Ret _ _ _ _ _ (mk_load_ok _ _ _ Hn)). unfold is_named at 1. rewrite He, Hname.
  destruct (String.eqb (e_name e) name); [done|]. apply IH; [intros; apply Hl; by right | done | lia].
Qed.

Lemma append_loop_ok s tmp q n l : mk_nodes s !! q = Some n -> forall fuel p,
  chain (mk_nodes s) p (l ++ [q]) -> (length l < fuel)%nat ->
  append_loop fuel p tmp s = Ret tt (s <| mk_nodes := <[q := n <| n_next := tmp |>]> (mk_nodes s) |>).
Proof.
  intros Hq. induction l as [|j l IH]; intros [|fuel] p Hc Hf; simpl in *; try lia.
  - destruct Hc as (-> & H0 & m & Hm & Hz). rewrite Hq in Hm. injection Hm as <-.
    rewrite (bind_Ret _ _ _ _ _ (mk_load_ok _ _ _ Hq)), Hz. simpl. by apply mk_upd_ok.
  - destruct Hc as (-> & H0 & m & Hm & Hc). rewrite (bind_Ret _ _ _ _ _ (mk_load_ok _ _ _ Hm)).
    rewrite (proj2 (Z.eqb_neq (n_next m) 0)); [apply IH; [done | lia]|].
    intros E. apply (chain_nonnull _ _ _ Hc) in E. by destruct l.
Qed.

(** A node is made and linked in. *)
Lemma add_node_ok s ns x :
  mk_rep s ns -> (e_parent x < length ns)%nat -> addr base (length ns) + sizeof_vfs_node <= mk_limit s ->
  exists s1 s2, new_node (proto base (length ns) x) s = Ret (addr base (length ns)) s1 /\
    append_child (addr base (e_parent x)) (addr base (length ns)) s1 = Ret tt s2 /\
    mk_rep s2 (ns ++ [x]) /\ mk_limit s2 = mk_limit s.
Proof.
  intros [Hh Hwf Hr Hp] Hx Hlim. set (new := addr base (length ns)) in *. set (pn := proto base (length ns) x).
  set (s1 := s <| mk_nodes := <[new := pn]> (mk_nodes s) |> <| mk_p_node := new + sizeof_vfs_node |>).
  pose proof (fresh_addr base _ _ Hh) as Hfresh. fold new in Hfresh.
  destruct (rep_name _ _ _ Hh Hx) as (nd & ed & Hnd & Hed & _ & Hc).
  assert (Hkeep : forall p m, mk_nodes s !! p = Some m -> mk_nodes s1 !! p = Some m).
  { intros p m Hm. simpl. rewrite lookup_insert_ne; [done|]. intros <-. congruence. }
  assert (exists h', attach base (mk_nodes s) ns x h' /\
    append_child (addr base (e_parent x)) new s1 = Ret tt (s1 <| mk_nodes := h' |>)) as (h' & Hat & Happ).
  { unfold attach. fold new pn. unfold append_child. rewrite (bind_Ret _ _ _ _ _ (mk_load_ok _ _ _ (Hkeep _ _ Hnd))).
    destruct (kids ns (e_parent x)) as [|q l _] eqn:Ek using rev_ind; simpl.
    - simpl in Hc. rewrite Hc. simpl. eexists. split; [by exists nd|]. by apply mk_upd_ok, Hkeep.
    - rewrite rev_app_distr. simpl. assert (Hq : q ∈ kids ns (e_parent x)) by (rewrite Ek; set_solver).
      destruct (rep_name _ _ q Hh ltac:(by eapply kids_lt)) as (nq & eq & Hnq & _).
      rewrite fmap_app in Hc. simpl in Hc. rewrite (proj2 (Z.eqb_neq (n_ptr nd) 0)).
      2: { intros E. apply (chain_nonnull _ _ _ Hc) in E. by destruct (addr base <$> l). }
      eexists. split; [by exists nq|].
      assert (Hc1 : chain (mk_nodes s1) (n_ptr nd) ((addr base <$> l) ++ [addr base q])).
      { eapply chain_frame; [exact Hc|]. intros p m _ Hm. exists m. split; [by apply Hkeep | done]. }
      pose proof (chain_size _ _ _ Hc1) as Hsz. rewrite length_app in Hsz. simpl in Hsz.
      rewrite (bind_Ret get _ s1 s1 s1 eq_refl).
      exact (append_loop_ok s1 new (addr base q) nq (addr base <$> l) (Hkeep _ _ Hnq) (S (size (mk_nodes s1))) _ Hc1 ltac:(simpl in *; lia)). }
  exists s1, (s1 <| mk_nodes := h' |>). split_and!; [ | done | | done].
  - unfold new_node, bind, get. rewrite Hp, (proj2 (Z.leb_le _ _)) by done. unfold modify, ret, setf. simpl. by rewrite Hp.
  - split; simpl; [by eapply attach_rep | by apply tree_wf_snoc | done |].
    rewrite length_app. simpl. rewrite Nat.add_1_r, addr_S. done.
Qed.

Lemma ensure_length names : forall ns i, (length ns <= length (ensure ns i names).1)%nat.
Proof.
  induction names as [|name names IH]; intros ns i; simpl; [done|]. destruct (child ns i name); [apply IH|].
  etrans; [|apply IH]. rewrite length_app. lia.
Qed.

Lemma find_parent_loop_ok path last names : Vfs.strlen path <= MAX_PATH -> forall fuel ns i s pre c ns' d,
  components path = pre ++ names ++ [last] -> mk_rep s ns -> (i < length ns)%nat -> ensure ns i names = (ns', d) ->
  addr base (length ns') <= mk_limit s -> (length names < fuel)%nat ->
  exists s', find_parent_loop fuel path (length (components path)) (S (length pre)) (addr base i) c
      (components path !! length pre) s = Ret (c + Z.of_nat (length ns' - length ns), addr base d) s' /\
    mk_rep s' ns' /\ mk_limit s' = mk_limit s /\ (d < length ns')%nat.
Proof.
  intros Hlen. induction names as [|name names IH]; intros [|fuel] ns i s pre c ns' d Hc Hs Hi He Hlim Hf; simpl in Hf; try lia.
  - simpl in *. injection He as <- <-. assert (Hlast : components path !! length pre = Some last) by (by rewrite Hc, list_lookup_middle).
    exists s. rewrite Hlast. assert (last <> "") by (apply (components_nonempty path); by eapply list_elem_of_lookup_2).
    rewrite Hc, length_app. simpl. rewrite (proj2 (Nat.ltb_ge _ _)) by lia. rewrite Nat.sub_diag, Z.add_0_r.
    split_and!; try done. by destruct last.
  - assert (Hname : components path !! length pre = Some name) by (rewrite Hc; by apply list_lookup_middle).
    assert (name <> "") by (apply (components_nonempty path); by eapply list_elem_of_lookup_2).
    rewrite Hname. cbn [find_parent_loop]. destruct name as [|ch nm]; [done|]. set (name := String ch nm) in *.
    rewrite (proj2 (Nat.ltb_lt _ _)) by (rewrite Hc, !length_app; simpl; lia). cbn [negb].
    destruct (rep_name _ _ _ (mr_heap _ _ Hs) Hi) as (n & e & Hn & _ & _ & Hch).
    rewrite (bind_Ret _ _ _ _ _ (mk_load_ok _ _ _ Hn)), (bind_Ret get _ s s s eq_refl).
    pose proof (chain_size _ _ _ Hch) as Hsz. rewrite length_fmap in Hsz.
    rewrite (bind_Ret _ _ _ _ _ (find_child_ok s ns name (kids ns i) Hs ltac:(apply kids_lt) (S (size (mk_nodes s))) _ Hch ltac:(lia))).
    fold (child ns i name). assert (Hnext : component path (S (length pre)) = components path !! length (pre ++ [name])).
    { rewrite component_components by (rewrite Hc, length_app; simpl; lia). rewrite length_app. simpl. by rewrite Nat.add_1_r. }
    assert (Hc' : components path = (pre ++ [name]) ++ names ++ [last]) by (rewrite Hc, <- app_assoc; done).
    assert (Hpl : length (pre ++ [name]) = S (length pre)) by (rewrite length_app; simpl; lia).
    simpl in He. destruct (child ns i name) as [j|] eqn:Ec.
    + rewrite (proj2 (Z.eqb_neq _ 0)) by (by apply addr_pos). rewrite bind_ret_l.
      rewrite (bind_Ret _ _ _ _ _ (mk_path_level_component _ _ _ Hlen)), Hnext, <- Hpl.
      apply (IH fuel ns j s); try done; [by eapply child_lt | lia].
    + set (x := mkEnt i name Dir) in *. pose proof (ensure_length names (ns ++ [x]) (length ns)) as Hle. rewrite He in Hle. simpl in Hle.
      rewrite length_app in Hle. simpl in Hle.
      destruct (add_node_ok s ns x Hs Hi) as (s1 & s2 & H1 & H2 & H3 & H4).
      { unfold addr, sizeof_vfs_node in *. lia. }
      assert (Hproto : (VFS_NODE_INITIALIZER FS_DIRECTORY) <| n_name := name |> <| n_parent := addr base i |> = proto base (length ns) x).
      { unfold proto. simpl. rewrite decide_False; [done|]. destruct (mr_wf _ _ Hs). lia. }
      rewrite Hproto. change (0 =? 0) with true. cbv iota. rewrite !bind_assoc, (bind_Ret _ _ _ _ _ H1).
      rewrite !bind_assoc. change (addr base i) with (addr base (e_parent x)). rewrite (bind_Ret _ _ _ _ _ H2), bind_ret_l.
      rewrite (bind_Ret _ _ _ _ _ (mk_path_level_component _ _ _ Hlen)), Hnext, <- Hpl.
      destruct (IH fuel (ns ++ [x]) (length ns) s2 (pre ++ [name]) (c + 1) ns' d) as (s' & Hrun & R1 & R2 & R3); try done; try lia.
      { rewrite length_app. simpl. lia. }
      exists s'. split_and!; try done; [|congruence]. rewrite Hrun. rewrite length_app. simpl. do 2 f_equal. lia.
Qed.

Lemma find_parent_ok path s ns ns' d :
  whole_path path -> components path <> [] -> mk_rep s ns -> ensure ns 0 (removelast (components path)) = (ns', d) ->
  addr base (length ns') <= mk_limit s ->
  exists s', find_parent path s = Ret (Z.of_nat (length ns' - length ns), addr base d) s' /\
    mk_rep s' ns' /\ mk_limit s' = mk_limit s /\ (d < length ns')%nat.
Proof.
  intros [Hlen _] Hne Hs He Hlim. pose proof (components_length path) as Hl.
  pose proof (app_removelast_last "" Hne) as Hsplit.
  unfold find_parent. rewrite (bind_Ret _ _ _ _ _ (count_levels_ok path s (S (S (String.length path))) 0 Hlen ltac:(lia) ltac:(lia))).
  rewrite (bind_Ret _ _ _ _ _ (mk_path_level_component _ 0 _ Hlen)), (bind_Ret get _ s s s eq_refl).
  rewrite component_components by lia. rewrite (mr_root _ _ Hs).
  destruct (find_parent_loop_ok path (List.last (components path) "") (removelast (components path)) Hlen
    (S (S (String.length path))) ns 0 s [] 0 ns' d) as (s' & Hrun & R); try done.
  - destruct (mr_wf _ _ Hs). lia.
  - apply (f_equal length) in Hsplit. rewrite length_app in Hsplit. simpl in Hsplit. lia.
  - exists s'. rewrite addr_0 in Hrun. done.
Qed.

(** ** The files *)

Context (host : string -> option (list Z)).

(** A file of the host, the path it gets, and its content. *)
Definition entry_ok (f : string * string * list Z) : Prop :=
  let '(path, ipath, data) := f in host path = Some data /\ whole_path ipath /\ components ipath <> [].
Definition arguments (l : list (string * string * list Z)) : list string :=
  concat ((fun f : string * string * list Z => [f.1.1; f.1.2]) <$> l).
Definition plan (l : list (string * string * list Z)) : list (list string * Z) :=
  (fun f : string * string * list Z => (components f.1.2, Z.of_nat (length f.2))) <$> l.

Lemma packed_length l : forall ns off, (length ns <= length (packed ns off l))%nat.
Proof.
  induction l as [|[names len] l IH]; intros ns off; simpl; [done|].
  pose proof (ensure_length (removelast names) ns 0) as H. destruct (ensure ns 0 (removelast names)) as [ns' d]. simpl in H.
  etrans; [|apply IH]. rewrite length_app. lia.
Qed.

Lemma total_nonneg l : 0 <= total (plan l).
Proof. induction l as [|f l IH]; simpl; lia. Qed.

Lemma pack_ok l : forall s ns off, Forall entry_ok l -> mk_rep s ns -> 0 <= off -> off + total (plan l) < 2 ^ 31 ->
  addr base (length (packed ns off (plan l))) <= mk_limit s ->
  exists s', pack host (length l) (arguments l) (Z.of_nat (length ns)) off s =
    Ret (Some (Z.of_nat (length (packed ns off (plan l))))) s' /\ mk_rep s' (packed ns off (plan l)).
Proof.
  induction l as [|[[path ipath] data] l IH]; intros s ns off Hl Hs Hoff Htot Hlim; [by exists s|].
  apply Forall_cons in Hl as [(Hhost & Hw & Hne) Hl]. simpl in Htot. pose proof (total_nonneg l) as Hnn.
  cbn [arguments fmap list_fmap concat app plan packed fst snd] in *. simpl in Hlim |- *.
  destruct (ensure ns 0 (removelast (components ipath))) as [ns' d] eqn:He.
  set (x := mkEnt d (List.last (components ipath) "") (File off (Z.of_nat (length data)))) in *.
  pose proof (packed_length (plan l) (ns' ++ [x]) (off + Z.of_nat (length data))) as Hge. rewrite length_app in Hge. simpl in Hge.
  pose proof (ensure_length (removelast (components ipath)) ns 0) as Hge'. rewrite He in Hge'. simpl in Hge'.
  destruct (find_parent_ok ipath s ns ns' d) as (s1 & Hfp & Hs1 & Hl1 & Hd); try done.
  { etrans; [|exact Hlim]. unfold addr, sizeof_vfs_node. unfold plan in *. lia. }
  rewrite (bind_Ret _ _ _ _ _ Hfp), Hhost.
  destruct (add_node_ok s1 ns' x Hs1 Hd) as (s2 & s3 & H1 & H2 & H3 & H4).
  { rewrite Hl1. etrans; [|exact Hlim]. unfold addr, sizeof_vfs_node. unfold plan in *. lia. }
  assert (Hproto : (VFS_NODE_INITIALIZER FS_FILE) <| n_name := filename ipath |> <| n_length := file_length data |>
    <| n_data := u32 off |> <| n_parent := addr base d |> = proto base (length ns') x).
  { unfold proto, file_length. simpl. rewrite decide_False by (destruct (mr_wf _ _ Hs1); lia).
    rewrite filename_last, !u32_small by (done || lia). done. }
  rewrite Hproto, (bind_Ret _ _ _ _ _ H1). change (addr base d) with (addr base (e_parent x)). rewrite (bind_Ret _ _ _ _ _ H2).
  unfold file_length. rewrite u32_small, s32_small by lia.
  destruct (IH s3 (ns' ++ [x]) (off + Z.of_nat (length data))) as (s' & Hrun & Hs'); try done; try lia.
  { rewrite H4, Hl1. exact Hlim. }
  exists s'. split; [|done]. eapply eq_trans; [|exact Hrun]. rewrite length_app. simpl.
  by replace (Z.of_nat (length ns) + Z.of_nat (length ns' - length ns) + 1) with (Z.of_nat (length ns' + 1)) by lia.
Qed.
End Build.
