(* ===== verification/InitrdImage.v ===== *)
(** * InitrdImage: the bytes of the image (kernel/initrd.c and tools/src/mkinitrd)

    Nodes in bytes and back, the image that [main] of mkinitrd writes, and what
    [initrd_init] makes of it. *)

From Stdlib Require Import Ascii.
From S2P Require Import Prelude Chain KState Vfs Initrd InitrdTree InitrdBuild.

(** ** Words *)

Definition is_word (w : Z) : Prop := 0 <= w < 2 ^ 32.

Lemma le32_word w : is_word w ->
  word_of (w mod 256) (w / 256 mod 256) (w / 65536 mod 256) (w / 16777216 mod 256) = w.
Proof. unfold is_word, word_of. intros H. Z.to_euclidean_division_equations. lia. Qed.

Lemma le32_length w : length (le32 w) = 4%nat.
Proof. done. Qed.

Lemma concat_words_length ws : length (concat (le32 <$> ws)) = (4 * length ws)%nat.
Proof. induction ws as [|w ws IH]; [done|]. cbn [fmap list_fmap concat]. rewrite length_app, IH. simpl. lia. Qed.

Lemma concat_words_split ws k w : ws !! k = Some w ->
  concat (le32 <$> ws) = concat (le32 <$> take k ws) ++ le32 w ++ concat (le32 <$> drop (S k) ws) /\
  length (concat (le32 <$> take k ws)) = (4 * k)%nat.
Proof.
  intros H. split.
  - rewrite <- (take_drop_middle _ _ _ H) at 1. by rewrite fmap_app, concat_app.
  - rewrite concat_words_length, length_take. apply lookup_lt_Some in H. lia.
Qed.

(** ** Access to a word of the memory *)

Lemma ld8_at offset root pre b post :
  ld8 (offset + Z.of_nat (length pre)) (mkRam offset (pre ++ b :: post) root) = Ret b (mkRam offset (pre ++ b :: post) root).
Proof.
  unfold ld8, ram_index, bind, get. simpl. rewrite (proj2 (Z.leb_le _ _)) by lia. simpl.
  replace (Z.to_nat (offset + Z.of_nat (length pre) - offset)) with (length pre) by lia. by rewrite list_lookup_middle.
Qed.

Lemma st8_at offset root pre b c post :
  st8 (offset + Z.of_nat (length pre)) c (mkRam offset (pre ++ b :: post) root) = Ret tt (mkRam offset (pre ++ c :: post) root).
Proof.
  unfold st8. rewrite (bind_Ret _ _ _ _ _ (ld8_at _ _ _ _ _)). unfold modify, setf. simpl. do 2 f_equal.
  replace (Z.to_nat (offset + Z.of_nat (length pre) - offset)) with (length pre) by lia.
  rewrite insert_app_r_alt by lia. by rewrite Nat.sub_diag.
Qed.

Lemma snoc_shift {A} (pre : list A) b post : pre ++ b :: post = (pre ++ [b]) ++ post.
Proof. by rewrite <- app_assoc. Qed.

Lemma ld32_at offset root pre w post : is_word w ->
  let r := mkRam offset (pre ++ le32 w ++ post) root in
  ld32 (offset + Z.of_nat (length pre)) r = Ret w r.
Proof.
  intros Hw r. unfold ld32.
  assert (Hk : forall k b, (le32 w) !! k = Some b -> ld8 (offset + Z.of_nat (length pre) + Z.of_nat k) r = Ret b r).
  { intros k b Hb. unfold r. rewrite <- (take_drop_middle (le32 w) k b Hb). rewrite <- app_assoc. simpl. rewrite app_assoc.
    replace (offset + Z.of_nat (length pre) + Z.of_nat k) with (offset + Z.of_nat (length (pre ++ take k (le32 w)))).
    - apply ld8_at.
    - rewrite length_app, length_take. apply lookup_lt_Some in Hb. lia. }
  rewrite <- (Z.add_0_r (offset + Z.of_nat (length pre))) at 1.
  rewrite (bind_Ret _ _ _ _ _ (Hk 0%nat _ eq_refl)), (bind_Ret _ _ _ _ _ (Hk 1%nat _ eq_refl)),
    (bind_Ret _ _ _ _ _ (Hk 2%nat _ eq_refl)), (bind_Ret _ _ _ _ _ (Hk 3%nat _ eq_refl)).
  unfold ret. by rewrite le32_word.
Qed.

Lemma st32_at offset root pre w v post :
  st32 (offset + Z.of_nat (length pre)) v (mkRam offset (pre ++ le32 w ++ post) root) =
  Ret tt (mkRam offset (pre ++ le32 v ++ post) root).
Proof.
  unfold st32, le32. simpl.
  assert (Hk : forall pre b c post, st8 (offset + Z.of_nat (length pre)) c (mkRam offset (pre ++ b :: post) root) =
    Ret tt (mkRam offset ((pre ++ [c]) ++ post) root)) by (intros; rewrite st8_at, snoc_shift; done).
  assert (E1 : forall pre c a, offset + Z.of_nat (length pre) + a + 1 = offset + Z.of_nat (length (pre ++ [c : Z])) + a).
  { intros. rewrite length_app. simpl. lia. }
  rewrite (bind_Ret _ _ _ _ _ (Hk pre _ _ _)).
  set (p1 := pre ++ [v mod 256]). replace (offset + Z.of_nat (length pre) + 1) with (offset + Z.of_nat (length p1)) by (unfold p1; rewrite length_app; simpl; lia).
  rewrite (bind_Ret _ _ _ _ _ (Hk p1 _ _ _)).
  set (p2 := p1 ++ [_]). replace (offset + Z.of_nat (length pre) + 2) with (offset + Z.of_nat (length p2)) by (unfold p2, p1; rewrite !length_app; simpl; lia).
  rewrite (bind_Ret _ _ _ _ _ (Hk p2 _ _ _)).
  set (p3 := p2 ++ [_]). replace (offset + Z.of_nat (length pre) + 3) with (offset + Z.of_nat (length p3)) by (unfold p3, p2, p1; rewrite !length_app; simpl; lia).
  rewrite Hk. unfold p3, p2, p1. by rewrite <- !app_assoc.
Qed.

(** ** Nodes *)

(** A node that fits: its name has room for the NUL and contains none. *)
Definition node_ok (n : vfs_node) : Prop :=
  (String.length (n_name n) < 256)%nat /\ Forall (fun b => b <> 0) (bytes_of (n_name n)) /\ Forall is_word (node_words n).

Lemma bytes_of_length s : length (bytes_of s) = String.length s.
Proof. induction s; simpl; congruence. Qed.

Lemma encode_name_length n : node_ok n -> length (encode_name (n_name n)) = 256%nat.
Proof. intros (H & _). unfold encode_name. rewrite length_app, bytes_of_length, length_replicate. change (Z.to_nat NAME_SIZE) with 256%nat. lia. Qed.

Lemma encode_node_length n : node_ok n -> length (encode_node n) = 392%nat.
Proof. intros H. unfold encode_node. rewrite length_app, encode_name_length, concat_words_length by done. done. Qed.

Lemma string_at_bytes s k : Forall (fun b => b <> 0) (bytes_of s) -> string_at (bytes_of s ++ replicate (S k) 0) = s.
Proof.
  induction s as [|c s IH]; intros H; [done|]. simpl in *. apply Forall_cons in H as [Hc H].
  rewrite (proj2 (Z.eqb_neq _ 0)) by done. rewrite Nat2Z.id, ascii_nat_embedding. f_equal. by apply IH.
Qed.

Lemma word_at_byte_app pre w post : is_word w -> word_at_byte (pre ++ le32 w ++ post) (length pre) = w.
Proof.
  intros Hw. unfold word_at_byte. rewrite !app_nth2_plus. rewrite app_nth2, Nat.sub_diag by lia. by apply le32_word.
Qed.

Lemma node_word n k w : node_ok n -> node_words n !! k = Some w -> word_at_byte (encode_node n) (256 + 4 * k) = w.
Proof.
  intros Hn Hk. destruct (concat_words_split _ _ _ Hk) as [E El]. unfold encode_node. rewrite E, app_assoc.
  rewrite <- (encode_name_length n Hn), <- El, <- length_app. apply word_at_byte_app.
  destruct Hn as (_ & _ & Hw). by eapply Forall_lookup_1.
Qed.

(** Decoding is inverse to encoding. *)
Lemma decode_encode n : node_ok n -> decode_node (encode_node n) = n.
Proof.
  intros Hn. unfold decode_node.
  assert (Hs : string_at (take 256 (encode_node n)) = n_name n).
  { unfold encode_node. rewrite <- (encode_name_length n Hn), take_app_length. unfold encode_name. destruct Hn as (Hl & H0 & _).
    replace (Z.to_nat NAME_SIZE - String.length (n_name n))%nat with (S (255 - String.length (n_name n))) by (change (Z.to_nat NAME_SIZE) with 256%nat; lia).
    by apply string_at_bytes. }
  rewrite Hs. assert (H : forall k w, node_words n !! k = Some w -> word_at_byte (encode_node n) (256 + 4 * k) = w).
  { intros. by apply node_word. }
  rewrite (H 0%nat _ eq_refl), (H 1%nat _ eq_refl), (H 2%nat _ eq_refl), (H 3%nat _ eq_refl), (H 4%nat _ eq_refl),
    (H 5%nat _ eq_refl), (H 6%nat _ eq_refl), (H 7%nat _ eq_refl), (H 8%nat _ eq_refl), (H 9%nat _ eq_refl),
    (H 10%nat _ eq_refl), (H 11%nat _ eq_refl), (H 22%nat _ eq_refl), (H 23%nat _ eq_refl), (H 24%nat _ eq_refl),
    (H 25%nat _ eq_refl), (H 26%nat _ eq_refl), (H 27%nat _ eq_refl), (H 28%nat _ eq_refl), (H 29%nat _ eq_refl),
    (H 30%nat _ eq_refl), (H 31%nat _ eq_refl), (H 32%nat _ eq_refl), (H 33%nat _ eq_refl).
  by destruct n.
Qed.

(** ** The image *)

Definition image (l : list vfs_node) (files : list Z) : list Z :=
  le32 MAGIC ++ le32 (Z.of_nat (length l)) ++ concat (encode_node <$> l) ++ files.

Lemma concat_nodes_length l : Forall node_ok l -> length (concat (encode_node <$> l)) = (392 * length l)%nat.
Proof.
  induction 1 as [|n l Hn _ IH]; [done|]. cbn [fmap list_fmap concat]. rewrite length_app, IH, encode_node_length by done. simpl. lia.
Qed.

Definition before (l : list vfs_node) (k : nat) : list Z :=
  le32 MAGIC ++ le32 (Z.of_nat (length l)) ++ concat (encode_node <$> take k l).
Definition behind (l : list vfs_node) (k : nat) (files : list Z) : list Z := concat (encode_node <$> drop (S k) l) ++ files.

Lemma image_split l files k n : l !! k = Some n -> image l files = before l k ++ encode_node n ++ behind l k files.
Proof.
  intros H. unfold image, before, behind. rewrite <- (take_drop_middle _ _ _ H) at 2. rewrite fmap_app, concat_app.
  cbn [fmap list_fmap concat]. by rewrite <- !app_assoc.
Qed.

Lemma before_length l k : Forall node_ok l -> (k <= length l)%nat -> length (before l k) = (8 + 392 * k)%nat.
Proof.
  intros Hl Hk. unfold before. rewrite !length_app, concat_nodes_length, length_take by (by apply Forall_take). simpl. lia.
Qed.

Lemma before_insert l k n : (k < length l)%nat -> before (<[k := n]> l) k = before l k.
Proof. intros H. unfold before. rewrite length_insert, take_insert_ge by lia. done. Qed.
Lemma behind_insert l k n files : behind (<[k := n]> l) k files = behind l k files.
Proof. unfold behind. by rewrite drop_insert_lt by lia. Qed.

Section Access.
Context (offset root : Z) (files : list Z).
Notation ram l := (mkRam offset (image l files) root).
Notation at_node k := (addr (offset + sizeof_header) k).

Lemma node_address l k j : Forall node_ok l -> (k < length l)%nat -> (j <= 34)%nat ->
  forall n, l !! k = Some n -> at_node k + (256 + 4 * Z.of_nat j) =
    offset + Z.of_nat (length (before l k ++ encode_name (n_name n) ++ concat (le32 <$> take j (node_words n)))).
Proof.
  intros Hl Hk Hj n Hn. rewrite !length_app, before_length, concat_words_length, length_take, encode_name_length by (done || lia || by eapply Forall_lookup_1).
  change (length (node_words n)) with 34%nat. unfold addr, sizeof_vfs_node, sizeof_header. lia.
Qed.

Lemma node_split l k n j w : l !! k = Some n -> node_words n !! j = Some w ->
  image l files = (before l k ++ encode_name (n_name n) ++ concat (le32 <$> take j (node_words n))) ++ le32 w ++
                  (concat (le32 <$> drop (S j) (node_words n)) ++ behind l k files).
Proof.
  intros Hn Hj. rewrite (image_split _ _ _ _ Hn). unfold encode_node.
  destruct (concat_words_split _ _ _ Hj) as [E _]. rewrite E. by rewrite <- !app_assoc.
Qed.

Lemma node_ld l k n j w : Forall node_ok l -> l !! k = Some n -> node_words n !! j = Some w ->
  ld32 (at_node k + (256 + 4 * Z.of_nat j)) (ram l) = Ret w (ram l).
Proof.
  intros Hl Hn Hj. pose proof (lookup_lt_Some _ _ _ Hn) as Hk. pose proof (lookup_lt_Some _ _ _ Hj) as Hj'.
  change (length (node_words n)) with 34%nat in Hj'.
  rewrite (node_address l k j Hl Hk ltac:(lia) n Hn), (node_split l k n j w Hn Hj). apply ld32_at.
  assert (node_ok n) as (_ & _ & Hw) by (by eapply Forall_lookup_1). by eapply Forall_lookup_1.
Qed.

Lemma node_st l k n n' j w v : Forall node_ok l -> l !! k = Some n -> node_words n !! j = Some w ->
  n_name n' = n_name n -> node_words n' = <[j := v]> (node_words n) ->
  st32 (at_node k + (256 + 4 * Z.of_nat j)) v (ram l) = Ret tt (ram (<[k := n']> l)).
Proof.
  intros Hl Hn Hj En Ew. pose proof (lookup_lt_Some _ _ _ Hn) as Hk. pose proof (lookup_lt_Some _ _ _ Hj) as Hj'.
  rewrite (node_address l k j Hl Hk ltac:(change (length (node_words n)) with 34%nat in Hj'; lia) n Hn), (node_split l k n j w Hn Hj).
  rewrite st32_at. do 2 f_equal.
  assert (Hj2 : node_words n' !! j = Some v) by (rewrite Ew; by apply list_lookup_insert_eq).
  assert (Hn2 : <[k := n']> l !! k = Some n') by (by apply list_lookup_insert_eq).
  rewrite (node_split _ k n' j v Hn2 Hj2), before_insert, behind_insert, En, Ew by done.
  by rewrite take_insert_ge, drop_insert_lt by lia.
Qed.

Lemma node_ok_set n n' j v : node_ok n -> n_name n' = n_name n -> node_words n' = <[j := v]> (node_words n) -> is_word v -> node_ok n'.
Proof. intros (H1 & H2 & H3) En Ew Hv. unfold node_ok. rewrite En, Ew. split_and!; try done. by apply Forall_insert. Qed.

Definition from_offset (p : Z) : Z := if p =? 0 then 0 else u32 (p + offset).

(** One of the pointers of a node. *)
Lemma fix_pointer_ok l k n j w (g : Z -> vfs_node) : Forall node_ok l -> l !! k = Some n -> node_words n !! j = Some w ->
  g w = n -> (forall v, n_name (g v) = n_name n /\ node_words (g v) = <[j := v]> (node_words n)) ->
  fix_pointer (at_node k + (256 + 4 * Z.of_nat j)) offset (ram l) = Ret tt (ram (<[k := g (from_offset w)]> l)) /\
  Forall node_ok (<[k := g (from_offset w)]> l).
Proof.
  intros Hl Hn Hj Hg Hgv. assert (node_ok n) as Hnok by (by eapply Forall_lookup_1).
  unfold fix_pointer. rewrite (bind_Ret _ _ _ _ _ (node_ld _ _ _ _ _ Hl Hn Hj)). unfold from_offset.
  destruct (Z.eqb_spec w 0) as [->|Hw]; simpl.
  - rewrite Hg, list_insert_id by done. done.
  - destruct (Hgv (u32 (w + offset))) as [G1 G2]. split; [by eapply node_st|].
    apply Forall_insert; [done|]. eapply node_ok_set; try done. apply u32_range.
Qed.

Lemma set_data_words n v : node_words (n <| n_data := v |>) = <[10%nat := v]> (node_words n).
Proof. done. Qed.
Lemma set_read_words n v : node_words (n <| n_read := v |>) = <[22%nat := v]> (node_words n).
Proof. done. Qed.

(** The data of a file. *)
Definition fix_data (n : vfs_node) : vfs_node :=
  if 0 <? n_length n then n <| n_data := u32 (n_data n + offset) |> <| n_read := INITRD_READ |> else n.

Lemma lookup_set (l : list vfs_node) k n n' : l !! k = Some n -> <[k := n']> l !! k = Some n'.
Proof. intros H. apply list_lookup_insert_eq. by eapply lookup_lt_Some. Qed.

Lemma init_data_ok l k n : Forall node_ok l -> l !! k = Some n ->
  (length <- ld32 (at_node k + OFF_LENGTH);;
   if 0 <? length then
     data <- ld32 (at_node k + OFF_DATA);;
     st32 (at_node k + OFF_DATA) (u32 (data + offset));;;
     st32 (at_node k + OFF_READ) INITRD_READ
   else ret tt) (ram l) = Ret tt (ram (<[k := fix_data n]> l)) /\ Forall node_ok (<[k := fix_data n]> l).
Proof.
  intros Hl Hn. assert (node_ok n) as Hnok by (by eapply Forall_lookup_1).
  rewrite (bind_Ret _ _ _ _ _ (node_ld l k n 7 (n_length n) Hl Hn eq_refl)). unfold fix_data.
  destruct (0 <? n_length n); [|by rewrite list_insert_id].
  rewrite (bind_Ret _ _ _ _ _ (node_ld l k n 10 (n_data n) Hl Hn eq_refl)). generalize (u32_range (n_data n + offset)).
  generalize (u32 (n_data n + offset)). intros v Hv.
  set (n4 := n <| n_data := v |>). assert (W4 : node_words n4 = <[10%nat := v]> (node_words n)) by apply set_data_words.
  assert (E4 : n_name n4 = n_name n) by done.
  rewrite (bind_Ret _ _ _ _ _ (node_st l k n n4 10 _ v Hl Hn eq_refl E4 W4)).
  pose proof (node_ok_set n n4 10 v Hnok E4 W4 Hv) as Hok4. pose proof (lookup_set l k n n4 Hn) as H4. clearbody n4. clear W4 E4.
  assert (O4 : Forall node_ok (<[k := n4]> l)) by (by apply Forall_insert).
  set (n5 := n4 <| n_read := INITRD_READ |>). assert (W5 : node_words n5 = <[22%nat := INITRD_READ]> (node_words n4)) by apply set_read_words.
  pose proof (node_st _ k n4 n5 22 _ INITRD_READ O4 H4 eq_refl eq_refl W5) as R7.
  rewrite list_insert_insert_eq in R7. split; [exact R7|]. apply Forall_insert; [done|].
  by apply (node_ok_set n4 n5 22 INITRD_READ).
Qed.

Definition fixup (n : vfs_node) : vfs_node :=
  fix_data (n <| n_ptr := from_offset (n_ptr n) |> <| n_next := from_offset (n_next n) |> <| n_parent := from_offset (n_parent n) |>).

Lemma fix_ptr_ok l k n : Forall node_ok l -> l !! k = Some n ->
  let n' := n <| n_ptr := from_offset (n_ptr n) |> in
  fix_pointer (at_node k + OFF_PTR) offset (ram l) = Ret tt (ram (<[k := n']> l)) /\ Forall node_ok (<[k := n']> l) /\
  <[k := n']> l !! k = Some n'.
Proof.
  intros Hl Hn n'. destruct (fix_pointer_ok l k n 32 (n_ptr n) (fun v => n <| n_ptr := v |>)) as [R O]; try done; [by destruct n|].
  split_and!; [exact R | exact O | by eapply lookup_set].
Qed.
Lemma fix_next_ok l k n : Forall node_ok l -> l !! k = Some n ->
  let n' := n <| n_next := from_offset (n_next n) |> in
  fix_pointer (at_node k + OFF_NEXT) offset (ram l) = Ret tt (ram (<[k := n']> l)) /\ Forall node_ok (<[k := n']> l) /\
  <[k := n']> l !! k = Some n'.
Proof.
  intros Hl Hn n'. destruct (fix_pointer_ok l k n 33 (n_next n) (fun v => n <| n_next := v |>)) as [R O]; try done; [by destruct n|].
  split_and!; [exact R | exact O | by eapply lookup_set].
Qed.
Lemma fix_parent_ok l k n : Forall node_ok l -> l !! k = Some n ->
  let n' := n <| n_parent := from_offset (n_parent n) |> in
  fix_pointer (at_node k + OFF_PARENT) offset (ram l) = Ret tt (ram (<[k := n']> l)) /\ Forall node_ok (<[k := n']> l) /\
  <[k := n']> l !! k = Some n'.
Proof.
  intros Hl Hn n'. destruct (fix_pointer_ok l k n 31 (n_parent n) (fun v => n <| n_parent := v |>)) as [R O]; try done; [by destruct n|].
  split_and!; [exact R | exact O | by eapply lookup_set].
Qed.

Lemma init_node_ok l k n : Forall node_ok l -> l !! k = Some n ->
  init_node (at_node k) offset (ram l) = Ret tt (ram (<[k := fixup n]> l)) /\ Forall node_ok (<[k := fixup n]> l).
Proof.
  intros Hl Hn. unfold init_node, fixup. destruct (fix_ptr_ok l k n Hl Hn) as (R1 & O1 & H1).
  set (n1 := n <| n_ptr := _ |>) in *. rewrite (bind_Ret _ _ _ _ _ R1).
  destruct (fix_next_ok _ k n1 O1 H1) as (R2 & O2 & H2). rewrite list_insert_insert_eq in R2, O2, H2.
  change (from_offset (n_next n)) with (from_offset (n_next n1)). change (from_offset (n_parent n)) with (from_offset (n_parent n1)).
  clearbody n1. set (n2 := n1 <| n_next := _ |>) in *. rewrite (bind_Ret _ _ _ _ _ R2).
  destruct (fix_parent_ok _ k n2 O2 H2) as (R3 & O3 & H3). rewrite list_insert_insert_eq in R3, O3, H3.
  change (from_offset (n_parent n1)) with (from_offset (n_parent n2)).
  clearbody n2. set (n3 := n2 <| n_parent := _ |>) in *. rewrite (bind_Ret _ _ _ _ _ R3).
  destruct (init_data_ok _ k n3 O3 H3) as [R4 O4]. rewrite list_insert_insert_eq in R4, O4. done.
Qed.
End Access.

(** ** initrd_init *)

Section Init.
Context (offset : Z) (files : list Z).
Notation ram root l := (mkRam offset (image l files) root).

Lemma header_size root l : Z.of_nat (length l) < 2 ^ 32 -> ld32 (offset + 4) (ram root l) = Ret (Z.of_nat (length l)) (ram root l).
Proof.
  intros H. pose proof (ld32_at offset root (le32 MAGIC) (Z.of_nat (length l)) (concat (encode_node <$> l) ++ files)) as E.
  apply E. unfold is_word. lia.
Qed.

Lemma fixed_length (l : list vfs_node) (f : vfs_node -> vfs_node) k : length ((f <$> take k l) ++ drop k l) = length l.
Proof. rewrite length_app, length_fmap, <- length_app. by rewrite take_drop. Qed.

Lemma fixed_step (l : list vfs_node) f k n : l !! k = Some n ->
  <[k := f n]> ((f <$> take k l) ++ drop k l) = (f <$> take (S k) l) ++ drop (S k) l /\
  ((f <$> take k l) ++ drop k l) !! k = Some n.
Proof.
  intros H. pose proof (lookup_lt_Some _ _ _ H) as Hk. assert (E : length (f <$> take k l) = k) by (rewrite length_fmap, length_take; lia).
  rewrite (drop_S _ _ _ H). rewrite (take_S_r _ _ _ H), fmap_app. split.
  - rewrite insert_app_r_alt by lia. rewrite E, Nat.sub_diag. simpl. by rewrite <- app_assoc.
  - rewrite lookup_app_r by lia. by rewrite E, Nat.sub_diag.
Qed.

Lemma init_loop_ok root l0 n : Z.of_nat (length l0) < 2 ^ 32 -> forall k, (k + n = length l0)%nat ->
  let cur := (fixup offset <$> take k l0) ++ drop k l0 in Forall node_ok cur ->
  init_loop n (Z.of_nat k) (addr (offset + sizeof_header) k) offset (ram root cur) = Ret tt (ram root (fixup offset <$> l0)) /\
  Forall node_ok (fixup offset <$> l0).
Proof.
  intros Hsz. induction n as [|n IH]; intros k Hk cur Hok; cbn [init_loop].
  - assert (cur = fixup offset <$> l0) as Ecur by (unfold cur; rewrite take_ge, drop_ge by lia; by rewrite app_nil_r).
    rewrite (bind_Ret _ _ _ _ _ (header_size root cur ltac:(unfold cur; rewrite fixed_length; lia))).
    unfold cur at 1. rewrite fixed_length, (proj2 (Z.ltb_ge _ _)) by lia. rewrite <- Ecur. done.
  - rewrite (bind_Ret _ _ _ _ _ (header_size root cur ltac:(unfold cur; rewrite fixed_length; lia))).
    unfold cur at 1. rewrite fixed_length, (proj2 (Z.ltb_lt _ _)) by lia. cbn [negb].
    destruct (lookup_lt_is_Some_2 l0 k ltac:(lia)) as [v Hv]. destruct (fixed_step l0 (fixup offset) k v Hv) as [E1 E2].
    destruct (init_node_ok offset root files cur k v Hok E2) as [R O]. rewrite (bind_Ret _ _ _ _ _ R).
    replace (Z.of_nat k + 1) with (Z.of_nat (S k)) by lia. rewrite <- addr_S. unfold cur in O |- *. rewrite E1 in O |- *.
    apply IH; [lia | done].
Qed.

Lemma initrd_init_ok root l : Z.of_nat (length l) < 2 ^ 32 -> Forall node_ok l ->
  initrd_init offset (ram root l) = Ret (offset + sizeof_header) (ram (offset + sizeof_header) (fixup offset <$> l)) /\
  Forall node_ok (fixup offset <$> l).
Proof.
  intros Hsz Hok. unfold initrd_init, bind at 1, modify. unfold setf at 1. cbn [r_offset r_bytes r_root].
  rewrite (bind_Ret _ _ _ _ _ (header_size _ l Hsz)). rewrite Nat2Z.id.
  destruct (init_loop_ok (offset + sizeof_header) l (length l) Hsz 0 ltac:(lia)) as [R O]; [by rewrite drop_0|].
  rewrite drop_0, addr_0 in R. simpl in R. rewrite (bind_Ret _ _ _ _ _ R). done.
Qed.

(** The nodes that the kernel then finds. *)
Lemma node_at_ok root l k n : Forall node_ok l -> l !! k = Some n -> node_at (ram root l) (addr (offset + sizeof_header) k) = n.
Proof.
  intros Hl Hn. pose proof (lookup_lt_Some _ _ _ Hn) as Hk. assert (node_ok n) as Hnok by (by eapply Forall_lookup_1).
  unfold node_at. simpl. rewrite (image_split _ _ _ _ Hn).
  replace (Z.to_nat (addr (offset + sizeof_header) k - offset)) with (length (before l k)).
  - rewrite drop_app_length. rewrite <- (encode_node_length n Hnok) at 1. rewrite take_app_length. by apply decode_encode.
  - rewrite before_length by (done || lia). unfold addr, sizeof_header, sizeof_vfs_node. lia.
Qed.
End Init.
