(* ===== verification/InitrdMount.v ===== *)
(** * InitrdMount: from files to a mounted tree

    A file that mkinitrd has packed is found by the kernel under its path and
    has its content. *)

From Stdlib Require Import Ascii.
From S2P Require Import Prelude Chain KState Vfs Initrd InitrdTree InitrdBuild InitrdImage.

(** ** What is in the tree *)

(** Names and files of a tree come from the paths and files that were packed. *)
Section Contents.
Context (Q : string -> Prop) (F : Z -> Z -> Prop).

Definition ent_ok (e : ent) : Prop := Q (e_name e) /\ match e_kind e with Dir => True | File off len => F off len end.

Lemma ensure_contents names : forall ns i, Forall ent_ok ns -> Forall Q names -> Forall ent_ok (ensure ns i names).1.
Proof.
  induction names as [|name names IH]; intros ns i Hns Hq; simpl; [done|]. apply Forall_cons in Hq as [Hn Hq].
  destruct (child ns i name); apply IH; try done. apply Forall_app. split; [done|]. by repeat constructor.
Qed.

Lemma packed_contents l : forall ns off, Forall ent_ok ns -> Forall (fun x => x.1 <> [] /\ Forall Q x.1) l ->
  (forall k x, l !! k = Some x -> F (off + total (take k l)) x.2) -> Forall ent_ok (packed ns off l).
Proof.
  induction l as [|[names len] l IH]; intros ns off Hns Hl HF; simpl; [done|]. apply Forall_cons in Hl as [[Hne Hq] Hl]. simpl in *.
  rewrite (app_removelast_last "" Hne) in Hq. apply Forall_app in Hq as [Hq1 Hq2]. apply Forall_cons in Hq2 as [Hq2 _].
  pose proof (ensure_contents (removelast names) ns 0 Hns Hq1) as He. destruct (ensure ns 0 (removelast names)) as [ns' d].
  apply IH; [|done|].
  - apply Forall_app. split; [done|]. repeat constructor; [done|]. specialize (HF 0%nat (names, len) eq_refl). simpl in HF.
    by rewrite Z.add_0_r in HF.
  - intros k x Hk. specialize (HF (S k) x Hk). simpl in HF. by rewrite Z.add_assoc in HF.
Qed.
End Contents.

Definition good_bytes (name : string) : Prop := (String.length name < 256)%nat /\ Forall (fun b => b <> 0) (bytes_of name).

Lemma split_bytes p : Forall (fun b => b <> 0) (bytes_of p) ->
  Forall (fun x => (String.length x <= String.length p)%nat /\ Forall (fun b => b <> 0) (bytes_of x)) (split_slash p).
Proof.
  induction p as [|c p IH]; intros H; simpl; [by repeat constructor|]. simpl in H. apply Forall_cons in H as [Hc H].
  assert (IH' : Forall (fun x => (String.length x <= S (String.length p))%nat /\ Forall (fun b => b <> 0) (bytes_of x)) (split_slash p)).
  { eapply Forall_impl; [by apply IH|]. simpl. intros x [? ?]. split; [lia | done]. }
  destruct (decide (c = slash)); [constructor; [simpl; split; [lia | done] | done]|].
  specialize (IH H). destruct (split_slash p) as [|x l]; [constructor; [simpl; split; [lia | by constructor] | done]|].
  apply Forall_cons in IH as [[Hx1 Hx2] _]. apply Forall_cons in IH' as [_ IH']. constructor; [|done]. simpl. split; [lia|]. by constructor.
Qed.

Lemma components_good path : Vfs.strlen path <= MAX_PATH -> Forall (fun b => b <> 0) (bytes_of path) ->
  Forall good_bytes (components path).
Proof.
  intros Hlen Hb. assert (Hs : Forall (fun b => b <> 0) (bytes_of (skip_slash path)) /\ (String.length (skip_slash path) <= 255)%nat).
  { unfold Vfs.strlen, MAX_PATH in Hlen. destruct path as [|c p]; simpl in *; [split; [done | lia]|].
    apply Forall_cons in Hb as [Hc Hb]. destruct (decide (c = slash)); simpl; (split; [try by constructor | lia]); done. }
  destruct Hs as [Hs1 Hs2]. pose proof (split_bytes _ Hs1) as H. unfold components.
  induction H as [|x l [H1 H2] _ IH]; simpl; [constructor|]. destruct x; [constructor|]. constructor; [|done]. split; [lia | done].
Qed.

(** ** main *)

Section Main.
Context (base : Z) (host : string -> option (list Z)).
Hypothesis Hbase : 0 < base.

Lemma relocate_loop_ok off (l0 : list vfs_node) n : forall k s, (k + n = length l0)%nat -> mk_root s = base ->
  (forall i, (i < length l0)%nat ->
     mk_nodes s !! addr base i = ((relocate base off <$> take k l0) ++ drop k l0) !! i) ->
  exists s', relocate_loop n (addr base k) off s = Ret tt s' /\
    (forall i, (i < length l0)%nat -> mk_nodes s' !! addr base i = (relocate base off <$> l0) !! i).
Proof.
  induction n as [|n IH]; intros k s Hk Hr Hl; cbn [relocate_loop].
  - exists s. split; [done|]. intros i Hi. rewrite Hl by done. by rewrite take_ge, drop_ge, app_nil_r by lia.
  - destruct (lookup_lt_is_Some_2 l0 k ltac:(lia)) as [v Hv]. destruct (fixed_step l0 (relocate base off) k v Hv) as [E1 E2].
    assert (Hload : mk_nodes s !! addr base k = Some v) by (rewrite Hl by lia; done).
    rewrite (bind_Ret get _ s s s eq_refl), Hr, (bind_Ret _ _ _ _ _ (mk_upd_ok _ _ _ _ Hload)). rewrite <- addr_S.
    apply IH; [lia | done |]. intros i Hi. simpl. rewrite <- E1. destruct (decide (i = k)) as [->|Hik].
    + rewrite lookup_insert_eq, list_lookup_insert_eq; [done|]. rewrite fixed_length. lia.
    + rewrite lookup_insert_ne by (intros E%addr_inj; lia). rewrite list_lookup_insert_ne by lia. by apply Hl.
Qed.

Lemma write_nodes_ok s (l : list vfs_node) n : forall k, (k + n = length l)%nat ->
  (forall i, (i < length l)%nat -> mk_nodes s !! addr base i = l !! i) ->
  write_nodes n (addr base k) s = Ret (concat (encode_node <$> drop k l)) s.
Proof.
  induction n as [|n IH]; intros k Hk Hl; cbn [write_nodes].
  - by rewrite drop_ge by lia.
  - destruct (lookup_lt_is_Some_2 l k ltac:(lia)) as [v Hv].
    assert (Hload : mk_nodes s !! addr base k = Some v) by (rewrite Hl by lia; done).
    rewrite (bind_Ret _ _ _ _ _ (mk_load_ok _ _ _ Hload)), <- addr_S, (bind_Ret _ _ _ _ _ (IH (S k) ltac:(lia) Hl)).
    by rewrite (drop_S _ _ _ Hv).
Qed.

Lemma write_files_ok s l : Forall (entry_ok host) l ->
  write_files host (length l) (arguments l) s = Ret (concat (snd <$> l)) s.
Proof.
  induction l as [|[[path ipath] data] l IH]; intros H; [done|]. apply Forall_cons in H as [(Hh & _) H].
  change (arguments ((path, ipath, data) :: l)) with (path :: ipath :: arguments l). cbn [write_files length].
  rewrite Hh, (bind_Ret (deref (Some data)) _ s data s eq_refl). by rewrite (bind_Ret _ _ _ _ _ (IH H)).
Qed.

Lemma arguments_length l : length (arguments l) = (2 * length l)%nat.
Proof. induction l as [|f l IH]; [done|]. cbn. unfold arguments in IH. rewrite IH. lia. Qed.

(** The nodes in the order of their addresses. *)
Lemma heap_list h ns : heap_rep base h ns -> exists l, length l = length ns /\
  forall i, (i < length ns)%nat -> h !! addr base i = l !! i.
Proof.
  intros Hh. exists ((fun i => default (VFS_NODE_INITIALIZER 0) (h !! addr base i)) <$> seq 0 (length ns)).
  rewrite length_fmap, length_seq. split; [done|]. intros i Hi.
  rewrite list_lookup_fmap, lookup_seq_lt by done. simpl. destruct (rep_name _ _ _ i Hh Hi) as (n & e & -> & _). done.
Qed.

Definition tree (l : list (string * string * list Z)) : list ent := packed [root_ent] 0 (plan l).
Definition data_start (l : list (string * string * list Z)) : Z := sizeof_header + sizeof_vfs_node * Z.of_nat (length (tree l)).

Lemma root_rep s : mk_nodes s = {[base := VFS_NODE_INITIALIZER FS_DIRECTORY]} -> mk_root s = base ->
  mk_p_node s = base + sizeof_vfs_node -> mk_rep base s [root_ent].
Proof.
  intros Hn Hr Hp. split; [|apply tree_wf_root | done | rewrite Hp; unfold addr; simpl; lia]. rewrite Hn. split.
  - intros p. rewrite lookup_singleton_is_Some. simpl. split.
    + intros <-. exists 0%nat. split; [lia | by rewrite addr_0].
    + intros (i & Hi & ->). replace i with 0%nat by lia. by rewrite addr_0.
  - intros [|i] e; simpl; [|done]. intros [= <-]. exists (VFS_NODE_INITIALIZER FS_DIRECTORY). rewrite addr_0, lookup_singleton_eq. done.
  - intros p n. rewrite lookup_singleton_Some. intros [_ <-]. split; by left.
Qed.

(** The image that [main] writes: the nodes of the tree, with their pointers
    changed, and then the files. *)
Lemma main_ok l : Forall (entry_ok host) l -> total (plan l) < 2 ^ 31 -> (0 < length l)%nat ->
  (length (tree l) <= 5 * length l)%nat ->
  exists s h nodes, main base host (arguments l) (mkMkinitrd ∅ 0 0 0) =
      Ret (0, image (relocate base (data_start l) <$> nodes) (concat (snd <$> l))) s /\
    heap_rep base h (tree l) /\ length nodes = length (tree l) /\
    (forall i, (i < length (tree l))%nat -> h !! addr base i = nodes !! i).
Proof.
  intros Hl Htot Hlen Hcap. unfold main. rewrite arguments_length, (Nat.mul_comm 2), Nat.div_mul by lia.
  rewrite (proj2 (Z.eqb_neq base 0)) by lia. unfold bind at 1, modify. cbv beta iota.
  set (s0 := mkMkinitrd ∅ 0 base (base + sizeof_vfs_node * Z.of_nat (length l) * 5)).
  match goal with |- context [bind (new_node _) _ ?st] => change st with s0 end.
  assert (Hnew : new_node (VFS_NODE_INITIALIZER FS_DIRECTORY) s0 =
    Ret base (s0 <| mk_nodes := {[base := VFS_NODE_INITIALIZER FS_DIRECTORY]} |> <| mk_p_node := base + sizeof_vfs_node |>)).
  { unfold new_node, bind, get. cbn [mk_p_node mk_limit s0]. rewrite (proj2 (Z.leb_le _ _)) by (unfold sizeof_vfs_node; lia). done. }
  rewrite (bind_Ret _ _ _ _ _ Hnew). unfold bind at 1, modify. cbv beta iota.
  set (s1 := _ <| mk_root := base |>). pose proof (root_rep s1 eq_refl eq_refl eq_refl) as Hs1.
  destruct (pack_ok base Hbase host l s1 [root_ent] 0 Hl Hs1 ltac:(lia) ltac:(lia)) as (s2 & Hpack & Hs2).
  { fold (tree l). unfold addr, s1, s0, sizeof_vfs_node. simpl. lia. }
  change (Z.of_nat (length [root_ent])) with 1 in Hpack. rewrite (bind_Ret _ _ _ _ _ Hpack). cbv beta iota. fold (tree l) in Hs2 |- *.
  fold (data_start l). rewrite Nat2Z.id. destruct (heap_list _ _ (mr_heap _ _ _ Hs2)) as (nodes & Hn1 & Hn2).
  destruct (relocate_loop_ok (data_start l) nodes (length (tree l)) 0 s2) as (s3 & Hrel & Hs3).
  { lia. } { apply Hs2. } { intros i Hi. simpl. rewrite drop_0. apply Hn2. lia. }
  rewrite addr_0 in Hrel. rewrite (bind_Ret _ _ _ _ _ Hrel).
  pose proof (write_nodes_ok s3 (relocate base (data_start l) <$> nodes) (length (tree l)) 0) as Hw.
  rewrite length_fmap, drop_0, addr_0 in Hw. rewrite (bind_Ret _ _ _ _ _ (Hw ltac:(lia) Hs3)).
  rewrite (bind_Ret _ _ _ _ _ (write_files_ok s3 l Hl)). exists s3, (mk_nodes s2), nodes. split_and!; [|apply Hs2 | done | done].
  unfold ret, image. by rewrite length_fmap, Hn1.
Qed.
End Main.

(** ** The nodes in the kernel *)

Lemma chain_moved_in h h' (mv : Z -> Z) base base' js : mv 0 = 0 -> 0 < base' ->
  (forall j, j ∈ js -> mv (addr base j) = addr base' j) ->
  (forall j n, j ∈ js -> h !! addr base j = Some n -> exists n', h' !! addr base' j = Some n' /\ n_next n' = mv (n_next n)) ->
  forall p, chain h p (addr base <$> js) -> chain h' (mv p) (addr base' <$> js).
Proof.
  intros H0 Hb. induction js as [|j js IH]; intros Hmv Hn p; simpl; [by intros ->|].
  intros (-> & _ & n & Hj & Hc). split_and!; [apply Hmv; left | by apply addr_pos |].
  destruct (Hn j n ltac:(left) Hj) as (n' & Hn' & E). exists n'. split; [done|]. rewrite E. apply IH; [| |done].
  - intros. apply Hmv. by right.
  - intros. apply Hn; [by right | done].
Qed.

Lemma find_map {A B} (g : A -> B) (f : B -> bool) l : List.find f (g <$> l) = g <$> List.find (fun x => f (g x)) l.
Proof. induction l as [|x l IH]; simpl; [done|]. by destruct (f (g x)). Qed.

Section Kernel.
Context (base offset : Z) (l : list (string * string * list Z)) (h : gmap Z vfs_node) (nodes : list vfs_node).
Notation ns := (tree l).
Notation b' := (offset + sizeof_header).
Hypothesis Hbase : 0 < base.
Hypothesis Hoff : 0 <= offset.
Hypothesis Htree : tree_wf ns.
Hypothesis Hfits : base + sizeof_vfs_node * Z.of_nat (length ns) < 2 ^ 32.
Hypothesis Hmem : offset + data_start l + total (plan l) < 2 ^ 32.
Hypothesis Hrep : heap_rep base h ns.
Hypothesis Hnodes : length nodes = length ns /\ forall i, (i < length ns)%nat -> h !! addr base i = nodes !! i.
Hypothesis Hcontents : Forall (ent_ok good_bytes (fun off len => 0 <= off /\ 0 <= len /\ off + len <= total (plan l))) ns.

Definition moved (p : Z) : Z := from_offset offset (to_offset base p).
Definition kernel_nodes : list vfs_node := fixup offset <$> (relocate base (data_start l) <$> nodes).

Lemma moved_link p : link_ok base ns p -> moved p = if decide (p = 0) then 0 else p - base + b'.
Proof.
  unfold moved, to_offset, from_offset. intros [->|(j & Hj & ->)]; [done|].
  pose proof (addr_pos base j Hbase). rewrite (proj2 (Z.eqb_neq (addr base j) 0)), decide_False by done.
  assert (Hj' : 0 <= sizeof_vfs_node * Z.of_nat j < 2 ^ 32) by (unfold sizeof_vfs_node in *; lia).
  pose proof Hmem as Hmem'. pose proof (total_nonneg l). unfold addr, data_start, sizeof_header, sizeof_vfs_node in *.
  replace (base + 392 * Z.of_nat j - base) with (392 * Z.of_nat j) by lia. rewrite (u32_small (392 * Z.of_nat j)) by lia.
  rewrite (u32_small (_ + 8)) by lia. rewrite (proj2 (Z.eqb_neq _ 0)) by lia. rewrite u32_small by lia. lia.
Qed.

Lemma moved_addr j : (j < length ns)%nat -> moved (addr base j) = addr b' j.
Proof.
  intros Hj. rewrite moved_link by (right; eauto). rewrite decide_False by (by apply addr_pos). unfold addr. lia.
Qed.

Lemma fixup_name o n : n_name (fixup o n) = n_name n.
Proof. unfold fixup, fix_data. by destruct (0 <? _). Qed.
Lemma fixup_data o n : n_data (fixup o n) = if 0 <? n_length n then u32 (n_data n + o) else n_data n.
Proof. unfold fixup, fix_data. simpl. by destruct (0 <? n_length n). Qed.
Lemma fixup_rest o n : n_flags (fixup o n) = n_flags n /\ n_finddir (fixup o n) = n_finddir n /\
  n_readdir (fixup o n) = n_readdir n /\ n_open (fixup o n) = n_open n /\ n_stat (fixup o n) = n_stat n /\
  n_lock (fixup o n) = n_lock n /\ n_ptr (fixup o n) = from_offset o (n_ptr n) /\
  n_next (fixup o n) = from_offset o (n_next n) /\ n_length (fixup o n) = n_length n.
Proof. unfold fixup, fix_data. by destruct (0 <? _). Qed.

(** What becomes of an entry. *)
Lemma kernel_entry i e : ns !! i = Some e -> exists m k, h !! addr base i = Some m /\ kernel_nodes !! i = Some k /\
  n_name k = e_name e /\ n_flags k = (match e_kind e with Dir => FS_DIRECTORY | File _ _ => FS_FILE end) /\
  n_finddir k = 0 /\ n_readdir k = 0 /\ n_open k = 0 /\ n_stat k = 0 /\ n_lock k = 0 /\
  n_ptr k = moved (n_ptr m) /\ n_next k = moved (n_next m) /\
  match e_kind e with
  | Dir => True
  | File off len => n_length k = len /\ (0 < len -> n_data k = offset + data_start l + off)
  end.
Proof.
  intros He. pose proof (lookup_lt_Some _ _ _ He) as Hi. destruct (hr_node _ _ _ Hrep _ _ He) as (m & Hm & Hl & _).
  destruct Hnodes as [_ Hn]. rewrite Hn in Hm by done. exists m, (fixup offset (relocate base (data_start l) m)).
  unfold kernel_nodes. rewrite !list_lookup_fmap, Hm. rewrite Hn by done.
  assert (Hc : ent_ok good_bytes (fun off len => 0 <= off /\ 0 <= len /\ off + len <= total (plan l)) e) by (by eapply Forall_lookup_1).
  destruct Hc as [_ Hc]. unfold linked in Hl. rewrite !fixup_name, fixup_data.
  assert (0 <= data_start l) by (unfold data_start, sizeof_header, sizeof_vfs_node; lia). pose proof (total_nonneg l).
  destruct (fixup_rest offset (relocate base (data_start l) m)) as (-> & -> & -> & -> & -> & -> & -> & -> & ->).
  unfold relocate. simpl.
  split_and!; try done; try (rewrite Hl; unfold proto; by destruct (e_kind e)).
  destruct (e_kind e) as [|off len] eqn:Ek; [done|].
  assert (n_length m = len /\ n_data m = off) as [-> ->] by (rewrite Hl; unfold proto; by rewrite Ek).
  split; [done|]. intros Hlen. rewrite (proj2 (Z.ltb_lt 0 len)), (proj2 (Z.eqb_neq len 0)) by lia. simpl.
  rewrite (u32_small (off + _)) by lia. rewrite u32_small by lia. lia.
Qed.

Lemma to_offset_word p : is_word (to_offset base p).
Proof. unfold to_offset, is_word. destruct (p =? 0); [lia | apply u32_range]. Qed.

(** The nodes fit into the image. *)
Lemma relocated_ok : Forall node_ok (relocate base (data_start l) <$> nodes).
Proof.
  apply Forall_fmap, Forall_lookup. intros i m Hm. destruct Hnodes as [Hlen Hn].
  assert (i < length ns)%nat as Hi by (rewrite <- Hlen; by eapply lookup_lt_Some).
  destruct (lookup_lt_is_Some_2 _ _ Hi) as [e He]. destruct (hr_node _ _ _ Hrep _ _ He) as (m' & Hm' & Hl & _).
  rewrite Hn, Hm in Hm' by done. injection Hm' as <-. unfold linked in Hl.
  assert (Hc : ent_ok good_bytes (fun off len => 0 <= off /\ 0 <= len /\ off + len <= total (plan l)) e) by (by eapply Forall_lookup_1).
  destruct Hc as [[Hn1 Hn2] Hc].
  change (node_ok (relocate base (data_start l) m)). unfold node_ok. change (n_name (relocate base (data_start l) m)) with (n_name m).
  assert (n_name m = e_name e) as -> by (rewrite Hl; unfold proto; by destruct (e_kind e)).
  split_and!; [done | done |].
  assert (0 <= data_start l) by (unfold data_start, sizeof_header, sizeof_vfs_node; lia).
  rewrite Hl. unfold proto. destruct (e_kind e) as [|off len]; unfold node_words, relocate; simpl.
  - repeat first [apply Forall_nil_2 | apply Forall_cons_2]; try apply to_offset_word; unfold is_word, FS_DIRECTORY; lia.
  - assert (is_word len /\ is_word off) as [? ?] by (unfold is_word; lia).
    assert (is_word (if negb (len =? 0) then u32 (off + data_start l) else off)) by (destruct (len =? 0); simpl; [done | apply u32_range]).
    repeat first [apply Forall_nil_2 | apply Forall_cons_2]; try apply to_offset_word; try assumption; unfold is_word, FS_FILE; lia.
Qed.

(** The nodes are memory of the kernel, below the mount point. *)
Context (ks : kstate).
Hypothesis Hks : forall i k, kernel_nodes !! i = Some k -> k_nodes ks !! addr b' i = Some k.

Lemma kernel_children i : (i < length ns)%nat -> children ks (addr b' i) (addr b' <$> kids ns i).
Proof.
  intros Hi. destruct (lookup_lt_is_Some_2 _ _ Hi) as [e He].
  destruct (kernel_entry _ _ He) as (m & k & Hm & Hk & _ & _ & _ & _ & _ & _ & _ & Hp & _).
  destruct (hr_node _ _ _ Hrep _ _ He) as (m' & Hm' & _ & Hc). rewrite Hm in Hm'. injection Hm' as <-.
  exists k. split; [by apply Hks|]. rewrite Hp. revert Hc. apply chain_moved_in.
  - done.
  - unfold sizeof_header. lia.
  - intros j Hj. apply moved_addr. by eapply kids_lt.
  - intros j n Hj Hn. pose proof (kids_lt _ _ _ Hj) as Hjl. destruct (lookup_lt_is_Some_2 _ _ Hjl) as [ej Hej].
    destruct (kernel_entry _ _ Hej) as (mj & kj & Hmj & Hkj & _ & _ & _ & _ & _ & _ & _ & _ & Hnx & _).
    rewrite Hn in Hmj. injection Hmj as <-. exists kj. split; [by apply Hks | done].
Qed.

Lemma kernel_named name j : (j < length ns)%nat -> has_name ks name (addr b' j) = is_named ns name j.
Proof.
  intros Hj. destruct (lookup_lt_is_Some_2 _ _ Hj) as [e He]. destruct (kernel_entry _ _ He) as (m & k & _ & Hk & Hn & _).
  unfold has_name, is_named. by rewrite (Hks _ _ Hk), He, Hn.
Qed.

Lemma kernel_find name i : List.find (has_name ks name) (addr b' <$> kids ns i) = addr b' <$> child ns i name.
Proof.
  rewrite find_map. unfold child. f_equal. apply find_ext_in. intros j Hj. apply kernel_named. by eapply kids_lt.
Qed.

Lemma kernel_dir i : is_dir ns i -> plain_dir ks (addr b' i).
Proof.
  unfold is_dir. destruct (ns !! i) as [e|] eqn:He; [|done]. intros [= Hd].
  destruct (kernel_entry _ _ He) as (m & k & _ & Hk & _ & Hfl & H1 & H2 & H3 & H4 & _).
  split; [apply addr_pos; unfold sizeof_header; lia|]. exists k. rewrite Hfl, Hd. split_and!; try done. by apply Hks.
Qed.

Definition plain_names (names : list string) : Prop := Forall (fun x => x <> "." /\ x <> "..") names.

Lemma walk_tree names : (forall i, (i < length ns)%nat -> addr b' i <> k_vfs_root ks) -> forall i j,
  resolve ns i names = Some j -> (i < length ns)%nat -> plain_names names ->
  (forall pre, strict_prefix pre names -> exists d, resolve ns i pre = Some d /\ is_dir ns d) ->
  Vfs.walk ks (addr b' i) names (Found (addr b' j)).
Proof.
  intros Hroot. induction names as [|name names IH]; intros i j; simpl; [intros [= <-] _ _ _; constructor|].
  destruct (child ns i name) as [c|] eqn:Ec; [|done]. intros Hr Hi [[Hn1 Hn2] Hn]%Forall_cons Hd.
  pose proof (child_lt _ _ _ _ Ec) as Hc.
  eapply (walk_child ks _ (addr b' <$> kids ns i) []); try done.
  - apply kernel_dir. destruct (Hd [] ltac:(by exists name, names)) as (d & [= <-] & ?). done.
  - split; [by apply kernel_children|]. by rewrite (proj2 (Z.eqb_neq _ _)) by (by apply Hroot).
  - rewrite app_nil_r, kernel_find, Ec. done.
  - apply addr_pos. unfold sizeof_header. lia.
  - apply IH; try done. intros pre (x & r & ->). destruct (Hd (name :: pre)) as (d & Hr' & ?); [by exists x, r|].
    simpl in Hr'. rewrite Ec in Hr'. eauto.
Qed.

(** From the root of the file system, where the image is mounted. *)
Lemma walk_mounted name names own j :
  (forall i, (i < length ns)%nat -> addr b' i <> k_vfs_root ks) -> plain_dir ks (k_vfs_root ks) ->
  k_vfs_root_mount ks = b' -> children ks (k_vfs_root ks) own -> List.find (has_name ks name) own = None ->
  plain_names (name :: names) -> resolve ns 0 (name :: names) = Some j ->
  (forall pre, strict_prefix pre (name :: names) -> exists d, resolve ns 0 pre = Some d /\ is_dir ns d) ->
  Vfs.walk ks (k_vfs_root ks) (name :: names) (Found (addr b' j)).
Proof.
  intros Hroot Hpd Hmnt Hown Hno [[Hn1 Hn2] Hn]%Forall_cons Hr Hd. simpl in Hr. destruct (child ns 0 name) as [c|] eqn:Ec; [|done].
  eapply (walk_child ks _ own (addr b' <$> kids ns 0)); try done.
  - split; [done|]. rewrite Z.eqb_refl, Hmnt. rewrite <- (addr_0 b') at 1. apply kernel_children. apply Htree.
  - rewrite find_app, Hno, kernel_find, Ec. done.
  - apply addr_pos. unfold sizeof_header. lia.
  - apply walk_tree; try done; [by eapply child_lt|]. intros pre (x & r & ->).
    destruct (Hd (name :: pre)) as (d & Hr' & ?); [by exists x, r|]. simpl in Hr'. rewrite Ec in Hr'. eauto.
Qed.
End Kernel.

(** ** Reading *)

Lemma read_bytes_ok offset root mid : forall pre post,
  let r := mkRam offset (pre ++ mid ++ post) root in
  read_bytes (length mid) (offset + Z.of_nat (length pre)) r = Ret mid r.
Proof.
  induction mid as [|b mid IH]; intros pre post r; [done|]. cbn [read_bytes length]. unfold r.
  rewrite (bind_Ret _ _ _ _ _ (ld8_at offset root pre b (mid ++ post))). cbn [app]. rewrite snoc_shift.
  specialize (IH (pre ++ [b]) post). rewrite length_app in IH. simpl in IH.
  replace (offset + Z.of_nat (length pre) + 1) with (offset + Z.of_nat (length pre + 1)) by lia.
  by rewrite (bind_Ret _ _ _ _ _ IH).
Qed.

Lemma total_take l k : total (take k (plan l)) = Z.of_nat (length (concat (snd <$> take k l))).
Proof.
  unfold plan. rewrite <- fmap_take. induction (take k l) as [|f l' IH]; [done|]. cbn. rewrite length_app, Nat2Z.inj_add. unfold total in IH. by rewrite IH.
Qed.

Lemma initrd_read_ok offset root nodes files j n len data pre post o size :
  Forall node_ok nodes -> nodes !! j = Some n -> n_length n = len -> len = Z.of_nat (length data) -> 0 <= offset ->
  files = pre ++ data ++ post -> n_data n = offset + Z.of_nat (8 + 392 * length nodes + length pre) ->
  n_data n + len < 2 ^ 32 -> 0 <= o <= len -> 0 <= size -> o + size < 2 ^ 32 ->
  let r := mkRam offset (image nodes files) root in
  initrd_read (addr (offset + sizeof_header) j) o size r =
    Ret (Z.min size (len - o), take (Z.to_nat size) (drop (Z.to_nat o) data)) r.
Proof.
  intros Hok Hj Hlen Hdata Hoff Hf Hd Hfit Ho Hs Hos r. unfold initrd_read.
  unfold assert. rewrite (proj2 (Z.eqb_neq _ 0)) by (apply addr_pos; unfold sizeof_header; lia). cbn [negb]. rewrite bind_ret_l.
  rewrite (bind_Ret _ _ _ _ _ (node_ld offset root files nodes j n 7 (n_length n) Hok Hj eq_refl)). rewrite Hlen.
  rewrite (proj2 (Z.ltb_ge _ _)) by lia. rewrite (u32_small (o + size)) by lia.
  set (sz := if len <? o + size then u32 (len - o) else size).
  assert (Hsz : sz = Z.min size (len - o)) by (unfold sz; destruct (Z.ltb_spec len (o + size)); rewrite ?u32_small; lia).
  rewrite (bind_Ret _ _ _ _ _ (node_ld offset root files nodes j n 10 (n_data n) Hok Hj eq_refl)).
  rewrite (u32_small (n_data n + o)) by lia.
  set (mid := take (Z.to_nat size) (drop (Z.to_nat o) data)).
  assert (Hmid : length mid = Z.to_nat sz) by (unfold mid; rewrite length_take, length_drop; lia).
  set (front := (le32 MAGIC ++ le32 (Z.of_nat (length nodes)) ++ concat (encode_node <$> nodes)) ++ pre ++ take (Z.to_nat o) data).
  assert (Himg : image nodes files = front ++ mid ++ drop (Z.to_nat size) (drop (Z.to_nat o) data) ++ post).
  { unfold image, front. rewrite Hf. rewrite <- (take_drop (Z.to_nat o) data) at 1.
    rewrite <- (take_drop (Z.to_nat size) (drop (Z.to_nat o) data)) at 1. fold mid. by rewrite <- !app_assoc. }
  assert (Hfront : n_data n + o = offset + Z.of_nat (length front)).
  { unfold front. rewrite !length_app, concat_nodes_length, length_take by done. simpl. rewrite Hd. lia. }
  unfold r. rewrite Himg, Hfront, <- Hmid. rewrite (bind_Ret _ _ _ _ _ (read_bytes_ok _ _ _ _ _)). by rewrite <- Hsz.
Qed.

(** ** The round trip *)

(** A list of files that can be packed with the array at [base] and loaded at
    [offset]. *)
Record packable (host : string -> option (list Z)) (base offset : Z) (l : list (string * string * list Z)) : Prop := {
  pk_entries : Forall (entry_ok host) l;
  pk_bytes : Forall (fun f => Forall (fun b => b <> 0) (bytes_of f.1.2)) l;
  pk_names : Forall (fun f => plain_names (components f.1.2)) l;
  pk_free : prefix_free ((plan l).*1);
  pk_some : (0 < length l)%nat;
  pk_room : (length (tree l) <= 5 * length l)%nat;
  pk_total : total (plan l) < 2 ^ 31;
  pk_array : 0 < base /\ base + sizeof_vfs_node * Z.of_nat (length (tree l)) < 2 ^ 32;
  pk_memory : 0 <= offset /\ offset + data_start l + total (plan l) < 2 ^ 32
}.

(** The kernel has the nodes of the ram disk in its memory and mounts it at the
    root. *)
Record mounted (ks : kstate) (r : ramdisk) (n : nat) : Prop := {
  mt_nodes : forall i, (i < n)%nat ->
    k_nodes ks !! addr (r_offset r + sizeof_header) i = Some (node_at r (addr (r_offset r + sizeof_header) i));
  mt_mount : k_vfs_root_mount ks = r_offset r + sizeof_header;
  mt_root : plain_dir ks (k_vfs_root ks);
  mt_apart : forall i, (i < n)%nat -> addr (r_offset r + sizeof_header) i <> k_vfs_root ks
}.

Lemma accounted_root : accounted [] [] [root_ent].
Proof.
  intros names j e. destruct names as [|x names]; simpl; [intros [= <-] [= <-]; by left | done].
Qed.

Lemma tree_facts host base offset l : packable host base offset l ->
  tree_wf (tree l) /\
  Forall (ent_ok good_bytes (fun off len => 0 <= off /\ 0 <= len /\ off + len <= total (plan l))) (tree l) /\
  forall k path ipath data, l !! k = Some (path, ipath, data) ->
    found (tree l) (components ipath) (total (take k (plan l))) (Z.of_nat (length data)).
Proof.
  intros [P1 P2 P3 P4 P5 P6 P7 P8 P9]. unfold tree.
  assert (Hne : Forall (fun x => x.1 <> [] /\ Forall good_bytes x.1) (plan l)).
  { unfold plan. apply Forall_fmap, Forall_lookup. intros k [[path ipath] data] Hk. simpl.
    destruct (Forall_lookup_1 _ _ _ _ P1 Hk) as (_ & [Hlen _] & Hne). pose proof (Forall_lookup_1 _ _ _ _ P2 Hk) as Hb.
    split; [done | by apply components_good]. }
  assert (Hpos : forall k x, plan l !! k = Some x -> 0 <= x.2).
  { intros k x. unfold plan. rewrite list_lookup_fmap. destruct (l !! k); [|done]. intros [= <-]. simpl. lia. }
  destruct (packed_found (plan l) [root_ent] 0 [] tree_wf_root accounted_root P4) as (W1 & _ & W3).
  { eapply Forall_impl; [exact Hne|]. by intros x [? _]. }
  split_and!; [done | |].
  - apply packed_contents; [|done|].
    + repeat constructor.
    + intros k x Hk. simpl. specialize (Hpos k x Hk). rewrite total_take. split; [lia|]. split; [done|].
      rewrite <- total_take. rewrite <- (take_drop_middle _ _ _ Hk) at 2.
      assert (Happ : forall a b, total (a ++ b) = total a + total b).
      { induction a as [|y a IH]; intros b; simpl; [done|]. rewrite IH. lia. }
      rewrite Happ. simpl. assert (Hr : 0 <= total (drop (S k) (plan l))).
      { unfold plan. rewrite <- fmap_drop. apply total_nonneg. }
      lia.
  - intros k path ipath data Hk. replace (total (take k (plan l))) with (0 + total (take k (plan l))) by lia. apply W3.
    unfold plan. by rewrite list_lookup_fmap, Hk.
Qed.

Section RoundTrip.
Context `{!Allocator, !Drivers}.

(** C10: a file survives the way through the image.  [main] of mkinitrd packs a
    list of files whose paths do not lead through one another; [initrd_init]
    accepts the image wherever it was loaded; and when its tree is mounted at
    the root, [vfs_open] of the path of each file gives a node of which
    [initrd_read] reads the content of the file. *)
Theorem packed_file_read_back host base offset l root0 : packable host base offset l ->
  exists s img r, main base host (arguments l) (mkMkinitrd ∅ 0 0 0) = Ret (0, img) s /\
    initrd_init offset (mkRam offset img root0) = Ret (offset + sizeof_header) r /\
    forall k path ipath data, l !! k = Some (path, ipath, data) -> exists q,
      (forall ks t flags own, mounted ks r (length (tree l)) -> children ks (k_vfs_root ks) own ->
         List.find (has_name ks (hd "" (components ipath))) own = None ->
         k_tasks ks !! k_current_task ks = Some t -> start_dir ks ipath t = k_vfs_root ks ->
         allocate (k_mallocs ks) (live ks) (MAX_PATH + 1) <> 0 ->
         vfs_open ipath flags ks = Ret q ((tick ks) <| k_nodes := with_ref (k_nodes ks) q |>)) /\
      (forall o size, 0 < Z.of_nat (length data) -> 0 <= o <= Z.of_nat (length data) -> 0 <= size -> o + size < 2 ^ 32 ->
         initrd_read q o size r =
           Ret (Z.min size (Z.of_nat (length data) - o), take (Z.to_nat size) (drop (Z.to_nat o) data)) r).
Proof.
  intros Hp. destruct (tree_facts _ _ _ _ Hp) as (Hwf & Hcont & Hfound). pose proof Hp as [P1 P2 P3 P4 P5 P6 P7 [P8 P8'] [P9 P9']].
  destruct (main_ok base host P8 l P1 P7 P5 P6) as (s & h & nodes & Hmain & Hrep & Hlen & Hnodes).
  pose proof (relocated_ok base offset l h nodes P9 P9' Hrep (conj Hlen Hnodes) Hcont) as Hrel.
  set (nodes1 := relocate base (data_start l) <$> nodes) in *.
  destruct (initrd_init_ok offset (concat (snd <$> l)) root0 nodes1) as [Hinit Hkok]; [|done|].
  { unfold nodes1. rewrite length_fmap, Hlen. unfold data_start, sizeof_header, sizeof_vfs_node in *. pose proof (total_nonneg l). lia. }
  eexists s, _, _. split_and!; [exact Hmain | exact Hinit |]. intros k path ipath data Hk.
  destruct (Hfound _ _ _ _ Hk) as [(j & Hres & Hkind) Hdirs]. destruct (tree l !! j) as [e|] eqn:He; [|done]. injection Hkind as Hkind.
  pose proof (kernel_entry base offset l h nodes P9 P9' Hrep (conj Hlen Hnodes) Hcont _ _ He) as
    (m & kn & _ & Hkn & _ & _ & _ & _ & _ & _ & Hlock & _ & _ & Hfile). rewrite Hkind in Hfile. destruct Hfile as [Hl1 Hl2].
  change (fixup offset <$> nodes1) with (kernel_nodes base offset l nodes) in *.
  exists (addr (offset + sizeof_header) j). split.
  - intros ks t flags own [M1 M2 M3 M4] Hown Hno Ht Hstart Hal. simpl in M1, M2, M4.
    assert (Hks : forall i v, kernel_nodes base offset l nodes !! i = Some v -> k_nodes ks !! addr (offset + sizeof_header) i = Some v).
    { intros i v Hv. rewrite M1; [by rewrite (node_at_ok _ _ _ _ i v)|]. rewrite <- Hlen.
      apply lookup_lt_Some in Hv. unfold kernel_nodes in Hv. by rewrite !length_fmap in Hv. }
    destruct (Forall_lookup_1 _ _ _ _ P1 Hk) as (_ & [Hplen _] & Hne). pose proof (Forall_lookup_1 _ _ _ _ P3 Hk) as Hpn. simpl in Hpn.
    apply (vfs_open_ok ks ipath flags t (Found (addr (offset + sizeof_header) j))); try done.
    + unfold open_target. rewrite Hstart. destruct (components ipath) as [|name names] eqn:Ec; [done|].
      eapply (walk_mounted base offset l h nodes); try done.
    + exists kn. split; [by apply Hks | done].
  - intros o size Hpos Ho Hs Hos. specialize (Hl2 Hpos).
    pose proof (take_drop_middle _ _ _ Hk) as Hsplit.
    assert (Hklen : length (kernel_nodes base offset l nodes) = length (tree l)) by (unfold kernel_nodes; by rewrite !length_fmap).
    eapply (initrd_read_ok offset _ _ _ j kn _ data (concat (snd <$> take k l)) (concat (snd <$> drop (S k) l))); try done.
    + rewrite <- Hsplit at 1. by rewrite fmap_app, concat_app.
    + rewrite Hl2, Hklen, total_take. unfold data_start, sizeof_header, sizeof_vfs_node. lia.
    + rewrite Hl2. destruct (Forall_lookup_1 _ _ _ _ Hcont He) as [_ Hf]. rewrite Hkind in Hf. lia.
Qed.
End RoundTrip.

(** ** An image *)

Module InitrdExample.

Definition host (path : string) : option (list Z) :=
  if String.eqb path "hello.txt" then Some [104; 105; 10]
  else if String.eqb path "init" then Some [127; 69; 76; 70; 1] else None.

Definition files : list (string * string * list Z) :=
  [("hello.txt", "/home/hello.txt", [104; 105; 10]); ("init", "/sbin/init", [127; 69; 76; 70; 1])].

Lemma files_packable : packable host 0x5000 0x100000 files.
Proof.
  assert (Hfree : prefix_free ((plan files).*1)).
  { intros [|[|i]] [|[|j]] a b; simpl; try done; intros [= <-] [= <-] _ [c Hc]; done. }
  split; try done.
  - repeat constructor; done.
  - repeat constructor; done.
  - repeat constructor; done.
  - vm_compute. repeat constructor.
  - vm_compute. repeat constructor.
Qed.

Lemma packed_file_read_back_witness :
  exists s img r, main 0x5000 host (arguments files) (mkMkinitrd ∅ 0 0 0) = Ret (0, img) s /\
    initrd_init 0x100000 (mkRam 0x100000 img 0) = Ret (0x100000 + sizeof_header) r /\
    forall k path ipath data, files !! k = Some (path, ipath, data) -> exists q,
      (forall ks t flags own, mounted ks r (length (tree files)) -> children ks (k_vfs_root ks) own ->
         List.find (has_name ks (hd "" (components ipath))) own = None ->
         k_tasks ks !! k_current_task ks = Some t -> start_dir ks ipath t = k_vfs_root ks ->
         @allocate bump_allocator (k_mallocs ks) (live ks) (MAX_PATH + 1) <> 0 ->
         @vfs_open bump_allocator no_drivers ipath flags ks = Ret q ((tick ks) <| k_nodes := with_ref (k_nodes ks) q |>)) /\
      (forall o size, 0 < Z.of_nat (length data) -> 0 <= o <= Z.of_nat (length data) -> 0 <= size -> o + size < 2 ^ 32 ->
         initrd_read q o size r =
           Ret (Z.min size (Z.of_nat (length data) - o), take (Z.to_nat size) (drop (Z.to_nat o) data)) r).
Proof. apply (@packed_file_read_back bump_allocator no_drivers host 0x5000 0x100000 files 0). exact files_packable. Defined.

(** The same image, mounted below an empty root directory. *)
Definition image_of (host : string -> option (list Z)) (args : list string) : list Z :=
  match main 0x5000 host args (mkMkinitrd ∅ 0 0 0) with Ret (_, img) _ => img | _ => [] end.

Definition boot (img : list Z) (count : nat) : kstate * ramdisk :=
  match initrd_init 0x100000 (mkRam 0x100000 img 0) with
  | Ret root r =>
      let nodes := (fun i => (addr root i, node_at r (addr root i))) <$> seq 0 count in
      (empty_kstate <| k_nodes := <[1 := VFS_NODE_INITIALIZER FS_DIRECTORY]> (list_to_map nodes) |>
         <| k_vfs_root := 1 |> <| k_vfs_root_mount := root |> <| k_tasks := {[2 := no_task]} |> <| k_current_task := 2 |>, r)
  | _ => (empty_kstate, mkRam 0 [] 0)
  end.

Example open_and_read :
  let '(ks, r) := boot (image_of host (arguments files)) 5 in
  match @vfs_open bump_allocator no_drivers "/sbin/init" 0 ks with
  | Ret q _ => match initrd_read q 1 100 r with Ret (n, bytes) _ => Some (n, bytes) | _ => None end
  | _ => None
  end = Some (4, [69; 76; 70; 1]).
Proof. vm_compute. reflexivity. Qed.

(** The array has room for five nodes per file: one file that is five
    directories deep does not fit with the root and its directories. *)
Example deep_path_overruns :
  match main 0x5000 host ["init"; "/a/b/c/d/init"] (mkMkinitrd ∅ 0 0 0) with Faults _ => true | _ => false end = true.
Proof. vm_compute. reflexivity. Qed.

End InitrdExample.
