(* ===== verification/Console.v ===== *)
(** * The screen

    Model of arch/x86/video.c, the driver of the text screen, and of
    [console_write] and [console_early_init] of console.c, which put the
    screen behind the node of the console.

    The specification is a document without bounds: the lines that were
    finished, and the line the cursor is in.  The screen is a window on the
    last 25 lines of the document; scrolling is how the code keeps it there. *)

From S2P Require Import Prelude CString.

(** ** State *)

(** The static variables of video.c, the memory at [vmem], the bytes written
    to the ports, and whether [console.write] is set. *)
Record screen := mkScreen {
  cur_x : Z; cur_y : Z; vmem : list Z; ports : list (Z * Z); console_ready : bool }.
#[export] Instance eta_screen : Eta screen :=
  fun s => mkScreen (cur_x s) (cur_y s) (vmem s) (ports s) (console_ready s).

Definition attributeByte : Z := Z.lor (Z.shiftl 0 4) (Z.land 7 0x0F).
(** [c] is a [char]: it is extended with its sign before the attribute is
    added. *)
Definition MEM_CHAR (c : Z) : Z := u16 (Z.lor (s8 c) (Z.shiftl attributeByte 8)).
Definition BLANK : Z := MEM_CHAR 32.

Definition COLUMNS : nat := 80.
Definition ROWS : nat := 25.

Definition outb (port v : Z) : M screen unit := modify (fun s => s <| ports := ports s ++ [(port, u8 v)] |>).
Definition vget (i : Z) : M screen Z :=
  s <- get;; if 0 <=? i then deref (vmem s !! Z.to_nat i) else fault.
Definition vset (i w : Z) : M screen unit := _ <- vget i;; modify (fun s => s <| vmem := <[Z.to_nat i := w]> (vmem s) |>).
Definition set_x (x : Z) : M screen unit := modify (fun s => s <| cur_x := u8 x |>).
Definition set_y (y : Z) : M screen unit := modify (fun s => s <| cur_y := u8 y |>).

(** ** Operations *)

Definition move_cursor : M screen unit :=
  s <- get;;
  let pos := u16 (cur_y s * 80 + cur_x s) in
  outb 0x3D4 14;;; outb 0x3D5 (Z.shiftr pos 8);;; outb 0x3D4 15;;; outb 0x3D5 pos.

(** The two loops of [scroll]: [n] cells are left, [i] is the next one. *)
Fixpoint scroll_copy (n : nat) (i : Z) : M screen unit :=
  match n with
  | O => ret tt
  | S n => w <- vget (i + 80);; vset i w;;; scroll_copy n (i + 1)
  end.
Fixpoint fill (n : nat) (i : Z) : M screen unit :=
  match n with
  | O => ret tt
  | S n => vset i BLANK;;; fill n (i + 1)
  end.

Definition scroll : M screen unit :=
  s <- get;;
  if 25 <=? cur_y s then
    scroll_copy (24 * 80) 0;;; fill (25 * 80 - 24 * 80) (24 * 80);;; set_y 24
  else ret tt.

Definition arch_video_put (c : Z) : M screen unit :=
  s <- get;;
  (if c =? 8 then
     (if negb (cur_x s =? 0) then set_x (cur_x s - 1);;; vset (cur_y s * 80 + u8 (cur_x s - 1)) BLANK else ret tt)
   else if c =? 9 then set_x (Z.land (cur_x s + 8) (Z.lnot (8 - 1)))
   else if c =? 13 then set_x 0
   else if c =? 10 then set_y (cur_y s + 1);;; set_x 0
   else vset (cur_y s * 80 + cur_x s) (MEM_CHAR c);;; set_x (cur_x s + 1));;;
  s <- get;;
  (if 80 <=? cur_x s then set_x 0;;; set_y (cur_y s + 1) else ret tt);;;
  scroll;;;
  move_cursor.

Definition arch_video_clear : M screen unit :=
  fill (80 * 25) 0;;; set_x 0;;; set_y 0;;; move_cursor.

Fixpoint arch_video_put_s (c : list Z) : M screen unit :=
  match c with
  | [] => fault
  | b :: c => if b =? 0 then ret tt else arch_video_put b;;; arch_video_put_s c
  end.

(** [console_write]: [buf] is the memory from [buf] on. *)
Fixpoint console_write_loop (len : nat) (buf : list Z) (i : Z) : M screen Z :=
  match len with
  | O => ret i
  | S len =>
      match buf with
      | [] => fault
      | b :: buf => arch_video_put b;;; console_write_loop len buf (s32 (i + 1))
      end
  end.
Definition console_write (len : Z) (buf : list Z) : M screen Z :=
  n <- console_write_loop (Z.to_nat len) buf 0;; ret (u32 n).

(** [vfs_write(&console, 0, len, buf)]: without a write function nothing
    happens. *)
Definition vfs_write_console (len : Z) (buf : list Z) : M screen Z :=
  s <- get;; if console_ready s then console_write len buf else ret 0.

Definition console_early_init : M screen unit :=
  arch_video_clear;;; modify (fun s => s <| console_ready := true |>).

(** ** Specification: the document *)

Notation line := (list Z) (only parsing).
Definition blank_line : line := replicate COLUMNS BLANK.

(** The finished lines, the current line, and the column of the cursor. *)
Record document := mkDoc { d_done : list line; d_line : line; d_col : nat }.

Definition empty_document : document := mkDoc [] blank_line 0.

Definition newline (d : document) : document := mkDoc (d_done d ++ [d_line d]) blank_line 0.
Definition at_col (col : nat) (l : line) (d : document) : document :=
  if decide (col < COLUMNS)%nat then mkDoc (d_done d) l col else newline (mkDoc (d_done d) l 0).

Definition type_char (d : document) (c : Z) : document :=
  let col := d_col d in
  if decide (c = 8) then at_col (pred col) (if decide (col = 0)%nat then d_line d else <[pred col := BLANK]> (d_line d)) d
  else if decide (c = 9) then at_col (8 * (col / 8 + 1)) (d_line d) d
  else if decide (c = 13) then at_col 0 (d_line d) d
  else if decide (c = 10) then newline d
  else at_col (S col) (<[col := MEM_CHAR c]> (d_line d)) d.

Definition type_text (d : document) (s : list Z) : document := fold_left type_char s d.

(** The lines the screen shows: the last 25 of the document, and blank lines
    below a shorter one. *)
Definition doc_lines (d : document) : list line := d_done d ++ [d_line d].
Definition window (ls : list line) : list line :=
  drop (length ls - ROWS) ls ++ replicate (ROWS - length ls) blank_line.

(** The bytes that tell the display controller where the cursor is. *)
Definition cursor_bytes (pos : Z) : list (Z * Z) :=
  [(0x3D4, 14); (0x3D5, pos / 256); (0x3D4, 15); (0x3D5, pos mod 256)].

Record shows (s : screen) (d : document) : Prop := {
  shows_vmem : vmem s = concat (window (doc_lines d));
  shows_x : cur_x s = Z.of_nat (d_col d);
  shows_y : cur_y s = Z.of_nat (min (length (d_done d)) 24);
  shows_cursor : exists l, ports s = l ++ cursor_bytes (cur_y s * 80 + cur_x s) }.

(** Well-formed documents: lines of 80 cells and a cursor inside of them. *)
Definition doc_ok (d : document) : Prop :=
  Forall (fun l => length l = COLUMNS) (d_done d) /\ length (d_line d) = COLUMNS /\ (d_col d < COLUMNS)%nat.

(** ** Memory of the screen *)

Definition lines_ok (ls : list line) : Prop := Forall (fun l => length l = COLUMNS) ls.

Lemma concat_length ls : lines_ok ls -> length (concat ls) = (length ls * COLUMNS)%nat.
Proof. induction 1 as [|l ls Hl _ IH]; [done|]. simpl. rewrite length_app, IH, Hl. done. Qed.

Lemma concat_insert ls y l x w : lines_ok ls -> ls !! y = Some l -> (x < COLUMNS)%nat ->
  <[(y * COLUMNS + x)%nat := w]> (concat ls) = concat (<[y := <[x := w]> l]> ls).
Proof.
  intros Hls Hy Hx. revert y Hy. induction Hls as [|l0 ls Hl Hls IH]; intros [|y] Hy; try done.
  - injection Hy as ->. simpl. apply insert_app_l. by rewrite Hl.
  - change (concat (l0 :: ls)) with (l0 ++ concat ls).
    rewrite insert_app_r_alt by (rewrite Hl; lia). rewrite Hl.
    replace (S y * COLUMNS + x - COLUMNS)%nat with (y * COLUMNS + x)%nat by lia. simpl. by rewrite IH.
Qed.

Lemma concat_drop_line ls : lines_ok ls -> drop COLUMNS (concat ls) = concat (tail ls).
Proof. intros Hls. destruct Hls as [|l ls Hl _]; [done|]. simpl. by apply drop_app_length'. Qed.

Lemma vset_ok s (i : nat) w : (i < length (vmem s))%nat ->
  vset (Z.of_nat i) w s = Ret tt (s <| vmem := <[i := w]> (vmem s) |>).
Proof.
  intros Hi. destruct (lookup_lt_is_Some_2 _ _ Hi) as [w0 Hw0].
  unfold vset, vget, bind, get, modify. rewrite (proj2 (Z.leb_le 0 _)) by lia. rewrite Nat2Z.id, Hw0. done.
Qed.

Lemma vget_ok s (i : nat) w : vmem s !! i = Some w -> vget (Z.of_nat i) s = Ret w s.
Proof.
  intros Hw. unfold vget, bind, get. rewrite (proj2 (Z.leb_le 0 _)) by lia. by rewrite Nat2Z.id, Hw.
Qed.

(** The fill loop writes [n] blanks from [i] on. *)
Lemma fill_ok n : forall s (i : nat), (i + n <= length (vmem s))%nat ->
  fill n (Z.of_nat i) s =
  Ret tt (s <| vmem := take i (vmem s) ++ replicate n BLANK ++ drop (i + n) (vmem s) |>).
Proof.
  induction n as [|n IH]; intros s i Hlen; simpl.
  - rewrite Nat.add_0_r, take_drop. by destruct s.
  - erewrite bind_Ret by (apply vset_ok; lia).
    replace (Z.of_nat i + 1) with (Z.of_nat (S i)) by lia.
    rewrite IH by (simpl; rewrite length_insert; lia). simpl. f_equal. f_equal.
    rewrite drop_insert_lt, <- (Nat.add_succ_comm i n) by lia.
    rewrite insert_take_drop by lia.
    rewrite take_app_ge by (rewrite length_take; lia).
    rewrite length_take. replace (S i - i `min` length (vmem s))%nat with 1%nat by lia.
    simpl. rewrite <- app_assoc. done.
Qed.

(** The copy loop moves [n] cells 80 places down. *)
Lemma scroll_copy_ok n : forall s (i : nat), (i + n + 80 <= length (vmem s))%nat ->
  scroll_copy n (Z.of_nat i) s =
  Ret tt (s <| vmem := take i (vmem s) ++ take n (drop (i + 80) (vmem s)) ++ drop (i + n) (vmem s) |>).
Proof.
  induction n as [|n IH]; intros s i Hlen; simpl.
  - rewrite Nat.add_0_r, take_drop. by destruct s.
  - destruct (lookup_lt_is_Some_2 (vmem s) (i + 80)) as [w Hw]; [lia|].
    erewrite bind_Ret by (replace (Z.of_nat i + 80) with (Z.of_nat (i + 80)) by lia; by apply vget_ok).
    erewrite bind_Ret by (apply vset_ok; lia).
    replace (Z.of_nat i + 1) with (Z.of_nat (S i)) by lia.
    rewrite IH by (simpl; rewrite length_insert; lia). simpl. f_equal. f_equal.
    rewrite !drop_insert_lt, <- (Nat.add_succ_comm i n) by lia.
    rewrite insert_take_drop by lia.
    rewrite take_app_ge by (rewrite length_take; lia).
    rewrite length_take. replace (S i - i `min` length (vmem s))%nat with 1%nat by lia.
    rewrite (drop_S _ _ _ Hw). simpl. rewrite <- app_assoc. done.
Qed.

(** ** The window *)

Lemma window_length ls : length (window ls) = ROWS.
Proof. unfold window. rewrite length_app, length_drop, length_replicate. lia. Qed.

Lemma window_Forall ls : lines_ok ls -> lines_ok (window ls).
Proof. intros H. apply Forall_app. split; [by apply Forall_drop | apply Forall_replicate; apply length_replicate]. Qed.

Lemma window_newline ls : (length ls < ROWS)%nat -> window (ls ++ [blank_line]) = window ls.
Proof.
  intros H. unfold window. rewrite length_app. simpl.
  rewrite (proj2 (Nat.sub_0_le (length ls + 1) ROWS)), (proj2 (Nat.sub_0_le (length ls) ROWS)) by lia.
  rewrite !drop_0, <- app_assoc. f_equal.
  by replace (ROWS - length ls)%nat with (S (ROWS - (length ls + 1))) by lia.
Qed.

Lemma window_scroll ls : (ROWS <= length ls)%nat ->
  window (ls ++ [blank_line]) = tail (window ls) ++ [blank_line].
Proof.
  intros H. unfold window. rewrite length_app. simpl.
  rewrite (proj2 (Nat.sub_0_le ROWS _)) by lia. rewrite (proj2 (Nat.sub_0_le ROWS _)) by lia.
  rewrite !app_nil_r. replace (length ls + 1 - ROWS)%nat with (S (length ls - ROWS)) by lia.
  rewrite drop_app_le by (unfold ROWS in *; lia). f_equal.
  rewrite <- (Nat.add_1_r (_ - _)), <- drop_drop. by destruct (drop _ ls).
Qed.

(** The current line is shown in row 24, or higher while there is room. *)
Lemma window_current done l :
  window (done ++ [l]) !! min (length done) 24 = Some l.
Proof.
  unfold window. rewrite length_app. simpl.
  rewrite lookup_app_l by (rewrite length_drop, length_app; unfold ROWS; simpl; lia).
  rewrite lookup_drop, lookup_app_r by (unfold ROWS; lia).
  replace (_ + _ - _)%nat with 0%nat by (unfold ROWS; lia). done.
Qed.

Lemma window_update done l l' :
  window (done ++ [l']) = <[min (length done) 24 := l']> (window (done ++ [l])).
Proof.
  unfold window. rewrite !length_app. simpl.
  rewrite insert_app_l by (rewrite length_drop, length_app; unfold ROWS; simpl; lia). f_equal.
  set (k := (length done + 1 - ROWS)%nat).
  replace (min (length done) 24) with (length done - k)%nat by (unfold k, ROWS; lia).
  rewrite <- drop_insert_ge by (unfold k, ROWS; lia). f_equal.
  rewrite insert_app_r_alt by lia. by rewrite Nat.sub_diag.
Qed.

(** ** The driver keeps the window *)

(** What the screen holds while a character is processed. *)
Record holds (s : screen) (ls : list line) (x y : nat) : Prop := {
  holds_vmem : vmem s = concat (window ls);
  holds_x : cur_x s = Z.of_nat x;
  holds_y : cur_y s = Z.of_nat y }.

Lemma move_cursor_ok s y x : cur_x s = Z.of_nat x -> cur_y s = Z.of_nat y -> (x < COLUMNS)%nat -> (y < ROWS)%nat ->
  move_cursor s = Ret tt (s <| ports := ports s ++ cursor_bytes (cur_y s * 80 + cur_x s) |>).
Proof.
  intros Hx Hy Hlx Hly. unfold move_cursor, outb, bind, get, modify, cursor_bytes. simpl.
  set (pos := cur_y s * 80 + cur_x s). assert (0 <= pos < 2 ^ 16) by (unfold pos, COLUMNS, ROWS in *; lia).
  unfold u16. rewrite (Z.mod_small pos) by lia. rewrite Z.shiftr_div_pow2 by lia. change (2 ^ 8) with 256.
  f_equal. unfold u8. change (2 ^ 8) with 256. rewrite (Z.mod_small (pos / 256) 256), <- !app_assoc; [done|].
  split; [apply Z.div_pos; lia | apply Z.div_lt_upper_bound; lia].
Qed.

Lemma set_x_ok s x : (x < 256)%nat -> set_x (Z.of_nat x) s = Ret tt (s <| cur_x := Z.of_nat x |>).
Proof. intros. unfold set_x, modify. by rewrite u8_small by lia. Qed.
Lemma set_y_ok s y : (y < 256)%nat -> set_y (Z.of_nat y) s = Ret tt (s <| cur_y := Z.of_nat y |>).
Proof. intros. unfold set_y, modify. by rewrite u8_small by lia. Qed.

(** [scroll] when the cursor has left the last line. *)
Lemma scroll_ok s ls : lines_ok ls -> (ROWS <= length ls)%nat -> holds s ls 0 25 ->
  exists s', scroll s = Ret tt s' /\ holds s' (ls ++ [blank_line]) 0 24 /\ ports s' = ports s.
Proof.
  intros Hls Hlen [Hv Hx Hy]. unfold scroll. rewrite bind_get, Hy. change (25 <=? Z.of_nat 25) with true. cbv iota.
  pose proof (concat_length (window ls) (window_Forall _ Hls)) as Hcl. rewrite window_length in Hcl.
  rewrite <- Hv in Hcl. change (ROWS * COLUMNS)%nat with 2000%nat in Hcl.
  erewrite bind_Ret by (apply (scroll_copy_ok (24 * 80) s 0); lia).
  set (v := vmem s) in *.
  assert (take 0 v ++ take (24 * 80) (drop (0 + 80) v) ++ drop (0 + 24 * 80) v = drop 80 v ++ drop (24 * 80) v) as ->.
  { rewrite take_0, app_nil_l, (take_ge (drop _ _)) by (rewrite length_drop; lia). done. }
  erewrite bind_Ret.
  2: { apply (fill_ok _ _ (24 * 80)). change (vmem (setf _ _ s)) with (drop 80 v ++ drop (24 * 80) v).
       rewrite length_app, !length_drop. lia. }
  change (vmem (setf _ _ s)) with (drop 80 v ++ drop (24 * 80) v).
  rewrite take_app_le, take_ge, (drop_ge _ (24 * 80 + _)) by (rewrite ?length_app, !length_drop; lia).
  eexists. split; [reflexivity|]. split; [|done]. split; [|exact Hx | done].
  rewrite window_scroll, concat_app by done.
  rewrite <- concat_drop_line by by apply window_Forall. rewrite <- Hv. simpl concat. by rewrite app_nil_r.
Qed.

(** The end of [arch_video_put]: wrap, scroll, and move the cursor. *)
Definition video_finish : M screen unit :=
  s <- get;; (if 80 <=? cur_x s then set_x 0;;; set_y (cur_y s + 1) else ret tt);;; scroll;;; move_cursor.

Lemma finish_same s done l x : holds s (done ++ [l]) x (min (length done) 24) -> (x < COLUMNS)%nat ->
  exists s', (scroll;;; move_cursor) s = Ret tt s' /\ shows s' (mkDoc done l x).
Proof.
  intros [Hv Hx Hy] Hlt. unfold scroll.
  assert ((25 <=? cur_y s) = false) as E by (rewrite Hy; apply Z.leb_gt; lia).
  rewrite bind_assoc, bind_get, E, bind_ret_l. rewrite (move_cursor_ok s _ _ Hx Hy) by (unfold ROWS; lia).
  eexists. split; [done|]. split; [exact Hv | exact Hx | exact Hy |]. by eexists.
Qed.

Lemma finish_newline s done l : lines_ok (done ++ [l]) -> holds s (done ++ [l]) 0 (S (min (length done) 24)) ->
  exists s', (scroll;;; move_cursor) s = Ret tt s' /\ shows s' (newline (mkDoc done l 0)).
Proof.
  intros Hok Hh. destruct (decide (length done < 24)%nat) as [Hlt|Hge].
  - apply (finish_same s (done ++ [l])); [|unfold COLUMNS; lia].
    destruct Hh as [Hv Hx Hy]. split; [|exact Hx|].
    + rewrite window_newline by (rewrite length_app; unfold ROWS; simpl; lia). exact Hv.
    + rewrite Hy, length_app. simpl. lia.
  - replace (S (min (length done) 24)) with 25%nat in Hh by lia.
    destruct (scroll_ok s (done ++ [l])) as (s1 & Hs & Hh1 & _); [done | rewrite length_app; unfold ROWS; simpl; lia | done |].
    rewrite (bind_Ret _ _ _ _ _ Hs). destruct Hh1 as [Hv Hx Hy].
    rewrite (move_cursor_ok s1 _ _ Hx Hy) by (unfold ROWS, COLUMNS; lia).
    eexists. split; [done|]. split; [exact Hv | exact Hx | | by eexists].
    simpl. rewrite Hy, length_app. simpl. lia.
Qed.

Lemma finish_ok s done l x : lines_ok (done ++ [l]) -> holds s (done ++ [l]) x (min (length done) 24) -> (x <= COLUMNS)%nat ->
  exists s', video_finish s = Ret tt s' /\ shows s' (at_col x l (mkDoc done l 0)).
Proof.
  intros Hok Hh Hle. pose proof Hh as [Hv Hx Hy]. unfold video_finish, at_col. rewrite bind_get, Hx.
  destruct (Z.leb_spec 80 (Z.of_nat x)); [rewrite decide_False by (unfold COLUMNS in *; lia)
    | rewrite decide_True by (unfold COLUMNS in *; lia)].
  - rewrite bind_assoc. unfold set_x, set_y. rewrite !bind_modify. apply finish_newline; [done|].
    split; [exact Hv | done |]. change (cur_y (setf cur_y _ _)) with (u8 (cur_y s + 1)).
    rewrite Hy, u8_small by lia. simpl d_done. lia.
  - rewrite bind_ret_l. by apply finish_same; [|unfold COLUMNS in *; lia].
Qed.

(** A write to the line of the cursor. *)
Lemma vset_line s done l x w : lines_ok (done ++ [l]) -> holds s (done ++ [l]) x (min (length done) 24) ->
  forall (j : nat), (j < COLUMNS)%nat ->
  exists s', vset (cur_y s * 80 + Z.of_nat j) w s = Ret tt s' /\
    holds s' (done ++ [<[j := w]> l]) x (min (length done) 24) /\ lines_ok (done ++ [<[j := w]> l]).
Proof.
  intros Hok [Hv Hx Hy] j Hj. set (y := min (length done) 24) in *.
  pose proof (window_Forall _ Hok) as Hw.
  assert (cur_y s * 80 + Z.of_nat j = Z.of_nat (y * COLUMNS + j)) as -> by (rewrite Hy; unfold COLUMNS; lia).
  eexists. split; [apply vset_ok|split].
  - rewrite Hv, concat_length, window_length by done. unfold ROWS, COLUMNS in *. lia.
  - split; [|exact Hx | exact Hy]. change (vmem (setf _ _ s)) with (<[(y * COLUMNS + j)%nat := w]> (vmem s)).
    rewrite Hv, (concat_insert _ y l j w Hw (window_current _ _) Hj). by rewrite (window_update done l (<[j := w]> l)).
  - apply Forall_app in Hok as [Hd Hl]. apply Forall_app. split; [done|].
    apply Forall_inv in Hl. constructor; [by rewrite length_insert | constructor].
Qed.

Lemma tab_stop x : (x < COLUMNS)%nat ->
  Z.land (Z.of_nat x + 8) (Z.lnot (8 - 1)) = Z.of_nat (8 * (x / 8 + 1)).
Proof.
  intros _. change (8 - 1) with (Z.ones 3). rewrite <- Z.ldiff_land, Z.ldiff_ones_r by lia.
  rewrite Z.shiftl_mul_pow2, Z.shiftr_div_pow2 by lia. change (2 ^ 3) with 8.
  pose proof (Nat.div_mod x 8). pose proof (Nat.mod_upper_bound x 8).
  assert ((Z.of_nat x + 8) / 8 = Z.of_nat (x / 8 + 1)) as ->; [|lia].
  symmetry. apply (Z.div_unique_pos _ _ _ (Z.of_nat (x mod 8))); lia.
Qed.

Lemma holds_set_x s ls x y z x' : holds s ls x y -> z = Z.of_nat x' -> (x' < 256)%nat ->
  exists s', set_x z s = Ret tt s' /\ holds s' ls x' y /\ cur_y s' = cur_y s.
Proof.
  intros [Hv Hx Hy] -> Hlt. rewrite set_x_ok by done. eexists. split; [done|]. split; [|done].
  split; [exact Hv | done | exact Hy].
Qed.

(** One character. *)
Lemma put_ok s d c : doc_ok d -> shows s d ->
  exists s', arch_video_put c s = Ret tt s' /\ shows s' (type_char d c).
Proof.
  intros (Hd & Hl & Hc) [Hv Hx Hy _]. destruct d as [done l x]. simpl in *.
  assert (lines_ok (done ++ [l])) as Hok by (apply Forall_app; split; [done | by apply Forall_singleton]).
  assert (holds s (done ++ [l]) x (min (length done) 24)) as Hh by done.
  unfold arch_video_put, type_char. rewrite bind_get. fold video_finish. unfold COLUMNS in Hc.
  destruct (Z.eqb_spec c 8); [rewrite decide_True by done | rewrite decide_False by done].
  { rewrite Hx. destruct (Z.eqb_spec (Z.of_nat x) 0) as [E|E]; simpl.
    - rewrite decide_True by lia. rewrite bind_ret_l. replace (pred x) with x by lia.
      apply finish_ok; [done | done | unfold COLUMNS; lia].
    - rewrite decide_False by lia.
      destruct (holds_set_x _ _ _ _ (Z.of_nat x - 1) (pred x) Hh) as (s1 & E1 & Hh1 & Hy1); [lia | lia |].
      rewrite bind_assoc, (bind_Ret _ _ _ _ _ E1), <- Hy1.
      destruct (vset_line s1 done l _ BLANK Hok Hh1 (pred x)) as (s2 & E2 & Hh2 & Hok2); [unfold COLUMNS; lia|].
      rewrite u8_small by lia. replace (Z.of_nat x - 1) with (Z.of_nat (pred x)) by lia.
      rewrite (bind_Ret _ _ _ _ _ E2). apply finish_ok; [done | done | unfold COLUMNS; lia]. }
  destruct (Z.eqb_spec c 9); [rewrite decide_True by done | rewrite decide_False by done].
  { rewrite Hx, tab_stop by done. assert (x / 8 < 10)%nat by (apply Nat.div_lt_upper_bound; lia).
    destruct (holds_set_x _ _ _ _ _ (8 * (x / 8 + 1)) Hh eq_refl) as (s1 & E1 & Hh1 & _); [lia|].
    rewrite (bind_Ret _ _ _ _ _ E1). apply finish_ok; [done | done | unfold COLUMNS; simpl d_col; lia]. }
  destruct (Z.eqb_spec c 13); [rewrite decide_True by done | rewrite decide_False by done].
  { destruct (holds_set_x _ _ _ _ 0 0 Hh eq_refl) as (s1 & E1 & Hh1 & _); [lia|].
    rewrite (bind_Ret _ _ _ _ _ E1). apply finish_ok; [done | done | unfold COLUMNS; lia]. }
  destruct (Z.eqb_spec c 10); [rewrite decide_True by done | rewrite decide_False by done].
  { rewrite bind_assoc. unfold set_y, set_x. rewrite !bind_modify.
    apply finish_newline; [done|]. split; [exact Hv | done |].
    change (cur_y (setf cur_x _ _)) with (u8 (cur_y s + 1)). rewrite Hy, u8_small by lia. simpl. lia. }
  replace (cur_y s * 80 + cur_x s) with (cur_y s * 80 + Z.of_nat x) by lia.
  destruct (vset_line s done l _ (MEM_CHAR c) Hok Hh x) as (s1 & E1 & Hh1 & Hok1); [done|].
  rewrite bind_assoc, (bind_Ret _ _ _ _ _ E1).
  destruct (holds_set_x _ _ _ _ (cur_x s + 1) (S x) Hh1) as (s2 & E2 & Hh2 & _); [lia | lia |].
  rewrite (bind_Ret _ _ _ _ _ E2). apply finish_ok; [done | done | unfold COLUMNS; simpl d_col; lia].
Qed.

Lemma at_col_ok d l col : doc_ok d -> length l = COLUMNS -> doc_ok (at_col col l d).
Proof.
  intros (Hd & _) Hl. unfold at_col. case_decide; [done|]. split_and!; simpl.
  - apply Forall_app. split; [done | by repeat constructor].
  - done.
  - unfold COLUMNS. lia.
Qed.

Lemma type_char_ok d c : doc_ok d -> doc_ok (type_char d c).
Proof.
  intros Hd. pose proof Hd as (Hd1 & Hl & Hc). unfold type_char.
  repeat case_decide; try (apply at_col_ok; [done|]; by rewrite ?length_insert).
  split_and!; simpl; [apply Forall_app; split; [done | by repeat constructor] | done | unfold COLUMNS; lia].
Qed.

Lemma empty_document_ok : doc_ok empty_document.
Proof. split_and!; [constructor | apply length_replicate | unfold COLUMNS; simpl; lia]. Qed.

(** The write function of the console stays as it is. *)
Definition kept_ready {A} (m : M screen A) : Prop :=
  forall s a s', m s = Ret a s' -> console_ready s' = console_ready s.

Lemma kept_bind {A B} (m : M screen A) (k : A -> M screen B) :
  kept_ready m -> (forall a, kept_ready (k a)) -> kept_ready (bind m k).
Proof.
  intros Hm Hk s b s' H. apply bind_Ret_inv in H as (a & s1 & H1 & H2).
  by rewrite (Hk _ _ _ _ H2), (Hm _ _ _ H1).
Qed.

Lemma kept_ret {A} (a : A) : kept_ready (ret a).
Proof. intros s a' s' [= _ <-]. done. Qed.
Lemma kept_get : kept_ready get.
Proof. intros s a' s' [= _ <-]. done. Qed.
Lemma kept_vget i : kept_ready (vget i).
Proof. intros s a s'. unfold vget, bind, get, deref. repeat case_match; by intros [= _ <-]. Qed.
Lemma kept_vset i w : kept_ready (vset i w).
Proof. apply kept_bind; [apply kept_vget|]. by intros w0 s a s' [= _ <-]. Qed.
Lemma kept_set_x x : kept_ready (set_x x).
Proof. by intros s a s' [= _ <-]. Qed.
Lemma kept_set_y y : kept_ready (set_y y).
Proof. by intros s a s' [= _ <-]. Qed.
Lemma kept_outb p v : kept_ready (outb p v).
Proof. by intros s a s' [= _ <-]. Qed.

Create HintDb ready.
#[export] Hint Resolve kept_bind kept_ret kept_get kept_vget kept_vset kept_set_x kept_set_y kept_outb : ready.
#[export] Hint Extern 1 (kept_ready (if ?b then _ else _)) => destruct b : ready.
#[export] Hint Extern 2 (forall _, kept_ready _) => intros : ready.

Lemma kept_fill n : forall i, kept_ready (fill n i).
Proof. induction n; simpl; auto with ready. Qed.
Lemma kept_scroll_copy n : forall i, kept_ready (scroll_copy n i).
Proof. induction n; simpl; auto with ready. Qed.
#[export] Hint Resolve kept_fill kept_scroll_copy : ready.
#[export] Hint Extern 1 (kept_ready scroll) => unfold scroll : ready.
#[export] Hint Extern 1 (kept_ready move_cursor) => unfold move_cursor : ready.

Lemma kept_put c : kept_ready (arch_video_put c).
Proof. unfold arch_video_put. auto 12 with ready. Qed.

(** A screen that shows a document, with the console ready. *)
Definition displays (s : screen) (d : document) : Prop := shows s d /\ doc_ok d /\ console_ready s = true.

Lemma put_displays s d c : displays s d ->
  exists s', arch_video_put c s = Ret tt s' /\ displays s' (type_char d c).
Proof.
  intros (Hs & Hd & Hr). destruct (put_ok s d c Hd Hs) as (s' & E & Hs'). exists s'. split; [done|].
  split_and!; [done | by apply type_char_ok |]. by rewrite (kept_put _ _ _ _ E).
Qed.

Lemma console_write_loop_ok text : forall s d rest i, displays s d -> 0 <= i -> i + Z.of_nat (length text) < 2 ^ 31 ->
  exists s', console_write_loop (length text) (text ++ rest) i s = Ret (i + Z.of_nat (length text)) s' /\
    displays s' (type_text d text).
Proof.
  induction text as [|c text IH]; intros s d rest i Hs Hi Hlen; simpl in *.
  - exists s. by rewrite Z.add_0_r.
  - destruct (put_displays s d c Hs) as (s1 & E & Hs1). erewrite bind_Ret by exact E.
    rewrite s32_small by lia. destruct (IH s1 _ rest (i + 1) Hs1) as (s' & E' & Hs'); [lia | lia |].
    exists s'. rewrite E'. split; [f_equal; lia | done].
Qed.

(** Text that is written to the console is added to the document. *)
Lemma vfs_write_console_ok s d text rest : displays s d -> Z.of_nat (length text) < 2 ^ 31 ->
  exists s', vfs_write_console (Z.of_nat (length text)) (text ++ rest) s = Ret (Z.of_nat (length text)) s' /\
    displays s' (type_text d text).
Proof.
  intros Hs Hlen. unfold vfs_write_console. rewrite bind_get. rewrite (proj2 (proj2 Hs)).
  destruct (console_write_loop_ok text s d rest 0 Hs) as (s' & E & Hs'); [lia | lia |].
  exists s'. split; [|done]. unfold console_write. rewrite Nat2Z.id. erewrite bind_Ret by exact E.
  unfold ret. by rewrite u32_small by lia.
Qed.

(** [console_early_init] shows the empty document. *)
Lemma console_early_init_ok s : length (vmem s) = (ROWS * COLUMNS)%nat ->
  exists s', console_early_init s = Ret tt s' /\ displays s' empty_document.
Proof.
  intros Hlen. unfold console_early_init, arch_video_clear. rewrite bind_assoc.
  erewrite bind_Ret by (apply (fill_ok (80 * 25) s 0); rewrite Hlen; unfold ROWS, COLUMNS; lia).
  unfold set_x, set_y. rewrite bind_assoc, bind_modify, bind_assoc, bind_modify.
  erewrite bind_Ret by (apply (move_cursor_ok _ 0 0); [done | done | unfold COLUMNS; lia | unfold ROWS; lia]).
  eexists. split; [reflexivity|]. split_and!; [|apply empty_document_ok | done].
  split; [|done | done | by eexists].
  change (vmem _) with (take 0 (vmem s) ++ replicate (80 * 25) BLANK ++ drop (0 + 80 * 25) (vmem s)).
  rewrite take_0, drop_ge by (rewrite Hlen; unfold ROWS, COLUMNS; lia). reflexivity.
Qed.

(** C29: the screen is a window on the text that was written.  After
    [console_early_init] any sequence of bytes (control characters included)
    that is written to the console is accepted in full and without a write
    outside of the video memory; the memory then holds the last 25 lines of
    the text, laid out with the tab stops, line breaks and backspaces of the
    reference definition [type_text], and the display controller has been
    told the place of the cursor. *)
Theorem console_window (s : screen) (text rest : list Z)
  (Hmem : length (vmem s) = (ROWS * COLUMNS)%nat) (Hlen : Z.of_nat (length text) < 2 ^ 31) :
  exists s1 s2, console_early_init s = Ret tt s1 /\
    vfs_write_console (Z.of_nat (length text)) (text ++ rest) s1 = Ret (Z.of_nat (length text)) s2 /\
    shows s2 (type_text empty_document text) /\ doc_ok (type_text empty_document text) /\
    length (vmem s2) = (ROWS * COLUMNS)%nat.
Proof.
  destruct (console_early_init_ok s Hmem) as (s1 & E1 & Hs1).
  destruct (vfs_write_console_ok s1 _ text rest Hs1 Hlen) as (s2 & E2 & Hs2 & Hd2 & _).
  exists s1, s2. split_and!; try done. rewrite (shows_vmem _ _ Hs2), concat_length, window_length; [done|].
  apply window_Forall. destruct Hd2 as (? & ? & _). apply Forall_app. by split; [|constructor].
Qed.

Definition screen_at_boot : screen := mkScreen 0 0 (replicate (ROWS * COLUMNS) 0) [] false.

(** Thirty short lines: the first five have left the screen. *)
Definition thirty_lines : list Z := concat (replicate 30 (str "line" ++ [10])).

Lemma console_window_witness :
  (exists s1 s2, console_early_init screen_at_boot = Ret tt s1 /\
    vfs_write_console 150 (thirty_lines ++ []) s1 = Ret 150 s2 /\
    shows s2 (type_text empty_document thirty_lines)) /\
  length (d_done (type_text empty_document thirty_lines)) = 30%nat.
Proof.
  split; [|vm_compute; done].
  destruct (console_window screen_at_boot thirty_lines []) as (s1 & s2 & E1 & E2 & Hs & _);
    [apply length_replicate | vm_compute; done |].
  exists s1, s2. split_and!; [exact E1 | exact E2 | exact Hs].
Defined.

Example backspace_and_tab :
  let d := type_text empty_document (str "ab" ++ [8; 9] ++ str "c") in
  (take 10 (d_line d), d_col d) = ([MEM_CHAR 97; BLANK; BLANK; BLANK; BLANK; BLANK; BLANK; BLANK; MEM_CHAR 99; BLANK], 9%nat).
Proof. vm_compute. done. Qed.

(** A character above 127 is extended with its sign, which sets every bit of
    the attribute. *)
Example high_character : MEM_CHAR 0x41 = 0x0741 /\ MEM_CHAR 0xE9 = 0xFFE9.
Proof. vm_compute. done. Qed.
