(* ===== verification/Printk.v ===== *)
(** * Messages of the kernel

    Model of printk.c: [kvprintf], [kprintf] and [printk], which format a
    message and write it to the console, on top of the screen (Console.v) and
    the number conversions of string.c (CString.v).  [printk_shows] says what
    appears on the screen; [kvprintf_char_never_returns] that a format with
    [%c] hangs. *)

From S2P Require Import Prelude CString Console.

(** ** State *)

(** The screen; the memory from [buff] of string.c on; [printk_delay_spin];
    the word of the mutex of [printk]; and the ticks of the timer. *)
Record pstate := mkP { p_screen : screen; p_buff : list Z; p_delay : Z; p_mutex : Z; p_ticks : Z }.
#[export] Instance eta_pstate : Eta pstate :=
  fun s => mkP (p_screen s) (p_buff s) (p_delay s) (p_mutex s) (p_ticks s).

Definition on_screen {A} (m : M screen A) : M pstate A := zoom p_screen (fun t s => s <| p_screen := t |>) m.
Definition on_buff {A} (m : M (list Z) A) : M pstate A := zoom p_buff (fun t s => s <| p_buff := t |>) m.

(** Arguments after the format: words, and pointers to strings (the memory
    from the pointer on). *)
Inductive vararg := VInt (z : Z) | VStr (mem : list Z).

Definition va_int (args : list vararg) : M pstate (Z * list vararg) :=
  match args with VInt z :: args => ret (z, args) | _ => fault end.
Definition va_str (args : list vararg) : M pstate (list Z * list vararg) :=
  match args with VStr s :: args => ret (s, args) | _ => fault end.

(** ** Operations *)

(** [vfs_write(&console, 0, strlen(s), s)] *)
Definition write_str (s : list Z) : M pstate unit :=
  n <- deref (strlen s);; on_screen (vfs_write_console n s);;; ret tt.
Definition write_char (c : Z) : M pstate unit := on_screen (vfs_write_console 1 [c]);;; ret tt.

(** The loop of [kvprintf]; [fmt] is the memory from [fmt] on.  Each turn
    takes a character of the format or an argument, which bounds the turns. *)
Fixpoint kvprintf_loop (n : nat) (fmt : list Z) (args : list vararg) : M pstate unit :=
  match n with
  | O => nofuel
  | S n =>
      match fmt with
      | [] => fault
      | c :: fmt' =>
          if c =? 0 then ret tt
          else if negb (c =? 37) then write_char c;;; kvprintf_loop n fmt' args
          else
            d <- deref (head fmt');;
            if d =? 120 then
              '(z, args) <- va_int args;;
              (if negb (u32 z =? 0) then on_buff (itox (u32 z));;; s <- get;; write_str (p_buff s) else write_char 48);;;
              kvprintf_loop n (tail fmt') args
            else if d =? 99 then
              '(z, args) <- va_int args;; write_char (u8 z);;; kvprintf_loop n fmt args
            else if d =? 105 then
              '(z, args) <- va_int args;;
              (if negb (s32 z =? 0) then on_buff (itoa (s32 z));;; s <- get;; write_str (p_buff s) else write_char 48);;;
              kvprintf_loop n (tail fmt') args
            else if d =? 115 then
              '(s, args) <- va_str args;; write_str s;;; kvprintf_loop n (tail fmt') args
            else write_char c;;; kvprintf_loop n fmt' args
      end
  end.

(** [for (i = 0; i < printk_delay_spin; i++);] *)
Fixpoint spin (n : nat) : M pstate unit := match n with O => ret tt | S n => spin n end.

Definition kvprintf (fmt : list Z) (args : list vararg) : M pstate unit :=
  kvprintf_loop (length fmt + length args + 1) fmt args;;;
  s <- get;; spin (Z.to_nat (p_delay s)).
Definition kprintf (fmt : list Z) (args : list vararg) : M pstate unit := kvprintf fmt args.
Definition printk_int (s : list Z) (arg : Z) : M pstate unit := kprintf s [VInt arg].
Definition printk_delay (delay : Z) : M pstate unit := modify (fun s => s <| p_delay := delay |>).

Definition printk_lock : M pstate unit :=
  s <- get;;
  if p_mutex s =? 0 then modify (fun s => s <| p_mutex := 1 |>)
  else if p_mutex s =? 1 then block else panic "mutex_try: i == 1 || i == 0".
Definition printk_unlock : M pstate unit :=
  s <- get;; modify (fun s => s <| p_mutex := 0 |>);;; assert (p_mutex s =? 1) "mutex_release: i == 1".

Definition printk (level : Z) (fmt : list Z) (args : list vararg) : M pstate unit :=
  printk_lock;;;
  kprintf (cstr [13] []) [];;;
  s <- get;;
  kprintf (cstr (str "[%i] ") []) [VInt (p_ticks s)];;;
  kvprintf fmt args;;;
  kprintf (cstr [10] []) [];;;
  printk_unlock.

(** ** Specification *)

(** How [%i] and [%x] show a word. *)
Definition decimal_text (z : Z) (t : list Z) : Prop := if decide (s32 z = 0) then t = [48] else decimal_of (u32 z) t.
Definition hex_text (z : Z) (t : list Z) : Prop :=
  hex_value t = u32 z /\ no_nul t /\ length t = if decide (u32 z = 0) then 1%nat else 8%nat.

(** [renders fmt args text]: the text of a format with these arguments.  A
    percent sign that starts none of the known directives stands for itself. *)
Inductive renders : list Z -> list vararg -> list Z -> Prop :=
| R_end args : renders [] args []
| R_char c fmt args text : c <> 0 -> c <> 37 -> renders fmt args text -> renders (c :: fmt) args (c :: text)
| R_hex z t fmt args text : hex_text z t -> renders fmt args text ->
    renders (37 :: 120 :: fmt) (VInt z :: args) (t ++ text)
| R_int z t fmt args text : decimal_text z t -> renders fmt args text ->
    renders (37 :: 105 :: fmt) (VInt z :: args) (t ++ text)
| R_str t rest fmt args text : no_nul t -> renders fmt args text ->
    renders (37 :: 115 :: fmt) (VStr (cstr t rest) :: args) (t ++ text)
| R_percent fmt args text : head fmt ∉ [Some 120; Some 99; Some 105; Some 115] ->
    renders fmt args text -> renders (37 :: fmt) args (37 :: text).

(** The arguments suit the format: one word for each [%x] and [%i] and one
    string of less than 2 GB for each [%s]; there is no [%c]. *)
Definition arg_string (mem : list Z) : bool := bool_decide (0 ∈ mem) && bool_decide (Z.of_nat (length mem) < 2 ^ 31).
Fixpoint fits (fmt : list Z) (args : list vararg) : bool :=
  match fmt with
  | [] => true
  | c :: fmt1 =>
      if c =? 0 then false
      else if negb (c =? 37) then fits fmt1 args
      else
        match fmt1 with
        | [] => true
        | d :: fmt2 =>
            if (d =? 120) || (d =? 105) then
              match args with VInt _ :: args => fits fmt2 args | _ => false end
            else if d =? 115 then
              match args with VStr mem :: args => arg_string mem && fits fmt2 args | _ => false end
            else negb (d =? 99) && fits fmt1 args
        end
  end.

(** ** Proofs *)

(** The screen shows [d], and the memory at [buff] has its twelve bytes. *)
Definition prints (s : pstate) (d : document) : Prop := displays (p_screen s) d /\ (12 <= length (p_buff s))%nat.

(** From [s] to [s'] [text] was written, and nothing else changed but [buff]. *)
Definition wrote (s s' : pstate) (d : document) (text : list Z) : Prop :=
  prints s' (type_text d text) /\ p_delay s' = p_delay s /\ p_mutex s' = p_mutex s /\ p_ticks s' = p_ticks s.

Lemma type_text_app d t1 t2 : type_text d (t1 ++ t2) = type_text (type_text d t1) t2.
Proof. apply fold_left_app. Qed.

Lemma wrote_trans s s1 s2 d t1 t2 : wrote s s1 d t1 -> wrote s1 s2 (type_text d t1) t2 -> wrote s s2 d (t1 ++ t2).
Proof.
  intros (_ & H1 & H2 & H3) (HP & H1' & H2' & H3'). split_and!; [by rewrite type_text_app | congruence..].
Qed.

Lemma on_screen_write s d text rest : prints s d -> Z.of_nat (length text) < 2 ^ 31 ->
  exists s', on_screen (vfs_write_console (Z.of_nat (length text)) (text ++ rest)) s = Ret (Z.of_nat (length text)) s' /\
    wrote s s' d text.
Proof.
  intros [Hd Hb] Hl. destruct (vfs_write_console_ok _ _ text rest Hd Hl) as (sc & E & Hsc).
  exists (s <| p_screen := sc |>). unfold on_screen, zoom. rewrite E. done.
Qed.

Lemma write_char_ok s d c : prints s d -> exists s', write_char c s = Ret tt s' /\ wrote s s' d [c].
Proof.
  intros Hs. destruct (on_screen_write s d [c] [] Hs ltac:(simpl; lia)) as (s' & E & Hw).
  exists s'. split; [|done]. unfold write_char. by erewrite bind_Ret by exact E.
Qed.

Lemma write_str_ok s d t rest : prints s d -> no_nul t -> Z.of_nat (length t) < 2 ^ 31 ->
  exists s', write_str (cstr t rest) s = Ret tt s' /\ wrote s s' d t.
Proof.
  intros Hs Ht Hl. destruct (on_screen_write s d t (0 :: rest) Hs Hl) as (s' & E & Hw).
  exists s'. split; [|done]. unfold write_str, strlen. rewrite strlen_loop_ok by (done || lia). simpl.
  rewrite bind_ret_l. by erewrite bind_Ret by exact E.
Qed.

Lemma decimal_no_nul v t : decimal_of v t -> no_nul t.
Proof. intros (H & _). eapply Forall_impl; [exact H|]. simpl. lia. Qed.

Lemma on_buff_itox s d z : prints s d -> u32 z <> 0 ->
  exists t rest, on_buff (itox (u32 z)) s = Ret tt (s <| p_buff := cstr t rest |>) /\ hex_text z t /\
    prints (s <| p_buff := cstr t rest |>) d.
Proof.
  intros [Hd Hb] Hz. destruct (itox_ok (u32 z) (p_buff s)) as (t & rest & E & Hv & Hn & Hl & Hr); [apply u32_range | lia |].
  exists t, rest. split; [unfold on_buff, zoom; by rewrite E|]. split; [done|]. split; [done|].
  simpl. unfold cstr. rewrite decide_False in Hl by done. rewrite Hr, length_app, Hl. simpl. rewrite length_drop. lia.
Qed.

Lemma on_buff_itoa s d z : prints s d -> s32 z <> 0 ->
  exists t rest, on_buff (itoa (s32 z)) s = Ret tt (s <| p_buff := cstr t rest |>) /\ decimal_of (u32 z) t /\
    (length t <= 10)%nat /\ prints (s <| p_buff := cstr t rest |>) d.
Proof.
  intros [Hd Hb] Hz. destruct (itoa_ok (s32 z) (p_buff s)) as (t & rest & E & Hv & Hl & Hr); [apply s32_range | done | done |].
  rewrite u32_s32 in Hv. exists t, rest. split; [unfold on_buff, zoom; by rewrite E|]. split; [done|split; [done|split; [done|]]].
  simpl. apply (f_equal length) in Hr. rewrite !length_drop in Hr. lia.
Qed.

(** The two conversions of a word, as the text they write. *)
Lemma write_hex_ok s d z : prints s d ->
  exists t s', (if negb (u32 z =? 0) then on_buff (itox (u32 z));;; s <- get;; write_str (p_buff s) else write_char 48) s = Ret tt s' /\
    hex_text z t /\ wrote s s' d t.
Proof.
  intros Hs. destruct (Z.eqb_spec (u32 z) 0) as [E|E]; simpl.
  - destruct (write_char_ok s d 48 Hs) as (s' & Hw & Ht). exists [48], s'. split; [done|split; [|done]].
    split_and!; [by rewrite E | by repeat constructor | by rewrite decide_True].
  - destruct (on_buff_itox s d z Hs E) as (t & rest & Eb & Ht & Hs1).
    destruct (write_str_ok _ d t rest Hs1) as (s' & Ew & Hw); [apply Ht | destruct Ht as (_ & _ & ->); case_decide; lia |].
    exists t, s'. split; [by erewrite bind_Ret by exact Eb | by split].
Qed.

Lemma write_int_ok s d z : prints s d ->
  exists t s', (if negb (s32 z =? 0) then on_buff (itoa (s32 z));;; s <- get;; write_str (p_buff s) else write_char 48) s = Ret tt s' /\
    decimal_text z t /\ wrote s s' d t.
Proof.
  intros Hs. destruct (Z.eqb_spec (s32 z) 0) as [E|E]; simpl.
  - destruct (write_char_ok s d 48 Hs) as (s' & Hw & Ht). exists [48], s'. split; [done|split; [|done]].
    unfold decimal_text. by rewrite decide_True.
  - destruct (on_buff_itoa s d z Hs E) as (t & rest & Eb & Ht & Hl & Hs1).
    destruct (write_str_ok _ d t rest Hs1) as (s' & Ew & Hw); [by eapply decimal_no_nul | lia |].
    exists t, s'. split; [by erewrite bind_Ret by exact Eb | split; [unfold decimal_text; by rewrite decide_False | done]].
Qed.

Lemma cstr_cons c f rest : cstr (c :: f) rest = c :: cstr f rest.
Proof. done. Qed.

Lemma arg_string_cstr mem : arg_string mem = true ->
  exists t rest, mem = cstr t rest /\ no_nul t /\ Z.of_nat (length t) < 2 ^ 31.
Proof.
  unfold arg_string. rewrite andb_true_iff, !bool_decide_eq_true. intros [H0 Hl].
  induction mem as [|c mem IH]; [by apply elem_of_nil in H0|].
  destruct (decide (c = 0)) as [->|Hc]; [exists [], mem; split_and!; [done | constructor | simpl; lia]|].
  apply elem_of_cons in H0 as [|H0]; [done|]. simpl in Hl.
  destruct IH as (t & rest & -> & Ht & Hl'); [done | lia |].
  exists (c :: t), rest. split_and!; [done | by constructor |].
  unfold cstr in Hl. rewrite length_app in Hl. simpl in *. lia.
Qed.

(** The directives a format can start with. *)
Lemma fits_cases c f args : fits (c :: f) args = true ->
  (c <> 0 /\ c <> 37 /\ fits f args = true) \/
  (c = 37 /\ head f ∉ [Some 120; Some 99; Some 105; Some 115] /\ fits f args = true) \/
  (c = 37 /\ exists d f' z args', f = d :: f' /\ (d = 120 \/ d = 105) /\ args = VInt z :: args' /\ fits f' args' = true) \/
  (c = 37 /\ exists f' t rest args', f = 115 :: f' /\ args = VStr (cstr t rest) :: args' /\
     no_nul t /\ Z.of_nat (length t) < 2 ^ 31 /\ fits f' args' = true).
Proof.
  simpl. destruct (Z.eqb_spec c 0) as [|Hc0]; [done|]. destruct (Z.eqb_spec c 37) as [Hc|Hc]; simpl; [|by left].
  destruct f as [|d f]; [intros _; right; left; split_and!; [done | set_solver | done]|].
  destruct (Z.eqb_spec d 120), (Z.eqb_spec d 105); simpl;
    try (destruct args as [|[z|m] args]; [done | | done]; intros H; right; right; left; split; [done|];
         exists d, f, z, args; split_and!; [done | auto | done | done]).
  destruct (Z.eqb_spec d 115) as [->|].
  - destruct args as [|[z|m] args]; [done | done |]. rewrite andb_true_iff. intros [Hm Hf].
    apply arg_string_cstr in Hm as (t & rest & -> & Ht & Hl). right; right; right. split; [done|].
    by exists f, t, rest, args.
  - destruct (Z.eqb_spec d 99); [done|]. intros H. right; left. split_and!; [done | set_solver | exact H].
Qed.

(** Comparisons of constants. *)
Ltac eqb_consts :=
  repeat match goal with
    | |- context [Z.eqb (Zpos ?a) (Zpos ?b)] =>
        let r := eval vm_compute in (Z.eqb (Zpos a) (Zpos b)) in change (Z.eqb (Zpos a) (Zpos b)) with r
    end; cbv iota.

Lemma kvprintf_loop_ok n : forall f args s d rest, fits f args = true -> (length f + length args < n)%nat -> prints s d ->
  exists text s', kvprintf_loop n (cstr f rest) args s = Ret tt s' /\ renders f args text /\ wrote s s' d text.
Proof.
  induction n as [|n IH]; intros f args s d rest Hf Hn Hs; [lia|].
  destruct f as [|c f]; [exists [], s; split; [done | split; [constructor | done]]|].
  rewrite cstr_cons. simpl length in Hn. pose proof Hf as Hcases.
  apply fits_cases in Hcases as [(H0 & H37 & Hf')|[(-> & Hh & Hf')|[(-> & dd & f' & z & args' & -> & Hd & -> & Hf')
    |(-> & f' & t & rest' & args' & -> & -> & Ht & Hl & Hf')]]]; simpl kvprintf_loop.
  - rewrite (proj2 (Z.eqb_neq c 0) H0), (proj2 (Z.eqb_neq c 37) H37). simpl.
    destruct (write_char_ok s d c Hs) as (s1 & E1 & Hw1). erewrite bind_Ret by exact E1.
    destruct (IH f args s1 _ rest Hf' ltac:(lia) (proj1 Hw1)) as (text & s' & E & Hr & Hw).
    exists (c :: text), s'. split; [done | split; [by constructor | by eapply (wrote_trans _ _ _ _ [c])]].
  - assert (exists h, head (cstr f rest) = Some h /\ h <> 120 /\ h <> 99 /\ h <> 105 /\ h <> 115) as (h & -> & ? & ? & ? & ?).
    { destruct f as [|h f]; [by exists 0|]. exists h. split; [done|]. split_and!; intros ->; set_solver. }
    simpl deref. rewrite bind_ret_l. rewrite !(proj2 (Z.eqb_neq h _)) by done. cbv iota.
    destruct (write_char_ok s d 37 Hs) as (s1 & E1 & Hw1). erewrite bind_Ret by exact E1.
    destruct (IH f args s1 _ rest Hf' ltac:(lia) (proj1 Hw1)) as (text & s' & E & Hr & Hw).
    exists (37 :: text), s'. split; [done | split; [by constructor | by eapply (wrote_trans _ _ _ _ [37])]].
  - simpl length in Hn. destruct Hd as [-> | ->]; simpl.
    + rewrite bind_ret_l. eqb_consts. rewrite bind_ret_l. destruct (write_hex_ok s d z Hs) as (t & s1 & E1 & Ht & Hw1). erewrite bind_Ret by exact E1.
      destruct (IH f' args' s1 _ rest Hf' ltac:(lia) (proj1 Hw1)) as (text & s' & E & Hr & Hw).
      exists (t ++ text), s'. split; [done | split; [by constructor | by eapply wrote_trans]].
    + rewrite bind_ret_l. eqb_consts. rewrite bind_ret_l. destruct (write_int_ok s d z Hs) as (t & s1 & E1 & Ht & Hw1). erewrite bind_Ret by exact E1.
      destruct (IH f' args' s1 _ rest Hf' ltac:(lia) (proj1 Hw1)) as (text & s' & E & Hr & Hw).
      exists (t ++ text), s'. split; [done | split; [by constructor | by eapply wrote_trans]].
  - simpl length in Hn. simpl. rewrite bind_ret_l. eqb_consts. rewrite bind_ret_l.
    destruct (write_str_ok s d t rest' Hs Ht Hl) as (s1 & E1 & Hw1). erewrite bind_Ret by exact E1.
    destruct (IH f' args' s1 _ rest Hf' ltac:(lia) (proj1 Hw1)) as (text & s' & E & Hr & Hw).
    exists (t ++ text), s'. split; [done | split; [by constructor | by eapply wrote_trans]].
Qed.

Lemma spin_ok n s : spin n s = Ret tt s.
Proof. induction n; [done | exact IHn]. Qed.

Lemma kvprintf_ok f args s d rest : fits f args = true -> prints s d ->
  exists text s', kvprintf (cstr f rest) args s = Ret tt s' /\ renders f args text /\ wrote s s' d text.
Proof.
  intros Hf Hs.
  destruct (kvprintf_loop_ok (length (cstr f rest) + length args + 1) f args s d rest Hf) as (text & s' & E & Hr & Hw);
    [unfold cstr; rewrite length_app; lia | done |].
  exists text, s'. split; [|done]. unfold kvprintf. erewrite bind_Ret by exact E. rewrite bind_get. apply spin_ok.
Qed.

Lemma renders_nil args text : renders [] args text -> text = [].
Proof. by inversion 1. Qed.
Lemma renders_char c f args text : c <> 37 -> renders (c :: f) args text ->
  exists text', text = c :: text' /\ renders f args text'.
Proof. inversion 2; subst; try done. by eexists. Qed.
Lemma renders_int z f args text : renders (37 :: 105 :: f) (VInt z :: args) text ->
  exists t text', text = t ++ text' /\ decimal_text z t /\ renders f args text'.
Proof. inversion 1; subst; try done; [by eexists _, _ | set_solver]. Qed.

Lemma renders_stamp z text : renders (str "[%i] ") [VInt z] text ->
  exists t, text = str "[" ++ t ++ str "] " /\ decimal_text z t.
Proof.
  intros H. apply renders_char in H as (t1 & -> & H); [|done].
  apply renders_int in H as (t & t2 & -> & Ht & H).
  apply renders_char in H as (t3 & -> & H); [|done]. apply renders_char in H as (t4 & -> & H); [|done].
  apply renders_nil in H as ->. by exists t.
Qed.

(** C31: a message of the kernel appears on the screen as its format says.
    [printk] returns, for every format without [%c] whose arguments suit it
    and whatever the screen shows: the carriage return, the ticks of the timer
    in brackets, the text of the format (numbers in decimal or hexadecimal,
    strings, other characters as they are) and the line break are added to the
    document, and the mutex is free again.  The conversions use the twelfth
    byte at the eleven bytes of [buff]. *)
Theorem printk_shows (level : Z) (f rest : list Z) (args : list vararg) (s : pstate) (d : document)
  (Hf : fits f args = true) (Hs : displays (p_screen s) d) (Hb : (12 <= length (p_buff s))%nat) (Hm : p_mutex s = 0) :
  exists ticks text s', printk level (cstr f rest) args s = Ret tt s' /\
    decimal_text (p_ticks s) ticks /\ renders f args text /\
    displays (p_screen s') (type_text d ([13] ++ (str "[" ++ ticks ++ str "] ") ++ text ++ [10])) /\
    p_mutex s' = 0.
Proof.
  unfold printk, printk_lock, kprintf. rewrite bind_assoc, bind_get, Hm. change (0 =? 0) with true. cbv iota.
  rewrite bind_modify. set (s0 := s <| p_mutex := 1 |>). assert (prints s0 d) as Hs0 by done.
  destruct (kvprintf_ok [13] [] s0 d [] eq_refl Hs0) as (t1 & s1 & E1 & R1 & W1). erewrite bind_Ret by exact E1. rewrite bind_get.
  destruct (kvprintf_ok (str "[%i] ") [VInt (p_ticks s1)] s1 _ [] eq_refl (proj1 W1)) as (t2 & s2 & E2 & R2 & W2).
  erewrite bind_Ret by exact E2.
  destruct (kvprintf_ok f args s2 _ rest Hf (proj1 W2)) as (t3 & s3 & E3 & R3 & W3). erewrite bind_Ret by exact E3.
  destruct (kvprintf_ok [10] [] s3 _ [] eq_refl (proj1 W3)) as (t4 & s4 & E4 & R4 & W4). erewrite bind_Ret by exact E4.
  apply renders_char in R1 as (? & -> & ->%renders_nil); [|done].
  apply renders_char in R4 as (? & -> & ->%renders_nil); [|done].
  apply renders_stamp in R2 as (ticks & -> & Ht).
  pose proof (wrote_trans _ _ _ _ _ _ W3 W4) as W. pose proof (wrote_trans _ _ _ _ _ _ W2 W) as W'.
  destruct (wrote_trans _ _ _ _ _ _ W1 W') as ((Hd & _) & _ & Hm4 & _).
  destruct W1 as (_ & _ & _ & Ht1). rewrite Ht1 in Ht. change (p_mutex s0) with 1 in Hm4.
  exists ticks, t3, (s4 <| p_mutex := 0 |>). split.
  { unfold printk_unlock. rewrite bind_get, bind_modify, Hm4. done. }
  split; [exact Ht|]. split; [exact R3|]. split; [exact Hd | done].
Qed.

Definition pstate_at (sc : screen) : pstate := mkP sc (replicate 12 0) 0 0 7.

Lemma printk_shows_witness :
  exists s1 s', console_early_init screen_at_boot = Ret tt s1 /\
    printk 7 (cstr (str "eip=0x%x sym=%s %") []) [VInt 0x100042; VStr (cstr (str "main") [])] (pstate_at s1) = Ret tt s' /\
    p_mutex s' = 0.
Proof.
  destruct (console_early_init_ok screen_at_boot) as (s1 & E1 & Hs1); [apply length_replicate|].
  destruct (printk_shows 7 (str "eip=0x%x sym=%s %") [] [VInt 0x100042; VStr (cstr (str "main") [])] (pstate_at s1)
    empty_document) as (ticks & text & s' & E & _ & _ & _ & Hm); [vm_compute; done | exact Hs1 | vm_compute; lia | done |].
  exists s1, s'. split_and!; [exact E1 | exact E | exact Hm].
Defined.

(** [%c] is not skipped: the format is read again, the next argument is taken
    for another [%c], and when the arguments are used up the words behind them
    are. *)
Lemma kvprintf_char_loop zs n f s d : (length zs < n)%nat -> prints s d ->
  exists s', kvprintf_loop n (37 :: 99 :: f) (map VInt zs) s = Faults s' /\ wrote s s' d (map u8 zs).
Proof.
  revert n s d. induction zs as [|z zs IH]; intros [|n] s d Hn Hs; simpl in Hn; try lia.
  - exists s. done.
  - destruct (write_char_ok s d (u8 z) Hs) as (s1 & E1 & W1).
    destruct (IH n s1 _ ltac:(lia) (proj1 W1)) as (s' & E & W). exists s'. split; [|by eapply (wrote_trans _ _ _ _ [_])].
    change (kvprintf_loop (S n) (37 :: 99 :: f) (map VInt (z :: zs)) s)
      with ((write_char (u8 z);;; kvprintf_loop n (37 :: 99 :: f) (map VInt zs)) s).
    by erewrite bind_Ret by exact E1.
Qed.

Lemma kvprintf_char_never_returns zs f s d : prints s d ->
  exists s', kvprintf (cstr (str "%c" ++ f) []) (map VInt zs) s = Faults s' /\ wrote s s' d (map u8 zs).
Proof.
  intros Hs. destruct (kvprintf_char_loop zs (length (cstr (str "%c" ++ f) []) + length (map VInt zs) + 1)
    (cstr f []) s d) as (s' & E & W); [rewrite length_map; lia | done |].
  exists s'. split; [|done]. unfold kvprintf, bind. change (cstr (str "%c" ++ f) []) with (37 :: 99 :: cstr f []) in *. by rewrite E.
Qed.

Example message_on_screen :
  match console_early_init screen_at_boot with
  | Ret _ s1 =>
      match printk 7 (cstr (str "mem %i") []) [VInt 1066] (pstate_at s1) with
      | Ret _ s => take 13 (vmem (p_screen s)) = map MEM_CHAR (str "[7] mem 1066 ") /\ cur_y (p_screen s) = 1
      | _ => False
      end
  | _ => False
  end.
Proof. vm_compute. done. Qed.
