(* ===== verification/Kbd.v ===== *)
(** * The keyboard

    Model of arch/x86/kbd.c and of the read functions of the console
    (console.c) and the terminal (tty.c), which hand a read on to the
    keyboard.  The interrupt handler puts characters into a buffer and
    signals a semaphore; a reader waits for the semaphore and takes one
    character at a time.  Both pointers start at NULL and are never set to the
    buffer that was allocated: the memory is partial, an access to an address
    that is not mapped faults, and a store overwrites what is at its address.

    [kbd_fifo] shows what becomes of that: the handler and the reads are a
    queue as long as the memory from address 0 up is mapped, and the
    characters overwrite that memory. *)

From S2P Require Import Prelude CString.

(** ** State *)

Record keymask_t := mkMask { left_shift : bool; right_shift : bool; alt : bool }.
#[export] Instance eta_keymask : Eta keymask_t := fun m => mkMask (left_shift m) (right_shift m) (alt m).

(** The static variables of kbd.c, and [kb_mem], the bytes of memory that are
    mapped; [kb_cnt] and [kb_max] are the counters of [kbd_semaphore]: a wait
    takes one of [kb_max] slots and a signal gives one back. *)
Record kbd := mkKbd {
  keymask : keymask_t; keymap : list Z; kbd_input_buffer : Z;
  kbd_input_buffer_rhead : Z; kbd_input_buffer_whead : Z; kbd_input_buffer_len : Z;
  kb_cnt : Z; kb_max : Z; kb_mem : gmap Z Z }.
#[export] Instance eta_kbd : Eta kbd := fun s =>
  mkKbd (keymask s) (keymap s) (kbd_input_buffer s) (kbd_input_buffer_rhead s) (kbd_input_buffer_whead s)
    (kbd_input_buffer_len s) (kb_cnt s) (kb_max s) (kb_mem s).

Definition CONFIG_KBD_INPUT_BUFFER_SIZE : Z := 1024.
Definition KBD_LEFT_SHIFT : Z := 128.
Definition KBD_RIGHT_SHIFT : Z := 129.
Definition KBD_ALT : Z := 130.

Definition kbdus : list Z :=
  [0; 27] ++ str "1234567890-=" ++ [8; 9] ++ str "qwertyuiop[]" ++ [10; 0] ++ str "asdfghjkl;'`" ++
  [KBD_LEFT_SHIFT] ++ str "\zxcvbnm,./" ++ [KBD_RIGHT_SHIFT] ++ str "*" ++ [KBD_ALT] ++ str " " ++
  replicate 16 0 ++ str "-" ++ replicate 3 0 ++ str "+" ++ replicate 49 0.

(** ** Operations *)

(** [semaphore_signal_sleep] and [semaphore_waitsleep] on [kbd_semaphore], each
    as one step that nothing interrupts: with no slot the former spins and
    the latter goes to sleep.  Sync.v has their steps one by one; there a wait
    that is interrupted between the test of the counter and going to sleep can
    miss the signal that it needs. *)
Definition kbd_signal_sleep : M kbd unit :=
  s <- get;; if 0 <? kb_cnt s then modify (fun s => s <| kb_cnt := kb_cnt s - 1 |>) else block.
Definition kbd_waitsleep : M kbd unit :=
  s <- get;; if kb_cnt s <? kb_max s then modify (fun s => s <| kb_cnt := kb_cnt s + 1 |>) else block.

(** [p++], with the wrap to the start of the buffer. *)
Definition advance (s : kbd) (p : Z) : Z :=
  let p := u32 (p + 1) in
  if u32 (kbd_input_buffer s + CONFIG_KBD_INPUT_BUFFER_SIZE) <=? p then kbd_input_buffer s else p.

Definition buffer_key (c : Z) : M kbd unit :=
  s <- get;;
  if kbd_input_buffer_len s <? CONFIG_KBD_INPUT_BUFFER_SIZE then
    _ <- deref (kb_mem s !! kbd_input_buffer_whead s);;
    modify (fun s => s <| kb_mem := <[kbd_input_buffer_whead s := c]> (kb_mem s) |>);;;
    modify (fun s => s <| kbd_input_buffer_whead := advance s (kbd_input_buffer_whead s) |>);;;
    modify (fun s => s <| kbd_input_buffer_len := u32 (kbd_input_buffer_len s + 1) |>);;;
    kbd_signal_sleep
  else ret tt.

Definition set_mask (f : keymask_t -> keymask_t) : M kbd unit := modify (fun s => s <| keymask := f (keymask s) |>).

(** [kbd_input_handler]; [scan_code] is the byte read from port 0x60. *)
Definition kbd_input_handler (scan_code : Z) : M kbd unit :=
  s <- get;;
  if negb (Z.land scan_code 0x80 =? 0) then
    c <- deref (keymap s !! Z.to_nat (Z.land scan_code 0x7F));;
    if c =? KBD_LEFT_SHIFT then set_mask (fun m => m <| left_shift := false |>)
    else if c =? KBD_RIGHT_SHIFT then set_mask (fun m => m <| right_shift := false |>)
    else if c =? KBD_ALT then set_mask (fun m => m <| alt := false |>)
    else ret tt
  else
    c <- deref (keymap s !! Z.to_nat scan_code);;
    if c =? KBD_LEFT_SHIFT then set_mask (fun m => m <| left_shift := true |>)
    else if c =? KBD_RIGHT_SHIFT then set_mask (fun m => m <| right_shift := true |>)
    else
      (if c =? KBD_ALT then set_mask (fun m => m <| alt := true |>) else ret tt);;;
      s <- get;;
      let c := if left_shift (keymask s) || right_shift (keymask s) then
                 (if (97 <=? c) && (c <=? 122) then u8 (c - (97 - 65)) else c)
               else c in
      buffer_key c.

(** One turn of the loop of [kbd_read], and the loop: the bytes are what it
    stores in the buffer of the caller. *)
Definition kbd_read_byte : M kbd Z :=
  kbd_waitsleep;;;
  s <- get;;
  c <- deref (kb_mem s !! kbd_input_buffer_rhead s);;
  modify (fun s => s <| kbd_input_buffer_rhead := advance s (kbd_input_buffer_rhead s) |>);;;
  modify (fun s => s <| kbd_input_buffer_len := u32 (kbd_input_buffer_len s - 1) |>);;;
  ret c.
Fixpoint kbd_read (len : nat) : M kbd (list Z) :=
  match len with
  | O => ret []
  | S len => c <- kbd_read_byte;; rest <- kbd_read len;; ret (c :: rest)
  end.

(** The console and the terminal read from the keyboard. *)
Definition console_read (len : nat) : M kbd (list Z) := kbd_read len.
Definition tty_read (len : nat) : M kbd (list Z) := console_read len.

(** [kbd_init] with the buffer that [malloc] returned. *)
Definition kbd_init (buffer : Z) : M kbd unit :=
  modify (fun s => s <| keymap := kbdus |>);;;
  modify (fun s => s <| kbd_input_buffer := buffer |>);;;
  (if buffer =? 0 then panic "tty_init: out of memory!" else ret tt);;;
  modify (fun s => s <| kb_max := CONFIG_KBD_INPUT_BUFFER_SIZE |> <| kb_cnt := CONFIG_KBD_INPUT_BUFFER_SIZE |>).
Definition kbd_setkeymap (map : list Z) : M kbd unit := modify (fun s => s <| keymap := map |>).

(** The variables at boot; the memory is what it happens to be. *)
Definition kbd_boot (mem : gmap Z Z) : kbd := mkKbd (mkMask false false false) [] 0 0 0 0 0 0 mem.

(** Key strokes and turns of the loop of a read in any order, none of which
    interrupts another.  A turn that finds no slot goes to sleep and produces
    nothing; when it is woken it tries again, which is another event. *)
Inductive event := Key (scan_code : Z) | Read.

Definition try_read : M kbd (list Z) := fun s =>
  match kbd_read_byte s with
  | Ret c s' => Ret [c] s'
  | Blocks _ => Ret [] s
  | Panics msg s' => Panics msg s'
  | Faults s' => Faults s'
  | NoFuel s' => NoFuel s'
  end.

Fixpoint run (evs : list event) : M kbd (list Z) :=
  match evs with
  | [] => ret []
  | Key k :: evs => kbd_input_handler k;;; run evs
  | Read :: evs => l <- try_read;; out <- run evs;; ret (l ++ out)
  end.

(** ** Specification *)

(** What a scan code does to the shift keys, and the character it stands for. *)
Definition shifted (m : keymask_t) (c : Z) : Z :=
  if (left_shift m || right_shift m) && bool_decide (97 <= c <= 122) then c - 32 else c.
Definition translate (m : keymask_t) (scan_code : Z) : keymask_t * option Z :=
  let pressed := scan_code <? 128 in
  let c := kbdus !!! Z.to_nat (scan_code mod 128) in
  if c =? KBD_LEFT_SHIFT then (m <| left_shift := pressed |>, None)
  else if c =? KBD_RIGHT_SHIFT then (m <| right_shift := pressed |>, None)
  else
    let m := if c =? KBD_ALT then m <| alt := pressed |> else m in
    (m, if pressed then Some (shifted m c) else None).

(** A queue of up to 1024 characters; further ones are lost. *)
Definition enqueue (q : list Z) (c : option Z) : list Z :=
  match c with
  | Some c => if decide (Z.of_nat (length q) < CONFIG_KBD_INPUT_BUFFER_SIZE) then q ++ [c] else q
  | None => q
  end.

Fixpoint spec_run (evs : list event) (m : keymask_t) (q : list Z) : list Z * keymask_t * list Z :=
  match evs with
  | [] => ([], m, q)
  | Key k :: evs =>
      let '(m, c) := translate m k in spec_run evs m (enqueue q c)
  | Read :: evs =>
      match q with
      | [] => spec_run evs m q
      | c :: q => let '(out, m, q) := spec_run evs m q in (c :: out, m, q)
      end
  end.

(** ** The characters in memory *)

(** The memory [mem] with the characters [l] stored from address 0 up. *)
Definition overwritten (l : list Z) (mem : gmap Z Z) (a : Z) : option Z :=
  if decide (0 <= a < Z.of_nat (length l)) then l !! Z.to_nat a else mem !! a.

Section Queue.
(** The memory at the start, of which the addresses below [lim] are mapped; the
    buffer is somewhere above. *)
Context (mem : gmap Z Z) (lim : Z) (Hmap : forall a, 0 <= a < lim -> is_Some (mem !! a)).

(** [out] was read so far and [q] is waiting. *)
Record queued (s : kbd) (out q : list Z) : Prop := {
  qd_map : keymap s = kbdus;
  qd_buffer : lim < kbd_input_buffer s /\ kbd_input_buffer s + CONFIG_KBD_INPUT_BUFFER_SIZE < 2 ^ 32;
  qd_lim : Z.of_nat (length (out ++ q)) <= lim;
  qd_len : kbd_input_buffer_len s = Z.of_nat (length q) /\ Z.of_nat (length q) <= CONFIG_KBD_INPUT_BUFFER_SIZE;
  qd_sem : kb_max s = CONFIG_KBD_INPUT_BUFFER_SIZE /\ kb_cnt s = CONFIG_KBD_INPUT_BUFFER_SIZE - Z.of_nat (length q);
  qd_rhead : kbd_input_buffer_rhead s = Z.of_nat (length out);
  qd_whead : kbd_input_buffer_whead s = Z.of_nat (length (out ++ q));
  qd_mem : forall a, kb_mem s !! a = overwritten (out ++ q) mem a }.

Lemma advance_low s p : 0 <= p <= lim -> lim < kbd_input_buffer s ->
  kbd_input_buffer s + CONFIG_KBD_INPUT_BUFFER_SIZE < 2 ^ 32 -> advance s p = p + 1.
Proof.
  unfold CONFIG_KBD_INPUT_BUFFER_SIZE. intros Hp Hb He. unfold advance, CONFIG_KBD_INPUT_BUFFER_SIZE.
  rewrite !u32_small by lia. by rewrite (proj2 (Z.leb_gt _ _)) by lia.
Qed.

Lemma overwritten_snoc l c a :
  (if decide (a = Z.of_nat (length l)) then Some c else overwritten l mem a) = overwritten (l ++ [c]) mem a.
Proof using.
  unfold overwritten. rewrite length_app. simpl. case_decide as E.
  - rewrite decide_True by lia. subst a. by rewrite Nat2Z.id, lookup_app_r, Nat.sub_diag by done.
  - destruct (decide (0 <= a < Z.of_nat (length l))).
    + rewrite decide_True by lia. by rewrite lookup_app_l by lia.
    + by rewrite decide_False by lia.
Qed.

(** A character is stored at the next address, or dropped when 1024 wait. *)
Lemma buffer_key_ok s out q c : queued s out q -> Z.of_nat (length (out ++ enqueue q (Some c))) <= lim ->
  exists s', buffer_key c s = Ret tt s' /\ keymask s' = keymask s /\ queued s' out (enqueue q (Some c)).
Proof using Hmap.
  intros Hq. pose proof Hq as [Hm [Hb He] Hl [Hl1 Hl2] [Hs1 Hs2] Hr Hw Hmem]. unfold enqueue.
  unfold buffer_key. rewrite bind_get, Hl1. case_decide as Hlt; intros Hlim.
  - rewrite (proj2 (Z.ltb_lt _ _)) by done. rewrite app_assoc, length_app in Hlim. simpl in Hlim.
    destruct (Hmap (Z.of_nat (length (out ++ q)))) as [x Hx]; [lia|].
    assert (kb_mem s !! kbd_input_buffer_whead s = Some x) as ->.
    { rewrite Hw, Hmem. unfold overwritten. by rewrite decide_False by lia. }
    cbn [deref]. rewrite bind_ret_l, !bind_modify. set (s2 := setf kbd_input_buffer_len _ _).
    assert (kb_cnt s2 = kb_cnt s) as Hc by done.
    exists (s2 <| kb_cnt := kb_cnt s2 - 1 |>). split; [|split; [done|]].
    { unfold kbd_signal_sleep. rewrite bind_get.
      assert ((0 <? kb_cnt s2) = true) as -> by (rewrite Hc, Hs2; apply Z.ltb_lt; lia). done. }
    split; try done.
    + rewrite app_assoc, length_app. simpl. lia.
    + rewrite length_app. simpl. split; [|lia].
      change (u32 (kbd_input_buffer_len s + 1) = Z.of_nat (length q + 1)).
      rewrite Hl1, u32_small by (unfold CONFIG_KBD_INPUT_BUFFER_SIZE in *; lia). lia.
    + split; [done|]. change (kb_cnt s - 1 = CONFIG_KBD_INPUT_BUFFER_SIZE - Z.of_nat (length (q ++ [c]))).
      rewrite Hs2, length_app. simpl. lia.
    + change (advance (s <| kb_mem := <[kbd_input_buffer_whead s := c]> (kb_mem s) |>) (kbd_input_buffer_whead s) =
        Z.of_nat (length (out ++ q ++ [c]))).
      rewrite advance_low by (simpl; lia). rewrite Hw, app_assoc, (length_app (out ++ q)). simpl. lia.
    + intros a. change (<[kbd_input_buffer_whead s := c]> (kb_mem s) !! a = overwritten (out ++ q ++ [c]) mem a).
      rewrite app_assoc, <- overwritten_snoc, <- Hmem, Hw. case_decide as E; [by rewrite E, lookup_insert_eq|].
      by rewrite lookup_insert_ne by done.
  - rewrite (proj2 (Z.ltb_ge _ _)) by lia. by exists s.
Qed.

Lemma buffer_key_faults s out q c : queued s out q -> mem !! lim = None ->
  lim < Z.of_nat (length (out ++ enqueue q (Some c))) -> buffer_key c s = Faults s.
Proof using.
  intros [_ _ Hl [Hl1 _] _ _ Hw Hmem] Hnone. unfold enqueue, buffer_key. rewrite bind_get, Hl1.
  case_decide as Hlt; intros Hlim; [|lia]. rewrite (proj2 (Z.ltb_lt _ _)) by done.
  rewrite app_assoc, (length_app (out ++ q)) in Hlim. simpl in Hlim.
  assert (kb_mem s !! kbd_input_buffer_whead s = None) as ->; [|done].
  rewrite Hmem, Hw. unfold overwritten. rewrite decide_False by lia. by replace (Z.of_nat (length (out ++ q))) with lim by lia.
Qed.

(** A read takes the first character, or sleeps when there is none. *)
Lemma try_read_ok s out q : queued s out q ->
  exists s', try_read s = Ret (take 1 q) s' /\ keymask s' = keymask s /\ queued s' (out ++ take 1 q) (drop 1 q).
Proof using.
  intros [Hm [Hb He] Hl [Hl1 Hl2] [Hs1 Hs2] Hr Hw Hmem].
  unfold try_read, kbd_read_byte, kbd_waitsleep. rewrite bind_assoc, bind_get, Hs1, Hs2.
  destruct q as [|c q']; cbn [take drop].
  { rewrite (proj2 (Z.ltb_ge _ _)) by (simpl; lia). exists s. by rewrite app_nil_r. }
  rewrite take_0, drop_0. simpl in Hl1, Hl2. rewrite (proj2 (Z.ltb_lt _ _)) by (simpl; lia). rewrite bind_modify, bind_get.
  assert (kb_mem (s <| kb_cnt := kb_cnt s + 1 |>) !! kbd_input_buffer_rhead (s <| kb_cnt := kb_cnt s + 1 |>) = Some c) as ->.
  { change (kb_mem s !! kbd_input_buffer_rhead s = Some c). rewrite Hmem, Hr. unfold overwritten.
    rewrite length_app. simpl. rewrite decide_True by lia. rewrite Nat2Z.id, lookup_app_r by done. by rewrite Nat.sub_diag. }
  cbn [deref]. rewrite bind_ret_l, !bind_modify.
  eexists. split; [reflexivity|]. split; [done|]. split; rewrite <- ?app_assoc; try done.
  - split; [|lia]. change (u32 (kbd_input_buffer_len s - 1) = Z.of_nat (length q')).
    rewrite Hl1, u32_small by (unfold CONFIG_KBD_INPUT_BUFFER_SIZE in *; lia). lia.
  - split; [exact Hs1|]. change (kb_cnt s + 1 = CONFIG_KBD_INPUT_BUFFER_SIZE - Z.of_nat (length q')).
    rewrite Hs2. simpl. lia.
  - change (advance (s <| kb_cnt := kb_cnt s + 1 |>) (kbd_input_buffer_rhead s) = Z.of_nat (length (out ++ [c]))).
    rewrite length_app in Hl. simpl in Hl. rewrite advance_low by (simpl; lia). rewrite Hr, length_app. simpl. lia.
Qed.

(** The handler and the reference translation. *)
Lemma kbdus_lookup i : (i < 128)%nat -> kbdus !! i = Some (kbdus !!! i).
Proof. intros Hi. apply list_lookup_lookup_total_lt. exact Hi. Qed.

Lemma queued_set_mask s out q f : queued s out q -> queued (s <| keymask := f (keymask s) |>) out q.
Proof using. intros []. by split. Qed.

(** A fact about bytes by computation. *)
Lemma byte_cases (P : Z -> bool) : forallb (fun n => P (Z.of_nat n)) (seq 0 256) = true ->
  forall k, 0 <= k < 256 -> P k = true.
Proof.
  intros H k Hk. rewrite forallb_forall in H. specialize (H (Z.to_nat k)). rewrite Z2Nat.id in H by lia.
  apply H, in_seq. lia.
Qed.

Lemma released_bit k : 0 <= k < 256 -> (Z.land k 0x80 =? 0) = (k <? 128).
Proof.
  intros Hk. apply eqb_true_iff. revert k Hk.
  apply (byte_cases (fun k => Bool.eqb (Z.land k 0x80 =? 0) (k <? 128))). vm_compute. done.
Qed.

Lemma kbdus_bytes i : 0 <= kbdus !!! i < 256.
Proof.
  assert (forallb (fun c => (0 <=? c) && (c <? 256)) kbdus = true) as H by (vm_compute; done).
  rewrite forallb_forall in H. destruct (decide (i < 128)%nat) as [Hi|Hi].
  - specialize (H (kbdus !!! i)). rewrite andb_true_iff, Z.leb_le, Z.ltb_lt in H. apply H, list_elem_of_In.
    apply list_elem_of_lookup_total_2. exact Hi.
  - rewrite list_lookup_total_alt, lookup_ge_None_2; [simpl; lia|]. change (length kbdus) with 128%nat. lia.
Qed.

(** What the handler does: the shift keys, then a character for the queue. *)
Lemma handler_eq s k : keymap s = kbdus -> 0 <= k < 256 ->
  exists s1, keymask s1 = (translate (keymask s) k).1 /\ (forall out q, queued s out q -> queued s1 out q) /\
    kbd_input_handler k s = match (translate (keymask s) k).2 with Some c => buffer_key c s1 | None => Ret tt s1 end.
Proof using.
  intros Hm Hk. unfold kbd_input_handler, translate. rewrite bind_get, Hm, released_bit by done.
  change 0x7F with (Z.ones 7). rewrite Z.land_ones by lia. change (2 ^ 7) with 128.
  pose proof (Z.mod_pos_bound k 128 ltac:(lia)).
  destruct (Z.ltb_spec k 128); cbv [negb].
  - rewrite (Z.mod_small k 128) by lia. rewrite kbdus_lookup by lia. erewrite bind_Ret by reflexivity.
    set (c := kbdus !!! Z.to_nat k).
    destruct (Z.eqb_spec c KBD_LEFT_SHIFT); [eexists; split_and!; [| |reflexivity]; [done | intros; by apply queued_set_mask]|].
    destruct (Z.eqb_spec c KBD_RIGHT_SHIFT); [eexists; split_and!; [| |reflexivity]; [done | intros; by apply queued_set_mask]|].
    set (m' := if c =? KBD_ALT then (keymask s) <| alt := true |> else keymask s).
    assert (exists s1, (if c =? KBD_ALT then set_mask (fun m => m <| alt := true |>) else ret tt) s = Ret tt s1 /\
              keymask s1 = m' /\ (forall out q, queued s out q -> queued s1 out q)) as (s1 & E1 & Hm1 & Hq1).
    { unfold m'. destruct (c =? KBD_ALT); eexists; (split; [reflexivity | split; [done|]]);
        [intros; by apply queued_set_mask | done]. }
    exists s1. split_and!; [done | done |]. rewrite (bind_Ret _ _ _ _ _ E1), bind_get, Hm1. cbn [snd]. f_equal. unfold shifted.
    pose proof (kbdus_bytes (Z.to_nat k)) as Hc. fold c in Hc.
    destruct (left_shift m' || right_shift m'); [|done]. simpl.
    case_bool_decide; destruct (Z.leb_spec 97 c), (Z.leb_spec c 122); simpl; try lia. by rewrite u8_small by lia.
  - rewrite kbdus_lookup by lia. erewrite bind_Ret by reflexivity. set (c := kbdus !!! Z.to_nat (k mod 128)).
    destruct (c =? KBD_LEFT_SHIFT), (c =? KBD_RIGHT_SHIFT), (c =? KBD_ALT); eexists; (split_and!; [| |reflexivity]); try done;
      intros; by apply queued_set_mask.
Qed.

Lemma handler_ok s out q k : queued s out q -> 0 <= k < 256 ->
  Z.of_nat (length (out ++ enqueue q (translate (keymask s) k).2)) <= lim ->
  exists s', kbd_input_handler k s = Ret tt s' /\ keymask s' = (translate (keymask s) k).1 /\
    queued s' out (enqueue q (translate (keymask s) k).2).
Proof using Hmap.
  intros Hq Hk Hlim. destruct (handler_eq s k (qd_map _ _ _ Hq) Hk) as (s1 & Hm1 & Hq1 & ->).
  destruct (translate (keymask s) k) as [m [c|]]; cbn [fst snd] in *; [|exists s1; eauto].
  destruct (buffer_key_ok s1 out q c (Hq1 _ _ Hq) Hlim) as (s2 & E2 & Hm2 & Hq2).
  exists s2. by rewrite Hm2.
Qed.

Lemma handler_faults s out q k : queued s out q -> 0 <= k < 256 -> mem !! lim = None ->
  lim < Z.of_nat (length (out ++ enqueue q (translate (keymask s) k).2)) ->
  exists s', kbd_input_handler k s = Faults s'.
Proof using.
  intros Hq Hk Hn Hlim. destruct (handler_eq s k (qd_map _ _ _ Hq) Hk) as (s1 & Hm1 & Hq1 & ->).
  destruct (translate (keymask s) k) as [m [c|]]; cbn [fst snd enqueue] in *.
  - exists s1. eapply buffer_key_faults; eauto.
  - pose proof (qd_lim _ _ _ Hq). lia.
Qed.

Definition event_ok (ev : event) : Prop := match ev with Key k => 0 <= k < 256 | Read => True end.

Lemma spec_run_key k evs m q : spec_run (Key k :: evs) m q = spec_run evs (translate m k).1 (enqueue q (translate m k).2).
Proof using. cbn [spec_run]. by destruct (translate m k) as [m' [c|]]. Qed.

Lemma spec_run_read evs m q : spec_run (Read :: evs) m q =
  (take 1 q ++ (spec_run evs m (drop 1 q)).1.1, (spec_run evs m (drop 1 q)).1.2, (spec_run evs m (drop 1 q)).2).
Proof using. cbn [spec_run]. destruct q as [|c q]; cbn [take drop]; by destruct (spec_run evs m _) as [[o m'] q']. Qed.

(** No character is lost once it is in the queue. *)
Lemma spec_run_length evs : forall m q,
  (length q <= length ((spec_run evs m q).1.1 ++ (spec_run evs m q).2))%nat.
Proof using.
  induction evs as [|[k|] evs IH]; intros m q; [done | rewrite spec_run_key | rewrite spec_run_read; cbn [fst snd]].
  - etrans; [|apply IH]. unfold enqueue. destruct (translate m k).2; [|done]. case_decide; [rewrite length_app|]; lia.
  - rewrite <- app_assoc, length_app. specialize (IH m (drop 1 q)). rewrite length_drop in IH. rewrite length_take. lia.
Qed.

Lemma run_ok evs : forall s out q, Forall event_ok evs -> queued s out q ->
  let '(o, m, q') := spec_run evs (keymask s) q in
  (Z.of_nat (length (out ++ o ++ q')) <= lim ->
     exists s', run evs s = Ret o s' /\ keymask s' = m /\ queued s' (out ++ o) q') /\
  (mem !! lim = None -> lim < Z.of_nat (length (out ++ o ++ q')) -> exists s', run evs s = Faults s').
Proof using Hmap.
  induction evs as [|[k|] evs IH]; intros s out q Hev Hq; [|apply Forall_cons in Hev as [Hk Hev]..]; cbn [run].
  - cbn [spec_run]. rewrite !app_nil_r. cbn [app]. split; [by exists s|]. pose proof (qd_lim _ _ _ Hq). lia.
  - rewrite spec_run_key. pose proof (spec_run_length evs (translate (keymask s) k).1 (enqueue q (translate (keymask s) k).2)) as Hlen.
    destruct (Z.le_gt_cases (Z.of_nat (length (out ++ enqueue q (translate (keymask s) k).2))) lim) as [Hle|Hgt].
    + destruct (handler_ok s out q k Hq Hk Hle) as (s1 & E1 & Hm1 & Hq1). rewrite (bind_Ret _ _ _ _ _ E1), <- Hm1.
      by apply IH.
    + destruct (spec_run evs _ _) as [[o m'] q']. cbn [fst snd] in Hlen. rewrite !length_app in *. split; [lia|]. intros Hn _.
      destruct (handler_faults s out q k Hq Hk Hn) as [s1 E1]; [rewrite length_app; lia|].
      exists s1. unfold bind. by rewrite E1.
  - destruct (try_read_ok s out q Hq) as (s1 & E1 & Hm1 & Hq1). rewrite (bind_Ret _ _ _ _ _ E1), spec_run_read, <- Hm1.
    specialize (IH s1 _ _ Hev Hq1). destruct (spec_run evs (keymask s1) (drop 1 q)) as [[o m'] q']. cbn [fst snd].
    rewrite <- !app_assoc in *. destruct IH as [IH1 IH2]. split.
    + intros Hle. destruct (IH1 Hle) as (s' & E & Hm & Hq'). exists s'. by rewrite (bind_Ret _ _ _ _ _ E).
    + intros Hn Hlt. destruct (IH2 Hn Hlt) as [s' E]. exists s'. unfold bind. by rewrite E.
Qed.

(** [kbd_init] leaves an empty queue, whatever is in memory. *)
Lemma kbd_init_ok buffer : 0 <= lim < buffer -> buffer + CONFIG_KBD_INPUT_BUFFER_SIZE < 2 ^ 32 ->
  exists s, kbd_init buffer (kbd_boot mem) = Ret tt s /\ queued s [] [] /\ keymask s = mkMask false false false.
Proof using.
  intros Hb He. unfold kbd_init. rewrite !bind_modify. rewrite (proj2 (Z.eqb_neq buffer 0)), bind_ret_l by lia.
  eexists. split; [reflexivity|]. split; [|done].
  split; simpl; try done; unfold CONFIG_KBD_INPUT_BUFFER_SIZE in *; try lia.
  intros a. unfold overwritten. by rewrite decide_False by (simpl; lia).
Qed.
End Queue.

(** The end of the memory below the screen (0xA0000) and the kernel (0x100000). *)
Definition low_memory_end : Z := 0xA0000.

(** C30: where the characters of the keyboard go.  The addresses from 0 to
    [lim] in low memory are mapped (mmu_init maps the memory from 0 to the end
    of the kernel) and the buffer is above.  After [kbd_init], take scan codes
    and turns of the read loop in any order, none interrupting another, and let
    [out] be what a queue of 1024 characters gives out and [q] what it then
    holds: the characters that the scan codes stand for, shift keys taken into
    account, in the order in which they were typed, less those that were typed
    when 1024 were waiting.  If those are at most [lim] characters, the
    handler and the reads return, the bytes read are [out] (a turn that starts
    with no character goes to sleep and gives none), and the memory is as
    before except that [out ++ q] is stored over what was there, the first
    character at address 0: none is in the buffer.  If they are more and [lim]
    is not mapped, the handler faults, at the first key when [lim] is 0. *)
Theorem kbd_fifo (buffer lim : Z) (mem : gmap Z Z) (evs : list event)
  (Hlim : 0 <= lim <= low_memory_end) (Hb : low_memory_end < buffer)
  (He : buffer + CONFIG_KBD_INPUT_BUFFER_SIZE < 2 ^ 32)
  (Hmap : forall a, 0 <= a < lim -> is_Some (mem !! a)) (Hev : Forall event_ok evs) :
  exists s, kbd_init buffer (kbd_boot mem) = Ret tt s /\
    let '(out, m, q) := spec_run evs (mkMask false false false) [] in
    (Z.of_nat (length (out ++ q)) <= lim ->
       exists s', run evs s = Ret out s' /\ keymask s' = m /\
         kbd_input_buffer_len s' = Z.of_nat (length q) /\
         forall a, kb_mem s' !! a = overwritten (out ++ q) mem a) /\
    (mem !! lim = None -> lim < Z.of_nat (length (out ++ q)) -> exists s', run evs s = Faults s').
Proof.
  destruct (kbd_init_ok mem lim buffer ltac:(lia) He) as (s & E & Hq & Hm). exists s. split; [done|].
  pose proof (run_ok mem lim Hmap evs s [] [] Hev Hq) as H. rewrite Hm in H.
  destruct (spec_run evs _ []) as [[out m] q]. destruct H as [H1 H2]. split; [|exact H2].
  intros Hle. destruct (H1 Hle) as (s' & E' & Hm' & [_ _ _ [Hl _] _ _ _ Hmem]). by exists s'.
Qed.

(** Four bytes of low memory.  Shift down, [a], shift up, [b], then three
    reads, and a key: [Ab] is read, and [Abc] is at address 0; with five keys
    the last one faults. *)
Definition low4 : gmap Z Z := {[0 := 1; 1 := 2; 2 := 3; 3 := 4]}.
Definition typed : list event := [Key 42; Key 30; Key 170; Key 48; Read; Read; Read; Key 46].

Lemma low4_mapped a : 0 <= a < 4 -> is_Some (low4 !! a).
Proof.
  intros Ha. assert (a = 0 \/ a = 1 \/ a = 2 \/ a = 3) as [->|[->|[->| ->]]] by lia; vm_compute; by eexists.
Qed.

Lemma kbd_fifo_witness :
  exists s, kbd_init 0x200000 (kbd_boot low4) = Ret tt s /\
    (exists s', run typed s = Ret [65; 98] s' /\ kb_mem s' !! 0 = Some 65 /\ kb_mem s' !! 2 = Some 99 /\
       kb_mem s' !! 3 = Some 4 /\ kb_mem s' !! 0x200000 = None) /\
    exists s', run (typed ++ [Key 30; Key 30]) s = Faults s'.
Proof.
  assert (Forall event_ok (typed ++ [Key 30; Key 30])) as Hev by (repeat constructor; simpl; lia).
  destruct (kbd_fifo 0x200000 4 low4 typed) as (s & E & H1 & _);
    [unfold low_memory_end; lia | unfold low_memory_end; lia | unfold CONFIG_KBD_INPUT_BUFFER_SIZE; lia |
     exact low4_mapped | by apply Forall_app in Hev as [? _] |].
  destruct (kbd_fifo 0x200000 4 low4 (typed ++ [Key 30; Key 30])) as (s0 & E0 & _ & H2);
    [unfold low_memory_end; lia | unfold low_memory_end; lia | unfold CONFIG_KBD_INPUT_BUFFER_SIZE; lia |
     exact low4_mapped | exact Hev |].
  rewrite E in E0. injection E0 as <-. exists s. split; [exact E|]. split.
  - destruct H1 as (s' & Hr & _ & _ & Hmem); [vm_compute; discriminate|]. exists s'. split; [exact Hr|].
    rewrite !Hmem. vm_compute. done.
  - apply H2; [vm_compute; done | vm_compute; done].
Defined.

(** Pressing the ALT key types character 130. *)
Example alt_is_typed : translate (mkMask false false false) 56 = (mkMask false false true, Some 130).
Proof. reflexivity. Qed.
