(* ===== verification/Keeps.v ===== *)
(** * Keeps: what a call leaves alone

    [keeps proj m] says that a call that returns has not changed the part
    [proj] of the kernel state.  The lemmas follow the structure of the code,
    and the hints of the database [frame] apply them, so that a fact of this
    kind about a function of the kernel is proved by unfolding it. *)

From S2P Require Import Prelude Chain KState LinkedList Signals Vfs Io Tasks.

Definition keeps {A X} (proj : kstate -> X) (m : M kstate A) : Prop :=
  forall s a s', m s = Ret a s' -> proj s' = proj s.

Section Keeps.
Context {X : Type} (proj : kstate -> X).
Notation keeps := (keeps proj).

Lemma keeps_bind {A B} (m : M kstate A) (k : A -> M kstate B) :
  keeps m -> (forall a, keeps (k a)) -> keeps (bind m k).
Proof.
  intros Hm Hk s b s' H. apply bind_Ret_inv in H as (a & s1 & H1 & H2).
  by rewrite (Hk _ _ _ _ H2), (Hm _ _ _ H1).
Qed.

Lemma keeps_ret {A} (a : A) : keeps (ret a).
Proof. by intros s a' s' [= _ <-]. Qed.
Lemma keeps_get : keeps get.
Proof. by intros s a' s' [= _ <-]. Qed.
Lemma keeps_gets {A} (f : kstate -> A) : keeps (gets f).
Proof. by intros s a' s' [= _ <-]. Qed.
Lemma keeps_modify f : (forall s, proj (f s) = proj s) -> keeps (modify f).
Proof. by intros H s a' s' [= _ <-]. Qed.
Lemma keeps_panic {A} msg : keeps (panic (A := A) msg).
Proof. done. Qed.
Lemma keeps_block {A} : keeps (block (A := A)).
Proof. done. Qed.
Lemma keeps_fault {A} : keeps (fault (A := A)).
Proof. done. Qed.
Lemma keeps_nofuel {A} : keeps (nofuel (A := A)).
Proof. done. Qed.
Lemma keeps_assert b msg : keeps (assert b msg).
Proof. destruct b; [apply keeps_ret | done]. Qed.
Lemma keeps_deref {A} (o : option A) : keeps (deref o).
Proof. destruct o; [apply keeps_ret | done]. Qed.
Lemma keeps_malloc `{!Allocator} n : (forall s k, proj (s <| k_mallocs := k |>) = proj s) -> keeps (malloc n).
Proof. by intros Hk s a s' [= _ <-]. Qed.

Section Objects.
Context {T : Type} `{!Heap T}.
Lemma keeps_load p : keeps (load (T := T) p).
Proof. intros s a s' H. by apply load_Ret in H as [_ ->]. Qed.
Lemma keeps_put p v : (forall h s, proj (set_objs (T := T) h s) = proj s) -> keeps (put (T := T) p v).
Proof. by intros Hk s a s' [= _ <-]. Qed.
Lemma keeps_upd p f : (forall h s, proj (set_objs (T := T) h s) = proj s) -> keeps (upd_obj (T := T) p f).
Proof. intros Hk. apply keeps_bind; [apply keeps_load|]. intros v. by apply keeps_put. Qed.
Lemma keeps_free p : (forall h s, proj (set_objs (T := T) h s) = proj s) -> keeps (free_obj (T := T) p).
Proof. intros Hk. apply keeps_bind; [apply keeps_load|]. intros v. apply keeps_modify. intros s. apply Hk. Qed.
End Objects.
End Keeps.

(** [frame] follows the code; what is left are calls of other functions, for
    which the database [frame] has the facts. *)
Create HintDb frame.

Ltac frame_step :=
  lazymatch goal with
  | |- forall _, _ => intro
  | |- keeps _ (bind _ _) => apply keeps_bind
  | |- keeps _ (ret _) => apply keeps_ret
  | |- keeps _ get => apply keeps_get
  | |- keeps _ (gets _) => apply keeps_gets
  | |- keeps _ (modify _) => apply keeps_modify
  | |- keeps _ (panic _) => apply keeps_panic
  | |- keeps _ block => apply keeps_block
  | |- keeps _ fault => apply keeps_fault
  | |- keeps _ nofuel => apply keeps_nofuel
  | |- keeps _ (assert _ _) => apply keeps_assert
  | |- keeps _ (deref _) => apply keeps_deref
  | |- keeps _ (malloc _) => apply keeps_malloc
  | |- keeps _ (load _) => apply keeps_load
  | |- keeps _ (put _ _) => apply keeps_put
  | |- keeps _ (upd_obj _ _) => apply keeps_upd
  | |- keeps _ (free_obj _) => apply keeps_free
  | |- keeps _ (match ?o with _ => _ end) => destruct o
  | |- keeps _ current => unfold current
  | |- keeps _ (upd_current _) => unfold upd_current
  | |- keeps _ (set_errno _) => unfold set_errno
  | |- keeps _ (lock_node _) => unfold lock_node
  | |- keeps _ (unlock_node _) => unfold unlock_node
  | |- keeps _ (lock_desc _) => unfold lock_desc
  | |- keeps _ (unlock_desc _) => unfold unlock_desc
  | |- keeps _ lock_schedule => unfold lock_schedule
  | |- keeps _ unlock_schedule => unfold unlock_schedule
  | |- keeps _ (mutex_wait_word _) => unfold mutex_wait_word
  | |- keeps _ (mutex_release_word _) => unfold mutex_release_word
  | |- keeps _ (take_ref _) => unfold take_ref
  | |- keeps _ _ => solve [eauto with frame]
  | |- _ = _ => first [reflexivity | match goal with H : _ |- _ => solve [apply H] end]
  end.
Ltac frame := repeat frame_step.

Section Facts.
Context {al : Allocator}.

Lemma last_sibling_keeps {X} (proj : kstate -> X) fuel : forall p, keeps proj (last_sibling fuel p).
Proof. induction fuel; intros p; unfold last_sibling; fold last_sibling; frame. Qed.
#[local] Hint Resolve last_sibling_keeps : frame.

Lemma vfs_mknod_keeps {X} (proj : kstate -> X) parent node :
  (forall h s, proj (s <| k_nodes := h |>) = proj s) -> (forall s n, proj (s <| k_vfs_root_nodes := n |>) = proj s) ->
  keeps proj (vfs_mknod parent node).
Proof. intros H1 H2. unfold vfs_mknod. frame. Qed.

Lemma clone_loop_keeps {X} (proj : kstate -> X) :
  (forall h s, proj (s <| k_nodes := h |>) = proj s) -> (forall h s, proj (s <| k_files := h |>) = proj s) ->
  (forall h s, proj (s <| k_descs := h |>) = proj s) -> (forall s n, proj (s <| k_mallocs := n |>) = proj s) ->
  forall fuel table tmp prev, keeps proj (clone_loop fuel table tmp prev).
Proof. intros H1 H2 H3 H4. induction fuel; intros table tmp prev; cbn [clone_loop]; frame. Qed.

(** The scheduler touches the tasks, the position in their list, and which of
    them is the current one. *)
Section Schedule.
Context {X : Type} (proj : kstate -> X).
Context (Ht : forall h s, proj (s <| k_tasks := h |>) = proj s) (Hl : forall s l, proj (s <| k_tasks_list := l |>) = proj s)
  (Hc : forall s t, proj (s <| k_current_task := t |>) = proj s) (Hk : forall s w, proj (s <| k_schedule_lock := w |>) = proj s).

Lemma value_at_keeps p : keeps proj (value_at p).
Proof. unfold value_at. frame. Qed.
#[local] Hint Resolve value_at_keeps : frame.

Lemma move_next_keeps : keeps proj (LINKED_LIST_MOVE_NEXT LTasks).
Proof. unfold LINKED_LIST_MOVE_NEXT, load_list, store_list. frame. Qed.
Lemma move_first_keeps : keeps proj (LINKED_LIST_MOVE_FIRST LTasks).
Proof. unfold LINKED_LIST_MOVE_FIRST, load_list, store_list. frame. Qed.
#[local] Hint Resolve move_next_keeps move_first_keeps : frame.

Lemma pick_loop_keeps fuel : forall x tmp, keeps proj (pick_loop fuel x tmp).
Proof. induction fuel; intros x tmp; unfold pick_loop; fold pick_loop; frame. Qed.
#[local] Hint Resolve pick_loop_keeps : frame.

Lemma schedule_prelocked_keeps b : keeps proj (schedule_prelocked b).
Proof. unfold schedule_prelocked, first_pick, load_task_state. frame. Qed.
End Schedule.
End Facts.
