(* ===== verification/Pipes.v ===== *)
(** * Pipes: the ring buffer of a pipe

    [pipe_read] and [pipe_write] of Io.v against a queue of bytes: the buffer,
    the two pointers and the semaphore of a pipe represent the bytes written
    and not yet read, from [pipe] on.  The pointers visit
    CONFIG_PIPE_BUFFER_SIZE + 1 positions before they return to the start, one
    more than [pipe] allocates, so that a pipe works until that many bytes have
    gone through it. *)

From S2P Require Import Prelude Chain KState LinkedList Signals Vfs Io Tasks Keeps.

(** ** Positions on the ring *)

Lemma ring_next e x : 0 <= x <= e -> (if e <? x + 1 then 0 else x + 1) = (x + 1) mod (e + 1).
Proof.
  intros Hx. destruct (Z.ltb_spec e (x + 1)).
  - replace (x + 1) with (e + 1) by lia. by rewrite Z_mod_same_full.
  - by rewrite Z.mod_small by lia.
Qed.

Lemma ring_ne N r i j : 0 < N -> i < j < i + N -> (r + i) mod N <> (r + j) mod N.
Proof.
  intros HN Hij E. assert (H : (r + j - (r + i)) mod N = 0).
  { rewrite Zminus_mod, E, Z.sub_diag. by apply Z.mod_0_l; lia. }
  replace (r + j - (r + i)) with (j - i) in H by lia. rewrite Z.mod_small in H; lia.
Qed.

(** ** A pipe as a queue *)

(** The pipe at [p], with structure [v] and buffer [b], holds the bytes [q]. *)
Record pipe_rep (s : kstate) (p : Z) (v : pipe_t) (b : list Z) (q : list Z) : Prop := {
  pr_pipe : k_pipes s !! p = Some v;
  pr_buf : k_bufs s !! p_buf v = Some b;
  pr_max : 0 < p_max_cnt v < 2 ^ 32 /\ p_max_cnt v = p_buf_end v;
  pr_len : Z.of_nat (length q) <= p_max_cnt v;
  pr_cnt : p_cnt v = p_max_cnt v - Z.of_nat (length q);
  pr_read : 0 <= p_read_ptr v <= p_buf_end v;
  pr_write : p_write_ptr v = (p_read_ptr v + Z.of_nat (length q)) mod (p_buf_end v + 1);
  pr_data : forall i c, q !! i = Some c ->
    b !! Z.to_nat ((p_read_ptr v + Z.of_nat i) mod (p_buf_end v + 1)) = Some c
}.

(** The next write is inside of the buffer. *)
Definition room (v : pipe_t) (b : list Z) : Prop := p_write_ptr v < Z.of_nat (length b).

Definition with_pipe (s : kstate) (p : Z) (v : pipe_t) (b : list Z) : kstate :=
  s <| k_pipes := <[p := v]> (k_pipes s) |> <| k_bufs := <[p_buf v := b]> (k_bufs s) |>.

Section Ring.
Context {al : Allocator} {dr : Drivers} {co : Control}.

Lemma pipe_put_ok s p v b q c :
  pipe_rep s p v b q -> room v b ->
  let w := Z.to_nat (p_write_ptr v) in
  let v' := v <| p_write_ptr := next_ptr v (p_write_ptr v) |> in
  pipe_put p c s = Ret tt (with_pipe s p v' (<[w := c]> b)).
Proof.
  intros [Hp Hb Hm Hl Hc Hr Hw Hd] Hroom w v'. unfold pipe_put. krun. fold w.
  assert (0 <= p_write_ptr v) by (rewrite Hw; apply Z.mod_pos_bound; lia).
  destruct (lookup_lt_is_Some_2 b w) as [x Hx]; [unfold room in Hroom; lia|]. rewrite Hx. simpl. krun.
  rewrite run_last. krun. unfold ret. f_equal; unfold with_pipe; kstate.
Qed.

Lemma pipe_write_one s p v b q c :
  pipe_rep s p v b q -> Z.of_nat (length q) < p_max_cnt v -> room v b ->
  exists v' b', bind (pipe_put p c) (fun _ => pipe_give p) s = Ret tt (with_pipe s p v' b') /\
    pipe_rep (with_pipe s p v' b') p v' b' (q ++ [c]) /\ length b' = length b /\
    p_read_ptr v' = p_read_ptr v /\ p_buf_end v' = p_buf_end v /\ p_max_cnt v' = p_max_cnt v.
Proof.
  intros Hrep Hlt Hroom. erewrite bind_Ret; [|by eapply pipe_put_ok].
  destruct Hrep as [Hp Hb Hm Hl Hc Hr Hw Hd].
  set (w := Z.to_nat (p_write_ptr v)). set (v1 := v <| p_write_ptr := next_ptr v (p_write_ptr v) |>).
  exists (v1 <| p_cnt := u32 (p_cnt v1 - 1) |>), (<[w := c]> b). split_and!; try done.
  - unfold pipe_give, with_pipe. krun. unfold v1. kred.
    rewrite (proj2 (Z.ltb_lt 0 (p_cnt v))) by lia. rewrite run_last. krun. unfold ret. f_equal; kstate.
    by rewrite insert_insert_eq.
  - assert (Hwr : 0 <= p_write_ptr v <= p_buf_end v).
    { rewrite Hw. pose proof (Z.mod_pos_bound (p_read_ptr v + Z.of_nat (length q)) (p_buf_end v + 1)). lia. }
    unfold room in Hroom. split; unfold with_pipe, v1; kred; try done.
    + by simplify_map_eq.
    + by simplify_map_eq.
    + rewrite length_app. simpl. lia.
    + rewrite length_app. simpl. rewrite u32_small by lia. lia.
    + unfold next_ptr. rewrite ring_next by lia. rewrite Hw, length_app. simpl.
      rewrite Zplus_mod_idemp_l. f_equal. lia.
    + intros i x Hi. destruct (decide (i < length q)%nat) as [Hlti|Hge].
      * rewrite lookup_app_l in Hi by lia. rewrite list_lookup_insert_ne; [by apply Hd|].
        unfold w. rewrite Hw. intros E. apply Z2Nat.inj in E; [| apply Z.mod_pos_bound; lia ..].
        by eapply (ring_ne (p_buf_end v + 1) (p_read_ptr v) (Z.of_nat i) (Z.of_nat (length q))); [lia | lia |].
      * rewrite lookup_app_r in Hi by lia. destruct (i - length q)%nat as [|j] eqn:E; [|done].
        simpl in Hi. injection Hi as <-. replace i with (length q) by lia. rewrite <- Hw.
        apply list_lookup_insert_eq. unfold w. lia.
  - apply length_insert.
Qed.

Lemma pipe_read_one s p v b c q :
  pipe_rep s p v b (c :: q) ->
  exists v', bind (pipe_take p) (fun _ => pipe_get p) s = Ret c (with_pipe s p v' b) /\
    pipe_rep (with_pipe s p v' b) p v' b q /\ p_buf v' = p_buf v /\ p_write_ptr v' = p_write_ptr v /\
    p_buf_end v' = p_buf_end v /\ p_max_cnt v' = p_max_cnt v.
Proof.
  intros [Hp Hb Hm Hl Hc Hr Hw Hd]. simpl in *.
  set (v1 := v <| p_cnt := u32 (p_cnt v + 1) |>).
  exists (v1 <| p_read_ptr := next_ptr v1 (p_read_ptr v1) |>). unfold v1. split_and!; try done.
  - unfold pipe_take, pipe_get. krun. rewrite (proj2 (Z.ltb_lt (p_cnt v) (p_max_cnt v))) by lia. krun.
    pose proof (Hd 0%nat c eq_refl) as H0. rewrite Z.add_0_r, Z.mod_small in H0 by lia. rewrite H0. simpl. krun.
    unfold ret. f_equal; unfold with_pipe; kstate.
    + by rewrite insert_insert_eq.
    + by rewrite insert_id.
  - unfold next_ptr. split; unfold with_pipe; kred; try done.
    + by simplify_map_eq.
    + by simplify_map_eq.
    + lia.
    + rewrite u32_small by lia. lia.
    + rewrite ring_next by lia. pose proof (Z.mod_pos_bound (p_read_ptr v + 1) (p_buf_end v + 1)). lia.
    + rewrite ring_next, Hw, Zplus_mod_idemp_l by lia. f_equal. lia.
    + intros i x Hi. rewrite ring_next, Zplus_mod_idemp_l by lia.
      rewrite <- (Hd (S i) x Hi). do 3 f_equal. lia.
Qed.

(** What the calls leave alone. *)
Definition pipe_frame (s s' : kstate) (v v' : pipe_t) (b b' : list Z) : Prop :=
  k_nodes s' = k_nodes s /\ length b' = length b /\ p_buf_end v' = p_buf_end v /\ p_max_cnt v' = p_max_cnt v.

Lemma pipe_write_loop_ok bs p : forall s v b q,
  pipe_rep s p v b q -> Z.of_nat (length q) + Z.of_nat (length bs) <= p_max_cnt v ->
  (forall i, (i < length bs)%nat ->
     (p_read_ptr v + Z.of_nat (length q) + Z.of_nat i) mod (p_buf_end v + 1) < Z.of_nat (length b)) ->
  exists s' v' b', pipe_write_loop bs p s = Ret tt s' /\ pipe_rep s' p v' b' (q ++ bs) /\
    pipe_frame s s' v v' b b' /\ p_read_ptr v' = p_read_ptr v.
Proof.
  induction bs as [|c bs IH]; intros s v b q Hrep Hlen Hroom; simpl in *.
  { exists s, v, b. rewrite app_nil_r. by unfold pipe_frame. }
  assert (Hr0 : room v b).
  { unfold room. rewrite (pr_write _ _ _ _ _ Hrep). specialize (Hroom 0%nat ltac:(lia)).
    by rewrite Z.add_0_r in Hroom. }
  destruct (pipe_write_one s p v b q c Hrep ltac:(lia) Hr0) as (v1 & b1 & H1 & Hrep1 & L1 & R1 & E1 & M1).
  rewrite <- run_assoc, (bind_Ret _ _ _ _ _ H1).
  destruct (IH _ v1 b1 (q ++ [c]) Hrep1) as (s' & v' & b' & H2 & Hrep2 & (F1 & F2 & F3 & F4) & R2).
  - rewrite length_app, M1. simpl. lia.
  - intros i Hi. rewrite R1, E1, L1, length_app. simpl. specialize (Hroom (S i) ltac:(lia)).
    by replace (p_read_ptr v + Z.of_nat (length q + 1) + Z.of_nat i)
      with (p_read_ptr v + Z.of_nat (length q) + Z.of_nat (S i)) by lia.
  - exists s', v', b'. rewrite <- app_assoc in Hrep2. unfold pipe_frame. split_and!; try done; congruence.
Qed.

Lemma pipe_read_loop_ok n p : forall s v b q,
  pipe_rep s p v b q -> (n <= length q)%nat ->
  exists s' v', pipe_read_loop n p s = Ret (take n q) s' /\ pipe_rep s' p v' b (drop n q) /\
    pipe_frame s s' v v' b b /\ p_write_ptr v' = p_write_ptr v.
Proof.
  induction n as [|n IH]; intros s v b q Hrep Hn; cbn [pipe_read_loop].
  { exists s, v. by unfold pipe_frame. }
  destruct q as [|c q]; simpl in Hn; [lia|].
  destruct (pipe_read_one s p v b c q Hrep) as (v1 & H1 & Hrep1 & B1 & W1 & E1 & M1).
  rewrite <- run_assoc, (bind_Ret _ _ _ _ _ H1).
  destruct (IH _ v1 b q Hrep1 ltac:(lia)) as (s' & v' & H2 & Hrep2 & (F1 & F2 & F3 & F4) & W2).
  rewrite (bind_Ret _ _ _ _ _ H2). exists s', v'. unfold pipe_frame. split_and!; try done; congruence.
Qed.

Lemma pipe_read_loop_blocks n p : forall s v b q,
  pipe_rep s p v b q -> (length q < n)%nat -> exists s', pipe_read_loop n p s = Blocks s'.
Proof.
  induction n as [|n IH]; intros s v b q Hrep Hn; [lia|]. cbn [pipe_read_loop].
  destruct q as [|c q]; simpl in Hn.
  - exists s. destruct Hrep as [Hp _ Hm _ Hc _ _ _]. unfold pipe_take. krun. simpl in Hc.
    rewrite Hc, (proj2 (Z.ltb_ge _ _)) by lia. done.
  - destruct (pipe_read_one s p v b c q Hrep) as (v1 & H1 & Hrep1 & _).
    rewrite <- run_assoc, (bind_Ret _ _ _ _ _ H1).
    destruct (IH _ v1 b q Hrep1 ltac:(lia)) as (s' & H2). exists s'. unfold bind. by rewrite H2.
Qed.

Lemma pipe_write_loop_overruns bs p : forall s v b q,
  pipe_rep s p v b q -> Z.of_nat (length b) = p_buf_end v ->
  p_read_ptr v + Z.of_nat (length q) <= p_buf_end v ->
  p_buf_end v < p_read_ptr v + Z.of_nat (length q) + Z.of_nat (length bs) ->
  exists s', pipe_write_loop bs p s = Faults s'.
Proof.
  induction bs as [|c bs IH]; intros s v b q Hrep Hb Hle Hlt; simpl in Hlt; [lia|]. cbn [pipe_write_loop].
  pose proof (pr_read _ _ _ _ _ Hrep) as Hr. pose proof (pr_max _ _ _ _ _ Hrep) as Hm.
  assert (Hw : p_write_ptr v = p_read_ptr v + Z.of_nat (length q))
    by (rewrite (pr_write _ _ _ _ _ Hrep), Z.mod_small; lia).
  destruct (decide (p_write_ptr v = p_buf_end v)) as [E|E].
  - exists s. apply run_fault. unfold pipe_put. destruct Hrep as [Hp Hbuf _ _ _ _ _ _]. krun.
    by rewrite lookup_ge_None_2 by lia.
  - destruct (pipe_write_one s p v b q c Hrep) as (v1 & b1 & H1 & Hrep1 & L1 & R1 & E1 & M1);
      [lia | unfold room; lia |].
    rewrite <- run_assoc, (bind_Ret _ _ _ _ _ H1).
    apply (IH _ v1 b1 (q ++ [c]) Hrep1); rewrite ?E1, ?L1, ?R1, ?length_app; simpl; lia.
Qed.

(** The node of a pipe whose two ends are open. *)
Definition pipe_node (s : kstate) (node p : Z) : Prop :=
  node <> 0 /\ p <> 0 /\ exists n, k_nodes s !! node = Some n /\ n_data n = p /\ 2 <= n_refs n.

Lemma pipe_read_loop_eq s node p len : pipe_node s node p ->
  pipe_read node 0 len s =
  bind (pipe_read_loop (Z.to_nat len) p) (fun l => ret (Z.of_nat (length l), l)) s.
Proof. intros (H0 & Hp & n & Hn & Hd & _). unfold pipe_read. krun. by rewrite Hd. Qed.

Lemma pipe_write_loop_eq s node p bs : pipe_node s node p ->
  pipe_write node 0 (Z.of_nat (length bs)) bs s =
  bind (pipe_write_loop bs p) (fun _ => ret (Z.of_nat (length bs))) s.
Proof.
  intros (H0 & Hp & n & Hn & Hd & Hr). unfold pipe_write. krun.
  rewrite (proj2 (Z.ltb_ge (n_refs n) 2)) by lia. krun. by rewrite Hd, Nat2Z.id, firstn_all.
Qed.

(** ** Any calls on a pipe *)

(** A call on one of the ends: what it returns and, for a read, the bytes. *)
Inductive pipe_call := CallRead (len : nat) | CallWrite (bs : list Z).

Definition run_call (node : Z) (c : pipe_call) : M kstate (Z * list Z) :=
  match c with
  | CallRead len => pipe_read node 0 (Z.of_nat len)
  | CallWrite bs => n <- pipe_write node 0 (Z.of_nat (length bs)) bs;; ret (n, [])
  end.

Fixpoint run_calls (node : Z) (cs : list pipe_call) : M kstate (list (Z * list Z)) :=
  match cs with
  | [] => ret []
  | c :: cs => r <- run_call node c;; rs <- run_calls node cs;; ret (r :: rs)
  end.

(** What a queue with room for [left] more bytes in its lifetime answers: all
    the calls are served, or one of them goes to sleep, or one of them stores a
    byte behind the buffer. *)
Inductive calls_end := Served (rs : list (Z * list Z)) | Sleeps | Overruns.

Definition served (r : Z * list Z) (e : calls_end) : calls_end :=
  match e with Served rs => Served (r :: rs) | e => e end.

Fixpoint queue_calls (left : nat) (q : list Z) (cs : list pipe_call) : calls_end :=
  match cs with
  | [] => Served []
  | CallRead len :: cs =>
      if (len <=? length q)%nat
      then served (Z.of_nat len, take len q) (queue_calls left (drop len q) cs) else Sleeps
  | CallWrite bs :: cs =>
      if (length bs <=? left)%nat
      then served (Z.of_nat (length bs), []) (queue_calls (left - length bs) (q ++ bs) cs) else Overruns
  end.

Definition calls_outcome (e : calls_end) (o : outcome kstate (list (Z * list Z))) : Prop :=
  match e with
  | Served rs => exists s, o = Ret rs s
  | Sleeps => exists s, o = Blocks s
  | Overruns => exists s, o = Faults s
  end.

(** The pipe holds [q] and [left] bytes of its buffer were never written. *)
Record pipe_at (s : kstate) (node p : Z) (v : pipe_t) (b q : list Z) (left : nat) : Prop := {
  pa_node : pipe_node s node p;
  pa_rep : pipe_rep s p v b q;
  pa_len : Z.of_nat (length b) = p_buf_end v;
  pa_left : p_read_ptr v + Z.of_nat (length q) + Z.of_nat left = p_buf_end v
}.

Lemma call_write_ok s node p v b q left bs :
  pipe_at s node p v b q left -> (length bs <= left)%nat ->
  exists s' v' b', run_call node (CallWrite bs) s = Ret (Z.of_nat (length bs), []) s' /\
    pipe_at s' node p v' b' (q ++ bs) (left - length bs).
Proof.
  intros [Hn Hrep Hb Hl] Hle. pose proof (pr_read _ _ _ _ _ Hrep). pose proof (pr_max _ _ _ _ _ Hrep).
  destruct (pipe_write_loop_ok bs p s v b q Hrep) as (s' & v' & b' & H1 & Hrep' & (F1 & F2 & F3 & F4) & R1);
    [lia | intros i Hi; rewrite Z.mod_small; lia |].
  exists s', v', b'. split.
  - unfold run_call. by rewrite (bind_Ret _ _ s (Z.of_nat (length bs)) s')
      by (rewrite (pipe_write_loop_eq s node p), (bind_Ret _ _ _ _ _ H1); done).
  - split; [unfold pipe_node; by rewrite F1 | done | lia |]. rewrite length_app. lia.
Qed.

Lemma call_read_ok s node p v b q left len :
  pipe_at s node p v b q left -> (len <= length q)%nat ->
  exists s' v', run_call node (CallRead len) s = Ret (Z.of_nat len, take len q) s' /\
    pipe_at s' node p v' b (drop len q) left.
Proof.
  intros [Hn Hrep Hb Hl] Hle. pose proof (pr_read _ _ _ _ _ Hrep) as Hr.
  destruct (pipe_read_loop_ok len p s v b q Hrep Hle) as (s' & v' & H1 & Hrep' & (F1 & F2 & F3 & F4) & W1).
  exists s', v'. split.
  - unfold run_call. rewrite (pipe_read_loop_eq s node p), Nat2Z.id, (bind_Ret _ _ _ _ _ H1) by done.
    by rewrite length_take, Nat.min_l.
  - split; [unfold pipe_node; by rewrite F1 | done | lia |]. rewrite length_drop.
    pose proof (pr_read _ _ _ _ _ Hrep') as Hr'.
    pose proof (pr_write _ _ _ _ _ Hrep) as Hw. pose proof (pr_write _ _ _ _ _ Hrep') as Hw'.
    rewrite W1, Hw, F3, length_drop, Z.mod_small in Hw' by lia.
    destruct (Z.lt_ge_cases (p_read_ptr v' + Z.of_nat (length q - len)) (p_buf_end v + 1)).
    + rewrite Z.mod_small in Hw' by lia. lia.
    + rewrite <- (Z.mod_unique _ (p_buf_end v + 1) 1 (p_read_ptr v' + Z.of_nat (length q - len) - (p_buf_end v + 1))) in Hw' by lia.
      lia.
Qed.

Lemma pipe_calls_ok node p cs : forall s v b q left,
  pipe_at s node p v b q left -> calls_outcome (queue_calls left q cs) (run_calls node cs s).
Proof.
  induction cs as [|[len|bs] cs IH]; intros s v b q left Hat; cbn [queue_calls run_calls].
  - by exists s.
  - destruct (Nat.leb_spec len (length q)) as [Hle|Hgt].
    + destruct (call_read_ok s node p v b q left len Hat Hle) as (s' & v' & H1 & Hat').
      rewrite (bind_Ret _ _ _ _ _ H1). specialize (IH _ _ _ _ _ Hat'). unfold bind.
      destruct (queue_calls left (drop len q) cs); destruct IH as [s2 ->]; by eexists.
    + destruct Hat as [Hn Hrep _ _]. destruct (pipe_read_loop_blocks len p s v b q Hrep Hgt) as [s' H].
      exists s'. unfold run_call. unfold bind at 1. rewrite (pipe_read_loop_eq s node p), Nat2Z.id by done.
      unfold bind. by rewrite H.
  - destruct (Nat.leb_spec (length bs) left) as [Hle|Hgt].
    + destruct (call_write_ok s node p v b q left bs Hat Hle) as (s' & v' & b' & H1 & Hat').
      rewrite (bind_Ret _ _ _ _ _ H1). specialize (IH _ _ _ _ _ Hat'). unfold bind.
      destruct (queue_calls (left - length bs) (q ++ bs) cs); destruct IH as [s2 ->]; by eexists.
    + destruct Hat as [Hn Hrep Hb Hl].
      destruct (pipe_write_loop_overruns bs p s v b q Hrep Hb) as [s' H]; [lia | lia |].
      exists s'. unfold run_call. unfold bind at 1. unfold bind at 1.
      rewrite (pipe_write_loop_eq s node p) by done. unfold bind. by rewrite H.
Qed.

(** ** What [pipe] makes *)

Lemma last_file_keeps {X} (proj : kstate -> X) fuel : forall f, keeps proj (last_file fuel f).
Proof. induction fuel; intros f; unfold last_file; fold last_file; frame. Qed.
#[local] Hint Resolve last_file_keeps : frame.

Lemma create_file_descriptor_keeps node fd mode :
  keeps (fun s => (k_nodes s, k_pipes s, k_bufs s)) (create_file_descriptor node fd mode).
Proof. unfold create_file_descriptor. frame. Qed.

Lemma pipe_makes s fds s' : pipe s = Ret (0, fds) s' ->
  exists node p buf n, k_nodes s !! node = None /\ k_nodes s' = <[node := n]> (k_nodes s) /\
    n_read n = pipe_read_fn /\ n_write n = pipe_write_fn /\
    pipe_at s' node p (mkPipe buf CONFIG_PIPE_BUFFER_SIZE 0 0 CONFIG_PIPE_BUFFER_SIZE CONFIG_PIPE_BUFFER_SIZE)
      (repeat 0 (Z.to_nat CONFIG_PIPE_BUFFER_SIZE)) [] (Z.to_nat CONFIG_PIPE_BUFFER_SIZE).
Proof.
  intros H. unfold pipe in H. rewrite run_malloc in H.
  set (node := allocate _ _ _) in H. assert (Hnode := allocate_fresh (k_mallocs s) (live s) sizeof_vfs_node).
  fold node in Hnode. destruct (Z.eqb_spec node 0) as [_|E0]; [by apply bind_Ret_inv in H as (? & ? & _ & [=])|].
  rewrite run_put, run_malloc in H. set (s1 := set_objs _ _) in H.
  set (p := allocate _ _ sizeof_pipe) in H. assert (Hp := allocate_fresh (k_mallocs s1) (live s1) sizeof_pipe).
  fold p in Hp. destruct (Z.eqb_spec p 0) as [_|E1].
  { apply bind_Ret_inv in H as (? & ? & _ & H). by apply bind_Ret_inv in H as (? & ? & _ & [=]). }
  rewrite run_put, run_malloc in H. set (buf := allocate _ _ CONFIG_PIPE_BUFFER_SIZE) in H.
  destruct (Z.eqb_spec buf 0) as [_|E2].
  { do 2 apply bind_Ret_inv in H as (? & ? & _ & H). by apply bind_Ret_inv in H as (? & ? & _ & [=]). }
  rewrite !run_put in H. apply bind_Ret_inv in H as (fd0 & s2 & H1 & H).
  apply bind_Ret_inv in H as (fd1 & s3 & H2 & [= _ <-]).
  apply create_file_descriptor_keeps in H1, H2. rewrite H1 in H2. clear H1. injection H2 as N P B.
  exists node, p, buf. eexists. unfold live in Hnode. split_and!.
  - destruct Hnode as [|[_ Hn]]; [done|]. apply not_elem_of_dom. set_solver.
  - rewrite N. unfold s1. simpl. by rewrite insert_insert_eq.
  - done.
  - done.
  - destruct Hp as [|[Hp _]]; [done|]. split; [| | done | done].
    + split_and!; [done | done |]. eexists. rewrite N. simpl. by rewrite lookup_insert_eq.
    + constructor; simpl; try done; rewrite ?P, ?B; simpl; by rewrite lookup_insert_eq.
Qed.

(** C17: A pipe that [pipe] made is a queue of bytes for as long as its buffer
    lasts.  Of any calls on its two ends, each of which runs as a whole, a write
    appends its bytes and returns their number, and a read of bytes that are
    there returns the oldest ones and removes them; a read of more bytes than
    are there goes to sleep.  But the pointers do not return to the start at the
    end of the buffer, so that the byte after the first CONFIG_PIPE_BUFFER_SIZE
    ones, whether or not those were read, is stored behind it. *)
Theorem pipe_fifo s fds s' :
  pipe s = Ret (0, fds) s' ->
  exists node n, k_nodes s !! node = None /\ k_nodes s' = <[node := n]> (k_nodes s) /\
    n_read n = pipe_read_fn /\ n_write n = pipe_write_fn /\
    forall cs, calls_outcome (queue_calls (Z.to_nat CONFIG_PIPE_BUFFER_SIZE) [] cs) (run_calls node cs s').
Proof.
  intros H. destruct (pipe_makes s fds s' H) as (node & p & buf & n & H1 & H2 & H3 & H4 & Hat).
  exists node, n. split_and!; [done .. |]. intros cs. by eapply pipe_calls_ok.
Qed.

(** The buffer that [pipe] allocates is one byte too short for the test of
    the pointers against its end: once as many bytes as it holds were written
    and read, the next byte is written behind the buffer. *)
Theorem pipe_overrun s node p v b bs c :
  pipe_node s node p -> pipe_rep s p v b [] -> p_read_ptr v = 0 ->
  Z.of_nat (length b) = p_buf_end v -> length bs = length b ->
  exists s1 s2 s3,
    pipe_write node 0 (Z.of_nat (length bs)) bs s = Ret (Z.of_nat (length bs)) s1 /\
    pipe_read node 0 (Z.of_nat (length bs)) s1 = Ret (Z.of_nat (length bs), bs) s2 /\
    pipe_write node 0 1 [c] s2 = Faults s3.
Proof.
  intros Hnode Hrep Hr0 Hb Hbs. pose proof (pr_max _ _ _ _ _ Hrep) as Hm.
  destruct (pipe_write_loop_ok bs p s v b [] Hrep) as (s1 & v1 & b1 & H1 & Hrep1 & (F1 & F2 & F3 & F4) & R1).
  { simpl. lia. }
  { intros i Hi. simpl. rewrite Hr0, Z.mod_small; lia. }
  assert (Hnode1 : pipe_node s1 node p) by (unfold pipe_node; by rewrite F1).
  destruct (pipe_read_loop_ok (length bs) p s1 v1 b1 bs Hrep1 ltac:(lia))
    as (s2 & v2 & H2 & Hrep2 & (G1 & G2 & G3 & G4) & W2).
  rewrite firstn_all in H2. rewrite skipn_all in Hrep2.
  assert (Hnode2 : pipe_node s2 node p) by (unfold pipe_node; by rewrite G1).
  eexists s1, s2, _. split_and!.
  - by rewrite (pipe_write_loop_eq s node p), (bind_Ret _ _ _ _ _ H1).
  - by rewrite (pipe_read_loop_eq s1 node p), Nat2Z.id, (bind_Ret _ _ _ _ _ H2).
  - change 1 with (Z.of_nat (length [c])). rewrite (pipe_write_loop_eq s2 node p [c]) by done. apply run_fault. simpl. apply run_fault.
    unfold pipe_put. destruct Hrep2 as [Hp2 Hb2 _ _ _ _ _ _]. krun. rewrite W2, (pr_write _ _ _ _ _ Hrep1).
    rewrite R1, Hr0, Z.mod_small by (simpl; lia). rewrite lookup_ge_None_2 by (simpl; lia). done.
Qed.
End Ring.

(** ** An example *)

Module PipeExample.
#[local] Existing Instance bump_allocator.
#[local] Existing Instance no_drivers.
#[local] Instance no_control : Control :=
  {| switch := ret tt; call_handler _ _ := ret tt; do_exit _ := ret tt |}.

(** A task with an empty descriptor table, and what [pipe] makes for it. *)
Definition st : kstate :=
  empty_kstate <| k_tasks := {[100 := no_task <| t_descriptors_info := 200 |>]} |>
    <| k_descs := {[200 := mkDesc 0 0 0 0]} |> <| k_current_task := 100 |>.

Definition piped : kstate := match pipe st with Ret _ s => s | _ => st end.

Definition the_pipe : pipe_t := mkPipe 203 1024 0 0 1024 1024.

Lemma piped_pipe : k_pipes piped !! 202 = Some the_pipe.
Proof. vm_compute. reflexivity. Qed.
Lemma piped_buf : k_bufs piped !! 203 = Some (repeat 0 1024).
Proof. vm_compute. reflexivity. Qed.

Definition the_node : vfs_node :=
  (VFS_NODE_INITIALIZER (Z.lor FS_PIPE FS_AUTOFREE))
    <| n_read := pipe_read_fn |> <| n_write := pipe_write_fn |> <| n_data := 202 |> <| n_refs := 2 |>.
Lemma piped_node : k_nodes piped !! 201 = Some the_node.
Proof. vm_compute. reflexivity. Qed.

Lemma node_ok s : k_nodes s !! 201 = Some the_node -> pipe_node s 201 202.
Proof. intros Hn. split_and!; [done | done |]. exists the_node. split_and!; [exact Hn | done | done]. Qed.

Lemma fresh_pipe s b : k_pipes s !! 202 = Some the_pipe -> k_bufs s !! 203 = Some b ->
  pipe_rep s 202 the_pipe b [].
Proof. intros Hp Hb. constructor; [exact Hp | exact Hb | simpl; lia ..| done | done]. Qed.

(** Calls that are served; with one more read, and with more bytes than the
    buffer has left: three and two were written, and 1020 more make 1025. *)
Definition calls : list pipe_call :=
  [CallWrite [65; 66; 67]; CallRead 2; CallWrite [68; 69]; CallRead 3].

Lemma piped_ok : exists fds, pipe st = Ret (0, fds) piped.
Proof. eexists. vm_compute. reflexivity. Qed.

Example pipe_fifo_witness :
  exists node, (exists s, run_calls node calls piped = Ret [(3, []); (2, [65; 66]); (2, []); (3, [67; 68; 69])] s) /\
    (exists s, run_calls node (calls ++ [CallRead 1]) piped = Blocks s) /\
    (exists s, run_calls node (calls ++ [CallWrite (repeat 70 1020)]) piped = Faults s).
Proof.
  destruct piped_ok as [fds Hp].
  destruct (pipe_fifo st fds piped Hp) as (node & n & _ & _ & _ & _ & H). exists node.
  split; [exact (H calls)|]. split; [exact (H (calls ++ [CallRead 1])) | exact (H (calls ++ [CallWrite (repeat 70 1020)]))].
Defined.

Example pipe_overrun_witness :
  exists s1 s2 s3,
    pipe_write 201 0 1024 (repeat 65 1024) piped = Ret 1024 s1 /\
    pipe_read 201 0 1024 s1 = Ret (1024, repeat 65 1024) s2 /\ pipe_write 201 0 1 [66] s2 = Faults s3.
Proof.
  destruct (pipe_overrun piped 201 202 the_pipe (repeat 0 1024) (repeat 65 1024) 66 (node_ok _ piped_node)
    (fresh_pipe _ _ piped_pipe piped_buf) eq_refl eq_refl eq_refl) as (s1 & s2 & s3 & H).
  exists s1, s2, s3. exact H.
Defined.
End PipeExample.
