(* ===== verification/DescClone.v ===== *)
(** * DescClone: the copy of a descriptor table

    [clone_descriptor_table] of io.c, which [fork] uses: the new table has the
    entries of the table of the running task, in new files, with one more
    reference to each of their nodes. *)

From S2P Require Import Prelude Chain KState LinkedList Signals Vfs Io Descriptors Keeps.

(** The nodes of the open files [l]. *)
Definition nodes_of (h : gmap Z file_t) (l : list Z) : list Z := (fun e => e.2) <$> entries h l.

(** One more reference for each element of a list of nodes. *)
Definition with_refs (h : gmap Z vfs_node) (qs : list Z) : gmap Z vfs_node := foldl with_ref h qs.

(** The nodes are there and nobody has their locks. *)
Definition nodes_free (h : gmap Z vfs_node) (qs : list Z) : Prop :=
  forall q, q ∈ qs -> exists n, h !! q = Some n /\ n_lock n = 0.

Lemma with_ref_free h q qs : nodes_free h qs -> nodes_free (with_ref h q) qs.
Proof.
  intros H r Hr. destruct (H r Hr) as (n & Hn & Hl). unfold with_ref.
  destruct (h !! q) as [m|] eqn:Hq; [|by exists n].
  destruct (decide (r = q)) as [->|Hne]; [|exists n; by simplify_map_eq].
  rewrite Hn in Hq. injection Hq as <-. eexists. by simplify_map_eq.
Qed.

Lemma entries_cons h f v l : h !! f = Some v -> entries h (f :: l) = entry v :: entries h l.
Proof. unfold entries. simpl. by intros ->. Qed.

Lemma nodes_of_cons h f v l : h !! f = Some v -> nodes_of h (f :: l) = f_node v :: nodes_of h l.
Proof. intros H. unfold nodes_of. by rewrite (entries_cons _ _ _ _ H). Qed.

Lemma nodes_of_frame h h' l : entries h' l = entries h l -> nodes_of h' l = nodes_of h l.
Proof. unfold nodes_of. by intros ->. Qed.

Section Clone.
Context {al : Allocator} (Hample : ample).
Context (table : Z).

(** The half-made copy: the files [c] behind the table, which are not among
    those of the original. *)
Record half_made (s : kstate) (dt : desc_info) (c : list Z) : Prop := {
  hm_table : k_descs s !! table = Some dt;
  hm_chain : fchain (k_files s) (d_files dt) c }.

(** Old files, the ones in [c] aside, are as they were. *)
Definition files_kept (s s' : kstate) (c : list Z) : Prop :=
  forall f v, f ∉ c -> k_files s !! f = Some v -> k_files s' !! f = Some v.

(** One file: the new one is linked behind the last of the copy. *)
Lemma link_copy s dt c f v :
  half_made s dt c -> k_files s !! f = None -> f <> 0 -> f_next v = 0 ->
  let h := <[f := v]> (k_files s) in
  exists s' dt', (if default 0 (last c) =? 0 then upd_obj table (fun d => d <| d_files := f |>)
                  else upd_obj (default 0 (last c)) (fun v => v <| f_next := f |>)) (s <| k_files := h |>) = Ret tt s' /\
    half_made s' dt' (c ++ [f]) /\ dt' = dt <| d_files := d_files dt' |> /\
    entries (k_files s') (c ++ [f]) = entries (k_files s) c ++ [entry v] /\
    files_kept s s' c /\ k_descs s' = <[table := dt']> (k_descs s) /\ k_nodes s' = k_nodes s /\
    k_files s' !! f = Some v /\ (forall g, g <> f -> k_files s !! g = None -> k_files s' !! g = None).
Proof.
  intros [Ht Hc] Hf Hf0 Hv h.
  assert (Hfc : f ∉ c) by (intros Hin; destruct (chain_live _ _ _ _ Hc Hin); congruence).
  assert (He : entries h c = entries (k_files s) c).
  { apply entries_frame; [|by intros g Hg; eapply chain_live].
    intros g x Hg Hx. exists x. unfold h. rewrite lookup_insert_ne by set_solver. done. }
  destruct (decide (c = [])) as [->|Hl].
  - simpl. rewrite (upd_obj_ok _ _ dt) by done. eexists _, (dt <| d_files := f |>). split; [done|]. unfold files_kept. kred.
    split_and!; try done.
    + split; kred; [by simplify_map_eq|]. simpl. split_and!; [done | done |]. exists v. unfold h. by simplify_map_eq.
    + rewrite (entries_one _ f v) by (unfold h; by simplify_map_eq). done.
    + intros g x _ Hg. unfold h. rewrite lookup_insert_ne by congruence. done.
    + unfold h. by simplify_map_eq.
    + intros g Hg Hn. unfold h. by rewrite lookup_insert_ne.
  - destruct (exists_last Hl) as (c1 & q & ->). rewrite last_snoc. change (default 0 (Some q)) with q.
    destruct (chain_dom _ _ _ q Hc ltac:(set_solver)) as [Hq0 [w Hw]].
    assert (Hqf : q <> f) by congruence.
    rewrite (proj2 (Z.eqb_neq _ _) Hq0), (upd_obj_ok _ _ w) by (simpl; kred; unfold h; by simplify_map_eq).
    eexists _, dt. split; [done|]. unfold files_kept. kred.
    assert (Hchain : fchain (<[q := w <| f_next := f |>]> h) (d_files dt) ((c1 ++ [q]) ++ [f])).
    { apply (chain_append (next := f_next) h (d_files dt) c1 q (w <| f_next := f |>) f v);
        [| done | unfold h; by simplify_map_eq | done | done | done].
      eapply chain_frame; [exact Hc|]. intros g x Hg Hx. exists x. unfold h.
      rewrite lookup_insert_ne by congruence. done. }
    split_and!; try done.
    + by destruct dt.
    + rewrite entries_app, (entries_one _ f v) by (unfold h; by simplify_map_eq). f_equal. rewrite <- He.
      apply entries_frame.
      * intros g x Hg Hx. destruct (decide (g = q)) as [->|Hne].
        -- assert (x = w) as -> by (unfold h in Hx; simplify_map_eq; done).
           eexists. split; [by simplify_map_eq | done].
        -- exists x. by rewrite lookup_insert_ne by done.
      * intros g Hg. destruct (chain_live _ _ _ _ Hc Hg) as [x Hx]. exists x. unfold h.
        by rewrite lookup_insert_ne by congruence.
    + intros g x Hg Hx. unfold h. rewrite !lookup_insert_ne by set_solver. done.
    + by rewrite insert_id.
    + unfold h. by simplify_map_eq.
    + intros g Hg Hn. unfold h. rewrite !lookup_insert_ne by congruence. done.
Qed.

Lemma clone_files_ok l : forall fuel s tmp dt c,
  fchain (k_files s) tmp l -> (length l < fuel)%nat -> half_made s dt c -> (forall f, f ∈ l -> f ∉ c) ->
  nodes_free (k_nodes s) (nodes_of (k_files s) l) ->
  exists s' dt' c', clone_loop fuel table tmp (default 0 (last c)) s = Ret true s' /\
    half_made s' dt' (c ++ c') /\ dt' = dt <| d_files := d_files dt' |> /\
    entries (k_files s') (c ++ c') = entries (k_files s) c ++ entries (k_files s) l /\
    files_kept s s' c /\ (forall f, f ∈ c' -> k_files s !! f = None) /\
    k_descs s' = <[table := dt']> (k_descs s) /\ k_nodes s' = with_refs (k_nodes s) (nodes_of (k_files s) l).
Proof.
  induction l as [|g l IH]; intros [|fuel] s tmp dt c Hl Hfuel Hhm Hd Hn; simpl in Hfuel; try lia; cbn [clone_loop].
  - simpl in Hl. rewrite Hl. simpl. exists s, dt, []. rewrite !app_nil_r. split_and!; try done.
    + by destruct dt.
    + by intros f v.
    + by intros f Hf%elem_of_nil.
    + symmetry. apply insert_id, Hhm.
  - destruct Hl as (-> & Hg0 & v & Hv & Hl). rewrite (proj2 (Z.eqb_neq _ _) Hg0). krun.
    set (f := allocate (k_mallocs s) (live s) sizeof_file). pose proof (Hample (k_mallocs s) (live s) sizeof_file) as Hf0.
    fold f in Hf0. rewrite (proj2 (Z.eqb_neq _ _) Hf0). krun.
    pose proof (allocate_file s sizeof_file Hf0) as Hf. fold f in Hf.
    rewrite (nodes_of_cons _ _ _ _ Hv) in Hn. destruct (Hn (f_node v) ltac:(set_solver)) as (n & Hnn & Hnl).
    rewrite (run_take_ref _ n) by (kred; done). krun.
    set (sA := s <| k_mallocs := S (k_mallocs s) |> <| k_nodes := with_ref (k_nodes s) (f_node v) |>).
    set (v' := v <| f_next := 0 |>).
    match goal with |- context [bind _ _ ?s1] => replace s1 with (sA <| k_files := <[f := v']> (k_files sA) |>) by
      (unfold sA, v'; kstate; by rewrite insert_insert_eq) end.
    destruct (link_copy sA dt c f v') as (s1 & dt1 & E1 & Hm1 & Hdt1 & He1 & Hk1 & Hds1 & Hns1 & Hf1 & Hnone1);
      [destruct Hhm; by split | done | done | done |].
    rewrite (bind_Ret _ _ _ _ _ E1).
    assert (Hgf : forall x, x ∈ g :: l -> x <> f /\ x ∉ c).
    { intros x Hx. split; [|by apply Hd]. intros ->.
      apply elem_of_cons in Hx as [Hx|Hx]; [congruence|]. destruct (chain_live _ _ _ f Hl Hx). congruence. }
    assert (Hl1 : forall x w, x ∈ g :: l -> k_files s !! x = Some w -> k_files s1 !! x = Some w).
    { intros x w Hx Hw. apply Hk1; [by apply Hgf | done]. }
    assert (Hel : entries (k_files s1) l = entries (k_files s) l).
    { apply entries_frame; [|by intros x Hx; eapply chain_live].
      intros x w Hx Hw. exists w. split; [|done]. apply Hl1; [set_solver | done]. }
    destruct (IH fuel s1 (f_next v) dt1 (c ++ [f])) as (s' & dt' & c' & E & Hm & Hdt & He & Hk & Hc' & Hds & Hns).
    { eapply chain_frame; [exact Hl|]. intros x w Hx Hw. exists w. split; [|done]. apply Hl1; [set_solver | done]. }
    { lia. }
    { done. }
    { intros x Hx. destruct (Hgf x ltac:(set_solver)). set_solver. }
    { rewrite Hns1, (nodes_of_frame _ _ _ Hel). apply with_ref_free. intros q Hq. apply Hn. set_solver. }
    exists s', dt', (f :: c'). rewrite last_snoc in E. change (default 0 (Some f)) with f in E.
    rewrite <- app_assoc in Hm, He. split; [exact E|]. split; [exact Hm|]. split; [|split; [|split; [|split; [|split]]]].
    + rewrite Hdt, Hdt1. by destruct dt.
    + change (c ++ f :: c') with (c ++ [f] ++ c'). rewrite He, He1, Hel, (entries_cons _ _ _ _ Hv), <- app_assoc. done.
    + intros x w Hx Hw. apply Hk; [|by apply Hk1]. intros [?|?%list_elem_of_singleton]%elem_of_app; [done|congruence].
    + intros x [->|Hx]%elem_of_cons; [done|]. destruct (k_files s !! x) as [w|] eqn:Ew; [|done].
      destruct (decide (x ∈ c)) as [Hxc|Hxc].
      * destruct (chain_live _ _ _ x (hm_chain _ _ _ Hm1) ltac:(set_solver)) as [w' Hw'].
        rewrite (Hc' x Hx) in Hw'. done.
      * pose proof (Hk1 x w Hxc Ew) as H1. rewrite (Hc' x Hx) in H1. done.
    + rewrite Hds, Hds1. by rewrite insert_insert_eq.
    + rewrite Hns, Hns1, (nodes_of_frame _ _ _ Hel), (nodes_of_cons _ _ _ _ Hv). done.
Qed.
End Clone.

Lemma allocate_desc {al : Allocator} s n : allocate (k_mallocs s) (live s) n <> 0 ->
  k_descs s !! allocate (k_mallocs s) (live s) n = None.
Proof.
  intros Ha. destruct (allocate_fresh (k_mallocs s) (live s) n) as [?|[_ Hf]]; [done|].
  apply not_elem_of_dom. unfold live in Hf. set_solver.
Qed.

#[local] Arguments clone_loop : simpl never.
#[local] Arguments free_files : simpl never.

(** A part of the state that has nothing to do with files. *)
Definition no_files {X} (proj : kstate -> X) : Prop :=
  (forall h s, proj (s <| k_nodes := h |>) = proj s) /\ (forall h s, proj (s <| k_files := h |>) = proj s) /\
  (forall h s, proj (s <| k_descs := h |>) = proj s) /\ (forall s n, proj (s <| k_mallocs := n |>) = proj s).

(** What a copy of the table of the running task is: the table [tbl] is new,
    its files are new and hold the same entries in the same order, each node
    has one more reference per entry, and nothing else changed. *)
Record table_copied (s s' : kstate) (table : Z) (d : desc_info) (l : list Z) (tbl : Z) (dt : desc_info) (l' : list Z) : Prop := {
  tc_new : k_descs s !! tbl = None;
  tc_descs : k_descs s' = <[tbl := dt]> (k_descs s);
  tc_next : d_fd_next dt = d_fd_next d /\ d_lock dt = 0;
  tc_chain : fchain (k_files s') (d_files dt) l';
  tc_entries : entries (k_files s') l' = entries (k_files s) l;
  tc_fresh : forall f, f ∈ l' -> k_files s !! f = None;
  tc_kept : forall f v, k_files s !! f = Some v -> k_files s' !! f = Some v;
  tc_nodes : k_nodes s' = with_refs (k_nodes s) (nodes_of (k_files s) l);
  tc_rest : forall X (proj : kstate -> X), no_files proj -> proj s' = proj s }.

Lemma clone_descriptor_table_ok {al : Allocator} s t table d l : ample ->
  open_files s t table d l -> nodes_free (k_nodes s) (nodes_of (k_files s) l) ->
  exists tbl s' dt l', clone_descriptor_table s = Ret tbl s' /\ tbl <> 0 /\ table_copied s s' table d l tbl dt l'.
Proof.
  intros Hample [Ht Hi Ht0 Hd Hlk Hc] Hn. unfold clone_descriptor_table. krun.
  set (tbl := allocate (k_mallocs s) (live s) sizeof_desc).
  pose proof (Hample (k_mallocs s) (live s) sizeof_desc) as Htb0. fold tbl in Htb0.
  pose proof (allocate_desc s sizeof_desc Htb0) as Hfresh. fold tbl in Hfresh.
  assert (table <> tbl) as Hne by congruence.
  rewrite (proj2 (Z.eqb_neq _ _) Htb0). krun. rewrite Hi. krun.
  match goal with |- context [clone_loop ?fu _ _ _] => set (fuel := fu) end.
  match goal with |- context [bind (clone_loop _ _ _ _) _ ?s1] => set (sL := s1) end.
  assert (HsL : k_files sL = k_files s /\ k_nodes sL = k_nodes s /\
    k_descs sL = <[tbl := mkDesc (d_fd_next d) 0 0 0]> (<[table := d <| d_lock := 1 |>]> (k_descs s))).
  { unfold sL. kred. split_and!; try done. kmaps. }
  destruct HsL as (HfL & HnL & HdL).
  destruct (clone_files_ok Hample tbl l fuel sL (d_files d) (mkDesc (d_fd_next d) 0 0 0) [])
    as (s1 & dt & l' & E & Hm & Hdt & He & Hk & Hfr & Hds & Hns).
  { by rewrite HfL. }
  { unfold fuel, file_fuel. pose proof (chain_size _ _ _ Hc). kred. lia. }
  { split; [rewrite HdL; by simplify_map_eq | done]. }
  { intros f _ Hf. by apply elem_of_nil in Hf. }
  { by rewrite HnL, HfL. }
  simpl in E. rewrite (bind_Ret _ _ _ _ _ E).
  assert (Hs1 : k_descs s1 !! table = Some (d <| d_lock := 1 |>)) by (rewrite Hds, HdL; by simplify_map_eq).
  rewrite (run_unlock_desc _ (d <| d_lock := 1 |>)) by (done || by kred). 
  eexists tbl, _, dt, l'. split; [reflexivity|]. split; [done|]. rewrite HfL, HnL in *. destruct Hm as [_ Hch].
  split; kred; try done.
  - rewrite Hds, HdL. kmaps. f_equal. destruct d. simpl in *. by subst.
  - rewrite Hdt. by kred.
  - intros f v Hf. apply Hk; [by apply not_elem_of_nil|]. by rewrite HfL.
  - intros X proj (H1 & H2 & H3 & H4). rewrite H3. etrans; [by eapply (clone_loop_keeps proj H1 H2 H3 H4); exact E|].
    unfold sL. by rewrite ?H1, ?H2, ?H3, ?H4.
Qed.
