(* ===== verification/Fork.v ===== *)
(** * Fork: new tasks (fork.c)

    [fork], [vfork] and [clone].  They join the parts of the kernel: the copy
    of the address space (Mmu.v) and of its page map (Memmap.v), a kernel stack
    from [kalloc], the descriptor table (Io.v), the entry under /proc (Vfs.v),
    the lists of tasks (LinkedList.v) and the scheduler (Tasks.v).

    The code after the saved instruction pointer runs twice: in the parent,
    which puts the new task into the task list and calls the scheduler, and in
    the new task, when it is scheduled for the first time. *)

From S2P Require Import Prelude Memmap Mmu CString Chain KState LinkedList Signals Vfs Io Env Tasks Process Initrd.

(** ** State *)

(** The fields of [machine_state] that name the address space. *)
Record space := mkSpace { sp_directory : Z; sp_physical : Z; sp_memmap : Z }.

(** The objects of the kernel, the memory manager, and what only fork.c
    touches: the address space of each task, the fields that mmu.c uses of the
    tasks that do not run (those of the running task are in [w_m]), the array
    of each page map, and the static variables.  [w_procfs] is the node of /proc and [w_buff] the memory at
    [buff] of string.c. *)
Record world := mkWorld {
  w_k : kstate;
  w_m : mmu;
  w_spaces : gmap Z space;
  w_memory : gmap Z mtask;
  w_pagemaps : gmap Z Z;
  w_next_pid : Z;
  w_next_tid : Z;
  w_pid_lock : Z;
  w_procfs : Z;
  w_buff : list Z
}.
#[export] Instance eta_world : Eta world := fun w =>
  mkWorld (w_k w) (w_m w) (w_spaces w) (w_memory w) (w_pagemaps w) (w_next_pid w) (w_next_tid w) (w_pid_lock w)
    (w_procfs w) (w_buff w).

Definition onK {A} (m : M kstate A) : M world A := zoom w_k (fun k w => w <| w_k := k |>) m.
Definition onM {A} (m : M mmu A) : M world A := zoom w_m (fun k w => w <| w_m := k |>) m.
Definition onB {A} (m : M (list Z) A) : M world A := zoom w_buff (fun k w => w <| w_buff := k |>) m.

(** What memory from [malloc] and [kalloc] holds before it is written. *)
Class Uninit := {
  task_at : Z -> task;
  node_at : Z -> vfs_node;
  words_at : Z -> nat -> list Z;
  task_at_actions : forall a, length (t_sig_action (task_at a)) = 32%nat;
  words_at_length : forall a n, length (words_at a n) = n
}.

Definition SCHED_KERNEL_STACK_SIZE := 4096 * 0x10.
Definition CONFIG_INITIAL_THREAD_STACK_SIZE := 1024.
Definition sizeof_task := 8192.
Definition sizeof_memmap := 20.
Definition sizeof_buffer := 16.
Definition sizeof_mmap_info := 32.

(** The operations of the nodes under /proc. *)
Definition procfs_open := 0x101.
Definition procfs_stat := 0x102.
Definition procfs_readdir := 0x103.

(** What a call that may create a task ends with: an error, the switch to
    another task after [new_task] was created, or a plain return. *)
Inductive forked := Failed (e : Z) | Switched (new_task : Z) | Returned (v : Z).

Section Fork.
Context {al : Allocator} {dr : Drivers} {un : Uninit} (malloc_ok : nat -> bool) (fuel : nat).

(** ** Numbers *)

Definition pid_locked {A} (m : M world A) : M world A :=
  w <- get;;
  l <- wait_word (w_pid_lock w);;
  modify (fun w => w <| w_pid_lock := l |>);;;
  a <- m;;
  w <- get;;
  l <- release_word (w_pid_lock w);;
  modify (fun w => w <| w_pid_lock := l |>);;;
  ret a.
Definition take_pid : M world Z :=
  w <- get;; modify (fun w => w <| w_next_pid := s32 (w_next_pid w + 1) |>);;; ret (w_next_pid w).
Definition take_tid : M world Z :=
  w <- get;; modify (fun w => w <| w_next_tid := s32 (w_next_tid w + 1) |>);;; ret (w_next_tid w).

(** ** Memory *)

(** [malloc] of memory that the model keeps elsewhere; the address is in use. *)
Definition malloc_raw (size : Z) : M world Z :=
  p <- onK (malloc size);; if p =? 0 then ret 0 else onK (put (T := list Z) p []);;; ret p.

Definition kalloc_kernel (sz flags : Z) : M world Z :=
  '(a, _) <- onM (kalloc malloc_ok fuel sz 0 flags 0);; ret a.

(** [memmap_clone(memmap, src)] *)
Definition clone_memmap (memmap src : Z) : M world bool :=
  w <- get;;
  sm <- deref (memmaps (w_m w) !! src);;
  let n := page_index (length_ sm) in
  pagemap <- kalloc_kernel (n * 4) KALLOC_OPTN_KERNEL;;
  w <- get;;
  sm <- deref (memmaps (w_m w) !! src);;
  onM (modify (fun s => s <| memmaps := <[memmap := mkMemmap [] 0 0]> (memmaps s) |>));;;
  modify (fun w => w <| w_pagemaps := <[memmap := pagemap]> (w_pagemaps w) |>);;;
  onM (on_map memmap (memmap_clone (if pagemap =? 0 then None else Some (words_at pagemap (Z.to_nat n))) sm)).

(** [memmap_destroy(memmap)] and [free(memmap)] *)
Definition destroy_memmap (memmap : Z) : M world unit :=
  w <- get;;
  pagemap <- deref (w_pagemaps w !! memmap);;
  onM (Mmu.kfree pagemap);;;
  modify (fun w => w <| w_pagemaps := <[memmap := 0]> (w_pagemaps w) |>);;;
  onM (on_map memmap memmap_destroy).
Definition free_memmap (memmap : Z) : M world unit :=
  onK (free_obj (T := list Z) memmap);;;
  modify (fun w => w <| w_m := (w_m w) <| memmaps := delete memmap (memmaps (w_m w)) |> |>
                     <| w_pagemaps := delete memmap (w_pagemaps w) |>).
Definition free_task (t : Z) : M world unit := onK (free_obj (T := task) t).

(** ** The entry under /proc *)

Definition procfs_fields (name : string) (procfs : Z) (n : vfs_node) : vfs_node :=
  mkNode name (n_uid n) (n_gid n) (n_mask n) FS_DIRECTORY (n_inode n) (n_major n) (n_minor n) (n_length n)
    (n_impl n) (n_refs n) (n_data n) (n_lock n) (n_read n) (n_write n) procfs_open (n_close n) procfs_readdir
    (n_finddir n) procfs_stat (n_ioctl n) (n_chown n) procfs (n_ptr n) 0.

Definition add_procfs_node (node tid : Z) : M world unit :=
  onB (itoa tid);;;
  w <- get;;
  onK (upd_obj node (procfs_fields (string_at (w_buff w)) (w_procfs w)));;;
  onK (vfs_mknod (w_procfs w) node);;;
  ret tt.

(** ** The task structure *)

(** The assignments of [fork]; [c] is the current task at [cur]. *)
Definition fork_fields (c : task) (cur self pid tid desc node : Z) (t : task) : task :=
  mkTask tid pid (t_uid c) (t_gid c) (t_euid c) (t_egid c) pid TASK_STATE_RUNNING 0 0 (t_sigmask c)
    (t_sig_pending t) (t_sig_delivered t) (t_sig_info t) (t_sig_action t) (t_sig_altstack t)
    node (t_cwd c) (t_root t) 0 0 desc cur self LINKED_LIST_INIT LINKED_LIST_INIT 0 (t_kernel_stack t).

(** Those of [clone]: no effective identities. *)
Definition clone_fields (c : task) (pid tid node : Z) (t : task) : task :=
  mkTask tid pid (t_uid c) (t_gid c) (t_euid t) (t_egid t) tid TASK_STATE_RUNNING 0 (t_envp c) (t_sigmask c)
    (t_sig_pending t) (t_sig_delivered t) (t_sig_info t) (t_sig_action t) (t_sig_altstack t)
    node (t_cwd c) (t_root t) 0 0 (t_descriptors_info c) (t_main_thread c) (t_main_thread c)
    LINKED_LIST_INIT LINKED_LIST_INIT (t_argv c) (t_kernel_stack t).

(** The loop of [kfork] over the signals. *)
Definition inherit_handlers (c t : task) : task :=
  t <| t_sig_action := imap (fun i a => match t_sig_action c !! i with
                                        | Some b => a <| sa_handler := sa_handler b |>
                                        | None => a
                                        end) (t_sig_action t) |>.

(** The loop of [fork] over the buffers of the current task: the copies, and
    the copies of their mapped files. *)
Fixpoint copy_buffers (mmaps : list mmap_info_t) (l : list buffer_t) : M world (list buffer_t * list mmap_info_t) :=
  match l with
  | [] => ret ([], [])
  | b :: l =>
      buf <- malloc_raw sizeof_buffer;;
      assert (negb (buf =? 0)) "buf != NULL";;;
      if negb (b_mmap b =? 0) then
        new_mmap <- malloc_raw sizeof_mmap_info;;
        assert (negb (new_mmap =? 0)) "new_mmap != NULL";;;
        m <- deref (List.find (fun m => mi_self m =? b_mmap b) mmaps);;
        '(bs, ms) <- copy_buffers mmaps l;;
        ret (mkBuffer (b_address b) (b_pages b) new_mmap :: bs, (m <| mi_self := new_mmap |>) :: ms)
      else
        '(bs, ms) <- copy_buffers mmaps l;; ret (mkBuffer (b_address b) (b_pages b) 0 :: bs, ms)
  end.

(** ** kfork *)

(** [arch_scheduler_load_task_state]: the memory manager works on the task
    that runs and its space; [old] ran before. *)
Definition load_space (old : Z) (o : option (Z * Z)) : M world unit :=
  match o with
  | None => ret tt
  | Some (t, _) =>
      w <- get;;
      sp <- deref (w_spaces w !! t);;
      let memory := match current_task (w_m w) with Some m => <[old := m]> (w_memory w) | None => w_memory w end in
      modify (fun w => w <| w_m := (w_m w) <| current_memmap := sp_memmap sp |>
                                           <| current_directory := sp_directory sp |>
                                           <| current_task := memory !! t |> |>
                         <| w_memory := memory |>)
  end.

(** The code from the saved instruction pointer on. *)
Definition kfork_tail (new_task : Z) : M world forked :=
  w <- get;;
  if negb (k_current_task (w_k w) =? new_task) then
    onK lock_schedule;;;
    onK (LINKED_LIST_APPEND_NEW LTasks new_task);;;
    o <- onK (schedule_prelocked false);;
    load_space (k_current_task (w_k w)) o;;;
    ret (Switched new_task)
  else onK unlock_schedule;;; ret (Returned 0).

(** The parent from where it is switched to again, after any time and in the
    state that it finds then: it reads the error number of the new task. *)
Definition kfork_resumed (new_task : Z) : M world Z :=
  onK (schedule_prelocked true);;; t <- onK (load new_task);; ret (t_errno t).

Definition kfork (new_task : Z) (sp : space) (kernel_stack : Z) : M world forked :=
  onK (c <- current;; upd_obj new_task (fun t => inherit_handlers c (clear_task_signals t)));;;
  modify (fun w => w <| w_spaces := <[new_task := sp]> (w_spaces w) |>);;;
  onK (upd_obj new_task (fun t => t <| t_kernel_stack := kernel_stack |>));;;
  kfork_tail new_task.

(** ** fork *)

(** [fork] from the initialisation of the task structure on. *)
Definition fork_finish (new_task directory phys memmap kernel_stack node descriptors pid tid : Z) : M world forked :=
  w <- get;;
  let cur := k_current_task (w_k w) in
  onK (c <- current;; upd_obj new_task (fork_fields c cur new_task pid tid descriptors node));;;
  onK (LINKED_LIST_APPEND_NEW (LThreads new_task) new_task);;;
  w <- get;;
  t <- deref (current_task (w_m w));;
  '(bs, ms) <- copy_buffers (mt_mmaps t) (mt_buffers t);;
  modify (fun w => w <| w_memory := <[new_task := mkMtask pid pid bs ms 0 memmap]> (w_memory w) |>);;;
  onK (lock_task cur);;;
  i <- onK (LINKED_LIST_APPEND_NEW (LChildren cur) new_task);;
  (if i =? 0 then panic "Out of memory!" else ret tt);;;
  onK (unlock_task cur);;;
  kfork new_task (mkSpace directory phys memmap) kernel_stack.

Definition fork : M world forked :=
  '(pid, tid) <- pid_locked (p <- take_pid;; t <- take_tid;; ret (p, t));;
  w <- get;;
  '(directory, phys) <- onM (mmu_clone_directory malloc_ok fuel (current_directory (w_m w)) CLONE_COW);;
  if directory =? 0 then ret (Failed ENOMEM) else
  new_task <- onK (malloc sizeof_task);;
  if new_task =? 0 then onM (mmu_destroy_directory directory);;; ret (Failed ENOMEM) else
  onK (put new_task (task_at new_task));;;
  memmap <- malloc_raw sizeof_memmap;;
  if memmap =? 0 then onM (mmu_destroy_directory directory);;; free_task new_task;;; ret (Failed ENOMEM) else
  w <- get;;
  parent <- deref (w_spaces w !! k_current_task (w_k w));;
  ok <- clone_memmap memmap (sp_memmap parent);;
  if negb ok then
    onM (mmu_destroy_directory directory);;; free_memmap memmap;;; free_task new_task;;; ret (Failed ENOMEM)
  else
  kernel_stack <- kalloc_kernel SCHED_KERNEL_STACK_SIZE (Z.lor KALLOC_OPTN_ALIGN KALLOC_OPTN_KERNEL);;
  if kernel_stack =? 0 then
    destroy_memmap memmap;;; free_memmap memmap;;; free_task new_task;;; onM (mmu_destroy_directory directory);;;
    ret (Failed ENOMEM)
  else
  node <- onK (malloc sizeof_vfs_node);;
  if node =? 0 then
    onM (mmu_destroy_directory directory);;; destroy_memmap memmap;;; onM (Mmu.kfree kernel_stack);;;
    free_memmap memmap;;; free_task new_task;;; ret (Failed ENOMEM)
  else
  onK (put node (node_at node));;;
  add_procfs_node node tid;;;
  descriptors <- onK clone_descriptor_table;;
  (if descriptors =? 0 then
     onK (free_obj (T := vfs_node) node);;; onM (mmu_destroy_directory directory);;; destroy_memmap memmap;;;
     onM (Mmu.kfree kernel_stack);;; free_memmap memmap;;; free_task new_task
   else ret tt);;;
  fork_finish new_task directory (default 0 phys) memmap kernel_stack node descriptors pid tid.

Definition vfork : M world forked := fork.

(** ** clone *)

(** [clone], without the copy of the user stack and the change of the user
    stack pointer around [kfork]. *)
Definition clone : M world forked :=
  c <- onK current;;
  let pid := t_pid c in
  tid <- pid_locked take_tid;;
  new_task <- onK (malloc sizeof_task);;
  if new_task =? 0 then ret (Failed ENOMEM) else
  onK (put new_task (task_at new_task));;;
  kernel_stack <- kalloc_kernel SCHED_KERNEL_STACK_SIZE (Z.lor KALLOC_OPTN_ALIGN KALLOC_OPTN_KERNEL);;
  if kernel_stack =? 0 then free_task new_task;;; ret (Failed ENOMEM) else
  node <- onK (malloc sizeof_vfs_node);;
  if node =? 0 then onM (Mmu.kfree kernel_stack);;; free_task new_task;;; ret (Failed ENOMEM) else
  onK (put node (node_at node));;;
  add_procfs_node node tid;;;
  w <- get;;
  mt <- deref (current_task (w_m w));;
  onK (c <- current;; upd_obj new_task (clone_fields c pid tid node));;;
  modify (fun w => w <| w_memory :=
    <[new_task := mkMtask pid tid (mt_buffers mt) (mt_mmaps mt) 0 (mt_memmap mt)]> (w_memory w) |>);;;
  onK (c <- current;;
       lock_task (t_main_thread c);;;
       i <- LINKED_LIST_APPEND_NEW (LThreads (t_main_thread c)) new_task;;
       (if i =? 0 then panic "Out of memory!" else ret tt);;;
       unlock_task (t_main_thread c));;;
  w <- get;;
  parent <- deref (w_spaces w !! k_current_task (w_k w));;
  kfork new_task (mkSpace (current_directory (w_m w)) (sp_physical parent) (sp_memmap parent)) kernel_stack.

(** [pthread_create] up to the switch: the new thread and its stack. *)
Definition pthread_create : M world forked :=
  '(stack, _) <- onM (kalloc malloc_ok fuel (CONFIG_INITIAL_THREAD_STACK_SIZE * 4) 0 KALLOC_OPTN_ALIGN 0);;
  if stack =? 0 then ret (Failed ENOMEM) else clone.
End Fork.
