(* ===== verification/Forked.v ===== *)
(** * Forked: the steps of [fork]

    The numbers and the memory of the child, its entry under /proc, the copy
    of the buffers and the lists it is put on, each as a lemma about the
    definitions of Fork.v; Forking.v puts them together. *)

From S2P Require Import Prelude Memmap Mmu CString Chain KState LinkedList Signals Vfs Io Env Tasks Process Initrd.
From S2P Require Import Descriptors Keeps DescClone Fork.

(** ** Running code of the parts *)

Section Run.
Context {B : Type}.
Lemma run_onK {A} (m : M kstate A) (k : A -> M world B) w a s :
  m (w_k w) = Ret a s -> bind (onK m) k w = k a (w <| w_k := s |>).
Proof. intros H. unfold onK. by erewrite bind_Ret by (apply zoom_Ret; exact H). Qed.
Lemma run_onM {A} (m : M mmu A) (k : A -> M world B) w a s :
  m (w_m w) = Ret a s -> bind (onM m) k w = k a (w <| w_m := s |>).
Proof. intros H. unfold onM. by erewrite bind_Ret by (apply zoom_Ret; exact H). Qed.
Lemma run_onB {A} (m : M (list Z) A) (k : A -> M world B) w a s :
  m (w_buff w) = Ret a s -> bind (onB m) k w = k a (w <| w_buff := s |>).
Proof. intros H. unfold onB. by erewrite bind_Ret by (apply zoom_Ret; exact H). Qed.
End Run.

(** ** Appending to a list, an empty one included *)

Lemma set_list_items r l s h : set_list r l (s <| k_items := h |>) = (set_list r l s) <| k_items := h |>.
Proof. by destruct r. Qed.

(** The record of a list after [p] was appended. *)
Definition grown (l : llist) (p : Z) : llist :=
  let l := l <| l_scratch := p |> <| l_last := p |> in
  let l := if (l_first l =? 0) || (l_current l =? 0) then l <| l_first := p |> <| l_current := p |> else l in
  l <| l_count := u32 (l_count l + 1) |>.

(** The item that [last] points to gets a successor; for an empty list it is
    the memory at address 0. *)
Lemma append_run {al : Allocator} s r l t it :
  list_at s r = Some l -> let n := allocate (k_mallocs s) (live s) sizeof_item in n <> 0 ->
  k_items s !! l_last l = Some it ->
  LINKED_LIST_APPEND_NEW r t s =
  Ret n (set_list r (grown l n) (s <| k_mallocs := S (k_mallocs s) |>
           <| k_items := <[l_last l := it <| i_next := n |>]> (<[n := mkItem t 0]> (k_items s)) |>)) /\
  k_items s !! n = None.
Proof.
  intros Hl n Hn0 Hit.
  assert (Hfresh : k_items s !! n = None).
  { destruct (allocate_fresh (k_mallocs s) (live s) sizeof_item) as [?|[_ Hf]]; [done|].
    apply not_elem_of_dom. unfold live in Hf. fold n in Hf. set_solver. }
  split; [|done]. set (s1 := s <| k_mallocs := S (k_mallocs s) |>).
  assert (Hl1 : list_at s1 r = Some l) by (by destruct r).
  pose (l1 := l <| l_scratch := n |>). pose (s2 := set_list r l1 s1).
  assert (Hl2 : list_at s2 r = Some l1) by (by eapply list_at_set).
  assert (Hi2 : k_items s2 = k_items s) by (etrans; [apply items_set | done]).
  assert (Hne : l_last l <> n) by congruence.
  unfold LINKED_LIST_APPEND_NEW. rewrite run_malloc. fold n s1.
  rewrite (bind_Ret _ _ _ _ _ (load_list_ok r l s1 Hl1)).
  rewrite (bind_Ret _ _ _ _ _ (store_list_ok r l l1 s1 Hl1)). fold s2.
  rewrite (proj2 (Z.eqb_neq _ _) Hn0), run_put. simpl. rewrite Hi2.
  erewrite run_upd; [|simpl; kred; rewrite lookup_insert_ne by done; exact Hit].
  erewrite (bind_Ret (load_list r)); [|apply load_list_ok; simpl; rewrite !list_at_items; exact Hl2].
  erewrite (bind_Ret (store_list r _)); [|eapply store_list_ok; simpl; rewrite !list_at_items; exact Hl2].
  unfold ret. f_equal. kred. unfold s2. rewrite !set_list_items, set_list_twice. done.
Qed.

(** The list [r] consists of the items [ps], which hold the tasks [ts]. *)
Definition tlist (s : kstate) (r : lref) (ps ts : list Z) : Prop :=
  exists l, list_at s r = Some l /\ items (k_items s) (l_first l) ps ts /\
    l_last l = default 0 (last ps) /\ (ps <> [] -> l_current l <> 0).

Lemma items_grown h p ps ts n t it : items h p ps ts -> h !! n = None -> n <> 0 ->
  h !! default 0 (last ps) = Some it ->
  items (<[default 0 (last ps) := it <| i_next := n |>]> (<[n := mkItem t 0]> h))
    (if decide (ps = []) then n else p) (ps ++ [n]) (ts ++ [t]).
Proof.
  intros Hi Hn Hn0 Hit. destruct (decide (ps = [])) as [->|Hps].
  - destruct ts; [|done]. simpl. split_and!; [done | done |]. exists 0. split; [|done].
    rewrite lookup_insert_ne by (intros <-; done). by rewrite lookup_insert_eq.
  - destruct (exists_last Hps) as (ps1 & q & ->). rewrite last_snoc in *. change (default 0 (Some q)) with q in *.
    pose proof (items_length _ _ _ _ Hi) as Hlen. rewrite length_app in Hlen. simpl in Hlen.
    destruct ts as [|t0 ts0] eqn:Ets; [simpl in Hlen; lia|]. rewrite <- Ets in *.
    destruct (exists_last (l := ts) ltac:(by rewrite Ets)) as (ts1 & t1 & ->).
    assert (it = mkItem t1 0) as ->.
    { clear -Hi Hit. revert p ts1 Hi. induction ps1 as [|p0 ps1 IH]; intros p [|t0 ts1]; simpl.
      - intros (-> & _ & n & Hn & ->). congruence.
      - intros (_ & _ & m & _ & Hi). by destruct ts1.
      - intros (_ & _ & m & _ & Hi). by destruct ps1.
      - intros (_ & _ & m & _ & Hi). by eapply IH. }
    by apply items_snoc.
Qed.

Lemma items_frame h h' p ps ts : items h p ps ts -> (forall q, q ∈ ps -> h' !! q = h !! q) -> items h' p ps ts.
Proof.
  revert p ts. induction ps as [|q ps IH]; intros p [|t ts]; simpl; try done.
  intros (-> & Hq & n & Hn & Hi) Hf. split_and!; [done | done |]. exists n.
  rewrite Hf by set_solver. split; [done|]. apply IH; [done|]. intros r Hr. apply Hf. set_solver.
Qed.

Section Append.
Context {al : Allocator} (Hample : ample).

(** The parts of the state that are not about tasks and their lists. *)
Definition no_lists {X} (proj : kstate -> X) : Prop :=
  (forall h s, proj (s <| k_items := h |>) = proj s) /\ (forall h s, proj (s <| k_tasks := h |>) = proj s) /\
  (forall s l, proj (s <| k_tasks_list := l |>) = proj s) /\ (forall s n, proj (s <| k_mallocs := n |>) = proj s).

(** What a task is apart from its lists. *)
Definition bare (t : task) : task := t <| t_children := LINKED_LIST_INIT |> <| t_threads := LINKED_LIST_INIT |>.

Lemma append_ok s r ps ts t : tlist s r ps ts -> is_Some (k_items s !! 0) ->
  exists n s', LINKED_LIST_APPEND_NEW r t s = Ret n s' /\ n <> 0 /\ tlist s' r (ps ++ [n]) (ts ++ [t]) /\
    (forall l, list_at s r = Some l -> list_at s' r = Some (grown l n)) /\ is_Some (k_items s' !! 0) /\ k_items s !! n = None /\
    (forall r' ps' ts', r' <> r -> tlist s r' ps' ts' -> default 0 (last ps) ∉ ps' -> tlist s' r' ps' ts') /\
    (forall p, fmap bare (k_tasks s' !! p) = fmap bare (k_tasks s !! p)) /\
    (r = LTasks -> k_tasks s' = k_tasks s) /\ (r <> LTasks -> k_tasks_list s' = k_tasks_list s) /\
    (forall X (proj : kstate -> X), no_lists proj -> proj s' = proj s).
Proof.
  intros (l & Hl & Hi & Hlast & Hcur) [it0 H0].
  assert (exists it, k_items s !! l_last l = Some it) as [it Hit].
  { rewrite Hlast. destruct (decide (ps = [])) as [->|Hps]; [by exists it0|].
    destruct (exists_last Hps) as (ps1 & q & ->). rewrite last_snoc.
    destruct (chain_dom _ _ _ q (items_chain _ _ _ _ Hi) ltac:(set_solver)) as [_ [i Hq]]. by exists i. }
  destruct (append_run s r l t it Hl (Hample _ _ _) Hit) as [E Hfresh].
  set (n := allocate (k_mallocs s) (live s) sizeof_item) in *. pose proof (Hample _ _ _ : n <> 0) as Hn0.
  exists n. eexists. split; [exact E|]. clear E. rewrite Hlast in *.
  set (h := <[_ := _]> (<[n := _]> (k_items s))).
  set (s1 := s <| k_mallocs := S (k_mallocs s) |> <| k_items := h |>).
  assert (Hl1 : list_at s1 r = Some l) by (by destruct r).
  split; [done|]. split_and!.
  - exists (grown l n). rewrite (list_at_set r l) by done. rewrite items_set. split_and!; [done | | |].
    + change (k_items s1) with h.
      replace (l_first (grown l n)) with (if decide (ps = []) then n else l_first l); [by apply items_grown|].
      unfold grown. case_decide as Hps.
      * rewrite Hps in Hi. destruct ts; [|done]. simpl in Hi. kred. rewrite Hi. done.
      * kred. rewrite (proj2 (Z.eqb_neq _ _)), (proj2 (Z.eqb_neq _ _) (Hcur Hps)); [done|].
        intros ?%(chain_nonnull _ _ _ (items_chain _ _ _ _ Hi)). done.
    + rewrite last_snoc. unfold grown. kred. by case_match.
    + intros _. unfold grown. kred. destruct (_ || _) eqn:Eor; kred; [done|].
      apply orb_false_elim in Eor as [_ Eor]. by apply Z.eqb_neq.
  - intros l2 Hl2. rewrite Hl in Hl2. injection Hl2 as <-. by apply (list_at_set r l).
  - rewrite items_set. change (k_items s1) with h. unfold h.
    destruct (decide (default 0 (last ps) = 0)) as [->|]; [by simplify_map_eq|].
    assert (n <> 0) by done. rewrite !lookup_insert_ne by done. by eexists.
  - done.
  - intros r' ps' ts' Hr (l' & Hl' & Hi' & Hlast' & Hcur') Hni. exists l'. rewrite items_set. split_and!; [| | done | done].
    + destruct r as [|c|c], r' as [|c'|c']; simpl in *; try done; rewrite lookup_alter; case_decide as Ec; subst; try done;
        by destruct (k_tasks s !! _).
    + apply (items_frame (k_items s)); [done|]. intros q Hq. change (k_items s1) with h. unfold h.
      destruct (chain_dom _ _ _ q (items_chain _ _ _ _ Hi') Hq) as [_ [i Hqi]].
      rewrite !lookup_insert_ne by (congruence || set_solver). done.
  - intros p. destruct r as [|c|c]; simpl; [done|..]; rewrite lookup_alter; case_decide; subst; [|done|..|done];
      by destruct (k_tasks s !! _).
  - by intros ->.
  - by destruct r.
  - intros X proj (H1 & H2 & H3 & H4). destruct r as [|c|c]; simpl; rewrite ?H3, ?H2; unfold s1; by rewrite H1, H4.
Qed.
End Append.

(** ** The world as a tuple *)

Section World.
Context {B : Type} (mm : mmu) (sp : gmap Z space) (me : gmap Z mtask) (pg : gmap Z Z)
  (pid tid lk pf : Z) (bu : list Z).

Lemma onK_run {A} (m : M kstate A) (K : A -> M world B) k a k' : m k = Ret a k' ->
  bind (onK m) K (mkWorld k mm sp me pg pid tid lk pf bu) = K a (mkWorld k' mm sp me pg pid tid lk pf bu).
Proof. intros H. by rewrite (run_onK _ _ _ a k'). Qed.

Lemma onM_run {A} (m : M mmu A) (K : A -> M world B) k a mm' : m mm = Ret a mm' ->
  bind (onM m) K (mkWorld k mm sp me pg pid tid lk pf bu) = K a (mkWorld k mm' sp me pg pid tid lk pf bu).
Proof. intros H. by rewrite (run_onM _ _ _ a mm'). Qed.

Lemma onB_run {A} (m : M (list Z) A) (K : A -> M world B) k a bu' : m bu = Ret a bu' ->
  bind (onB m) K (mkWorld k mm sp me pg pid tid lk pf bu) = K a (mkWorld k mm sp me pg pid tid lk pf bu').
Proof. intros H. by rewrite (run_onB _ _ _ a bu'). Qed.
End World.

Section Steps.
Context {al : Allocator} {dr : Drivers} {un : Uninit} (Hample : ample).

(** ** Numbers and addresses *)

Lemma new_ids k mm sp me pg pid tid pf bu :
  pid_locked (p <- take_pid;; t <- take_tid;; ret (p, t)) (mkWorld k mm sp me pg pid tid 0 pf bu) =
  Ret (pid, tid) (mkWorld k mm sp me pg (s32 (pid + 1)) (s32 (tid + 1)) 0 pf bu).
Proof. reflexivity. Qed.

Definition child_addr (k : kstate) : Z := allocate (k_mallocs k) (live k) sizeof_task.
Definition with_child (k : kstate) : kstate :=
  k <| k_mallocs := S (k_mallocs k) |> <| k_tasks := <[child_addr k := task_at (child_addr k)]> (k_tasks k) |>.
Definition memmap_addr (k : kstate) : Z :=
  allocate (k_mallocs (with_child k)) (live (with_child k)) sizeof_memmap.
Definition with_memmap (k : kstate) : kstate :=
  (with_child k) <| k_mallocs := S (k_mallocs (with_child k)) |> <| k_bufs := <[memmap_addr k := []]> (k_bufs k) |>.
Definition node_addr (k : kstate) : Z :=
  allocate (k_mallocs (with_memmap k)) (live (with_memmap k)) sizeof_vfs_node.
Definition with_node (k : kstate) : kstate :=
  (with_memmap k) <| k_mallocs := S (k_mallocs (with_memmap k)) |>
    <| k_nodes := <[node_addr k := node_at (node_addr k)]> (k_nodes k) |>.

Lemma child_fresh k : child_addr k <> 0 /\ k_tasks k !! child_addr k = None.
Proof.
  pose proof (Hample (k_mallocs k) (live k) sizeof_task) as H. split; [exact H|].
  destruct (allocate_fresh (k_mallocs k) (live k) sizeof_task) as [?|[_ Hf]]; [done|].
  apply not_elem_of_dom. unfold live in Hf at 2. unfold child_addr. set_solver.
Qed.

Lemma node_fresh k : node_addr k <> 0 /\ k_nodes k !! node_addr k = None.
Proof.
  pose proof (Hample (k_mallocs (with_memmap k)) (live (with_memmap k)) sizeof_vfs_node) as H. split; [exact H|].
  destruct (allocate_fresh (k_mallocs (with_memmap k)) (live (with_memmap k)) sizeof_vfs_node) as [?|[_ Hf]]; [done|].
  apply not_elem_of_dom. fold (node_addr k) in Hf. unfold live in Hf.
  change (k_nodes (with_memmap k)) with (k_nodes k) in Hf. set_solver.
Qed.

(** ** The entry under /proc *)

Lemma mknod_lock h parent node pn n l q m : h !! q = Some m -> h !! parent = Some pn -> q <> node -> 
  node ∉ l -> exists m', mknod_nodes h parent node pn n l !! q = Some m' /\ (n_lock m', n_refs m') = (n_lock m, n_refs m).
Proof.
  intros Hq Hp Hne Hnl. unfold mknod_nodes. destruct (last l) as [r|] eqn:El.
  - assert (r <> node) by (apply last_Some in El as (? & ->); set_solver).
    rewrite lookup_insert_ne by done. destruct (h !! r) as [m1|] eqn:Er.
    + destruct (decide (q = r)) as [->|]; [rewrite lookup_insert_eq; eexists; split; [done|]; by simplify_eq|].
      exists m. by rewrite !lookup_insert_ne by done.
    + exists m. by rewrite !lookup_insert_ne by done.
  - destruct (decide (q = parent)) as [->|]; [rewrite lookup_insert_eq; eexists; split; [done|]; by simplify_eq|].
    exists m. by rewrite !lookup_insert_ne by done.
Qed.

(** A part of the state that has nothing to do with nodes. *)
Definition no_nodes {X} (proj : kstate -> X) : Prop :=
  (forall h s, proj (s <| k_nodes := h |>) = proj s) /\ (forall s n, proj (s <| k_vfs_root_nodes := n |>) = proj s).

Lemma add_procfs_node_ok k mm sp me pg pid tid' lk pf bu node n0 tid pn nl :
  k_nodes k !! node = Some n0 -> node <> 0 -> (12 <= length bu)%nat -> 0 < tid < 2 ^ 31 ->
  k_nodes k !! pf = Some pn -> pf <> 0 -> Z.land (n_flags pn) FS_DIRECTORY <> 0 -> n_lock pn = 0 ->
  Vfs.children k pf nl -> node <> pf -> node ∉ nl -> pf ∉ nl ->
  exists k' t bu', add_procfs_node node tid (mkWorld k mm sp me pg pid tid' lk pf bu) =
      Ret tt (mkWorld k' mm sp me pg pid tid' lk pf bu') /\
    decimal_of tid t /\ Vfs.children k' pf (nl ++ [node]) /\
    (exists n, k_nodes k' !! node = Some n /\ n_name n = string_at (cstr t []) /\ n_flags n = FS_DIRECTORY /\ n_parent n = pf) /\
    (forall q m, k_nodes k !! q = Some m -> q <> node -> exists m', k_nodes k' !! q = Some m' /\
       (n_lock m', n_refs m') = (n_lock m, n_refs m)) /\
    (forall X (proj : kstate -> X), no_nodes proj -> proj k' = proj k).
Proof.
  intros Hn Hn0 Hbu Htid Hpn Hpf Hfl Hlk (pn' & Hpn' & Hc) Hnp Hnl Hpl. rewrite Hpn in Hpn'. injection Hpn' as <-.
  destruct (itoa_ok tid bu) as (t & rest & E & Ht & _); [lia | lia | done |]. rewrite u32_small in Ht by lia.
  unfold add_procfs_node. rewrite (onB_run _ _ _ _ _ _ _ _ _ _ _ _ _ _ E), bind_get. simpl.
  set (n1 := procfs_fields (string_at (cstr t rest)) pf n0).
  set (k1 := k <| k_nodes := <[node := n1]> (k_nodes k) |>).
  erewrite onK_run by (apply (upd_obj_ok _ _ n0); exact Hn). change (set_objs _ k) with k1.
  assert (Hca : can_attach k1 pf node pn n1 nl).
  { split; try done; unfold k1; kred; [by simplify_map_eq | by simplify_map_eq |].
    eapply chain_frame; [exact Hc|]. intros q m Hq Hm. exists m. rewrite lookup_insert_ne by set_solver. done. }
  destruct (vfs_mknod_appends k1 pf node pn n1 nl) as (k2 & n' & E2 & Hch & Hn' & Hpar);
    [by rewrite (proj2 (Z.eqb_neq pf 0))|].
  destruct (vfs_mknod_ok k1 pf node pn n1 nl) as (k2' & E2' & Hnodes & _); [by rewrite (proj2 (Z.eqb_neq pf 0))|].
  rewrite (proj2 (Z.eqb_neq pf 0)) in * by done. rewrite E2 in E2'. injection E2' as <-.
  exists k2, t, (cstr t rest). erewrite onK_run by exact E2. split; [done|]. split; [done|]. split; [done|].
  assert (Hn1 : k_nodes k2 !! node = Some (n1 <| n_parent := pf |>)).
  { rewrite Hnodes. unfold mknod_nodes. destruct (last nl) as [r|] eqn:El.
    - assert (r <> node) by (apply last_Some in El as (? & ->); set_solver).
      rewrite lookup_insert_ne by done. destruct (k_nodes k1 !! r); by simplify_map_eq.
    - by simplify_map_eq. }
  split_and!.
  - eexists. split; [exact Hn1|]. split_and!; try done. change (string_at (cstr t rest) = string_at (cstr t [])).
    clear. unfold cstr. induction t as [|c t IH]; [done|]. simpl. by rewrite IH.
  - intros q m Hq Hqn. rewrite Hnodes. apply mknod_lock; [|by unfold k1; kred; simplify_map_eq | done | done].
    unfold k1. kred. by simplify_map_eq.
  - intros X proj [H1 H2]. rewrite (vfs_mknod_keeps proj pf node H1 H2 _ _ _ E2). unfold k1. apply H1.
Qed.

(** ** Buffers and mapped files *)

Definition no_raw {X} (proj : kstate -> X) : Prop :=
  (forall h s, proj (s <| k_bufs := h |>) = proj s) /\ (forall s n, proj (s <| k_mallocs := n |>) = proj s).

Lemma malloc_raw_ok k mm sp me pg pid tid lk pf bu size :
  exists a k', malloc_raw size (mkWorld k mm sp me pg pid tid lk pf bu) = Ret a (mkWorld k' mm sp me pg pid tid lk pf bu) /\
    a <> 0 /\ forall X (proj : kstate -> X), no_raw proj -> proj k' = proj k.
Proof.
  unfold malloc_raw. erewrite onK_run by reflexivity. set (a := allocate _ _ size).
  pose proof (Hample (k_mallocs k) (live k) size : a <> 0) as Ha. rewrite (proj2 (Z.eqb_neq _ _) Ha).
  erewrite onK_run by reflexivity. eexists a, _. split; [reflexivity|]. split; [done|].
  intros X proj [H1 H2]. simpl. by rewrite H1, H2.
Qed.

(** A copy of a buffer: the same pages, and a copy of the mapped file. *)
Definition buffer_copy (mmaps : list mmap_info_t) (b b' : buffer_t) : Prop :=
  b_address b' = b_address b /\ b_pages b' = b_pages b /\ (b_mmap b' = 0 <-> b_mmap b = 0).

Lemma copy_buffers_ok mmaps mm sp me pg pid tid lk pf bu l : forall k,
  (forall b, b ∈ l -> b_mmap b <> 0 -> is_Some (List.find (fun m => mi_self m =? b_mmap b) mmaps)) ->
  exists bs ms k', copy_buffers mmaps l (mkWorld k mm sp me pg pid tid lk pf bu) =
      Ret (bs, ms) (mkWorld k' mm sp me pg pid tid lk pf bu) /\
    Forall2 (buffer_copy mmaps) l bs /\ forall X (proj : kstate -> X), no_raw proj -> proj k' = proj k.
Proof.
  induction l as [|b l IH]; intros k Hm; [by exists [], [], k; split; [|split; [constructor|]]|].
  cbn [copy_buffers]. destruct (malloc_raw_ok k mm sp me pg pid tid lk pf bu sizeof_buffer) as (a & k1 & E1 & Ha & F1).
  rewrite (bind_Ret _ _ _ _ _ E1), (proj2 (Z.eqb_neq _ _) Ha). simpl assert. rewrite bind_ret_l.
  destruct (Z.eqb_spec (b_mmap b) 0) as [E0|E0]; cbv [negb].
  - destruct (IH k1) as (bs & ms & k2 & E2 & HF & F2); [intros; apply Hm; [set_solver | done]|].
    rewrite (bind_Ret _ _ _ _ _ E2). eexists _, _, k2. split; [reflexivity|]. split; [by constructor|].
    intros X proj H. by rewrite F2, F1.
  - destruct (malloc_raw_ok k1 mm sp me pg pid tid lk pf bu sizeof_mmap_info) as (a2 & k2 & E2 & Ha2 & F2).
    rewrite (bind_Ret _ _ _ _ _ E2), (proj2 (Z.eqb_neq _ _) Ha2). simpl assert. rewrite bind_ret_l.
    destruct (Hm b ltac:(set_solver) E0) as [m Hfm]. rewrite Hfm. simpl deref. rewrite bind_ret_l.
    destruct (IH k2) as (bs & ms & k3 & E3 & HF & F3); [intros; apply Hm; [set_solver | done]|].
    rewrite (bind_Ret _ _ _ _ _ E3). eexists _, _, k3. split; [reflexivity|]. split; [by constructor|].
    intros X proj H. by rewrite F3, F2, F1.
Qed.

(** ** The task structure and the lists *)

Lemma bare_lookup (h h' : gmap Z task) (q : Z) v : bare <$> h' !! q = bare <$> h !! q -> h !! q = Some v ->
  exists v', h' !! q = Some v' /\ bare v' = bare v.
Proof. intros E H. rewrite H in E. destruct (h' !! q) as [v'|]; [|done]. exists v'. split; [done|]. by apply (inj Some) in E. Qed.

(** The lists of a task. *)
Definition lists (t : task) : llist * llist := (t_children t, t_threads t).

Lemma tlist_ext s s' r ps ts : k_items s' = k_items s -> (r = LTasks -> k_tasks_list s' = k_tasks_list s) ->
  (forall p, lists <$> k_tasks s' !! p = lists <$> k_tasks s !! p) -> tlist s r ps ts -> tlist s' r ps ts.
Proof.
  intros Hi Hl Ht (l & H1 & H2 & H3 & H4). exists l. rewrite Hi. split_and!; [|done..].
  destruct r as [|t|t]; simpl in *; [by rewrite Hl by done|..]; specialize (Ht t);
    destruct (k_tasks s !! t), (k_tasks s' !! t); simpl in *; try done; injection Ht; congruence.
Qed.

Lemma lists_insert (h : gmap Z task) q v v' p : h !! q = Some v -> lists v' = lists v ->
  lists <$> <[q := v']> h !! p = lists <$> h !! p.
Proof.
  intros Hq E. destruct (decide (p = q)) as [->|]; [|by rewrite lookup_insert_ne].
  rewrite lookup_insert_eq, Hq. simpl. by rewrite E.
Qed.

(** Where a stage of [fork_finish] has got: the child is [v] and the current
    task [c], up to their lists, and nothing else changed. *)
Record stage (k k' : kstate) (child : Z) (v c : task) : Prop := {
  st_child : exists v', k_tasks k' !! child = Some v' /\ bare v' = bare v;
  st_cur : exists c', k_tasks k' !! k_current_task k' = Some c' /\ bare c' = bare c;
  st_others : forall q, q <> child -> q <> k_current_task k' -> bare <$> k_tasks k' !! q = bare <$> k_tasks k !! q;
  st_same : k_current_task k' = k_current_task k /\ k_idle_task k' = k_idle_task k /\ k_nodes k' = k_nodes k /\
            k_files k' = k_files k /\ k_descs k' = k_descs k;
  st_null : is_Some (k_items k' !! 0) }.

(** The parts that stay. *)
Definition still (s : kstate) := (k_current_task s, k_idle_task s, k_nodes s, k_files s, k_descs s, k_schedule_lock s).

Lemma stage_append k k1 child v c r ps ts t : stage k k1 child v c -> tlist k1 r ps ts ->
  exists n k2, LINKED_LIST_APPEND_NEW r t k1 = Ret n k2 /\ n <> 0 /\ stage k k2 child v c /\
    tlist k2 r (ps ++ [n]) (ts ++ [t]) /\ (forall l, list_at k1 r = Some l -> list_at k2 r = Some (grown l n)) /\
    (forall r' ps' ts', r' <> r -> tlist k1 r' ps' ts' -> default 0 (last ps) ∉ ps' -> tlist k2 r' ps' ts') /\
    (r <> LTasks -> k_tasks_list k2 = k_tasks_list k1) /\ k_schedule_lock k2 = k_schedule_lock k1 /\
    k_items k1 !! n = None.
Proof.
  intros [(v' & Hv & Bv) (c' & Hc & Bc) Ho (H1 & H2 & H3 & H4 & H5) Hnull] Hl.
  destruct (append_ok Hample k1 r ps ts t Hl Hnull) as (n & k2 & E & Hn & Hl2 & Hg & Hnull2 & Hfr & Hoth & Hb & _ & Hlt & F).
  exists n, k2. split; [done|]. split; [done|].
  pose proof (F _ still ltac:(done)) as Fs. unfold still in Fs. injection Fs as F1 F2 F3 F4 F5 F6.
  split_and!; try done. split; try done.
  - destruct (bare_lookup _ _ _ _ (Hb child) Hv) as (v2 & Hv2 & Bv2). exists v2. by rewrite Bv2.
  - rewrite F1. destruct (bare_lookup _ _ _ _ (Hb (k_current_task k1)) Hc) as (c2 & Hc2 & Bc2). exists c2. by rewrite Bc2.
  - intros q Hq1 Hq2. rewrite Hb. apply Ho; congruence.
  - rewrite F1, F2, F3, F4, F5. done.
Qed.

(** A store to the child or to the current task. *)
Lemma stage_child k k1 child v c f : stage k k1 child v c -> child <> k_current_task k1 ->
  (forall t, lists (f t) = lists t) -> (forall t t', bare t = bare t' -> bare (f t) = bare (f t')) ->
  exists k2, upd_obj child f k1 = Ret tt k2 /\ stage k k2 child (f v) c /\
    k_schedule_lock k2 = k_schedule_lock k1 /\ k_tasks_list k2 = k_tasks_list k1 /\ k_items k2 = k_items k1 /\
    k_current_task k2 = k_current_task k1 /\ (forall r ps ts, tlist k1 r ps ts -> tlist k2 r ps ts).
Proof.
  intros [(v' & Hv & Bv) (c' & Hc & Bc) Ho Hsame Hnull] Hne Hlf Hbf.
  eexists. split; [by apply (upd_obj_ok _ _ v')|]. simpl. kred. split_and!; try done.
  - split; kred; try done.
    + exists (f v'). split; [by simplify_map_eq | by apply Hbf].
    + exists c'. by rewrite lookup_insert_ne.
    + intros q Hq1 Hq2. rewrite lookup_insert_ne by done. by apply Ho.
  - intros r ps ts. apply tlist_ext; try done. intros p. kred. by apply lists_insert with v'.
Qed.

Lemma stage_cur k k1 child v c f : stage k k1 child v c -> child <> k_current_task k1 ->
  (forall t, lists (f t) = lists t) -> (forall t t', bare t = bare t' -> bare (f t) = bare (f t')) ->
  exists k2, upd_obj (k_current_task k1) f k1 = Ret tt k2 /\ stage k k2 child v (f c) /\
    k_schedule_lock k2 = k_schedule_lock k1 /\ k_tasks_list k2 = k_tasks_list k1 /\ k_items k2 = k_items k1 /\
    k_current_task k2 = k_current_task k1 /\ (forall r ps ts, tlist k1 r ps ts -> tlist k2 r ps ts).
Proof.
  intros [(v' & Hv & Bv) (c' & Hc & Bc) Ho Hsame Hnull] Hne Hlf Hbf.
  eexists. split; [by apply (upd_obj_ok _ _ c')|]. simpl. kred. split_and!; try done.
  - split; kred; try done.
    + exists v'. by rewrite lookup_insert_ne.
    + exists (f c'). split; [by simplify_map_eq | by apply Hbf].
    + intros q Hq1 Hq2. rewrite lookup_insert_ne by done. by apply Ho.
  - intros r ps ts. apply tlist_ext; try done. intros p. kred. by apply lists_insert with c'.
Qed.

Lemma tlist_live s r ps ts p : tlist s r ps ts -> p ∈ ps -> p <> 0 /\ is_Some (k_items s !! p).
Proof.
  intros (l & _ & Hi & _) Hp. destruct (chain_dom _ _ _ p (items_chain _ _ _ _ Hi) Hp) as [H0 [i Hi']]. split; [done|by exists i].
Qed.

(** The item an append writes to is the last one of its own list, or the
    memory at address 0, and so not on another list. *)
Lemma last_elsewhere s r ps ts r' ps' ts' : tlist s r ps ts -> tlist s r' ps' ts' -> (forall p, p ∈ ps -> p ∉ ps') ->
  default 0 (last ps) ∉ ps'.
Proof.
  intros Hl Hl' Hd Hin. destruct (last ps) as [q|] eqn:El; simpl in Hin.
  - apply (Hd q); [|done]. apply last_Some in El as (ps1 & ->). set_solver.
  - by destruct (tlist_live _ _ _ _ _ Hl' Hin).
Qed.

Lemma lock_task_run p (t : task) k : k_tasks k !! p = Some t -> t_lock t = 0 ->
  lock_task p k = upd_obj p (fun t => t <| t_lock := 1 |>) k.
Proof. intros H H0. unfold lock_task. rewrite (run_load _ t), H0 by done. done. Qed.

Lemma unlock_task_run p (t : task) k : k_tasks k !! p = Some t -> t_lock t = 1 ->
  unlock_task p k = upd_obj p (fun t => t <| t_lock := 0 |>) k.
Proof. intros H H0. unfold unlock_task. rewrite (run_load _ t), H0 by done. done. Qed.

(** The child and its place on the lists when [kfork] is called. *)
Record listed (k k' : kstate) (child : Z) (v c : task) (ps ts cps cs : list Z) (n1 n2 : Z) : Prop := {
  li_stage : stage k k' child v c;
  li_threads : tlist k' (LThreads child) [n1] [child];
  li_children : tlist k' (LChildren (k_current_task k)) (cps ++ [n2]) (cs ++ [child]);
  li_tasks : tlist k' LTasks ps ts;
  li_list : k_tasks_list k' = k_tasks_list k;
  li_lock : k_schedule_lock k' = k_schedule_lock k;
  li_disj : forall p, p ∈ ps -> p ∉ cps ++ [n2] /\ p <> n1 }.

Lemma fork_lists k mm sp me pg pid' tid' lk pf bu child node desc pid tid mmap t0 c ps ts cps cs mt B (K : unit -> M world B) :
  k_tasks k !! child = Some t0 -> child <> k_current_task k ->
  k_tasks k !! k_current_task k = Some c -> t_lock c = 0 ->
  tlist k LTasks ps ts -> tlist k (LChildren (k_current_task k)) cps cs -> (forall p, p ∈ ps -> p ∉ cps) ->
  is_Some (k_items k !! 0) -> current_task mm = Some mt ->
  (forall b, b ∈ mt_buffers mt -> b_mmap b <> 0 -> is_Some (List.find (fun m => mi_self m =? b_mmap b) (mt_mmaps mt))) ->
  let cur := k_current_task k in
  let v := fork_fields c cur child pid tid desc node t0 in
  exists k' bs ms n1 n2, listed k k' child v c ps ts cps cs n1 n2 /\ Forall2 (buffer_copy (mt_mmaps mt)) (mt_buffers mt) bs /\
    (onK (c <- current;; upd_obj child (fork_fields c cur child pid tid desc node));;;
     onK (LINKED_LIST_APPEND_NEW (LThreads child) child);;;
     w <- get;;
     t <- deref (current_task (w_m w));;
     '(bs, ms) <- copy_buffers (mt_mmaps t) (mt_buffers t);;
     modify (fun w => w <| w_memory := <[child := mkMtask pid pid bs ms 0 mmap]> (w_memory w) |>);;;
     onK (lock_task cur);;;
     i <- onK (LINKED_LIST_APPEND_NEW (LChildren cur) child);;
     (if i =? 0 then panic "Out of memory!" else ret tt);;;
     x <- onK (unlock_task cur);;
     K x) (mkWorld k mm sp me pg pid' tid' lk pf bu) =
    K tt (mkWorld k' mm sp (<[child := mkMtask pid pid bs ms 0 mmap]> me) pg pid' tid' lk pf bu).
Proof.
  intros Hch Hne Hc Hlk Htl Hcl Hdis Hnull Hmt Hmm cur v.
  (* the fields *)
  set (k1 := k <| k_tasks := <[child := v]> (k_tasks k) |>).
  assert (E1 : (c <- current;; upd_obj child (fork_fields c cur child pid tid desc node)) k = Ret tt k1).
  { rewrite (run_current c) by done. by rewrite (upd_obj_ok _ _ t0). }
  assert (S1 : stage k k1 child v c).
  { split; unfold k1; kred; try done.
    - exists v. by simplify_map_eq.
    - exists c. by rewrite lookup_insert_ne by done.
    - intros q Hq _. by rewrite lookup_insert_ne. }
  assert (Htl1 : tlist k1 LTasks ps ts) by exact Htl.
  assert (Hcl1 : tlist k1 (LChildren cur) cps cs).
  { destruct Hcl as (l & Hl & Hrest). exists l. split; [|done]. unfold k1. simpl. kred. by rewrite lookup_insert_ne. }
  assert (Hth1 : tlist k1 (LThreads child) [] []).
  { exists LINKED_LIST_INIT. split; [|done]. unfold k1. simpl. kred. by rewrite lookup_insert_eq. }
  rewrite (onK_run _ _ _ _ _ _ _ _ _ _ _ _ _ _ E1).
  (* the threads *)
  destruct (stage_append k k1 child v c _ _ _ child S1 Hth1) as (n1 & k2 & E2 & Hn1 & S2 & Hth2 & _ & Fr2 & Hlt2 & Hsl2 & Hf1).
  assert (Htl2 : tlist k2 LTasks ps ts) by (apply Fr2; [done | done | by eapply last_elsewhere; [exact Hth1 | exact Htl1 | set_solver]]).
  assert (Hcl2 : tlist k2 (LChildren cur) cps cs) by (apply Fr2; [done | done | by eapply last_elsewhere; [exact Hth1 | exact Hcl1 | set_solver]]).
  rewrite (onK_run _ _ _ _ _ _ _ _ _ _ _ _ _ _ E2), bind_get. simpl w_m. rewrite Hmt. simpl deref. rewrite bind_ret_l.
  (* the buffers *)
  destruct (copy_buffers_ok (mt_mmaps mt) mm sp me pg pid' tid' lk pf bu (mt_buffers mt) k2 Hmm) as (bs & ms & k3 & E3 & HF & F3).
  rewrite (bind_Ret _ _ _ _ _ E3). cbv beta iota. rewrite bind_modify.
  pose proof (F3 _ (fun s => (still s, k_tasks s, k_items s, k_tasks_list s)) ltac:(done)) as Fs.
  unfold still in Fs. injection Fs as G1 G2 G3 G4 G5 G6 G7 G8 G9.
  assert (S3 : stage k k3 child v c).
  { destruct S2 as [A1 A2 A3 A4 A5]. split; rewrite ?G1, ?G2, ?G3, ?G4, ?G5, ?G7, ?G8; done. }
  assert (X3 : forall r ps ts, tlist k2 r ps ts -> tlist k3 r ps ts).
  { intros r qs us. apply tlist_ext; [done | done |]. intros q. by rewrite G7. }
  assert (Hcur3 : k_current_task k3 = cur) by (rewrite G1; by destruct (st_same _ _ _ _ _ S2) as (-> & _)).
  (* the children *)
  destruct (st_cur _ _ _ _ _ S3) as (c3 & Hc3 & Bc3). rewrite Hcur3 in Hc3.
  assert (Hlk3 : t_lock c3 = 0) by (transitivity (t_lock (bare c3)); [done | by rewrite Bc3]).
  destruct (stage_cur k k3 child v c (fun t => t <| t_lock := 1 |>) S3) as (k4 & E4 & S4 & Hsl4 & Hlt4 & Hi4 & Hcur4 & X4);
    [by rewrite Hcur3 | done | intros t t' E; change (bare (t <| t_lock := 1 |>)) with ((bare t) <| t_lock := 1 |>); by rewrite E |].
  rewrite Hcur3 in E4, Hcur4. rewrite <- (lock_task_run cur c3) in E4 by done.
  change (mkWorld k3 mm sp me pg pid' tid' lk pf bu) <| w_memory := _ |>
    with (mkWorld k3 mm sp (<[child := mkMtask pid pid bs ms 0 mmap]> me) pg pid' tid' lk pf bu).
  rewrite (onK_run _ _ _ _ _ _ _ _ _ _ _ _ _ _ E4).
  assert (Hcl4 : tlist k4 (LChildren cur) cps cs) by auto.
  destruct (stage_append k k4 child v _ _ _ _ child S4 Hcl4) as (n2 & k5 & E5 & Hn2 & S5 & Hcl5 & _ & Fr5 & Hlt5 & Hsl5 & Hf2).
  assert (Htl4 : tlist k4 LTasks ps ts) by auto. assert (Hth4 : tlist k4 (LThreads child) [n1] [child]) by auto.
  assert (Htl5 : tlist k5 LTasks ps ts).
  { apply Fr5; [done | done |]. eapply last_elsewhere; [exact Hcl4 | exact Htl4 | set_solver]. }
  assert (Hn1c : forall p, p ∈ cps -> p <> n1).
  { intros p Hp ->. destruct (tlist_live _ _ _ _ _ Hcl1 Hp) as [_ [? ?]]. congruence. }
  assert (Hth5 : tlist k5 (LThreads child) [n1] [child]).
  { apply Fr5; [done | done |]. eapply last_elsewhere; [exact Hcl4 | exact Hth4 |]. intros p Hp. specialize (Hn1c p Hp). set_solver. }
  rewrite (onK_run _ _ _ _ _ _ _ _ _ _ _ _ _ _ E5), (proj2 (Z.eqb_neq _ _) Hn2), bind_ret_l.
  (* and the unlock *)
  assert (Hcur5 : k_current_task k5 = cur) by (by destruct (st_same _ _ _ _ _ S5) as (-> & _)).
  destruct (st_cur _ _ _ _ _ S5) as (c5 & Hc5 & Bc5). rewrite Hcur5 in Hc5.
  assert (Hlk5 : t_lock c5 = 1) by (transitivity (t_lock (bare c5)); [done | by rewrite Bc5]).
  destruct (stage_cur k k5 child v _ (fun t => t <| t_lock := 0 |>) S5) as (k6 & E6 & S6 & Hsl6 & Hlt6 & Hi6 & Hcur6 & X6);
    [by rewrite Hcur5 | done | intros t t' E; change (bare (t <| t_lock := 0 |>)) with ((bare t) <| t_lock := 0 |>); by rewrite E |].
  rewrite Hcur5 in E6. rewrite <- (unlock_task_run cur c5) in E6 by done.
  exists k6, bs, ms, n1, n2. split_and!; [|done | by rewrite (onK_run _ _ _ _ _ _ _ _ _ _ _ _ _ _ E6)].
  split; auto.
  - destruct S6 as [A1 (c6 & A2 & B2) A3 A4 A5]. split; try done. exists c6. split; [done|]. rewrite B2.
    clear -Hlk. destruct c. simpl in *. by subst.
  - rewrite Hlt6, Hlt5, Hlt4, G9, Hlt2 by done. done.
  - rewrite Hsl6, Hsl5, Hsl4, G6, Hsl2. done.
  - intros p Hp. destruct (tlist_live _ _ _ _ _ Htl1 Hp) as [_ [i Hi]]. destruct (tlist_live _ _ _ _ _ Htl4 Hp) as [_ [i4 Hi4']].
    assert (p <> n2) by congruence. assert (p <> n1) by congruence. specialize (Hdis p Hp). set_solver.
Qed.

Lemma stage_rest k k' child v c q : stage k k' child v c -> k_tasks k !! k_current_task k = Some c -> q <> child ->
  bare <$> k_tasks k' !! q = bare <$> k_tasks k !! q.
Proof.
  intros [_ (c' & Hc' & Bc) Ho (E & _) _] Hc Hq. destruct (decide (q = k_current_task k')) as [->|Hne]; [|by apply Ho].
  rewrite Hc', E, Hc. simpl. by rewrite Bc.
Qed.

(** The scheduler can go on with one task more. *)
Lemma scheduling_grows k k' child v c ps ts n : scheduling k ps ts -> stage k k' child v c ->
  k_tasks k !! k_current_task k = Some c -> child <> 0 -> child <> k_idle_task k -> child ∉ ts -> t_kernel_stack v <> 0 ->
  0 <= l_count (k_tasks_list k) < 2 ^ 32 - 1 -> tlist k LTasks ps ts ->
  tlist k' LTasks (ps ++ [n]) (ts ++ [child]) -> k_tasks_list k' = grown (k_tasks_list k) n ->
  scheduling k' (ps ++ [n]) (ts ++ [child]).
Proof.
  intros [(vi & Hvi & Hri & Hpi) Hi Ht Hnd [Hcnt Hne] Hpos] Hst Hc Hc0 Hci Hcts Hks Hcount Htl Htl' Hl.
  pose proof (stage_rest _ _ _ _ _ (k_idle_task k) Hst Hc (not_eq_sym Hci)) as Bi.
  pose proof Hst as [(v' & Hv' & Bv) _ _ (E1 & E2 & _) _].
  assert (Hps : ps <> []) by (intros ->; destruct ts; done).
  destruct Htl as (l & [= <-] & _ & _ & Hcur). specialize (Hcur Hps).
  destruct Htl' as (l' & [= <-] & Hi' & _).
  assert (Hf0 : l_first (k_tasks_list k) <> 0).
  { intros ?%(chain_nonnull _ _ _ (items_chain _ _ _ _ Hi)). done. }
  split; rewrite ?E2.
  - destruct (bare_lookup _ _ _ _ Bi Hvi) as (vi' & Hvi' & Bvi). exists vi'. split; [done|].
    change (t_status vi') with (t_status (bare vi')). change (t_sig_pending vi') with (t_sig_pending (bare vi')). by rewrite Bvi.
  - done.
  - apply Forall_app. split.
    + eapply Forall_impl; [apply Forall_and; split; [exact Ht | apply Forall_forall; intros t Hin; exact Hin]|].
      simpl. intros t ((H0 & H1 & u & Hu & Hk) & Hin). split_and!; try done.
      assert (t <> child) by set_solver.
      destruct (bare_lookup _ _ _ _ (stage_rest _ _ _ _ _ t Hst Hc ltac:(done)) Hu) as (u' & Hu' & Bu). exists u'.
      split; [done|]. change (t_kernel_stack u') with (t_kernel_stack (bare u')). by rewrite Bu.
    + constructor; [|constructor]. split_and!; try done. exists v'. split; [done|].
      change (t_kernel_stack v') with (t_kernel_stack (bare v')). by rewrite Bv.
  - apply NoDup_app. split_and!; [done | set_solver | apply NoDup_singleton].
  - split; [|by destruct ts]. rewrite Hl. unfold grown. kred.
    destruct (_ || _); kred; rewrite u32_small by lia; lia.
  - rewrite E1, Hl. destruct Hpos as [?|(i & Hi1 & Hi2)]; [by left|right]. exists i. split; [by apply lookup_app_l_Some|].
    unfold grown. kred. rewrite (proj2 (Z.eqb_neq _ _) Hf0), (proj2 (Z.eqb_neq _ _) Hcur). simpl. kred. by apply lookup_app_l_Some.
Qed.

(** The child as [kfork] leaves it. *)
Definition child_task (c : task) (cur child pid tid desc node stack : Z) (t0 : task) : task :=
  (inherit_handlers c (clear_task_signals (fork_fields c cur child pid tid desc node t0))) <| t_kernel_stack := stack |>.

Lemma inherit_bare c c' t : bare c' = bare c -> inherit_handlers c' t = inherit_handlers c t.
Proof.
  intros E. unfold inherit_handlers. change (t_sig_action c') with (t_sig_action (bare c')). by rewrite E.
Qed.
End Steps.
