(* ===== verification/Resume.v ===== *)
(** * Resume: tasks run again after fork

    [kfork] returns twice, and each time later than the call: in the child when
    it is scheduled for the first time, and in the parent when it is scheduled
    again.  This file follows the scheduler from one switch to the next, with
    the address spaces that it loads, until a given task runs, and says what
    the two returns give in whatever state they find. *)

From S2P Require Import Prelude Memmap Mmu CString Chain KState LinkedList Signals Vfs Io Env Tasks Process Initrd.
From S2P Require Import Descriptors Keeps DescClone Fork Forked.

(** From one switch to the next: the task that was switched to leaves the
    scheduler, which releases the lock (a new task does that itself), and does
    nothing before the scheduler is called again. *)
Definition next_switch : M world unit :=
  w <- get;;
  onK (schedule_prelocked true);;;
  onK lock_schedule;;;
  o <- onK (schedule_prelocked false);;
  load_space (k_current_task (w_k w)) o.

Fixpoint switches (n : nat) : M world unit :=
  match n with O => ret tt | S n => next_switch;;; switches n end.

(** A switch is due: the scheduler's list is in order, its lock is taken, and
    each task has an address space. *)
Record switched (w : world) (ps ts : list Z) : Prop := {
  sw_sched : scheduling (w_k w) ps ts;
  sw_lock : k_schedule_lock (w_k w) = 1;
  sw_spaces : forall t, t = k_idle_task (w_k w) \/ t ∈ ts -> is_Some (w_spaces w !! t) }.

Definition errno_of (w : world) (t : Z) : option Z := t_errno <$> k_tasks (w_k w) !! t.

Lemma wake_errno t h q : t_errno <$> wake t h !! q = t_errno <$> h !! q.
Proof. unfold wake. rewrite lookup_alter. case_decide; subst; [by destruct (h !! q) | done]. Qed.

Lemma next_switch_ok w ps ts : switched w ps ts ->
  exists w', next_switch w = Ret tt w' /\ switched w' ps ts /\ k_current_task (w_k w') = next_task (w_k w) ts /\
    k_idle_task (w_k w') = k_idle_task (w_k w) /\ (forall t, errno_of w' t = errno_of w t) /\
    (forall t, t <> k_idle_task (w_k w) -> runnable (k_tasks (w_k w')) t = runnable (k_tasks (w_k w)) t).
Proof.
  intros [Hs Hl Hsp]. destruct w as [k mm sp me pg pid tid lk pf bu]. cbn [w_k w_spaces] in *.
  set (k0 := k <| k_schedule_lock := 0 |>). set (k1 := k0 <| k_schedule_lock := 1 |>).
  assert (E0 : schedule_prelocked true k = Ret None k0) by (unfold schedule_prelocked; by rewrite (bind_Ret _ _ _ _ _ (unlock_taken k Hl))).
  assert (E1 : lock_schedule k0 = Ret tt k1) by (unfold lock_schedule; by rewrite run_get).
  assert (Hs1 : scheduling k1 ps ts) by by destruct Hs.
  destruct (schedule_switches k1 ps ts Hs1) as (v & k' & H1 & H2 & H3 & H4 & H5 & H6 & H7).
  change (next_task k1 ts) with (next_task k ts) in *. change (k_tasks k1) with (k_tasks k) in *.
  pose proof (next_task_cases k ps ts Hs) as Hcases.
  destruct (Hsp (next_task k ts)) as [spc Hspc]; [destruct Hcases as [?|[? _]]; auto|].
  unfold next_switch. rewrite bind_get. cbn [w_k]. rewrite (onK_run _ _ _ _ _ _ _ _ _ _ _ _ _ _ E0).
  rewrite (onK_run _ _ _ _ _ _ _ _ _ _ _ _ _ _ E1), (onK_run _ _ _ _ _ _ _ _ _ _ _ _ _ _ H2).
  unfold load_space. rewrite bind_get. cbn [w_spaces]. rewrite Hspc. cbn [deref]. rewrite bind_ret_l.
  eexists. split; [reflexivity|]. cbn [w_k w_spaces w_m setf]. split_and!; try done.
  - split; [exact H7 | exact H6 |]. intros t Ht. apply Hsp. destruct Ht as [->|Ht]; [left; exact H5 | by right].
  - intros t. change (t_errno <$> k_tasks k' !! t = t_errno <$> k_tasks k !! t). rewrite H4. apply wake_errno.
  - intros t Ht. change (runnable (k_tasks k') t = runnable (k_tasks k) t). rewrite H4. destruct Hcases as [E|[_ Hr]].
    + rewrite E. unfold runnable, wake. by rewrite lookup_alter_ne.
    + by apply runnable_wake.
Qed.

(** A task that can run is switched to, after at most as many switches as there
    are tasks before it in the list. *)
Lemma switches_reach n : forall w ps ts t a b,
  switched w ps ts -> t ∈ ts -> runnable (k_tasks (w_k w)) t = true ->
  rotation (k_current_task (w_k w)) ts = a ++ t :: b -> (length a <= n)%nat ->
  exists m w', (m <= S n)%nat /\ switches m w = Ret tt w' /\ k_current_task (w_k w') = t /\
    switched w' ps ts /\ (forall q, errno_of w' q = errno_of w q).
Proof.
  induction n as [|n IH]; intros w ps ts t a b Hw Ht Hr Hrot Hn;
    destruct (next_switch_ok w ps ts Hw) as (w1 & H1 & Hw1 & Hc1 & Hi1 & He1 & Hr1);
    destruct (find_before (runnable (k_tasks (w_k w))) a t b Hr) as [[E _] | (a1 & x & a2 & -> & E)];
    try (exists 1%nat, w1; cbn [switches]; rewrite (bind_Ret _ _ _ _ _ H1), Hc1; unfold next_task; rewrite Hrot, E;
         split_and!; [lia | done ..]).
  - rewrite length_app in Hn. simpl in Hn. lia.
  - assert (Hti : t <> k_idle_task (w_k w)).
    { destruct Hw as [[_ _ Hts _ _ _] _ _]. rewrite Forall_forall in Hts. by apply Hts. }
    assert (Hx : next_task (w_k w) ts = x) by (unfold next_task; by rewrite Hrot, E).
    rewrite <- app_assoc in Hrot. simpl in Hrot.
    pose proof (rotation_step _ _ _ _ _ (sc_nodup _ _ _ (sw_sched _ _ _ Hw)) Hrot) as Hrot1.
    destruct (IH w1 ps ts t a2 (b ++ a1 ++ [x])) as (m & w' & Hm & H2 & Hc & Hw' & He); try done.
    + by rewrite Hr1.
    + rewrite Hc1, Hx, Hrot1, <- app_assoc. done.
    + rewrite length_app in Hn. simpl in Hn. lia.
    + exists (S m), w'. cbn [switches]. rewrite (bind_Ret _ _ _ _ _ H1). split_and!; [lia | done .. |].
      intros q. by rewrite He, He1.
Qed.

Lemma runs_again w ps ts t : switched w ps ts -> t ∈ ts ->
  t = k_current_task (w_k w) \/ runnable (k_tasks (w_k w)) t = true ->
  exists m w', (m <= length ts)%nat /\ switches m w = Ret tt w' /\ k_current_task (w_k w') = t /\
    switched w' ps ts /\ (forall q, errno_of w' q = errno_of w q).
Proof.
  intros Hw Ht [-> | Hr]; [exists O, w; split_and!; [lia | done ..]|].
  pose proof (sc_nodup _ _ _ (sw_sched _ _ _ Hw)) as Hnd.
  pose proof (proj2 (elem_of_rotation (k_current_task (w_k w)) ts t Hnd) Ht) as Hin.
  apply list_elem_of_split in Hin as (a & b & Hrot).
  pose proof (rotation_length (k_current_task (w_k w)) ts Hnd) as Hlen. rewrite Hrot, length_app in Hlen. simpl in Hlen.
  destruct (switches_reach (length a) w ps ts t a b Hw Ht Hr Hrot ltac:(lia)) as (m & w' & Hm & H). exists m, w'.
  split; [lia | done].
Qed.

(** ** The two returns *)

(** The parent returns what the error number of the child is at that time, if
    the child's structure is still there. *)
Lemma parent_returns w child : k_schedule_lock (w_k w) = 1 ->
  exists w2, kfork_resumed child w = match errno_of w child with Some e => Ret e w2 | None => Faults w2 end.
Proof.
  intros Hl. destruct w as [k mm sp me pg p t lk pf bu]. cbn [w_k] in Hl. unfold kfork_resumed, errno_of. cbn [w_k].
  erewrite onK_run; [|unfold schedule_prelocked; erewrite bind_Ret by (by apply unlock_taken); reflexivity].
  set (k0 := k <| k_schedule_lock := 0 |>). destruct (k_tasks k !! child) as [v|] eqn:E; cbn [fmap option_fmap option_map].
  - erewrite onK_run by (by apply load_ok). by eexists.
  - exists (mkWorld k0 mm sp me pg p t lk pf bu).
    assert (load (T := task) child k0 = Faults k0) as Hf 
      by (unfold load; rewrite run_get; change (objs k0) with (k_tasks k); by rewrite E).
    unfold bind at 1, onK, zoom. cbn [w_k]. by rewrite Hf.
Qed.

Lemma child_returns `{!Allocator} w child : k_schedule_lock (w_k w) = 1 -> k_current_task (w_k w) = child ->
  exists w2, kfork_tail child w = Ret (Returned 0) w2.
Proof.
  intros Hl Hc. destruct w as [k mm sp me pg p t lk pf bu]. cbn [w_k] in *. unfold kfork_tail. rewrite bind_get. cbn [w_k].
  rewrite Hc, Z.eqb_refl. cbn [negb]. erewrite onK_run by (by apply unlock_taken). by eexists.
Qed.
