(* ===== verification/Forking.v ===== *)
(** * Forking: the child is created, and the scheduler goes on

    [kfork], the memory [fork] needs, and the theorem about [fork] that puts
    the steps of Forked.v together. *)

From S2P Require Import Prelude Memmap Mmu CString Chain KState LinkedList Signals Vfs Io Env Tasks Process Initrd.
From S2P Require Import Descriptors Keeps DescClone Fork Forked Resume.

Section Kfork.
Context {al : Allocator} {dr : Drivers} {un : Uninit} (Hample : ample).

Lemma wake_bare t h q : t_status <$> h !! t = Some TASK_STATE_RUNNING -> wake t h !! q = h !! q.
Proof.
  destruct (h !! t) as [v|] eqn:E; [|done]. intros Hr. apply (inj Some) in Hr. by rewrite (wake_running _ _ v).
Qed.

Lemma wake_lists t h q : lists <$> wake t h !! q = lists <$> h !! q.
Proof. unfold wake. rewrite lookup_alter. case_decide; subst; [|done]. by destruct (h !! _). Qed.

(** The result of [kfork]: the child [v] and the others, up to their lists and
    the task that was woken; who is on which list; and what runs next. *)
Record created (k k' : kstate) (child : Z) (v : task) (ps ts cps cs : list Z) (n1 n2 n3 : Z) : Prop := {
  cr_sched : scheduling k' (ps ++ [n3]) (ts ++ [child]);
  cr_child : exists v', k_tasks k' !! child = Some v' /\ bare v' = bare v;
  cr_others : forall q, q <> child -> q <> k_current_task k' -> bare <$> k_tasks k' !! q = bare <$> k_tasks k !! q;
  cr_threads : tlist k' (LThreads child) [n1] [child];
  cr_children : tlist k' (LChildren (k_current_task k)) (cps ++ [n2]) (cs ++ [child]);
  cr_same : k_idle_task k' = k_idle_task k /\ k_nodes k' = k_nodes k /\ k_files k' = k_files k /\ k_descs k' = k_descs k;
  cr_locked : k_schedule_lock k' = 1 }.

Lemma kfork_ok k k' child v c ps ts cps cs n1 n2 sp0 stack mm mt sp me pg pid tid lk pf bu :
  listed k k' child v c ps ts cps cs n1 n2 -> scheduling k ps ts ->
  k_tasks k !! k_current_task k = Some c -> child <> k_current_task k -> child <> 0 -> child <> k_idle_task k ->
  child ∉ ts -> t_status v = TASK_STATE_RUNNING -> stack <> 0 -> k_schedule_lock k = 0 ->
  0 <= l_count (k_tasks_list k) < 2 ^ 32 - 1 -> tlist k LTasks ps ts ->
  (forall t, t = k_idle_task k \/ t ∈ ts -> is_Some (sp !! t)) -> current_task mm = Some mt ->
  let v' := (inherit_handlers c (clear_task_signals v)) <| t_kernel_stack := stack |> in
  exists k2 n3 spc, created k k2 child v' ps ts cps cs n1 n2 n3 /\
    <[child := sp0]> sp !! k_current_task k2 = Some spc /\
    kfork child sp0 stack (mkWorld k' mm sp me pg pid tid lk pf bu) =
    Ret (Switched child)
      (mkWorld k2 (mm <| current_memmap := sp_memmap spc |> <| current_directory := sp_directory spc |>
                      <| current_task := <[k_current_task k := mt]> me !! k_current_task k2 |>) (<[child := sp0]> sp)
         (<[k_current_task k := mt]> me) pg pid tid lk pf bu).
Proof.
  intros [S0 Hth Hch Htl Hl Hlk Hdis] Hsch Hc Hne Hch0 Hchi Hcts Hrun Hst Hlk0 Hcnt Htl0 Hsp Hmt v'.
  assert (Hcur : k_current_task k' = k_current_task k) by (by destruct (st_same _ _ _ _ _ S0)).
  destruct (st_cur _ _ _ _ _ S0) as (c' & Hc' & Bc). unfold kfork.
  (* the signals and the kernel stack *)
  destruct (stage_child k k' child v c (fun t => inherit_handlers c' (clear_task_signals t)) S0) as
    (k1 & E1 & S1 & Hs1 & Hl1 & Hi1 & Hc1 & X1);
    [congruence | done | intros t t' E; change (bare (inherit_handlers c' (clear_task_signals t))) with
       (inherit_handlers c' (clear_task_signals (bare t))); rewrite E; done |].
  rewrite (inherit_bare c c') in S1 by done.
  erewrite onK_run; [|rewrite (run_current c') by done; exact E1]. rewrite bind_modify.
  change (mkWorld k1 _ _ _ _ _ _ _ _ _) <| w_spaces := _ |> with (mkWorld k1 mm (<[child := sp0]> sp) me pg pid tid lk pf bu).
  destruct (stage_child k k1 child _ c (fun t => t <| t_kernel_stack := stack |>) S1) as
    (k2 & E2 & S2 & Hs2 & Hl2 & Hi2 & Hc2 & X2);
    [congruence | done | intros t t' E; change (bare (t <| t_kernel_stack := stack |>)) with
       ((bare t) <| t_kernel_stack := stack |>); rewrite E; done |].
  erewrite onK_run by exact E2. fold v' in S2.
  (* the task list *)
  unfold kfork_tail. rewrite bind_get. cbn [w_k].
  rewrite (proj2 (Z.eqb_neq (k_current_task k2) child)) by congruence. cbn [negb].
  set (k3 := k2 <| k_schedule_lock := 1 |>).
  assert (E3 : lock_schedule k2 = Ret tt k3).
  { unfold lock_schedule. rewrite run_get, Hs2, Hs1, Hlk, Hlk0. done. }
  rewrite (onK_run _ _ _ _ _ _ _ _ _ _ _ _ _ _ E3).
  assert (S3 : stage k k3 child v' c) by (destruct S2; by split).
  assert (X3 : forall r ps ts, tlist k' r ps ts -> tlist k3 r ps ts).
  { intros r qs us H. by apply (tlist_ext k2), X2, X1. }
  destruct (stage_append Hample k k3 child v' c LTasks ps ts child S3 (X3 _ _ _ Htl)) as
    (n3 & k4 & E4 & _ & S4 & Hl4 & Hg & Fr & _ & Hs4 & _).
  rewrite (onK_run _ _ _ _ _ _ _ _ _ _ _ _ _ _ E4).
  assert (Hsch4 : scheduling k4 (ps ++ [n3]) (ts ++ [child])).
  { apply (scheduling_grows Hample k k4 child v' c ps ts n3); try done.
    specialize (Hg (k_tasks_list k3) eq_refl). injection Hg as ->. unfold k3. kred. by rewrite Hl2, Hl1, Hl. }
  (* and the switch *)
  destruct (schedule_switches k4 _ _ Hsch4) as (vn & k5 & Hvn & E5 & Hcur5 & Ht5 & Hid5 & Hsl5 & Hsch5).
  rewrite (onK_run _ _ _ _ _ _ _ _ _ _ _ _ _ _ E5).
  destruct (st_same _ _ _ _ _ S4) as (Hcur4 & Hid4 & Hn4 & Hf4 & Hd4).
  assert (is_Some (<[child := sp0]> sp !! next_task k4 (ts ++ [child]))) as [spc Hspc].
  { destruct (decide (next_task k4 (ts ++ [child]) = child)) as [->|Hnc]; [by simplify_map_eq|].
    rewrite lookup_insert_ne by done. apply Hsp.
    destruct (next_task_cases k4 _ _ Hsch4) as [->|[Hin _]]; [left; congruence | right; set_solver]. }
  exists k5, n3, spc. rewrite Hcur5. split_and!; [|done|].
  2:{ unfold load_space. rewrite bind_assoc, bind_get. cbn [w_spaces w_k w_m w_memory]. rewrite Hspc, Hc2, Hc1, Hcur. cbn [deref]. unfold ret, bind, modify. rewrite Hmt. done. }
  assert (Hkeep : (k_items k5, k_nodes k5, k_files k5, k_descs k5) = (k_items k4, k_nodes k4, k_files k4, k_descs k4)).
  { exact (schedule_prelocked_keeps (fun s => (k_items s, k_nodes s, k_files s, k_descs s))
             ltac:(done) ltac:(done) ltac:(done) ltac:(done) false _ _ _ E5). }
  injection Hkeep as Ki Kn Kf Kd.
  assert (X5 : forall r ps ts, r <> LTasks -> tlist k4 r ps ts -> tlist k5 r ps ts).
  { intros r qs us Hr. apply tlist_ext; [done | done |]. intros q. rewrite Ht5. apply wake_lists. }
  split; try done.
  - destruct (st_child _ _ _ _ _ S4) as (v4 & Hv4 & B4).
    assert (t_status v4 = TASK_STATE_RUNNING) as Hr4.
    { change (t_status v4) with (t_status (bare v4)). by rewrite B4. }
    rewrite Ht5. destruct (decide (next_task k4 (ts ++ [child]) = child)) as [E|Hnc].
    + exists v4. rewrite E. by rewrite (wake_running _ _ v4).
    + exists v4. unfold wake. by rewrite lookup_alter_ne.
  - intros q Hq Hqc. rewrite Ht5. unfold wake. rewrite lookup_alter_ne by congruence.
    by apply (stage_rest _ _ _ _ _ _ S4).
  - apply X5; [done|]. apply Fr; [done | by apply X3 |].
    eapply (last_elsewhere Hample); [exact (X3 _ _ _ Htl) | exact (X3 _ _ _ Hth) |]. intros p Hp. destruct (Hdis p Hp). set_solver.
  - apply X5; [done|]. apply Fr; [done | by apply X3 |].
    eapply (last_elsewhere Hample); [exact (X3 _ _ _ Htl) | exact (X3 _ _ _ Hch) |]. intros p Hp. by destruct (Hdis p Hp).
  - rewrite Hid5, Kn, Kf, Kd. done.
  - rewrite Hsl5, Hs4. done.
Qed.
End Kfork.

(** ** The memory of the child *)

(** [memmap_clone] of a page map. *)
Definition map_copy (m : memmap) : memmap := mkMemmap (take (Z.to_nat (page_index (length_ m))) (pagemap m)) (length_ m) 0.

Lemma map_copy_used m q : memmap_wf m -> searched m q -> page_used (map_copy m) q = page_used m q.
Proof.
  intros Hwf Hq. unfold page_used, Memmap.word_at. simpl. pose proof (page_index_range _ _ Hq). by rewrite lookup_take_lt by lia.
Qed.

Section Memory.
Context {al : Allocator} {dr : Drivers} {un : Uninit} (malloc_ok : nat -> bool) (fuel : nat) (Hample : ample).

(** The memory manager has the memory that [fork] asks for: the directory
    [dir], the array of the page map at [memmap], a copy of [pm] at [src], and
    the kernel stack. *)
Record granted (mm : mmu) (src memmap : Z) (pm : Memmap.memmap) (dir phys arr stack : Z) (mm' : mmu) : Prop := {
  gr_wf : memmap_wf pm;
  gr_memory : exists mm1 mm2 o1 o2,
    mmu_clone_directory malloc_ok fuel (current_directory mm) CLONE_COW mm = Ret (dir, Some phys) mm1 /\
    memmaps mm1 !! src = Some pm /\
    kalloc malloc_ok fuel (page_index (length_ pm) * 4) 0 KALLOC_OPTN_KERNEL 0 mm1 = Ret (arr, o1) mm2 /\
    memmaps mm2 !! src = Some pm /\
    kalloc malloc_ok fuel SCHED_KERNEL_STACK_SIZE 0 (Z.lor KALLOC_OPTN_ALIGN KALLOC_OPTN_KERNEL) 0
      (mm2 <| memmaps := <[memmap := map_copy pm]> (memmaps mm2) |>) = Ret (stack, o2) mm';
  gr_some : dir <> 0 /\ arr <> 0 /\ stack <> 0 }.

Lemma clone_memmap_ok k mm mm2 sp me pg pid tid lk pf bu memmap src pm arr o1 :
  memmap_wf pm -> memmaps mm !! src = Some pm ->
  kalloc malloc_ok fuel (page_index (length_ pm) * 4) 0 KALLOC_OPTN_KERNEL 0 mm = Ret (arr, o1) mm2 -> arr <> 0 ->
  memmaps mm2 !! src = Some pm ->
  clone_memmap malloc_ok fuel memmap src (mkWorld k mm sp me pg pid tid lk pf bu) =
  Ret true (mkWorld k (mm2 <| memmaps := <[memmap := map_copy pm]> (memmaps mm2) |>) sp me (<[memmap := arr]> pg) pid tid lk pf bu).
Proof.
  intros Hwf Hpm E Ha Hpm2. unfold clone_memmap. rewrite bind_get. cbn [w_m]. rewrite Hpm. simpl deref. rewrite bind_ret_l.
  unfold kalloc_kernel. rewrite bind_assoc, (onM_run _ _ _ _ _ _ _ _ _ _ _ _ _ _ E), bind_ret_l, bind_get.
  cbn [w_m]. rewrite Hpm2. simpl deref. rewrite bind_ret_l.
  erewrite onM_run by reflexivity. rewrite bind_modify, (proj2 (Z.eqb_neq _ _) Ha).
  set (words := words_at arr _). pose proof (words_at_length arr (Z.to_nat (page_index (length_ pm)))) as Hw. fold words in Hw.
  unfold onM, zoom, on_map, bind, get, deref, ret, memmap_clone. kred. simpl. rewrite lookup_insert_eq. simpl.
  destruct Hwf as (_ & _ & HI). unfold fill_words, bind, ret, modify. rewrite decide_True by lia. simpl.
  unfold map_copy. f_equal. f_equal. kred. rewrite insert_insert_eq.
  replace (drop _ words) with (@nil Z); [by rewrite app_nil_r|].
  symmetry. apply nil_length_inv. rewrite length_drop. lia.
Qed.

(** ** Up to the initialisation of the task *)

(** What [fork] finds. *)
Record can_fork (k : kstate) (sp : gmap Z space) (pf tid : Z) (bu : list Z) (c : task) (table : Z) (d : desc_info)
    (l ps ts cps cs nl : list Z) (pn : vfs_node) : Prop := {
  cf_files : open_files k c table d l;
  cf_nodes : nodes_free (k_nodes k) (nodes_of (k_files k) l);
  cf_lock : t_lock c = 0;
  cf_sched : scheduling k ps ts;
  cf_slock : k_schedule_lock k = 0;
  cf_count : 0 <= l_count (k_tasks_list k) < 2 ^ 32 - 1;
  cf_tasks : tlist k LTasks ps ts;
  cf_children : tlist k (LChildren (k_current_task k)) cps cs;
  cf_disj : forall p, p ∈ ps -> p ∉ cps;
  cf_null : is_Some (k_items k !! 0);
  cf_spaces : forall t, t = k_idle_task k \/ t ∈ ts -> is_Some (sp !! t);
  cf_procfs : k_nodes k !! pf = Some pn /\ pf <> 0 /\ Z.land (n_flags pn) FS_DIRECTORY <> 0 /\ n_lock pn = 0;
  cf_entries : Vfs.children k pf nl /\ pf ∉ nl;
  cf_tid : 0 < tid < 2 ^ 31 /\ (12 <= length bu)%nat }.

(** The state [k'] differs from [k] by the task [child] and by what the lists
    and the scheduler do not use. *)
Record task_added (k k' : kstate) (child : Z) (t0 : task) : Prop := {
  ta_tasks : k_tasks k' = <[child := t0]> (k_tasks k);
  ta_rest : (k_items k', k_tasks_list k', k_current_task k', k_idle_task k', k_schedule_lock k') =
            (k_items k, k_tasks_list k, k_current_task k, k_idle_task k, k_schedule_lock k) }.

Lemma added_tlist k k' child t0 r ps ts : task_added k k' child t0 -> k_tasks k !! child = None ->
  tlist k r ps ts -> tlist k' r ps ts.
Proof.
  intros [Ht [= Hi Hl _ _ _]] Hf (ll & H1 & H2). exists ll. rewrite Hi. split; [|done].
  destruct r as [|t|t]; simpl in *; [by rewrite Hl|..]; rewrite Ht, lookup_insert_ne by (intros <-; by rewrite Hf in H1); done.
Qed.

Lemma added_scheduling k k' child t0 ps ts : task_added k k' child t0 -> k_tasks k !! child = None ->
  scheduling k ps ts -> scheduling k' ps ts.
Proof.
  intros [Ht [= Hi Hl Hc Hid _]] Hf [(v & Hv & Hr) H2 H3 H4 H5 H6]. split; rewrite ?Hi, ?Hl, ?Hc, ?Hid, ?Ht; try done.
  - exists v. by rewrite lookup_insert_ne by congruence.
  - eapply Forall_impl; [exact H3|]. simpl. intros t (? & ? & u & Hu & Hk). split_and!; try done. exists u.
    by rewrite lookup_insert_ne by congruence.
Qed.
End Memory.

(** ** References *)

Lemma with_ref_lookup h q r n : h !! r = Some n ->
  with_ref h q !! r = Some (if decide (r = q) then n <| n_refs := u32 (n_refs n + 1) |> else n).
Proof.
  intros Hn. unfold with_ref. case_decide as E; [subst; rewrite Hn; by simplify_map_eq|].
  destruct (h !! q); by simplify_map_eq.
Qed.

(** One reference more for each time the node occurs. *)
Lemma with_refs_lookup qs : forall h r n, h !! r = Some n ->
  exists n', with_refs h qs !! r = Some n' /\ n' = n <| n_refs := n_refs n' |> /\
    n_refs n' = Nat.iter (length (filter (r =.) qs)) (fun z => u32 (z + 1)) (n_refs n).
Proof.
  induction qs as [|q qs IH]; intros h r n Hn; [exists n; split; [done|]; by destruct n|]. cbn [with_refs foldl].
  destruct (IH (with_ref h q) r _ (with_ref_lookup h q r n Hn)) as (n' & H1 & H2 & H3). exists n'. split; [done|].
  rewrite filter_cons. case_decide as E; simpl in *.
  - split; [by rewrite H2 at 1|]. rewrite H3. exact (Nat.iter_swap _ _ (fun z => u32 (z + 1)) (n_refs n)).
  - done.
Qed.

Lemma with_refs_children s s' qs d l : k_nodes s' = with_refs (k_nodes s) qs -> Vfs.children s d l -> Vfs.children s' d l.
Proof.
  intros E (n & Hn & Hc). destruct (with_refs_lookup qs _ _ _ Hn) as (n' & Hn' & En & _).
  exists n'. rewrite E. split; [done|]. rewrite En. eapply chain_frame; [exact Hc|].
  intros q m _ Hm. destruct (with_refs_lookup qs _ _ _ Hm) as (m' & Hm' & Em & _). exists m'. split; [done|]. by rewrite Em.
Qed.

Section Prepare.
Context {al : Allocator} {dr : Drivers} {un : Uninit} (malloc_ok : nat -> bool) (fuel : nat) (Hample : ample).

(** The state when [fork] starts with the task structure: the entry under
    /proc and the copy of the descriptor table are there. *)
Record prepared (k kB : kstate) (pf tid : Z) (d : desc_info) (l nl : list Z) (tbl : Z) (dt : desc_info) (l' : list Z) : Prop := {
  pr_task : task_added k kB (child_addr k) (task_at (child_addr k));
  pr_procfs : Vfs.children kB pf (nl ++ [node_addr k]);
  pr_node : exists n t, k_nodes kB !! node_addr k = Some n /\ decimal_of tid t /\ n_name n = string_at (cstr t []) /\
              n_flags n = FS_DIRECTORY;
  pr_table : k_descs kB = <[tbl := dt]> (k_descs k) /\ k_descs k !! tbl = None /\ tbl <> 0 /\
             d_fd_next dt = d_fd_next d /\ d_lock dt = 0;
  pr_files : fchain (k_files kB) (d_files dt) l' /\ entries (k_files kB) l' = entries (k_files k) l /\
             (forall f, f ∈ l' -> k_files k !! f = None) /\
             (forall f v, k_files k !! f = Some v -> k_files kB !! f = Some v);
  pr_refs : forall q n, k_nodes k !! q = Some n -> exists n', k_nodes kB !! q = Some n' /\
              n_refs n' = Nat.iter (length (filter (q =.) (nodes_of (k_files k) l))) (fun z => u32 (z + 1)) (n_refs n) }.

(** The parts of the state that the entry under /proc leaves alone. *)
Definition not_nodes (s : kstate) := (k_tasks s, k_files s, k_descs s,
  (k_items s, k_tasks_list s, k_current_task s, k_idle_task s, k_schedule_lock s)).
Definition not_files (s : kstate) := (k_tasks s, (k_items s, k_tasks_list s, k_current_task s, k_idle_task s, k_schedule_lock s)).

Lemma fork_prepares k mm sp me pg pid tid pf bu c table d l ps ts cps cs nl pn psp pm dir phys arr stack mm' :
  can_fork k sp pf tid bu c table d l ps ts cps cs nl pn -> sp !! k_current_task k = Some psp ->
  granted malloc_ok fuel mm (sp_memmap psp) (memmap_addr k) pm dir phys arr stack mm' ->
  exists kB bu' tbl dt l', prepared k kB pf tid d l nl tbl dt l' /\
    fork malloc_ok fuel (mkWorld k mm sp me pg pid tid 0 pf bu) =
    fork_finish (child_addr k) dir phys (memmap_addr k) stack (node_addr k) tbl pid tid
      (mkWorld kB mm' sp me (<[memmap_addr k := arr]> pg) (s32 (pid + 1)) (s32 (tid + 1)) 0 pf bu').
Proof.
  intros Hcf Hpsp [Hwf (mm1 & mm2 & o1 & o2 & E1 & Hpm1 & E2 & Hpm2 & E3) (Hd0 & Ha0 & Hs0)].
  destruct (child_fresh Hample k) as [Hch0 Hch]. destruct (node_fresh Hample k) as [Hnd0 Hnd].
  set (child := child_addr k) in *. set (node := node_addr k) in *.
  pose proof (Hample _ _ _ : memmap_addr k <> 0) as Hmm0.
  (* the entry *)
  destruct (cf_procfs _ _ _ _ _ _ _ _ _ _ _ _ _ _ _ Hcf) as (Hpf & Hpf0 & Hpfl & Hpfk).
  destruct (cf_entries _ _ _ _ _ _ _ _ _ _ _ _ _ _ _ Hcf) as ((pn' & Hpn' & Hcn) & Hpnl).
  destruct (cf_tid _ _ _ _ _ _ _ _ _ _ _ _ _ _ _ Hcf) as (Htid & Hbu).
  assert (Hnl : node ∉ nl).
  { intros Hin. destruct (chain_dom _ _ _ node Hcn Hin) as [_ [x Hx]]. by rewrite Hnd in Hx. }
  set (kn := with_node k).
  assert (Hkn : k_nodes kn = <[node := node_at node]> (k_nodes k)) by done.
  set (mm3 := mm2 <| memmaps := <[memmap_addr k := map_copy pm]> (memmaps mm2) |>) in *.
  set (pg' := <[memmap_addr k := arr]> pg).
  destruct (add_procfs_node_ok Hample kn mm' sp me pg' (s32 (pid + 1)) (s32 (tid + 1)) 0 pf bu node (node_at node) tid pn nl)
    as (kA & t & bu' & E4 & Ht & HcA & (nA & HnA & HnameA & HflA & _) & HlkA & FA); try done.
  { rewrite Hkn. by simplify_map_eq. }
  { rewrite Hkn. by rewrite lookup_insert_ne by congruence. }
  { exists pn. rewrite Hkn. split; [by rewrite lookup_insert_ne by congruence|].
    replace pn with pn' by congruence. eapply chain_frame; [exact Hcn|]. intros q m Hq Hm. exists m.
    by rewrite lookup_insert_ne by set_solver. }
  { congruence. }
  pose proof (FA _ not_nodes ltac:(done)) as GA. unfold not_nodes in GA. injection GA as A1 A2 A3 A4 A5 A6 A7 A8.
  assert (Hold : forall q n, k_nodes k !! q = Some n -> exists n', k_nodes kA !! q = Some n' /\
    (n_lock n', n_refs n') = (n_lock n, n_refs n)).
  { intros q n Hq. assert (q <> node) by congruence. apply HlkA; [|done]. rewrite Hkn. by rewrite lookup_insert_ne. }
  (* the table *)
  destruct (cf_files _ _ _ _ _ _ _ _ _ _ _ _ _ _ _ Hcf) as [Hc Hi Ht0 Hdt Hdl Hfc].
  assert (Hcc : child <> k_current_task k) by (intros E; rewrite <- E in Hc; congruence).
  destruct (clone_descriptor_table_ok kA c table d l Hample) as (tbl & kB & dt & l' & E5 & Htb0 & [T1 T2 T3 T4 T5 T6 T7 T8 T9]).
  { split; rewrite ?A1, ?A2, ?A3, ?A6; try done. change (k_tasks kn) with (<[child := task_at child]> (k_tasks k)).
    change (k_current_task kn) with (k_current_task k). by rewrite lookup_insert_ne. }
  { intros q Hq. rewrite A2 in Hq. destruct (cf_nodes _ _ _ _ _ _ _ _ _ _ _ _ _ _ _ Hcf q Hq) as (n & Hn & Hl).
    destruct (Hold q n Hn) as (n' & Hn' & [= El _]). exists n'. by rewrite El. }
  pose proof (T9 _ not_files ltac:(done)) as GB. unfold not_files in GB. injection GB as B1 B4 B5 B6 B7 B8.
  exists kB, bu', tbl, dt, l'. split.
  { split.
    - split; [by rewrite B1, A1 | by rewrite B4, B5, B6, B7, B8, A4, A5, A6, A7, A8].
    - by eapply with_refs_children.
    - destruct (with_refs_lookup (nodes_of (k_files kA) l) _ _ _ HnA) as (n' & Hn' & En & _). rewrite T8. exists n', t.
      split; [done|]. rewrite En. by split.
    - rewrite T2, <- A3. by destruct T3.
    - rewrite A2 in T5. change (k_files kn) with (k_files k) in *. split_and!; try done.
      + intros f Hf. rewrite <- A2. by apply T6.
      + intros f v Hv. apply T7. by rewrite A2.
    - intros q n Hq. destruct (Hold q n Hq) as (n1 & Hn1 & [= _ Er]). rewrite T8, A2.
      destruct (with_refs_lookup (nodes_of (k_files kn) l) _ _ _ Hn1) as (n2 & Hn2 & _ & Er2). exists n2. split; [done|].
      by rewrite Er2, Er. }
  (* the run *)
  unfold fork. rewrite (bind_Ret _ _ _ _ _ (new_ids _ _ _ _ _ _ _ _ _)), bind_get. cbn [w_m].
  rewrite (onM_run _ _ _ _ _ _ _ _ _ _ _ _ _ _ E1), (proj2 (Z.eqb_neq _ _) Hd0).
  erewrite onK_run by reflexivity. fold (child_addr k). fold child. rewrite (proj2 (Z.eqb_neq _ _) Hch0).
  erewrite onK_run by reflexivity. change (set_objs _ _) with (with_child k).
  unfold malloc_raw. rewrite bind_assoc. erewrite onK_run by reflexivity. fold (memmap_addr k).
  rewrite (proj2 (Z.eqb_neq _ _) Hmm0), bind_assoc. erewrite onK_run by reflexivity. rewrite bind_ret_l.
  rewrite (proj2 (Z.eqb_neq _ _) Hmm0), bind_get. change (set_objs _ _) with (with_memmap k). cbn [w_k w_spaces].
  change (k_current_task (with_memmap k)) with (k_current_task k). rewrite Hpsp. simpl deref. rewrite bind_ret_l.
  rewrite (bind_Ret _ _ _ _ _ (clone_memmap_ok malloc_ok fuel (with_memmap k) mm1 mm2 sp me pg _ _ _ _ _ _ _ _ _ _ Hwf Hpm1 E2 Ha0 Hpm2)).
  cbv [negb]. fold mm3 pg'. unfold kalloc_kernel. rewrite bind_assoc, (onM_run _ _ _ _ _ _ _ _ _ _ _ _ _ _ E3), bind_ret_l.
  rewrite (proj2 (Z.eqb_neq _ _) Hs0). erewrite onK_run by reflexivity. fold (node_addr k). fold node.
  rewrite (proj2 (Z.eqb_neq _ _) Hnd0). erewrite onK_run by reflexivity. change (set_objs _ _) with kn.
  rewrite (bind_Ret _ _ _ _ _ E4), (onK_run _ _ _ _ _ _ _ _ _ _ _ _ _ _ E5), (proj2 (Z.eqb_neq _ _) Htb0), bind_ret_l.
  done.
Qed.
End Prepare.

(** ** The result *)

(** What makes [v] a child of the task [c] at [cur]. *)
Record is_child (c : task) (cur child pid tid tbl node stack : Z) (v : task) : Prop := {
  ic_ids : (t_id v, t_pid v, t_parent v, t_main_thread v) = (tid, pid, cur, child);
  ic_rights : (t_uid v, t_gid v, t_euid v, t_egid v) = (t_uid c, t_gid c, t_euid c, t_egid c);
  ic_handlers : sa_handler <$> t_sig_action v = sa_handler <$> t_sig_action c;
  ic_signals : (t_sigmask v, t_sig_pending v, t_sig_delivered v) = (t_sigmask c, [0; 0; 0; 0], [0; 0; 0; 0]);
  ic_own : (t_cwd v, t_descriptors_info v, t_procfs_node v, t_kernel_stack v) = (t_cwd c, tbl, node, stack);
  ic_running : (t_status v, t_errno v, t_lock v) = (TASK_STATE_RUNNING, pid, 0) }.

Lemma handlers_inherited {un : Uninit} (as_ bs : list sigact) : length as_ = length bs ->
  sa_handler <$> imap (fun i a => match bs !! i with Some b => a <| sa_handler := sa_handler b |> | None => a end) as_ =
  sa_handler <$> bs.
Proof.
  intros Hl. apply list_eq. intros i. rewrite !list_lookup_fmap, list_lookup_imap.
  destruct (as_ !! i) as [a|] eqn:Ea.
  - destruct (lookup_lt_is_Some_2 bs i) as [b Eb]; [rewrite <- Hl; by eapply lookup_lt_Some|]. by rewrite Eb.
  - apply lookup_ge_None in Ea. rewrite (proj2 (lookup_ge_None bs i)) by lia. done.
Qed.

Lemma child_task_ok {un : Uninit} c cur child pid tid tbl node stack v : length (t_sig_action c) = 32%nat ->
  bare v = bare (child_task c cur child pid tid tbl node stack (task_at child)) ->
  is_child c cur child pid tid tbl node stack v.
Proof.
  intros Hc E.
  assert (H : forall X (f : task -> X), (forall t, f (bare t) = f t) ->
    f v = f (child_task c cur child pid tid tbl node stack (task_at child))).
  { intros X f Hf. by rewrite <- Hf, E, Hf. }
  split.
  - by apply (H _ (fun v => (t_id v, t_pid v, t_parent v, t_main_thread v))).
  - by apply (H _ (fun v => (t_uid v, t_gid v, t_euid v, t_egid v))).
  - rewrite (H _ t_sig_action ltac:(done)). apply handlers_inherited. rewrite Hc. apply task_at_actions.
  - by apply (H _ (fun v => (t_sigmask v, t_sig_pending v, t_sig_delivered v))).
  - by apply (H _ (fun v => (t_cwd v, t_descriptors_info v, t_procfs_node v, t_kernel_stack v))).
  - by apply (H _ (fun v => (t_status v, t_errno v, t_lock v))).
Qed.

(** The state [k'] after the switch, compared with [k] before the call. *)
Record fork_done {al : Allocator} {un : Uninit} (k k' : kstate) (child : Z) (v : task) (pf tid : Z) (d : desc_info) (l ps ts cps cs nl : list Z)
    (tbl : Z) : Prop := {
  fd_new : child <> 0 /\ k_tasks k !! child = None /\ k_tasks k' !! child = Some v;
  fd_others : forall q, q <> child -> q <> k_current_task k' -> bare <$> k_tasks k' !! q = bare <$> k_tasks k !! q;
  fd_sched : exists n, scheduling k' (ps ++ [n]) (ts ++ [child]);
  fd_threads : exists n, tlist k' (LThreads child) [n] [child];
  fd_children : exists n, tlist k' (LChildren (k_current_task k)) (cps ++ [n]) (cs ++ [child]);
  fd_files : exists dt l', k_descs k' = <[tbl := dt]> (k_descs k) /\ k_descs k !! tbl = None /\ tbl <> 0 /\
    d_fd_next dt = d_fd_next d /\ fchain (k_files k') (d_files dt) l' /\
    entries (k_files k') l' = entries (k_files k) l /\ (forall f, f ∈ l' -> k_files k !! f = None);
  fd_kept : forall f v, k_files k !! f = Some v -> k_files k' !! f = Some v;
  fd_refs : forall q n, k_nodes k !! q = Some n -> exists n', k_nodes k' !! q = Some n' /\
    n_refs n' = Nat.iter (length (filter (q =.) (nodes_of (k_files k) l))) (fun z => u32 (z + 1)) (n_refs n);
  fd_procfs : Vfs.children k' pf (nl ++ [node_addr k]);
  fd_name : exists n t, k_nodes k' !! node_addr k = Some n /\ decimal_of tid t /\ n_name n = string_at (cstr t []) }.

Section Result.
Context {al : Allocator} {dr : Drivers} {un : Uninit} (malloc_ok : nat -> bool) (fuel : nat).

(** A task that was not switched to can run as before. *)
Lemma runnable_bare (h h' : gmap Z task) q : bare <$> h' !! q = bare <$> h !! q -> runnable h' q = runnable h q.
Proof.
  intros E. unfold runnable. destruct (h !! q) as [v|], (h' !! q) as [v'|]; try done. apply (inj Some) in E.
  assert (H : forall X (f : task -> X), (forall t, f (bare t) = f t) -> f v' = f v).
  { intros X f Hf. by rewrite <- (Hf v'), <- (Hf v), E. }
  by rewrite (H _ t_status), (H _ t_sig_pending).
Qed.

(** C4: [fork], when there is memory: the child is a new task with the
    identity, the working directory, the signal handlers and the mask of its
    parent and no pending signals; its descriptor table is a new one with the
    same open files, in new file structures and with one more reference to
    each node; it is the only thread of its process, the last child of its
    parent and the last task of the scheduler, which switches to the next task
    in turn; it has the entry of its number under /proc, the copied
    directory and page map, and the buffers of its parent; every other task
    that was not switched to is as before.

    The call returns later, once in each task.  The child returns 0 when it is
    switched to, which happens within as many switches as there are tasks.  The
    parent reads its result from the error number of the child when it is
    switched to again: whatever has happened until then, it returns what that
    number is at that time, and faults if the structure of the child is gone.
    [fork] has put the number of the child there, so that the parent, which is
    switched to within as many switches if it can run, returns that number if
    the tasks that run before it leave the field alone. *)
Theorem fork_creates_child k mm sp me pg pid tid pf bu c table d l ps ts cps cs nl pn psp pm dir phys arr stack mm' mt :
  ample -> can_fork k sp pf tid bu c table d l ps ts cps cs nl pn -> length (t_sig_action c) = 32%nat ->
  sp !! k_current_task k = Some psp ->
  granted malloc_ok fuel mm (sp_memmap psp) (memmap_addr k) pm dir phys arr stack mm' ->
  current_task mm' = Some mt ->
  (forall b, b ∈ mt_buffers mt -> b_mmap b <> 0 -> is_Some (List.find (fun m => mi_self m =? b_mmap b) (mt_mmaps mt))) ->
  let child := child_addr k in
  exists w' v tbl bs ms,
    fork malloc_ok fuel (mkWorld k mm sp me pg pid tid 0 pf bu) = Ret (Switched child) w' /\
    is_child c (k_current_task k) child pid tid tbl (node_addr k) stack v /\
    fork_done k (w_k w') child v pf tid d l ps ts cps cs nl tbl /\
    w_spaces w' = <[child := mkSpace dir phys (memmap_addr k)]> sp /\
    memmaps (w_m w') = memmaps mm' /\ page_tables (w_m w') = page_tables mm' /\
    sp_directory <$> w_spaces w' !! k_current_task (w_k w') = Some (current_directory (w_m w')) /\
    w_memory w' = <[k_current_task k := mt]> (<[child := mkMtask pid pid bs ms 0 (memmap_addr k)]> me) /\
    current_task (w_m w') = w_memory w' !! k_current_task (w_k w') /\ Forall2 (buffer_copy (mt_mmaps mt)) (mt_buffers mt) bs /\
    (w_next_pid w', w_next_tid w') = (s32 (pid + 1), s32 (tid + 1)) /\
    (exists n w2 w3, (n <= S (length ts))%nat /\ switches n w' = Ret tt w2 /\ k_current_task (w_k w2) = child /\
       kfork_tail child w2 = Ret (Returned 0) w3) /\
    (forall w2, k_schedule_lock (w_k w2) = 1 -> exists w3, kfork_resumed child w2 =
       match k_tasks (w_k w2) !! child with Some v2 => Ret (t_errno v2) w3 | None => Faults w3 end) /\
    (k_current_task k ∈ ts -> runnable (k_tasks k) (k_current_task k) = true ->
       exists n w2 w3, (n <= S (length ts))%nat /\ switches n w' = Ret tt w2 /\
         k_current_task (w_k w2) = k_current_task k /\ kfork_resumed child w2 = Ret pid w3).
Proof.
  intros Hample Hcf Hact Hpsp Hgr Hmt Hmm child.
  destruct (fork_prepares malloc_ok fuel Hample k mm sp me pg pid tid pf bu c table d l ps ts cps cs nl pn psp pm dir phys arr stack mm'
    Hcf Hpsp Hgr) as (kB & bu' & tbl & dt & l' & [Hta Hpr Hnd Htb Hfi Hrf] & E). rewrite E. clear E.
  destruct (child_fresh Hample k) as [Hch0 Hch]. fold child in Hch0, Hch, Hta |- *.
  pose proof Hta as [Hts [= R1 R2 R3 R4 R5]].
  destruct Hcf as [Hof Hnf Hlk Hsch Hsl Hcnt Htl Hcl Hdis Hnull Hsps _ _ _]. pose proof (of_task _ _ _ _ _ Hof) as Hc.
  assert (Hcc : child <> k_current_task k) by (intros Ec; rewrite <- Ec in Hc; congruence).
  assert (Hci : child <> k_idle_task k).
  { intros Ec. destruct Hsch as [(vi & Hvi & _) _ _ _ _ _]. rewrite <- Ec in Hvi. congruence. }
  assert (Hct : child ∉ ts).
  { intros Hin. destruct Hsch as [_ _ Hall _ _ _]. rewrite Forall_forall in Hall.
    destruct (Hall _ Hin) as (_ & _ & u & Hu & _). congruence. }
  assert (HcB : k_tasks kB !! k_current_task kB = Some c) by (by rewrite Hts, R3, lookup_insert_ne).
  assert (HtlB : tlist kB LTasks ps ts) by (by eapply added_tlist).
  destruct (fork_lists Hample kB mm' sp me (<[memmap_addr k := arr]> pg) (s32 (pid + 1)) (s32 (tid + 1)) 0 pf bu' child
    (node_addr k) tbl pid tid (memmap_addr k) (task_at child) c ps ts cps cs mt forked (fun _ => kfork child (mkSpace dir phys (memmap_addr k)) stack))
    as (k2 & bs & ms & n1 & n2 & Hli & HF & E); rewrite ?R1, ?R3; try done.
  { rewrite Hts. by simplify_map_eq. }
  { by rewrite <- R3. }
  { rewrite <- R3 in Hcl |- *. by eapply added_tlist. }
  unfold fork_finish. rewrite bind_get. cbn [w_k]. rewrite R3. rewrite R3 in E. rewrite E. clear E.
  destruct (kfork_ok Hample kB k2 child _ c ps ts cps cs n1 n2 (mkSpace dir phys (memmap_addr k)) stack mm' mt sp
    (<[child := mkMtask pid pid bs ms 0 (memmap_addr k)]> me) (<[memmap_addr k := arr]> pg) (s32 (pid + 1)) (s32 (tid + 1)) 0 pf bu' Hli)
    as (k' & n3 & spc & [C1 (v & Cv & Bv) C3 C4 C5 (C6 & C7 & C8 & C9) C10] & Hspc & E); rewrite ?R2, ?R3, ?R4, ?R5; try done.
  { by eapply added_scheduling. }
  { by rewrite <- R3. }
  { by destruct (gr_some _ _ _ _ _ _ _ _ _ _ _ Hgr) as (_ & _ & ?). }
  lazymatch type of E with _ = Ret _ ?W =>
    assert (Hsw : switched W (ps ++ [n3]) (ts ++ [child])) end.
  { split; cbn [w_k w_spaces]; [done | done |]. rewrite C6, R4. intros t Ht. destruct (decide (t = child)) as [->|Hne].
    - rewrite lookup_insert_eq. by eexists.
    - rewrite lookup_insert_ne by done. apply Hsps. set_solver. }
  rewrite E, R3. rewrite R3 in Bv, C5, Hsw.
  assert (Hic : is_child c (k_current_task k) child pid tid tbl (node_addr k) stack v) by (by apply child_task_ok).
  pose proof (ic_running _ _ _ _ _ _ _ _ _ Hic) as [= Hrun Herr _].
  eexists _, v, tbl, bs, ms. split; [reflexivity|]. split; [done|].
  split; [|split_and!; try done; cbn [w_spaces w_k w_m]; [by rewrite Hspc | | |]].
  - cbn [w_k]. split; rewrite ?C7, ?C8, ?C9; [done | | by exists n3 | by exists n1 | by exists n2 | |
      by destruct Hfi as (_ & _ & _ & ?) | done | destruct Hpr as (x & ? & ?); exists x; by rewrite C7 |].
    + intros q Hq Hqc. rewrite C3 by done. by rewrite Hts, lookup_insert_ne.
    + destruct Htb as (? & ? & ? & ? & _), Hfi as (? & ? & ? & _). by exists dt, l'.
    + destruct Hnd as (n & t & ? & ? & ? & _). by exists n, t.
  - destruct (runs_again _ _ _ child Hsw) as (n & w2 & Hn & H2 & Hc2 & Hw2 & _); [set_solver | |].
    { right. unfold runnable. cbn [w_k]. by rewrite Cv, Hrun. }
    destruct (child_returns w2 child (sw_lock _ _ _ Hw2) Hc2) as [w3 H3]. exists n, w2, w3.
    rewrite length_app in Hn. simpl in Hn. split_and!; [lia | done ..].
  - intros w2 Hl2. destruct (parent_returns w2 child Hl2) as [w3 H3]. exists w3. rewrite H3. unfold errno_of.
    by destruct (k_tasks (w_k w2) !! child).
  - intros Hin Hr. destruct (runs_again _ _ _ (k_current_task k) Hsw) as (n & w2 & Hn & H2 & Hc2 & Hw2 & He2); [set_solver | |].
    { cbn [w_k]. destruct (decide (k_current_task k = k_current_task k')) as [|Hne]; [by left | right].
      rewrite <- Hr. apply runnable_bare. rewrite C3 by done. by rewrite Hts, lookup_insert_ne. }
    destruct (parent_returns w2 child (sw_lock _ _ _ Hw2)) as [w3 H3]. rewrite He2 in H3. unfold errno_of in H3. cbn [w_k] in H3.
    rewrite Cv in H3. cbn [fmap option_fmap option_map] in H3. rewrite Herr in H3. exists n, w2, w3.
    rewrite length_app in Hn. simpl in Hn. split_and!; [lia | done ..].
Qed.
End Result.
