(* ===== verification/ForkExample.v ===== *)
(** * ForkExample: a process that forks

    The machine of MmuExample.v with one task, which has /dev/tty open, and
    /proc with the entry of that task; the theorem on [fork] applied to it. *)

From S2P Require Import Prelude Memmap Mmu MmuExample CString Chain KState LinkedList Signals Vfs Io Env Tasks Process Initrd.
From S2P Require Import Descriptors Keeps DescClone Fork Forked Resume Forking.

#[local] Existing Instance bump_allocator.
#[local] Existing Instance no_drivers.

(** Memory is zero before it is written. *)
#[local] Instance zeroed : Uninit := {|
  task_at _ := no_task;
  node_at _ := VFS_NODE_INITIALIZER 0;
  words_at _ n := replicate n 0;
  task_at_actions _ := eq_refl;
  words_at_length _ n := length_replicate n 0 |}.

Definition parent : task :=
  no_task <| t_id := 1 |> <| t_pid := 1 |> <| t_uid := 7 |> <| t_cwd := 3 |> <| t_descriptors_info := 200 |>
    <| t_main_thread := 100 |> <| t_kernel_stack := 0x9000 |>
    <| t_sig_action := <[9%nat := mkSigact 0 0 0x400]> (t_sig_action no_task) |>.

Definition st : kstate :=
  empty_kstate
    <| k_nodes := list_to_map [(3, Example.dir "dev" 0 4 0); (4, Example.file "tty" 3 0 FS_CHARDEVICE);
                               (5, Example.dir "proc" 0 6 0); (6, Example.dir "1" 5 0 0)] |>
    <| k_files := {[300 := mkFile 0 0 3 4 0]} |> <| k_descs := {[200 := mkDesc 1 0 0 300]} |>
    <| k_items := list_to_map [(0, mkItem 0 0); (10, mkItem 100 0)] |>
    <| k_tasks := list_to_map [(50, no_task); (100, parent)] |>
    <| k_current_task := 100 |> <| k_idle_task := 50 |> <| k_tasks_list := mkList 10 10 10 0 1 |>.

Definition spaces : gmap Z space := list_to_map [(50, mkSpace 0 0 0); (100, mkSpace D1 0 default_memmap)].

Definition pages : memmap := mkMemmap [7; 0] 64 0.
Definition fork_machine : mmu := machine <| memmaps := <[default_memmap := pages]> (memmaps machine) |>.

(** The machine after the three allocations. *)
Definition after {A} (m : M mmu A) (s : mmu) : mmu := match m s with Ret _ s => s | _ => s end.
Definition machine1 : mmu := after (mmu_clone_directory has_memory 2 D1 CLONE_COW) fork_machine.
Definition machine2 : mmu := after (kalloc has_memory 2 8 0 KALLOC_OPTN_KERNEL 0) machine1.
Definition machine3 : mmu :=
  after (kalloc has_memory 2 SCHED_KERNEL_STACK_SIZE 0 (Z.lor KALLOC_OPTN_ALIGN KALLOC_OPTN_KERNEL) 0)
    (machine2 <| memmaps := <[memmap_addr st := map_copy pages]> (memmaps machine2) |>).

Lemma memory_there : granted has_memory 2 fork_machine default_memmap (memmap_addr st) pages 0x10000 0x2000 0x15000 0x16000 machine3.
Proof.
  split; [apply wf_check_spec; reflexivity | | done].
  exists machine1, machine2, (Some 0x7000), (Some 0x8000). split_and!; vm_compute; reflexivity.
Qed.

Lemma task_forks : can_fork st spaces 5 2 (replicate 16 0) parent 200 (mkDesc 1 0 0 300) [300] [10] [100] [] [] [6]
  (Example.dir "proc" 0 6 0).
Proof.
  split; try done.
  - split; try done. simpl. split_and!; try done. by eexists.
  - intros q Hq. replace q with 4 by (vm_compute in Hq; set_solver). by eexists.
  - split; try done.
    + by exists no_task.
    + simpl. split_and!; try done. by eexists.
    + repeat constructor; try done. by exists parent.
    + apply NoDup_singleton.
    + right. by exists 0%nat.
  - exists (mkList 10 10 10 0 1). split_and!; try done. simpl. split_and!; try done. by eexists.
  - by exists LINKED_LIST_INIT.
  - set_solver.
  - intros t [->|Ht]; [by eexists|]. replace t with 100 by set_solver. by eexists.
  - split; [|set_solver]. exists (Example.dir "proc" 0 6 0). split; [done|]. simpl. split_and!; try done. by eexists.
  - split; [lia|]. simpl. lia.
Qed.

(** The task 100 forks: the child is at 301.  Within two switches the child runs
    and returns 0, and the parent runs and returns 2. *)
Lemma fork_creates_child_witness :
  exists w' v tbl,
    fork has_memory 2 (mkWorld st fork_machine spaces ∅ ∅ 2 2 0 5 (replicate 16 0)) = Ret (Switched 301) w' /\
    is_child parent 100 301 2 2 tbl (node_addr st) 0x16000 v /\
    fork_done st (w_k w') 301 v 5 2 (mkDesc 1 0 0 300) [300] [10] [100] [] [] [6] tbl /\
    (exists n w2 w3, (n <= 2)%nat /\ switches n w' = Ret tt w2 /\ k_current_task (w_k w2) = 301 /\
       kfork_tail 301 w2 = Ret (Returned 0) w3) /\
    (exists n w2 w3, (n <= 2)%nat /\ switches n w' = Ret tt w2 /\ k_current_task (w_k w2) = 100 /\
       kfork_resumed 301 w2 = Ret 2 w3).
Proof.
  destruct (fork_creates_child has_memory 2 st fork_machine spaces ∅ ∅ 2 2 5 (replicate 16 0) parent 200 (mkDesc 1 0 0 300)
    [300] [10] [100] [] [] [6] (Example.dir "proc" 0 6 0) (mkSpace D1 0 default_memmap) pages 0x10000 0x2000 0x15000 0x16000 machine3
    (mkMtask 1 0 [] [] 0 default_memmap) bump_ample task_forks eq_refl eq_refl memory_there)
    as (w' & v & tbl & bs & ms & H1 & H2 & H3 & _ & _ & _ & _ & _ & _ & _ & _ & H4 & _ & H5).
  - vm_compute. reflexivity.
  - intros b Hb. by apply elem_of_nil in Hb.
  - exists w', v, tbl. change (child_addr st) with 301 in *. split; [exact H1|]. split; [exact H2|]. split; [exact H3|].
    split; [exact H4|]. apply H5; [by constructor | reflexivity].
Defined.

(** The parent has no number to read when the child is gone before it runs. *)
Example fork_child_gone :
  match fork has_memory 2 (mkWorld st fork_machine spaces ∅ ∅ 2 2 0 5 (replicate 16 0)) with
  | Ret _ w => match (next_switch;;; free_task 301;;; kfork_resumed 301) w with Faults _ => true | _ => false end
  | _ => false
  end = true.
Proof. vm_compute. reflexivity. Qed.

(** The same run by computation: the names under /proc, the new task's number
    and handlers, and the references to the node of the terminal. *)
Example fork_runs :
  match fork has_memory 2 (mkWorld st fork_machine spaces ∅ ∅ 2 2 0 5 (replicate 16 0)) with
  | Ret (Switched t) w =>
      (t, n_name <$> k_nodes (w_k w) !! node_addr st, n_refs <$> k_nodes (w_k w) !! 4,
       (fun v => (t_pid v, t_uid v, sa_handler <$> t_sig_action v !! 9%nat)) <$> k_tasks (w_k w) !! t,
       k_current_task (w_k w))
  | _ => (0, None, None, None, 0)
  end = (301, Some "2"%string, Some 2, Some (2, 7, Some 0x400), 301).
Proof. vm_compute. reflexivity. Qed.

(** Without memory for the directory nothing happens but that a number of a
    process and of a task are gone. *)
Example fork_without_memory :
  let none := fork_machine <| memmaps := <[kernel_memmap := mkMemmap [0xFFFFFFFF; 0xFFFFFFFF] 64 0]> (memmaps fork_machine) |> in
  match fork has_memory 2 (mkWorld st none spaces ∅ ∅ 2 2 0 5 (replicate 16 0)) with
  | Ret r w => (r, w_next_pid w, k_mallocs (w_k w))
  | _ => (Returned 0, 0, O)
  end = (Failed ENOMEM, 3, O).
Proof. vm_compute. reflexivity. Qed.
