(* ===== verification/Clock.v ===== *)
(** * Clock: the real-time clock and the timer

    Model of arch/x86/rtc.c, of [cmos_readb] and [cmos_write] of
    arch/x86/cmos.c, and of the timer (timer.c, arch/x86/timer.c and
    [sleep_ticks] of scheduler.c).

    The clock chip changes its registers by itself: [cmos n r] is what register
    [r] shows at the [n]-th read, a parameter.  The theorem says that what
    [rtc_read] decodes, in each of the four formats that the chip can have, is
    one date that the chip has shown and no mixture of two, although the date
    may change between any two reads, and which time it computes from it; the
    examples at the end show where that is not the time. *)

From S2P Require Import Prelude.

(** ** Data *)

Record rtc := mkRtc {
  century_register : Z;
  second : Z;
  minute : Z;
  hour : Z;
  day : Z;
  month : Z;
  year : Z;
  reads : nat;                        (* reads of the chip so far *)
  ports : list (Z * Z);               (* what was written to ports *)
  tick : Z
}.
#[export] Instance eta_rtc : Eta rtc := fun s =>
  mkRtc (century_register s) (second s) (minute s) (hour s) (day s) (month s) (year s) (reads s) (ports s) (tick s).

Definition YEAR := 2014.
Definition days : list Z := [31; 28; 31; 30; 31; 30; 31; 31; 30; 31; 30; 31].

(** ** Operations *)

Section Rtc.
Context (cmos : nat -> Z -> Z).

Definition cmos_readb (offset : Z) : M rtc Z :=
  s <- get;; modify (fun s => s <| reads := S (reads s) |>);;; ret (u8 (cmos (reads s) offset)).

Definition get_update_in_progress_flag : M rtc Z := b <- cmos_readb 0xA;; ret (Z.land b 0x80).

Fixpoint wait_update (fuel : nat) : M rtc unit :=
  match fuel with
  | O => nofuel
  | S fuel => f <- get_update_in_progress_flag;; if negb (f =? 0) then wait_update fuel else ret tt
  end.

(** One reading of all registers; [century] is the local variable. *)
Definition read_registers (fuel : nat) (century : Z) : M rtc Z :=
  wait_update fuel;;;
  v <- cmos_readb 0x00;; modify (fun s => s <| second := v |>);;;
  v <- cmos_readb 0x02;; modify (fun s => s <| minute := v |>);;;
  v <- cmos_readb 0x04;; modify (fun s => s <| hour := v |>);;;
  v <- cmos_readb 0x07;; modify (fun s => s <| day := v |>);;;
  v <- cmos_readb 0x08;; modify (fun s => s <| month := v |>);;;
  v <- cmos_readb 0x09;; modify (fun s => s <| year := v |>);;;
  s <- get;;
  if negb (century_register s =? 0) then cmos_readb (century_register s) else ret century.

(** The registers, for the comparison with the last ones. *)
Definition shown (s : rtc) (century : Z) : list Z :=
  [second s; minute s; hour s; day s; month s; u8 (year s); century].

(** The loop: read until two readings in a row agree. *)
Fixpoint read_twice (fuel : nat) (century : Z) : M rtc Z :=
  match fuel with
  | O => nofuel
  | S fuel' =>
      s <- get;;
      let last := shown s century in
      century <- read_registers fuel century;;
      s <- get;;
      (* the year is compared as an int *)
      if bool_decide (last = [second s; minute s; hour s; day s; month s; year s; century])
      then ret century else read_twice fuel' century
  end.

Definition bcd (v : Z) : Z := Z.land v 0x0F + (v / 16) * 10.

Definition from_bcd (century : Z) : M rtc Z :=
  modify (fun s => s <| second := u8 (bcd (second s)) |>);;;
  modify (fun s => s <| minute := u8 (bcd (minute s)) |>);;;
  modify (fun s => s <| hour := u8 (Z.lor (Z.land (hour s) 0x0F + (Z.land (hour s) 0x70 / 16) * 10) (Z.land (hour s) 0x80)) |>);;;
  modify (fun s => s <| day := u8 (bcd (day s)) |>);;;
  modify (fun s => s <| month := u8 (bcd (month s)) |>);;;
  modify (fun s => s <| year := u32 (bcd (year s)) |>);;;
  s <- get;;
  if negb (century_register s =? 0) then ret (u8 (bcd century)) else ret century.

(** Both conversions, as register B says. *)
Definition convert (registerB century : Z) : M rtc Z :=
  century <- (if Z.land registerB 0x04 =? 0 then from_bcd century else ret century);;
  s <- get;;
  (if (Z.land registerB 0x02 =? 0) && negb (Z.land (hour s) 0x80 =? 0)
   then modify (fun s => s <| hour := (Z.land (hour s) 0x7F + 12) mod 24 |>) else ret tt);;;
  ret century.

(** The four-digit year. *)
Definition full_year (century : Z) : M rtc unit :=
  s <- get;;
  if negb (century_register s =? 0) then modify (fun s => s <| year := u32 (year s + century * 100) |>)
  else
    modify (fun s => s <| year := u32 (year s + (YEAR / 100) * 100) |>);;;
    s <- get;;
    if year s <? YEAR then modify (fun s => s <| year := u32 (year s + 100) |>) else ret tt.

(** The sum at the end, in a 32-bit [time_t]; [days] has no element 12. *)
Definition seconds_of : M rtc Z :=
  s <- get;;
  d <- deref (days !! Z.to_nat (month s));;
  let time := u32 ((year s - 1970) * 365 * 24 * 60 * 60) in
  let time := u32 (time + d * 24 * 60 * 60) in
  let time := u32 (time + day s * 24 * 60 * 60) in
  let time := u32 (time + hour s * 60 * 60) in
  let time := u32 (time + minute s * 60) in
  ret (u32 (time + second s)).

(** [rtc_read]: the value is [*time]; [century] is what the uninitialised
    local variable holds. *)
Definition rtc_read (fuel : nat) (century : Z) : M rtc Z :=
  century <- read_registers fuel century;;
  century <- read_twice fuel century;;
  registerB <- cmos_readb 0x0B;;
  century <- convert registerB century;;
  full_year century;;;
  seconds_of.
End Rtc.

(** ** Ports *)

Definition port_out (port v : Z) : M rtc unit := modify (fun s => s <| ports := ports s ++ [(port, v)] |>).

(** [cmos_write]: all 128 bytes of the buffer. *)
Fixpoint cmos_write_loop (n : nat) (i : Z) (buf : list Z) : M rtc unit :=
  match n with
  | O => ret tt
  | S n => b <- deref (buf !! Z.to_nat i);; port_out 0x70 i;;; port_out 0x71 b;;; cmos_write_loop n (i + 1) buf
  end.
Definition cmos_write (buf : list Z) : M rtc unit := cmos_write_loop 128 0 buf.

(** The timer: channel 0 in mode 3, with a divisor of 16 bits. *)
Definition arch_timer_init (frequency : Z) : M rtc unit :=
  if frequency =? 0 then fault else
  let divisor := 1193180 / frequency in
  port_out 0x43 0x36;;; port_out 0x40 (Z.land divisor 0xFF);;; port_out 0x40 (Z.land (Z.shiftr divisor 8) 0xFF).
Definition timer_init (frequency : Z) : M rtc unit :=
  modify (fun s => s <| tick := 0 |>);;; arch_timer_init frequency.
Definition timer_getticks : M rtc Z := s <- get;; ret (tick s).

(** [schedule] is what the callback calls after it has counted. *)
Definition timer_callback (schedule : M rtc unit) : M rtc unit :=
  modify (fun s => s <| tick := u32 (tick s + 1) |>);;; schedule.

(** [sleep_ticks]: other tasks run, and ticks go by, in [schedule]. *)
Fixpoint sleep_until (schedule : M rtc unit) (fuel : nat) (t : Z) : M rtc unit :=
  match fuel with
  | O => nofuel
  | S fuel => now <- timer_getticks;; if now <? t then schedule;;; sleep_until schedule fuel t else ret tt
  end.
Definition sleep_ticks (schedule : M rtc unit) (fuel : nat) (ticks : Z) : M rtc unit :=
  now <- timer_getticks;;
  let t := u32 (now + ticks) in
  assert (ticks <? t) "t > ticks";;; sleep_until schedule fuel t.

(** ** What the chip shows *)

(** A date of a year between [YEAR] and [YEAR + 99]. *)
Record date := mkDate { d_year : Z; d_month : Z; d_day : Z; d_hour : Z; d_minute : Z; d_second : Z }.

#[export] Instance date_eq_dec : EqDecision date.
Proof. solve_decision. Defined.

Definition date_ok (d : date) : Prop :=
  YEAR <= d_year d < YEAR + 100 /\ 1 <= d_month d <= 12 /\ 1 <= d_day d <= 31 /\ 0 <= d_hour d < 24 /\
  0 <= d_minute d < 60 /\ 0 <= d_second d < 60.

(** A number in binary or in binary-coded decimal. *)
Definition enc (binary : bool) (v : Z) : Z := if binary then v else v / 10 * 16 + v mod 10.

(** The hour; with a 12-hour clock from 1 to 12 and bit 7 for the afternoon. *)
Definition enc_hour (binary h24 : bool) (h : Z) : Z :=
  if h24 then enc binary h
  else enc binary (if h mod 12 =? 0 then 12 else h mod 12) + (if 12 <=? h then 0x80 else 0).

(** The registers of the chip that show the date [d]. *)
Definition chip (binary h24 : bool) (d : date) (r : Z) : Z :=
  if r =? 0x00 then enc binary (d_second d)
  else if r =? 0x02 then enc binary (d_minute d)
  else if r =? 0x04 then enc_hour binary h24 (d_hour d)
  else if r =? 0x07 then enc binary (d_day d)
  else if r =? 0x08 then enc binary (d_month d)
  else if r =? 0x09 then enc binary (d_year d mod 100)
  else if r =? 0x0B then (if binary then 0x04 else 0) + (if h24 then 0x02 else 0)
  else 0.

(** The hour the code makes of it: 12 hours off at noon and at midnight of a
    12-hour clock. *)
Definition read_hour (h24 : bool) (h : Z) : Z :=
  if h24 || negb (h mod 12 =? 0) then h else if h =? 0 then 12 else 0.

(** ** Finite checks *)

Definition all_from (n : nat) (f : Z -> bool) : bool := forallb f (seqZ 0 (Z.of_nat n)).

Lemma all_from_spec n f v : all_from n f = true -> 0 <= v < Z.of_nat n -> f v = true.
Proof. intros H Hv. unfold all_from in H. rewrite forallb_forall in H. apply H, list_elem_of_In, elem_of_seqZ. lia. Qed.

Lemma enc_ok v : 0 <= v < 100 ->
  (u8 (enc false v) = enc false v /\ u8 (bcd (enc false v)) = v /\ u32 (bcd (enc false v)) = v) /\ u8 (enc true v) = v.
Proof.
  intros Hv. assert (H : all_from 100 (fun v => (u8 (enc false v) =? enc false v) && (u8 (bcd (enc false v)) =? v) &&
    (u32 (bcd (enc false v)) =? v) && (u8 (enc true v) =? v)) = true) by (vm_compute; reflexivity).
  apply (all_from_spec 100 _ v H) in Hv. cbv beta in Hv. rewrite !andb_true_iff, !Z.eqb_eq in Hv. tauto.
Qed.

(** What is left of the hour after both conversions. *)
Definition hour_of (binary h24 : bool) (v : Z) : Z :=
  let v := if binary then v else u8 (Z.lor (Z.land v 0x0F + (Z.land v 0x70 / 16) * 10) (Z.land v 0x80)) in
  if negb h24 && negb (Z.land v 0x80 =? 0) then (Z.land v 0x7F + 12) mod 24 else v.

Lemma hour_ok binary h24 h : 0 <= h < 24 ->
  u8 (enc_hour binary h24 h) = enc_hour binary h24 h /\ hour_of binary h24 (enc_hour binary h24 h) = read_hour h24 h.
Proof.
  intros Hh. assert (H : all_from 24 (fun h => forallb (fun b => forallb (fun c =>
    (u8 (enc_hour b c h) =? enc_hour b c h) && (hour_of b c (enc_hour b c h) =? read_hour c h)) [true; false]) [true; false]) = true)
    by (vm_compute; reflexivity).
  apply (all_from_spec 24 _ h H) in Hh. cbv beta in Hh. cbn [forallb] in Hh.
  rewrite !andb_true_iff, !Z.eqb_eq in Hh. destruct binary, h24; tauto.
Qed.

(** ** The reading *)

(** The registers after a reading of the date [d]. *)
Definition filled (binary h24 : bool) (d : date) (s : rtc) (n : nat) : rtc :=
  mkRtc (century_register s) (u8 (chip binary h24 d 0)) (u8 (chip binary h24 d 2)) (u8 (chip binary h24 d 4))
    (u8 (chip binary h24 d 7)) (u8 (chip binary h24 d 8)) (u8 (chip binary h24 d 9)) n (ports s) (tick s).

(** The chip at each read: its date, and whether it is busy, which is never so
    for more than [busy] reads in a row.  Two changes of the date are more than
    four readings apart: a reading takes at most [busy + 7] reads. *)
Record ticking (cmos : nat -> Z -> Z) (binary h24 : bool) (D : nat -> date) (busy : nat) : Prop := {
  tk_dates : forall n, date_ok (D n);
  tk_shows : forall n r, r <> 0xA -> cmos n r = chip binary h24 (D n) r;
  tk_busy : forall n, exists m, (n <= m <= n + busy)%nat /\ Z.land (u8 (cmos m 0xA)) 0x80 = 0;
  tk_apart : forall i j, (i < j)%nat -> D (S i) <> D i -> D (S j) <> D j -> (4 * (busy + 7) <= j - i)%nat
}.

Section Read.
Context (cmos : nat -> Z -> Z) (binary h24 : bool) (D : nat -> date) (busy : nat).
Context (Hc : ticking cmos binary h24 D busy).

Lemma wait_update_ok fuel : forall s m, (reads s <= m)%nat -> (m - reads s < fuel)%nat ->
  Z.land (u8 (cmos m 0xA)) 0x80 = 0 ->
  exists n, (reads s < n <= S m)%nat /\ wait_update cmos fuel s = Ret tt (s <| reads := n |>).
Proof using.
  induction fuel as [|fuel IH]; intros s m Hm Hf Hfree; [lia|]. cbn [wait_update].
  unfold get_update_in_progress_flag, cmos_readb, bind, get, modify, ret. cbv beta iota.
  destruct (Z.eqb_spec (Z.land (u8 (cmos (reads s) 0xA)) 0x80) 0) as [E|E]; cbn [negb].
  - exists (S (reads s)). split; [lia | done].
  - assert (reads s <> m) by congruence.
    destruct (IH (s <| reads := S (reads s) |>) m) as (n & Hn & En); [cbn; lia | cbn; lia | done |].
    cbn in Hn. exists n. split; [lia|]. by rewrite En.
Qed.

(** The registers as they are read from the [m]-th read on: a date for each. *)
Definition sweep (m : nat) (s : rtc) : rtc :=
  mkRtc (century_register s) (u8 (chip binary h24 (D m) 0)) (u8 (chip binary h24 (D (1 + m)) 2))
    (u8 (chip binary h24 (D (2 + m)) 4)) (u8 (chip binary h24 (D (3 + m)) 7)) (u8 (chip binary h24 (D (4 + m)) 8))
    (u8 (chip binary h24 (D (5 + m)) 9)) (6 + m) (ports s) (tick s).

Lemma read_registers_ok fuel century s : (busy < fuel)%nat -> century_register s = 0 ->
  exists m, (reads s < m <= reads s + busy + 1)%nat /\ read_registers cmos fuel century s = Ret century (sweep m s).
Proof using Hc.
  intros Hf H0. destruct (tk_busy _ _ _ _ _ Hc (reads s)) as (f & Hr & Hfree).
  destruct (wait_update_ok fuel s f) as (m & Hm & E); [lia | lia | done |]. exists m. split; [lia|].
  unfold read_registers. rewrite (bind_Ret _ _ _ _ _ E). unfold cmos_readb, bind, get, modify, ret. cbn.
  rewrite !(tk_shows _ _ _ _ _ Hc) by done. unfold sweep. by rewrite H0.
Qed.

(** Reads between which the date does not change. *)
Lemma quiet_const a n : (forall i, (a <= i < a + n)%nat -> D (S i) = D i) -> forall k, (k <= n)%nat -> D (k + a) = D a.
Proof using.
  intros Hq. induction k as [|k IH]; intros Hk; [done|]. cbn [Nat.add]. rewrite Hq by lia. apply IH. lia.
Qed.

Lemma quiet_or_change a n :
  (forall i, (a <= i < a + n)%nat -> D (S i) = D i) \/ exists i, (a <= i < a + n)%nat /\ D (S i) <> D i.
Proof using.
  destruct (decide (Forall (fun i => D (S i) = D i) (seq a n))) as [H|H].
  - left. intros i Hi. rewrite Forall_forall in H. apply H, elem_of_seq. lia.
  - right. apply not_Forall_Exists in H; [|intros i; apply _]. apply Exists_exists in H as (i & Hi & Hne).
    apply elem_of_seq in Hi. exists i. split; [lia | exact Hne].
Qed.

Lemma sweep_quiet m s : (forall i, (m <= i < m + 5)%nat -> D (S i) = D i) ->
  sweep m s = filled binary h24 (D m) s (6 + m).
Proof using.
  intros Hq. pose proof (quiet_const m 5 Hq) as H. unfold sweep, filled.
  by rewrite (H 1%nat), (H 2%nat), (H 3%nat), (H 4%nat), (H 5%nat) by lia.
Qed.

(** The comparison at the end of the loop. *)
Definition agree (m1 m2 : nat) (s : rtc) (century : Z) : Prop :=
  shown (sweep m1 s) century =
  [second (sweep m2 s); minute (sweep m2 s); hour (sweep m2 s); day (sweep m2 s); month (sweep m2 s); year (sweep m2 s); century].

Lemma agree_fields m1 m2 s century : agree m1 m2 s century ->
  sweep m2 s = (sweep m1 s) <| reads := (6 + m2)%nat |>.
Proof using.
  intros H. unfold agree, shown in H.
  assert (u8 (year (sweep m1 s)) = year (sweep m1 s)) as Hy by (unfold sweep, u8; cbn [year]; by rewrite Z.mod_mod by lia).
  rewrite Hy in H. injection H as H1 H2 H3 H4 H5 H6.
  change ((sweep m1 s) <| reads := (6 + m2)%nat |>) with (mkRtc (century_register s) (u8 (chip binary h24 (D m1) 0))
    (u8 (chip binary h24 (D (1 + m1)) 2)) (u8 (chip binary h24 (D (2 + m1)) 4)) (u8 (chip binary h24 (D (3 + m1)) 7))
    (u8 (chip binary h24 (D (4 + m1)) 8)) (u8 (chip binary h24 (D (5 + m1)) 9)) (6 + m2) (ports s) (tick s)).
  cbn [Nat.add]. rewrite H1, H2, H3, H4, H5, H6. reflexivity.
Qed.

(** Readings that agree are one date, since not both can be torn. *)
Lemma agree_date m1 m2 s century : (m1 + 6 < m2 <= m1 + busy + 7)%nat -> agree m1 m2 s century ->
  exists n, (m1 <= n <= m2)%nat /\ sweep m2 s = filled binary h24 (D n) s (6 + m2).
Proof using Hc.
  intros Hm H. destruct (quiet_or_change m2 5) as [Hq2|(j & Hj & Cj)].
  { exists m2. split; [lia | by apply sweep_quiet]. }
  destruct (quiet_or_change m1 5) as [Hq1|(i & Hi & Ci)].
  - exists m1. split; [lia|]. rewrite (agree_fields _ _ _ _ H), sweep_quiet by done. done.
  - pose proof (tk_apart _ _ _ _ _ Hc i j ltac:(lia) Ci Cj). lia.
Qed.

(** Readings without a change agree. *)
Lemma quiet_agree m1 m2 s century : (m1 <= m2)%nat -> (forall i, (m1 <= i < m2 + 5)%nat -> D (S i) = D i) ->
  agree m1 m2 s century.
Proof using.
  intros Hm Hq. pose proof (quiet_const m1 (m2 + 5 - m1) ltac:(intros i Hi; apply Hq; lia)) as H.
  unfold agree. rewrite !sweep_quiet by (intros i Hi; apply Hq; lia).
  replace (D m2) with (D m1) by (rewrite <- (H (m2 - m1)%nat) by lia; f_equal; lia).
  unfold shown, filled. cbn [second minute hour day month year]. do 5 f_equal. unfold u8. by rewrite Z.mod_mod by lia.
Qed.

Lemma agree_or_change m1 m2 s century : (m1 <= m2)%nat ->
  agree m1 m2 s century \/ exists i, (m1 <= i < m2 + 5)%nat /\ D (S i) <> D i.
Proof using.
  intros Hm. destruct (quiet_or_change m1 (m2 + 5 - m1)) as [Hq|(i & Hi & Ci)].
  - left. apply quiet_agree; [done|]. intros i Hi. apply Hq. lia.
  - right. exists i. split; [lia | done].
Qed.

(** One turn of the loop. *)
Lemma read_twice_step fuel century s m1 : (busy < S fuel)%nat -> century_register s = 0 ->
  exists m2, (m1 + 6 < m2 <= m1 + busy + 7)%nat /\
    (agree m1 m2 s century -> read_twice cmos (S fuel) century (sweep m1 s) = Ret century (sweep m2 s)) /\
    (~ agree m1 m2 s century -> read_twice cmos (S fuel) century (sweep m1 s) = read_twice cmos fuel century (sweep m2 s)).
Proof using Hc.
  intros Hf H0. destruct (read_registers_ok (S fuel) century (sweep m1 s) Hf H0) as (m2 & Hm2 & E). cbn in Hm2.
  exists m2. split; [lia|]. cbn [read_twice]. rewrite bind_get. cbv zeta. rewrite (bind_Ret _ _ _ _ _ E), bind_get.
  change (sweep m2 (sweep m1 s)) with (sweep m2 s). unfold agree. split; intros H.
  - by rewrite bool_decide_eq_true_2.
  - by rewrite bool_decide_eq_false_2.
Qed.

(** Two changes that are not far apart are the same. *)
Lemma change_unique i j : D (S i) <> D i -> D (S j) <> D j -> (i < j + 4 * (busy + 7))%nat -> (j < i + 4 * (busy + 7))%nat ->
  i = j.
Proof using Hc.
  intros Ci Cj H1 H2. destruct (Nat.lt_trichotomy i j) as [Hl|[Hl|Hl]]; [|done|];
    [pose proof (tk_apart _ _ _ _ _ Hc _ _ Hl Ci Cj) | pose proof (tk_apart _ _ _ _ _ Hc _ _ Hl Cj Ci)]; lia.
Qed.

(** After two comparisons that fail the third one does not: both were due to a
    change during the second reading. *)
Lemma third_agrees m1 m2 m3 m4 s century :
  (m1 + 6 < m2 <= m1 + busy + 7)%nat -> (m2 + 6 < m3 <= m2 + busy + 7)%nat -> (m3 + 6 < m4 <= m3 + busy + 7)%nat ->
  ~ agree m1 m2 s century -> ~ agree m2 m3 s century -> agree m3 m4 s century.
Proof using Hc.
  intros Hm2 Hm3 Hm4 N1 N2.
  destruct (agree_or_change m1 m2 s century) as [?|(i & Hi & Ci)]; [lia | done |].
  destruct (agree_or_change m2 m3 s century) as [?|(j & Hj & Cj)]; [lia | done |].
  destruct (agree_or_change m3 m4 s century) as [?|(k & Hk & Ck)]; [lia | done |].
  pose proof (change_unique i j Ci Cj ltac:(lia) ltac:(lia)). pose proof (change_unique j k Cj Ck ltac:(lia) ltac:(lia)). lia.
Qed.

#[local] Instance agree_dec m1 m2 s century : Decision (agree m1 m2 s century).
Proof using. unfold agree. apply _. Defined.

Lemma read_twice_ok fuel century s m1 : (busy + 3 <= fuel)%nat -> century_register s = 0 ->
  exists n m, (m1 <= n <= m)%nat /\ read_twice cmos fuel century (sweep m1 s) = Ret century (filled binary h24 (D n) s (6 + m)).
Proof using Hc.
  intros Hf H0. do 3 (destruct fuel as [|fuel]; [lia|]).
  destruct (read_twice_step (S (S fuel)) century s m1) as (m2 & Hm2 & A2 & N2); [lia | done |].
  destruct (read_twice_step (S fuel) century s m2) as (m3 & Hm3 & A3 & N3); [lia | done |].
  destruct (read_twice_step fuel century s m3) as (m4 & Hm4 & A4 & _); [lia | done |].
  destruct (decide (agree m1 m2 s century)) as [G1|G1].
  { destruct (agree_date m1 m2 s century Hm2 G1) as (n & Hn & En). exists n, m2. rewrite (A2 G1), En. split; [lia | done]. }
  rewrite (N2 G1). destruct (decide (agree m2 m3 s century)) as [G2|G2].
  { destruct (agree_date m2 m3 s century Hm3 G2) as (n & Hn & En). exists n, m3. rewrite (A3 G2), En. split; [lia | done]. }
  pose proof (third_agrees m1 m2 m3 m4 s century Hm2 Hm3 Hm4 G1 G2) as G3.
  destruct (agree_date m3 m4 s century Hm4 G3) as (n & Hn & En). exists n, m4. rewrite (N3 G2), (A4 G3), En. split; [lia | done].
Qed.
End Read.

Lemma year_ok y : YEAR <= y < YEAR + 100 ->
  (let y' := y mod 100 + YEAR / 100 * 100 in if y' <? YEAR then y' + 100 else y') = y.
Proof.
  unfold YEAR. intros Hy. change (2014 / 100 * 100) with 2000. cbv zeta.
  pose proof (Z.div_mod y 100). pose proof (Z.mod_pos_bound y 100). destruct (Z.ltb_spec (y mod 100 + 2000) 2014); lia.
Qed.

(** The time the code computes for a date. *)
Definition computed_time (d : date) (len : Z) (h : Z) : Z :=
  u32 ((d_year d - 1970) * 365 * 86400 + len * 86400 + d_day d * 86400 + h * 3600 + d_minute d * 60 + d_second d).

Lemma full_year_ok s century y : century_register s = 0 -> year s = y mod 100 -> YEAR <= y < YEAR + 100 ->
  full_year century s = Ret tt (s <| year := y |>).
Proof.
  intros Hc Hy Hr. pose proof (year_ok y Hr) as Hf. cbv zeta in Hf. unfold full_year. rewrite bind_get, Hc. cbn [Z.eqb negb].
  rewrite bind_modify, bind_get. assert (Hm : 0 <= y mod 100 < 100) by (apply Z.mod_pos_bound; lia).
  change (YEAR / 100 * 100) with 2000 in *. unfold YEAR in *.
  assert (E : u32 (year s + 2000) = y mod 100 + 2000) by (rewrite Hy; apply u32_small; lia).
  destruct s as [cr se mi ho da mo ye re po ti]. cbn in *. rewrite E.
  destruct (y mod 100 + 2000 <? 2014); unfold modify, ret; cbn; do 2 f_equal; [|done].
  rewrite u32_small by lia. done.
Qed.

Lemma seconds_of_ok s len : days !! Z.to_nat (month s) = Some len ->
  seconds_of s = Ret (u32 ((year s - 1970) * 365 * 86400 + len * 86400 + day s * 86400 + hour s * 3600 + minute s * 60 + second s)) s.
Proof.
  intros Hl. unfold seconds_of. rewrite bind_get, Hl. cbn [deref]. unfold bind, ret. f_equal.
  unfold u32. repeat (rewrite <- ?Z.add_assoc; rewrite Zplus_mod_idemp_l). f_equal. lia.
Qed.

Lemma convert_ok binary h24 d century s n : date_ok d -> century_register s = 0 ->
  convert (u8 (chip binary h24 d 0x0B)) century (filled binary h24 d s n) =
  Ret century (mkRtc 0 (d_second d) (d_minute d) (read_hour h24 (d_hour d)) (d_day d) (d_month d) (d_year d mod 100)
                 n (ports s) (tick s)).
Proof.
  intros (Hy & Hmo & Hda & Hho & Hmi & Hse) Hc.
  assert (Hy2 : 0 <= d_year d mod 100 < 100) by (apply Z.mod_pos_bound; lia).
  destruct (hour_ok binary h24 (d_hour d) Hho) as [Hh1 Hh2].
  pose proof (enc_ok (d_second d) ltac:(lia)) as ((S1 & S2 & _) & S3).
  pose proof (enc_ok (d_minute d) ltac:(lia)) as ((M1 & M2 & _) & M3).
  pose proof (enc_ok (d_day d) ltac:(lia)) as ((D1 & D2 & _) & D3).
  pose proof (enc_ok (d_month d) ltac:(lia)) as ((O1 & O2 & _) & O3).
  pose proof (enc_ok (d_year d mod 100) Hy2) as ((Y1 & _ & Y2) & Y3).
  unfold convert, from_bcd, filled, chip. cbn [Z.eqb Pos.eqb]. rewrite Hc, Hh1.
  set (hr := enc_hour binary h24 (d_hour d)) in *. unfold hour_of in Hh2.
  destruct binary.
  - rewrite S3, M3, D3, O3, Y3. rewrite <- Hh2. clearbody hr. unfold bind, get, modify, ret.
    destruct h24; [done|]. change (Z.land (u8 (4 + 0)) 4 =? 0) with false. change (Z.land (u8 (4 + 0)) 2 =? 0) with true.
    cbn -[Z.land Z.modulo]. by destruct (Z.land hr 128 =? 0).
  - rewrite S1, M1, D1, O1, Y1, <- Hh2. clearbody hr. unfold bind, get, modify, ret.
    destruct h24; [change (Z.land (u8 (0 + 2)) 4 =? 0) with true; change (Z.land (u8 (0 + 2)) 2 =? 0) with false |
                   change (Z.land (u8 (0 + 0)) 4 =? 0) with true; change (Z.land (u8 (0 + 0)) 2 =? 0) with true];
    cbn -[u8 u32 bcd enc Z.land Z.modulo Z.div Z.lor]; rewrite S2, M2, D2, O2, Y2; [done|].
    by destruct (Z.land (u8 _) 128 =? 0).
Qed.

(** C33: [rtc_read] reads one date.  The chip shows a date in one of its four
    formats (binary or decimal, 24 or 12 hours); it may be busy, and the date
    may change between any two reads, but two changes are more than four
    readings of all registers apart.  Then [rtc_read] comes to an end, and
    there is one moment between its first and its last read such that the
    seconds, minutes, day, month and year in the global variables are all those
    of the date that the chip showed at that moment, however the readings fell
    on a change.  So is the hour, except that a 12-hour clock is read as 0
    at noon and as 12 at midnight ([read_hour]).  The time is the sum that the
    code makes of them, with the length of the one month that [days] has at the
    number of the current month, which is not the time of that date; in December
    that is past the end of the array, and the call faults. *)
Theorem rtc_read_decodes cmos binary h24 D busy fuel century s :
  ticking cmos binary h24 D busy -> century_register s = 0 -> (busy + 3 <= fuel)%nat ->
  exists n s', (reads s < n < reads s')%nat /\
    second s' = d_second (D n) /\ minute s' = d_minute (D n) /\ hour s' = read_hour h24 (d_hour (D n)) /\
    day s' = d_day (D n) /\ month s' = d_month (D n) /\ year s' = d_year (D n) /\
    rtc_read cmos fuel century s =
    match days !! Z.to_nat (d_month (D n)) with
    | Some len => Ret (computed_time (D n) len (read_hour h24 (d_hour (D n)))) s'
    | None => Faults s'
    end.
Proof.
  intros Hc H0 Hf.
  destruct (read_registers_ok cmos binary h24 D busy Hc fuel century s ltac:(lia) H0) as (m1 & Hm1 & E1).
  destruct (read_twice_ok cmos binary h24 D busy Hc fuel century s m1 Hf H0) as (n & m & Hn & E2).
  pose proof (tk_dates _ _ _ _ _ Hc n) as Hd. pose proof Hd as (Hy & _).
  unfold rtc_read. rewrite (bind_Ret _ _ _ _ _ E1), (bind_Ret _ _ _ _ _ E2).
  unfold cmos_readb at 1. rewrite bind_assoc, bind_get, bind_assoc, bind_modify, bind_ret_l.
  set (d := D n) in *. set (h := read_hour h24 (d_hour d)). set (n2 := (6 + m)%nat).
  set (s3 := mkRtc (century_register s) (d_second d) (d_minute d) h (d_day d) (d_month d) (d_year d) (S n2) (ports s) (tick s)).
  exists n, s3. split_and!; try done; [lia | unfold s3, n2; cbn; lia |].
  assert (E3 : seconds_of s3 = match days !! Z.to_nat (d_month d) with
    | Some len => Ret (computed_time d len h) s3 | None => Faults s3 end).
  { destruct (days !! Z.to_nat (d_month d)) as [len|] eqn:El; [by apply seconds_of_ok|]. unfold seconds_of. rewrite bind_get.
    cbn [month s3]. by rewrite El. }
  fold d. fold h. rewrite <- E3. clear E1 E2 E3. rewrite (tk_shows _ _ _ _ _ Hc) by done.
  change (reads (filled binary h24 d s n2)) with n2.
  assert (Hb : chip binary h24 (D n2) 0x0B = chip binary h24 d 0x0B) by done. rewrite Hb.
  change ((filled binary h24 d s n2) <| reads := S n2 |>) with (filled binary h24 d s (S n2)).
  rewrite (bind_Ret _ _ _ _ _ (convert_ok binary h24 d century s (S n2) Hd H0)).
  erewrite bind_Ret by (by apply (full_year_ok _ _ (d_year d))). unfold s3. by rewrite H0.
Qed.

(** ** Sleeping *)

(** [sleep_ticks] returns when the ticks have gone by, if each call of the
    scheduler takes at least one; it stops the machine when the sum wraps, and
    before the first tick. *)
Lemma sleep_ticks_ok schedule ticks s :
  (forall s, tick s < 2 ^ 32 - 1 -> exists s', schedule s = Ret tt s' /\ tick s < tick s' < 2 ^ 32) ->
  0 <= tick s -> 0 <= ticks -> tick s + ticks < 2 ^ 32 ->
  if tick s =? 0 then exists s', forall fuel, sleep_ticks schedule fuel ticks s = Panics "t > ticks" s'
  else exists s', sleep_ticks schedule (S (Z.to_nat ticks)) ticks s = Ret tt s' /\ tick s + ticks <= tick s'.
Proof.
  intros Hsch H0 Ht Hsum. destruct (Z.eqb_spec (tick s) 0) as [E0|E0].
  - exists s. intros fuel. unfold sleep_ticks, timer_getticks. rewrite bind_assoc, bind_get, bind_ret_l, E0. cbv zeta.
    rewrite u32_small by lia. unfold assert, bind, panic. by rewrite (proj2 (Z.ltb_ge ticks (0 + ticks))) by lia.
  - unfold sleep_ticks, timer_getticks. rewrite bind_assoc, bind_get, bind_ret_l. cbv zeta. rewrite u32_small by lia.
    rewrite (proj2 (Z.ltb_lt ticks (tick s + ticks))) by lia. unfold assert. rewrite bind_ret_l.
    assert (H : forall fuel s1 t, tick s1 < 2 ^ 32 -> t < 2 ^ 32 -> t - tick s1 <= Z.of_nat fuel ->
      exists s', sleep_until schedule (S fuel) t s1 = Ret tt s' /\ t <= tick s').
    { induction fuel as [|fuel IH]; intros s1 t H1 H2 H3; unfold sleep_until; fold (sleep_until schedule);
        unfold timer_getticks; rewrite bind_assoc, bind_get, bind_ret_l;
        (destruct (Z.ltb_spec (tick s1) t) as [Hlt|Hge]; [|by exists s1]); [lia|].
      destruct (Hsch s1) as (s2 & E & Hs2); [lia|]. rewrite (bind_Ret _ _ _ _ _ E). apply IH; lia. }
    apply H; lia.
Qed.

(** ** Examples *)

Definition no_rtc : rtc := mkRtc 0 0 0 0 0 0 0 0 [] 0.

(** The chip goes from the last second of an hour to the next hour between the
    second and the third register of the first reading, and is busy for two
    reads before that. *)
Definition before : date := mkDate 2015 3 14 13 59 59.
Definition after : date := mkDate 2015 3 14 14 0 0.
Definition turning (n : nat) : date := if (n <? 5)%nat then before else after.
Definition show (binary h24 : bool) (D : nat -> date) (n : nat) (r : Z) : Z :=
  if r =? 0xA then (if (n <? 2)%nat then 0x80 else 0) else chip binary h24 (D n) r.

Lemma turning_ticks : ticking (show false false turning) false false turning 2.
Proof.
  split.
  - intros n. unfold turning. destruct (n <? 5)%nat; unfold date_ok, YEAR; simpl; lia.
  - intros n r Hr. unfold show. by rewrite (proj2 (Z.eqb_neq _ _) Hr).
  - intros n. exists (Nat.max n 2). split; [lia|]. unfold show. rewrite (proj2 (Nat.ltb_ge _ _)) by lia. done.
  - intros i j Hij Hi Hj. unfold turning in *.
    destruct (Nat.ltb_spec (S i) 5), (Nat.ltb_spec i 5), (Nat.ltb_spec (S j) 5), (Nat.ltb_spec j 5); try lia; done.
Qed.

(** The first reading of this chip is torn: the minute of before with the hour of
    after. *)
Example torn : match read_registers (show false false turning) 5 77 no_rtc with
               | Ret _ s => (minute s, hour s) | _ => (0, 0) end = (0x59, 0x82).
Proof. vm_compute. reflexivity. Qed.

Lemma rtc_read_decodes_witness :
  exists n s', (0 < n < reads s')%nat /\ second s' = d_second (turning n) /\ minute s' = d_minute (turning n) /\
    hour s' = read_hour false (d_hour (turning n)) /\ day s' = d_day (turning n) /\ month s' = d_month (turning n) /\
    year s' = d_year (turning n) /\
    rtc_read (show false false turning) 5 77 no_rtc =
    match days !! Z.to_nat (d_month (turning n)) with
    | Some len => Ret (computed_time (turning n) len (read_hour false (d_hour (turning n)))) s'
    | None => Faults s'
    end.
Proof.
  apply (rtc_read_decodes (show false false turning) false false turning 2 5 77 no_rtc).
  - exact turning_ticks.
  - reflexivity.
  - simpl. lia.
Defined.

(** The date it reads is the one after the change. *)
Example read_after : match rtc_read (show false false turning) 5 77 no_rtc with
                     | Ret _ s => (hour s, minute s, second s) | _ => (0, 0, 0) end = (14, 0, 0).
Proof. vm_compute. reflexivity. Qed.

(** The first second of 2015 was 1420070400: the code is 18 days ahead. *)
Example new_year : match rtc_read (fun _ => chip true true (mkDate 2015 1 1 0 0 0)) 1 0 no_rtc with
                   | Ret t _ => 1420070400 - t | _ => 0 end = - 18 * 86400.
Proof. vm_compute. reflexivity. Qed.

(** In December there is no result. *)
Example december : match rtc_read (fun _ => chip true true (mkDate 2015 12 24 18 0 0)) 1 0 no_rtc with
                   | Faults _ => true | _ => false end = true.
Proof. vm_compute. reflexivity. Qed.

(** Noon of a 12-hour clock is read as midnight. *)
Example noon : match rtc_read (fun _ => chip false false (mkDate 2015 3 14 12 0 0)) 1 0 no_rtc with
               | Ret _ s => hour s | _ => -1 end = 0.
Proof. vm_compute. reflexivity. Qed.

(** A divisor above 16 bits loses its upper bits: 10 Hz is programmed as
    22 Hz. *)
Example slow_timer : match timer_init 10 no_rtc with Ret _ s => ports s | _ => [] end =
                     [(0x43, 0x36); (0x40, 0x16); (0x40, 0xD2)] /\ 1193180 / 10 - 2 ^ 16 = 0xD216 /\ 1193180 / 0xD216 = 22.
Proof. vm_compute. done. Qed.
