(* ===== verification/Syscall.v ===== *)
(** * Syscall: from a user program into the kernel

    Model of the system call interface: the wrappers of the user library
    (libs/syscalls.c), the numbers (syscall.h), and the table and the handler
    of the kernel (kernel/syscall.c).  A wrapper puts its number and arguments
    into registers and traps; the handler takes the five registers as the
    arguments of the function that the table has for the number.

    The kernel's functions are a parameter, named as in the table; at the end
    some of them are those of Tasks.v. *)

From S2P Require Import Prelude Chain KState LinkedList Signals Vfs Io Tasks.

Local Open Scope string_scope.

(** ** Tables *)

(** [syscalls]: the function and its number of arguments; the empty name is
    NULL. *)
Definition syscalls : list (string * Z) :=
  [("syscall0", 1); ("fork", 0); ("exit", 1); ("getpid", 0); ("getuid", 0); ("getpid", 0); ("open", 2);
   ("close", 1); ("write", 3); ("read", 3); ("kill", 2); ("", 3); ("reboot", 0); ("stat", 2); ("time", 1);
   ("chdir", 1); ("getcwd", 2); ("execve", 3); ("waitpid", 3); ("setenv", 3); ("unsetenv", 1); ("setuid", 1);
   ("setgid", 1); ("geteuid", 0); ("getegid", 0); ("seteuid", 1); ("setegid", 1); ("pipe", 1); ("vfork", 0);
   ("ioctl", 4); ("dup", 1); ("yield", 0); ("clone", 1); ("gettid", 0); ("dup2", 2); ("sync", 0);
   ("chown", 3); ("chroot", 1); ("kfcntl", 3); ("fsync", 1); ("sethostname", 2); ("gethostname", 2);
   ("wait", 1); ("readlink", 3); ("unlink", 1); ("brk", 1); ("lseek", 3); ("link", 2); ("isatty", 1);
   ("sigset", 2); ("sighold", 1); ("sigrelse", 1); ("sigignore", 1); ("sigprocmask", 3); ("signal", 2);
   ("sigaction", 3); ("sigpause", 1); ("sigqueue", 3); ("sigwait", 2); ("pthread_kill", 2);
   ("pthread_create", 4); ("pthread_exit", 1); ("uname", 1); ("opendir", 1); ("closedir", 1); ("readdir_r", 3)].

(** The constants of syscall.h, in the order of their values. *)
Definition SYSCALL_names : list string :=
  ["TEST"; "FORK"; "EXIT"; "GETPID"; "GETUID"; "GETGID"; "OPEN"; "CLOSE"; "WRITE"; "READ"; "KILL"; "READDIR";
   "REBOOT"; "STAT"; "TIME"; "CHDIR"; "GETCWD"; "EXECVE"; "WAITPID"; "SETENV"; "UNSETENV"; "SETUID";
   "SETGID"; "GETEUID"; "GETEGID"; "SETEUID"; "SETEGID"; "PIPE"; "VFORK"; "IOCTL"; "DUP"; "YIELD"; "CLONE";
   "GETTID"; "DUP2"; "SYNC"; "CHOWN"; "CHROOT"; "FCNTL"; "FSYNC"; "SETHOSTNAME"; "GETHOSTNAME"; "WAIT";
   "READLINK"; "UNLINK"; "BRK"; "LSEEK"; "LINK"; "ISATTY"; "SIGSET"; "SIGHOLD"; "SIGRELSE"; "SIGIGNORE";
   "SIGPROCMASK"; "SIGNAL"; "SIGACTION"; "SIGPAUSE"; "SIGQUEUE"; "SIGWAIT"; "PTHREAD_KILL"; "PTHREAD_CREATE";
   "PTHREAD_EXIT"; "UNAME"; "OPENDIR"; "CLOSEDIR"; "READDIR_R"].

Definition SYSCALL_COUNT : Z := 66.

(** The wrappers of the library: name, constant and number of arguments. *)
Definition stubs : list (string * string * nat) :=
  [("syscall_test", "TEST", 0); ("sync", "SYNC", 0); ("reboot", "REBOOT", 0); ("getpid", "GETPID", 0);
   ("fork", "FORK", 0); ("gettid", "GETTID", 0); ("getuid", "GETUID", 0); ("getgid", "GETGID", 0);
   ("geteuid", "GETEUID", 0); ("getegid", "GETEGID", 0); ("yield", "YIELD", 0); ("vfork", "VFORK", 0);
   ("chown", "CHOWN", 3); ("write", "WRITE", 3); ("read", "READ", 3); ("close", "CLOSE", 1);
   ("exit", "EXIT", 1); ("clone", "CLONE", 1); ("dup", "DUP", 1); ("pipe", "PIPE", 1); ("dup2", "DUP2", 2);
   ("sysopen", "OPEN", 3); ("kill", "KILL", 2); ("stat", "STAT", 2); ("time", "TIME", 1);
   ("chdir", "CHDIR", 1); ("getcwd", "GETCWD", 2); ("execve", "EXECVE", 3); ("waitpid", "WAITPID", 3);
   ("setenv", "SETENV", 3); ("unsetenv", "UNSETENV", 1); ("setuid", "SETUID", 1); ("setgid", "SETGID", 1);
   ("seteuid", "SETEUID", 1); ("setegid", "SETEGID", 1); ("chroot", "CHROOT", 1); ("fsync", "FSYNC", 1);
   ("sethostname", "SETHOSTNAME", 2); ("gethostname", "GETHOSTNAME", 2); ("wait", "WAIT", 1);
   ("readlink", "READLINK", 3); ("sigset", "SIGSET", 2); ("sighold", "SIGHOLD", 1);
   ("sigrelse", "SIGRELSE", 1); ("sigignore", "SIGIGNORE", 1); ("sigprocmask", "SIGPROCMASK", 3);
   ("signal", "SIGNAL", 2); ("sigaction", "SIGACTION", 3); ("sigpause", "SIGPAUSE", 1);
   ("sigqueue", "SIGQUEUE", 3); ("sigwait", "SIGWAIT", 2); ("pthread_create", "PTHREAD_CREATE", 4);
   ("pthread_kill", "PTHREAD_KILL", 2); ("pthread_exit", "PTHREAD_EXIT", 1); ("isatty", "ISATTY", 1);
   ("uname", "UNAME", 1)]%nat.

(** ** Operations *)

(** A register is read as an [int]. *)
Record registers := mkRegs { eax : Z; ebx : Z; ecx : Z; edx : Z; esi : Z; edi : Z }.
#[export] Instance eta_registers : Eta registers := fun r =>
  mkRegs (eax r) (ebx r) (ecx r) (edx r) (esi r) (edi r).

Fixpoint index_of (l : list string) (x : string) : option nat :=
  match l with
  | [] => None
  | y :: l => if x =? y then Some O else S <$> index_of l x
  end.

(** The value of a constant. *)
Definition SYSCALL (name : string) : option Z := Z.of_nat <$> index_of SYSCALL_names name.

(** [syscall0] to [syscall4] of the library, up to the trap: what is in the
    other registers stays there. *)
Definition load_registers (num : Z) (args : list Z) (r : registers) : option registers :=
  match args with
  | [] => Some (r <| eax := num |>)
  | [b] => Some (r <| eax := num |> <| ebx := b |>)
  | [b; c] => Some (r <| eax := num |> <| ebx := b |> <| ecx := c |>)
  | [b; c; d] => Some (r <| eax := num |> <| ebx := b |> <| ecx := c |> <| edx := d |>)
  | [b; c; d; e] => Some (r <| eax := num |> <| ebx := b |> <| ecx := c |> <| edx := d |> <| esi := e |>)
  | _ => None
  end.

Section Handler.
Context {S : Type} (kernel : string -> list Z -> M S Z).

(** A call through a pointer. *)
Definition call_entry (entry : string) (args : list Z) : M S Z := if entry =? "" then fault else kernel entry args.

(** [syscall_handler]: the registers of the program afterwards. *)
Definition syscall_handler (r : registers) : M S registers :=
  if (SYSCALL_COUNT <=? u32 (eax r))%Z then ret (r <| eax := ENOSYS |>)
  else
    '(entry, _) <- deref (syscalls !! Z.to_nat (eax r));;
    v <- call_entry entry [ebx r; ecx r; edx r; esi r; edi r];;
    ret (r <| eax := v |>).

(** A call of the wrapper [name] by a program whose registers are [r]: the
    value it returns. *)
Definition user_call (name : string) (args : list Z) (r : registers) : M S Z :=
  '(_, const, arity) <- deref (List.find (fun '(n, _, _) => n =? name) stubs);;
  num <- deref (SYSCALL const);;
  if negb (Nat.eqb arity (length args)) then fault else
  r <- deref (load_registers num args r);;
  r <- syscall_handler r;;
  ret (eax r).
End Handler.

(** ** What is called *)

(** The function that a wrapper should reach. *)
Definition target (name : string) : string :=
  if name =? "sysopen" then "open" else if name =? "syscall_test" then "syscall0" else name.

Definition stub_ok (st : string * string * nat) : bool :=
  let '(name, const, arity) := st in
  bool_decide (fst <$> (SYSCALL const ≫= fun n => syscalls !! Z.to_nat n) =
               Some (if name =? "getgid" then "getpid" else target name)) &&
  bool_decide (is_Some (SYSCALL const)) &&
  match SYSCALL const with Some n => (n <? SYSCALL_COUNT)%Z | None => false end && (arity <=? 4)%nat.

Lemma stubs_ok : forallb stub_ok stubs = true.
Proof. vm_compute. reflexivity. Qed.

Lemma registers_loaded num args r : (length args <= 4)%nat ->
  exists r', load_registers num args r = Some r' /\ eax r' = num /\
    take (length args) [ebx r'; ecx r'; edx r'; esi r'; edi r'] = args.
Proof.
  destruct args as [|b [|c [|d [|e [|? ?]]]]]; simpl; intros H; try lia; eexists; (split; [reflexivity|]); done.
Qed.

(** The wrappers have different names, and none is named like NULL. *)
Lemma find_stub name const arity : (name, const, arity) ∈ stubs ->
  List.find (fun '(n, _, _) => n =? name) stubs = Some (name, const, arity).
Proof.
  intros Hin. assert (H : forallb (fun st => bool_decide (List.find (fun '(n, _, _) => n =? st.1.1) stubs = Some st)) stubs = true)
    by (vm_compute; reflexivity).
  rewrite forallb_forall in H. specialize (H _ (proj1 (list_elem_of_In _ _) Hin)). by apply bool_decide_eq_true in H.
Qed.

Lemma entry_named name const arity : (name, const, arity) ∈ stubs ->
  (if name =? "getgid" then "getpid" else target name) =? "" = false.
Proof.
  intros Hin. assert (H : forallb (fun st => negb ((if st.1.1 =? "getgid" then "getpid" else target st.1.1) =? "")) stubs = true)
    by (vm_compute; reflexivity).
  rewrite forallb_forall in H. specialize (H _ (proj1 (list_elem_of_In _ _) Hin)). by apply negb_true_iff in H.
Qed.

Lemma index_of_range l x n : index_of l x = Some n -> (n < length l)%nat.
Proof.
  revert n. induction l as [|y l IH]; simpl; [done|]. intros n. destruct (x =? y); [intros [= <-]; lia|].
  destruct (index_of l x) as [m|]; [|done]. intros [= <-]. specialize (IH m eq_refl). lia.
Qed.

Lemma SYSCALL_range const num : SYSCALL const = Some num -> (0 <= num < SYSCALL_COUNT)%Z.
Proof.
  unfold SYSCALL. destruct (index_of SYSCALL_names const) as [n|] eqn:E; [|done]. intros [= <-].
  apply index_of_range in E. unfold SYSCALL_COUNT. simpl in E. lia.
Qed.

(** C12: Every wrapper of the library calls the function of the kernel that it
    is named after, with its arguments as the first ones in the same order,
    whatever else is in the registers, and returns what that returns -- except
    [getgid], which calls [getpid]. *)
Theorem user_call_reaches {S} (kernel : string -> list Z -> M S Z) name const arity args r s :
  (name, const, arity) ∈ stubs -> length args = arity ->
  exists more, user_call kernel name args r s =
    kernel (if name =? "getgid" then "getpid" else target name) (args ++ more)%list s.
Proof.
  intros Hin Hlen. pose proof stubs_ok as Hok. rewrite forallb_forall in Hok.
  specialize (Hok _ (proj1 (list_elem_of_In _ _) Hin)). unfold stub_ok in Hok.
  rewrite !andb_true_iff, !bool_decide_eq_true in Hok. destruct Hok as (((Hent & [num Hnum]) & Hc) & Ha).
  rewrite Hnum in Hent, Hc. simpl in Hent. apply Nat.leb_le in Ha.
  unfold user_call. rewrite (find_stub _ _ _ Hin). cbn [deref]. rewrite bind_ret_l, Hnum. cbn [deref]. rewrite bind_ret_l.
  rewrite <- Hlen, Nat.eqb_refl. cbn [negb].
  destruct (registers_loaded num args r) as (r' & E & Heax & Htake); [lia|]. rewrite E. cbn [deref]. rewrite bind_ret_l.
  set (all := [ebx r'; ecx r'; edx r'; esi r'; edi r']) in *. exists (drop (length args) all).
  assert (Hall : (args ++ drop (length args) all)%list = all) by (rewrite <- (take_drop (length args) all) at 2; by rewrite Htake).
  rewrite Hall.
  pose proof (SYSCALL_range _ _ Hnum) as Hr. unfold syscall_handler, SYSCALL_COUNT in *. fold all. rewrite Heax, u32_small by lia.
  rewrite (proj2 (Z.leb_gt _ _)) by lia. rewrite bind_assoc.
  destruct (syscalls !! Z.to_nat num) as [[entry n]|]; [|done]. simpl in Hent. injection Hent as ->.
  cbn [deref]. rewrite bind_ret_l. unfold call_entry. rewrite (entry_named _ _ _ Hin). rewrite bind_assoc.
  unfold bind, ret. by destruct (kernel _ _ s).
Qed.

(** ** Identities through the interface *)

(** The functions of the kernel that have no pointers among their arguments
    and are modelled in Tasks.v. *)
Definition identity_calls (entry : string) (args : list Z) : M kstate Z :=
  if entry =? "getpid" then getpid else if entry =? "gettid" then gettid
  else if entry =? "getuid" then getuid else if entry =? "getgid" then getgid
  else if entry =? "geteuid" then geteuid else if entry =? "getegid" then getegid
  else if entry =? "setuid" then setuid (hd 0%Z args) else if entry =? "setgid" then setgid (hd 0%Z args)
  else if entry =? "seteuid" then seteuid (hd 0%Z args) else if entry =? "setegid" then setegid (hd 0%Z args)
  else fault.

Definition garbage : registers := mkRegs 1 2 3 4 5 6.

Definition root_task : kstate :=
  empty_kstate <| k_tasks := {[100%Z := no_task <| t_pid := 42%Z |> <| t_gid := 9%Z |>]} |> <| k_current_task := 100%Z |>.

(** [setuid 7] of a user program is [setuid 7] of the kernel. *)
Lemma user_call_reaches_witness :
  exists more, user_call identity_calls "setuid" [7%Z] garbage root_task = identity_calls "setuid" (7%Z :: more) root_task.
Proof.
  apply (user_call_reaches identity_calls "setuid" "SETUID" 1 [7%Z] garbage root_task);
    [apply list_elem_of_In; vm_compute; tauto | reflexivity].
Defined.

(** A program that asks for its group gets its process number. *)
Example getgid_is_pid :
  match user_call identity_calls "getgid" [] garbage root_task with Ret v _ => v | _ => 0%Z end = 42%Z.
Proof. vm_compute. reflexivity. Qed.

(** [readdir] has a number and no function. *)
Example readdir_is_null : (SYSCALL "READDIR" ≫= fun n => syscalls !! Z.to_nat n) = Some ("", 3%Z).
Proof. reflexivity. Qed.
