(* ===== verification/System.v ===== *)
(** * System: names of the machine (system.c) and strings of user programs
      (libs/string.c)

    [gethostname], [sethostname] and [uname] of the kernel, and the string
    routines of the user library, which are separate from those of the kernel
    (CString.v).  A [char*] is the list of bytes from the pointer to the end of
    its object; NULL is [None]. *)

From S2P Require Import Prelude CString KState.

Definition HOST_NAME_MAX := 255.
Definition SYSNAME_MAX := 255.
Definition SYSVER_MAX := 32.

Definition init_hostname : list Z := str "hydrax" ++ replicate 250 0.

(** ** The host name *)

(** The loop of [gethostname]: [name] is the rest of the buffer, and the result
    what is in it. *)
Fixpoint gethostname_loop (len : Z) (p_host name : list Z) : option (list Z) :=
  let len := u32 (len - 1) in
  match p_host, name with
  | c :: p_host, b :: name =>
      if (0 <? len) && negb (c =? 0) then (fun l => c :: l) <$> gethostname_loop len p_host name else Some (0 :: name)
  | [], b :: name => if 0 <? len then None else Some (0 :: name)
  | _, [] => None
  end.

(** The state is the array [hostname]. *)
Definition gethostname (name : option (list Z)) (len : Z) : M (list Z) (Z * option (list Z)) :=
  match name with
  | None => ret (EFAULT, None)
  | Some name => h <- get;; name <- deref (gethostname_loop len h name);; ret (0, Some name)
  end.

Fixpoint sethostname_loop (len : Z) (name p_host : list Z) : option (list Z) :=
  match name, p_host with
  | c :: name, b :: p_host =>
      if negb (len =? 0) && negb (c =? 0) then (fun l => c :: l) <$> sethostname_loop (u32 (len - 1)) name p_host
      else Some (0 :: p_host)
  | [], b :: p_host => if negb (len =? 0) then None else Some (0 :: p_host)
  | _, [] => None
  end.

(** [len] is unsigned, and so is the comparison with -1. *)
Definition sethostname (euid egid : Z) (name : option (list Z)) (len : Z) : M (list Z) Z :=
  match name with
  | None => ret EFAULT
  | Some name =>
      if (len <=? u32 (-1)) || (HOST_NAME_MAX <? len) then ret ENAMETOOLONG
      else if negb (euid =? 0) && negb (egid =? 0) then ret EPERM
      else h <- get;; h <- deref (sethostname_loop len name h);; modify (fun _ => h);;; ret 0
  end.

(** [uname]: the five arrays of the structure. *)
Definition uname (buf : option (list (list Z))) : M unit (Z * option (list (list Z))) :=
  match buf with
  | Some [sysname; nodename; release; version; machine] =>
      sysname <- deref (fst <$> strcpy sysname (cstr (str "Hydrax") []));;
      nodename <- deref (fst <$> strcpy nodename (cstr [] []));;
      release <- deref (fst <$> strcpy release (cstr (str "0.0.1") []));;
      version <- deref (fst <$> strcpy version (cstr (str "0.0.1") []));;
      machine <- deref (fst <$> strcpy machine (cstr (str "qemu") []));;
      ret (0, Some [sysname; nodename; release; version; machine])
  | Some _ => fault
  | None => ret (EFAULT, None)
  end.

Lemma gethostname_loop_ok h rest : forall name len, no_nul h -> 0 < len < 2 ^ 32 ->
  (Nat.min (length h) (Z.to_nat (len - 1)) < length name)%nat ->
  let n := Nat.min (length h) (Z.to_nat (len - 1)) in
  gethostname_loop len (cstr h rest) name = Some (cstr (take n h) (drop (S n) name)).
Proof.
  induction h as [|c h IH]; intros name len Hh Hlen Hroom n.
  - destruct name as [|b name]; [simpl in Hroom; lia|]. simpl. by destruct (0 <? _).
  - apply no_nul_cons in Hh as [Hc Hh]. destruct name as [|b name]; [simpl in Hroom; lia|].
    unfold n. cbn [gethostname_loop cstr app length]. rewrite u32_small by lia. destruct (Z.ltb_spec 0 (len - 1)) as [Hl|Hl].
    + rewrite (proj2 (Z.eqb_neq _ _) Hc). cbn [andb negb].
      change (h ++ 0 :: rest) with (cstr h rest). cbn [length] in Hroom. rewrite IH by (done || lia).
      replace (Z.to_nat (len - 1)) with (S (Z.to_nat (len - 1 - 1))) by lia. done.
    + replace (Z.to_nat (len - 1)) with O by lia. done.
Qed.

(** The host name is cut to the buffer and ended by a zero; nothing behind is
    written, unless the length is zero: then it wraps, and the whole name is
    written. *)
Lemma gethostname_ok h rest name len : no_nul h -> 0 <= len < 2 ^ 32 ->
  let n := if len =? 0 then length h else Nat.min (length h) (Z.to_nat (len - 1)) in
  (length h < 2 ^ 20)%nat -> (n < length name)%nat ->
  gethostname (Some name) len (cstr h rest) = Ret (0, Some (cstr (take n h) (drop (S n) name))) (cstr h rest).
Proof.
  intros Hh Hlen n Hsmall Hroom. unfold gethostname. rewrite bind_get. unfold n in *.
  destruct (Z.eqb_spec len 0) as [->|Hne].
  - assert (E : gethostname_loop 0 (cstr h rest) name = gethostname_loop (2 ^ 32) (cstr h rest) name).
    { destruct h, name; reflexivity. }
    rewrite E. clear E.
    assert (H : forall h name len, no_nul h -> Z.of_nat (length h) < len - 1 -> 0 < len <= 2 ^ 32 -> (length h < length name)%nat ->
      gethostname_loop len (cstr h rest) name = Some (cstr h (drop (S (length h)) name))).
    { clear. induction h as [|c h IH]; intros name len Hh Hl Hlen Hroom; (destruct name as [|b name]; [simpl in Hroom; lia|]).
      - simpl. by destruct (0 <? _).
      - apply no_nul_cons in Hh as [Hc Hh]. cbn [gethostname_loop cstr app length] in *. rewrite u32_small by lia.
        rewrite (proj2 (Z.ltb_lt 0 (len - 1))), (proj2 (Z.eqb_neq _ _) Hc) by lia. cbn [andb negb].
        change (h ++ 0 :: rest) with (cstr h rest). rewrite IH by (done || lia). done. }
    assert (2 ^ 20 < 2 ^ 32) by lia.
    rewrite H; [|done| |lia|done]; [|apply Nat2Z.inj_lt in Hsmall; rewrite Nat2Z.inj_pow in Hsmall; lia].
    by rewrite firstn_all.
  - rewrite gethostname_loop_ok by (done || lia). done.
Qed.

(** [sethostname] never sets the name: every length passes the test for
    -1, as the comparison is unsigned, so that each call ends with
    ENAMETOOLONG, or EFAULT for NULL. *)
Theorem sethostname_never euid egid name len h : 0 <= len < 2 ^ 32 ->
  sethostname euid egid name len h = Ret (match name with None => EFAULT | Some _ => ENAMETOOLONG end) h.
Proof.
  intros Hlen. destruct name as [name|]; [|done]. unfold sethostname. change (u32 (-1)) with (2 ^ 32 - 1).
  by rewrite (proj2 (Z.leb_le len (2 ^ 32 - 1))) by lia.
Qed.

Lemma sethostname_never_witness : sethostname 0 0 (Some (cstr (str "box") [])) 3 init_hostname = Ret ENAMETOOLONG init_hostname.
Proof. apply (sethostname_never 0 0 (Some (cstr (str "box") [])) 3 init_hostname). lia. Defined.

Example gethostname_cut :
  gethostname (Some (replicate 8 1)) 4 init_hostname = Ret (0, Some (str "hyd" ++ [0; 1; 1; 1; 1])) init_hostname.
Proof. vm_compute. reflexivity. Qed.

(** ** Strings of user programs *)

Module Lib.
(** [strcmp] and [strlen] as in the kernel's copy. *)
Fixpoint lib_strcmp_loop (str1 str2 : list Z) : option (list Z * list Z * bool) :=
  match str1, str2 with
  | c1 :: r1, c2 :: r2 =>
      if negb (c1 =? 0) && negb (c2 =? 0) then
        if negb (c1 =? c2) then Some (str1, str2, true) else lib_strcmp_loop r1 r2
      else Some (str1, str2, false)
  | _, _ => None
  end.
Definition lib_strcmp (str1 str2 : list Z) : option Z :=
  match lib_strcmp_loop str1 str2 with
  | Some (c1 :: _, c2 :: _, failed) =>
      Some (if (c1 =? 0) && negb (c2 =? 0) || negb (c1 =? 0) && (c2 =? 0) then 1 else if failed : bool then 1 else 0)
  | _ => None
  end.

(** [strcat]: to the end of [dest], then at least one byte of [src]. *)
Fixpoint lib_strcat_copy (dest src : list Z) : option (list Z) :=
  match src, dest with
  | c :: src, d :: dest =>
      match src with
      | [] => None
      | c' :: _ => if negb (c' =? 0) then (fun l => c :: l) <$> lib_strcat_copy dest src else Some (c :: dest)
      end
  | _, _ => None
  end.
Fixpoint lib_strcat (dest src : list Z) : option (list Z) :=
  match dest with
  | [] => None
  | d :: dest' => if negb (d =? 0) then (fun l => d :: l) <$> lib_strcat dest' src else lib_strcat_copy dest src
  end.

(** Zero exactly for equal strings. *)
Lemma strcmp_equal s1 s2 r1 r2 : no_nul s1 -> no_nul s2 ->
  lib_strcmp (cstr s1 r1) (cstr s2 r2) = Some (if decide (s1 = s2) then 0 else 1).
Proof.
  unfold lib_strcmp. revert s2. induction s1 as [|c1 s1 IH]; intros [|c2 s2] H1 H2; simpl.
  - done.
  - apply no_nul_cons in H2 as [Hc _]. rewrite (proj2 (Z.eqb_neq _ _) Hc). simpl. done.
  - apply no_nul_cons in H1 as [Hc _]. apply Z.eqb_neq in Hc. rewrite Hc. simpl. by rewrite Hc.
  - apply no_nul_cons in H1 as [Hc1 H1]. apply no_nul_cons in H2 as [Hc2 H2].
    rewrite (proj2 (Z.eqb_neq _ _) Hc1), (proj2 (Z.eqb_neq _ _) Hc2). simpl.
    destruct (Z.eqb_spec c1 c2) as [->|Hne]; simpl.
    + unfold cstr in IH. rewrite IH by done. repeat case_decide; congruence.
    + rewrite (proj2 (Z.eqb_neq _ _) Hc1), (proj2 (Z.eqb_neq _ _) Hc2). simpl. rewrite decide_False by congruence. done.
Qed.

Lemma strcat_copy_ok s2 : forall r1 r2, no_nul s2 -> s2 <> [] -> (length s2 <= length r1)%nat ->
  lib_strcat_copy r1 (cstr s2 r2) = Some (s2 ++ drop (length s2) r1).
Proof.
  induction s2 as [|c s2 IH]; intros r1 r2 Hs Hne Hlen; [done|]. apply no_nul_cons in Hs as [Hc Hs].
  destruct r1 as [|d r1]; [simpl in Hlen; lia|]. destruct s2 as [|c' s2]; [done|].
  pose proof (no_nul_cons c' s2) as Hn. destruct (proj1 Hn Hs) as [Hc' _].
  cbn [cstr app lib_strcat_copy]. rewrite (proj2 (Z.eqb_neq _ _) Hc'). cbn [negb].
  change (c' :: s2 ++ 0 :: r2) with (cstr (c' :: s2) r2). rewrite IH by (done || (simpl in *; lia)). done.
Qed.

(** [strcat] appends a string that is not empty but does not end the result:
    the byte behind it stays what it was.  With an empty one it copies the
    zero and goes on behind the end of [src]. *)
Lemma strcat_unterminated s1 s2 r1 r2 : no_nul s1 -> no_nul s2 -> s2 <> [] -> (length s2 <= S (length r1))%nat ->
  lib_strcat (cstr s1 r1) (cstr s2 r2) = Some (s1 ++ s2 ++ drop (length s2) (0 :: r1)).
Proof.
  intros H1 H2 Hne Hlen. induction s1 as [|c s1 IH].
  - cbn [cstr app lib_strcat]. by apply strcat_copy_ok.
  - apply no_nul_cons in H1 as [Hc H1]. cbn [cstr app lib_strcat]. rewrite (proj2 (Z.eqb_neq _ _) Hc). cbn [negb].
    change (s1 ++ 0 :: r1) with (cstr s1 r1). by rewrite IH.
Qed.

Example strcat_ab : lib_strcat (str "a" ++ [0; 7; 7; 7]) (str "b" ++ [0]) = Some (str "ab" ++ [7; 7; 7]).
Proof. vm_compute. reflexivity. Qed.
Example strcat_empty : lib_strcat (str "a" ++ [0; 7; 7; 7]) [0; 98; 0] = Some (str "a" ++ [0; 98; 7; 7]).
Proof. vm_compute. reflexivity. Qed.
End Lib.
