(* ===== verification/Symbols.v ===== *)
(** * Symbols: the names in stack traces

    Model of tools/src/symclean/main.c, which makes a table of symbols from the
    linker's map, of [symbols_init] and [getsym] of kernel/symbols.c, which read
    it and look addresses up, and of tools/src/symclean/getsym.c, which does the
    same on the host.  The theorem joins the two programs: the kernel prints
    the name of the nearest symbol at or below an address. *)

From Stdlib Require Import Ascii.
From S2P Require Import Prelude CString KState Vfs Initrd InitrdImage.

(** ** symclean *)

(** The input that is left, the static buffer, the array [symname], and what
    was written. *)
Record clean := mkClean { input : list Z; buff : list Z; symname : list Z; output : list Z }.
#[export] Instance eta_clean : Eta clean := fun s => mkClean (input s) (buff s) (symname s) (output s).

Definition NEWLINE := 10.

(** The loop of [readline]: [i] is the offset of [p]. *)
Fixpoint fill_line (input : list Z) (buff : list Z) (i : nat) : option (list Z * list Z) :=
  if decide (i < length buff)%nat then
    match input with
    | [] => Some ([], <[i := 0]> buff)
    | c :: rest => if c =? NEWLINE then Some (rest, <[i := 0]> buff) else fill_line rest (<[i := c]> buff) (S i)
    end
  else None.

(** [readline]: 1 at the end of the file. *)
Definition readline : M clean Z :=
  s <- get;;
  match input s with
  | [] => ret 1
  | _ =>
      '(rest, b) <- deref (fill_line (input s) (buff s) 0);;
      modify (fun s => s <| input := rest |> <| buff := b |>);;; ret 0
  end.

(** The loops over a string; [None] is a read past the array. *)
Fixpoint each_char (ok : Z -> bool) (s : list Z) : option bool :=
  match s with
  | [] => None
  | c :: s => if c =? 0 then Some true else if ok c then each_char ok s else Some false
  end.

Definition symbol_char (c : Z) : bool := negb ((c =? 46) || (c =? 47) || (c =? 61)).
Definition is_valid_symbol (sym : list Z) : option bool :=
  match sym with
  | [] => None
  | c :: _ =>
      if c =? 0 then Some false else
      match CString.strlen sym with
      | None => None
      | Some n => if n <? 2 then Some false else each_char symbol_char sym
      end
  end.

Definition address_char (c : Z) : bool := (48 <=? c) && (c <=? 57) || (97 <=? c) && (c <=? 102).
Definition is_valid_address (addr : list Z) : option bool :=
  match addr with
  | [] => None
  | c :: _ => if c =? 0 then Some false else each_char address_char addr
  end.

(** [sscanf(s, "%x", &addr)] for lower-case digits, with a 64-bit [long]; the
    result has 32 bits. *)
Definition digit_value (c : Z) : Z := if c <=? 57 then c - 48 else c - 87.
Fixpoint scan_hex (s : list Z) (v : Z) : Z :=
  match s with
  | c :: s => if address_char c then scan_hex s (v * 16 + digit_value c) else v
  | [] => v
  end.

(** One line of [main]. *)
Definition clean_line : M clean unit :=
  modify (fun s => s <| buff := <[34%nat := 0]> (buff s) |>);;;
  s <- get;;
  a <- deref (is_valid_address (drop 18 (buff s)));;
  ok <- (if a : bool then deref (is_valid_symbol (drop 50 (buff s))) else ret false);;
  if ok : bool then
    let addr := u32 (scan_hex (drop 18 (buff s)) 0) in
    '(name, _) <- deref (CString.strcpy (symname s) (drop 50 (buff s)));;
    modify (fun s => s <| symname := name |> <| output := output s ++ le32 addr ++ name |>)
  else ret tt.

Fixpoint clean_loop (fuel : nat) : M clean unit :=
  match fuel with
  | O => nofuel
  | S fuel => e <- readline;; if e =? 0 then clean_line;;; clean_loop fuel else ret tt
  end.

(** [main] of symclean: the file it writes; [symname] is what the array holds at
    the start.  Each line takes at least one byte of the input. *)
Definition symclean (map_file symname : list Z) : outcome clean (list Z) :=
  (clean_loop (S (length map_file));;; s <- get;; ret (output s)) (mkClean map_file (replicate 1024 0) symname []).

(** ** The kernel *)

Definition SYMBOLS := 1000%nat.
Definition sizeof_symbol := 104%nat.

Record symbol_t := mkSym { sy_address : Z; sy_name : list Z }.

Definition symbol_at (bytes : list Z) (i : nat) : symbol_t :=
  let b := drop (i * sizeof_symbol) bytes in mkSym (word_at_byte b 0) (take 100 (drop 4 b)).

(** [symbols_init]: the table after the file was read over the zeros. *)
Definition symbols_init (file : option (list Z)) : list symbol_t :=
  let bytes := match file with
               | Some f => take (SYMBOLS * sizeof_symbol) f ++ replicate (SYMBOLS * sizeof_symbol - length f) 0
               | None => replicate (SYMBOLS * sizeof_symbol) 0
               end in
  symbol_at bytes <$> seq 0 SYMBOLS.

(** The loop of [getsym]. *)
Fixpoint find_symbol (symbols : list symbol_t) (addr : Z) (cur_sym : option symbol_t) : option symbol_t :=
  match symbols with
  | [] => cur_sym
  | e :: symbols =>
      let better := match cur_sym with None => true | Some c => sy_address c <? sy_address e end in
      find_symbol symbols addr (if (sy_address e <=? addr) && better then Some e else cur_sym)
  end.

Definition getsym (symbols : list symbol_t) (addr : Z) : option (list Z) :=
  match find_symbol symbols addr None with
  | None => None
  | Some e => if 0x8000000 <=? sy_address e then Some (cstr (str "<user-space>") []) else Some (sy_name e)
  end.

(** The lookup on the host, which starts with an empty symbol at 0. *)
Fixpoint host_find (symbols : list symbol_t) (addr : Z) (cur_sym : symbol_t) : symbol_t :=
  match symbols with
  | [] => cur_sym
  | e :: symbols =>
      host_find symbols addr (if (sy_address e <=? addr) && (sy_address cur_sym <? sy_address e) then e else cur_sym)
  end.
Definition host_getsym (symbols : list symbol_t) (addr : Z) : list Z :=
  sy_name (host_find symbols addr (mkSym 0 (replicate 100 0))).

(** ** Lines of a map *)

Definition hex_digits : list Z := str "0123456789abcdef".
Definition digit_of (c : Z) : Z := match list_find (c =.) hex_digits with Some (i, _) => Z.of_nat i | None => 0 end.

(** The number that digits stand for, in 32 bits. *)
Definition hex_value (s : list Z) : Z := foldl (fun v c => 16 * v + digit_of c) 0 s mod 2 ^ 32.

(** Any line of text that fits into the buffer. *)
Definition line_ok (l : list Z) : Prop := Forall (fun c => c <> NEWLINE /\ c <> 0) l /\ (length l < 1024)%nat.

Definition map_bytes (ls : list (list Z)) : list Z := concat ((fun l => l ++ [NEWLINE]) <$> ls).

(** What is in columns 18 to 33 and from column 50 on.  A line that does not
    reach one of them leaves what an earlier line has put there. *)
Record columns := mkColumns { co_address : list Z; co_name : list Z }.

Definition next_columns (f : columns) (l : list Z) : columns :=
  mkColumns (if decide (18 <= length l)%nat then take 16 (drop 18 l) else co_address f)
            (if decide (50 <= length l)%nat then drop 50 l else co_name f).

(** A symbol has an address in hexadecimal and a name of two or more characters,
    none of which is one of those in file names, sections and assignments. *)
Definition is_symbol (f : columns) : Prop :=
  co_address f <> [] /\ Forall (fun c => c ∈ hex_digits) (co_address f) /\
  (2 <= length (co_name f))%nat /\ Forall (fun c => c ∉ str "./=") (co_name f).

#[export] Instance is_symbol_dec f : Decision (is_symbol f).
Proof. unfold is_symbol. apply _. Defined.

(** The symbols of a map, with their addresses. *)
Fixpoint map_symbols (f : columns) (ls : list (list Z)) : list (Z * list Z) :=
  match ls with
  | [] => []
  | l :: ls =>
      let f := next_columns f l in
      (if decide (is_symbol f) then [(hex_value (co_address f), co_name f)] else []) ++ map_symbols f ls
  end.

Definition symbols_of (ls : list (list Z)) : list (Z * list Z) := map_symbols (mkColumns [] []) ls.

(** ** symclean writes them *)

Lemma fill_line_ok l : forall rest b i, Forall (fun c => c <> NEWLINE) l -> (i + length l < length b)%nat ->
  fill_line (l ++ NEWLINE :: rest) b i = Some (rest, take i b ++ l ++ 0 :: drop (i + S (length l)) b).
Proof.
  induction l as [|c l IH]; intros rest b i Hl Hlen; cbn [app length] in *; unfold fill_line; fold fill_line.
  - rewrite decide_True by lia. rewrite Z.eqb_refl. do 2 f_equal.
    rewrite insert_take_drop by lia. by replace (i + 1)%nat with (S i) by lia.
  - apply Forall_cons in Hl as [Hc Hl]. rewrite decide_True by lia. rewrite (proj2 (Z.eqb_neq _ _) Hc).
    rewrite IH by (rewrite ?length_insert; done || lia). do 2 f_equal.
    rewrite (insert_take_drop b i) by lia.
    assert (Ht : length (take i b) = i) by (rewrite length_take; lia).
    rewrite take_app, Ht, take_take, Nat.min_r by lia. replace (S i - i)%nat with 1%nat by lia.
    rewrite drop_app, Ht, (drop_ge (take i b)) by lia. replace (S i + S (length l) - i)%nat with (S (S (length l))) by lia.
    simpl. rewrite <- app_assoc. simpl. rewrite drop_drop. by replace (i + S (S (length l)))%nat with (S i + S (length l))%nat by lia.
Qed.

Lemma each_char_spec ok s rest : no_nul s -> each_char ok (cstr s rest) = Some (forallb ok s).
Proof.
  intros Hn. induction s as [|c s IH]; [done|]. apply no_nul_cons in Hn as [Hc0 Hn].
  simpl. rewrite (proj2 (Z.eqb_neq _ _) Hc0). destruct (ok c); [by apply IH | done].
Qed.

(** The tests and the conversion of symclean. *)
Lemma hex_digits_char c : (c ∈ hex_digits <-> address_char c = true) /\ (c ∈ hex_digits -> digit_of c = digit_value c).
Proof.
  destruct (decide (c ∈ hex_digits)) as [Hc|Hc].
  - assert (Forall (fun c => address_char c = true /\ digit_of c = digit_value c) hex_digits) as HF
      by (repeat constructor).
    rewrite Forall_forall in HF. specialize (HF c Hc) as [? ?]. done.
  - split; [|done]. split; [done|]. intros H. exfalso. apply Hc. unfold address_char in H.
    assert (c ∈ seqZ 48 10 ++ seqZ 97 6) as Hin by (rewrite elem_of_app, !elem_of_seqZ; lia). exact Hin.
Qed.

Lemma is_valid_address_spec s x : no_nul s ->
  is_valid_address (cstr s x) = Some (bool_decide (s <> [] /\ Forall (fun c => c ∈ hex_digits) s)).
Proof.
  intros Hn. destruct s as [|c s]; [by rewrite bool_decide_false by naive_solver|].
  unfold is_valid_address. rewrite each_char_spec by done. pose proof Hn as [Hc _]%no_nul_cons.
  cbn [cstr app]. rewrite (proj2 (Z.eqb_neq _ _) Hc). f_equal. apply eq_bool_prop_intro.
  rewrite bool_decide_spec, forallb_True.
  rewrite (Forall_iff _ _ (fun c => c ∈ hex_digits)) by (intros d; rewrite Is_true_true; symmetry; apply hex_digits_char).
  naive_solver.
Qed.

Lemma symbol_char_spec c : symbol_char c = true <-> c ∉ str "./=".
Proof.
  unfold symbol_char. change (str "./=") with [46; 47; 61]. rewrite negb_true_iff, !orb_false_iff, !Z.eqb_neq.
  rewrite !not_elem_of_cons. split; [intros [[? ?] ?]; split_and!; [done .. | apply not_elem_of_nil] | tauto].
Qed.

Lemma is_valid_symbol_spec s x : no_nul s -> (length s < 1024)%nat ->
  is_valid_symbol (cstr s x) = Some (bool_decide ((2 <= length s)%nat /\ Forall (fun c => c ∉ str "./=") s)).
Proof.
  intros Hn Hlen. destruct s as [|c s]; [by rewrite bool_decide_false by (intros [H _]; simpl in H; lia)|].
  assert (El : CString.strlen (cstr (c :: s) x) = Some (Z.of_nat (length (c :: s)))).
  { unfold CString.strlen. rewrite strlen_loop_ok by (done || lia). done. }
  pose proof (each_char_spec symbol_char (c :: s) x Hn) as Ee. pose proof Hn as [Hc _]%no_nul_cons.
  unfold is_valid_symbol. rewrite El, Ee. cbn [cstr app]. rewrite (proj2 (Z.eqb_neq _ _) Hc).
  destruct (Z.ltb_spec (Z.of_nat (length (c :: s))) 2).
  - rewrite bool_decide_false; [done|]. intros [? _]. lia.
  - f_equal. apply eq_bool_prop_intro. rewrite bool_decide_spec, forallb_True.
    rewrite (Forall_iff _ _ (fun c => c ∉ str "./=")) by (intros d; rewrite Is_true_true; apply symbol_char_spec).
    split; [|naive_solver]. split; [lia | done].
Qed.

Lemma scan_hex_spec s rest : forall v, Forall (fun c => c ∈ hex_digits) s ->
  scan_hex (cstr s rest) v = foldl (fun v c => 16 * v + digit_of c) v s.
Proof.
  induction s as [|c s IH]; intros v H; [done|]. apply Forall_cons in H as [Hc H]. simpl.
  destruct (hex_digits_char c) as [Ha Hd]. rewrite (proj1 Ha Hc), IH, Hd by done. f_equal. lia.
Qed.

(** What the buffer holds: the two columns as strings. *)
Definition holds (b : list Z) (f : columns) : Prop :=
  length b = 1024%nat /\ no_nul (co_address f) /\ no_nul (co_name f) /\ (length (co_address f) <= 16)%nat /\
  exists x y, drop 18 b = cstr (co_address f) x /\ drop 50 b = cstr (co_name f) y.

(** A record of the file. *)
Definition record_of (e : Z * list Z) (r : list Z) : Prop :=
  exists x, r = le32 e.1 ++ cstr e.2 x /\ length r = sizeof_symbol /\ 0 <= e.1 < 2 ^ 32.

(** The buffer after a line was read, and the zero of [main] was stored. *)
Definition after_line (l b : list Z) : list Z := l ++ 0 :: drop (S (length l)) b.

Lemma after_line_length l b : (length l < length b)%nat -> length (after_line l b) = length b.
Proof. intros H. unfold after_line. rewrite length_app. simpl. rewrite length_drop. lia. Qed.

Lemma after_line_drop l b n : (length l < n)%nat -> drop n (after_line l b) = drop n b.
Proof.
  intros Hn. unfold after_line. rewrite drop_app, drop_ge by lia. cbn [app].
  replace (n - length l)%nat with (S (n - S (length l))) by lia. cbn [drop]. rewrite drop_drop. f_equal. lia.
Qed.

Lemma after_line_column l b n : (n <= length l)%nat -> exists x, drop n (after_line l b) = cstr (drop n l) x.
Proof. intros Hn. eexists. unfold after_line. by rewrite drop_app_le by lia. Qed.

Lemma insert_34_18 b : (34 < length b)%nat -> drop 18 (<[34%nat := 0]> b) = take 16 (drop 18 b) ++ 0 :: drop 35 b.
Proof.
  intros H. rewrite insert_take_drop by done. rewrite drop_app, length_take, Nat.min_l by lia.
  rewrite skipn_firstn_comm. done.
Qed.
Lemma insert_34_50 b : (34 < length b)%nat -> drop 50 (<[34%nat := 0]> b) = drop 50 b.
Proof.
  intros H. rewrite insert_take_drop by done. rewrite drop_app, length_take, Nat.min_l by lia.
  rewrite drop_ge by (rewrite length_take; lia). simpl. rewrite drop_drop. done.
Qed.

(** A string that is cut at a length. *)
Lemma cstr_cut s x z n : exists y, take n (cstr s x) ++ 0 :: z = cstr (take n s) y.
Proof.
  unfold cstr. rewrite take_app. destruct (n - length s)%nat as [|k] eqn:E.
  - exists z. by rewrite take_0, app_nil_r.
  - exists (take k x ++ 0 :: z). by rewrite <- app_assoc, (take_ge s) by lia.
Qed.

Lemma no_nul_take n s : no_nul s -> no_nul (take n s).
Proof. apply Forall_take. Qed.
Lemma no_nul_drop n s : no_nul s -> no_nul (drop n s).
Proof. apply Forall_drop. Qed.

Lemma holds_line l b f : line_ok l -> holds b f -> holds (<[34%nat := 0]> (after_line l b)) (next_columns f l).
Proof.
  intros [Hl Hlen] (Hb & Na & Nn & La & x & y & Ha & Hn).
  assert (Hal : length (after_line l b) = 1024%nat) by (rewrite after_line_length; lia).
  assert (Nl : no_nul l) by (eapply Forall_impl; [exact Hl|]; by intros c [_ ?]).
  split; [by rewrite length_insert|]. unfold next_columns. cbn [co_address co_name].
  assert (exists x', drop 18 (<[34%nat := 0]> (after_line l b)) =
    cstr (if decide (18 <= length l)%nat then take 16 (drop 18 l) else co_address f) x') as [x' Hx'].
  { rewrite insert_34_18 by lia. case_decide as H18.
    - destruct (after_line_column l b 18 H18) as [z ->]. apply cstr_cut.
    - rewrite (after_line_drop l b 18), Ha by lia.
      destruct (cstr_cut (co_address f) x (drop 35 (after_line l b)) 16) as [z ->]. exists z. by rewrite take_ge. }
  assert (exists y', drop 50 (<[34%nat := 0]> (after_line l b)) =
    cstr (if decide (50 <= length l)%nat then drop 50 l else co_name f) y') as [y' Hy'].
  { rewrite insert_34_50 by lia. destruct (decide (50 <= length l)%nat) as [H50|H50]; [by apply after_line_column|].
    rewrite (after_line_drop l b 50), Hn by lia. by exists y. }
  split_and!; [| | | by exists x', y'].
  - destruct (decide (18 <= length l)%nat); [by apply no_nul_take, no_nul_drop | done].
  - destruct (decide (50 <= length l)%nat); [by apply no_nul_drop | done].
  - destruct (decide (18 <= length l)%nat); [rewrite length_take; lia | done].
Qed.

(** The bytes that a line adds to the file. *)
Definition emits (f : columns) (r : list Z) : Prop :=
  if decide (is_symbol f) then record_of (hex_value (co_address f), co_name f) r else r = [].

Lemma clean_line_ok s f : holds (<[34%nat := 0]> (buff s)) f -> length (symname s) = 100%nat ->
  (is_symbol f -> (length (co_name f) < 100)%nat) ->
  exists nm r, clean_line s = Ret tt (mkClean (input s) (<[34%nat := 0]> (buff s)) nm (output s ++ r)) /\
    length nm = 100%nat /\ emits f r.
Proof.
  intros (Hb & Na & Nn & La & x & y & Ha & Hn) Hnm Hlt. unfold clean_line. rewrite bind_modify, bind_get.
  set (b := <[34%nat := 0]> (buff s)) in *.
  change (buff (s <| buff := b |>)) with b. change (symname (s <| buff := b |>)) with (symname s).
  rewrite Ha, Hn, is_valid_address_spec by done. cbn [deref]. rewrite bind_ret_l.
  case_bool_decide as Hsa.
  - assert (length (co_name f) < 1024)%nat.
    { apply (f_equal length) in Hn. unfold cstr in Hn. rewrite length_app, length_drop in Hn. simpl in Hn. lia. }
    rewrite is_valid_symbol_spec by done. cbn [deref]. rewrite bind_ret_l. case_bool_decide as Hss.
    + assert (is_symbol f) as Hsym by (unfold is_symbol; tauto). specialize (Hlt Hsym).
      rewrite scan_hex_spec by apply Hsa. rewrite strcpy_ok by (done || lia). cbn [deref]. rewrite bind_ret_l.
      set (nm := cstr (co_name f) (drop (S (length (co_name f))) (symname s))).
      assert (Hlen : length nm = 100%nat) by (unfold nm, cstr; rewrite length_app; simpl; rewrite length_drop; lia).
      exists nm, (le32 (hex_value (co_address f)) ++ nm). split; [reflexivity|]. split; [done|]. unfold emits. rewrite decide_True by done.
      exists (drop (S (length (co_name f))) (symname s)). split; [done|]. split; [rewrite length_app, Hlen; done|].
      apply Z.mod_pos_bound. done.
    + exists (symname s), []. unfold emits. by rewrite app_nil_r, decide_False by (unfold is_symbol; tauto).
  - rewrite bind_ret_l. exists (symname s), []. unfold emits. by rewrite app_nil_r, decide_False by (unfold is_symbol; tauto).
Qed.

Lemma clean_loop_ok ls : forall fuel f b nm out, Forall line_ok ls -> holds b f -> length nm = 100%nat ->
  Forall (fun e => (length e.2 < 100)%nat) (map_symbols f ls) -> (length ls < fuel)%nat ->
  exists s' rs, clean_loop fuel (mkClean (map_bytes ls) b nm out) = Ret tt s' /\ output s' = out ++ concat rs /\
    Forall2 record_of (map_symbols f ls) rs.
Proof.
  induction ls as [|l ls IH]; intros fuel f b nm out Hls Hb Hnm Hnames Hf; (destruct fuel as [|fuel]; [lia|]); cbn [clean_loop].
  - eexists _, []. split; [reflexivity|]. split; [by rewrite app_nil_r|]. constructor.
  - apply Forall_cons in Hls as [Hl Hls]. cbn [map_symbols] in *. apply Forall_app in Hnames as [Hn1 Hn2].
    assert (E : readline (mkClean (map_bytes (l :: ls)) b nm out) =
      Ret 0 (mkClean (map_bytes ls) (after_line l b) nm out)).
    { unfold readline. rewrite bind_get. cbn [input buff]. unfold map_bytes. cbn [fmap list_fmap concat]. rewrite <- app_assoc.
      cbn [app]. destruct Hl as [Hl1 Hl2]. rewrite fill_line_ok.
      - destruct l; reflexivity.
      - eapply Forall_impl; [exact Hl1|]. by intros c [? _].
      - destruct Hb as [-> _]. lia. }
    rewrite (bind_Ret _ _ _ _ _ E). cbn [Z.eqb]. pose proof (holds_line l b f Hl Hb) as Hh.
    destruct (clean_line_ok (mkClean (map_bytes ls) (after_line l b) nm out) (next_columns f l)) as (nm' & r & E1 & Hnm' & Hr);
      [done | done | intros Hs; rewrite decide_True in Hn1 by done; exact (Forall_inv Hn1) |].
    rewrite (bind_Ret _ _ _ _ _ E1). cbn [input buff output].
    destruct (IH fuel (next_columns f l) (<[34%nat := 0]> (after_line l b)) nm' (out ++ r)) as (s' & rs & E2 & Ho & HF);
      [done | done | done | done | simpl in Hf; lia |].
    unfold emits in Hr. case_decide.
    + exists s', (r :: rs). split; [done|]. split; [by rewrite Ho, <- app_assoc|]. by constructor.
    + subst r. exists s', rs. by rewrite app_nil_r in Ho.
Qed.

Lemma map_bytes_length ls : (length ls <= length (map_bytes ls))%nat.
Proof.
  induction ls as [|l ls IH]; [done|]. unfold map_bytes in *. cbn [fmap list_fmap concat length].
  rewrite !length_app. simpl. lia.
Qed.

Lemma symclean_ok ls nm : Forall line_ok ls -> length nm = 100%nat ->
  Forall (fun e => (length e.2 < 100)%nat) (symbols_of ls) ->
  exists s' rs, symclean (map_bytes ls) nm = Ret (concat rs) s' /\ Forall2 record_of (symbols_of ls) rs.
Proof.
  intros Hls Hnm Hnames. unfold symclean.
  destruct (clean_loop_ok ls (S (length (map_bytes ls))) (mkColumns [] []) (replicate 1024 0) nm []) as (s' & rs & E & Ho & HF);
    [done | | done | done | pose proof (map_bytes_length ls); lia |].
  { split_and!; [done | by constructor | by constructor | simpl; lia |]. by exists (replicate 1005 0), (replicate 973 0). }
  exists s', rs. rewrite (bind_Ret _ _ _ _ _ E), bind_get, Ho. done.
Qed.

(** ** The table *)

Definition of_record (r : list Z) : symbol_t := mkSym (word_at_byte r 0) (take 100 (drop 4 r)).
Definition zero_symbol : symbol_t := mkSym 0 (replicate 100 0).

Lemma drop_records (rs : list (list Z)) : forall i r, Forall (fun r => length r = sizeof_symbol) rs -> rs !! i = Some r ->
  drop (i * sizeof_symbol) (concat rs) = r ++ concat (drop (S i) rs).
Proof.
  induction rs as [|r0 rs IH]; intros [|i] r Hl Hi; try done; apply Forall_cons in Hl as [Hr Hl].
  - injection Hi as ->. cbn [concat]. by rewrite drop_0.
  - cbn [concat]. rewrite drop_app_ge by (rewrite Hr; unfold sizeof_symbol; lia).
    replace (S i * sizeof_symbol - length r0)%nat with (i * sizeof_symbol)%nat by (rewrite Hr; unfold sizeof_symbol; lia).
    by apply IH.
Qed.

Lemma records_length (rs : list (list Z)) : Forall (fun r => length r = sizeof_symbol) rs -> length (concat rs) = (length rs * sizeof_symbol)%nat.
Proof. induction 1 as [|r rs Hr _ IH]; [done|]. cbn [concat length]. rewrite length_app, IH, Hr. lia. Qed.

Lemma of_record_app r rest : length r = sizeof_symbol -> mkSym (word_at_byte (r ++ rest) 0) (take 100 (drop 4 (r ++ rest))) = of_record r.
Proof.
  intros Hr. unfold of_record. f_equal.
  - unfold word_at_byte. rewrite !app_nth1 by (rewrite Hr; unfold sizeof_symbol; lia). done.
  - rewrite drop_app_le by (rewrite Hr; unfold sizeof_symbol; lia). rewrite take_app_le; [done|]. rewrite length_drop, Hr. unfold sizeof_symbol. lia.
Qed.

Lemma symbols_table (rs : list (list Z)) : Forall (fun r => length r = sizeof_symbol) rs -> (length rs <= SYMBOLS)%nat ->
  symbols_init (Some (concat rs)) = (of_record <$> rs) ++ replicate (SYMBOLS - length rs) zero_symbol.
Proof.
  intros Hl Hn. pose proof (records_length rs Hl) as Hc. apply list_eq. intros i. unfold symbols_init.
  rewrite list_lookup_fmap. destruct (decide (i < SYMBOLS)%nat) as [Hi|Hi].
  2:{ rewrite (proj2 (lookup_ge_None (seq 0 SYMBOLS) i)) by (rewrite length_seq; lia).
      symmetry. apply lookup_ge_None. rewrite length_app, length_fmap, length_replicate. lia. }
  rewrite lookup_seq_lt by done. cbn [fmap option_fmap option_map Nat.add]. unfold symbol_at.
  rewrite take_ge by (rewrite Hc; unfold sizeof_symbol; lia).
  destruct (decide (i < length rs)%nat) as [Hr|Hr].
  - destruct (lookup_lt_is_Some_2 rs i Hr) as [r Er]. pose proof (Forall_lookup_1 _ _ _ _ Hl Er) as Hlr. simpl in Hlr.
    rewrite drop_app_le by (rewrite Hc; unfold sizeof_symbol; lia). rewrite (drop_records rs i r Hl Er), <- app_assoc.
    rewrite of_record_app by done. rewrite lookup_app_l by (rewrite length_fmap; lia). by rewrite list_lookup_fmap, Er.
  - rewrite drop_app_ge by (rewrite Hc; unfold sizeof_symbol; lia). rewrite drop_replicate.
    rewrite lookup_app_r by (rewrite length_fmap; lia). rewrite length_fmap, lookup_replicate_2 by lia. f_equal.
    replace (SYMBOLS * sizeof_symbol - length (concat rs) - (i * sizeof_symbol - length (concat rs)))%nat
      with (104 + (SYMBOLS - 1 - i) * 104)%nat by (rewrite Hc; unfold sizeof_symbol; lia).
    rewrite replicate_add. apply (of_record_app (replicate 104 0)). by rewrite length_replicate.
Qed.

(** The scan keeps a nearest symbol. *)
Lemma find_symbol_some l addr : forall c, sy_address c <= addr ->
  exists e, find_symbol l addr (Some c) = Some e /\ e ∈ c :: l /\ sy_address e <= addr /\
    forall e', e' ∈ c :: l -> sy_address e' <= addr -> sy_address e' <= sy_address e.
Proof.
  induction l as [|x l IH]; intros c Hc; cbn [find_symbol].
  - exists c. split_and!; [done | set_solver | done |]. intros e' He' _. apply list_elem_of_singleton in He' as ->. lia.
  - destruct ((sy_address x <=? addr) && (sy_address c <? sy_address x)) eqn:E.
    + destruct (IH x) as (e & He & Hin & Hle & Hb); [lia|]. exists e. split_and!; [done | set_solver | done |].
      intros e' He' Hle'. apply elem_of_cons in He' as [->|He']; [|by apply Hb].
      pose proof (Hb x ltac:(set_solver) ltac:(lia)). lia.
    + destruct (IH c Hc) as (e & He & Hin & Hle & Hb). exists e. split_and!; [done | set_solver | done |].
      intros e' He' Hle'. apply elem_of_cons in He' as [->|He']; [apply Hb; [set_solver | done]|].
      apply elem_of_cons in He' as [->|He']; [|apply Hb; [set_solver | done]].
      pose proof (Hb c ltac:(set_solver) Hc). lia.
Qed.

Lemma find_symbol_nearest l addr m : m ∈ l -> sy_address m <= addr ->
  exists e, find_symbol l addr None = Some e /\ e ∈ l /\ sy_address e <= addr /\
    forall e', e' ∈ l -> sy_address e' <= addr -> sy_address e' <= sy_address e.
Proof.
  induction l as [|x l IH]; intros Hm Hle; [by apply elem_of_nil in Hm|]. cbn [find_symbol]. rewrite andb_true_r.
  destruct (Z.leb_spec (sy_address x) addr) as [Hx|Hx]; [by apply find_symbol_some|].
  destruct IH as (e & He & Hin & He2 & Hb); [|done|].
  - apply elem_of_cons in Hm as [->|Hm]; [lia | done].
  - exists e. split_and!; [done | set_solver | done |]. intros e' He' Hle'. apply elem_of_cons in He' as [->|He']; [lia | by apply Hb].
Qed.

Lemma of_record_symbol e r : record_of e r ->
  sy_address (of_record r) = e.1 /\ exists x, sy_name (of_record r) = cstr e.2 x.
Proof.
  intros (x & -> & Hl & Hr). unfold of_record. split.
  - simpl sy_address. by apply (word_at_byte_app []).
  - exists x. cbn [sy_name]. rewrite drop_app_length' by done. rewrite take_ge; [done|].
    rewrite length_app, le32_length in Hl. unfold sizeof_symbol in Hl. lia.
Qed.

(** C32: From the linker's map to the names in a stack trace.  For a map of any
    lines of less than 1024 characters with at most 1000 symbols of less than
    100 characters: symclean takes for symbols the lines (sections, files and
    assignments are in the map too) whose columns 18 to 33 are a number and
    whose text from column 50 on is two characters or more without a period,
    slash or equals sign, where a line that is too short for a column repeats
    the one before it there; and after the kernel has read the table,
    [getsym] gives for an address the name of the symbol nearest at or below
    it, or says that it is in user space. *)
Theorem symbols_found ls nm a name addr :
  Forall line_ok ls -> length nm = 100%nat ->
  (length (symbols_of ls) <= SYMBOLS)%nat -> Forall (fun e => (length e.2 < 100)%nat) (symbols_of ls) ->
  (a, name) ∈ symbols_of ls -> 0 < a <= addr ->
  (forall a' name', (a', name') ∈ symbols_of ls -> a' <= addr -> a' < a \/ a' = a /\ name' = name) ->
  exists file s', symclean (map_bytes ls) nm = Ret file s' /\
    exists x, getsym (symbols_init (Some file)) addr =
      Some (if 0x8000000 <=? a then cstr (str "<user-space>") [] else cstr name x).
Proof.
  intros Hls Hnm Hcount Hnames Hm Haddr Hbest. destruct (symclean_ok ls nm Hls Hnm Hnames) as (s' & rs & E & HF).
  exists (concat rs), s'. split; [done|].
  assert (Hlen : Forall (fun r => length r = sizeof_symbol) rs).
  { clear -HF. induction HF as [|m r ms rs Hr _ IH]; constructor; [by destruct Hr as (x & _ & ? & _) | done]. }
  rewrite symbols_table by (done || (rewrite <- (Forall2_length _ _ _ HF); done)).
  set (table := (of_record <$> rs) ++ replicate _ zero_symbol).
  assert (Hof : forall e, e ∈ table -> (exists m' r, m' ∈ symbols_of ls /\ record_of m' r /\ e = of_record r) \/ e = zero_symbol).
  { intros e He. apply elem_of_app in He as [He|He]; [left|right; by apply elem_of_replicate in He as [-> _]].
    apply list_elem_of_fmap in He as (r & -> & Hr). apply list_elem_of_lookup in Hr as [i Hi].
    destruct (Forall2_lookup_r _ _ _ _ _ HF Hi) as (m' & Hm' & Hrec). exists m', r. split_and!; try done. by eapply list_elem_of_lookup_2. }
  apply list_elem_of_lookup in Hm as [i Hi]. destruct (Forall2_lookup_l _ _ _ _ _ HF Hi) as (r & Hr & Hrec).
  destruct (of_record_symbol _ r Hrec) as [Ha _]. cbn [fst] in Ha.
  assert (Hin : of_record r ∈ table) by (apply elem_of_app; left; apply list_elem_of_fmap_2; by eapply list_elem_of_lookup_2).
  destruct (find_symbol_nearest table addr (of_record r) Hin) as (e & He & Hel & Hle & Hb); [lia|].
  specialize (Hb _ Hin ltac:(lia)). rewrite Ha in Hb. unfold getsym. rewrite He.
  destruct (Hof e Hel) as [([a' name'] & r' & Hm' & Hrec' & ->) | ->]; [|simpl in Hb; lia].
  destruct (of_record_symbol _ r' Hrec') as [Ha' [x Hx]]. cbn [fst snd] in Ha', Hx. rewrite Ha' in *.
  destruct (Hbest a' name' Hm' Hle) as [?|[-> ->]]; [lia|]. exists x. rewrite <- Hx. by destruct (_ <=? _).
Qed.

(** ** An example *)

Definition blanks (n : nat) : list Z := replicate n 32.

(** The kinds of lines that a map of the kernel has: a title, an empty line, a
    section with its address and size, a file of the section, symbols, an
    assignment, a symbol in user space. *)
Definition symbol_line (hex name : string) : list Z := blanks 16 ++ str "0x" ++ str hex ++ blanks 16 ++ str name.
Definition map_lines : list (list Z) :=
  [ str "Linker script and memory map"; [];
    str ".text           0x0000000000100000     0xa000";
    str " .text          0x0000000000100000       0x40 boot.o";
    symbol_line "0000000000100000" "code = .";
    symbol_line "0000000000100010" "start"; [];
    str " .text          0x0000000000100090      0x2d1 main.o";
    symbol_line "00000000001000a0" "main"; 
    str " *fill*         0x00000000001003b1       0xf ";
    symbol_line "0000000008000000" "_start" ].

(** The empty line writes [start] a second time, and the filling after [main],
    whose line does not reach the names, goes by the name of [main]. *)
Example map_lines_symbols :
  symbols_of map_lines =
    [(0x100010, str "start"); (0x100010, str "start"); (0x1000a0, str "main"); (0x1003b1, str "main"); (0x8000000, str "_start")].
Proof. vm_compute. reflexivity. Qed.

Ltac by_check := refine (bool_decide_unpack _ _); vm_compute; exact I.

Lemma symbols_found_witness :
  exists file s', symclean (map_bytes map_lines) (replicate 100 7) = Ret file s' /\
    exists x, getsym (symbols_init (Some file)) 0x1000b4 = Some (cstr (str "main") x).
Proof.
  apply (symbols_found map_lines (replicate 100 7) 0x1000a0 (str "main") 0x1000b4).
  - unfold line_ok. by_check.
  - reflexivity.
  - by_check.
  - by_check.
  - by_check.
  - by_check.
  - intros a' name' Hin Hle. rewrite map_lines_symbols in Hin. apply list_elem_of_In in Hin. simpl in Hin.
    destruct Hin as [[= <- <-]|[[= <- <-]|[[= <- <-]|[[= <- <-]|[[= <- <-]|[]]]]]]; [left; lia | left; lia | by right | lia | lia].
Defined.
