(* ===== verification/KStack.v ===== *)
(** * KStack: the kernel stack of a new task (arch/x86/scheduler.c)

    [arch_scheduler_move_the_fucking_task_stack], which [kfork] uses to give the
    child a copy of the kernel stack of its parent at another address: words
    that point into the copied part of the old stack are changed to point to
    the same place of the new one.

    Memory is a map from addresses to 32-bit words.  The theorem says that the
    copy is the old stack moved, and the corollary that the chain of saved
    frame pointers, along which the child returns to user mode, is too. *)

From S2P Require Import Prelude.

Definition SCHED_KERNEL_STACK_SIZE := 4096 * 0x10.
Definition ARCH_STACK_START := 0xDFFFFFFC.

Notation memory := (gmap Z Z).

(** The fields of the two tasks that the function uses. *)
Record stack_task := mkStackTask { st_id : Z; st_kernel_stack : Z; st_esp : Z; st_ebp : Z; st_registers : Z }.

Definition rd_word (a : Z) : M memory Z := m <- get;; deref (m !! a).
Definition wr_word (a v : Z) : M memory unit := m <- get;; old <- deref (m !! a);; modify (fun m => <[a := v]> m).

(** One word: [tmpi] is the distance of the stacks. *)
Definition move_word (start stack2_end tmpi v : Z) : Z := if (v <=? start) && (stack2_end <=? v) then u32 (v + tmpi) else v.

(** The loop; the two pointers stop at different places. *)
Fixpoint move_words (fuel : nat) (stack stack_end stack2 stack2_end start tmpi : Z) : M memory unit :=
  if (stack =? stack_end) || (stack2 =? stack2_end) then ret tt else
  match fuel with
  | O => nofuel
  | S fuel =>
      v <- rd_word stack2;;
      wr_word stack (move_word start stack2_end tmpi v);;;
      move_words fuel (u32 (stack - 4)) stack_end (u32 (stack2 - 4)) stack2_end start tmpi
  end.

(** The kernel stack has [SCHED_KERNEL_STACK_SIZE / 4] words, so that as many
    rounds are enough.  The result is the new task with its registers moved. *)
Definition arch_scheduler_move_the_fucking_task_stack (current new_task : stack_task) : M memory stack_task :=
  let stack_end := st_kernel_stack new_task in
  let stack := u32 (stack_end + (SCHED_KERNEL_STACK_SIZE - 4)) in
  let stack2 := if st_id current =? 0 then ARCH_STACK_START
                else u32 (st_kernel_stack current + (SCHED_KERNEL_STACK_SIZE - 4)) in
  let stack2_end := st_esp new_task in
  let tmpi := stack - stack2 in
  move_words (Z.to_nat (SCHED_KERNEL_STACK_SIZE / 4)) stack stack_end stack2 stack2_end stack2 tmpi;;;
  ret (mkStackTask (st_id new_task) (st_kernel_stack new_task) (u32 (st_esp new_task + tmpi)) (u32 (st_ebp new_task + tmpi))
         (u32 (st_registers current + tmpi))).

(** ** The copy *)

Section Move.
Context (start stack2_end tmpi : Z) (m0 : memory).

(** The words above [stack2_end] up to [start], and where they go. *)
Context (k : nat).
Context (Hk : start = stack2_end + 4 * Z.of_nat k).
Context (Hlo : 4 <= stack2_end) (Hhi : start < 2 ^ 32) (Hnew : 4 <= stack2_end + tmpi) (Hnew2 : start + tmpi < 2 ^ 32).
Context (Hold : forall j, (j < k)%nat -> is_Some (m0 !! (start - 4 * Z.of_nat j))).
Context (Hroom : forall j, (j < k)%nat -> is_Some (m0 !! (start + tmpi - 4 * Z.of_nat j))).

(** The two stacks do not overlap. *)
Context (Hapart : forall i j, (i < k)%nat -> (j < k)%nat -> start - 4 * Z.of_nat i <> start + tmpi - 4 * Z.of_nat j).

(** [n] words are done. *)
Definition partly (n : nat) (m : memory) : Prop :=
  (forall j, (j < n)%nat -> m !! (start + tmpi - 4 * Z.of_nat j) = move_word start stack2_end tmpi <$> m0 !! (start - 4 * Z.of_nat j)) /\
  (forall a, (forall j, (j < n)%nat -> a <> start + tmpi - 4 * Z.of_nat j) -> m !! a = m0 !! a).

Lemma partly_step n m : (n < k)%nat -> partly n m ->
  exists v, m !! (start - 4 * Z.of_nat n) = Some v /\ is_Some (m !! (start + tmpi - 4 * Z.of_nat n)) /\
    partly (S n) (<[start + tmpi - 4 * Z.of_nat n := move_word start stack2_end tmpi v]> m).
Proof.
  intros Hn [Hp1 Hp2]. destruct (Hold n Hn) as [v Hv]. exists v. split_and!.
  - rewrite Hp2; [done|]. intros j Hj. apply Hapart; lia.
  - rewrite Hp2; [by apply Hroom|]. intros j Hj. lia.
  - split.
    + intros j Hj. destruct (decide (j = n)) as [->|Hne]; [by rewrite lookup_insert_eq, Hv|].
      rewrite lookup_insert_ne by lia. apply Hp1. lia.
    + intros a Ha. rewrite lookup_insert_ne by (apply not_eq_sym, Ha; lia). apply Hp2. intros j Hj. apply Ha. lia.
Qed.

Lemma move_words_ok fuel stack_end : forall n m, (n <= k)%nat -> (k - n <= fuel)%nat -> partly n m ->
  (forall j, (j < k)%nat -> stack_end <> start + tmpi - 4 * Z.of_nat j) ->
  exists m', partly k m' /\
    move_words fuel (start + tmpi - 4 * Z.of_nat n) stack_end (start - 4 * Z.of_nat n) stack2_end start tmpi m = Ret tt m'.
Proof.
  induction fuel as [|fuel IH]; intros n m Hn Hf Hp Hse; unfold move_words; fold move_words.
  - assert (n = k) as -> by lia. rewrite (proj2 (Z.eqb_eq (start - _) stack2_end)), orb_true_r by lia. by exists m.
  - destruct (decide (n = k)) as [->|Hne].
    + rewrite (proj2 (Z.eqb_eq (start - _) stack2_end)), orb_true_r by lia. by exists m.
    + rewrite (proj2 (Z.eqb_neq (start - _) stack2_end)), orb_false_r by lia.
      rewrite (proj2 (Z.eqb_neq _ _)) by (apply not_eq_sym, Hse; lia).
      destruct (partly_step n m) as (v & Hv & [o Ho] & Hp'); [lia | done |].
      unfold rd_word, wr_word. rewrite bind_assoc, bind_get, Hv. cbn [deref]. rewrite bind_ret_l.
      rewrite bind_assoc, bind_get, Ho. cbn [deref]. rewrite bind_assoc, bind_ret_l, bind_modify.
      replace (u32 (start + tmpi - 4 * Z.of_nat n - 4)) with (start + tmpi - 4 * Z.of_nat (S n)) by (rewrite u32_small; lia).
      replace (u32 (start - 4 * Z.of_nat n - 4)) with (start - 4 * Z.of_nat (S n)) by (rewrite u32_small; lia).
      apply IH; [lia | lia | done | done].
Qed.
End Move.

(** The old stack above [esp] and the new stack, [k] words each. *)
Record stacks_ok (current new_task : stack_task) (start tmpi : Z) (k : nat) (m : memory) : Prop := {
  so_start : start = if st_id current =? 0 then ARCH_STACK_START else st_kernel_stack current + (SCHED_KERNEL_STACK_SIZE - 4);
  so_tmpi : start + tmpi = st_kernel_stack new_task + (SCHED_KERNEL_STACK_SIZE - 4);
  so_size : start = st_esp new_task + 4 * Z.of_nat k /\ 4 * Z.of_nat k < SCHED_KERNEL_STACK_SIZE;
  so_range : 4 <= st_esp new_task /\ start < 2 ^ 32 /\ 4 <= st_kernel_stack new_task /\ start + tmpi < 2 ^ 32 /\
             0 <= st_kernel_stack current;
  so_old : forall j, (j < k)%nat -> is_Some (m !! (start - 4 * Z.of_nat j));
  so_room : forall j, (j < k)%nat -> is_Some (m !! (start + tmpi - 4 * Z.of_nat j));
  so_apart : SCHED_KERNEL_STACK_SIZE <= tmpi \/ tmpi <= - SCHED_KERNEL_STACK_SIZE }.

(** The frames from [p] on: [p] points to the saved frame pointer of the next
    one. *)
Fixpoint frames (m : memory) (p : Z) (ps : list Z) : Prop :=
  match ps with
  | [] => True
  | q :: ps => m !! p = Some q /\ frames m q ps
  end.

Section Result.
Context (current new_task : stack_task) (start tmpi : Z) (k : nat) (m : memory).
Context (Hok : stacks_ok current new_task start tmpi k m).

Lemma move_stack_ok : exists m', partly start (st_esp new_task) tmpi m k m' /\
  arch_scheduler_move_the_fucking_task_stack current new_task m =
  Ret (mkStackTask (st_id new_task) (st_kernel_stack new_task) (u32 (st_esp new_task + tmpi)) (u32 (st_ebp new_task + tmpi))
         (u32 (st_registers current + tmpi))) m'.
Proof.
  destruct Hok as [H1 H2 (H3 & H3') (R1 & R2 & R3 & R4 & R5) H5 H6 H7]. unfold SCHED_KERNEL_STACK_SIZE in *.
  destruct (move_words_ok start (st_esp new_task) tmpi m k) with (fuel := Z.to_nat (4096 * 16 / 4)) (stack_end := st_kernel_stack new_task)
    (n := 0%nat) (m := m) as (m' & Hp & E); try done; try lia.
  - change (4096 * 16 / 4) with 16384. lia.
  - split; [lia|]. done.
  - exists m'. split; [done|]. unfold arch_scheduler_move_the_fucking_task_stack, SCHED_KERNEL_STACK_SIZE.
    rewrite (u32_small (st_kernel_stack new_task + _)) by lia.
    replace (if st_id current =? 0 then ARCH_STACK_START else u32 (st_kernel_stack current + (4096 * 16 - 4))) with start.
    2:{ rewrite H1. destruct (st_id current =? 0); [done|]. rewrite u32_small; [done|]. lia. }
    replace (st_kernel_stack new_task + (4096 * 16 - 4) - start) with tmpi by lia. rewrite <- H2.
    change (Z.of_nat 0) with 0 in E. rewrite Z.mul_0_r, !Z.sub_0_r in E. by rewrite (bind_Ret _ _ _ _ _ E).
Qed.

(** C5: The stack of a new task is the stack of its parent above the saved
    stack pointer, moved: every word is copied to the same distance from the
    start of the new stack, pointers into the old stack are changed by that
    distance, no other word of the memory changes, and the saved registers
    move too.  So the frames of the child are those of its parent, moved. *)
Theorem stack_moved ps :
  frames m (st_ebp new_task) ps ->
  Forall (fun p => st_esp new_task < p <= start /\ (start - p) mod 4 = 0) (st_ebp new_task :: ps) ->
  exists m' t, arch_scheduler_move_the_fucking_task_stack current new_task m = Ret t m' /\
    st_esp t = st_esp new_task + tmpi /\ st_ebp t = st_ebp new_task + tmpi /\
    st_registers t = u32 (st_registers current + tmpi) /\
    (forall p, st_esp new_task < p <= start -> (start - p) mod 4 = 0 ->
       m' !! (p + tmpi) = (fun v => if decide (st_esp new_task <= v <= start) then v + tmpi else v) <$> m !! p) /\
    (forall a, ~ (st_esp new_task + tmpi < a <= start + tmpi) -> m' !! a = m !! a) /\
    frames m' (st_ebp t) (Z.add tmpi <$> ps).
Proof.
  intros Hf Hps. destruct move_stack_ok as (m' & [Hp1 Hp2] & E). exists m'. eexists. split; [exact E|]. cbn [st_esp st_ebp st_registers].
  destruct Hok as [H1 H2 (H3 & H3') (R1 & R2 & R3 & R4 & R5) _ _ _]. unfold SCHED_KERNEL_STACK_SIZE in *.
  assert (Hmv : forall v, move_word start (st_esp new_task) tmpi v = if decide (st_esp new_task <= v <= start) then v + tmpi else v).
  { intros v. unfold move_word. case_decide as Hv.
    - rewrite (proj2 (Z.leb_le v start)), (proj2 (Z.leb_le _ v)) by lia. apply u32_small. lia.
    - destruct (Z.leb_spec v start), (Z.leb_spec (st_esp new_task) v); try done. lia. }
  assert (Hat : forall p, st_esp new_task < p <= start -> (start - p) mod 4 = 0 ->
    m' !! (p + tmpi) = (fun v => if decide (st_esp new_task <= v <= start) then v + tmpi else v) <$> m !! p).
  { intros p Hp Hm. apply Z.mod_divide in Hm as [q Hq]; [|lia]. specialize (Hp1 (Z.to_nat q) ltac:(lia)).
    replace (start + tmpi - 4 * Z.of_nat (Z.to_nat q)) with (p + tmpi) in Hp1 by lia.
    replace (start - 4 * Z.of_nat (Z.to_nat q)) with p in Hp1 by lia. rewrite Hp1. destruct (m !! p) as [v|]; [|done]. simpl.
    by rewrite Hmv. }
  pose proof (Forall_inv Hps) as (Hb & _). split_and!; try done.
  - apply u32_small. lia.
  - apply u32_small. lia.
  - intros a Ha. apply Hp2. intros j Hj ->. lia.
  - rewrite u32_small by lia. clear Hp1 Hp2 E Hb. revert Hf Hps. generalize (st_ebp new_task) as p.
    induction ps as [|q ps IH]; intros p Hf Hps; [done|]. destruct Hf as [Hq Hf]. apply Forall_cons in Hps as [[Hp Hpm] Hps].
    cbn [fmap list_fmap frames]. rewrite Hat, Hq by done. cbn [fmap option_fmap option_map].
    pose proof (Forall_inv Hps) as [Hqr _]. rewrite decide_True by lia. split; [f_equal; lia|].
    replace (tmpi + q) with (q + tmpi) by lia. by apply IH.
Qed.
End Result.

(** ** An example *)

(** Two frames: the inner one at 0x1FFF4 with its return address. *)
Definition parent : stack_task := mkStackTask 1 0x10000 0 0 0x1FFF8.
Definition child : stack_task := mkStackTask 0 0x40000 0x1FFF0 0x1FFF4 0.
Definition stack_words : memory :=
  list_to_map [(0x1FFF4, 0x1FFFC); (0x1FFF8, 0xC0DE); (0x1FFFC, 7); (0x4FFF4, 0); (0x4FFF8, 0); (0x4FFFC, 0)].

Lemma stack_words_ok : stacks_ok parent child 0x1FFFC 0x30000 3 stack_words.
Proof.
  split; try done.
  - intros j Hj. destruct j as [|[|[|j]]]; [by eexists .. | lia].
  - intros j Hj. destruct j as [|[|[|j]]]; [by eexists .. | lia].
  - left. done.
Qed.

Lemma stack_moved_witness :
  exists m' t, arch_scheduler_move_the_fucking_task_stack parent child stack_words = Ret t m' /\
    st_ebp t = 0x4FFF4 /\ frames m' (st_ebp t) [0x4FFFC].
Proof.
  destruct (stack_moved parent child 0x1FFFC 0x30000 3 stack_words stack_words_ok [0x1FFFC]) as
    (m' & t & H1 & _ & H2 & _ & _ & _ & H3).
  - split; [reflexivity | exact I].
  - repeat constructor; vm_compute; congruence.
  - exists m', t. auto.
Defined.

(** The word the saved stack pointer points to is not copied. *)
Example top_word_lost :
  match arch_scheduler_move_the_fucking_task_stack parent child (<[0x1FFF0 := 0xBEEF]> stack_words) with
  | Ret t m' => (st_esp t, m' !! st_esp t)
  | _ => (0, None)
  end = (0x4FFF0, None).
Proof. vm_compute. reflexivity. Qed.
