(* ===== verification/Devices.v ===== *)
(** * Devices: /dev and the devices null and zero

    Model of devfs.c, null.c, zero.c and of the functions that put nodes into
    /dev and /proc: [tty_init] of tty.c, [rtc_init] of rtc.c and [procfs_init]
    of procfs.c.  The read and write functions of the devices implement the
    interface [Drivers] through which the virtual file system (Vfs.v) calls
    them, and the theorem follows a device from its start to a read through a
    path. *)

From S2P Require Import Prelude Chain KState LinkedList Signals Vfs Io Tasks Keeps.

(** ** Operations *)

(** The addresses of the callbacks. *)
Definition null_read_fn := 0x201.
Definition null_write_fn := 0x202.
Definition zero_read_fn := 0x203.
Definition tty_read_fn := 0x204.
Definition tty_write_fn := 0x205.
Definition rtc_read_fn := 0x206.

(** [null_read] stores nothing. *)
Definition null_read (node offset len : Z) : M kstate (Z * list Z) := ret (len, []).
Definition null_write (node offset len : Z) (buf : list Z) : M kstate Z := ret len.
Definition zero_read (node offset len : Z) : M kstate (Z * list Z) := ret (len, replicate (Z.to_nat len) 0).

(** The two devices among other drivers. *)
Definition with_devices (dr : Drivers) : Drivers := {|
  call_read fn node offset size :=
    if fn =? null_read_fn then null_read node offset size
    else if fn =? zero_read_fn then zero_read node offset size else call_read fn node offset size;
  call_write fn node offset size buf :=
    if fn =? null_write_fn then null_write node offset size buf else call_write fn node offset size buf;
  call_open := call_open; call_readdir := call_readdir; call_finddir := call_finddir; call_stat := call_stat;
  call_ioctl := call_ioctl; call_chown := call_chown |}.

Section Devices.
Context {al : Allocator} {dr : Drivers}.

(** A new directory below the root: [devfs_init] and [procfs_init]. *)
Definition init_directory (name oom failed : string) : M kstate Z :=
  dev <- malloc sizeof_vfs_node;;
  (if dev =? 0 then panic oom else ret tt);;;
  put dev ((VFS_NODE_INITIALIZER FS_DIRECTORY) <| n_name := name |> <| n_length := sizeof_vfs_node |>);;;
  r <- vfs_mknod 0 dev;;
  (if negb (r =? 0) then panic failed else ret tt);;;
  ret dev.

(** The static variables [dev] and [procfs] are the results. *)
Definition devfs_init : M kstate Z := init_directory "dev" "devfs: out of memory" "devfs: could not create node!".
Definition procfs_init : M kstate Z := init_directory "proc" "procfs_init: out of kernel memory" "procfs: could not create node!".

Definition devfs_register_device (node : Z) : M kstate Z := ret ENOSYS.
Definition devfs_mknod (dev node : Z) : M kstate Z := vfs_mknod dev node.

(** The node of a device is filled in and put into /dev. *)
Definition add_device (dev node : Z) (v : vfs_node) (failed : string) : M kstate unit :=
  put node v;;;
  r <- devfs_mknod dev node;;
  if r =? -1 then panic failed else ret tt.

Definition null_node : vfs_node :=
  (VFS_NODE_INITIALIZER FS_CHARDEVICE) <| n_name := "null" |> <| n_major := 7 |> <| n_minor := 1 |>
    <| n_read := null_read_fn |> <| n_write := null_write_fn |> <| n_length := sizeof_vfs_node |>.
Definition zero_node : vfs_node :=
  (VFS_NODE_INITIALIZER FS_CHARDEVICE) <| n_name := "zero" |> <| n_major := 8 |> <| n_minor := 1 |>
    <| n_read := zero_read_fn |> <| n_length := sizeof_vfs_node |>.
Definition tty_node : vfs_node :=
  (VFS_NODE_INITIALIZER FS_CHARDEVICE) <| n_name := "tty" |> <| n_major := 1 |> <| n_minor := 1 |>
    <| n_read := tty_read_fn |> <| n_write := tty_write_fn |> <| n_length := sizeof_vfs_node |>.
Definition rtc_node : vfs_node :=
  (VFS_NODE_INITIALIZER FS_CHARDEVICE) <| n_name := "rtc" |> <| n_read := rtc_read_fn |> <| n_write := 0 |>.

(** [nulldev] and [zerodev] are static. *)
Definition null_init (dev nulldev : Z) : M kstate unit := add_device dev nulldev null_node "null: could not create dev node!".
Definition zero_init (dev zerodev : Z) : M kstate unit := add_device dev zerodev zero_node "null: could not create dev node!".

Definition rtc_init (dev : Z) : M kstate unit :=
  rtc <- malloc sizeof_vfs_node;;
  if rtc =? 0 then panic "rtc_init: out of memory!" else
  add_device dev rtc rtc_node "rtc_init: could not create dev node!".

(** The terminal passes writes on to the console, and reads as in Kbd.v. *)
Definition tty_write (console node offset len : Z) (buf : list Z) : M kstate Z := vfs_write console offset len buf.

(** The static variable [console] is the result. *)
Definition tty_init (dev : Z) : M kstate Z :=
  tty <- malloc sizeof_vfs_node;;
  if tty =? 0 then panic "tty_init: out of memory!" else
  add_device dev tty tty_node "tty_init: could not create dev node!";;;
  console <- vfs_open "/dev/console" 0;;
  if console =? 0 then panic "tty: could not open /dev/console!" else ret console.
End Devices.

(** ** A node is added to a directory *)

(** Equal but for the links to other nodes. *)
Definition same_but_links (n n' : vfs_node) : Prop :=
  n' = n <| n_next := n_next n' |> <| n_ptr := n_ptr n' |>.

Lemma mknod_keeps_node h a v d dn ld q n : h !! q = Some n -> h !! d = Some dn -> q <> a -> d <> a -> a ∉ ld ->
  exists n', mknod_nodes (<[a := v]> h) d a dn v ld !! q = Some n' /\ same_but_links n n' /\
    (q ∉ ld -> n_next n' = n_next n) /\ (q <> d -> n_ptr n' = n_ptr n).
Proof.
  intros Hq Hd Hqa Hda Hal. unfold mknod_nodes.
  assert (Hsame : same_but_links n n) by (by destruct n).
  destruct (last ld) as [r|] eqn:El.
  - assert (Hr : r ∈ ld) by (apply last_Some in El as (? & ->); set_solver). assert (r <> a) by set_solver.
    rewrite !(lookup_insert_ne _ a r) by done. destruct (h !! r) as [m|] eqn:Er.
    + destruct (decide (q = r)) as [->|Hne].
      * rewrite lookup_insert_eq. eexists. split; [done|]. simplify_eq. by destruct n.
      * rewrite !lookup_insert_ne by done. by exists n.
    + rewrite !lookup_insert_ne by done. by exists n.
  - destruct (decide (q = d)) as [->|Hne].
    + rewrite lookup_insert_eq. eexists. split; [done|]. simplify_eq. by destruct n.
    + rewrite !lookup_insert_ne by done. by exists n.
Qed.

Lemma mknod_new h a v d dn ld : d <> a -> a ∉ ld ->
  mknod_nodes (<[a := v]> h) d a dn v ld !! a = Some (v <| n_parent := d |>).
Proof.
  intros Hda Hal. unfold mknod_nodes. destruct (last ld) as [r|] eqn:El.
  - assert (r <> a) by (apply last_Some in El as (? & ->); set_solver).
    rewrite !(lookup_insert_ne _ a r) by done. destruct (h !! r); by simplify_map_eq.
  - by simplify_map_eq.
Qed.

(** ** /dev *)

(** The directory [d] is /dev, with the nodes [ld]; the root directory has the
    nodes [l], and [m] are those of the mounted file system. *)
Record dev_ready (s : kstate) (d : Z) (l m ld : list Z) : Prop := {
  dv_root : plain_dir s (k_vfs_root s);
  dv_listing : listing s (k_vfs_root s) l m;
  dv_found : List.find (has_name s "dev") (l ++ m) = Some d;
  dv_dir : plain_dir s d;
  dv_children : children s d ld;
  dv_lock : exists n, k_nodes s !! d = Some n /\ n_lock n = 0;
  dv_apart : d <> k_vfs_root s /\ d <> k_vfs_root_mount s /\ d ∉ ld /\
             (forall q, q ∈ ld -> q ∉ l ++ m /\ q <> k_vfs_root s /\ q <> k_vfs_root_mount s) }.

(** The address [a] is not one of the nodes of the tree. *)
Definition outside (s : kstate) (d : Z) (l m ld : list Z) (a : Z) : Prop :=
  a <> 0 /\ a <> d /\ a <> k_vfs_root s /\ a <> k_vfs_root_mount s /\ a ∉ l ++ m ++ ld.

Lemma listing_live s l m q : listing s (k_vfs_root s) l m -> q ∈ l ++ m -> exists n, k_nodes s !! q = Some n.
Proof.
  unfold listing. rewrite Z.eqb_refl. intros [(n & _ & Hc) (n' & _ & Hc')] [Hq|Hq]%elem_of_app.
  - by destruct (chain_dom _ _ _ q Hc Hq).
  - by destruct (chain_dom _ _ _ q Hc' Hq).
Qed.

Section Attach.
Context {al : Allocator} {dr : Drivers}.
Context (s : kstate) (d : Z) (l m ld : list Z) (a : Z) (v : vfs_node) (failed : string).
Context (Hdev : dev_ready s d l m ld) (Hout : outside s d l m ld a) (Hnext : n_next v = 0).

Lemma add_device_ok : exists s' n, add_device d a v failed s = Ret tt s' /\ dev_ready s' d l m (ld ++ [a]) /\
  k_nodes s' !! a = Some n /\ n = v <| n_parent := d |> /\
  (forall q n, k_nodes s !! q = Some n -> q <> a -> exists n', k_nodes s' !! q = Some n' /\ same_but_links n n') /\
  k_vfs_root s' = k_vfs_root s /\ k_vfs_root_mount s' = k_vfs_root_mount s /\
  k_tasks s' = k_tasks s /\ k_current_task s' = k_current_task s.
Proof.
  destruct Hdev as [H1 H2 H3 H4 (dn & Hdn & Hc) (dn2 & Hdn2 & Hlk) (A1 & A2 & A3 & A4)].
  assert (dn2 = dn) by congruence. subst dn2.
  destruct Hout as (O1 & O2 & O3 & O4 & O5). rewrite !elem_of_app in O5.
  set (s1 := s <| k_nodes := <[a := v]> (k_nodes s) |>).
  destruct H4 as (D0 & dn2 & Hdn3 & Dfl & Dfd & Drd & Dop & Dst). assert (dn2 = dn) by congruence. subst dn2.
  assert (Hca : can_attach s1 d a dn v ld).
  { split; unfold s1; kred; try done.
    - by simplify_map_eq.
    - by simplify_map_eq.
    - intros E. apply (f_equal (fun z => Z.land z 0x7)) in E. revert Dfl. unfold FS_DIRECTORY in *. rewrite <- Z.land_assoc in E.
      intros Dfl. change (Z.land 0x2 0x7) with 0x2 in E. rewrite Z.land_0_l in E.
      assert (Z.land (Z.land (n_flags dn) 7) 2 = 0) as E2 by (rewrite <- Z.land_assoc; exact E). rewrite Dfl in E2. done.
    - eapply chain_frame; [exact Hc|]. intros q n Hq Hn. exists n. rewrite lookup_insert_ne by set_solver. done.
    - set_solver. }
  destruct (vfs_mknod_appends s1 d a dn v ld) as (s2 & n' & E & Hch & Hn' & Hpar); [by rewrite (proj2 (Z.eqb_neq d 0))|].
  destruct (vfs_mknod_ok s1 d a dn v ld) as (s2' & E' & Hnodes & _); [by rewrite (proj2 (Z.eqb_neq d 0))|].
  rewrite (proj2 (Z.eqb_neq d 0)) in * by done. rewrite E in E'. injection E' as <-. change (k_nodes s1) with (<[a := v]> (k_nodes s)) in Hnodes.
  pose proof (vfs_mknod_keeps (fun s => (k_vfs_root s, k_vfs_root_mount s, k_tasks s, k_current_task s)) d a
    ltac:(done) ltac:(done) _ _ _ E) as K. simpl in K. injection K as K1 K2 K3 K4.
  assert (Hkeep : forall q n, k_nodes s !! q = Some n -> q <> a -> exists n', k_nodes s2 !! q = Some n' /\ same_but_links n n' /\
    (q ∉ ld -> n_next n' = n_next n) /\ (q <> d -> n_ptr n' = n_ptr n)).
  { intros q n Hq Hqa. rewrite Hnodes. apply mknod_keeps_node; try done; set_solver. }
  exists s2, (v <| n_parent := d |>). split.
  { unfold add_device, devfs_mknod. rewrite run_put. change (set_objs _ s) with s1. by rewrite (bind_Ret _ _ _ _ _ E). }
  split; [|split_and!; try congruence].
  2:{ rewrite Hnodes. apply mknod_new; [congruence | set_solver]. }
  2:{ intros q n Hq Hqa. destruct (Hkeep q n Hq Hqa) as (n2 & ? & ? & _). by exists n2. }
  assert (Hplain : forall q, q <> a -> plain_dir s q -> plain_dir s2 q).
  { intros q Hqa (Hq0 & n & Hn & Hrest). destruct (Hkeep q n Hn Hqa) as (n2 & Hn2 & Hs & _).
    split; [done|]. exists n2. split; [done|]. by rewrite Hs. }
  assert (Hkids : forall q k, q <> a -> q <> d -> (forall x, x ∈ k -> x <> a /\ x ∉ ld) -> children s q k -> children s2 q k).
  { intros q k Hqa Hqd Hk (n & Hn & Hcn). destruct (Hkeep q n Hn Hqa) as (n2 & Hn2 & _ & _ & Hptr). exists n2. split; [done|].
    rewrite Hptr by done. eapply chain_frame; [exact Hcn|]. intros x y Hx Hy. destruct (Hk x Hx) as [Hxa Hxl].
    destruct (Hkeep x y Hy Hxa) as (y2 & Hy2 & _ & Hnx & _). exists y2. split; [done | by apply Hnx]. }
  split; rewrite ?K1, ?K2.
  - by apply Hplain.
  - destruct H2 as [L1 L2]. split; rewrite ?K1, ?K2.
    + apply Hkids; [done | done | | done]. intros x Hx. split; [set_solver|]. intros Hxl. destruct (A4 x Hxl). set_solver.
    + rewrite Z.eqb_refl in *. apply Hkids; [done | done | | done]. intros x Hx. split; [set_solver|]. intros Hxl. destruct (A4 x Hxl). set_solver.
  - rewrite <- H3. apply find_ext_in. intros q Hq. unfold has_name.
    destruct (listing_live _ _ _ q H2 Hq) as (n & Hn). rewrite Hn.
    assert (q <> a) as Hqa by set_solver. destruct (Hkeep q n Hn Hqa) as (n2 & -> & Hs & _). by rewrite Hs.
  - apply Hplain; [congruence | by split; [|exists dn]].
  - done.
  - destruct (Hkeep d dn Hdn ltac:(congruence)) as (n2 & Hn2 & Hs & _). exists n2. split; [done | by rewrite Hs].
  - split_and!; [done | done | set_solver |]. intros q [Hq|Hq%list_elem_of_singleton]%elem_of_app; [by apply A4|].
    subst q. split_and!; [set_solver | done | done].
Qed.
End Attach.

(** ** Through a path *)

(** The names in /dev after a step that keeps them. *)
Lemma find_kept s s' d l m ld ld' a name : dev_ready s d l m ld -> ld' ⊆ ld -> a ∉ ld' ->
  (forall q n, k_nodes s !! q = Some n -> q <> a -> exists n', k_nodes s' !! q = Some n' /\ same_but_links n n') ->
  List.find (has_name s' name) ld' = List.find (has_name s name) ld'.
Proof.
  intros Hd Hsub Ha Hk. apply find_ext_in. intros q Hq. destruct (dv_children _ _ _ _ _ Hd) as (n & _ & Hc).
  destruct (chain_dom _ _ _ q Hc ltac:(set_solver)) as [_ [v Hv]]. destruct (Hk q v Hv ltac:(set_solver)) as (v' & Hv' & Hs).
  unfold has_name. by rewrite Hv, Hv', Hs.
Qed.

Section Use.
Context {al : Allocator} (others : Drivers).
Notation devices := (with_devices others).

Lemma device_opens s d l m ld q name n path t flags : dev_ready s d l m ld ->
  List.find (has_name s name) ld = Some q -> k_nodes s !! q = Some n -> n_lock n = 0 -> q <> 0 ->
  strlen path <= MAX_PATH -> String.prefix "/" path = true -> components path = ["dev"; name] -> name <> "." -> name <> ".." ->
  k_tasks s !! k_current_task s = Some t -> allocate (k_mallocs s) (live s) (MAX_PATH + 1) <> 0 ->
  @vfs_open al devices path flags s = Ret q ((tick s) <| k_nodes := with_ref (k_nodes s) q |>).
Proof.
  intros [H1 H2 H3 H4 H5 H6 (A1 & _)] Hq Hn Hl Hq0 Hlen Hpre Hco N1 N2 Ht Ha.
  apply (@vfs_open_ok al devices s path flags t (Found q)); try done; [|by exists n].
  unfold open_target, start_dir. rewrite Hco, Hpre. replace (if k_vfs_root s =? 0 then _ else _) with (k_vfs_root s) by (by destruct (_ =? 0)).
  apply (walk_child s _ l m "dev" d); try done; [by destruct H4|].
  apply (walk_child s d ld [] name q); try done; [|by rewrite app_nil_r|constructor].
  split; [done|]. by rewrite (proj2 (Z.eqb_neq _ _)) by done.
Qed.

(** A read of the opened device goes to its function. *)
Lemma device_reads s q n o len : k_nodes s !! q = Some n -> q <> 0 -> n_read n <> 0 -> 0 < len ->
  @vfs_read devices q o len ((tick s) <| k_nodes := with_ref (k_nodes s) q |>) =
  @call_read devices (n_read n) q o len ((tick s) <| k_nodes := with_ref (k_nodes s) q |>).
Proof.
  intros Hn Hq Hr Hl. unfold vfs_read. rewrite run_assert by (by rewrite (proj2 (Z.eqb_neq _ _)) by done).
  rewrite run_assert by (by apply Z.ltb_lt). unfold with_ref. rewrite Hn.
  erewrite run_load; [|apply lookup_insert_eq]. simpl. by rewrite (proj2 (Z.eqb_neq _ _)).
Qed.

Lemma device_writes s q n o len buf : k_nodes s !! q = Some n -> q <> 0 ->
  @vfs_write devices q o len buf ((tick s) <| k_nodes := with_ref (k_nodes s) q |>) =
  (if n_write n =? 0 then ret 0 else @call_write devices (n_write n) q o len buf) ((tick s) <| k_nodes := with_ref (k_nodes s) q |>).
Proof.
  intros Hn Hq. unfold vfs_write. rewrite run_assert by (by rewrite (proj2 (Z.eqb_neq _ _)) by done). unfold with_ref. rewrite Hn.
  erewrite run_load; [|apply lookup_insert_eq]. simpl. by destruct (n_write n =? 0).
Qed.

(** C28: Once [null_init] and [zero_init] have run on a system with a /dev, the
    paths /dev/null and /dev/zero open the two nodes: a read of [len] bytes
    from null reports [len] bytes and stores none, a write to it is taken whole, a
    read from zero gives [len] zero bytes and a write to it takes nothing. *)
Theorem devices_work s d l m ld nulldev zerodev t :
  dev_ready s d l m ld -> outside s d l m ld nulldev -> outside s d l m ld zerodev -> nulldev <> zerodev ->
  List.find (has_name s "null") ld = None -> List.find (has_name s "zero") ld = None ->
  k_tasks s !! k_current_task s = Some t -> ample ->
  exists s', (null_init d nulldev;;; zero_init d zerodev) s = Ret tt s' /\
    (forall flags, exists s1, @vfs_open al devices "/dev/null" flags s' = Ret nulldev s1 /\
       (forall o len, 0 < len -> @vfs_read devices nulldev o len s1 = Ret (len, []) s1) /\
       (forall o len buf, @vfs_write devices nulldev o len buf s1 = Ret len s1)) /\
    (forall flags, exists s1, @vfs_open al devices "/dev/zero" flags s' = Ret zerodev s1 /\
       (forall o len, 0 < len -> @vfs_read devices zerodev o len s1 = Ret (len, replicate (Z.to_nat len) 0) s1) /\
       (forall o len buf, @vfs_write devices zerodev o len buf s1 = Ret 0 s1)).
Proof.
  intros Hd Hn Hz Hne Fn Fz Ht Ha.
  destruct (add_device_ok s d l m ld nulldev null_node "null: could not create dev node!" Hd Hn eq_refl)
    as (s1 & n1 & E1 & Hd1 & N1 & En1 & K1 & R1 & M1 & T1 & C1).
  assert (Hz1 : outside s1 d l m (ld ++ [nulldev]) zerodev).
  { destruct Hz as (Z1 & Z2 & Z3 & Z4 & Z5). unfold outside. rewrite R1, M1. split_and!; try done. set_solver. }
  destruct (add_device_ok s1 d l m (ld ++ [nulldev]) zerodev zero_node "null: could not create dev node!" Hd1 Hz1 eq_refl)
    as (s2 & n2 & E2 & Hd2 & N2 & En2 & K2 & R2 & M2 & T2 & C2).
  destruct (K2 nulldev n1 N1 Hne) as (n1' & N1' & S1).
  assert (Hfind : forall name, List.find (has_name s name) ld = None -> List.find (has_name s2 name) ld = None).
  { destruct Hn as (_ & _ & _ & _ & ?), Hz as (_ & _ & _ & _ & ?). intros name <-.
    rewrite <- (find_kept s s1 d l m ld ld nulldev) by (try done; set_solver).
    apply (find_kept s1 s2 d l m (ld ++ [nulldev]) ld zerodev); [done | set_solver | set_solver | done]. }
  exists s2. split; [unfold null_init; by rewrite (bind_Ret _ _ _ _ _ E1)|].
  assert (Hnul : List.find (has_name s2 "null") ((ld ++ [nulldev]) ++ [zerodev]) = Some nulldev).
  { rewrite !find_app, (Hfind "null") by done. simpl. unfold has_name. by rewrite N1', S1, En1. }
  assert (Hzer : List.find (has_name s2 "zero") ((ld ++ [nulldev]) ++ [zerodev]) = Some zerodev).
  { rewrite !find_app, (Hfind "zero") by done. simpl. unfold has_name. by rewrite N1', S1, En1, N2, En2. }
  destruct Hn as [Hn0 _]. destruct Hz as [Hz0 _].
  assert (Hf1 : n_lock n1' = 0 /\ n_read n1' = null_read_fn /\ n_write n1' = null_write_fn) by (by rewrite S1, En1).
  destruct Hf1 as (F1 & F2 & F3).
  assert (Hf2 : n_lock n2 = 0 /\ n_read n2 = zero_read_fn /\ n_write n2 = 0) by (by rewrite En2). destruct Hf2 as (G1 & G2 & G3).
  split; intros flags; eexists.
  - split; [apply (device_opens s2 d l m ((ld ++ [nulldev]) ++ [zerodev]) nulldev "null" n1' _ t); try done; congruence|].
    split; [intros o len Hlen; rewrite (device_reads _ _ n1'), F2 | intros o len buf; rewrite (device_writes _ _ n1'), F3];
      try done; by rewrite F2.
  - split; [apply (device_opens s2 d l m ((ld ++ [nulldev]) ++ [zerodev]) zerodev "zero" n2 _ t); try done; congruence|].
    split; [intros o len Hlen; rewrite (device_reads _ _ n2), G2 | intros o len buf; rewrite (device_writes _ _ n2), G3];
      try done; by rewrite G2.
Qed.
End Use.

(** ** The example system of Vfs.v *)

Module DevExample.
Import Vfs.Example.
#[local] Existing Instance bump_allocator.
#[local] Existing Instance no_drivers.

Lemma st_ready : dev_ready st 3 [3] [6] [4].
Proof.
  split; try done.
  - exact plain_root.
  - exact listing_root.
  - exact plain_dev.
  - exact (proj1 listing_dev).
  - by eexists.
  - split_and!; try done; set_solver.
Qed.

Example devices_work_witness : exists s',
  (null_init 3 300;;; zero_init 3 400) st = Ret tt s' /\
  (exists s1, @vfs_open _ (with_devices no_drivers) "/dev/zero" 0 s' = Ret 400 s1 /\
     @vfs_read (with_devices no_drivers) 400 0 2 s1 = Ret (2, [0; 0]) s1).
Proof.
  destruct (devices_work no_drivers st 3 [3] [6] [4] 300 400 the_task st_ready) as (s' & E & _ & H);
    try (split_and!; try done; set_solver); try done; [|].
  - exact bump_ample.
  - exists s'. split; [exact E|]. destruct (H 0) as (s1 & H1 & H2 & _). exists s1. split; [exact H1 | exact (H2 0 2 ltac:(lia))].
Defined.

(** /dev and /proc are made in a system whose root directory is empty. *)
Definition bare : kstate :=
  mkK (list_to_map [(1, dir "root" 0 0 0); (2, dir "initrd" 0 0 0)])
      ∅ {[200 := mkDesc 0 0 0 0]} ∅ ∅ {[100 := the_task]} ∅ 0 1 2 0 100 100 LINKED_LIST_INIT 0.

Definition boot : M kstate (Z * Z) := dev <- devfs_init;; null_init dev 300;;; zero_init dev 400;;; proc <- procfs_init;; ret (dev, proc).

Example boot_makes_directories : exists dev proc s',
  boot bare = Ret (dev, proc) s' /\ children s' 1 [dev; proc] /\ children s' dev [300; 400].
Proof.
  eexists _, _, _. split; [vm_compute; reflexivity|].
  split; (eexists; split; [vm_compute; reflexivity|]);
    repeat (split; [reflexivity|]; split; [done|]; eexists; split; [vm_compute; reflexivity|]); reflexivity.
Qed.
End DevExample.
