(* ===== verification/Procfs.v ===== *)
(** * Procfs: the files of a task under /proc (procfs.c)

    The callbacks of the nodes that [fork] puts under /proc (Fork.v), on the
    task list (LinkedList.v) that the scheduler (Tasks.v) walks.  The map of
    the pages of a task, which [arch_get_memmap] finds, is only read. *)

From S2P Require Import Prelude Memmap CString Chain KState LinkedList Signals Vfs Io Env Tasks.
From S2P Require Import Mmu Process Initrd Fork.

(** ** Operations *)

(** The address of [procfs_read]. *)
Definition procfs_read_fn := 0x104.

(** The inner loop of [procfs_readstrings]: the characters that are copied. *)
Fixpoint copy_chars (s : list Z) (sz : Z) : option (list Z) :=
  match s with
  | [] => None
  | c :: s => if (c =? 0) || (sz =? 0) then Some [] else cons c <$> copy_chars s (sz - 1)
  end.

(** The outer loop over the array of strings. *)
Fixpoint copy_strings (strings : list Z) (sz : Z) : M kstate (list Z) :=
  match strings with
  | [] => fault
  | p :: strings =>
      if (p =? 0) || (sz =? 0) then ret [] else
      b <- load p;;
      cs <- deref (copy_chars b sz);;
      let sz := sz - Z.of_nat (length cs) in
      if sz =? 0 then rest <- copy_strings strings sz;; ret (cs ++ rest)
      else rest <- copy_strings strings (sz - 1);; ret (cs ++ 32 :: rest)
  end.

Definition procfs_readstrings (strings sz : Z) : M kstate (Z * list Z) :=
  if strings =? 0 then ret (0, []) else
  arr <- load strings;;
  out <- copy_strings arr sz;;
  ret (Z.of_nat (length out), out).

(** The byte at [i] of the array of words. *)
Definition byte_at (words : list Z) (i : Z) : option Z :=
  (fun w => Z.shiftr w (8 * (i mod 4)) mod 256) <$> words !! Z.to_nat (i / 4).

(** [for (i = offset; i < end_byte; i++)] *)
Definition memmap_bytes (m : memmap) (offset end_byte : Z) : option (list Z) :=
  mapM (byte_at (pagemap m)) (seqZ offset (end_byte - offset)).

Section Procfs.
Context {al : Allocator} {dr : Drivers} {un : Uninit} (arch_get_memmap : Z -> option memmap) (procfs : Z).

(** [buf] holds the entry that is filled in. *)
Definition procfs_readdir (node index : Z) (buf : dirent) : M kstate (option dirent) :=
  assert (negb (node =? 0)) "node != NULL";;;
  n <- load node;;
  assert (Z.land (n_flags n) 0x7 =? FS_DIRECTORY) "(node->flags & 0x7) == FS_DIRECTORY";;;
  if node =? procfs then panic "0" else
  ret (if index =? 0 then Some (mkDirent "cmdline" (de_ino buf))
       else if index =? 1 then Some (mkDirent "environ" (de_ino buf))
       else if index =? 2 then Some (mkDirent "memmap" (de_ino buf)) else None).

Definition procfs_read (node offset sz : Z) : M kstate (Z * list Z) :=
  assert (negb (node =? 0)) "node != NULL";;;
  if sz =? 0 then ret (0, []) else
  lock_schedule;;;
  iter <- LINKED_LIST_ITER_INIT LTasks;;
  n <- load node;;
  iter <- LINKED_LIST_SEEK_UNTIL (fun _ t => negb (u32 (t_id t) =? n_inode n)) iter;;
  i <- load iter;;
  unlock_schedule;;;
  if i_val i =? 0 then ret (0, []) else
  t <- load (i_val i);;
  if t_argv t =? 0 then ret (0, [])
  else if String.eqb (n_name n) "cmdline" then procfs_readstrings (t_argv t) sz
  else if String.eqb (n_name n) "environ" then procfs_readstrings (t_envp t) sz
  else if String.eqb (n_name n) "memmap" then
    m <- deref (arch_get_memmap (i_val i));;
    let end_byte := u32 (sz + offset) in
    let end_byte := if (length_ m / 32) * 4 <? end_byte then (length_ m / 32) * 4 else end_byte in
    bytes <- deref (memmap_bytes m offset end_byte);;
    ret (Z.of_nat (length bytes), bytes)
  else ret (0, []).

(** [LINKED_LIST_SEEK_UNTIL(tasks_list, iter.current->val->procfs_node == node)]:
    the list moves, the iterator does not. *)
Fixpoint seek_tasks_list (fuel : nat) (iter node : Z) : M kstate unit :=
  match fuel with
  | O => nofuel
  | S fuel =>
      l <- load_list LTasks;;
      if l_current l =? 0 then ret tt else
      i <- load iter;;
      t <- load (i_val i);;
      if t_procfs_node t =? node then ret tt
      else LINKED_LIST_MOVE_NEXT LTasks;;; seek_tasks_list fuel iter node
  end.

(** The fields that [procfs_open] fills in of a new node. *)
Definition proc_file (name : string) (owner id len : Z) (n : vfs_node) : vfs_node :=
  n <| n_name := name |> <| n_uid := owner |> <| n_gid := owner |> <| n_inode := u32 id |> <| n_length := len |>
    <| n_read := procfs_read_fn |> <| n_write := 0 |>.

Definition new_proc_file (name : string) (owner id len : Z) : M kstate Z :=
  open_node <- malloc sizeof_vfs_node;;
  if open_node =? 0 then unlock_schedule;;; ret 0 else
  put open_node (proc_file name owner id len (node_at open_node));;;
  unlock_schedule;;; ret open_node.

Definition procfs_open (node : Z) (path : string) : M kstate Z :=
  lock_schedule;;;
  iter <- LINKED_LIST_ITER_INIT LTasks;;
  s <- get;;
  seek_tasks_list (item_fuel s) iter node;;;
  tmp <- (if iter =? 0 then ret 0 else i <- load iter;; ret (i_val i));;
  if tmp =? 0 then unlock_schedule;;; ret 0 else
  t <- load tmp;;
  if String.eqb path "cmdline" then new_proc_file "cmdline" 1 (t_id t) 43
  else if String.eqb path "environ" then new_proc_file "environ" 1 (t_id t) 43
  else if String.eqb path "memmap" then
    m <- deref (arch_get_memmap tmp);;
    new_proc_file "memmap" 0 (t_id t) ((length_ m / 32) * 4)
  else unlock_schedule;;; ret 0.

Definition procfs_close (node : Z) : M kstate unit :=
  assert (negb (node =? 0)) "node != NULL";;;
  free_obj (T := vfs_node) node.

Definition procfs_stat (node : Z) (path : string) : M kstate (option stat_t) :=
  stat_node <- procfs_open node path;;
  s <- vfs_stat stat_node None;;
  procfs_close stat_node;;;
  ret s.
End Procfs.

(** ** Strings *)

(** The array [ptrs] points to the strings [ss]. *)
Definition c_strings (h : gmap Z (list Z)) (ptrs : list Z) (ss : list (list Z)) : Prop :=
  Forall2 (fun p cs => p <> 0 /\ Forall (fun c => c <> 0) cs /\ exists rest, h !! p = Some (cs ++ 0 :: rest)) ptrs ss.

(** What the file shows: each string with a space behind it. *)
Definition shown_strings (ss : list (list Z)) : list Z := concat ((fun cs => cs ++ [32]) <$> ss).

Lemma copy_chars_ok cs rest : forall sz, Forall (fun c => c <> 0) cs -> 0 <= sz ->
  copy_chars (cs ++ 0 :: rest) sz = Some (take (Z.to_nat sz) cs).
Proof.
  induction cs as [|c cs IH]; intros sz Hcs Hsz; simpl; [by rewrite take_nil|].
  apply Forall_cons in Hcs as [Hc Hcs]. rewrite (proj2 (Z.eqb_neq _ _) Hc). simpl.
  destruct (Z.eqb_spec sz 0) as [->|Hne]; [done|]. rewrite IH by (done || lia).
  replace (Z.to_nat sz) with (S (Z.to_nat (sz - 1))) by lia. done.
Qed.

Lemma copy_strings_ok s ptrs ss more : c_strings (k_bufs s) ptrs ss -> forall sz, 0 <= sz ->
  copy_strings (ptrs ++ 0 :: more) sz s = Ret (take (Z.to_nat sz) (shown_strings ss)) s.
Proof.
  unfold shown_strings. induction 1 as [|p cs ptrs ss (Hp & Hcs & rest & Hb) _ IH]; intros sz Hsz; simpl; [by rewrite take_nil|].
  rewrite (proj2 (Z.eqb_neq _ _) Hp). simpl. destruct (Z.eqb_spec sz 0) as [->|Hne]; [done|].
  rewrite (run_load _ (cs ++ 0 :: rest)) by done. rewrite copy_chars_ok by done. change (deref (Some ?x)) with (ret (S := kstate) x). krun.
  rewrite length_take. rewrite <- app_assoc. simpl.
  destruct (Z.eqb_spec (sz - Z.of_nat (Z.to_nat sz `min` length cs)) 0) as [Hz|Hz].
  - erewrite bind_Ret; [|apply IH; lia]. rewrite Hz. rewrite (take_app_le cs) by lia. simpl. by rewrite app_nil_r.
  - erewrite bind_Ret; [|apply IH; lia]. rewrite (take_ge cs) by lia. rewrite take_app_ge by lia. unfold ret. do 2 f_equal.
    replace (Z.to_nat sz - length cs)%nat with (S (Z.to_nat (sz - Z.of_nat (Z.to_nat sz `min` length cs) - 1))) by lia.
    done.
Qed.

(** ** The task that a read is about *)

Lemma seek_item h hh cond p ps ts t : items hh p ps ts -> (forall t, t ∈ ts -> is_Some (h !! t)) ->
  List.find (fun t => match h !! t with Some v => cond t v | None => false end) ts = Some t ->
  exists n, hh !! seek h cond ps ts = Some (mkItem t n).
Proof.
  revert p ps. induction ts as [|u ts IH]; intros p [|q ps]; simpl; try done.
  intros (-> & Hq & n & Hn & Hi) Hts. destruct (Hts u ltac:(set_solver)) as [v Hv]. rewrite Hv.
  destruct (cond u v); [intros [= ->]; by exists n|]. intros Hf. eapply IH; [exact Hi | set_solver | done].
Qed.

(** Not the task with this number. *)
Definition other_task (h : gmap Z task) (inode t : Z) : bool :=
  match h !! t with Some v => negb (u32 (t_id v) =? inode) | None => false end.

(** ** Reading *)

(** The task list, with its lock free. *)
Record proc_list (s : kstate) (ps ts : list Z) : Prop := {
  pl_items : items (k_items s) (l_first (k_tasks_list s)) ps ts;
  pl_tasks : forall t, t ∈ ts -> t <> 0 /\ is_Some (k_tasks s !! t);
  pl_lock : k_schedule_lock s = 0 }.

Section Read.
Context (arch_get_memmap : Z -> option memmap).

(** The steps before the name of the file matters. *)
Lemma procfs_read_task s ps ts node n t v o sz :
  proc_list s ps ts -> node <> 0 -> k_nodes s !! node = Some n -> 0 < sz ->
  List.find (other_task (k_tasks s) (n_inode n)) ts = Some t -> k_tasks s !! t = Some v -> t_argv v <> 0 ->
  procfs_read arch_get_memmap node o sz s =
    (if String.eqb (n_name n) "cmdline" then procfs_readstrings (t_argv v) sz
     else if String.eqb (n_name n) "environ" then procfs_readstrings (t_envp v) sz
     else if String.eqb (n_name n) "memmap" then
       m <- deref (arch_get_memmap t);;
       let end_byte := u32 (sz + o) in
       let end_byte := if (length_ m / 32) * 4 <? end_byte then (length_ m / 32) * 4 else end_byte in
       bytes <- deref (memmap_bytes m o end_byte);;
       ret (Z.of_nat (length bytes), bytes)
     else ret (0, [])) s.
Proof.
  intros [Hi Ht Hl] Hn0 Hn Hsz Hf Hv Ha. unfold procfs_read. krun. rewrite (proj2 (Z.eqb_neq sz 0)) by lia.
  rewrite (bind_Ret _ _ _ _ _ (lock_free s Hl)). set (s1 := s <| k_schedule_lock := 1 |>).
  unfold LINKED_LIST_ITER_INIT, load_list. rewrite run_assoc. unfold s1 at 1. krun. fold s1.
  erewrite bind_Ret; [|eapply (LINKED_LIST_SEEK_UNTIL_spec _ _ ps ts); [exact Hi | intros u Hu; by apply Ht]].
  assert (t ∈ ts) by (apply List.find_some in Hf as [Hf _]; by apply list_elem_of_In).
  destruct (seek_item (k_tasks s) (k_items s) (fun _ t => negb (u32 (t_id t) =? n_inode n)) _ ps ts t Hi
    ltac:(intros u Hu; by apply Ht) Hf) as (nx & Hit).
  erewrite run_load by exact Hit. erewrite bind_Ret; [|by apply unlock_taken].
  replace (s1 <| k_schedule_lock := 0 |>) with s by (subst s1; rewrite <- Hl; by destruct s). kred.
  destruct (Ht t) as [Ht0 _]; [done|]. rewrite (proj2 (Z.eqb_neq _ _) Ht0). rewrite (run_load _ v) by done.
  by rewrite (proj2 (Z.eqb_neq _ _) Ha).
Qed.

(** A read of /proc/N/cmdline gives the words of the command line, each with a
    space behind it, cut at the size asked for, and a read of environ those of
    the environment; but the task is the first one in the task list whose number
    is not that of the file. *)
Theorem procfs_read_strings s ps ts node n t v strings ptrs ss more o sz :
  proc_list s ps ts -> node <> 0 -> k_nodes s !! node = Some n -> 0 < sz ->
  List.find (other_task (k_tasks s) (n_inode n)) ts = Some t -> k_tasks s !! t = Some v -> t_argv v <> 0 ->
  (n_name n = "cmdline" /\ strings = t_argv v \/ n_name n = "environ" /\ strings = t_envp v) ->
  strings <> 0 -> k_bufs s !! strings = Some (ptrs ++ 0 :: more) -> c_strings (k_bufs s) ptrs ss ->
  exists out, out = take (Z.to_nat sz) (shown_strings ss) /\
    procfs_read arch_get_memmap node o sz s = Ret (Z.of_nat (length out), out) s.
Proof.
  intros Hpl Hn0 Hn Hsz Hf Hv Ha Hname Hst Harr Hss. eexists. split; [done|].
  rewrite (procfs_read_task s ps ts node n t v) by done.
  assert (Hr : procfs_readstrings strings sz s = Ret (Z.of_nat (length (take (Z.to_nat sz) (shown_strings ss))),
    take (Z.to_nat sz) (shown_strings ss)) s).
  { unfold procfs_readstrings. rewrite (proj2 (Z.eqb_neq _ _) Hst). rewrite (run_load _ (ptrs ++ 0 :: more)) by done.
    erewrite bind_Ret; [|apply copy_strings_ok; [done | lia]]. done. }
  by destruct Hname as [[-> ->]|[-> ->]].
Qed.

Ltac divlia := Z.to_euclidean_division_equations; lia.

Lemma memmap_bytes_ok m o e : 0 <= o <= e -> e <= 4 * Z.of_nat (length (pagemap m)) ->
  exists bytes, memmap_bytes m o e = Some bytes /\ Z.of_nat (length bytes) = e - o /\
    forall p, 8 * o <= p < 8 * e ->
      exists b, bytes !! Z.to_nat (p / 8 - o) = Some b /\ Z.testbit b (p mod 8) = page_used m p.
Proof.
  intros Ho He. unfold memmap_bytes.
  destruct (mapM (byte_at (pagemap m)) (seqZ o (e - o))) as [bytes|] eqn:Em.
  - apply mapM_Some_1 in Em. pose proof (Forall2_length _ _ _ Em) as Hlen. rewrite length_seqZ in Hlen.
    exists bytes. split_and!; [done | lia |]. intros p Hp. assert (o <= p / 8 < e) as Hi by divlia.
    destruct (Forall2_lookup_l _ _ _ (Z.to_nat (p / 8 - o)) (p / 8) Em) as (b & Hb & Hby).
    { apply lookup_seqZ. divlia. }
    exists b. split; [done|]. unfold byte_at in Hby. apply fmap_Some in Hby as (w & Hw & ->).
    unfold page_used, Memmap.word_at, page_index, OFFSET_FROM_BIT. replace (p / 8 / 4) with (p / 32) in Hw by divlia. rewrite Hw.
    change 256 with (2 ^ 8). rewrite Z.mod_pow2_bits_low by divlia. rewrite Z.shiftr_spec by divlia. f_equal. divlia.
  - exfalso. apply eq_None_not_Some in Em. apply Em, mapM_is_Some_2, Forall_forall. intros i Hi%elem_of_seqZ.
    unfold byte_at. apply fmap_is_Some, lookup_lt_is_Some_2. divlia.
Qed.

(** A read of /proc/N/memmap from offset [o] gives the part of the page map
    that lies below its length: bit [p] of the file says whether page [p] is used. *)
Theorem procfs_read_memmap s ps ts node n t v m o sz :
  proc_list s ps ts -> node <> 0 -> k_nodes s !! node = Some n -> 0 < sz ->
  List.find (other_task (k_tasks s) (n_inode n)) ts = Some t -> k_tasks s !! t = Some v -> t_argv v <> 0 ->
  n_name n = "memmap" -> arch_get_memmap t = Some m -> length_ m / 32 <= Z.of_nat (length (pagemap m)) ->
  0 <= o <= length_ m / 32 * 4 -> sz + o < 2 ^ 32 ->
  exists bytes, procfs_read arch_get_memmap node o sz s = Ret (Z.of_nat (length bytes), bytes) s /\
    Z.of_nat (length bytes) = Z.min sz (length_ m / 32 * 4 - o) /\
    forall p, 8 * o <= p < 8 * (o + Z.of_nat (length bytes)) ->
      exists b, bytes !! Z.to_nat (p / 8 - o) = Some b /\ Z.testbit b (p mod 8) = page_used m p.
Proof.
  intros Hpl Hn0 Hn Hsz Hf Hv Ha Hname Hm Hlen Ho Hov.
  set (e := Z.min (sz + o) (length_ m / 32 * 4)).
  destruct (memmap_bytes_ok m o e) as (bytes & Hb & Hl & Hbits); [lia | lia |].
  exists bytes. split_and!; [| lia |].
  - rewrite (procfs_read_task s ps ts node n t v) by done. rewrite Hname. simpl. rewrite Hm.
    change (deref (Some m)) with (ret (S := kstate) m). rewrite run_ret. rewrite u32_small by lia.
    replace (if _ <? _ then _ else _) with e by (subst e; destruct (Z.ltb_spec (length_ m / 32 * 4) (sz + o)); lia).
    rewrite Hb. done.
  - intros p Hp. apply Hbits. lia.
Qed.
End Read.

(** ** Opening *)

Lemma seek_tasks_list_end iter node i t : forall qs us q s fuel, items (k_items s) q qs us ->
  k_items s !! iter = Some i -> k_tasks s !! i_val i = Some t -> t_procfs_node t <> node -> (length qs < fuel)%nat ->
  seek_tasks_list fuel iter node (at_item q s) = Ret tt (at_item 0 s).
Proof.
  induction qs as [|q1 qs IH]; intros us q s fuel Hi Hit Ht Hne Hf; (destruct fuel as [|fuel]; [simpl in Hf; lia|]);
    destruct us as [|u us]; simpl in Hi; try done; cbn [seek_tasks_list].
  - subst q. unfold load_list. krun. done.
  - destruct Hi as (-> & Hq & n & Hn & Hi). unfold load_list. rewrite run_gets. unfold at_item at 1. kred.
    rewrite (proj2 (Z.eqb_neq _ _) Hq). rewrite (run_load _ i) by done. rewrite (run_load _ t) by done.
    rewrite (proj2 (Z.eqb_neq _ _) Hne). unfold LINKED_LIST_MOVE_NEXT, load_list, store_list. unfold at_item at 1. krun.
    change (k_items s) with (k_items (at_item n s)) in Hi.
    erewrite bind_Ret; [|eapply value_at_items; exact Hi].
    replace (_ <| k_tasks_list := _ |>) with (at_item n s) by (unfold at_item; by destruct s).
    apply (IH us); [exact Hi | done | done | done | simpl in Hf; lia].
Qed.

Lemma seek_tasks_list_away s ps ts j iter node i t : items (k_items s) (l_first (k_tasks_list s)) ps ts ->
  ps !! j = Some (l_current (k_tasks_list s)) ->
  k_items s !! iter = Some i -> k_tasks s !! i_val i = Some t -> t_procfs_node t <> node ->
  seek_tasks_list (item_fuel s) iter node s = Ret tt (at_item 0 s).
Proof.
  intros Hi Hj Hit Ht Hne. set (q := l_current (k_tasks_list s)) in *.
  pose proof (items_length _ _ _ _ Hi) as Hlen. pose proof (lookup_lt_Some _ _ _ Hj).
  rewrite <- (take_drop_middle _ _ _ Hj), <- (take_drop j ts) in Hi.
  pose proof (items_suffix _ _ _ _ _ _ _ Hi ltac:(rewrite !length_take; lia)) as Hq.
  replace s with (at_item q s) at 2 by (unfold at_item, q; by destruct s as [? ? ? ? ? ? ? ? ? ? ? ? ? [] ?]).
  apply (seek_tasks_list_end iter node i t _ _ q s _ Hq); try done.
  unfold item_fuel. pose proof (chain_size _ _ _ (items_chain _ _ _ _ Hq)). lia.
Qed.

Section Open.
Context {al : Allocator} {un : Uninit} (arch_get_memmap : Z -> option memmap).

Lemma new_proc_file_ok s name owner id len : ample -> k_schedule_lock s = 1 ->
  exists p s', new_proc_file name owner id len s = Ret p s' /\ p <> 0 /\ k_schedule_lock s' = 0 /\
    k_nodes s' !! p = Some (proc_file name owner id len (node_at p)) /\ k_items s' = k_items s /\
    k_tasks_list s' = k_tasks_list s /\ k_current_task s' = k_current_task s /\ k_idle_task s' = k_idle_task s.
Proof.
  intros Ha Hl. unfold new_proc_file. krun. rewrite (proj2 (Z.eqb_neq _ _) (Ha _ _ _)). krun.
  erewrite bind_Ret; [|by apply unlock_taken]. unfold ret. eexists _, _. split; [done|]. kred. split_and!; try done.
  apply lookup_insert_eq.
Qed.

(** The files that a task has. *)
Definition proc_path (t : Z) (path : string) : Prop :=
  path = "cmdline" \/ path = "environ" \/ path = "memmap" /\ is_Some (arch_get_memmap t).

(** C26: A call of [procfs_open] for a task that is not the first one in the task
    list opens the file of the first task, and moves the list instead of its
    iterator to the end: the next switch of tasks follows a NULL pointer. *)
Theorem procfs_open_stops s ps ts node path t1 v1 :
  scheduling s ps ts -> k_schedule_lock s = 0 -> k_items s !! 0 = None -> k_current_task s <> k_idle_task s ->
  hd_error ts = Some t1 -> k_tasks s !! t1 = Some v1 -> t_procfs_node v1 <> node -> proc_path t1 path -> ample ->
  exists p s' n, procfs_open arch_get_memmap node path s = Ret p s' /\ p <> 0 /\
    k_nodes s' !! p = Some n /\ n_name n = path /\ n_inode n = u32 (t_id v1) /\
    exists s2, next_slice s' = Faults s2.
Proof.
  intros [_ Hi Ht _ _ Hpos] Hl H0 Hcur Hhd Hv1 Hne Hpath Ha.
  destruct Hpos as [?|(i & Hti & Hpi)]; [done|]. destruct ts as [|t ts]; simpl in Hhd; [done|]. injection Hhd as ->.
  destruct ps as [|p1 ps]; [done|]. pose proof Hi as (Hf & Hp1 & n1 & Hn1 & _).
  apply Forall_cons in Ht as [(Ht1 & _) _].
  set (s1 := s <| k_schedule_lock := 1 |>).
  assert (Hseek : seek_tasks_list (item_fuel s1) p1 node s1 = Ret tt (at_item 0 s1)).
  { eapply (seek_tasks_list_away s1 (p1 :: ps) (t1 :: ts) i p1 node (mkItem t1 n1) v1); done. }
  assert (Hnew : forall name owner len, exists p s', new_proc_file name owner (t_id v1) len (at_item 0 s1) = Ret p s' /\ p <> 0 /\
    k_nodes s' !! p = Some (proc_file name owner (t_id v1) len (node_at p)) /\ exists s2, next_slice s' = Faults s2).
  { intros name owner len.
    destruct (new_proc_file_ok (at_item 0 s1) name owner (t_id v1) len Ha eq_refl) as (p & s' & E & Hp & Hl' & Hnd & Hit & Htl & Hc & Hid).
    exists p, s'. split_and!; try done. eexists. unfold next_slice. rewrite (bind_Ret _ _ _ _ _ (lock_free s' Hl')).
    apply run_fault. unfold schedule_prelocked. apply run_fault. unfold first_pick. rewrite run_get. kred.
    rewrite Hc, Hid, Htl. unfold at_item, s1. kred. rewrite (proj2 (Z.eqb_neq _ _) Hcur).
    apply run_fault. unfold load. rewrite run_get. cbn [objs heap_item]. kred. rewrite Hit. unfold at_item, s1. kred. rewrite H0. done. }
  assert (Hopen : procfs_open arch_get_memmap node path s =
    (if String.eqb path "cmdline" then new_proc_file "cmdline" 1 (t_id v1) 43
     else if String.eqb path "environ" then new_proc_file "environ" 1 (t_id v1) 43
     else if String.eqb path "memmap" then m <- deref (arch_get_memmap t1);; new_proc_file "memmap" 0 (t_id v1) ((length_ m / 32) * 4)
     else unlock_schedule;;; ret 0) (at_item 0 s1)).
  { unfold procfs_open. rewrite (bind_Ret _ _ _ _ _ (lock_free s Hl)). fold s1.
    unfold LINKED_LIST_ITER_INIT, load_list. rewrite run_assoc, run_gets, run_ret, run_get.
    change (l_first (k_tasks_list s1)) with (l_first (k_tasks_list s)). rewrite Hf.
    rewrite (bind_Ret _ _ _ _ _ Hseek). rewrite (proj2 (Z.eqb_neq _ _) Hp1). rewrite run_assoc.
    rewrite (run_load _ (mkItem t1 n1)) by done. rewrite run_ret. cbn [i_val]. rewrite (proj2 (Z.eqb_neq _ _) Ht1).
    by rewrite (run_load _ v1) by done. }
  rewrite Hopen. destruct Hpath as [->|[->|[-> [m Hm]]]]; simpl; rewrite ?Hm;
    [destruct (Hnew "cmdline" 1 43) as (p & s' & E & Hp & Hnd & Hsl) | destruct (Hnew "environ" 1 43) as (p & s' & E & Hp & Hnd & Hsl) |
     destruct (Hnew "memmap" 0 (length_ m / 32 * 4)) as (p & s' & E & Hp & Hnd & Hsl)];
    exists p, s'; eexists; (split_and!; [exact E | exact Hp | exact Hnd | done | done | exact Hsl]).
Qed.
End Open.

(** ** Two tasks *)

Module ProcExample.
#[local] Existing Instance bump_allocator.
#[local] Instance blank : Uninit :=
  {| task_at _ := no_task; node_at _ := VFS_NODE_INITIALIZER 0; words_at _ n := replicate n 0;
     task_at_actions _ := eq_refl; words_at_length _ n := length_replicate n 0 |}.

(** Task 1 runs [sh -c] and task 2, the current one, [ls]; the node 7 is that
    of the second task under /proc. *)
Definition sh : task := no_task <| t_id := 1 |> <| t_argv := 30 |> <| t_procfs_node := 6 |> <| t_kernel_stack := 1 |>.
Definition ls : task := no_task <| t_id := 2 |> <| t_argv := 40 |> <| t_procfs_node := 7 |> <| t_kernel_stack := 1 |>.
Definition cmdline : vfs_node := proc_file "cmdline" 1 2 43 (VFS_NODE_INITIALIZER 0).
Definition pages : vfs_node := proc_file "memmap" 0 2 8 (VFS_NODE_INITIALIZER 0).
Definition map1 (t : Z) : option memmap := if t =? 100 then Some (mkMemmap [0x80000001; 3] 64 0) else None.

Definition st : kstate :=
  empty_kstate <| k_tasks := list_to_map [(50, no_task); (100, sh); (200, ls)] |> <| k_idle_task := 50 |>
    <| k_current_task := 200 |> <| k_items := list_to_map [(10, mkItem 100 20); (20, mkItem 200 0)] |>
    <| k_tasks_list := mkList 10 20 20 0 2 |> <| k_nodes := list_to_map [(8, cmdline); (9, pages)] |>
    <| k_bufs := list_to_map [(30, [31; 32; 0]); (31, str "sh" ++ [0]); (32, str "-c" ++ [0]); (40, [41; 0]); (41, str "ls" ++ [0])] |>.

Lemma st_items : items (k_items st) 10 [10; 20] [100; 200].
Proof. simpl. split_and!; try done. eexists. split; [reflexivity|]. simpl. split_and!; try done. by eexists. Qed.

Lemma st_list : proc_list st [10; 20] [100; 200].
Proof.
  split; [exact st_items | | done]. intros t Ht. assert (t = 100 \/ t = 200) as [->| ->] by set_solver; split; try done; by eexists.
Qed.

Lemma two_scheduling : scheduling st [10; 20] [100; 200].
Proof.
  split; try done.
  - by eexists.
  - exact st_items.
  - repeat constructor; try done; by eexists.
  - by apply (bool_decide_unpack _).
  - right. by exists 1%nat.
Qed.

(** The file of task 2 shows the command line of task 1. *)
Example procfs_read_strings_witness : procfs_read map1 8 0 100 st = Ret (6, str "sh -c ") st.
Proof.
  destruct (procfs_read_strings map1 st _ _ 8 cmdline 100 sh 30 [31; 32] [str "sh"; str "-c"] [] 0 100 st_list) as (out & -> & H);
    try (by left); try done.
  repeat constructor; try done; by eexists.
Defined.

Example procfs_read_memmap_witness : exists bytes,
  procfs_read map1 9 1 100 st = Ret (Z.of_nat (length bytes), bytes) st /\ Z.of_nat (length bytes) = 7.
Proof.
  destruct (procfs_read_memmap map1 st _ _ 9 pages 100 sh (mkMemmap [0x80000001; 3] 64 0) 1 100 st_list) as (bytes & H1 & H2 & _);
    try done. by exists bytes.
Defined.

Example procfs_open_stops_witness : exists p s' n, procfs_open map1 7 "cmdline" st = Ret p s' /\ k_nodes s' !! p = Some n /\
  n_inode n = 1 /\ exists s2, next_slice s' = Faults s2.
Proof.
  destruct (procfs_open_stops map1 st _ _ 7 "cmdline" 100 sh two_scheduling) as (p & s' & n & H1 & _ & H2 & _ & H3 & H4);
    try done; [by left | exact bump_ample |]. by exists p, s', n.
Defined.

(** [procfs_stat] of a file that a task does not have stops the kernel. *)
Example stat_missing : exists s', @procfs_stat _ no_drivers _ map1 6 "status" st = Panics "node != NULL" s'.
Proof. eexists. vm_compute. reflexivity. Qed.

(** The listing of /proc itself as well. *)
Example readdir_proc : exists s', procfs_readdir 5 5 0 (mkDirent "" 0)
  (st <| k_nodes := {[5 := VFS_NODE_INITIALIZER FS_DIRECTORY]} |>) = Panics "0" s'.
Proof. eexists. vm_compute. reflexivity. Qed.
End ProcExample.
