(* ===== verification/Exec.v ===== *)
(** * Exec: starting a program

    Model of [mmap] (mman.c), the ELF loader (elfldr.c) and [execve]
    (scheduler.c), in the state of Fork.v: a program is read through its
    descriptor (Io.v), its segments become pages of the address space (Mmu.v),
    and the task gets new arguments and a new environment (Env.v).

    The jump into user mode ends [execve]; its arguments are the result.  The
    strings of [argv] and [envp] are read from the memory of the program that
    is replaced, after that memory was given back: what these reads give is an
    argument.  [at_null] is the length of the string at address 0, if memory is
    mapped there, [raw] what new memory holds, and [clear] the stores of
    [memset] to the pages of the program. *)

From S2P Require Import Prelude Memmap Mmu CString Chain KState LinkedList Signals Vfs Io Env Tasks Process.
From S2P Require Import Descriptors Initrd InitrdImage Fork Forked.

(** ** Data *)

Definition PROT_READ := 0x1.
Definition PROT_WRITE := 0x2.
Definition PROT_EXEC := 0x4.
Definition MAP_SHARED := 0x8.
Definition MAP_PRIVATE := 0x10.

Definition ELFMAG := 0x464C457F.
Definition ELFCLASS32 := 1.
Definition PT_LOAD := 1.
Definition sizeof_ehdr := 52.
Definition sizeof_phdr := 32.

(** The fields of [Elf32_Ehdr] that the loader uses. *)
Definition e_magic (h : list Z) : Z := word_at_byte h 0.
Definition e_class (h : list Z) : Z := nth 4 h 0.
Definition e_entry (h : list Z) : Z := word_at_byte h 24.
Definition e_phnum (h : list Z) : Z := nth 44 h 0 + 256 * nth 45 h 0.

Record Elf32_Phdr := mkPhdr {
  p_type : Z; p_offset : Z; p_vaddr : Z; p_paddr : Z; p_filesz : Z; p_memsz : Z; p_flags : Z; p_align : Z
}.

(** [p_hdr[j]] *)
Definition phdr_at (b : list Z) (j : nat) : Elf32_Phdr :=
  let w k := word_at_byte b (32 * j + 4 * k) in
  mkPhdr (w 0%nat) (w 1%nat) (w 2%nat) (w 3%nat) (w 4%nat) (w 5%nat) (w 6%nat) (w 7%nat).

(** The new contents of a buffer of [n] bytes. *)
Definition filled_with (bytes old : list Z) : list Z := bytes ++ drop (length bytes) old.

(** How a call of [execve] ends. *)
Inductive exec_end := ExecError (e : Z) | Entered (entry argc argv : Z).

(** ** The arguments *)

(** Stores into the block; [None] outside of it. *)
Definition put_bytes (b : list Z) (k : nat) (bytes : list Z) : option (list Z) :=
  if (k + length bytes <=? length b)%nat then Some (take k b ++ bytes ++ drop (k + length bytes) b) else None.
Definition put_word (b : list Z) (k : nat) (w : Z) : option (list Z) := put_bytes b k (le32 w).
Definition put_string (b : list Z) (k : nat) (s : list Z) : option (list Z) := put_bytes b k (s ++ [0]).

(** The size of the block. *)
Definition args_size (path : list Z) (args : list (list Z)) : nat :=
  let l := (sum_list_with (fun a => S (length a)) args + 4 * (length args + 2) + S (length path))%nat in
  if Nat.eqb (l mod 4) 0 then l else (l - l mod 4 + 4)%nat.

(** [for (j = 0; j < i; j++)].  The string is [argv[j]]; its pointer is moved by
    the length of [argv[j + 1]]. *)
Fixpoint place_args (at_null : option nat) (base : Z) (j next : nat) (args : list (list Z)) (b : list Z) : option (list Z) :=
  match args with
  | [] => Some b
  | a :: args =>
      b ← put_word b (4 * (j + 1)) (u32 (base + Z.of_nat next));
      b ← put_string b next a;
      len ← match args with a' :: _ => Some (length a') | [] => at_null end;
      place_args at_null base (S j) (next + len + 1) args b
  end.

Definition args_block (at_null : option nat) (base : Z) (path : list Z) (args : list (list Z)) (b : list Z) : option (list Z) :=
  let next := (4 * (length args + 2))%nat in
  b ← put_word b 0 (u32 (base + Z.of_nat next));
  b ← put_string b next path;
  b ← place_args at_null base 0 (next + length path + 1) args b;
  put_word b (4 * (length args + 1)) 0.

(** [name] and [value] of an entry of [envp]. *)
Fixpoint split_env (s : list Z) : list Z * list Z :=
  match s with
  | [] => ([], [])
  | c :: s => if c =? EQ then ([], s) else let '(n, v) := split_env s in (c :: n, v)
  end.

Section Exec.
Context {al : Allocator} {dr : Drivers} (malloc_ok : nat -> bool) (fuel : nat).
Context (raw : Z -> nat -> list Z) (at_null : option nat) (clear : Z -> Z -> M mmu unit).

(** ** mman.c *)

Definition shm_open : M world Z := ret ENOSYS.

Definition mmap_flags (prot flags : Z) : Z :=
  let kflags := KALLOC_OPTN_MMAP in
  let kflags := if flag prot PROT_WRITE then Z.lor kflags KALLOC_OPTN_WRITEABLE else kflags in
  if flag flags MAP_PRIVATE then Z.lor kflags KALLOC_OPTN_NOCOW else kflags.

(** The entry is put at the end of the task's list. *)
Definition add_mmap (m : mmap_info_t) : M mmu unit :=
  t <- task_of;;
  w <- wait_word (mt_mmaps_lock t);;
  upd_task (fun t => t <| mt_mmaps_lock := w |>);;;
  upd_task (fun t => t <| mt_mmaps := mt_mmaps t ++ [m] |>);;;
  t <- task_of;;
  w <- release_word (mt_mmaps_lock t);;
  upd_task (fun t => t <| mt_mmaps_lock := w |>).

Definition mmap (addr len prot flags fd off : Z) : M world Z :=
  if Z.land flags (Z.lor MAP_SHARED MAP_PRIVATE) =? 0 then onK (set_errno EINVAL);;; ret 0 else
  filedesc <- onK (get_file_descriptor fd);;
  if filedesc =? 0 then onK (set_errno EBADF);;; ret 0 else
  mmap_info <- malloc_raw sizeof_mmap_info;;
  if mmap_info =? 0 then onK (set_errno ENOMEM);;; ret 0 else
  '(ap, _) <- onM (kalloc malloc_ok fuel (u32 (len + Z.land addr 0xFFF)) (Z.land addr 0xFFFFF000) (mmap_flags prot flags) mmap_info);;
  if ap =? 0 then onK (set_errno ENOMEM);;; ret 0 else
  onM (add_mmap (mkMmap mmap_info addr len flags prot off fd));;;
  ret ap.

(** ** elfldr.c *)

Definition elf_ldprog (p : Elf32_Phdr) (fd : Z) : M world Z :=
  let vaddr := Z.land (p_vaddr p) 0xFFFFF000 in
  let sz := u32 (p_memsz p + Z.land (p_vaddr p) 0xFFF) in
  assert (0 <? sz) "sz > 0";;;
  if 0 <? p_filesz p then
    ap <- mmap (p_vaddr p) sz (Z.lor (Z.lor PROT_READ PROT_WRITE) PROT_EXEC) MAP_SHARED fd (p_offset p);;
    ret (if ap =? 0 then -1 else 0)
  else
    '(ptr, _) <- onM (kalloc malloc_ok fuel sz vaddr KALLOC_OPTN_ALIGN 0);;
    if ptr =? 0 then ret (-1) else
    assert (ptr =? vaddr) "ptr == (void*) vaddr";;;
    onM (clear (p_vaddr p) (p_memsz p));;;
    ret 0.

(** The loop over the program headers; a segment that cannot be loaded is
    reported and skipped. *)
Fixpoint load_segments (ps : list Elf32_Phdr) (fd : Z) : M world unit :=
  match ps with
  | [] => ret tt
  | p :: ps =>
      (if (p_type p =? PT_LOAD) && (0 <? p_memsz p) then elf_ldprog p fd;;; ret tt else ret tt);;;
      load_segments ps fd
  end.

(** The rest of [elf_load] after the header [h] was read. *)
Definition elf_segments (fd elf_hdr r : Z) (h : list Z) : M world Z :=
  if u32 r <? sizeof_ehdr then onK (set_errno EBADF);;; ret 0
  else if negb (e_magic h =? ELFMAG) then onK (set_errno EINVAL);;; ret 0
  else if negb (e_class h =? ELFCLASS32) then onK (set_errno EINVAL);;; ret 0 else
  p_hdr <- malloc_raw (sizeof_phdr * e_phnum h);;
  if p_hdr =? 0 then onK (set_errno ENOMEM);;; onK (free_obj (T := list Z) elf_hdr);;; ret 0 else
  '(_, bytes) <- onK (read fd (sizeof_phdr * e_phnum h));;
  let b := filled_with bytes (raw p_hdr (Z.to_nat (sizeof_phdr * e_phnum h))) in
  onK (put p_hdr b);;;
  load_segments (phdr_at b <$> seq 0 (Z.to_nat (e_phnum h))) fd;;;
  onK (free_obj (T := list Z) p_hdr);;;
  onK (free_obj (T := list Z) elf_hdr);;;
  ret (e_entry h).

Definition elf_load (fd : Z) : M world Z :=
  elf_hdr <- malloc_raw sizeof_ehdr;;
  if elf_hdr =? 0 then onK (set_errno ENOMEM);;; ret 0 else
  onK (rewindfd fd);;;
  '(r, bytes) <- onK (read fd sizeof_ehdr);;
  let h := filled_with bytes (raw elf_hdr 52) in
  onK (put elf_hdr h);;;
  elf_segments fd elf_hdr r h.

(** ** execve *)

(** [while (current_task->buffers != NULL)] *)
Fixpoint free_buffers (n : nat) : M mmu unit :=
  match n with
  | O => nofuel
  | S n =>
      t <- task_of;;
      match mt_buffers t with
      | [] => ret tt
      | b :: _ => Mmu.kfree (b_address b);;; free_buffers n
      end
  end.

(** Every signal gets its default action. *)
Definition default_actions (t : task) : task := t <| t_sig_action := (fun _ => mkSigact 0 0 SIG_DFL) <$> t_sig_action t |>.

Fixpoint set_environment (envp : list (list Z)) : M kstate unit :=
  match envp with
  | [] => ret tt
  | e :: envp =>
      let '(name, value) := split_env e in
      (if (length name <? 255)%nat then ret tt else fault);;;
      setenv (Some name) value 0;;;
      set_environment envp
  end.

Definition set_arguments (path : list Z) (args : list (list Z)) : M kstate Z :=
  t <- current;;
  (if negb (t_argv t =? 0) then free_obj (T := list Z) (t_argv t) else ret tt);;;
  let l := args_size path args in
  tmp <- malloc (Z.of_nat l);;
  upd_current (fun t => t <| t_argv := tmp |>);;;
  if tmp =? 0 then panic "What do we do here?" else
  b <- deref (args_block at_null tmp path args (raw tmp l));;
  put tmp b;;;
  ret tmp.

Definition execve (path : option string) (argv envp : option (list (list Z))) : M world exec_end :=
  path <- deref path;;
  if MAX_PATH <? Vfs.strlen path then ret (ExecError ENAMETOOLONG)
  else if Vfs.strlen path =? 0 then ret (ExecError EBADF) else
  fd <- onK (open path 0);;
  if fd <? 0 then ret (ExecError (-1)) else
  t <- onM task_of;;
  w <- get;;
  onM (free_buffers (S (length (kernel_buffers (w_m w)) + length (mt_buffers t))));;;
  onK (upd_current (fun t => clear_task_signals (t <| t_sigmask := 0 |>)));;;
  vaddr <- elf_load fd;;
  if vaddr =? 0 then ret (ExecError (-1)) else
  onK (upd_current default_actions);;;
  let args := default [] argv in
  argv <- onK (set_arguments (bytes_of path) args);;
  onK free_env;;;
  onK (match envp with Some envp => set_environment envp | None => ret tt end);;;
  ret (Entered vaddr (Z.of_nat (length args) + 1) argv).
End Exec.

(** ** The block of arguments *)

(** [n] bytes from [k]. *)
Definition slice (b : list Z) (k n : nat) : list Z := take n (drop k b).

Lemma put_bytes_ok b k bs : (k + length bs <= length b)%nat -> exists b', put_bytes b k bs = Some b' /\
  length b' = length b /\ slice b' k (length bs) = bs /\
  forall k' n, (k' + n <= k \/ k + length bs <= k')%nat -> slice b' k' n = slice b k' n.
Proof.
  intros H. unfold put_bytes. rewrite (proj2 (Nat.leb_le _ _) H). eexists. split; [done|]. unfold slice. split_and!.
  - rewrite !length_app, length_take, length_drop. lia.
  - rewrite drop_app_le by (rewrite length_take; lia). rewrite drop_ge by (rewrite length_take; lia).
    simpl. by rewrite take_app_le, take_ge by lia.
  - intros k' n Hk. apply list_eq. intros i. destruct (decide (i < n)%nat) as [Hi|Hi].
    2:{ rewrite !lookup_ge_None_2; [done| rewrite length_take; lia | rewrite length_take; lia]. }
    rewrite !lookup_take_lt by done. rewrite !lookup_drop. destruct Hk as [Hk|Hk].
    + rewrite lookup_app_l by (rewrite length_take; lia). by rewrite lookup_take_lt by lia.
    + rewrite !lookup_app_r by (rewrite ?length_take; lia). rewrite lookup_drop, length_take. f_equal. lia.
Qed.

(** The pointer with number [i] of the block leads to the string [a]. *)
Definition arg_at (base : Z) (b : list Z) (i : nat) (a : list Z) : Prop :=
  exists st, slice b (4 * i) 4 = le32 (u32 (base + Z.of_nat st)) /\ slice b st (S (length a)) = a ++ [0].

Section Args.
Context (z : nat) (base : Z) (c : nat).

Lemma place_args_ok : forall args j next b,
  Forall (fun a => length a = c) args -> (next + length args * S c <= length b)%nat -> (4 * (j + 1 + length args) <= next)%nat ->
  exists b', place_args (Some z) base j next args b = Some b' /\ length b' = length b /\
    (forall k n, (k + n <= 4 * (j + 1) \/ 4 * (j + 1 + length args) <= k /\ k + n <= next)%nat -> slice b' k n = slice b k n) /\
    (forall i a, args !! i = Some a -> exists st, (next <= st)%nat /\
       slice b' (4 * (j + 1 + i)) 4 = le32 (u32 (base + Z.of_nat st)) /\ slice b' st (S (length a)) = a ++ [0]).
Proof.
  induction args as [|a args IH]; intros j next b Hc Hlen Hw; [by exists b|].
  apply Forall_cons in Hc as [Ha Hc]. cbn [place_args length] in *.
  destruct (put_bytes_ok b (4 * (j + 1)) (le32 (u32 (base + Z.of_nat next)))) as (b1 & E1 & L1 & S1 & O1); [simpl; lia|].
  unfold put_word. rewrite E1. cbn [mbind option_bind].
  assert (Hla : length (a ++ [0]) = S c) by (rewrite length_app; simpl; lia).
  destruct (put_bytes_ok b1 next (a ++ [0])) as (b2 & E2 & L2 & S2 & O2); [lia|].
  unfold put_string. rewrite E2. cbn [mbind option_bind].
  set (len := match args with a' :: _ => Some (length a') | [] => Some z end).
  assert (exists n', len = Some n' /\ (args <> [] -> n' = c)) as (n' & -> & Hn').
  { subst len. destruct args as [|a' args]; [by exists z|]. exists (length a'). split; [done|]. intros _. by inversion Hc. }
  cbn [mbind option_bind].
  destruct (decide (args = [])) as [->|Hne].
  - exists b2. cbn [place_args]. split_and!; [done | lia | |].
    + intros k n Hk. rewrite O2 by (rewrite Hla; simpl in *; lia). apply O1. simpl in *. lia.
    + intros i x Hx. destruct i as [|i]; [|done]. injection Hx as <-. exists next. split_and!; [lia | |].
      * replace (4 * (j + 1 + 0))%nat with (4 * (j + 1))%nat by lia. rewrite O2 by lia. exact S1.
      * rewrite Ha. by rewrite Hla in S2.
  - specialize (Hn' Hne) as ->. destruct (IH (S j) (next + c + 1)%nat b2 Hc ltac:(lia) ltac:(lia)) as (b' & E' & L' & O' & A').
    exists b'. split_and!; [exact E' | lia | |].
    + intros k n Hk. rewrite O' by lia. rewrite O2 by lia. apply O1. simpl. lia.
    + intros [|i] x Hx.
      * injection Hx as <-. exists next. split_and!; [lia | |].
        -- replace (4 * (j + 1 + 0))%nat with (4 * (j + 1))%nat by lia. rewrite O' by lia. rewrite O2 by lia. exact S1.
        -- rewrite O' by lia. rewrite Ha. by rewrite Hla in S2.
      * destruct (A' i x Hx) as (st & Hst & W & T). exists st. split_and!; [lia | | done].
        by replace (4 * (j + 1 + S i))%nat with (4 * (S j + 1 + i))%nat by lia.
Qed.
End Args.

Lemma sum_equal c (args : list (list Z)) : Forall (fun a => length a = c) args ->
  sum_list_with (fun a => S (length a)) args = (length args * S c)%nat.
Proof. induction 1 as [|a args Ha _ IH]; simpl; lia. Qed.

Lemma args_size_bounds path args (l := (sum_list_with (fun a => S (length a)) args + 4 * (length args + 2) + S (length path))%nat) :
  (l <= args_size path args <= l + 3)%nat.
Proof.
  unfold args_size. fold l. pose proof (Nat.mod_upper_bound l 4 ltac:(lia)). pose proof (Nat.Div0.mod_le l 4).
  destruct (Nat.eqb_spec (l mod 4) 0); lia.
Qed.

Lemma args_block_ok at_null base path args c b :
  (args = [] \/ exists z, at_null = Some z) -> Forall (fun a => length a = c) args -> length b = args_size path args ->
  exists b', args_block at_null base path args b = Some b' /\ length b' = length b /\ arg_at base b' 0 path /\
    (forall i a, args !! i = Some a -> arg_at base b' (S i) a) /\ slice b' (4 * (length args + 1)) 4 = le32 0.
Proof.
  intros Hz Hc Hb. pose proof (args_size_bounds path args) as Hsz. rewrite (sum_equal c) in Hsz by done. simpl in Hsz.
  unfold args_block. set (next := (4 * (length args + 2))%nat) in *.
  destruct (put_bytes_ok b 0 (le32 (u32 (base + Z.of_nat next)))) as (b1 & E1 & L1 & S1 & O1); [simpl; lia|].
  unfold put_word, put_string. rewrite E1. cbn [mbind option_bind].
  assert (Hlp : length (path ++ [0]) = S (length path)) by (rewrite length_app; simpl; lia).
  destruct (put_bytes_ok b1 next (path ++ [0])) as (b2 & E2 & L2 & S2 & O2); [lia|].
  rewrite E2. cbn [mbind option_bind].
  assert (exists z, place_args at_null base 0 (next + length path + 1) args b2 = place_args (Some z) base 0 (next + length path + 1) args b2)
    as (z & ->) by (destruct Hz as [-> | (z & ->)]; [by exists 0%nat | by exists z]).
  destruct (place_args_ok z base c args 0 (next + length path + 1) b2 Hc ltac:(lia) ltac:(lia)) as (b3 & E3 & L3 & O3 & A3).
  rewrite E3. cbn [mbind option_bind].
  destruct (put_bytes_ok b3 (4 * (length args + 1)) (le32 0)) as (b4 & E4 & L4 & S4 & O4); [simpl; lia|].
  exists b4. split_and!; [exact E4 | lia | | | exact S4].
  - exists next. rewrite O4 by lia. rewrite O4 by (simpl; lia). rewrite O3 by lia. rewrite O3 by lia. rewrite O2 by lia.
    rewrite <- Hlp. by split.
  - intros i a Ha. pose proof (lookup_lt_Some _ _ _ Ha). destruct (A3 i a Ha) as (st & Hst & W & T). exists st.
    replace (4 * S i)%nat with (4 * (0 + 1 + i))%nat by lia. rewrite O4 by lia. rewrite O4 by (simpl; lia). by split.
Qed.

(** The last string ends [sum_tail] bytes behind the start of the first. *)
Fixpoint sum_tail (args : list (list Z)) : nat :=
  match args with [] => 0%nat | [a] => S (length a) | _ :: (a' :: _) as args => (S (length a') + sum_tail args)%nat end.

Lemma put_bytes_length b k bs b' : put_bytes b k bs = Some b' -> length b' = length b /\ (k + length bs <= length b)%nat.
Proof.
  unfold put_bytes. destruct (Nat.leb_spec (k + length bs) (length b)) as [H|H]; [|done]. intros [= <-].
  rewrite !length_app, length_take, length_drop. lia.
Qed.

Lemma place_args_fits at_null base : forall args j next b b', place_args at_null base j next args b = Some b' ->
  args <> [] -> (next + sum_tail args <= length b)%nat /\ at_null <> None.
Proof.
  induction args as [|a args IH]; intros j next b b' H Hne; [done|]. cbn [place_args] in H.
  apply bind_Some in H as (b1 & [L1 _]%put_bytes_length & H). apply bind_Some in H as (b2 & [L2 F2]%put_bytes_length & H).
  rewrite length_app in F2. simpl in F2. apply bind_Some in H as (len & Hlen & H).
  destruct args as [|a' args]; [simpl; split; [lia | congruence]|]. injection Hlen as <-.
  destruct (IH _ _ _ _ H ltac:(done)) as [H1 H2]. split; [|done]. cbn [sum_tail] in *. lia.
Qed.

Lemma sum_tail_last a args d : last (a :: args) = Some d ->
  (sum_tail (a :: args) + length a = sum_list_with (fun a => S (length a)) (a :: args) + length d)%nat.
Proof.
  revert a. induction args as [|a' args IH]; intros a Hl; [injection Hl as ->; simpl; lia|].
  specialize (IH a' Hl). cbn [sum_tail sum_list_with] in *. lia.
Qed.

Section SetArguments.
Context {al : Allocator} (raw : Z -> nat -> list Z) (at_null : option nat).
Context (Hraw : forall a n, length (raw a n) = n) (Hample : ample).

(** The current task, with no arguments yet or with arguments in memory. *)
Definition old_args (s : kstate) : Prop :=
  exists t, k_tasks s !! k_current_task s = Some t /\ (t_argv t = 0 \/ exists b, k_bufs s !! t_argv t = Some b).

Lemma set_arguments_run s path args : old_args s -> exists tmp s1,
  tmp <> 0 /\ (exists t, k_tasks s1 !! k_current_task s1 = Some t /\ t_argv t = tmp) /\
  set_arguments raw at_null path args s =
    match args_block at_null tmp path args (raw tmp (args_size path args)) with
    | Some b => Ret tmp (s1 <| k_bufs := <[tmp := b]> (k_bufs s1) |>)
    | None => Faults s1
    end.
Proof.
  intros (t & Ht & Ha). unfold set_arguments. rewrite (run_current t) by done.
  set (s0 := if t_argv t =? 0 then s else s <| k_bufs := delete (t_argv t) (k_bufs s) |>).
  assert (E : (if negb (t_argv t =? 0) then free_obj (T := list Z) (t_argv t) else ret tt) s = Ret tt s0).
  { subst s0. destruct (Z.eqb_spec (t_argv t) 0) as [E|E]; [done|]. destruct Ha as [?|[b Hb]]; [done|]. exact (free_obj_ok (T := list Z) _ b s Hb). }
  rewrite (bind_Ret _ _ _ _ _ E).
  assert (Ht0 : k_tasks s0 !! k_current_task s0 = Some t) by (subst s0; by destruct (t_argv t =? 0)).
  rewrite run_malloc. set (tmp := allocate _ _ _). unfold upd_current. rewrite run_assoc, run_get.
  erewrite run_upd; [|exact Ht0]. rewrite (proj2 (Z.eqb_neq tmp 0)) by (apply Hample).
  exists tmp. eexists. split; [apply Hample|]. split; [|].
  2:{ destruct (args_block _ _ _ _ _) as [b|]; [|done]. simpl. reflexivity. }
  eexists. split; [apply lookup_insert_eq|]. done.
Qed.

(** C7: [execve] copies arguments of equal length into a block of its own, with
    the path as argument 0, a pointer to each string and NULL at the end, as long
    as address 0 can be read.  It writes outside of the block when the last
    argument is more than three bytes longer than the first, and with any
    argument it reads the string at address 0. *)
Theorem exec_args s path args c : old_args s ->
  ((args = [] \/ exists z, at_null = Some z) -> Forall (fun a => length a = c) args ->
   exists tmp s' b, set_arguments raw at_null path args s = Ret tmp s' /\ k_bufs s' !! tmp = Some b /\
     (exists t, k_tasks s' !! k_current_task s' = Some t /\ t_argv t = tmp) /\
     arg_at tmp b 0 path /\ (forall i a, args !! i = Some a -> arg_at tmp b (S i) a) /\
     slice b (4 * (length args + 1)) 4 = le32 0) /\
  (forall a d, head args = Some a -> last args = Some d -> (length a + 3 < length d)%nat \/ at_null = None ->
   exists s', set_arguments raw at_null path args s = Faults s').
Proof.
  intros Hs. destruct (set_arguments_run s path args Hs) as (tmp & s1 & Htmp & Ht & ->). split.
  - intros Hz Hc. destruct (args_block_ok at_null tmp path args c (raw tmp (args_size path args)) Hz Hc (Hraw _ _))
      as (b & -> & _ & H0 & Hi & Hn).
    eexists _, _, b. split; [done|]. split; [apply lookup_insert_eq|]. by split_and!.
  - intros a d Ha Hd Hbad. exists s1. destruct args as [|a' args]; [done|]. injection Ha as ->.
    destruct (args_block _ _ _ _ _) as [b|] eqn:E; [exfalso|done]. unfold args_block in E.
    apply bind_Some in E as (b1 & [L1 _]%put_bytes_length & E). apply bind_Some in E as (b2 & [L2 _]%put_bytes_length & E).
    apply bind_Some in E as (b3 & E & _). apply place_args_fits in E as [E Hn]; [|done].
    pose proof (sum_tail_last a args d Hd). pose proof (args_size_bounds path (a :: args)).
    rewrite L2, L1, Hraw in E. cbv zeta in *. destruct Hbad; [lia|done].
Qed.
End SetArguments.

(** ** The program's file *)

Section Loader.
Context {al : Allocator} {dr : Drivers}.

(** The descriptor [fd] is the entry [f] of the table, for a node whose
    driver gives the bytes [content]. *)
Record program (k : kstate) (fd f : Z) (content : list Z) : Prop := {
  pr_table : exists t table d l, open_files k t table d l /\ file_of k l fd = f /\ f ∈ l;
  pr_entry : f <> 0;
  pr_node : exists v n, k_files k !! f = Some v /\ f_node v <> 0 /\ k_nodes k !! f_node v = Some n /\ n_read n <> 0 /\
    forall o sz k', k_nodes k' = k_nodes k -> 0 <= o -> 0 < sz ->
      call_read (n_read n) (f_node v) o sz k' =
        Ret (Z.of_nat (length (slice content (Z.to_nat o) (Z.to_nat sz))), slice content (Z.to_nat o) (Z.to_nat sz)) k' }.

(** What the loader changes: its memory, and the position in the file. *)
Definition at_offset (f o : Z) (k : kstate) : kstate :=
  k <| k_files := alter (fun v => v <| f_offset := o |>) f (k_files k) |>.

Lemma program_frame k k' fd f content : program k fd f content -> k_tasks k' = k_tasks k ->
  k_current_task k' = k_current_task k -> k_files k' = k_files k -> k_descs k' = k_descs k -> k_nodes k' = k_nodes k ->
  program k' fd f content.
Proof.
  intros [(t & table & d & l & Ho & Hf & Hl) H0 Hn] E1 E2 E3 E4 E5. split; [| done | by rewrite E3, E5].
  exists t, table, d, l. split_and!; [by eapply open_files_frame | | done].
  rewrite <- Hf. unfold file_of, has_fd. by rewrite E3.
Qed.

Lemma program_moves k fd f o content : program k fd f content -> program (at_offset f o k) fd f content.
Proof.
  intros [(t & table & d & l & [T1 T2 T3 T4 T5 T6] & Hf & Hl) H0 (v & n & Hv & Hr)]. split; [| done |].
  - exists t, table, d, l. unfold at_offset. split_and!; [split; kred; try done | | done].
    + eapply chain_frame; [exact T6|]. intros q m _ Hm. destruct (decide (q = f)) as [->|Hne].
      * rewrite lookup_alter_eq, Hm. simpl. by eexists.
      * rewrite lookup_alter_ne by done. by exists m.
    + transitivity (file_of k l fd); [|done]. unfold file_of, has_fd. kred. f_equal. apply find_ext_in. intros q _. destruct (decide (q = f)) as [->|Hne].
      * rewrite lookup_alter_eq, Hv. done.
      * by rewrite lookup_alter_ne.
  - exists (v <| f_offset := o |>), n. unfold at_offset. kred. by rewrite lookup_alter_eq, Hv.
Qed.

Lemma rewind_program k fd f content : program k fd f content -> rewindfd fd k = Ret 0 (at_offset f 0 k).
Proof.
  intros [(t & table & d & l & Ho & Hf & _) H0 (v & n & Hv & _)]. unfold rewindfd.
  rewrite (bind_Ret _ _ _ _ _ (get_file_descriptor_ok _ _ _ _ _ fd Ho)), Hf. rewrite (proj2 (Z.eqb_neq _ _) H0).
  erewrite run_upd by exact Hv. unfold ret, at_offset. f_equal. kstate. by erewrite insert_alter.
Qed.

Lemma read_program k fd f content o sz : program k fd f content -> (exists v, k_files k !! f = Some v /\ f_offset v = o) ->
  0 <= o -> 0 < sz -> o + sz < 2 ^ 32 ->
  read fd sz k = Ret (Z.of_nat (length (slice content (Z.to_nat o) (Z.to_nat sz))), slice content (Z.to_nat o) (Z.to_nat sz))
    (at_offset f (o + Z.of_nat (length (slice content (Z.to_nat o) (Z.to_nat sz)))) k).
Proof.
  intros [(t & table & d & l & Ho & Hf & _) H0 (v & n & Hv & Hn0 & Hn & Hr & Hread)] (v' & Hv' & <-) Hp Hsz Hlim. simplify_eq.
  unfold read. rewrite (bind_Ret _ _ _ _ _ (get_file_descriptor_ok _ _ _ _ _ fd Ho)). rewrite (proj2 (Z.eqb_neq _ _) H0).
  rewrite (run_load _ v) by done. set (bs := slice _ _ _).
  assert (E : vfs_read (f_node v) (f_offset v) sz k = Ret (Z.of_nat (length bs), bs) k).
  { unfold vfs_read. rewrite run_assert by (by rewrite (proj2 (Z.eqb_neq _ _) Hn0)). rewrite run_assert by (by apply Z.ltb_lt).
    rewrite (run_load _ n) by done. rewrite (proj2 (Z.eqb_neq _ _) Hr). by apply Hread. }
  rewrite (bind_Ret _ _ _ _ _ E). erewrite run_upd by exact Hv. unfold ret, at_offset. f_equal. kstate.
  assert (Z.of_nat (length bs) <= sz) by (unfold bs, slice; rewrite length_take; lia).
  rewrite u32_small by lia. by erewrite insert_alter.
Qed.
End Loader.

(** ** Program headers *)

Definition phdr_words (p : Elf32_Phdr) : list Z :=
  [p_type p; p_offset p; p_vaddr p; p_paddr p; p_filesz p; p_memsz p; p_flags p; p_align p].
Definition encode_phdr (p : Elf32_Phdr) : list Z := concat (le32 <$> phdr_words p).
Definition phdr_ok (p : Elf32_Phdr) : Prop := Forall is_word (phdr_words p).

Lemma encode_phdrs_length ps : length (concat (encode_phdr <$> ps)) = (32 * length ps)%nat.
Proof.
  induction ps as [|p ps IH]; [done|]. rewrite fmap_cons. cbn [concat]. rewrite length_app, IH. unfold encode_phdr at 1.
  rewrite concat_words_length. simpl. lia.
Qed.

Lemma phdr_decoded ps rest j p : Forall phdr_ok ps -> ps !! j = Some p ->
  phdr_at (concat (encode_phdr <$> ps) ++ rest) j = p.
Proof.
  intros Hok Hj. pose proof (Forall_lookup_1 _ _ _ _ Hok Hj) as Hp. rewrite <- (take_drop_middle _ _ _ Hj).
  rewrite fmap_app, fmap_cons, concat_app. cbn [concat].
  set (pre := concat (encode_phdr <$> take j ps)). set (post := concat (encode_phdr <$> drop (S j) ps)).
  assert (Hpre : length pre = (32 * j)%nat).
  { unfold pre. rewrite encode_phdrs_length, length_take. apply lookup_lt_Some in Hj. lia. }
  assert (Hw : forall k w, phdr_words p !! k = Some w -> word_at_byte ((pre ++ encode_phdr p ++ post) ++ rest) (32 * j + 4 * k) = w).
  { intros k w Hk. unfold encode_phdr. rewrite <- (take_drop_middle _ _ _ Hk) at 1. rewrite fmap_app, fmap_cons, concat_app. cbn [concat].
    set (p1 := concat (le32 <$> take k (phdr_words p))).
    assert (Hp1 : length p1 = (4 * k)%nat).
    { unfold p1. rewrite concat_words_length, length_take. apply lookup_lt_Some in Hk. lia. }
    replace (32 * j + 4 * k)%nat with (length (pre ++ p1)) by (rewrite length_app; lia).
    rewrite <- !app_assoc. rewrite (app_assoc pre p1). apply word_at_byte_app. by apply (Forall_lookup_1 _ _ _ _ Hp Hk). }
  unfold phdr_at. transitivity (mkPhdr (p_type p) (p_offset p) (p_vaddr p) (p_paddr p) (p_filesz p) (p_memsz p) (p_flags p) (p_align p));
    [|by destruct p]. f_equal; by apply Hw.
Qed.

(** ** Loading *)

Section Load.
Context {al : Allocator} {dr : Drivers} (malloc_ok : nat -> bool) (fuel : nat).
Context (raw : Z -> nat -> list Z) (clear : Z -> Z -> M mmu unit) (Hample : ample).
Context (Hraw : forall a n, length (raw a n) = n).
Notation load := (elf_load malloc_ok fuel raw clear).

(** Memory from [malloc], with what is written to it. *)
Definition with_buffer (a : Z) (b : list Z) (k : kstate) : kstate := k <| k_bufs := <[a := b]> (k_bufs k) |>.

Lemma malloc_raw_run size w : exists a k', a <> 0 /\ malloc_raw size w = Ret a (w <| w_k := k' |>) /\
  k_bufs k' = <[a := []]> (k_bufs (w_k w)) /\ k_bufs (w_k w) !! a = None /\
  (forall fd f content, program (w_k w) fd f content -> program k' fd f content) /\ k_files k' = k_files (w_k w).
Proof.
  set (a := allocate (k_mallocs (w_k w)) (live (w_k w)) size). pose proof (Hample (k_mallocs (w_k w)) (live (w_k w)) size : a <> 0) as Ha.
  eexists a, _. split; [done|]. unfold malloc_raw. split.
  { erewrite (run_onK (malloc size) _ w a) by reflexivity. rewrite (proj2 (Z.eqb_neq _ _) Ha).
    by erewrite (run_onK (put (T := list Z) a []) _ _ tt) by reflexivity. }
  split_and!; [done | by apply allocate_live | | done]. intros fd f content Hp. eapply program_frame; [exact Hp|..]; done.
Qed.

Lemma slice_front (b1 b2 : list Z) : slice (b1 ++ b2) 0 (length b1) = b1.
Proof. unfold slice. by rewrite drop_0, take_app_length. Qed.
Lemma slice_middle (b1 b2 b3 : list Z) : slice (b1 ++ b2 ++ b3) (length b1) (length b2) = b2.
Proof. unfold slice. by rewrite drop_app_length, take_app_length. Qed.

Lemma offset_set k f o v : k_files k !! f = Some v -> exists v', k_files (at_offset f o k) !! f = Some v' /\ f_offset v' = o.
Proof. intros Hv. exists (v <| f_offset := o |>). unfold at_offset. kred. by rewrite lookup_alter_eq, Hv. Qed.

Lemma header_read w fd f h rest : program (w_k w) fd f (h ++ rest) -> length h = 52%nat ->
  exists elf_hdr k1, load fd w = elf_segments malloc_ok fuel raw clear fd elf_hdr 52 h (w <| w_k := k1 |>) /\
    program k1 fd f (h ++ rest) /\ k_bufs k1 = <[elf_hdr := h]> (k_bufs (w_k w)) /\
    (exists v, k_files k1 !! f = Some v /\ f_offset v = 52) /\ k_bufs (w_k w) !! elf_hdr = None.
Proof.
  intros Hp Hh. unfold elf_load. destruct (malloc_raw_run sizeof_ehdr w) as (a & k' & Ha & E & Hb & Hfr & Hpr & Hfi).
  rewrite (bind_Ret _ _ _ _ _ E), (proj2 (Z.eqb_neq _ _) Ha). pose proof (Hpr _ _ _ Hp) as Hp'.
  erewrite (run_onK _ _ _ 0) by exact (rewind_program _ _ _ _ Hp').
  pose proof (program_moves k' fd f 0 _ Hp') as Hp0.
  destruct (pr_node _ _ _ _ Hp') as (v & n & Hv & _).
  destruct (offset_set k' f 0 v Hv) as (v0 & Hv0 & Ho0).
  erewrite (run_onK _ _ _ (52, h)).
  2:{ kred. rewrite (read_program _ fd f (h ++ rest) 0 sizeof_ehdr Hp0) by (done || by exists v0).
      change (Z.to_nat 0) with 0%nat. change (Z.to_nat sizeof_ehdr) with 52%nat. rewrite <- Hh, slice_front, Hh. done. }
  assert (Hfill : filled_with h (raw a 52) = h) by (unfold filled_with; rewrite Hh, drop_ge by (by rewrite Hraw); apply app_nil_r).
  rewrite Hfill. erewrite (run_onK (put a h) _ _ tt) by reflexivity.
  eexists a, _. split; [reflexivity|]. split_and!.
  - eapply program_frame; [exact (program_moves (at_offset f 0 k') fd f 52 _ Hp0)|..]; done.
  - kred. change (k_bufs (at_offset f 52 (at_offset f 0 k'))) with (k_bufs k'). by rewrite Hb, insert_insert_eq.
  - kred. by apply (offset_set (at_offset f 0 k') f 52 v0).
  - done.
Qed.

(** A file that starts with the header [h] and the program headers [ps]: up to
    the segments only the loader's memory and the position in the file
    change. *)
Lemma elf_load_headers w fd f h ps rest :
  program (w_k w) fd f (h ++ concat (encode_phdr <$> ps) ++ rest) -> length h = 52%nat ->
  e_magic h = ELFMAG -> e_class h = ELFCLASS32 -> e_phnum h = Z.of_nat (length ps) -> 0 < Z.of_nat (length ps) < 2 ^ 16 ->
  Forall phdr_ok ps ->
  exists elf_hdr p_hdr b1 b2 k1,
    load fd w = (load_segments malloc_ok fuel clear ps fd;;; onK (free_obj (T := list Z) p_hdr);;;
                 onK (free_obj (T := list Z) elf_hdr);;; ret (e_entry h)) (w <| w_k := k1 |>) /\
    program k1 fd f (h ++ concat (encode_phdr <$> ps) ++ rest) /\ elf_hdr <> p_hdr /\
    k_bufs k1 = <[p_hdr := b2]> (<[elf_hdr := b1]> (k_bufs (w_k w))) /\
    k_bufs (w_k w) !! elf_hdr = None /\ k_bufs (w_k w) !! p_hdr = None.
Proof.
  intros Hp Hh Hm Hc Hn Hps Hok. set (segs := concat (encode_phdr <$> ps)) in *.
  assert (Hsegs : length segs = (32 * length ps)%nat) by apply encode_phdrs_length.
  destruct (header_read w fd f h (segs ++ rest) Hp Hh) as (eh & k1 & E & Hp1 & Hb1 & (v1 & Hv1 & Ho1) & Hfr1).
  rewrite E. unfold elf_segments. change (u32 52 <? sizeof_ehdr) with false. rewrite Hm, Hc. cbn [negb Z.eqb Pos.eqb ELFMAG ELFCLASS32].
  destruct (malloc_raw_run (sizeof_phdr * e_phnum h) (w <| w_k := k1 |>)) as (a & k2 & Ha & E2 & Hb2 & Hfr & Hpr & Hfi).
  change (w_k (w <| w_k := k1 |>)) with k1 in *.
  rewrite (bind_Ret _ _ _ _ _ E2), (proj2 (Z.eqb_neq _ _) Ha). pose proof (Hpr _ _ _ Hp1) as Hp2.
  assert (Hsz : Z.to_nat (sizeof_phdr * e_phnum h) = length segs) by (rewrite Hn, Hsegs; unfold sizeof_phdr; lia).
  erewrite (run_onK _ _ _ (Z.of_nat (length segs), segs)).
  2:{ kred. change (w_k _) with k2. rewrite (read_program k2 fd f _ 52 (sizeof_phdr * e_phnum h) Hp2).
      - change (Z.to_nat 52) with 52%nat. rewrite Hsz, <- Hh, slice_middle. done.
      - exists v1. by rewrite Hfi.
      - lia.
      - rewrite Hn. unfold sizeof_phdr. lia.
      - rewrite Hn. unfold sizeof_phdr. lia. }
  assert (Hfill : filled_with segs (raw a (Z.to_nat (sizeof_phdr * e_phnum h))) = segs).
  { unfold filled_with. rewrite drop_ge by (rewrite Hraw; lia). apply app_nil_r. }
  rewrite Hfill. erewrite (run_onK (put a segs) _ _ tt) by reflexivity.
  assert (Hdec : phdr_at segs <$> seq 0 (Z.to_nat (e_phnum h)) = ps).
  { apply list_eq. intros j. rewrite list_lookup_fmap. destruct (ps !! j) as [p|] eqn:Ej.
    - rewrite lookup_seq_lt by (apply lookup_lt_Some in Ej; lia). simpl. f_equal. rewrite <- (app_nil_r segs). by apply phdr_decoded.
    - rewrite lookup_seq_ge by (apply lookup_ge_None_1 in Ej; lia). done. }
  rewrite Hdec. eexists eh, a, h, segs, _. split; [reflexivity|]. rewrite Hb1 in Hfr.
  assert (eh <> a) as Hne by (intros ->; by rewrite lookup_insert_eq in Hfr).
  rewrite lookup_insert_ne in Hfr by done. split_and!; [|done| |done|done].
  - eapply program_frame; [exact (program_moves k2 fd f (52 + Z.of_nat (length segs)) _ Hp2)|..]; done.
  - kred. change (k_bufs (at_offset _ _ k2)) with (k_bufs k2). by rewrite Hb2, insert_insert_eq, Hb1.
Qed.

(** A file that is not a 32-bit ELF file. *)
Lemma elf_load_rejects w fd f h rest :
  program (w_k w) fd f (h ++ rest) -> length h = 52%nat -> e_magic h <> ELFMAG \/ e_class h <> ELFCLASS32 ->
  exists elf_hdr k1, load fd w = Ret 0 (w <| w_k := k1 |>) /\ k_bufs (w_k w) !! elf_hdr = None /\ k_bufs k1 !! elf_hdr = Some h /\
    is_Some (k_files k1 !! f).
Proof.
  intros Hp Hh Hbad. destruct (header_read w fd f h rest Hp Hh) as (eh & k1 & E & Hp1 & Hb1 & (v1 & Hv1 & _) & Hfr).
  destruct (pr_table _ _ _ _ Hp1) as (t & table & d & l & [Ht _ _ _ _ _] & _).
  exists eh, (k1 <| k_tasks := <[k_current_task k1 := t <| t_errno := EINVAL |>]> (k_tasks k1) |>).
  split; [|split_and!; [done | kred; rewrite Hb1; apply lookup_insert_eq | by eexists]]. rewrite E. unfold elf_segments. change (u32 52 <? sizeof_ehdr) with false.
  assert (He : set_errno EINVAL k1 = Ret tt (k1 <| k_tasks := <[k_current_task k1 := t <| t_errno := EINVAL |>]> (k_tasks k1) |>)).
  { unfold set_errno, upd_current. rewrite run_get. exact (upd_obj_ok (T := task) _ _ t k1 Ht). }
  destruct (Z.eqb_spec (e_magic h) ELFMAG) as [H1|H1]; cbn [negb]; [|by erewrite (run_onK _ _ _ tt) by exact He].
  destruct (Z.eqb_spec (e_class h) ELFCLASS32) as [H2|H2]; cbn [negb]; [|by erewrite (run_onK _ _ _ tt) by exact He].
  by destruct Hbad.
Qed.
End Load.

(** ** A program that cannot be started *)

Lemma free_buffers_empty n : forall m m', free_buffers n m = Ret tt m' -> exists t, current_task m' = Some t /\ mt_buffers t = [].
Proof.
  induction n as [|n IH]; intros m m' H; [done|]. cbn [free_buffers] in H.
  apply bind_Ret_inv in H as (t & m1 & H1 & H). unfold task_of in H1. apply bind_Ret_inv in H1 as (m2 & m3 & H2 & H1).
  injection H2 as <- <-. destruct (current_task m) as [t'|] eqn:Et; [|done]. injection H1 as <- <-.
  destruct (mt_buffers t') as [|b l] eqn:Eb; [injection H as <-; by exists t'|].
  apply bind_Ret_inv in H as (? & m4 & _ & H). by eapply IH.
Qed.

Section Failure.
Context {al : Allocator} {dr : Drivers} (malloc_ok : nat -> bool) (fuel : nat).
Context (raw : Z -> nat -> list Z) (at_null : option nat) (clear : Z -> Z -> M mmu unit) (Hample : ample).
Context (Hraw : forall a n, length (raw a n) = n).

Lemma program_task k fd f content g : program k fd f content -> (forall t, t_descriptors_info (g t) = t_descriptors_info t) ->
  exists k', upd_current g k = Ret tt k' /\ program k' fd f content /\ k_bufs k' = k_bufs k.
Proof.
  intros [(t & table & d & l & [T1 T2 T3 T4 T5 T6] & Hf & Hl) H0 Hn] Hg.
  eexists. split; [|split].
  - unfold upd_current. rewrite run_get. exact (upd_obj_ok (T := task) _ _ t k T1).
  - split; [|done|exact Hn]. exists (g t), table, d, l. split_and!; [|done|done].
    split; kred; try done; [apply lookup_insert_eq | by rewrite Hg].
  - done.
Qed.

(** C8: A call of [execve] for a file that is not a 32-bit ELF file returns -1 to
    a program whose memory is gone: its buffers were freed before the file was
    looked at.  The file stays open, and the memory for its header is lost. *)
Theorem execve_not_elf w path fd k1 tm m1 f h rest argv envp :
  0 < Vfs.strlen path <= MAX_PATH -> open path 0 (w_k w) = Ret fd k1 -> 0 <= fd ->
  current_task (w_m w) = Some tm ->
  free_buffers (S (length (kernel_buffers (w_m w)) + length (mt_buffers tm))) (w_m w) = Ret tt m1 ->
  program k1 fd f (h ++ rest) -> length h = 52%nat -> e_magic h <> ELFMAG \/ e_class h <> ELFCLASS32 ->
  exists w', execve malloc_ok fuel raw at_null clear (Some path) argv envp w = Ret (ExecError (-1)) w' /\
    (exists t, current_task (w_m w') = Some t /\ mt_buffers t = []) /\ is_Some (k_files (w_k w') !! f) /\
    exists a, k_bufs k1 !! a = None /\ k_bufs (w_k w') !! a = Some h.
Proof.
  intros Hpath Hopen Hfd Htm Hfree Hp Hh Hbad. unfold execve.
  change (deref (Some path)) with (ret (S := world) path). rewrite bind_ret_l.
  rewrite (proj2 (Z.ltb_ge _ _)) by lia. rewrite (proj2 (Z.eqb_neq _ _)) by lia.
  erewrite (run_onK _ _ _ fd) by exact Hopen. rewrite (proj2 (Z.ltb_ge _ _)) by lia.
  erewrite (run_onM _ _ _ tm). 2:{ unfold task_of. rewrite bind_get. change (w_m _) with (w_m w). rewrite Htm. reflexivity. }
  rewrite bind_get. change (kernel_buffers (w_m _)) with (kernel_buffers (w_m w)).
  erewrite (run_onM _ _ _ tt) by exact Hfree.
  destruct (program_task k1 fd f _ (fun t => clear_task_signals (t <| t_sigmask := 0 |>)) Hp ltac:(done)) as (k2 & E2 & Hp2 & Hb2).
  erewrite (run_onK _ _ _ tt) by exact E2.
  match goal with |- context [bind (elf_load _ _ _ _ fd) _ ?w1] =>
    destruct (elf_load_rejects malloc_ok fuel raw clear Hample Hraw w1 fd f h rest Hp2 Hh Hbad) as (a & k3 & E3 & Hfr & Hb3 & Hf3) end.
  rewrite (bind_Ret _ _ _ _ _ E3). eexists. split; [reflexivity|]. split_and!.
  - by eapply free_buffers_empty.
  - exact Hf3.
  - exists a. split; [|exact Hb3]. by rewrite <- Hb2.
Qed.
End Failure.
