(* ===== verification/Load.v ===== *)
(** * Load: a program in memory

    The result of the ELF loader (elfldr.c) for a well-formed file: which
    entries its segments get in the task's list of mapped files and of buffers,
    which pages are reserved for them, and how their entries in the page tables
    are prepared.  The header is given by its fields and their places in the
    file, and the pages of a segment by its address and size. *)

From S2P Require Import Prelude Memmap Mmu Frames Kalloc UserPages CString Chain KState LinkedList Signals Vfs Io Env Tasks Process.
From S2P Require Import Descriptors Initrd InitrdImage Fork Forked Exec.

(** ** The header of an ELF file *)

Definition le16 (v : Z) : list Z := [v mod 256; v / 256].

Record Elf32_Ehdr := mkEhdr {
  eh_ident : list Z; eh_type : Z; eh_machine : Z; eh_version : Z; eh_entry : Z; eh_phoff : Z; eh_shoff : Z; eh_flags : Z;
  eh_ehsize : Z; eh_phentsize : Z; eh_phnum : Z; eh_shentsize : Z; eh_shnum : Z; eh_shstrndx : Z
}.

Definition encode_ehdr (h : Elf32_Ehdr) : list Z :=
  eh_ident h ++ le16 (eh_type h) ++ le16 (eh_machine h) ++ le32 (eh_version h) ++ le32 (eh_entry h) ++ le32 (eh_phoff h) ++
  le32 (eh_shoff h) ++ le32 (eh_flags h) ++ le16 (eh_ehsize h) ++ le16 (eh_phentsize h) ++ le16 (eh_phnum h) ++
  le16 (eh_shentsize h) ++ le16 (eh_shnum h) ++ le16 (eh_shstrndx h).

(** A header of a 32-bit file with [n] program headers. *)
Record ehdr_ok (h : Elf32_Ehdr) (n : nat) : Prop := {
  eo_ident : length (eh_ident h) = 16%nat /\ take 5 (eh_ident h) = [0x7F] ++ str "ELF" ++ [1];
  eo_entry : is_word (eh_entry h);
  eo_phnum : eh_phnum h = Z.of_nat n /\ 0 < Z.of_nat n < 2 ^ 16
}.

Lemma encode_ehdr_length h n : ehdr_ok h n -> length (encode_ehdr h) = 52%nat.
Proof. intros [[Hl _] _ _]. unfold encode_ehdr. rewrite !length_app, Hl. done. Qed.

Lemma ehdr_ident h n : ehdr_ok h n -> e_magic (encode_ehdr h) = ELFMAG /\ e_class (encode_ehdr h) = ELFCLASS32.
Proof.
  intros [[Hl Ht] _ _]. unfold encode_ehdr, e_magic, e_class, word_at_byte. rewrite <- (take_drop 5 (eh_ident h)), Ht.
  split; reflexivity.
Qed.

Lemma ehdr_entry h n : ehdr_ok h n -> e_entry (encode_ehdr h) = eh_entry h.
Proof.
  intros [[Hl _] He _]. set (pre := eh_ident h ++ le16 (eh_type h) ++ le16 (eh_machine h) ++ le32 (eh_version h)).
  assert (length pre = 24%nat) as Hpre by (unfold pre; rewrite !length_app, Hl; done).
  assert (exists post, encode_ehdr h = pre ++ le32 (eh_entry h) ++ post) as [post ->].
  { eexists. unfold encode_ehdr, pre. rewrite <- !app_assoc. reflexivity. }
  unfold e_entry. rewrite <- Hpre. by apply word_at_byte_app.
Qed.

Lemma ehdr_phnum h n : ehdr_ok h n -> e_phnum (encode_ehdr h) = Z.of_nat n.
Proof.
  intros [[Hl _] _ [Hn _]]. set (pre := eh_ident h ++ le16 (eh_type h) ++ le16 (eh_machine h) ++ le32 (eh_version h) ++
    le32 (eh_entry h) ++ le32 (eh_phoff h) ++ le32 (eh_shoff h) ++ le32 (eh_flags h) ++ le16 (eh_ehsize h) ++ le16 (eh_phentsize h)).
  assert (length pre = 44%nat) as Hpre by (unfold pre; rewrite !length_app, Hl; done).
  assert (exists post, encode_ehdr h = pre ++ le16 (eh_phnum h) ++ post) as [post ->].
  { eexists. unfold encode_ehdr, pre. rewrite <- !app_assoc. reflexivity. }
  unfold e_phnum. rewrite (app_nth2 _ _ _ (n := 44)), (app_nth2 _ _ _ (n := 45)) by lia.
  rewrite Hpre. cbn [Nat.sub le16 app nth]. rewrite <- Hn. pose proof (Z.div_mod (eh_phnum h) 256 ltac:(lia)). lia.
Qed.

(** ** Segments *)

(** The segments that are put into memory. *)
Definition loadable (p : Elf32_Phdr) : Prop := p_type p = PT_LOAD /\ 0 < p_memsz p.
#[export] Instance loadable_dec p : Decision (loadable p).
Proof. unfold loadable. apply _. Defined.

(** The pages of a segment: from the page of its address on, for its size and
    twice the offset in that page, which [elf_ldprog] and [mmap] both add. *)
Definition seg_offset (p : Elf32_Phdr) : Z := p_vaddr p mod 0x1000.
Definition seg_first (p : Elf32_Phdr) : Z := p_vaddr p / 0x1000.
Definition seg_count (p : Elf32_Phdr) : Z := (p_memsz p + 2 * seg_offset p + 0xFFF) / 0x1000.
Definition seg_pages (p : Elf32_Phdr) : list Z := seqZ (seg_first p) (seg_count p).
Definition all_pages (ls : list Elf32_Phdr) : list Z := concat (seg_pages <$> ls).

(** A segment with bytes in the file that lies in the pages [1] to [limit]. *)
Record seg_ok (limit : Z) (p : Elf32_Phdr) : Prop := {
  so_words : phdr_ok p;
  so_file : 0 < p_filesz p;
  so_above : 0 < seg_first p;
  so_below : seg_first p + seg_count p <= limit /\ seg_first p + seg_count p < 2 ^ 20
}.

(** The entry of a segment in the list of mapped files, and its buffer. *)
Definition seg_mmap (fd : Z) (p : Elf32_Phdr) (self : Z) : mmap_info_t :=
  mkMmap self (p_vaddr p) (p_memsz p + seg_offset p) MAP_SHARED (Z.lor (Z.lor PROT_READ PROT_WRITE) PROT_EXEC) (p_offset p) fd.
Definition seg_buffer (p : Elf32_Phdr) (self : Z) : buffer_t := mkBuffer (seg_first p * 0x1000) (seg_count p) self.

(** The task with the entries and buffers of the segments at its lists' ends. *)
Definition with_segments (fd : Z) (ls : list Elf32_Phdr) (selfs : list Z) (t : mtask) : mtask :=
  t <| mt_mmaps := mt_mmaps t ++ zip_with (seg_mmap fd) ls selfs |>
    <| mt_buffers := mt_buffers t ++ zip_with seg_buffer ls selfs |>.

(** What is different in [w'] after the segments [ls] were loaded, with the
    entries at the addresses [selfs], for the task [t] and the page map [um]. *)
Record loaded (fd : Z) (D : page_directory_t) (t : mtask) (um : memmap) (ls : list Elf32_Phdr) (selfs : list Z)
    (um' : memmap) (w w' : world) : Prop := {
  ld_selfs : length selfs = length ls;
  ld_task : current_task (w_m w') = Some (with_segments fd ls selfs t);
  ld_map : memmaps (w_m w') = <[current_memmap (w_m w) := um']> (memmaps (w_m w));
  ld_used : forall q, 0 <= q -> page_used um' q = bool_decide (q ∈ all_pages ls) || page_used um q;
  ld_tables : lazily D (all_pages ls) (page_tables (w_m w)) (page_tables (w_m w'));
  ld_wf : memmap_wf um' /\ lock um' = lock um /\ frame_limit um' = frame_limit um;
  ld_memory : (frames (w_m w'), frame_refs (w_m w'), directories (w_m w'), current_directory (w_m w'), current_memmap (w_m w'), kheap_len (w_m w')) =
              (frames (w_m w), frame_refs (w_m w), directories (w_m w), current_directory (w_m w), current_memmap (w_m w), kheap_len (w_m w));
  ld_bufs : forall a, k_bufs (w_k w') !! a = if decide (a ∈ selfs) then Some [] else k_bufs (w_k w) !! a;
  ld_fresh : Forall (fun a => k_bufs (w_k w) !! a = None) selfs
}.

Lemma loaded_nil fd D t um w : current_task (w_m w) = Some t -> memmaps (w_m w) !! current_memmap (w_m w) = Some um ->
  memmap_wf um -> loaded fd D t um [] [] um w w.
Proof.
  intros Ht Hu Hw. split; try done.
  - rewrite Ht. unfold with_segments. destruct t. cbn. by rewrite !app_nil_r.
  - by rewrite insert_id.
Qed.

Lemma loaded_cons fd D t um p a um1 ls selfs um' w w1 w' :
  loaded fd D t um [p] [a] um1 w w1 -> loaded fd D (with_segments fd [p] [a] t) um1 ls selfs um' w1 w' ->
  loaded fd D t um (p :: ls) (a :: selfs) um' w w'.
Proof.
  intros [A1 A2 A3 A4 A5 (A6 & A6' & A6'') A7 A8 A9] [B1 B2 B3 B4 B5 (B6 & B6' & B6'') B7 B8 B9].
  injection A7 as F1 F2 F3 F4 F5 F6. injection B7 as G1 G2 G3 G4 G5 G6.
  assert (Hpages : all_pages (p :: ls) = all_pages [p] ++ all_pages ls) by (unfold all_pages; cbn; by rewrite app_nil_r).
  apply Forall_inv in A9. split.
  - simpl. by rewrite B1.
  - rewrite B2. unfold with_segments, setf. destruct t. simpl. by rewrite <- !app_assoc.
  - by rewrite B3, A3, F5, insert_insert_eq.
  - intros q Hq. rewrite B4, A4, Hpages by done. rewrite orb_assoc. f_equal. apply eq_bool_prop_intro.
    rewrite orb_True, !bool_decide_spec, elem_of_app. tauto.
  - rewrite Hpages. by eapply lazily_app.
  - split_and!; congruence.
  - congruence.
  - intros x. rewrite B8, A8. destruct (decide (x ∈ selfs)) as [H1|H1].
    + by rewrite decide_True by (by right).
    + destruct (decide (x ∈ [a])) as [H2|H2]; [rewrite decide_True by (apply list_elem_of_singleton in H2 as ->; by left); done|].
      rewrite decide_False; [done|]. intros [->|?]%elem_of_cons; [by apply H2; left | done].
  - constructor; [exact A9|]. eapply Forall_impl; [exact B9|]. intros x Hx. cbv beta in Hx |- *. rewrite A8 in Hx.
    by destruct (decide (x ∈ [a])).
Qed.

Section Load.
Context {al : Allocator} {dr : Drivers} (malloc_ok : nat -> bool) (fuel : nat).
Context (raw : Z -> nat -> list Z) (clear : Z -> Z -> M mmu unit) (Hample : ample).
Context (Hraw : forall a n, length (raw a n) = n) (Hmalloc : forall n, malloc_ok n = true).

(** The file is open, and the address space has tables for the pages [qs]. *)
Record ready (w : world) (fd f : Z) (content : list Z) (um : memmap) (D : page_directory_t) (t : mtask) (qs : list Z) : Prop := {
  rd_prog : program (w_k w) fd f content;
  rd_space : user_space (w_m w) um D t qs;
  rd_lock : mt_mmaps_lock t = 0
}.

Lemma add_mmap_ok m s t : current_task s = Some t -> mt_mmaps_lock t = 0 ->
  add_mmap m s = Ret tt (s <| current_task := Some (t <| mt_mmaps := mt_mmaps t ++ [m] |>) |>).
Proof using.
  intros Ht Hl. unfold add_mmap, task_of, upd_task, task_of, bind, get, deref. rewrite Ht. unfold ret. rewrite Hl. cbn.
  destruct t, s. cbn in *. by subst.
Qed.

Lemma seg_sizes p limit : seg_ok limit p -> 0 < p_memsz p ->
  0 <= seg_offset p < 0x1000 /\ 0 <= p_vaddr p < 2 ^ 32 /\ 0 < seg_count p /\ p_memsz p + 2 * seg_offset p < 2 ^ 32 /\
  (seg_count p - 1) * 0x1000 < p_memsz p + 2 * seg_offset p <= seg_count p * 0x1000.
Proof using.
  intros [Hw _ Ha [_ Hb]] Hm. pose proof (Forall_lookup_1 _ _ 2%nat _ Hw eq_refl : is_word (p_vaddr p)) as Hv. unfold is_word in Hv.
  pose proof (Z.mod_pos_bound (p_vaddr p) 0x1000 ltac:(lia)) as Ho. fold (seg_offset p) in Ho.
  assert (Hc : (seg_count p - 1) * 0x1000 < p_memsz p + 2 * seg_offset p <= seg_count p * 0x1000).
  { unfold seg_count. pose proof (Z.div_mod (p_memsz p + 2 * seg_offset p + 0xFFF) 0x1000 ltac:(lia)).
    pose proof (Z.mod_pos_bound (p_memsz p + 2 * seg_offset p + 0xFFF) 0x1000 ltac:(lia)). lia. }
  split_and!; lia.
Qed.

(** One segment. *)
Lemma ldprog_ok w fd f content um D t p :
  ready w fd f content um D t (seg_pages p) -> seg_ok (frame_limit um) p -> 0 < p_memsz p ->
  (forall q, q ∈ seg_pages p -> page_used um q = false) ->
  exists w' a um', elf_ldprog malloc_ok (S fuel) clear p fd w = Ret 0 w' /\
    loaded fd D t um [p] [a] um' w w' /\ program (w_k w') fd f content.
Proof using Hample Hmalloc.
  intros [Hp Hu Hlk] Hs Hm Hfree. destruct (seg_sizes p _ Hs Hm) as (Ho & Hv & Hn & Hsz & Hc).
  pose proof Hs as [Hw Hf Ha [Hb1 Hb2]]. unfold elf_ldprog.
  assert (Esz : u32 (p_memsz p + Z.land (p_vaddr p) 0xFFF) = p_memsz p + seg_offset p).
  { rewrite page_offset. fold (seg_offset p). apply u32_small. lia. }
  cbv zeta. rewrite Esz, (proj2 (Z.ltb_lt _ _)) by lia. cbn [assert]. rewrite bind_ret_l, (proj2 (Z.ltb_lt 0 (p_filesz p))) by done.
  unfold Exec.mmap. change (Z.land MAP_SHARED (Z.lor MAP_SHARED MAP_PRIVATE) =? 0) with false. cbv iota. rewrite bind_assoc.
  pose proof Hp as [(tk & table & d & l & Hof & Hfo & Hl) Hf0 _].
  erewrite (run_onK _ _ w f) by (rewrite (get_file_descriptor_ok _ _ _ _ _ fd Hof), Hfo; reflexivity).
  rewrite (proj2 (Z.eqb_neq f 0)) by done. rewrite bind_assoc.
  replace (w <| w_k := w_k w |>) with w by (by destruct w).
  destruct (malloc_raw_run Hample sizeof_mmap_info w) as (a & k' & Ha0 & E & Hb & Hfr & Hpr & Hfi).
  rewrite (bind_Ret _ _ _ _ _ E), (proj2 (Z.eqb_neq a 0)) by done. rewrite bind_assoc.
  change (mmap_flags (Z.lor (Z.lor PROT_READ PROT_WRITE) PROT_EXEC) MAP_SHARED) with MMAP_FLAGS.
  rewrite page_base, page_offset by done. fold (seg_offset p) (seg_first p).
  rewrite (u32_small (p_memsz p + seg_offset p + seg_offset p)) by lia.
  destruct (kalloc_mmap malloc_ok fuel (w_m w) um D t (seg_first p) (seg_count p) (p_memsz p + seg_offset p + seg_offset p) a
    Hu (Hmalloc _)) as (um' & h' & Ek & Hmk & Lz); [lia | lia | lia | lia | lia | |].
  { intros q Hq. apply Hfree. apply elem_of_seqZ. lia. }
  erewrite (run_onM _ _ _ (seg_first p * 0x1000, None)) by exact Ek. rewrite (proj2 (Z.eqb_neq (seg_first p * 0x1000) 0)) by lia.
  rewrite bind_assoc. erewrite (run_onM _ _ _ tt) by (by apply add_mmap_ok). rewrite bind_ret_l, (proj2 (Z.eqb_neq (seg_first p * 0x1000) 0)) by lia.
  eexists _, a, um'. split; [reflexivity|]. split.
  - destruct Hmk as [M1 M2 M3 M4]. unfold mapped_space. split; try done.
    + intros q Hq. rewrite M4 by done. f_equal. unfold all_pages. cbn [fmap list_fmap concat]. rewrite app_nil_r.
      apply eq_bool_prop_intro. unfold seg_pages. rewrite bool_decide_spec, elem_of_seqZ, Is_true_true, andb_true_iff, Z.leb_le, Z.ltb_lt. lia.
    + unfold all_pages. cbn [fmap list_fmap concat]. rewrite app_nil_r. exact Lz.
    + intros x. change (k_bufs k' !! x = if decide (x ∈ [a]) then Some [] else k_bufs (w_k w) !! x). rewrite Hb.
      destruct (decide (x ∈ [a])) as [->%list_elem_of_singleton|Hx]; [apply lookup_insert_eq|].
      rewrite lookup_insert_ne; [done|]. intros ->. apply Hx. by constructor.
    + by constructor.
  - by apply Hpr.
Qed.

Lemma loaded_ready w w' fd f content um D t p a um1 qs : ready w fd f content um D t (seg_pages p ++ qs) ->
  loaded fd D t um [p] [a] um1 w w' -> program (w_k w') fd f content ->
  ready w' fd f content um1 D (with_segments fd [p] [a] t) qs.
Proof using.
  intros [Hp [U1 U2 U3 [U4 U4'] U5 U6 U7 U8] Hl] [A1 A2 A3 A4 A5 (A6 & A6' & A6'') A7 A8 A9] Hp'.
  injection A7 as F1 F2 F3 F4 F5 F6. split; [done | | done]. split.
  - rewrite A3, F5. apply lookup_insert_eq.
  - done.
  - congruence.
  - by rewrite F3, F4.
  - by apply (lz_whole _ _ _ _ A5).
  - intros q Hq. destruct (U6 q) as (x & H1 & H2 & H3); [apply elem_of_app; by right|]. exists x. split_and!; try done.
    apply elem_of_dom. rewrite (lz_dom _ _ _ _ A5). by apply elem_of_dom.
  - done.
  - congruence.
Qed.

Lemma ready_less w fd f content um D t qs qs' : ready w fd f content um D t qs -> (forall q, q ∈ qs' -> q ∈ qs) ->
  ready w fd f content um D t qs'.
Proof using. intros [Hp [] Hl] H. split; [done | | done]. split; auto. Qed.

(** All segments, in their order. *)
Lemma load_segments_ok fd f content D : forall ps w um t, let ls := filter loadable ps in
  ready w fd f content um D t (all_pages ls) -> Forall (seg_ok (frame_limit um)) ls -> NoDup (all_pages ls) ->
  (forall q, q ∈ all_pages ls -> page_used um q = false) ->
  exists w' selfs um', load_segments malloc_ok (S fuel) clear ps fd w = Ret tt w' /\
    loaded fd D t um ls selfs um' w w' /\ program (w_k w') fd f content.
Proof using Hample Hmalloc.
  induction ps as [|p ps IH]; intros w um t ls Hr Hs Hnd Hfree; cbn [load_segments].
  { destruct Hr as [Hp [] Hl]. exists w, [], um. split_and!; [done | by apply loaded_nil | done]. }
  subst ls. rewrite filter_cons in *. destruct (decide (loadable p)) as [[Ht Hm]|Hno].
  - rewrite Ht, Z.eqb_refl, (proj2 (Z.ltb_lt _ _) Hm). cbn [andb].
    change (all_pages (p :: filter loadable ps)) with (seg_pages p ++ all_pages (filter loadable ps)) in *.
    apply Forall_cons in Hs as [Hsp Hs]. apply NoDup_app in Hnd as (_ & Hdis & Hnd).
    destruct (ldprog_ok w fd f content um D t p) as (w1 & a & um1 & E1 & L1 & P1).
    { eapply ready_less; [exact Hr|]. intros q Hq. apply elem_of_app. by left. }
    { done. }
    { done. }
    { intros q Hq. apply Hfree, elem_of_app. by left. }
    pose proof (loaded_ready _ _ _ _ _ _ _ _ _ _ _ _ Hr L1 P1) as Hr1.
    destruct (ld_wf _ _ _ _ _ _ _ _ _ L1) as (_ & _ & Hlim).
    destruct (IH w1 um1 (with_segments fd [p] [a] t)) as (w' & selfs & um' & E2 & L2 & P2); [done | by rewrite Hlim | done | |].
    { intros q Hq. pose proof (Hfree q ltac:(apply elem_of_app; by right)) as Hq0.
      assert (0 <= q).
      { unfold all_pages in Hq. apply list_elem_of_In, in_concat in Hq as (l & Hl & Hq). apply list_elem_of_In, list_elem_of_fmap in Hl as (y & -> & Hy).
        rewrite Forall_forall in Hs. apply list_elem_of_In, elem_of_seqZ in Hq. pose proof (so_above _ _ (Hs y Hy)). lia. }
      rewrite (ld_used _ _ _ _ _ _ _ _ _ L1) by done. rewrite Hq0, orb_false_r. apply bool_decide_eq_false_2. intros Hin.
      apply (Hdis q); [|done]. unfold all_pages in Hin. cbn in Hin. by rewrite app_nil_r in Hin. }
    exists w', (a :: selfs), um'. split_and!; [|by eapply loaded_cons | done].
    rewrite bind_assoc, (bind_Ret _ _ _ _ _ E1), bind_ret_l. exact E2.
  - assert ((p_type p =? PT_LOAD) && (0 <? p_memsz p) = false) as ->.
    { apply not_true_is_false. rewrite andb_true_iff, Z.eqb_eq, Z.ltb_lt. exact Hno. }
    rewrite bind_ret_l. by apply IH.
Qed.

(** C6: A program is loaded.  Let the descriptor be open on a 32-bit ELF file: its
    header, with the fields at their places, the program headers, and the rest.
    Let the loadable segments (those of type PT_LOAD that take memory) have
    bytes in the file, lie in pages of the task's address space that are free,
    for which there are page tables, and not share a page; and let there be
    memory.  Then [elf_load] returns the entry point of the header; the task has
    one entry more in its list of mapped files for each loadable segment, in
    their order, with its address, size, position in the file and descriptor,
    and one buffer with its pages; the pages of the segments, and no others, are
    marked in the page map and prepared in the page tables (writable, for the
    user, to be filled from the file, copied on write); no frame is used yet; the memory of
    the loader is given back, and the file stays open. *)
Theorem elf_load_program w fd f h ps rest um D t : let ls := filter loadable ps in
  program (w_k w) fd f (encode_ehdr h ++ concat (encode_phdr <$> ps) ++ rest) ->
  ehdr_ok h (length ps) -> Forall phdr_ok ps -> Forall (seg_ok (frame_limit um)) ls ->
  user_space (w_m w) um D t (all_pages ls) -> mt_mmaps_lock t = 0 ->
  NoDup (all_pages ls) -> Forall (fun q => page_used um q = false) (all_pages ls) ->
  exists w' selfs um', elf_load malloc_ok (S fuel) raw clear fd w = Ret (eh_entry h) w' /\
    loaded fd D t um ls selfs um' w w' /\
    program (w_k w') fd f (encode_ehdr h ++ concat (encode_phdr <$> ps) ++ rest).
Proof using Hample Hmalloc Hraw.
  intros ls Hp Hh Hps Hseg Hu Hlk Hnd Hfree. pose proof (eo_phnum _ _ Hh) as [_ Hn]. destruct (ehdr_ident h _ Hh) as [Hm Hc].
  destruct (elf_load_headers malloc_ok (S fuel) raw clear Hample Hraw w fd f (encode_ehdr h) ps rest Hp
    (encode_ehdr_length _ _ Hh) Hm Hc (ehdr_phnum _ _ Hh) ltac:(lia) Hps)
    as (eh & ph & b1 & b2 & k1 & E & Hp1 & Hne & Hb1 & Hf1 & Hf2).
  set (content := encode_ehdr h ++ _) in *.
  destruct (load_segments_ok fd f content D ps (w <| w_k := k1 |>) um t) as (w1 & selfs & um' & E1 & L1 & P1);
    [by split | done | done | by rewrite Forall_forall in Hfree |].
  rewrite E, (bind_Ret _ _ _ _ _ E1). destruct L1 as [A1 A2 A3 A4 A5 A6 A7 A8 A9].
  change (w_m (w <| w_k := k1 |>)) with (w_m w) in *. change (w_k (w <| w_k := k1 |>)) with k1 in *.
  assert (Hin : forall x, x ∈ selfs -> x <> eh /\ x <> ph /\ k_bufs (w_k w) !! x = None).
  { intros x Hx. rewrite Forall_forall in A9. specialize (A9 x Hx). rewrite Hb1 in A9.
    apply lookup_insert_None in A9 as [A9 ?]. apply lookup_insert_None in A9 as [? ?]. done. }
  assert (Hph : k_bufs (w_k w1) !! ph = Some b2).
  { rewrite A8, decide_False by (intros Hx; by destruct (Hin _ Hx) as (_ & ? & _)). rewrite Hb1. apply lookup_insert_eq. }
  assert (Heh : k_bufs (w_k w1) !! eh = Some b1).
  { rewrite A8, decide_False by (intros Hx; by destruct (Hin _ Hx) as (? & _)). rewrite Hb1, lookup_insert_ne by done. apply lookup_insert_eq. }
  erewrite (run_onK _ _ w1 tt) by exact (free_obj_ok (T := list Z) _ _ _ Hph).
  erewrite (run_onK _ _ _ tt) by (apply (free_obj_ok (T := list Z) _ b1); kred; by rewrite lookup_delete_ne).
  rewrite (ehdr_entry _ _ Hh). eexists _, selfs, um'. split; [reflexivity|]. split.
  - split; try done.
    + intros x. kred. destruct (decide (x = eh)) as [->|He].
      { rewrite lookup_delete_eq, decide_False by (intros Hx; by destruct (Hin _ Hx) as (? & _)). done. }
      rewrite lookup_delete_ne by done. destruct (decide (x = ph)) as [->|Hp2].
      { rewrite lookup_delete_eq, decide_False by (intros Hx; by destruct (Hin _ Hx) as (_ & ? & _)). done. }
      rewrite lookup_delete_ne, A8 by done. rewrite Hb1, !lookup_insert_ne by done. done.
    + apply Forall_forall. intros x Hx. by destruct (Hin x Hx) as (_ & _ & ?).
  - eapply program_frame; [exact P1|..]; done.
Qed.
End Load.
