(* ===== verification/ExecExample.v ===== *)
(** * ExecExample: programs that are started

    The theorems of Exec.v and Load.v applied to concrete files: an ELF file
    with two segments that are loaded and one that is not, and a text file. *)

From S2P Require Import Prelude Memmap Mmu CString Chain KState LinkedList Signals Vfs Io Env Tasks Process.
From S2P Require Import Descriptors Initrd InitrdImage Fork Exec Frames Kalloc UserPages Load MmuExample.

#[local] Existing Instance bump_allocator.

(** A file system with one file. *)
#[local] Instance one_file (content : list Z) : Drivers :=
  {| call_read _ _ o sz := let b := slice content (Z.to_nat o) (Z.to_nat sz) in ret (Z.of_nat (length b), b);
     call_write _ _ _ _ _ := fault; call_open _ _ _ := fault; call_readdir _ _ _ := fault; call_finddir _ _ _ := fault;
     call_stat _ _ _ := fault; call_ioctl _ _ _ := fault; call_chown _ _ _ _ := fault |}.

Definition zeroes (a : Z) (n : nat) : list Z := replicate n 0.
Lemma zeroes_length a n : length (zeroes a n) = n.
Proof. apply length_replicate. Qed.

(** /prog, open as descriptor 3. *)
Definition prog : vfs_node :=
  (Vfs.Example.file "prog" 1 0 FS_FILE) <| n_read := 0x500 |> <| n_mask := 0x1FF |>.
Definition st : kstate :=
  empty_kstate <| k_nodes := list_to_map [(1, Vfs.Example.dir "root" 0 4 0); (2, Vfs.Example.dir "initrd" 0 0 0); (4, prog)] |>
    <| k_descs := {[200 := mkDesc 4 0 0 300]} |> <| k_files := {[300 := mkFile 3 0 3 4 0]} |>
    <| k_tasks := {[100 := no_task <| t_descriptors_info := 200 |>]} |> <| k_current_task := 100 |>
    <| k_vfs_root := 1 |> <| k_vfs_root_mount := 2 |>.

(** The address space, with one page that the program has. *)
Definition memory : mmu :=
  machine <| memmaps := <[default_memmap := mkMemmap (replicate 64 0) 2048 0]> (memmaps machine) |>
    <| current_task := Some (mkMtask 1 0 [mkBuffer 0x400000 1 0] [] 0 default_memmap) |>.
Definition w0 : world := mkWorld st memory ∅ ∅ ∅ 2 2 0 0 [].

Lemma st_program content : program (dr := one_file content) st 3 300 content.
Proof.
  split; [| done |].
  - exists (no_task <| t_descriptors_info := 200 |>), 200, (mkDesc 4 0 0 300), [300].
    split_and!; [|done|set_solver]. split; try done. simpl. split_and!; try done. by eexists.
  - eexists _, _. split; [reflexivity|]. split_and!; try done.
Qed.

(** ** Arguments *)

Lemma st_args : old_args st.
Proof. eexists. split; [reflexivity|]. by left. Qed.

Example exec_args_witness :
  (exists tmp s' b, set_arguments zeroes (Some 0%nat) (str "/prog") [str "-a"; str "-b"] st = Ret tmp s' /\
     k_bufs s' !! tmp = Some b /\ arg_at tmp b 0 (str "/prog") /\ arg_at tmp b 1 (str "-a") /\ arg_at tmp b 2 (str "-b")) /\
  (exists s', set_arguments zeroes (Some 0%nat) (str "/prog") [str "-a"; str "--beta"] st = Faults s').
Proof.
  split.
  - destruct (proj1 (exec_args zeroes (Some 0%nat) zeroes_length bump_ample st (str "/prog") [str "-a"; str "-b"] 2 st_args))
      as (tmp & s' & b & H1 & H2 & _ & H3 & H4 & _); [by right; exists 0%nat | by repeat constructor |].
    exists tmp, s', b. split_and!; [exact H1 | exact H2 | exact H3 | exact (H4 0%nat _ eq_refl) | exact (H4 1%nat _ eq_refl)].
  - apply (proj2 (exec_args zeroes (Some 0%nat) zeroes_length bump_ample st (str "/prog") [str "-a"; str "--beta"] 2 st_args)
      (str "-a") (str "--beta") eq_refl eq_refl). left. apply Nat.ltb_lt. vm_compute. reflexivity.
Defined.

(** A shorter argument overwrites the end of the one before it: the string at
    argument 1 is -- and the start of the next argument. *)
Example exec_args_overwritten : exists tmp s' b,
  set_arguments zeroes (Some 0%nat) (str "/prog") [str "--long"; str "x"] st = Ret tmp s' /\ k_bufs s' !! tmp = Some b /\
  slice b 22 7 = str "--x" ++ [0] ++ str "ng" ++ [0].
Proof. eexists _, _, _. split; [vm_compute; reflexivity|]. split; vm_compute; reflexivity. Qed.

(** ** An ELF file *)

Definition ident : list Z := [0x7F] ++ str "ELF" ++ [1; 1; 1] ++ replicate 9 0.
Definition header : Elf32_Ehdr := mkEhdr ident 2 3 1 0x500010 52 0 0 52 32 3 0 0 0.
Definition text : Elf32_Phdr := mkPhdr PT_LOAD 0x1000 0x500000 0 0x80 0x80 5 0x1000.
Definition note : Elf32_Phdr := mkPhdr 4 0 0 0 0x10 0x10 4 4.
Definition data : Elf32_Phdr := mkPhdr PT_LOAD 0x1080 0x502080 0 0x40 0x1000 6 0x1000.
Definition elf : list Z := encode_ehdr header ++ concat (encode_phdr <$> [text; note; data]) ++ str "code".

Definition no_memset (a n : Z) : M mmu unit := ret tt.
Definition plenty (n : nat) : bool := true.

Definition user_map : memmap := mkMemmap (replicate 64 0) 2048 0.
Definition user_task : mtask := mkMtask 1 0 [mkBuffer 0x400000 1 0] [] 0 default_memmap.

Lemma memory_space : user_space memory user_map udir user_task (all_pages [text; data]).
Proof.
  split; try done.
  - apply wf_check_spec. reflexivity.
  - exact (proj1 machine_small).
  - intros q Hq. exists T1. split; [|split; [done | by eexists]].
    assert (q / 1024 = 1) as ->; [|done]. revert q Hq. apply Forall_forall. refine (bool_decide_unpack _ _). vm_compute. exact I.
Qed.

(** The second segment takes two pages, its offset in the first one being 0x80;
    the entry point is the one of the header, and the note is not loaded. *)
Example elf_load_program_witness : exists w' selfs um',
  @elf_load _ (one_file elf) plenty 2 zeroes no_memset 3 w0 = Ret 0x500010 w' /\
  current_task (w_m w') = Some (with_segments 3 [text; data] selfs user_task) /\ length selfs = 2%nat /\
  memmaps (w_m w') !! default_memmap = Some um' /\
  (page_used um' 0x500, page_used um' 0x501, page_used um' 0x502, page_used um' 0x503, page_used um' 0x504) =
    (true, false, true, true, false).
Proof.
  destruct (@elf_load_program _ (one_file elf) plenty 1 zeroes no_memset bump_ample zeroes_length ltac:(done) w0 3 300
    header [text; note; data] (str "code") user_map udir user_task) as (w' & selfs & um' & E & [L1 L2 L3 L4 _ _ _ _ _] & _).
  - exact (st_program elf).
  - split; [done | done | done].
  - repeat constructor; vm_compute; done.
  - change (filter loadable [text; note; data]) with [text; data].
    repeat constructor; try (vm_compute; done); (vm_compute; intros ?; discriminate).
  - exact memory_space.
  - reflexivity.
  - refine (bool_decide_unpack _ _). vm_compute. exact I.
  - refine (bool_decide_unpack _ _). vm_compute. exact I.
  - change (filter loadable [text; note; data]) with [text; data] in *. exists w', selfs, um'.
    split; [exact E|]. split; [exact L2|]. split; [exact L1|]. split; [rewrite L3; apply lookup_insert_eq|].
    rewrite !L4 by lia. vm_compute. reflexivity.
Defined.

(** The same run by computation: the addresses and the pages of the segments. *)
Example elf_loads : exists w', @elf_load _ (one_file elf) plenty 2 zeroes no_memset 3 w0 = Ret 0x500010 w' /\
  (fun t => (mi_addr <$> mt_mmaps t, b_address <$> mt_buffers t, b_pages <$> mt_buffers t)) <$> current_task (w_m w') =
    Some ([0x500000; 0x502080], [0x400000; 0x500000; 0x502000], [1; 1; 2]) /\
  size (k_bufs (w_k w')) = 2%nat.
Proof. eexists. split; [vm_compute; reflexivity|]. split; vm_compute; reflexivity. Qed.

(** A segment that ends below the next one: the offset in its first page counts
    twice, its last page runs into the next segment, which is then not loaded,
    and the entry point is returned all the same. *)
Definition low : Elf32_Phdr := mkPhdr PT_LOAD 0 0x500F00 0 0x80 0x1000 5 0x1000.
Definition high : Elf32_Phdr := mkPhdr PT_LOAD 0x1000 0x502000 0 0x80 0x80 6 0x1000.
Definition two : list Z :=
  encode_ehdr (mkEhdr ident 2 3 1 0x500F10 52 0 0 52 32 2 0 0 0) ++ concat (encode_phdr <$> [low; high]).

Example elf_overlap : exists w', @elf_load _ (one_file two) plenty 2 zeroes no_memset 3 w0 = Ret 0x500F10 w' /\
  (fun t => (mi_addr <$> mt_mmaps t, b_pages <$> mt_buffers t)) <$> current_task (w_m w') = Some ([0x500F00], [1; 3]).
Proof. eexists. split; [vm_compute; reflexivity|]. vm_compute. reflexivity. Qed.

(** ** A file that is not one *)

Definition script : list Z := str "#!/bin/sh" ++ replicate 60 10.
Definition opened : kstate := match @open _ (one_file script) "/prog" 0 st with Ret _ s => s | _ => st end.

Lemma opened_program : program (dr := one_file script) opened 4 301 (take 52 script ++ drop 52 script).
Proof.
  rewrite take_drop. split; [| done |].
  - exists (no_task <| t_descriptors_info := 200 |>), 200, (mkDesc 5 0 0 300), [300; 301].
    split_and!; [|vm_compute; reflexivity|set_solver]. split; try (vm_compute; done).
    split; [vm_compute; reflexivity|]. split; [done|]. eexists. split; [vm_compute; reflexivity|].
    split; [vm_compute; reflexivity|]. split; [done|]. eexists. split; vm_compute; reflexivity.
  - eexists _, _. split; [vm_compute; reflexivity|]. split; [done|]. split; [vm_compute; reflexivity|]. split; [done|]. done.
Qed.

Example execve_not_elf_witness : exists w',
  @execve _ (one_file script) plenty 2 zeroes (Some 0%nat) no_memset (Some "/prog") None None w0 = Ret (ExecError (-1)) w' /\
  (exists t, current_task (w_m w') = Some t /\ mt_buffers t = []).
Proof.
  assert (exists m1, free_buffers 2 memory = Ret tt m1) as [m1 Hm] by (eexists; vm_compute; reflexivity).
  destruct (@execve_not_elf _ (one_file script) plenty 2 zeroes (Some 0%nat) no_memset bump_ample zeroes_length w0 "/prog" 4 opened
    (mkMtask 1 0 [mkBuffer 0x400000 1 0] [] 0 default_memmap) m1 301 (take 52 script) (drop 52 script) None None)
    as (w' & H1 & H2 & _); [done | vm_compute; reflexivity | done | reflexivity | exact Hm | exact opened_program | reflexivity | |].
  - left. vm_compute. discriminate.
  - exists w'. split; [exact H1 | exact H2].
Defined.
