(* ===== verification/Cpu.v ===== *)
(** * Cpu: descriptor tables and interrupts

    Model of arch/x86/cpu.c (with the structures of cpu.h), of isr.c and of the
    stubs of arch/x86/isr.s: the segment and interrupt descriptors that are
    built at start-up, and the way of an interrupt from its vector to the
    function that was registered for it.

    The addresses of the stubs and of the static tables are parameters; how the
    processor reads a descriptor is that of its manual. *)

From S2P Require Import Prelude.

(** ** Data *)

Record gdt_entry_t := mkGdt {
  limit_low : Z; base_low : Z; base_middle : Z; access : Z; granularity : Z; base_high : Z
}.
#[export] Instance eta_gdt : Eta gdt_entry_t := fun e =>
  mkGdt (limit_low e) (base_low e) (base_middle e) (access e) (granularity e) (base_high e).

Record idt_entry_t := mkIdt { base_lo : Z; sel : Z; always0 : Z; flags : Z; base_hi : Z }.

(** The fields of the TSS that are set. *)
Record tss_entry_t := mkTss { esp0 : Z; ss0 : Z; tss_cs : Z; tss_ss : Z; tss_ds : Z; tss_es : Z; tss_fs : Z; tss_gs : Z }.

(** [p_gdt], [p_idt] and [p_tss] are what [lgdt], [lidt] and [ltr] loaded. *)
Record cpu := mkCpu {
  gdt_entries : list gdt_entry_t;
  gdt_ptr : Z * Z;                     (* limit and base *)
  idt_entries : list idt_entry_t;
  idt_ptr : Z * Z;
  tss_entry : tss_entry_t;
  isr_table : list Z;
  ports : list (Z * Z);
  p_gdt : option (Z * Z);
  p_idt : option (Z * Z);
  p_tss : option Z;
  called : list (Z * Z)                (* handlers that ran, with their vector *)
}.
#[export] Instance eta_cpu : Eta cpu := fun s =>
  mkCpu (gdt_entries s) (gdt_ptr s) (idt_entries s) (idt_ptr s) (tss_entry s) (isr_table s) (ports s)
    (p_gdt s) (p_idt s) (p_tss s) (called s).

Definition SS_TI_GDT := Z.shiftl 0x00 3.
Definition SS_RPL_USER := 0x03.
Definition SS_KERNEL_CODE := 0x01.
Definition SS_KERNEL_DATA := 0x02.
Definition SS (ss ti rpl : Z) : Z := Z.lor (Z.lor (Z.shiftl ss 3) (Z.shiftl ti 2)) rpl.

Definition sizeof_gdt_entry := 8.
Definition sizeof_idt_entry := 8.
Definition sizeof_tss_entry := 104.

(** ** cpu.c *)

(** Store to an element of a table, which must exist. *)
Definition store_at {A} (l : list A) (n : Z) (x : A) : option (list A) :=
  if (0 <=? n) && (n <? Z.of_nat (length l)) then Some (<[Z.to_nat n := x]> l) else None.

Definition gdt_gate (base limit access gran : Z) : gdt_entry_t :=
  mkGdt (Z.land limit 0xFFFF) (Z.land base 0xFFFF) (Z.land (Z.shiftr base 16) 0xFF) access
    (Z.lor (Z.land (Z.shiftr limit 16) 0x0F) (Z.land gran 0xF0)) (Z.land (Z.shiftr base 24) 0xFF).

Definition gdt_set_gate (num base limit access gran : Z) : M cpu unit :=
  s <- get;;
  l <- deref (store_at (gdt_entries s) num (gdt_gate base limit access gran));;
  modify (fun s => s <| gdt_entries := l |>).

Definition idt_gate (base sel flags : Z) : idt_entry_t :=
  mkIdt (Z.land base 0xFFFF) sel 0 (Z.lor flags 0x60) (Z.land (Z.shiftr base 16) 0xFFFF).

Definition idt_set_gate (num base sel flags : Z) : M cpu unit :=
  s <- get;;
  l <- deref (store_at (idt_entries s) num (idt_gate base sel flags));;
  modify (fun s => s <| idt_entries := l |>).

Definition cpu_outb (port v : Z) : M cpu unit := modify (fun s => s <| ports := ports s ++ [(port, v)] |>).

Section Init.
Context (gdt_addr idt_addr tss_addr : Z) (isr irq : Z -> Z).

Definition write_tss (num ss esp : Z) : M cpu unit :=
  let base := tss_addr in
  let limit := u32 (base + sizeof_tss_entry) in
  gdt_set_gate num base limit 0xE9 0x00;;;
  let data := SS SS_KERNEL_DATA SS_TI_GDT SS_RPL_USER in
  let cs := SS SS_KERNEL_CODE SS_TI_GDT SS_RPL_USER in
  modify (fun s => s <| tss_entry := mkTss esp ss cs data data data data data |>);;;
  assert (cs =? 0x0b) "tss_entry.cs == 0x0b";;;
  assert (data =? 0x13) "tss_entry.ss == 0x13".

Definition init_gdt : M cpu unit :=
  modify (fun s => s <| gdt_ptr := (sizeof_gdt_entry * 6 - 1, gdt_addr) |>);;;
  gdt_set_gate 0 0 0 0 0;;;
  gdt_set_gate 1 0 0xFFFFFFFF 0x9A 0xCF;;;
  gdt_set_gate 2 0 0xFFFFFFFF 0x92 0xCF;;;
  gdt_set_gate 3 0 0xFFFFFFFF 0xFA 0xCF;;;
  gdt_set_gate 4 0 0xFFFFFFFF 0xF2 0xCF;;;
  write_tss 5 0x10 0x0;;;
  modify (fun s => s <| p_gdt := Some (gdt_ptr s) |> <| p_tss := Some 0x2B |>).

Definition pic_setup : list (Z * Z) :=
  [(0x20, 0x11); (0xA0, 0x11); (0x21, 0x20); (0xA1, 0x28); (0x21, 0x04); (0xA1, 0x02); (0x21, 0x01); (0xA1, 0x01);
   (0x21, 0x0); (0xA1, 0x0)].

(** The vectors, in the order in which they are set. *)
Definition vectors : list (Z * Z) :=
  ((fun n => (n, isr n)) <$> seqZ 0 32) ++ ((fun n => (32 + n, irq n)) <$> seqZ 0 16) ++ [(48, isr 48)].

Fixpoint outbs (l : list (Z * Z)) : M cpu unit := match l with [] => ret tt | (p, v) :: l => cpu_outb p v;;; outbs l end.
Fixpoint set_gates (l : list (Z * Z)) : M cpu unit :=
  match l with [] => ret tt | (n, a) :: l => idt_set_gate n a 0x08 0x8E;;; set_gates l end.

Definition init_idt : M cpu unit :=
  modify (fun s => s <| idt_ptr := (sizeof_idt_entry * 256 - 1, idt_addr) |>
                     <| idt_entries := replicate 256 (mkIdt 0 0 0 0 0) |>);;;
  outbs pic_setup;;;
  set_gates vectors;;;
  modify (fun s => s <| p_idt := Some (idt_ptr s) |>).

Definition cpu_init : M cpu unit := init_gdt;;; init_idt.

(** ** isr.c *)

Definition register_isr (n handler : Z) : M cpu unit :=
  s <- get;; l <- deref (store_at (isr_table s) n handler);; modify (fun s => s <| isr_table := l |>).

(** A call of a registered handler; what it does is its own affair. *)
Definition call_isr (handler int_no : Z) : M cpu unit := modify (fun s => s <| called := called s ++ [(handler, int_no)] |>).

Definition isr_handler (int_no : Z) : M cpu unit :=
  assert (negb (int_no =? 0x80)) "regs.int_no != 0x80";;;
  s <- get;;
  handler <- deref (isr_table s !! Z.to_nat int_no);;
  if negb (handler =? 0) then call_isr handler int_no else ret tt.

Definition arch_clear_interrupt (int_no : Z) : M cpu unit :=
  (if 40 <=? int_no then cpu_outb 0xA0 0x20 else ret tt);;; cpu_outb 0x20 0x20.

Definition irq_handler (int_no : Z) : M cpu unit :=
  assert (negb (int_no =? 0x80)) "regs.int_no != 0x80";;;
  arch_clear_interrupt int_no;;;
  s <- get;;
  handler <- deref (isr_table s !! Z.to_nat int_no);;
  if negb (handler =? 0) then call_isr handler int_no else ret tt.

(** ** The stubs of isr.s *)

(** Which C function a stub enters, and with which number. *)
Definition isr_stubs : list (Z * Z) := (fun n => (isr n, n)) <$> (seqZ 0 32 ++ [48]).
Definition irq_stubs : list (Z * Z) := (fun n => (irq n, 32 + n)) <$> seqZ 0 16.

Definition enter (addr : Z) : M cpu unit :=
  match List.find (fun x => x.1 =? addr) isr_stubs with
  | Some (_, n) => isr_handler n
  | None => match List.find (fun x => x.1 =? addr) irq_stubs with
            | Some (_, n) => irq_handler n
            | None => fault
            end
  end.

(** ** The processor *)

Definition gate_offset (g : idt_entry_t) : Z := base_lo g + 2 ^ 16 * base_hi g.
Definition gate_dpl (g : idt_entry_t) : Z := Z.land (Z.shiftr (flags g) 5) 3.
Definition gate_present (g : idt_entry_t) : bool := Z.testbit (flags g) 7.
Definition seg_base (e : gdt_entry_t) : Z := base_low e + 2 ^ 16 * base_middle e + 2 ^ 24 * base_high e.
Definition seg_limit (e : gdt_entry_t) : Z := limit_low e + 2 ^ 16 * Z.land (granularity e) 0x0F.
Definition seg_dpl (e : gdt_entry_t) : Z := Z.land (Z.shiftr (access e) 5) 3.

(** Interrupt [n]; [by_program] is the privilege level of the program that has
    asked for it with an instruction, if one has.  A protection fault is a
    fault. *)
Definition interrupt (by_program : option Z) (n : Z) : M cpu unit :=
  s <- get;;
  _ <- deref (p_idt s);;
  g <- deref (idt_entries s !! Z.to_nat n);;
  seg <- deref (gdt_entries s !! Z.to_nat (sel g / 8));;
  if gate_present g && match by_program with Some cpl => cpl <=? gate_dpl g | None => true end
  then enter (u32 (seg_base seg + gate_offset g)) else fault.
End Init.

(** ** Descriptors *)

Lemma run_deref {S A B} (a : A) (k : A -> M S B) s : bind (deref (Some a)) k s = k a s.
Proof. done. Qed.

Lemma land_low z n : 0 <= n -> Z.land z (2 ^ n - 1) = z mod 2 ^ n.
Proof. intros Hn. rewrite <- Z.land_ones by done. by rewrite Z.ones_equiv. Qed.

Lemma idt_gate_reads base s f : 0 <= base < 2 ^ 32 -> gate_offset (idt_gate base s f) = base.
Proof.
  intros Hb. unfold gate_offset, idt_gate. cbn [base_lo base_hi]. rewrite Z.shiftr_div_pow2 by lia.
  rewrite !(land_low _ 16) by lia. Z.to_euclidean_division_equations. lia.
Qed.

(** A segment descriptor is read back as it was set; of the limit 20 bits are
    kept. *)
Lemma gdt_gate_reads base limit acc gran : 0 <= base < 2 ^ 32 -> 0 <= limit ->
  seg_base (gdt_gate base limit acc gran) = base /\ seg_limit (gdt_gate base limit acc gran) = limit mod 2 ^ 20 /\
  access (gdt_gate base limit acc gran) = acc.
Proof.
  intros Hb Hl. unfold seg_base, seg_limit, gdt_gate. cbn [base_low base_middle base_high limit_low granularity access].
  rewrite !Z.shiftr_div_pow2 by lia. rewrite !(land_low _ 16), !(land_low _ 8) by lia. split_and!; [| |done].
  - Z.to_euclidean_division_equations. lia.
  - rewrite Z.land_lor_distr_l, <- !Z.land_assoc. change (Z.land 0xF0 0x0F) with 0. change (Z.land 0x0F 0x0F) with 0x0F.
    rewrite Z.land_0_r, Z.lor_0_r, (land_low _ 4) by lia. Z.to_euclidean_division_equations. lia.
Qed.

(** ** The tables *)

Definition fill_gates (t : list idt_entry_t) (l : list (Z * Z)) : list idt_entry_t :=
  foldl (fun t x => <[Z.to_nat x.1 := idt_gate x.2 0x08 0x8E]> t) t l.

Lemma fill_gates_length l : forall t, length (fill_gates t l) = length t.
Proof. induction l as [|x l IH]; intros t; [done|]. cbn. unfold fill_gates in IH. rewrite IH. apply length_insert. Qed.

Lemma store_at_ok {A} (l : list A) n x : 0 <= n < Z.of_nat (length l) -> store_at l n x = Some (<[Z.to_nat n := x]> l).
Proof.
  intros H. unfold store_at. rewrite (proj2 (Z.leb_le _ _)), (proj2 (Z.ltb_lt _ _)) by lia. done.
Qed.

Lemma set_gates_ok l : forall s, Forall (fun x => 0 <= x.1 < Z.of_nat (length (idt_entries s))) l ->
  set_gates l s = Ret tt (s <| idt_entries := fill_gates (idt_entries s) l |>).
Proof.
  induction l as [|[n a] l IH]; intros s Hl; [by destruct s|]. apply Forall_cons in Hl as [Hn Hl]. cbn [set_gates].
  erewrite bind_Ret. 2:{ unfold idt_set_gate. rewrite bind_get. rewrite store_at_ok by exact Hn. reflexivity. }
  rewrite IH; [done|]. cbn. by rewrite length_insert.
Qed.

Lemma fill_gates_keep l m : forall t, m ∉ (Z.to_nat ∘ fst) <$> l -> fill_gates t l !! m = t !! m.
Proof.
  induction l as [|x l IH]; intros t Hm; [done|]. cbn in *. unfold fill_gates in IH. rewrite IH by set_solver.
  apply list_lookup_insert_ne. set_solver.
Qed.

Lemma fill_gates_lookup l n a : forall t, NoDup (fst <$> l) -> Forall (fun x => 0 <= x.1 < Z.of_nat (length t)) l ->
  (n, a) ∈ l -> fill_gates t l !! Z.to_nat n = Some (idt_gate a 0x08 0x8E).
Proof.
  induction l as [|x l IH]; intros t Hnd Hl Hin; [by apply elem_of_nil in Hin|].
  rewrite fmap_cons in Hnd. apply NoDup_cons in Hnd as [Hx Hnd]. apply Forall_cons in Hl as [Hxr Hl].
  cbn [fill_gates foldl]. apply elem_of_cons in Hin as [<-|Hin].
  - change (foldl _ ?t l) with (fill_gates t l). rewrite fill_gates_keep.
    + apply list_lookup_insert_eq. simpl in *. lia.
    + intros Hm. apply list_elem_of_fmap in Hm as (y & Hy & Hyl). rewrite Forall_forall in Hl. pose proof (Hl y Hyl). simpl in *.
      apply Hx. apply list_elem_of_fmap. exists y. split; [lia | done].
  - apply IH; [done | | done]. by rewrite length_insert.
Qed.

Lemma find_first (l : list (Z * Z)) a n : NoDup (fst <$> l) -> (a, n) ∈ l -> List.find (fun x => x.1 =? a) l = Some (a, n).
Proof.
  induction l as [|[b m] l IH]; intros Hnd Hin; [by apply elem_of_nil in Hin|]. cbn.
  rewrite fmap_cons in Hnd. apply NoDup_cons in Hnd as [Hx Hnd]. apply elem_of_cons in Hin as [[= -> ->]|Hin].
  - by rewrite Z.eqb_refl.
  - destruct (Z.eqb_spec b a) as [->|]; [|by apply IH]. exfalso. apply Hx, list_elem_of_fmap. by exists (a, n).
Qed.

(** ** From a vector to its handler *)

Section Reach.
Context (gdt_addr idt_addr tss_addr : Z) (isr irq : Z -> Z).
Notation cpu_init := (cpu_init gdt_addr idt_addr tss_addr isr irq).
Notation interrupt := (interrupt isr irq).

(** The addresses are those of different functions. *)
Record stubs_apart : Prop := {
  sa_isr : forall n, 0 <= isr n < 2 ^ 32;
  sa_irq : forall n, 0 <= irq n < 2 ^ 32;
  sa_nodup : NoDup (fst <$> isr_stubs isr ++ irq_stubs irq) }.

(** The stub of a vector. *)
Definition stub (n : Z) : Z := if (32 <=? n) && (n <? 48) then irq (n - 32) else isr n.

Lemma vectors_numbers : fst <$> vectors isr irq = seqZ 0 49.
Proof. reflexivity. Qed.

Lemma vectors_stub n : 0 <= n <= 48 -> (n, stub n) ∈ vectors isr irq.
Proof.
  intros Hn. unfold vectors, stub. rewrite !elem_of_app, !list_elem_of_fmap.
  destruct (Z.leb_spec 32 n); cbn [andb]; [destruct (Z.ltb_spec n 48)|].
  - right. left. exists (n - 32). split; [f_equal; lia | apply elem_of_seqZ; lia].
  - right. right. apply list_elem_of_singleton. f_equal; [lia|f_equal; lia].
  - left. exists n. split; [done | apply elem_of_seqZ; lia].
Qed.

Definition eoi (n : Z) : list (Z * Z) :=
  if (32 <=? n) && (n <? 48) then (if 40 <=? n then [(0xA0, 0x20)] else []) ++ [(0x20, 0x20)] else [].

Lemma enter_ok n h s : stubs_apart -> 0 <= n <= 48 -> isr_table s !! Z.to_nat n = Some h -> h <> 0 ->
  enter isr irq (stub n) s = Ret tt (s <| ports := ports s ++ eoi n |> <| called := called s ++ [(h, n)] |>).
Proof.
  intros [_ _ Hnd] Hn Hh H0. rewrite fmap_app in Hnd. apply NoDup_app in Hnd as (Hnd1 & Hdis & Hnd2).
  unfold enter, stub, eoi. destruct ((32 <=? n) && (n <? 48)) eqn:E.
  - assert (Hin : (irq (n - 32), 32 + (n - 32)) ∈ irq_stubs irq).
    { unfold irq_stubs. apply list_elem_of_fmap. exists (n - 32). split; [done|]. apply elem_of_seqZ. lia. }
    destruct (List.find (fun x => x.1 =? irq (n - 32)) (isr_stubs isr)) as [[b m]|] eqn:Ef.
    { exfalso. apply List.find_some in Ef as [Ef Eb]. apply Z.eqb_eq in Eb. simpl in Eb. subst b. eapply (Hdis (irq (n - 32))).
      - apply list_elem_of_fmap. exists (irq (n - 32), m). split; [done | by apply list_elem_of_In].
      - apply list_elem_of_fmap. by exists (irq (n - 32), 32 + (n - 32)). }
    rewrite (find_first _ _ _ Hnd2 Hin). replace (32 + (n - 32)) with n by lia.
    unfold irq_handler, arch_clear_interrupt, cpu_outb. rewrite (proj2 (Z.eqb_neq n 0x80)) by lia.
    destruct (40 <=? n); cbn; unfold bind, get, deref, modify, ret, assert; cbn; rewrite Hh, (proj2 (Z.eqb_neq _ _) H0); cbn;
      unfold call_isr, modify; cbn; unfold setf; cbn; by rewrite <- ?app_assoc.
  - assert (Hin : (isr n, n) ∈ isr_stubs isr).
    { unfold isr_stubs. apply list_elem_of_fmap. exists n. split; [done|]. apply elem_of_app.
      rewrite elem_of_seqZ, list_elem_of_singleton. lia. }
    rewrite (find_first _ _ _ Hnd1 Hin). unfold isr_handler. rewrite (proj2 (Z.eqb_neq n 0x80)) by lia.
    unfold bind, get, deref, assert, ret. cbn. rewrite Hh, (proj2 (Z.eqb_neq _ _) H0). cbn. unfold call_isr, modify, setf. cbn.
    by rewrite app_nil_r.
Qed.

(** The segments: code and data of the kernel and of programs, all of memory. *)
Definition segments : list gdt_entry_t :=
  [gdt_gate 0 0 0 0; gdt_gate 0 0xFFFFFFFF 0x9A 0xCF; gdt_gate 0 0xFFFFFFFF 0x92 0xCF; gdt_gate 0 0xFFFFFFFF 0xFA 0xCF;
   gdt_gate 0 0xFFFFFFFF 0xF2 0xCF; gdt_gate tss_addr (u32 (tss_addr + sizeof_tss_entry)) 0xE9 0].

Lemma init_gdt_ok s : length (gdt_entries s) = 6%nat -> exists s',
  init_gdt gdt_addr tss_addr s = Ret tt s' /\ gdt_entries s' = segments /\ isr_table s' = isr_table s /\ ports s' = ports s /\
  called s' = called s.
Proof.
  destruct s as [g gp i ip t tb po pg pi pt ca]. cbn. intros Hg. do 6 (destruct g as [|? g]; [done|]). destruct g; [|done].
  eexists. split; [reflexivity|]. by cbn.
Qed.

Lemma outbs_ok l : forall s, outbs l s = Ret tt (s <| ports := ports s ++ l |>).
Proof.
  induction l as [|[p v] l IH]; intros s; cbn [outbs].
  - rewrite app_nil_r. by destruct s.
  - unfold cpu_outb. rewrite bind_modify, IH. cbn. unfold setf. cbn. by rewrite <- app_assoc.
Qed.

Lemma cpu_init_ok s : length (gdt_entries s) = 6%nat -> exists s', cpu_init s = Ret tt s' /\ gdt_entries s' = segments /\
  isr_table s' = isr_table s /\ p_idt s' = Some (2047, idt_addr) /\ length (idt_entries s') = 256%nat /\
  (forall n, 0 <= n <= 48 -> idt_entries s' !! Z.to_nat n = Some (idt_gate (stub n) 0x08 0x8E)) /\
  (forall n, 49 <= n < 256 -> idt_entries s' !! Z.to_nat n = Some (mkIdt 0 0 0 0 0)).
Proof.
  intros Hg. destruct (init_gdt_ok s Hg) as (s1 & E1 & G1 & T1 & _). unfold Cpu.cpu_init. rewrite (bind_Ret _ _ _ _ _ E1).
  unfold init_idt. rewrite bind_modify. rewrite (bind_Ret _ _ _ _ _ (outbs_ok _ _)).
  assert (Hr : Forall (fun x : Z * Z => 0 <= x.1 < 256) (vectors isr irq)).
  { apply Forall_forall. intros x Hx. assert (x.1 ∈ seqZ 0 49) as Hs%elem_of_seqZ; [|lia].
    rewrite <- vectors_numbers. apply list_elem_of_fmap. by exists x. }
  erewrite bind_Ret; [|apply set_gates_ok; exact Hr]. eexists. split; [reflexivity|]. cbn [gdt_entries isr_table p_idt idt_entries setf].
  split_and!; [exact G1 | exact T1 | reflexivity | | |].
  - cbn. by rewrite fill_gates_length.
  - intros n Hn. cbn. apply fill_gates_lookup; [rewrite vectors_numbers; apply NoDup_seqZ | exact Hr | by apply vectors_stub].
  - intros n Hn. cbn -[replicate]. rewrite fill_gates_keep.
    + apply lookup_replicate_2. lia.
    + intros Hm. apply list_elem_of_fmap in Hm as (x & Hx & Hxv). assert (x.1 ∈ seqZ 0 49) as Hs%elem_of_seqZ; [|simpl in Hx; lia].
      rewrite <- vectors_numbers. apply list_elem_of_fmap. by exists x.
Qed.

(** C13: After [cpu_init], an interrupt with one of the vectors 0 to 48 calls the
    function that was registered for it, once, and acknowledges those of the
    interrupt controller; every vector can also be raised by an instruction at
    any privilege level.  The vectors above 48 fault. *)
Theorem interrupts_reach s : length (gdt_entries s) = 6%nat -> length (isr_table s) = 256%nat -> stubs_apart ->
  exists s1, cpu_init s = Ret tt s1 /\
    (forall n h by_program, 0 <= n <= 48 -> h <> 0 -> (forall cpl, by_program = Some cpl -> cpl <= 3) ->
       exists s2, (register_isr n h;;; interrupt by_program n) s1 = Ret tt s2 /\
         called s2 = called s1 ++ [(h, n)] /\ ports s2 = ports s1 ++ eoi n) /\
    (forall n by_program, 49 <= n < 256 -> exists s2, interrupt by_program n s1 = Faults s2).
Proof.
  intros Hg Ht Hst. destruct (cpu_init_ok s Hg) as (s1 & E & G1 & T1 & P1 & L1 & V1 & V2). exists s1. split; [exact E|]. split.
  - intros n h bp Hn Hh Hbp. set (s2 := s1 <| isr_table := <[Z.to_nat n := h]> (isr_table s1) |>).
    assert (Er : register_isr n h s1 = Ret tt s2).
    { unfold register_isr. rewrite bind_get, store_at_ok by (rewrite T1, Ht; lia). reflexivity. }
    rewrite (bind_Ret _ _ _ _ _ Er). eexists. split.
    { unfold Cpu.interrupt. rewrite bind_get. change (p_idt s2) with (p_idt s1). change (idt_entries s2) with (idt_entries s1).
      change (gdt_entries s2) with (gdt_entries s1). rewrite P1, G1, (V1 n Hn). rewrite !run_deref.
      change (segments !! _) with (Some (gdt_gate 0 0xFFFFFFFF 0x9A 0xCF)). rewrite run_deref.
      change (gate_present _) with true. change (gate_dpl _) with 3.
      replace (match bp with Some cpl => cpl <=? 3 | None => true end) with true
        by (destruct bp as [cpl|]; [symmetry; apply Z.leb_le; by apply Hbp | done]). cbn [andb].
      destruct (gdt_gate_reads 0 0xFFFFFFFF 0x9A 0xCF) as (-> & _); [lia | lia |].
      assert (Hrange : 0 <= stub n < 2 ^ 32) by (unfold stub; destruct Hst as [S1 S2 _]; destruct (_ && _); auto).
      rewrite idt_gate_reads by done. rewrite u32_small by lia. apply enter_ok; [done | done | | done].
      unfold s2. cbn. apply list_lookup_insert_eq. rewrite T1, Ht. lia. }
    done.
  - intros n bp Hn. exists s1. unfold Cpu.interrupt. rewrite bind_get, P1, (V2 n Hn), G1. reflexivity.
Qed.
End Reach.

(** ** An example *)

Module CpuExample.
Definition isr (n : Z) : Z := 0x100000 + 16 * (n mod 256).
Definition irq (n : Z) : Z := 0x102000 + 16 * (n mod 256).
Definition off : cpu :=
  mkCpu (replicate 6 (mkGdt 0 0 0 0 0 0)) (0, 0) [] (0, 0) (mkTss 0 0 0 0 0 0 0 0) (replicate 256 0) [] None None None [].

Lemma apart : stubs_apart isr irq.
Proof.
  split; [| |by apply (bool_decide_unpack _)]; intros n; pose proof (Z.mod_pos_bound n 256); unfold isr, irq; lia.
Qed.

(** The timer, which a program can raise as well. *)
Example interrupts_reach_witness : exists s1, cpu_init 0x5000 0x6000 0x105000 isr irq off = Ret tt s1 /\
  exists s2, (register_isr 32 0x200000;;; interrupt isr irq (Some 3) 32) s1 = Ret tt s2 /\
    called s2 = called s1 ++ [(0x200000, 32)] /\ ports s2 = ports s1 ++ [(0x20, 0x20)].
Proof.
  destruct (interrupts_reach 0x5000 0x6000 0x105000 isr irq off) as (s1 & H1 & H2 & _); [done | done | exact apart |].
  exists s1. split; [exact H1|]. exact (H2 32 0x200000 (Some 3) ltac:(lia) ltac:(lia) ltac:(intros cpl [= <-]; lia)).
Defined.

(** The limit of the task state segment is taken from the address behind it. *)
Example tss_limit : seg_limit (gdt_gate 0x105000 (u32 (0x105000 + sizeof_tss_entry)) 0xE9 0) = 0x5068.
Proof. vm_compute. reflexivity. Qed.
End CpuExample.
