(* ===== verification/Shell.v ===== *)
(** * Shell: the command line of the shell

    Model of [readline] of utils/main.c and of utils/args.c: a line is typed,
    with corrections, and taken apart into words.  Memory is a list of bytes;
    [None] is an access outside of it, and [readline] without a complete line
    waits ([Blocks]). *)

From S2P Require Import Prelude CString.

(** ** Operations *)

Definition SPACE := 32.
Definition BACKSPACE := 8.

(** The characters to come, [linebuf] and what was echoed. *)
Record terminal := mkTerminal { typed : list Z; linebuf : list Z; echo : list Z }.
#[export] Instance eta_terminal : Eta terminal := fun s => mkTerminal (typed s) (linebuf s) (echo s).

Definition echoed (c : Z) (s : terminal) : terminal := s <| echo := echo s ++ [c] |>.
Definition put_line (l : list Z) (s : terminal) : terminal := s <| linebuf := l |>.
Definition putchar (c : Z) : M terminal unit := modify (echoed c).

(** [linebuf[i] = c] *)
Definition set_char (i : nat) (c : Z) : M terminal unit :=
  s <- get;; if (i <? length (linebuf s))%nat then modify (put_line (<[i := c]> (linebuf s))) else fault.

(** The loop takes one character per round from the input [input]. *)
Fixpoint readline_loop (input : list Z) (i : nat) : M terminal unit :=
  match input with
  | [] => modify (fun s => s <| typed := [] |>);;; block
  | c :: input =>
      if c =? 0 then readline_loop input i
      else if c =? BACKSPACE then
        if (i =? 0)%nat then readline_loop input i else putchar c;;; readline_loop input (i - 1)
      else if (c =? 10) || (c =? 13) then
        putchar 10;;; set_char i 0;;; modify (fun s => s <| typed := input |>)
      else putchar c;;; set_char i c;;; readline_loop input (S i)
  end.

Definition readline : M terminal (list Z) := s <- get;; readline_loop (typed s) 0;;; s <- get;; ret (linebuf s).

(** [argc] *)
Fixpoint argc_loop (l : list Z) (i : nat) : option nat :=
  match l with
  | [] => None
  | c :: l => if c =? 0 then Some i else argc_loop l (if c =? SPACE then S i else i)
  end.
Definition argc (line : list Z) : option nat := argc_loop line 1.

(** The inner loop of [argv]: the characters that are passed, and the
    memory from the one that stops the loop. *)
Fixpoint pass_word (b : list Z) : option (list Z * list Z) :=
  match b with
  | [] => None
  | c :: b' => if (c =? 0) || (c =? SPACE) then Some ([], b) else match pass_word b' with Some (w, r) => Some (c :: w, r) | None => None end
  end.

(** The loop of [argv]: the word from [bb] to [b]. *)
Fixpoint find_word (fuel : nat) (bb : list Z) (i index : nat) : option (list Z) :=
  match fuel with
  | O => None
  | S fuel =>
      match pass_word bb with
      | Some (w, b) => if (index <=? i)%nat || (hd 0 b =? 0) then Some w else find_word fuel (tail b) (S i) index
      | None => None
      end
  end.

(** [argv(line, index, buf)]: the new contents of [buf]. *)
Definition argv (line : list Z) (index : nat) (buf : list Z) : option (list Z) :=
  w ← find_word (length line) line 0 index;
  if (length w <? length buf)%nat then Some (w ++ 0 :: drop (S (length w)) buf) else None.

(** ** Words *)

(** The line with [words], one space between them. *)
Fixpoint join_words (words : list (list Z)) : list Z :=
  match words with
  | [] => []
  | [w] => w
  | w :: ws => w ++ SPACE :: join_words ws
  end.

Definition word_ok (w : list Z) : Prop := Forall (fun c => c <> 0 /\ c <> SPACE) w.

Lemma pass_word_ok w r : word_ok w -> hd 0 r = 0 \/ hd 0 r = SPACE -> r <> [] -> pass_word (w ++ r) = Some (w, r).
Proof.
  intros Hw Hr Hne. induction w as [|c w IH]; simpl.
  - destruct r as [|c r]; [done|]. simpl in *. destruct Hr as [-> | ->]; done.
  - apply Forall_cons in Hw as [[H0 Hs] Hw]. rewrite (proj2 (Z.eqb_neq _ _) H0), (proj2 (Z.eqb_neq _ _) Hs). simpl.
    by rewrite IH.
Qed.

Lemma argc_word w r i : word_ok w -> argc_loop (w ++ r) i = argc_loop r i.
Proof.
  induction 1 as [|c w [H0 Hs] _ IH]; [done|]. simpl. by rewrite (proj2 (Z.eqb_neq _ _) H0), (proj2 (Z.eqb_neq _ _) Hs).
Qed.

Lemma argc_words w ws rest : forall i, Forall word_ok (w :: ws) ->
  argc_loop (cstr (join_words (w :: ws)) rest) i = Some (i + length ws)%nat.
Proof.
  revert w. induction ws as [|w' ws IH]; intros w i [Hw Hws]%Forall_cons; unfold cstr in *.
  - cbn [join_words]. rewrite argc_word by done. simpl. f_equal. lia.
  - change (join_words (w :: w' :: ws)) with (w ++ SPACE :: join_words (w' :: ws)). rewrite <- app_assoc, argc_word by done. cbn [app argc_loop]. change (SPACE =? 0) with false.
    change (SPACE =? SPACE) with true. cbv iota. rewrite (IH w' (S i)) by done. f_equal. simpl. lia.
Qed.

Lemma find_words w ws rest : forall fuel i index x, Forall word_ok (w :: ws) ->
  (length ws < fuel)%nat -> (i <= index)%nat -> (w :: ws) !! (index - i)%nat = Some x ->
  find_word fuel (cstr (join_words (w :: ws)) rest) i index = Some x.
Proof.
  revert w. induction ws as [|w' ws IH]; intros w fuel i index x [Hw Hws]%Forall_cons Hf Hi Hx; (destruct fuel as [|fuel]; [lia|]);
    cbn [find_word]; unfold cstr in *.
  - change (join_words [w]) with w. rewrite pass_word_ok by (done || by left). cbn [hd].
    destruct (index - i)%nat eqn:E; [|done]. injection Hx as ->. rewrite orb_true_r. done.
  - change (join_words (w :: w' :: ws)) with (w ++ SPACE :: join_words (w' :: ws)).
    rewrite <- app_assoc. rewrite pass_word_ok by (done || by right). cbn [hd app tail].
    change (SPACE =? 0) with false. rewrite orb_false_r. destruct (Nat.leb_spec index i).
    + replace (index - i)%nat with 0%nat in Hx by lia. by injection Hx as ->.
    + apply IH; [done | simpl in Hf; lia | lia |]. replace (index - i)%nat with (S (index - S i)) in Hx by lia. done.
Qed.

(** ** The line *)

(** What is left of the characters after corrections; the last one first. *)
Fixpoint edit (input line : list Z) : list Z :=
  match input with
  | [] => reverse line
  | c :: input => if c =? 0 then edit input line else if c =? BACKSPACE then edit input (tail line) else edit input (c :: line)
  end.

(** No line ending among the characters, and room for them at any time. *)
Fixpoint typable (room : nat) (input line : list Z) : Prop :=
  match input with
  | [] => (length line < room)%nat
  | c :: input =>
      c <> 10 /\ c <> 13 /\
      if c =? 0 then typable room input line else if c =? BACKSPACE then typable room input (tail line)
      else (length line < room)%nat /\ typable room input (c :: line)
  end.

Lemma readline_loop_ok more : forall input line i s, typable (length (linebuf s)) input line -> i = length line ->
  take i (linebuf s) = reverse line -> exists s', readline_loop (input ++ 10 :: more) i s = Ret tt s' /\
    typed s' = more /\ length (linebuf s') = length (linebuf s) /\ exists rest, linebuf s' = cstr (edit input line) rest.
Proof.
  induction input as [|c input IH]; intros line i s Ht Hi Hl; cbn [app readline_loop edit typable] in *.
  - change (10 =? 0) with false. change (10 =? BACKSPACE) with false. change ((10 =? 10) || (10 =? 13)) with true. cbv iota.
    unfold putchar. rewrite bind_modify. unfold set_char. rewrite bind_assoc, bind_get. change (linebuf (echoed 10 s)) with (linebuf s). rewrite (proj2 (Nat.ltb_lt _ _)) by lia. rewrite bind_modify.
    eexists. split; [reflexivity|]. cbn. rewrite length_insert. split_and!; [done | done |].
    exists (drop (S i) (linebuf s)). unfold cstr. rewrite <- Hl. rewrite insert_take_drop by lia. done.
  - destruct Ht as (H10 & H13 & Ht). destruct (Z.eqb_spec c 0) as [->|H0]; [by apply IH|].
    destruct (Z.eqb_spec c BACKSPACE) as [->|Hb].
    + destruct line as [|x line]; simpl in Hi; subst i; cbn [Nat.eqb].
      * by apply IH.
      * unfold putchar. rewrite bind_modify. replace (S (length line) - 1)%nat with (length line) by lia.
        destruct (IH line (length line) (echoed BACKSPACE s) Ht eq_refl) as (s' & E & T & L & R); [|exists s'; split_and!; [exact E | exact T | exact L | exact R]].
        cbn. rewrite reverse_cons in Hl.
        apply (f_equal (take (length line))) in Hl. rewrite take_take in Hl. replace (length line `min` S (length line))%nat with (length line) in Hl by lia.
        rewrite Hl. rewrite <- (length_reverse line). by rewrite take_app_length.
    + rewrite (proj2 (Z.eqb_neq _ _) H10), (proj2 (Z.eqb_neq _ _) H13). cbn [orb]. destruct Ht as [Hroom Ht].
      unfold putchar. rewrite bind_modify. unfold set_char. rewrite bind_assoc, bind_get.
      change (linebuf (echoed c s)) with (linebuf s). rewrite (proj2 (Nat.ltb_lt _ _)) by lia. rewrite bind_modify.
      destruct (IH (c :: line) (S i) (put_line (<[i := c]> (linebuf s)) (echoed c s))) as (s' & E & T & L & R).
      * cbn. by rewrite length_insert.
      * simpl. lia.
      * rewrite reverse_cons, <- Hl. change (linebuf (put_line ?l _)) with l.
        rewrite (take_S_r _ i c) by (apply list_lookup_insert_eq; lia). by rewrite take_insert_ge by lia.
      * exists s'. split; [exact E|]. cbn in L. rewrite length_insert in L. by split_and!.
Qed.

(** When the keys that are typed, with corrections, make a line of words with
    one space between them, [readline] gives that line, [argc] the number of
    its words, and [argv] each of them. *)
Theorem words_typed keys more s w ws :
  typed s = keys ++ 10 :: more -> typable (length (linebuf s)) keys [] -> edit keys [] = join_words (w :: ws) ->
  Forall word_ok (w :: ws) ->
  exists line s', readline s = Ret line s' /\ typed s' = more /\ argc line = Some (S (length ws)) /\
    forall i x buf, (w :: ws) !! i = Some x -> (length x < length buf)%nat ->
      argv line i buf = Some (cstr x (drop (S (length x)) buf)).
Proof.
  intros Hty Hroom Hed Hok. unfold readline. rewrite bind_get, Hty.
  destruct (readline_loop_ok more keys [] 0 s Hroom eq_refl eq_refl) as (s' & E & T & L & rest & R). rewrite Hed in R.
  rewrite (bind_Ret _ _ _ _ _ E), bind_get. eexists _, s'. split; [reflexivity|]. split; [done|]. rewrite R. split.
  - unfold argc. by rewrite argc_words.
  - intros i x buf Hx Hb. unfold argv. rewrite (find_words w ws rest _ 0 i x); [|done| |lia|by rewrite Nat.sub_0_r].
    + cbn [mbind option_bind]. by rewrite (proj2 (Nat.ltb_lt _ _) Hb).
    + clear. unfold cstr. rewrite length_app. simpl. revert w. induction ws as [|w' ws IH]; intros w; [simpl; lia|].
      change (join_words (w :: w' :: ws)) with (w ++ SPACE :: join_words (w' :: ws)). rewrite length_app. simpl. specialize (IH w'). lia.
Qed.

Definition keys : list Z := str "lx" ++ [BACKSPACE] ++ str "s /dev".
Definition typing : terminal := mkTerminal (keys ++ [10]) (replicate 256 0) [].

Example words_typed_witness : exists line s', readline typing = Ret line s' /\ argc line = Some 2%nat /\
  argv line 0 (replicate 50 0) = Some (cstr (str "ls") (replicate 47 0)) /\
  argv line 1 (replicate 50 0) = Some (cstr (str "/dev") (replicate 45 0)).
Proof.
  destruct (words_typed keys [] typing (str "ls") [str "/dev"]) as (line & s' & H1 & _ & H2 & H3).
  - reflexivity.
  - vm_compute. repeat split; try discriminate; lia.
  - vm_compute. reflexivity.
  - repeat constructor; vm_compute; discriminate.
  - exists line, s'. split_and!; [exact H1 | exact H2 | |].
    + rewrite (H3 0%nat (str "ls")) by (done || (vm_compute; lia)). reflexivity.
    + rewrite (H3 1%nat (str "/dev")) by (done || (vm_compute; lia)). reflexivity.
Defined.

(** Two spaces make an empty word. *)
Example empty_word : argc (str "ls  x" ++ [0]) = Some 3%nat /\ argv (str "ls  x" ++ [0]) 1 [7; 7] = Some [0; 7].
Proof. vm_compute. done. Qed.
